(* ===== verification/_CoqProject ===== *)
-Q . S2P
Prelude.v
PyFloat.v
IntFloat.v
PyValue.v
PyText.v
Program.v
KVStore.v
CatalogKV.v
PyUrl.v
BenchConfig.v
BenchEnv.v
SharedStore.v
RunControl.v
Parallel.v
BenchJob.v
HttpApi.v
NatsEvents.v
NatsConsumer.v
KubeJobs.v
Saturation.v
Reporting.v
FaultReport.v
ClusterMetrics.v
OrderObserver.v
FaultTolerance.v
Sse.v
EmailWorker.v
Runtime.v
Storefront.v
Settlement.v
CheckoutReports.v
CheckoutStreams.v
CheckoutEnds.v
LoadDriver.v
LoadSchedules.v
LoadLadder.v
LoadRuns.v
Collector.v
NatsReport.v
RunReport.v
NatsWire.v
NatsClient.v
Gather.v
LatencyStats.v
DirectionRun.v
DirectionVerdict.v
SuperclusterMain.v
ResultValues.v
SaturationResults.v
ResultAverages.v
ClosedResults.v
FaultResults.v
ResultCharts.v
ResultReports.v
