(* ===== verification/Prelude.v ===== *)
(** * Online Boutique on NATS: a verification of its Python services

    The repository moves the Online Boutique demo onto NATS JetStream.  Its
    Python code is five programs: the event workers of the recommendation and
    e-mail services, the benchmark controller with the Jobs it submits, the
    load generator each Job runs, the fault injector, and the benchmark of two
    connected clusters.  This development translates them from
    src/src/recommendationservice, src/src/emailservice,
    src/src/benchmarkservice and src/benchmark/supercluster and proves what
    makes them correct.

    ** How the parts interact

    A controller (app.py, control.py) keeps one record per run and one lease
    in a JetStream bucket (shared_store.py) and submits a Kubernetes Job
    (kubernetes_jobs.py).  The Job (job.py) renews the lease, runs the load
    generator (locustfile.py, runtime.py, sse.py), coordinates the workers of
    a run through objects of the store (parallel.py, saturation.py) and
    finishes the record.  Controllers and Jobs race on the records: every
    write is a compare-and-set in a loop.  The users of the load generator
    place orders, follow the server's event stream of each order, and record
    what they saw; a sampler observes the cluster (cluster_metrics.py,
    nats_order_observer.py); the merged logs become the report of the run
    (reporting.py).  The recommendation replicas race on the catalog bucket
    (catalog_kv.py).  The e-mail worker (nats_worker.py) settles batches of
    messages in parallel tasks.

    ** Files

    Language and environment:
    - Prelude.v: exceptions, fallible computations ([res]), association
      lists, strings.
    - PyFloat.v: [float] as IEEE binary64, with [repr], [round], [int].
    - IntFloat.v: integers below 2^53 as floats are exact.
    - PyValue.v: dynamic values, dictionaries, conversions, [json.dumps].
    - PyText.v: code points, strict UTF-8, base64.  PyUrl.v: [urlsplit].
    - Program.v: effectful code as programs over operations.  [run] executes
      one alone; [step] interleaves several, one operation at a time, which is
      how replicas, tasks and pods interleave; [safe], [hoare] and [each_safe]
      are the judgements the theorems are proved with.
    - KVStore.v: the bucket as a typeclass of operations with its documented
      laws, and an instance that satisfies them.

    Recommendation service (src/src/recommendationservice):
    - CatalogKV.v: catalog_kv.py.  One replica: every branch of
      [apply_product], as a refinement of an abstract catalog.  Any number of
      replicas: no event is lost, whatever the interleaving; the order of
      deliveries does not matter.  The race on the index is a finding.
    - NatsEvents.v: the handlers and batch filters of nats_events.py.
    - NatsConsumer.v: its pull consumer as a transition system: the bounds on
      its queue and workers, every message settled, and its drain ends.

    E-mail service (src/src/emailservice):
    - EmailWorker.v: nats_worker.py.  A confirmation is published before its
      message is acknowledged; a batch is settled exactly once by its tasks;
      the connection supervisor outlives failures and holds one connection.

    Benchmark service (src/src/benchmarkservice):
    - BenchConfig.v: config.py.  Bounds of a validated configuration, the
      round trip through its stored form, the shares of the workers.
    - BenchEnv.v: the world controllers and Jobs share: the bucket, the object
      store, clocks, Kubernetes, faults of requests and of replies.
    - SharedStore.v: shared_store.py.  The retry loop ends, and a retried
      create or update takes effect at most once.
    - RunControl.v: control.py.  Starting, stopping, reconciling, archives.
    - BenchJob.v: job.py.  The invariants of the shared bucket under any
      interleaving of controllers and Jobs: one lease, identities preserved.
    - HttpApi.v: app.py.  Every request is answered, and by which status.
    - KubeJobs.v: kubernetes_jobs.py, against any API server with the
      documented behaviour ([JobAPILaws]).
    - Parallel.v: parallel.py.  The merge of the recorded logs.
    - Runtime.v: runtime.py.  Phases, the recorder, the sampler; what the
      workers record is what the merged log counts.
    - Storefront.v: locustfile.py up to the outcome of a checkout, with
      timing.py and session_cookie.py: visits, the cart, the submission of an
      order, its event stream and its reconnections.
    - Settlement.v: locustfile.py from the outcome of a checkout to its
      settlement, and the checkout as a whole.
    - CheckoutReports.v: what a checkout reports, against any server, stream
      and clock; and, for workers that interleave any number of checkouts, the
      exact count of the outstanding orders of a run.
    - CheckoutStreams.v: every stream a checkout opens is closed.
    - CheckoutEnds.v: every checkout returns; concrete checkouts.
    - LoadDriver.v: locustfile.py's drivers: the open-loop schedule, the
      saturation ladder, the closed-loop tasks, the listeners of the test.
    - LoadSchedules.v, LoadLadder.v, LoadRuns.v: what the drivers dispatch and
      when, that the workers of a run share each window exactly, and that a
      ladder runs once and always ends the run; concrete runs.
    - ClusterMetrics.v: cluster_metrics.py.  The Prometheus text format, the
      kubelet samples and their cache, Raft groups, the workflow observer.
    - OrderObserver.v: nats_order_observer.py and its bridge process.  The
      counts that reach the report are those of the events published.
    - Reporting.v: reporting.py.  Percentiles, orders, outstanding counts and
      the capacity verdict, which do not depend on the order of the records.
    - FaultReport.v: reporting.py.  The recovery of each fault window.
    - NatsReport.v: reporting.py.  The tables of Raft groups, consumers,
      streams, servers and micro services.
    - RunReport.v: reporting.py.  The report of a run: its staged reduction
      computes the reference, a run it calls sustainable was, the rate it
      reports is the one before saturation, and its tables are complete.
    - Collector.v: cluster_metrics.py and metrics_server.py.  The collection
      from every source, the cached snapshot and its authorization.
    - Saturation.v: saturation.py.  The evaluation of a rung, and the agreement
      of the workers on its decision.
    - Sse.v: sse.py.  What the server streams is what the generator observes.
    - FaultTolerance.v: fault_tolerance.py.  However the run ends, the cluster
      is left as it was found ([ClusterLaws] is what kubectl does to it).

    Supercluster benchmark (src/benchmark/supercluster/supercluster_benchmark.py):
    - NatsWire.v: the parser of the NATS wire.  The client reads the frames
      the server wrote, whatever bytes they hold.
    - NatsClient.v: the connection, its flushes, requests, reader and
      reconnections as tasks of one loop.  A callback is called no more often
      than its subscription allows; the server always sends what the client
      waits for.
    - Gather.v: [asyncio.gather], with the judgements of Program.v over it.
    - LatencyStats.v: percentiles, the exact median and deviation, metrics.
    - DirectionRun.v: [DirectionRun]: records, callbacks, publications, the
      outage, the verdict, the clean-up.
    - DirectionVerdict.v: a direction that passes measured what it says;
      every delivery is accounted for; the clean-up misses nothing.
    - SuperclusterMain.v: the inventory, the documents and [async_main]: what
      was opened is closed, and the exit status is the published verdict.

    ** Loops, fuel and bounds

    Loops with a bound in the code (compare-and-set attempts, retries of an
    HTTP request) recurse on that bound.  Polling loops take fuel, and the
    theorems about their results either hold for every amount of it or state
    how much is enough: [retries_terminate] gives the number of attempts a
    deadline allows, [order_stream_delivers] the number of lines,
    [checkout_ends] the readings of the clock before the run is over,
    [open_schedule_exact] and [ladder_ends] the instants and the rungs of a
    schedule, and [supervisor_spec] holds for every number of reconnections, the state
    between two of them included; the polls of DirectionRun.v end at their
    deadline or when the fuel, the changes the deadline leaves time for, is over.  Queues and buckets are unbounded where the
    code's are; Python integers are unbounded; floats are binary64.

    ** Parameters

    Code outside the repository is an argument of the model: the NATS client
    and server, the Kubernetes API, kubectl, [json.loads] of a body, protobuf
    decoding, SHA-256, [datetime] conversions, the address syntax of bracketed
    hosts.  Hypotheses about them state documented behaviour, and a witness
    instantiates each of them.

    ** Not modelled

    parse_results.py (tables and plots of archives), standalone.py, the text
    of CSV and JSON files (they are rows of values), the gRPC servers
    (start-up and tracing), the subprocesses of supercluster_benchmark.py,
    generated code, the repository scripts, and the services written in other
    languages. *)

From stdpp Require Export prelude gmap strings pretty sorting.

#[export] Set Default Goal Selector "!".

(** ** Exceptions and fallible computations

    The exception classes the modelled code raises or catches.  The builtin
    classes carry their message; a domain class carries what the code passes
    to it. *)
Inductive exn :=
  | ValueError (msg : string)
  | TypeError (msg : string)
  | KeyError (key : string)
  | IndexError (msg : string)
  | RuntimeError (msg : string)
  | TimeoutError (msg : string)
  | InterruptedError (msg : string)
  | OverflowError (msg : string)
  | ZeroDivisionError (msg : string)
  | ConfigError (msg : string)
  | BenchmarkError (msg : string)
  | ResultError (msg : string)
  | OSError (msg : string)
  | JSONDecodeError (msg : string)
  | SSEProtocolError (msg : string)
  | CatalogNotFound (key : string)
  | CatalogConflict (msg : string)
  | CatalogNotReady (msg : string)
  | RecordNotFound (key : string)
  | RevisionConflict (key : string)
  | RunConflict (msg : string)
  | RunNotFound (key : string)
  | JobNotFound (key : string)
  | BusinessFailure (outcome detail : string)
  | SSEDeadlineReached
  | StopIteration
  | StopUser
  | GreenletExit
  | GeventTimeout (msg : string)
  | NatsError (cls : string) (code : option Z) (msg : string)
  | OtherError (msg : string).

#[export] Instance exn_eq_dec : EqDecision exn.
Proof. solve_decision. Defined.

(** [type(error).__name__], [getattr(error, "code", None)] and [str(error)]. *)
Definition exn_class (e : exn) : string :=
  match e with
  | ValueError _ => "ValueError" | TypeError _ => "TypeError" | KeyError _ => "KeyError"
  | IndexError _ => "IndexError" | RuntimeError _ => "RuntimeError"
  | TimeoutError _ => "TimeoutError" | InterruptedError _ => "InterruptedError"
  | OverflowError _ => "OverflowError" | ZeroDivisionError _ => "ZeroDivisionError"
  | BenchmarkError _ => "BenchmarkError" | ResultError _ => "ResultError" | OSError _ => "OSError"
  | ConfigError _ => "ConfigError" | JSONDecodeError _ => "JSONDecodeError"
  | SSEProtocolError _ => "SSEProtocolError"
  | CatalogNotFound _ => "CatalogNotFound" | CatalogConflict _ => "CatalogConflict"
  | CatalogNotReady _ => "CatalogNotReady" | RecordNotFound _ => "RecordNotFound"
  | RevisionConflict _ => "RevisionConflict" | RunConflict _ => "RunConflict"
  | RunNotFound _ => "RunNotFound" | JobNotFound _ => "JobNotFound"
  | BusinessFailure _ _ => "BusinessFailure" | SSEDeadlineReached => "SSEDeadlineReached"
  | StopIteration => "StopIteration" | StopUser => "StopUser"
  | GreenletExit => "GreenletExit" | GeventTimeout _ => "Timeout"
  | NatsError cls _ _ => cls
  | OtherError _ => "Exception"
  end.
Definition exn_code (e : exn) : option Z :=
  match e with NatsError _ code _ => code | _ => None end.
Definition exn_str (e : exn) : string :=
  match e with
  | ValueError m | TypeError m | IndexError m | RuntimeError m | TimeoutError m
  | InterruptedError m | OverflowError m | ZeroDivisionError m | ConfigError m | JSONDecodeError m
  | BenchmarkError m | ResultError m | OSError m
  | SSEProtocolError m | CatalogNotFound m | CatalogConflict m | CatalogNotReady m
  | RevisionConflict m | RunConflict m | OtherError m | NatsError _ _ m => m
  | KeyError k | RecordNotFound k | RunNotFound k | JobNotFound k => "'" +:+ k +:+ "'"
  | BusinessFailure outcome detail =>
      outcome +:+ if String.eqb detail "" then "" else ": " +:+ detail
  | SSEDeadlineReached | StopIteration | StopUser | GreenletExit => ""
  | GeventTimeout m => m
  end.

(** The result of a Python expression: a value, or the exception it raised. *)
Inductive res (A : Type) :=
  | Ok (a : A)
  | Raise (e : exn).
Arguments Ok {A} a.
Arguments Raise {A} e.

#[export] Instance res_eq_dec {A} `{EqDecision A} : EqDecision (res A).
Proof. solve_decision. Defined.

#[export] Instance res_ret : MRet res := λ A a, Ok a.
#[export] Instance res_bind : MBind res := λ A B f m,
  match m with Ok a => f a | Raise e => Raise e end.
#[export] Instance res_fmap : FMap res := λ A B f m,
  match m with Ok a => Ok (f a) | Raise e => Raise e end.

Definition is_ok {A} (m : res A) : bool :=
  match m with Ok _ => true | Raise _ => false end.

(** [raise_if b e]: the statement [if b: raise e]. *)
Definition raise_if (b : bool) (e : exn) : res unit :=
  if b then Raise e else Ok tt.

(** [mapM] over a list, left to right, stopping at the first exception. *)
Fixpoint res_mapM {A B} (f : A → res B) (l : list A) : res (list B) :=
  match l with
  | [] => Ok []
  | a :: l => b ← f a; bs ← res_mapM f l; Ok (b :: bs)
  end.

(** ** Tactics *)

(** Split every conjunction, existential and [Ok]/[Raise] equation around. *)
Ltac res_step :=
  match goal with
  | H : Ok _ = Ok _ |- _ => injection H as H
  | H : Raise _ = Raise _ |- _ => injection H as H
  | H : Ok _ = Raise _ |- _ => discriminate H
  | H : Raise _ = Ok _ |- _ => discriminate H
  | H : raise_if ?b _ = Ok _ |- _ => unfold raise_if in H; destruct b eqn:?
  | H : context [raise_if ?b _] |- _ => unfold raise_if in H; destruct b eqn:?
  end.
Ltac res_bind_step :=
  match goal with
  | H : mbind _ ?m = Ok _ |- _ =>
      let E := fresh "E" in destruct m eqn:E; simpl in H; [|discriminate H]
  | H : mbind _ ?m = Raise _ |- _ =>
      let E := fresh "E" in destruct m eqn:E; simpl in H
  end.
Ltac res_inv := repeat (res_step || res_bind_step); simplify_eq/=.

(** Case analysis on every [if]/[match] of the goal, with equations kept. *)
Ltac split_matches :=
  repeat match goal with
  | |- context [match ?x with _ => _ end] =>
      lazymatch x with context [match _ with _ => _ end] => fail | _ => destruct x eqn:? end
  end.
Ltac split_matches_in H :=
  repeat match type of H with
  | context [match ?x with _ => _ end] =>
      lazymatch x with context [match _ with _ => _ end] => fail | _ => destruct x eqn:? end
  end.

(** Turn boolean tests into propositions. *)
Ltac bool_to_prop :=
  repeat match goal with
  | H : (_ && _) = true |- _ => apply andb_true_iff in H as [? ?]
  | H : (_ || _) = false |- _ => apply orb_false_iff in H as [? ?]
  | H : negb _ = true |- _ => apply negb_true_iff in H
  | H : negb _ = false |- _ => apply negb_false_iff in H
  | H : Z.leb _ _ = true |- _ => apply Z.leb_le in H
  | H : Z.leb _ _ = false |- _ => apply Z.leb_gt in H
  | H : Z.ltb _ _ = true |- _ => apply Z.ltb_lt in H
  | H : Z.ltb _ _ = false |- _ => apply Z.ltb_ge in H
  | H : Z.eqb _ _ = true |- _ => apply Z.eqb_eq in H
  | H : Z.eqb _ _ = false |- _ => apply Z.eqb_neq in H
  | H : bool_decide _ = true |- _ => apply bool_decide_eq_true_1 in H
  | H : bool_decide _ = false |- _ => apply bool_decide_eq_false_1 in H
  end.

Create HintDb py.

(** ** Results *)

Lemma res_bind_ok {A B} (f : A → res B) m b :
  m ≫= f = Ok b ↔ ∃ a, m = Ok a ∧ f a = Ok b.
Proof.
  split.
  - destruct m as [a|e]; simpl; [eauto|discriminate].
  - by intros (a & -> & ?).
Qed.

Lemma raise_if_ok b e : raise_if b e = Ok tt ↔ b = false.
Proof. by destruct b. Qed.

Lemma res_mapM_ok {A B} (f : A → res B) l bs :
  res_mapM f l = Ok bs ↔ Forall2 (λ a b, f a = Ok b) l bs.
Proof.
  revert bs. induction l as [|a l IH]; intros bs; simpl.
  - split; [by intros [= <-]|]. by inversion 1.
  - split.
    + intros (b & Hb & (bs' & Hbs & [= <-])%res_bind_ok)%res_bind_ok.
      constructor; [done|]. by apply IH.
    + inversion 1 as [|? b ? bs' Hb Hbs]; subst. rewrite Hb. simpl.
      by rewrite (proj2 (IH _) Hbs).
Qed.

(** ** Sums and counts over lists *)

Definition sum_Z (l : list Z) : Z := foldr Z.add 0%Z l.

Lemma sum_Z_app l1 l2 : sum_Z (l1 ++ l2) = (sum_Z l1 + sum_Z l2)%Z.
Proof. unfold sum_Z. induction l1; simpl; lia. Qed.

Lemma sum_Z_Permutation l1 l2 : l1 ≡ₚ l2 → sum_Z l1 = sum_Z l2.
Proof. unfold sum_Z. induction 1; simpl; lia. Qed.

(** ** Association lists

    Insertion-ordered maps, as Python dictionaries are: [alist_set] replaces
    the value of a key in place, or appends a new key at the end. *)
Section alist.
Context {K V : Type} `{EqDecision K}.
Implicit Types (k : K) (v : V) (l : list (K * V)).

Fixpoint alist_get k l : option V :=
  match l with
  | [] => None
  | (k', v) :: l => if decide (k = k') then Some v else alist_get k l
  end.

Fixpoint alist_set k v l : list (K * V) :=
  match l with
  | [] => [(k, v)]
  | (k', v') :: l =>
      if decide (k = k') then (k', v) :: l else (k', v') :: alist_set k v l
  end.

Fixpoint alist_del k l : list (K * V) :=
  match l with
  | [] => []
  | (k', v') :: l => if decide (k = k') then l else (k', v') :: alist_del k l
  end.

Lemma alist_get_set_eq k v l : alist_get k (alist_set k v l) = Some v.
Proof.
  induction l as [|[k' v'] l IH]; simpl.
  - by rewrite decide_True.
  - case_decide; simpl; [by rewrite decide_True|by rewrite decide_False].
Qed.

Lemma alist_get_set_ne k k' v l :
  k ≠ k' → alist_get k (alist_set k' v l) = alist_get k l.
Proof.
  intros. induction l as [|[k'' v''] l IH]; simpl.
  - by rewrite decide_False.
  - case_decide; simpl; repeat case_decide; congruence.
Qed.

Lemma alist_get_set k k' v l :
  alist_get k (alist_set k' v l) =
    if decide (k = k') then Some v else alist_get k l.
Proof.
  case_decide as Hk; [subst; apply alist_get_set_eq|by apply alist_get_set_ne].
Qed.

Lemma alist_get_Some_elem k v l : alist_get k l = Some v → (k, v) ∈ l.
Proof.
  induction l as [|[k' v'] l IH]; simpl; [done|].
  case_decide; [intros [= ->]; subst; left|right; auto].
Qed.

Lemma alist_get_None k l : alist_get k l = None ↔ k ∉ l.*1.
Proof.
  induction l as [|[k' v'] l IH]; simpl; [split; [intros _; apply not_elem_of_nil|done]|].
  rewrite not_elem_of_cons. case_decide; naive_solver.
Qed.

Lemma alist_set_keys_elem k k' v l :
  k ∈ (alist_set k' v l).*1 ↔ k = k' ∨ k ∈ l.*1.
Proof.
  induction l as [|[k'' v''] l IH]; simpl.
  - rewrite list_elem_of_singleton, elem_of_nil. naive_solver.
  - case_decide; subst; simpl; rewrite !elem_of_cons; [naive_solver|].
    rewrite IH. naive_solver.
Qed.

Lemma alist_set_NoDup k v l : NoDup l.*1 → NoDup (alist_set k v l).*1.
Proof.
  induction l as [|[k' v'] l IH]; simpl; intros Hnd; [apply NoDup_singleton|].
  apply NoDup_cons in Hnd as [Hk Hl].
  case_decide; simpl; apply NoDup_cons; split; auto.
  rewrite alist_set_keys_elem. naive_solver.
Qed.

Lemma alist_get_elem k v l : NoDup l.*1 → (k, v) ∈ l → alist_get k l = Some v.
Proof.
  induction l as [|[k' v'] l IH]; simpl; intros Hnd Hin; [by apply elem_of_nil in Hin|].
  apply NoDup_cons in Hnd as [Hk Hnd].
  apply elem_of_cons in Hin as [[= -> ->]|Hin]; [by rewrite decide_True|].
  rewrite decide_False; [auto|]. intros ->. apply Hk.
  apply list_elem_of_fmap. by exists (k', v).
Qed.
End alist.

#[export] Hint Resolve alist_set_NoDup : py.
