(* ===== verification/PyFloat.v ===== *)
(** * Python's [float]: IEEE 754 binary64, bit for bit

    Floats are the specification floats of the standard library at precision
    53 and maximal exponent 1024, so that rounding, overflow, signed zeros and
    NaN behave as in CPython and every definition evaluates.  Conversions,
    [math.ceil], [int()], [round(x, n)] and [repr] are defined on the exact
    rational value of a float. *)

From S2P Require Import Prelude.
From Corelib Require Import SpecFloat.

Declare Scope pyfloat_scope.
Delimit Scope pyfloat_scope with F.

Abbreviation pyfloat := spec_float.

#[export] Instance spec_float_eq_dec : EqDecision spec_float.
Proof. solve_decision. Defined.

Definition prec64 : Z := 53.
Definition emax64 : Z := 1024.

Definition fadd : pyfloat → pyfloat → pyfloat := SFadd prec64 emax64.
Definition fsub : pyfloat → pyfloat → pyfloat := SFsub prec64 emax64.
Definition fmul : pyfloat → pyfloat → pyfloat := SFmul prec64 emax64.
Definition fdiv : pyfloat → pyfloat → pyfloat := SFdiv prec64 emax64.

(** Comparisons: every one of them is false on a NaN. *)
Definition fltb : pyfloat → pyfloat → bool := SFltb.
Definition fleb : pyfloat → pyfloat → bool := SFleb.
Definition feqb : pyfloat → pyfloat → bool := SFeqb.

Notation "x + y" := (fadd x y) : pyfloat_scope.
Notation "x - y" := (fsub x y) : pyfloat_scope.
Notation "x * y" := (fmul x y) : pyfloat_scope.
Notation "x / y" := (fdiv x y) : pyfloat_scope.
Notation "x <? y" := (fltb x y) : pyfloat_scope.
Notation "x <=? y" := (fleb x y) : pyfloat_scope.

(** Python's [x / y]: division by either zero raises. *)
Definition f_is_zero (x : pyfloat) : bool :=
  match x with S754_zero _ => true | _ => false end.
Definition f_is_nan (x : pyfloat) : bool :=
  match x with S754_nan => true | _ => false end.
Definition f_truediv (x y : pyfloat) : res pyfloat :=
  if f_is_zero y then Raise (ZeroDivisionError "division by zero") else Ok (fdiv x y).

(** [min(a, b)] and [max(a, b)]: the first argument wins unless the second is
    strictly better. *)
Definition f_min (a b : pyfloat) : pyfloat := if fltb b a then b else a.
Definition f_max (a b : pyfloat) : pyfloat := if fltb a b then b else a.

(** ** Exact values *)

Definition cond_opp (s : bool) (z : Z) : Z := if s then (- z)%Z else z.

(** The value of a finite float as a fraction with a positive denominator. *)
Definition f_ratio (x : pyfloat) : option (Z * Z) :=
  match x with
  | S754_zero _ => Some (0, 1)%Z
  | S754_finite s m e =>
      Some (if (0 <=? e)%Z
            then (cond_opp s (Z.pos m * 2 ^ e), 1)%Z
            else (cond_opp s (Z.pos m), 2 ^ (- e))%Z)
  | _ => None
  end.

(** The binary64 nearest to [p / q], ties to even ([q > 0]). *)
Definition float_ratio (p q : Z) : pyfloat :=
  match p with
  | Z0 => S754_zero false
  | Zpos m => SFdiv prec64 emax64 (S754_finite false m 0) (S754_finite false (Z.to_pos q) 0)
  | Zneg m => SFdiv prec64 emax64 (S754_finite true m 0) (S754_finite false (Z.to_pos q) 0)
  end.

(** The literal [p * 10 ^ e]. *)
Definition float_dec (p e : Z) : pyfloat :=
  if (0 <=? e)%Z then float_ratio (p * 10 ^ e) 1 else float_ratio p (10 ^ (- e)).

(** [float(z)] for an integer. *)
Definition float_of_Z (z : Z) : res pyfloat :=
  match float_ratio z 1 with
  | S754_infinity _ => Raise (OverflowError "int too large to convert to float")
  | f => Ok f
  end.

(** [a / b] on integers is the correctly rounded quotient. *)
Definition int_truediv (a b : Z) : res pyfloat :=
  match b with
  | Z0 => Raise (ZeroDivisionError "division by zero")
  | Zpos _ => Ok (float_ratio a b)
  | Zneg _ => Ok (float_ratio (- a) (- b))
  end.

Definition nan_to_int {A} : res A := Raise (ValueError "cannot convert float NaN to integer").
Definition inf_to_int {A} : res A :=
  Raise (OverflowError "cannot convert float infinity to integer").

(** [math.ceil], [math.floor] and [int()]. *)
Definition f_to_int (round : Z → Z → Z) (x : pyfloat) : res Z :=
  match x with
  | S754_nan => nan_to_int
  | S754_infinity _ => inf_to_int
  | _ => match f_ratio x with Some (p, q) => Ok (round p q) | None => nan_to_int end
  end.
Definition f_ceil : pyfloat → res Z := f_to_int (λ p q, - ((- p) / q))%Z.
Definition f_floor : pyfloat → res Z := f_to_int (λ p q, p / q)%Z.
Definition f_trunc : pyfloat → res Z := f_to_int Z.quot.

(** Round a fraction to the nearest integer, ties to even. *)
Definition round_half_even (p q : Z) : Z :=
  let k := (p / q)%Z in
  match (2 * (p mod q) ?= q)%Z with
  | Lt => k
  | Gt => (k + 1)%Z
  | Eq => if Z.even k then k else (k + 1)%Z
  end.

Definition f_round_int : pyfloat → res Z := f_to_int round_half_even.

(** [round(x, n)] for [n >= 0]: the exact value rounded to [n] decimals, half
    to even, and back to the nearest float; the sign of a zero is kept. *)
Definition f_round (x : pyfloat) (n : nat) : pyfloat :=
  match x with
  | S754_finite s m e =>
      match f_ratio x with
      | Some (p, q) =>
          let k := round_half_even (Z.abs p * 10 ^ Z.of_nat n) q in
          match float_ratio (cond_opp s k) (10 ^ Z.of_nat n) with
          | S754_zero _ => S754_zero s
          | y => y
          end
      | None => x
      end
  | _ => x
  end.

(** ** Shortest representation *)

(** The number of decimal digits of the integer part of [p / q], minus one:
    the [d] with [10 ^ d <= p / q < 10 ^ (d + 1)]. *)
Fixpoint dec_exponent_up (fuel : nat) (p q d : Z) : Z :=
  match fuel with
  | O => d
  | S fuel => if (q * 10 <=? p)%Z then dec_exponent_up fuel p (q * 10) (d + 1) else d
  end.
Fixpoint dec_exponent_down (fuel : nat) (p q d : Z) : Z :=
  match fuel with
  | O => d
  | S fuel => if (p <? q)%Z then dec_exponent_down fuel (p * 10) q (d - 1) else d
  end.
Definition dec_exponent (p q : Z) : Z :=
  if (p <? q)%Z then dec_exponent_down 400 p q 0 else dec_exponent_up 400 p q 0.

(** Candidates with [n] digits just below and just above the value; the one
    that reads back as the float and is closest wins. *)
Definition repr_candidate (x : pyfloat) (p q d : Z) (n : nat) : option (Z * Z) :=
  let e := (d - Z.of_nat n + 1)%Z in
  let '(p', q') := if (0 <=? e)%Z then (p, q * 10 ^ e)%Z else (p * 10 ^ (- e), q)%Z in
  let lo := (p' / q')%Z in
  let near := round_half_even p' q' in
  let far := if (near =? lo)%Z then (lo + 1)%Z else lo in
  if decide (float_dec near e = x) then Some (near, e)
  else if decide (float_dec far e = x) then Some (far, e)
  else None.

Fixpoint repr_search (x : pyfloat) (p q d : Z) (n : nat) (fuel : nat) : Z * Z :=
  match fuel with
  | O => (0, 0)%Z
  | S fuel =>
      match repr_candidate x p q d n with
      | Some r => r
      | None => repr_search x p q d (S n) fuel
      end
  end.

Fixpoint strip_zeros (fuel : nat) (k e : Z) : Z * Z :=
  match fuel with
  | O => (k, e)
  | S fuel => if (k mod 10 =? 0)%Z then strip_zeros fuel (k / 10) (e + 1) else (k, e)
  end.

Definition zeros (n : Z) : string := String.concat "" (replicate (Z.to_nat n) "0").

(** [repr(x)] *)
Definition float_repr (x : pyfloat) : string :=
  match x with
  | S754_nan => "nan"
  | S754_infinity s => if s then "-inf" else "inf"
  | S754_zero s => if s then "-0.0" else "0.0"
  | S754_finite s m e =>
      let sign := if s then "-" else "" in
      let x := S754_finite false m e in
      match f_ratio x with
      | None => ""
      | Some (p, q) =>
          let '(k, e10) := repr_search x p q (dec_exponent p q) 1 17 in
          let '(k, e10) := strip_zeros 20 k e10 in
          let digits := pretty k in
          let nd := Z.of_nat (String.length digits) in
          let decpt := (nd + e10)%Z in
          sign +:+
          if ((-4 <? decpt) && (decpt <=? 16))%Z then
            if (decpt <=? 0)%Z then "0." +:+ zeros (- decpt) +:+ digits
            else if (nd <=? decpt)%Z then digits +:+ zeros (decpt - nd) +:+ ".0"
            else String.substring 0 (Z.to_nat decpt) digits +:+ "." +:+
                 String.substring (Z.to_nat decpt) (Z.to_nat (nd - decpt)) digits
          else
            let ex := (decpt - 1)%Z in
            let mant := if (nd =? 1)%Z then digits
              else String.substring 0 1 digits +:+ "." +:+ String.substring 1 (Z.to_nat (nd - 1)) digits in
            mant +:+ "e" +:+ (if (ex <? 0)%Z then "-" else "+") +:+
            (if (Z.abs ex <? 10)%Z then "0" else "") +:+ pretty (Z.abs ex)
      end
  end.

(** ** Ordering

    On the numbers the comparison is lexicographic in class, exponent and
    mantissa, which makes it a total order and reduces it to [lia]. *)
Definition f_rank (x : pyfloat) : Z * Z * Z :=
  match x with
  | S754_infinity true => (-2, 0, 0)
  | S754_finite true m e => (-1, - e, - Z.pos m)
  | S754_zero _ => (0, 0, 0)
  | S754_finite false m e => (1, e, Z.pos m)
  | S754_infinity false => (2, 0, 0)
  | S754_nan => (3, 0, 0)
  end%Z.

Definition lex_lt (a b : Z * Z * Z) : Prop :=
  let '(a1, a2, a3) := a in let '(b1, b2, b3) := b in
  (a1 < b1 ∨ (a1 = b1 ∧ (a2 < b2 ∨ (a2 = b2 ∧ a3 < b3))))%Z.

Lemma fltb_rank x y :
  fltb x y = true ↔ f_is_nan x = false ∧ f_is_nan y = false ∧ lex_lt (f_rank x) (f_rank y).
Proof.
  unfold fltb, SFltb, SFcompare, lex_lt.
  destruct x as [[]|[]| |[] m e], y as [[]|[]| |[] m' e']; simpl;
    try (split; [intros ?|intros (?&?&?)]; first [done|lia|split_and!; lia]).
  all: destruct (Z.compare_spec e e') as [->|?|?].
  all: fold (Pos.compare m m'); try destruct (Pos.compare_spec m m'); simpl; subst.
  all: split; [intros ?; split_and!; first [done|lia]|intros (?&?&?); first [done|lia]].
Qed.

Lemma fleb_rank x y :
  fleb x y = true ↔
    f_is_nan x = false ∧ f_is_nan y = false ∧ ¬ lex_lt (f_rank y) (f_rank x).
Proof.
  unfold fleb, SFleb, SFcompare, lex_lt.
  destruct x as [[]|[]| |[] m e], y as [[]|[]| |[] m' e']; simpl;
    try (split; [intros ?|intros (?&?&?)]; first [done|lia|split_and!; first [done|lia]]).
  all: destruct (Z.compare_spec e e') as [->|?|?].
  all: fold (Pos.compare m m'); try destruct (Pos.compare_spec m m'); simpl; subst.
  all: split; [intros ?; split_and!; first [done|lia]|intros (?&?&?); first [done|lia]].
Qed.

Lemma fltb_irrefl x : fltb x x = false.
Proof.
  apply not_true_iff_false. rewrite fltb_rank. intros (_ & _ & Hlt).
  destruct (f_rank x) as [[??]?]. unfold lex_lt in Hlt. lia.
Qed.

Lemma fltb_trans x y z : fltb x y = true → fltb y z = true → fltb x z = true.
Proof.
  rewrite !fltb_rank. intros (?&?&H1) (?&?&H2). split_and!; [done..|].
  destruct (f_rank x) as [[??]?], (f_rank y) as [[??]?], (f_rank z) as [[??]?].
  unfold lex_lt in *. lia.
Qed.

Lemma fleb_trans x y z : fleb x y = true → fleb y z = true → fleb x z = true.
Proof.
  rewrite !fleb_rank. intros (?&?&H1) (?&?&H2). split_and!; [done..|].
  destruct (f_rank x) as [[??]?], (f_rank y) as [[??]?], (f_rank z) as [[??]?].
  unfold lex_lt in *. lia.
Qed.

Lemma fleb_refl x : f_is_nan x = false → fleb x x = true.
Proof.
  rewrite fleb_rank. intros. split_and!; [done..|].
  destruct (f_rank x) as [[??]?]. unfold lex_lt. lia.
Qed.

(** On numbers [not (x < y)] is [y <= x]; a NaN makes both sides of a range
    check false. *)
Lemma fltb_false x y :
  f_is_nan x = false → f_is_nan y = false → fltb x y = false → fleb y x = true.
Proof. intros Hx Hy Hlt%not_true_iff_false. apply fleb_rank. rewrite fltb_rank in Hlt. tauto. Qed.

Lemma fltb_fleb x y : fltb x y = true → fleb x y = true.
Proof.
  rewrite fltb_rank, fleb_rank. intros (?&?&H1). split_and!; [done..|].
  destruct (f_rank x) as [[??]?], (f_rank y) as [[??]?]. unfold lex_lt in *. lia.
Qed.

Lemma fltb_nan_l y : fltb S754_nan y = false.
Proof. done. Qed.
Lemma fltb_nan_r x : fltb x S754_nan = false.
Proof. by destruct x as [[]|[]| |[]]. Qed.

Lemma f_min_le_l a b : f_is_nan a = false → fleb (f_min a b) a = true.
Proof.
  intros Ha. unfold f_min. destruct (fltb b a) eqn:?; [by apply fltb_fleb|by apply fleb_refl].
Qed.

Lemma fleb_fltb_trans x y z : fleb x y = true → fltb y z = true → fltb x z = true.
Proof.
  rewrite fleb_rank, !fltb_rank. intros (?&?&H1) (?&?&H2). split_and!; [done..|].
  destruct (f_rank x) as [[??]?], (f_rank y) as [[??]?], (f_rank z) as [[??]?].
  unfold lex_lt in *. lia.
Qed.
