(* ===== verification/IntFloat.v ===== *)
(** * Integers as floats

    Below 2^53 the conversion of an integer to a float, the order and the
    difference are exact.  The loops over second counts rely on it. *)

From S2P Require Import Prelude PyFloat.
From Corelib Require Import SpecFloat.

(** ** Digits and shifts *)

Definition digits (m : positive) : Z := Z.pos (digits2_pos m).

Lemma digits_spec m : (2 ^ (digits m - 1) ≤ Z.pos m < 2 ^ digits m)%Z.
Proof.
  unfold digits. induction m as [m IH|m IH|]; simpl digits2_pos; [| |done].
  all: rewrite Pos2Z.inj_succ; replace (Z.succ (Z.pos (digits2_pos m)) - 1)%Z with (Z.succ (Z.pos (digits2_pos m) - 1)) by lia.
  all: rewrite !Z.pow_succ_r by lia; lia.
Qed.
Lemma digits_pos m : (1 ≤ digits m)%Z.
Proof. unfold digits. lia. Qed.

Lemma digits_unique m d : (0 < d → 2 ^ (d - 1) ≤ Z.pos m < 2 ^ d → digits m = d)%Z.
Proof.
  intros Hd Hm. pose proof (digits_spec m). pose proof (digits_pos m).
  assert (¬ digits m < d)%Z as H1.
  { intros Hlt. assert (2 ^ digits m ≤ 2 ^ (d - 1))%Z by (apply Z.pow_le_mono_r; lia). lia. }
  assert (¬ d < digits m)%Z as H2.
  { intros Hlt. assert (2 ^ d ≤ 2 ^ (digits m - 1))%Z by (apply Z.pow_le_mono_r; lia). lia. }
  lia.
Qed.

Lemma digits_bound m d : (0 ≤ d → Z.pos m < 2 ^ d → digits m ≤ d)%Z.
Proof.
  intros Hd Hm. pose proof (digits_spec m). apply Z.nlt_ge. intros Hlt.
  assert (2 ^ d ≤ 2 ^ (digits m - 1))%Z by (apply Z.pow_le_mono_r; lia). lia.
Qed.

(** [m * 2 ^ n] for [n >= 0]. *)
Definition shl (m : positive) (n : Z) : positive :=
  match n with Z.pos k => Pos.iter xO m k | _ => m end.

Lemma shl_value m n : (0 ≤ n → Z.pos (shl m n) = Z.pos m * 2 ^ n)%Z.
Proof.
  intros Hn. destruct n as [|k|k]; [simpl; lia| |lia]. cbn [shl]. clear Hn.
  induction k as [|k IH] using Pos.peano_ind; [simpl; lia|].
  rewrite Pos.iter_succ, Pos2Z.inj_succ, Z.pow_succ_r by lia. change (Z.pos (Pos.iter xO m k)~0) with (2 * Z.pos (Pos.iter xO m k))%Z. lia.
Qed.

Lemma shl_shl m a b : (0 ≤ a → 0 ≤ b → shl (shl m a) b = shl m (a + b))%Z.
Proof.
  intros Ha Hb. apply (inj Z.pos). rewrite !shl_value by lia. rewrite Z.pow_add_r by lia. lia.
Qed.

Lemma digits_shl m n : (0 ≤ n → digits (shl m n) = digits m + n)%Z.
Proof.
  intros Hn. pose proof (digits_spec m). pose proof (digits_pos m). apply digits_unique; [lia|].
  rewrite shl_value by done. replace (digits m + n - 1)%Z with (digits m - 1 + n)%Z by lia.
  rewrite !Z.pow_add_r by lia. assert (0 < 2 ^ n)%Z by (apply Z.pow_pos_nonneg; lia). nia.
Qed.

(** ** Rounding an exact value *)

Lemma fexp_normal e : (-1074 ≤ e - 53 → fexp prec64 emax64 e = e - 53)%Z.
Proof. unfold fexp, emin, prec64, emax64. lia. Qed.

Lemma iter_pos_iter {A} (f : A → A) n x : iter_pos f n x = Pos.iter f x n.
Proof.
  revert x. induction n as [n IH|n IH|]; intros x; cbn [iter_pos Pos.iter]; rewrite ?IH; [|done..].
  by rewrite <- !Pos.iter_swap.
Qed.

Lemma shr_shl p k : iter_pos shr_1 k (Build_shr_record (Z.pos (shl p (Z.pos k))) false false) = Build_shr_record (Z.pos p) false false.
Proof.
  rewrite iter_pos_iter. cbn [shl]. induction k as [|k IH] using Pos.peano_ind; [done|].
  rewrite (Pos.iter_succ k _ xO), (Pos.iter_succ_r k _ shr_1). cbn [shr_1]. exact IH.
Qed.

Lemma shr_fexp_exact p n e :
  digits p = 53%Z → (0 ≤ n)%Z → (-1074 ≤ e)%Z →
  shr_fexp prec64 emax64 (Z.pos (shl p n)) e loc_Exact = (Build_shr_record (Z.pos p) false false, (e + n)%Z).
Proof.
  intros Hp Hn He. unfold shr_fexp. cbn [Zdigits2 shr_record_of_loc]. fold (digits (shl p n)).
  rewrite digits_shl, Hp, fexp_normal by lia. replace (53 + n + e - 53 - e)%Z with n by lia.
  destruct n as [|k|k]; [by rewrite Z.add_0_r| |lia]. cbn [shr]. by rewrite shr_shl.
Qed.

Lemma round_exact p n e :
  digits p = 53%Z → (0 ≤ n)%Z → (-1074 ≤ e)%Z → (e + n ≤ 971)%Z →
  binary_round_aux prec64 emax64 false (Z.pos (shl p n)) e loc_Exact = S754_finite false p (e + n).
Proof.
  intros Hp Hn He Hmax. unfold binary_round_aux. rewrite shr_fexp_exact by done. cbn [shr_m loc_of_shr_record round_nearest_even].
  change (Z.pos p) with (Z.pos (shl p 0)) at 1. rewrite shr_fexp_exact by (done || lia). cbn [shr_m].
  rewrite Z.add_0_r. replace (e + n <=? emax64 - prec64)%Z with true; [done|]. symmetry. apply Z.leb_le. unfold emax64, prec64. lia.
Qed.

(** ** Integers *)

(** The float of [z] for [0 <= z < 2^53]. *)
Definition int_float (z : Z) : pyfloat :=
  match z with
  | Z.pos m => S754_finite false (shl m (53 - digits m)) (digits m - 53)
  | _ => S754_zero false
  end.
Definition small (z : Z) : Prop := (0 ≤ z < 2 ^ 53)%Z.

Lemma float_dec_int z : small z → float_dec z 0 = int_float z.
Proof.
  intros [H0 Hz]. unfold float_dec. simpl (10 ^ 0)%Z. cbn [Z.leb Z.compare]. rewrite Z.mul_1_r.
  destruct z as [|m|m]; [done| |lia]. pose proof (digits_bound m 53 ltac:(lia) Hz) as Hd. pose proof (digits_pos m) as Hd'.
  unfold float_ratio, SFdiv, SFdiv_core_binary, int_float. cbn [Zdigits2 Z.to_pos digits2_pos]. fold (digits m).
  rewrite fexp_normal by lia. replace (Z.min (digits m + 0 - (1 + 0) - 53) (0 - 0))%Z with (digits m - 54)%Z by lia.
  replace (0 - 0 - (digits m - 54))%Z with (54 - digits m)%Z by lia.
  destruct (54 - digits m)%Z as [|s|s] eqn:Hs; [lia| |lia]. rewrite Z.shiftl_mul_pow2, <- Hs, <- shl_value by lia.
  rewrite (surjective_pairing (Z.div_eucl _ _)). change (Z.div_eucl ?a ?b).1 with (a / b)%Z.
  change (Z.div_eucl ?a ?b).2 with (a mod b)%Z. rewrite Z.div_1_r, Z.mod_1_r. cbn [xorb new_location].
  replace (54 - digits m)%Z with (53 - digits m + 1)%Z by lia. rewrite <- shl_shl by lia.
  change (new_location 1 0) with loc_Exact. rewrite round_exact; [f_equal; lia| |lia..].
  rewrite digits_shl by lia. lia.
Qed.

Lemma shl_align_shl m e e' : (e' ≤ e)%Z → fst (shl_align m e e') = shl m (e - e').
Proof.
  intros He. unfold shl_align. replace (e - e')%Z with (- (e' - e))%Z by lia.
  destruct (e' - e)%Z eqn:H; [done|lia|done].
Qed.

(** An exact integer, given with any number of trailing zeros, is rounded to
    its float. *)
Lemma normalize_int m n :
  (Z.pos m < 2 ^ 53)%Z → (0 ≤ n ≤ 1000)%Z → binary_normalize prec64 emax64 (Z.pos (shl m n)) (- n) false = int_float (Z.pos m).
Proof.
  intros Hm Hn. pose proof (digits_bound m 53 ltac:(lia) Hm) as Hd. pose proof (digits_pos m) as Hd'.
  unfold binary_normalize, binary_round. fold (digits (shl m n)). rewrite digits_shl, fexp_normal by lia.
  assert (digits (shl m (53 - digits m)) = 53)%Z as H53 by (rewrite digits_shl by lia; lia).
  destruct (decide (digits m + n ≤ 53)%Z) as [Hle|Hgt].
  - assert (shl_align (shl m n) (- n) (digits m + n + - n - 53) = (shl m (53 - digits m), digits m - 53)%Z) as ->.
    { rewrite (surjective_pairing (shl_align _ _ _)), shl_align_shl, shl_shl by lia. f_equal; [f_equal; lia|].
      unfold shl_align. destruct (digits m + n + - n - 53 - - n)%Z eqn:?; simpl; lia. }
    change (shl m (53 - digits m)) with (shl (shl m (53 - digits m)) 0) at 1.
    rewrite round_exact by (done || lia). unfold int_float. f_equal. lia.
  - assert (shl_align (shl m n) (- n) (digits m + n + - n - 53) = (shl (shl m (53 - digits m)) (digits m + n - 53), - n)%Z) as ->.
    { unfold shl_align. destruct (digits m + n + - n - 53 - - n)%Z eqn:?; [|f_equal|lia].
      all: rewrite shl_shl by lia; f_equal; f_equal; lia. }
    rewrite round_exact by (done || lia). unfold int_float. f_equal. lia.
Qed.

Lemma int_float_sub a b : (0 ≤ b ≤ a)%Z → (a < 2 ^ 53)%Z → fsub (int_float a) (int_float b) = int_float (a - b).
Proof.
  intros [Hb Hab] Ha. destruct b as [|b|b]; [destruct a; try done; simpl; by rewrite ?Z.sub_0_r| |lia].
  destruct a as [|a|a]; [lia| |lia].
  pose proof (digits_bound a 53 ltac:(lia) Ha) as Hda. pose proof (digits_bound b (digits a) ltac:(pose proof (digits_pos a); lia)
    ltac:(pose proof (digits_spec a); lia)) as Hdb. pose proof (digits_pos b).
  change (fsub (int_float (Z.pos a)) (int_float (Z.pos b))) with
    (fsub (S754_finite false (shl a (53 - digits a)) (digits a - 53)) (S754_finite false (shl b (53 - digits b)) (digits b - 53))).
  unfold fsub, SFsub. rewrite Z.min_r by lia. cbv zeta. rewrite !shl_align_shl, !shl_shl by lia.
  cbn [cond_Zopp]. rewrite !shl_value by lia.
  replace (53 - digits a + (digits a - 53 - (digits b - 53)))%Z with (53 - digits b)%Z by lia.
  replace (53 - digits b + (digits b - 53 - (digits b - 53)))%Z with (53 - digits b)%Z by lia.
  rewrite <- Z.mul_sub_distr_r. destruct (Z.pos a - Z.pos b)%Z as [|d|d] eqn:Hd; [done| |lia].
  rewrite <- shl_value by lia. replace (digits b - 53)%Z with (- (53 - digits b))%Z by lia. apply normalize_int; lia.
Qed.

(** The difference of two integers is exact. *)
Lemma fsub_int a b : (0 ≤ b ≤ a)%Z → (a < 2 ^ 53)%Z → fsub (float_dec a 0) (float_dec b 0) = float_dec (a - b) 0.
Proof. intros ??. rewrite !float_dec_int by (unfold small; lia). by apply int_float_sub. Qed.

(** The comparison of two integers is that of their floats. *)
Lemma fltb_int a b : small a → small b → fltb (float_dec a 0) (float_dec b 0) = (a <? b)%Z.
Proof.
  intros Ha Hb. rewrite !float_dec_int by done. unfold small in *.
  assert (∀ x, (0 ≤ x)%Z → f_is_nan (int_float x) = false) as Hnan by (by intros []).
  assert (∀ x y, (0 ≤ x < y)%Z → (y < 2 ^ 53)%Z → lex_lt (f_rank (int_float x)) (f_rank (int_float y))) as Hlt.
  { intros x y Hxy Hy. destruct y as [|y|y]; [lia| |lia]. destruct x as [|x|x]; [simpl; lia| |lia].
    pose proof (digits_bound x (digits y) ltac:(pose proof (digits_pos y); lia) ltac:(pose proof (digits_spec y); lia)).
    pose proof (digits_bound y 53 ltac:(lia) Hy). cbn [int_float f_rank lex_lt]. right. split; [done|].
    destruct (decide (digits x = digits y)) as [->|]; [right|left; lia].
    split; [done|]. rewrite !shl_value by lia. assert (0 < 2 ^ (53 - digits y))%Z by (apply Z.pow_pos_nonneg; lia). nia. }
  destruct (Z.ltb_spec a b) as [H|H].
  - apply fltb_rank. split_and!; [apply Hnan; lia..|apply Hlt; lia].
  - apply not_true_iff_false. rewrite fltb_rank. intros (_ & _ & Hab).
    destruct (decide (a = b)) as [->|Hne].
    + destruct (f_rank (int_float b)) as [[??]?]. unfold lex_lt in Hab. lia.
    + specialize (Hlt b a ltac:(lia) ltac:(lia)).
      destruct (f_rank (int_float a)) as [[??]?], (f_rank (int_float b)) as [[??]?]. unfold lex_lt in *. lia.
Qed.

Lemma f_min_int a b : small a → small b → f_min (float_dec a 0) (float_dec b 0) = float_dec (Z.min a b) 0.
Proof.
  intros Ha Hb. unfold f_min. rewrite fltb_int by done. destruct (Z.ltb_spec b a); f_equal; lia.
Qed.
