(* ===== verification/PyValue.v ===== *)
(** * Python's dynamic values

    The values that flow through [dict[str, Any]] records: JSON data, HTTP
    bodies, environment variables.  Strings are sequences of code points below
    256 (one [ascii] per code point), which covers every literal of the
    modelled code; integers are unbounded; dictionaries keep insertion order. *)

From S2P Require Import Prelude PyFloat.
From Corelib Require Import SpecFloat.
From Stdlib Require Import Ascii.

Inductive pyval :=
  | PNone
  | PBool (b : bool)
  | PInt (z : Z)
  | PFloat (f : pyfloat)
  | PStr (s : string)
  | PList (l : list pyval)
  | PDict (d : list (string * pyval)).

(** Induction with hypotheses for the elements of lists and dictionaries. *)
Section pyval_ind.
Variable P : pyval → Prop.
Hypotheses (HNone : P PNone) (HBool : ∀ b, P (PBool b)) (HInt : ∀ z, P (PInt z))
  (HFloat : ∀ f, P (PFloat f)) (HStr : ∀ s, P (PStr s))
  (HList : ∀ l, Forall P l → P (PList l))
  (HDict : ∀ d, Forall (λ kv, P kv.2) d → P (PDict d)).
Fixpoint pyval_ind' (v : pyval) : P v.
Proof.
  destruct v as [|b|z|f|s|l|d];
    [apply HNone|apply HBool|apply HInt|apply HFloat|apply HStr|apply HList|apply HDict].
  - induction l as [|x l IH]; constructor; [apply pyval_ind'|apply IH].
  - induction d as [|[k w] d IH]; constructor; simpl; [apply pyval_ind'|apply IH].
Defined.
End pyval_ind.

Fixpoint pyval_eq_dec (v w : pyval) {struct v} : {v = w} + {v ≠ w}.
Proof.
  destruct v as [|b|z|f|s|l|d], w as [|b'|z'|f'|s'|l'|d'];
    try (right; discriminate); [by left|..].
  - destruct (decide (b = b')); [left|right]; congruence.
  - destruct (decide (z = z')); [left|right]; congruence.
  - destruct (decide (f = f')); [left|right]; congruence.
  - destruct (decide (s = s')); [left|right]; congruence.
  - assert ({l = l'} + {l ≠ l'}) as [|].
    { revert l'. induction l as [|x l IH]; intros [|y l']; [by left|by right..|].
      destruct (pyval_eq_dec x y), (IH l'); [left|right..]; congruence. }
    + left. congruence.
    + right. congruence.
  - assert ({d = d'} + {d ≠ d'}) as [|].
    { revert d'. induction d as [|[k x] d IH]; intros [|[k' y] d']; [by left|by right..|].
      destruct (decide (k = k')), (pyval_eq_dec x y), (IH d'); [left|right..]; congruence. }
    + left. congruence.
    + right. congruence.
Defined.
#[export] Instance pyval_EqDecision : EqDecision pyval := pyval_eq_dec.

(** ** Characters and strings *)

Definition chr_code (c : ascii) : Z := Z.of_N (N_of_ascii c).

(** [str.isspace] below 256. *)
Definition chr_space (c : ascii) : bool :=
  let n := chr_code c in
  ((9 <=? n) && (n <=? 13) || (28 <=? n) && (n <=? 32) || (n =? 133) || (n =? 160))%Z.

(** Case mapping below 256; the two letters whose upper case lies above 255
    (U+00B5, U+00FF) and U+00DF are left alone by [chr_upper]. *)
Definition chr_lower (c : ascii) : ascii :=
  let n := chr_code c in
  if ((65 <=? n) && (n <=? 90) || (192 <=? n) && (n <=? 222) && negb (n =? 215))%Z
  then ascii_of_N (Z.to_N (n + 32)) else c.
Definition chr_upper (c : ascii) : ascii :=
  let n := chr_code c in
  if ((97 <=? n) && (n <=? 122) || (224 <=? n) && (n <=? 254) && negb (n =? 247))%Z
  then ascii_of_N (Z.to_N (n - 32)) else c.

Definition chars : string → list ascii := String.list_ascii_of_string.
Definition of_chars : list ascii → string := String.string_of_list_ascii.

Fixpoint drop_while {A} (f : A → bool) (l : list A) : list A :=
  match l with [] => [] | a :: l' => if f a then drop_while f l' else l end.

Definition rdrop_while {A} (f : A → bool) (l : list A) : list A :=
  reverse (drop_while f (reverse l)).

Definition str_lower (s : string) : string := of_chars (chr_lower <$> chars s).
Definition str_upper (s : string) : string := of_chars (chr_upper <$> chars s).
Definition str_strip (s : string) : string :=
  of_chars (rdrop_while chr_space (drop_while chr_space (chars s))).

(** [s.rstrip(cs)] for an explicit set of characters. *)
Definition str_rstrip (cs : string) (s : string) : string :=
  of_chars (rdrop_while (λ c, bool_decide (c ∈ chars cs)) (chars s)).

Definition str_startswith (p s : string) : bool := String.prefix p s.
Definition str_endswith (p s : string) : bool :=
  let n := String.length s in let m := String.length p in
  (m <=? n)%nat && String.eqb (String.substring (n - m) m s) p.
Definition str_removeprefix (p s : string) : string :=
  if String.prefix p s
  then String.substring (String.length p) (String.length s - String.length p) s else s.
Definition str_contains_char (c : ascii) (s : string) : bool :=
  bool_decide (c ∈ chars s).

(** [sub in s] *)
Definition str_contains (sub s : string) : bool :=
  match String.index 0 sub s with Some _ => true | None => false end.

(** [s.partition(c)] for a one-character separator: the head, whether the
    separator was found, the tail. *)
Fixpoint chars_partition (c : ascii) (l : list ascii) : list ascii * bool * list ascii :=
  match l with
  | [] => ([], false, [])
  | c' :: l =>
      if decide (c' = c) then ([], true, l)
      else let '(h, b, t) := chars_partition c l in (c' :: h, b, t)
  end.
Definition str_partition (c : ascii) (s : string) : string * bool * string :=
  let '(h, b, t) := chars_partition c (chars s) in (of_chars h, b, of_chars t).

(** [s.split(c)] for a one-character separator. *)
Fixpoint chars_split (c : ascii) (l : list ascii) : list (list ascii) :=
  match l with
  | [] => [[]]
  | c' :: l =>
      if decide (c' = c) then [] :: chars_split c l
      else match chars_split c l with
           | [] => [[c']]
           | w :: ws => (c' :: w) :: ws
           end
  end.
Definition str_split (c : ascii) (s : string) : list string :=
  of_chars <$> chars_split c (chars s).

Definition str_join (sep : string) (l : list string) : string := String.concat sep l.

(** Zero-padded decimal, the format [{z:0wd}] for [z >= 0]. *)
Definition pad0 (w : nat) (z : Z) : string :=
  let s := pretty z in
  zeros (Z.of_nat w - Z.of_nat (String.length s)) +:+ s.

(** ** Reading numbers *)

Definition chr_digit (c : ascii) : option Z :=
  let n := chr_code c in
  if ((48 <=? n) && (n <=? 57))%Z then Some (n - 48)%Z else None.

(** A maximal run of digits with single underscores between them: the value,
    the number of digits, the rest. *)
Fixpoint read_digits (l : list ascii) (acc n : Z) : Z * Z * list ascii :=
  match l with
  | c :: l' =>
      match chr_digit c with
      | Some d => read_digits l' (10 * acc + d) (n + 1)
      | None =>
          match l' with
          | c' :: l'' =>
              match chr_digit c' with
              | Some d =>
                  if ((0 <? n) && (chr_code c =? 95))%Z
                  then read_digits l'' (10 * acc + d) (n + 1) else (acc, n, l)
              | None => (acc, n, l)
              end
          | [] => (acc, n, l)
          end
      end
  | [] => (acc, n, l)
  end%Z.

Definition read_sign (l : list ascii) : bool * list ascii :=
  match l with
  | c :: l' => if (chr_code c =? 45)%Z then (true, l')
               else if (chr_code c =? 43)%Z then (false, l') else (false, l)
  | [] => (false, l)
  end.

(** [int(s)]: at most 4300 digits, as CPython limits it. *)
Definition int_of_str (s : string) : res Z :=
  let bad := Raise (ValueError "invalid literal for int() with base 10") in
  let '(neg, l) := read_sign (chars (str_strip s)) in
  let '(z, n, rest) := read_digits l 0 0 in
  match rest with
  | [] => if ((n =? 0) || (4300 <? n))%Z then bad else Ok (cond_opp neg z)
  | _ => bad
  end.

Definition scale_dec (neg : bool) (m nd e : Z) : pyfloat :=
  if (m =? 0)%Z || (nd + e <? -330)%Z then S754_zero neg
  else if (310 <? e)%Z then S754_infinity neg
  else float_dec (cond_opp neg m) e.

(** [float(s)] *)
Definition float_of_str (s : string) : res pyfloat :=
  let bad := Raise (ValueError "could not convert string to float") in
  let '(neg, l) := read_sign (chars (str_strip s)) in
  let word := str_lower (of_chars l) in
  if decide (word ∈ ["inf"; "infinity"]) then Ok (S754_infinity neg)
  else if decide (word = "nan") then Ok S754_nan
  else
    let '(m, n, l) := read_digits l 0 0 in
    let '(m, n, frac, l) :=
      match l with
      | c :: l' =>
          if (chr_code c =? 46)%Z then
            match l' with
            | c' :: _ =>
                match chr_digit c' with
                | Some _ => let '(m', k, l'') := read_digits l' 0 0 in
                    (m * 10 ^ k + m', n + k, k, l'')%Z
                | None => (m, n, 0%Z, l')
                end
            | [] => (m, n, 0%Z, l')
            end
          else (m, n, 0%Z, l)
      | [] => (m, n, 0%Z, l)
      end in
    if (n =? 0)%Z then bad else
    match l with
    | [] => Ok (scale_dec neg m n (- frac))
    | c :: l' =>
        if ((chr_code c =? 101) || (chr_code c =? 69))%Z then
          let '(eneg, l') := read_sign l' in
          let '(e, k, l'') := read_digits l' 0 0 in
          match l'' with
          | [] => if (k =? 0)%Z then bad else Ok (scale_dec neg m n (cond_opp eneg e - frac))
          | _ => bad
          end
        else bad
    end.

(** ** Conversions and truth *)

Definition py_truth (v : pyval) : bool :=
  match v with
  | PNone => false
  | PBool b => b
  | PInt z => negb (z =? 0)%Z
  | PFloat f => negb (f_is_zero f)
  | PStr s => negb (String.eqb s "")
  | PList l => match l with [] => false | _ => true end
  | PDict d => match d with [] => false | _ => true end
  end.

Definition py_int (v : pyval) : res Z :=
  match v with
  | PInt z => Ok z
  | PBool b => Ok (if b then 1 else 0)%Z
  | PFloat f => f_trunc f
  | PStr s => int_of_str s
  | _ => Raise (TypeError "int() argument must be a string or a number")
  end.

Definition py_float (v : pyval) : res pyfloat :=
  match v with
  | PInt z => float_of_Z z
  | PBool b => float_of_Z (if b then 1 else 0)
  | PFloat f => Ok f
  | PStr s => float_of_str s
  | _ => Raise (TypeError "float() argument must be a string or a number")
  end.

Definition hex_digit (n : Z) : string :=
  String.substring (Z.to_nat n) 1 "0123456789abcdef".

Definition chr_repr (quote : ascii) (c : ascii) : string :=
  let n := chr_code c in
  if bool_decide (c = quote) || (n =? 92)%Z then String "\" (String c "")
  else if (n =? 9)%Z then "\t" else if (n =? 10)%Z then "\n" else if (n =? 13)%Z then "\r"
  else if ((n <? 32) || (127 <=? n) && (n <=? 160) || (n =? 173))%Z
  then "\x" +:+ hex_digit (n / 16) +:+ hex_digit (n mod 16)
  else String c "".

Definition single_quote : ascii := ascii_of_nat 39.
Definition double_quote : ascii := ascii_of_nat 34.

Definition str_repr (s : string) : string :=
  let quote := if str_contains_char single_quote s && negb (str_contains_char double_quote s)
               then double_quote else single_quote in
  String quote (str_join "" (chr_repr quote <$> chars s)) +:+ String quote "".

Fixpoint py_repr (v : pyval) : string :=
  match v with
  | PNone => "None"
  | PBool b => if b then "True" else "False"
  | PInt z => pretty z
  | PFloat f => float_repr f
  | PStr s => str_repr s
  | PList l => "[" +:+ str_join ", " (map py_repr l) +:+ "]"
  | PDict d =>
      "{" +:+ str_join ", " (map (λ '(k, w), str_repr k +:+ ": " +:+ py_repr w) d) +:+ "}"
  end.

Definition py_str (v : pyval) : string :=
  match v with PStr s => s | _ => py_repr v end.

(** Exact comparison of an integer and a float. *)
Definition Z_float_eqb (z : Z) (f : pyfloat) : bool :=
  match f_ratio f with Some (p, q) => (z * q =? p)%Z | None => false end.

(** [v == w]; booleans and integers compare as numbers, dictionaries ignore
    the order of their keys. *)
Fixpoint py_eqb (v w : pyval) {struct v} : bool :=
  let num_eqb z w := match w with
    | PBool b => (z =? if b then 1 else 0)%Z
    | PInt z' => (z =? z')%Z
    | PFloat f => Z_float_eqb z f
    | _ => false
    end in
  match v, w with
  | PNone, PNone => true
  | PBool b, w => num_eqb (if b then 1 else 0)%Z w
  | PInt z, w => num_eqb z w
  | PFloat f, PBool b => Z_float_eqb (if b then 1 else 0) f
  | PFloat f, PInt z => Z_float_eqb z f
  | PFloat f, PFloat f' => feqb f f'
  | PStr s, PStr s' => String.eqb s s'
  | PList l, PList l' =>
      (fix go l l' := match l, l' with
       | [], [] => true
       | x :: l, y :: l' => py_eqb x y && go l l'
       | _, _ => false
       end) l l'
  | PDict d, PDict d' =>
      (length d =? length d')%nat &&
      (fix go d := match d with
       | [] => true
       | (k, x) :: d =>
           match alist_get k d' with Some y => py_eqb x y | None => false end && go d
       end) d
  | _, _ => false
  end.

(** ** Dictionaries *)

Definition attribute_error {A} : res A :=
  Raise (OtherError "AttributeError").

(** [v.get(k, d)]; only a dictionary has the method. *)
Definition py_get (v : pyval) (k : string) (d : pyval) : res pyval :=
  match v with
  | PDict m => Ok (default d (alist_get k m))
  | _ => attribute_error
  end.

(** [v[k]] *)
Definition py_item (v : pyval) (k : string) : res pyval :=
  match v with
  | PDict m => match alist_get k m with Some x => Ok x | None => Raise (KeyError k) end
  | _ => Raise (TypeError "object is not subscriptable by a string")
  end.

(** [v[k] = x] *)
Definition py_set (v : pyval) (k : string) (x : pyval) : res pyval :=
  match v with
  | PDict m => Ok (PDict (alist_set k x m))
  | _ => Raise (TypeError "object does not support item assignment")
  end.

(** [m.update(u)] *)
Definition dict_update (m u : list (string * pyval)) : list (string * pyval) :=
  foldl (λ m kv, alist_set kv.1 kv.2 m) m u.
Definition py_update (v : pyval) (u : list (string * pyval)) : res pyval :=
  match v with PDict m => Ok (PDict (dict_update m u)) | _ => attribute_error end.

(** Iteration: lists yield their elements, dictionaries their keys, strings
    their characters. *)
Definition py_iter (v : pyval) : res (list pyval) :=
  match v with
  | PList l => Ok l
  | PDict m => Ok ((λ kv, PStr kv.1) <$> m)
  | PStr s => Ok ((λ c, PStr (String c "")) <$> chars s)
  | _ => Raise (TypeError "object is not iterable")
  end.

(** [v in {s1, ..., sn}]; lists and dictionaries are not hashable. *)
Definition py_in_set (v : pyval) (l : list string) : res bool :=
  match v with
  | PStr s => Ok (bool_decide (s ∈ l))
  | PList _ | PDict _ => Raise (TypeError "unhashable type")
  | _ => Ok false
  end.

(** ** JSON

    [json.loads(json.dumps(v, sort_keys=True))]: the value with the keys of
    every dictionary sorted; this is what a reader of a stored record sees. *)
Definition key_le (a b : string * pyval) : Prop := String.le a.1 b.1.
#[export] Instance key_le_dec a b : Decision (key_le a b).
Proof. unfold key_le. apply _. Defined.
#[export] Instance key_le_trans : Transitive key_le.
Proof. intros a b c. unfold key_le. apply transitivity. Qed.
#[export] Instance key_le_total : Total key_le.
Proof. intros a b. unfold key_le. apply String.le_total. Qed.

Fixpoint json_sorted (v : pyval) : pyval :=
  match v with
  | PList l => PList (map json_sorted l)
  | PDict d => PDict (merge_sort key_le (map (λ '(k, w), (k, json_sorted w)) d))
  | v => v
  end.

(** The document a writer stores and the value a reader gets back. *)
Definition json_dumps : pyval → pyval := json_sorted.

(** [sorted(s)] of a set of strings. *)
Definition sorted_strings (s : gset string) : list string := merge_sort String.le (elements s).

(** ** Lemmas *)

Lemma alist_get_map {V W} (f : V → W) k (l : list (string * V)) :
  alist_get k (map (λ '(k, w), (k, f w)) l) = f <$> alist_get k l.
Proof. induction l as [|[k' v] l IH]; simpl; [done|]. by case_decide. Qed.

Lemma map_keys {V W} (f : V → W) (l : list (string * V)) :
  (map (λ '(k, w), (k, f w)) l).*1 = l.*1.
Proof. induction l as [|[k' v] l IH]; simpl; [done|]. by f_equal. Qed.

Lemma alist_get_Permutation {V} k (l1 l2 : list (string * V)) :
  NoDup l1.*1 → l1 ≡ₚ l2 → alist_get k l1 = alist_get k l2.
Proof.
  intros Hnd Hp. assert (NoDup l2.*1) as Hnd2 by (by rewrite <-Hp).
  destruct (alist_get k l1) as [v|] eqn:E.
  - symmetry. apply alist_get_elem; [done|]. rewrite <-Hp. by apply alist_get_Some_elem.
  - symmetry. apply alist_get_None. rewrite <-Hp. by apply alist_get_None.
Qed.

(** Reading a stored record back finds every field. *)
Lemma json_sorted_get k d :
  NoDup d.*1 →
  py_get (json_sorted (PDict d)) k PNone = Ok (default PNone (json_sorted <$> alist_get k d)).
Proof.
  intros Hnd. simpl. f_equal. rewrite <-alist_get_map. f_equal.
  apply alist_get_Permutation; [|apply merge_sort_Permutation].
  rewrite merge_sort_Permutation. by rewrite map_keys.
Qed.

Lemma dict_update_get k m u :
  NoDup u.*1 →
  alist_get k (dict_update m u) =
    match alist_get k u with Some x => Some x | None => alist_get k m end.
Proof.
  unfold dict_update. revert m. induction u as [|[k' x] u IH]; intros m Hnd; simpl; [done|].
  apply NoDup_cons in Hnd as [Hk Hnd]. rewrite (IH _ Hnd). case_decide as Hkk; subst.
  - rewrite (proj2 (alist_get_None _ _)); [apply alist_get_set_eq|done].
  - destruct (alist_get k u); [done|]. by apply alist_get_set_ne.
Qed.

Lemma dict_update_NoDup m u : NoDup m.*1 → NoDup (dict_update m u).*1.
Proof.
  unfold dict_update. revert m. induction u as [|[k x] u IH]; intros m Hnd; simpl; [done|].
  by apply IH, alist_set_NoDup.
Qed.

Lemma py_eqb_str s v : py_eqb v (PStr s) = true ↔ v = PStr s.
Proof.
  destruct v; simpl; try (split; [discriminate|congruence]).
  rewrite String.eqb_eq. split; congruence.
Qed.

Lemma sorted_strings_elem s x : x ∈ sorted_strings s ↔ x ∈ s.
Proof. unfold sorted_strings. rewrite merge_sort_Permutation. apply elem_of_elements. Qed.

Lemma sorted_strings_NoDup s : NoDup (sorted_strings s).
Proof. unfold sorted_strings. rewrite merge_sort_Permutation. apply NoDup_elements. Qed.

Lemma sorted_strings_sorted s : StronglySorted String.le (sorted_strings s).
Proof. apply StronglySorted_merge_sort; apply _. Qed.

Lemma sorted_strings_length s : length (sorted_strings s) = size s.
Proof. unfold sorted_strings. by rewrite merge_sort_Permutation. Qed.

Lemma sorted_strings_to_set s : list_to_set (sorted_strings s) = s.
Proof. apply set_eq. intros x. rewrite elem_of_list_to_set. apply sorted_strings_elem. Qed.

Lemma str_startswith_app p s : str_startswith p (p +:+ s) = true.
Proof.
  unfold str_startswith. induction p as [|c p IH]; [by destruct s|].
  change (String c p +:+ s) with (String c (p +:+ s)). simpl.
  by destruct (ascii_dec c c).
Qed.

(** ** Well-formed documents

    A Python dictionary never repeats a key.  On such values reading a stored
    record and storing it again changes nothing. *)
Inductive json_wf : pyval → Prop :=
  | wf_leaf v : match v with PList _ | PDict _ => False | _ => True end → json_wf v
  | wf_list l : Forall json_wf l → json_wf (PList l)
  | wf_dict d : NoDup d.*1 → Forall (λ kv, json_wf kv.2) d → json_wf (PDict d).

Lemma json_wf_dict d : json_wf (PDict d) ↔ NoDup d.*1 ∧ Forall (λ kv, json_wf kv.2) d.
Proof. split; [by inversion 1|]. intros [? ?]. by apply wf_dict. Qed.
Lemma json_wf_list l : json_wf (PList l) ↔ Forall json_wf l.
Proof. split; [by inversion 1|]. by apply wf_list. Qed.

Lemma json_sorted_dict_keys d : NoDup d.*1 →
  NoDup (merge_sort key_le (map (λ '(k, w), (k, json_sorted w)) d)).*1.
Proof. intros Hnd. rewrite merge_sort_Permutation. by rewrite map_keys. Qed.

Lemma json_sorted_wf v : json_wf v → json_wf (json_sorted v).
Proof.
  induction v as [|b|z|f|s|l IH|d IH] using pyval_ind'; intros Hwf; try done.
  - apply json_wf_list in Hwf. simpl. apply json_wf_list.
    induction Hwf as [|x l Hx Hl IHl]; simpl; [constructor|].
    apply Forall_cons in IH as [IHx IH]. constructor; auto.
  - apply json_wf_dict in Hwf as [Hnd Hwf]. simpl. apply json_wf_dict. split; [by apply json_sorted_dict_keys|].
    rewrite merge_sort_Permutation. clear Hnd.
    induction Hwf as [|[k x] d Hx Hd IHd]; simpl; [constructor|].
    apply Forall_cons in IH as [IHx IH]. constructor; simpl in *; auto.
Qed.

(** Sorting by key is canonical when the keys are distinct. *)
Lemma merge_sort_keys_unique (l1 l2 : list (string * pyval)) :
  NoDup l1.*1 → l1 ≡ₚ l2 → merge_sort key_le l1 = merge_sort key_le l2.
Proof.
  intros Hnd Hp. apply (StronglySorted_unique_strong key_le).
  - intros [k x] [k' y] Hx Hy Hle1 Hle2. rewrite merge_sort_Permutation in Hx, Hy.
    unfold key_le in *. simpl in *. assert (k = k') as <- by by apply (anti_symm String.le).
    rewrite <-Hp in Hy. apply alist_get_elem in Hx, Hy; congruence.
  - apply StronglySorted_merge_sort; apply _.
  - apply StronglySorted_merge_sort; apply _.
  - by rewrite !merge_sort_Permutation.
Qed.

Lemma json_sorted_idem v : json_wf v → json_sorted (json_sorted v) = json_sorted v.
Proof.
  induction v as [|b|z|f|s|l IH|d IH] using pyval_ind'; intros Hwf; try done.
  - apply json_wf_list in Hwf. simpl. f_equal.
    induction Hwf as [|x l Hx Hl IHl]; simpl; [done|].
    apply Forall_cons in IH as [IHx IH]. f_equal; auto.
  - apply json_wf_dict in Hwf as [Hnd Hwf]. simpl. f_equal.
    assert (Hmap : map (λ '(k, w), (k, json_sorted w)) (map (λ '(k, w), (k, json_sorted w)) d)
                   = map (λ '(k, w), (k, json_sorted w)) d).
    { clear Hnd. induction Hwf as [|[k x] d Hx Hd IHd]; simpl; [done|].
      apply Forall_cons in IH as [IHx IH]. simpl in *. rewrite IHx by done. f_equal; auto. }
    rewrite <-Hmap at 2. apply merge_sort_keys_unique.
    + rewrite map_keys. by apply json_sorted_dict_keys.
    + change (map ?f (merge_sort key_le ?l)) with (f <$> merge_sort key_le l).
      rewrite merge_sort_Permutation. done.
Qed.

Lemma json_wf_get k d v : json_wf (PDict d) → alist_get k d = Some v → json_wf v.
Proof.
  intros [_ Hwf]%json_wf_dict Hk. rewrite Forall_forall in Hwf.
  apply alist_get_Some_elem in Hk. by apply (Hwf (k, v)).
Qed.

Lemma alist_set_Forall {V} (P : V → Prop) k v (d : list (string * V)) :
  P v → Forall (λ kv, P kv.2) d → Forall (λ kv, P kv.2) (alist_set k v d).
Proof.
  intros Hv. induction 1 as [|[k' x] d Hx Hd IH]; simpl; [by repeat constructor|].
  case_decide; by constructor.
Qed.

Lemma json_wf_set k v d : json_wf v → json_wf (PDict d) → json_wf (PDict (alist_set k v d)).
Proof.
  intros Hv [Hnd Hwf]%json_wf_dict. apply json_wf_dict. split; [by apply alist_set_NoDup|by apply alist_set_Forall].
Qed.

Lemma json_wf_update u d :
  Forall (λ kv, json_wf kv.2) u → json_wf (PDict d) → json_wf (PDict (dict_update d u)).
Proof.
  intros Hu. revert d. induction Hu as [|[k v] u Hv Hu IH]; intros d Hd; simpl; [done|].
  apply IH. by apply json_wf_set.
Qed.

(** A stored dictionary, field by field. *)
Lemma json_sorted_lookup d :
  NoDup d.*1 →
  ∃ d', json_sorted (PDict d) = PDict d' ∧ NoDup d'.*1 ∧
    ∀ k, alist_get k d' = json_sorted <$> alist_get k d.
Proof.
  intros Hnd. eexists. split; [done|]. split; [by apply json_sorted_dict_keys|].
  intros k'. rewrite <-alist_get_map. apply alist_get_Permutation.
  - by apply json_sorted_dict_keys.
  - apply merge_sort_Permutation.
Qed.

#[export] Hint Resolve json_wf_set json_wf_update json_sorted_wf : py.

(** ** Characters of composed strings *)

Lemma chars_of_chars l : chars (of_chars l) = l.
Proof. apply String.list_ascii_of_string_of_list_ascii. Qed.
Lemma of_chars_chars s : of_chars (chars s) = s.
Proof. apply String.string_of_list_ascii_of_string. Qed.
Lemma chars_app s t : chars (s +:+ t) = chars s ++ chars t.
Proof.
  induction s as [|c s IH]; [done|]. change (String c s +:+ t) with (String c (s +:+ t)).
  simpl. f_equal. exact IH.
Qed.

Lemma append_inj_l (p s t : string) : p +:+ s = p +:+ t → s = t.
Proof. induction p as [|c p IH]; simpl; [done|]. intros [= H]. auto. Qed.

Lemma append_inj_r (s t q : string) : s +:+ q = t +:+ q → s = t.
Proof.
  intros H. apply (f_equal chars) in H. rewrite !chars_app in H. apply app_inv_tail in H.
  by rewrite <- (of_chars_chars s), H, of_chars_chars.
Qed.

(** A set of characters a string is made of. *)
Definition only_chars (P : ascii → Prop) (s : string) : Prop := Forall P (chars s).

Lemma only_chars_app P s t : only_chars P (s +:+ t) ↔ only_chars P s ∧ only_chars P t.
Proof. unfold only_chars. by rewrite chars_app, Forall_app. Qed.

Lemma only_chars_join P sep l :
  only_chars P sep → Forall (only_chars P) l → only_chars P (str_join sep l).
Proof.
  intros Hsep. unfold str_join. induction 1 as [|s l Hs Hl IH]; [constructor|].
  destruct l as [|s' l]; [done|].
  change (String.concat sep (s :: s' :: l)) with (s +:+ (sep +:+ String.concat sep (s' :: l))).
  by rewrite !only_chars_app.
Qed.

Lemma chars_split_sound c l :
  Forall (λ w, Forall (λ x, x ≠ c ∧ x ∈ l) w) (chars_split c l).
Proof.
  induction l as [|x l IH]; simpl; [repeat constructor|].
  assert (Hmono : ∀ w, Forall (λ y, y ≠ c ∧ y ∈ l) w → Forall (λ y, y ≠ c ∧ y ∈ x :: l) w).
  { intros w Hw. eapply Forall_impl; [exact Hw|]. intros y [? ?]. split; [done|by right]. }
  case_decide as Hx.
  - constructor; [constructor|]. by eapply Forall_impl.
  - destruct (chars_split c l) as [|w ws].
    + apply Forall_singleton, Forall_singleton. split; [done|left].
    + apply Forall_cons in IH as [Hw Hws]. constructor.
      * constructor; [split; [done|left]|auto].
      * by eapply Forall_impl.
Qed.

Lemma str_split_only P c s :
  only_chars P s → Forall (only_chars (λ x, x ≠ c ∧ P x)) (str_split c s).
Proof.
  intros Hs. unfold str_split, only_chars. apply Forall_fmap.
  eapply Forall_impl; [apply chars_split_sound|]. intros w Hw. simpl. rewrite chars_of_chars.
  eapply Forall_impl; [exact Hw|]. intros x [Hne Hin]. split; [done|].
  unfold only_chars in Hs. rewrite Forall_forall in Hs. auto.
Qed.

Lemma str_contains_char_only c s :
  str_contains_char c s = false ↔ only_chars (λ x, x ≠ c) s.
Proof.
  unfold str_contains_char, only_chars. rewrite bool_decide_eq_false, Forall_forall.
  naive_solver.
Qed.

(** ** Splitting what was joined *)

Lemma chars_split_app c l1 l2 :
  Forall (λ x, x ≠ c) l1 → chars_split c (l1 ++ c :: l2) = l1 :: chars_split c l2.
Proof.
  induction 1 as [|x l1 Hx Hl IH]; simpl; [by rewrite decide_True|].
  rewrite decide_False by done. by rewrite IH.
Qed.
Lemma chars_split_none c l : Forall (λ x, x ≠ c) l → chars_split c l = [l].
Proof.
  induction 1 as [|x l Hx Hl IH]; simpl; [done|]. rewrite decide_False by done. by rewrite IH.
Qed.

Lemma str_split_join c l :
  l ≠ [] → Forall (only_chars (λ x, x ≠ c)) l → str_split c (str_join (String c "") l) = l.
Proof.
  intros Hne Hl. unfold str_split, str_join. induction Hl as [|s l Hs Hl IH]; [done|].
  destruct l as [|s' l].
  - change (String.concat (String c "") [s]) with s. rewrite chars_split_none by done.
    simpl. by rewrite of_chars_chars.
  - change (String.concat (String c "") (s :: s' :: l))
      with (s +:+ String c (String.concat (String c "") (s' :: l))).
    rewrite chars_app. simpl chars at 2. rewrite chars_split_app by done.
    simpl fmap. rewrite of_chars_chars. f_equal. by apply IH.
Qed.

(** ** Padded numbers *)

Definition digits_value (acc : Z) (l : list ascii) : Z :=
  foldl (λ acc c, 10 * acc + (chr_code c - 48))%Z acc l.

Lemma digits_value_app acc l1 l2 :
  digits_value acc (l1 ++ l2) = digits_value (digits_value acc l1) l2.
Proof. apply foldl_app. Qed.

Lemma pretty_N_char_code n : (n < 10)%N → chr_code (pretty_N_char n) = (48 + Z.of_N n)%Z.
Proof.
  intros Hn. assert (n ∈ [0; 1; 2; 3; 4; 5; 6; 7; 8; 9])%N as Hin by (set_unfold; lia).
  repeat (apply elem_of_cons in Hin as [->|Hin]; [reflexivity|]). by apply elem_of_nil in Hin.
Qed.

Lemma digits_pretty_go n s :
  digits_value 0 (chars (pretty_N_go n s)) = digits_value (Z.of_N n) (chars s).
Proof.
  revert s. induction (N.lt_wf_0 n) as [n _ IH]; intros s.
  destruct (decide (n = 0)%N) as [->|Hn]; [by rewrite pretty_N_go_0|].
  rewrite pretty_N_go_step by lia. rewrite IH by (apply N.div_lt; lia).
  change (chars (String ?c ?t)) with (c :: chars t). unfold digits_value at 1. simpl.
  rewrite pretty_N_char_code by (apply N.mod_lt; lia).
  unfold digits_value. f_equal. rewrite N2Z.inj_div, N2Z.inj_mod.
  pose proof (Z.div_mod (Z.of_N n) 10). lia.
Qed.

Lemma digits_pretty z : (0 ≤ z)%Z → digits_value 0 (chars (pretty z)) = z.
Proof.
  intros Hz. destruct z as [|p|p]; [done| |lia].
  change (pretty (Z.pos p)) with (pretty (N.pos p)).
  unfold pretty, pretty_N. rewrite decide_False by done. by rewrite digits_pretty_go.
Qed.

Lemma digits_zeros n : digits_value 0 (chars (zeros n)) = 0%Z.
Proof.
  unfold zeros. induction (Z.to_nat n) as [|k IH]; [done|].
  destruct k as [|k]; [done|].
  change (String.concat "" (replicate (S (S k)) "0"))
    with (String "0" (String.concat "" (replicate (S k) "0"))).
  change (chars (String ?c ?t)) with (c :: chars t). exact IH.
Qed.

Lemma pad0_inj w z z' : (0 ≤ z)%Z → (0 ≤ z')%Z → pad0 w z = pad0 w z' → z = z'.
Proof.
  intros Hz Hz' Heq. apply (f_equal (λ s, digits_value 0 (chars s))) in Heq.
  unfold pad0 in Heq. rewrite !chars_app, !digits_value_app, !digits_zeros, !digits_pretty in Heq; done.
Qed.

Lemma pad0_digits w z : (0 ≤ z)%Z → only_chars (λ c, (48 ≤ chr_code c ≤ 57)%Z) (pad0 w z).
Proof.
  intros Hz. unfold pad0. apply only_chars_app. split.
  - unfold zeros. apply (only_chars_join _ ""); [constructor|]. apply Forall_replicate.
    by repeat constructor.
  - assert (Hgo : ∀ n s, only_chars (λ c, (48 ≤ chr_code c ≤ 57)%Z) s →
      only_chars (λ c, (48 ≤ chr_code c ≤ 57)%Z) (pretty_N_go n s)).
    { intros n. induction (N.lt_wf_0 n) as [n _ IH]; intros s Hs.
      destruct (decide (n = 0)%N) as [->|Hn]; [by rewrite pretty_N_go_0|].
      rewrite pretty_N_go_step by lia. apply IH; [apply N.div_lt; lia|].
      unfold only_chars. change (chars (String ?c ?t)) with (c :: chars t). constructor; [|done].
      pose proof (N.mod_lt n 10) as Hd. generalize dependent (n `mod` 10)%N. intros d Hd.
      rewrite pretty_N_char_code by lia. lia. }
    destruct z as [|p|p]; [by repeat constructor| |lia].
    change (pretty (Z.pos p)) with (pretty (N.pos p)).
    unfold pretty, pretty_N. rewrite decide_False by done. apply Hgo. constructor.
Qed.

(** ** Reading what was printed *)

(** The characters of a number. *)
Definition is_digit (c : ascii) : Prop := (48 ≤ chr_code c ≤ 57)%Z.

Lemma digit_not_space c : is_digit c → chr_space c = false.
Proof.
  unfold is_digit, chr_space. intros H. apply not_true_iff_false. intros Hs.
  rewrite !orb_true_iff, !andb_true_iff, !Z.leb_le, !Z.eqb_eq in Hs. lia.
Qed.

Lemma pretty_digits z : (0 ≤ z)%Z → only_chars is_digit (pretty z).
Proof. intros Hz. pose proof (pad0_digits 0 z Hz) as H. unfold pad0 in H. by apply only_chars_app in H as [_ H]. Qed.

Lemma pretty_nonempty z : (0 ≤ z)%Z → pretty z ≠ "".
Proof.
  intros Hz Heq. destruct (decide (z = 0%Z)) as [->|Hne]; [done|].
  pose proof (digits_pretty z Hz) as H. rewrite Heq in H. cbn in H. congruence.
Qed.

Lemma read_digits_all l acc n :
  Forall is_digit l → read_digits l acc n = (digits_value acc l, (n + Z.of_nat (length l))%Z, []).
Proof.
  intros Hl. revert acc n. induction Hl as [|c l Hc Hl IH]; intros acc n; [cbn; by rewrite Z.add_0_r|].
  assert (chr_digit c = Some (chr_code c - 48)%Z) as Hd.
  { unfold is_digit in Hc. unfold chr_digit. destruct (_ && _) eqn:Hb; [done|]. lia. }
  cbn [read_digits]. rewrite Hd, IH. do 2 f_equal. cbn [length]. lia.
Qed.

Lemma drop_while_none {A} (f : A → bool) l : Forall (λ x, f x = false) l → drop_while f l = l.
Proof. destruct 1 as [|x l Hx Hl]; [done|]. cbn. by rewrite Hx. Qed.

Lemma strip_none s : only_chars (λ c, chr_space c = false) s → str_strip s = s.
Proof.
  intros Hs. unfold str_strip, rdrop_while. rewrite (drop_while_none chr_space (chars s)) by done.
  rewrite drop_while_none; [|by apply Forall_reverse]. by rewrite reverse_involutive, of_chars_chars.
Qed.

Lemma pretty_go_length k n s : (n < 10 ^ N.of_nat k)%N → String.length (pretty_N_go n s) ≤ k + String.length s.
Proof.
  revert n s. induction k as [|k IH]; intros n s Hn.
  { assert (n = 0)%N as -> by (cbn in Hn; lia). by rewrite pretty_N_go_0. }
  destruct (decide (n = 0)%N) as [->|Hne]; [rewrite pretty_N_go_0; lia|].
  rewrite pretty_N_go_step by lia.
  assert (n `div` 10 < 10 ^ N.of_nat k)%N as Hdiv.
  { apply N.Div0.div_lt_upper_bound. rewrite Nat2N.inj_succ, N.pow_succ_r' in Hn. lia. }
  specialize (IH _ (String (pretty_N_char (n `mod` 10)) s) Hdiv). cbn [String.length] in IH. lia.
Qed.

Lemma pretty_length (k : nat) z : (0 < k) → (0 ≤ z < 10 ^ Z.of_nat k)%Z → String.length (pretty z) ≤ k.
Proof.
  intros Hk [Hz Hlt]. destruct z as [|p|p]; [cbn; lia| |lia].
  change (pretty (Z.pos p)) with (pretty (N.pos p)).
  unfold pretty, pretty_N. rewrite decide_False by done.
  pose proof (pretty_go_length k (N.pos p) "") as H. cbn [String.length] in H. rewrite Nat.add_0_r in H.
  apply H. apply N2Z.inj_lt. rewrite N2Z.inj_pow, nat_N_Z. exact Hlt.
Qed.

(** [int(str(z))] *)
Lemma int_of_pretty z : (0 ≤ z)%Z → String.length (pretty z) ≤ 4300 → int_of_str (pretty z) = Ok z.
Proof.
  intros Hz Hshort. pose proof (pretty_digits z ltac:(lia)) as Hd.
  assert (str_strip (pretty z) = pretty z) as Hstrip.
  { apply strip_none. eapply Forall_impl; [exact Hd|]. apply digit_not_space. }
  assert (read_sign (chars (pretty z)) = (false, chars (pretty z))) as Hsign.
  { destruct (chars (pretty z)) as [|c l] eqn:Hc; [done|]. unfold only_chars in Hd. rewrite Hc in Hd.
    apply Forall_cons in Hd as [Hdc _]. unfold is_digit in Hdc. cbn.
    destruct (Z.eqb_spec (chr_code c) 45); [lia|]. by destruct (Z.eqb_spec (chr_code c) 43); [lia|]. }
  assert (length (chars (pretty z)) = String.length (pretty z)) as Hlen.
  { generalize (pretty z). intros s. induction s as [|c s IH]; [done|]. cbn. by rewrite <- IH. }
  unfold int_of_str. rewrite Hstrip, Hsign, read_digits_all by done.
  rewrite digits_pretty by lia. rewrite Hlen.
  destruct (Z.eqb_spec (0 + Z.of_nat (String.length (pretty z))) 0) as [Hzero|_]; cbn [orb].
  - exfalso. apply (pretty_nonempty z); [lia|]. destruct (pretty z); [done|]. cbn in Hzero. lia.
  - by destruct (Z.ltb_spec 4300 (0 + Z.of_nat (String.length (pretty z)))); [lia|].
Qed.

(** Sizes and counters are far below the limit. *)
Lemma int_of_small z : (0 ≤ z < 10 ^ 18)%Z → int_of_str (pretty z) = Ok z.
Proof.
  intros Hz. apply int_of_pretty; [lia|]. etransitivity; [apply (pretty_length 18); [lia|exact Hz]|lia].
Qed.
