(* ===== verification/PyText.v ===== *)
(** * Text and bytes

    Text as a list of code points and bytes as a list of integers, for code
    whose data is not confined to the strings of PyValue.v.  UTF-8 is decoded
    strictly: overlong forms, surrogates and values past U+10FFFF are
    refused. *)

From S2P Require Import Prelude PyFloat PyValue.
From Stdlib Require Import Ascii.

(** ** Code points *)

Definition text := list Z.

Definition text_of (s : string) : text := chr_code <$> chars s.

(** [s.partition(c)] *)
Fixpoint text_partition (c : Z) (s : text) : text * bool * text :=
  match s with
  | [] => ([], false, [])
  | x :: s =>
      if (x =? c)%Z then ([], true, s)
      else let '(h, b, t) := text_partition c s in (x :: h, b, t)
  end.

(** ["sep".join(parts)] for a one-character separator. *)
Fixpoint text_join (sep : Z) (parts : list text) : text :=
  match parts with
  | [] => []
  | [p] => p
  | p :: parts => p ++ sep :: text_join sep parts
  end.

(** ** UTF-8 *)

(** A continuation byte within [lo..hi]. *)
Definition in_range (lo hi b : Z) : bool := ((lo <=? b) && (b <=? hi))%Z.

(** One code point off the front of a UTF-8 sequence: its value and length. *)
Definition decode_one (bytes : list Z) : option (Z * nat) :=
  match bytes with
  | b0 :: rest =>
      if in_range 0 127 b0 then Some (b0, 1)
      else if in_range 194 223 b0 then
        match rest with
        | b1 :: _ => if in_range 128 191 b1 then Some (((b0 - 192) * 64 + (b1 - 128))%Z, 2) else None
        | _ => None
        end
      else if in_range 224 239 b0 then
        match rest with
        | b1 :: b2 :: _ =>
            let lo := if (b0 =? 224)%Z then 160%Z else 128%Z in
            let hi := if (b0 =? 237)%Z then 159%Z else 191%Z in
            if in_range lo hi b1 && in_range 128 191 b2
            then Some (((b0 - 224) * 4096 + (b1 - 128) * 64 + (b2 - 128))%Z, 3) else None
        | _ => None
        end
      else if in_range 240 244 b0 then
        match rest with
        | b1 :: b2 :: b3 :: _ =>
            let lo := if (b0 =? 240)%Z then 144%Z else 128%Z in
            let hi := if (b0 =? 244)%Z then 143%Z else 191%Z in
            if in_range lo hi b1 && in_range 128 191 b2 && in_range 128 191 b3
            then Some (((b0 - 240) * 262144 + (b1 - 128) * 4096 + (b2 - 128) * 64 + (b3 - 128))%Z, 4)
            else None
        | _ => None
        end
      else None
  | [] => None
  end.

(** [bytes.decode("utf-8")]; every step consumes a byte, so the length is
    fuel enough. *)
Fixpoint utf8_decode_go (fuel : nat) (bytes : list Z) : option text :=
  match bytes, fuel with
  | [], _ => Some []
  | _, 0 => None
  | _, S fuel =>
      '(c, n) ← decode_one bytes;
      rest ← utf8_decode_go fuel (drop n bytes);
      Some (c :: rest)
  end.
Definition utf8_decode (bytes : list Z) : option text := utf8_decode_go (length bytes) bytes.

Definition encode_one (c : Z) : list Z :=
  (if c <? 128 then [c]
   else if c <? 2048 then [192 + c / 64; 128 + c mod 64]
   else if c <? 65536 then [224 + c / 4096; 128 + (c / 64) mod 64; 128 + c mod 64]
   else [240 + c / 262144; 128 + (c / 4096) mod 64; 128 + (c / 64) mod 64; 128 + c mod 64])%Z.
Definition utf8_encode (s : text) : list Z := s ≫= encode_one.

(** Unicode scalar values. *)
Definition scalar (c : Z) : Prop := (0 ≤ c ≤ 1114111 ∧ ¬ 55296 ≤ c ≤ 57343)%Z.
#[export] Instance scalar_dec c : Decision (scalar c).
Proof. unfold scalar. apply _. Defined.

(** Decide a boolean comparison by arithmetic. *)
Ltac decide_cmp := repeat match goal with
  | |- context [in_range ?lo ?hi ?b] =>
      first [replace (in_range lo hi b) with true by (unfold in_range; Z.to_euclidean_division_equations; lia)
            |replace (in_range lo hi b) with false by (unfold in_range; Z.to_euclidean_division_equations; lia)]
  end.

Lemma decode_encode_one c rest :
  scalar c → decode_one (encode_one c ++ rest) = Some (c, length (encode_one c)).
Proof.
  intros [Hc Hs]. unfold encode_one.
  destruct (c <? 128)%Z eqn:H1; [|destruct (c <? 2048)%Z eqn:H2; [|destruct (c <? 65536)%Z eqn:H3]];
    cbn [app decode_one length].
  - by decide_cmp.
  - decide_cmp. do 3 f_equal. Z.to_euclidean_division_equations; lia.
  - destruct (224 + c / 4096 =? 224)%Z eqn:H4; destruct (224 + c / 4096 =? 237)%Z eqn:H5;
      decide_cmp; simpl; do 3 f_equal; Z.to_euclidean_division_equations; lia.
  - destruct (240 + c / 262144 =? 240)%Z eqn:H4; destruct (240 + c / 262144 =? 244)%Z eqn:H5;
      decide_cmp; simpl; do 3 f_equal; Z.to_euclidean_division_equations; lia.
Qed.

Lemma encode_one_length c : 1 ≤ length (encode_one c).
Proof. unfold encode_one. repeat case_match; simpl; lia. Qed.

Lemma utf8_decode_go_encode s fuel :
  Forall scalar s → length (utf8_encode s) ≤ fuel → utf8_decode_go fuel (utf8_encode s) = Some s.
Proof.
  intros Hs. revert fuel. induction Hs as [|c s Hc Hs IH]; intros fuel Hfuel; [by destruct fuel|].
  unfold utf8_encode in *. cbn [mbind list_bind] in *. rewrite length_app in Hfuel.
  pose proof (encode_one_length c) as Hlen.
  destruct fuel as [|fuel]; [lia|].
  assert (∃ b bs, encode_one c ++ (s ≫= encode_one) = b :: bs) as (b & bs & Hb).
  { destruct (encode_one c); [simpl in Hlen; lia|]. simpl. eauto. }
  rewrite Hb. cbn [utf8_decode_go]. rewrite <- Hb, decode_encode_one by done. simpl.
  by rewrite drop_app_length, IH by lia.
Qed.

Lemma utf8_decode_encode s : Forall scalar s → utf8_decode (utf8_encode s) = Some s.
Proof. intros Hs. by apply utf8_decode_go_encode. Qed.


Lemma utf8_encode_inj s s' :
  Forall scalar s → Forall scalar s' → utf8_encode s = utf8_encode s' → s = s'.
Proof.
  intros Hs Hs' Heq. apply (f_equal utf8_decode) in Heq.
  rewrite !utf8_decode_encode in Heq by done. congruence.
Qed.

(** [s.encode()] of a string of PyValue.v. *)
Definition str_encode (s : string) : list Z := utf8_encode (text_of s).

Lemma text_of_scalar s : Forall scalar (text_of s).
Proof.
  unfold text_of. apply Forall_fmap, Forall_forall. intros c _. unfold scalar. simpl.
  destruct c as [[] [] [] [] [] [] [] []]; vm_compute; intuition congruence.
Qed.

#[export] Instance chr_code_inj : Inj (=) (=) chr_code.
Proof.
  intros c c' Heq. unfold chr_code in Heq. apply (inj Z.of_N) in Heq.
  by rewrite <- (ascii_N_embedding c), <- (ascii_N_embedding c'), Heq.
Qed.

Lemma str_encode_inj s s' : str_encode s = str_encode s' → s = s'.
Proof.
  intros Heq. apply utf8_encode_inj in Heq; [|apply text_of_scalar..].
  unfold text_of in Heq. apply (inj (fmap chr_code)) in Heq.
  by rewrite <- (of_chars_chars s), <- (of_chars_chars s'), Heq.
Qed.

(** ** Hexadecimal, UUIDs and base64 *)

Definition hex_byte (b : Z) : string := hex_digit (b / 16) +:+ hex_digit (b mod 16).
Definition hex (bytes : list Z) : string := str_join "" (hex_byte <$> bytes).

(** [str(uuid.UUID(bytes=b))] *)
Definition uuid_str (b : list Z) : string :=
  str_join "-" [hex (take 4 b); hex (take 2 (drop 4 b)); hex (take 2 (drop 6 b));
                hex (take 2 (drop 8 b)); hex (drop 10 b)].

Definition b64_alphabet : string := "ABCDEFGHIJKLMNOPQRSTUVWXYZabcdefghijklmnopqrstuvwxyz0123456789-_".
Definition b64_char (n : Z) : ascii := default "A"%char (chars b64_alphabet !! Z.to_nat n).

Fixpoint b64_sextets (bytes : list Z) : list Z :=
  match bytes with
  | a :: b :: c :: rest =>
      a / 4 :: a mod 4 * 16 + b / 16 :: b mod 16 * 4 + c / 64 :: c mod 64 :: b64_sextets rest
  | [a; b] => [a / 4; a mod 4 * 16 + b / 16; b mod 16 * 4]
  | [a] => [a / 4; a mod 4 * 16]
  | [] => []
  end%Z.

(** [base64.urlsafe_b64encode(b).decode()] *)
Definition urlsafe_b64encode (bytes : list Z) : string :=
  of_chars (b64_char <$> b64_sextets bytes) +:+
  match length bytes mod 3 with 1 => "==" | 2 => "=" | _ => "" end.

Definition is_byte (b : Z) : Prop := (0 ≤ b < 256)%Z.

(** Three bytes at a time. *)
Lemma triples_ind (P : list Z → Prop) :
  P [] → (∀ a, P [a]) → (∀ a b, P [a; b]) → (∀ a b c l, P l → P (a :: b :: c :: l)) → ∀ l, P l.
Proof.
  intros H0 H1 H2 H3 l. remember (length l) as n eqn:Hn.
  revert l Hn. induction n as [n IH] using lt_wf_ind. intros [|a [|b [|c l]]] Hn; try auto.
  apply H3. apply (IH (length l)); simpl in Hn; [lia|done].
Qed.

Lemma b64_sextets_range bytes : Forall is_byte bytes → Forall (λ n, 0 ≤ n < 64)%Z (b64_sextets bytes).
Proof.
  induction bytes as [|a|a b|a b c l IH] using triples_ind; intros Hb; simpl;
    repeat match goal with H : Forall is_byte (_ :: _) |- _ => apply Forall_cons in H as [? H] end;
    unfold is_byte in *; repeat (constructor; [Z.to_euclidean_division_equations; lia|]); auto.
Qed.

Lemma b64_sextets_inj l l' :
  Forall is_byte l → Forall is_byte l' → b64_sextets l = b64_sextets l' → l = l'.
Proof.
  revert l'. induction l as [|a|a b|a b c l IH] using triples_ind;
    intros [|a' [|b' [|c' l']]] Hl Hl' Heq; simpl in Heq; try discriminate; try done;
    repeat match goal with H : Forall is_byte (_ :: _) |- _ => apply Forall_cons in H as [? H] end;
    unfold is_byte in *.
  - injection Heq as ? ?. f_equal. Z.to_euclidean_division_equations; lia.
  - injection Heq as ? ? ?.
    assert (a = a') as -> by (Z.to_euclidean_division_equations; lia).
    assert (b = b') as -> by (Z.to_euclidean_division_equations; lia). done.
  - injection Heq as ? ? ? ? Hrest. rewrite (IH l') by done.
    assert (a = a') as -> by (Z.to_euclidean_division_equations; lia).
    assert (b = b') as -> by (Z.to_euclidean_division_equations; lia).
    assert (c = c') as -> by (Z.to_euclidean_division_equations; lia). done.
Qed.

Definition b64_value (c : ascii) : Z :=
  match list_find (λ c', c' = c) (chars b64_alphabet) with Some (i, _) => Z.of_nat i | None => -1 end.

Lemma b64_value_char n : (0 ≤ n < 64)%Z → b64_value (b64_char n) = n.
Proof.
  intros Hn. assert (Forall (λ n, b64_value (b64_char n) = n) (seqZ 0 64)) as Hall.
  { apply (bool_decide_unpack _). vm_compute. exact I. }
  rewrite Forall_forall in Hall. apply Hall, elem_of_seqZ. lia.
Qed.

(** The padding is what [rstrip("=")] removes. *)
Lemma b64_unpadded bytes :
  Forall is_byte bytes →
  str_rstrip "=" (urlsafe_b64encode bytes) = of_chars (b64_char <$> b64_sextets bytes).
Proof.
  intros Hb. unfold urlsafe_b64encode, str_rstrip. rewrite chars_app, chars_of_chars. f_equal.
  assert (∀ c, c ∈ b64_char <$> b64_sextets bytes → c ≠ "="%char) as Hne.
  { intros c (n & -> & Hn)%list_elem_of_fmap. pose proof (b64_sextets_range _ Hb) as Hr.
    rewrite Forall_forall in Hr. specialize (Hr n Hn). intros Heq.
    pose proof (b64_value_char n Hr) as Hv. rewrite Heq in Hv. vm_compute in Hv. lia. }
  generalize dependent (b64_char <$> b64_sextets bytes). intros l Hl.
  unfold rdrop_while. rewrite reverse_app.
  assert (drop_while (λ c, bool_decide (c ∈ chars "=")) (reverse l) = reverse l) as Hkeep.
  { destruct (reverse l) as [|c l'] eqn:Hr; [done|]. simpl.
    rewrite bool_decide_eq_false_2; [done|]. rewrite list_elem_of_singleton.
    apply Hl. rewrite <- elem_of_reverse, Hr. by left. }
  assert (∀ pad, pad ∈ [""; "="; "=="] →
    drop_while (λ c, bool_decide (c ∈ chars "=")) (reverse (chars pad) ++ reverse l) = reverse l) as Hpad.
  { intros pad Hp. rewrite !elem_of_cons, elem_of_nil in Hp. by destruct Hp as [->|[->|[->|[]]]]. }
  rewrite Hpad by (destruct (length bytes mod 3) as [|[|[|]]]; set_solver). apply reverse_involutive.
Qed.

Lemma b64_inj l l' :
  Forall is_byte l → Forall is_byte l' →
  str_rstrip "=" (urlsafe_b64encode l) = str_rstrip "=" (urlsafe_b64encode l') → l = l'.
Proof.
  intros Hl Hl' Heq. rewrite !b64_unpadded in Heq by done.
  apply (f_equal chars) in Heq. rewrite !chars_of_chars in Heq.
  apply b64_sextets_inj; [done..|].
  apply (f_equal (fmap b64_value)) in Heq. rewrite <- !list_fmap_compose in Heq.
  rewrite (Forall_fmap_ext_1 _ id), (Forall_fmap_ext_1 _ id (b64_sextets l')), !list_fmap_id in Heq; [done|..].
  - eapply Forall_impl; [by apply b64_sextets_range|]. apply b64_value_char.
  - eapply Forall_impl; [by apply b64_sextets_range|]. apply b64_value_char.
Qed.
