(* ===== verification/Program.v ===== *)
(** * Effectful code and its interleavings

    A program performs operations of an event signature [E] and continues on
    their answers.  Handlers of the services are programs; [run] executes one
    alone against a state, [step] interleaves several at the granularity of
    one operation, which is where the event loop or another replica can act.
    [safe] is the rely/guarantee judgement the concurrent theorems use. *)

From S2P Require Import Prelude.

Section prog.
Context (E : Type → Type).

Inductive prog (A : Type) : Type :=
  | Ret (a : A)
  | Throw (e : exn)
  | Vis (X : Type) (op : E X) (k : X → prog A).
End prog.
Arguments Ret {E A} a.
Arguments Throw {E A} e.
Arguments Vis {E A X} op k.

Section combinators.
Context {E : Type → Type}.

Definition perform {X} (op : E X) : prog E X := Vis op Ret.

Definition prog_bind {A B} (f : A → prog E B) : prog E A → prog E B :=
  fix go p := match p with
    | Ret a => f a
    | Throw e => Throw e
    | Vis op k => Vis op (λ x, go (k x))
    end.

(** [try: p except e: h e] *)
Definition prog_catch {A} (h : exn → prog E A) : prog E A → prog E A :=
  fix go p := match p with
    | Ret a => Ret a
    | Throw e => h e
    | Vis op k => Vis op (λ x, go (k x))
    end.

(** The outcome of [p] as a value, for code that inspects it. *)
Definition prog_try {A} (p : prog E A) : prog E (res A) :=
  (fix go p := match p with
    | Ret a => Ret (Ok a)
    | Throw e => Ret (Raise e)
    | Vis op k => Vis op (λ x, go (k x))
    end) p.

(** A pure computation that may raise. *)
Definition lift {A} (m : res A) : prog E A :=
  match m with Ok a => Ret a | Raise e => Throw e end.

(** An operation whose answer may be an exception. *)
Definition call {A} (op : E (res A)) : prog E A := Vis op lift.
End combinators.

#[export] Instance prog_mret E : MRet (prog E) := λ A a, Ret a.
#[export] Instance prog_mbind E : MBind (prog E) := λ A B f p, prog_bind f p.

(** ** Running one program alone *)

Section run.
Context {E : Type → Type} {S : Type} (h : ∀ X, E X → S → X * S).

Fixpoint run {A} (p : prog E A) (s : S) : res A * S :=
  match p with
  | Ret a => (Ok a, s)
  | Throw e => (Raise e, s)
  | Vis op k => let '(x, s') := h _ op s in run (k x) s'
  end.

Lemma run_bind {A B} (p : prog E A) (f : A → prog E B) s :
  run (p ≫= f) s =
    match run p s with (Ok a, s') => run (f a) s' | (Raise e, s') => (Raise e, s') end.
Proof.
  revert s. induction p as [a|e|X op k IH]; intros s; simpl; [done..|].
  destruct (h X op s) as [x s']. apply IH.
Qed.

Lemma run_try {A} (p : prog E A) s :
  run (prog_try p) s = let '(r, s') := run p s in (Ok r, s').
Proof.
  revert s. induction p as [a|e|X op k IH]; intros s; simpl; [done..|].
  destruct (h X op s) as [x s']. apply IH.
Qed.

Lemma run_catch {A} (p : prog E A) H s :
  run (prog_catch H p) s =
    match run p s with (Raise e, s') => run (H e) s' | r => r end.
Proof.
  revert s. induction p as [a|e|X op k IH]; intros s; simpl; [done..|].
  destruct (h X op s) as [x s']. apply IH.
Qed.

Lemma run_lift {A} (m : res A) s : run (lift m) s = (m, s).
Proof. by destruct m. Qed.

Lemma run_call {A} (op : E (res A)) s : run (call op) s = h _ op s.
Proof. simpl. destruct (h _ op s) as [m s']. apply run_lift. Qed.

(** Total-correctness triples with a postcondition for exceptions. *)
Definition hoare {A} (P : S → Prop) (p : prog E A) (Q : A → S → Prop) (R : exn → S → Prop) : Prop :=
  ∀ s, P s → match run p s with (Ok a, s') => Q a s' | (Raise e, s') => R e s' end.

Lemma hoare_bind {A B} P Q Q' R (p : prog E A) (f : A → prog E B) :
  hoare P p Q R → (∀ a, hoare (Q a) (f a) Q' R) → hoare P (p ≫= f) Q' R.
Proof.
  intros Hp Hf s Hs. specialize (Hp s Hs). rewrite run_bind.
  destruct (run p s) as [[a|e] s']; [by apply Hf|done].
Qed.

Lemma hoare_conseq {A} (P P' : S → Prop) (Q Q' : A → S → Prop) (R R' : exn → S → Prop) p :
  hoare P p Q R → (∀ s, P' s → P s) → (∀ a s, Q a s → Q' a s) → (∀ e s, R e s → R' e s) →
  hoare P' p Q' R'.
Proof.
  intros Hp HP HQ HR s Hs. specialize (Hp s (HP s Hs)). destruct (run p s) as [[a|e] s']; auto.
Qed.
End run.

(** ** Interleaving *)

Section interleave.
Context {E : Type → Type} {S A : Type} (h : ∀ X, E X → S → X * S).

(** One operation of one process, or the failure of a process between two
    of its operations (a crash, a lost connection, a cancelled task). *)
Inductive step : S * list (prog E A) → S * list (prog E A) → Prop :=
  | step_op s ps i X (op : E X) k :
      ps !! i = Some (Vis op k) →
      step (s, ps) ((h X op s).2, <[i := k (h X op s).1]> ps)
  | step_crash s ps i e :
      i < length ps →
      step (s, ps) (s, <[i := Throw e]> ps).

(** A schedule names the process that moves next. *)
Fixpoint run_schedule (sched : list nat) (c : S * list (prog E A)) : S * list (prog E A) :=
  match sched with
  | [] => c
  | i :: sched =>
      run_schedule sched
        match c.2 !! i with
        | Some (Vis op k) => let '(x, s') := h _ op c.1 in (s', <[i := k x]> c.2)
        | _ => c
        end
  end.

Lemma run_schedule_steps sched c : rtc step c (run_schedule sched c).
Proof.
  revert c. induction sched as [|i sched IH]; intros [s ps]; simpl; [apply rtc_refl|].
  destruct (ps !! i) as [[a|e|X op k]|] eqn:Hi; try apply IH.
  destruct (h X op s) as [x s'] eqn:Hop.
  eapply rtc_l; [|apply IH].
  pose proof (step_op s ps i X op k Hi) as Hstep. by rewrite Hop in Hstep.
Qed.

(** *** Rely/guarantee

    [safe p s]: from a state the process last saw as [s], whatever the other
    processes do within the rely, every operation of [p] satisfies the
    guarantee and a normal return establishes [Q]. *)
Context (Rely Guar : S → S → Prop).

Fixpoint safe (Q : A → S → Prop) (p : prog E A) (s : S) : Prop :=
  match p with
  | Ret a => Q a s
  | Throw e => True
  | Vis op k =>
      ∀ s1, Rely s s1 → Guar s1 (h _ op s1).2 ∧ safe Q (k (h _ op s1).1) (h _ op s1).2
  end.

(** Process [i] may have its own postcondition [Qs i]. *)
Definition safe_at (Q : A → S → Prop) (s : S) (p : prog E A) : Prop :=
  ∃ s0, Rely s0 s ∧ safe Q p s0.
Definition all_safe (Qs : nat → A → S → Prop) (c : S * list (prog E A)) : Prop :=
  ∀ i p, c.2 !! i = Some p → safe_at (Qs i) c.1 p.

Context `{!PreOrder Rely} (guar_rely : ∀ s s', Guar s s' → Rely s s').

Lemma safe_at_rely Q s s' p : Rely s s' → safe_at Q s p → safe_at Q s' p.
Proof. intros Hs (s0 & ? & ?). exists s0. split; [by etrans|done]. Qed.

Lemma safe_step Qs c c' :
  step c c' → all_safe Qs c → (c'.1 = c.1 ∨ Guar c.1 c'.1) ∧ all_safe Qs c'.
Proof.
  intros [s ps i X op k Hi|s ps i e Hi] Hsafe; unfold all_safe in *; simpl in *.
  - destruct (Hsafe i _ Hi) as (s0 & Hr & Hp).
    destruct (Hp s Hr) as [HG Hk]. split; [by right|]. intros j p.
    destruct (decide (i = j)) as [<-|Hne].
    + rewrite list_lookup_insert_eq by by eapply lookup_lt_Some. intros [= <-]. by eexists.
    + rewrite list_lookup_insert_ne by done. intros Hj.
      eapply safe_at_rely; [by apply guar_rely|]. by apply Hsafe.
  - split; [by left|]. intros j p. destruct (decide (i = j)) as [<-|Hne].
    + rewrite list_lookup_insert_eq by done. intros [= <-]. by exists s.
    + rewrite list_lookup_insert_ne by done. apply Hsafe.
Qed.

Lemma safe_steps Qs c c' :
  rtc step c c' → all_safe Qs c → rtc Guar c.1 c'.1 ∧ all_safe Qs c'.
Proof.
  induction 1 as [c|c c1 c' Hstep Hsteps IH]; intros Hsafe; [by split; [apply rtc_refl|]|].
  destruct (safe_step _ _ _ Hstep Hsafe) as [HG Hsafe1].
  destruct (IH Hsafe1) as [HG' Hsafe']. split; [|done].
  destruct HG as [<-|HG]; [done|by eapply rtc_l].
Qed.

Lemma safe_steps_rely Qs c c' : rtc step c c' → all_safe Qs c → Rely c.1 c'.1.
Proof.
  intros Hsteps Hsafe. destruct (safe_steps _ _ _ Hsteps Hsafe) as [HG _].
  induction HG as [|s s1 s' HG HGs IH]; [reflexivity|]. etrans; [by apply guar_rely|done].
Qed.

Lemma safe_returned (Q : A → S → Prop) s a :
  (∀ s s', Rely s s' → Q a s → Q a s') → safe_at Q s (Ret a) → Q a s.
Proof. intros Hst (s0 & ? & ?). by eapply Hst. Qed.

End interleave.

(** *** Processes with a rely and a guarantee of their own *)

Section indexed.
Context {E : Type → Type} {S A : Type} (h : ∀ X, E X → S → X * S).
Context (Rely Guar : nat → S → S → Prop) `{!∀ i, PreOrder (Rely i)}.
Context (guar_rely : ∀ i j s s', i ≠ j → Guar i s s' → Rely j s s').

Definition each_safe (Qs : nat → A → S → Prop) (c : S * list (prog E A)) : Prop :=
  ∀ i p, c.2 !! i = Some p → safe_at h (Rely i) (Guar i) (Qs i) c.1 p.

Lemma each_safe_step Qs c c' : step h c c' → each_safe Qs c → each_safe Qs c'.
Proof.
  intros [s ps i X op k Hi|s ps i e Hi] Hsafe j p; unfold each_safe in *; simpl in *.
  - destruct (Hsafe i _ Hi) as (s0 & Hr & Hp). destruct (Hp s Hr) as [HG Hk].
    destruct (decide (i = j)) as [<-|Hne].
    + rewrite list_lookup_insert_eq by by eapply lookup_lt_Some. intros [= <-]. by eexists.
    + rewrite list_lookup_insert_ne by done. intros Hj. destruct (Hsafe j _ Hj) as (s1 & Hr1 & Hp1).
      exists s1. split; [|done]. etrans; [done|]. by eapply guar_rely.
  - destruct (decide (i = j)) as [<-|Hne].
    + rewrite list_lookup_insert_eq by done. intros [= <-]. by exists s.
    + rewrite list_lookup_insert_ne by done. apply Hsafe.
Qed.

Lemma each_safe_steps Qs c c' : rtc (step h) c c' → each_safe Qs c → each_safe Qs c'.
Proof.
  induction 1 as [c|c c1 c' Hstep Hsteps IH]; intros Hsafe; [done|].
  by eapply IH, each_safe_step.
Qed.
End indexed.

Lemma safe_bind {E S A B} (h : ∀ X, E X → S → X * S) Rely Guar
    (Q : A → S → Prop) (Q' : B → S → Prop) (p : prog E A) (f : A → prog E B) s :
  safe h Rely Guar Q p s →
  (∀ a s1, Q a s1 → safe h Rely Guar Q' (f a) s1) →
  safe h Rely Guar Q' (p ≫= f) s.
Proof.
  intros Hp Hf. revert s Hp. induction p as [a|e|X op k IH]; intros s Hp; simpl in *; [by auto|done|].
  intros s1 Hs. destruct (Hp s1 Hs) as [? Hk]. split; [done|]. by apply IH.
Qed.

Lemma safe_weaken {E S A} (h : ∀ X, E X → S → X * S) Rely Guar (Q Q' : A → S → Prop) p s :
  (∀ a s, Q a s → Q' a s) → safe h Rely Guar Q p s → safe h Rely Guar Q' p s.
Proof.
  intros HQ. revert s. induction p as [a|e|X op k IH]; intros s Hp; simpl in *; [by auto|done|].
  intros s1 Hs. destruct (Hp s1 Hs) as [? Hk]. split; [done|]. by apply IH.
Qed.

(** Running alone is the interleaving in which nobody else moves. *)
Lemma safe_run {E S A} (h : ∀ X, E X → S → X * S) Rely Guar (Q : A → S → Prop) p s a s' :
  Reflexive Rely →
  safe h Rely Guar Q p s → run h p s = (Ok a, s') → Q a s'.
Proof.
  intros Hrefl. revert s. induction p as [b|e|X op k IH]; intros s Hp Hrun; simpl in *.
  - by injection Hrun as -> ->.
  - discriminate.
  - destruct (Hp s (Hrefl s)) as [_ Hk]. destruct (h X op s) as [x s1]. by apply (IH x s1).
Qed.

(** ** Programs that only read *)
Section reads.
Context {E : Type → Type} {S : Type} (h : ∀ X, E X → S → X * S).

Fixpoint reads_only {A} (p : prog E A) : Prop :=
  match p with
  | Vis op k => (∀ s, (h _ op s).2 = s) ∧ ∀ x, reads_only (k x)
  | _ => True
  end.

Lemma reads_only_run {A} (p : prog E A) s : reads_only p → (run h p s).2 = s.
Proof.
  revert s. induction p as [a|e|X op k IH]; intros s; simpl; [done..|].
  intros [Hop Hk]. specialize (Hop s). destruct (h X op s) as [x s']. simpl in Hop. subst s'.
  by apply IH.
Qed.

Lemma reads_only_bind {A B} (p : prog E A) (f : A → prog E B) :
  reads_only p → (∀ a, reads_only (f a)) → reads_only (p ≫= f).
Proof.
  intros Hp Hf. induction p as [a|e|X op k IH]; simpl in *; [by apply Hf|done|].
  destruct Hp as [Hop Hk]. split; [done|]. intros x. by apply IH.
Qed.

Lemma reads_only_try {A} (p : prog E A) : reads_only p → reads_only (prog_try p).
Proof.
  induction p as [a|e|X op k IH]; simpl in *; [done..|].
  intros [Hop Hk]. split; [done|]. intros x. by apply IH.
Qed.

Lemma reads_only_lift {A} (m : res A) : reads_only (lift m).
Proof. by destruct m. Qed.
End reads.
#[export] Hint Resolve reads_only_bind reads_only_try reads_only_lift : py.

(** ** Programs against any environment

    [ok op t]: the call is allowed after the history [t]; [may op t x]: the
    environment may answer it with [x]; [record op x t] is the history with
    that answer.  [wp p Q t]: whatever the environment answers, every call of
    [p] is allowed, and it ends with a result and a history in [Q]. *)
Section wp.
Context {E : Type → Type} {T : Type}.
Context (ok : ∀ X, E X → T → Prop) (may : ∀ X, E X → T → X → Prop) (record : ∀ X, E X → X → T → T).

Fixpoint wp {A} (p : prog E A) (Q : res A → T → Prop) (t : T) : Prop :=
  match p with
  | Ret a => Q (Ok a) t
  | Throw e => Q (Raise e) t
  | Vis op k => ok _ op t ∧ ∀ x, may _ op t x → wp (k x) Q (record _ op x t)
  end.

Lemma wp_conseq {A} (Q Q' : res A → T → Prop) p t :
  wp p Q t → (∀ r t', Q r t' → Q' r t') → wp p Q' t.
Proof.
  intros Hp HQ. revert t Hp. induction p as [a|e|X op k IH]; intros t Hp; simpl in *; [by auto..|].
  destruct Hp. auto.
Qed.

Lemma wp_bind {A B} (f : A → prog E B) (Q : res B → T → Prop) p t :
  wp p (λ r t', match r with Ok a => wp (f a) Q t' | Raise e => Q (Raise e) t' end) t →
  wp (p ≫= f) Q t.
Proof.
  revert t. induction p as [a|e|X op k IH]; intros t Hp; [exact Hp|exact Hp|].
  split; [apply Hp|]. intros x Hx. by apply IH, Hp.
Qed.

Lemma wp_try {A} (Q : res (res A) → T → Prop) (p : prog E A) t :
  wp p (λ r t', Q (Ok r) t') t → wp (prog_try p) Q t.
Proof.
  revert t. induction p as [a|e|X op k IH]; intros t Hp; [exact Hp|exact Hp|].
  split; [apply Hp|]. intros x Hx. by apply IH, Hp.
Qed.

Lemma wp_lift {A} (Q : res A → T → Prop) (m : res A) t : Q m t → wp (lift m) Q t.
Proof. by destruct m. Qed.

Lemma wp_perform {X} (op : E X) (Q : res X → T → Prop) t :
  ok _ op t → (∀ x, may _ op t x → Q (Ok x) (record _ op x t)) → wp (perform op) Q t.
Proof. done. Qed.

Lemma wp_call {A} (op : E (res A)) (Q : res A → T → Prop) t :
  ok _ op t → (∀ m, may _ op t m → Q m (record _ op m t)) → wp (call op) Q t.
Proof. intros Hok H. split; [done|]. intros m Hm. apply wp_lift. auto. Qed.

(** A handler whose answers the environment may give. *)
Lemma wp_run {S A} (h : ∀ X, E X → S → X * S) (R : S → T → Prop)
    (p : prog E A) (Q : res A → T → Prop) s t :
  (∀ X (op : E X) s t, R s t → ok _ op t → may _ op t (h _ op s).1 ∧ R (h _ op s).2 (record _ op (h _ op s).1 t)) →
  wp p Q t → R s t → ∃ t', Q (run h p s).1 t' ∧ R (run h p s).2 t'.
Proof.
  intros Hh. revert s t. induction p as [a|e|X op k IH]; intros s t Hp HR; simpl in *; [by eauto..|].
  destruct Hp as [Hok Hp]. destruct (Hh _ op s t HR Hok) as [Hm HR']. destruct (h X op s) as [x s'].
  by eapply IH; [apply Hp|].
Qed.
End wp.

(** Processes that keep histories of their own in a shared world. *)
Section wp_interleaved.
Context {E : Type → Type} {S T A : Type} (h : ∀ X, E X → S → X * S).
Context (ok : ∀ X, E X → T → Prop) (may : ∀ X, E X → T → X → Prop) (record : ∀ X, E X → X → T → T).
Context (R : S → list T → Prop).
Context (R_step : ∀ X (op : E X) s ts i t, R s ts → ts !! i = Some t → ok _ op t →
  may _ op t (h _ op s).1 ∧ R (h _ op s).2 (<[i := record _ op (h _ op s).1 t]> ts)).

Definition all_wp (Q : res A → T → Prop) (ps : list (prog E A)) (ts : list T) : Prop :=
  Forall2 (λ p t, (∃ e, p = Throw e) ∨ wp ok may record p Q t) ps ts.

(** Whatever the order of the operations, and whichever processes are killed,
    each history is one the process may have. *)
Lemma wp_steps Q c c' ts :
  rtc (step h) c c' → all_wp Q c.2 ts → R c.1 ts → ∃ ts', all_wp Q c'.2 ts' ∧ R c'.1 ts'.
Proof using R_step.
  intros Hsteps. revert ts. induction Hsteps as [c|c c1 c' Hstep _ IH]; intros ts Hall HR; [by eauto|].
  assert (∃ ts1, all_wp Q c1.2 ts1 ∧ R c1.1 ts1) as (ts1 & Hall1 & HR1); [|by eapply IH].
  destruct Hstep as [s ps i X op k Hi|s ps i e Hi]; simpl in *.
  - destruct (Forall2_lookup_l _ _ _ _ _ Hall Hi) as (t & Ht & [[e He]|[Hok Hp]]); [done|].
    destruct (R_step _ op _ _ _ _ HR Ht Hok) as [Hm HR']. eexists. split; [|exact HR'].
    apply Forall2_insert; [done|]. right. by apply Hp.
  - exists ts. split; [|done].
    destruct (lookup_lt_is_Some_2 ps i Hi) as [p Hp].
    destruct (Forall2_lookup_l _ _ _ _ _ Hall Hp) as (t & Ht & _).
    rewrite <- (list_insert_id ts i t) by done. apply Forall2_insert; [done|]. left. by eexists.
Qed.
End wp_interleaved.

(** One step of a program, whatever it is; the calls' obligations and answers
    are left to the user. *)
Ltac wp_step :=
  lazymatch goal with
  | |- wp _ _ _ (_ ≫= _) _ _ => apply wp_bind
  | |- wp _ _ _ (prog_try _) _ _ => apply wp_try
  | |- wp _ _ _ (lift _) _ _ => apply wp_lift
  | |- wp _ _ _ (perform _) _ _ => apply wp_perform; [|intros ?x ?Hx]
  | |- wp _ _ _ (call _) _ _ => apply wp_call; [|intros ?m ?Hm]
  | |- wp _ _ _ (Ret _) _ _ => cbn [wp]
  | |- wp _ _ _ (Throw _) _ _ => cbn [wp]
  | |- wp _ _ _ (match ?x with _ => _ end) _ _ => destruct x eqn:?
  end.
