(* ===== verification/KVStore.v ===== *)
(** * The JetStream key/value bucket

    NATS itself is outside this repository.  The services rely on three
    documented operations of a bucket, each atomic at the server: [get]
    returns the latest value with its revision, [create] succeeds only on an
    absent key, [update] succeeds only when the caller names the current
    revision.  [KVBucket] is that interface, [KVLaws] its documented
    behaviour; every client theorem is proved against the laws.  [MemBucket]
    at the end of the file is a concrete bucket that satisfies them. *)

From S2P Require Import Prelude PyFloat PyValue Program.

Class KVBucket (S : Type) := {
  bk_get : string → S → res (pyval * Z);
  bk_create : string → pyval → S → res Z * S;
  bk_update : string → pyval → Z → S → res Z * S;
  bk_keys : S → res (list string);
}.

(** The exceptions nats-py raises for the three refusals. *)
Definition is_key_missing (e : exn) : bool :=
  match e with
  | NatsError cls _ _ => bool_decide (cls ∈ ["KeyNotFoundError"; "KeyDeletedError"])
  | _ => false
  end.
Definition is_wrong_sequence (e : exn) : bool :=
  match e with NatsError cls _ _ => String.eqb cls "KeyWrongLastSequenceError" | _ => false end.
Definition is_no_keys (e : exn) : bool :=
  match e with NatsError cls _ _ => String.eqb cls "NoKeysError" | _ => false end.

(** [s'] is [s] with [k] now holding [v] at revision [r]. *)
Definition bk_written {S} `{KVBucket S} (k : string) (v : pyval) (r : Z) (s s' : S) : Prop :=
  bk_get k s' = Ok (v, r) ∧ ∀ k', k' ≠ k → bk_get k' s' = bk_get k' s.

Class KVLaws (S : Type) `{KVBucket S} : Prop := {
  law_get_missing k s e : bk_get k s = Raise e → is_key_missing e = true;
  law_create_absent k v s e :
    bk_get k s = Raise e →
    ∃ r s', bk_create k v s = (Ok r, s') ∧ bk_written k v r s s';
  law_create_present k v s x :
    bk_get k s = Ok x →
    ∃ e, bk_create k v s = (Raise e, s) ∧ is_wrong_sequence e = true;
  law_update_current k v v0 r0 s :
    bk_get k s = Ok (v0, r0) →
    ∃ r s', bk_update k v r0 s = (Ok r, s') ∧ (r0 < r)%Z ∧ bk_written k v r s s';
  law_update_stale k v r s :
    (∀ v0, bk_get k s ≠ Ok (v0, r)) →
    ∃ e, bk_update k v r s = (Raise e, s) ∧ is_wrong_sequence e = true;
  law_keys s :
    match bk_keys s with
    | Ok ks => ∀ k, k ∈ ks ↔ is_ok (bk_get k s) = true
    | Raise e => is_no_keys e = true ∧ ∀ k, is_ok (bk_get k s) = false
    end;
}.

(** ** Operations as events *)

Inductive bucketE : Type → Type :=
  | BGet (k : string) : bucketE (res (pyval * Z))
  | BCreate (k : string) (v : pyval) : bucketE (res Z)
  | BUpdate (k : string) (v : pyval) (r : Z) : bucketE (res Z)
  | BKeys : bucketE (res (list string)).

Definition bucket_handle {S} `{KVBucket S} (X : Type) (op : bucketE X) : S → X * S :=
  match op with
  | BGet k => λ s, (bk_get k s, s)
  | BCreate k v => bk_create k v
  | BUpdate k v r => bk_update k v r
  | BKeys => λ s, (bk_keys s, s)
  end.

(** ** What every client can rely on

    Between two operations of one client the bucket only evolves: keys are
    never removed, revisions never go back, and a key at the same revision
    still has the same value. *)
Section evolves.
Context {S : Type} `{KVLaws S}.

Definition evolves (s s' : S) : Prop :=
  ∀ k v r, bk_get k s = Ok (v, r) →
    ∃ v' r', bk_get k s' = Ok (v', r') ∧ (r ≤ r')%Z ∧ (r' = r → v' = v).

#[export] Instance evolves_preorder : PreOrder evolves.
Proof.
  split.
  - intros s k v r Hk. exists v, r. by split_and!.
  - intros s1 s2 s3 H12 H23 k v r Hk.
    destruct (H12 _ _ _ Hk) as (v2 & r2 & Hk2 & ? & Hv2).
    destruct (H23 _ _ _ Hk2) as (v3 & r3 & Hk3 & ? & Hv3).
    exists v3, r3. split_and!; [done|lia|]. intros ->.
    assert (r2 = r) as -> by lia. rewrite Hv3; auto.
Qed.

Lemma written_absent_evolves k v r e s s' :
  bk_get k s = Raise e → bk_written k v r s s' → evolves s s'.
Proof.
  intros Habs [Hk Hne] k' v' r' Hk'. destruct (decide (k' = k)) as [->|]; [by rewrite Habs in Hk'|].
  exists v', r'. rewrite Hne by done. by split_and!.
Qed.

Lemma written_current_evolves k v v0 r r0 s s' :
  bk_get k s = Ok (v0, r0) → (r0 < r)%Z → bk_written k v r s s' → evolves s s'.
Proof.
  intros Hcur Hr [Hk Hne] k' v' r' Hk'. destruct (decide (k' = k)) as [->|].
  - rewrite Hcur in Hk'. injection Hk' as <- <-.
    exists v, r. split_and!; [done|lia|intros ->; exfalso; lia].
  - exists v', r'. rewrite Hne by done. by split_and!.
Qed.

(** The three writing outcomes of an operation. *)
Lemma create_cases k v s :
  (∃ e r s', bk_get k s = Raise e ∧ bk_create k v s = (Ok r, s') ∧ bk_written k v r s s') ∨
  (∃ x e, bk_get k s = Ok x ∧ bk_create k v s = (Raise e, s) ∧ is_wrong_sequence e = true).
Proof.
  destruct (bk_get k s) as [x|e] eqn:Hk.
  - right. destruct (law_create_present k v s x Hk) as (e & ? & ?). eauto 10.
  - left. destruct (law_create_absent k v s e Hk) as (r & s' & ? & ?). eauto 10.
Qed.

Lemma update_cases k v r s :
  (∃ v0 r' s', bk_get k s = Ok (v0, r) ∧ bk_update k v r s = (Ok r', s') ∧
     (r < r')%Z ∧ bk_written k v r' s s') ∨
  (∃ e, (∀ v0, bk_get k s ≠ Ok (v0, r)) ∧ bk_update k v r s = (Raise e, s) ∧
     is_wrong_sequence e = true).
Proof.
  destruct (bk_get k s) as [[v0 r0]|e] eqn:Hk.
  - destruct (decide (r0 = r)) as [->|Hne].
    + left. destruct (law_update_current k v v0 r s Hk) as (r' & s' & ? & ? & ?). eauto 10.
    + right. destruct (law_update_stale k v r s) as (e & ? & ?); [congruence|].
      exists e. split_and!; congruence.
  - right. destruct (law_update_stale k v r s) as (e' & ? & ?); [congruence|].
    exists e'. split_and!; congruence.
Qed.

Lemma handle_evolves X (op : bucketE X) s : evolves s (bucket_handle X op s).2.
Proof.
  destruct op as [k|k v|k v r|]; simpl; try reflexivity.
  - destruct (create_cases k v s) as [(e & r & s' & Hk & -> & Hw)|(x & e & Hk & -> & _)];
      simpl; [by eapply written_absent_evolves|reflexivity].
  - destruct (update_cases k v r s) as [(v0 & r' & s' & Hk & -> & Hr & Hw)|(e & Hk & -> & _)];
      simpl; [by eapply written_current_evolves|reflexivity].
Qed.
End evolves.

(** ** An in-memory bucket *)

Record mem_bucket := MemBucket {
  mb_sequence : Z;
  mb_entries : gmap string (pyval * Z);
}.

Definition mem_empty : mem_bucket := MemBucket 0 ∅.

Definition key_not_found : exn := NatsError "KeyNotFoundError" (Some 404%Z) "nats: key not found".
Definition wrong_last_sequence : exn :=
  NatsError "KeyWrongLastSequenceError" (Some 400%Z) "nats: wrong last sequence".
Definition no_keys : exn := NatsError "NoKeysError" None "nats: no keys found".

Definition mem_put (k : string) (v : pyval) (s : mem_bucket) : res Z * mem_bucket :=
  let r := (Z.max (mb_sequence s) (default 0 (snd <$> mb_entries s !! k)) + 1)%Z in
  (Ok r, MemBucket r (<[k := (v, r)]> (mb_entries s))).

#[export] Instance mem_kv : KVBucket mem_bucket := {
  bk_get k s := match mb_entries s !! k with Some x => Ok x | None => Raise key_not_found end;
  bk_create k v s :=
    match mb_entries s !! k with
    | Some _ => (Raise wrong_last_sequence, s)
    | None => mem_put k v s
    end;
  bk_update k v r s :=
    match mb_entries s !! k with
    | Some (_, r0) =>
        if decide (r0 = r) then mem_put k v s else (Raise wrong_last_sequence, s)
    | None => (Raise wrong_last_sequence, s)
    end;
  bk_keys s :=
    match (map_to_list (mb_entries s)).*1 with [] => Raise no_keys | ks => Ok ks end;
}.

Lemma mem_put_written k v s : bk_written k v (mb_sequence (mem_put k v s).2) s (mem_put k v s).2.
Proof.
  unfold bk_written. simpl. rewrite lookup_insert_eq. split; [done|].
  intros k' Hne. by rewrite (lookup_insert_ne (mb_entries s)) by done.
Qed.

#[export] Instance mem_kv_laws : KVLaws mem_bucket.
Proof.
  split.
  - intros k s e. simpl. destruct (mb_entries s !! k); [done|]. by intros [= <-].
  - intros k v s e Hk. simpl in *. destruct (mb_entries s !! k) eqn:E; [done|].
    eexists _, _. split; [done|apply mem_put_written].
  - intros k v s x Hk. simpl in *. destruct (mb_entries s !! k); [|done]. by eexists.
  - intros k v v0 r0 s Hk. simpl in *. destruct (mb_entries s !! k) as [[v1 r1]|] eqn:E; [|done].
    simplify_eq. rewrite decide_True by done. eexists _, _. split_and!; [done| |apply mem_put_written].
    simpl. rewrite E. simpl. lia.
  - intros k v r s Hk. simpl in *. destruct (mb_entries s !! k) as [[v1 r1]|]; [|by eexists].
    rewrite decide_False; [by eexists|]. intros ->. by apply (Hk v1).
  - intros s. simpl.
    assert (∀ k, k ∈ (map_to_list (mb_entries s)).*1 ↔ is_ok (bk_get k s) = true) as Hin.
    { intros k. rewrite list_elem_of_fmap. simpl. split.
      - intros ([k' x] & -> & Hx%elem_of_map_to_list). simpl. by rewrite Hx.
      - destruct (mb_entries s !! k) as [x|] eqn:E; [|done]. intros _.
        exists (k, x). by rewrite elem_of_map_to_list. }
    destruct (map_to_list (mb_entries s)).*1 as [|k0 ks] eqn:E; [|done].
    split; [done|]. intros k. destruct (is_ok _) eqn:Hk; [|done].
    apply Hin in Hk. by apply elem_of_nil in Hk.
Qed.
