(* ===== verification/CatalogKV.v ===== *)
(** * The shared recommendation catalog (recommendationservice/catalog_kv.py)

    Every replica of the recommendation service applies catalog events to one
    JetStream bucket with compare-and-set.  [apply_product] is a program over
    the bucket; its theorems cover one replica alone (every branch, and the
    agreement of the product index), and any number of replicas interleaved
    (no acknowledged version is lost).  The last section exhibits the
    interleaving in which the index ends up disagreeing with the product. *)

From S2P Require Import Prelude PyFloat PyValue Program KVStore.

(** ** The bucket adapter (class [_NATSCatalogStore] of nats_events.py) *)

(** [nats_events.py:252-256 _kv_not_found] *)
Definition kv_not_found (error : exn) : bool :=
  bool_decide (exn_class error ∈ ["KeyNotFoundError"; "KeyDeletedError"])
  || bool_decide (exn_code error = Some 404%Z).

(** [nats_events.py:259-264 _kv_conflict] *)
Definition kv_conflict (error : exn) : bool :=
  let message := str_lower (exn_str error) in
  bool_decide (exn_class error ∈ ["KeyWrongLastSequenceError"; "KeyExistsError"])
  || str_contains "wrong last sequence" message.

(** [nats_events.py:218-225 _NATSCatalogStore.get] *)
Definition store_get (key : string) : prog bucketE (pyval * Z) :=
  r ← perform (BGet key);
  match r with
  | Ok (value, revision) => Ret (value, revision)
  | Raise error => Throw (if kv_not_found error then CatalogNotFound key else error)
  end.

(** [nats_events.py:227-233 _NATSCatalogStore.create] *)
Definition store_create (key : string) (value : pyval) : prog bucketE Z :=
  r ← perform (BCreate key value);
  match r with
  | Ok revision => Ret revision
  | Raise error => Throw (if kv_conflict error then CatalogConflict key else error)
  end.

(** [nats_events.py:235-241 _NATSCatalogStore.update] *)
Definition store_update (key : string) (value : pyval) (revision : Z) : prog bucketE Z :=
  r ← perform (BUpdate key value revision);
  match r with
  | Ok revision => Ret revision
  | Raise error => Throw (if kv_conflict error then CatalogConflict key else error)
  end.

(** [nats_events.py:243-249 _NATSCatalogStore.keys] *)
Definition store_keys : prog bucketE (list string) :=
  r ← perform BKeys;
  match r with
  | Ok ks => Ret ks
  | Raise error =>
      if String.eqb (exn_class error) "NoKeysError" then Ret [] else Throw error
  end.

(** ** Records *)

(** [catalog_kv.py:30-30 CATALOG_INDEX_KEY] *)
Definition CATALOG_INDEX_KEY : string := "catalog-products".
Definition CATALOG_KEY : string := "catalog".

(** The dictionary [_apply_catalog] builds from a decoded product event.
    [nats_events.py:275-282 _apply_catalog] *)
Record product_record := ProductRecord {
  pr_product_id : string;
  pr_product_version : Z;
  pr_catalog_revision : Z;
  pr_removed : bool;
  pr_source_event_id : string;
  pr_source_version : Z;
}.

Definition product_json (r : product_record) : pyval :=
  json_dumps (PDict [
    ("product_id", PStr (pr_product_id r));
    ("product_version", PInt (pr_product_version r));
    ("catalog_revision", PInt (pr_catalog_revision r));
    ("removed", PBool (pr_removed r));
    ("source_event_id", PStr (pr_source_event_id r));
    ("source_version", PInt (pr_source_version r))]).

(** [nats_events.py:299-305 _apply_catalog] *)
Record snapshot_record := SnapshotRecord {
  sr_catalog_revision : Z;
  sr_product_count : Z;
  sr_checksum : string;
  sr_source_event_id : string;
  sr_source_version : Z;
}.

Definition snapshot_json (r : snapshot_record) : pyval :=
  json_dumps (PDict [
    ("catalog_revision", PInt (sr_catalog_revision r));
    ("product_count", PInt (sr_product_count r));
    ("checksum", PStr (sr_checksum r));
    ("source_event_id", PStr (sr_source_event_id r));
    ("source_version", PInt (sr_source_version r))]).

(** [json.dumps({"product_ids": ids}, sort_keys=True)] *)
Definition index_json (ids : list string) : pyval :=
  json_dumps (PDict [("product_ids", PList (PStr <$> ids))]).

(** [catalog_kv.py:33-36 product_key] *)
Definition product_key (product_id : string) : res string :=
  if String.eqb product_id ""
     || existsb (λ character, str_contains_char character product_id) (chars ".*> /\")
  then Raise (ValueError "product ID cannot be represented as a KV key")
  else Ok ("product." +:+ product_id).

(** The comprehension [{str(c) for c in v.get("product_ids", []) if str(c)}]
    shared by the index readers. *)
Definition index_ids (current : pyval) : res (gset string) :=
  l ← py_get current "product_ids" (PList []);
  l ← py_iter l;
  Ok (list_to_set (filter (λ s, s ≠ "") (py_str <$> l))).

(** ** Operations *)

(** The loop over the stored keys of [ensure_catalog_index].
    [catalog_kv.py:48-57 ensure_catalog_index] *)
Fixpoint collect_products (ks : list string) (acc : list string) : prog bucketE (list string) :=
  match ks with
  | [] => Ret acc
  | key :: ks =>
      if negb (str_startswith "product." key) then collect_products ks acc
      else
        r ← prog_try (store_get key);
        match r with
        | Raise (CatalogNotFound _) => collect_products ks acc
        | Raise e => Throw e
        | Ok (record, _) =>
            v ← lift (py_get record "product_id" (PStr ""));
            removed ← lift (py_get record "removed" (PBool false));
            let product_id := py_str v in
            if negb (String.eqb product_id "") && negb (py_truth removed)
            then collect_products ks (acc ++ [product_id])
            else collect_products ks acc
        end
  end.

(** [catalog_kv.py:39-69 ensure_catalog_index] *)
Definition ensure_catalog_index : prog bucketE string :=
  r ← prog_try (store_get CATALOG_INDEX_KEY);
  match r with
  | Ok _ => Ret "existing"
  | Raise (CatalogNotFound _) =>
      ks ← store_keys;
      product_ids ← collect_products ks [];
      let encoded := index_json (sorted_strings (list_to_set product_ids)) in
      c ← prog_try (store_create CATALOG_INDEX_KEY encoded);
      match c with
      | Ok _ => Ret "created"
      | Raise (CatalogConflict _) => Ret "existing"
      | Raise e => Throw e
      end
  | Raise e => Throw e
  end.

(** One compare-and-set loop, shared by products ([version_field] is
    "product_version") and the snapshot ("catalog_revision"); [n] counts the
    remaining attempts.  [catalog_kv.py:79-103 apply_product] *)
Fixpoint cas_loop (key version_field event_id : string) (incoming : Z) (encoded : pyval)
    (n : nat) : prog bucketE (option string) :=
  match n with
  | O => Ret None
  | S n =>
      r ← prog_try (store_get key);
      match r with
      | Raise (CatalogNotFound _) =>
          c ← prog_try (store_create key encoded);
          match c with
          | Ok _ => Ret (Some "created")
          | Raise (CatalogConflict _) =>
              cas_loop key version_field event_id incoming encoded n
          | Raise e => Throw e
          end
      | Raise e => Throw e
      | Ok (current, revision) =>
          source ← lift (py_get current "source_event_id" PNone);
          if py_eqb source (PStr event_id) then Ret (Some "duplicate") else
          v ← lift (py_get current version_field (PInt 0));
          stored ← lift (py_int v);
          if (incoming <=? stored)%Z then Ret (Some "stale") else
          u ← prog_try (store_update key encoded revision);
          match u with
          | Ok _ => Ret (Some "updated")
          | Raise (CatalogConflict _) =>
              cas_loop key version_field event_id incoming encoded n
          | Raise e => Throw e
          end
      end
  end.

(** The retry loop of [_reconcile_catalog_index].
    [catalog_kv.py:119-158 _reconcile_catalog_index] *)
Fixpoint reconcile_loop (product_id : string) (removed : bool) (n : nat) : prog bucketE unit :=
  match n with
  | O => Throw (CatalogConflict "catalog product-index CAS retry limit reached")
  | S n =>
      r ← prog_try (store_get CATALOG_INDEX_KEY);
      match r with
      | Raise (CatalogNotFound _) =>
          let product_ids := if removed then [] else [product_id] in
          c ← prog_try (store_create CATALOG_INDEX_KEY (index_json product_ids));
          match c with
          | Ok _ => Ret tt
          | Raise (CatalogConflict _) => reconcile_loop product_id removed n
          | Raise e => Throw e
          end
      | Raise e => Throw e
      | Ok (current, revision) =>
          before ← lift (index_ids current);
          let product_ids := if removed then before ∖ {[product_id]} else {[product_id]} ∪ before in
          if decide (product_ids = before) then Ret tt else
          u ← prog_try (store_update CATALOG_INDEX_KEY
                          (index_json (sorted_strings product_ids)) revision);
          match u with
          | Ok _ => Ret tt
          | Raise (CatalogConflict _) => reconcile_loop product_id removed n
          | Raise e => Throw e
          end
      end
  end.

(** [catalog_kv.py:108-158 _reconcile_catalog_index] *)
Definition reconcile_catalog_index (key : string) (max_attempts : nat) : prog bucketE unit :=
  r ← prog_try (store_get key);
  match r with
  | Raise (CatalogNotFound _) => Ret tt
  | Raise e => Throw e
  | Ok (product_record, _) =>
      v ← lift (py_get product_record "product_id" (PStr ""));
      let product_id := py_str v in
      if String.eqb product_id ""
      then Throw (ValueError "stored catalog product has no identity")
      else
        removed ← lift (py_get product_record "removed" (PBool false));
        reconcile_loop product_id (py_truth removed) max_attempts
  end.

(** [catalog_kv.py:72-105 apply_product] *)
Definition apply_product (record : product_record) (max_attempts : nat) : prog bucketE string :=
  key ← lift (product_key (pr_product_id record));
  let incoming_version := pr_product_version record in
  if (incoming_version <=? 0)%Z || String.eqb (pr_source_event_id record) ""
  then Throw (ValueError "catalog record is missing version or source event identity")
  else
    let encoded := product_json record in
    outcome ← cas_loop key "product_version" (pr_source_event_id record)
                incoming_version encoded max_attempts;
    match outcome with
    | None => Throw (CatalogConflict ("catalog CAS retry limit reached for " +:+ key))
    | Some outcome =>
        _ ← reconcile_catalog_index key max_attempts;
        Ret outcome
    end.

(** [catalog_kv.py:161-185 apply_snapshot] *)
Definition apply_snapshot (record : snapshot_record) (max_attempts : nat) : prog bucketE string :=
  let incoming_revision := sr_catalog_revision record in
  if (incoming_revision <=? 0)%Z || String.eqb (sr_source_event_id record) ""
  then Throw (ValueError "catalog snapshot is missing revision or source event identity")
  else
    let encoded := snapshot_json record in
    outcome ← cas_loop CATALOG_KEY "catalog_revision" (sr_source_event_id record)
                incoming_revision encoded max_attempts;
    match outcome with
    | None => Throw (CatalogConflict "catalog snapshot CAS retry limit reached")
    | Some outcome => Ret outcome
    end.

(** [catalog_kv.py:188-212 catalog_snapshot] *)
Definition catalog_snapshot : prog bucketE (list string * Z) :=
  r ← prog_try (store_get CATALOG_KEY);
  match r with
  | Raise (CatalogNotFound _) => Throw (CatalogNotReady "catalog snapshot has not completed")
  | Raise e => Throw e
  | Ok (snapshot, _) =>
      v ← lift (py_get snapshot "catalog_revision" (PInt 0));
      catalog_revision ← lift (py_int v);
      if (catalog_revision <=? 0)%Z
      then Throw (CatalogNotReady "catalog snapshot revision is invalid")
      else
        i ← prog_try (store_get CATALOG_INDEX_KEY);
        match i with
        | Raise (CatalogNotFound _) =>
            Throw (CatalogNotReady "catalog product index is unavailable")
        | Raise e => Throw e
        | Ok (index, _) =>
            ids ← lift (index_ids index);
            let product_ids := sorted_strings ids in
            c ← lift (py_get snapshot "product_count" (PInt 0));
            count ← lift (py_int c);
            if (Z.of_nat (length product_ids) <? count)%Z
            then Throw (CatalogNotReady "catalog product index is incomplete")
            else Ret (product_ids, catalog_revision)
        end
  end.

Section candidates.
(** [random.Random(seed).sample(population, k)]: the seeded generator of the
    Python library, of which the code relies on drawing [k] members of the
    population without replacement. *)
Context (sample : string → list string → nat → list string).

(** [catalog_kv.py:215-226 select_candidates] *)
Definition select_candidates (product_ids : list string) (catalog_revision : Z)
    (excluded : gset string) (seed model_revision : string) (limit : Z)
    : res (list string * Z) :=
  let available := filter (λ product_id, product_id ∉ excluded) product_ids in
  let count := Z.min limit (Z.of_nat (length available)) in
  let nul := String (Ascii.ascii_of_nat 0) "" in
  let deterministic_seed := str_join nul [seed; model_revision; pretty catalog_revision] in
  if (count <? 0)%Z
  then Raise (ValueError "Sample larger than population or is negative")
  else Ok (sample deterministic_seed available (Z.to_nat count), catalog_revision).

(** [catalog_kv.py:229-233 catalog_candidates] *)
Definition catalog_candidates (excluded : gset string) (seed model_revision : string) (limit : Z)
    : prog bucketE (list string * Z) :=
  '(product_ids, catalog_revision) ← catalog_snapshot;
  lift (select_candidates product_ids catalog_revision excluded seed model_revision limit).
End candidates.

(** ** One replica alone *)

Lemma missing_not_found e : is_key_missing e = true → kv_not_found e = true.
Proof.
  destruct e; try done. unfold is_key_missing, kv_not_found. simpl.
  intros ->. done.
Qed.

Lemma wrong_sequence_conflict e : is_wrong_sequence e = true → kv_conflict e = true.
Proof.
  destruct e; try done. unfold is_wrong_sequence, kv_conflict. simpl.
  intros ->%String.eqb_eq. done.
Qed.

Lemma no_keys_class e : is_no_keys e = true → String.eqb (exn_class e) "NoKeysError" = true.
Proof. by destruct e. Qed.

Section sequential.
Context {S : Type} `{KVLaws S}.
Implicit Types (s : S).

Abbreviation run := (run (E := bucketE) (S := S) bucket_handle).

Lemma run_store_get k s :
  run (store_get k) s =
    (match bk_get k s with Ok x => Ok x | Raise _ => Raise (CatalogNotFound k) end, s).
Proof.
  simpl. destruct (bk_get k s) as [[v r]|e] eqn:Hk; simpl; [done|].
  by rewrite missing_not_found by by eapply law_get_missing.
Qed.

Lemma run_create_absent k v s e :
  bk_get k s = Raise e →
  ∃ r s', run (store_create k v) s = (Ok r, s') ∧ bk_written k v r s s'.
Proof.
  intros Hk. destruct (law_create_absent k v s e Hk) as (r & s' & Hc & Hw).
  exists r, s'. simpl. by rewrite Hc.
Qed.

Lemma run_create_present k v s x :
  bk_get k s = Ok x → run (store_create k v) s = (Raise (CatalogConflict k), s).
Proof.
  intros Hk. destruct (law_create_present k v s x Hk) as (e & Hc & He).
  simpl. rewrite Hc. simpl. by rewrite wrong_sequence_conflict.
Qed.

Lemma run_update_current k v v0 r0 s :
  bk_get k s = Ok (v0, r0) →
  ∃ r s', run (store_update k v r0) s = (Ok r, s') ∧ bk_written k v r s s'.
Proof.
  intros Hk. destruct (law_update_current k v v0 r0 s Hk) as (r & s' & Hc & _ & Hw).
  exists r, s'. simpl. by rewrite Hc.
Qed.

(** What the compare-and-set loop decides from the stored value it read. *)
Definition cas_decide (version_field event_id : string) (incoming : Z) (stored : option pyval)
    : res string :=
  match stored with
  | None => Ok "created"
  | Some current =>
      source ← py_get current "source_event_id" PNone;
      if py_eqb source (PStr event_id) then Ok "duplicate" else
      v ← py_get current version_field (PInt 0);
      n ← py_int v;
      Ok (if (incoming <=? n)%Z then "stale" else "updated")
  end.

Definition stored_at (k : string) s : option pyval :=
  match bk_get k s with Ok (v, _) => Some v | Raise _ => None end.

(** Alone, the loop takes one attempt, writes exactly on the outcomes
    "created" and "updated", and touches no other key. *)
Lemma run_cas_loop key field event incoming encoded n s o :
  cas_decide field event incoming (stored_at key s) = Ok o →
  ∃ s', run (cas_loop key field event incoming encoded (Datatypes.S n)) s = (Ok (Some o), s') ∧
    (if decide (o ∈ ["created"; "updated"]) then ∃ r, bk_written key encoded r s s' else s' = s).
Proof.
  unfold stored_at. intros Hd. simpl.
  destruct (bk_get key s) as [[current r]|e] eqn:Hk; simpl in Hd |- *.
  - destruct (py_get current "source_event_id" PNone) as [source|] eqn:?; simpl in *; [|done].
    destruct (py_eqb source (PStr event)) eqn:?; simplify_eq/=; [by eexists|].
    destruct (py_get current field (PInt 0)) as [v|] eqn:?; simpl in *; [|done].
    destruct (py_int v) as [stored|] eqn:?; simpl in *; [|done].
    destruct (incoming <=? stored)%Z eqn:?; simplify_eq/=; [by eexists|].
    destruct (law_update_current key encoded current r s Hk) as (r' & s' & -> & _ & Hw).
    simpl. eauto.
  - rewrite missing_not_found by by eapply law_get_missing. simplify_eq/=.
    destruct (law_create_absent key encoded s e Hk) as (r' & s' & -> & Hw). simpl. eauto.
Qed.

(** The product index as a set; an absent index reads as empty. *)
Definition index_set s : res (gset string) :=
  match bk_get CATALOG_INDEX_KEY s with Ok (v, _) => index_ids v | Raise _ => Ok ∅ end.

Lemma index_ids_json ids :
  "" ∉ ids → index_ids (index_json ids) = Ok (list_to_set ids).
Proof.
  intros Hne. unfold index_ids, index_json, json_dumps. simpl.
  change (merge_sort key_le [("product_ids", PList (map json_sorted (PStr <$> ids)))])
    with [("product_ids", PList (map json_sorted (PStr <$> ids)))].
  simpl. f_equal. f_equal.
  induction ids as [|x ids IH]; simpl; [done|].
  apply not_elem_of_cons in Hne as [Hx Hne].
  rewrite filter_cons_True by done. f_equal. by apply IH.
Qed.

Lemma index_ids_no_empty v ids : index_ids v = Ok ids → "" ∉ ids.
Proof.
  unfold index_ids. intros H1. res_inv. rewrite elem_of_list_to_set, list_elem_of_filter. naive_solver.
Qed.

Definition reconciled (removed : bool) (p : string) (ids : gset string) : gset string :=
  if removed then ids ∖ {[p]} else {[p]} ∪ ids.

Lemma run_reconcile_loop p removed n s ids :
  p ≠ "" → index_set s = Ok ids →
  ∃ s', run (reconcile_loop p removed (Datatypes.S n)) s = (Ok tt, s') ∧
    index_set s' = Ok (reconciled removed p ids) ∧
    ∀ k, k ≠ CATALOG_INDEX_KEY → bk_get k s' = bk_get k s.
Proof.
  intros Hp. unfold index_set. intros Hids. simpl.
  destruct (bk_get CATALOG_INDEX_KEY s) as [[current r]|e] eqn:Hk; simpl.
  - rewrite Hids. simpl. fold (reconciled removed p ids). case_decide as Heq; simpl.
    + exists s. rewrite Hk, Hids, Heq. done.
    + destruct (law_update_current CATALOG_INDEX_KEY
        (index_json (sorted_strings (reconciled removed p ids))) current r s Hk)
        as (r' & s' & -> & _ & [Hw Hne]). simpl.
      exists s'. split_and!; [done| |exact Hne]. rewrite Hw.
      rewrite index_ids_json, sorted_strings_to_set; [done|].
      rewrite sorted_strings_elem. apply index_ids_no_empty in Hids.
      unfold reconciled. destruct removed; set_solver.
  - rewrite missing_not_found by by eapply law_get_missing. simplify_eq/=.
    destruct (law_create_absent CATALOG_INDEX_KEY
      (index_json (if removed then [] else [p])) s e Hk) as (r' & s' & -> & [Hw Hne]). simpl.
    exists s'. split_and!; [done| |exact Hne]. rewrite Hw, index_ids_json.
    + unfold reconciled. destruct removed; simpl; f_equal; set_solver.
    + destruct removed; [apply not_elem_of_nil|]. rewrite list_elem_of_singleton. congruence.
Qed.
End sequential.

(** ** Abstract catalog and refinement

    The catalog the replicas maintain is a map from product to its newest
    record, with the set of active products.  [spec_apply] is what applying
    one event promises; [apply_product] refines it. *)

Record catalog := Catalog {
  products : gmap string product_record;
  active : gset string;
}.

Definition spec_outcome (rec : product_record) (cur : option product_record) : string :=
  match cur with
  | None => "created"
  | Some cur =>
      if decide (pr_source_event_id cur = pr_source_event_id rec) then "duplicate"
      else if (pr_product_version rec <=? pr_product_version cur)%Z then "stale"
      else "updated"
  end.

(** The record that holds the product's key afterwards. *)
Definition spec_winner (rec : product_record) (cur : option product_record) : product_record :=
  match cur with
  | Some cur =>
      if decide (spec_outcome rec (Some cur) = "updated") then rec else cur
  | None => rec
  end.

Definition spec_apply (rec : product_record) (c : catalog) : string * catalog :=
  let p := pr_product_id rec in
  let w := spec_winner rec (products c !! p) in
  (spec_outcome rec (products c !! p),
   Catalog (<[p := w]> (products c)) (reconciled (pr_removed w) p (active c))).

Lemma product_json_event r d :
  py_get (product_json r) "source_event_id" d = Ok (PStr (pr_source_event_id r)).
Proof. reflexivity. Qed.
Lemma product_json_version r d :
  py_get (product_json r) "product_version" d = Ok (PInt (pr_product_version r)).
Proof. reflexivity. Qed.
Lemma product_json_id r d :
  py_get (product_json r) "product_id" d = Ok (PStr (pr_product_id r)).
Proof. reflexivity. Qed.
Lemma product_json_removed r d :
  py_get (product_json r) "removed" d = Ok (PBool (pr_removed r)).
Proof. reflexivity. Qed.

Lemma product_json_same_version r r' :
  product_json r = product_json r' → pr_product_version r = pr_product_version r'.
Proof.
  intros E%(f_equal (λ v, py_get v "product_version" PNone)).
  rewrite !product_json_version in E. congruence.
Qed.

Lemma product_key_ok p key :
  product_key p = Ok key → key = "product." +:+ p ∧ p ≠ "".
Proof.
  unfold product_key. destruct (String.eqb p "") eqn:Hp; simpl; [done|].
  case_match; [done|]. intros [= <-]. split; [done|]. by apply String.eqb_neq.
Qed.

Lemma product_key_inj p p' key : product_key p = Ok key → product_key p' = Ok key → p = p'.
Proof.
  intros [-> _]%product_key_ok [Heq _]%product_key_ok. by apply (inj (String.append "product.")) in Heq.
Qed.

Lemma product_key_not_index p key : product_key p = Ok key → key ≠ CATALOG_INDEX_KEY.
Proof. intros [-> _]%product_key_ok. discriminate. Qed.

Lemma product_key_not_catalog p key : product_key p = Ok key → key ≠ CATALOG_KEY.
Proof. intros [-> _]%product_key_ok. discriminate. Qed.

Section refinement.
Context {S : Type} `{KVLaws S}.
Implicit Types (s : S).

(** The bucket holds the abstract catalog: one JSON record per product under
    the product's key, and the active set in the index. *)
Record represents (c : catalog) (s : S) : Prop := {
  rep_products p key :
    product_key p = Ok key →
    stored_at key s = product_json <$> products c !! p;
  rep_ids p r : products c !! p = Some r → pr_product_id r = p;
  rep_active : index_set s = Ok (active c);
}.

Lemma cas_decide_spec rec cur :
  cas_decide "product_version" (pr_source_event_id rec) (pr_product_version rec)
    (product_json <$> cur) = Ok (spec_outcome rec cur).
Proof.
  destruct cur as [cur|]; [|done]. simpl.
  destruct (String.eqb_spec (pr_source_event_id cur) (pr_source_event_id rec)) as [->|Hne].
  - by rewrite decide_True.
  - rewrite decide_False by done. by case_match.
Qed.

Lemma spec_outcome_written rec cur :
  spec_outcome rec cur ∈ ["created"; "updated"] → spec_winner rec cur = rec.
Proof.
  unfold spec_winner. destruct cur as [cur|]; [|done].
  rewrite !elem_of_cons. intros [Ho|[Ho|[]%elem_of_nil]].
  - exfalso. revert Ho. unfold spec_outcome. by repeat case_match.
  - by rewrite decide_True.
Qed.

Lemma spec_outcome_kept rec cur :
  spec_outcome rec cur ∉ ["created"; "updated"] → cur = Some (spec_winner rec cur).
Proof.
  unfold spec_winner. destruct cur as [cur|].
  - intros Ho. rewrite decide_False; [done|]. intros E. apply Ho. rewrite E. set_solver.
  - intros []. simpl. set_solver.
Qed.

Lemma run_reconcile p key w n s ids :
  product_key p = Ok key → stored_at key s = Some (product_json w) → pr_product_id w = p →
  index_set s = Ok ids →
  ∃ s', Program.run bucket_handle (reconcile_catalog_index key (Datatypes.S n)) s = (Ok tt, s') ∧
    index_set s' = Ok (reconciled (pr_removed w) p ids) ∧
    ∀ k, k ≠ CATALOG_INDEX_KEY → bk_get k s' = bk_get k s.
Proof.
  intros Hkey Hw Hp Hids. destruct (product_key_ok _ _ Hkey) as [_ Hne].
  unfold reconcile_catalog_index.
  rewrite run_bind, run_try, run_store_get. unfold stored_at in Hw.
  destruct (bk_get key s) as [[v r]|e]; simplify_eq/=.
  rewrite (proj2 (String.eqb_neq _ _)) by done.
  by apply run_reconcile_loop.
Qed.

(** One event, alone. *)
Lemma run_apply_product rec n s c key :
  represents c s → product_key (pr_product_id rec) = Ok key →
  (0 < pr_product_version rec)%Z → pr_source_event_id rec ≠ "" →
  ∃ s', Program.run bucket_handle (apply_product rec (Datatypes.S n)) s
          = (Ok (spec_apply rec c).1, s') ∧
    represents (spec_apply rec c).2 s'.
Proof.
  intros Hrep Hkey Hver Hevent. set (p := pr_product_id rec) in *.
  set (w := spec_winner rec (products c !! p)).
  destruct (run_cas_loop key "product_version" (pr_source_event_id rec)
    (pr_product_version rec) (product_json rec) n s (spec_outcome rec (products c !! p)))
    as (s1 & Hrun1 & Hs1).
  { rewrite (rep_products _ _ Hrep p key Hkey). apply cas_decide_spec. }
  assert (Hs1' : stored_at key s1 = Some (product_json w) ∧
    ∀ k, k ≠ key → bk_get k s1 = bk_get k s).
  { case_decide as Ho.
    - destruct Hs1 as (r & Hk & Hne). split; [|done]. unfold stored_at. rewrite Hk. subst w.
      by rewrite spec_outcome_written.
    - subst s1. split; [|done]. rewrite (rep_products _ _ Hrep p key Hkey).
      by rewrite (spec_outcome_kept _ _ Ho) at 1. }
  destruct Hs1' as [Hkey1 Hother1].
  assert (Hw : pr_product_id w = p).
  { subst w. unfold spec_winner. destruct (products c !! p) as [cur|] eqn:Hcur; [|done].
    destruct (decide (_ = "updated")); [done|]. by eapply rep_ids. }
  destruct (run_reconcile p key w n s1 (active c)) as (s2 & Hrun2 & Hidx & Hother2); [done..| |].
  { unfold index_set. rewrite Hother1; [apply (rep_active _ _ Hrep)|].
    intros Heq. by apply (product_key_not_index _ _ Hkey). }
  exists s2. split.
  - unfold apply_product. fold p. rewrite run_bind, run_lift, Hkey.
    rewrite (proj2 (Z.leb_gt _ _)) by lia. rewrite (proj2 (String.eqb_neq _ _)) by done.
    cbn [orb]. rewrite run_bind, Hrun1. rewrite run_bind, Hrun2. done.
  - split; simpl; fold p; fold w; [|intros p' r|done].
    + intros p' key' Hkey'. destruct (decide (p' = p)) as [->|Hne].
      * rewrite lookup_insert_eq. simpl. assert (key' = key) as -> by congruence.
        unfold stored_at in *. rewrite Hother2 by by eapply product_key_not_index. done.
      * rewrite lookup_insert_ne by done. rewrite <-(rep_products _ _ Hrep p' key' Hkey').
        unfold stored_at. rewrite Hother2 by by eapply product_key_not_index.
        rewrite Hother1; [done|]. intros ->. by apply Hne, (product_key_inj _ _ key).
    + destruct (decide (p' = p)) as [->|Hne].
      * rewrite lookup_insert_eq. by intros [= <-].
      * rewrite lookup_insert_ne by done. by eapply rep_ids.
Qed.
End refinement.

(** ** Sequences of deliveries

    JetStream delivers at least once and in no particular order across
    publishers.  [deliver] is the catalog consumer's loop: one event at a
    time, as the consumer runs with batch size and concurrency one. *)
Section deliveries.
Context {S : Type} `{KVLaws S}.
Implicit Types (s : S) (l : list product_record).

Definition deliver (n : nat) (s : S) l : S :=
  foldl (λ s rec, (Program.run bucket_handle (apply_product rec n) s).2) s l.

(** An event the owner could have published. *)
Definition valid_event (rec : product_record) : Prop :=
  is_ok (product_key (pr_product_id rec)) = true ∧
  (0 < pr_product_version rec)%Z ∧ pr_source_event_id rec ≠ "".

(** One event per identifier, one event per product version. *)
Definition consistent l : Prop :=
  ∀ r r', r ∈ l → r' ∈ l →
    (pr_source_event_id r = pr_source_event_id r' → r = r') ∧
    (pr_product_id r = pr_product_id r' → pr_product_version r = pr_product_version r' → r = r').

(** [c] holds, for every product of [l], its newest record, and the active
    set is read off those records. *)
Record newest l (c : catalog) : Prop := {
  newest_some p r : products c !! p = Some r →
    r ∈ l ∧ pr_product_id r = p ∧
    ∀ r', r' ∈ l → pr_product_id r' = p → (pr_product_version r' ≤ pr_product_version r)%Z;
  newest_none p : products c !! p = None → ∀ r, r ∈ l → pr_product_id r ≠ p;
  newest_active p :
    p ∈ active c ↔ ∃ r, products c !! p = Some r ∧ pr_removed r = false;
}.

Lemma newest_nil : newest [] (Catalog ∅ ∅).
Proof.
  split; simpl.
  - intros p r. by rewrite lookup_empty.
  - intros p _ r Hr. by apply elem_of_nil in Hr.
  - intros p. split; [set_solver|]. intros (r & Hr & _). by rewrite lookup_empty in Hr.
Qed.

Lemma spec_winner_newest l c rec :
  consistent (l ++ [rec]) → newest l c →
  let w := spec_winner rec (products c !! pr_product_id rec) in
  w ∈ l ++ [rec] ∧ pr_product_id w = pr_product_id rec ∧
  ∀ r', r' ∈ l ++ [rec] → pr_product_id r' = pr_product_id rec →
    (pr_product_version r' ≤ pr_product_version w)%Z.
Proof.
  intros Hcons Hnew w. set (p := pr_product_id rec) in *.
  assert (Hlast : rec ∈ l ++ [rec]) by set_solver.
  destruct (products c !! p) as [cur|] eqn:Hcur.
  - destruct (newest_some _ _ Hnew _ _ Hcur) as (Hin & Hid & Hmax).
    destruct (Hcons cur rec) as [Hev _]; [set_solver|set_solver|].
    assert (w = rec ∧ (pr_product_version cur ≤ pr_product_version rec)%Z ∨
            w = cur ∧ (pr_product_version rec ≤ pr_product_version cur)%Z) as Hw.
    { subst w. unfold spec_winner, spec_outcome.
      destruct (decide (pr_source_event_id cur = pr_source_event_id rec)) as [E|E].
      - right. rewrite decide_False by done. by rewrite (Hev E).
      - destruct (pr_product_version rec <=? pr_product_version cur)%Z eqn:Hle; bool_to_prop.
        + right. by rewrite decide_False.
        + left. rewrite decide_True by done. split; [done|lia]. }
    split_and!; [destruct Hw as [[-> _]|[-> _]]; set_solver|by destruct Hw as [[-> _]|[-> _]]|].
    intros r' [Hr'| ->%list_elem_of_singleton]%elem_of_app Hp.
    + specialize (Hmax _ Hr' Hp). destruct Hw as [[-> ?]|[-> ?]]; lia.
    + by destruct Hw as [[-> ?]|[-> ?]].
  - subst w. simpl. split_and!; [done..|].
    intros r' [Hr'| ->%list_elem_of_singleton]%elem_of_app Hp; [|done].
    exfalso. by eapply newest_none.
Qed.

Lemma newest_step l c rec :
  consistent (l ++ [rec]) → newest l c → newest (l ++ [rec]) (spec_apply rec c).2.
Proof.
  intros Hcons Hnew. pose proof (spec_winner_newest l c rec Hcons Hnew) as (Hw & Hid & Hmax).
  unfold spec_apply. simpl. set (p := pr_product_id rec) in *.
  set (w := spec_winner rec (products c !! p)) in *.
  split; simpl; intros q.
  - intros r. destruct (decide (p = q)) as [<-|Hne].
    + rewrite lookup_insert_eq. by intros [= <-].
    + rewrite lookup_insert_ne by done. intros Hr.
      destruct (newest_some _ _ Hnew _ _ Hr) as (Hin & Hq & Hmax').
      split_and!; [set_solver|done|].
      intros r' [Hr'| ->%list_elem_of_singleton]%elem_of_app Hp; [by apply Hmax'|done].
  - destruct (decide (p = q)) as [<-|Hne]; [by rewrite lookup_insert_eq|].
    rewrite lookup_insert_ne by done. intros Hq r [Hr| ->%list_elem_of_singleton]%elem_of_app.
    + by eapply newest_none.
    + done.
  - destruct (decide (p = q)) as [<-|Hne].
    + rewrite lookup_insert_eq. unfold reconciled. destruct (pr_removed w) eqn:Hrem.
      * split; [set_solver|]. intros (r & [= <-] & ?). congruence.
      * split; [|set_solver]. intros _. by exists w.
    + rewrite lookup_insert_ne by done. rewrite <-(newest_active _ _ Hnew).
      unfold reconciled. destruct (pr_removed w); set_solver.
Qed.

Lemma newest_unique l1 l2 c1 c2 :
  consistent l1 → (∀ r, r ∈ l1 ↔ r ∈ l2) → newest l1 c1 → newest l2 c2 → c1 = c2.
Proof.
  intros Hcons Hsame H1 H2.
  assert (products c1 = products c2) as Hp.
  { apply map_eq. intros p.
    destruct (products c1 !! p) as [r1|] eqn:E1, (products c2 !! p) as [r2|] eqn:E2; [|exfalso..|done].
    - destruct (newest_some _ _ H1 _ _ E1) as (Hin1 & Hp1 & Hm1).
      destruct (newest_some _ _ H2 _ _ E2) as (Hin2 & Hp2 & Hm2).
      f_equal. apply Hcons; [done|by apply Hsame|congruence|].
      specialize (Hm1 r2 (proj2 (Hsame _) Hin2) Hp2).
      specialize (Hm2 r1 (proj1 (Hsame _) Hin1) Hp1). lia.
    - destruct (newest_some _ _ H1 _ _ E1) as (Hin1 & Hp1 & _).
      by eapply (newest_none _ _ H2 _ E2 r1); [apply Hsame|].
    - destruct (newest_some _ _ H2 _ _ E2) as (Hin2 & Hp2 & _).
      by eapply (newest_none _ _ H1 _ E1 r2); [apply Hsame|]. }
  destruct c1 as [m1 a1], c2 as [m2 a2]. simpl in *. subst m2. f_equal.
  apply set_eq. intros p. rewrite (newest_active _ _ H1 p). simpl.
  by rewrite (newest_active _ _ H2 p).
Qed.

Lemma deliver_newest n l s :
  represents (Catalog ∅ ∅) s → Forall valid_event l → consistent l →
  ∃ c, newest l c ∧ represents c (deliver (Datatypes.S n) s l).
Proof.
  intros Hrep. induction l as [|rec l IH] using rev_ind; intros Hval Hcons.
  { exists (Catalog ∅ ∅). split; [apply newest_nil|done]. }
  apply Forall_app in Hval as [Hval Hrec].
  rewrite Forall_singleton in Hrec.
  destruct IH as (c & Hnew & Hc); [done|intros r r' ??; apply Hcons; set_solver|].
  destruct Hrec as (Hkey & Hver & Hev).
  destruct (product_key (pr_product_id rec)) as [key|] eqn:Hk; [|done].
  destruct (run_apply_product rec n _ c key Hc Hk Hver Hev) as (s' & Hrun & Hrep').
  exists (spec_apply rec c).2. split; [by apply newest_step|].
  unfold deliver in *. rewrite foldl_app. simpl in *. by rewrite Hrun.
Qed.
End deliveries.

(** ** Many replicas at once *)
Section concurrent.
Context {S : Type} `{KVLaws S}.
Implicit Types (s : S).

(** The publisher assigns one product version per event identifier. *)
Context (event_version : string → Z).

(** Every product key holds a record of that product. *)
Definition catalog_wf s : Prop :=
  ∀ p key v r, product_key p = Ok key → bk_get key s = Ok (v, r) →
    ∃ rec, v = product_json rec ∧ pr_product_id rec = p ∧
      event_version (pr_source_event_id rec) = pr_product_version rec.

Definition version_at (key : string) s (n : Z) : Prop :=
  ∃ rec r, bk_get key s = Ok (product_json rec, r) ∧ pr_product_version rec = n.

Definition version_at_least (key : string) (n : Z) s : Prop :=
  ∃ n', version_at key s n' ∧ (n ≤ n')%Z.

(** What one replica may rely on, and guarantees: the bucket evolves, stays
    well formed, and no stored product version ever decreases. *)
Definition catalog_rely s s' : Prop :=
  evolves s s' ∧
  (catalog_wf s → catalog_wf s' ∧
     ∀ p key n, product_key p = Ok key → version_at key s n → version_at_least key n s').

#[export] Instance catalog_rely_preorder : PreOrder catalog_rely.
Proof.
  split.
  - intros s. split; [reflexivity|]. intros Hwf. split; [done|].
    intros p key n _ Hn. exists n. by split; [|lia].
  - intros s1 s2 s3 [E12 H12] [E23 H23]. split; [by etrans|].
    intros Hwf1. destruct (H12 Hwf1) as [Hwf2 V12]. destruct (H23 Hwf2) as [Hwf3 V23].
    split; [done|]. intros p key n Hkey Hn.
    destruct (V12 p key n Hkey Hn) as (n2 & Hn2 & ?).
    destruct (V23 p key n2 Hkey Hn2) as (n3 & Hn3 & ?).
    exists n3. split; [done|lia].
Qed.

Lemma version_at_least_stable p key n s s' :
  product_key p = Ok key → catalog_wf s → catalog_rely s s' →
  version_at_least key n s → version_at_least key n s'.
Proof.
  intros Hkey Hwf [_ Hr] (n1 & Hn1 & ?). destruct (Hr Hwf) as [_ Hv].
  destruct (Hv p key n1 Hkey Hn1) as (n2 & ? & ?). exists n2. split; [done|lia].
Qed.

Lemma other_key_rely key v r s s' :
  (∀ p, product_key p ≠ Ok key) → evolves s s' → bk_written key v r s s' → catalog_rely s s'.
Proof.
  intros Hkey Hev [_ Hne]. split; [done|]. intros Hwf. split.
  - intros p key' v' r' Hkey'. rewrite Hne by (intros ->; by apply (Hkey p)). by apply Hwf.
  - intros p key' n Hkey' (rec & r' & Hget & Hn). exists n. split; [|lia].
    exists rec, r'. rewrite Hne by (intros ->; by apply (Hkey p)). done.
Qed.

Lemma product_write_rely rec key r s s' :
  product_key (pr_product_id rec) = Ok key →
  event_version (pr_source_event_id rec) = pr_product_version rec →
  evolves s s' → bk_written key (product_json rec) r s s' →
  (∀ n, version_at key s n → (n ≤ pr_product_version rec)%Z) →
  catalog_rely s s'.
Proof.
  intros Hkey Hevv Hev [Hget Hne] Hold. split; [done|]. intros Hwf. split.
  - intros p key' v' r' Hkey'. destruct (decide (key' = key)) as [->|].
    + rewrite Hget. intros [= <- <-]. exists rec. split_and!; [done| |done].
      by eapply product_key_inj.
    + rewrite Hne by done. by apply Hwf.
  - intros p key' n Hkey' Hn. destruct (decide (key' = key)) as [->|].
    + exists (pr_product_version rec). split; [by exists rec, r|by apply Hold].
    + destruct Hn as (rec' & r' & Hg & Hn). exists n. split; [|lia].
      exists rec', r'. by rewrite Hne.
Qed.

Abbreviation safe := (safe (E := bucketE) (S := S) bucket_handle catalog_rely catalog_rely).

(** The three adapter calls, as seen by a replica that is not alone. *)
Lemma safe_get {A} (Q : A → S → Prop) k f s :
  (∀ s1, catalog_rely s s1 →
    match bk_get k s1 with
    | Ok x => safe Q (f (Ok x)) s1
    | Raise _ => safe Q (f (Raise (CatalogNotFound k))) s1
    end) →
  safe Q (prog_try (store_get k) ≫= f) s.
Proof.
  intros Hk s1 Hs. simpl. split; [reflexivity|]. specialize (Hk s1 Hs).
  destruct (bk_get k s1) as [[v r]|e] eqn:E; simpl; [done|].
  by rewrite missing_not_found by by eapply law_get_missing.
Qed.

Lemma safe_create {A} (Q : A → S → Prop) k v f s :
  (∀ s1, catalog_rely s s1 →
    (∀ e r s2, bk_get k s1 = Raise e → bk_written k v r s1 s2 → evolves s1 s2 →
       catalog_rely s1 s2 ∧ safe Q (f (Ok r)) s2) ∧
    safe Q (f (Raise (CatalogConflict k))) s1) →
  safe Q (prog_try (store_create k v) ≫= f) s.
Proof.
  intros Hk s1 Hs. destruct (Hk s1 Hs) as [Hok Hconf]. simpl.
  destruct (create_cases k v s1) as [(e & r & s2 & Hg & -> & Hw)|(x & e & Hg & -> & He)]; simpl.
  - eapply Hok; [done..|]. by eapply written_absent_evolves.
  - split; [reflexivity|]. by rewrite wrong_sequence_conflict.
Qed.

Lemma safe_update {A} (Q : A → S → Prop) k v r f s :
  (∀ s1, catalog_rely s s1 →
    (∀ v0 r' s2, bk_get k s1 = Ok (v0, r) → bk_written k v r' s1 s2 → evolves s1 s2 →
       catalog_rely s1 s2 ∧ safe Q (f (Ok r')) s2) ∧
    safe Q (f (Raise (CatalogConflict k))) s1) →
  safe Q (prog_try (store_update k v r) ≫= f) s.
Proof.
  intros Hk s1 Hs. destruct (Hk s1 Hs) as [Hok Hconf]. simpl.
  destruct (update_cases k v r s1) as [(v0 & r' & s2 & Hg & -> & Hr & Hw)|(e & Hg & -> & He)]; simpl.
  - eapply Hok; [done..|]. by eapply written_current_evolves.
  - split; [reflexivity|]. by rewrite wrong_sequence_conflict.
Qed.

Lemma evolves_same_revision k v v0 r s s' :
  evolves s s' → bk_get k s = Ok (v, r) → bk_get k s' = Ok (v0, r) → v0 = v.
Proof.
  intros Hev Hk Hk'. destruct (Hev _ _ _ Hk) as (v' & r' & Hg & _ & Heq).
  rewrite Hk' in Hg. injection Hg as <- <-. by apply Heq.
Qed.

Lemma safe_cas_loop rec key n s :
  product_key (pr_product_id rec) = Ok key →
  event_version (pr_source_event_id rec) = pr_product_version rec →
  catalog_wf s →
  safe (λ o s', catalog_wf s' ∧ (is_Some o → version_at_least key (pr_product_version rec) s'))
    (cas_loop key "product_version" (pr_source_event_id rec) (pr_product_version rec)
       (product_json rec) n) s.
Proof.
  intros Hkey Hev. revert s. induction n as [|n IH]; intros s Hwf.
  { split; [done|]. by intros []. }
  cbn [cas_loop]. apply safe_get. intros s1 Hs1.
  destruct (proj2 Hs1 Hwf) as [Hwf1 _].
  destruct (bk_get key s1) as [[cur r]|e] eqn:Hcur.
  - destruct (Hwf1 _ _ _ _ Hkey Hcur) as (old & -> & Hold & Hoev).
    assert (Hat : version_at key s1 (pr_product_version old)) by (by exists old, r).
    rewrite product_json_event. cbn [lift mbind prog_mbind prog_bind].
    destruct (py_eqb _ _) eqn:Hdup.
    { apply py_eqb_str in Hdup. injection Hdup as Hdup. split; [done|]. intros _.
      exists (pr_product_version old). split; [done|]. rewrite <-Hev, <-Hoev, Hdup. lia. }
    rewrite product_json_version. cbn [lift mbind prog_mbind prog_bind py_int].
    destruct (_ <=? _)%Z eqn:Hle; bool_to_prop.
    { split; [done|]. intros _. by exists (pr_product_version old). }
    apply safe_update. intros s2 Hs2. destruct (proj2 Hs2 Hwf1) as [Hwf2 _].
    split; [|by apply IH]. intros v0 r' s3 Hg Hw Hev3.
    assert (v0 = product_json old) as ->.
    { eapply evolves_same_revision; [apply Hs2|done|done]. }
    assert (Hrely : catalog_rely s2 s3).
    { eapply product_write_rely; [done..|]. intros m (old' & r'' & Hg' & <-).
      assert (product_json old = product_json old') as Heq%product_json_same_version by congruence.
      lia. }
    split; [done|]. destruct (proj2 Hrely Hwf2) as [Hwf3 _]. split; [done|]. intros _.
    exists (pr_product_version rec). split; [|lia]. exists rec, r'. by split; [apply Hw|].
  - apply safe_create. intros s2 Hs2. destruct (proj2 Hs2 Hwf1) as [Hwf2 _].
    split; [|by apply IH]. intros e' r' s3 Hg Hw Hev3.
    assert (Hrely : catalog_rely s2 s3).
    { eapply product_write_rely; [done..|]. intros m (old' & r'' & Hg' & _).
      by rewrite Hg in Hg'. }
    split; [done|]. destruct (proj2 Hrely Hwf2) as [Hwf3 _]. split; [done|]. intros _.
    exists (pr_product_version rec). split; [|lia]. exists rec, r'. by split; [apply Hw|].
Qed.

Lemma index_key_free p : product_key p ≠ Ok CATALOG_INDEX_KEY.
Proof. intros Hk. by apply (product_key_not_index p _ Hk). Qed.

(** Reconciling the index writes no product key, so it keeps whatever the
    rely keeps. *)
Lemma safe_reconcile_loop (P : S → Prop) p removed n s :
  (∀ s s', catalog_rely s s' → P s → P s') → P s →
  safe (λ _ s', P s') (reconcile_loop p removed n) s.
Proof.
  intros Hst. revert s. induction n as [|n IH]; intros s HP; [done|].
  cbn [reconcile_loop]. apply safe_get. intros s1 Hs1.
  assert (HP1 : P s1) by eauto.
  destruct (bk_get CATALOG_INDEX_KEY s1) as [[cur r]|e] eqn:Hcur.
  - destruct (index_ids cur) as [before|e]; [|done]. cbn [lift mbind prog_mbind prog_bind].
    case_decide; [done|]. apply safe_update. intros s2 Hs2. split; [|eauto].
    intros v0 r' s3 Hg Hw Hev3.
    assert (catalog_rely s2 s3) by (eapply other_key_rely; [apply index_key_free|done..]).
    split; [done|]. simpl. eauto.
  - apply safe_create. intros s2 Hs2. split; [|eauto]. intros e' r' s3 Hg Hw Hev3.
    assert (catalog_rely s2 s3) by (eapply other_key_rely; [apply index_key_free|done..]).
    split; [done|]. simpl. eauto.
Qed.

Lemma safe_reconcile (P : S → Prop) key n s :
  (∀ s s', catalog_rely s s' → P s → P s') → P s →
  safe (λ _ s', P s') (reconcile_catalog_index key n) s.
Proof.
  intros Hst HP. unfold reconcile_catalog_index. apply safe_get. intros s1 Hs1.
  assert (HP1 : P s1) by eauto.
  destruct (bk_get key s1) as [[cur r]|e]; [|done].
  destruct (py_get cur "product_id" (PStr "")) as [v|]; [|done].
  cbn [lift mbind prog_mbind prog_bind]. case_match; [done|].
  destruct (py_get cur "removed" (PBool false)) as [v'|]; [|done].
  cbn [lift mbind prog_mbind prog_bind]. by apply safe_reconcile_loop.
Qed.

Definition applied (rec : product_record) s : Prop :=
  catalog_wf s ∧ ∃ key, product_key (pr_product_id rec) = Ok key ∧
    version_at_least key (pr_product_version rec) s.

Lemma applied_stable rec s s' : catalog_rely s s' → applied rec s → applied rec s'.
Proof.
  intros Hs (Hwf & key & Hkey & Hv). split; [by apply (proj2 Hs)|].
  exists key. split; [done|]. by eapply version_at_least_stable.
Qed.

Lemma safe_apply_product rec n s :
  event_version (pr_source_event_id rec) = pr_product_version rec → catalog_wf s →
  safe (λ _ s', applied rec s') (apply_product rec n) s.
Proof.
  intros Hev Hwf. unfold apply_product.
  destruct (product_key (pr_product_id rec)) as [key|e] eqn:Hkey; [|done].
  cbn [lift mbind prog_mbind prog_bind]. case_match; [done|].
  eapply safe_bind; [by apply safe_cas_loop|].
  intros [o|] s1 [Hwf1 Hv]; [|done].
  eapply safe_bind with (Q := λ _ s', applied rec s'); [|done].
  apply safe_reconcile; [apply applied_stable|].
  split; [done|]. exists key. split; [done|]. by apply Hv.
Qed.
End concurrent.

(** ** Properties *)

(** C1: when any number of replicas apply catalog events to the shared bucket
    with their operations interleaved in any order, and with failures at any
    point, no acknowledged event is lost: whenever [apply_product] has
    returned an outcome for a record, the bucket holds that product at the
    record's version or a newer one; and no product's stored version ever
    decreases. *)
Theorem concurrent_apply_never_loses {S} `{KVLaws S} (event_version : string → Z)
    (recs : list product_record) (max_attempts : nat) (s s' : S) ps' :
  catalog_wf event_version s →
  Forall (λ rec, event_version (pr_source_event_id rec) = pr_product_version rec) recs →
  rtc (step bucket_handle) (s, (λ rec, apply_product rec max_attempts) <$> recs) (s', ps') →
  (∀ i rec outcome, recs !! i = Some rec → ps' !! i = Some (Ret outcome) →
     ∃ key, product_key (pr_product_id rec) = Ok key ∧
       version_at_least key (pr_product_version rec) s') ∧
  (∀ p key n, product_key p = Ok key → version_at key s n → version_at_least key n s').
Proof.
  intros Hwf Hrecs Hsteps.
  set (Qs := λ i (_ : string) s1, ∀ rec, recs !! i = Some rec → applied event_version rec s1).
  assert (Hsafe : all_safe bucket_handle (catalog_rely event_version) (catalog_rely event_version)
    Qs (s, (λ rec, apply_product rec max_attempts) <$> recs)).
  { intros i p Hi. exists s. split; [reflexivity|]. simpl in *.
    apply list_lookup_fmap_Some in Hi as (rec & -> & Hi).
    pose proof (Forall_lookup_1 _ _ _ _ Hrecs Hi) as Hev.
    eapply safe_weaken; [|by apply safe_apply_product].
    intros o s1 Happ rec'. unfold Qs. rewrite Hi. by intros [= <-]. }
  assert (Hguar : ∀ s s', catalog_rely event_version s s' → catalog_rely event_version s s') by done.
  pose proof (safe_steps_rely _ _ _ Hguar _ _ _ Hsteps Hsafe) as [_ Hrely].
  destruct (safe_steps _ _ _ Hguar _ _ _ Hsteps Hsafe) as [_ Hsafe'].
  simpl in *. split; [|by apply Hrely].
  intros i rec outcome Hi Hret.
  assert (Hst : ∀ s1 s2, catalog_rely event_version s1 s2 → Qs i outcome s1 → Qs i outcome s2).
  { intros s1 s2 Hr HQ rec' Hi'. eapply applied_stable; [done|]. by apply HQ. }
  destruct (Hsafe' i _ Hret) as (s0 & Hs0 & HQ).
  by destruct (Hst _ _ Hs0 HQ rec Hi) as [_ ?].
Qed.

(** C30: applied alone, one event refines the abstract catalog: the outcome
    string, the record that holds the product's key afterwards and the index
    of active products are those of [spec_apply]; one attempt is enough. *)
Theorem apply_product_refines {S} `{KVLaws S} rec n (s : S) c key :
  represents c s → product_key (pr_product_id rec) = Ok key →
  (0 < pr_product_version rec)%Z → pr_source_event_id rec ≠ "" →
  ∃ s', run bucket_handle (apply_product rec (Datatypes.S n)) s
          = (Ok (spec_apply rec c).1, s') ∧
    represents (spec_apply rec c).2 s'.
Proof. apply run_apply_product. Qed.

(** At-least-once, unordered delivery converges: two sequences of valid
    events with the same members, in any order and with any repetitions, leave
    the same catalog, which holds for every product its newest record and
    whose active set is exactly the products whose newest record is not
    removed. *)
Theorem deliveries_converge {S} `{KVLaws S} n l1 l2 (s : S) :
  represents (Catalog ∅ ∅) s → Forall valid_event l1 → consistent l1 →
  (∀ r, r ∈ l1 ↔ r ∈ l2) →
  ∃ c, newest l1 c ∧ represents c (deliver (Datatypes.S n) s l1) ∧
       represents c (deliver (Datatypes.S n) s l2).
Proof.
  intros Hrep Hval Hcons Hsame.
  destruct (deliver_newest n l1 s Hrep Hval Hcons) as (c1 & Hnew1 & Hrep1).
  destruct (deliver_newest n l2 s Hrep) as (c2 & Hnew2 & Hrep2).
  { apply Forall_forall. intros r Hr%Hsame. by eapply Forall_forall in Hval. }
  { intros r r' Hr%Hsame Hr'%Hsame. by apply Hcons. }
  exists c1. split_and!; [done..|]. by rewrite (newest_unique l1 l2 c1 c2).
Qed.

(** ** Index migration, readiness and selection *)

Section readers.
Context {S : Type} `{KVLaws S}.
Implicit Types (s : S).

(** The stored records name their own product and use JSON types. *)
Definition products_represented (m : gmap string product_record) s : Prop :=
  ∀ key, str_startswith "product." key = true →
    stored_at key s = None ∨
    ∃ p r, product_key p = Ok key ∧ m !! p = Some r ∧ pr_product_id r = p ∧
      stored_at key s = Some (product_json r).

Definition active_products (m : gmap string product_record) : gset string :=
  dom (filter (λ kv, pr_removed kv.2 = false) m).

Lemma elem_of_active_products m p :
  p ∈ active_products m ↔ ∃ r, m !! p = Some r ∧ pr_removed r = false.
Proof.
  unfold active_products. rewrite elem_of_dom. unfold is_Some.
  setoid_rewrite map_lookup_filter_Some. naive_solver.
Qed.

Lemma run_collect_products m s ks acc :
  products_represented m s →
  ∃ acc', run bucket_handle (collect_products ks acc) s = (Ok acc', s) ∧
    ∀ p, p ∈ acc' ↔ p ∈ acc ∨
      ∃ key r, key ∈ ks ∧ product_key p = Ok key ∧ stored_at key s = Some (product_json r) ∧
        pr_removed r = false ∧ m !! p = Some r.
Proof.
  intros Hrep. revert acc. induction ks as [|key ks IH]; intros acc.
  { exists acc. split; [done|]. intros p. split; [by left|].
    intros [?|(key & r & Hk & _)]; [done|by apply elem_of_nil in Hk]. }
  cbn [collect_products]. destruct (str_startswith "product." key) eqn:Hpre; cbn [negb].
  - rewrite run_bind, run_try, run_store_get. unfold stored_at in *.
    pose proof (Hrep key Hpre) as Hcase. unfold stored_at in Hcase.
    destruct (bk_get key s) as [[v rev]|e] eqn:Hget; cbn [fst snd].
    + destruct Hcase as [|(p & r & Hkey & Hm & Hid & [= ->])]; [done|].
      destruct (product_key_ok _ _ Hkey) as [_ Hne].
      rewrite product_json_id, product_json_removed.
      cbn [lift mbind prog_mbind prog_bind py_str py_truth].
      rewrite Hid, (proj2 (String.eqb_neq p "")) by done. cbn [negb andb].
      assert (∀ q (Q : Prop), (∃ key' r', key' ∈ key :: ks ∧ product_key q = Ok key' ∧
          match bk_get key' s with Ok (v, _) => Some v | Raise _ => None end = Some (product_json r')
          ∧ pr_removed r' = false ∧ m !! q = Some r') ↔
        (q = p ∧ pr_removed r = false) ∨ (∃ key' r', key' ∈ ks ∧ product_key q = Ok key' ∧
          match bk_get key' s with Ok (v, _) => Some v | Raise _ => None end = Some (product_json r')
          ∧ pr_removed r' = false ∧ m !! q = Some r')) as Hsplit.
      { intros q _. split.
        - intros (key' & r' & [->|Hin]%elem_of_cons & Hq & Hst & Hr & Hmq); [left|right; eauto 10].
          assert (q = p) as -> by by eapply product_key_inj. split; [done|congruence].
        - intros [[-> Hr]|(key' & r' & ? & ?)]; [|set_solver].
          exists key, r. rewrite Hget. set_solver. }
      destruct (pr_removed r) eqn:Hr; cbn [negb].
      * destruct (IH acc) as (acc' & Hrun & Hacc). exists acc'. split; [done|].
        intros q. rewrite Hacc. rewrite (Hsplit q True). naive_solver.
      * destruct (IH (acc ++ [p])) as (acc' & Hrun & Hacc). exists acc'. split; [done|].
        intros q. rewrite Hacc. rewrite (Hsplit q True).
        rewrite elem_of_app, list_elem_of_singleton. naive_solver.
    + destruct (IH acc) as (acc' & Hrun & Hacc). exists acc'. split; [done|].
      intros q. rewrite Hacc. setoid_rewrite elem_of_cons.
      split; [naive_solver|]. intros [?|(key' & r & [->|?] & ? & Hst & ?)]; [naive_solver| |naive_solver].
      by rewrite Hget in Hst.
  - destruct (IH acc) as (acc' & Hrun & Hacc). exists acc'. split; [done|].
    intros q. rewrite Hacc. setoid_rewrite elem_of_cons.
    split; [naive_solver|]. intros [?|(key' & r & [->|?] & Hk & ?)]; [naive_solver| |naive_solver].
    apply product_key_ok in Hk as [-> _]. by rewrite str_startswith_app in Hpre.
Qed.

Lemma run_store_keys s :
  ∃ ks, run bucket_handle store_keys s = (Ok ks, s) ∧
    ∀ k, k ∈ ks ↔ is_ok (bk_get k s) = true.
Proof.
  pose proof (law_keys s) as Hks. unfold store_keys. rewrite run_bind. simpl.
  destruct (bk_keys s) as [ks|e]; simpl; [by exists ks|].
  destruct Hks as [He Hno]. exists []. rewrite no_keys_class by done.
  split; [done|]. intros k. rewrite Hno. split; [by intros ?%elem_of_nil|done].
Qed.

(** A bucket that predates the index: products stored, no index key. *)
Lemma run_ensure_catalog_index m s e :
  products_represented m s → bk_get CATALOG_INDEX_KEY s = Raise e →
  (∀ p r, m !! p = Some r → ∃ key, product_key p = Ok key ∧ stored_at key s = Some (product_json r)) →
  ∃ s', run bucket_handle ensure_catalog_index s = (Ok "created", s') ∧
    index_set s' = Ok (active_products m) ∧
    ∀ k, k ≠ CATALOG_INDEX_KEY → bk_get k s' = bk_get k s.
Proof.
  intros Hrep Habs Hm. unfold ensure_catalog_index.
  rewrite run_bind, run_try, run_store_get, Habs.
  destruct (run_store_keys s) as (ks & Hrun & Hks). rewrite run_bind, Hrun.
  destruct (run_collect_products m s ks [] Hrep) as (ids & Hcol & Hids).
  rewrite run_bind, Hcol, run_bind, run_try.
  set (enc := index_json _).
  destruct (run_create_absent CATALOG_INDEX_KEY enc s e Habs) as (r & s' & Hcr & [Hget Hne]).
  rewrite Hcr. exists s'. split_and!; [done| |done].
  assert (Hset : ∀ p, p ∈ (list_to_set ids : gset string) ↔ p ∈ active_products m).
  { intros p. rewrite elem_of_list_to_set, Hids, elem_of_active_products. split.
    - intros [[]%elem_of_nil|(key & r' & _ & _ & _ & Hr' & Hp)]. by exists r'.
    - intros (r' & Hp & Hr'). right. destruct (Hm p r' Hp) as (key & Hkey & Hst).
      exists key, r'. split_and!; [|done..]. apply Hks. unfold stored_at in Hst.
      by destruct (bk_get key s). }
  unfold index_set. rewrite Hget. unfold enc. rewrite index_ids_json.
  - rewrite sorted_strings_to_set. f_equal. by apply set_eq.
  - rewrite sorted_strings_elem, Hset, elem_of_active_products.
    intros (r' & Hp & _). destruct (Hm _ _ Hp) as (key & Hk & _). discriminate.
Qed.

Lemma store_get_reads k : reads_only (bucket_handle (S := S)) (store_get k).
Proof. split; [done|]. by intros [[??]|e]. Qed.

Lemma catalog_snapshot_reads : reads_only (bucket_handle (S := S)) catalog_snapshot.
Proof.
  apply reads_only_bind; [apply reads_only_try, store_get_reads|].
  intros [[v r]|e]; [|by destruct e].
  do 2 (apply reads_only_bind; [apply reads_only_lift|intros ?]). case_match; [done|].
  apply reads_only_bind; [apply reads_only_try, store_get_reads|].
  intros [[v' r']|e]; [|by destruct e].
  do 3 (apply reads_only_bind; [apply reads_only_lift|intros ?]). by case_match.
Qed.

Definition snapshot_answer (sr : snapshot_record) (c : catalog) : res (list string * Z) :=
  if (sr_catalog_revision sr <=? 0)%Z
  then Raise (CatalogNotReady "catalog snapshot revision is invalid")
  else if (Z.of_nat (size (active c)) <? sr_product_count sr)%Z
  then Raise (CatalogNotReady "catalog product index is incomplete")
  else Ok (sorted_strings (active c), sr_catalog_revision sr).

Lemma run_catalog_snapshot sr r s ids c :
  bk_get CATALOG_KEY s = Ok (snapshot_json sr, r) →
  bk_get CATALOG_INDEX_KEY s = Ok ids → index_set s = Ok (active c) →
  run bucket_handle catalog_snapshot s = (snapshot_answer sr c, s).
Proof.
  intros Hsnap Hidx. destruct ids as [v rv]. unfold index_set. rewrite Hidx. intros Hset.
  unfold catalog_snapshot. rewrite run_bind, run_try, run_store_get, Hsnap.
  change (py_get (snapshot_json sr) "catalog_revision" (PInt 0))
    with (Ok (PInt (sr_catalog_revision sr))).
  change (py_get (snapshot_json sr) "product_count" (PInt 0))
    with (Ok (PInt (sr_product_count sr))).
  rewrite !run_bind. cbn [lift run py_int]. rewrite run_bind. cbn [lift run py_int].
  unfold snapshot_answer. destruct (sr_catalog_revision sr <=? 0)%Z; [done|].
  rewrite run_bind, run_try, run_store_get, Hidx, run_bind, run_lift, Hset.
  rewrite run_bind. cbn [lift run]. rewrite run_bind. cbn [lift run py_int].
  rewrite sorted_strings_length. by destruct (_ <? _)%Z.
Qed.
End readers.

(** The one-time migration seeds the index with exactly the active
    products of the stored records, whatever order the keys are listed in, and
    leaves every other key alone; an existing index is never rebuilt. *)
Theorem ensure_catalog_index_seeds {S} `{KVLaws S} (s : S) (m : gmap string product_record) :
  products_represented m s →
  (∀ p r, m !! p = Some r → ∃ key, product_key p = Ok key ∧ stored_at key s = Some (product_json r)) →
  match bk_get CATALOG_INDEX_KEY s with
  | Ok _ => run bucket_handle ensure_catalog_index s = (Ok "existing", s)
  | Raise _ =>
      ∃ s', run bucket_handle ensure_catalog_index s = (Ok "created", s') ∧
        index_set s' = Ok (active_products m) ∧
        ∀ k, k ≠ CATALOG_INDEX_KEY → bk_get k s' = bk_get k s
  end.
Proof.
  intros Hrep Hm. destruct (bk_get CATALOG_INDEX_KEY s) as [x|e] eqn:Hidx.
  - unfold ensure_catalog_index. by rewrite run_bind, run_try, run_store_get, Hidx.
  - by eapply run_ensure_catalog_index.
Qed.

(** Reading the catalog succeeds only when a completed snapshot with a
    positive revision is stored and the index holds at least as many products
    as the snapshot announced; it then returns the active products, sorted
    and without repetition.  Every other case is [CatalogNotReady]. *)
Theorem catalog_snapshot_spec {S} `{KVLaws S} (s : S) c :
  index_set s = Ok (active c) →
  (run bucket_handle catalog_snapshot s).2 = s ∧
  match bk_get CATALOG_KEY s, bk_get CATALOG_INDEX_KEY s with
  | Raise _, _ => (run bucket_handle catalog_snapshot s).1
      = Raise (CatalogNotReady "catalog snapshot has not completed")
  | Ok (v, _), Raise _ => ∀ sr, v = snapshot_json sr → (0 < sr_catalog_revision sr)%Z →
      (run bucket_handle catalog_snapshot s).1
      = Raise (CatalogNotReady "catalog product index is unavailable")
  | Ok (v, _), Ok _ => ∀ sr, v = snapshot_json sr →
      (run bucket_handle catalog_snapshot s).1 = snapshot_answer sr c
  end.
Proof.
  intros Hset. split.
  { apply reads_only_run, catalog_snapshot_reads. }
  destruct (bk_get CATALOG_KEY s) as [[v r]|e] eqn:Hsnap.
  - destruct (bk_get CATALOG_INDEX_KEY s) as [ids|e] eqn:Hidx; intros sr ->.
    + by rewrite (run_catalog_snapshot sr r s ids c).
    + intros Hpos. unfold catalog_snapshot. rewrite run_bind, run_try, run_store_get, Hsnap.
      change (py_get (snapshot_json sr) "catalog_revision" (PInt 0))
        with (Ok (PInt (sr_catalog_revision sr))).
      rewrite run_bind. cbn [lift run]. rewrite run_bind. cbn [lift run py_int].
      rewrite (proj2 (Z.leb_gt _ _)) by lia.
      by rewrite run_bind, run_try, run_store_get, Hidx.
  - unfold catalog_snapshot. by rewrite run_bind, run_try, run_store_get, Hsnap.
Qed.

(** A recommendation never contains an excluded product, never repeats
    one, only names products of the catalog, and has [limit] of them or every
    available product when there are fewer; the draw depends only on the
    trigger, the model revision and the catalog revision. *)
Theorem select_candidates_spec (sample : string → list string → nat → list string)
    (sample_law : ∀ seed pop k, k ≤ length pop →
       length (sample seed pop k) = k ∧ sample seed pop k ⊆+ pop)
    product_ids revision excluded seed model limit :
  NoDup product_ids → (0 ≤ limit)%Z →
  ∃ ids, select_candidates sample product_ids revision excluded seed model limit
           = Ok (ids, revision) ∧
    NoDup ids ∧ (∀ p, p ∈ ids → p ∈ product_ids ∧ p ∉ excluded) ∧
    Z.of_nat (length ids) =
      Z.min limit (Z.of_nat (length (filter (λ p, p ∉ excluded) product_ids))).
Proof.
  intros Hnd Hlim. unfold select_candidates.
  set (avail := filter (λ p, p ∉ excluded) product_ids).
  rewrite (proj2 (Z.ltb_ge _ _)) by lia. eexists. split; [done|].
  match goal with |- context [sample ?sd avail ?k] =>
    destruct (sample_law sd avail k) as [Hlen Hsub]; [lia|];
    generalize dependent (sample sd avail k) end.
  intros ids Hlen Hsub. split_and!; [| |lia].
  - apply submseteq_Permutation in Hsub as (rest & Hperm).
    assert (Havail : NoDup avail) by by apply NoDup_filter.
    rewrite Hperm in Havail. by apply NoDup_app in Havail as [? _].
  - intros p Hp. eapply elem_of_submseteq in Hp; [|done].
    apply list_elem_of_filter in Hp. tauto.
Qed.

(** Two replicas: one adds a product at version 1, the other removes it at
    version 2 between the first one's read of the product record and its
    update of the index. *)
Definition race_added : product_record := ProductRecord "p1" 1 1 false "e1" 1.
Definition race_removed : product_record := ProductRecord "p1" 2 2 true "e2" 2.
Definition race_schedule : list nat := [0; 0; 0; 1; 1; 1; 1; 1; 0; 0; 0].

(** The index can end up naming a product whose winning record is
    removed, although both handlers report success: [_reconcile_catalog_index]
    reads the product record once, before its compare-and-set loop on the
    index, so a replica that is overtaken there writes a stale membership. *)
Theorem catalog_index_race :
  let c := run_schedule bucket_handle race_schedule
             (mem_empty, [apply_product race_added 20; apply_product race_removed 20]) in
  c.2 = [Ret "created"; Ret "updated"] ∧
  stored_at "product.p1" c.1 = Some (product_json race_removed) ∧
  ∃ ids, index_set c.1 = Ok ids ∧ "p1" ∈ ids.
Proof.
  split_and!; [vm_compute; reflexivity..|]. exists {["p1"]}.
  split; [vm_compute; reflexivity|set_solver].
Qed.

(** ** Witnesses *)

Definition demo_event_version (id : string) : Z :=
  if String.eqb id "e1" then 1%Z else 2%Z.

Lemma catalog_wf_empty ev : catalog_wf ev mem_empty.
Proof. intros p key v r _ Hget. done. Qed.

Lemma represents_empty : represents (Catalog ∅ ∅) mem_empty.
Proof. split; [done| |done]. intros p r Hr. simpl in Hr. by rewrite lookup_empty in Hr. Qed.

Lemma concurrent_apply_never_loses_witness :
  ∃ key, product_key "p1" = Ok key ∧
    version_at_least key 2
      (run_schedule bucket_handle race_schedule
         (mem_empty, [apply_product race_added 20; apply_product race_removed 20])).1.
Proof.
  destruct (run_schedule bucket_handle race_schedule
    (mem_empty, [apply_product race_added 20; apply_product race_removed 20])) as [s' ps'] eqn:E.
  assert (ps' !! 1 = Some (Ret "updated")) as Hps.
  { change ps' with (s', ps').2. rewrite <-E. vm_compute. reflexivity. }
  destruct (concurrent_apply_never_loses demo_event_version [race_added; race_removed] 20
    mem_empty s' ps') as [Hret _].
  - apply catalog_wf_empty.
  - repeat constructor.
  - simpl fmap. rewrite <-E. apply run_schedule_steps.
  - exact (Hret 1 race_removed "updated" eq_refl Hps).
Defined.

Lemma apply_product_refines_witness :
  ∃ s', run bucket_handle (apply_product race_added 1) mem_empty
          = (Ok (spec_apply race_added (Catalog ∅ ∅)).1, s') ∧
    represents (spec_apply race_added (Catalog ∅ ∅)).2 s'.
Proof.
  apply (apply_product_refines race_added 0 mem_empty (Catalog ∅ ∅) "product.p1").
  - apply represents_empty.
  - vm_compute. reflexivity.
  - vm_compute. reflexivity.
  - discriminate.
Defined.

Lemma deliveries_converge_witness :
  ∃ c, newest [race_added; race_removed] c ∧
    represents c (deliver 20 mem_empty [race_added; race_removed]) ∧
    represents c (deliver 20 mem_empty [race_removed; race_added; race_removed]).
Proof.
  apply (deliveries_converge 19).
  - apply represents_empty.
  - repeat constructor; simpl; discriminate.
  - intros r r' [->|[->|[]%elem_of_nil]%elem_of_cons]%elem_of_cons
      [->|[->|[]%elem_of_nil]%elem_of_cons]%elem_of_cons; split; try done; discriminate.
  - set_solver.
Defined.

Lemma ensure_catalog_index_seeds_witness :
  ∃ s', run bucket_handle ensure_catalog_index mem_empty = (Ok "created", s') ∧
    index_set s' = Ok (active_products ∅) ∧
    ∀ k, k ≠ CATALOG_INDEX_KEY → bk_get k s' = bk_get k mem_empty.
Proof.
  pose proof (ensure_catalog_index_seeds mem_empty ∅) as Hseed.
  assert (Hidx : bk_get CATALOG_INDEX_KEY mem_empty = Raise key_not_found) by reflexivity.
  rewrite Hidx in Hseed. apply Hseed.
  - intros key _. by left.
  - intros p r Hr. by rewrite lookup_empty in Hr.
Defined.

Lemma catalog_snapshot_spec_witness :
  (run bucket_handle catalog_snapshot mem_empty).1
    = Raise (CatalogNotReady "catalog snapshot has not completed").
Proof.
  destruct (catalog_snapshot_spec mem_empty (Catalog ∅ ∅)) as [_ Hsnap].
  - apply (rep_active _ _ represents_empty).
  - assert (Hkey : bk_get CATALOG_KEY mem_empty = Raise key_not_found) by reflexivity.
    by rewrite Hkey in Hsnap.
Defined.

(** A generator that satisfies the law: the first [k] of the population. *)
Lemma select_candidates_spec_witness :
  ∃ ids, select_candidates (λ _ pop k, take k pop) ["a"; "b"; "c"] 7 {["b"]} "m" "model" 5
           = Ok (ids, 7%Z) ∧
    NoDup ids ∧ (∀ p, p ∈ ids → p ∈ ["a"; "b"; "c"] ∧ p ∉ ({["b"]} : gset string)) ∧
    Z.of_nat (length ids) =
      Z.min 5 (Z.of_nat (length (filter (λ p, p ∉ ({["b"]} : gset string)) ["a"; "b"; "c"]))).
Proof.
  apply select_candidates_spec.
  - intros _ pop k Hk. rewrite length_take. split; [lia|].
    apply sublist_submseteq, sublist_take.
  - apply (bool_decide_unpack (NoDup ["a"; "b"; "c"])). vm_compute. exact I.
  - lia.
Defined.
