(* ===== verification/PyUrl.v ===== *)
(** * URL splitting (the standard library's [urllib.parse])

    [urlsplit] as the benchmark uses it: scheme, network location, path,
    query, fragment, and the user information of the network location.  The
    check of a bracketed host against the address syntax of RFC 3986 is a
    parameter. *)

From S2P Require Import Prelude PyFloat PyValue.
From Stdlib Require Import Ascii.

Record url := Url {
  url_scheme : string;
  url_netloc : string;
  url_path : string;
  url_query : string;
  url_fragment : string;
}.

Definition chr_alpha (c : ascii) : bool :=
  let n := chr_code c in ((65 <=? n) && (n <=? 90) || (97 <=? n) && (n <=? 122))%Z.

(** Letters, digits and the signs [+], [-], [.]. *)
Definition chr_scheme (c : ascii) : bool :=
  let n := chr_code c in
  chr_alpha c || ((48 <=? n) && (n <=? 57))%Z || ((n =? 43) || (n =? 45) || (n =? 46))%Z.

(** The longest prefix without a character of [stop], and the rest. *)
Fixpoint chars_break (stop : ascii → bool) (l : list ascii) : list ascii * list ascii :=
  match l with
  | [] => ([], [])
  | c :: l' => if stop c then ([], l) else let '(h, t) := chars_break stop l' in (c :: h, t)
  end.

Definition is_char (n : Z) (c : ascii) : bool := (chr_code c =? n)%Z.

(** Leading blanks and control characters go, as do tabs and line breaks
    anywhere. *)
Definition url_clean (l : list ascii) : list ascii :=
  filter (λ c, negb (is_char 9 c || is_char 10 c || is_char 13 c) = true)
    (drop_while (λ c, (chr_code c <=? 32)%Z) l).

Definition split_scheme (l : list ascii) : list ascii * list ascii :=
  let '(h, t) := chars_break (is_char 58) l in
  match h, t with
  | c :: _, _ :: t' =>
      if chr_alpha c && forallb chr_scheme h then (chr_lower <$> h, t') else ([], l)
  | _, _ => ([], l)
  end.

Definition split_netloc (l : list ascii) : list ascii * list ascii :=
  match l with
  | c1 :: c2 :: l' =>
      if is_char 47 c1 && is_char 47 c2
      then chars_break (λ c, is_char 47 c || is_char 63 c || is_char 35 c) l'
      else ([], l)
  | _ => ([], l)
  end.

(** Split at the first occurrence of a character, which is dropped. *)
Definition split_tail (n : Z) (l : list ascii) : list ascii * list ascii :=
  let '(h, t) := chars_break (is_char n) l in (h, tail t).

Section split.
(** Whether a network location with balanced brackets is accepted. *)
Context (bracket_ok : string → bool).

Definition urlsplit (s : string) : res url :=
  let '(scheme, l) := split_scheme (url_clean (chars s)) in
  let '(netloc, l) := split_netloc l in
  let opened := existsb (is_char 91) netloc in
  let closed := existsb (is_char 93) netloc in
  if (opened && negb closed) || (closed && negb opened)
     || (opened && closed && negb (bracket_ok (of_chars netloc)))
  then Raise (ValueError "Invalid IPv6 URL")
  else
    let '(l, fragment) := split_tail 35 l in
    let '(path, query) := split_tail 63 l in
    Ok (Url (of_chars scheme) (of_chars netloc) (of_chars path) (of_chars query)
          (of_chars fragment)).
End split.

(** [rpartition('@')]: the user information before the last [@]. *)
Definition url_userinfo (u : url) : option (list ascii) :=
  let '(tail_rev, head_rev) := chars_break (is_char 64) (reverse (chars (url_netloc u))) in
  match head_rev with [] => None | _ :: h => Some (reverse h) end.

(** [parsed.username] and [parsed.password], absent or a string. *)
Definition url_username (u : url) : option string :=
  i ← url_userinfo u; Some (of_chars (chars_break (is_char 58) i).1).
Definition url_password (u : url) : option string :=
  i ← url_userinfo u;
  match (chars_break (is_char 58) i).2 with [] => None | _ :: p => Some (of_chars p) end.

Definition opt_truth (o : option string) : bool :=
  match o with Some s => negb (String.eqb s "") | None => false end.

Definition uses_netloc : list string :=
  ["ftp"; "http"; "gopher"; "nntp"; "telnet"; "imap"; "wais"; "file"; "mms"; "https";
   "shttp"; "snews"; "prospero"; "rtsp"; "rtsps"; "rtspu"; "rsync"; "svn"; "svn+ssh"; "sftp";
   "nfs"; "git"; "git+ssh"; "ws"; "wss"].

Definition urlunsplit (u : url) : string :=
  let path := url_path u in
  let rest :=
    if negb (String.eqb (url_netloc u) "") then
      "//" +:+ url_netloc u +:+
      (if negb (String.eqb path "") && negb (str_startswith "/" path) then "/" +:+ path else path)
    else if str_startswith "//" path then "//" +:+ path
    else if bool_decide (url_scheme u ∈ uses_netloc)
            && (String.eqb path "" || str_startswith "/" path) then "//" +:+ path
    else path in
  let rest := if String.eqb (url_scheme u) "" then rest else url_scheme u +:+ ":" +:+ rest in
  let rest := if String.eqb (url_query u) "" then rest else rest +:+ "?" +:+ url_query u in
  if String.eqb (url_fragment u) "" then rest else rest +:+ "#" +:+ url_fragment u.

Definition uses_params : list string :=
  [""; "ftp"; "hdl"; "prospero"; "http"; "imap"; "https"; "shttp"; "rtsp"; "rtspu"; "sip"; "sips";
   "mms"; "sftp"; "tel"].

(** The last component of a path loses its [;params]. *)
Definition split_params (l : list ascii) : list ascii :=
  let '(last_rev, before_rev) := chars_break (is_char 47) (reverse l) in
  reverse before_rev ++ (chars_break (is_char 59) (reverse last_rev)).1.

(** [urlparse(s).path] *)
Definition urlparse_path (bracket_ok : string → bool) (s : string) : res string :=
  u ← urlsplit bracket_ok s;
  Ok (if bool_decide (url_scheme u ∈ uses_params)
      then of_chars (split_params (chars (url_path u))) else url_path u).
