(* ===== verification/BenchConfig.v ===== *)
(** * Benchmark configuration (benchmarkservice/config.py)

    A request is a dictionary of dynamic values; [from_request] turns it into
    a validated [config] or raises [ConfigError].  The theorems give the
    bounds a validated configuration satisfies, the round trip through the
    stored form, and how a run is divided among its workers. *)

From S2P Require Import Prelude PyFloat PyValue PyUrl.
From Corelib Require Import SpecFloat.

(** [config.py:12-13 APPLICATION_TYPES] *)
Definition APPLICATION_TYPES : list string := ["GRPC"; "NATS"].
Definition WORKLOADS : list string := ["closed"; "open"; "saturation"; "fault_tolerance"].

(** [config.py:14-15 LOCAL_CLUSTER] *)
Definition LOCAL_CLUSTER : string := "local".
Definition LOCAL_TARGET_URL : string := "http://frontend:80".

(** [config.py:16-21 MAX_OPEN_ARRIVAL_RATE_PER_WORKER] *)
Definition MAX_OPEN_ARRIVAL_RATE_PER_WORKER : pyfloat := float_dec 50 0.
Definition MAX_CLOSED_USERS_PER_WORKER : Z := 1000.
Definition SATURATION_START_RATE : pyfloat := float_dec 10 0.
Definition SATURATION_STEP_RATE : pyfloat := float_dec 10 0.
Definition SATURATION_STEP_SECONDS : Z := 30.
Definition LEGACY_SATURATION_STEP_SECONDS : Z := 10.

Abbreviation mapping := (list (string * pyval)).

(** [values.get(name, d)] *)
Definition get_or (values : mapping) (name : string) (d : pyval) : pyval :=
  default d (alist_get name values).

Definition between_message {A} (name lo hi : string) : res A :=
  Raise (ConfigError (name +:+ " must be between " +:+ lo +:+ " and " +:+ hi)).

(** [config.py:28-44 _integer] *)
Definition config_integer (values : mapping) (name : string) (dflt minimum maximum : Z) : res Z :=
  let raw := get_or values name (PInt dflt) in
  let bad := Raise (ConfigError (name +:+ " must be an integer")) in
  match raw with
  | PBool _ => bad
  | _ =>
      match py_int raw with
      | Raise (TypeError _) | Raise (ValueError _) => bad
      | Raise e => Raise e
      | Ok value =>
          if (value <? minimum)%Z || (maximum <? value)%Z
          then between_message name (pretty minimum) (pretty maximum)
          else Ok value
      end
  end.

(** [config.py:47-63 _number] *)
Definition config_number (values : mapping) (name : string) (dflt minimum maximum : pyfloat)
    : res pyfloat :=
  let raw := get_or values name (PFloat dflt) in
  let bad := Raise (ConfigError (name +:+ " must be a number")) in
  match raw with
  | PBool _ => bad
  | _ =>
      match py_float raw with
      | Raise (TypeError _) | Raise (ValueError _) => bad
      | Raise e => Raise e
      | Ok value =>
          if fltb value minimum || fltb maximum value
          then between_message name (float_repr minimum) (float_repr maximum)
          else Ok value
      end
  end.

(** [config.py:66-76 _boolean] *)
Definition config_boolean (values : mapping) (name : string) (dflt : bool) : res bool :=
  let bad := Raise (ConfigError (name +:+ " must be a boolean")) in
  match get_or values name (PBool dflt) with
  | PBool b => Ok b
  | PStr s =>
      let normalized := str_lower (str_strip s) in
      if bool_decide (normalized ∈ ["1"; "true"; "yes"; "on"]) then Ok true
      else if bool_decide (normalized ∈ ["0"; "false"; "no"; "off"]) then Ok false
      else bad
  | _ => bad
  end.

(** [config.py:105-125 BenchmarkConfig] *)
Record config := Config {
  application_type : string;
  target_url : string;
  metrics_url : option string;
  workload : string;
  warmup_seconds : Z;
  duration_seconds : Z;
  drain_seconds : Z;
  users : Z;
  spawn_rate : pyfloat;
  arrival_rate : pyfloat;
  saturation_start_rate : pyfloat;
  saturation_max_rate : pyfloat;
  saturation_step_seconds : Z;
  outcome_timeout_seconds : pyfloat;
  settlement_timeout_seconds : pyfloat;
  resource_sample_interval_seconds : pyfloat;
  seed : Z;
  collect_resources : bool;
  collect_nats_metrics : bool;
}.

Section validation.
Context (bracket_ok : string → bool).

(** [config.py:79-90 normalize_http_url] *)
Definition normalize_http_url (value name : string) : res string :=
  let candidate := str_strip value in
  if String.eqb candidate "" then Raise (ConfigError (name +:+ " is required")) else
  parsed ← urlsplit bracket_ok candidate;
  if negb (bool_decide (url_scheme parsed ∈ ["http"; "https"]))
     || String.eqb (url_netloc parsed) ""
  then Raise (ConfigError (name +:+ " must be an absolute HTTP(S) URL"))
  else if opt_truth (url_username parsed) || opt_truth (url_password parsed)
          || negb (String.eqb (url_query parsed) "") || negb (String.eqb (url_fragment parsed) "")
  then Raise (ConfigError (name +:+ " must not contain credentials, a query, or a fragment"))
  else Ok (str_rstrip "/" candidate).

(** [config.py:93-96 normalize_target_url] *)
Definition normalize_target_url (value : string) : res string :=
  if String.eqb (str_strip value) LOCAL_CLUSTER then Ok LOCAL_TARGET_URL
  else normalize_http_url value "target_url".

(** [config.py:99-102 normalize_metrics_url] *)
Definition normalize_metrics_url (value : string) : res string :=
  if String.eqb (str_strip value) LOCAL_CLUSTER then Ok LOCAL_CLUSTER
  else normalize_http_url value "metrics_url".

Definition float_0_01 : pyfloat := float_dec 1 (-2).
Definition float_0_001 : pyfloat := float_dec 1 (-3).
Definition float_10000 : pyfloat := float_dec 10000 0.

(** [config.py:139-242 _from_values] *)
Definition from_values (values : mapping) (app : string) (minimum_spawn_rate : pyfloat)
    : res config :=
  let app_type := str_upper (str_strip app) in
  if negb (bool_decide (app_type ∈ APPLICATION_TYPES))
  then Raise (ConfigError "APPLICATION_TYPE must be GRPC or NATS") else
  let wl := str_lower (str_strip (py_str (get_or values "workload" (PStr "closed")))) in
  if negb (bool_decide (wl ∈ WORKLOADS))
  then Raise (ConfigError "workload must be closed, open, saturation, or fault_tolerance") else
  target ← normalize_target_url (py_str (get_or values "target_url" (PStr "")));
  resources ← config_boolean values "collect_resources" true;
  nats ← (if String.eqb app_type "NATS"
          then config_boolean values "collect_nats_metrics" true else Ok false);
  let raw_metrics := get_or values "metrics_url" PNone in
  let raw_metrics_url := if py_truth raw_metrics then py_str raw_metrics else "" in
  metrics ← (if negb (String.eqb (str_strip raw_metrics_url) "")
             then Some <$> normalize_metrics_url raw_metrics_url else Ok None);
  if (resources || nats) && bool_decide (metrics = None)
  then Raise (ConfigError "metrics_url is required when metrics collection is enabled") else
  interval ← config_number values "resource_sample_interval_seconds"
               (float_dec 5 0) (float_dec 1 0) (float_dec 60 0);
  start_rate ← config_number values "saturation_start_rate" SATURATION_START_RATE
                 float_0_01 float_10000;
  max_rate ← config_number values "saturation_max_rate" (float_dec 1000 0) float_0_01 float_10000;
  if fltb max_rate start_rate
  then Raise (ConfigError
    "saturation_max_rate must be greater than or equal to saturation_start_rate") else
  warmup ← config_integer values "warmup_seconds" 30 0 3600;
  duration ← config_integer values "duration_seconds"
               (if String.eqb wl "saturation" then 600 else 120) 1 3600;
  drain ← config_integer values "drain_seconds" 60 1 1800;
  n_users ← config_integer values "users" 10 1 10000;
  spawn ← config_number values "spawn_rate" (float_dec 1 0) minimum_spawn_rate float_10000;
  arrival ← config_number values "arrival_rate" (float_dec 1 0) float_0_01 float_10000;
  step ← config_integer values "saturation_step_seconds" SATURATION_STEP_SECONDS 10 300;
  outcome ← config_number values "outcome_timeout_seconds"
              (float_dec 30 0) (float_dec 1 0) (float_dec 1800 0);
  settlement ← config_number values "settlement_timeout_seconds"
                 (float_dec 60 0) (float_dec 1 0) (float_dec 3600 0);
  sd ← config_integer values "seed" 1 0 2147483647;
  Ok (Config app_type target metrics wl warmup duration drain n_users spawn arrival
        start_rate max_rate step outcome settlement interval sd resources nats).

(** [config.py:127-137 from_request] *)
Definition from_request (values : mapping) (app : string) : res config :=
  from_values values app float_0_01.

(** [values.setdefault(name, v)] on a copy. *)
Definition setdefault (values : mapping) (name : string) (v : pyval) : mapping :=
  match alist_get name values with Some _ => values | None => alist_set name v values end.

Definition with_legacy_step (values : mapping) : mapping :=
  setdefault values "saturation_step_seconds" (PInt LEGACY_SATURATION_STEP_SECONDS).

(** [config.py:244-253 from_dict] *)
Definition from_dict (values : mapping) : res config :=
  let values := with_legacy_step values in
  from_request values (py_str (get_or values "application_type" (PStr ""))).

(** [config.py:255-267 from_worker_dict] *)
Definition from_worker_dict (values : mapping) : res config :=
  let values := with_legacy_step values in
  from_values values (py_str (get_or values "application_type" (PStr ""))) float_0_001.
End validation.

(** [config.py:269-271 submission_seconds] *)
Definition submission_seconds (c : config) : Z := warmup_seconds c + duration_seconds c.

(** [config.py:273-275 run_seconds] *)
Definition run_seconds (c : config) : Z := submission_seconds c + drain_seconds c.

(** [config.py:296-300 saturation_step_count] *)
Definition saturation_step_count (c : config) : res Z :=
  q ← int_truediv (duration_seconds c) (saturation_step_seconds c);
  f_ceil q.

(** [config.py:302-308 saturation_effective_max_rate] *)
Definition saturation_effective_max_rate (c : config) : res pyfloat :=
  steps ← saturation_step_count c;
  extra ← float_of_Z (steps - 1);
  let duration_limited_rate :=
    fadd (saturation_start_rate c) (fmul extra SATURATION_STEP_RATE) in
  Ok (f_min (saturation_max_rate c) duration_limited_rate).

Definition open_workload (c : config) : bool :=
  bool_decide (workload c ∈ ["open"; "fault_tolerance"]).

(** [config.py:277-294 worker_count] *)
Definition worker_count (c : config) : res Z :=
  if open_workload c then
    n ← f_ceil (fdiv (arrival_rate c) MAX_OPEN_ARRIVAL_RATE_PER_WORKER);
    Ok (Z.max 1 n)
  else if String.eqb (workload c) "saturation" then
    rate ← saturation_effective_max_rate c;
    n ← f_ceil (fdiv rate MAX_OPEN_ARRIVAL_RATE_PER_WORKER);
    Ok (Z.max 1 n)
  else
    q ← int_truediv (users c) MAX_CLOSED_USERS_PER_WORKER;
    n ← f_ceil q;
    Ok (Z.max 1 n).

(** [dataclasses.replace] of the fields that differ between workers. *)
Definition replace_worker (c : config) (n_users : Z) (spawn arrival : pyfloat)
    (sd : Z) (resources nats : bool) : config :=
  Config (application_type c) (target_url c) (metrics_url c) (workload c)
    (warmup_seconds c) (duration_seconds c) (drain_seconds c) n_users spawn arrival
    (saturation_start_rate c) (saturation_max_rate c) (saturation_step_seconds c)
    (outcome_timeout_seconds c) (settlement_timeout_seconds c)
    (resource_sample_interval_seconds c) sd resources nats.

(** [config.py:310-347 for_worker] *)
Definition for_worker (c : config) (index : Z) : res config :=
  workers ← worker_count c;
  if (index <? 0)%Z || (workers <=? index)%Z
  then Raise (IndexError ("worker index " +:+ pretty index +:+ " is outside [0, "
                          +:+ pretty workers +:+ ")"))
  else
    let sd := ((seed c + index) mod 2147483648)%Z in
    let first := (index =? 0)%Z in
    let resources := collect_resources c && first in
    let nats := collect_nats_metrics c && first in
    if open_workload c then
      i ← float_of_Z index;
      let rate := f_min MAX_OPEN_ARRIVAL_RATE_PER_WORKER
        (fsub (arrival_rate c) (fmul i MAX_OPEN_ARRIVAL_RATE_PER_WORKER)) in
      Ok (replace_worker c (users c) (spawn_rate c) rate sd resources nats)
    else if String.eqb (workload c) "saturation" then
      Ok (replace_worker c (users c) (spawn_rate c) (arrival_rate c) sd resources nats)
    else
      let users_per_worker := (users c / workers)%Z in
      let remainder := (users c mod workers)%Z in
      w ← float_of_Z workers;
      spawn ← f_truediv (spawn_rate c) w;
      Ok (replace_worker c (users_per_worker + if index <? remainder then 1 else 0)%Z
            spawn (arrival_rate c) sd resources nats).

(** [config.py:349-350 as_dict] *)
Definition as_dict (c : config) : mapping :=
  [("application_type", PStr (application_type c));
   ("target_url", PStr (target_url c));
   ("metrics_url", match metrics_url c with Some s => PStr s | None => PNone end);
   ("workload", PStr (workload c));
   ("warmup_seconds", PInt (warmup_seconds c));
   ("duration_seconds", PInt (duration_seconds c));
   ("drain_seconds", PInt (drain_seconds c));
   ("users", PInt (users c));
   ("spawn_rate", PFloat (spawn_rate c));
   ("arrival_rate", PFloat (arrival_rate c));
   ("saturation_start_rate", PFloat (saturation_start_rate c));
   ("saturation_max_rate", PFloat (saturation_max_rate c));
   ("saturation_step_seconds", PInt (saturation_step_seconds c));
   ("outcome_timeout_seconds", PFloat (outcome_timeout_seconds c));
   ("settlement_timeout_seconds", PFloat (settlement_timeout_seconds c));
   ("resource_sample_interval_seconds", PFloat (resource_sample_interval_seconds c));
   ("seed", PInt (seed c));
   ("collect_resources", PBool (collect_resources c));
   ("collect_nats_metrics", PBool (collect_nats_metrics c))].

(** ** What a validated configuration satisfies *)

(** The range check of [_number] as it is: a NaN passes it. *)
Definition in_range (lo hi x : pyfloat) : Prop := fltb x lo || fltb hi x = false.

Definition url_normal (bracket_ok : string → bool) (c : config) : Prop :=
  normalize_target_url bracket_ok (target_url c) = Ok (target_url c) ∧
  ∀ m, metrics_url c = Some m →
    str_strip m ≠ "" ∧ normalize_metrics_url bracket_ok m = Ok m.

Record well_formed (min_spawn : pyfloat) (c : config) : Prop := {
  wf_app : application_type c ∈ APPLICATION_TYPES;
  wf_workload : workload c ∈ WORKLOADS;
  wf_nats : collect_nats_metrics c = true → application_type c = "NATS";
  wf_metrics : collect_resources c || collect_nats_metrics c = true → metrics_url c ≠ None;
  wf_warmup : (0 ≤ warmup_seconds c ≤ 3600)%Z;
  wf_duration : (1 ≤ duration_seconds c ≤ 3600)%Z;
  wf_drain : (1 ≤ drain_seconds c ≤ 1800)%Z;
  wf_users : (1 ≤ users c ≤ 10000)%Z;
  wf_step : (10 ≤ saturation_step_seconds c ≤ 300)%Z;
  wf_seed : (0 ≤ seed c ≤ 2147483647)%Z;
  wf_spawn : in_range min_spawn float_10000 (spawn_rate c);
  wf_arrival : in_range float_0_01 float_10000 (arrival_rate c);
  wf_start_rate : in_range float_0_01 float_10000 (saturation_start_rate c);
  wf_max_rate : in_range float_0_01 float_10000 (saturation_max_rate c);
  wf_rates : fltb (saturation_max_rate c) (saturation_start_rate c) = false;
  wf_outcome : in_range (float_dec 1 0) (float_dec 1800 0) (outcome_timeout_seconds c);
  wf_settlement : in_range (float_dec 1 0) (float_dec 3600 0) (settlement_timeout_seconds c);
  wf_interval :
    in_range (float_dec 1 0) (float_dec 60 0) (resource_sample_interval_seconds c);
}.

Lemma in_range_number lo hi x :
  f_is_nan lo = false → f_is_nan hi = false → in_range lo hi x → f_is_nan x = false →
  fleb lo x = true ∧ fleb x hi = true.
Proof.
  unfold in_range. intros Hlo Hhi [H1 H2]%orb_false_iff Hx. split; by apply fltb_false.
Qed.

Lemma config_integer_ok values name d lo hi v :
  config_integer values name d lo hi = Ok v → (lo ≤ v ≤ hi)%Z.
Proof.
  unfold config_integer. intros Hv.
  assert (∀ m, match m with
      | Raise (TypeError _) | Raise (ValueError _) =>
          Raise (ConfigError (name +:+ " must be an integer"))
      | Raise e => Raise e
      | Ok value => if (value <? lo)%Z || (hi <? value)%Z
          then between_message name (pretty lo) (pretty hi) else Ok value
      end = Ok v → (lo ≤ v ≤ hi)%Z) as Hm.
  { intros [z|[]]; try done. destruct (_ || _) eqn:E; [done|]. intros [= <-]. bool_to_prop. lia. }
  destruct (get_or values name (PInt d)); try done; by apply Hm in Hv.
Qed.

Lemma config_number_ok values name d lo hi v :
  config_number values name d lo hi = Ok v → in_range lo hi v.
Proof.
  unfold config_number, in_range. intros Hv.
  assert (∀ m, match m with
      | Raise (TypeError _) | Raise (ValueError _) =>
          Raise (ConfigError (name +:+ " must be a number"))
      | Raise e => Raise e
      | Ok value => if fltb value lo || fltb hi value
          then between_message name (float_repr lo) (float_repr hi) else Ok value
      end = Ok v → fltb v lo || fltb hi v = false) as Hm.
  { intros [z|[]]; try done. destruct (_ || _) eqn:E; [done|]. by intros [= <-]. }
  destruct (get_or values name (PFloat d)); try done; by apply Hm in Hv.
Qed.

Lemma config_integer_read values name d lo hi v :
  alist_get name values = Some (PInt v) → (lo ≤ v ≤ hi)%Z →
  config_integer values name d lo hi = Ok v.
Proof.
  intros Hget Hv. unfold config_integer, get_or. rewrite Hget. simpl.
  rewrite (proj2 (Z.ltb_ge _ _)), (proj2 (Z.ltb_ge _ _)) by lia. done.
Qed.

Lemma config_number_read values name d lo hi v :
  alist_get name values = Some (PFloat v) → in_range lo hi v →
  config_number values name d lo hi = Ok v.
Proof. intros Hget Hv. unfold config_number, get_or. rewrite Hget. simpl. by rewrite Hv. Qed.

Lemma config_boolean_read values name d b :
  alist_get name values = Some (PBool b) → config_boolean values name d = Ok b.
Proof. intros Hget. unfold config_boolean, get_or. by rewrite Hget. Qed.

Lemma from_values_well_formed bok values app ms c :
  from_values bok values app ms = Ok c → well_formed ms c.
Proof.
  unfold from_values. intros Hc.
  destruct (bool_decide (_ ∈ APPLICATION_TYPES)) eqn:Happ; simpl in Hc; [|done].
  destruct (bool_decide (_ ∈ WORKLOADS)) eqn:Hwl; simpl in Hc; [|done].
  set (app_type := str_upper (str_strip app)) in *.
  apply res_bind_ok in Hc as (target & _ & Hc).
  apply res_bind_ok in Hc as (resources & _ & Hc).
  apply res_bind_ok in Hc as (nats & Hnats & Hc).
  apply res_bind_ok in Hc as (metrics & _ & Hc).
  destruct (_ && _) eqn:Hmet in Hc; [done|].
  apply res_bind_ok in Hc as (interval & ?%config_number_ok & Hc).
  apply res_bind_ok in Hc as (start_rate & ?%config_number_ok & Hc).
  apply res_bind_ok in Hc as (max_rate & ?%config_number_ok & Hc).
  destruct (fltb _ _) eqn:Hrates in Hc; [done|].
  apply res_bind_ok in Hc as (warmup & ?%config_integer_ok & Hc).
  apply res_bind_ok in Hc as (duration & ?%config_integer_ok & Hc).
  apply res_bind_ok in Hc as (drain & ?%config_integer_ok & Hc).
  apply res_bind_ok in Hc as (n_users & ?%config_integer_ok & Hc).
  apply res_bind_ok in Hc as (spawn & ?%config_number_ok & Hc).
  apply res_bind_ok in Hc as (arrival & ?%config_number_ok & Hc).
  apply res_bind_ok in Hc as (step & ?%config_integer_ok & Hc).
  apply res_bind_ok in Hc as (outcome & ?%config_number_ok & Hc).
  apply res_bind_ok in Hc as (settlement & ?%config_number_ok & Hc).
  apply res_bind_ok in Hc as (sd & ?%config_integer_ok & Hc).
  injection Hc as <-. apply bool_decide_eq_true_1 in Happ, Hwl.
  split; simpl; try done.
  - intros ->. destruct (String.eqb_spec app_type "NATS"); [done|]. by injection Hnats.
  - intros Hcol. rewrite Hcol in Hmet. simpl in Hmet. by apply bool_decide_eq_false_1 in Hmet.
Qed.

(** Any dictionary that reads like [as_dict c]: the stored record, whatever
    the order of its keys. *)
Definition reads_as (c : config) (values : mapping) : Prop :=
  ∀ k, alist_get k values = alist_get k (as_dict c).

Lemma str_strip_types a :
  a ∈ APPLICATION_TYPES ∨ a ∈ WORKLOADS → str_strip a = a.
Proof.
  unfold APPLICATION_TYPES, WORKLOADS. rewrite !elem_of_cons, !elem_of_nil. naive_solver.
Qed.

Lemma get_or_read c values k d v :
  reads_as c values → alist_get k (as_dict c) = Some v → get_or values k d = v.
Proof. intros Hread Hk. unfold get_or. by rewrite Hread, Hk. Qed.

Lemma upper_app_type a : a ∈ APPLICATION_TYPES → str_upper (str_strip a) = a.
Proof.
  unfold APPLICATION_TYPES. rewrite !elem_of_cons, elem_of_nil.
  by intros [->|[->|[]]].
Qed.
Lemma lower_workload a : a ∈ WORKLOADS → str_lower (str_strip a) = a.
Proof.
  unfold WORKLOADS. rewrite !elem_of_cons, elem_of_nil.
  by intros [->|[->|[->|[->|[]]]]].
Qed.

(** The optional metrics URL as [as_dict] writes it and [_from_values] reads it. *)
Definition opt_str (o : option string) : pyval :=
  match o with Some s => PStr s | None => PNone end.
Lemma read_metrics bok m :
  (∀ u, m = Some u → str_strip u ≠ "" ∧ normalize_metrics_url bok u = Ok u) →
  (let raw := if py_truth (opt_str m) then py_str (opt_str m) else "" in
   if negb (String.eqb (str_strip raw) "")
   then Some <$> normalize_metrics_url bok raw else Ok None) = Ok m.
Proof.
  intros Hm. destruct m as [u|]; [|done]. destruct (Hm u eq_refl) as [Hne Hnorm].
  assert (u ≠ "") as Hne' by (intros ->; by apply Hne).
  cbn [opt_str py_truth py_str]. rewrite (proj2 (String.eqb_neq u "")) by done. cbn [negb].
  rewrite (proj2 (String.eqb_neq _ "")) by done. cbn [negb]. by rewrite Hnorm.
Qed.

Ltac read_step name Hread lem wf :=
  erewrite (lem _ name); [cbn [mbind res_bind]|rewrite Hread; reflexivity|exact wf].

Lemma from_values_read bok ms c values :
  well_formed ms c → url_normal bok c → reads_as c values →
  from_values bok values (application_type c) ms = Ok c.
Proof.
  intros Hwf [Htarget Hmetrics] Hread. unfold from_values.
  rewrite upper_app_type by apply (wf_app _ _ Hwf).
  rewrite bool_decide_true by apply (wf_app _ _ Hwf). cbn [negb].
  rewrite (get_or_read c values "workload" _ (PStr (workload c))) by done. cbn [py_str].
  rewrite lower_workload by apply (wf_workload _ _ Hwf).
  rewrite bool_decide_true by apply (wf_workload _ _ Hwf). cbn [negb].
  rewrite (get_or_read c values "target_url" _ (PStr (target_url c))) by done. cbn [py_str].
  rewrite Htarget. cbn [mbind res_bind].
  rewrite (config_boolean_read values "collect_resources" _ (collect_resources c)) by (rewrite Hread; reflexivity).
  cbn [mbind res_bind].
  assert ((if String.eqb (application_type c) "NATS"
           then config_boolean values "collect_nats_metrics" true else Ok false)
          = Ok (collect_nats_metrics c)) as ->.
  { destruct (String.eqb_spec (application_type c) "NATS") as [E|E].
    - apply config_boolean_read. rewrite Hread. reflexivity.
    - destruct (collect_nats_metrics c) eqn:En; [|done].
      by apply (wf_nats _ _ Hwf) in En. }
  cbn [mbind res_bind].
  rewrite (get_or_read c values "metrics_url" _ (opt_str (metrics_url c))) by done.
  rewrite read_metrics by done. cbn [mbind res_bind].
  assert ((collect_resources c || collect_nats_metrics c) && bool_decide (metrics_url c = None)
          = false) as ->.
  { apply andb_false_iff. destruct (_ || _) eqn:E; [right|by left].
    apply bool_decide_eq_false_2. by apply (wf_metrics _ _ Hwf). }
  read_step "resource_sample_interval_seconds"%string Hread config_number_read (wf_interval _ _ Hwf).
  read_step "saturation_start_rate"%string Hread config_number_read (wf_start_rate _ _ Hwf).
  read_step "saturation_max_rate"%string Hread config_number_read (wf_max_rate _ _ Hwf).
  rewrite (wf_rates _ _ Hwf).
  read_step "warmup_seconds"%string Hread config_integer_read (wf_warmup _ _ Hwf).
  read_step "duration_seconds"%string Hread config_integer_read (wf_duration _ _ Hwf).
  read_step "drain_seconds"%string Hread config_integer_read (wf_drain _ _ Hwf).
  read_step "users"%string Hread config_integer_read (wf_users _ _ Hwf).
  read_step "spawn_rate"%string Hread config_number_read (wf_spawn _ _ Hwf).
  read_step "arrival_rate"%string Hread config_number_read (wf_arrival _ _ Hwf).
  read_step "saturation_step_seconds"%string Hread config_integer_read (wf_step _ _ Hwf).
  read_step "outcome_timeout_seconds"%string Hread config_number_read (wf_outcome _ _ Hwf).
  read_step "settlement_timeout_seconds"%string Hread config_number_read (wf_settlement _ _ Hwf).
  read_step "seed"%string Hread config_integer_read (wf_seed _ _ Hwf).
  by destruct c.
Qed.

(** ** Division among workers *)

Lemma split_sum_nat q r n :
  (0 ≤ r)%Z →
  sum_Z ((λ i, q + if (i <? r)%Z then 1 else 0)%Z <$> seqZ 0 (Z.of_nat n))
    = (q * Z.of_nat n + Z.min r (Z.of_nat n))%Z.
Proof.
  intros Hr. induction n as [|n IH]; [simpl; lia|].
  replace (Z.of_nat (S n)) with (Z.of_nat n + 1)%Z by lia.
  rewrite seqZ_app by lia. rewrite fmap_app, sum_Z_app, IH. simpl.
  destruct (_ <? _)%Z eqn:?; bool_to_prop; lia.
Qed.

(** [divmod] shares: the remainder goes to the first workers, one each. *)
Lemma split_sum u n :
  (0 < n)%Z →
  sum_Z ((λ i, u / n + if (i <? u mod n)%Z then 1 else 0)%Z <$> seqZ 0 n) = u.
Proof.
  intros Hn. pose proof (Z.mod_pos_bound u n Hn). pose proof (Z.div_mod u n).
  pose proof (split_sum_nat (u / n) (u mod n) (Z.to_nat n)) as Hs.
  rewrite Z2Nat.id in Hs by lia. rewrite Hs by lia. lia.
Qed.

Definition users_worker_count (u : Z) : res Z :=
  q ← int_truediv u MAX_CLOSED_USERS_PER_WORKER; n ← f_ceil q; Ok (Z.max 1 n).

(** The float quotient rounds up to the exact ceiling for every admissible
    number of users; checked by evaluation. *)
Lemma users_worker_count_exact u :
  (1 ≤ u ≤ 10000)%Z → users_worker_count u = Ok ((u + 999) / 1000)%Z.
Proof.
  intros Hu.
  assert (forallb (λ u, bool_decide (users_worker_count u = Ok ((u + 999) / 1000)%Z))
    (seqZ 1 10000) = true) as Hall by (vm_compute; reflexivity).
  rewrite forallb_forall in Hall.
  assert (Hin : In u (seqZ 1 10000)) by (apply list_elem_of_In, elem_of_seqZ; lia).
  apply Hall in Hin. by apply bool_decide_eq_true_1 in Hin.
Qed.

Lemma closed_worker_count ms c :
  well_formed ms c → workload c = "closed" → worker_count c = Ok ((users c + 999) / 1000)%Z.
Proof.
  intros Hwf Hwl. unfold worker_count, open_workload. rewrite Hwl. simpl.
  apply users_worker_count_exact, (wf_users _ _ Hwf).
Qed.

Lemma worker_count_float_ok w :
  (1 ≤ w ≤ 10)%Z → ∃ f, float_of_Z w = Ok f ∧ f_is_zero f = false.
Proof.
  intros Hw.
  assert (w ∈ [1; 2; 3; 4; 5; 6; 7; 8; 9; 10]%Z) as Hin
    by (rewrite !elem_of_cons; lia).
  rewrite !elem_of_cons, elem_of_nil in Hin.
  repeat (destruct Hin as [->|Hin]; [eexists; split; [vm_compute; reflexivity|done]|]). done.
Qed.

(** What worker [i] of a closed run gets. *)
Lemma closed_for_worker ms c i :
  well_formed ms c → workload c = "closed" →
  let n := ((users c + 999) / 1000)%Z in
  (0 ≤ i < n)%Z →
  ∃ w, for_worker c i = Ok w ∧
    users w = (users c / n + if (i <? users c mod n) then 1 else 0)%Z ∧
    seed w = ((seed c + i) mod 2147483648)%Z ∧
    collect_resources w = collect_resources c && (i =? 0)%Z ∧
    collect_nats_metrics w = collect_nats_metrics c && (i =? 0)%Z.
Proof.
  intros Hwf Hwl n Hi. unfold for_worker.
  rewrite (closed_worker_count ms c) by done. fold n. cbn [mbind res_bind].
  rewrite (proj2 (Z.ltb_ge _ _)), (proj2 (Z.leb_gt _ _)) by lia. cbn [orb].
  unfold open_workload. rewrite Hwl. cbn [orb].
  rewrite bool_decide_false by (vm_compute; intros Hin; inversion Hin as [|??? Hin']; inversion Hin' as [|??? Hin'']; inversion Hin'').
  simpl. pose proof (wf_users _ _ Hwf).
  destruct (worker_count_float_ok n) as (f & Hf & Hz).
  { subst n. split; [apply Z.div_le_lower_bound; lia|].
    apply Z.lt_succ_r, Z.div_lt_upper_bound; lia. }
  rewrite Hf. simpl. unfold f_truediv. rewrite Hz. simpl. by eexists.
Qed.

(** ** Properties *)

(** C39: every configuration accepted from a request is within its documented
    bounds: the workload and application type are known ones, the integers lie
    in their ranges, the rates and timeouts pass their range checks, the
    maximum saturation rate is not below the starting rate, NATS metrics are
    only collected for a NATS target, and any collection has a metrics URL. *)
Theorem from_request_well_formed bracket_ok values app c :
  from_request bracket_ok values app = Ok c → well_formed float_0_01 c.
Proof. apply from_values_well_formed. Qed.

(** A stored configuration reads back unchanged: whatever the order of the
    keys in the stored record, [from_dict] returns the configuration that
    [as_dict] wrote, provided its URLs are in normal form. *)
Theorem from_dict_roundtrip bracket_ok values app c stored :
  from_request bracket_ok values app = Ok c → url_normal bracket_ok c → reads_as c stored →
  from_dict bracket_ok stored = Ok c.
Proof.
  intros Hc Hurl Hread. unfold from_dict, with_legacy_step, setdefault.
  rewrite Hread. cbn [alist_get as_dict]. rewrite (get_or_read c stored _ _ (PStr (application_type c)))
    by done.
  apply from_values_read; [by eapply from_values_well_formed|done..].
Qed.

(** The workers of a closed run share its users exactly: there is one
    worker per started thousand of users, every worker gets at least one user
    and at most one thousand, the shares add up to the configured users, and
    the first worker alone collects metrics. *)
Theorem closed_workers_share_users ms c :
  well_formed ms c → workload c = "closed" →
  ∃ n ws, worker_count c = Ok (Z.of_nat n) ∧
    res_mapM (for_worker c) (seqZ 0 (Z.of_nat n)) = Ok ws ∧
    n = Z.to_nat ((users c + 999) / 1000) ∧
    sum_Z (users <$> ws) = users c ∧
    Forall (λ w, (1 ≤ users w ≤ 1000)%Z) ws ∧
    (∀ i w, ws !! S i = Some w → collect_resources w = false ∧ collect_nats_metrics w = false).
Proof.
  intros Hwf Hwl. set (n := ((users c + 999) / 1000)%Z).
  pose proof (wf_users _ _ Hwf) as Hu.
  assert (Hn : (1 ≤ n)%Z) by (unfold n; apply Z.div_le_lower_bound; lia).
  assert (Hw : ∃ ws, Forall2 (λ i w, for_worker c i = Ok w ∧
      users w = (users c / n + if (i <? users c mod n) then 1 else 0)%Z ∧
      collect_resources w = collect_resources c && (i =? 0)%Z ∧
      collect_nats_metrics w = collect_nats_metrics c && (i =? 0)%Z) (seqZ 0 n) ws).
  { assert (Hin : Forall (λ i, (0 ≤ i < n)%Z) (seqZ 0 n)).
    { apply Forall_forall. intros i. rewrite elem_of_seqZ. lia. }
    induction Hin as [|i l Hi _ [ws IH]]; [by exists []|].
    destruct (closed_for_worker ms c i Hwf Hwl Hi) as (w & ? & ? & _ & ? & ?).
    exists (w :: ws). constructor; [by split_and!|done]. }
  destruct Hw as (ws & Hws). exists (Z.to_nat n), ws. rewrite Z2Nat.id by lia.
  assert (Husers : users <$> ws = (λ i, users c / n + if (i <? users c mod n) then 1 else 0)%Z
    <$> seqZ 0 n).
  { induction Hws as [|i w l ws' (_ & E & _)]; simpl; [done|]. by f_equal. }
  split_and!.
  - by apply closed_worker_count with ms.
  - apply res_mapM_ok. eapply Forall2_impl; [done|]. by intros i w [? _].
  - done.
  - rewrite Husers. apply split_sum. lia.
  - apply Forall_forall. intros w Hin. apply list_elem_of_lookup in Hin as [j Hj].
    destruct (Forall2_lookup_r _ _ _ _ _ Hws Hj) as (i & Hi & _ & Hshare & _).
    apply lookup_seqZ in Hi as [-> _]. rewrite Hshare.
    assert (users c = n * (users c / n) + users c mod n)%Z as Hdm by (apply Z.div_mod; lia).
    pose proof (Z.mod_pos_bound (users c) n).
    assert (1000 * n ≤ users c + 999 < 1000 * n + 1000)%Z as Hceil.
    { pose proof (Z.div_mod (users c + 999) 1000). pose proof (Z.mod_pos_bound (users c + 999) 1000).
      unfold n. lia. }
    split; [destruct (_ <? _)%Z; nia|]. destruct (_ <? _)%Z eqn:?; bool_to_prop; nia.
  - intros i w Hi. destruct (Forall2_lookup_r _ _ _ _ _ Hws Hi) as (j & Hj & _ & _ & -> & ->).
    apply lookup_seqZ in Hj as [-> _]. rewrite (proj2 (Z.eqb_neq _ _)) by lia.
    by rewrite !andb_false_r.
Qed.

(** Every worker of any run, whatever the workload, has its own seed in
    the 31-bit range, no open-loop worker is asked for more than its maximum
    rate, indices outside the run are refused with [IndexError], and every
    field but users, rates, seed and collection is the run's own. *)
Theorem for_worker_spec ms c n i :
  well_formed ms c → worker_count c = Ok n →
  match for_worker c i with
  | Ok w =>
      (0 ≤ i < n)%Z ∧ (0 ≤ seed w < 2147483648)%Z ∧
      (open_workload c = true → fleb (arrival_rate w) MAX_OPEN_ARRIVAL_RATE_PER_WORKER = true) ∧
      (∀ j w', for_worker c j = Ok w' → i ≠ j → (n ≤ 2147483648)%Z → seed w ≠ seed w') ∧
      w = replace_worker c (users w) (spawn_rate w) (arrival_rate w) (seed w)
            (collect_resources c && (i =? 0)%Z) (collect_nats_metrics c && (i =? 0)%Z)
  | Raise (IndexError _) => (i < 0 ∨ n ≤ i)%Z
  | Raise _ => (0 ≤ i < n)%Z
  end.
Proof.
  intros Hwf Hn.
  assert (Hseed : ∀ i w, for_worker c i = Ok w →
    (0 ≤ i < n)%Z ∧ seed w = ((seed c + i) mod 2147483648)%Z).
  { intros j w' Hj. unfold for_worker in Hj. rewrite Hn in Hj. cbn [mbind res_bind] in Hj.
    destruct (_ || _) eqn:Hr in Hj; [done|]. bool_to_prop. split; [lia|].
    split_matches_in Hj; simplify_eq/=; res_inv; done. }
  destruct (for_worker c i) as [w1|e] eqn:Hw.
  - destruct (Hseed i w1 Hw) as [Hi Hs]. split_and!; [lia|lia| | | | |].
    + rewrite Hs. apply Z.mod_pos_bound. lia.
    + rewrite Hs. apply Z.mod_pos_bound. lia.
    + intros Hopen. unfold for_worker in Hw. rewrite Hn, Hopen in Hw. cbn [mbind res_bind] in Hw.
      destruct (_ || _) in Hw; [done|]. destruct (float_of_Z i) as [f|]; [|done].
      simpl in Hw. injection Hw as <-. simpl. by apply f_min_le_l.
    + intros j w' Hj Hij Hmax. destruct (Hseed j w' Hj) as [Hj' Hs']. rewrite Hs, Hs'.
      intros Heq. apply Hij.
      pose proof (Z.div_mod (seed c + i) 2147483648). pose proof (Z.div_mod (seed c + j) 2147483648).
      nia.
    + unfold for_worker in Hw. rewrite Hn in Hw. cbn [mbind res_bind] in Hw.
      destruct (_ || _) in Hw; [done|]. split_matches_in Hw; simplify_eq/=; res_inv; done.
  - unfold for_worker in Hw. rewrite Hn in Hw. cbn [mbind res_bind] in Hw.
    destruct (_ || _) eqn:Hr in Hw.
    + injection Hw as <-. apply orb_true_iff in Hr as [?%Z.ltb_lt|?%Z.leb_le]; lia.
    + bool_to_prop. assert ((0 ≤ i < n)%Z) by lia.
      assert (∀ m, e ≠ IndexError m) as Hne.
      { intros m ->. revert Hw. unfold float_of_Z, f_truediv. split_matches; simpl; try done.
        all: split_matches; done. }
      destruct e; try done. by destruct (Hne msg).
Qed.

(** ** Requests the validation treats in an unintended way *)

Definition demo_request (extra : mapping) : mapping :=
  extra ++ [("target_url", PStr " https://shop.example/ "); ("collect_resources", PBool false);
            ("collect_nats_metrics", PStr "no")].

Definition any_bracket (_ : string) : bool := true.

Definition open_demo (app : string) (rate : pyfloat) : config :=
  Config app "https://shop.example" None "open" 30 120 60 10 (float_dec 1 0) rate
    SATURATION_START_RATE (float_dec 1000 0) 30 (float_dec 30 0) (float_dec 60 0) (float_dec 5 0)
    1 false false.

(** A worker configuration can be refused by the very check that reads it
    back.  An open run at 50.005 orders per second is accepted and divided
    among two workers; the second one's share is 0.005, below the minimum
    arrival rate that [from_worker_dict] still applies, so the worker's
    configuration file raises [ConfigError] (only the minimum spawn rate is
    relaxed for workers). *)
Theorem open_worker_share_rejected :
  ∃ c w, from_request any_bracket
           (demo_request [("workload", PStr "Open"); ("arrival_rate", PFloat (float_dec 50005 (-3)))])
           "nats" = Ok c ∧
    worker_count c = Ok 2%Z ∧ for_worker c 1 = Ok w ∧
    from_worker_dict any_bracket (as_dict w)
      = Raise (ConfigError "arrival_rate must be between 0.01 and 10000.0").
Proof.
  set (rate := float_dec 50005 (-3)).
  exists (open_demo "NATS" rate),
    (replace_worker (open_demo "NATS" rate) 10 (float_dec 1 0)
       (fsub rate MAX_OPEN_ARRIVAL_RATE_PER_WORKER) 2 false false).
  split_and!; vm_compute; reflexivity.
Qed.

(** Two numeric inputs escape the validation: a NaN rate satisfies both
    range checks and is accepted, after which the number of workers cannot be
    computed; an infinite integer field raises [OverflowError], which the
    request handler does not report as a configuration error. *)
Theorem numeric_inputs_escape :
  (∃ c, from_request any_bracket
          (demo_request [("workload", PStr "open"); ("arrival_rate", PStr "nan")]) "GRPC" = Ok c ∧
     worker_count c = Raise (ValueError "cannot convert float NaN to integer")) ∧
  from_request any_bracket (demo_request [("users", PFloat (S754_infinity false))]) "GRPC"
    = Raise (OverflowError "cannot convert float infinity to integer").
Proof.
  split; [exists (open_demo "GRPC" S754_nan); split|]; vm_compute; reflexivity.
Qed.

(** ** Witnesses *)

Definition demo_config : config :=
  Config "GRPC" "https://shop.example" None "closed" 30 120 60 2500 (float_dec 1 0) (float_dec 1 0)
    SATURATION_START_RATE (float_dec 1000 0) 30 (float_dec 30 0) (float_dec 60 0) (float_dec 5 0)
    1 false false.

Definition demo_values : mapping := demo_request [("users", PStr " 2_500 ")].

Lemma demo_accepted : from_request any_bracket demo_values "grpc" = Ok demo_config.
Proof. vm_compute. reflexivity. Qed.

Lemma from_request_well_formed_witness : well_formed float_0_01 demo_config.
Proof. apply (from_request_well_formed any_bracket demo_values "grpc"), demo_accepted. Defined.

Lemma from_dict_roundtrip_witness :
  from_dict any_bracket (reverse (as_dict demo_config)) = Ok demo_config.
Proof.
  apply (from_dict_roundtrip any_bracket demo_values "grpc").
  - apply demo_accepted.
  - split; [vm_compute; reflexivity|]. intros m [=].
  - intros k. apply alist_get_Permutation.
    + apply (bool_decide_unpack (NoDup _)). vm_compute. exact I.
    + by rewrite reverse_Permutation.
Defined.

Lemma closed_workers_share_users_witness :
  ∃ n ws, worker_count demo_config = Ok (Z.of_nat n) ∧
    res_mapM (for_worker demo_config) (seqZ 0 (Z.of_nat n)) = Ok ws ∧
    n = Z.to_nat ((users demo_config + 999) / 1000) ∧
    sum_Z (users <$> ws) = users demo_config ∧
    Forall (λ w, (1 ≤ users w ≤ 1000)%Z) ws ∧
    (∀ i w, ws !! S i = Some w → collect_resources w = false ∧ collect_nats_metrics w = false).
Proof.
  apply (closed_workers_share_users float_0_01); [|reflexivity].
  eapply from_values_well_formed, demo_accepted.
Defined.

Lemma for_worker_spec_witness :
  match for_worker demo_config 3 with
  | Raise (IndexError _) => (3 < 0 ∨ 3 ≤ 3)%Z
  | _ => False
  end.
Proof.
  pose proof (for_worker_spec float_0_01 demo_config 3 3) as Hspec.
  assert (Hw : ∃ m, for_worker demo_config 3 = Raise (IndexError m))
    by (exists "worker index 3 is outside [0, 3)"; vm_compute; reflexivity).
  destruct Hw as [m Hw]. rewrite Hw in Hspec |- *. apply Hspec.
  - eapply from_values_well_formed, demo_accepted.
  - vm_compute. reflexivity.
Defined.
