(* ===== verification/BenchEnv.v ===== *)
(** * The environment of the benchmark service

    Controllers (control.py) and Jobs (job.py) run in different pods.  They
    share a JetStream bucket and an object store, and each of them reads
    clocks, talks to Kubernetes and touches its own disk.  This file is that
    environment: the operations as events, a world that holds the shared
    bucket and objects, and an oracle that answers everything else.

    The oracle is indexed by the number of operations performed so far in the
    whole system, so it covers every behaviour of clocks, networks and the
    Kubernetes API, lost requests and lost replies included; a theorem that
    needs a restriction on it states the restriction. *)

From S2P Require Import Prelude PyFloat PyValue Program KVStore.

(** What can happen to one request to NATS: it succeeds, it is lost before it
    reaches the server, or its effect happens but the reply is lost. *)
Inductive fault :=
  | NoFault
  | RequestLost (e : exn)
  | ReplyLost (e : exn).

(** Operations of a Job on its own pod: the disk, the load generator process
    and the reporting code. *)
Inductive localE : Type → Type :=
  | LMkdir (path : string) (exist_ok : bool) : localE (res unit)
  | LWriteJson (path : string) (value : pyval) : localE (res unit)
  | LPopen (command : list string) (environment : list (string * string)) : localE (res Z)
  | LWait : localE Z
  | LArchive (directory file : string) : localE (res unit)
  | LExtract (archive directory : string) : localE (res unit)
  | LUnlink (path : string) : localE (res unit)
  | LReplace (source destination : string) : localE (res unit)
  | LReadFile (path : string) : localE (res string)
  | LWriteFile (path data : string) : localE (res unit)
  | LMergeWorkerOutputs (directory : string) (workers : list string) : localE (res (list pyval))
  | LBuildReport (directory : string) : localE (res (list (string * pyval)))
  | LCreateArchive (directory : string) : localE (res unit)
  | LFiles (directory : string) : localE (res (list (string * Z)))
  | LSpawnHeartbeat : localE unit
  | LStopHeartbeat : localE unit
  | LHeartbeatWait : localE bool
  | LHeartbeatStopped : localE bool
  | LKillProcess : localE unit.

Inductive envE : Type → Type :=
  | EKv {X} (op : bucketE X) : envE X
  | EObjGet (name : string) : envE (res string)
  | EObjPut (name data : string) : envE (res unit)
  | EObjDelete (name : string) : envE (res unit)
  | EConnect : envE (res unit)
  | EInvalidate : envE unit
  | ESleep (seconds : pyfloat) : envE unit
  | ETime : envE pyfloat
  | EMonotonic : envE pyfloat
  | EUtcNow : envE string
  | EUtcStamp : envE string
  | EUuidHex : envE string
  | EUuid : envE string
  | EJobCreate (run_id : string) (maximum_seconds worker_count : Z) : envE (res string)
  | EJobState (name : string) : envE (res string)
  | EJobDelete (name : string) : envE (res unit)
  | EStopIsSet : envE bool
  | EStopSet : envE unit
  | EStopWait (seconds : pyfloat) : envE unit
  | ELocal {X} (op : localE X) : envE X.

Record oracle := Oracle {
  o_fault : nat → fault;
  o_connect : nat → res unit;
  o_time : nat → pyfloat;
  o_monotonic : nat → pyfloat;
  o_utc : nat → string;
  o_stamp : nat → string;
  o_uuid_hex : nat → string;
  o_uuid : nat → string;
  o_job_create : nat → string → Z → Z → res string;
  o_job_state : nat → string → res string;
  o_job_delete : nat → string → res unit;
  o_stop : nat → bool;
  o_local : nat → ∀ X, localE X → X;
}.

Record world (B : Type) := World {
  w_bucket : B;
  w_objects : gmap string string;
  w_step : nat;
}.
Arguments World {B}.
Arguments w_bucket {B}.
Arguments w_objects {B}.
Arguments w_step {B}.

(** Every bucket operation answers with a result, so any of them can answer
    with a transport error instead. *)
Definition refuse {X} (op : bucketE X) (e : exn) : X :=
  match op with BGet _ => Raise e | BCreate _ _ => Raise e | BUpdate _ _ _ => Raise e
              | BKeys => Raise e end.

Definition object_not_found : exn :=
  NatsError "ObjectNotFoundError" (Some 404%Z) "nats: object not found".

Section handle.
Context {B : Type} `{KVBucket B} (o : oracle).

Definition tick (w : world B) : world B := World (w_bucket w) (w_objects w) (S (w_step w)).
Definition answer {X} (x : X) (w : world B) : X * world B := (x, tick w).

Definition set_bucket (b : B) (w : world B) : world B :=
  World b (w_objects w) (w_step w).
Definition set_objects (m : gmap string string) (w : world B) : world B :=
  World (w_bucket w) m (w_step w).

(** A request under the fault of the current step. *)
Definition request {X} (effect : world B → X * world B) (no : exn → X) (w : world B) : X * world B :=
  match o_fault o (w_step w) with
  | NoFault => let '(x, w') := effect w in answer x w'
  | RequestLost e => answer (no e) w
  | ReplyLost e => answer (no e) (effect w).2
  end.

Definition kv_effect {X} (op : bucketE X) (w : world B) : X * world B :=
  let '(x, b) := bucket_handle X op (w_bucket w) in (x, set_bucket b w).

Definition env_handle (X : Type) (op : envE X) : world B → X * world B :=
  match op in envE X return world B → X * world B with
  | EKv op => request (kv_effect op) (refuse op)
  | EObjGet name => request
      (λ w, (match w_objects w !! name with
             | Some d => Ok d | None => Raise object_not_found end, w)) Raise
  | EObjPut name data => request
      (λ w, (Ok tt, set_objects (<[name := data]> (w_objects w)) w)) Raise
  | EObjDelete name => request
      (λ w, match w_objects w !! name with
            | Some _ => (Ok tt, set_objects (delete name (w_objects w)) w)
            | None => (Raise object_not_found, w) end) Raise
  | EConnect => λ w, answer (o_connect o (w_step w)) w
  | EInvalidate => answer tt
  | ESleep _ => answer tt
  | ETime => λ w, answer (o_time o (w_step w)) w
  | EMonotonic => λ w, answer (o_monotonic o (w_step w)) w
  | EUtcNow => λ w, answer (o_utc o (w_step w)) w
  | EUtcStamp => λ w, answer (o_stamp o (w_step w)) w
  | EUuidHex => λ w, answer (o_uuid_hex o (w_step w)) w
  | EUuid => λ w, answer (o_uuid o (w_step w)) w
  | EJobCreate r m n => λ w, answer (o_job_create o (w_step w) r m n) w
  | EJobState n => λ w, answer (o_job_state o (w_step w) n) w
  | EJobDelete n => λ w, answer (o_job_delete o (w_step w) n) w
  | EStopIsSet => λ w, answer (o_stop o (w_step w)) w
  | EStopSet => answer tt
  | EStopWait _ => answer tt
  | ELocal op => λ w, answer (o_local o (w_step w) _ op) w
  end.
End handle.

(** The operations that never write the bucket. *)
Definition harmless {X} (op : envE X) : bool :=
  match op with EKv _ => false | _ => true end.

(** ** Frame facts *)
Section frame.
Context {B : Type} `{KVLaws B} (o : oracle).
Implicit Types w : world B.

Lemma env_handle_step X (op : envE X) w : w_step (env_handle o X op w).2 = S (w_step w).
Proof.
  destruct op; try done; simpl; unfold request, kv_effect;
    repeat case_match; simplify_eq/=; try done;
    repeat match goal with E : (_, _) = _ |- _ => inversion E; clear E; subst end; try done.
Qed.

Lemma harmless_bucket X (op : envE X) w :
  harmless op = true → w_bucket (env_handle o X op w).2 = w_bucket w.
Proof.
  destruct op; try done; simpl; intros _; unfold request;
    repeat case_match; simplify_eq/=; done.
Qed.

(** A bucket request leaves the bucket alone, or performs its operation and
    reports it or loses the reply. *)
Lemma kv_cases X (op : bucketE X) w :
  let r := env_handle o X (EKv op) w in
  let b := bucket_handle X op (w_bucket w) in
  (w_bucket r.2 = w_bucket w ∧ ∃ e, r.1 = refuse op e) ∨
  (w_bucket r.2 = b.2 ∧ r.1 = b.1) ∨
  (w_bucket r.2 = b.2 ∧ ∃ e, r.1 = refuse op e).
Proof.
  simpl. unfold request, kv_effect. destruct (bucket_handle X op (w_bucket w)) as [x b].
  destruct (o_fault o (w_step w)) as [|e|e]; simpl; naive_solver.
Qed.

Lemma env_handle_evolves X (op : envE X) w :
  evolves (w_bucket w) (w_bucket (env_handle o X op w).2).
Proof.
  destruct (harmless op) eqn:Hop; [by rewrite harmless_bucket|].
  destruct op as [X op| | | | | | | | | | | | | | | | | | |]; try done.
  destruct (kv_cases X op w) as [[-> _]|[[-> _]|[-> _]]]; [reflexivity|apply handle_evolves..].
Qed.

(** What a process can rely on between two of its operations. *)
Definition world_rely w w' : Prop :=
  evolves (w_bucket w) (w_bucket w') ∧ (w_step w ≤ w_step w')%nat.

#[export] Instance world_rely_preorder : PreOrder world_rely.
Proof.
  split; [by intros w|]. intros w1 w2 w3 [] []. split; [by etrans|lia].
Qed.

Lemma env_handle_rely X (op : envE X) w : world_rely w (env_handle o X op w).2.
Proof. split; [apply env_handle_evolves|rewrite env_handle_step; lia]. Qed.
End frame.
