(* ===== verification/SharedStore.v ===== *)
(** * The shared store facade (benchmarkservice/shared_store.py)

    Every durable record of the benchmark service goes through
    [NatsSharedStore].  Each operation is retried on transient NATS failures
    with a doubling delay until the operation timeout; the facade relies on
    compare-and-set to make a replay harmless.  The theorems: a retried create
    or update takes effect at most once whatever is lost on the way, and the
    retry loop ends once the clock passes its deadline. *)

From S2P Require Import Prelude PyFloat PyValue Program KVStore BenchEnv.

(** [attempts] bounds the retry loop; [recovery_terminates] gives the number
    that makes it immaterial. *)
Record store := Store {
  operation_timeout : pyfloat;
  closed : bool;
  attempts : nat;
}.

(** [shared_store.py:35-38 encode_json] *)
Definition encode_json (value : pyval) : pyval := json_dumps value.

(** [shared_store.py:41-47 decode_json] *)
Definition decode_json (data : option pyval) : res pyval :=
  match data with
  | None => Raise (ValueError "shared record has no value")
  | Some (PDict d) => Ok (PDict d)
  | Some _ => Raise (ValueError "shared record is not a JSON object")
  end.

(** The [transient] tuple.
    [shared_store.py:205-212 NatsSharedStore._with_recovery] *)
Definition transient (e : exn) : bool :=
  match e with
  | TimeoutError _ => true
  | NatsError cls _ _ => bool_decide (cls ∈ ["TimeoutError"; "ConnectionClosedError";
      "NoServersError"; "UnexpectedEOF"; "ServiceUnavailableError"])
  | _ => false
  end.

Definition float_0_25 : pyfloat := float_dec 25 (-2).
Definition float_2 : pyfloat := float_dec 2 0.

(** [delay = min(delay * 2, 2.0)]
    [shared_store.py:225-225 NatsSharedStore._with_recovery] *)
Definition next_delay (delay : pyfloat) : pyfloat := f_min (fmul delay float_2) float_2.

(** [shared_store.py:215-225 NatsSharedStore._with_recovery] *)
Fixpoint recovery_loop {A} (n : nat) (operation : prog envE A) (deadline delay : pyfloat)
  : prog envE A :=
  match n with
  | 0 => Throw (TimeoutError "")
  | Datatypes.S n =>
      r ← prog_try (_ ← call EConnect; operation);
      match r with
      | Ok a => Ret a
      | Raise e =>
          if transient e then
            _ ← perform EInvalidate;
            now ← perform EMonotonic;
            let remaining := fsub deadline now in
            if fleb remaining delay then Throw e
            else
              _ ← perform (ESleep delay);
              recovery_loop n operation deadline (next_delay delay)
          else Throw e
      end
  end.

(** [shared_store.py:194-225 NatsSharedStore._with_recovery] *)
Definition with_recovery {A} (st : store) (operation : prog envE A) : prog envE A :=
  now ← perform EMonotonic;
  recovery_loop (attempts st) operation (fadd now (operation_timeout st)) float_0_25.

Definition is_cancelled (e : exn) : bool :=
  match e with NatsError cls _ _ => String.eqb cls "CancelledError" | _ => false end.

(** A coroutine that [_call] abandons ends with [CancelledError], which the
    waiting thread sees as its own [TimeoutError].
    [shared_store.py:78-89 NatsSharedStore._call] *)
Definition store_call {A} (st : store) (operation : prog envE A) : prog envE A :=
  if closed st then Throw (RuntimeError "shared store is closed")
  else prog_catch (λ e, Throw (if is_cancelled e then TimeoutError "" else e)) operation.

Section operations.
Context (st : store).

(** The body [get] of [_get].
    [shared_store.py:228-232 NatsSharedStore._get.get] *)
Definition kv_get (key : string) : prog envE (pyval * Z) :=
  r ← perform (EKv (BGet key));
  match r with
  | Ok x => Ret x
  | Raise e => Throw (if is_key_missing e then RecordNotFound key else e)
  end.

(** [shared_store.py:227-241 NatsSharedStore.get] *)
Definition sh_get (key : string) : prog envE (pyval * Z) :=
  store_call st (
    entry ← with_recovery st (kv_get key);
    value ← lift (decode_json (Some entry.1));
    Ret (value, entry.2)).

(** [shared_store.py:244-248 NatsSharedStore._create.create] *)
Definition kv_create (key : string) (value : pyval) : prog envE Z :=
  r ← perform (EKv (BCreate key (encode_json value)));
  match r with
  | Ok x => Ret x
  | Raise e => Throw (if is_wrong_sequence e then RevisionConflict key else e)
  end.

(** [shared_store.py:243-253 NatsSharedStore.create] *)
Definition sh_create (key : string) (value : pyval) : prog envE Z :=
  store_call st (with_recovery st (kv_create key value)).

(** [shared_store.py:258-266 NatsSharedStore._update.update] *)
Definition kv_update (key : string) (value : pyval) (revision : Z) : prog envE Z :=
  r ← perform (EKv (BUpdate key (encode_json value) revision));
  match r with
  | Ok x => Ret x
  | Raise e => Throw (if is_wrong_sequence e then RevisionConflict key else e)
  end.

(** [shared_store.py:255-273 NatsSharedStore.update] *)
Definition sh_update (key : string) (value : pyval) (revision : Z) : prog envE Z :=
  store_call st (with_recovery st (kv_update key value revision)).

(** [shared_store.py:275-286 NatsSharedStore.keys] *)
Definition sh_keys (prefix : string) : prog envE (list string) :=
  store_call st (
    ks ← with_recovery st (
      r ← perform (EKv BKeys);
      match r with
      | Ok ks => Ret ks
      | Raise e => if is_no_keys e then Ret [] else Throw e
      end);
    Ret (merge_sort String.le (filter (λ k, str_startswith prefix k = true) ks))).

(** [shared_store.py:288-292 NatsSharedStore.put_object] *)
Definition sh_put_object (name data : string) : prog envE unit :=
  store_call st (with_recovery st (call (EObjPut name data))).

(** The file is rewound and sent again on every attempt.
    [shared_store.py:294-304 NatsSharedStore.put_object_file] *)
Definition sh_put_object_file (name path : string) : prog envE unit :=
  store_call st (with_recovery st (
    data ← call (ELocal (LReadFile path));
    call (EObjPut name data))).

Definition is_object_missing (e : exn) : bool :=
  match e with NatsError cls _ _ => String.eqb cls "ObjectNotFoundError" | _ => false end.

Definition object_get (name : string) : prog envE string :=
  r ← perform (EObjGet name);
  match r with
  | Ok d => Ret d
  | Raise e => Throw (if is_object_missing e then RecordNotFound name else e)
  end.

(** [shared_store.py:306-317 NatsSharedStore.get_object] *)
Definition sh_get_object (name : string) : prog envE string :=
  store_call st (with_recovery st (object_get name)).

(** The object is written to a temporary file that replaces the destination
    only when it is complete; the temporary name is removed in every case.
    [shared_store.py:319-345 NatsSharedStore.get_object_file] *)
Definition sh_get_object_file (name path : string) : prog envE unit :=
  let temporary := path +:+ ".tmp" in
  store_call st (
    r ← prog_try (
      _ ← call (ELocal (LWriteFile temporary ""));
      _ ← with_recovery st (
        data ← object_get name;
        call (ELocal (LWriteFile temporary data)));
      call (ELocal (LReplace temporary path)));
    u ← perform (ELocal (LUnlink temporary));
    match u with
    | Raise e => if String.eqb (exn_class e) "FileNotFoundError" then lift r else Throw e
    | Ok _ => lift r
    end).

(** [shared_store.py:347-357 NatsSharedStore.delete_object] *)
Definition sh_delete_object (name : string) : prog envE unit :=
  store_call st (with_recovery st (
    r ← perform (EObjDelete name);
    match r with
    | Ok _ => Ret tt
    | Raise e => if is_object_missing e then Ret tt else Throw e
    end)).
End operations.

(** ** Retried operations alone *)
Section alone.
Context {B : Type} `{KVLaws B} (o : oracle).
Abbreviation exec := (run (env_handle (B := B) o)).
Implicit Types w : world B.

Lemma run_perform {X} (op : envE X) w :
  exec (perform op) w = (Ok (env_handle o X op w).1, (env_handle o X op w).2).
Proof. simpl. by destruct (env_handle o X op w). Qed.

Lemma run_perform_bind {X A} (op : envE X) (f : X → prog envE A) w :
  exec (x ← perform op; f x) w = exec (f (env_handle o X op w).1) (env_handle o X op w).2.
Proof. simpl. by destruct (env_handle o X op w). Qed.

Lemma run_store_call {A} st (p : prog envE A) w :
  closed st = false →
  exec (store_call st p) w =
    match exec p w with
    | (Raise e, w') => (Raise (if is_cancelled e then TimeoutError "" else e), w')
    | r => r
    end.
Proof. intros Hst. unfold store_call. rewrite Hst, run_catch. by destruct (exec p w) as [[a|e] w']. Qed.

(** One attempt. *)
Lemma run_attempt {A} (op : prog envE A) w :
  exec (prog_try (_ ← call EConnect; op)) w =
    match o_connect o (w_step w) with
    | Ok _ => let '(r, w') := exec op (tick w) in (Ok r, w')
    | Raise e => (Ok (Raise e), tick w)
    end.
Proof.
  rewrite run_try, run_bind, run_call. simpl.
  by destruct (o_connect o (w_step w)).
Qed.

(** *** At most one effect

    [Eff b rev b'] is the effect of the operation on the bucket.  If one
    execution of the operation either does nothing and fails, or has the
    effect, and the effect disables itself, then the same holds of the retried
    operation: replays after a lost reply never apply it twice. *)
Definition effect_once (Eff : B → Z → B → Prop) (p : prog envE Z) : Prop :=
  ∀ w r w', exec p w = (r, w') →
    (w_bucket w' = w_bucket w ∧ ∃ e, r = Raise e) ∨
    (∃ rev, Eff (w_bucket w) rev (w_bucket w') ∧ (r = Ok rev ∨ ∃ e, r = Raise e)).

Lemma recovery_loop_once Eff op n deadline delay :
  (∀ b rev b', Eff b rev b' → ∀ rev2 b2, ¬ Eff b' rev2 b2) →
  effect_once Eff op → effect_once Eff (recovery_loop n op deadline delay).
Proof.
  intros Hself Hop. revert delay. induction n as [|n IH]; intros delay w r w' Hrun.
  { simpl in Hrun. simplify_eq. left. eauto. }
  cbn [recovery_loop] in Hrun. rewrite run_bind, run_attempt in Hrun.
  assert (Hstop : ∀ e w1, exec (if transient e then
            _ ← perform EInvalidate; now ← perform EMonotonic;
            if fleb (fsub deadline now) delay then Throw e
            else _ ← perform (ESleep delay); recovery_loop n op deadline (next_delay delay)
          else Throw e) w1 = (r, w') →
      (w_bucket w' = w_bucket w1 ∧ ∃ e, r = Raise e) ∨
      (∃ rev, Eff (w_bucket w1) rev (w_bucket w') ∧ (r = Ok rev ∨ ∃ e, r = Raise e))).
  { intros e w1 Hw1. destruct (transient e); [|simpl in Hw1; simplify_eq; left; eauto].
    rewrite !run_perform_bind in Hw1. simpl in Hw1. case_match.
    - simpl in Hw1. simplify_eq. left. eauto.
    - by apply IH in Hw1. }
  destruct (o_connect o (w_step w)) as [[]|e].
  - destruct (exec op (tick w)) as [r1 w1] eqn:Hrun1.
    apply Hop in Hrun1 as [[Hb [e ->]]|(rev & Heff & [->|[e ->]])].
    + simpl in Hb. rewrite <-Hb. by eapply Hstop.
    + simpl in Hrun. simplify_eq. right. exists rev. simpl in Heff. eauto.
    + right. exists rev. simpl in Heff.
      apply Hstop in Hrun as [[Hb [e' ->]]|(rev2 & Heff2 & _)].
      * rewrite Hb. eauto.
      * by destruct (Hself _ _ _ Heff rev2 (w_bucket w')).
  - apply (Hstop e (tick w)) in Hrun. exact Hrun.
Qed.

Lemma retried_once Eff op st :
  (∀ b rev b', Eff b rev b' → ∀ rev2 b2, ¬ Eff b' rev2 b2) →
  effect_once Eff op → effect_once Eff (store_call st (with_recovery st op)).
Proof.
  intros Hself Hop w r w' Hrun. unfold store_call in Hrun.
  destruct (closed st); [simpl in Hrun; simplify_eq; left; eauto|].
  rewrite run_catch in Hrun. unfold with_recovery in Hrun. rewrite run_perform_bind in Hrun.
  destruct (exec _ _) as [r1 w1] eqn:Hloop.
  apply (recovery_loop_once Eff op _ _ _ Hself Hop) in Hloop. simpl in Hloop.
  destruct r1 as [x|e]; simpl in Hrun; simplify_eq;
    destruct Hloop as [[? [e' ?]]|(rev & ? & [?|[e' ?]])]; simplify_eq; eauto 10.
Qed.

(** The effect of a create and of an update on the bucket. *)
Definition created k v (b : B) (rev : Z) (b' : B) : Prop :=
  is_ok (bk_get k b) = false ∧ bk_written k v rev b b'.
Definition updated k v r0 (b : B) (rev : Z) (b' : B) : Prop :=
  (∃ v0, bk_get k b = Ok (v0, r0)) ∧ (r0 < rev)%Z ∧ bk_written k v rev b b'.

Lemma kv_create_once k v : effect_once (created k (encode_json v)) (kv_create k v).
Proof.
  intros w r w' Hrun. unfold kv_create in Hrun. rewrite run_perform_bind in Hrun.
  pose proof (kv_cases o _ (BCreate k (encode_json v)) w) as Hc.
  destruct (env_handle o _ (EKv (BCreate k (encode_json v))) w) as [x w1].
  cbn [fst snd bucket_handle refuse] in *.
  destruct (create_cases k (encode_json v) (w_bucket w)) as
    [(e' & rev & b' & Hk & Hcr & Hw)|(x' & e' & Hk & Hcr & _)]; rewrite Hcr in Hc;
    destruct Hc as [[Hb [e ->]]|[[Hb ->]|[Hb [e ->]]]]; simpl in *; simplify_eq.
  1,4-6: left; eauto.
  all: right; exists rev; split; [split; [by rewrite Hk|done]|eauto].
Qed.

Lemma kv_update_once k v r0 : effect_once (updated k (encode_json v) r0) (kv_update k v r0).
Proof.
  intros w r w' Hrun. unfold kv_update in Hrun. rewrite run_perform_bind in Hrun.
  pose proof (kv_cases o _ (BUpdate k (encode_json v) r0) w) as Hc.
  destruct (env_handle o _ (EKv (BUpdate k (encode_json v) r0)) w) as [x w1].
  cbn [fst snd bucket_handle refuse] in *.
  destruct (update_cases k (encode_json v) r0 (w_bucket w)) as
    [(v0 & rev & b' & Hk & Hup & Hr & Hw)|(e' & Hk & Hup & _)]; rewrite Hup in Hc;
    destruct Hc as [[Hb [e ->]]|[[Hb ->]|[Hb [e ->]]]]; simpl in *; simplify_eq.
  1,4-6: left; eauto.
  all: right; exists rev; split; [unfold updated; eauto|eauto].
Qed.

Lemma created_once k v b rev b' : created k v b rev b' → ∀ rev2 b2, ¬ created k v b' rev2 b2.
Proof. intros (_ & Hk & _) rev2 b2 (Hno & _). by rewrite Hk in Hno. Qed.
Lemma updated_once k v r0 b rev b' : updated k v r0 b rev b' → ∀ rev2 b2, ¬ updated k v r0 b' rev2 b2.
Proof. intros (_ & Hr & Hk & _) rev2 b2 ([v0 Hv0] & _). rewrite Hk in Hv0. simplify_eq. lia. Qed.

(** *** Fuel *)

(** Once the clock is past the deadline the loop stops at the next failure. *)
Definition delay_ok (delay : pyfloat) : Prop := delay ∈ [float_0_25; float_dec 5 (-1); float_dec 1 0; float_2].

Lemma next_delay_ok delay : delay_ok delay → delay_ok (next_delay delay).
Proof.
  unfold delay_ok. intros Hd. apply (bool_decide_unpack _).
  repeat (apply elem_of_cons in Hd as [->|Hd]; [vm_compute; exact I|]).
  by apply elem_of_nil in Hd.
Qed.
Lemma delay_ok_min delay : delay_ok delay → fleb float_0_25 delay = true.
Proof.
  unfold delay_ok. intros Hd.
  repeat (apply elem_of_cons in Hd as [->|Hd]; [vm_compute; reflexivity|]).
  by apply elem_of_nil in Hd.
Qed.

Lemma run_steps {A} (p : prog envE A) w : (w_step w ≤ w_step (exec p w).2)%nat.
Proof.
  revert w. induction p as [a|e|X op k IH]; intros w; simpl; [lia..|].
  pose proof (env_handle_step o X op w) as Hstep.
  destruct (env_handle o X op w) as [x w1]. simpl in Hstep. specialize (IH x w1). lia.
Qed.

Lemma recovery_loop_fuel {A} (op : prog envE A) N deadline n m delay w :
  (∀ i, (N ≤ i)%nat → fleb (fsub deadline (o_monotonic o i)) float_0_25 = true) →
  delay_ok delay → (N < n + w_step w)%nat → (N < m + w_step w)%nat → (0 < n)%nat → (0 < m)%nat →
  exec (recovery_loop n op deadline delay) w = exec (recovery_loop m op deadline delay) w.
Proof.
  intros Hclock. revert m delay w. induction n as [|n IH]; intros [|m] delay w Hd Hn Hm; [lia..|].
  intros _ _. cbn [recovery_loop]. rewrite run_bind, run_attempt, run_bind, run_attempt.
  assert (Hstop : ∀ e w1, (w_step w ≤ w_step w1)%nat →
      exec (if transient e then
            _ ← perform EInvalidate; now ← perform EMonotonic;
            if fleb (fsub deadline now) delay then Throw e
            else _ ← perform (ESleep delay); recovery_loop n op deadline (next_delay delay)
          else Throw e) w1 =
      exec (if transient e then
            _ ← perform EInvalidate; now ← perform EMonotonic;
            if fleb (fsub deadline now) delay then Throw e
            else _ ← perform (ESleep delay); recovery_loop m op deadline (next_delay delay)
          else Throw e) w1).
  { intros e w1 Hw1. destruct (transient e); [|done].
    rewrite !run_perform_bind. simpl. destruct (fleb _ _) eqn:Hle; [done|].
    destruct (decide (N ≤ S (w_step w1))%nat) as [Hpast|Hbefore].
    { apply delay_ok_min in Hd. specialize (Hclock _ Hpast).
      by rewrite (fleb_trans _ _ _ Hclock Hd) in Hle. }
    apply IH; simpl; try lia. by apply next_delay_ok. }
  destruct (o_connect o (w_step w)) as [[]|e]; [|apply Hstop; simpl; lia].
  pose proof (run_steps op (tick w)) as Hs. destruct (exec op (tick w)) as [[a|e] w1]; [done|].
  apply Hstop. simpl in Hs. lia.
Qed.
End alone.

(** ** Retried operations among other processes

    [Guar] is what a system promises about each of its operations; whatever
    does not touch the bucket keeps it.  [R] is what a process knows, and must
    survive the operations of the others. *)
Section among.
Context {B : Type} `{KVLaws B} (o : oracle) (Guar : world B → world B → Prop).
Context (Guar_frame : ∀ w w', w_bucket w' = w_bucket w → (w_step w ≤ w_step w')%nat → Guar w w').
Implicit Types (w : world B) (R : world B → Prop).

Definition keeps {A} (Q : A → world B → Prop) (p : prog envE A) (w : world B) : Prop :=
  safe (env_handle o) world_rely Guar Q p w.
Definition stable R : Prop := ∀ w w', world_rely w w' → R w → R w'.

Lemma keeps_ret {A} (Q : A → world B → Prop) a w : Q a w → keeps Q (Ret a) w.
Proof. done. Qed.
Lemma keeps_throw {A} (Q : A → world B → Prop) e w : keeps Q (Throw e) w.
Proof. done. Qed.
Lemma keeps_bind {A C} (Q : A → world B → Prop) (Q' : C → world B → Prop)
    (p : prog envE A) (f : A → prog envE C) w :
  keeps Q p w → (∀ a w', Q a w' → keeps Q' (f a) w') → keeps Q' (p ≫= f) w.
Proof. apply safe_bind. Qed.
Lemma keeps_weaken {A} (Q Q' : A → world B → Prop) (p : prog envE A) w :
  (∀ a w, Q a w → Q' a w) → keeps Q p w → keeps Q' p w.
Proof. apply safe_weaken. Qed.

Lemma keeps_lift {A} (m : res A) R w : R w → keeps (λ a w, R w ∧ m = Ok a) (lift m) w.
Proof. by destruct m. Qed.

(** An operation that does not touch the bucket. *)
Lemma keeps_op {X A} (op : envE X) (k : X → prog envE A) R Q w :
  harmless op = true → stable R → R w →
  (∀ x w', R w' → keeps Q (k x) w') → keeps Q (Vis op k) w.
Proof.
  intros Hop Hst HR Hk w1 Hw1. split.
  - apply Guar_frame; [by apply harmless_bucket|rewrite env_handle_step; lia].
  - apply Hk. eapply Hst; [|exact HR]. etrans; [exact Hw1|apply env_handle_rely].
Qed.

Lemma keeps_perform {X} (op : envE X) R w :
  harmless op = true → stable R → R w → keeps (λ _, R) (perform op) w.
Proof. intros. by eapply keeps_op. Qed.

Lemma keeps_call {A} (op : envE (res A)) R w :
  harmless op = true → stable R → R w → keeps (λ _, R) (call op) w.
Proof. intros. eapply keeps_op; try done. by intros [a|e] w'. Qed.

Lemma keeps_catch {A} (h : exn → prog envE A) (Q : A → world B → Prop) (p : prog envE A) R w :
  stable R → R w → keeps Q p w → (∀ e w', R w' → keeps Q (h e) w') → keeps Q (prog_catch h p) w.
Proof.
  intros Hst HR Hp Hh. revert w HR Hp. induction p as [a|e|X op k IH]; intros w HR Hp;
    [done|by apply Hh|].
  intros w1 Hw1. destruct (Hp w1 Hw1) as [HG Hk]. split; [done|]. apply IH; [|done].
  eapply Hst; [|exact HR]. etrans; [exact Hw1|apply env_handle_rely].
Qed.

Lemma keeps_try {A} (Q : A → world B → Prop) (p : prog envE A) R w :
  stable R → R w → keeps Q p w →
  keeps (λ r w', R w' ∧ match r with Ok a => Q a w' | Raise _ => True end) (prog_try p) w.
Proof.
  intros Hst HR Hp. revert w HR Hp. induction p as [a|e|X op k IH]; intros w HR Hp; [done..|].
  intros w1 Hw1. destruct (Hp w1 Hw1) as [HG Hk]. split; [done|]. apply IH; [|done].
  eapply Hst; [|exact HR]. etrans; [exact Hw1|apply env_handle_rely].
Qed.

Lemma keeps_recovery_loop {A} (Q : A → world B → Prop) (op : prog envE A) R n dl d w :
  stable R → (∀ w, R w → keeps Q op w) → R w → keeps Q (recovery_loop n op dl d) w.
Proof.
  intros Hst Hop. revert d w. induction n as [|n IH]; intros d w HR; [done|].
  cbn [recovery_loop]. eapply keeps_bind.
  { apply (keeps_try Q _ R); [done..|]. eapply keeps_bind; [by apply (keeps_call EConnect R)|].
    intros ? w' HR'. by apply Hop. }
  intros r w' [HR' HQ]. destruct r as [a|e]; [done|]. destruct (transient e); [|done].
  eapply keeps_bind; [by apply (keeps_perform EInvalidate R)|]. intros ? w2 HR2.
  eapply keeps_bind; [by apply (keeps_perform EMonotonic R)|]. intros now w3 HR3.
  cbv zeta. case_match; [done|].
  eapply keeps_bind; [by apply (keeps_perform (ESleep d) R)|]. intros ? w4 HR4. by apply IH.
Qed.

Lemma keeps_retried {A} (Q : A → world B → Prop) (op : prog envE A) R st w :
  stable R → (∀ w, R w → keeps Q op w) → R w → keeps Q (with_recovery st op) w.
Proof.
  intros Hst Hop HR. unfold with_recovery.
  eapply keeps_bind; [by apply (keeps_perform EMonotonic R)|]. intros now w' HR'.
  by apply (keeps_recovery_loop Q _ R).
Qed.

Lemma keeps_store_call {A} (Q : A → world B → Prop) (p : prog envE A) R st w :
  stable R → R w → keeps Q p w → keeps Q (store_call st p) w.
Proof.
  intros Hst HR Hp. unfold store_call. destruct (closed st); [done|].
  by apply (keeps_catch _ _ _ R).
Qed.

(** *** What a reader keeps *)

(** [key] was seen to hold [v] at revision [r]. *)
Definition seen (key : string) (v : pyval) (r : Z) (w : world B) : Prop :=
  ∃ w0, world_rely w0 w ∧ bk_get key (w_bucket w0) = Ok (v, r).

Lemma seen_stable key v r : stable (seen key v r).
Proof. intros w w' Hw (w0 & Hw0 & Hk). exists w0. split; [by etrans|done]. Qed.

(** If the revision is still current, so is the value. *)
Lemma seen_current key v r w v' :
  seen key v r w → bk_get key (w_bucket w) = Ok (v', r) → v' = v.
Proof.
  intros (w0 & [Hev _] & Hk) Hk'. destruct (Hev _ _ _ Hk) as (v2 & r2 & Hk2 & _ & Heq).
  rewrite Hk' in Hk2. injection Hk2 as <- <-. by apply Heq.
Qed.

Lemma stable_and R1 R2 : stable R1 → stable R2 → stable (λ w, R1 w ∧ R2 w).
Proof. intros H1 H2 w w' Hw []. split; eauto. Qed.
Lemma stable_true : stable (λ _, True).
Proof. done. Qed.

Lemma keeps_get st key R w :
  stable R → R w →
  keeps (λ x w', R w' ∧ seen key x.1 x.2 w' ∧ ∃ d, x.1 = PDict d) (sh_get st key) w.
Proof.
  intros Hst HR. apply (keeps_store_call _ _ R); [done..|].
  eapply (keeps_bind (λ x w', R w' ∧ seen key x.1 x.2 w')).
  - apply (keeps_retried _ _ R); [done| |done]. clear w HR. intros w HR w1 Hw1.
    assert (HR1 : R (env_handle o _ (EKv (BGet key)) w1).2).
    { eapply Hst; [|exact HR]. etrans; [exact Hw1|apply env_handle_rely]. }
    pose proof (kv_cases o _ (BGet key) w1) as Hc. cbn [bucket_handle refuse fst snd] in Hc.
    assert (Hb : w_bucket (env_handle o _ (EKv (BGet key)) w1).2 = w_bucket w1) by naive_solver.
    split.
    { apply Guar_frame; [done|rewrite env_handle_step; lia]. }
    pose proof (env_handle_rely o _ (EKv (BGet key)) w1) as Hrely.
    destruct (env_handle o _ (EKv (BGet key)) w1) as [x w2]. cbn [fst snd] in *.
    destruct x as [[v r]|e]; [|done].
    split; [done|]. exists w1. split; [done|].
    destruct Hc as [[_ [e He]]|[[_ He]|[_ [e He]]]]; by inversion He.
  - intros x w' HQ. eapply keeps_bind; [by apply (keeps_lift _ (λ w, R w ∧ seen key x.1 x.2 w))|].
    intros v w2 [[HR2 Hs2] Hd]. destruct x as [v0 r]. simpl in *.
    destruct v0; try discriminate. injection Hd as <-. simpl. eauto.
Qed.

(** A create or update of a process that knows [R] keeps the promise if its
    effect on any bucket it can meet does. *)
Lemma keeps_effect {X A} (op : bucketE X) (f : X → prog envE A) Q R w :
  stable R → R w →
  (∀ w1 w2, R w1 → w_bucket w2 = (bucket_handle X op (w_bucket w1)).2 →
     (w_step w1 ≤ w_step w2)%nat → Guar w1 w2) →
  (∀ x w', R w' → keeps Q (f x) w') →
  keeps Q (x ← perform (EKv op); f x) w.
Proof.
  intros Hst HR HG Hk w1 Hw1. split.
  - destruct (kv_cases o _ op w1) as [[Hb _]|[[Hb _]|[Hb _]]].
    1: apply Guar_frame; [done|rewrite env_handle_step; lia].
    all: apply HG; [by eapply Hst|exact Hb|rewrite env_handle_step; lia].
  - apply Hk. eapply Hst; [|exact HR]. etrans; [exact Hw1|apply env_handle_rely].
Qed.

Lemma keeps_create st key v R w :
  stable R → R w →
  (∀ w1 w2 rev, R w1 → created key (encode_json v) (w_bucket w1) rev (w_bucket w2) →
     (w_step w1 ≤ w_step w2)%nat → Guar w1 w2) →
  keeps (λ _, R) (sh_create st key v) w.
Proof.
  intros Hst HR HG. apply (keeps_store_call _ _ R); [done..|].
  apply (keeps_retried _ _ R); [done| |done]. intros w1 HR1. unfold kv_create.
  apply (keeps_effect _ _ _ R); [done..| |by intros [x|e] w']. clear w HR w1 HR1.
  intros w1 w2 HR1 Hb Hstep. simpl in Hb.
  destruct (create_cases key (encode_json v) (w_bucket w1)) as
    [(e & r & b' & Hk & Hcr & Hw)|(x & e & Hk & Hcr & _)]; rewrite Hcr in Hb; simpl in Hb.
  - apply (HG _ _ r); [done| |done]. split; [by rewrite Hk|by rewrite Hb].
  - by apply Guar_frame.
Qed.

Lemma keeps_update st key v r0 R w :
  stable R → R w →
  (∀ w1 w2 rev, R w1 → updated key (encode_json v) r0 (w_bucket w1) rev (w_bucket w2) →
     (w_step w1 ≤ w_step w2)%nat → Guar w1 w2) →
  keeps (λ _, R) (sh_update st key v r0) w.
Proof.
  intros Hst HR HG. apply (keeps_store_call _ _ R); [done..|].
  apply (keeps_retried _ _ R); [done| |done]. intros w1 HR1. unfold kv_update.
  apply (keeps_effect _ _ _ R); [done..| |by intros [x|e] w']. clear w HR w1 HR1.
  intros w1 w2 HR1 Hb Hstep. simpl in Hb.
  destruct (update_cases key (encode_json v) r0 (w_bucket w1)) as
    [(v0 & r & b' & Hk & Hup & Hr & Hw)|(e & Hk & Hup & _)]; rewrite Hup in Hb; simpl in Hb.
  - apply (HG _ _ r); [done| |done]. split; [by exists v0|]. by rewrite Hb.
  - by apply Guar_frame.
Qed.

Lemma keeps_keys st prefix R w : stable R → R w → keeps (λ _, R) (sh_keys st prefix) w.
Proof.
  intros Hst HR. apply (keeps_store_call _ _ R); [done..|].
  eapply (keeps_bind (λ _, R)); [|by intros].
  apply (keeps_retried _ _ R); [done| |done]. intros w1 HR1.
  apply (keeps_effect _ _ _ R); [done..| |].
  - intros w2 w3 HR2 Hb Hstep. by apply Guar_frame.
  - intros [ks|e] w' HR'; [done|]. by case_match.
Qed.
End among.

(** ** Programs that never touch the bucket *)

Fixpoint quiet {A} (p : prog envE A) : Prop :=
  match p with
  | Vis op k => harmless op = true ∧ ∀ x, quiet (k x)
  | _ => True
  end.

Lemma quiet_bind {A C} (p : prog envE A) (f : A → prog envE C) :
  quiet p → (∀ a, quiet (f a)) → quiet (p ≫= f).
Proof.
  intros Hp Hf. induction p as [a|e|X op k IH]; simpl in *; [by apply Hf|done|].
  destruct Hp as [Hop Hk]. split; [done|]. intros x. by apply IH.
Qed.
Lemma quiet_try {A} (p : prog envE A) : quiet p → quiet (prog_try p).
Proof.
  induction p as [a|e|X op k IH]; simpl; [done..|].
  intros [Hop Hk]. split; [done|]. intros x. by apply IH.
Qed.
Lemma quiet_catch {A} h (p : prog envE A) : quiet p → (∀ e, quiet (h e)) → quiet (prog_catch h p).
Proof.
  intros Hp Hh. induction p as [a|e|X op k IH]; simpl in *; [done|by apply Hh|].
  destruct Hp as [Hop Hk]. split; [done|]. intros x. by apply IH.
Qed.
Lemma quiet_lift {A} (m : res A) : quiet (lift m).
Proof. by destruct m. Qed.
Lemma quiet_perform {X} (op : envE X) : harmless op = true → quiet (perform op).
Proof. done. Qed.
Lemma quiet_call {A} (op : envE (res A)) : harmless op = true → quiet (call op).
Proof. split; [done|]. intros. apply quiet_lift. Qed.
Lemma quiet_recovery {A} st (p : prog envE A) : quiet p → quiet (with_recovery st p).
Proof.
  intros Hp. split; [done|]. intros now. change (quiet (recovery_loop (attempts st) p
    (fadd now (operation_timeout st)) float_0_25)).
  generalize (attempts st) as n, (fadd now (operation_timeout st)) as dl, float_0_25 as d.
  intros n. induction n as [|n IH]; intros dl d; [done|]. cbn [recovery_loop].
  apply quiet_bind; [apply quiet_try, quiet_bind; [by apply quiet_call|done]|].
  intros [a|e]; [done|]. destruct (transient e); [|done].
  do 2 (apply quiet_bind; [done|intros ?]). case_match; [done|].
  apply quiet_bind; [done|intros ?]. apply IH.
Qed.
Lemma quiet_store_call {A} st (p : prog envE A) : quiet p → quiet (store_call st p).
Proof. intros. unfold store_call. destruct (closed st); [done|]. by apply quiet_catch. Qed.

Create HintDb quiet.
#[export] Hint Resolve quiet_bind quiet_try quiet_lift quiet_perform quiet_call
  quiet_recovery quiet_store_call : quiet.

Lemma quiet_get_object st name : quiet (sh_get_object st name).
Proof.
  apply quiet_store_call, quiet_recovery, quiet_bind; [done|]. by intros [d|e].
Qed.
Lemma quiet_put_object st name data : quiet (sh_put_object st name data).
Proof. apply quiet_store_call, quiet_recovery, quiet_call. done. Qed.
Lemma quiet_put_object_file st name path : quiet (sh_put_object_file st name path).
Proof. apply quiet_store_call, quiet_recovery, quiet_bind; auto with quiet. Qed.
Lemma quiet_delete_object st name : quiet (sh_delete_object st name).
Proof.
  apply quiet_store_call, quiet_recovery, quiet_bind; [done|].
  intros [d|e]; [done|]. by case_match.
Qed.
Lemma quiet_get_object_file st name path : quiet (sh_get_object_file st name path).
Proof.
  apply quiet_store_call, quiet_bind.
  - apply quiet_try. apply quiet_bind; [by apply quiet_call|intros _].
    apply quiet_bind; [|intros _; by apply quiet_call].
    apply quiet_recovery, quiet_bind; [|intros d; by apply quiet_call].
    apply quiet_bind; [done|]. by intros [d|e].
  - intros r. apply quiet_bind; [done|]. intros [u|e]; [apply quiet_lift|].
    case_match; [apply quiet_lift|done].
Qed.
#[export] Hint Resolve quiet_get_object quiet_put_object quiet_put_object_file
  quiet_delete_object quiet_get_object_file : quiet.

(** Whatever the environment answers, a returned value satisfies [Q]. *)
Fixpoint returns {A} (Q : A → Prop) (p : prog envE A) : Prop :=
  match p with
  | Ret a => Q a
  | Throw _ => True
  | Vis op k => ∀ x, returns Q (k x)
  end.

Lemma returns_bind {A C} (Q : A → Prop) (Q' : C → Prop) (p : prog envE A) (f : A → prog envE C) :
  returns Q p → (∀ a, Q a → returns Q' (f a)) → returns Q' (p ≫= f).
Proof.
  intros Hp Hf. induction p as [a|e|X op k IH]; simpl in *; [by apply Hf|done|].
  intros x. by apply IH.
Qed.
Lemma returns_try {A} (Q : A → Prop) (p : prog envE A) :
  returns Q p → returns (λ r, match r with Ok a => Q a | Raise _ => True end) (prog_try p).
Proof. induction p as [a|e|X op k IH]; simpl; auto. Qed.
Lemma returns_any {A} (p : prog envE A) : returns (λ _, True) p.
Proof. by induction p. Qed.
Lemma returns_run {B A} `{KVBucket B} (o : oracle) (Q : A → Prop) (p : prog envE A) (w w' : world B) a :
  returns Q p → run (env_handle o) p w = (Ok a, w') → Q a.
Proof.
  revert w. induction p as [x|e|X op k IH]; intros w Hp Hrun; simpl in *; [by simplify_eq|done|].
  destruct (env_handle o X op w) as [x w1]. eapply IH; [apply Hp|exact Hrun].
Qed.
Lemma returns_lift {A} (m : res A) : returns (λ a, m = Ok a) (lift m).
Proof. by destruct m. Qed.

Section quiet_runs.
Context {B : Type} `{KVLaws B} (o : oracle).

Lemma quiet_bucket {A} (p : prog envE A) w :
  quiet p → w_bucket (run (env_handle (B := B) o) p w).2 = w_bucket w.
Proof.
  revert w. induction p as [a|e|X op k IH]; intros w; simpl; [done..|].
  intros [Hop Hk]. pose proof (harmless_bucket o X op w Hop) as Hb.
  destruct (env_handle o X op w) as [x w']. simpl in Hb. rewrite <-Hb. by apply IH.
Qed.

Lemma keeps_quiet {A} (Guar : world B → world B → Prop) (p : prog envE A) R w :
  (∀ w w', w_bucket w' = w_bucket w → (w_step w ≤ w_step w')%nat → Guar w w') →
  stable R → quiet p → R w → keeps o Guar (λ _, R) p w.
Proof.
  intros HG Hst. revert w. induction p as [a|e|X op k IH]; intros w Hp HR; [done..|].
  destruct Hp as [Hop Hk]. eapply keeps_op; [done..|]. intros x w' HR'. by apply IH.
Qed.

Lemma keeps_quiet_returns {A} (Guar : world B → world B → Prop) (p : prog envE A) (Q : A → Prop) R w :
  (∀ w w', w_bucket w' = w_bucket w → (w_step w ≤ w_step w')%nat → Guar w w') →
  stable R → quiet p → returns Q p → R w → keeps o Guar (λ a w', R w' ∧ Q a) p w.
Proof.
  intros HG Hst. revert w. induction p as [a|e|X op k IH]; intros w Hp HQ HR; [done..|].
  destruct Hp as [Hop Hk]. eapply keeps_op; [done..|]. intros x w' HR'. by apply IH.
Qed.
End quiet_runs.

(** ** A store that works

    No fault, a connection that comes up, an open facade: each operation then
    takes three steps (the clock, the connection, the request). *)
Definition calm (o : oracle) : Prop := ∀ n, o_fault o n = NoFault ∧ o_connect o n = Ok tt.
Definition usable (st : store) : Prop := closed st = false ∧ (0 < attempts st)%nat.

Definition after {B} (n : nat) (w : world B) : world B :=
  World (w_bucket w) (w_objects w) (n + w_step w).

Lemma after_after {B} n m (w : world B) : after n (after m w) = after (n + m) w.
Proof. unfold after. simpl. f_equal. lia. Qed.

Section calm_runs.
Context {B : Type} `{KVLaws B} (o : oracle) (st : store).
Context (Hcalm : calm o) (Hst : usable st).
Abbreviation exec := (run (env_handle (B := B) o)).
Implicit Types w : world B.

Definition settled {A} (r : res A) : bool :=
  match r with Ok _ => true | Raise e => negb (transient e) && negb (is_cancelled e) end.

Lemma run_recovered {A} (op : prog envE A) w r w' :
  exec op (after 2 w) = (r, w') → settled r = true → exec (with_recovery st op) w = (r, w').
Proof.
  intros Hop Hr. unfold with_recovery. rewrite run_perform_bind.
  destruct Hst as [_ Hn]. destruct (attempts st) as [|n]; [lia|]. cbn [recovery_loop].
  rewrite run_bind, run_attempt. rewrite (proj2 (Hcalm _)).
  assert (Hw : tick (env_handle o _ EMonotonic w).2 = after 2 w) by done.
  rewrite Hw, Hop. destruct r as [a|e]; [done|]. simpl in Hr. by destruct (transient e).
Qed.

Lemma run_called {A} (op : prog envE A) w r w' :
  exec op w = (r, w') → settled r = true → exec (store_call st op) w = (r, w').
Proof.
  intros Hop Hr. rewrite run_store_call by apply Hst. rewrite Hop.
  destruct r as [a|e]; [done|]. simpl in Hr. by destruct (is_cancelled e); [destruct (transient e)|].
Qed.

Lemma run_request {X} (op : bucketE X) w :
  env_handle o X (EKv op) w =
    ((bucket_handle X op (w_bucket w)).1,
     tick (set_bucket (bucket_handle X op (w_bucket w)).2 w)).
Proof.
  simpl. unfold request, kv_effect. rewrite (proj1 (Hcalm _)).
  by destruct (bucket_handle X op (w_bucket w)).
Qed.

Lemma run_sh_get key w :
  exec (sh_get st key) w =
    (match bk_get key (w_bucket w) with
     | Ok (v, r) => v ← decode_json (Some v); Ok (v, r)
     | Raise _ => Raise (RecordNotFound key)
     end, after 3 w).
Proof.
  pose proof (law_get_missing key (w_bucket w)) as Hmiss.
  assert (Hkv : exec (kv_get key) (after 2 w) =
    (match bk_get key (w_bucket w) with Ok x => Ok x | Raise _ => Raise (RecordNotFound key) end,
     after 3 w)).
  { unfold kv_get. rewrite run_perform_bind, run_request. cbn [bucket_handle fst snd w_bucket after].
    destruct (bk_get key (w_bucket w)) as [x|e]; [done|]. by rewrite (Hmiss e eq_refl). }
  eapply run_called.
  - rewrite run_bind. rewrite (run_recovered _ _ _ _ Hkv) by by destruct (bk_get key _).
    destruct (bk_get key (w_bucket w)) as [[v r]|e]; [|done].
    rewrite run_bind, run_lift. by destruct v.
  - destruct (bk_get key (w_bucket w)) as [[v r]|e]; [|done]. by destruct v.
Qed.

Lemma run_sh_create key v w :
  match bk_get key (w_bucket w) with
  | Ok _ => exec (sh_create st key v) w = (Raise (RevisionConflict key), after 3 w)
  | Raise _ => ∃ rev b, bk_written key (encode_json v) rev (w_bucket w) b ∧
      exec (sh_create st key v) w = (Ok rev, after 3 (set_bucket b w))
  end.
Proof.
  destruct (create_cases key (encode_json v) (w_bucket w)) as
    [(e & r & b' & Hk & Hcr & Hw)|(x & e & Hk & Hcr & He)]; rewrite Hk;
    [exists r, b'; split; [done|]|];
    (eapply run_called; [|done]; eapply run_recovered; [|done]);
    unfold kv_create; rewrite run_perform_bind, run_request;
    cbn [bucket_handle w_bucket after]; rewrite Hcr; cbn [fst snd]; [done|by rewrite He].
Qed.

Lemma run_sh_update key v r0 w :
  match bk_get key (w_bucket w) with
  | Ok (v0, r) =>
      r = r0 → ∃ rev b, (r0 < rev)%Z ∧ bk_written key (encode_json v) rev (w_bucket w) b ∧
        exec (sh_update st key v r0) w = (Ok rev, after 3 (set_bucket b w))
  | Raise _ => exec (sh_update st key v r0) w = (Raise (RevisionConflict key), after 3 w)
  end.
Proof.
  destruct (update_cases key (encode_json v) r0 (w_bucket w)) as
    [(v0 & r & b' & Hk & Hup & Hr & Hw)|(e & Hk & Hup & He)].
  - rewrite Hk. intros _. exists r, b'. split_and!; [done..|].
    eapply run_called; [|done]. eapply run_recovered; [|done].
    unfold kv_update. rewrite run_perform_bind, run_request.
    cbn [bucket_handle w_bucket after]. by rewrite Hup.
  - assert (exec (sh_update st key v r0) w = (Raise (RevisionConflict key), after 3 w)) as Hrun.
    { eapply run_called; [|done]. eapply run_recovered; [|done].
      unfold kv_update. rewrite run_perform_bind, run_request.
      cbn [bucket_handle w_bucket after]. rewrite Hup. cbn [fst snd]. by rewrite He. }
    destruct (bk_get key (w_bucket w)) as [[v0 r]|e']; [|done]. intros ->. by destruct (Hk v0).
Qed.
End calm_runs.

(** ** Main results *)

(** C37: whatever requests and replies are lost, a create or an update of the
    shared store takes effect at most once: either the bucket is as before and
    the caller sees an exception, or the value was written exactly once, and
    then a returned revision is the revision of that write. *)
Theorem retried_writes_at_most_once {B} `{KVLaws B} (o : oracle) (st : store)
    key value r0 (w : world B) :
  (∀ r w', run (env_handle o) (sh_create st key value) w = (r, w') →
     (w_bucket w' = w_bucket w ∧ ∃ e, r = Raise e) ∨
     (∃ rev, created key (encode_json value) (w_bucket w) rev (w_bucket w') ∧
        (r = Ok rev ∨ ∃ e, r = Raise e))) ∧
  (∀ r w', run (env_handle o) (sh_update st key value r0) w = (r, w') →
     (w_bucket w' = w_bucket w ∧ ∃ e, r = Raise e) ∨
     (∃ rev, updated key (encode_json value) r0 (w_bucket w) rev (w_bucket w') ∧
        (r = Ok rev ∨ ∃ e, r = Raise e))).
Proof.
  split.
  - apply (retried_once o); [apply created_once|apply kv_create_once].
  - apply (retried_once o); [apply updated_once|apply kv_update_once].
Qed.

(** Once the monotonic clock has passed the deadline, the retry loop stops
    at its next failure: with more attempts than there were steps before that
    moment, the bound on attempts never decides the result. *)
Theorem retries_terminate {B A} `{KVLaws B} (o : oracle) (op : prog envE A) (w : world B)
    timeout cl N n m :
  (∀ i, (N ≤ i)%nat →
     fleb (fsub (fadd (o_monotonic o (w_step w)) timeout) (o_monotonic o i)) float_0_25 = true) →
  (N < n)%nat → (N < m)%nat →
  run (env_handle o) (store_call (Store timeout cl n) (with_recovery (Store timeout cl n) op)) w =
  run (env_handle o) (store_call (Store timeout cl m) (with_recovery (Store timeout cl m) op)) w.
Proof.
  intros Hclock Hn Hm. unfold store_call. simpl closed. destruct cl; [done|].
  rewrite !run_catch. unfold with_recovery. rewrite !run_perform_bind. simpl.
  rewrite (recovery_loop_fuel o op N _ n m _ _ Hclock); [done|left|simpl;lia..].
Qed.

(** ** Witnesses *)

Definition demo_local (X : Type) (op : localE X) : X :=
  match op in localE X return X with
  | LMkdir _ _ => Ok tt | LWriteJson _ _ => Ok tt | LPopen _ _ => Ok 1%Z | LWait => 0%Z
  | LArchive _ _ => Ok tt | LExtract _ _ => Ok tt | LUnlink _ => Ok tt | LReplace _ _ => Ok tt
  | LReadFile _ => Ok "data" | LWriteFile _ _ => Ok tt | LMergeWorkerOutputs _ _ => Ok []
  | LBuildReport _ => Ok [] | LCreateArchive _ => Ok tt | LFiles _ => Ok []
  | LSpawnHeartbeat => tt | LStopHeartbeat => tt | LHeartbeatWait => true | LHeartbeatStopped => true | LKillProcess => tt
  end.

(** A second per operation for the clocks, up to a last reading. *)
Definition demo_clock (last : nat) (n : nat) : pyfloat := float_dec (Z.of_nat (n `min` last)) 0.

Definition demo_oracle (faults : list fault) : oracle := {|
  o_fault n := default NoFault (faults !! n);
  o_connect _ := Ok tt;
  o_time := demo_clock 1000;
  o_monotonic := demo_clock 40;
  o_utc _ := "2026-01-01T00:00:00+00:00";
  o_stamp _ := "20260101T000000Z";
  o_uuid_hex _ := "0123456789abcdef0123456789abcdef";
  o_uuid _ := "01234567-89ab-cdef-0123-456789abcdef";
  o_job_create _ run_id _ _ := Ok ("benchmark-" +:+ run_id);
  o_job_state _ _ := Ok "running";
  o_job_delete _ _ := Ok tt;
  o_stop _ := false;
  o_local _ := demo_local;
|}.
Definition demo_store : store := Store (float_dec 10 0) false 64.
Definition empty_world : world mem_bucket := World mem_empty ∅ 0.

Lemma demo_calm : calm (demo_oracle []).
Proof. intros n. split; [|done]. by destruct n. Qed.

(** The reply to the first request is lost; the replay meets the record the
    first attempt wrote. *)
Definition lost_reply : oracle :=
  demo_oracle [NoFault; NoFault; ReplyLost (TimeoutError "nats: timeout")].

Lemma retried_writes_at_most_once_witness :
  ∃ w', run (env_handle lost_reply) (sh_create demo_store "k" (PDict [])) empty_world
          = (Raise (RevisionConflict "k"), w') ∧
    ∃ rev, created "k" (PDict []) mem_empty rev (w_bucket w').
Proof.
  destruct (run (env_handle lost_reply) (sh_create demo_store "k" (PDict [])) empty_world)
    as [r w'] eqn:Hrun.
  assert (Hr : r = Raise (RevisionConflict "k")).
  { change r with (r, w').1. rewrite <-Hrun. vm_compute. reflexivity. }
  exists w'. split; [by rewrite Hr|].
  destruct (retried_writes_at_most_once lost_reply demo_store "k" (PDict []) 0 empty_world)
    as [Hcreate _].
  destruct (Hcreate r w' Hrun) as [[Hb _]|(rev & Hc & _)]; [|by exists rev].
  exfalso. assert (Hk : bk_get "k" (w_bucket w') = Ok (PDict [], 1%Z)).
  { change w' with (r, w').2. rewrite <-Hrun. vm_compute. reflexivity. }
  rewrite Hb in Hk. vm_compute in Hk. discriminate.
Defined.

Lemma retries_terminate_witness :
  run (env_handle lost_reply) (store_call (Store (float_dec 10 0) false 50)
    (with_recovery (Store (float_dec 10 0) false 50) (kv_get "k"))) empty_world =
  run (env_handle lost_reply) (store_call (Store (float_dec 10 0) false 60)
    (with_recovery (Store (float_dec 10 0) false 60) (kv_get "k"))) empty_world.
Proof.
  apply (retries_terminate lost_reply (kv_get "k") empty_world (float_dec 10 0) false 40); [|lia..].
  intros i Hi. simpl o_monotonic. unfold demo_clock.
  rewrite (Nat.min_r i 40) by lia. vm_compute. reflexivity.
Defined.
