(* ===== verification/RunControl.v ===== *)
(** * The run controller (benchmarkservice/control.py)

    [BenchmarkManager] submits benchmark runs as Kubernetes Jobs and keeps one
    record per run, and one lease for the single active run, in the shared
    bucket.  Controllers and Jobs race on both: every write is a
    compare-and-set in a loop of twelve attempts. *)

From S2P Require Import Prelude PyFloat PyValue Program KVStore BenchEnv SharedStore PyUrl BenchConfig.
From Stdlib Require Import Ascii.

(** [control.py:24-25 ACTIVE_STATES] *)
Definition ACTIVE_STATES : list string := ["submitted"; "starting"; "running"; "stopping"].
Definition TERMINAL_STATES : list string := ["completed"; "failed"; "stopped"; "interrupted"].

(** [control.py:28-41 SUMMARY_OVERVIEW_FIELDS] *)
Definition SUMMARY_OVERVIEW_FIELDS : list string :=
  ["application_type"; "workload"; "worker_count"; "users"; "arrival_rate"; "warmup_seconds";
   "steady_seconds"; "configured_steady_seconds"; "drain_seconds"; "business";
   "workflow_events"; "capacity"].

(** [control.py:44-57 summary_overview] *)
Definition summary_overview (summary : option mapping) : pyval :=
  match summary with
  | None => PNone
  | Some s => PDict (omap (λ field, pair field <$> alist_get field s) SUMMARY_OVERVIEW_FIELDS)
  end.

(** [control.py:60-62 LEASE_KEY] *)
Definition RUN_PREFIX : string := "run.".
Definition LEASE_KEY : string := "lease.active".
Definition SCHEMA_VERSION : Z := 1.

(** [control.py:77-82 new_run_id] *)
Definition new_run_id : prog envE string :=
  stamp ← perform EUtcStamp;
  hex ← perform EUuidHex;
  Ret (stamp +:+ "-" +:+ String.substring 0 8 hex).

(** [control.py:85-86 run_key] *)
Definition run_key (run_id : string) : string := RUN_PREFIX +:+ run_id.

Definition is_revision_conflict (e : exn) : bool :=
  match e with RevisionConflict _ => true | _ => false end.
Definition is_record_not_found (e : exn) : bool :=
  match e with RecordNotFound _ => true | _ => false end.

(** [try: p except RevisionConflict: continue]: [None] asks for another turn
    of the loop. *)
Definition unless_conflict {A} (p : prog envE A) : prog envE (option A) :=
  r ← prog_try p;
  match r with
  | Ok a => Ret (Some a)
  | Raise e => if is_revision_conflict e then Ret None else Throw e
  end.

(** [try: p except RecordNotFound: ...] with the missing record as [None]. *)
Definition unless_missing {A} (p : prog envE A) : prog envE (option A) :=
  r ← prog_try p;
  match r with
  | Ok a => Ret (Some a)
  | Raise e => if is_record_not_found e then Ret None else Throw e
  end.

(** The loop [for _ in range(n)] whose body either ends the function or
    continues; [last] follows the exhausted loop. *)
Fixpoint retry_loop {A} (n : nat) (body : prog envE (option A)) (last : prog envE A)
  : prog envE A :=
  match n with
  | 0 => last
  | Datatypes.S n =>
      r ← body;
      match r with Some a => Ret a | None => retry_loop n body last end
  end.

(** [value["status"].update(fields)] *)
Definition update_status (fields : prog envE mapping) (value : pyval) : prog envE pyval :=
  status ← lift (py_item value "status");
  u ← fields;
  status ← lift (py_update status u);
  lift (py_set value "status" status).

Section manager.
Context (bracket_ok : string → bool) (st : store) (application : string).

(** [self.application_type], and the check of the constructor.
    [control.py:90-102 BenchmarkManager.__init__] *)
Definition manager_application : res string :=
  let a := str_upper (str_strip application) in
  if negb (bool_decide (a ∈ ["GRPC"; "NATS"]))
  then Raise (ConfigError "APPLICATION_TYPE must be GRPC or NATS") else Ok a.

(** One turn of the loop of [_acquire_lease].
    [control.py:106-131 BenchmarkManager._acquire_lease] *)
Definition acquire_turn (run_id : string) (duration : pyfloat) : prog envE (option unit) :=
  now ← perform ETime;
  uuid ← perform EUuid;
  updated_at ← perform EUtcNow;
  let lease := PDict [
    ("schema_version", PInt SCHEMA_VERSION);
    ("run_id", PStr run_id);
    ("owner", PStr ("controller:" +:+ uuid));
    ("lease_until", PFloat (fadd now duration));
    ("updated_at", PStr updated_at)] in
  current ← unless_missing (sh_get st LEASE_KEY);
  match current with
  | None => unless_conflict (_ ← sh_create st LEASE_KEY lease; Ret tt)
  | Some (existing, revision) =>
      until ← lift (py_get existing "lease_until" (PInt 0));
      until ← lift (py_float until);
      if fltb now until then
        owner ← lift (py_get existing "run_id" (PStr "unknown"));
        Throw (RunConflict ("run " +:+ py_str owner +:+ " is still active"))
      else unless_conflict (_ ← sh_update st LEASE_KEY lease revision; Ret tt)
  end.

(** [control.py:104-132 BenchmarkManager._acquire_lease] *)
Definition acquire_lease (run_id : string) (duration : Z) : prog envE unit :=
  duration ← lift (float_of_Z duration);
  retry_loop 12 (acquire_turn run_id duration)
    (Throw (RunConflict "active benchmark lease is contended")).

(** [control.py:136-150 BenchmarkManager._release_lease] *)
Definition release_turn (run_id : string) : prog envE (option unit) :=
  current ← unless_missing (sh_get st LEASE_KEY);
  match current with
  | None => Ret (Some tt)
  | Some (value, revision) =>
      owner ← lift (py_get value "run_id" PNone);
      if negb (py_eqb owner (PStr run_id)) then Ret (Some tt)
      else
        released ← lift (py_set value "lease_until" (PInt 0));
        now ← perform EUtcNow;
        released ← lift (py_set released "updated_at" (PStr now));
        released ← lift (py_set released "released" (PBool true));
        unless_conflict (_ ← sh_update st LEASE_KEY released revision; Ret tt)
  end.

(** [control.py:134-150 BenchmarkManager._release_lease] *)
Definition release_lease (run_id : string) : prog envE unit :=
  retry_loop 12 (release_turn run_id) (Ret tt).

(** [control.py:152-161 BenchmarkManager._get] *)
Definition get_record (run_id : string) : prog envE (pyval * Z) :=
  if String.eqb run_id "" || (64 <? Z.of_nat (String.length run_id))%Z
  then Throw (RunNotFound run_id)
  else
    record ← unless_missing (sh_get st (run_key run_id));
    match record with
    | None => Throw (RunNotFound run_id)
    | Some record =>
        id ← lift (py_get record.1 "run_id" PNone);
        if negb (py_eqb id (PStr run_id)) then Throw (RunNotFound run_id) else Ret record
    end.

(** [control.py:169-179 BenchmarkManager.mutate] *)
Definition mutate_turn (run_id : string) (change : pyval → prog envE pyval)
  : prog envE (option pyval) :=
  current ← get_record run_id;
  updated ← change current.1;
  now ← perform EUtcNow;
  updated ← lift (py_set updated "updated_at" (PStr now));
  unless_conflict (_ ← sh_update st (run_key run_id) updated current.2; Ret updated).

(** [control.py:163-180 BenchmarkManager.mutate] *)
Definition mutate (run_id : string) (change : pyval → prog envE pyval) : prog envE pyval :=
  retry_loop 12 (mutate_turn run_id change)
    (Throw (RunConflict ("run " +:+ run_id +:+ " is being updated concurrently"))).

(** [control.py:280-288 BenchmarkManager._public] *)
Definition public (record : pyval) : res pyval :=
  status ← py_item record "status";
  cfg ← py_item record "config";
  summary ← py_get record "summary" PNone;
  let result := [("status", status); ("config", cfg)] in
  Ok (PDict (match summary with PNone => result | s => result ++ [("summary", s)] end)).

(** [control.py:200-208 BenchmarkManager.start] *)
Definition initial_status (c : config) (run_id created_at : string) (until : pyfloat) : mapping :=
  [("run_id", PStr run_id);
   ("state", PStr "submitted");
   ("created_at", PStr created_at);
   ("application_type", PStr (application_type c));
   ("target_url", PStr (target_url c));
   ("workload", PStr (workload c));
   ("lease_until", PFloat until)].

(** The record [start] stores.
    [control.py:196-212 BenchmarkManager.start] *)
Definition initial_record (c : config) (run_id created_at : string) (until : pyfloat)
    (updated_at : string) : mapping :=
  [("schema_version", PInt SCHEMA_VERSION);
   ("run_id", PStr run_id);
   ("config", PDict (as_dict c));
   ("status", PDict (initial_status c run_id created_at until));
   ("summary", PNone);
   ("artifacts", PDict []);
   ("updated_at", PStr updated_at)].

Definition new_record (c : config) (run_id : string) (maximum : pyfloat) : prog envE pyval :=
  created_at ← perform EUtcNow;
  now ← perform ETime;
  updated_at ← perform EUtcNow;
  Ret (PDict (initial_record c run_id created_at (fadd now maximum) updated_at)).

(** The [try] block of [start].
    [control.py:213-226 BenchmarkManager.start] *)
Definition submit (c : config) (run_id : string) (maximum_seconds : Z) (record : pyval)
  : prog envE pyval :=
  _ ← sh_create st (run_key run_id) record;
  workers ← lift (worker_count c);
  name ← call (EJobCreate run_id maximum_seconds workers);
  mutate run_id (update_status (
    workers ← lift (worker_count c);
    Ret [("job_name", PStr name); ("worker_count", PInt workers)])).

Definition is_run_missing_or_contended (e : exn) : bool :=
  match e with RunNotFound _ | RunConflict _ => true | _ => false end.

(** The [except Exception] block of [start].
    [control.py:227-242 BenchmarkManager.start] *)
Definition submission_failed (run_id : string) (error : exn) : prog envE pyval :=
  _ ← prog_catch (λ e, if is_run_missing_or_contended e then Ret PNone else Throw e)
    (mutate run_id (update_status (
       now ← perform EUtcNow;
       Ret [("state", PStr "failed"); ("ended_at", PStr now);
            ("message", PStr ("could not submit benchmark Job: " +:+ exn_str error))])));
  _ ← release_lease run_id;
  Throw error.

(** [control.py:182-243 BenchmarkManager.start] *)
Definition start (values : mapping) : prog envE pyval :=
  if String.eqb (str_lower (str_strip (py_str (get_or values "workload" (PStr "")))))
       "fault_tolerance"
  then Throw (ConfigError ("fault_tolerance must be run with fault_tolerance.py so "
                           +:+ "faults are injected into the target cluster"))
  else
    application ← lift manager_application;
    c ← lift (from_request bracket_ok values application);
    run_id ← new_run_id;
    let maximum_seconds := (run_seconds c + 300)%Z in
    _ ← acquire_lease run_id maximum_seconds;
    maximum ← lift (float_of_Z maximum_seconds);
    record ← new_record c run_id maximum;
    record ← prog_catch (submission_failed run_id) (submit c run_id maximum_seconds record);
    lift (public record).

(** What [_reconcile] concludes from the answer of Kubernetes; [None] leaves
    the record as it is.
    [control.py:251-264 BenchmarkManager._reconcile] *)
Definition job_verdict (status : pyval) (name : string) : prog envE (option (string * string)) :=
  answer ← perform (EJobState name);
  match answer with
  | Raise (JobNotFound _) =>
      until ← lift (py_get status "lease_until" (PInt 0));
      until ← lift (py_float until);
      now ← perform ETime;
      if fltb now until then Ret None
      else
        requested ← lift (py_get status "stop_requested" PNone);
        Ret (Some (if py_truth requested then "stopped" else "interrupted",
                   "benchmark Job disappeared before finalization"))
  | Raise _ => Ret None
  | Ok job_state =>
      if negb (String.eqb job_state "failed") then Ret None
      else Ret (Some ("failed", "benchmark Job failed before publishing a terminal status"))
  end.

(** [control.py:245-278 BenchmarkManager._reconcile] *)
Definition reconcile (record : pyval) : prog envE pyval :=
  status ← lift (py_item record "status");
  state ← lift (py_get status "state" (PStr "unknown"));
  name ← lift (py_get status "job_name" PNone);
  if negb (bool_decide (py_str state ∈ ACTIVE_STATES)) || negb (py_truth name) then Ret record
  else
    verdict ← job_verdict status (py_str name);
    match verdict with
    | None => Ret record
    | Some (terminal, message) =>
        id ← lift (py_item record "run_id");
        record ← mutate (py_str id) (update_status (
          now ← perform EUtcNow;
          Ret [("state", PStr terminal); ("ended_at", PStr now); ("message", PStr message)]));
        _ ← release_lease (py_str id);
        Ret record
    end.

(** [control.py:290-293 BenchmarkManager.details] *)
Definition details (run_id : string) : prog envE pyval :=
  record ← get_record run_id;
  record ← reconcile record.1;
  lift (public record).

(** [bool(isinstance(a, dict) and a.get("object"))] *)
Definition has_object (artifact : pyval) : bool :=
  match artifact with
  | PDict m => py_truth (default PNone (alist_get "object" m))
  | _ => false
  end.

(** [x or {}] *)
Definition or_empty (v : pyval) : pyval := if py_truth v then v else PDict [].

(** The entry of one run in the list.
    [control.py:304-321 BenchmarkManager.list_runs] *)
Definition run_entry (record status : pyval) : res pyval :=
  summary ← py_get record "summary" PNone;
  business ← py_get (or_empty summary) "business" (PDict []);
  completed ← py_get business "completed" PNone;
  status ← py_set status "completed_orders" completed;
  outcome ← py_get business "checkout_to_outcome" (PDict []);
  p95 ← py_get outcome "p95_ms" PNone;
  status ← py_set status "p95_ms" p95;
  artifacts ← py_get record "artifacts" (PDict []);
  summary_artifact ← py_get artifacts "summary.json" PNone;
  status ← py_set status "summary_available" (PBool (has_object summary_artifact));
  archive ← py_get artifacts "artifacts.zip" PNone;
  py_set status "artifacts_available" (PBool (has_object archive)).

(** The [try] block of one turn of the loop of [list_runs].
    [control.py:298-303 BenchmarkManager.list_runs] *)
Definition listed_record (key : string) : prog envE (pyval * pyval) :=
  record ← sh_get st key;
  record ← reconcile record.1;
  status ← lift (py_item record "status");
  Ret (record, status).

Fixpoint list_keys (keys : list string) : prog envE (list pyval) :=
  match keys with
  | [] => Ret []
  | key :: keys =>
      r ← prog_try (listed_record key);
      match r with
      | Raise (RecordNotFound _) | Raise (RunNotFound _) => list_keys keys
      | Raise e => Throw e
      | Ok (record, status) =>
          entry ← lift (run_entry record status);
          runs ← list_keys keys;
          Ret (entry :: runs)
      end
  end.

(** [control.py:295-322 BenchmarkManager.list_runs] *)
Definition list_runs : prog envE (list pyval) :=
  keys ← sh_keys st RUN_PREFIX;
  list_keys (reverse keys).

(** [control.py:324-350 BenchmarkManager.stop] *)
Definition stop (run_id : string) : prog envE pyval :=
  current ← get_record run_id;
  status ← lift (py_item current.1 "status");
  state ← lift (py_get status "state" PNone);
  active ← lift (py_in_set state ACTIVE_STATES);
  if negb active then Throw (RunConflict "the requested run is not active")
  else
    name ← lift (py_get status "job_name" PNone);
    _ ← mutate run_id (update_status (
      now ← perform EUtcNow;
      Ret [("state", PStr "stopping"); ("stop_requested", PBool true);
           ("stop_requested_at", PStr now)]));
    _ ← (if py_truth name then call (EJobDelete (py_str name)) else Ret tt);
    record ← mutate run_id (update_status (
      now ← perform EUtcNow; Ret [("state", PStr "stopped"); ("ended_at", PStr now)]));
    _ ← release_lease run_id;
    lift (public record).

(** [control.py:352-360 BenchmarkManager.artifact] *)
Definition artifact (run_id name : string) : prog envE string :=
  record ← get_record run_id;
  artifacts ← lift (py_get record.1 "artifacts" (PDict []));
  metadata ← lift (py_get artifacts name PNone);
  if negb (has_object metadata) then Throw (RunNotFound (run_id +:+ "/" +:+ name))
  else
    object ← lift (py_item metadata "object");
    data ← unless_missing (sh_get_object st (py_str object));
    match data with
    | None => Throw (RunNotFound (run_id +:+ "/" +:+ name))
    | Some data => Ret data
    end.
End manager.

(** ** Combined archives

    A zip archive is read and written by the [zipfile] library; [zip_read]
    lists the members of an archive (name, is it a directory, content) or
    refuses it, [zip_write] builds one from its entries. *)

Definition slash : ascii := ascii_of_nat 47.
Definition backslash : ascii := ascii_of_nat 92.

(** [filename.replace("\\", "/")] *)
Definition replace_char (c d : ascii) (s : string) : string :=
  of_chars ((λ x, if decide (x = c) then d else x) <$> chars s).

(** [PurePosixPath(s).parts] of a relative path. *)
Definition posix_parts (s : string) : list string :=
  filter (λ p, p ≠ "" ∧ p ≠ ".") (str_split slash s).

Definition unsafe_name (run_id : string) : bool :=
  String.eqb run_id "" || bool_decide (run_id ∈ ["."; ".."])
  || str_contains_char slash run_id || str_contains_char backslash run_id.

Section archives.
Context (zip_read : string → option (list (string * bool * string))).
Context (zip_write : list (string * string) → string).
Context (st : store).

(** [control.py:392-410 BenchmarkManager.combined_artifacts] *)
Fixpoint archive_entries (run_id : string) (members : list (string * bool * string))
  : res (list (string * string)) :=
  match members with
  | [] => Ok []
  | (filename, is_dir, data) :: members =>
      if is_dir then archive_entries run_id members
      else
        let path := replace_char backslash slash filename in
        let parts := posix_parts path in
        if str_startswith "/" path || bool_decide (parts = []) || bool_decide (".." ∈ parts)
        then Raise (ValueError ("unsafe artifact path in run " +:+ run_id))
        else
          rest ← archive_entries run_id members;
          Ok ((run_id +:+ "-" +:+ str_join "-" parts, data) :: rest)
  end.

(** One turn of the loop over the runs; [None] skips the run.
    [control.py:369-415 BenchmarkManager.combined_artifacts] *)
Definition run_archive (key : string) : prog envE (option (list (string * string))) :=
  record ← unless_missing (sh_get st key);
  match record with
  | None => Ret None
  | Some (record, _) =>
      id ← lift (py_get record "run_id" (PStr ""));
      let run_id := py_str id in
      if unsafe_name run_id then Ret None
      else
        artifacts ← lift (py_get record "artifacts" (PDict []));
        metadata ← lift (py_get artifacts "artifacts.zip" PNone);
        if negb (has_object metadata) then Ret None
        else
          object ← lift (py_item metadata "object");
          data ← unless_missing (sh_get_object st (py_str object));
          match data with
          | None => Throw (RunNotFound (run_id +:+ "/artifacts.zip"))
          | Some data =>
              match zip_read data with
              | None => Throw (ValueError ("invalid artifact archive for run " +:+ run_id))
              | Some members => entries ← lift (archive_entries run_id members); Ret (Some entries)
              end
          end
  end.

Fixpoint run_archives (keys : list string) : prog envE (list (list (string * string))) :=
  match keys with
  | [] => Ret []
  | key :: keys =>
      a ← run_archive key;
      rest ← run_archives keys;
      Ret (match a with Some entries => entries :: rest | None => rest end)
  end.

(** [control.py:362-418 BenchmarkManager.combined_artifacts] *)
Definition combined_artifacts : prog envE string :=
  keys ← sh_keys st RUN_PREFIX;
  archives ← run_archives keys;
  if decide (archives = []) then Throw (RunNotFound "artifacts.zip")
  else Ret (zip_write (concat archives)).

(** [control.py:426-442 BenchmarkManager.combined_summaries] *)
Fixpoint summary_entries (run_ids : list pyval) (included : list string)
  : prog envE (list (string * string)) :=
  match run_ids with
  | [] => Ret []
  | PStr run_id :: run_ids =>
      if unsafe_name run_id || (64 <? Z.of_nat (String.length run_id))%Z
      then Throw (RunNotFound run_id)
      else if bool_decide (run_id ∈ included) then summary_entries run_ids included
      else
        data ← artifact st run_id "summary.json";
        rest ← summary_entries run_ids (run_id :: included);
        Ret ((run_id +:+ "-summary.json", data) :: rest)
  | v :: _ => Throw (RunNotFound (py_str v))
  end.

(** [control.py:420-445 BenchmarkManager.combined_summaries] *)
Definition combined_summaries (run_ids : list pyval) : prog envE string :=
  entries ← summary_entries run_ids [];
  if decide (entries = []) then Throw (RunNotFound "summaries.zip")
  else Ret (zip_write entries).
End archives.

(** ** Tactics of this component *)

Ltac ret_step :=
  cbn [py_get py_set lift];
  repeat match goal with
  | |- context [mbind (M := prog envE) ?f (Ret ?a)] =>
      change (mbind (M := prog envE) f (Ret a)) with (f a); cbv beta
  end.

(** Literal dictionaries: distinct keys, well-formed members. *)
Ltac literal_dict :=
  first [ apply (bool_decide_unpack _); vm_compute; exact I
        | repeat first [ apply Forall_cons; split | apply Forall_nil_2 ]; cbn; try (apply wf_leaf; exact I) ].
Ltac status_fields :=
  cbn; intros; split; [cbn; literal_dict|]; (split; [literal_dict|done]).

(** ** What every participant promises

    A stored record is a dictionary; [field] reads one of its members. *)
Definition field (v : pyval) (k : string) : option pyval :=
  match v with PDict d => alist_get k d | _ => None end.

(** The members that identify a run never change, as JSON documents, and a
    stop request is never withdrawn. *)
Definition kept (k : string) (v v' : pyval) : Prop :=
  json_sorted <$> field v' k = json_sorted <$> field v k.
Definition stop_flag (v : pyval) : bool :=
  match field v "status" with
  | Some s => match field s "stop_requested" with Some x => py_truth x | None => false end
  | None => false
  end.
Record record_step (v v' : pyval) : Prop := {
  rs_run_id : kept "run_id" v v';
  rs_schema : kept "schema_version" v v';
  rs_config : kept "config" v v';
  rs_stop : stop_flag v = true → stop_flag v' = true;
}.

#[export] Instance record_step_preorder : PreOrder record_step.
Proof.
  split; [by split|]. intros v1 v2 v3 [] []. unfold kept in *.
  split; unfold kept; [congruence..|auto].
Qed.

(** The holder of a lease, whether it was given back, and whether it is free
    at a clock reading: exactly the test of [_acquire_lease]. *)
Definition lease_run (v : pyval) : option pyval := field v "run_id".
Definition lease_released (v : pyval) : bool :=
  match field v "released" with Some x => py_truth x | None => false end.
Definition lease_free (now : pyfloat) (v : pyval) : Prop :=
  ∃ u, py_float (default (PInt 0) (field v "lease_until")) = Ok u ∧ fltb now u = false.

Definition lease_step (now : pyfloat) (v v' : pyval) : Prop :=
  v' = v ∨ lease_free now v ∨
  (lease_run v' = lease_run v ∧ (lease_released v = true → lease_released v' = true)).

Definition records_wf {B} `{KVBucket B} (b : B) : Prop :=
  ∀ k v r, bk_get k b = Ok (v, r) → json_wf v.

Section promise.
Context {B : Type} `{KVLaws B} (o : oracle).
Context (clock_monotone : ∀ n m, (n ≤ m)%nat → fleb (o_time o n) (o_time o m) = true).
Implicit Types (w : world B) (R : world B → Prop).

Definition clock_at w : pyfloat := o_time o (w_step w).

(** One operation of the system, on well-formed records. *)
Record promise w w' : Prop := {
  pr_wf : records_wf (w_bucket w');
  pr_lease v r v' r' : bk_get LEASE_KEY (w_bucket w) = Ok (v, r) →
    bk_get LEASE_KEY (w_bucket w') = Ok (v', r') → lease_step (clock_at w) v v';
  pr_record k v r v' r' : str_startswith RUN_PREFIX k = true →
    bk_get k (w_bucket w) = Ok (v, r) → bk_get k (w_bucket w') = Ok (v', r') → record_step v v';
}.
Definition guarantee w w' : Prop :=
  world_rely w w' ∧ (records_wf (w_bucket w) → promise w w').

Lemma guarantee_frame w w' :
  w_bucket w' = w_bucket w → (w_step w ≤ w_step w')%nat → guarantee w w'.
Proof.
  intros Hb Hs. split; [split; [by rewrite Hb|done]|]. intros Hwf. split; rewrite ?Hb; [done| |].
  - intros v r v' r' -> [= <- <-]. by left.
  - intros k v r v' r' _ -> [= <- <-]. reflexivity.
Qed.

(** Writing one key. *)
Lemma guarantee_write k v rev w w' :
  bk_written k v rev (w_bucket w) (w_bucket w') → evolves (w_bucket w) (w_bucket w') →
  (w_step w ≤ w_step w')%nat → (records_wf (w_bucket w) → json_wf v) →
  (records_wf (w_bucket w) → ∀ v0 r0, bk_get k (w_bucket w) = Ok (v0, r0) →
     (k = LEASE_KEY → lease_step (clock_at w) v0 v) ∧
     (str_startswith RUN_PREFIX k = true → record_step v0 v)) →
  guarantee w w'.
Proof.
  intros [Hk Hne] Hev Hs Hv Hstep. split; [done|]. intros Hwf. split.
  - intros k' v' r'. destruct (decide (k' = k)) as [->|]; [|rewrite Hne by done; apply Hwf].
    rewrite Hk. intros [= <- _]. by apply Hv.
  - intros v0 r0 v' r' Hv0. destruct (decide (LEASE_KEY = k)) as [<-|].
    + rewrite Hk. intros [= <- _]. by eapply Hstep.
    + rewrite Hne by done. rewrite Hv0. intros [= <- _]. by left.
  - intros k' v0 r0 v' r' Hpre Hv0. destruct (decide (k' = k)) as [->|].
    + rewrite Hk. intros [= <- _]. by eapply Hstep.
    + rewrite Hne by done. rewrite Hv0. intros [= <- _]. reflexivity.
Qed.

Lemma guarantee_created k v rev w w' :
  json_wf v → created k (encode_json v) (w_bucket w) rev (w_bucket w') →
  (w_step w ≤ w_step w')%nat → guarantee w w'.
Proof.
  intros Hv [Hno Hw] Hs. destruct (bk_get k (w_bucket w)) as [?|e] eqn:Hk; [done|].
  eapply (guarantee_write k); [exact Hw|by eapply written_absent_evolves|done| |].
  - intros _. by apply json_sorted_wf.
  - intros _ v0 r0 Hv0. by rewrite Hk in Hv0.
Qed.

Lemma guarantee_updated k v v0 r0 rev w w' :
  seen k v0 r0 w → updated k (encode_json v) r0 (w_bucket w) rev (w_bucket w') →
  (w_step w ≤ w_step w')%nat →
  (json_wf v0 → json_wf v ∧
     (k = LEASE_KEY → lease_step (clock_at w) v0 (encode_json v)) ∧
     (str_startswith RUN_PREFIX k = true → record_step v0 (encode_json v))) →
  guarantee w w'.
Proof.
  intros Hseen ([v1 Hv1] & Hr & Hw) Hs Hok.
  rewrite <-(seen_current _ _ _ _ _ Hseen Hv1) in *. clear v0 Hseen.
  eapply (guarantee_write k); [exact Hw|by eapply written_current_evolves|done| |].
  - intros Hwf. apply json_sorted_wf. by eapply Hok, Hwf.
  - intros Hwf v2 r2 Hv2. rewrite Hv1 in Hv2. injection Hv2 as <- <-.
    by eapply Hok, Hwf.
Qed.

(** *** Fields of an encoded record *)

Lemma field_encode d k :
  json_wf (PDict d) → field (encode_json (PDict d)) k = json_sorted <$> alist_get k d.
Proof.
  intros [Hnd _]%json_wf_dict. destruct (json_sorted_lookup d Hnd) as (d' & Hd & _ & Hget).
  unfold encode_json, json_dumps. rewrite Hd. apply Hget.
Qed.

Lemma json_sorted_truth v : py_truth (json_sorted v) = py_truth v.
Proof.
  destruct v as [| | | | |l|d]; try done; [by destruct l|].
  simpl. pose proof (merge_sort_Permutation key_le (map (λ '(k, w), (k, json_sorted w)) d)) as Hp.
  destruct d as [|x d].
  - apply Permutation_nil_r in Hp. by rewrite Hp.
  - destruct (merge_sort _ _) as [|y l] eqn:E; [|done].
    symmetry in Hp. apply Permutation_nil_r in Hp. done.
Qed.

Lemma record_step_encode d : json_wf (PDict d) → record_step (PDict d) (encode_json (PDict d)).
Proof.
  intros Hwf.
  assert (Hkept : ∀ k, kept k (PDict d) (encode_json (PDict d))).
  { intros k. unfold kept. rewrite field_encode by done. simpl.
    destruct (alist_get k d) as [x|] eqn:Hx; [|done]. simpl. f_equal.
    apply json_sorted_idem. by eapply json_wf_get. }
  split; [apply Hkept..|]. unfold stop_flag. rewrite field_encode by done. simpl.
  destruct (alist_get "status" d) as [s|] eqn:Hs; [|done]. simpl.
  assert (Hwfs : json_wf s) by by eapply json_wf_get.
  destruct s as [| | | | | |ds]; try done.
  change (json_sorted (PDict ds)) with (encode_json (PDict ds)).
  rewrite field_encode by done. simpl.
  destruct (alist_get "stop_requested" ds) as [x|]; [|done]. simpl. by rewrite json_sorted_truth.
Qed.

Lemma record_step_set k v d :
  k ∉ ["run_id"; "schema_version"; "config"; "status"] →
  record_step (PDict d) (PDict (alist_set k v d)).
Proof.
  intros Hk.
  assert (Hget : ∀ k', k' ∈ ["run_id"; "schema_version"; "config"; "status"] →
    alist_get k' (alist_set k v d) = alist_get k' d).
  { intros k' Hk'. apply alist_get_set_ne. by intros ->. }
  split; unfold kept, stop_flag; simpl; rewrite ?Hget by (apply (bool_decide_unpack _); vm_compute; exact I); done.
Qed.

Lemma record_step_status s d :
  (∀ s0, alist_get "status" d = Some s0 →
     field s0 "stop_requested" = field s "stop_requested" ∨
     ∃ x, field s "stop_requested" = Some x ∧ py_truth x = true) →
  record_step (PDict d) (PDict (alist_set "status" s d)).
Proof.
  intros Hs.
  split; unfold kept, stop_flag; simpl; rewrite ?alist_get_set_ne by done; try done.
  rewrite alist_get_set_eq. destruct (alist_get "status" d) as [s0|]; [|done].
  destruct (Hs s0 eq_refl) as [->|(x & -> & Hx)]; auto.
Qed.

(** *** Changes *)

(** A change that [mutate] may apply to a record. *)
Definition change_ok (change : pyval → prog envE pyval) : Prop :=
  ∀ d, json_wf (PDict d) →
    returns (λ u, ∃ d', u = PDict d' ∧ json_wf (PDict d') ∧ record_step (PDict d) u) (change (PDict d)).

Lemma update_status_ok fields :
  returns (λ u, NoDup u.*1 ∧ Forall (λ kv, json_wf kv.2) u ∧
     match alist_get "stop_requested" u with Some x => py_truth x = true | None => True end) fields →
  change_ok (update_status fields).
Proof.
  intros Hf d Hwf. unfold update_status.
  eapply returns_bind; [apply returns_lift|]. intros s Hs.
  eapply returns_bind; [exact Hf|]. intros u (Hnd & Hu & Hstop).
  eapply returns_bind; [apply returns_lift|]. intros s' Hs'. simpl in *.
  destruct (alist_get "status" d) as [s0|] eqn:Hs0; [|done]. injection Hs as ->.
  destruct s as [| | | | | |ds]; try done. simpl in Hs'. injection Hs' as <-.
  assert (Hwfs : json_wf (PDict ds)) by by eapply json_wf_get.
  exists (alist_set "status" (PDict (dict_update ds u)) d). split_and!; [done| |].
  - apply json_wf_set; [|done]. by apply json_wf_update.
  - apply record_step_status. intros s1 Hs1. rewrite Hs0 in Hs1. injection Hs1 as <-.
    simpl. rewrite dict_update_get by done.
    destruct (alist_get "stop_requested" u) as [x|]; [right; eauto|by left].
Qed.

Lemma quiet_update_status fields v : quiet fields → quiet (update_status fields v).
Proof. intros. unfold update_status. auto 10 with quiet. Qed.

(** *** Every handler keeps the promise *)
Abbreviation top := (λ _ _, True).
Definition fair {A} (p : prog envE A) : Prop :=
  ∀ w : world B, keeps o guarantee top p w.

Lemma fair_ret {A} (a : A) : fair (Ret a).
Proof. done. Qed.
Lemma fair_throw {A} e : fair (Throw (A := A) e).
Proof. done. Qed.
Lemma fair_bind {A C} (p : prog envE A) (f : A → prog envE C) :
  fair p → (∀ a, fair (f a)) → fair (p ≫= f).
Proof. intros Hp Hf w. eapply keeps_bind; [apply Hp|]. intros a w' _. apply Hf. Qed.
Lemma fair_quiet {A} (p : prog envE A) : quiet p → fair p.
Proof. intros Hp w. by apply (keeps_quiet o guarantee p (λ _, True) w guarantee_frame). Qed.
Lemma fair_try {A} (p : prog envE A) : fair p → fair (prog_try p).
Proof.
  intros Hp w. eapply keeps_weaken; [|by apply (keeps_try o guarantee top p (λ _, True))]. done.
Qed.
Lemma fair_catch {A} (h : exn → prog envE A) p : fair p → (∀ e, fair (h e)) → fair (prog_catch h p).
Proof.
  intros Hp Hh w. eapply (keeps_catch o guarantee h top p (λ _, True)); try done.
  intros e w' _. apply Hh.
Qed.
Lemma fair_unless_conflict {A} (p : prog envE A) : fair p → fair (unless_conflict p).
Proof.
  intros Hp. apply fair_bind; [by apply fair_try|]. intros [a|e]; [done|]. by case_match.
Qed.
Lemma fair_unless_missing {A} (p : prog envE A) : fair p → fair (unless_missing p).
Proof.
  intros Hp. apply fair_bind; [by apply fair_try|]. intros [a|e]; [done|]. by case_match.
Qed.
Lemma fair_retry {A} n (body : prog envE (option A)) last :
  fair body → fair last → fair (retry_loop n body last).
Proof.
  intros Hb Hl. induction n as [|n IH]; [done|]. cbn [retry_loop].
  apply fair_bind; [done|]. by intros [a|].
Qed.

Section handlers.
Context (bracket_ok : string → bool) (st : store).

Lemma fair_get key : fair (sh_get st key).
Proof.
  intros w. eapply keeps_weaken; [|by apply (keeps_get o guarantee guarantee_frame st key (λ _, True))].
  done.
Qed.
Lemma fair_keys prefix : fair (sh_keys st prefix).
Proof. intros w. by apply (keeps_keys o guarantee guarantee_frame st prefix (λ _, True)). Qed.
Lemma fair_create key v : json_wf v → fair (sh_create st key v).
Proof.
  intros Hv w. apply (keeps_create o guarantee guarantee_frame st key v (λ _, True)); [done..|].
  intros w1 w2 rev _ Hc Hs. by eapply guarantee_created.
Qed.

(** Writing back what was read. *)
Lemma keeps_write key v v0 r0 w R :
  stable R → R w → seen key v0 r0 w →
  (∀ w1, R w1 → json_wf v0 → json_wf v ∧
     (key = LEASE_KEY → lease_step (clock_at w1) v0 (encode_json v)) ∧
     (str_startswith RUN_PREFIX key = true → record_step v0 (encode_json v))) →
  keeps o guarantee top (sh_update st key v r0) w.
Proof.
  intros Hst HR Hseen Hok.
  eapply keeps_weaken; [|apply (keeps_update o guarantee guarantee_frame st key v r0
    (λ w, R w ∧ seen key v0 r0 w))]; [done|by apply stable_and, seen_stable|done|].
  intros w1 w2 rev [HR1 Hseen1] Hup Hs. eapply guarantee_updated; eauto.
Qed.

(** A read that continues with what it has seen. *)
Lemma keeps_read {A} key (f : option (pyval * Z) → prog envE A) R w :
  stable R → R w →
  (∀ w', R w' → keeps o guarantee top (f None) w') →
  (∀ d r w', R w' → seen key (PDict d) r w' → keeps o guarantee top (f (Some (PDict d, r))) w') →
  keeps o guarantee top (x ← unless_missing (sh_get st key); f x) w.
Proof.
  intros Hst HR Hnone Hsome. unfold unless_missing.
  eapply (keeps_bind o guarantee (λ x w', R w' ∧ match x with
      | Some (v, r) => seen key v r w' ∧ ∃ d, v = PDict d | None => True end)).
  - eapply keeps_bind; [exact (keeps_try o guarantee _ _ R w Hst HR
      (keeps_get o guarantee guarantee_frame st key R w Hst HR))|].
    intros r w' [HR' HQ]. destruct r as [[v r]|e]; simpl in HQ.
    + split; [done|]. naive_solver.
    + by case_match.
  - intros [[v r]|] w' [HR' HQ]; [destruct HQ as [Hseen [d ->]]; by apply Hsome|by apply Hnone].
Qed.

Lemma keeps_conflict {A} (p : prog envE A) w :
  keeps o guarantee top p w → keeps o guarantee top (unless_conflict p) w.
Proof.
  intros Hp. eapply keeps_bind; [by apply (keeps_try o guarantee top p (λ _, True))|].
  intros [a|e] w' _; [done|]. by case_match.
Qed.

Lemma keeps_fair_bind {A C} (p : prog envE A) (f : A → prog envE C) w :
  keeps o guarantee top p w → (∀ a, fair (f a)) → keeps o guarantee top (p ≫= f) w.
Proof. intros Hp Hf. eapply keeps_bind; [done|]. intros a w' _. apply Hf. Qed.

(** Reading a clock, then anything. *)
Lemma keeps_time {A} (f : pyfloat → prog envE A) w :
  (∀ n w', (n ≤ w_step w')%nat → keeps o guarantee top (f (o_time o n)) w') →
  keeps o guarantee top (x ← perform ETime; f x) w.
Proof.
  intros Hf w1 Hw1. split; [apply guarantee_frame; simpl; [done|lia]|].
  simpl. apply Hf. simpl. lia.
Qed.

Definition time_passed (n : nat) (w : world B) : Prop := (n ≤ w_step w)%nat.
Lemma time_passed_stable n : stable (time_passed n).
Proof. intros w w' [_ Hs] Hn. unfold time_passed in *. lia. Qed.

Lemma fair_acquire_turn run_id duration : fair (acquire_turn st run_id duration).
Proof.
  intros w. unfold acquire_turn. apply keeps_time. intros n w0 Hn.
  change (n ≤ w_step w0)%nat with (time_passed n w0) in Hn.
  eapply keeps_bind; [by apply (keeps_perform o guarantee guarantee_frame EUuid (time_passed n) w0
    eq_refl (time_passed_stable n))|]. intros uuid w1 Hn1.
  eapply keeps_bind; [by apply (keeps_perform o guarantee guarantee_frame EUtcNow (time_passed n) w1
    eq_refl (time_passed_stable n))|]. intros at_ w2 Hn2. cbv zeta.
  set (lease := PDict _).
  assert (Hwf : json_wf lease).
  { apply json_wf_dict. split; [apply (bool_decide_unpack _); vm_compute; exact I|].
    repeat constructor. }
  apply (keeps_read LEASE_KEY _ (time_passed n)); [apply time_passed_stable|done| |].
  - intros w3 _. apply fair_unless_conflict, fair_bind; [by apply fair_create|done].
  - intros d r w3 Hn3 Hseen. eapply keeps_bind; [apply (keeps_lift o guarantee _
      (λ w, time_passed n w ∧ seen LEASE_KEY (PDict d) r w)); done|].
    intros until0 w4 [[Hn4 Hs4] Hu0].
    eapply keeps_bind; [apply (keeps_lift o guarantee _
      (λ w, time_passed n w ∧ seen LEASE_KEY (PDict d) r w)); done|].
    intros ul w5 [[Hn5 Hs5] Hu]. destruct (fltb (o_time o n) ul) eqn:Hlt.
    + apply fair_bind; [apply fair_quiet, quiet_lift|]. intros owner. apply fair_throw.
    + apply keeps_conflict, keeps_fair_bind; [|done].
      eapply (keeps_write _ _ _ _ _ (time_passed n)); [apply time_passed_stable|done..|].
      intros w6 Hn6 _. split_and!; [done| |done]. intros _. right. left.
      exists ul. simpl in Hu0. injection Hu0 as Hu0. simpl.
      destruct (alist_get "lease_until" d) as [x|]; simpl in *; subst;
        (split; [done|]); apply not_true_iff_false; intros Hlt6;
        apply not_true_iff_false in Hlt; apply Hlt;
        (eapply fleb_fltb_trans; [|exact Hlt6]); by apply clock_monotone.
Qed.

(** A lease rewritten by its holder, released or not before. *)
Lemma lease_rewrite now d d' id :
  json_wf (PDict d') → alist_get "run_id" d = Some (PStr id) →
  alist_get "run_id" d' = Some (PStr id) →
  (lease_released (PDict d) = true → lease_released (PDict d') = true) →
  lease_step now (PDict d) (encode_json (PDict d')).
Proof.
  intros Hwf Hd Hd' Hrel. right. right. unfold lease_run, lease_released in *.
  rewrite !field_encode by done. simpl in *. rewrite Hd, Hd'. split; [done|].
  intros Hr. specialize (Hrel Hr). destruct (alist_get "released" d') as [x|]; [|done].
  simpl. by rewrite json_sorted_truth.
Qed.

Lemma fair_release_turn run_id : fair (release_turn st run_id).
Proof.
  intros w. unfold release_turn. apply (keeps_read LEASE_KEY _ (λ _, True)); [done..|].
  intros d r w1 _ Hseen. ret_step.
  set (id := default PNone (alist_get "run_id" d)).
  destruct (py_eqb id (PStr run_id)) eqn:Hid; [|done].
  apply py_eqb_str in Hid. cbn [negb]. ret_step.
  intros w2 Hw2. split; [apply guarantee_frame; simpl; [done|lia]|].
  cbn [env_handle answer fst snd].
  eapply keeps_conflict, keeps_fair_bind; [|done].
  eapply (keeps_write _ _ _ _ _ (λ _, True)); [done|done| |].
  { eapply seen_stable; [|exact Hseen]. etrans; [exact Hw2|]. apply (env_handle_rely o _ EUtcNow w2). }
  intros w3 _ Hwf.
  assert (Hwf' : json_wf (PDict (alist_set "released" (PBool true)
    (alist_set "updated_at" (PStr (o_utc o (w_step w2))) (alist_set "lease_until" (PInt 0) d))))).
  { repeat apply json_wf_set; try done; by constructor. }
  split_and!; [exact Hwf'| |done]. intros _.
  assert (Hdid : alist_get "run_id" d = Some (PStr run_id)).
  { unfold id in Hid. destruct (alist_get "run_id" d); simpl in Hid; congruence. }
  apply (lease_rewrite _ _ _ run_id); [exact Hwf'|done| |].
  - by rewrite !alist_get_set_ne.
  - intros _. unfold lease_released. simpl. by rewrite alist_get_set_eq.
Qed.

Lemma fair_release run_id : fair (release_lease st run_id).
Proof. apply fair_retry; [apply fair_release_turn|done]. Qed.

Lemma fair_acquire run_id duration : fair (acquire_lease st run_id duration).
Proof.
  apply fair_bind; [apply fair_quiet, quiet_lift|]. intros d.
  apply fair_retry; [apply fair_acquire_turn|done].
Qed.

Lemma fair_get_record run_id : fair (get_record st run_id).
Proof.
  unfold get_record. case_match; [done|].
  apply fair_bind; [apply fair_unless_missing, fair_get|]. intros [x|]; [|done].
  apply fair_bind; [apply fair_quiet, quiet_lift|]. intros id. by case_match.
Qed.

(** The compare-and-set turn shared by the controller and the Jobs: read a
    record, change it, write it back. *)
Lemma keeps_record_write key v0 r0 u w :
  str_startswith RUN_PREFIX key = true → seen key v0 r0 w →
  (json_wf v0 → ∃ d, u = PDict d ∧ json_wf u ∧ record_step v0 u) →
  keeps o guarantee top (sh_update st key u r0) w.
Proof.
  intros Hkey Hseen Hu. eapply (keeps_write _ _ _ _ _ (λ _, True)); [done|done|exact Hseen|].
  intros w1 _ Hwf. destruct (Hu Hwf) as (d & -> & Hwfd & Hstep). split_and!; [done| |].
  - by intros ->.
  - intros _. etrans; [exact Hstep|]. by apply record_step_encode.
Qed.

Definition change_quiet (change : pyval → prog envE pyval) : Prop := ∀ v, quiet (change v).

Lemma fair_mutate_turn run_id change :
  change_ok change → change_quiet change → fair (mutate_turn st run_id change).
Proof.
  intros Hok Hq w. unfold mutate_turn.
  set (key := run_key run_id).
  eapply (keeps_bind o guarantee (λ x w', seen key x.1 x.2 w' ∧ ∃ d, x.1 = PDict d)).
  - unfold get_record. case_match; [done|].
    apply (keeps_bind o guarantee (λ x w', match x with
      | Some (v, r) => seen key v r w' ∧ ∃ d, v = PDict d | None => True end)).
    + unfold unless_missing. eapply keeps_bind; [exact (keeps_try o guarantee _ _ (λ _, True) w
        (λ _ _ _ _, I) I (keeps_get o guarantee guarantee_frame st key (λ _, True) w (λ _ _ _ _, I) I))|].
      intros [[v r]|e] w' [_ HQ]; [|by case_match]. simpl in *. naive_solver.
    + intros [[v r]|] w' HQ; [|done]. destruct HQ as [Hs [d ->]]. cbn [fst]. ret_step. case_match; [done|]. simpl. eauto.
  - intros [v r] w' [Hseen [d Hv]]. cbn [fst snd] in *. subst v.
    eapply keeps_bind; [apply (keeps_quiet_returns o guarantee _ (λ u, json_wf (PDict d) →
      ∃ d', u = PDict d' ∧ json_wf u ∧ record_step (PDict d) u) (seen key (PDict d) r) w'
      guarantee_frame); [apply seen_stable|apply Hq| |exact Hseen]|].
    { pose proof (Hok d) as Hd.
      revert Hd. generalize (change (PDict d)). intros p. induction p as [a|e|X op k IH]; simpl; [|done|].
      - intros Hd Hwf. destruct (Hd Hwf) as (d' & -> & ? & ?). eauto.
      - intros Hd x. apply IH. intros Hwf. by apply Hd. }
    intros u w2 [Hs2 Hu].
    eapply keeps_bind; [by apply (keeps_perform o guarantee guarantee_frame EUtcNow
      (seen key (PDict d) r) w2 eq_refl (seen_stable _ _ _))|]. intros at_ w3 Hs3.
    eapply keeps_bind; [apply (keeps_lift o guarantee _ (seen key (PDict d) r)); exact Hs3|].
    intros u' w4 [Hs4 Hset]. apply keeps_conflict, keeps_fair_bind; [|done].
    eapply keeps_record_write; [apply str_startswith_app|exact Hs4|].
    intros Hwf. destruct (Hu Hwf) as (d' & -> & Hwf' & Hstep). simpl in Hset. injection Hset as <-.
    exists (alist_set "updated_at" (PStr at_) d'). split_and!; [done| |].
    + apply json_wf_set; [by constructor|done].
    + etrans; [exact Hstep|]. apply record_step_set.
      apply (bool_decide_unpack _). vm_compute. exact I.
Qed.

Lemma fair_mutate run_id change :
  change_ok change → change_quiet change → fair (mutate st run_id change).
Proof. intros. apply fair_retry; [by apply fair_mutate_turn|done]. Qed.

(** The status updates the controller makes. *)
Lemma fair_status_update run_id fields :
  quiet fields →
  returns (λ u, NoDup u.*1 ∧ Forall (λ kv, json_wf kv.2) u ∧
     match alist_get "stop_requested" u with Some x => py_truth x = true | None => True end) fields →
  fair (mutate st run_id (update_status fields)).
Proof.
  intros Hq Hr. apply fair_mutate; [by apply update_status_ok|]. intros v.
  by apply quiet_update_status.
Qed.
Lemma as_dict_wf c : json_wf (PDict (as_dict c)).
Proof.
  apply json_wf_dict. split; [unfold as_dict; cbn; literal_dict|].
  unfold as_dict. repeat (apply Forall_cons; split); try apply Forall_nil_2; cbn;
    try (apply wf_leaf; exact I). destruct (metrics_url c); by apply wf_leaf.
Qed.

Lemma initial_record_wf c id at1 u at2 : json_wf (PDict (initial_record c id at1 u at2)).
Proof.
  apply json_wf_dict. split; [cbn; literal_dict|]. unfold initial_record.
  repeat (apply Forall_cons; split); try apply Forall_nil_2; cbn; try (apply wf_leaf; exact I);
    [apply as_dict_wf| |]; apply json_wf_dict; (split; [cbn; literal_dict|literal_dict]).
Qed.

Lemma fair_submission_failed run_id error : fair (submission_failed st run_id error).
Proof.
  apply fair_bind.
  - apply fair_catch; [|intros e; by case_match].
    apply fair_status_update; [by split|status_fields].
  - intros _. apply fair_bind; [apply fair_release|done].
Qed.

Lemma fair_submit c run_id maximum record :
  json_wf record → fair (submit st c run_id maximum record).
Proof.
  intros Hwf. apply fair_bind; [by apply fair_create|]. intros _.
  apply fair_bind; [apply fair_quiet, quiet_lift|]. intros n.
  apply fair_bind; [by apply fair_quiet, quiet_call|]. intros name.
  apply fair_status_update; [apply quiet_bind; [apply quiet_lift|done]|].
  eapply returns_bind; [apply returns_lift|]. intros m _. status_fields.
Qed.

Lemma fair_start app values : fair (start bracket_ok st app values).
Proof.
  unfold start. case_match; [done|].
  do 2 (apply fair_bind; [apply fair_quiet, quiet_lift|intros ?]).
  apply fair_bind; [by apply fair_quiet|]. intros run_id. cbv zeta.
  apply fair_bind; [apply fair_acquire|]. intros _.
  apply fair_bind; [apply fair_quiet, quiet_lift|]. intros maximum.
  intros w. eapply (keeps_bind o guarantee (λ r _, json_wf r)).
  { eapply keeps_weaken; [|apply (keeps_quiet_returns o guarantee _ json_wf (λ _, True) w guarantee_frame)];
      try done; [by intros ?? []|]. intros at1 now at2. apply initial_record_wf. }
  intros record w1 Hwf. apply keeps_fair_bind; [|intros; apply fair_quiet, quiet_lift].
  apply fair_catch; [by apply fair_submit|]. intros e. apply fair_submission_failed.
Qed.

Lemma quiet_job_verdict status name : quiet (job_verdict status name).
Proof.
  apply quiet_bind; [done|]. intros [js|e]; [by case_match|]. destruct e; try done.
  repeat first [apply quiet_bind; [auto with quiet|intros ?] | case_match | auto with quiet]; done.
Qed.

Lemma fair_reconcile record : fair (reconcile st record).
Proof.
  unfold reconcile. do 3 (apply fair_bind; [apply fair_quiet, quiet_lift|intros ?]).
  case_match; [done|]. apply fair_bind; [apply fair_quiet, quiet_job_verdict|].
  intros [[terminal message]|]; [|done].
  apply fair_bind; [apply fair_quiet, quiet_lift|]. intros id.
  apply fair_bind; [apply fair_status_update; [done|status_fields]|]. intros r.
  apply fair_bind; [apply fair_release|done].
Qed.

Lemma fair_details run_id : fair (details st run_id).
Proof.
  apply fair_bind; [apply fair_get_record|]. intros r.
  apply fair_bind; [apply fair_reconcile|]. intros r'. apply fair_quiet, quiet_lift.
Qed.

Lemma fair_list_keys keys : fair (list_keys st keys).
Proof.
  induction keys as [|key keys IH]; [done|]. cbn [list_keys]. apply fair_bind.
  - apply fair_try, fair_bind; [apply fair_get|]. intros r.
    apply fair_bind; [apply fair_reconcile|]. intros r'.
    apply fair_bind; [apply fair_quiet, quiet_lift|done].
  - intros [[r s]|e]; [|by destruct e].
    apply fair_bind; [apply fair_quiet, quiet_lift|]. intros entry.
    by apply fair_bind.
Qed.

Lemma fair_list_runs : fair (list_runs st).
Proof. apply fair_bind; [apply fair_keys|]. intros. apply fair_list_keys. Qed.

Lemma fair_stop run_id : fair (stop st run_id).
Proof.
  apply fair_bind; [apply fair_get_record|]. intros r.
  do 3 (apply fair_bind; [apply fair_quiet, quiet_lift|intros ?]).
  case_match; [done|]. apply fair_bind; [apply fair_quiet, quiet_lift|]. intros name.
  apply fair_bind; [apply fair_status_update; [done|status_fields]|]. intros _.
  apply fair_bind; [by case_match; apply fair_quiet; [apply quiet_call|]|]. intros _.
  apply fair_bind; [apply fair_status_update; [done|status_fields]|]. intros r'.
  apply fair_bind; [apply fair_release|]. intros _. apply fair_quiet, quiet_lift.
Qed.

Lemma fair_artifact run_id name : fair (artifact st run_id name).
Proof.
  apply fair_bind; [apply fair_get_record|]. intros r.
  do 2 (apply fair_bind; [apply fair_quiet, quiet_lift|intros ?]).
  case_match; [done|]. apply fair_bind; [apply fair_quiet, quiet_lift|]. intros ob.
  apply fair_bind; [apply fair_unless_missing, fair_quiet, quiet_get_object|]. by intros [?|].
Qed.
End handlers.
End promise.

(** ** One controller alone, with a store that works *)
Section controller.
Context {B : Type} `{KVLaws B} (o : oracle) (st : store).
Context (Hcalm : calm o) (Hst : usable st).
Abbreviation exec := (run (env_handle (B := B) o)).
Implicit Types w : world B.

Lemma run_lift_ok {A C} (m : res A) (f : A → prog envE C) a w :
  m = Ok a → exec (lift m ≫= f) w = exec (f a) w.
Proof. by intros ->. Qed.

Lemma run_retry {A} n (body : prog envE (option A)) last w :
  exec (retry_loop (Datatypes.S n) body last) w =
    match exec body w with
    | (Ok (Some a), w') => (Ok a, w')
    | (Ok None, w') => exec (retry_loop n body last) w'
    | (Raise e, w') => (Raise e, w')
    end.
Proof. cbn [retry_loop]. rewrite run_bind. by destruct (exec body w) as [[[a|]|e] w']. Qed.

Lemma run_unless_missing {A} (p : prog envE A) w :
  exec (unless_missing p) w =
    match exec p w with
    | (Ok a, w') => (Ok (Some a), w')
    | (Raise e, w') => if is_record_not_found e then (Ok None, w') else (Raise e, w')
    end.
Proof.
  unfold unless_missing. rewrite run_bind, run_try.
  destruct (exec p w) as [[a|e] w']; [done|]. by destruct (is_record_not_found e).
Qed.

Lemma run_unless_conflict {A} (p : prog envE A) w :
  exec (unless_conflict p) w =
    match exec p w with
    | (Ok a, w') => (Ok (Some a), w')
    | (Raise e, w') => if is_revision_conflict e then (Ok None, w') else (Raise e, w')
    end.
Proof.
  unfold unless_conflict. rewrite run_bind, run_try.
  destruct (exec p w) as [[a|e] w']; [done|]. by destruct (is_revision_conflict e).
Qed.

(** Reading a key that holds a dictionary, or nothing. *)
Lemma run_read key w :
  match bk_get key (w_bucket w) with
  | Ok (PDict d, r) => exec (unless_missing (sh_get st key)) w = (Ok (Some (PDict d, r)), after 3 w)
  | Ok _ => True
  | Raise _ => exec (unless_missing (sh_get st key)) w = (Ok None, after 3 w)
  end.
Proof.
  pose proof (run_sh_get o st Hcalm Hst key w) as Hget.
  destruct (bk_get key (w_bucket w)) as [[[| | | | | |d] r]|e]; try done;
    by rewrite run_unless_missing, Hget.
Qed.

(** *** The lease *)

Definition lease_busy (now : pyfloat) (b : B) : Prop :=
  ∃ d r u, bk_get LEASE_KEY b = Ok (PDict d, r) ∧
    py_float (default (PInt 0) (alist_get "lease_until" d)) = Ok u ∧ fltb now u = true.
Definition lease_available (now : pyfloat) (b : B) : Prop :=
  match bk_get LEASE_KEY b with
  | Raise _ => True
  | Ok (v, _) => (∃ d, v = PDict d) ∧ lease_free now v
  end.
(** The lease names a run and lasts until a given time. *)
Definition leased (id : string) (until : pyval) (b : B) : Prop :=
  ∃ d r, bk_get LEASE_KEY b = Ok (PDict d, r) ∧ json_wf (PDict d) ∧
    alist_get "run_id" d = Some (PStr id) ∧ alist_get "lease_until" d = Some until.

Definition only_changed (ks : list string) (b b' : B) : Prop :=
  ∀ k, k ∉ ks → bk_get k b' = bk_get k b.

Lemma written_only k v r b b' : bk_written k v r b b' → only_changed [k] b b'.
Proof. intros [_ Hne] k' Hk. apply Hne. set_solver. Qed.
Lemma only_changed_trans ks ks' b1 b2 b3 :
  only_changed ks b1 b2 → only_changed ks' b2 b3 → only_changed (ks ++ ks') b1 b3.
Proof. intros H1 H2 k Hk. rewrite H2 by set_solver. apply H1. set_solver. Qed.

Lemma encode_dict d : json_wf (PDict d) →
  ∃ d', encode_json (PDict d) = PDict d' ∧ json_wf (PDict d') ∧
    ∀ k, alist_get k d' = json_sorted <$> alist_get k d.
Proof.
  intros Hwf. assert (Hnd : NoDup d.*1) by by apply json_wf_dict in Hwf as [].
  destruct (json_sorted_lookup d Hnd) as (d' & Hd & _ & Hget). exists d'. split_and!; [done| |done].
  rewrite <-Hd. by apply json_sorted_wf.
Qed.

Lemma run_acquire_free id duration m w :
  float_of_Z duration = Ok m → lease_available (o_time o (w_step w)) (w_bucket w) →
  ∃ b, exec (acquire_lease st id duration) w = (Ok tt, after 9 (set_bucket b w)) ∧
    leased id (PFloat (fadd (o_time o (w_step w)) m)) b ∧ only_changed [LEASE_KEY] (w_bucket w) b.
Proof.
  intros Hm Hfree. unfold acquire_lease. rewrite (run_lift_ok _ _ m) by done.
  rewrite run_retry. unfold acquire_turn. rewrite !run_perform_bind. cbv zeta.
  set (lease := [_; _; _; _; _]).
  assert (Hwf : json_wf (PDict lease)).
  { apply json_wf_dict. split; [literal_dict|literal_dict]. }
  destruct (encode_dict _ Hwf) as (d' & Henc & Hwf' & Hget').
  assert (Hleased : ∀ b rev, bk_written LEASE_KEY (encode_json (PDict lease)) rev (w_bucket w) b →
    leased id (PFloat (fadd (o_time o (w_step w)) m)) b).
  { intros b rev [Hk _]. exists d', rev. rewrite Hk, Henc. split_and!; [done..| |];
      rewrite Hget'; done. }
  cbn [env_handle answer fst snd]. change (tick (tick (tick w))) with (after 3 w).
  rewrite run_bind. pose proof (run_read LEASE_KEY (after 3 w)) as Hread.
  unfold lease_available in Hfree.
  change (w_bucket (after 3 w)) with (w_bucket w) in Hread.
  destruct (bk_get LEASE_KEY (w_bucket w)) as [[v r]|e] eqn:Hlease.
  - destruct Hfree as [[d ->] (u & Hu & Hlt)]. simpl in Hu. rewrite Hread.
    change (py_get (PDict d) "lease_until" (PInt 0))
      with (Ok (default (PInt 0) (alist_get "lease_until" d))).
    rewrite (run_lift_ok _ _ (default (PInt 0) (alist_get "lease_until" d))) by done.
    rewrite (run_lift_ok _ _ u) by done. rewrite Hlt.
    rewrite run_unless_conflict, run_bind. change (after 3 (after 3 w)) with (after 6 w).
    pose proof (run_sh_update o st Hcalm Hst LEASE_KEY (PDict lease) r (after 6 w)) as Hup.
    change (w_bucket (after 6 w)) with (w_bucket w) in Hup. rewrite Hlease in Hup.
    destruct (Hup eq_refl) as (rev & b & _ & Hw & ->). exists b.
    split_and!; [done|by eapply Hleased|by eapply written_only].
  - rewrite Hread, run_unless_conflict, run_bind. change (after 3 (after 3 w)) with (after 6 w).
    pose proof (run_sh_create o st Hcalm Hst LEASE_KEY (PDict lease) (after 6 w)) as Hcr.
    change (w_bucket (after 6 w)) with (w_bucket w) in Hcr. rewrite Hlease in Hcr.
    destruct Hcr as (rev & b & Hw & ->). exists b.
    split_and!; [done|by eapply Hleased|by eapply written_only].
Qed.

Lemma run_acquire_busy id duration m w :
  float_of_Z duration = Ok m → lease_busy (o_time o (w_step w)) (w_bucket w) →
  ∃ msg, exec (acquire_lease st id duration) w = (Raise (RunConflict msg), after 6 w).
Proof.
  intros Hm (d & r & u & Hlease & Hu & Hlt). unfold acquire_lease.
  rewrite (run_lift_ok _ _ m) by done. rewrite run_retry. unfold acquire_turn.
  rewrite !run_perform_bind. cbv zeta. set (lease := [_; _; _; _; _]).
  cbn [env_handle answer fst snd]. change (tick (tick (tick w))) with (after 3 w).
  rewrite run_bind. pose proof (run_read LEASE_KEY (after 3 w)) as Hread.
  change (w_bucket (after 3 w)) with (w_bucket w) in Hread. rewrite Hlease in Hread.
  rewrite Hread. change (py_get (PDict d) "lease_until" (PInt 0))
      with (Ok (default (PInt 0) (alist_get "lease_until" d))).
  rewrite (run_lift_ok _ _ (default (PInt 0) (alist_get "lease_until" d))) by done.
  rewrite (run_lift_ok _ _ u) by done. rewrite Hlt.
  eexists. by rewrite after_after.
Qed.

Lemma run_release id until w :
  leased id until (w_bucket w) →
  ∃ b, exec (release_lease st id) w = (Ok tt, after 7 (set_bucket b w)) ∧
    leased id (PInt 0) b ∧ only_changed [LEASE_KEY] (w_bucket w) b.
Proof.
  intros (d & r & Hk & Hwf & Hid & _). unfold release_lease. rewrite run_retry.
  unfold release_turn. rewrite run_bind. pose proof (run_read LEASE_KEY w) as Hread.
  rewrite Hk in Hread. rewrite Hread.
  rewrite (run_lift_ok _ _ (PStr id)) by (simpl; by rewrite Hid).
  rewrite (proj2 (py_eqb_str _ _) eq_refl). cbn [negb].
  rewrite (run_lift_ok _ _ (PDict (alist_set "lease_until" (PInt 0) d))) by done.
  rewrite run_perform_bind. cbn [env_handle answer fst snd].
  set (at_ := o_utc o _).
  set (d1 := alist_set "updated_at" (PStr at_) (alist_set "lease_until" (PInt 0) d)).
  rewrite (run_lift_ok _ _ (PDict d1)) by done.
  set (d2 := alist_set "released" (PBool true) d1).
  rewrite (run_lift_ok _ _ (PDict d2)) by done.
  assert (Hwf2 : json_wf (PDict d2)).
  { unfold d2, d1. repeat apply json_wf_set; try done; by apply wf_leaf. }
  destruct (encode_dict _ Hwf2) as (d' & Henc & Hwf' & Hget').
  rewrite run_unless_conflict, run_bind. change (tick (after 3 w)) with (after 4 w).
  pose proof (run_sh_update o st Hcalm Hst LEASE_KEY (PDict d2) r (after 4 w)) as Hup.
  change (w_bucket (after 4 w)) with (w_bucket w) in Hup. rewrite Hk in Hup.
  destruct (Hup eq_refl) as (rev & b & _ & Hw & ->). exists b.
  split_and!; [done| |by eapply written_only].
  destruct Hw as [Hk' _]. exists d', rev. rewrite Hk', Henc. split_and!; [done..| |];
    rewrite Hget'; unfold d2, d1; rewrite !alist_get_set; simpl.
  - by rewrite Hid.
  - done.
Qed.

(** *** Changing a record *)

Definition recorded (id : string) (d : mapping) (b : B) : Prop :=
  json_wf (PDict d) ∧ alist_get "run_id" d = Some (PStr id) ∧
  ∃ r, bk_get (run_key id) b = Ok (PDict d, r).
Definition valid_id (id : string) : Prop :=
  id ≠ "" ∧ (Z.of_nat (String.length id) ≤ 64)%Z.

Lemma run_get_record id d r w :
  valid_id id → bk_get (run_key id) (w_bucket w) = Ok (PDict d, r) →
  alist_get "run_id" d = Some (PStr id) →
  exec (get_record st id) w = (Ok (PDict d, r), after 3 w).
Proof.
  intros [Hne Hlen] Hk Hid. unfold get_record.
  rewrite (proj2 (String.eqb_neq _ _) Hne), (proj2 (Z.ltb_ge _ _) Hlen). cbn [orb].
  rewrite run_bind. pose proof (run_read (run_key id) w) as Hread. rewrite Hk in Hread.
  rewrite Hread. rewrite (run_lift_ok _ _ (PStr id)) by (simpl; by rewrite Hid).
  by rewrite (proj2 (py_eqb_str _ _) eq_refl).
Qed.

Definition with_status (u : mapping) (at_ : string) (d s : mapping) : mapping :=
  alist_set "updated_at" (PStr at_) (alist_set "status" (PDict (dict_update s u)) d).

Lemma run_mutate_status id fields w d s u j :
  valid_id id → recorded id d (w_bucket w) → alist_get "status" d = Some (PDict s) →
  Forall (λ kv, json_wf kv.2) u →
  exec fields (after 3 w) = (Ok u, after (j + 3) w) →
  let d' := with_status u (o_utc o (j + 3 + w_step w)) d s in
  ∃ b d2, exec (mutate st id (update_status fields)) w = (Ok (PDict d'), after (j + 7) (set_bucket b w)) ∧
    recorded id d2 b ∧ (∀ k, alist_get k d2 = json_sorted <$> alist_get k d') ∧
    only_changed [run_key id] (w_bucket w) b.
Proof.
  intros Hid (Hwf & Hrid & r & Hk) Hs Hu Hf d'. unfold mutate. rewrite run_retry.
  unfold mutate_turn. rewrite run_bind, (run_get_record id d r) by done.
  rewrite run_bind. unfold update_status. cbn [fst snd].
  rewrite (run_lift_ok _ _ (PDict s)) by (simpl; by rewrite Hs).
  rewrite run_bind, Hf. rewrite (run_lift_ok _ _ (PDict (dict_update s u))) by done.
  rewrite run_lift. cbn [py_set]. rewrite run_perform_bind. cbn [env_handle answer fst snd].
  rewrite (run_lift_ok _ _ (PDict d')) by done.
  assert (Hwfs : json_wf (PDict s)) by by eapply json_wf_get.
  assert (Hwf' : json_wf (PDict d')).
  { unfold d', with_status. apply json_wf_set; [by apply wf_leaf|].
    apply json_wf_set; [by apply json_wf_update|done]. }
  destruct (encode_dict _ Hwf') as (d2 & Henc & Hwf2 & Hget).
  rewrite run_unless_conflict, run_bind. change (tick (after (j + 3) w)) with (after (S (j + 3)) w).
  pose proof (run_sh_update o st Hcalm Hst (run_key id) (PDict d') r (after (S (j + 3)) w)) as Hup.
  change (w_bucket (after (S (j + 3)) w)) with (w_bucket w) in Hup. rewrite Hk in Hup.
  destruct (Hup eq_refl) as (rev & b & _ & Hw & ->). exists b, d2.
  split_and!; [|split_and!|done|by eapply written_only].
  - simpl. f_equal. unfold after. simpl. f_equal. lia.
  - done.
  - rewrite Hget. unfold d', with_status. rewrite !alist_get_set_ne by done. by rewrite Hrid.
  - exists rev. destruct Hw as [Hk' _]. by rewrite Hk', Henc.
Qed.

(** *** Submission *)

Definition status_of (d : mapping) (k : string) : option pyval :=
  match alist_get "status" d with Some (PDict s) => alist_get k s | _ => None end.

(** The stored form of a record that carries status [s] with the members [u]. *)
Lemma status_of_stored d d2 s u at_ k :
  json_wf (PDict (with_status u at_ d s)) → NoDup u.*1 →
  (∀ k, alist_get k d2 = json_sorted <$> alist_get k (with_status u at_ d s)) →
  status_of d2 k = json_sorted <$>
    match alist_get k u with Some x => Some x | None => alist_get k s end.
Proof.
  intros Hwf Hnd Hget. unfold status_of. rewrite Hget. unfold with_status.
  rewrite alist_get_set_ne, alist_get_set_eq by done. cbn [fmap option_fmap option_map].
  assert (Hwfs : json_wf (PDict (dict_update s u))).
  { eapply json_wf_get; [exact Hwf|]. unfold with_status.
    by rewrite alist_get_set_ne, alist_get_set_eq. }
  destruct (encode_dict _ Hwfs) as (ds & Henc & _ & Hgets).
  unfold encode_json, json_dumps in Henc. rewrite Henc, Hgets.
  by rewrite dict_update_get.
Qed.

Lemma run_submit_create c id maximum d n w e :
  worker_count c = Ok n → json_wf (PDict d) → alist_get "run_id" d = Some (PStr id) →
  bk_get (run_key id) (w_bucket w) = Raise e →
  ∃ b d1, recorded id d1 b ∧ (∀ k, alist_get k d1 = json_sorted <$> alist_get k d) ∧
    only_changed [run_key id] (w_bucket w) b ∧
    exec (submit st c id maximum (PDict d)) w =
      exec (name ← call (EJobCreate id maximum n);
            mutate st id (update_status (
              workers ← lift (worker_count c);
              Ret [("job_name", PStr name); ("worker_count", PInt workers)])))
           (after 3 (set_bucket b w)).
Proof.
  intros Hn Hwf Hid Hk. unfold submit. rewrite run_bind.
  pose proof (run_sh_create o st Hcalm Hst (run_key id) (PDict d) w) as Hcr. rewrite Hk in Hcr.
  destruct Hcr as (rev & b & Hw & ->). destruct (encode_dict _ Hwf) as (d1 & Henc & Hwf1 & Hget1).
  exists b, d1. split_and!; [|done|by eapply written_only|].
  - split_and!; [done|by rewrite Hget1, Hid|]. exists rev. destruct Hw as [Hk' _]. by rewrite Hk', Henc.
  - by rewrite (run_lift_ok _ _ n).
Qed.

Lemma run_public d w : alist_get "status" d ≠ None → alist_get "config" d ≠ None →
  ∃ p, public (PDict d) = Ok p ∧ exec (lift (public (PDict d))) w = (Ok p, w).
Proof.
  intros Hs Hc. unfold public. simpl.
  destruct (alist_get "status" d), (alist_get "config" d); try done. simpl. eauto.
Qed.

Lemma run_key_not_lease id : run_key id ≠ LEASE_KEY.
Proof. discriminate. Qed.

Lemma leased_only id until ks b b' :
  only_changed ks b b' → LEASE_KEY ∉ ks → leased id until b → leased id until b'.
Proof.
  intros Hb Hks (d & r & Hk & Hrest). exists d, r. by rewrite Hb.
Qed.

Lemma recorded_only id d ks b b' :
  only_changed ks b b' → run_key id ∉ ks → recorded id d b → recorded id d b'.
Proof. intros Hb Hks (? & ? & r & Hk). split_and!; [done..|]. exists r. by rewrite Hb. Qed.

(** What the record of a submitted run says. *)
Definition config_of (d : mapping) (c : config) : Prop :=
  alist_get "config" d = Some (json_sorted (PDict (as_dict c))).

Lemma initial_stored c id at1 u at2 d1 :
  (∀ k, alist_get k d1 = json_sorted <$> alist_get k (initial_record c id at1 u at2)) →
  config_of d1 c ∧ ∃ s1, alist_get "status" d1 = Some (PDict s1) ∧ NoDup s1.*1 ∧
    alist_get "state" s1 = Some (PStr "submitted") ∧ alist_get "job_name" s1 = None.
Proof.
  intros Hget. split; [by unfold config_of; rewrite Hget|].
  pose proof (initial_record_wf c id at1 u at2) as Hwf.
  assert (Hs : alist_get "status" (initial_record c id at1 u at2)
    = Some (PDict (initial_status c id at1 u))) by reflexivity.
  eapply json_wf_get in Hwf; [|exact Hs].
  destruct (encode_dict _ Hwf) as (s1 & Henc & Hwf1 & Hgets).
  exists s1. split_and!.
  - rewrite Hget, Hs. simpl fmap. by rewrite <-Henc.
  - by apply json_wf_dict in Hwf1 as [].
  - by rewrite Hgets.
  - by rewrite Hgets.
Qed.

(** After a status update the record still describes the same run. *)
Lemma config_of_update c d d2 s u at_ :
  (∀ k, alist_get k d2 = json_sorted <$> alist_get k (with_status u at_ d s)) →
  config_of d c → config_of d2 c.
Proof.
  unfold config_of, with_status. intros Hget Hc. rewrite Hget, !alist_get_set_ne, Hc by done.
  change (?f <$> Some ?x) with (Some (f x)). f_equal. apply json_sorted_idem, as_dict_wf.
Qed.

Lemma with_status_wf u at_ d s :
  json_wf (PDict d) → alist_get "status" d = Some (PDict s) → Forall (λ kv, json_wf kv.2) u →
  json_wf (PDict (with_status u at_ d s)).
Proof.
  intros Hwf Hs Hu. assert (json_wf (PDict s)) by by eapply json_wf_get.
  apply json_wf_set; [by apply wf_leaf|]. apply json_wf_set; [by apply json_wf_update|done].
Qed.

Lemma submit_spec c id maximum w e at1 u at2 n ans :
  worker_count c = Ok n → valid_id id → bk_get (run_key id) (w_bucket w) = Raise e →
  (∀ t, o_job_create o t id maximum n = ans) →
  let '(r, w') := exec (submit st c id maximum (PDict (initial_record c id at1 u at2))) w in
  only_changed [run_key id] (w_bucket w) (w_bucket w') ∧
  ∃ d s, recorded id d (w_bucket w') ∧ config_of d c ∧
    alist_get "status" d = Some (PDict s) ∧ status_of d "state" = Some (PStr "submitted") ∧
    match ans with
    | Ok name => status_of d "job_name" = Some (PStr name) ∧
        status_of d "worker_count" = Some (PInt n) ∧
        ∃ d', r = Ok (PDict d') ∧ (∀ k, alist_get k d = json_sorted <$> alist_get k d')
    | Raise e => r = Raise e
    end.
Proof.
  intros Hn Hid Hk Hjob.
  destruct (run_submit_create c id maximum (initial_record c id at1 u at2) n w e)
    as (b & d1 & Hrec & Hget & Honly & ->); [done|apply initial_record_wf|done|done|].
  destruct (initial_stored _ _ _ _ _ _ Hget) as (Hc1 & s1 & Hs1 & Hnd & Hstate & _).
  rewrite run_bind, run_call. cbn [env_handle answer fst snd]. rewrite Hjob.
  destruct ans as [name|e'].
  - set (w1 := tick _).
    destruct (run_mutate_status id (workers ← lift (worker_count c);
        Ret [("job_name", PStr name); ("worker_count", PInt workers)]) w1 d1 s1
        [("job_name", PStr name); ("worker_count", PInt n)] 0)
      as (b2 & d2 & -> & Hrec2 & Hget2 & Honly2); [done|done|done|literal_dict| |].
    { by rewrite (run_lift_ok _ _ n). }
    assert (Hst2 : ∀ k, status_of d2 k = json_sorted <$>
      match alist_get k [("job_name", PStr name); ("worker_count", PInt n)] with
      | Some x => Some x | None => alist_get k s1 end).
    { intros k. eapply status_of_stored; [|cbn; literal_dict|exact Hget2].
      apply with_status_wf; [apply Hrec|done|literal_dict]. }
    split; [exact (only_changed_trans _ _ _ _ _ Honly Honly2)
      || (intros k Hnk; rewrite Honly2, Honly by done; done)|].
    assert (Hs2 : ∃ s2, alist_get "status" d2 = Some (PDict s2)).
    { rewrite Hget2. unfold with_status. rewrite alist_get_set_ne, alist_get_set_eq by done.
      eexists. reflexivity. }
    destruct Hs2 as [s2 Hs2]. exists d2, s2. split; [exact Hrec2|].
    split; [by eapply config_of_update|]. split; [done|]. rewrite !Hst2.
    cbn [alist_get]. rewrite !decide_False, !decide_True by done. rewrite Hstate.
    split_and!; [done..|]. eauto.
  - split; [done|]. exists d1, s1. split_and!; try done.
    unfold status_of. by rewrite Hs1.
Qed.

(** The error path of [start] on a record that exists. *)
Lemma run_submission_failed id error d s until w :
  valid_id id → recorded id d (w_bucket w) → alist_get "status" d = Some (PDict s) →
  leased id until (w_bucket w) →
  ∃ w' d', exec (submission_failed st id error) w = (Raise error, w') ∧
    recorded id d' (w_bucket w') ∧ (∀ c, config_of d c → config_of d' c) ∧
    status_of d' "state" = Some (PStr "failed") ∧
    status_of d' "message"
      = Some (PStr ("could not submit benchmark Job: " +:+ exn_str error)) ∧
    leased id (PInt 0) (w_bucket w') ∧
    only_changed [LEASE_KEY; run_key id] (w_bucket w) (w_bucket w').
Proof.
  intros Hid Hrec Hs Hl. unfold submission_failed. rewrite run_bind, run_catch.
  set (u := [("state", PStr "failed"); ("ended_at", PStr (o_utc o (3 + w_step w)));
             ("message", PStr ("could not submit benchmark Job: " +:+ exn_str error))]).
  destruct (run_mutate_status id (now ← perform EUtcNow; Ret [("state", PStr "failed");
      ("ended_at", PStr now); ("message", PStr ("could not submit benchmark Job: " +:+ exn_str error))])
      w d s u 1)
    as (b & d2 & Hrun & Hrec2 & Hget2 & Honly2); [done..|literal_dict|done|].
  rewrite Hrun, run_bind.
  set (w2 := after (1 + 7) (set_bucket b w)).
  destruct (run_release id until w2) as (b3 & -> & Hl3 & Honly3).
  { eapply leased_only; [exact Honly2| |exact Hl]. apply not_elem_of_cons. split; [done|].
    apply not_elem_of_nil. }
  assert (Hst2 : ∀ k, status_of d2 k = json_sorted <$>
    match alist_get k u with Some x => Some x | None => alist_get k s end).
  { intros k. eapply status_of_stored; [|cbn; literal_dict|exact Hget2].
    apply with_status_wf; [apply Hrec|done|literal_dict]. }
  eexists _, d2. split; [done|]. split.
  { eapply recorded_only; [exact Honly3| |exact Hrec2].
    apply not_elem_of_cons. split; [done|apply not_elem_of_nil]. }
  split; [intros c; by eapply config_of_update|]. rewrite !Hst2. split_and!; [done..|].
  intros k Hk. simpl. rewrite Honly3 by set_solver. apply Honly2. set_solver.
Qed.
End controller.

(** C34: submitting a run with a store that works.  While another lease is
    live the call fails and writes nothing.  Otherwise it writes only the
    lease and the record of the new run; if Kubernetes accepts the Job, the
    run is [submitted] with its Job name and worker count, the lease is the
    run's until its deadline, and the caller is shown what was stored; if
    Kubernetes refuses, the run is [failed] with the reason, the lease is
    free again and the caller gets the refusal. *)
Theorem start_spec {B} `{KVLaws B} bracket_ok o st app values c n m (w : world B) ans :
  calm o → usable st →
  str_lower (str_strip (py_str (get_or values "workload" (PStr "")))) ≠ "fault_tolerance" →
  (a ← manager_application app; from_request bracket_ok values a) = Ok c →
  worker_count c = Ok n → float_of_Z (run_seconds c + 300) = Ok m →
  let id := o_stamp o (w_step w) +:+ "-" +:+ String.substring 0 8 (o_uuid_hex o (S (w_step w))) in
  valid_id id → is_ok (bk_get (run_key id) (w_bucket w)) = false →
  (∀ t, o_job_create o t id (run_seconds c + 300) n = ans) →
  let now := o_time o (2 + w_step w) in
  let '(r, w') := run (env_handle o) (start bracket_ok st app values) w in
  (lease_busy now (w_bucket w) →
     (∃ msg, r = Raise (RunConflict msg)) ∧ w_bucket w' = w_bucket w) ∧
  (lease_available now (w_bucket w) →
     only_changed [LEASE_KEY; run_key id] (w_bucket w) (w_bucket w') ∧
     ∃ d, recorded id d (w_bucket w') ∧ config_of d c ∧
       match ans with
       | Ok name =>
           leased id (PFloat (fadd now m)) (w_bucket w') ∧
           status_of d "state" = Some (PStr "submitted") ∧
           status_of d "job_name" = Some (PStr name) ∧
           status_of d "worker_count" = Some (PInt n) ∧
           ∃ d' p, r = Ok p ∧ public (PDict d') = Ok p ∧
             ∀ k, alist_get k d = json_sorted <$> alist_get k d'
       | Raise e =>
           r = Raise e ∧ leased id (PInt 0) (w_bucket w') ∧
           status_of d "state" = Some (PStr "failed") ∧
           status_of d "message" = Some (PStr ("could not submit benchmark Job: " +:+ exn_str e))
       end).
Proof.
  intros Hcalm Hst Hwl Hcfg Hn Hm id Hid Habs Hjob now.
  destruct (bk_get (run_key id) (w_bucket w)) as [?|e0] eqn:Hk; [done|]. clear Habs.
  apply res_bind_ok in Hcfg as (a & Ha & Hcfg).
  unfold start. rewrite (proj2 (String.eqb_neq _ _) Hwl).
  rewrite (run_lift_ok o _ _ a) by done. rewrite (run_lift_ok o _ _ c) by done.
  unfold new_run_id. rewrite run_bind, !run_perform_bind. cbn [env_handle answer fst snd run].
  change (tick (tick w)) with (after 2 w). change (w_step (tick w)) with (S (w_step w)).
  fold id. cbv zeta.
  rewrite run_bind. match goal with |- let '(r, w') := ?run in _ => destruct run as [r w'] eqn:Hrun end.
  split; intros Hlease.
  - destruct (run_acquire_busy o st Hcalm Hst id _ m (after 2 w) Hm Hlease) as [msg Hacq].
    rewrite Hacq in Hrun. simplify_eq. split; [by eexists|done].
  - destruct (run_acquire_free o st Hcalm Hst id _ m (after 2 w) Hm Hlease) as (b & Hacq & Hl & Honly).
    rewrite Hacq in Hrun. rewrite (run_lift_ok o _ _ m) in Hrun by done.
    unfold new_record in Hrun. rewrite run_bind, !run_perform_bind in Hrun.
    cbn [env_handle answer fst snd run] in Hrun.
    set (w3 := tick (tick (tick _))) in Hrun. rewrite run_bind, run_catch in Hrun.
    match type of Hrun with context [initial_record c id ?at1 ?u ?at2] =>
      pose proof (submit_spec o st Hcalm Hst c id (run_seconds c + 300) w3 e0 at1 u at2 n ans Hn Hid)
        as Hsub end.
    destruct (run (env_handle o) (submit st c id _ _) w3) as [rs ws].
    destruct Hsub as (Honly2 & d & s & Hrec & Hcfgd & Hs & Hstate & Hans); [|done|].
    { simpl. rewrite Honly; [done|]. apply not_elem_of_cons. split; [done|apply not_elem_of_nil]. }
    assert (Hl2 : leased id (PFloat (fadd now m)) (w_bucket ws)).
    { eapply leased_only; [exact Honly2| |exact Hl].
      apply not_elem_of_cons. split; [done|apply not_elem_of_nil]. }
    destruct ans as [name|e].
    + destruct Hans as (Hname & Hcount & d' & -> & Hget).
      destruct (run_public o d' ws) as (p & Hp & Hrunp).
      { intros Hno. specialize (Hget "status"). by rewrite Hs, Hno in Hget. }
      { intros Hno. specialize (Hget "config"). by rewrite Hcfgd, Hno in Hget. }
      cbv beta iota in Hrun. rewrite Hrunp in Hrun. simplify_eq.
      split; [intros k Hnk; rewrite Honly2 by set_solver; apply Honly; set_solver|].
      exists d. split_and!; [done..|]. by exists d', p.
    + subst rs. destruct (run_submission_failed o st Hcalm Hst id e d s _ ws Hid Hrec Hs Hl2)
        as (w4 & d4 & Hfail & Hrec4 & Hcfg4 & Hstate4 & Hmsg4 & Hl4 & Honly4).
      cbv beta iota in Hrun. rewrite Hfail in Hrun. simplify_eq. split.
      * intros k Hnk. rewrite Honly4 by done. rewrite Honly2 by set_solver.
        simpl. rewrite Honly by set_solver. done.
      * exists d4. split_and!; try done. by apply Hcfg4.
Qed.

(** ** Stopping and reconciling *)
Section ending.
Context {B : Type} `{KVLaws B} (o : oracle) (st : store).
Context (Hcalm : calm o) (Hst : usable st).
Abbreviation exec := (run (env_handle (B := B) o)).
Implicit Types w : world B.

(** One status update of a record in the middle of a handler. *)
Lemma mutate_spec id fields w d s u j :
  valid_id id → recorded id d (w_bucket w) → alist_get "status" d = Some (PDict s) →
  Forall (λ kv, json_wf kv.2) u → NoDup u.*1 →
  exec fields (after 3 w) = (Ok u, after (j + 3) w) →
  ∃ b d' d2 s2, exec (mutate st id (update_status fields)) w
      = (Ok (PDict d'), after (j + 7) (set_bucket b w)) ∧
    (∀ k, alist_get k d2 = json_sorted <$> alist_get k d') ∧
    recorded id d2 b ∧ alist_get "status" d2 = Some (PDict s2) ∧
    (∀ k, alist_get k s2 = json_sorted <$>
       match alist_get k u with Some x => Some x | None => alist_get k s end) ∧
    (∀ k, k ∉ ["status"; "updated_at"] → alist_get k d2 = json_sorted <$> alist_get k d) ∧
    only_changed [run_key id] (w_bucket w) b.
Proof.
  intros Hid Hrec Hs Hu Hnd Hf.
  destruct (run_mutate_status o st Hcalm Hst id fields w d s u j Hid Hrec Hs Hu Hf)
    as (b & d2 & Hrun & Hrec2 & Hget2 & Honly).
  set (at_ := o_utc o (j + 3 + w_step w)) in *.
  assert (Hwf' : json_wf (PDict (dict_update s u))).
  { apply json_wf_update; [done|]. destruct Hrec as [Hwf _]. by eapply json_wf_get. }
  destruct (encode_dict _ Hwf') as (s2 & Henc & _ & Hgets).
  exists b, (with_status u at_ d s), d2, s2. split_and!; [done..| | | |done].
  - rewrite Hget2. unfold with_status. rewrite alist_get_set_ne, alist_get_set_eq by done.
    change (?f <$> Some ?x) with (Some (f x)). by rewrite <-Henc.
  - intros k. by rewrite Hgets, dict_update_get.
  - intros k Hk. rewrite Hget2. unfold with_status.
    by rewrite !alist_get_set_ne by set_solver.
Qed.

Lemma public_some d s c0 w :
  alist_get "status" d = Some s → alist_get "config" d = Some c0 →
  ∃ p, public (PDict d) = Ok p ∧ exec (lift (public (PDict d))) w = (Ok p, w).
Proof. intros Hs Hc. apply run_public; congruence. Qed.

Definition stopping (id : string) (d : mapping) (b : B) : Prop :=
  recorded id d b ∧ status_of d "state" = Some (PStr "stopping") ∧
  status_of d "stop_requested" = Some (PBool true).
Definition stopped (id : string) (d : mapping) (b : B) : Prop :=
  recorded id d b ∧ status_of d "state" = Some (PStr "stopped") ∧
  status_of d "stop_requested" = Some (PBool true).

Lemma run_stop_request id d s w :
  valid_id id → recorded id d (w_bucket w) → alist_get "status" d = Some (PDict s) →
  ∃ b d' d2 s2, exec (mutate st id (update_status (
      now ← perform EUtcNow;
      Ret [("state", PStr "stopping"); ("stop_requested", PBool true);
           ("stop_requested_at", PStr now)]))) w = (Ok (PDict d'), after 8 (set_bucket b w)) ∧
    stopping id d2 b ∧ alist_get "status" d2 = Some (PDict s2) ∧
    only_changed [run_key id] (w_bucket w) b ∧
    (alist_get "config" d ≠ None → alist_get "config" d2 ≠ None).
Proof.
  intros Hid Hrec Hs.
  destruct (mutate_spec id (now ← perform EUtcNow; Ret [("state", PStr "stopping");
      ("stop_requested", PBool true); ("stop_requested_at", PStr now)]) w d s
      [("state", PStr "stopping"); ("stop_requested", PBool true);
       ("stop_requested_at", PStr (o_utc o (3 + w_step w)))] 1 Hid Hrec Hs)
    as (b & d' & d2 & s2 & Hrun & _ & Hrec2 & Hs2 & Hget & Hrest & Honly);
    [literal_dict|cbn; literal_dict|done|].
  exists b, d', d2, s2. split_and!; try done.
  - split_and!; [done|unfold status_of; rewrite Hs2, Hget; reflexivity..].
  - intros Hc. rewrite Hrest by set_solver. by destruct (alist_get "config" d).
Qed.

Lemma run_stop_finish id d s w :
  valid_id id → stopping id d (w_bucket w) → alist_get "status" d = Some (PDict s) →
  ∃ b d' d2, exec (mutate st id (update_status (
      now ← perform EUtcNow; Ret [("state", PStr "stopped"); ("ended_at", PStr now)]))) w
      = (Ok (PDict d'), after 8 (set_bucket b w)) ∧
    (∀ k, alist_get k d2 = json_sorted <$> alist_get k d') ∧
    stopped id d2 b ∧ only_changed [run_key id] (w_bucket w) b ∧
    (alist_get "config" d ≠ None → alist_get "config" d2 ≠ None) ∧ alist_get "status" d2 ≠ None.
Proof.
  intros Hid (Hrec & Hstate & Hreq) Hs.
  destruct (mutate_spec id (now ← perform EUtcNow; Ret [("state", PStr "stopped");
      ("ended_at", PStr now)]) w d s
      [("state", PStr "stopped"); ("ended_at", PStr (o_utc o (3 + w_step w)))] 1 Hid Hrec Hs)
    as (b & d' & d2 & s2 & Hrun & Hpub & Hrec2 & Hs2 & Hget & Hrest & Honly);
    [literal_dict|cbn; literal_dict|done|].
  unfold status_of in Hreq. rewrite Hs in Hreq.
  exists b, d', d2. split_and!; try done.
  - split_and!; [done| |]; unfold status_of; rewrite Hs2, Hget; [reflexivity|].
    simpl. by rewrite Hreq.
  - intros Hc. rewrite Hrest by set_solver. by destruct (alist_get "config" d).
  - by rewrite Hs2.
Qed.
End ending.

(** Stopping a run with a store that works.  A run that is not active
    is refused and nothing is written.  An active run first carries the stop
    request; if the Job cannot be deleted the call fails there and the lease
    is untouched; otherwise the run ends [stopped] with its lease given back. *)
Theorem stop_spec {B} `{KVLaws B} o st id d s cfg until state name (w : world B) :
  calm o → usable st → valid_id id →
  recorded id d (w_bucket w) → alist_get "status" d = Some (PDict s) →
  alist_get "config" d = Some cfg →
  alist_get "state" s = Some (PStr state) → alist_get "job_name" s = Some (PStr name) → name ≠ "" →
  leased id until (w_bucket w) →
  let '(r, w') := run (env_handle o) (stop st id) w in
  (state ∉ ACTIVE_STATES →
     r = Raise (RunConflict "the requested run is not active") ∧ w_bucket w' = w_bucket w) ∧
  (state ∈ ACTIVE_STATES →
     only_changed [LEASE_KEY; run_key id] (w_bucket w) (w_bucket w') ∧
     ∀ answer, (∀ t, o_job_delete o t name = answer) →
     match answer with
     | Ok _ => is_ok r = true ∧ (∃ d', stopped id d' (w_bucket w')) ∧
               leased id (PInt 0) (w_bucket w')
     | Raise e => r = Raise e ∧ (∃ d', stopping id d' (w_bucket w')) ∧
               leased id until (w_bucket w')
     end).
Proof.
  intros Hcalm Hst Hid Hrec Hs Hcfg Hstate Hname Hne Hl.
  pose proof Hrec as (_ & Hrid & rv & Hk). destruct (run _ _ w) as [r w'] eqn:Hrun.
  unfold stop in Hrun. rewrite run_bind, (run_get_record o st Hcalm Hst id d rv) in Hrun by done.
  cbn [fst] in Hrun.
  rewrite (run_lift_ok o _ _ (PDict s)) in Hrun by (simpl; by rewrite Hs).
  rewrite (run_lift_ok o _ _ (PStr state)) in Hrun by (simpl; by rewrite Hstate).
  rewrite (run_lift_ok o _ _ (bool_decide (state ∈ ACTIVE_STATES))) in Hrun by done.
  split; intros Hin.
  - rewrite bool_decide_eq_false_2 in Hrun by done. simpl in Hrun. by simplify_eq.
  - rewrite bool_decide_eq_true_2 in Hrun by done. cbn [negb] in Hrun.
    rewrite (run_lift_ok o _ _ (PStr name)) in Hrun by (simpl; by rewrite Hname).
    destruct (run_stop_request o st Hcalm Hst id d s (after 3 w) Hid Hrec Hs)
      as (b & d1 & d2 & s2 & Hreq & Hstop2 & Hs2 & Honly2 & Hc2).
    rewrite run_bind, Hreq, run_bind in Hrun.
    assert (Htruth : py_truth (PStr name) = true).
    { simpl. by rewrite (proj2 (String.eqb_neq _ _) Hne). }
    rewrite Htruth, run_call in Hrun. cbn [env_handle answer fst snd py_str] in Hrun.
    match type of Hrun with context [o_job_delete o ?i name] => set (t := i) in Hrun end.
    set (w3 := tick _) in Hrun.
    assert (Hl3 : leased id until (w_bucket w3)).
    { eapply leased_only; [exact Honly2| |exact Hl].
      apply not_elem_of_cons. split; [done|apply not_elem_of_nil]. }
    destruct (o_job_delete o t name) as [u|e] eqn:Hdel.
    + destruct (run_stop_finish o st Hcalm Hst id d2 s2 w3 Hid Hstop2 Hs2)
        as (b4 & d4 & d5 & Hfin & Hget5 & Hstopped & Honly4 & Hc5 & Hst5).
      rewrite run_bind, Hfin, run_bind in Hrun.
      destruct (run_release o st Hcalm Hst id until (after 8 (set_bucket b4 w3)))
        as (b6 & Hrel & Hl6 & Honly6).
      { eapply leased_only; [exact Honly4| |exact Hl3].
        apply not_elem_of_cons. split; [done|apply not_elem_of_nil]. }
      rewrite Hrel in Hrun.
      match type of Hrun with context [run _ (lift _) ?w7] =>
        destruct (run_public o d4 w7) as (p & _ & Hp) end.
      { intros Hno. specialize (Hget5 "status"). rewrite Hno in Hget5. by apply Hst5. }
      { intros Hno. specialize (Hget5 "config"). rewrite Hno in Hget5.
        apply Hc5; [apply Hc2; by rewrite Hcfg|done]. }
      rewrite Hp in Hrun. simplify_eq. split.
      * intros k Hnk. simpl. rewrite Honly6 by set_solver. simpl. rewrite Honly4 by set_solver.
        simpl. by rewrite Honly2 by set_solver.
      * intros ans Hans. rewrite <-(Hans t), Hdel. split_and!; [done| |exact Hl6].
        exists d5. destruct Hstopped as (Hrec5 & ? & ?). split_and!; [|done..].
        eapply recorded_only; [exact Honly6| |exact Hrec5].
        apply not_elem_of_cons. split; [done|apply not_elem_of_nil].
    + simplify_eq. split.
      * intros k Hnk. by apply Honly2; set_solver.
      * intros ans Hans. rewrite <-(Hans t), Hdel. split_and!; [done|by exists d2|exact Hl3].
Qed.

(** The terminal state [_reconcile] gives an active run, from the answer of
    Kubernetes, the clock and the deadline of the run. *)
Definition expected_verdict (s : mapping) (answer : res string) (now until : pyfloat)
  : option string :=
  if negb (bool_decide (py_str (default (PStr "unknown") (alist_get "state" s)) ∈ ACTIVE_STATES))
     || negb (py_truth (default PNone (alist_get "job_name" s))) then None
  else match answer with
  | Ok job => if String.eqb job "failed" then Some "failed" else None
  | Raise (JobNotFound _) =>
      if fltb now until then None
      else if py_truth (default PNone (alist_get "stop_requested" s)) then Some "stopped"
      else Some "interrupted"
  | Raise _ => None
  end.

Section reconciling.
Context {B : Type} `{KVLaws B} (o : oracle) (st : store).
Context (Hcalm : calm o) (Hst : usable st).
Abbreviation exec := (run (env_handle (B := B) o)).

Lemma run_job_verdict s u w :
  py_float (default (PInt 0) (alist_get "lease_until" s)) = Ok u →
  bool_decide (py_str (default (PStr "unknown") (alist_get "state" s)) ∈ ACTIVE_STATES) = true →
  py_truth (default PNone (alist_get "job_name" s)) = true →
  let name := py_str (default PNone (alist_get "job_name" s)) in
  ∃ n msg, exec (job_verdict (PDict s) name) w =
    (Ok ((λ terminal, (terminal, msg)) <$> expected_verdict s (o_job_state o (w_step w) name)
           (o_time o (S (w_step w))) u), after n w).
Proof.
  intros Hu Hact Hname name. unfold job_verdict, expected_verdict. rewrite Hact, Hname.
  rewrite run_perform_bind. cbn [env_handle answer fst snd negb orb].
  destruct (o_job_state o (w_step w) name) as [js|e].
  - exists 1. destruct (String.eqb js "failed"); simpl; eauto.
  - destruct e; try (exists 1, ""; reflexivity).
    change (py_get (PDict s) "lease_until" (PInt 0))
      with (Ok (default (PInt 0) (alist_get "lease_until" s))).
    rewrite (run_lift_ok o _ _ (default (PInt 0) (alist_get "lease_until" s))) by done.
    rewrite (run_lift_ok o _ _ u) by done. rewrite run_perform_bind.
    cbn [env_handle answer fst snd]. exists 2, "benchmark Job disappeared before finalization".
    change (w_step (tick w)) with (S (w_step w)). destruct (fltb _ _); [done|].
    change (py_get (PDict s) "stop_requested" PNone)
      with (Ok (default PNone (alist_get "stop_requested" s))).
    rewrite (run_lift_ok o _ _ (default PNone (alist_get "stop_requested" s))) by done.
    by destruct (py_truth (default PNone (alist_get "stop_requested" s))).
Qed.
End reconciling.

(** Reconciling a record with Kubernetes changes it only when the run is
    active, has a Job, and the Job failed, or disappeared after the run's
    deadline; then the run ends in the expected terminal state and its lease
    is given back.  A finished run, a live Job, a Job that is missing before
    the deadline and an unreachable API leave everything as it is. *)
Theorem reconcile_spec {B} `{KVLaws B} o st id d s u until (w : world B) :
  calm o → usable st → valid_id id →
  recorded id d (w_bucket w) → alist_get "status" d = Some (PDict s) →
  py_float (default (PInt 0) (alist_get "lease_until" s)) = Ok u →
  leased id until (w_bucket w) →
  let answer := o_job_state o (w_step w) (py_str (default PNone (alist_get "job_name" s))) in
  let '(r, w') := run (env_handle o) (reconcile st (PDict d)) w in
  match expected_verdict s answer (o_time o (S (w_step w))) u with
  | None => r = Ok (PDict d) ∧ w_bucket w' = w_bucket w
  | Some terminal =>
      is_ok r = true ∧ only_changed [LEASE_KEY; run_key id] (w_bucket w) (w_bucket w') ∧
      leased id (PInt 0) (w_bucket w') ∧
      ∃ d', recorded id d' (w_bucket w') ∧ status_of d' "state" = Some (PStr terminal) ∧
        ∀ k, k ∉ ["status"; "updated_at"] → alist_get k d' = json_sorted <$> alist_get k d
  end.
Proof.
  intros Hcalm Hst Hid Hrec Hs Hu Hl answer.
  pose proof Hrec as (_ & Hrid & _). destruct (run _ _ w) as [r w'] eqn:Hrun.
  unfold reconcile in Hrun.
  rewrite (run_lift_ok o _ _ (PDict s)) in Hrun by (simpl; by rewrite Hs).
  rewrite (run_lift_ok o _ _ (default (PStr "unknown") (alist_get "state" s))) in Hrun by done.
  rewrite (run_lift_ok o _ _ (default PNone (alist_get "job_name" s))) in Hrun by done.
  destruct (bool_decide (py_str (default (PStr "unknown") (alist_get "state" s)) ∈ ACTIVE_STATES))
    eqn:Hact; [destruct (py_truth (default PNone (alist_get "job_name" s))) eqn:Hname|].
  2,3: unfold expected_verdict; rewrite ?Hact, ?Hname; simpl in Hrun |- *; by simplify_eq.
  cbn [negb orb] in Hrun. rewrite run_bind in Hrun.
  destruct (run_job_verdict o s u w Hu Hact Hname) as (n & msg & Hv).
  rewrite Hv in Hrun. fold answer in Hrun. clear Hv.
  destruct (expected_verdict s answer _ u) as [terminal|]; simpl fmap in Hrun;
    [|cbn in Hrun; by simplify_eq].
  cbv iota beta in Hrun. rewrite (run_lift_ok o _ _ (PStr id)) in Hrun by (simpl; by rewrite Hrid).
  cbn [py_str] in Hrun.
  destruct (mutate_spec o st Hcalm Hst id (now ← perform EUtcNow; Ret [("state", PStr terminal);
      ("ended_at", PStr now); ("message", PStr msg)]) (after n w) d s
      [("state", PStr terminal); ("ended_at", PStr (o_utc o (3 + w_step (after n w))));
       ("message", PStr msg)] 1 Hid Hrec Hs)
    as (b & d' & d2 & s2 & Hmut & _ & Hrec2 & Hs2 & Hget & Hrest & Honly);
    [literal_dict|cbn; literal_dict|done|].
  rewrite run_bind, Hmut, run_bind in Hrun. set (w2 := after (1 + 7) _) in Hrun.
  destruct (run_release o st Hcalm Hst id until w2) as (b3 & Hrel & Hl3 & Honly3).
  { eapply leased_only; [exact Honly| |exact Hl].
    apply not_elem_of_cons. split; [done|apply not_elem_of_nil]. }
  rewrite Hrel in Hrun. cbn in Hrun. simplify_eq. split_and!; [done| |exact Hl3|].
  - intros k Hk. simpl. rewrite Honly3 by set_solver. apply Honly. set_solver.
  - exists d2. split_and!; [|unfold status_of; rewrite Hs2, Hget; reflexivity|done].
    eapply recorded_only; [exact Honly3| |exact Hrec2].
    apply not_elem_of_cons. split; [done|apply not_elem_of_nil].
Qed.

(** ** Names in the combined archives *)

(** A name that every extractor keeps inside its target directory. *)
Definition flat (s : string) : Prop := only_chars (λ c, c ≠ slash ∧ c ≠ backslash) s.

Lemma unsafe_name_flat id : unsafe_name id = false → flat id.
Proof.
  unfold unsafe_name. intros H. bool_to_prop.
  apply str_contains_char_only in H0, H1. unfold flat, only_chars in *.
  rewrite Forall_forall in *. auto.
Qed.

Lemma posix_parts_flat filename :
  Forall flat (posix_parts (replace_char backslash slash filename)).
Proof.
  unfold posix_parts.
  assert (Hall : Forall flat (str_split slash (replace_char backslash slash filename))).
  2: { rewrite Forall_forall in *. intros p [_ Hp]%list_elem_of_filter. auto. }
  eapply Forall_impl; [apply (str_split_only (λ c, c ≠ backslash))|done].
  unfold only_chars, replace_char. rewrite chars_of_chars. apply Forall_fmap.
  apply Forall_true. intros x. simpl. case_decide; [by subst|done].
Qed.

Lemma archive_entries_flat id members entries :
  flat id → archive_entries id members = Ok entries →
  Forall (λ e, flat e.1 ∧ str_startswith (id +:+ "-") e.1 = true) entries.
Proof.
  intros Hid. revert entries. induction members as [|[[filename is_dir] data] members IH];
    intros entries; cbn [archive_entries]; [by intros [= <-]|].
  destruct is_dir; [apply IH|]. case_match; [done|].
  intros (rest & Hrest & [= <-])%res_bind_ok. constructor; [|by apply IH]. simpl.
  assert (Hassoc : id +:+ "-" +:+ str_join "-" (posix_parts (replace_char backslash slash filename))
    = (id +:+ "-") +:+ str_join "-" (posix_parts (replace_char backslash slash filename))).
  { rewrite <-(of_chars_chars (id +:+ _)), <-(of_chars_chars ((id +:+ _) +:+ _)).
    by rewrite !chars_app, <-(assoc_L (++)). }
  split.
  - apply only_chars_app. split; [done|]. apply only_chars_app.
    split; [by repeat constructor|]. apply only_chars_join; [by repeat constructor|].
    apply posix_parts_flat.
  - rewrite Hassoc. apply str_startswith_app.
Qed.

Section archive_names.
Context (zip_read : string → option (list (string * bool * string))) (st : store).

Definition named_by_run (e : string * string) : Prop :=
  flat e.1 ∧ ∃ id, unsafe_name id = false ∧ str_startswith (id +:+ "-") e.1 = true.

Lemma run_archive_names key :
  returns (λ a, match a with Some es => Forall named_by_run es | None => True end)
    (run_archive zip_read st key).
Proof.
  eapply returns_bind; [apply returns_any|]. intros [[record r]|] _; [|done].
  eapply returns_bind; [apply returns_lift|]. intros id _.
  cbv zeta. destruct (unsafe_name (py_str id)) eqn:Hsafe; [done|].
  do 2 (eapply returns_bind; [apply returns_lift|intros ? _]). case_match; [done|].
  eapply returns_bind; [apply returns_lift|intros ob _].
  eapply returns_bind; [apply returns_any|]. intros [data|] _; [|done].
  destruct (zip_read data) as [members|]; [|done].
  eapply returns_bind; [apply returns_lift|]. intros entries He.
  apply archive_entries_flat in He; [|by apply unsafe_name_flat]. simpl.
  eapply Forall_impl; [exact He|]. intros e [? ?]. split; [done|]. by exists (py_str id).
Qed.

Lemma run_archives_names keys :
  returns (λ l, Forall named_by_run (concat l)) (run_archives zip_read st keys).
Proof.
  induction keys as [|key keys IH]; [simpl; constructor|]. cbn [run_archives].
  eapply returns_bind; [apply run_archive_names|]. intros a Ha.
  eapply returns_bind; [exact IH|]. intros rest Hrest. simpl.
  destruct a as [es|]; [|done]. simpl. by apply Forall_app.
Qed.

Lemma summary_entries_names run_ids included :
  returns (λ es, NoDup es.*1 ∧ Forall named_by_run es ∧
      ∀ id, id ∈ included → (id +:+ "-summary.json") ∉ es.*1)
    (summary_entries st run_ids included).
Proof.
  revert included. induction run_ids as [|v run_ids IH]; intros included.
  { simpl. split_and!; [constructor..|]. intros id _. apply not_elem_of_nil. }
  destruct v as [| | | |s| |]; try done. cbn [summary_entries].
  destruct (unsafe_name s) eqn:Hsafe; [done|]. cbn [orb]. case_match; [done|].
  case_bool_decide as Hin; [apply IH|].
  eapply returns_bind; [apply returns_any|]. intros data _.
  eapply returns_bind; [apply IH|]. intros rest (Hnd & Hnames & Hinc). simpl. split_and!.
  - apply NoDup_cons. split; [|done]. apply Hinc. left.
  - constructor; [|done]. split; simpl.
    + apply only_chars_app. split; [by apply unsafe_name_flat|]. by repeat constructor.
    + exists s. split; [done|]. assert (s +:+ "-summary.json" = (s +:+ "-") +:+ "summary.json") as ->.
      { rewrite <-(of_chars_chars (s +:+ _)), <-(of_chars_chars ((s +:+ _) +:+ _)).
        by rewrite !chars_app, <-(assoc_L (++)). }
      apply str_startswith_app.
  - intros id Hid. apply not_elem_of_cons. split; [|apply Hinc; by right].
    intros Heq. assert (id = s) as ->; [|done].
    apply (f_equal chars) in Heq. rewrite !chars_app in Heq.
    apply app_inj_2 in Heq as [Heq _]; [|done].
    rewrite <-(of_chars_chars id), <-(of_chars_chars s). by f_equal.
Qed.
End archive_names.

(** The combined downloads contain only flat entries, each prefixed with
    the identifier of its run, so unpacking one cannot leave its directory or
    overwrite files of another run; a combined summary lists a run once. *)
Theorem combined_archives_flat {B} `{KVLaws B} o st zip_read zip_write run_ids data
    (w w' : world B) :
  (run (env_handle o) (combined_artifacts zip_read zip_write st) w = (Ok data, w') →
     ∃ entries, data = zip_write entries ∧ Forall named_by_run entries) ∧
  (run (env_handle o) (combined_summaries zip_write st run_ids) w = (Ok data, w') →
     ∃ entries, data = zip_write entries ∧ Forall named_by_run entries ∧ NoDup entries.*1 ∧
       entries ≠ []).
Proof.
  split; intros Hrun.
  - refine (returns_run o (λ d, ∃ es, d = zip_write es ∧ Forall named_by_run es) _ w w' data _ Hrun).
    eapply returns_bind; [apply returns_any|]. intros keys _.
    eapply returns_bind; [apply run_archives_names|]. intros l Hl.
    case_decide; [done|]. simpl. eauto.
  - refine (returns_run o (λ d, ∃ es, d = zip_write es ∧ Forall named_by_run es ∧ NoDup es.*1 ∧
      es ≠ []) _ w w' data _ Hrun).
    eapply returns_bind; [apply summary_entries_names|]. intros es (? & ? & _).
    case_decide; [done|]. simpl. eauto.
Qed.

(** ** A lost reply and the lease *)

Definition demo_id : string := "20260101T000000Z-01234567".
Definition lost_lease_reply : oracle :=
  demo_oracle (replicate 10 NoFault ++ [ReplyLost (TimeoutError "nats: timeout")]).

(** The retry of the store and the lease do not compose.  When the reply
    to the write of the lease is lost, the replay is refused, the next turn
    of [_acquire_lease] finds the lease its own first attempt wrote, and
    [start] fails because the run it is submitting "is still active".  No
    record of that run exists and its lease stays in place until it expires. *)
Theorem lost_reply_blocks_start :
  let out := run (env_handle lost_lease_reply)
      (start any_bracket demo_store "nats" demo_values) empty_world in
  out.1 = Raise (RunConflict ("run " +:+ demo_id +:+ " is still active")) ∧
  leased demo_id (PFloat (float_dec 512 0)) (w_bucket out.2) ∧
  is_ok (bk_get (run_key demo_id) (w_bucket out.2)) = false.
Proof.
  split_and!; [vm_compute; reflexivity| |vm_compute; reflexivity].
  eexists _, _. split_and!; [vm_compute; reflexivity| |vm_compute; reflexivity..].
  apply json_wf_dict. split; literal_dict.
Qed.

(** ** Witnesses *)

(** A bucket with one running run and its lease. *)
Definition demo_status : mapping :=
  [("job_name", PStr "benchmark-r1"); ("lease_until", PInt 30); ("run_id", PStr "r1");
   ("state", PStr "running")].
Definition demo_record : mapping :=
  [("config", PDict []); ("run_id", PStr "r1"); ("status", PDict demo_status)].
Definition demo_lease : mapping := [("lease_until", PInt 30); ("run_id", PStr "r1")].
Definition running_world : world mem_bucket :=
  World (mem_put LEASE_KEY (PDict demo_lease)
          (mem_put (run_key "r1") (PDict demo_record) mem_empty).2).2 ∅ 0.

Lemma demo_recorded : recorded "r1" demo_record (w_bucket running_world).
Proof.
  split_and!; [|reflexivity|eexists; vm_compute; reflexivity].
  apply json_wf_dict. split; [literal_dict|].
  repeat (apply Forall_cons; split); try apply Forall_nil_2; cbn; try (apply wf_leaf; exact I);
    apply json_wf_dict; (split; literal_dict).
Qed.
Lemma demo_leased : leased "r1" (PInt 30) (w_bucket running_world).
Proof.
  eexists _, _. split_and!; [vm_compute; reflexivity| |reflexivity..].
  apply json_wf_dict. split; literal_dict.
Qed.
Lemma demo_usable : usable demo_store.
Proof. split; [done|]. apply Nat.ltb_lt. reflexivity. Qed.
Lemma demo_valid : valid_id "r1".
Proof. split; [discriminate|]. apply Z.leb_le. reflexivity. Qed.

(** Starting on an empty bucket. *)
Lemma start_spec_witness :
  let w' := (run (env_handle (demo_oracle []))
               (start any_bracket demo_store "grpc" demo_values) empty_world).2 in
  ∃ d, recorded demo_id d (w_bucket w') ∧ status_of d "state" = Some (PStr "submitted").
Proof.
  pose proof (start_spec any_bracket (demo_oracle []) demo_store "grpc" demo_values demo_config
    3 (float_dec 510 0) empty_world (Ok ("benchmark-" +:+ demo_id)) demo_calm demo_usable) as Hspec.
  destruct (run _ _ empty_world) as [r w']. simpl snd.
  destruct Hspec as [_ Hfree].
  - vm_compute. discriminate.
  - vm_compute. reflexivity.
  - vm_compute. reflexivity.
  - vm_compute. reflexivity.
  - split; [discriminate|]. apply Z.leb_le. reflexivity.
  - reflexivity.
  - reflexivity.
  - destruct Hfree as (_ & d & Hrec & _ & _ & Hstate & _); [exact I|]. by exists d.
Defined.

Lemma stop_spec_witness :
  let w' := (run (env_handle (demo_oracle [])) (stop demo_store "r1") running_world).2 in
  (∃ d, stopped "r1" d (w_bucket w')) ∧ leased "r1" (PInt 0) (w_bucket w').
Proof.
  pose proof (stop_spec (demo_oracle []) demo_store "r1" demo_record demo_status (PDict [])
    (PInt 30) "running" "benchmark-r1" running_world demo_calm demo_usable demo_valid
    demo_recorded eq_refl eq_refl eq_refl eq_refl) as Hspec.
  destruct (run _ _ running_world) as [r w']. simpl snd.
  destruct Hspec as [_ Hact]; [discriminate|apply demo_leased|].
  destruct Hact as [_ Hans]; [apply (bool_decide_unpack _); vm_compute; exact I|].
  by destruct (Hans (Ok tt) (λ _, eq_refl)) as (_ & ? & ?).
Defined.

(** The Job of the running run is gone and its deadline has passed. *)
Definition job_gone : oracle := {|
  o_fault _ := NoFault; o_connect _ := Ok tt; o_time _ := float_dec 99 0; o_monotonic := demo_clock 40;
  o_utc _ := "2026-01-01T00:00:00+00:00"; o_stamp _ := ""; o_uuid_hex _ := ""; o_uuid _ := "";
  o_job_create _ _ _ _ := Ok ""; o_job_state _ n := Raise (JobNotFound n);
  o_job_delete _ _ := Ok tt; o_stop _ := false; o_local _ := demo_local;
|}.

Lemma reconcile_spec_witness :
  let w' := (run (env_handle job_gone) (reconcile demo_store (PDict demo_record)) running_world).2 in
  leased "r1" (PInt 0) (w_bucket w') ∧
  ∃ d, recorded "r1" d (w_bucket w') ∧ status_of d "state" = Some (PStr "interrupted").
Proof.
  pose proof (reconcile_spec job_gone demo_store "r1" demo_record demo_status (float_dec 30 0)
    (PInt 30) running_world) as Hspec.
  destruct (run _ _ running_world) as [r w']. simpl snd.
  destruct Hspec as (_ & _ & Hl & d & Hrec & Hstate & _).
  - by intros n.
  - apply demo_usable.
  - apply demo_valid.
  - apply demo_recorded.
  - reflexivity.
  - vm_compute. reflexivity.
  - apply demo_leased.
  - split; [exact Hl|]. by exists d.
Defined.

(** A store with one archive. *)
Definition archive_record : mapping :=
  [("artifacts", PDict [("artifacts.zip", PDict [("object", PStr "r1/r1.zip")])]);
   ("run_id", PStr "r1")].
Definition archive_world : world mem_bucket :=
  World (mem_put (run_key "r1") (PDict archive_record) mem_empty).2 {["r1/r1.zip" := "zip"]} 0.
Definition demo_zip_read (_ : string) : option (list (string * bool * string)) :=
  Some [("reports/", true, ""); ("reports\summary.json", false, "{}")].
Definition demo_zip_write (entries : list (string * string)) : string :=
  str_join ";" entries.*1.

Lemma combined_archives_flat_witness :
  ∃ entries, demo_zip_write entries = "r1-reports-summary.json" ∧ Forall named_by_run entries.
Proof.
  destruct (run (env_handle (demo_oracle []))
    (combined_artifacts demo_zip_read demo_zip_write demo_store) archive_world) as [r w'] eqn:Hrun.
  assert (Hr : r = Ok "r1-reports-summary.json").
  { change r with (r, w').1. rewrite <-Hrun. vm_compute. reflexivity. }
  rewrite Hr in Hrun.
  destruct (combined_archives_flat (demo_oracle []) demo_store demo_zip_read demo_zip_write []
    "r1-reports-summary.json" archive_world w') as [Hart _].
  destruct (Hart Hrun) as (entries & He & Hf). exists entries. split; [exact (eq_sym He)|exact Hf].
Defined.
