(* ===== verification/Parallel.v ===== *)
(** * Parallel workers (benchmarkservice/parallel.py)

    A run may be split over several worker Pods.  They meet through objects
    whose names this file defines, and the coordinator merges what they
    recorded.  The theorems: the names of different runs, rungs and workers
    never clash; an unsafe archive is refused; the merged log is a stable
    sorted merge of the workers' logs, and the rebased count of outstanding
    orders is the sum of the workers' counts. *)

From S2P Require Import Prelude PyFloat PyValue.
From Stdlib Require Import Ascii.

(** ** Object names *)

(** [parallel.py:16-17 ready_object] *)
Definition ready_object (run_id : string) (index : Z) : string :=
  run_id +:+ "/workers/" +:+ pad0 4 index +:+ "/ready.json".

(** [parallel.py:20-21 result_object] *)
Definition result_object (run_id : string) (index : Z) : string :=
  run_id +:+ "/workers/" +:+ pad0 4 index +:+ "/result.zip".

(** [parallel.py:24-25 start_object] *)
Definition start_object (run_id : string) : string := run_id +:+ "/workers/start.json".

(** [parallel.py:28-34 saturation_progress_object] *)
Definition saturation_progress_object (run_id : string) (rung worker_index : Z) : string :=
  run_id +:+ "/saturation/" +:+ pad0 4 rung +:+ "/" +:+ "worker-" +:+ pad0 4 worker_index +:+ ".json".

(** [parallel.py:37-38 saturation_decision_object] *)
Definition saturation_decision_object (run_id : string) (rung : Z) : string :=
  run_id +:+ "/saturation/" +:+ pad0 4 rung +:+ "/decision.json".

(** ** Archives

    [zip_read] lists the members of an archive, as in the run controller. *)

(** [Path(s).parts] of a POSIX path, without its root. *)
Definition path_parts (s : string) : list string :=
  filter (λ p, p ≠ "" ∧ p ≠ ".") (str_split "/"%char s).

Definition unsafe_member (filename : string) : bool :=
  str_startswith "/" filename || bool_decide (".." ∈ path_parts filename).

(** The check of every member, before anything is written.
    [parallel.py:65-70 extract_archive] *)
Fixpoint check_members (members : list (string * bool * string)) : res unit :=
  match members with
  | [] => Ok tt
  | (filename, _, _) :: members =>
      if unsafe_member filename
      then Raise (ValueError ("worker archive contains unsafe path " +:+ str_repr filename))
      else check_members members
  end.

(** The files an extraction writes: the member names under the destination.
    [parallel.py:62-71 extract_archive] *)
Definition extract_archive (members : list (string * bool * string)) (destination : string)
  : res (list (string * string)) :=
  _ ← check_members members;
  Ok ((λ '(filename, _, data), (destination +:+ "/" +:+ filename, data)) <$>
      filter (λ m, m.1.2 = false) members).

(** ** Record files

    A line of a JSON-lines file: blank, cut short, or a document. *)
Inductive line :=
  | Blank
  | Malformed
  | Document (v : pyval).

Fixpoint read_lines (number : nat) (lines : list line) : res (list pyval) :=
  match lines with
  | [] => Ok []
  | Blank :: lines => read_lines (S number) lines
  | Malformed :: lines =>
      if (1 <? number)%nat then read_lines (S number) lines
      else Raise (JSONDecodeError "Expecting value")
  | Document v :: lines =>
      rest ← read_lines (S number) lines;
      Ok (match v with PDict _ => v :: rest | _ => rest end)
  end.

(** [parallel.py:87-103 _read_records] *)
Definition read_records (file : option (list line)) : res (list pyval) :=
  match file with None => Ok [] | Some lines => read_lines 1 lines end.

(** [parallel.py:112-113 _timestamp] *)
Definition timestamp (record : pyval) : res pyfloat :=
  t ← py_get record "timestamp" (PInt 0);
  py_float t.

(** ** [heapq.merge] with a key

    The merge repeatedly takes the head with the least key, from the first
    iterator among equals. *)
Section merge.
Context {V : Type}.
Abbreviation keyed := (pyfloat * V)%type.

Fixpoint pop_min (queues : list (list keyed)) : option (keyed * list (list keyed)) :=
  match queues with
  | [] => None
  | [] :: queues =>
      match pop_min queues with None => None | Some (y, rest) => Some (y, [] :: rest) end
  | (x :: queue) :: queues =>
      match pop_min queues with
      | None => Some (x, queue :: queues)
      | Some (y, rest) =>
          if fltb y.1 x.1 then Some (y, (x :: queue) :: rest) else Some (x, queue :: queues)
      end
  end.

Fixpoint merge_steps (fuel : nat) (queues : list (list keyed)) : list keyed :=
  match fuel with
  | 0 => []
  | S fuel =>
      match pop_min queues with
      | None => []
      | Some (x, rest) => x :: merge_steps fuel rest
      end
  end.

(** [parallel.py:119-135 merge_worker_outputs] *)
Definition heap_merge (queues : list (list keyed)) : list keyed :=
  merge_steps (sum_list (length <$> queues)) queues.
End merge.

Definition keyed_records (records : list pyval) : res (list (pyfloat * pyval)) :=
  res_mapM (λ r, t ← timestamp r; Ok (t, r)) records.

Definition merge_records (files : list (option (list line))) : res (list pyval) :=
  queues ← res_mapM (λ f, rs ← read_records f; keyed_records rs) files;
  Ok ((heap_merge queues).*2).

(** [parallel.py:137-145 merge_worker_outputs.rebase_outstanding] *)
Fixpoint rebase_outstanding (total : Z) (records : list pyval) : res (list pyval) :=
  match records with
  | [] => Ok []
  | record :: records =>
      event ← py_get record "event" PNone;
      let total := if py_eqb event (PStr "accepted") then (total + 1)%Z
                   else Z.max 0 (total - 1) in
      record ← py_set record "outstanding" (PInt total);
      rest ← rebase_outstanding total records;
      Ok (record :: rest)
  end.

(** ** Merging the workers *)

(** The files of a worker directory that the merge reads. *)
Record worker_files := WorkerFiles {
  wf_business : option (list line);
  wf_outstanding : option (list line);
  wf_shared : list (string * string);
  wf_status : option pyval;
  wf_log : option string;
  wf_csv : list (string * string);
}.

(** The files it writes in the run directory. *)
Record merged_run := MergedRun {
  mr_business : list pyval;
  mr_outstanding : list pyval;
  mr_files : list (string * string);
  mr_log : string;
  mr_statuses : list pyval;
}.

Definition newline : string := String (ascii_of_nat 10) "".

(** [parallel.py:151-158 merge_worker_outputs] *)
Definition shared_artifacts (first : worker_files) : list (string * string) :=
  omap (λ name, pair name <$> alist_get name (wf_shared first))
    ["resources.jsonl"; "saturation.jsonl"; "workflow-events.json"].

(** The statuses, the combined log and the renamed CSV files of the workers.
    [parallel.py:161-185 merge_worker_outputs] *)
Fixpoint merge_tail (index : Z) (workers : list worker_files)
  : list pyval * string * list (string * string) :=
  match workers with
  | [] => ([], "", [])
  | w :: workers =>
      let '(statuses, log, csv) := merge_tail (index + 1) workers in
      (match wf_status w with Some (PDict d) => PDict d :: statuses | _ => statuses end,
       "===== worker " +:+ pad0 4 index +:+ " =====" +:+ newline
         +:+ default "" (wf_log w) +:+ newline +:+ log,
       ((λ '(name, data), ("locust_worker-" +:+ pad0 4 index +:+ str_removeprefix "locust" name, data))
          <$> wf_csv w) ++ csv)
  end.

(** [parallel.py:116-192 merge_worker_outputs] *)
Definition merge_worker_outputs (workers : list worker_files) : res merged_run :=
  business ← merge_records (wf_business <$> workers);
  outstanding ← merge_records (wf_outstanding <$> workers);
  outstanding ← rebase_outstanding 0 outstanding;
  match workers with
  | [] => Raise (IndexError "list index out of range")
  | first :: _ =>
      let '(statuses, log, csv) := merge_tail 0 workers in
      Ok (MergedRun business outstanding (shared_artifacts first ++ csv) log statuses)
  end.

(** ** Names are injective *)

(** The objects of a run. *)
Inductive run_object :=
  | ReadyOf (index : Z)
  | ResultOf (index : Z)
  | StartOf
  | ProgressOf (rung index : Z)
  | DecisionOf (rung : Z).

Definition object_name (run_id : string) (x : run_object) : string :=
  match x with
  | ReadyOf i => ready_object run_id i
  | ResultOf i => result_object run_id i
  | StartOf => start_object run_id
  | ProgressOf r i => saturation_progress_object run_id r i
  | DecisionOf r => saturation_decision_object run_id r
  end.
Definition object_indexed (x : run_object) : Prop :=
  match x with
  | ReadyOf i | ResultOf i | DecisionOf i => (0 ≤ i)%Z
  | ProgressOf r i => (0 ≤ r)%Z ∧ (0 ≤ i)%Z
  | StartOf => True
  end.
Definition object_path (run_id : string) (x : run_object) : list string :=
  match x with
  | ReadyOf i => [run_id; "workers"; pad0 4 i; "ready.json"]
  | ResultOf i => [run_id; "workers"; pad0 4 i; "result.zip"]
  | StartOf => [run_id; "workers"; "start.json"]
  | ProgressOf r i => [run_id; "saturation"; pad0 4 r; "worker-" +:+ pad0 4 i +:+ ".json"]
  | DecisionOf r => [run_id; "saturation"; pad0 4 r; "decision.json"]
  end.

Definition no_slash (s : string) : Prop := only_chars (λ c, c ≠ "/"%char) s.

Lemma object_name_path run_id x : object_name run_id x = str_join "/" (object_path run_id x).
Proof.
  assert (Happ : ∀ a b c : string, a +:+ (b +:+ c) = (a +:+ b) +:+ c).
  { intros a b c. rewrite <-(of_chars_chars (a +:+ (b +:+ c))), <-(of_chars_chars ((a +:+ b) +:+ c)).
    by rewrite !chars_app, (assoc_L (++)). }
  destruct x; reflexivity.
Qed.

Lemma no_slash_pad0 i : (0 ≤ i)%Z → no_slash (pad0 4 i).
Proof.
  intros Hi. eapply Forall_impl; [by apply pad0_digits|]. intros c Hc ->.
  change (chr_code "/"%char) with 47%Z in Hc. lia.
Qed.

Lemma object_path_no_slash run_id x :
  no_slash run_id → object_indexed x → Forall no_slash (object_path run_id x).
Proof.
  intros Hr Hx. destruct x; simpl in *; destruct_and?; repeat (apply Forall_cons; split); try apply Forall_nil_2;
    try done; try (by apply no_slash_pad0); try (by repeat constructor).
  change (no_slash (pad0 4 index +:+ ".json")).
  apply only_chars_app. split; [by apply no_slash_pad0|by repeat constructor].
Qed.

Lemma worker_name_inj i j : (0 ≤ i)%Z → (0 ≤ j)%Z →
  "worker-" +:+ pad0 4 i +:+ ".json" = "worker-" +:+ pad0 4 j +:+ ".json" → i = j.
Proof.
  intros Hi Hj Heq. apply (f_equal chars) in Heq. rewrite !chars_app in Heq.
  apply (inj (app _)) in Heq. apply (inj (λ l, l ++ chars ".json")) in Heq.
  apply (pad0_inj 4); [done..|]. rewrite <-(of_chars_chars (pad0 4 i)), <-(of_chars_chars (pad0 4 j)).
  by f_equal.
Qed.

(** The names under which workers meet never clash: two names are equal
    only for the same run, the same kind of object, the same rung and the
    same worker. *)
Theorem object_names_injective run_id run_id' x y :
  no_slash run_id → no_slash run_id' → object_indexed x → object_indexed y →
  object_name run_id x = object_name run_id' y → run_id = run_id' ∧ x = y.
Proof.
  intros Hr Hr' Hx Hy. rewrite !object_name_path. intros Heq.
  assert (object_path run_id x = object_path run_id' y) as Hpath.
  { rewrite <-(str_split_join "/"%char (object_path run_id x)),
      <-(str_split_join "/"%char (object_path run_id' y));
      try (by apply object_path_no_slash); [|by destruct y|by destruct x].
    f_equal. exact Heq. }
  clear Heq. destruct x, y; simpl in Hx, Hy, Hpath; try discriminate;
    inversion Hpath; subst; destruct_and?; split; try done; f_equal;
    first [by apply (pad0_inj 4)|apply worker_name_inj; [done..|]].
  change ("worker-" +:+ (pad0 4 index +:+ ".json") = "worker-" +:+ (pad0 4 index0 +:+ ".json")).
  by f_equal.
Qed.

(** ** Extraction stays inside its directory *)

Lemma check_members_ok members :
  check_members members = Ok tt ↔ Forall (λ m, unsafe_member m.1.1 = false) members.
Proof.
  induction members as [|[[f d] x] members IH]; cbn [check_members]; [by split|].
  rewrite Forall_cons. cbn [fst]. destruct (unsafe_member f); [naive_solver|tauto].
Qed.

(** Extracting a worker archive writes every file member below the
    destination, under a relative name without [..]; an archive with any
    unsafe member is refused before anything is written. *)
Theorem extract_archive_contained members destination :
  match extract_archive members destination with
  | Ok files =>
      files.*1 = (λ m, destination +:+ "/" +:+ m.1.1) <$> filter (λ m, m.1.2 = false) members ∧
      Forall (λ m, str_startswith "/" m.1.1 = false ∧ ".." ∉ path_parts m.1.1) members
  | Raise e =>
      ∃ m, m ∈ members ∧ unsafe_member m.1.1 = true ∧ exn_class e = "ValueError"
  end.
Proof.
  unfold extract_archive. destruct (check_members members) as [[]|e] eqn:Hc.
  - cbn. apply check_members_ok in Hc. split.
    + rewrite <-list_fmap_compose. apply list_fmap_ext. by intros i [[f d] x] _.
    + eapply Forall_impl; [exact Hc|]. intros m Hm. unfold unsafe_member in Hm.
      by bool_to_prop.
  - cbn. revert e Hc. induction members as [|[[f d] x] members IH]; intros e; [done|].
    cbn [check_members]. destruct (unsafe_member f) eqn:Hf.
    + intros [= <-]. exists (f, d, x). split; [left|done].
    + intros (m & ? & ?)%IH. exists m. split; [by right|done].
Qed.

(** ** The merge *)
Section merge_laws.
Context {V : Type}.
Abbreviation keyed := (pyfloat * V)%type.
Implicit Types (queues : list (list keyed)) (x : keyed).

(** Taking the least head removes it from the front of one queue. *)
Lemma pop_min_None queues : pop_min queues = None ↔ concat queues = [].
Proof.
  induction queues as [|[|x q] queues IH]; simpl; [done| |].
  - rewrite <-IH. by destruct (pop_min queues) as [[y rest]|].
  - split; [|done]. destruct (pop_min queues) as [[y rest]|]; [by case_match|done].
Qed.

Lemma pop_min_Some queues x rest :
  pop_min queues = Some (x, rest) →
  ∃ before q after, queues = before ++ (x :: q) :: after ∧ rest = before ++ q :: after.
Proof.
  revert x rest. induction queues as [|[|y q] queues IH]; intros x rest; simpl; [done| |].
  - destruct (pop_min queues) as [[z rest']|]; [|done]. intros [= <- <-].
    destruct (IH _ _ eq_refl) as (b & q & a & -> & ->). by exists ([] :: b), q, a.
  - destruct (pop_min queues) as [[z rest']|] eqn:Hp.
    + case_match; intros [= <- <-]; [|by exists [], q, queues].
      destruct (IH _ _ eq_refl) as (b & q' & a & -> & ->). by exists ((y :: q) :: b), q', a.
    + intros [= <- <-]. by exists [], q, queues.
Qed.

Definition total (queues : list (list keyed)) : nat := sum_list (length <$> queues).

Lemma total_concat queues : total queues = length (concat queues).
Proof. unfold total. by rewrite length_concat. Qed.

Lemma pop_min_total queues x rest :
  pop_min queues = Some (x, rest) → total queues = S (total rest).
Proof.
  intros (b & q & a & -> & ->)%pop_min_Some. rewrite !total_concat, !concat_app. simpl.
  rewrite !length_app. simpl. rewrite !length_app. lia.
Qed.

(** [taken] of each queue has been merged. *)
Lemma nothing_taken queues :
  ∃ taken, Forall2 (λ t q, t `prefix_of` q) taken queues ∧ [] ≡ₚ concat taken.
Proof.
  induction queues as [|q queues (taken & Ht & Hperm)]; [by exists []|].
  exists ([] :: taken). split; [|done]. constructor; [apply prefix_nil|done].
Qed.

Lemma merge_prefix fuel queues n :
  ∃ taken, Forall2 (λ t q, t `prefix_of` q) taken queues ∧
    take n (merge_steps fuel queues) ≡ₚ concat taken.
Proof.
  revert fuel queues. induction n as [|n IH]; intros [|fuel] queues;
    try (simpl; apply nothing_taken). simpl.
  destruct (pop_min queues) as [[x rest]|] eqn:Hp; [|apply nothing_taken].
  destruct (IH fuel rest) as (taken & Htaken & Hperm).
  apply pop_min_Some in Hp as (b & q & a & -> & ->).
  apply Forall2_app_inv_r in Htaken as (tb & ta & Htb & Hta & ->).
  apply Forall2_cons_inv_r in Hta as (t & ta' & Ht & Hta' & ->).
  exists (tb ++ (x :: t) :: ta'). split.
  - apply Forall2_app; [done|]. constructor; [by apply prefix_cons|done].
  - simpl. rewrite Hperm, !concat_app. simpl. by rewrite Permutation_middle.
Qed.

Lemma merge_Permutation fuel queues :
  (total queues ≤ fuel)%nat → merge_steps fuel queues ≡ₚ concat queues.
Proof.
  revert queues. induction fuel as [|fuel IH]; intros queues Hf.
  { rewrite total_concat in Hf. destruct (concat queues) eqn:E; [done|simpl in Hf; lia]. }
  simpl. destruct (pop_min queues) as [[x rest]|] eqn:Hp.
  - pose proof (pop_min_total _ _ _ Hp). rewrite IH by lia.
    apply pop_min_Some in Hp as (b & q & a & -> & ->).
    rewrite !concat_app. simpl. by rewrite Permutation_middle.
  - apply pop_min_None in Hp. by rewrite Hp.
Qed.

(** The order of the merge. *)
Definition key_leb (x y : keyed) : Prop := fltb y.1 x.1 = false.
Definition numbered (q : list keyed) : Prop := Forall (λ x, f_is_nan x.1 = false) q.

Lemma key_leb_fleb x y : f_is_nan x.1 = false → f_is_nan y.1 = false →
  key_leb x y ↔ fleb x.1 y.1 = true.
Proof.
  intros Hx Hy. split; [by apply fltb_false|]. intros Hle. apply not_true_iff_false. intros Hlt.
  pose proof (fleb_fltb_trans _ _ _ Hle Hlt) as Hirr. by rewrite fltb_irrefl in Hirr.
Qed.

(** The head that is taken is least among all elements of sorted queues. *)
Lemma pop_min_least queues x rest :
  Forall numbered queues → Forall (StronglySorted key_leb) queues →
  pop_min queues = Some (x, rest) → Forall (λ y, fleb x.1 y.1 = true) (concat queues).
Proof.
  revert x rest. induction queues as [|q0 queues IH]; intros x rest Hnum Hs; [done|].
  apply Forall_cons in Hnum as [Hq0 Hnum], Hs as [Hsq0 Hs]. destruct q0 as [|y q]; simpl.
  { destruct (pop_min queues) as [[z rest']|]; [|done]. intros [= <- <-]. by eapply IH. }
  assert (Hy : Forall (λ z, fleb y.1 z.1 = true) (y :: q)).
  { apply Forall_cons in Hq0 as [Hy Hq]. apply StronglySorted_inv in Hsq0 as [_ Hyq].
    constructor; [by apply fleb_refl|]. rewrite Forall_forall in *. intros z Hz.
    apply key_leb_fleb; [done|by apply Hq|by apply Hyq]. }
  destruct (pop_min queues) as [[z rest']|] eqn:Hp.
  - specialize (IH _ _ Hnum Hs eq_refl).
    assert (Hz : f_is_nan z.1 = false).
    { apply pop_min_Some in Hp as (b & q' & a & -> & _). apply Forall_app in Hnum as [_ Hnum].
      apply Forall_cons in Hnum as [Hnum _]. by apply Forall_cons in Hnum as []. }
    apply Forall_cons in Hq0 as [Hyn _].
    destruct (fltb z.1 y.1) eqn:Hlt; intros [= <- <-]; apply (Forall_app _ (y :: q)); split.
    + eapply Forall_impl; [exact Hy|]. intros u Hu. eapply fleb_trans; [|exact Hu]. by apply fltb_fleb.
    + done.
    + done.
    + eapply Forall_impl; [exact IH|]. intros u Hu. eapply fleb_trans; [|exact Hu].
      by apply fltb_false.
  - intros [= <- <-]. apply pop_min_None in Hp. by rewrite Hp, app_nil_r.
Qed.

Lemma pop_min_queues (P : list keyed → Prop) queues x rest :
  (∀ y q, P (y :: q) → P q) → Forall P queues → pop_min queues = Some (x, rest) → Forall P rest.
Proof.
  intros HP HQ (b & q & a & -> & ->)%pop_min_Some.
  apply Forall_app in HQ as [? HQ]. apply Forall_cons in HQ as [? ?].
  apply Forall_app. split; [done|]. constructor; eauto.
Qed.

Lemma merge_sorted fuel queues :
  Forall numbered queues → Forall (StronglySorted key_leb) queues →
  StronglySorted (λ x y, fleb x.1 y.1 = true) (merge_steps fuel queues).
Proof.
  revert queues. induction fuel as [|fuel IH]; intros queues Hnum Hs; simpl; [constructor|].
  destruct (pop_min queues) as [[x rest]|] eqn:Hp; [|constructor].
  pose proof (pop_min_least _ _ _ Hnum Hs Hp) as Hleast.
  assert (Hrest : ∀ fuel, merge_steps fuel rest ⊆+ concat queues).
  { intros f. destruct (merge_prefix f rest (length (merge_steps f rest))) as (taken & Ht & Hperm).
    rewrite take_ge in Hperm by done. rewrite Hperm.
    apply pop_min_Some in Hp as (b & q & a & -> & ->).
    transitivity (concat (b ++ q :: a)).
    - clear -Ht. induction Ht as [|t q' ts qs [k ->] Hts IHt]; simpl; [done|].
      apply submseteq_app; [by apply submseteq_inserts_r|done].
    - rewrite !concat_app. simpl. apply submseteq_app; [done|]. apply submseteq_cons. reflexivity. }
  constructor.
  - apply IH; eapply pop_min_queues; eauto; intros y q;
      [by intros []%Forall_cons|by intros []%StronglySorted_inv].
  - rewrite Forall_forall in *. intros y Hy. apply Hleast.
    eapply elem_of_submseteq; [exact Hy|apply Hrest].
Qed.
End merge_laws.

(** ** The merged files *)

Definition timed (r : pyval) : Prop := ∃ t, timestamp r = Ok t ∧ f_is_nan t = false.
Definition not_later (r r' : pyval) : Prop :=
  ∃ t t', timestamp r = Ok t ∧ timestamp r' = Ok t' ∧ fleb t t' = true.

Lemma keyed_records_ok rs ks :
  keyed_records rs = Ok ks → ks.*2 = rs ∧ Forall (λ k, timestamp k.2 = Ok k.1) ks.
Proof.
  unfold keyed_records. intros Hks%res_mapM_ok.
  induction Hks as [|r k rs ks Hk Hks [<- IH]]; [done|].
  apply res_bind_ok in Hk as (t & Ht & [= <-]). simpl. split; [done|]. by constructor.
Qed.

Lemma keyed_files_ok files queues :
  res_mapM (λ f, rs ← read_records f; keyed_records rs) files = Ok queues →
  res_mapM read_records files = Ok (map (fmap snd) queues) ∧
  Forall (Forall (λ k, timestamp k.2 = Ok k.1)) queues.
Proof.
  intros Hq%res_mapM_ok. induction Hq as [|f ks files queues Hf Hfs [IH1 IH2]]; [done|].
  apply res_bind_ok in Hf as (rs & Hrs & Hks). apply keyed_records_ok in Hks as [<- Hks].
  simpl. rewrite Hrs. simpl. rewrite IH1. split; [done|by constructor].
Qed.

Lemma sorted_keyed ks :
  Forall (λ k, timestamp k.2 = Ok k.1) ks → Forall timed ks.*2 →
  StronglySorted not_later ks.*2 → numbered ks ∧ StronglySorted key_leb ks.
Proof.
  induction ks as [|k ks IH]; intros Hk Ht Hs; [split; constructor|].
  rewrite fmap_cons in Ht, Hs.
  apply Forall_cons in Hk as [Hk Hks], Ht as [(t & Ht & Hn) Hts].
  apply StronglySorted_inv in Hs as [Hs Hle]. destruct (IH Hks Hts Hs) as [Hnum Hsorted].
  simpl in Ht. rewrite Hk in Ht. injection Ht as <-. split; [by constructor|].
  constructor; [done|]. clear IH Hs Hts Hsorted. rewrite Forall_fmap in Hle.
  unfold numbered in Hnum. rewrite Forall_forall in *. intros k' Hk'.
  destruct (Hle k' Hk') as (t & t' & Ht & Ht' & Htt). simpl in Ht, Ht'.
  rewrite Hk in Ht. rewrite (Hks k' Hk') in Ht'. simplify_eq.
  by apply key_leb_fleb; [|apply Hnum|].
Qed.

Lemma sorted_records (ks : list (pyfloat * pyval)) :
  Forall (λ k, timestamp k.2 = Ok k.1) ks →
  StronglySorted (λ x y, fleb x.1 y.1 = true) ks → StronglySorted not_later ks.*2.
Proof.
  induction ks as [|k ks IH]; intros Hk Hs; [constructor|].
  apply Forall_cons in Hk as [Hk Hks]. apply StronglySorted_inv in Hs as [Hs Hle].
  rewrite fmap_cons. constructor; [by apply IH|]. rewrite Forall_fmap. rewrite Forall_forall in *.
  intros k' Hk'. exists k.1, k'.1. split_and!; [done|by apply Hks|by apply Hle].
Qed.

(** The merged log of the workers contains exactly their records; every
    prefix of it is made of prefixes of the workers' logs, so nobody's records
    are reordered; and if each worker's log is in time order, so is the
    merged one. *)
Theorem merge_records_spec files out :
  merge_records files = Ok out →
  ∃ logs, res_mapM read_records files = Ok logs ∧ out ≡ₚ concat logs ∧
    (∀ n, ∃ taken, Forall2 (λ t log, t `prefix_of` log) taken logs ∧ take n out ≡ₚ concat taken) ∧
    (Forall (Forall timed) logs → Forall (StronglySorted not_later) logs →
     StronglySorted not_later out).
Proof.
  unfold merge_records. intros (queues & Hq & [= <-])%res_bind_ok.
  apply keyed_files_ok in Hq as [Hlogs Hkeys]. exists (map (fmap snd) queues).
  assert (Hperm : heap_merge queues ≡ₚ concat queues) by by apply merge_Permutation.
  assert (Hconcat : (concat queues).*2 = concat (map (fmap snd) queues)) by apply concat_map.
  split_and!; [done|by rewrite Hperm, Hconcat| |].
  - intros n. destruct (merge_prefix (sum_list (length <$> queues)) queues n) as (taken & Ht & Hp).
    exists (map (fmap snd) taken). split.
    + apply Forall2_fmap. eapply Forall2_impl; [exact Ht|].
      intros t q [k ->]. rewrite fmap_app. by exists k.*2.
    + unfold heap_merge. rewrite <-fmap_take, Hp. apply reflexive_eq, concat_map.
  - intros Htimed Hsorted.
    apply sorted_records.
    + rewrite Hperm. by apply Forall_concat.
    + assert (Hboth : Forall (λ q, numbered q ∧ StronglySorted key_leb q) queues).
      { change (map (fmap snd) queues) with ((λ q, q.*2) <$> queues) in *.
        rewrite Forall_fmap in Htimed, Hsorted. rewrite Forall_forall in *.
        intros q Hq. apply sorted_keyed; [by apply Hkeys|by apply Htimed|by apply Hsorted]. }
      apply merge_sorted; (eapply Forall_impl; [exact Hboth|by intros q []]).
Qed.

(** ** Outstanding orders *)

(** An accepted order counts one up, any other record one down. *)
Definition event_delta (r : pyval) : Z :=
  match py_get r "event" PNone with
  | Ok e => if py_eqb e (PStr "accepted") then 1 else -1
  | Raise _ => 0
  end.
Definition balance (rs : list pyval) : Z := sum_Z (event_delta <$> rs).

Lemma balance_app l1 l2 : balance (l1 ++ l2) = (balance l1 + balance l2)%Z.
Proof. unfold balance. by rewrite fmap_app, sum_Z_app. Qed.
Lemma balance_Permutation l1 l2 : l1 ≡ₚ l2 → balance l1 = balance l2.
Proof. intros Hp. apply sum_Z_Permutation. by rewrite Hp. Qed.

Lemma balance_concat_nonneg ls : Forall (λ l, 0 ≤ balance l)%Z ls → (0 ≤ balance (concat ls))%Z.
Proof.
  induction 1 as [|l ls Hl Hls IH]; simpl; [done|]. rewrite balance_app. lia.
Qed.

(** When the count never goes below zero the clamp has no effect. *)
Lemma rebase_exact total records out :
  (0 ≤ total)%Z → (∀ n, 0 ≤ total + balance (take n records))%Z →
  rebase_outstanding total records = Ok out →
  length out = length records ∧
  ∀ i r, out !! i = Some r →
    py_item r "outstanding" = Ok (PInt (total + balance (take (S i) records))).
Proof.
  revert total out. induction records as [|r rs IH]; intros total out Ht Hn; cbn [rebase_outstanding].
  { intros [= <-]. done. }
  intros (e & He & Hrest)%res_bind_ok. cbv zeta in Hrest.
  assert (Hd : event_delta r = if py_eqb e (PStr "accepted") then 1%Z else (-1)%Z).
  { unfold event_delta. by rewrite He. }
  assert (Hcons : ∀ n, balance (take (S n) (r :: rs)) = (event_delta r + balance (take n rs))%Z) by done.
  pose proof (Hn 1) as H1. rewrite Hcons in H1. change (balance (take 0 rs)) with 0%Z in H1.
  set (total' := if py_eqb e (PStr "accepted") then (total + 1)%Z else Z.max 0 (total - 1)) in *.
  assert (Htot : total' = (total + event_delta r)%Z).
  { unfold total'. rewrite Hd in *. destruct (py_eqb _ _); lia. }
  apply res_bind_ok in Hrest as (r' & Hr' & (rest & Hrest & [= <-])%res_bind_ok).
  destruct (IH total' rest) as [Hlen Hget]; [lia| |done|].
  { intros n. specialize (Hn (S n)). rewrite Hcons in Hn. lia. }
  split; [simpl; by rewrite Hlen|]. intros [|i] x Hx; simpl in Hx.
  - injection Hx as <-. destruct r as [| | | | | |d]; try done. injection Hr' as <-.
    cbn [py_item]. rewrite alist_get_set_eq. do 2 f_equal. rewrite Htot, Hcons. change (balance (take 0 rs)) with 0%Z. lia.
  - rewrite (Hget i x Hx), Hcons. do 2 f_equal. lia.
Qed.

(** If no worker's own log ever settles more orders than it accepted, the
    rebased count of the merged log is exact: after each record it is the
    number of orders accepted so far less the number settled so far over all
    workers, and it is never negative. *)
Lemma merged_outstanding files logs merged out :
  res_mapM read_records files = Ok logs →
  Forall (λ log, ∀ n, 0 ≤ balance (take n log))%Z logs →
  merge_records files = Ok merged → rebase_outstanding 0 merged = Ok out →
  length out = length merged ∧
  ∀ i r, out !! i = Some r →
    py_item r "outstanding" = Ok (PInt (balance (take (S i) merged))) ∧
    (0 ≤ balance (take (S i) merged))%Z.
Proof.
  intros Hlogs Hbal Hmerge Hout.
  assert (Hn : ∀ n, (0 ≤ balance (take n merged))%Z).
  { unfold merge_records in Hmerge. apply res_bind_ok in Hmerge as (queues & Hq & [= <-]).
    apply keyed_files_ok in Hq as [Hlogs' _]. rewrite Hlogs in Hlogs'. injection Hlogs' as ->.
    intros n. destruct (merge_prefix (sum_list (length <$> queues)) queues n) as (taken & Ht & Hp).
    unfold heap_merge. rewrite <-fmap_take.
    rewrite (balance_Permutation _ (concat taken).*2) by by rewrite Hp.
    change ((concat taken).*2) with (map snd (concat taken)). rewrite concat_map.
    apply balance_concat_nonneg. change (map (map snd) taken) with ((λ q, q.*2) <$> taken).
    change (map (fmap snd) queues) with ((λ q, q.*2) <$> queues) in Hbal.
    rewrite Forall_fmap in Hbal |- *. clear -Ht Hbal. induction Ht as [|t q ts qs [k ->] Hts IH]; [constructor|].
    apply Forall_cons in Hbal as [Hq Hqs]. constructor; [|by apply IH].
    specialize (Hq (length t)). simpl in Hq. rewrite fmap_app, take_app_le in Hq by by rewrite length_fmap.
    rewrite take_ge in Hq by by rewrite length_fmap. exact Hq. }
  destruct (rebase_exact 0 merged out) as [Hlen Hget]; [done|exact Hn|done|].
  split; [done|]. intros i r Hr. split; [by apply Hget|apply Hn].
Qed.

(** Records that are dictionaries with a timestamp are read, merged and
    rebased without an error. *)
Definition readable (r : pyval) : Prop := ∃ d t, r = PDict d ∧ timestamp r = Ok t.

Lemma read_documents n l : Forall readable l → read_lines n (Document <$> l) = Ok l.
Proof.
  intros Hl. revert n. induction Hl as [|r l (d & t & -> & _) Hl IH]; intros n; [done|].
  cbn [fmap list_fmap read_lines]. by rewrite IH.
Qed.

Lemma keyed_records_total l : Forall readable l → ∃ ks, keyed_records l = Ok ks.
Proof.
  intros Hl. unfold keyed_records. induction Hl as [|r l (d & t & -> & Ht) Hl [ks Hks]]; [by eexists|].
  cbn [res_mapM]. rewrite Ht. simpl. rewrite Hks. by eexists.
Qed.

Definition document_file (l : list pyval) : option (list line) := Some (Document <$> l).

Lemma read_document_files (logs : list (list pyval)) :
  Forall (Forall readable) logs → res_mapM read_records (document_file <$> logs) = Ok logs.
Proof.
  induction 1 as [|l logs Hl Hlogs IH]; [done|].
  cbn [fmap list_fmap res_mapM document_file read_records]. rewrite read_documents by done. simpl. by rewrite IH.
Qed.

Lemma merge_records_total (logs : list (list pyval)) :
  Forall (Forall readable) logs →
  ∃ merged, merge_records (document_file <$> logs) = Ok merged ∧ merged ≡ₚ concat logs.
Proof.
  intros Hl.
  assert (∃ queues, res_mapM (λ f, rs ← read_records f; keyed_records rs)
    (document_file <$> logs) = Ok queues ∧ map (fmap snd) queues = logs) as (queues & Hq & Hsnd).
  { induction Hl as [|l logs Hl Hlogs (queues & Hq & Hsnd)]; [by exists []|].
    destruct (keyed_records_total l Hl) as [ks Hks]. exists (ks :: queues). split.
    - cbn [fmap list_fmap res_mapM read_records document_file]. rewrite read_documents by done. simpl.
      rewrite Hks. simpl. by rewrite Hq.
    - simpl. rewrite Hsnd. f_equal. by apply keyed_records_ok in Hks as [? _]. }
  unfold merge_records. rewrite Hq. eexists. split; [done|].
  assert (heap_merge queues ≡ₚ concat queues) as Hperm by by apply merge_Permutation.
  rewrite Hperm, <- Hsnd. apply reflexive_eq, concat_map.
Qed.

Lemma rebase_total total records : Forall readable records → ∃ out, rebase_outstanding total records = Ok out.
Proof.
  intros Hr. revert total. induction Hr as [|r records (d & t & -> & _) Hr IH]; intros total; [by eexists|].
  cbn [rebase_outstanding py_get py_set mbind res_bind].
  match goal with |- context [rebase_outstanding ?n records] => destruct (IH n) as [out ->] end. by eexists.
Qed.

(** ** Witnesses *)

Definition demo_event (t : Z) (e : string) : pyval :=
  PDict [("timestamp", PInt t); ("event", PStr e)].
Definition demo_logs : list (list pyval) :=
  [[demo_event 1 "accepted"; demo_event 4 "completed"]; [demo_event 2 "accepted"; demo_event 3 "failed"]].
Definition demo_files : list (option (list line)) := map (λ l, Some (map Document l)) demo_logs.
Definition demo_merged : list pyval :=
  [demo_event 1 "accepted"; demo_event 2 "accepted"; demo_event 3 "failed"; demo_event 4 "completed"].

Lemma demo_merge_records : merge_records demo_files = Ok demo_merged.
Proof. vm_compute. reflexivity. Qed.

Lemma object_names_injective_witness : "r1" = "r1" ∧ ProgressOf 3 11 = ProgressOf 3 11.
Proof.
  apply object_names_injective;
    [apply str_contains_char_only; reflexivity..|split; lia|split; lia|reflexivity].
Defined.

Lemma merge_records_spec_witness : demo_merged ≡ₚ concat demo_logs.
Proof.
  destruct (merge_records_spec demo_files demo_merged demo_merge_records)
    as (logs & Hlogs & Hperm & _).
  assert (Hd : res_mapM read_records demo_files = Ok demo_logs) by (vm_compute; reflexivity).
  rewrite Hd in Hlogs. injection Hlogs as <-. exact Hperm.
Defined.

