(* ===== verification/BenchJob.v ===== *)
(** * The benchmark Job (benchmarkservice/job.py)

    A Job runs one worker of a benchmark: it renews the lease, starts the load
    generator at a common instant, collects the workers' results and publishes
    them in the run record.  [main] is the whole of it, as a program over the
    shared store, the clock and the Job's own pod; [heartbeat] runs beside it.
    The last part puts controllers and Jobs together. *)

From S2P Require Import Prelude PyFloat PyValue Program KVStore BenchEnv SharedStore PyUrl BenchConfig RunControl Parallel.
From Stdlib Require Import Ascii.

(** [job.py:46-49 LEASE_SECONDS] *)
Definition LEASE_SECONDS : pyfloat := float_dec 90 0.
Definition COORDINATION_TIMEOUT_SECONDS : pyfloat := float_dec 240 0.
Definition START_DELAY_SECONDS : pyfloat := float_dec 5 0.

(** [f"{z:04d}"] *)
Definition format_04d (z : Z) : string :=
  if (z <? 0)%Z then "-" +:+ pad0 3 (- z) else pad0 4 z.

(** [dict(v)] of a dictionary. *)
Definition py_dict (v : pyval) : res pyval :=
  match v with PDict d => Ok (PDict d) | _ => Raise (TypeError "object is not iterable") end.

Section job.
Context (st : store) (RUN_ID : string).
(** The environment variables, the interpreter and the directories. *)
Context (environ : list (string * string)) (executable source_directory output_root : string).

Definition getenv (name : string) : option string := alist_get name environ.
Definition pod_name : pyval := match getenv "POD_NAME" with Some s => PStr s | None => PNone end.

(** ** The record and the lease *)

(** [job.py:65-76 mutate] *)
Definition job_mutate_turn (change : pyval → prog envE pyval) : prog envE (option pyval) :=
  current ← sh_get st (run_key RUN_ID);
  status ← lift (py_item current.1 "status");
  status ← lift (py_dict status);
  updated ← lift (py_set current.1 "status" status);
  artifacts ← lift (py_get current.1 "artifacts" (PDict []));
  artifacts ← lift (py_dict artifacts);
  updated ← lift (py_set updated "artifacts" artifacts);
  updated ← change updated;
  now ← perform EUtcNow;
  updated ← lift (py_set updated "updated_at" (PStr now));
  unless_conflict (_ ← sh_update st (run_key RUN_ID) updated current.2; Ret updated).

(** [job.py:60-77 mutate] *)
Definition job_mutate (change : pyval → prog envE pyval) : prog envE pyval :=
  retry_loop 12 (job_mutate_turn change)
    (Throw (RunConflict ("run " +:+ RUN_ID +:+ " is being updated concurrently"))).

(** [job.py:83-100 renew_lease] *)
Definition renew_turn (lease_until : pyfloat) : prog envE (option pyfloat) :=
  current ← sh_get st LEASE_KEY;
  owner ← lift (py_get current.1 "run_id" PNone);
  if negb (py_eqb owner (PStr RUN_ID))
  then Throw (RunConflict "benchmark lease belongs to another run")
  else
    released ← lift (py_get current.1 "released" PNone);
    if py_truth released then Throw (RunConflict "benchmark lease was already released")
    else
      now ← perform EUtcNow;
      lease ← lift (py_update current.1 [
        ("owner", PStr ("job:" +:+ default "unknown" (getenv "POD_NAME")));
        ("lease_until", PFloat lease_until);
        ("updated_at", PStr now)]);
      unless_conflict (_ ← sh_update st LEASE_KEY lease current.2; Ret lease_until).

(** [job.py:80-101 renew_lease] *)
Definition renew_lease : prog envE pyfloat :=
  now ← perform ETime;
  retry_loop 12 (renew_turn (fadd now LEASE_SECONDS))
    (Throw (RunConflict "benchmark lease renewal remained contended")).

(** [job.py:105-120 release_lease] *)
Definition job_release_turn : prog envE (option unit) :=
  current ← unless_missing (sh_get st LEASE_KEY);
  match current with
  | None => Ret (Some tt)
  | Some (value, revision) =>
      owner ← lift (py_get value "run_id" PNone);
      if negb (py_eqb owner (PStr RUN_ID)) then Ret (Some tt)
      else
        now ← perform EUtcNow;
        lease ← lift (py_update value
          [("lease_until", PInt 0); ("released", PBool true); ("updated_at", PStr now)]);
        unless_conflict (_ ← sh_update st LEASE_KEY lease revision; Ret tt)
  end.

(** [job.py:104-120 release_lease] *)
Definition job_release_lease : prog envE unit := retry_loop 12 job_release_turn (Ret tt).

(** ** Starting a worker *)

(** [job.py:126-131 locust_command] *)
Definition user_classes : list (string * string) :=
  [("closed", "ClosedLoopUser"); ("open", "OpenLoopDriver");
   ("fault_tolerance", "OpenLoopDriver"); ("saturation", "SaturationDriver")].

(** [job.py:123-158 locust_command] *)
Definition locust_command (c : config) (run_directory : string) : res (list string) :=
  let closed_loop := String.eqb (workload c) "closed" in
  let n_users := if closed_loop then users c else 1%Z in
  let rate := if closed_loop then float_repr (spawn_rate c) else "1" in
  match alist_get (workload c) user_classes with
  | None => Raise (KeyError (workload c))
  | Some user_class => Ok [
      executable; "-m"; "locust"; "-f"; source_directory +:+ "/locustfile.py"; "--headless";
      "--only-summary"; "--host"; target_url c; "--users"; pretty n_users; "--spawn-rate"; rate;
      "--run-time"; pretty (run_seconds c) +:+ "s"; "--stop-timeout"; pretty (drain_seconds c);
      "--csv"; run_directory +:+ "/locust"; "--csv-full-history"; "--exit-code-on-error"; "0";
      "--loglevel"; "WARNING"; user_class]
  end.

(** [s or d] *)
Definition or_string (s d : string) : string := if String.eqb s "" then d else s.

(** [job.py:161-176 worker_identity] *)
Definition worker_identity (c : config) : res (Z * Z) :=
  count ← int_of_str (or_string (default "1" (getenv "BENCHMARK_WORKER_COUNT")) "1");
  let raw_index := default "" (getenv "BENCHMARK_WORKER_INDEX") in
  index ← (if String.eqb raw_index "" then Ok 0%Z else int_of_str raw_index);
  expected ← worker_count c;
  if negb (count =? expected)%Z
  then Raise (RuntimeError ("Kubernetes worker count does not match benchmark configuration ("
              +:+ pretty count +:+ " != " +:+ pretty expected +:+ ")"))
  else if (index <? 0)%Z || (count <=? index)%Z
  then Raise (RuntimeError ("invalid worker index " +:+ pretty index +:+ " for "
              +:+ pretty count +:+ " workers"))
  else Ok (index, count).

(** The polling loop of [wait_for_object] and [wait_for_object_file];
    [polls] bounds it, the deadline ends it.
    [job.py:179-193 wait_for_object] *)
Fixpoint wait_for {A} (polls : nat) (fetch : prog envE A) (name : string) (deadline : pyfloat)
  : prog envE A :=
  match polls with
  | 0 => Throw (TimeoutError ("timed out waiting for " +:+ name))
  | Datatypes.S polls =>
      stop ← perform EStopIsSet;
      if (stop : bool) then Throw (InterruptedError "benchmark stop was requested")
      else
        r ← unless_missing fetch;
        match r with
        | Some a => Ret a
        | None =>
            now ← perform EMonotonic;
            if fleb deadline now then Throw (TimeoutError ("timed out waiting for " +:+ name))
            else _ ← perform (EStopWait (float_dec 5 (-1))); wait_for polls fetch name deadline
        end
  end.

Context (polls : nat).

Definition wait_for_object (name : string) (deadline : pyfloat) : prog envE string :=
  wait_for polls (sh_get_object st name) name deadline.

(** [job.py:197-212 wait_for_object_file] *)
Definition wait_for_object_file (name destination : string) (deadline : pyfloat) : prog envE unit :=
  wait_for polls (sh_get_object_file st name destination) name deadline.

(** The document of a start object, as [json.loads] and [float] read it. *)
Context (read_start : string → res pyfloat) (write_start : pyfloat → string)
  (write_ready : Z → string → string).

Fixpoint wait_ready (indexes : list Z) (deadline : pyfloat) : prog envE unit :=
  match indexes with
  | [] => Ret tt
  | index :: indexes =>
      _ ← wait_for_object (ready_object RUN_ID index) deadline;
      wait_ready indexes deadline
  end.

Definition indexes (n : Z) : list Z := Z.of_nat <$> seq 0 (Z.to_nat n).

(** [job.py:215-252 coordinate_start] *)
Definition coordinate_start (index count : Z) : prog envE pyfloat :=
  at_ ← perform EUtcNow;
  _ ← sh_put_object st (ready_object RUN_ID index) (write_ready index at_);
  now ← perform EMonotonic;
  let deadline := fadd now COORDINATION_TIMEOUT_SECONDS in
  if (index =? 0)%Z then
    _ ← wait_ready (indexes count) deadline;
    now ← perform ETime;
    let started_at := fadd now START_DELAY_SECONDS in
    _ ← sh_put_object st (start_object RUN_ID) (write_start started_at);
    Ret started_at
  else
    data ← wait_for_object (start_object RUN_ID) deadline;
    lift (read_start data).

(** [job.py:260-280 delete_coordination_objects] *)
Definition coordination_names (count steps : Z) : list string :=
  start_object RUN_ID ::
  (concat ((λ i, [ready_object RUN_ID i; result_object RUN_ID i]) <$> indexes count)) ++
  (concat ((λ r, saturation_decision_object RUN_ID r ::
                 ((λ i, saturation_progress_object RUN_ID r i) <$> indexes count)) <$> indexes steps)).

(** [job.py:282-288 delete_coordination_objects] *)
Fixpoint delete_objects (names : list string) : prog envE unit :=
  match names with
  | [] => Ret tt
  | name :: names => _ ← prog_try (sh_delete_object st name); delete_objects names
  end.

(** [job.py:255-288 delete_coordination_objects] *)
Definition delete_coordination_objects (count steps : Z) : prog envE unit :=
  delete_objects (coordination_names count steps).

(** ** Artifacts *)

(** [path.suffix] *)
Definition path_suffix (name : string) : string :=
  match reverse (str_split "."%char name) with
  | last :: _ :: _ => if String.eqb last "" then "" else "." +:+ last
  | _ => ""
  end.

(** [job.py:302-309 content_type] *)
Definition content_type (name : string) : string :=
  default "application/octet-stream" (alist_get (path_suffix name)
    [(".csv", "text/csv"); (".json", "application/json"); (".jsonl", "application/x-ndjson");
     (".log", "text/plain"); (".zip", "application/zip")]).

(** [job.py:316-327 upload_artifacts] *)
Fixpoint upload_files (directory : string) (files : list (string * Z)) (artifacts : mapping)
  : prog envE mapping :=
  match files with
  | [] => Ret artifacts
  | (name, size) :: files =>
      let object_name := RUN_ID +:+ "/" +:+ name in
      _ ← sh_put_object_file st object_name (directory +:+ "/" +:+ name);
      let entry := PDict [("object", PStr object_name); ("content_type", PStr (content_type name));
                          ("size", PInt size)] in
      let artifacts := alist_set name entry artifacts in
      upload_files directory files
        (if String.eqb name (RUN_ID +:+ ".zip") then alist_set "artifacts.zip" entry artifacts
         else artifacts)
  end.

(** [job.py:312-328 upload_artifacts] *)
Definition upload_artifacts (directory : string) : prog envE mapping :=
  files ← call (ELocal (LFiles directory));
  upload_files directory files [].

(** ** The outcome of a run *)

(** [{s for s in statuses if s.get("state") not in {"completed", "stopped"}}] *)
Fixpoint failed_of (statuses : list pyval) : res (list pyval) :=
  match statuses with
  | [] => Ok []
  | status :: statuses =>
      state ← py_get status "state" PNone;
      fine ← py_in_set state ["completed"; "stopped"];
      rest ← failed_of statuses;
      Ok (if (fine : bool) then rest else status :: rest)
  end.

Fixpoint stopped_of (statuses : list pyval) : res (list pyval) :=
  match statuses with
  | [] => Ok []
  | status :: statuses =>
      state ← py_get status "state" PNone;
      rest ← stopped_of statuses;
      Ok (if py_eqb state (PStr "stopped") then status :: rest else rest)
  end.

Definition failure_detail (status : pyval) : res string :=
  index ← py_get status "worker_index" (PInt (-1));
  index ← py_int index;
  code ← py_get status "exit_code" PNone;
  Ok (format_04d index +:+ " (exit " +:+ py_str code +:+ ")").

(** The state, exit code and message of the run, from the workers' statuses.
    [job.py:506-535 main] *)
Definition run_outcome (stop_requested : bool) (statuses : list pyval)
  : res (string * Z * option string) :=
  failed_workers ← failed_of statuses;
  stopped_workers ← stopped_of statuses;
  let state := if stop_requested || negb (bool_decide (stopped_workers = [])) then "stopped"
               else if negb (bool_decide (failed_workers = [])) then "failed" else "completed" in
  exit_code ← match failed_workers with
    | [] => Ok 0%Z
    | status :: _ => code ← py_get status "exit_code" (PInt 1); py_int code
    end;
  match failed_workers with
  | [] => Ok (state, exit_code, None)
  | _ =>
      details ← res_mapM failure_detail failed_workers;
      Ok (state, exit_code, Some ("benchmark workers failed: " +:+ str_join ", " details))
  end.

(** The change [finish] of the run record.
    [job.py:556-569 main.finish] *)
Definition finish (state : string) (exit_code : Z) (message : option string)
    (summary : option mapping) (artifacts : mapping) (value : pyval) : prog envE pyval :=
  status ← lift (py_item value "status");
  requested ← lift (py_get status "stop_requested" PNone);
  now ← perform EUtcNow;
  status ← lift (py_update status
    [("state", PStr (if py_truth requested then "stopped" else state));
     ("ended_at", PStr now); ("exit_code", PInt exit_code)]);
  let status := match status with PDict s => PDict (alist_del "lease_until" s) | v => v end in
  status ← lift (match message with
                 | Some m => py_set status "message" (PStr m) | None => Ok status end);
  value ← lift (py_set value "status" status);
  value ← lift (py_set value "summary" (summary_overview summary));
  lift (py_set value "artifacts" (PDict artifacts)).

(** ** The whole Job *)

Definition opt_val (o : option string) : pyval := match o with Some s => PStr s | None => PNone end.
Definition run_directory : string := output_root +:+ "/" +:+ RUN_ID.
Definition worker_path (index : Z) (suffix : string) : string :=
  run_directory +:+ "/worker-" +:+ pad0 4 index +:+ suffix.

(** What [main] knows of its worker when an exception arrives. *)
Record worker_context := WorkerContext {
  wc_index : Z;
  wc_count : Z;
  wc_config : option config;
  wc_directory : option string;
}.

(** The three steps that hand a worker's files to the coordinator.
    [job.py:464-469 main] *)
Definition publish_result (index : Z) (directory : string) : prog envE unit :=
  let archive := worker_path index ".zip" in
  _ ← call (ELocal (LArchive directory archive));
  _ ← sh_put_object_file st (result_object RUN_ID index) archive;
  call (ELocal (LUnlink archive)).

Definition worker_status (index count : Z) (state ended_at : string) (rest : mapping) : pyval :=
  PDict ([("worker_index", PInt index); ("worker_count", PInt count); ("pod_name", pod_name);
          ("state", PStr state); ("ended_at", PStr ended_at)] ++ rest).

(** The [except Exception] block of [main].
    [job.py:585-638 main] *)
Definition job_failed (cx : worker_context) (error : exn) : prog envE Z :=
  let coordinator := (wc_index cx =? 0)%Z in
  published ← (match negb coordinator, wc_directory cx with
    | true, Some directory =>
        r ← prog_try (
          now ← perform EUtcNow;
          _ ← call (ELocal (LWriteJson (directory +:+ "/worker-status.json")
            (worker_status (wc_index cx) (wc_count cx) "failed" now
              [("exit_code", PInt 1); ("message", PStr (exn_str error));
               ("config", match wc_config cx with Some c => PDict (as_dict c) | None => PNone end)])));
          publish_result (wc_index cx) directory);
        Ret (is_ok r)
    | _, _ => Ret false
    end);
  if (published : bool) then Ret 0%Z
  else
    _ ← (if coordinator then
           _ ← perform (ELocal LStopHeartbeat);
           _ ← prog_try (
             _ ← job_mutate (update_status (
               now ← perform EUtcNow;
               Ret [("state", PStr "failed"); ("ended_at", PStr now);
                    ("message", PStr (exn_str error))]));
             job_release_lease);
           Ret tt
         else Ret tt);
    Ret 1%Z.

(** [except] around a stage of [main]. *)
Definition guarded {A} (cx : worker_context) (p : prog envE A) (k : A → prog envE Z) : prog envE Z :=
  r ← prog_try p;
  match r with Ok a => k a | Raise e => job_failed cx e end.

(** The heartbeat thread; [beats] bounds it, the stop flag ends it.
    [job.py:389-408 main.heartbeat] *)
Fixpoint heartbeat (beats : nat) : prog envE unit :=
  match beats with
  | 0 => Ret tt
  | Datatypes.S beats =>
      finished ← perform (ELocal LHeartbeatWait);
      if (finished : bool) then Ret tt
      else
        r ← prog_try (
          current_lease ← renew_lease;
          finished ← perform (ELocal LHeartbeatStopped);
          if (finished : bool) then Ret true
          else
            _ ← job_mutate (update_status (
              now ← perform EUtcNow;
              Ret [("heartbeat_at", PStr now); ("lease_until", PFloat current_lease)]));
            Ret false);
        match r with
        | Ok true => Ret tt
        | Ok false => heartbeat beats
        | Raise _ => _ ← perform EStopSet; perform (ELocal LKillProcess)
        end
  end.

(** The signal handler.
    [job.py:349-352 main.request_stop] *)
Definition request_stop : prog envE unit :=
  _ ← perform EStopSet; perform (ELocal LKillProcess).

(** The coordinator gathers the other workers' archives.
    [job.py:486-496 main] *)
Fixpoint gather_workers (own : Z) (indexes : list Z) (deadline : pyfloat) : prog envE (list string) :=
  match indexes with
  | [] => Ret []
  | index :: indexes =>
      let directory := worker_path index "" in
      _ ← (if (index =? own)%Z then Ret tt
           else
             let archive := worker_path index ".zip" in
             _ ← wait_for_object_file (result_object RUN_ID index) archive deadline;
             _ ← call (ELocal (LExtract archive directory));
             call (ELocal (LUnlink archive)));
      rest ← gather_workers own indexes deadline;
      Ret (directory :: rest)
  end.

(** [job.py:476-504 main] *)
Definition collect_statuses (index count : Z) (worker_state : string) (return_code : Z)
  : prog envE (list pyval) :=
  if (1 <? count)%Z then
    now ← perform EMonotonic;
    directories ← gather_workers index (indexes count) (fadd now COORDINATION_TIMEOUT_SECONDS);
    statuses ← call (ELocal (LMergeWorkerOutputs run_directory directories));
    if negb (Z.of_nat (length statuses) =? count)%Z
    then Throw (RuntimeError ("received " +:+ pretty (Z.of_nat (length statuses))
                +:+ " worker statuses for " +:+ pretty count +:+ " workers"))
    else Ret statuses
  else Ret [PDict [("worker_index", PInt 0); ("state", PStr worker_state);
                   ("exit_code", PInt return_code)]].

(** Reporting and publication by the coordinator.
    [job.py:536-584 main] *)
Definition publish_run (c : config) (count : Z) (outcome : string * Z * option string)
  : prog envE Z :=
  let '(state, exit_code, message) := outcome in
  r ← prog_try (call (ELocal (LBuildReport run_directory)));
  let '(summary, state, message) := match r with
    | Ok summary => (Some summary, state, message)
    | Raise error => (None, "failed", Some ("report generation failed: " +:+ exn_str error))
    end in
  now ← perform EUtcNow;
  _ ← call (ELocal (LWriteJson (run_directory +:+ "/status.json") (PDict
    [("run_id", PStr RUN_ID); ("state", PStr state); ("ended_at", PStr now);
     ("exit_code", PInt exit_code); ("worker_count", PInt count); ("message", opt_val message)])));
  _ ← call (ELocal (LCreateArchive run_directory));
  artifacts ← upload_artifacts run_directory;
  _ ← perform (ELocal LStopHeartbeat);
  _ ← job_mutate (finish state exit_code message summary artifacts);
  _ ← job_release_lease;
  _ ← (if (1 <? count)%Z then
         steps ← lift (if String.eqb (workload c) "saturation" then saturation_step_count c else Ok 0%Z);
         delete_coordination_objects count steps
       else Ret tt);
  Ret (if bool_decide (state ∈ ["completed"; "stopped"]) then 0%Z else 1%Z).

(** Starting the load generator and waiting for it.
    [job.py:416-462 main] *)
Definition run_worker (c wc : config) (index count : Z) (directory : string) : prog envE Z :=
  let coordinator := (index =? 0)%Z in
  start_epoch ← (if (1 <? count)%Z then coordinate_start index count else perform ETime);
  let environment := foldl (λ e '(k, v), alist_set k v e) environ
    [("BENCHMARK_CONFIG_FILE", directory +:+ "/worker-config.json");
     ("BENCHMARK_OUTPUT_DIR", directory);
     ("BENCHMARK_START_EPOCH", float_repr start_epoch)] in
  _ ← call (ELocal (LWriteFile (directory +:+ "/runner.log") ""));
  command ← lift (locust_command wc directory);
  pid ← call (ELocal (LPopen command environment));
  _ ← (if coordinator then
         _ ← job_mutate (update_status (Ret [("state", PStr "running"); ("pid", PInt pid)])); Ret tt
       else Ret tt);
  return_code ← perform (ELocal LWait);
  stop ← perform EStopIsSet;
  let worker_state := if (stop : bool) then "stopped"
    else if (return_code =? 0)%Z then "completed" else "failed" in
  now ← perform EUtcNow;
  _ ← call (ELocal (LWriteJson (directory +:+ "/worker-status.json")
    (worker_status index count worker_state now
      [("exit_code", PInt return_code); ("config", PDict (as_dict wc))])));
  _ ← (if (1 <? count)%Z then publish_result index directory else Ret tt);
  if negb coordinator then Ret 0%Z
  else
    statuses ← collect_statuses index count worker_state return_code;
    stop ← perform EStopIsSet;
    outcome ← lift (run_outcome stop statuses);
    publish_run c count outcome.

(** The first actions of a worker: its directory, the configurations, the
    lease and the state of the run.
    [job.py:367-388 main] *)
Definition prepare_worker (c wc : config) (index count : Z) (directory : string) : prog envE unit :=
  _ ← call (ELocal (LMkdir directory (count =? 1)%Z));
  _ ← call (ELocal (LWriteJson (run_directory +:+ "/config.json") (PDict (as_dict c))));
  _ ← call (ELocal (LWriteJson (directory +:+ "/worker-config.json") (PDict (as_dict wc))));
  if (index =? 0)%Z then
    lease_until ← renew_lease;
    _ ← job_mutate (update_status (
      now ← perform EUtcNow;
      Ret [("state", PStr "starting"); ("started_at", PStr now); ("pod_name", pod_name);
           ("worker_count", PInt count); ("lease_until", PFloat lease_until)]));
    perform (ELocal LSpawnHeartbeat)
  else Ret tt.

(** [job.py:331-643 main] *)
Definition main (bracket_ok : string → bool) : prog envE Z :=
  _ ← call (ELocal (LMkdir run_directory false));
  count ← lift (int_of_str (or_string (default "1" (getenv "BENCHMARK_WORKER_COUNT")) "1"));
  index ← lift (int_of_str (or_string (default "" (getenv "BENCHMARK_WORKER_INDEX")) "0"));
  code ← guarded (WorkerContext index count None None)
    (record ← sh_get st (run_key RUN_ID);
     cfg ← lift (py_item record.1 "config");
     c ← lift (match cfg with PDict values => from_dict bracket_ok values | _ => attribute_error end);
     identity ← lift (worker_identity c);
     Ret (c, identity))
    (λ '(c, (index, count)),
       guarded (WorkerContext index count None None) (lift (for_worker c index))
         (λ wc,
            let directory := if (count =? 1)%Z then run_directory else worker_path index "" in
            guarded (WorkerContext index count (Some wc) (Some directory))
              (_ ← prepare_worker c wc index count directory;
               run_worker c wc index count directory)
              Ret));
  _ ← perform (ELocal LStopHeartbeat);
  Ret code.
End job.

(** ** Every step of a Job keeps the promise *)
Section job_promise.
Context {B : Type} `{KVLaws B} (o : oracle).
Context (clock_monotone : ∀ n m, (n ≤ m)%nat → fleb (o_time o n) (o_time o m) = true).
(** A report is a dictionary: no key twice, at any depth. *)
Context (reports_wf : ∀ n d s, o_local o n _ (LBuildReport d) = Ok s → json_wf (PDict s)).
Context (st : store) (RUN_ID : string) (environ : list (string * string)).
Context (executable source_directory output_root : string) (polls : nat).
Context (read_start : string → res pyfloat) (write_start : pyfloat → string)
  (write_ready : Z → string → string).
Abbreviation fair := (fair (B := B) o).
Implicit Types w : world B.

Lemma fair_local {X} (op : localE X) : fair (perform (ELocal op)).
Proof. by apply fair_quiet. Qed.
Lemma fair_call {A} (op : envE (res A)) : harmless op = true → fair (call op).
Proof. intros. by apply fair_quiet, quiet_call. Qed.
Lemma fair_lift {A} (m : res A) : fair (lift m).
Proof. apply fair_quiet, quiet_lift. Qed.

Lemma returns_true_harmless {A} (p : prog envE A) : quiet p → fair p.
Proof. apply fair_quiet. Qed.

(** A lease renewed or released by its holder. *)
Lemma keeps_lease_write d r d' id w :
  seen LEASE_KEY (PDict d) r w → alist_get "run_id" d = Some (PStr id) →
  alist_get "run_id" d' = Some (PStr id) →
  (json_wf (PDict d) → json_wf (PDict d')) →
  (lease_released (PDict d) = true → lease_released (PDict d') = true) →
  keeps o (guarantee o) (λ _ _, True) (sh_update st LEASE_KEY (PDict d') r) w.
Proof.
  intros Hseen Hd Hd' Hwf Hrel.
  eapply (keeps_write o st _ _ _ _ _ (λ _, True)); [done|done|exact Hseen|].
  intros w1 _ Hwfd. split_and!; [by apply Hwf| |done].
  intros _. by apply (lease_rewrite _ _ _ id); [apply Hwf| | |].
Qed.

Lemma owner_is d id : py_eqb (default PNone (alist_get "run_id" d)) (PStr id) = true →
  alist_get "run_id" d = Some (PStr id).
Proof. intros Hid%py_eqb_str. destruct (alist_get "run_id" d); simpl in Hid; congruence. Qed.

Lemma keeps_get_dict {A} key (f : pyval * Z → prog envE A) w :
  (∀ d r w', seen key (PDict d) r w' → keeps o (guarantee o) (λ _ _, True) (f (PDict d, r)) w') →
  keeps o (guarantee o) (λ _ _, True) (x ← sh_get st key; f x) w.
Proof.
  intros Hf. eapply keeps_bind;
    [by apply (keeps_get o (guarantee o) (guarantee_frame o) st key (λ _, True))|].
  intros [v r] w' (_ & Hseen & d & Hd). simpl in *. subst v. by apply Hf.
Qed.

Lemma keeps_utc {A} (f : string → prog envE A) key v r w :
  seen key v r w →
  (∀ at_ w', seen key v r w' → keeps o (guarantee o) (λ _ _, True) (f at_) w') →
  keeps o (guarantee o) (λ _ _, True) (x ← perform EUtcNow; f x) w.
Proof.
  intros Hs Hf. eapply keeps_bind; [by apply (keeps_perform o (guarantee o) (guarantee_frame o)
    EUtcNow (seen key v r) w eq_refl (seen_stable _ _ _))|].
  intros at_ w' Hs'. by apply Hf.
Qed.

Lemma fair_renew_turn u : fair (renew_turn st RUN_ID environ u).
Proof.
  intros w. unfold renew_turn. apply keeps_get_dict. intros d r w1 Hseen. cbn [fst snd]. ret_step.
  destruct (py_eqb _ _) eqn:Hid; [|done]. apply owner_is in Hid. cbn [negb]. ret_step.
  destruct (py_truth _) eqn:Hrel; [done|].
  apply (keeps_utc _ LEASE_KEY (PDict d) r); [done|]. intros at_ w2 Hs2.
  cbn [py_update lift]. ret_step. apply keeps_conflict, keeps_fair_bind; [|done].
  apply (keeps_lease_write d r _ RUN_ID); [done|done| | |].
  - rewrite dict_update_get by (cbn; literal_dict). done.
  - apply json_wf_update. literal_dict.
  - unfold lease_released. simpl. intros Hd. exfalso.
    destruct (alist_get "released" d); simpl in *; congruence.
Qed.

Lemma fair_renew : fair (renew_lease st RUN_ID environ).
Proof.
  apply fair_bind; [by apply fair_quiet|]. intros now.
  apply fair_retry; [apply fair_renew_turn|done].
Qed.

Lemma fair_job_release_turn : fair (job_release_turn st RUN_ID).
Proof.
  intros w. unfold job_release_turn. apply (keeps_read o st LEASE_KEY _ (λ _, True)); [done..|].
  intros d r w1 _ Hseen. ret_step. destruct (py_eqb _ _) eqn:Hid; [|done].
  apply owner_is in Hid. cbn [negb].
  apply (keeps_utc _ LEASE_KEY (PDict d) r); [done|]. intros at_ w2 Hs2.
  cbn [py_update lift]. ret_step. apply keeps_conflict, keeps_fair_bind; [|done].
  apply (keeps_lease_write d r _ RUN_ID); [done|done| | |].
  - rewrite dict_update_get by (cbn; literal_dict). done.
  - apply json_wf_update. literal_dict.
  - intros _. unfold lease_released. cbn [field]. by rewrite dict_update_get by (cbn; literal_dict).
Qed.

Lemma fair_job_release : fair (job_release_lease st RUN_ID).
Proof. apply fair_retry; [apply fair_job_release_turn|done]. Qed.

(** The copies [mutate] makes before the change identify the same run. *)
Lemma copied_record d s arts :
  json_wf (PDict d) → alist_get "status" d = Some (PDict s) →
  (alist_get "artifacts" d = Some arts ∨ arts = PDict []) →
  json_wf (PDict (alist_set "artifacts" arts (alist_set "status" (PDict s) d))) ∧
  record_step (PDict d) (PDict (alist_set "artifacts" arts (alist_set "status" (PDict s) d))).
Proof.
  intros Hwf Hs Ha. split.
  - apply json_wf_set; [|apply json_wf_set; [by eapply json_wf_get|done]].
    destruct Ha as [Ha| ->]; [by eapply json_wf_get|].
    apply json_wf_dict. split; constructor.
  - etrans; [apply (record_step_status (PDict s))|apply record_step_set].
    + intros s0 Hs0. rewrite Hs in Hs0. injection Hs0 as <-. by left.
    + apply (bool_decide_unpack _). vm_compute. exact I.
Qed.

Lemma fair_job_mutate_turn change :
  change_ok change → change_quiet change → fair (job_mutate_turn st RUN_ID change).
Proof.
  intros Hok Hq w. unfold job_mutate_turn. apply keeps_get_dict. intros d r w1 Hseen. cbn [fst snd].
  eapply (keeps_bind _ _ (λ s w', seen (run_key RUN_ID) (PDict d) r w' ∧ _));
    [by apply (keeps_lift o (guarantee o) _ (seen (run_key RUN_ID) (PDict d) r))|].
  intros s w2 [Hs2 Hs].
  eapply (keeps_bind _ _ (λ s w', seen (run_key RUN_ID) (PDict d) r w' ∧ _));
    [by apply (keeps_lift o (guarantee o) _ (seen (run_key RUN_ID) (PDict d) r))|].
  intros s' w3 [Hs3 Hs'].
  assert (Hst : ∃ ds, alist_get "status" d = Some (PDict ds) ∧ s' = PDict ds).
  { simpl in Hs. destruct (alist_get "status" d) as [x|]; [|done]. injection Hs as <-.
    destruct x; try done. injection Hs' as <-. eauto. }
  destruct Hst as (ds & Hds & ->). ret_step.
  eapply (keeps_bind _ _ (λ s w', seen (run_key RUN_ID) (PDict d) r w' ∧ _));
    [by apply (keeps_lift o (guarantee o) _ (seen (run_key RUN_ID) (PDict d) r))|].
  intros arts w4 [Hs4 Harts].
  assert (Ha : ∃ da, arts = PDict da ∧ (alist_get "artifacts" d = Some arts ∨ arts = PDict [])).
  { destruct (alist_get "artifacts" d) as [x|]; simpl in Harts;
      [destruct x; try done|]; injection Harts as <-; eauto. }
  destruct Ha as (da & -> & Ha). ret_step.
  set (d' := alist_set "artifacts" (PDict da) (alist_set "status" (PDict ds) d)).
  eapply keeps_bind; [apply (keeps_quiet_returns o (guarantee o) _ (λ u, json_wf (PDict d) →
      ∃ d'', u = PDict d'' ∧ json_wf u ∧ record_step (PDict d) u)
      (seen (run_key RUN_ID) (PDict d) r) w4 (guarantee_frame o));
      [apply seen_stable|apply Hq| |exact Hs4]|].
  { pose proof (Hok d') as Hd. revert Hd. generalize (change (PDict d')). intros p.
    induction p as [a|e|X op k IH]; simpl; [|done|intros Hd x; apply IH; intros Hwf; by apply Hd].
    intros Hd Hwf. destruct (copied_record d ds (PDict da) Hwf Hds Ha) as [Hwf' Hstep].
    destruct (Hd Hwf') as (d'' & -> & ? & ?). exists d''. split_and!; [done..|]. by etrans. }
  intros u w5 [Hs5 Hu].
  apply (keeps_utc _ (run_key RUN_ID) (PDict d) r); [done|]. intros at_ w6 Hs6.
  eapply (keeps_bind _ _ (λ s w', seen (run_key RUN_ID) (PDict d) r w' ∧ _));
    [by apply (keeps_lift o (guarantee o) _ (seen (run_key RUN_ID) (PDict d) r))|].
  intros u' w7 [Hs7 Hset]. apply keeps_conflict, keeps_fair_bind; [|done].
  eapply keeps_record_write; [apply str_startswith_app|exact Hs7|].
  intros Hwf. destruct (Hu Hwf) as (d2 & -> & Hwf2 & Hstep). simpl in Hset. injection Hset as <-.
  exists (alist_set "updated_at" (PStr at_) d2). split_and!; [done| |].
  - apply json_wf_set; [by apply wf_leaf|done].
  - etrans; [exact Hstep|]. apply record_step_set. apply (bool_decide_unpack _). vm_compute. exact I.
Qed.

Lemma fair_job_mutate change :
  change_ok change → change_quiet change → fair (job_mutate st RUN_ID change).
Proof. intros. apply fair_retry; [by apply fair_job_mutate_turn|done]. Qed.

Lemma quiet_wait_for {A} n (fetch : prog envE A) name deadline :
  quiet fetch → quiet (wait_for n fetch name deadline).
Proof.
  intros Hf. induction n as [|n IH]; [done|]. cbn [wait_for].
  apply quiet_bind; [done|]. intros stop. destruct stop; [done|].
  apply quiet_bind; [apply quiet_bind; [by apply quiet_try|intros [a|e]; [done|by case_match]]|].
  intros [a|]; [done|]. apply quiet_bind; [done|]. intros now. case_match; [done|].
  by apply quiet_bind.
Qed.

Lemma quiet_coordinate_start index count :
  quiet (coordinate_start st RUN_ID polls read_start write_start write_ready index count).
Proof.
  unfold coordinate_start. apply quiet_bind; [done|]. intros at_.
  apply quiet_bind; [apply quiet_put_object|]. intros _.
  apply quiet_bind; [done|]. intros now. cbv zeta. case_match.
  - apply quiet_bind.
    { generalize (indexes count). intros l. induction l as [|i l IH]; [done|].
      apply quiet_bind; [apply quiet_wait_for, quiet_get_object|done]. }
    intros _. apply quiet_bind; [done|]. intros t.
    apply quiet_bind; [apply quiet_put_object|done].
  - apply quiet_bind; [apply quiet_wait_for, quiet_get_object|]. intros. apply quiet_lift.
Qed.

Lemma quiet_delete count steps : quiet (delete_coordination_objects st RUN_ID count steps).
Proof.
  unfold delete_coordination_objects. generalize (coordination_names RUN_ID count steps). intros l.
  induction l as [|n l IH]; [done|]. apply quiet_bind; [apply quiet_try, quiet_delete_object|done].
Qed.

Lemma upload_files_ok directory files artifacts :
  json_wf (PDict artifacts) →
  quiet (upload_files st RUN_ID directory files artifacts) ∧
  returns (λ a, json_wf (PDict a)) (upload_files st RUN_ID directory files artifacts).
Proof.
  revert artifacts. induction files as [|[name size] files IH]; intros artifacts Hwf; [done|].
  cbn [upload_files]. cbv zeta. set (entry := PDict _).
  assert (He : json_wf entry) by (apply json_wf_dict; split; [cbn|]; literal_dict).
  assert (Hnext : json_wf (PDict (if (name =? RUN_ID +:+ ".zip")%string
      then alist_set "artifacts.zip" entry (alist_set name entry artifacts)
      else alist_set name entry artifacts))).
  { case_match; by repeat apply json_wf_set. }
  destruct (IH _ Hnext) as [IH1 IH2]. split.
  - apply quiet_bind; [apply quiet_put_object_file|done].
  - eapply returns_bind; [apply returns_any|done].
Qed.

Lemma upload_artifacts_ok directory :
  quiet (upload_artifacts st RUN_ID directory) ∧
  returns (λ a, json_wf (PDict a)) (upload_artifacts st RUN_ID directory).
Proof.
  assert (Hwf : json_wf (PDict [])) by (apply json_wf_dict; split; constructor).
  split.
  - apply quiet_bind; [by apply quiet_call|]. intros files. by apply upload_files_ok.
  - eapply returns_bind; [apply returns_any|]. intros files _. by apply upload_files_ok.
Qed.

Lemma alist_del_keys {V} k (d : list (string * V)) : (alist_del k d).*1 `sublist_of` d.*1.
Proof.
  induction d as [|[k' v] d IH]; simpl; [done|]. case_decide; simpl.
  - by apply sublist_cons.
  - by apply sublist_skip.
Qed.
Lemma json_wf_del k d : json_wf (PDict d) → json_wf (PDict (alist_del k d)).
Proof.
  intros [Hnd Hwf]%json_wf_dict. apply json_wf_dict. split.
  - eapply sublist_NoDup; [done|apply alist_del_keys].
  - clear Hnd. induction Hwf as [|[k' v] d Hv Hd IH]; simpl; [constructor|].
    case_decide; [done|]. by constructor.
Qed.
Lemma alist_get_del_ne {V} k k' (d : list (string * V)) :
  k ≠ k' → alist_get k (alist_del k' d) = alist_get k d.
Proof.
  intros Hne. induction d as [|[k2 v] d IH]; simpl; [done|].
  repeat case_decide; simpl; repeat case_decide; congruence.
Qed.

Lemma overview_keys (m : mapping) fields k :
  k ∈ (omap (λ f, pair f <$> alist_get f m) fields).*1 → k ∈ fields.
Proof.
  intros ([k' v] & -> & Hkv)%list_elem_of_fmap. apply list_elem_of_omap in Hkv as (f & Hf & Hget).
  destruct (alist_get f m); simpl in Hget; [|done]. by injection Hget as <- <-.
Qed.

Lemma overview_wf (m : mapping) fields :
  NoDup fields → json_wf (PDict m) → json_wf (PDict (omap (λ f, pair f <$> alist_get f m) fields)).
Proof.
  intros Hnd Hwf. apply json_wf_dict. induction Hnd as [|f fields Hf Hnd [IH1 IH2]]; [split; constructor|].
  simpl. destruct (alist_get f m) as [v|] eqn:Hv; simpl; [|done]. split.
  - apply NoDup_cons. split; [|done]. by intros Hin%overview_keys.
  - constructor; [by eapply json_wf_get|done].
Qed.

Lemma summary_overview_wf s :
  match s with Some m => json_wf (PDict m) | None => True end → json_wf (summary_overview s).
Proof.
  destruct s as [m|]; intros Hwf; [|by apply wf_leaf].
  apply overview_wf; [apply (bool_decide_unpack _); vm_compute; exact I|done].
Qed.

Lemma quiet_finish state code message summary artifacts v :
  quiet (finish state code message summary artifacts v).
Proof.
  unfold finish. repeat (apply quiet_bind; [first [apply quiet_lift|done]|intros ?]).
  apply quiet_lift.
Qed.

Lemma finish_ok state code message summary artifacts :
  json_wf (PDict artifacts) →
  match summary with Some m => json_wf (PDict m) | None => True end →
  change_ok (finish state code message summary artifacts).
Proof.
  intros Ha Hsum d Hwf. unfold finish.
  eapply returns_bind; [apply returns_lift|]. intros s Hs.
  eapply returns_bind; [apply returns_lift|]. intros requested Hreq.
  intros now. eapply returns_bind; [apply returns_lift|]. intros s1 Hs1. simpl in Hs.
  destruct (alist_get "status" d) as [x|] eqn:Hst; [|done]. injection Hs as ->.
  destruct s as [| | | | | |ds]; try done. cbn [py_update] in Hs1. injection Hs1 as <-.
  assert (Hwfs : json_wf (PDict ds)) by by eapply json_wf_get.
  set (u := [("state", PStr (if py_truth requested then "stopped" else state));
             ("ended_at", PStr now); ("exit_code", PInt code)]).
  change (alist_set "exit_code" (PInt code) (alist_set "ended_at" (PStr now)
    (alist_set "state" (PStr (if py_truth requested then "stopped" else state)) ds)))
    with (dict_update ds u).
  set (s2 := alist_del "lease_until" (dict_update ds u)).
  assert (Hwf2 : json_wf (PDict s2)).
  { apply json_wf_del, json_wf_update; [|done]. unfold u. literal_dict. }
  assert (Hstop2 : alist_get "stop_requested" s2 = alist_get "stop_requested" ds).
  { unfold s2. rewrite alist_get_del_ne by done.
    rewrite dict_update_get by (unfold u; cbn; literal_dict). done. }
  eapply (returns_bind (λ s, ∃ s3, s = PDict s3 ∧ json_wf (PDict s3) ∧
    alist_get "stop_requested" s3 = alist_get "stop_requested" ds)).
  { destruct message as [m|]; simpl; [|by exists s2].
    eexists. split; [done|]. split; [by apply json_wf_set; [apply wf_leaf|]|].
    by rewrite alist_get_set_ne. }
  intros s3' (s3 & -> & Hwf3 & Hstop3). cbn [py_set lift returns mbind prog_mbind prog_bind].
  eexists. split; [done|]. split.
  - apply json_wf_set; [done|]. apply json_wf_set; [by apply summary_overview_wf|].
    by apply json_wf_set.
  - etrans; [|apply record_step_set; apply (bool_decide_unpack _); vm_compute; exact I].
    etrans; [|apply record_step_set; apply (bool_decide_unpack _); vm_compute; exact I].
    apply record_step_status. intros s0 Hs0. rewrite Hst in Hs0. injection Hs0 as <-.
    left. simpl. by rewrite Hstop3.
Qed.

Lemma fair_job_status fields :
  quiet fields →
  returns (λ u, NoDup u.*1 ∧ Forall (λ kv, json_wf kv.2) u ∧
     match alist_get "stop_requested" u with Some x => py_truth x = true | None => True end) fields →
  fair (job_mutate st RUN_ID (update_status fields)).
Proof.
  intros Hq Hr. apply fair_job_mutate; [by apply update_status_ok|]. intros v.
  by apply quiet_update_status.
Qed.

Lemma pod_name_wf : json_wf (pod_name environ).
Proof. unfold pod_name. destruct (getenv environ "POD_NAME"); by apply wf_leaf. Qed.

Lemma fair_heartbeat n : fair (heartbeat st RUN_ID environ n).
Proof.
  induction n as [|n IH]; [done|]. cbn [heartbeat].
  apply fair_bind; [apply fair_local|]. intros finished. destruct finished; [done|].
  apply fair_bind.
  - apply fair_try, fair_bind; [apply fair_renew|]. intros lease.
    apply fair_bind; [apply fair_local|]. intros finished. destruct finished; [done|].
    apply fair_bind; [|done]. apply fair_job_status; [done|status_fields].
  - intros [[]|e]; [done|exact IH|]. by apply fair_quiet.
Qed.

Lemma fair_publish_result index directory :
  fair (publish_result st RUN_ID output_root index directory).
Proof.
  apply fair_quiet. unfold publish_result. cbv zeta.
  apply quiet_bind; [by apply quiet_call|]. intros _.
  apply quiet_bind; [apply quiet_put_object_file|]. intros _. by apply quiet_call.
Qed.

Lemma fair_job_failed cx error : fair (job_failed st RUN_ID environ output_root cx error).
Proof.
  unfold job_failed. cbv zeta. apply fair_bind.
  { destruct (negb _); [|done]. destruct (wc_directory cx) as [dir|]; [|done].
    apply fair_bind; [|done]. apply fair_try, fair_bind; [by apply fair_quiet|]. intros now.
    apply fair_bind; [by apply fair_call|]. intros _. apply fair_publish_result. }
  intros published. destruct published; [done|]. apply fair_bind; [|done].
  case_match; [|done]. apply fair_bind; [apply fair_local|]. intros _.
  apply fair_bind; [|done]. apply fair_try, fair_bind.
  - apply fair_job_status; [done|status_fields].
  - intros _. apply fair_job_release.
Qed.

Lemma keeps_report {A} directory (f : res mapping → prog envE A) w :
  (∀ r w', match r with Ok s => json_wf (PDict s) | Raise _ => True end →
     keeps o (guarantee o) (λ _ _, True) (f r) w') →
  keeps o (guarantee o) (λ _ _, True) (r ← prog_try (call (ELocal (LBuildReport directory))); f r) w.
Proof.
  intros Hf w1 Hw1. split; [apply guarantee_frame; simpl; [done|lia]|].
  cbn [env_handle answer fst snd].
  pose proof (reports_wf (w_step w1) directory) as Hwf.
  destruct (o_local o (w_step w1) (res mapping) (LBuildReport directory)) as [s|e];
    [exact (Hf (Ok s) _ (Hwf s eq_refl))|exact (Hf (Raise e) _ I)].
Qed.

Lemma fair_publish_run c count outcome :
  fair (publish_run st RUN_ID output_root c count outcome).
Proof.
  intros w. unfold publish_run. destruct outcome as [[state code] message].
  apply keeps_report. intros r w1 Hr.
  assert (Hrest : ∀ summary state message,
    match summary with Some m => json_wf (PDict m) | None => True end →
    fair (
      now ← perform EUtcNow;
      _ ← call (ELocal (LWriteJson (run_directory RUN_ID output_root +:+ "/status.json") (PDict
        [("run_id", PStr RUN_ID); ("state", PStr state); ("ended_at", PStr now);
         ("exit_code", PInt code); ("worker_count", PInt count); ("message", opt_val message)])));
      _ ← call (ELocal (LCreateArchive (run_directory RUN_ID output_root)));
      artifacts ← upload_artifacts st RUN_ID (run_directory RUN_ID output_root);
      _ ← perform (ELocal LStopHeartbeat);
      _ ← job_mutate st RUN_ID (finish state code message summary artifacts);
      _ ← job_release_lease st RUN_ID;
      _ ← (if (1 <? count)%Z then
             steps ← lift (if String.eqb (workload c) "saturation" then saturation_step_count c else Ok 0%Z);
             delete_coordination_objects st RUN_ID count steps
           else Ret tt);
      Ret (if bool_decide (state ∈ ["completed"; "stopped"]) then 0%Z else 1%Z))).
  { intros summary s m Hs. apply fair_bind; [by apply fair_quiet|]. intros now.
    apply fair_bind; [by apply fair_call|]. intros _.
    apply fair_bind; [by apply fair_call|]. intros _. intros w2.
    eapply (keeps_bind _ _ (λ a _, json_wf (PDict a))).
    { eapply keeps_weaken; [|apply (keeps_quiet_returns o (guarantee o) _ (λ a, json_wf (PDict a))
        (λ _, True) w2 (guarantee_frame o))]; [by intros ?? []|done| | |done]; apply upload_artifacts_ok. }
    intros artifacts w3 Ha. apply fair_bind; [apply fair_local|]. intros _.
    apply fair_bind; [apply fair_job_mutate; [by apply finish_ok|intros v; apply quiet_finish]|].
    intros _. apply fair_bind; [apply fair_job_release|]. intros _. apply fair_bind; [|done].
    destruct (1 <? count)%Z; [|done]. apply fair_bind; [apply fair_lift|]. intros steps.
    apply fair_quiet, quiet_delete. }
  destruct r as [s|e]; by apply Hrest.
Qed.

Lemma fair_gather own l deadline : fair (gather_workers st RUN_ID output_root polls own l deadline).
Proof.
  apply fair_quiet. induction l as [|i l IH]; [done|]. cbn [gather_workers]. cbv zeta.
  apply quiet_bind.
  - case_match; [done|]. apply quiet_bind; [apply quiet_wait_for, quiet_get_object_file|]. intros _.
    apply quiet_bind; [by apply quiet_call|]. intros _. by apply quiet_call.
  - intros _. by apply quiet_bind.
Qed.

Lemma fair_run_worker c wc index count directory :
  fair (run_worker st RUN_ID environ executable source_directory output_root polls
          read_start write_start write_ready c wc index count directory).
Proof.
  unfold run_worker. cbv zeta. apply fair_bind.
  { apply fair_quiet. case_match; [apply quiet_coordinate_start|done]. }
  intros start_epoch. apply fair_bind; [by apply fair_call|]. intros _.
  apply fair_bind; [apply fair_lift|]. intros command.
  apply fair_bind; [by apply fair_call|]. intros pid.
  apply fair_bind.
  { case_match; [|done]. apply fair_bind; [|done]. apply fair_job_status; [done|status_fields]. }
  intros _. apply fair_bind; [apply fair_local|]. intros code.
  apply fair_bind; [by apply fair_quiet|]. intros stop.
  apply fair_bind; [by apply fair_quiet|]. intros now.
  apply fair_bind; [by apply fair_call|]. intros _.
  apply fair_bind; [case_match; [apply fair_publish_result|done]|]. intros _.
  case_match; [done|]. apply fair_bind.
  { unfold collect_statuses. case_match; [|done]. apply fair_bind; [by apply fair_quiet|]. intros t.
    apply fair_bind; [apply fair_gather|]. intros dirs.
    apply fair_bind; [by apply fair_call|]. intros statuses. by case_match. }
  intros statuses. apply fair_bind; [by apply fair_quiet|]. intros stop'.
  apply fair_bind; [apply fair_lift|]. intros outcome. apply fair_publish_run.
Qed.

Lemma fair_prepare c wc index count directory :
  fair (prepare_worker st RUN_ID environ output_root c wc index count directory).
Proof.
  unfold prepare_worker. do 3 (apply fair_bind; [by apply fair_call|intros _]).
  case_match; [|done]. apply fair_bind; [apply fair_renew|]. intros u.
  apply fair_bind; [|intros; apply fair_local]. apply fair_job_status; [done|].
  cbn. intros now. split; [cbn; literal_dict|]. split; [|done].
  repeat (apply Forall_cons; split); try apply Forall_nil_2; cbn; try (apply wf_leaf; exact I).
  apply pod_name_wf.
Qed.

Lemma fair_guarded {A} cx (p : prog envE A) k :
  fair p → (∀ a, fair (k a)) → fair (guarded st RUN_ID environ output_root cx p k).
Proof.
  intros Hp Hk. apply fair_bind; [by apply fair_try|].
  intros [a|e]; [apply Hk|apply fair_job_failed].
Qed.

Lemma fair_main bracket_ok :
  fair (main st RUN_ID environ executable source_directory output_root polls
          read_start write_start write_ready bracket_ok).
Proof.
  unfold main. apply fair_bind; [by apply fair_call|]. intros _.
  do 2 (apply fair_bind; [apply fair_lift|intros ?]).
  apply fair_bind; [|intros code; apply fair_bind; [apply fair_local|done]].
  apply fair_guarded.
  - apply fair_bind; [apply fair_get|]. intros r.
    do 3 (apply fair_bind; [apply fair_lift|intros ?]). done.
  - intros [c [i n]]. apply fair_guarded; [apply fair_lift|]. intros wc. cbv zeta.
    apply fair_guarded; [|done]. apply fair_bind; [apply fair_prepare|]. intros _.
    apply fair_run_worker.
Qed.
End job_promise.

(** ** Controllers and Jobs together *)

Definition void {A} (p : prog envE A) : prog envE unit := _ ← p; Ret tt.

(** Everything that runs against the shared store: the handlers of any number
    of controllers, Jobs with their heartbeats and signal handlers. *)
Inductive participant : prog envE unit → Prop :=
  | pt_start bracket_ok st app values : participant (void (start bracket_ok st app values))
  | pt_details st id : participant (void (details st id))
  | pt_list st : participant (void (list_runs st))
  | pt_stop st id : participant (void (stop st id))
  | pt_artifact st id name : participant (void (artifact st id name))
  | pt_job st id environ executable source output polls read_start write_start write_ready bracket_ok :
      participant (void (main st id environ executable source output polls
                           read_start write_start write_ready bracket_ok))
  | pt_heartbeat st id environ beats : participant (void (heartbeat st id environ beats))
  | pt_signal : participant request_stop.

Section system.
Context {B : Type} `{KVLaws B} (o : oracle).
Context (clock_monotone : ∀ n m, (n ≤ m)%nat → fleb (o_time o n) (o_time o m) = true).
Context (reports_wf : ∀ n d s, o_local o n _ (LBuildReport d) = Ok s → json_wf (PDict s)).
Implicit Types (c : world B * list (prog envE unit)).

Lemma fair_void {A} (p : prog envE A) : fair (B := B) o p → fair (B := B) o (void p).
Proof. intros. by apply fair_bind. Qed.

Lemma participant_fair p : participant p → fair (B := B) o p.
Proof.
  destruct 1; try apply fair_void.
  - by apply fair_start.
  - by apply fair_details.
  - by apply fair_list_runs.
  - by apply fair_stop.
  - apply fair_artifact.
  - by apply fair_main.
  - by apply fair_heartbeat.
  - by apply fair_quiet.
Qed.

(** The invariant of the whole system. *)
Definition sound c : Prop :=
  records_wf (w_bucket c.1) ∧
  all_safe (env_handle o) world_rely (guarantee o) (λ _ _ _, True) c.

Lemma sound_init w ps : records_wf (w_bucket w) → Forall participant ps → sound (w, ps).
Proof.
  intros Hwf Hps. split; [done|]. intros i p Hp. exists w. split; [reflexivity|].
  rewrite Forall_forall in Hps. apply participant_fair, Hps. by eapply list_elem_of_lookup_2.
Qed.

Lemma sound_step c c' :
  step (env_handle o) c c' → sound c → sound c' ∧ (c'.1 = c.1 ∨ promise o c.1 c'.1) ∧ world_rely c.1 c'.1.
Proof.
  intros Hstep [Hwf Hsafe].
  destruct (safe_step (env_handle o) world_rely (guarantee o) (λ w w' HG, proj1 HG) _ _ _ Hstep Hsafe)
    as [[Heq|[Hr HG]] Hsafe'].
  - unfold sound. rewrite Heq. split_and!; [done..|by left|reflexivity].
  - specialize (HG Hwf). split_and!; [split; [apply HG|done]|by right|done].
Qed.

Lemma sound_steps c c' : rtc (step (env_handle o)) c c' → sound c → sound c'.
Proof. induction 1; [done|]. intros Hs. by destruct (sound_step _ _ H1 Hs) as [? _]; auto. Qed.

Definition held_by (id : string) (w : world B) : Prop :=
  ∃ v r, bk_get LEASE_KEY (w_bucket w) = Ok (v, r) ∧ lease_run v = Some (PStr id).
Definition lapsed (id : string) (w : world B) : Prop :=
  ∃ v r, bk_get LEASE_KEY (w_bucket w) = Ok (v, r) ∧ lease_run v = Some (PStr id) ∧
    lease_free (clock_at o w) v.

(** A lease changes hands only through a state in which it is free. *)
Lemma lease_handover c c' id id' :
  rtc (step (env_handle o)) c c' → sound c → held_by id c.1 → held_by id' c'.1 → id ≠ id' →
  ∃ c1, rtc (step (env_handle o)) c c1 ∧ rtc (step (env_handle o)) c1 c' ∧ lapsed id c1.1.
Proof.
  induction 1 as [c|c c1 c' Hstep Hsteps IH]; intros Hs Hid Hid' Hne.
  { destruct Hid as (v & r & Hv & Hrun), Hid' as (v' & r' & Hv' & Hrun').
    rewrite Hv in Hv'. injection Hv' as <- <-. rewrite Hrun in Hrun'. congruence. }
  destruct (sound_step _ _ Hstep Hs) as (Hs1 & HG & Hrely).
  pose proof Hid as (v & r & Hv & Hrun).
  destruct HG as [Heq|HG].
  - rewrite <-Heq in Hid. destruct (IH Hs1 Hid Hid' Hne) as (c2 & ? & ? & ?).
    exists c2. split_and!; [by eapply rtc_l|done..].
  - destruct Hrely as [Hev _]. destruct (Hev _ _ _ Hv) as (v1 & r1 & Hv1 & _).
    destruct (pr_lease _ _ _ HG _ _ _ _ Hv Hv1) as [->|[Hfree|[Hsame _]]].
    + destruct (IH Hs1) as (c2 & ? & ? & ?); [by exists v, r1|done..|].
      exists c2. split_and!; [by eapply rtc_l|done..].
    + exists c. split_and!; [apply rtc_refl|by eapply rtc_l|by exists v, r].
    + destruct (IH Hs1) as (c2 & ? & ? & ?); [exists v1, r1; by rewrite Hsame|done..|].
      exists c2. split_and!; [by eapply rtc_l|done..].
Qed.

Lemma records_advance c c' key v r :
  rtc (step (env_handle o)) c c' → sound c → str_startswith RUN_PREFIX key = true →
  bk_get key (w_bucket c.1) = Ok (v, r) →
  ∃ v' r', bk_get key (w_bucket c'.1) = Ok (v', r') ∧ record_step v v'.
Proof.
  intros Hsteps Hs Hkey. revert v r. induction Hsteps as [c|c c1 c' Hstep Hsteps IH]; intros v r Hv.
  { exists v, r. by split. }
  destruct (sound_step _ _ Hstep Hs) as (Hs1 & HG & Hrely). destruct HG as [Heq|HG].
  - rewrite <-Heq in Hv. by eapply IH.
  - destruct Hrely as [Hev _]. destruct (Hev _ _ _ Hv) as (v1 & r1 & Hv1 & _).
    destruct (IH Hs1 v1 r1 Hv1) as (v2 & r2 & Hv2 & Hstep2).
    exists v2, r2. split; [done|]. etrans; [|done]. by eapply (pr_record _ _ _ HG).
Qed.
End system.

(** C2: one active run at a time.  Whatever controllers, Jobs, heartbeats
    and signals run, however their requests interleave, fail, are lost or
    repeated, and whichever of them crash: if the lease names one run and
    later another, then in between there was a moment at which the first
    run's lease was free, that is, expired at the clock or given back. *)
Theorem lease_exclusive {B} `{KVLaws B} o (w : world B) ps c c' id id' :
  (∀ n m, (n ≤ m)%nat → fleb (o_time o n) (o_time o m) = true) →
  (∀ n d s, o_local o n _ (LBuildReport d) = Ok s → json_wf (PDict s)) →
  records_wf (w_bucket w) → Forall participant ps →
  rtc (step (env_handle o)) (w, ps) c → rtc (step (env_handle o)) c c' →
  held_by id c.1 → held_by id' c'.1 → id ≠ id' →
  ∃ c1, rtc (step (env_handle o)) c c1 ∧ rtc (step (env_handle o)) c1 c' ∧ lapsed o id c1.1.
Proof.
  intros Hclock Hreports Hwf Hps Hc Hc'. apply (lease_handover o); [done|].
  eapply (sound_steps o); [exact Hc|]. by apply sound_init.
Qed.

(** C3: a stored run keeps its identity.  In the same setting a run record is
    never lost, its identifier, schema version and configuration never
    change, and a stop request, once recorded, is never withdrawn. *)
Theorem run_identity_preserved {B} `{KVLaws B} o (w : world B) ps c c' id v r :
  (∀ n m, (n ≤ m)%nat → fleb (o_time o n) (o_time o m) = true) →
  (∀ n d s, o_local o n _ (LBuildReport d) = Ok s → json_wf (PDict s)) →
  records_wf (w_bucket w) → Forall participant ps →
  rtc (step (env_handle o)) (w, ps) c → rtc (step (env_handle o)) c c' →
  bk_get (run_key id) (w_bucket c.1) = Ok (v, r) →
  ∃ v' r', bk_get (run_key id) (w_bucket c'.1) = Ok (v', r') ∧ record_step v v'.
Proof.
  intros Hclock Hreports Hwf Hps Hc Hc'. apply (records_advance o); [done| |apply str_startswith_app].
  eapply (sound_steps o); [exact Hc|]. by apply sound_init.
Qed.

(** ** The outcome of a run *)

Definition in_state (l : list string) (status : pyval) : Prop :=
  ∃ s, py_get status "state" PNone = Ok (PStr s) ∧ s ∈ l.

Lemma failed_of_spec statuses failed :
  failed_of statuses = Ok failed →
  (failed = [] ↔ Forall (in_state ["completed"; "stopped"]) statuses).
Proof.
  revert failed. induction statuses as [|x xs IH]; intros failed; cbn [failed_of].
  { intros [= <-]. by split. }
  intros (state & Hs & (fine & Hf & (rest & Hrest & [= <-])%res_bind_ok)%res_bind_ok)%res_bind_ok.
  specialize (IH rest Hrest). rewrite Forall_cons. unfold in_state at 1. rewrite Hs.
  destruct state as [| | | |s|l|d]; simpl in Hf; try discriminate; injection Hf as <-;
    try (split; [done|intros [(? & ? & _) _]; congruence]).
  case_bool_decide as Hin; [rewrite IH|]; split; [|by intros [_ ?]|done|].
  - intros ?. split; [|done]. by exists s.
  - intros [(s' & [= ->] & ?) _]. done.
Qed.

Lemma stopped_of_spec statuses stopped :
  stopped_of statuses = Ok stopped → (stopped = [] ↔ ¬ Exists (in_state ["stopped"]) statuses).
Proof.
  revert stopped. induction statuses as [|x xs IH]; intros stopped; cbn [stopped_of].
  { intros [= <-]. rewrite Exists_nil. tauto. }
  intros (state & Hs & (rest & Hrest & [= <-])%res_bind_ok)%res_bind_ok.
  specialize (IH rest Hrest). rewrite Exists_cons. unfold in_state at 1. rewrite Hs.
  destruct (py_eqb state (PStr "stopped")) eqn:Heq.
  - apply py_eqb_str in Heq as ->. split; [done|]. intros Hn. exfalso. apply Hn. left.
    exists "stopped". split; [done|left].
  - rewrite IH. split; [|tauto]. intros Hn [(s & [= ->] & Hin)|?]; [|done].
    apply list_elem_of_singleton in Hin as ->.
    by rewrite (proj2 (py_eqb_str _ _) eq_refl) in Heq.
Qed.

(** The outcome the coordinator computes from the workers' statuses.
    The run is [completed] exactly when nobody asked to stop and every worker
    completed, [stopped] exactly when a stop was asked for or a worker
    stopped, [failed] otherwise; there is a failure message exactly when some
    worker neither completed nor stopped, and without one the exit code is 0. *)
Theorem run_outcome_spec stop statuses state code message :
  run_outcome stop statuses = Ok (state, code, message) →
  (state = "completed" ↔ stop = false ∧ Forall (in_state ["completed"]) statuses) ∧
  (state = "stopped" ↔ stop = true ∨ Exists (in_state ["stopped"]) statuses) ∧
  state ∈ ["completed"; "stopped"; "failed"] ∧
  (message = None ↔ Forall (in_state ["completed"; "stopped"]) statuses) ∧
  (message = None → code = 0%Z).
Proof.
  unfold run_outcome. intros (failed & Hf & (stopped & Hst & Hrest)%res_bind_ok)%res_bind_ok.
  cbv zeta in Hrest. apply res_bind_ok in Hrest as (exit_code & Hcode & Hrest).
  pose proof (failed_of_spec _ _ Hf) as HF. pose proof (stopped_of_spec _ _ Hst) as HS.
  assert (Hcomp : Forall (in_state ["completed"]) statuses ↔ failed = [] ∧ stopped = []).
  { rewrite HF, HS, <-Forall_Exists_neg. split.
    - intros Hall. split; (eapply Forall_impl; [exact Hall|]); intros x (s & Hs & Hin).
      + exists s. split; [done|]. apply list_elem_of_singleton in Hin as ->. left.
      + apply list_elem_of_singleton in Hin as ->. intros (s' & Hs' & Hin').
        apply list_elem_of_singleton in Hin' as ->. congruence.
    - rewrite !Forall_forall. intros [H1 H2] x Hx. destruct (H1 x Hx) as (s & Hs & Hin).
      exists s. split; [done|]. apply elem_of_cons in Hin as [->|Hin]; [left|].
      exfalso. by apply (H2 x Hx); exists s. }
  assert (Hstate : state = if stop || negb (bool_decide (stopped = [])) then "stopped"
      else if negb (bool_decide (failed = [])) then "failed" else "completed").
  { destruct failed; [by simplify_eq|]. by apply res_bind_ok in Hrest as (? & _ & [= <- _ _]). }
  assert (Hmsg : message = None ↔ failed = []).
  { destruct failed; [by simplify_eq|]. apply res_bind_ok in Hrest as (? & _ & [= _ _ <-]). done. }
  assert (Hc : code = exit_code).
  { destruct failed; [by simplify_eq|]. by apply res_bind_ok in Hrest as (? & _ & [= _ <- _]). }
  assert (Hexists : stopped ≠ [] ↔ Exists (in_state ["stopped"]) statuses).
  { rewrite HS. split; [|tauto]. intros Hn. destruct stopped as [|x l]; [tauto|].
    clear -Hst. revert x l Hst. induction statuses as [|y ys IH]; intros x l; cbn [stopped_of]; [done|].
    intros (s & Hs & (rest & Hr & [= Heq])%res_bind_ok)%res_bind_ok. rewrite Exists_cons.
    destruct (py_eqb s (PStr "stopped")) eqn:E; [|right; subst rest; by eapply IH].
    apply py_eqb_str in E as ->. left. exists "stopped". split; [done|left]. }
  rewrite Hcomp, <-HF, Hmsg, <-Hexists, Hstate. split_and!.
  - destruct stop; simpl; [naive_solver|]. repeat case_bool_decide; simpl; naive_solver.
  - destruct stop; simpl; [naive_solver|]. repeat case_bool_decide; simpl; naive_solver.
  - repeat case_match; set_solver.
  - done.
  - intros Hnil. rewrite Hnil in Hcode. injection Hcode as <-. exact Hc.
Qed.

(** The final change of a run record gives precedence to a stop request
    that arrived while the Job was finishing, clears the deadline, and
    publishes the summary and the artifacts. *)
Theorem finish_spec {B} `{KVLaws B} o state code message summary artifacts d s v (w w' : world B) :
  json_wf (PDict d) → alist_get "status" d = Some (PDict s) →
  run (env_handle o) (finish state code message summary artifacts (PDict d)) w = (Ok v, w') →
  ∃ d', v = PDict d' ∧
    status_of d' "state" = Some (PStr
      (if py_truth (default PNone (alist_get "stop_requested" s)) then "stopped" else state)) ∧
    status_of d' "lease_until" = None ∧ status_of d' "exit_code" = Some (PInt code) ∧
    (∀ m, message = Some m → status_of d' "message" = Some (PStr m)) ∧
    alist_get "summary" d' = Some (summary_overview summary) ∧
    alist_get "artifacts" d' = Some (PDict artifacts) ∧
    alist_get "config" d' = alist_get "config" d.
Proof.
  intros Hwf Hs Hrun. unfold finish in Hrun.
  rewrite (run_lift_ok o _ _ (PDict s)) in Hrun by (simpl; by rewrite Hs).
  rewrite (run_lift_ok o _ _ (default PNone (alist_get "stop_requested" s))) in Hrun by done.
  rewrite run_perform_bind in Hrun. cbn [env_handle answer fst snd] in Hrun.
  set (requested := default PNone (alist_get "stop_requested" s)) in *.
  set (at_ := o_utc o _) in Hrun.
  set (u := [("state", PStr (if py_truth requested then "stopped" else state));
             ("ended_at", PStr at_); ("exit_code", PInt code)]) in Hrun.
  rewrite (run_lift_ok o _ _ (PDict (dict_update s u))) in Hrun by done.
  set (s2 := alist_del "lease_until" (dict_update s u)) in Hrun.
  assert (Hwfs : json_wf (PDict (dict_update s u))).
  { apply json_wf_update; [unfold u; literal_dict|by eapply json_wf_get]. }
  assert (Hnone : alist_get "lease_until" s2 = None).
  { apply alist_get_None. unfold s2. apply json_wf_dict in Hwfs as [Hnd _].
    revert Hnd. generalize (dict_update s u). intros l. induction l as [|[k x] l IH]; simpl;
      [intros _; apply not_elem_of_nil|].
    intros [Hk Hnd]%NoDup_cons. case_decide; [by subst|]. simpl.
    apply not_elem_of_cons. split; [done|by apply IH]. }
  assert (Hget : ∀ k, k ≠ "lease_until" → alist_get k s2 =
    match alist_get k u with Some x => Some x | None => alist_get k s end).
  { intros k Hk. unfold s2. rewrite alist_get_del_ne by done.
    by rewrite dict_update_get by (unfold u; cbn; literal_dict). }
  set (s3 := match message with Some m => alist_set "message" (PStr m) s2 | None => s2 end).
  rewrite (run_lift_ok o _ _ (PDict s3)) in Hrun by by destruct message.
  rewrite (run_lift_ok o _ _ (PDict (alist_set "status" (PDict s3) d))) in Hrun by done.
  rewrite (run_lift_ok o _ _ (PDict (alist_set "summary" (summary_overview summary)
    (alist_set "status" (PDict s3) d)))) in Hrun by done.
  rewrite run_lift in Hrun. injection Hrun as <- <-. eexists. split; [done|].
  assert (H3 : ∀ k, k ≠ "message" → alist_get k s3 = alist_get k s2).
  { intros k Hk. unfold s3. destruct message; [by apply alist_get_set_ne|done]. }
  unfold status_of.
  rewrite (alist_get_set_ne "status" "artifacts"), (alist_get_set_ne "status" "summary"),
    alist_get_set_eq by done.
  rewrite (alist_get_set_ne "summary" "artifacts"), !(alist_get_set_eq (K := string)) by done.
  rewrite !H3, Hnone, !Hget by done. split_and!; try done.
  - intros m ->. unfold s3. by rewrite alist_get_set_eq.
  - by rewrite !alist_get_set_ne.
Qed.

(** ** A stop that overtakes the end of a run *)

Definition stored_status (k : string) (w : world mem_bucket) : option pyval :=
  match bk_get (run_key "r1") (w_bucket w) with
  | Ok (PDict d, _) => status_of d k
  | _ => None
  end.
Definition last_change : prog envE unit :=
  void (job_mutate demo_store "r1" (finish "completed" 0 None (Some [])
    [("summary.json", PDict [("object", PStr "r1/summary.json")])])).
Definition stop_race : world mem_bucket * list (prog envE unit) :=
  (running_world, [void (stop demo_store "r1"); last_change]).

(** [stop] checks the state once, before its first compare-and-set, and
    both of its changes apply to whatever they find.  A run that completes
    right after the check, with its summary and artifacts published, is
    rewritten as [stopped]. *)
Theorem stop_overwrites_completed :
  let c1 := run_schedule (env_handle (demo_oracle [])) (replicate 3 0 ++ replicate 8 1) stop_race in
  let c2 := run_schedule (env_handle (demo_oracle [])) (replicate 24 0) c1 in
  stored_status "state" c1.1 = Some (PStr "completed") ∧ c1.2 !! 1 = Some (Ret tt) ∧
  stored_status "state" c2.1 = Some (PStr "stopped") ∧ c2.2 = [Ret tt; Ret tt] ∧
  stored_status "exit_code" c2.1 = Some (PInt 0).
Proof. split_and!; vm_compute; reflexivity. Qed.

(** ** Witnesses *)

(** The clock of the demonstration advances up to a last reading. *)
Lemma fleb_dec_mono : ∀ n m, (n ≤ m)%nat → (m ≤ 12)%nat →
  fleb (float_dec (Z.of_nat n) 0) (float_dec (Z.of_nat m) 0) = true.
Proof.
  assert (Hall : Forall (λ m, Forall (λ n, (n ≤ m)%nat →
      fleb (float_dec (Z.of_nat n) 0) (float_dec (Z.of_nat m) 0) = true) (seq 0 13)) (seq 0 13)).
  { apply (bool_decide_unpack _). vm_compute. exact I. }
  intros n m Hnm Hm. rewrite Forall_forall in Hall.
  specialize (Hall m). rewrite Forall_forall in Hall.
  apply Hall; [apply elem_of_seq; lia|apply elem_of_seq; lia|done].
Qed.

(** The expired lease of [r0] in [expired_world] is taken over by a new run. *)
Definition takeover_oracle : oracle := {|
  o_fault _ := NoFault; o_connect _ := Ok tt; o_time := demo_clock 12; o_monotonic := demo_clock 12;
  o_utc _ := "2026-01-01T00:00:00+00:00"; o_stamp _ := "20260101T000000Z";
  o_uuid_hex _ := "0123456789abcdef0123456789abcdef"; o_uuid _ := "u";
  o_job_create _ _ _ _ := Ok "job"; o_job_state _ _ := Ok "running";
  o_job_delete _ _ := Ok tt; o_stop _ := false; o_local _ := demo_local;
|}.
Definition expired_world : world mem_bucket :=
  World (mem_put LEASE_KEY (PDict [("lease_until", PInt 1); ("run_id", PStr "r0")])
    (mem_put (run_key "r1") (PDict demo_record) mem_empty).2).2 ∅ 0.
Definition takeover : list (prog envE unit) :=
  [void (start any_bracket demo_store "nats" demo_values)].

Lemma takeover_clock : ∀ n m, (n ≤ m)%nat →
  fleb (o_time takeover_oracle n) (o_time takeover_oracle m) = true.
Proof. intros n m Hnm. simpl. unfold demo_clock. apply fleb_dec_mono; lia. Qed.

Lemma demo_reports : ∀ n d s, o_local takeover_oracle n _ (LBuildReport d) = Ok s → json_wf (PDict s).
Proof. intros n d s [= <-]. apply json_wf_dict. split; constructor. Qed.

Lemma expired_wf : records_wf (w_bucket expired_world).
Proof.
  intros k v r. unfold expired_world. simpl.
  destruct (decide (k = LEASE_KEY)) as [->|Hne].
  - rewrite lookup_insert_eq. intros [= <- _]. apply json_wf_dict. split; literal_dict.
  - rewrite (lookup_insert_ne _ LEASE_KEY) by done. destruct (decide (k = run_key "r1")) as [->|Hne'].
    + rewrite lookup_insert_eq. intros [= <- _]. apply demo_recorded.
    + rewrite lookup_insert_ne by done. by rewrite lookup_empty.
Qed.

Lemma takeover_participants : Forall participant takeover.
Proof. repeat constructor. Qed.

Lemma lease_exclusive_witness :
  let c := run_schedule (env_handle takeover_oracle) (replicate 40 0) (expired_world, takeover) in
  ∃ c1, rtc (step (env_handle takeover_oracle)) (expired_world, takeover) c1 ∧
    rtc (step (env_handle takeover_oracle)) c1 c ∧ lapsed takeover_oracle "r0" c1.1.
Proof.
  intros c. apply (lease_exclusive takeover_oracle expired_world takeover
    (expired_world, takeover) c "r0" demo_id).
  - exact takeover_clock.
  - exact demo_reports.
  - exact expired_wf.
  - exact takeover_participants.
  - apply rtc_refl.
  - apply run_schedule_steps.
  - eexists _, _. split; [vm_compute; reflexivity|reflexivity].
  - eexists _, _. split; [vm_compute; reflexivity|vm_compute; reflexivity].
  - discriminate.
Defined.

Lemma run_identity_preserved_witness :
  let c := run_schedule (env_handle takeover_oracle) (replicate 40 0) (expired_world, takeover) in
  ∃ v' r', bk_get (run_key "r1") (w_bucket c.1) = Ok (v', r') ∧ record_step (PDict demo_record) v'.
Proof.
  intros c. apply (run_identity_preserved takeover_oracle expired_world takeover
    (expired_world, takeover) c "r1" (PDict demo_record) 1).
  - exact takeover_clock.
  - exact demo_reports.
  - exact expired_wf.
  - exact takeover_participants.
  - apply rtc_refl.
  - apply run_schedule_steps.
  - vm_compute. reflexivity.
Defined.

Lemma run_outcome_spec_witness :
  ∃ m, run_outcome false [PDict [("state", PStr "completed")];
      PDict [("state", PStr "failed"); ("worker_index", PInt 1); ("exit_code", PInt 2)]]
    = Ok ("failed", 2%Z, Some m) ∧ "failed" ∈ ["completed"; "stopped"; "failed"].
Proof.
  eexists. split; [vm_compute; reflexivity|].
  by destruct (run_outcome_spec false [PDict [("state", PStr "completed")];
      PDict [("state", PStr "failed"); ("worker_index", PInt 1); ("exit_code", PInt 2)]]
    "failed" 2 (Some "benchmark workers failed: 0001 (exit 2)") eq_refl) as (_ & _ & Hin & _).
Defined.

Lemma finish_spec_witness :
  ∃ d', (run (env_handle (demo_oracle [])) (finish "completed" 0 None None []
           (PDict demo_record)) running_world).1 = Ok (PDict d') ∧
    status_of d' "state" = Some (PStr "completed") ∧ status_of d' "lease_until" = None.
Proof.
  destruct (run (env_handle (demo_oracle [])) (finish "completed" 0 None None []
    (PDict demo_record)) running_world) as [r w'] eqn:Hrun.
  destruct r as [v|e]; [|vm_compute in Hrun; discriminate].
  destruct (finish_spec (demo_oracle []) "completed" 0 None None [] demo_record demo_status v
    running_world w') as (d' & Hv & Hstate & Hlease & _).
  - apply demo_recorded.
  - reflexivity.
  - exact Hrun.
  - exists d'. split_and!; [by rewrite Hv|exact Hstate|exact Hlease].
Defined.
