(* ===== verification/HttpApi.v ===== *)
(** * The benchmark API (benchmarkservice/app.py)

    Requests are routed to the run controller (RunControl.v), whose
    exceptions become status codes.  The server loop, the socket and the page
    itself are outside the model: a request is its target, its
    [Content-Length] header and what [json.loads] makes of its body; sending
    a response can fail. *)

From S2P Require Import Prelude PyFloat PyValue Program KVStore PyUrl BenchConfig BenchEnv SharedStore RunControl.
From Stdlib Require Import Ascii.

(** ** Requests and responses *)

Record request := Request {
  rq_target : string;
  rq_content_length : option string;
  rq_body : string;
}.

Inductive body :=
  | Page
  | Json (value : pyval)
  | Download (data : string).

Record response := Response {
  rs_status : Z;
  rs_content_type : string;
  rs_disposition : option string;
  rs_body : body;
}.

Inductive httpE : Type → Type :=
  | HEnv {X} (op : envE X) : httpE X
  | HReady : httpE bool
  | HSend (r : response) : httpE (res unit).

Definition on_env {A} : prog envE A → prog httpE A :=
  fix go p := match p with
    | Ret a => Ret a
    | Throw e => Throw e
    | Vis op k => Vis (HEnv op) (λ x, go (k x))
    end.

(** [app.py:344-351 BenchmarkHandler._json] *)
Definition json_response (status : Z) (value : pyval) : response :=
  Response status "application/json" None (Json (json_dumps value)).

(** [app.py:353-354 BenchmarkHandler._error] *)
Definition error_response (status : Z) (message : string) : response :=
  json_response status (PDict [("error", PStr message)]).

(** [app.py:356-365 BenchmarkHandler._send_download] *)
Definition download_response (data content_type name : string) : response :=
  Response 200 content_type (Some ("attachment; filename=" +:+ String double_quote name +:+ String double_quote ""))
    (Download data).

Definition page_response : response := Response 200 "text/html; charset=utf-8" None Page.

Section api.
Context (bracket_ok : string → bool) (st : store) (application : string).
Context (zip_read : string → option (list (string * bool * string))).
Context (zip_write : list (string * string) → string).
Context (loads : string → res pyval).

(** [app.py:374-375 BenchmarkHandler._parts] *)
Definition parts (rq : request) : res (list string) :=
  path ← urlparse_path bracket_ok (rq_target rq);
  Ok (filter (λ part, part ≠ "") (str_split "/"%char path)).

(** [app.py:377-386 BenchmarkHandler._read_json_object] *)
Definition read_json_object (rq : request) : res mapping :=
  length ← int_of_str (default "0" (rq_content_length rq));
  if ((length <=? 0) || (65536 <? length))%Z
  then Raise (ConfigError "request body must contain a small JSON object")
  else
    payload ← loads (String.substring 0 (Z.to_nat length) (rq_body rq));
    match payload with
    | PDict values => Ok values
    | _ => Raise (ConfigError "request body must be a JSON object")
    end.

(** [app.py:367-372 BenchmarkHandler._send_artifact] *)
Definition artifact_response (run_id name content_type filename : string) : prog envE response :=
  data ← artifact st run_id name; Ret (download_response data content_type filename).

(** The downloads of a run.
    [app.py:425-429 BenchmarkHandler.do_GET] *)
Definition artifact_options (run_id name : string) : option (string * string) :=
  alist_get name
    [("summary.json", ("application/json", run_id +:+ "-summary.json"));
     ("business.csv", ("text/csv", run_id +:+ "-business.csv"));
     ("artifacts.zip", ("application/zip", run_id +:+ "-artifacts.zip"))].

(** What follows [/api/runs]. *)
Definition below_runs (parts : list string) : option (list string) :=
  if decide (take 2 parts = ["api"; "runs"]) then Some (drop 2 parts) else None.

(** The response of a GET, or the exception of its branch.
    [app.py:391-435 BenchmarkHandler.do_GET] *)
Definition get_route (parts : list string) : prog httpE response :=
  if decide (parts = []) then Ret page_response
  else if decide (parts = ["healthz"]) then Ret (json_response 200 (PDict [("status", PStr "ok")]))
  else if decide (parts = ["readyz"]) then
    ready ← perform HReady;
    Ret (json_response (if (ready : bool) then 200 else 503)
      (PDict [("status", PStr (if ready then "ok" else "dependencies unavailable"))]))
  else if decide (parts = ["api"; "info"]) then
    a ← lift (manager_application application);
    Ret (json_response 200 (PDict [("application_type", PStr a)]))
  else if decide (parts = ["api"; "runs"]) then
    on_env (runs ← list_runs st; Ret (json_response 200 (PList runs)))
  else if decide (parts = ["api"; "runs"; "artifacts.zip"]) then
    on_env (data ← combined_artifacts zip_read zip_write st;
            Ret (download_response data "application/zip" "benchmark-runs.zip"))
  else
    match below_runs parts with
    | Some [run_id] => on_env (record ← details st run_id; Ret (json_response 200 record))
    | Some [run_id; name] =>
        match artifact_options run_id name with
        | None => Ret (error_response 404 "unknown artifact")
        | Some (content_type, filename) => on_env (artifact_response run_id name content_type filename)
        end
    | _ => Ret (error_response 404 "not found")
    end.

(** [app.py:436-439 BenchmarkHandler.do_GET] *)
Definition get_error (e : exn) : response :=
  match e with
  | RunNotFound _ => error_response 404 "run or artifact not found"
  | e => error_response 500 (exn_str e)
  end.

(** A branch sends its response; an exception of the branch, a failed send
    included, is answered by its error response.  The request target is split
    before the [try]. *)
Definition answered (route : prog httpE response) (on_error : exn → response) : prog httpE unit :=
  r ← prog_try (resp ← route; call (HSend resp));
  match r with
  | Ok _ => Ret tt
  | Raise e => call (HSend (on_error e))
  end.

(** [app.py:388-439 BenchmarkHandler.do_GET] *)
Definition do_GET (rq : request) : prog httpE unit :=
  parts ← lift (parts rq); answered (get_route parts) get_error.

Definition valid_run_ids (v : pyval) : option (list pyval) :=
  match v with
  | PList l =>
      if (match l with [] => true | _ => false end) || (1000 <? length l)%nat
         || existsb (λ id, negb match id with PStr _ => true | _ => false end) l
      then None else Some l
  | _ => None
  end.

(** The response of a POST, or the exception of its branch.
    [app.py:444-474 BenchmarkHandler.do_POST] *)
Definition post_route (rq : request) (parts : list string) : prog envE response :=
  if decide (parts = ["api"; "runs"; "summaries.zip"]) then
    values ← lift (read_json_object rq);
    match valid_run_ids (default PNone (alist_get "run_ids" values)) with
    | None => Throw (ConfigError "run_ids must be a non-empty list of at most 1000 strings")
    | Some run_ids =>
        data ← combined_summaries zip_write st run_ids;
        Ret (download_response data "application/zip" "benchmark-summaries.zip")
    end
  else if decide (parts = ["api"; "runs"]) then
    values ← lift (read_json_object rq);
    record ← start bracket_ok st application values; Ret (json_response 201 record)
  else
    match below_runs parts with
    | Some [run_id; action] =>
        if String.eqb action "stop" then record ← stop st run_id; Ret (json_response 202 record)
        else Ret (error_response 404 "not found")
    | _ => Ret (error_response 404 "not found")
    end.

(** [app.py:475-482 BenchmarkHandler.do_POST] *)
Definition post_error (e : exn) : response :=
  match e with
  | ConfigError _ | JSONDecodeError _ => error_response 400 (exn_str e)
  | RunConflict _ => error_response 409 (exn_str e)
  | RunNotFound _ => error_response 404 "run not found"
  | e => error_response 500 (exn_str e)
  end.

(** [app.py:441-482 BenchmarkHandler.do_POST] *)
Definition do_POST (rq : request) : prog httpE unit :=
  parts ← lift (parts rq); answered (on_env (post_route rq parts)) post_error.
End api.

(** ** The world of the API *)

Record http_world (B : Type) := HttpWorld {
  hw_env : world B;
  hw_sent : list response;
  hw_step : nat;
}.
Arguments HttpWorld {B} _ _ _.
Arguments hw_env {B} _.
Arguments hw_sent {B} _.
Arguments hw_step {B} _.

(** Whether the dependencies are ready and which sends fail. *)
Record http_oracle := HttpOracle {
  ho_ready : nat → bool;
  ho_send : nat → res unit;
}.

Definition http_handle {B} `{KVBucket B} (o : oracle) (ho : http_oracle) (X : Type) (op : httpE X)
  : http_world B → X * http_world B :=
  match op with
  | HEnv op => λ w,
      let '(x, w') := env_handle o _ op (hw_env w) in (x, HttpWorld w' (hw_sent w) (hw_step w))
  | HReady => λ w, (ho_ready ho (hw_step w), HttpWorld (hw_env w) (hw_sent w) (S (hw_step w)))
  | HSend r => λ w,
      let answer := ho_send ho (hw_step w) in
      (answer, HttpWorld (hw_env w)
         (if is_ok answer then hw_sent w ++ [r] else hw_sent w) (S (hw_step w)))
  end.

Section theory.
Context {B : Type} `{KVBucket B} (o : oracle) (ho : http_oracle).
Abbreviation run := (Program.run (http_handle o ho)).

Lemma run_on_env {A} (p : prog envE A) (w : http_world B) :
  run (on_env p) w =
    let '(r, w') := Program.run (env_handle o) p (hw_env w) in
    (r, HttpWorld w' (hw_sent w) (hw_step w)).
Proof using.
  revert w. induction p as [a|e|X op k IH]; intros w; simpl; [by destruct w..|].
  destruct (env_handle o X op (hw_env w)) as [x w']. by rewrite IH.
Qed.

(** With sends that work a branch is answered once: by its response or by
    the response of its exception. *)
Lemma run_answered (route : prog httpE response) on_error w :
  (∀ n, ho_send ho n = Ok tt) →
  let '(r, w') := run (answered route on_error) w in
  let '(rr, w1) := run route w in
  r = Ok tt ∧ hw_env w' = hw_env w1 ∧
  hw_sent w' = hw_sent w1 ++ [match rr with Ok resp => resp | Raise e => on_error e end].
Proof using.
  intros Hsend. unfold answered. rewrite run_bind, run_try, run_bind.
  destruct (run route w) as [[resp|e] w1]; rewrite run_call; simpl; by rewrite Hsend.
Qed.
End theory.

(** Statuses a program answers with. *)
Fixpoint answers (statuses : list Z) {E} (p : prog E response) : Prop :=
  match p with
  | Ret resp => rs_status resp ∈ statuses
  | Throw e => True
  | Vis op k => ∀ x, answers statuses (k x)
  end.

Lemma answers_bind {E A} statuses (p : prog E A) (f : A → prog E response) :
  (∀ a, answers statuses (f a)) → answers statuses (p ≫= f).
Proof. intros Hf. induction p as [a|e|X op k IH]; simpl; [apply Hf|done|intros x; apply IH]. Qed.

Lemma answers_on_env statuses (p : prog envE response) : answers statuses p → answers statuses (on_env p).
Proof. induction p as [a|e|X op k IH]; simpl; [done..|]. intros Hk x. by apply IH. Qed.

Lemma answers_run {E S} statuses (h : ∀ X, E X → S → X * S) (p : prog E response) s resp s' :
  answers statuses p → Program.run h p s = (Ok resp, s') → rs_status resp ∈ statuses.
Proof.
  revert s. induction p as [a|e|X op k IH]; intros s Hp; simpl; [by intros [= <- <-]|done|].
  destruct (h X op s) as [x s1]. apply IH, Hp.
Qed.

Lemma get_answers st app zr zw parts :
  answers [200; 404; 503]%Z (get_route st app zr zw parts).
Proof.
  unfold get_route, artifact_response. repeat case_match; try (simpl; set_solver);
    try apply answers_on_env; apply answers_bind; intros; simpl; try case_match; set_solver.
Qed.
Lemma post_answers bracket_ok st app zw loads rq parts :
  answers [200; 201; 202; 404]%Z (post_route bracket_ok st app zw loads rq parts).
Proof.
  unfold post_route. repeat case_match; try (simpl; set_solver);
    apply answers_bind; intros; repeat case_match; try (simpl; set_solver); try done;
    apply answers_bind; intros; simpl; set_solver.
Qed.

(** A branch that only uses the environment sends nothing itself. *)
Fixpoint silent {A} (p : prog httpE A) : Prop :=
  match p with
  | Vis op k => match op with HSend _ => False | _ => True end ∧ ∀ x, silent (k x)
  | _ => True
  end.

Lemma silent_on_env {A} (p : prog envE A) : silent (on_env p).
Proof. induction p as [a|e|X op k IH]; simpl; [done..|]. split; [done|]. apply IH. Qed.

Lemma get_silent st app zr zw parts : silent (get_route st app zr zw parts).
Proof.
  unfold get_route. repeat case_match; try done; try apply silent_on_env;
    try (by destruct (manager_application app)); done.
Qed.

Lemma silent_run {B} `{KVBucket B} o ho {A} (p : prog httpE A) (w : http_world B) :
  silent p → hw_sent (Program.run (http_handle o ho) p w).2 = hw_sent w.
Proof.
  revert w. induction p as [a|e|X op k IH]; intros w; simpl; [done..|].
  intros [Hop Hk]. destruct (http_handle o ho X op w) as [x w1] eqn:Hh. rewrite IH by done.
  destruct op; [|simpl in Hh; by simplify_eq|done]. simpl in Hh. destruct (env_handle _ _ _ _). by simplify_eq.
Qed.

(** A POST with its branch run in the environment. *)
Lemma run_post {B} `{KVBucket B} bracket_ok o ho st app zw loads rq ps (w : http_world B) :
  (∀ n, ho_send ho n = Ok tt) → parts bracket_ok rq = Ok ps →
  let answer := Program.run (env_handle o) (post_route bracket_ok st app zw loads rq ps) (hw_env w) in
  ∃ w', Program.run (http_handle o ho) (do_POST bracket_ok st app zw loads rq) w = (Ok tt, w') ∧
    hw_env w' = answer.2 ∧
    hw_sent w' = hw_sent w ++ [match answer.1 with Ok resp => resp | Raise e => post_error e end].
Proof.
  intros Hsend Hps. unfold do_POST. rewrite Hps. simpl.
  pose proof (run_answered o ho (on_env (post_route bracket_ok st app zw loads rq ps)) post_error w Hsend) as Hrun.
  destruct (Program.run _ (answered _ _) w) as [r w']. rewrite run_on_env in Hrun.
  destruct (Program.run (env_handle o) _ (hw_env w)) as [rr env]. destruct Hrun as (-> & ? & ?). by exists w'.
Qed.


(** What a submission answers when [start] raises. *)
Lemma post_runs_route {B} `{KVBucket B} bracket_ok o st app zw loads rq (w : world B) :
  Program.run (env_handle o) (post_route bracket_ok st app zw loads rq ["api"; "runs"]) w =
    match read_json_object loads rq with
    | Raise e => (Raise e, w)
    | Ok values =>
        match Program.run (env_handle o) (start bracket_ok st app values) w with
        | (Ok record, w') => (Ok (json_response 201 record), w')
        | (Raise e, w') => (Raise e, w')
        end
    end.
Proof.
  unfold post_route. rewrite decide_False, decide_True by done. rewrite run_bind, run_lift.
  destruct (read_json_object loads rq) as [values|e]; [|done]. by rewrite run_bind.
Qed.

(** A refused submission changes nothing.  A body that is not a small JSON
    object, or a configuration that is refused, is answered by 400 before the
    store is touched; while another run holds the lease a valid submission is
    answered by 409 and the store keeps its contents. *)
Theorem refused_submission {B} `{KVLaws B} bracket_ok o ho st app zw loads rq (w : http_world B) :
  calm o → usable st → (∀ n, ho_send ho n = Ok tt) → parts bracket_ok rq = Ok ["api"; "runs"] →
  ∃ w' resp, Program.run (http_handle o ho) (do_POST bracket_ok st app zw loads rq) w = (Ok tt, w') ∧
    hw_sent w' = hw_sent w ++ [resp] ∧
    (∀ e, read_json_object loads rq = Raise e →
       hw_env w' = hw_env w ∧
       match e with ConfigError _ | JSONDecodeError _ => rs_status resp = 400%Z | _ => True end) ∧
    (∀ values, read_json_object loads rq = Ok values →
       str_lower (str_strip (py_str (get_or values "workload" (PStr "")))) ≠ "fault_tolerance" →
       match (a ← manager_application app; from_request bracket_ok values a) with
       | Raise (ConfigError _) => hw_env w' = hw_env w ∧ rs_status resp = 400%Z
       | Ok c => ∀ m, float_of_Z (run_seconds c + 300) = Ok m →
           lease_busy (o_time o (2 + w_step (hw_env w))) (w_bucket (hw_env w)) →
           w_bucket (hw_env w') = w_bucket (hw_env w) ∧ rs_status resp = 409%Z
       | _ => True
       end).
Proof.
  intros Hcalm Hst Hsend Hps.
  destruct (run_post bracket_ok o ho st app zw loads rq _ w Hsend Hps) as (w' & Hrun & Henv & Hsent).
  rewrite post_runs_route in Henv, Hsent. eexists w', _. split_and!; [done|exact Hsent|..].
  { intros e He. rewrite He in *. split; [done|]. by destruct e. }
  intros values Hvalues Hwl. rewrite Hvalues in *.
  destruct (Program.run (env_handle o) (start _ _ _ _) (hw_env w)) as [rs ws] eqn:Hstart.
  revert Hstart. unfold start. rewrite (proj2 (String.eqb_neq _ _) Hwl), run_bind, run_lift.
  destruct (manager_application app) as [a|e]; cbn [mbind res_bind].
  2:{ intros [= <- <-]. by destruct e. }
  rewrite run_bind, run_lift. destruct (from_request bracket_ok values a) as [c|e].
  2:{ intros [= <- <-]. by destruct e. }
  intros Hstart m Hm Hbusy. unfold new_run_id in Hstart.
  rewrite run_bind, !run_perform_bind in Hstart. cbn [env_handle answer fst snd Program.run] in Hstart.
  cbv zeta in Hstart. rewrite run_bind in Hstart.
  match type of Hstart with context [acquire_lease st ?id _] =>
    destruct (run_acquire_busy o st Hcalm Hst id _ m (after 2 (hw_env w)) Hm Hbusy) as [msg Hacq] end.
  change (tick (tick (hw_env w))) with (after 2 (hw_env w)) in Hstart.
  rewrite Hacq in Hstart. injection Hstart as <- <-. by rewrite Henv.
Qed.

(** ** Requests the handler does not answer as it means to *)

(** The request target is split outside the [try]: a target with an
    unbalanced bracket ends the handler with an exception and no response. *)
Theorem bad_target_unanswered {B} `{KVBucket B} bracket_ok o ho st app zr zw loads (w : http_world B) rq :
  rq_target rq = "http://[/healthz" →
  Program.run (http_handle o ho) (do_GET bracket_ok st app zr zw rq) w = (Raise (ValueError "Invalid IPv6 URL"), w) ∧
  Program.run (http_handle o ho) (do_POST bracket_ok st app zw loads rq) w = (Raise (ValueError "Invalid IPv6 URL"), w).
Proof.
  intros Ht. unfold do_GET, do_POST, parts. rewrite Ht.
  change (urlparse_path bracket_ok "http://[/healthz") with (Raise (A := string) (ValueError "Invalid IPv6 URL")).
  by split.
Qed.

(** A malformed [Content-Length] is the server's failure, not a bad request. *)
Lemma bad_length_is_500 {B} `{KVBucket B} bracket_ok o st app zw loads (w : world B) :
  let rq := Request "/api/runs" (Some "ten") "" in
  match Program.run (env_handle o) (post_route bracket_ok st app zw loads rq ["api"; "runs"]) w with
  | (Raise e, w') => w' = w ∧ rs_status (post_error e) = 500%Z
  | _ => False
  end.
Proof. cbv zeta. rewrite post_runs_route. by vm_compute. Qed.

(** ** Concrete requests *)

Definition demo_rq : request := Request "/api/runs?x=1" (Some "2") "{}".
Definition demo_loads (s : string) : res pyval :=
  if String.eqb s "{}" then Ok (PDict demo_values) else Raise (JSONDecodeError "Expecting value").
Definition demo_sends : http_oracle := HttpOracle (λ _, true) (λ _, Ok tt).

Lemma refused_submission_witness :
  ∃ w' resp, Program.run (http_handle (demo_oracle []) demo_sends)
      (do_POST any_bracket demo_store "grpc" demo_zip_write demo_loads demo_rq)
      (HttpWorld running_world [] 0) = (Ok tt, w') ∧
    hw_sent w' = [resp] ∧ w_bucket (hw_env w') = w_bucket running_world ∧ rs_status resp = 409%Z.
Proof.
  destruct (refused_submission any_bracket (demo_oracle []) demo_sends demo_store "grpc"
    demo_zip_write demo_loads demo_rq (HttpWorld running_world [] 0) demo_calm demo_usable
    (λ _, eq_refl)) as (w' & resp & Hrun & Hsent & _ & Hbusy).
  - vm_compute. reflexivity.
  - exists w', resp. split; [exact Hrun|]. split; [exact Hsent|].
    specialize (Hbusy demo_values eq_refl).
    destruct Hbusy with (m := float_dec 510 0) as [Hb Hs].
    + vm_compute. discriminate.
    + vm_compute. reflexivity.
    + exists demo_lease. do 2 eexists. split; [vm_compute; reflexivity|]. split; vm_compute; reflexivity.
    + by split.
Defined.

