(* ===== verification/NatsEvents.v ===== *)
(** * The recommendation event worker (recommendationservice/nats_events.py)

    Three durable consumers feed the service: catalog events maintain the
    shared catalog (CatalogKV.v), cart and page-view events trigger a
    recommendation.  This file models the decoding of events, the batch
    filters that drop superseded triggers, the catalog cache, the published
    result, and the acknowledgement of every message.

    A message is acknowledged at the server; the log of the worker records
    acknowledgements and publications in order. *)

From S2P Require Import Prelude PyFloat PyValue Program KVStore CatalogKV.

(** [nats_events.py:41-46 CATALOG_SUBJECT] *)
Definition PAGE_VIEW_SUBJECT : string := "boutique.evt.storefront.page-viewed.v1".
Definition RESULT_SUBJECT : string := "boutique.evt.recommendation.generated.v1".
Definition MODEL_REVISION : string := "deterministic-sample-v1".
Definition CART_ADDED_SUBJECT : string := "boutique.evt.cart.item-added.v1".
Definition CART_CLEARED_SUBJECT : string := "boutique.evt.cart.cleared.v1".
Definition UPSERTED_SUBJECT : string := "boutique.evt.catalog.product-upserted.v1".
Definition REMOVED_SUBJECT : string := "boutique.evt.catalog.product-removed.v1".
Definition COMPLETED_SUBJECT : string := "boutique.evt.catalog.snapshot-completed.v1".

(** ** Messages

    The payload of an envelope by its protobuf type; [Unpack] into a type
    succeeds exactly on payloads of that type. *)
Inductive payload :=
  | CatalogProductUpserted (product_id : string) (product_version catalog_revision : Z)
  | CatalogProductRemoved (product_id : string) (product_version catalog_revision : Z)
  | CatalogSnapshotCompleted (catalog_revision product_count : Z) (checksum : string)
  | StorefrontPageViewed (session_id product_id : string)
  | CartItemAdded (user_id : string) (items : list string)
  | CartCleared (user_id : string)
  | OtherPayload (type_url : string).

Record envelope := Envelope {
  message_id : string;
  aggregate_type : string;
  aggregate_version : Z;
  occurred_seconds : Z;
  occurred_nanos : Z;
  correlation_id : string;
  traceparent : string;
  tracestate : string;
  data : payload;
}.

(** A delivery of a message; [m_token] is its reply subject, which
    identifies the delivery. *)
Record message := Message {
  m_token : nat;
  m_subject : string;
  m_data : string;
}.

#[export] Instance payload_eq_dec : EqDecision payload.
Proof. solve_decision. Defined.
#[export] Instance envelope_eq_dec : EqDecision envelope.
Proof. solve_decision. Defined.
#[export] Instance message_eq_dec : EqDecision message.
Proof. solve_decision. Defined.

(** [nats_events.py:54-63 _DecodedTrigger] *)
Record trigger := Trigger {
  t_message : message;
  t_envelope : envelope;
  t_session_id : string;
  t_excluded : list string;
  t_context_version : Z;
}.

(** A batch holds raw messages and triggers that are already decoded. *)
Inductive item :=
  | Raw (m : message)
  | Decoded (t : trigger).

(** The published recommendation. *)
Record generated := Generated {
  g_message_id : string;
  g_aggregate_id : string;
  g_aggregate_version : Z;
  g_correlation_id : string;
  g_causation_id : string;
  g_traceparent : string;
  g_tracestate : string;
  g_session_id : string;
  g_context_version : Z;
  g_product_ids : list string;
  g_occurred_at : Z;
  g_expires_at : Z;
}.

(** ** Environment *)

(** The state of [_CatalogCache].
    [nats_events.py:68-80 _CatalogCache.__init__] *)
Record catalog_cache := CatalogCache {
  cc_refresh_seconds : pyfloat;
  cc_value : option (list string * Z);
  cc_refreshed_at : pyfloat;
}.

Inductive recE : Type → Type :=
  | RKv {X} (op : bucketE X) : recE X
  | RMonotonic : recE pyfloat
  | RCacheGet : recE catalog_cache
  | RCacheSet (c : catalog_cache) : recE unit
  | RPublish (subject : string) (result : generated) : recE (res unit)
  | RAck (m : message) : recE (res unit)
  | RNak (m : message) : recE (res unit).

(** Programs over the bucket are programs of the worker. *)
Definition on_bucket {A} : prog bucketE A → prog recE A :=
  fix go p := match p with
    | Ret a => Ret a
    | Throw e => Throw e
    | Vis op k => Vis (RKv op) (λ x, go (k x))
    end.

(** ** Settings *)

(** [nats_events.py:108-116 _duration] *)
Definition duration (name : string) (value : option string) (fallback : pyfloat) : res pyfloat :=
  match value with
  | None => Ok fallback
  | Some value =>
      if String.eqb value "" then Ok fallback
      else
        let units := [("ms", float_dec 1 (-3)); ("s", float_dec 1 0); ("m", float_dec 60 0)] in
        match list_find (λ u, str_endswith u.1 value = true) units with
        | Some (_, (suffix, multiplier)) =>
            x ← float_of_str (String.substring 0 (String.length value - String.length suffix) value);
            Ok (fmul x multiplier)
        | None => Raise (ValueError ("invalid duration in " +:+ name))
        end
  end.

(** [nats_events.py:119-121 _integer] *)
Definition integer (value : option string) (fallback : Z) : res Z :=
  match value with
  | None => Ok fallback
  | Some value => if String.eqb value "" then Ok fallback else int_of_str value
  end.

Section worker.
(** Generated or third-party code: the envelope parser of protobuf, the
    conversion of a protobuf timestamp to microseconds (which refuses
    timestamps out of range), SHA-256, UUID version 5 in the URL namespace,
    and the sampling generator. *)
Context (parse : string → res envelope) (to_datetime : Z → Z → res Z).
Context (sha256 : string → list Z) (uuid5 : string → string).
Context (sample : string → list string → nat → list string).

(** The first eight bytes of the digest as a big-endian integer. *)
Definition big_endian (bytes : list Z) : Z := foldl (λ acc b, acc * 256 + b)%Z 0%Z bytes.

(** [nats_events.py:124-131 _context_version] *)
Definition context_version (e : envelope) : Z :=
  if String.eqb (aggregate_type e) "storefront-session" && negb (aggregate_version e =? 0)%Z
  then aggregate_version e
  else if negb (occurred_seconds e =? 0)%Z
  then (occurred_seconds e * 1000000000 + occurred_nanos e)%Z
  else
    let version := Z.land (big_endian (take 8 (sha256 (message_id e)))) 9223372036854775807 in
    if (version =? 0)%Z then 1%Z else version.

(** [nats_events.py:134-135 _message_id] *)
Definition result_message_id (parts : list string) : string :=
  uuid5 (str_join (String (Ascii.ascii_of_nat 0) "") parts).

(** [nats_events.py:151-154 _trigger_time] *)
Definition trigger_time (e : envelope) : res Z :=
  if negb (occurred_seconds e =? 0)%Z || negb (occurred_nanos e =? 0)%Z
  then to_datetime (occurred_seconds e) (occurred_nanos e)
  else Ok 0%Z.

(** [nats_events.py:334-362 _decode_trigger] *)
Definition decode_trigger (m : message) : res trigger :=
  e ← parse (m_data m);
  fields ←
    (if String.eqb (m_subject m) PAGE_VIEW_SUBJECT then
       match data e with
       | StorefrontPageViewed session product =>
           if String.eqb session "" then Raise (ValueError "page-view payload is invalid")
           else Ok (session, if String.eqb product "" then [] else [product])
       | _ => Raise (ValueError "page-view payload is invalid")
       end
     else if String.eqb (m_subject m) CART_ADDED_SUBJECT then
       match data e with
       | CartItemAdded user items =>
           if String.eqb user "" then Raise (ValueError "cart item payload is invalid")
           else Ok (user, items)
       | _ => Raise (ValueError "cart item payload is invalid")
       end
     else if String.eqb (m_subject m) CART_CLEARED_SUBJECT then
       match data e with
       | CartCleared user =>
           if String.eqb user "" then Raise (ValueError "cart clear payload is invalid")
           else Ok (user, [])
       | _ => Raise (ValueError "cart clear payload is invalid")
       end
     else Raise (ValueError "unsupported recommendation trigger subject"));
  Ok (Trigger m e fields.1 fields.2 (context_version e)).

(** ** Catalog events *)

(** [nats_events.py:267-306 _apply_catalog] *)
Definition apply_catalog (m : message) (max_attempts : nat) : prog recE string :=
  e ← lift (parse (m_data m));
  if String.eqb (message_id e) "" then Throw (ValueError "catalog event message ID is required")
  else if String.eqb (m_subject m) UPSERTED_SUBJECT then
    match data e with
    | CatalogProductUpserted id version revision =>
        if String.eqb id "" then Throw (ValueError "catalog product payload is invalid")
        else on_bucket (apply_product
          (ProductRecord id version revision false (message_id e) (aggregate_version e)) max_attempts)
    | _ => Throw (ValueError "catalog product payload is invalid")
    end
  else if String.eqb (m_subject m) REMOVED_SUBJECT then
    match data e with
    | CatalogProductRemoved id version revision =>
        if String.eqb id "" then Throw (ValueError "catalog removal payload is invalid")
        else on_bucket (apply_product
          (ProductRecord id version revision true (message_id e) (aggregate_version e)) max_attempts)
    | _ => Throw (ValueError "catalog removal payload is invalid")
    end
  else if String.eqb (m_subject m) COMPLETED_SUBJECT then
    match data e with
    | CatalogSnapshotCompleted revision count checksum =>
        on_bucket (apply_snapshot
          (SnapshotRecord revision count checksum (message_id e) (aggregate_version e)) max_attempts)
    | _ => Throw (ValueError "catalog snapshot payload is invalid")
    end
  else Ret "ignored".

(** A new cache; [refresh_seconds] is the configured interval.
    [nats_events.py:68-80 _CatalogCache.__init__] *)
Definition new_cache (refresh_seconds : pyfloat) : res catalog_cache :=
  if fltb refresh_seconds (float_dec 0 0)
  then Raise (ValueError "RECOMMENDATION_CATALOG_CACHE_REFRESH must not be negative")
  else Ok (CatalogCache refresh_seconds None (float_dec 0 0)).

(** [nats_events.py:104-105 _CatalogCache.invalidate] *)
Definition invalidate : prog recE unit :=
  c ← perform RCacheGet;
  perform (RCacheSet (CatalogCache (cc_refresh_seconds c) (cc_value c) (float_dec 0 0))).

(** [nats_events.py:309-313 _apply_catalog_and_invalidate] *)
Definition apply_catalog_and_invalidate (m : message) (max_attempts : nat) : prog recE string :=
  outcome ← apply_catalog m max_attempts;
  _ ← (if String.eqb outcome "ignored" then Ret tt else invalidate);
  Ret outcome.

(** ** Recommendations *)

Definition stale (c : catalog_cache) (now : pyfloat) : bool :=
  match cc_value c with
  | None => true
  | Some _ => fleb (cc_refresh_seconds c) (fsub now (cc_refreshed_at c))
  end.

(** The refresh under the lock.
    [nats_events.py:88-97 _CatalogCache.candidates] *)
Definition refresh : prog recE unit :=
  now ← perform RMonotonic;
  c ← perform RCacheGet;
  if stale c now then
    value ← on_bucket catalog_snapshot;
    now ← perform RMonotonic;
    c ← perform RCacheGet;
    perform (RCacheSet (CatalogCache (cc_refresh_seconds c) (Some value) now))
  else Ret tt.

(** [nats_events.py:82-102 _CatalogCache.candidates] *)
Definition cache_candidates (excluded : gset string) (seed model_revision : string) (limit : Z)
  : prog recE (list string * Z) :=
  now ← perform RMonotonic;
  c ← perform RCacheGet;
  _ ← (if stale c now then refresh else Ret tt);
  c ← perform RCacheGet;
  match cc_value c with
  | None => Throw (TypeError "cannot unpack non-iterable NoneType object")
  | Some (product_ids, catalog_revision) =>
      lift (select_candidates sample product_ids catalog_revision excluded seed model_revision limit)
  end.

(** [occurred_at + timedelta(minutes=10)], refused past the last microsecond
    of the year 9999. *)
Definition expiry (occurred_at : Z) : res Z :=
  if (253402300799999999 <? occurred_at + 600000000)%Z
  then Raise (OverflowError "date value out of range")
  else Ok (occurred_at + 600000000)%Z.

(** [nats_events.py:157-200 _publish_result] *)
Definition publish_result (e : envelope) (session_id : string) (excluded : list string)
  : prog recE unit :=
  if String.eqb (message_id e) "" || String.eqb session_id ""
  then Throw (ValueError "recommendation trigger identity is incomplete")
  else
    let version := context_version e in
    candidates ← cache_candidates (list_to_set excluded) (message_id e) MODEL_REVISION 5;
    occurred_at ← lift (trigger_time e);
    expires_at ← lift (expiry occurred_at);
    let id := result_message_id [RESULT_SUBJECT; message_id e; MODEL_REVISION; pretty candidates.2] in
    call (RPublish RESULT_SUBJECT (Generated id session_id version (correlation_id e) (message_id e)
      (traceparent e) (tracestate e) session_id version candidates.1
      occurred_at expires_at)).

(** [nats_events.py:316-331 _handle_trigger] *)
Definition handle_trigger (i : item) : prog recE unit :=
  match i with
  | Decoded t => publish_result (t_envelope t) (t_session_id t) (t_excluded t)
  | Raw m =>
      if negb (bool_decide (m_subject m ∈ [PAGE_VIEW_SUBJECT; CART_ADDED_SUBJECT; CART_CLEARED_SUBJECT]))
      then Ret tt
      else
        t ← lift (decode_trigger m);
        publish_result (t_envelope t) (t_session_id t) (t_excluded t)
  end.

(** ** Acknowledgement *)

Definition item_message (i : item) : message :=
  match i with Raw m => m | Decoded t => t_message t end.

(** [nats_events.py:365-385 _process_message] *)
Definition process_message (i : item) (handler : item → prog recE unit) : prog recE unit :=
  let m := item_message i in
  r ← prog_try (
    _ ← (match i with
         | Decoded t => Ret (t_envelope t)
         | Raw m => lift (parse (m_data m))
         end);
    _ ← handler i;
    call (RAck m));
  match r with
  | Ok _ => Ret tt
  | Raise _ => call (RNak m)
  end.

(** ** Batch filters *)

(** The newest trigger of each session so far, the messages to process as they
    are, and those to acknowledge without processing. *)
Record batch := Batch {
  b_newest : list (string * trigger);
  b_retained : list message;
  b_discarded : list message;
}.

Definition empty_batch : batch := Batch [] [] [].
Definition retain (m : message) (b : batch) : batch :=
  Batch (b_newest b) (b_retained b ++ [m]) (b_discarded b).
Definition discard (m : message) (b : batch) : batch :=
  Batch (b_newest b) (b_retained b) (b_discarded b ++ [m]).

(** The shared tail of both filters: keep the trigger with the greatest
    context version, the later one among equals.
    [nats_events.py:416-422 _fresh_page_views] *)
Definition admit_trigger (t : trigger) (b : batch) : batch :=
  match alist_get (t_session_id t) (b_newest b) with
  | None => Batch (alist_set (t_session_id t) t (b_newest b)) (b_retained b) (b_discarded b)
  | Some previous =>
      if (t_context_version previous <=? t_context_version t)%Z
      then Batch (alist_set (t_session_id t) t (b_newest b)) (b_retained b)
                 (b_discarded b ++ [t_message previous])
      else discard (t_message t) b
  end.

(** [(now - occurred_at).total_seconds() > max_age], in microseconds. *)
Definition too_old (now occurred_at : Z) (max_age : pyfloat) : res bool :=
  age ← int_truediv (now - occurred_at) 1000000;
  Ok (fltb max_age age).

(** [nats_events.py:401-422 _fresh_page_views] *)
Fixpoint page_view_loop (now : Z) (max_age : pyfloat) (messages : list message) (b : batch)
  : res batch :=
  match messages with
  | [] => Ok b
  | m :: messages =>
      match decode_trigger m with
      | Raise _ => page_view_loop now max_age messages (retain m b)
      | Ok t =>
          occurred_at ← trigger_time (t_envelope t);
          old ← (if (0 <? occurred_at)%Z then too_old now occurred_at max_age else Ok false);
          page_view_loop now max_age messages
            (if (old : bool) then discard m b else admit_trigger t b)
      end
  end.

Definition batch_items (b : batch) : list item :=
  (Raw <$> b_retained b) ++ (Decoded <$> (b_newest b).*2).

(** [asyncio.gather]: every acknowledgement is sent, and the first failure is
    raised. *)
Fixpoint ack_all (messages : list message) : prog recE unit :=
  match messages with
  | [] => Ret tt
  | m :: messages =>
      r ← perform (RAck m);
      others ← prog_try (ack_all messages);
      match r with Ok _ => lift others | Raise e => Throw e end
  end.

(** [nats_events.py:388-431 _fresh_page_views] *)
Definition fresh_page_views (now : Z) (max_age : pyfloat) (messages : list message)
  : prog recE (list item) :=
  if fltb max_age (float_dec 0 0)
  then Throw (ValueError "RECOMMENDATION_PAGE_VIEW_MAX_AGE must not be negative")
  else
    b ← lift (page_view_loop now max_age messages empty_batch);
    _ ← ack_all (b_discarded b);
    Ret (batch_items b).

(** [nats_events.py:439-459 _latest_cart_triggers] *)
Fixpoint cart_loop (messages : list message) (b : batch) : batch :=
  match messages with
  | [] => b
  | m :: messages =>
      if negb (bool_decide (m_subject m ∈ [CART_ADDED_SUBJECT; CART_CLEARED_SUBJECT]))
      then cart_loop messages (retain m b)
      else
        match decode_trigger m with
        | Raise _ => cart_loop messages (retain m b)
        | Ok t => cart_loop messages (admit_trigger t b)
        end
  end.

(** [nats_events.py:434-467 _latest_cart_triggers] *)
Definition latest_cart_triggers (messages : list message) : prog recE (list item) :=
  let b := cart_loop messages empty_batch in
  _ ← ack_all (b_discarded b);
  Ret (batch_items b).
End worker.

(** ** The world of the worker

    The bucket, the catalog cache, and what the worker sent: publications and
    acknowledgements in order.  The oracle decides the clock and which sends
    fail, by the number of operations performed so far. *)
Inductive sent :=
  | Published (subject : string) (result : generated)
  | Acked (m : message)
  | Nacked (m : message).

Record rec_oracle := RecOracle {
  ro_monotonic : nat → pyfloat;
  ro_publish : nat → res unit;
  ro_ack : nat → res unit;
  ro_nak : nat → res unit;
}.

Record rec_world (B : Type) := RecWorld {
  rw_bucket : B;
  rw_cache : catalog_cache;
  rw_sent : list sent;
  rw_step : nat;
}.
Arguments RecWorld {B} _ _ _ _.
Arguments rw_bucket {B} _.
Arguments rw_cache {B} _.
Arguments rw_sent {B} _.
Arguments rw_step {B} _.

Definition rec_handle {B} `{KVBucket B} (o : rec_oracle) (X : Type) (op : recE X)
  : rec_world B → X * rec_world B :=
  match op with
  | RKv op => λ w,
      let '(x, b) := bucket_handle _ op (rw_bucket w) in
      (x, RecWorld b (rw_cache w) (rw_sent w) (S (rw_step w)))
  | RMonotonic => λ w,
      (ro_monotonic o (rw_step w), RecWorld (rw_bucket w) (rw_cache w) (rw_sent w) (S (rw_step w)))
  | RCacheGet => λ w, (rw_cache w, w)
  | RCacheSet c => λ w, (tt, RecWorld (rw_bucket w) c (rw_sent w) (rw_step w))
  | RPublish subject result => λ w,
      let r := ro_publish o (rw_step w) in
      (r, RecWorld (rw_bucket w) (rw_cache w)
            (if is_ok r then rw_sent w ++ [Published subject result] else rw_sent w) (S (rw_step w)))
  | RAck m => λ w,
      let r := ro_ack o (rw_step w) in
      (r, RecWorld (rw_bucket w) (rw_cache w)
            (if is_ok r then rw_sent w ++ [Acked m] else rw_sent w) (S (rw_step w)))
  | RNak m => λ w,
      let r := ro_nak o (rw_step w) in
      (r, RecWorld (rw_bucket w) (rw_cache w)
            (if is_ok r then rw_sent w ++ [Nacked m] else rw_sent w) (S (rw_step w)))
  end.

(** ** Batch filters: lemmas *)

Section filters.
Context (parse : string → res envelope) (to_datetime : Z → Z → res Z) (sha256 : string → list Z).
Abbreviation decode := (decode_trigger parse sha256).

Lemma decode_message m t : decode m = Ok t → t_message t = m.
Proof. unfold decode_trigger. intros. by res_inv. Qed.

Lemma decode_session m t : decode m = Ok t → t_session_id t ≠ "".
Proof.
  unfold decode_trigger. intros H. res_inv.
  split_matches_in E0; simplify_eq/=; by apply String.eqb_neq.
Qed.

(** Every message a batch accounts for. *)
Definition batch_messages (b : batch) : list message :=
  b_retained b ++ (t_message <$> (b_newest b).*2) ++ b_discarded b.

Lemma batch_items_messages b :
  (item_message <$> batch_items b) ++ b_discarded b = batch_messages b.
Proof.
  unfold batch_items, batch_messages. rewrite fmap_app, <- !list_fmap_compose, <- app_assoc.
  by rewrite (list_fmap_ext _ id (b_retained b)), list_fmap_id by done.
Qed.

(** [late t] is what makes a filter drop a trigger by itself; [raw m] what
    makes it pass a message on undecoded. *)
Record batch_ok (late : trigger → bool) (raw : message → bool) (seen : list message) (b : batch)
  : Prop := {
  bo_messages : batch_messages b ≡ₚ seen;
  bo_sessions : NoDup (b_newest b).*1;
  bo_newest : ∀ s t, (s, t) ∈ b_newest b →
    s = t_session_id t ∧ decode (t_message t) = Ok t ∧ late t = false ∧ raw (t_message t) = false;
  bo_retained : b_retained b = filter (λ m, raw m = true) seen;
  bo_discarded : ∀ m, m ∈ b_discarded b → ∃ t, decode m = Ok t ∧
    (late t = true ∨ ∃ kept, alist_get (t_session_id t) (b_newest b) = Some kept ∧
       (t_context_version t ≤ t_context_version kept)%Z);
}.

Lemma batch_ok_empty late raw : batch_ok late raw [] empty_batch.
Proof.
  split; simpl; [done|apply NoDup_nil_2| | |]; try done; intros; set_solver.
Qed.

Lemma batch_ok_retain late raw seen b m :
  raw m = true → batch_ok late raw seen b → batch_ok late raw (seen ++ [m]) (retain m b).
Proof.
  intros Hraw [Hm Hs Hn Hr Hd]. split; simpl; try done.
  - rewrite <- Hm. unfold batch_messages. simpl. solve_Permutation.
  - by rewrite filter_app, filter_cons_True, Hr by done.
Qed.

Lemma batch_ok_late late raw seen b m t :
  decode m = Ok t → late t = true → raw m = false →
  batch_ok late raw seen b → batch_ok late raw (seen ++ [m]) (discard m b).
Proof.
  intros Ht Hlate Hraw [Hm Hs Hn Hr Hd]. split; simpl; try done.
  - rewrite <- Hm. unfold batch_messages. simpl. solve_Permutation.
  - rewrite filter_app, filter_cons_False, app_nil_r by congruence. done.
  - intros m' [Hm'| ->%list_elem_of_singleton]%elem_of_app; eauto.
Qed.

(** Replacing the value of a key swaps one element of the values. *)
Lemma alist_set_values_new (s : string) (t : trigger) l :
  alist_get s l = None → (alist_set s t l).*2 = l.*2 ++ [t].
Proof.
  induction l as [|[s' t'] l IH]; simpl; [done|]. case_decide; [done|].
  intros. rewrite !fmap_cons, IH by done. done.
Qed.
Lemma alist_set_values_old (s : string) (t t0 : trigger) l :
  alist_get s l = Some t0 → t0 :: (alist_set s t l).*2 ≡ₚ t :: l.*2.
Proof.
  induction l as [|[s' t'] l IH]; simpl; [done|]. case_decide.
  - intros [= ->]. simpl. constructor.
  - intros Hg. rewrite !fmap_cons, perm_swap, IH by done. constructor.
Qed.

Lemma alist_set_elem (s s' : string) (t t' : trigger) l :
  (s', t') ∈ alist_set s t l → (s', t') = (s, t) ∨ (s', t') ∈ l.
Proof.
  induction l as [|[s1 t1] l IH]; simpl; [set_solver|]. case_decide; set_solver.
Qed.

Lemma batch_ok_admit late raw seen b m t :
  decode m = Ok t → late t = false → raw m = false →
  batch_ok late raw seen b → batch_ok late raw (seen ++ [m]) (admit_trigger t b).
Proof.
  intros Ht Hlate Hraw [Hm Hs Hn Hr Hd].
  pose proof (decode_message _ _ Ht) as Hmsg.
  assert (filter (λ m, raw m = true) (seen ++ [m]) = filter (λ m, raw m = true) seen) as Hfilter.
  { rewrite filter_app, filter_cons_False, app_nil_r by congruence. done. }
  assert (∀ s' t', (s', t') ∈ alist_set (t_session_id t) t (b_newest b) →
    s' = t_session_id t' ∧ decode (t_message t') = Ok t' ∧ late t' = false
    ∧ raw (t_message t') = false) as Hn'.
  { intros s' t' [[= -> ->]|Hin]%alist_set_elem; [by rewrite Hmsg|auto]. }
  unfold admit_trigger.
  destruct (alist_get (t_session_id t) (b_newest b)) as [previous|] eqn:Hprev.
  - destruct (Hn _ _ (alist_get_Some_elem _ _ _ Hprev)) as (Hsess & Hdec & _).
    destruct (t_context_version previous <=? t_context_version t)%Z eqn:Hv; bool_to_prop.
    + split; simpl; try done; try (by apply alist_set_NoDup); try congruence.
      * rewrite <- Hm. unfold batch_messages. simpl. rewrite <- Hmsg.
        assert (t_message previous :: (t_message <$> (alist_set (t_session_id t) t (b_newest b)).*2)
                ≡ₚ t_message t :: (t_message <$> (b_newest b).*2)) as Hperm.
        { rewrite <- !fmap_cons. by apply fmap_Permutation, alist_set_values_old. }
        transitivity (b_retained b ++ (t_message previous
          :: (t_message <$> (alist_set (t_session_id t) t (b_newest b)).*2)) ++ b_discarded b);
          [solve_Permutation|]. rewrite Hperm. solve_Permutation.
      * intros m' [Hm'|Hm'%list_elem_of_singleton]%elem_of_app.
        -- destruct (Hd _ Hm') as (t' & Ht' & [?|(kept & Hkept & Hle)]); [eauto|].
           exists t'. split; [done|]. right. rewrite alist_get_set.
           case_decide as Heq; [|eauto]. rewrite Heq, Hprev in Hkept. simplify_eq.
           exists t. split; [done|lia].
        -- subst m'. exists previous. split; [done|]. right. exists t.
           by rewrite <- Hsess, alist_get_set_eq.
    + split; simpl; try done; try congruence.
      * rewrite <- Hm, Hmsg. unfold batch_messages. simpl. solve_Permutation.
      * intros m' [Hm'|Hm'%list_elem_of_singleton]%elem_of_app; [eauto|]. subst m'.
        exists t. rewrite Hmsg. split; [done|]. right. exists previous. split; [done|lia].
  - split; simpl; try done; try (by apply alist_set_NoDup); try congruence.
    + rewrite <- Hm. unfold batch_messages. simpl.
      rewrite alist_set_values_new by done. rewrite fmap_app. simpl. rewrite Hmsg.
      solve_Permutation.
    + intros m' Hm'. destruct (Hd _ Hm') as (t' & Ht' & [?|(kept & Hkept & Hle)]); [eauto|].
      exists t'. split; [done|]. right. rewrite alist_get_set.
      case_decide as Heq; [congruence|eauto].
Qed.

(** A page view past its age by itself; an unreadable time never counts. *)
Definition late_view (now : Z) (max_age : pyfloat) (t : trigger) : bool :=
  match trigger_time to_datetime (t_envelope t) with
  | Ok occurred_at =>
      (0 <? occurred_at)%Z
      && match too_old now occurred_at max_age with Ok old => old | Raise _ => false end
  | Raise _ => false
  end.

Definition undecodable (m : message) : bool := negb (is_ok (decode m)).
Definition not_cart (m : message) : bool :=
  negb (bool_decide (m_subject m ∈ [CART_ADDED_SUBJECT; CART_CLEARED_SUBJECT])) || undecodable m.

Lemma page_view_loop_ok now max_age messages seen b :
  (∀ m t, m ∈ messages → decode m = Ok t → is_ok (trigger_time to_datetime (t_envelope t)) = true) →
  batch_ok (late_view now max_age) undecodable seen b →
  ∃ b', page_view_loop parse to_datetime sha256 now max_age messages b = Ok b' ∧
    batch_ok (late_view now max_age) undecodable (seen ++ messages) b'.
Proof.
  revert seen b. induction messages as [|m messages IH]; intros seen b Htime Hb; simpl.
  { exists b. by rewrite app_nil_r. }
  rewrite cons_middle, app_assoc.
  destruct (decode m) as [t|e] eqn:Ht.
  - pose proof (Htime m t ltac:(left) Ht) as Hok.
    destruct (trigger_time to_datetime (t_envelope t)) as [at_|] eqn:Hat; [|done]. simpl.
    assert (undecodable m = false) as Hraw by (unfold undecodable; by rewrite Ht).
    assert (∃ old, (if (0 <? at_)%Z then too_old now at_ max_age else Ok false) = Ok old ∧
      late_view now max_age t = old) as (old & -> & Hlate).
    { unfold late_view, too_old. rewrite Hat. destruct (0 <? at_)%Z; simpl; eauto. }
    simpl. apply IH; [intros; eapply Htime; [by right|done]|].
    destruct old; [by eapply batch_ok_late|by apply batch_ok_admit].
  - apply IH; [intros; eapply Htime; [by right|done]|].
    apply batch_ok_retain; [|done]. unfold undecodable. by rewrite Ht.
Qed.

Lemma cart_loop_ok messages seen b :
  batch_ok (λ _, false) not_cart seen b →
  batch_ok (λ _, false) not_cart (seen ++ messages) (cart_loop parse sha256 messages b).
Proof.
  revert seen b. induction messages as [|m messages IH]; intros seen b Hb; simpl.
  { by rewrite app_nil_r. }
  rewrite cons_middle, app_assoc.
  destruct (bool_decide _) eqn:Hsubject; simpl.
  - destruct (decode m) as [t|e] eqn:Ht; apply IH.
    + apply batch_ok_admit; [done..| |done]. unfold not_cart, undecodable. by rewrite Hsubject, Ht.
    + apply batch_ok_retain; [|done]. unfold not_cart, undecodable. by rewrite Hsubject, Ht.
  - apply IH, batch_ok_retain; [|done]. unfold not_cart. by rewrite Hsubject.
Qed.
End filters.

(** ** Running the worker *)

Section worker_runs.
Context {B : Type} `{KVLaws B} (o : rec_oracle).
Implicit Types (w : rec_world B).
Abbreviation run := (run (rec_handle (B := B) o)).

Definition with_bucket (b : B) w : rec_world B → Prop :=
  λ w', rw_bucket w' = b ∧ rw_cache w' = rw_cache w ∧ rw_sent w' = rw_sent w.

Lemma run_on_bucket {A} (p : prog bucketE A) w :
  ∃ w', run (on_bucket p) w = ((Program.run bucket_handle p (rw_bucket w)).1, w') ∧
    with_bucket (Program.run bucket_handle p (rw_bucket w)).2 w w'.
Proof.
  revert w. induction p as [a|e|X op k IH]; intros w; simpl; [by exists w|by exists w|].
  destruct (bucket_handle X op (rw_bucket w)) as [x b].
  destruct (IH x (RecWorld b (rw_cache w) (rw_sent w) (S (rw_step w)))) as (w' & -> & Hw).
  by exists w'.
Qed.

Lemma run_ack_all messages w :
  (∀ n, ro_ack o n = Ok tt) →
  run (ack_all messages) w =
    (Ok tt, RecWorld (rw_bucket w) (rw_cache w) (rw_sent w ++ (Acked <$> messages))
              (length messages + rw_step w)).
Proof.
  intros Hack. revert w. induction messages as [|m messages IH]; intros w; simpl.
  { rewrite app_nil_r. by destruct w. }
  rewrite Hack. simpl. rewrite run_bind, run_try, IH. simpl.
  rewrite <- app_assoc, Nat.add_succ_r. done.
Qed.
End worker_runs.

(** ** Publishing *)

Section publishing.
Context (to_datetime : Z → Z → res Z) (sha256 : string → list Z) (uuid5 : string → string)
  (sample : string → list string → nat → list string).

(** What a trigger publishes against a catalog snapshot: no clock, no
    randomness, no identity of the replica. *)
Definition recommendation (e : envelope) (session_id : string) (excluded : list string)
    (snapshot : list string * Z) : res generated :=
  let version := context_version sha256 e in
  candidates ← select_candidates sample snapshot.1 snapshot.2 (list_to_set excluded)
    (message_id e) MODEL_REVISION 5;
  occurred_at ← trigger_time to_datetime e;
  expires_at ← expiry occurred_at;
  Ok (Generated
    (result_message_id uuid5 [RESULT_SUBJECT; message_id e; MODEL_REVISION; pretty candidates.2])
    session_id version (correlation_id e) (message_id e) (traceparent e) (tracestate e)
    session_id version candidates.1 occurred_at expires_at).

Context {B : Type} `{KVLaws B} (o : rec_oracle).
Implicit Types (w : rec_world B).
Abbreviation run := (run (rec_handle (B := B) o)).

Lemma run_refresh fresh w :
  (Program.run bucket_handle catalog_snapshot (rw_bucket w)).1 = Ok fresh →
  ∃ snapshot w', run refresh w = (Ok tt, w') ∧ cc_value (rw_cache w') = Some snapshot ∧
    (snapshot = fresh ∨ cc_value (rw_cache w) = Some snapshot) ∧
    rw_bucket w' = rw_bucket w ∧ rw_sent w' = rw_sent w.
Proof.
  intros Hfresh.
  assert ((Program.run bucket_handle catalog_snapshot (rw_bucket w)).2 = rw_bucket w) as Hbucket
    by apply reads_only_run, catalog_snapshot_reads.
  unfold refresh. do 2 (rewrite run_bind; cbn [Program.run perform rec_handle rw_cache]).
  destruct (stale (rw_cache w) (ro_monotonic o (rw_step w))) eqn:Hs.
  - rewrite run_bind. set (w1 := RecWorld (rw_bucket w) _ _ _).
    destruct (run_on_bucket o catalog_snapshot w1) as (w2 & -> & Hb2 & Hc2 & Hs2).
    change (rw_bucket w1) with (rw_bucket w) in *. rewrite Hfresh.
    do 2 (rewrite run_bind; cbn [Program.run perform rec_handle rw_cache]).
    eexists fresh, _. split_and!; [done|done|by left|simpl; congruence|done].
  - unfold stale in Hs. destruct (cc_value (rw_cache w)) as [snapshot|] eqn:Hc; [|done].
    eexists snapshot, _. split_and!; [done|done|by right|done..].
Qed.

(** The snapshot the cache answers with is the one it holds or the one the
    bucket holds; reading it sends nothing and leaves the bucket alone. *)
Lemma run_cache_candidates fresh w :
  (Program.run bucket_handle catalog_snapshot (rw_bucket w)).1 = Ok fresh →
  ∃ snapshot w', (snapshot = fresh ∨ cc_value (rw_cache w) = Some snapshot) ∧
    (∀ excluded seed model limit,
      run (cache_candidates sample excluded seed model limit) w =
        (select_candidates sample snapshot.1 snapshot.2 excluded seed model limit, w')) ∧
    rw_bucket w' = rw_bucket w ∧ rw_sent w' = rw_sent w.
Proof.
  intros Hfresh. set (w1 := RecWorld (rw_bucket w) (rw_cache w) (rw_sent w) (S (rw_step w))).
  assert (∃ snapshot w',
    run (if stale (rw_cache w) (ro_monotonic o (rw_step w)) then refresh else Ret tt) w1
      = (Ok tt, w') ∧ cc_value (rw_cache w') = Some snapshot ∧
    (snapshot = fresh ∨ cc_value (rw_cache w) = Some snapshot) ∧
    rw_bucket w' = rw_bucket w ∧ rw_sent w' = rw_sent w) as ([ids rev] & w' & Hrun & Hc & Hor & Hb & Hs).
  { destruct (stale _ _) eqn:Hs; [by apply (run_refresh fresh w1)|].
    unfold stale in Hs. destruct (cc_value (rw_cache w)) as [snapshot|] eqn:Hc; [|done].
    exists snapshot, w1. split_and!; [done|done|by right|done..]. }
  exists (ids, rev), w'. split_and!; [done| |done..]. intros. unfold cache_candidates.
  do 2 (rewrite run_bind; cbn [Program.run perform rec_handle rw_cache]).
  rewrite run_bind. fold w1. rewrite Hrun.
  rewrite run_bind. cbn [Program.run perform rec_handle]. rewrite Hc. by rewrite run_lift.
Qed.

Lemma run_publish_result fresh e session_id excluded w :
  message_id e ≠ "" → session_id ≠ "" →
  (∀ n, ro_publish o n = Ok tt) →
  (Program.run bucket_handle catalog_snapshot (rw_bucket w)).1 = Ok fresh →
  ∃ snapshot w', (snapshot = fresh ∨ cc_value (rw_cache w) = Some snapshot) ∧
    rw_bucket w' = rw_bucket w ∧
    run (publish_result to_datetime sha256 uuid5 sample e session_id excluded) w =
      (match recommendation e session_id excluded snapshot with
       | Ok _ => Ok tt | Raise ex => Raise ex end, w') ∧
    rw_sent w' = rw_sent w ++
      match recommendation e session_id excluded snapshot with
      | Ok g => [Published RESULT_SUBJECT g] | Raise _ => [] end.
Proof.
  intros Hid Hsession Hpublish Hfresh.
  destruct (run_cache_candidates fresh w Hfresh) as (snapshot & w' & Hor & Hrun & Hb & Hs).
  exists snapshot.
  unfold publish_result, recommendation.
  rewrite (proj2 (String.eqb_neq _ _)) by done. rewrite (proj2 (String.eqb_neq _ _)) by done.
  cbn [orb]. rewrite run_bind, Hrun.
  destruct (select_candidates _ _ _ _ _ _) as [candidates|ex]; simpl.
  2:{ exists w'. by rewrite app_nil_r. }
  rewrite run_bind, run_lift. destruct (trigger_time to_datetime e) as [at_|ex]; simpl.
  2:{ exists w'. by rewrite app_nil_r. }
  rewrite run_bind, run_lift. destruct (expiry at_) as [expires|ex]; simpl.
  2:{ exists w'. by rewrite app_nil_r. }
  rewrite Hpublish. simpl. eexists. split_and!; [done| |done|]; simpl; congruence.
Qed.
End publishing.

(** ** The catalog consumer *)

(** The handler [_run] passes to the catalog consumer.
    [nats_events.py:626-629 _run] *)
Definition catalog_handler (parse : string → res envelope) (max_attempts : nat) (i : item)
  : prog recE unit :=
  match i with
  | Raw m => _ ← apply_catalog_and_invalidate parse m max_attempts; Ret tt
  | Decoded _ => Throw (OtherError "'_DecodedTrigger' object has no attribute 'data'")
  end.

(** The record a well-formed product message asks to store. *)
Definition product_event (parse : string → res envelope) (m : message) : option product_record :=
  match parse (m_data m) with
  | Raise _ => None
  | Ok e =>
      let record :=
        match data e with
        | CatalogProductUpserted id version revision =>
            if String.eqb (m_subject m) UPSERTED_SUBJECT
            then Some (ProductRecord id version revision false (message_id e) (aggregate_version e))
            else None
        | CatalogProductRemoved id version revision =>
            if String.eqb (m_subject m) REMOVED_SUBJECT
            then Some (ProductRecord id version revision true (message_id e) (aggregate_version e))
            else None
        | _ => None
        end in
      match record with
      | Some r =>
          if String.eqb (message_id e) "" || negb (is_ok (product_key (pr_product_id r)))
             || (pr_product_version r <=? 0)%Z
          then None else Some r
      | None => None
      end
  end.

Section catalog_consumer.
Context (parse : string → res envelope).
Context {B : Type} `{KVLaws B} (o : rec_oracle).
Implicit Types (w : rec_world B).
Abbreviation run := (run (rec_handle (B := B) o)).

Lemma spec_outcome_acted r cur : String.eqb (spec_outcome r cur) "ignored" = false.
Proof. unfold spec_outcome. by repeat case_match. Qed.

(** A product message the schema accepts reaches [apply_product]. *)
Lemma apply_catalog_event m n r :
  product_event parse m = Some r →
  apply_catalog parse m n = on_bucket (apply_product r n) ∧
  is_ok (product_key (pr_product_id r)) = true ∧
  (0 < pr_product_version r)%Z ∧ pr_source_event_id r ≠ "".
Proof.
  unfold product_event, apply_catalog. destruct (parse (m_data m)) as [e|]; [|done]. simpl.
  destruct (String.eqb_spec (message_id e) "") as [Hid|Hid].
  { intros Hr. exfalso. by destruct (data e); repeat case_match; simplify_eq/=. }
  destruct (data e) eqn:Hd; try done.
  - destruct (String.eqb (m_subject m) UPSERTED_SUBJECT) eqn:Hs; [|done]. simpl.
    destruct (String.eqb_spec product_id "") as [->|Hp]; [done|].
    destruct (is_ok (product_key product_id)) eqn:Hk; [|done]. simpl.
    destruct (Z.leb_spec product_version 0); [done|]. intros [= <-]. by split_and!.
  - destruct (String.eqb_spec (m_subject m) REMOVED_SUBJECT) as [Hs|]; [|done]. simpl.
    rewrite Hs. change (String.eqb REMOVED_SUBJECT UPSERTED_SUBJECT) with false. simpl.
    destruct (String.eqb_spec product_id "") as [->|Hp]; [done|].
    destruct (is_ok (product_key product_id)) eqn:Hk; [|done]. simpl.
    destruct (Z.leb_spec product_version 0); [done|]. intros [= <-]. by split_and!.
Qed.

(** Every other message on a product subject is refused before any write. *)
Lemma apply_product_invalid r n (b : B) :
  is_ok (product_key (pr_product_id r)) = false ∨ (pr_product_version r ≤ 0)%Z →
  ∃ e, Program.run bucket_handle (apply_product r n) b = (Raise e, b).
Proof.
  unfold apply_product. intros Hr. rewrite run_bind, run_lift.
  destruct (product_key _) as [key|e]; [|by eexists].
  destruct Hr as [?|Hv]; [done|].
  rewrite (proj2 (Z.leb_le _ _)) by done. by eexists.
Qed.

Lemma apply_catalog_refused m n w :
  m_subject m ∈ [UPSERTED_SUBJECT; REMOVED_SUBJECT] → product_event parse m = None →
  ∃ e w', run (apply_catalog parse m n) w = (Raise e, w') ∧
    with_bucket (rw_bucket w) w w'.
Proof.
  unfold product_event, apply_catalog. intros Hs Hnone.
  destruct (parse (m_data m)) as [e|e]; [|by eexists _, _]. simpl.
  destruct (String.eqb_spec (message_id e) "") as [Hid|Hid]; [by eexists _, _|].
  assert (∀ r, is_ok (product_key (pr_product_id r)) = false ∨ (pr_product_version r ≤ 0)%Z →
    ∃ e w', run (on_bucket (apply_product r n)) w = (Raise e, w') ∧
      with_bucket (rw_bucket w) w w') as Hinv.
  { intros r Hr. destruct (run_on_bucket o (apply_product r n) w) as (w' & Hrun & Hw).
    destruct (apply_product_invalid r n (rw_bucket w) Hr) as (ex & Hex).
    rewrite Hex in Hrun, Hw. by eexists _, _. }
  apply elem_of_cons in Hs as [Hs|Hs%list_elem_of_singleton]; rewrite Hs in *.
  - simpl in *. destruct (data e) eqn:Hd; try by eexists _, _.
    destruct (String.eqb product_id ""); [by eexists _, _|]. apply Hinv. simpl in *.
    destruct (is_ok _); [|by left]. simpl in *.
    destruct (Z.leb_spec product_version 0); [by right|done].
  - simpl in *. destruct (data e) eqn:Hd; try by eexists _, _.
    destruct (String.eqb product_id ""); [by eexists _, _|]. apply Hinv. simpl in *.
    destruct (is_ok _); [|by left]. simpl in *.
    destruct (Z.leb_spec product_version 0); [by right|done].
Qed.
End catalog_consumer.

(** ** Properties *)

(** The page-view filter accounts for every message of a batch exactly
    once: undecodable messages are passed on in order, each session keeps the
    single trigger of its greatest context version, and a view is acknowledged
    without being processed only when it is too old or superseded by the kept
    one.  Exactly the discarded messages are acknowledged. *)
Theorem page_view_filter_spec (parse : string → res envelope) (to_datetime : Z → Z → res Z)
    (sha256 : string → list Z) {B} `{KVLaws B} o now max_age messages (w : rec_world B) :
  fltb max_age (float_dec 0 0) = false → (∀ n, ro_ack o n = Ok tt) →
  (∀ m t, m ∈ messages → decode_trigger parse sha256 m = Ok t →
     is_ok (trigger_time to_datetime (t_envelope t)) = true) →
  ∃ b w', run (rec_handle o) (fresh_page_views parse to_datetime sha256 now max_age messages) w
      = (Ok (batch_items b), w') ∧
    batch_ok parse sha256 (late_view to_datetime now max_age) (undecodable parse sha256) messages b ∧
    (item_message <$> batch_items b) ++ b_discarded b ≡ₚ messages ∧
    rw_sent w' = rw_sent w ++ (Acked <$> b_discarded b) ∧
    rw_bucket w' = rw_bucket w ∧ rw_cache w' = rw_cache w.
Proof.
  intros Hage Hack Htime.
  destruct (page_view_loop_ok parse to_datetime sha256 now max_age messages [] empty_batch
    Htime (batch_ok_empty _ _ _ _)) as (b & Hloop & Hb). simpl in Hb.
  exists b. unfold fresh_page_views. rewrite Hage, run_bind, run_lift, Hloop.
  rewrite run_bind, run_ack_all by done. simpl. eexists. split_and!; [done|done| |done..].
  rewrite batch_items_messages. by eapply bo_messages.
Qed.

(** The cart filter accounts for every message of a batch exactly once,
    and keeps per user the single snapshot of the greatest context version;
    only superseded snapshots are acknowledged without being processed. *)
Theorem cart_filter_spec (parse : string → res envelope) (sha256 : string → list Z)
    {B} `{KVLaws B} o messages (w : rec_world B) :
  (∀ n, ro_ack o n = Ok tt) →
  ∃ b w', run (rec_handle o) (latest_cart_triggers parse sha256 messages) w
      = (Ok (batch_items b), w') ∧
    batch_ok parse sha256 (λ _, false) (not_cart parse sha256) messages b ∧
    (item_message <$> batch_items b) ++ b_discarded b ≡ₚ messages ∧
    rw_sent w' = rw_sent w ++ (Acked <$> b_discarded b) ∧
    rw_bucket w' = rw_bucket w ∧ rw_cache w' = rw_cache w.
Proof.
  intros Hack. pose proof (cart_loop_ok parse sha256 messages [] empty_batch
    (batch_ok_empty _ _ _ _)) as Hb. simpl in Hb.
  eexists _, _. unfold latest_cart_triggers. rewrite run_bind, run_ack_all by done. simpl.
  split_and!; [done|done| |done..].
  rewrite batch_items_messages. by eapply bo_messages.
Qed.

(** A message on a product subject is acknowledged exactly when the
    shared catalog has taken it: a well-formed event leaves the bucket holding
    the abstract catalog after the event, the cache invalidated and the
    message acknowledged; a malformed one changes nothing and is sent back
    for redelivery. *)
Theorem catalog_message_spec (parse : string → res envelope) {B} `{KVLaws B} o n m c
    (w : rec_world B) :
  (∀ k, ro_ack o k = Ok tt) → (∀ k, ro_nak o k = Ok tt) →
  m_subject m ∈ [UPSERTED_SUBJECT; REMOVED_SUBJECT] → represents c (rw_bucket w) →
  ∃ w', run (rec_handle o) (process_message parse (Raw m) (catalog_handler parse (S n))) w = (Ok tt, w') ∧
    match product_event parse m with
    | Some r =>
        represents (spec_apply r c).2 (rw_bucket w') ∧
        rw_cache w' = CatalogCache (cc_refresh_seconds (rw_cache w)) (cc_value (rw_cache w)) (float_dec 0 0) ∧
        rw_sent w' = rw_sent w ++ [Acked m]
    | None =>
        rw_bucket w' = rw_bucket w ∧ rw_cache w' = rw_cache w ∧ rw_sent w' = rw_sent w ++ [Nacked m]
    end.
Proof.
  intros Hack Hnak Hs Hrep. unfold process_message. rewrite run_bind, run_try, run_bind.
  cbn [item_message].
  destruct (product_event parse m) as [r|] eqn:Hr.
  - destruct (apply_catalog_event parse m (S n) r Hr) as (Happly & Hkey & Hver & Hid).
    destruct (product_key (pr_product_id r)) as [key|] eqn:Hk; [|done].
    destruct (run_apply_product r n (rw_bucket w) c key) as (b & Hrun & Hrep'); [done..|].
    destruct (run_on_bucket o (apply_product r (S n)) w) as (w1 & Hrun1 & Hb1 & Hc1 & Hs1).
    rewrite Hrun in Hrun1, Hb1. simpl in Hb1.
    unfold product_event in Hr. destruct (parse (m_data m)) as [e|] eqn:Hp; [|done].
    cbn [lift Program.run].
    rewrite run_bind. cbn [catalog_handler]. rewrite run_bind.
    unfold apply_catalog_and_invalidate. rewrite run_bind, Happly, Hrun1. cbn beta iota.
    simpl. rewrite spec_outcome_acted. simpl. rewrite Hack. simpl. eexists. split; [done|]. simpl.
    rewrite Hb1, Hc1, Hs1. by split_and!.
  - destruct (apply_catalog_refused parse o m (S n) w Hs Hr) as (ex & w1 & Hrun & Hb1 & Hc1 & Hs1).
    destruct (parse (m_data m)) as [e|e] eqn:Hp; cbn [lift Program.run].
    + rewrite run_bind. cbn [catalog_handler]. rewrite run_bind.
      unfold apply_catalog_and_invalidate. rewrite run_bind, Hrun. simpl. rewrite Hnak. simpl.
      eexists. split; [done|]. simpl. by rewrite Hb1, Hc1, Hs1.
    + simpl. rewrite Hnak. simpl. by eexists.
Qed.

(** A recommendation trigger publishes exactly one result, and that
    result is a function of the trigger and of one catalog snapshot, the
    cached one or the stored one: redelivering the trigger, on any replica and
    at any time, publishes the same message with the same identifier as long
    as the snapshot is the same.  A trigger whose time is unusable publishes
    nothing. *)
Theorem publish_result_spec (to_datetime : Z → Z → res Z) (sha256 : string → list Z)
    (uuid5 : string → string) (sample : string → list string → nat → list string)
    {B} `{KVLaws B} o fresh e session_id excluded (w : rec_world B) :
  message_id e ≠ "" → session_id ≠ "" → (∀ n, ro_publish o n = Ok tt) →
  (run bucket_handle catalog_snapshot (rw_bucket w)).1 = Ok fresh →
  ∃ snapshot w', (snapshot = fresh ∨ cc_value (rw_cache w) = Some snapshot) ∧
    rw_bucket w' = rw_bucket w ∧
    run (rec_handle o) (publish_result to_datetime sha256 uuid5 sample e session_id excluded) w =
      (match recommendation to_datetime sha256 uuid5 sample e session_id excluded snapshot with
       | Ok _ => Ok tt | Raise ex => Raise ex end, w') ∧
    rw_sent w' = rw_sent w ++
      match recommendation to_datetime sha256 uuid5 sample e session_id excluded snapshot with
      | Ok g => [Published RESULT_SUBJECT g] | Raise _ => [] end.
Proof. intros. by apply run_publish_result. Qed.

(** A page view that decodes but whose timestamp is out of range is not
    handled like a malformed one: the filter raises, nothing of the batch is
    acknowledged or sent back, and no message reaches a worker.  The comment
    beside the decoding promises normal redelivery of malformed events.
    (nats_events.py, [_fresh_page_views]: [_trigger_time] is outside the
    [try].) *)
Theorem bad_timestamp_escapes (parse : string → res envelope) (to_datetime : Z → Z → res Z)
    (sha256 : string → list Z) {B} `{KVBucket B} o now max_age m t ex messages (w : rec_world B) :
  fltb max_age (float_dec 0 0) = false →
  decode_trigger parse sha256 m = Ok t → trigger_time to_datetime (t_envelope t) = Raise ex →
  run (rec_handle o) (fresh_page_views parse to_datetime sha256 now max_age (m :: messages)) w
    = (Raise ex, w).
Proof.
  intros Hage Hdec Htime. unfold fresh_page_views. rewrite Hage. simpl.
  rewrite Hdec, Htime. done.
Qed.

(** ** Concrete inputs *)

Definition demo_envelope (id : string) (seconds : Z) (d : payload) : envelope :=
  Envelope id "" 0 seconds 0 "corr" "" "" d.
Definition demo_parse (s : string) : res envelope :=
  match s with
  | "view1" => Ok (demo_envelope "e1" 100 (StorefrontPageViewed "s" "p1"))
  | "view2" => Ok (demo_envelope "e2" 101 (StorefrontPageViewed "s" ""))
  | "added" => Ok (demo_envelope "e3" 100 (CartItemAdded "u" ["p1"; "p2"]))
  | "cleared" => Ok (demo_envelope "e4" 102 (CartCleared "u"))
  | "product" => Ok (demo_envelope "e5" 100 (CatalogProductUpserted "p1" 1 1))
  | _ => Raise (OtherError "Error parsing message")
  end%string.
Definition demo_datetime (seconds nanos : Z) : res Z := Ok (seconds * 1000000 + nanos / 1000)%Z.
Definition demo_sha (_ : string) : list Z := [].
Definition demo_sample (_ : string) (population : list string) (k : nat) : list string :=
  take k population.
Definition demo_rec_oracle : rec_oracle :=
  RecOracle (λ n, float_dec (Z.of_nat n) 0) (λ _, Ok tt) (λ _, Ok tt) (λ _, Ok tt).
Definition demo_rec_world (b : mem_bucket) : rec_world mem_bucket :=
  RecWorld b (CatalogCache (float_dec 1 0) None (float_dec 0 0)) [] 0.
Definition demo_message (token : nat) (subject d : string) : message := Message token subject d.
Definition demo_views : list message :=
  [demo_message 0 PAGE_VIEW_SUBJECT "view1"; demo_message 1 PAGE_VIEW_SUBJECT "junk";
   demo_message 2 PAGE_VIEW_SUBJECT "view2"].
Definition demo_carts : list message :=
  [demo_message 0 CART_CLEARED_SUBJECT "cleared"; demo_message 1 CART_ADDED_SUBJECT "added"].
Definition demo_stored_catalog : mem_bucket :=
  MemBucket 2 {[ CATALOG_KEY := (snapshot_json (SnapshotRecord 7 1 "" "s1" 1), 1%Z);
                 CATALOG_INDEX_KEY := (index_json ["p1"], 2%Z) ]}.

Lemma page_view_filter_spec_witness :
  ∃ b w', run (rec_handle demo_rec_oracle)
      (fresh_page_views demo_parse demo_datetime demo_sha 103000000 (float_dec 5 0) demo_views)
      (demo_rec_world mem_empty) = (Ok (batch_items b), w') ∧
    batch_ok demo_parse demo_sha (late_view demo_datetime 103000000 (float_dec 5 0))
      (undecodable demo_parse demo_sha) demo_views b ∧
    (item_message <$> batch_items b) ++ b_discarded b ≡ₚ demo_views ∧
    rw_sent w' = [] ++ (Acked <$> b_discarded b) ∧
    rw_bucket w' = mem_empty ∧ rw_cache w' = rw_cache (demo_rec_world mem_empty).
Proof.
  apply (page_view_filter_spec demo_parse demo_datetime demo_sha demo_rec_oracle 103000000
    (float_dec 5 0) demo_views (demo_rec_world mem_empty)).
  - reflexivity.
  - reflexivity.
  - intros m t _ _. unfold trigger_time, demo_datetime. by destruct (_ || _).
Defined.

Lemma cart_filter_spec_witness :
  ∃ b w', run (rec_handle demo_rec_oracle) (latest_cart_triggers demo_parse demo_sha demo_carts)
      (demo_rec_world mem_empty) = (Ok (batch_items b), w') ∧
    batch_ok demo_parse demo_sha (λ _, false) (not_cart demo_parse demo_sha) demo_carts b ∧
    (item_message <$> batch_items b) ++ b_discarded b ≡ₚ demo_carts ∧
    rw_sent w' = [] ++ (Acked <$> b_discarded b) ∧
    rw_bucket w' = mem_empty ∧ rw_cache w' = rw_cache (demo_rec_world mem_empty).
Proof.
  apply (cart_filter_spec demo_parse demo_sha demo_rec_oracle demo_carts (demo_rec_world mem_empty)).
  reflexivity.
Defined.

Lemma catalog_message_spec_witness :
  ∃ w', run (rec_handle demo_rec_oracle)
      (process_message demo_parse (Raw (demo_message 0 UPSERTED_SUBJECT "product"))
         (catalog_handler demo_parse 1)) (demo_rec_world mem_empty) = (Ok tt, w') ∧
    represents (spec_apply (ProductRecord "p1" 1 1 false "e5" 0) (Catalog ∅ ∅)).2 (rw_bucket w') ∧
    rw_cache w' = CatalogCache (float_dec 1 0) None (float_dec 0 0) ∧
    rw_sent w' = [] ++ [Acked (demo_message 0 UPSERTED_SUBJECT "product")].
Proof.
  apply (catalog_message_spec demo_parse demo_rec_oracle 0
    (demo_message 0 UPSERTED_SUBJECT "product") (Catalog ∅ ∅) (demo_rec_world mem_empty)).
  - reflexivity.
  - reflexivity.
  - left.
  - apply represents_empty.
Defined.

Lemma publish_result_spec_witness :
  ∃ snapshot w', (snapshot = (["p1"], 7%Z) ∨ None = Some snapshot) ∧
    rw_bucket w' = demo_stored_catalog ∧
    run (rec_handle demo_rec_oracle)
      (publish_result demo_datetime demo_sha id demo_sample
         (demo_envelope "e4" 102 (CartCleared "u")) "u" []) (demo_rec_world demo_stored_catalog) =
      (match recommendation demo_datetime demo_sha id demo_sample
         (demo_envelope "e4" 102 (CartCleared "u")) "u" [] snapshot with
       | Ok _ => Ok tt | Raise ex => Raise ex end, w') ∧
    rw_sent w' = [] ++
      match recommendation demo_datetime demo_sha id demo_sample
        (demo_envelope "e4" 102 (CartCleared "u")) "u" [] snapshot with
      | Ok g => [Published RESULT_SUBJECT g] | Raise _ => [] end.
Proof.
  apply (publish_result_spec demo_datetime demo_sha id demo_sample demo_rec_oracle (["p1"], 7%Z)
    (demo_envelope "e4" 102 (CartCleared "u")) "u" [] (demo_rec_world demo_stored_catalog)).
  - discriminate.
  - discriminate.
  - reflexivity.
  - apply (bool_decide_unpack _). vm_compute. exact I.
Defined.
