(* ===== verification/NatsConsumer.v ===== *)
(** * The pull consumer (recommendationservice/nats_events.py, [_consume])

    One task fetches batches, filters them and puts the items on a bounded
    queue; a fixed number of workers take items and process them.  Every
    [await] of the event loop is a point where another task can act, so the
    consumer is a transition system whose actions are the pieces of code
    between two awaits.  [consume_step] executes one action; it is [None]
    where the code is blocked.

    The history fields [c_fetched], [c_settled] and [c_lost] record what was
    put in, what was processed to the end and what a failing worker held. *)

From S2P Require Import Prelude PyFloat PyValue Program.

Section consumer.
(** An item is whatever the queue holds: a message or a decoded trigger. *)
Context {T : Type}.

(** What the fetching task is doing: about to test the loop condition,
    waiting for a fetch, putting the rest of a batch, waiting for the queue to
    drain before leaving with an outcome, or finished. *)
Inductive phase :=
  | Checking
  | Fetching
  | Putting (rest : list T)
  | Joining (outcome : res unit)
  | Finished (outcome : res unit).

Record consumer := Consumer {
  c_limit : nat;              (* queue maxsize *)
  c_queue : list T;
  c_unfinished : nat;         (* the queue's count of unfinished tasks *)
  c_idle : nat;               (* workers waiting for an item *)
  c_active : list T;          (* items held by workers *)
  c_crashed : list exn;       (* workers that ended, callback not yet run *)
  c_failures : list exn;
  c_phase : phase;
  c_fetched : list T;
  c_settled : list T;
  c_lost : list T;
}.

(** [nats_events.py:482-506 _consume] *)
Definition consume_start (batch_size concurrency : Z) : res consumer :=
  _ ← raise_if ((batch_size <? 1) || (256 <? batch_size))%Z
        (ValueError "NATS_CONSUMER_BATCH_SIZE must be between 1 and 256");
  _ ← raise_if ((concurrency <? 1) || (64 <? concurrency))%Z
        (ValueError "NATS_CONSUMER_CONCURRENCY must be between 1 and 64");
  Ok (Consumer (Z.to_nat (batch_size * 2)) [] 0 (Z.to_nat concurrency) [] [] [] Checking [] [] []).

(** The outcome of a fetch, with the batch as its filter returned it. *)
Inductive fetched :=
  | FTimeout
  | FUnavailable
  | FBatch (items : res (list T)).

(** An action of the fetching task or of a worker; [Finish i r] is worker [i]
    returning from [_process_message] with [r]. *)
Inductive action :=
  | LoopHead (stop : bool)
  | Fetch (r : fetched)
  | Put
  | Join
  | Take
  | Finish (i : nat) (r : res unit)
  | Reap.

Definition set_phase (p : phase) (s : consumer) : consumer :=
  Consumer (c_limit s) (c_queue s) (c_unfinished s) (c_idle s) (c_active s) (c_crashed s)
    (c_failures s) p (c_fetched s) (c_settled s) (c_lost s).

(** The [finally] clause: wait for the queue only when no worker is known to
    have failed.  [nats_events.py:537-543 _consume] *)
Definition leave (outcome : res unit) (s : consumer) : consumer :=
  set_phase (match c_failures s with [] => Joining outcome | _ => Finished outcome end) s.

(** [nats_events.py:509-511 _consume] *)
Definition check_turn (stop : bool) (s : consumer) : consumer :=
  if stop then leave (Ok tt) s
  else match c_failures s with
    | e :: _ => leave (Raise e) s
    | [] => set_phase Fetching s
    end.

(** [nats_events.py:512-531 _consume] *)
Definition fetch_turn (r : fetched) (s : consumer) : consumer :=
  match r with
  | FTimeout => set_phase Checking s
  | FUnavailable => leave (Raise (RuntimeError "NATS durable subscription fetch failed")) s
  | FBatch (Ok []) => set_phase Checking s
  | FBatch (Ok items) =>
      Consumer (c_limit s) (c_queue s) (c_unfinished s) (c_idle s) (c_active s) (c_crashed s)
        (c_failures s) (Putting items) (c_fetched s ++ items) (c_settled s) (c_lost s)
  | FBatch (Raise e) => leave (Raise e) s
  end.

(** [nats_events.py:532-536 _consume] *)
Definition put_turn (rest : list T) (s : consumer) : option consumer :=
  match rest with
  | [] => Some (set_phase Checking s)
  | x :: rest =>
      if length (c_queue s) <? c_limit s
      then Some (Consumer (c_limit s) (c_queue s ++ [x]) (S (c_unfinished s)) (c_idle s) (c_active s)
             (c_crashed s) (c_failures s) (Putting rest) (c_fetched s) (c_settled s) (c_lost s))
      else None
  end%nat.

(** A worker.  [nats_events.py:490-496 _consume.worker] *)
Definition worker_take (s : consumer) : option consumer :=
  match c_idle s, c_queue s with
  | S idle, x :: queue =>
      Some (Consumer (c_limit s) queue (c_unfinished s) idle (c_active s ++ [x]) (c_crashed s)
        (c_failures s) (c_phase s) (c_fetched s) (c_settled s) (c_lost s))
  | _, _ => None
  end.

(** [nats_events.py:490-496 _consume.worker] *)
Definition worker_finish (i : nat) (r : res unit) (s : consumer) : option consumer :=
  match c_active s !! i with
  | None => None
  | Some x =>
      Some match r with
        | Ok _ => Consumer (c_limit s) (c_queue s) (pred (c_unfinished s)) (S (c_idle s))
            (delete i (c_active s)) (c_crashed s) (c_failures s) (c_phase s)
            (c_fetched s) (c_settled s ++ [x]) (c_lost s)
        | Raise e => Consumer (c_limit s) (c_queue s) (pred (c_unfinished s)) (c_idle s)
            (delete i (c_active s)) (c_crashed s ++ [e]) (c_failures s) (c_phase s)
            (c_fetched s) (c_settled s) (c_lost s ++ [x])
        end
  end.

(** [nats_events.py:498-501 _consume.completed] *)
Definition completed (s : consumer) : option consumer :=
  match c_crashed s with
  | [] => None
  | e :: crashed =>
      Some (Consumer (c_limit s) (c_queue s) (c_unfinished s) (c_idle s) (c_active s) crashed
        (c_failures s ++ [e]) (c_phase s) (c_fetched s) (c_settled s) (c_lost s))
  end.

(** [nats_events.py:508-543 _consume] *)
Definition consume_step (a : action) (s : consumer) : option consumer :=
  match c_phase s with
  | Finished _ => None
  | p =>
      match a, p with
      | LoopHead stop, Checking => Some (check_turn stop s)
      | Fetch r, Fetching => Some (fetch_turn r s)
      | Put, Putting rest => put_turn rest s
      | Join, Joining outcome =>
          if (c_unfinished s =? 0)%nat then Some (set_phase (Finished outcome) s) else None
      | Take, _ => worker_take s
      | Finish i r, _ => worker_finish i r s
      | Reap, _ => completed s
      | _, _ => None
      end
  end.

Definition consumes (s s' : consumer) : Prop := ∃ a, consume_step a s = Some s'.

Fixpoint run_actions (l : list action) (s : consumer) : option consumer :=
  match l with
  | [] => Some s
  | a :: l => match consume_step a s with Some s' => run_actions l s' | None => None end
  end.

(** ** Invariant *)

Definition putting (s : consumer) : list T :=
  match c_phase s with Putting rest => rest | _ => [] end.

Record consumer_ok (batch_size concurrency : nat) (s : consumer) : Prop := {
  co_limit : c_limit s = 2 * batch_size;
  co_queue : length (c_queue s) ≤ 2 * batch_size;
  co_workers : c_idle s + length (c_active s) + length (c_crashed s) + length (c_failures s)
    = concurrency;
  co_unfinished : c_unfinished s = length (c_queue s) + length (c_active s);
  co_lost : length (c_lost s) = length (c_crashed s) + length (c_failures s);
  co_items : c_fetched s ≡ₚ putting s ++ c_queue s ++ c_active s ++ c_settled s ++ c_lost s;
}.

Lemma consume_start_ok batch_size concurrency s :
  consume_start batch_size concurrency = Ok s →
  consumer_ok (Z.to_nat batch_size) (Z.to_nat concurrency) s ∧
  (1 ≤ batch_size ≤ 256 ∧ 1 ≤ concurrency ≤ 64)%Z ∧ c_phase s = Checking.
Proof.
  unfold consume_start, raise_if.
  destruct ((batch_size <? 1) || (256 <? batch_size))%Z eqn:E1; [done|]. simpl.
  destruct ((concurrency <? 1) || (64 <? concurrency))%Z eqn:E2; [done|]. simpl.
  intros [= <-]. bool_to_prop.
  split_and!; [|lia..|done]. split; simpl; try lia. done.
Qed.

(** Changing only the phase, between phases that put nothing. *)
Lemma set_phase_ok b c p s :
  consumer_ok b c s → putting s = [] → putting (set_phase p s) = [] →
  consumer_ok b c (set_phase p s).
Proof. intros [] Hs Hp. split; simpl; try done. by rewrite Hp, <- Hs. Qed.

Lemma leave_ok b c o s : consumer_ok b c s → putting s = [] → consumer_ok b c (leave o s).
Proof. intros. unfold leave. apply set_phase_ok; [done..|]. by destruct (c_failures s). Qed.

Lemma worker_finish_ok b c i r s s' :
  worker_finish i r s = Some s' → consumer_ok b c s → consumer_ok b c s'.
Proof.
  unfold worker_finish. destruct (c_active s !! i) as [x|] eqn:Hi; [|done].
  intros [= <-] [Hl Hq Hw Hu Hlost Hi'].
  pose proof (delete_Permutation _ _ _ Hi) as Hperm.
  pose proof (Permutation_length Hperm) as Hlen. simpl in Hlen.
  destruct r as [[]|e]; split; simpl; rewrite ?length_app; simpl; try lia.
  - etrans; [exact Hi'|]. unfold putting. simpl. rewrite Hperm at 1. solve_Permutation.
  - etrans; [exact Hi'|]. unfold putting. simpl. rewrite Hperm at 1. solve_Permutation.
Qed.

Lemma consume_step_ok b c a s s' :
  consume_step a s = Some s' → consumer_ok b c s → consumer_ok b c s'.
Proof.
  unfold consume_step. intros Hstep Hok.
  destruct (c_phase s) as [| |rest|o|o] eqn:Hp; [destruct a; simplify_eq/=..|done];
    try (by eapply worker_finish_ok);
    try (unfold completed in Hstep; destruct (c_crashed s) as [|e l] eqn:Hc; [done|];
         injection Hstep as <-; destruct Hok as [? ? Hw ? Hlost ?]; rewrite Hc in Hw, Hlost;
         split; simpl in *; rewrite ?length_app; simpl; try done; lia);
    try (unfold worker_take in Hstep; destruct (c_idle s) as [|n] eqn:Hi; [done|];
         destruct (c_queue s) as [|x q] eqn:Hq; [done|]; injection Hstep as <-;
         destruct Hok as [? Hle Hw Hu ? Hit]; rewrite Hq in Hle, Hu, Hit; rewrite Hi in Hw;
         split; simpl in *; rewrite ?length_app; simpl; try lia; try done;
         etrans; [exact Hit|]; unfold putting; simpl; solve_Permutation).
  - unfold check_turn. assert (putting s = []) by (unfold putting; by rewrite Hp).
    destruct stop; [by apply leave_ok|]. destruct (c_failures s) eqn:Hf.
    + by apply set_phase_ok.
    + by apply leave_ok.
  - assert (putting s = []) as Hput by (unfold putting; by rewrite Hp).
    destruct r as [| |[[|x items]|e]]; simpl;
      [by apply set_phase_ok|by apply leave_ok|by apply set_phase_ok| |by apply leave_ok].
    destruct Hok as [Hl Hq Hw Hu Hlost Hit]. split; simpl; try done.
    rewrite Hput in Hit. rewrite Hit. unfold putting. simpl. solve_Permutation.
  - unfold put_turn in Hstep. destruct rest as [|x rest].
    + injection Hstep as <-. apply set_phase_ok; [done| |done]. unfold putting. by rewrite Hp.
    + destruct (Nat.ltb_spec (length (c_queue s)) (c_limit s)); [|done]. injection Hstep as <-.
      destruct Hok as [Hl Hq Hw Hu Hlost Hit]. split; simpl; rewrite ?length_app; simpl; try lia; try done.
      unfold putting in Hit. rewrite Hp in Hit. etrans; [exact Hit|]. unfold putting. simpl. solve_Permutation.
  - destruct (Nat.eqb_spec (c_unfinished s) 0); [|done]. injection Hstep as <-.
    apply set_phase_ok; [done| |done]. unfold putting. by rewrite Hp.
Qed.

Lemma consumes_ok b c s s' : rtc consumes s s' → consumer_ok b c s → consumer_ok b c s'.
Proof. induction 1 as [|s s1 s' [a Ha] _ IH]; eauto using consume_step_ok. Qed.

Lemma run_actions_steps l s s' : run_actions l s = Some s' → rtc consumes s s'.
Proof.
  revert s. induction l as [|a l IH]; intros s Hs; simpl in Hs.
  - injection Hs as ->. apply rtc_refl.
  - destruct (consume_step a s) as [s1|] eqn:Ha; [|done].
    eapply rtc_l; [by exists a|]. by apply IH.
Qed.

(** ** Draining

    While the consumer waits for its queue, only workers move.  [drains] is a
    step of the leaving consumer in which no worker fails. *)
Definition drains (s s' : consumer) : Prop :=
  ∃ a, consume_step a s = Some s' ∧ match a with Finish _ (Raise _) => False | _ => True end.

Definition drain_measure (s : consumer) : nat :=
  2 * length (c_queue s) + length (c_active s) +
  match c_phase s with Joining _ => 1 | _ => 0 end.

Record draining (outcome : res unit) (s : consumer) : Prop := {
  dr_phase : c_phase s = Joining outcome ∨
    c_phase s = Finished outcome ∧ c_queue s = [] ∧ c_active s = [];
  dr_workers : 0 < c_idle s + length (c_active s);
  dr_healthy : c_crashed s = [];
  dr_unfinished : c_unfinished s = length (c_queue s) + length (c_active s);
}.

Lemma drains_step outcome s s' :
  draining outcome s → drains s s' →
  draining outcome s' ∧ drain_measure s' < drain_measure s ∧
  c_lost s' = c_lost s ∧
  c_settled s' ++ c_active s' ++ c_queue s' ≡ₚ c_settled s ++ c_active s ++ c_queue s.
Proof.
  intros [[Hp|(Hp & _)] Hw Hh Hu] (a & Hstep & Ha); unfold consume_step in Hstep; rewrite Hp in Hstep;
    [|done]. destruct a as [| | | | |i r|]; try done.
  - destruct (Nat.eqb_spec (c_unfinished s) 0) as [H0|]; [|done]. injection Hstep as <-.
    destruct (c_queue s) eqn:Hq; [|simpl in *; lia]. destruct (c_active s) eqn:Hact; [|simpl in *; lia].
    unfold drain_measure. simpl. rewrite Hq, Hact, Hp. simpl.
    split_and!; [|lia|done|by rewrite ?app_nil_r].
    split; simpl; rewrite ?Hq, ?Hact; simpl; try done. by right.
  - unfold worker_take in Hstep. destruct (c_idle s) as [|n] eqn:Hi; [done|].
    destruct (c_queue s) as [|x q] eqn:Hq; [done|]. injection Hstep as <-.
    unfold drain_measure. simpl. rewrite Hq, Hp, length_app. simpl.
    split_and!; [|lia|done|solve_Permutation].
    split; simpl; rewrite ?length_app; simpl in *; try lia; [by left|done].
  - unfold worker_finish in Hstep. destruct (c_active s !! i) as [x|] eqn:Hi; [|done].
    destruct r as [[]|]; [|done]. injection Hstep as <-.
    pose proof (delete_Permutation _ _ _ Hi) as Hperm.
    pose proof (Permutation_length Hperm) as Hlen. simpl in Hlen.
    unfold drain_measure. simpl. rewrite Hp.
    split_and!; [|lia|done|].
    2:{ transitivity (c_settled s ++ (x :: delete i (c_active s)) ++ c_queue s);
          [solve_Permutation|by rewrite <- Hperm]. }
    split; simpl; try lia; [by left|done].
  - unfold completed in Hstep. by rewrite Hh in Hstep.
Qed.

Lemma draining_stuck outcome s :
  draining outcome s → nf drains s →
  c_phase s = Finished outcome ∧ c_queue s = [] ∧ c_active s = [].
Proof.
  intros [[Hp|Hp] Hw Hh Hu] Hnf; [|done]. exfalso. apply Hnf.
  destruct (c_active s) as [|x active] eqn:Hact.
  - destruct (c_queue s) as [|y q] eqn:Hq.
    + eexists. exists Join. unfold consume_step. rewrite Hp, Hu. done.
    + destruct (c_idle s) as [|n] eqn:Hi; [simpl in Hw; lia|].
      eexists. exists Take. unfold consume_step, worker_take. rewrite Hp, Hi, Hq. done.
  - eexists. exists (Finish 0 (Ok tt)). unfold consume_step, worker_finish. rewrite Hp, Hact. done.
Qed.

Lemma drains_sn outcome s : draining outcome s → sn drains s.
Proof.
  remember (drain_measure s) as n eqn:Hn. revert s Hn.
  induction n as [n IH] using lt_wf_ind. intros s -> Hs. constructor. intros s' Hstep.
  destruct (drains_step _ _ _ Hs Hstep) as (Hs' & Hlt & _). by eapply IH.
Qed.

Lemma drains_steps outcome s s' :
  rtc drains s s' → draining outcome s →
  draining outcome s' ∧ c_lost s' = c_lost s ∧
  c_settled s' ++ c_active s' ++ c_queue s' ≡ₚ c_settled s ++ c_active s ++ c_queue s.
Proof.
  induction 1 as [s|s s1 s' Hstep _ IH]; intros Hs; [done|].
  destruct (drains_step _ _ _ Hs Hstep) as (Hs1 & _ & Hl & Hperm).
  destruct (IH Hs1) as (? & Hl' & Hperm'). split_and!; [done|congruence|by rewrite Hperm'].
Qed.
End consumer.
Arguments phase : clear implicits.
Arguments consumer : clear implicits.
Arguments action : clear implicits.
Arguments fetched : clear implicits.

(** ** Properties *)

(** C32: however fetching, putting, processing and failing are interleaved,
    the queue never exceeds twice the batch size, every worker is idle, busy
    or accounted for by a failure, at most [concurrency] items are in
    progress, and every fetched item is in exactly one place: waiting to be
    put, queued, in progress, processed to the end, or held by a failed
    worker. *)
Theorem consumer_invariant {T} batch_size concurrency (s0 s : consumer T) :
  consume_start batch_size concurrency = Ok s0 → rtc consumes s0 s →
  consumer_ok (Z.to_nat batch_size) (Z.to_nat concurrency) s ∧
  length (c_active s) ≤ Z.to_nat concurrency.
Proof.
  intros Hs0 Hsteps. destruct (consume_start_ok _ _ _ Hs0) as (Hok & _).
  pose proof (consumes_ok _ _ _ _ Hsteps Hok) as Hok'. split; [done|].
  pose proof (co_workers _ _ _ Hok'). lia.
Qed.

(** C33: a consumer that is leaving with healthy workers always terminates:
    every execution in which no further worker fails is finite, and when
    nothing can move any more the consumer has finished with the outcome it
    was leaving with, and every queued or running item was processed to the
    end. *)
Theorem drain_completes {T} batch_size concurrency (s0 s : consumer T) outcome :
  consume_start batch_size concurrency = Ok s0 → rtc consumes s0 s →
  c_phase s = Joining outcome → c_failures s = [] → c_crashed s = [] →
  sn drains s ∧
  ∀ s', rtc drains s s' → nf drains s' →
    c_phase s' = Finished outcome ∧ c_lost s' = c_lost s ∧
    c_settled s' ≡ₚ c_settled s ++ c_active s ++ c_queue s.
Proof.
  intros Hs0 Hsteps Hp Hf Hc. destruct (consume_start_ok _ _ _ Hs0) as (Hok & Hb & _).
  pose proof (consumes_ok _ _ _ _ Hsteps Hok) as Hok'.
  assert (draining outcome s) as Hs.
  { split; [by left| |done|by destruct Hok'].
    pose proof (co_workers _ _ _ Hok') as Hw. rewrite Hf, Hc in Hw. simpl in Hw. lia. }
  split; [by eapply drains_sn|]. intros s' Hrtc Hnf.
  destruct (drains_steps _ _ _ Hrtc Hs) as (Hs' & Hl & Hperm).
  destruct (draining_stuck _ _ Hs' Hnf) as (Hfin & Hq & Ha).
  rewrite Ha, Hq, !app_nil_r in Hperm. done.
Qed.

(** the same wait never ends when the workers fail while it lasts.  One
    batch of two items, one worker: the fetch then fails, the task decides to
    wait for its queue because no failure is recorded yet, and the only worker
    fails on the first item (its [nak] raises on the broken connection).  The
    second item stays queued, no action of any kind is possible, and the
    failure that should restart the subscription is never raised. *)
Theorem drain_deadlock :
  ∃ s0 s : consumer nat,
    consume_start 2 1 = Ok s0 ∧ rtc consumes s0 s ∧
    c_phase s = Joining (Raise (RuntimeError "NATS durable subscription fetch failed")) ∧
    c_queue s = [1] ∧ nf consumes s.
Proof.
  pose (s0 := Consumer (T := nat) 4 [] 0 1 [] [] [] Checking [] [] []).
  pose (l := [LoopHead false; Fetch (FBatch (Ok [0; 1])); Put; Put; Put; LoopHead false; Take;
              Fetch FUnavailable; Finish 0 (Raise (NatsError "ConnectionClosedError" None "")); Reap]).
  destruct (run_actions l s0) as [s|] eqn:Hs; [|vm_compute in Hs; discriminate].
  exists s0, s. split; [done|]. split; [by eapply run_actions_steps|].
  vm_compute in Hs. injection Hs as <-. split_and!; [done|done|].
  intros (s' & a & Ha). destruct a; vm_compute in Ha; done.
Qed.

(** ** Concrete inputs *)

Definition demo_actions : list (action nat) :=
  [LoopHead false; Fetch (FBatch (Ok [0; 1])); Put; Put; Put; Take; LoopHead true].

Definition demo_consumer : consumer nat :=
  default (Consumer 0 [] 0 0 [] [] [] Checking [] [] [])
    (run_actions demo_actions (Consumer 4 [] 0 1 [] [] [] Checking [] [] [])).

Lemma demo_consumer_reached :
  rtc consumes (Consumer 4 [] 0 1 [] [] [] Checking [] [] []) demo_consumer.
Proof. apply (run_actions_steps demo_actions). reflexivity. Qed.

Lemma consumer_invariant_witness :
  consumer_ok 2 1 demo_consumer ∧ length (c_active demo_consumer) ≤ 1.
Proof.
  apply (consumer_invariant 2 1 (Consumer 4 [] 0 1 [] [] [] Checking [] [] [])).
  - reflexivity.
  - apply demo_consumer_reached.
Defined.

Lemma drain_completes_witness :
  sn drains demo_consumer ∧
  ∀ s', rtc drains demo_consumer s' → nf drains s' →
    c_phase s' = Finished (Ok tt) ∧ c_lost s' = [] ∧ c_settled s' ≡ₚ [] ++ [0] ++ [1].
Proof.
  apply (drain_completes 2 1 (Consumer 4 [] 0 1 [] [] [] Checking [] [] [])).
  - reflexivity.
  - apply demo_consumer_reached.
  - reflexivity.
  - reflexivity.
  - reflexivity.
Defined.
