(* ===== verification/KubeJobs.v ===== *)
(** * Kubernetes Jobs (benchmarkservice/kubernetes_jobs.py)

    The controller submits one Job per run through the Kubernetes API, reads
    its state and deletes it.  The API server is not part of this repository:
    [JobAPI] is what the client sends to it, [JobAPILaws] the documented
    behaviour of its Job collection, and the theorems hold for every server
    that satisfies them.  A request can be applied although its answer is
    lost, which is what [create] has to cope with. *)

From S2P Require Import Prelude PyFloat PyValue PyUrl Program.
From Stdlib Require Import Ascii.

(** ** Names and paths *)

(** [str.isalnum] of one code point below 256: letters, digits, superscripts
    and fractions. *)
Definition chr_alnum (c : ascii) : bool :=
  let n := chr_code c in
  ((48 <=? n) && (n <=? 57) || (65 <=? n) && (n <=? 90) || (97 <=? n) && (n <=? 122)
   || (n =? 170) || (n =? 178) || (n =? 179) || (n =? 181) || (n =? 185) || (n =? 186)
   || (188 <=? n) && (n <=? 190) || (192 <=? n) && negb (n =? 215) && negb (n =? 247))%Z.

(** The last [n] elements: [l[-n:]]. *)
Definition last_n {A} (n : nat) (l : list A) : list A := drop (length l - n) l.

(** [kubernetes_jobs.py:19-21 job_name] *)
Definition job_name (run_id : string) : string :=
  let compact := chr_lower <$> filter (λ c, chr_alnum c = true) (chars run_id) in
  "benchmark-" +:+ of_chars (last_n 40 compact).

(** [urllib.parse.quote(s)]: letters, digits and [_.-~/] are kept, every other
    code point becomes the percent-encoding of its UTF-8 bytes. *)
Definition utf8_bytes (n : Z) : list Z :=
  if (n <? 128)%Z then [n] else [192 + n / 64; 128 + n mod 64]%Z.
Definition percent (b : Z) : string := "%" +:+ str_upper (hex_digit (b / 16) +:+ hex_digit (b mod 16)).
Definition chr_unreserved (c : ascii) : bool :=
  let n := chr_code c in
  ((48 <=? n) && (n <=? 57) || (65 <=? n) && (n <=? 90) || (97 <=? n) && (n <=? 122)
   || (n =? 95) || (n =? 46) || (n =? 45) || (n =? 126) || (n =? 47))%Z.
Definition quote (s : string) : string :=
  str_join "" ((λ c, if chr_unreserved c then String c ""
                     else str_join "" (percent <$> utf8_bytes (chr_code c))) <$> chars s).

(** ** The client *)

(** What a request to the API server comes back with. *)
Inductive answer :=
  | Response (status : Z) (body : res pyval)   (* [json.load] of the body *)
  | HttpError (code : Z) (detail : string)
  | Broken (e : exn).

Inductive kubeE : Type → Type :=
  | KRequest (method path : string) (body : option pyval) : kubeE answer
  | KImageGet : kubeE (option string)
  | KImageSet (image : string) : kubeE unit.

(** [kubernetes_jobs.py:24-28 KubernetesJobClient] *)
Record client := Client {
  k_namespace : string;
  k_base_url : string;
  k_token : string;
  k_node_pool_label : string;
  k_node_pool_name : string;
}.

Definition DEFAULT_NODE_POOL_LABEL : string := "eks.amazonaws.com/nodegroup".
Definition DEFAULT_NODE_POOL_NAME : string := "benchmark-pool".

Section client.
(** The process environment. *)
Context (environ : string → option string).

Definition setting (name fallback : string) : string :=
  let s := str_strip (default fallback (environ name)) in
  if String.eqb s "" then fallback else s.

(** The client and the configured image; [token] is the content of the
    service-account file.  [kubernetes_jobs.py:30-59 KubernetesJobClient.__init__] *)
Definition new_client (token : res string) : res (client * option string) :=
  let host := default "" (environ "KUBERNETES_SERVICE_HOST") in
  let port := default "443" (environ "KUBERNETES_SERVICE_PORT_HTTPS") in
  if String.eqb host "" then Raise (RuntimeError "Kubernetes service environment is unavailable")
  else
    token ← token;
    Ok (Client (default "default" (environ "POD_NAMESPACE"))
          ("https://" +:+ host +:+ ":" +:+ port) (str_strip token)
          (setting "BENCHMARK_JOB_NODE_POOL_LABEL" DEFAULT_NODE_POOL_LABEL)
          (setting "BENCHMARK_JOB_NODE_POOL_NAME" DEFAULT_NODE_POOL_NAME),
        environ "BENCHMARK_JOB_IMAGE").

(** [kubernetes_jobs.py:61-97 KubernetesJobClient._request] *)
Definition api_request (method path : string) (body : option pyval) : prog kubeE (option pyval) :=
  a ← perform (KRequest method path body);
  match a with
  | Broken e => Throw e
  | HttpError code detail =>
      if (code =? 404)%Z then Throw (JobNotFound path)
      else Throw (RuntimeError ("Kubernetes API " +:+ method +:+ " " +:+ path +:+ " returned "
             +:+ pretty code +:+ ": " +:+ detail))
  | Response status body =>
      if (status =? 204)%Z then Ret None
      else
        value ← lift body;
        match value with
        | PDict _ => Ret (Some value)
        | _ => Throw (RuntimeError ("Kubernetes API " +:+ method +:+ " " +:+ path
                 +:+ " returned non-object JSON"))
        end
  end.

Context (k : client).

(** [kubernetes_jobs.py:99-103 KubernetesJobClient.collection_path] *)
Definition collection_path : string :=
  "/apis/batch/v1/namespaces/" +:+ quote (k_namespace k) +:+ "/jobs".
Definition job_path (name : string) : string := collection_path +:+ "/" +:+ quote name.

(** [assert value is not None] *)
Definition expect_value (value : option pyval) : prog kubeE pyval :=
  match value with Some v => Ret v | None => Throw (OtherError "AssertionError") end.

(** The loop over the pod's containers.
    [kubernetes_jobs.py:117-120 KubernetesJobClient._own_image] *)
Fixpoint server_image (containers : list pyval) : res string :=
  match containers with
  | [] => Raise (RuntimeError "benchmark API pod has no server image")
  | container :: containers =>
      name ← py_get container "name" PNone;
      if negb (py_eqb name (PStr "server")) then server_image containers
      else
        image ← py_get container "image" PNone;
        if negb (py_truth image) then server_image containers
        else image ← py_item container "image"; Ok (py_str image)
  end.

(** [kubernetes_jobs.py:105-120 KubernetesJobClient._own_image] *)
Definition own_image : prog kubeE string :=
  let pod_name := default "" (environ "POD_NAME") in
  if String.eqb pod_name "" then Throw (RuntimeError "POD_NAME or BENCHMARK_JOB_IMAGE is required")
  else
    r ← api_request "GET" ("/api/v1/namespaces/" +:+ quote (k_namespace k) +:+ "/pods/"
          +:+ quote pod_name) None;
    value ← expect_value r;
    spec ← lift (py_get value "spec" (PDict []));
    containers ← lift (py_get spec "containers" (PList []));
    containers ← lift (py_iter containers);
    lift (server_image containers).

(** ** The Job *)

(** [kubernetes_jobs.py:130-135 KubernetesJobClient.create] *)
Definition job_labels (run_id : string) : pyval :=
  PDict [("app", PStr "benchmark-runner");
         ("app.kubernetes.io/component", PStr "load-generator");
         ("app.kubernetes.io/part-of", PStr "online-boutique");
         ("benchmark.run-id", PStr run_id)].

Definition env_value (name value : string) : pyval :=
  PDict [("name", PStr name); ("value", PStr value)].
Definition env_field (name field : string) : pyval :=
  PDict [("name", PStr name);
         ("valueFrom", PDict [("fieldRef", PDict [("fieldPath", PStr field)])])].

(** The environment of the runner, with the completion index of an Indexed
    Job.  [kubernetes_jobs.py:194-216 KubernetesJobClient.create] *)
Definition runner_env (run_id : string) (worker_count : Z) : list pyval :=
  [env_value "BENCHMARK_RUN_ID" run_id;
   env_value "BENCHMARK_WORKER_COUNT" (pretty worker_count);
   env_field "POD_NAMESPACE" "metadata.namespace";
   env_field "POD_NAME" "metadata.name"].

(** [kubernetes_jobs.py:295-308 KubernetesJobClient.create] *)
Definition index_env : pyval :=
  env_field "BENCHMARK_WORKER_INDEX"
    "metadata.annotations['batch.kubernetes.io/job-completion-index']".

(** [kubernetes_jobs.py:217-236 KubernetesJobClient.create] *)
Definition runner_env_from : list pyval :=
  [PDict [("configMapRef", PDict [("name", PStr "nats-client-config")])];
   PDict [("secretRef", PDict [("name", PStr "nats-credentials-benchmarkservice")])];
   PDict [("secretRef", PDict [("name", PStr "benchmark-metrics-auth"); ("optional", PBool true)])]].

(** [kubernetes_jobs.py:237-266 KubernetesJobClient.create] *)
Definition runner_limits : list (string * pyval) :=
  [("resources", PDict [
      ("requests", PDict [("cpu", PStr "250m"); ("memory", PStr "256Mi")]);
      ("limits", PDict [("cpu", PStr "2"); ("memory", PStr "2Gi")])]);
   ("securityContext", PDict [
      ("allowPrivilegeEscalation", PBool false);
      ("capabilities", PDict [("drop", PList [PStr "ALL"])]);
      ("readOnlyRootFilesystem", PBool true)]);
   ("volumeMounts", PList [
      PDict [("name", PStr "nats-ca"); ("mountPath", PStr "/etc/nats-ca"); ("readOnly", PBool true)];
      PDict [("name", PStr "work"); ("mountPath", PStr "/work")];
      PDict [("name", PStr "tmp"); ("mountPath", PStr "/tmp")]])].

(** [kubernetes_jobs.py:188-268 KubernetesJobClient.create] *)
Definition runner_container (image run_id : string) (worker_count : Z) (env : list pyval) : pyval :=
  PDict ([("name", PStr "runner"); ("image", PStr image);
          ("imagePullPolicy", PStr "IfNotPresent");
          ("command", PList [PStr "python"; PStr "job.py"]);
          ("env", PList env); ("envFrom", PList runner_env_from)] ++ runner_limits).

(** [kubernetes_jobs.py:153-187 KubernetesJobClient.create] *)
Definition pod_placement : list (string * pyval) :=
  [("affinity", PDict [("nodeAffinity", PDict [
      ("preferredDuringSchedulingIgnoredDuringExecution", PList [PDict [
         ("weight", PInt 100);
         ("preference", PDict [("matchExpressions", PList [PDict [
            ("key", PStr (k_node_pool_label k)); ("operator", PStr "In");
            ("values", PList [PStr (k_node_pool_name k)])]])])]])])]);
   ("tolerations", PList [PDict [
      ("key", PStr "workload"); ("operator", PStr "Equal");
      ("value", PStr "benchmark-runner"); ("effect", PStr "NoSchedule")]]);
   ("securityContext", PDict [
      ("fsGroup", PInt 1000); ("runAsGroup", PInt 1000); ("runAsNonRoot", PBool true);
      ("runAsUser", PInt 1000); ("seccompProfile", PDict [("type", PStr "RuntimeDefault")])])].

(** [kubernetes_jobs.py:269-282 KubernetesJobClient.create] *)
Definition pod_volumes : pyval :=
  PList [PDict [("name", PStr "nats-ca"); ("configMap", PDict [("name", PStr "nats-ca")])];
         PDict [("name", PStr "work"); ("emptyDir", PDict [("sizeLimit", PStr "5Gi")])];
         PDict [("name", PStr "tmp"); ("emptyDir", PDict [("sizeLimit", PStr "256Mi")])]].

(** [kubernetes_jobs.py:136-308 KubernetesJobClient.create] *)
Definition job_body (image run_id : string) (maximum_seconds worker_count : Z) : pyval :=
  let labels := job_labels run_id in
  let indexed := (1 <? worker_count)%Z in
  let env := runner_env run_id worker_count ++ (if indexed then [index_env] else []) in
  let pod := PDict ([("serviceAccountName", PStr "benchmark-runner");
                     ("restartPolicy", PStr "Never");
                     ("terminationGracePeriodSeconds", PInt 90)] ++ pod_placement ++
                    [("containers", PList [runner_container image run_id worker_count env]);
                     ("volumes", pod_volumes)]) in
  PDict [("apiVersion", PStr "batch/v1"); ("kind", PStr "Job");
         ("metadata", PDict [("name", PStr (job_name run_id)); ("labels", labels)]);
         ("spec", PDict ([("activeDeadlineSeconds", PInt maximum_seconds);
                          ("backoffLimit", PInt 0);
                          ("ttlSecondsAfterFinished", PInt 86400);
                          ("template", PDict [("metadata", PDict [("labels", labels)]);
                                              ("spec", pod)])] ++
                         (if indexed then [("completionMode", PStr "Indexed");
                                           ("completions", PInt worker_count);
                                           ("parallelism", PInt worker_count)] else [])))].

(** ** Operations *)

(** The state a Job object reports.
    [kubernetes_jobs.py:325-333 KubernetesJobClient.state] *)
Definition job_phase (value : option pyval) : res string :=
  match value with
  | None => Raise (OtherError "AssertionError")
  | Some value =>
      status ← py_get value "status" (PDict []);
      active ← (v ← py_get status "active" (PInt 0); py_int v);
      if negb (active =? 0)%Z then Ok "running" else
      succeeded ← (v ← py_get status "succeeded" (PInt 0); py_int v);
      if negb (succeeded =? 0)%Z then Ok "succeeded" else
      failed ← (v ← py_get status "failed" (PInt 0); py_int v);
      Ok (if negb (failed =? 0)%Z then "failed" else "pending")
  end.

(** [kubernetes_jobs.py:322-333 KubernetesJobClient.state] *)
Definition job_state (name : string) : prog kubeE string :=
  value ← api_request "GET" (job_path name) None;
  lift (job_phase value).

(** The POST, and the look at the Job when it fails.
    [kubernetes_jobs.py:309-320 KubernetesJobClient.create] *)
Definition submit_job (name : string) (job : pyval) : prog kubeE string :=
  r ← prog_try (api_request "POST" collection_path (Some job));
  match r with
  | Ok _ => Ret name
  | Raise create_error =>
      s ← prog_try (job_state name);
      match s with Ok _ => Ret name | Raise _ => Throw create_error end
  end.

(** [kubernetes_jobs.py:122-320 KubernetesJobClient.create] *)
Definition create_job (run_id : string) (maximum_seconds worker_count : Z) : prog kubeE string :=
  if (worker_count <? 1)%Z then Throw (ValueError "worker_count must be at least one")
  else
    configured ← perform KImageGet;
    image ← (if String.eqb (default "" configured) ""
             then image ← own_image; _ ← perform (KImageSet image); Ret image
             else Ret (default "" configured));
    submit_job (job_name run_id) (job_body image run_id maximum_seconds worker_count).

(** [kubernetes_jobs.py:335-352 KubernetesJobClient.delete] *)
Definition delete_job (name : string) : prog kubeE unit :=
  r ← prog_try (api_request "DELETE" (job_path name +:+ "?propagationPolicy=Background")
        (Some (PDict [("apiVersion", PStr "v1"); ("kind", PStr "DeleteOptions");
                      ("gracePeriodSeconds", PInt 75);
                      ("propagationPolicy", PStr "Background")])));
  match r with
  | Ok _ => Ret tt
  | Raise (JobNotFound _) => Ret tt
  | Raise e => Throw e
  end.
End client.

(** ** The server *)

(** A Job name the server routes on: letters, digits and hyphens. *)
Definition chr_name (c : ascii) : bool := chr_alnum c && (chr_code c <? 128)%Z || (chr_code c =? 45)%Z.
Definition valid_name (name : string) : Prop := only_chars (λ c, chr_name c = true) name.

Definition body_name (body : pyval) : option string :=
  match (m ← py_item body "metadata"; py_item m "name") with Ok (PStr n) => Some n | _ => None end.

Class JobAPI (S : Type) := {
  api_send : string → string → option pyval → S → answer * S;
  job_exists : string → S → Prop;
}.

(** What the API documents of a Job collection.  Any request can be answered
    by an error or not at all, whether or not it was applied. *)
Class JobAPILaws (k : client) (S : Type) `{JobAPI S} : Prop := {
  law_get path s : (api_send "GET" path None s).2 = s;
  law_get_job n s a : valid_name n → (api_send "GET" (job_path k n) None s).1 = a →
    (∀ status body, a = Response status body → job_exists n s) ∧
    (∀ detail, a = HttpError 404 detail → ¬ job_exists n s);
  law_post n body s a s' : valid_name n → body_name body = Some n →
    api_send "POST" (collection_path k) (Some body) s = (a, s') →
    (∀ m, m ≠ n → job_exists m s' ↔ job_exists m s) ∧
    (job_exists n s → job_exists n s') ∧
    (∀ status b, a = Response status b → job_exists n s');
  law_delete n body s a s' : valid_name n →
    api_send "DELETE" (job_path k n +:+ "?propagationPolicy=Background") (Some body) s = (a, s') →
    (∀ m, m ≠ n → job_exists m s' ↔ job_exists m s) ∧
    (∀ status b, a = Response status b → ¬ job_exists n s') ∧
    (∀ detail, a = HttpError 404 detail → ¬ job_exists n s');
}.

Definition kube_handle {S} `{JobAPI S} (X : Type) (op : kubeE X)
  : S * option string → X * (S * option string) :=
  match op with
  | KRequest method path body => λ w,
      let '(a, s) := api_send method path body w.1 in (a, (s, w.2))
  | KImageGet => λ w, (w.2, w)
  | KImageSet image => λ w, (tt, (w.1, Some image))
  end.

(** ** Names: lemmas *)

Lemma of_chars_inj l l' : of_chars l = of_chars l' → l = l'.
Proof. intros H. apply (f_equal chars) in H. by rewrite !chars_of_chars in H. Qed.

Lemma job_name_valid run_id :
  only_chars (λ c, (chr_code c < 128)%Z) run_id → valid_name (job_name run_id).
Proof.
  intros Hascii. unfold valid_name, job_name. apply only_chars_app. split.
  { unfold only_chars. by repeat constructor. }
  unfold only_chars. rewrite chars_of_chars. unfold last_n. apply Forall_drop, Forall_fmap.
  apply Forall_forall. intros c [Hc Hin]%list_elem_of_filter. simpl.
  unfold only_chars in Hascii. rewrite Forall_forall in Hascii. specialize (Hascii c Hin). revert Hc Hascii. clear.
  destruct c as [[] [] [] [] [] [] [] []]; vm_compute; try done.
Qed.

Definition is_stamp_char (c : ascii) : Prop :=
  (48 ≤ chr_code c ≤ 57 ∨ chr_code c = 84 ∨ chr_code c = 90)%Z.
Definition is_hex_char (c : ascii) : Prop := (48 ≤ chr_code c ≤ 57 ∨ 97 ≤ chr_code c ≤ 102)%Z.

#[export] Instance is_stamp_char_dec c : Decision (is_stamp_char c).
Proof. unfold is_stamp_char. apply _. Defined.
#[export] Instance is_hex_char_dec c : Decision (is_hex_char c).
Proof. unfold is_hex_char. apply _. Defined.

Lemma stamp_char_facts c : is_stamp_char c → chr_alnum c = true ∧ chr_upper (chr_lower c) = c.
Proof.
  unfold is_stamp_char. destruct c as [[] [] [] [] [] [] [] []]; vm_compute; intros H;
    (split; [reflexivity|reflexivity]) || (exfalso; naive_solver).
Qed.
Lemma hex_char_facts c : is_hex_char c → chr_alnum c = true ∧ chr_lower c = c.
Proof.
  unfold is_hex_char. destruct c as [[] [] [] [] [] [] [] []]; vm_compute; intros H;
    (split; [reflexivity|reflexivity]) || (exfalso; naive_solver).
Qed.

Lemma filter_alnum_all l :
  Forall (λ c, chr_alnum c = true) l → filter (λ c, chr_alnum c = true) l = l.
Proof. induction 1 as [|c l Hc Hl IH]; [done|]. by rewrite filter_cons_True, IH. Qed.

Lemma job_name_run_id stamp hex :
  only_chars is_stamp_char stamp → only_chars is_hex_char hex →
  length (chars stamp) + length (chars hex) ≤ 40 →
  job_name (stamp +:+ "-" +:+ hex) =
    "benchmark-" +:+ of_chars ((chr_lower <$> chars stamp) ++ chars hex).
Proof.
  intros Hs Hh Hlen. unfold job_name. f_equal. f_equal.
  rewrite !chars_app, !filter_app. change (filter (λ c, chr_alnum c = true) (chars "-")) with (@nil ascii).
  rewrite (filter_alnum_all (chars stamp))
    by (eapply Forall_impl; [exact Hs|intros c ?; by apply stamp_char_facts]).
  rewrite (filter_alnum_all (chars hex))
    by (eapply Forall_impl; [exact Hh|intros c ?; by apply hex_char_facts]).
  rewrite app_nil_l, fmap_app.  rewrite (list_fmap_ext chr_lower id (chars hex)), list_fmap_id.
  2:{ intros i c Hc. unfold only_chars in Hh. rewrite Forall_lookup in Hh. by apply hex_char_facts, (Hh i). }
  unfold last_n. rewrite length_app, length_fmap.
  by replace (_ + _ - 40)%nat with 0%nat by lia.
Qed.

(** ** Running the client *)

Section runs.
Context (k : client).
Context {S : Type} `{JobAPILaws k S}.
Implicit Types (s : S) (w : S * option string).
Abbreviation run := (run (kube_handle (S := S))).

Lemma run_api_request method path body w :
  ∃ r, run (api_request method path body) w = (r, ((api_send method path body w.1).2, w.2)) ∧
    (∀ v, r = Ok v → ∃ status b, (api_send method path body w.1).1 = Response status b) ∧
    (∀ p, r = Raise (JobNotFound p) →
       (∃ detail, (api_send method path body w.1).1 = HttpError 404 detail) ∨
       (api_send method path body w.1).1 = Broken (JobNotFound p) ∨
       ∃ status, (api_send method path body w.1).1 = Response status (Raise (JobNotFound p))).
Proof.
  unfold api_request, perform. simpl.
  destruct (api_send method path body w.1) as [a s'] eqn:Ha. simpl.
  destruct a as [status b|code detail|e]; simpl.
  - destruct (status =? 204)%Z; simpl; [eexists; split; [done|]; naive_solver|].
    rewrite run_bind, run_lift. destruct b as [v|e]; simpl; [|eexists; split; [done|]; naive_solver].
    destruct v; simpl; eexists; (split; [done|]); naive_solver.
  - destruct (Z.eqb_spec code 404) as [->|]; simpl; eexists; (split; [done|]); naive_solver.
  - eexists. split; [done|]. naive_solver.
Qed.

(** Reading a Job changes nothing; an answer means that it exists. *)
Lemma run_job_state n w : valid_name n →
  ∃ r, run (job_state k n) w = (r, w) ∧ (is_ok r = true → job_exists n w.1).
Proof.
  intros Hn. unfold job_state. rewrite run_bind.
  destruct (run_api_request "GET" (job_path k n) None w) as (r & -> & Hok & _).
  rewrite (law_get (k := k)). replace (w.1, w.2) with w by by destruct w.
  destruct r as [v|e]; [|by eexists].
  destruct (Hok v eq_refl) as (status & b & Hb).
  destruct (law_get_job (k := k) n w.1 _ Hn Hb) as [Hex _].
  rewrite run_lift. eexists. split; [done|]. intros _. by eapply Hex.
Qed.

(** The submission: the Job exists whenever the name is returned. *)
Lemma run_submit_job n body w : valid_name n → body_name body = Some n →
  ∃ r w', run (submit_job k n body) w = (r, w') ∧
    (∀ m, m ≠ n → job_exists m w'.1 ↔ job_exists m w.1) ∧
    (job_exists n w.1 → job_exists n w'.1) ∧
    (∀ a, r = Ok a → a = n ∧ job_exists n w'.1) ∧
    (∀ e, r = Raise e → is_ok (run (job_state k n) w').1 = false).
Proof.
  intros Hn Hbody. unfold submit_job. rewrite run_bind, run_try.
  destruct (run_api_request "POST" (collection_path k) (Some body) w) as (r & -> & Hok & _).
  destruct (api_send "POST" (collection_path k) (Some body) w.1) as [a s'] eqn:Hpost.
  destruct (law_post (k := k) n body w.1 a s' Hn Hbody Hpost) as (Hframe & Hkeep & Hadd).
  destruct r as [v|e]; cbn beta iota.
  - eexists _, _. split; [done|]. simpl. split_and!; [done|done| |done].
    intros _ [= <-]. split; [done|]. destruct (Hok v eq_refl) as (status & b & Hb). by eapply Hadd.
  - rewrite run_bind, run_try.
    change ((a, s').2) with s'.
    destruct (run_job_state n (s', w.2) Hn) as (rs & Hrs & Hex). rewrite Hrs.
    destruct rs as [st|es]; cbn beta iota; eexists _, _; (split; [done|]); cbn [fst];
      split_and!; try done.
    + intros _ [= <-]. split; [done|]. by apply Hex.
    + intros _ _. by rewrite Hrs.
Qed.

Lemma run_own_image environ w : ∃ r, run (own_image environ k) w = (r, w).
Proof.
  unfold own_image. destruct (String.eqb _ _); [by eexists|]. rewrite run_bind.
  match goal with |- context [api_request ?m ?p ?b] =>
    destruct (run_api_request m p b w) as (r & -> & _) end.
  rewrite (law_get (k := k)). replace (w.1, w.2) with w by by destruct w.
  destruct r as [v|e]; [|by eexists]. rewrite run_bind.
  destruct v as [v|]; [|by eexists]. simpl.
  do 3 (rewrite run_bind, run_lift; match goal with |- context [match ?x with Ok _ => _ | Raise _ => _ end] =>
    destruct x; [|by eexists] end).
  rewrite run_lift. by eexists.
Qed.
End runs.

(** ** Properties *)

(** Whatever the API server answers, loses or refuses, submitting a run
    touches no other Job and never removes the run's own; a returned name is
    the run's name and the Job exists; and when submission raises, either
    nothing was sent or the Job could not be read back afterwards, so no Job
    that the API can report is left behind unowned. *)
Theorem create_job_spec (environ : string → option string) (k : client) {S} `{JobAPILaws k S}
    run_id maximum_seconds worker_count (w : S * option string) :
  let n := job_name run_id in
  only_chars (λ c, (chr_code c < 128)%Z) run_id →
  ∃ r w', run kube_handle (create_job environ k run_id maximum_seconds worker_count) w = (r, w') ∧
    (∀ m, m ≠ n → job_exists m w'.1 ↔ job_exists m w.1) ∧
    (job_exists n w.1 → job_exists n w'.1) ∧
    (∀ a, r = Ok a → a = n ∧ (1 ≤ worker_count)%Z ∧ job_exists n w'.1) ∧
    (∀ e, r = Raise e → w' = w ∨ is_ok (run kube_handle (job_state k n) w').1 = false).
Proof.
  intros n Hascii. pose proof (job_name_valid _ Hascii) as Hn. unfold create_job.
  destruct (Z.ltb_spec worker_count 1) as [|Hcount]; [eexists _, w; split; [done|]; naive_solver|].
  rewrite run_bind. cbn [Program.run perform kube_handle].
  assert (∃ ri image img, run kube_handle
    (if String.eqb (default "" w.2) "" then image ← own_image environ k; _ ← perform (KImageSet image); Ret image
     else Ret (default "" w.2)) w = (ri, (w.1, img)) ∧ (ri = Ok image ∨ ∃ e, ri = Raise e ∧ img = w.2))
    as (ri & image & img & Hrun & Hri).
  { destruct (String.eqb (default "" w.2) "").
    - rewrite run_bind. destruct (run_own_image k environ w) as ([image|e] & ->).
      + eexists _, _, _. split; [done|]. by left.
      + destruct w as [s img]. exists (Raise e), "", img. split; [done|]. right. by exists e.
    - destruct w as [s img]. eexists _, _, img. split; [done|]. by left. }
  rewrite run_bind, Hrun. destruct Hri as [->|(e & -> & ->)].
  - destruct (run_submit_job k n (job_body k image run_id maximum_seconds worker_count) (w.1, img))
      as (r & w' & Hr & Hframe & Hkeep & Hok & Hraise); [done|done|].
    exists r, w'. split; [exact Hr|]. split_and!; [done|done| |].
    + intros a Ha. by destruct (Hok a Ha).
    + intros e He. right. by eapply Hraise.
  - eexists _, (w.1, w.2). split; [done|]. destruct w. naive_solver.
Qed.

(** Deleting a Job removes it and nothing else; a Job that is already gone is
    not an error. *)
Theorem delete_job_spec (k : client) {S} `{JobAPILaws k S} n (w : S * option string) :
  valid_name n →
  ∃ r w', run kube_handle (delete_job k n) w = (r, w') ∧
    (∀ m, m ≠ n → job_exists m w'.1 ↔ job_exists m w.1) ∧
    ((∀ path body s e, (api_send "DELETE" path body s).1 = Broken (JobNotFound e) → False) →
     (∀ path body s st e, (api_send "DELETE" path body s).1 = Response st (Raise (JobNotFound e)) → False) →
     r = Ok tt → ¬ job_exists n w'.1).
Proof.
  intros Hn. unfold delete_job. rewrite run_bind, run_try.
  match goal with |- context [api_request ?m ?p ?b] =>
    destruct (run_api_request (S := S) m p b w) as (r & -> & Hok & Hmissing) end.
  match goal with |- context [api_send ?m ?p ?b ?s] =>
    destruct (api_send m p b s) as [a s'] eqn:Ha end.
  destruct (law_delete (k := k) n _ _ _ _ Hn Ha) as (Hframe & Hgone & H404). simpl in *.
  destruct r as [v|e].
  - eexists _, _. split; [done|]. split; [done|]. intros _ _ _.
    destruct (Hok v eq_refl) as (st & b & Hb). by eapply Hgone.
  - assert (∃ r', run kube_handle match e with JobNotFound _ => Ret tt | e => Throw e end (s', w.2)
      = (r', (s', w.2)) ∧ (r' = Ok tt → ∃ p, e = JobNotFound p)) as (r' & Hr' & Hp).
    { destruct e; eexists; (split; [done|]); naive_solver. }
    exists r', (s', w.2). split; [by destruct e|]. split; [done|].
    intros Hb1 Hb2 Hok'. destruct (Hp Hok') as (p & ->).
    destruct (Hmissing p eq_refl) as [(detail & ->)|[->|(st & ->)]].
    + by eapply H404.
    + exfalso. eapply (Hb1 _ _ w.1). by rewrite Ha.
    + exfalso. eapply (Hb2 _ _ w.1). by rewrite Ha.
Qed.

(** Jobs of different runs have different names: the name is the run id
    in lower case without its hyphen, and no two run ids of the controller's
    form (a 16-character stamp and 8 hexadecimal digits) are confused. *)
Theorem job_name_injective stamp hex stamp' hex' :
  only_chars is_stamp_char stamp → only_chars is_stamp_char stamp' →
  only_chars is_hex_char hex → only_chars is_hex_char hex' →
  length (chars stamp) = 16 → length (chars stamp') = 16 →
  length (chars hex) = 8 → length (chars hex') = 8 →
  stamp +:+ "-" +:+ hex ≠ stamp' +:+ "-" +:+ hex' →
  job_name (stamp +:+ "-" +:+ hex) ≠ job_name (stamp' +:+ "-" +:+ hex').
Proof.
  intros Hs Hs' Hh Hh' Hls Hls' Hlh Hlh' Hne Heq. apply Hne. clear Hne. revert Heq.
  rewrite !job_name_run_id by (done || lia). intros Heq. apply (f_equal chars) in Heq. rewrite !chars_app, !chars_of_chars in Heq.
  apply app_inv_head, app_inj_1 in Heq as [Hstamp Hhex]; [|rewrite !length_fmap; lia].
  assert (stamp = stamp') as ->.
  { rewrite <- (of_chars_chars stamp), <- (of_chars_chars stamp'). f_equal.
    apply (f_equal (fmap chr_upper)) in Hstamp. rewrite <- !list_fmap_compose in Hstamp.
    rewrite (list_fmap_ext _ id (chars stamp)), (list_fmap_ext _ id (chars stamp')), !list_fmap_id in Hstamp; [done| |].
    - intros i c Hc. unfold only_chars in Hs'. rewrite Forall_lookup in Hs'. by apply stamp_char_facts, (Hs' i).
    - intros i c Hc. unfold only_chars in Hs. rewrite Forall_lookup in Hs. by apply stamp_char_facts, (Hs i). }
  by rewrite <- (of_chars_chars hex), <- (of_chars_chars hex'), Hhex.
Qed.

(** ** An API server

    Jobs by name; when [mj_lossy] is set the answer to a successful POST is
    lost. *)
Record mem_jobs := MemJobs {
  mj_names : gset string;
  mj_lossy : bool;
}.

#[export] Instance valid_name_dec n : Decision (valid_name n).
Proof. unfold valid_name, only_chars. apply _. Defined.

Definition routed (path : string → string) (target : string) (names : gset string) : option string :=
  list_find (λ n, valid_name n ∧ path n = target) (elements names) ≫= λ x, Some x.2.

Definition mem_api (k : client) : JobAPI mem_jobs := {|
  api_send method path body s :=
    if String.eqb method "POST" then
      match body ≫= body_name with
      | None => (HttpError 400 "invalid Job", s)
      | Some n =>
          if decide (n ∈ mj_names s) then (HttpError 409 "already exists", s)
          else (if mj_lossy s then Broken (TimeoutError "timed out") else Response 201 (Ok (PDict [])),
                MemJobs ({[n]} ∪ mj_names s) (mj_lossy s))
      end
    else if String.eqb method "DELETE" then
      match routed (λ n, job_path k n +:+ "?propagationPolicy=Background") path (mj_names s) with
      | Some n => (Response 200 (Ok (PDict [])), MemJobs (mj_names s ∖ {[n]}) (mj_lossy s))
      | None => (HttpError 404 "", s)
      end
    else
      match routed (job_path k) path (mj_names s) with
      | Some n => (Response 200 (Ok (PDict [])), s)
      | None => (HttpError 404 "", s)
      end;
  job_exists n s := n ∈ mj_names s;
|}.

Lemma quote_valid n : valid_name n → quote n = n.
Proof.
  intros Hn. unfold quote, str_join. rewrite <- (of_chars_chars n) at 2.
  unfold valid_name, only_chars in Hn. induction Hn as [|c l Hc Hl IH]; [done|].
  assert (chr_unreserved c = true) as Hu.
  { revert Hc. clear. destruct c as [[] [] [] [] [] [] [] []]; vm_compute; done. }
  simpl. rewrite Hu. destruct l as [|c' l]; [done|]. simpl in *. by rewrite IH.
Qed.

Lemma routed_valid path target names n :
  valid_name n → path n = target → (∀ m, valid_name m → path m = path n → m = n) →
  routed path target names = if decide (n ∈ names) then Some n else None.
Proof.
  intros Hn <- Hinj. unfold routed. case_decide as Hin.
  - destruct (list_find_elem_of (λ m, valid_name m ∧ path m = path n) (elements names) n)
      as [[i m] Hf]; [by apply elem_of_elements|done|].
    rewrite Hf. simpl. apply list_find_Some in Hf as (_ & [Hm Heq] & _). by rewrite (Hinj m).
  - destruct (list_find _ _) as [[i m]|] eqn:Hf; [|done]. exfalso.
    apply list_find_Some in Hf as (Hl & [Hm Heq] & _).
    apply list_elem_of_lookup_2, elem_of_elements in Hl. by rewrite (Hinj m) in Hl.
Qed.

Lemma job_path_inj k n m : valid_name n → valid_name m → job_path k n = job_path k m → n = m.
Proof.
  intros Hn Hm H. unfold job_path in H. apply append_inj_l, append_inj_l in H.
  by rewrite !quote_valid in H by done.
Qed.

#[export] Instance mem_api_laws k : @JobAPILaws k mem_jobs (mem_api k).
Proof.
  split.
  - intros path s. simpl. by destruct (routed _ _ _).
  - intros n s a Hn Ha. simpl in *.
    rewrite (routed_valid _ _ _ n) in Ha by (done || (intros; by apply job_path_inj with k)).
    case_decide; simpl in Ha; subst a; naive_solver.
  - intros n body s a s' Hn Hbody Hs. simpl in *. rewrite Hbody in Hs. simpl in Hs.
    case_decide; [injection Hs as <- <-; naive_solver|].
    injection Hs as <- <-. simpl. split_and!; [set_solver|set_solver|]. intros; set_solver.
  - intros n body s a s' Hn Hs. simpl in *.
    rewrite (routed_valid _ _ _ n) in Hs
      by (done || (intros m Hm Heq; apply append_inj_r in Heq; by apply job_path_inj with k)).
    case_decide; injection Hs as <- <-; simpl; split_and!; try done; set_solver.
Qed.

(** ** Concrete inputs *)

Definition demo_client : client := Client "default" "https://10.0.0.1:443" "token"
  DEFAULT_NODE_POOL_LABEL DEFAULT_NODE_POOL_NAME.
Definition demo_run_id : string := "20260101T000000Z-0a1b2c3d".
Definition demo_environ (_ : string) : option string := None.

Lemma create_job_spec_witness :
  ∃ r w', run (@kube_handle mem_jobs (mem_api demo_client))
      (create_job demo_environ demo_client demo_run_id 600 2) (MemJobs ∅ true, Some "image") = (r, w') ∧
    (∀ m, m ≠ job_name demo_run_id → m ∈ mj_names w'.1 ↔ m ∈ (∅ : gset string)) ∧
    (job_name demo_run_id ∈ (∅ : gset string) → job_name demo_run_id ∈ mj_names w'.1) ∧
    (∀ a, r = Ok a → a = job_name demo_run_id ∧ (1 ≤ 2)%Z ∧ job_name demo_run_id ∈ mj_names w'.1) ∧
    (∀ e, r = Raise e → w' = (MemJobs ∅ true, Some "image") ∨
       is_ok (run (@kube_handle mem_jobs (mem_api demo_client))
         (job_state demo_client (job_name demo_run_id)) w').1 = false).
Proof.
  apply (@create_job_spec demo_environ demo_client mem_jobs (mem_api demo_client)
    (mem_api_laws demo_client) demo_run_id 600 2 (MemJobs ∅ true, Some "image")).
  apply (bool_decide_unpack _). vm_compute. exact I.
Defined.

(** The reply to the POST was lost, and the Job is found. *)
Example create_job_recovers :
  (run (@kube_handle mem_jobs (mem_api demo_client))
    (create_job demo_environ demo_client demo_run_id 600 2) (MemJobs ∅ true, Some "image")).1
  = Ok "benchmark-20260101t000000z0a1b2c3d".
Proof. vm_compute. reflexivity. Qed.

Lemma job_name_injective_witness :
  job_name ("20260101T000000Z" +:+ "-" +:+ "0a1b2c3d") ≠ job_name ("20260101T000000Z" +:+ "-" +:+ "0a1b2c3e").
Proof.
  apply job_name_injective; try reflexivity; [..|discriminate];
    unfold only_chars; apply (bool_decide_unpack _); vm_compute; exact I.
Defined.
