(* ===== verification/Saturation.v ===== *)
(** * Saturation runs (benchmarkservice/saturation.py)

    A saturation run raises the request rate rung by rung.  At the end of a
    rung every worker publishes its progress; worker 0 waits for all of them,
    evaluates the rung and publishes the decision, which the others wait for.
    The first part is the evaluation, the second the coordination over a
    shared object store, the third its two backends: a directory, and a bridge
    process in front of the NATS store (saturation_nats_bridge.py). *)

From S2P Require Import Prelude PyFloat PyValue Program BenchEnv Parallel.
From Corelib Require Import SpecFloat.
From Stdlib Require Import Ascii.

(** [saturation.py:18-20 APPLICATION_STREAMS] *)
Definition APPLICATION_STREAMS : list string := ["BOUTIQUE_COMMANDS"; "BOUTIQUE_EVENTS"].
Definition RAPID_PENDING_GROWTH_PER_SECOND : pyfloat := float_dec 10 0.
Definition COORDINATION_TIMEOUT_SECONDS : pyfloat := float_dec 60 0.

Definition opt_float (x : option pyfloat) : pyval :=
  match x with Some f => PFloat f | None => PNone end.
Definition opt_round (x : option pyfloat) : option pyfloat := (λ f, f_round f 6) <$> x.
Definition opt_str (x : option string) : pyval :=
  match x with Some s => PStr s | None => PNone end.

(** ** Pending messages *)

(** [a or b] *)
Definition py_or (a b : pyval) : pyval := if py_truth a then a else b.

(** Python's [sum] of floats: Neumaier's compensated summation, with the
    first element added to the integer zero. *)
Definition neumaier_add (t c x : pyfloat) : pyfloat * pyfloat :=
  let s := fadd t x in
  (s, fadd c (if fleb (SFabs x) (SFabs t) then fadd (fsub t s) x else fadd (fsub x s) t)).
Fixpoint neumaier_sum (t c : pyfloat) (l : list pyfloat) : pyfloat :=
  match l with
  | [] => match c with S754_finite _ _ _ => fadd t c | _ => t end
  | x :: l => let '(t, c) := neumaier_add t c x in neumaier_sum t c l
  end.
Definition float_sum (l : list pyfloat) : pyfloat :=
  match l with
  | [] => float_dec 0 0
  | x :: l => neumaier_sum (fadd (float_dec 0 0) x) (float_dec 0 0) l
  end.

(** The consumer a metric counts for, and its count.
    [saturation.py:28-37 consumer_pending_total] *)
Definition pending_entry (metric : pyval) : res (option (string * pyfloat)) :=
  name ← py_get metric "name" PNone;
  if negb (py_eqb name (PStr "jetstream_consumer_num_pending")) then Ok None
  else
    labels ← py_get metric "labels" (PDict []);
    s1 ← py_get labels "stream_name" PNone;
    s2 ← (if py_truth s1 then Ok s1 else py_get labels "stream" PNone);
    c1 ← py_get labels "consumer_name" PNone;
    c2 ← (if py_truth c1 then Ok c1 else py_get labels "consumer" PNone);
    known ← py_in_set s2 APPLICATION_STREAMS;
    if negb known || negb (py_truth c2) then Ok None
    else
      v ← py_get metric "value" (PInt 0);
      value ← py_float v;
      Ok (Some (py_str s2 +:+ "/" +:+ py_str c2, value)).

(** [saturation.py:25-38 consumer_pending_total] *)
Fixpoint pending_counts (metrics : list pyval) (consumers : list (string * pyfloat))
  : res (list (string * pyfloat)) :=
  match metrics with
  | [] => Ok consumers
  | metric :: metrics =>
      entry ← pending_entry metric;
      pending_counts metrics
        match entry with
        | None => consumers
        | Some (key, value) =>
            alist_set key (f_max value (default (float_dec 0 0) (alist_get key consumers))) consumers
        end
  end.

(** [saturation.py:23-39 consumer_pending_total] *)
Definition consumer_pending_total (metrics : list pyval) : res (option pyfloat) :=
  consumers ← pending_counts metrics [];
  Ok match consumers with [] => None | _ => Some (float_sum consumers.*2) end.

(** ** Evaluating a rung *)

(** The measurements of one rung. *)
Record rung_input := RungInput {
  ri_application_type : string;
  ri_target_rate : pyfloat;
  ri_duration : pyfloat;
  ri_completed : Z;
  ri_processed : option Z;
  ri_previous_goodput : option pyfloat;
  ri_pending_start : option pyfloat;
  ri_pending_end : option pyfloat;
  ri_final : bool;
  ri_maximum_rate : bool;
}.

Definition is_nats (i : rung_input) : bool := String.eqb (ri_application_type i) "NATS".

(** [saturation.py:55-55 evaluate_rung] *)
Definition rung_duration (i : rung_input) : pyfloat := f_max (ri_duration i) (float_dec 1 (-3)).

(** [count / duration] for an integer count. *)
Definition rate (count : Z) (duration : pyfloat) : res pyfloat :=
  x ← float_of_Z count; f_truediv x duration.

(** [saturation.py:57-61 evaluate_rung] *)
Definition processed_count (i : rung_input) : option Z :=
  if is_nats i then ri_processed i else Some (ri_completed i).

(** [saturation.py:62-66 evaluate_rung] *)
Definition processing_goodput (i : rung_input) : res (option pyfloat) :=
  match processed_count i with
  | None => Ok None
  | Some n => g ← rate n (rung_duration i); Ok (Some g)
  end.

(** [saturation.py:67-75 evaluate_rung] *)
Definition pending_growth (i : rung_input) : option pyfloat :=
  match ri_pending_start i, ri_pending_end i with
  | Some s, Some e => Some (fsub e s)
  | _, _ => None
  end.
Definition pending_growth_per_second (i : rung_input) : res (option pyfloat) :=
  match pending_growth i with
  | None => Ok None
  | Some g => x ← f_truediv g (rung_duration i); Ok (Some x)
  end.

(** Why the rung counts as saturated, when it does.
    [saturation.py:77-91 evaluate_rung] *)
Definition saturation_reason (i : rung_input) (goodput growth : option pyfloat) : option string :=
  if is_nats i && match growth with
                  | Some g => fleb RAPID_PENDING_GROWTH_PER_SECOND g | None => false end
  then Some "nats_pending_increasing_rapidly"
  else match ri_previous_goodput i, goodput with
       | Some previous, Some goodput =>
           if fleb goodput previous then Some "goodput_stopped_increasing" else None
       | _, _ => None
       end.

Definition opt_Z (x : option Z) : pyval := match x with Some z => PInt z | None => PNone end.

(** [saturation.py:106-119 evaluate_rung] *)
Definition goodput_source (i : rung_input) : pyval :=
  if is_nats i then match ri_processed i with
                    | Some _ => PStr "nats_order_completed_events" | None => PNone end
  else PStr "client_outcomes".

(** [saturation.py:42-141 evaluate_rung] *)
Definition evaluate_rung (i : rung_input) : res (list (string * pyval)) :=
  let duration := rung_duration i in
  observed ← rate (ri_completed i) duration;
  goodput ← processing_goodput i;
  growth ← pending_growth_per_second i;
  let reason := saturation_reason i goodput growth in
  Ok [("target_requests_per_second", PFloat (ri_target_rate i));
      ("duration_seconds", PFloat (f_round duration 6));
      ("completed_during_rung", PInt (ri_completed i));
      ("client_observed_completed_during_rung", PInt (ri_completed i));
      ("observed_goodput_orders_per_second", PFloat (f_round observed 6));
      ("processed_during_rung", opt_Z (processed_count i));
      ("processing_goodput_orders_per_second", opt_float (opt_round goodput));
      ("processing_goodput_source", goodput_source i);
      ("previous_goodput_orders_per_second", opt_float (opt_round (ri_previous_goodput i)));
      ("pending_start", opt_float (ri_pending_start i));
      ("pending_end", opt_float (ri_pending_end i));
      ("pending_growth", opt_float (pending_growth i));
      ("pending_growth_per_second", opt_float (opt_round growth));
      ("rapid_pending_growth_threshold_per_second", PFloat RAPID_PENDING_GROWTH_PER_SECOND);
      ("maximum_rate_reached", PBool (ri_maximum_rate i));
      ("stop", PBool (ri_final i));
      ("saturated", PBool (match reason with Some _ => true | None => false end));
      ("saturation_reason", opt_str reason);
      ("stop_reason", if ri_final i then PStr "maximum_duration_reached" else PNone)].

(** ** Coordination *)

(** What a worker measured in a rung: the arguments of [finish_rung]. *)
Record rung_report := RungReport {
  rr_target_rate : pyfloat;
  rr_started : pyfloat;
  rr_ended : pyfloat;
  rr_completed_before : Z;
  rr_completed_after : Z;
  rr_processed_before : option (list (string * pyval));
  rr_processed_after : option (list (string * pyval));
  rr_pending_start : option pyfloat;
  rr_pending_end : option pyfloat;
  rr_final : bool;
  rr_maximum_rate : bool;
}.

Inductive satE : Type → Type :=
  | SGet (name : string) : satE (res pyval)
  | SPut (name : string) (value : pyval) : satE (res unit)
  | SMonotonic : satE pyfloat
  | SSleep (seconds : pyfloat) : satE unit
  | SAppend (line : pyval) : satE (res unit).

(** [saturation.py:315-316 SaturationCoordinator._name] *)
Definition coordination_name (run_id : string) (rung : Z) (suffix : string) : string :=
  run_id +:+ "/saturation/" +:+ pad0 4 rung +:+ "/" +:+ suffix +:+ ".json".
Definition worker_suffix (index : Z) : string := "worker-" +:+ pad0 4 index.

Definition opt_dict (x : option (list (string * pyval))) : pyval :=
  match x with Some d => PDict d | None => PNone end.

(** [saturation.py:349-356 SaturationCoordinator.finish_rung] *)
Definition progress_of (worker_index : Z) (r : rung_report) : pyval :=
  PDict [("worker_index", PInt worker_index);
         ("completed", PInt (Z.max 0 (rr_completed_after r - rr_completed_before r)));
         ("processed_before", opt_dict (rr_processed_before r));
         ("processed_after", opt_dict (rr_processed_after r));
         ("pending_start", opt_float (rr_pending_start r));
         ("pending_end", opt_float (rr_pending_end r))].

(** The polling loop; [polls] bounds it, the deadline ends it.
    [saturation.py:318-331 SaturationCoordinator._wait] *)
Fixpoint wait_loop (polls : nat) (name : string) (deadline : pyfloat) : prog satE pyval :=
  let late := Throw (TimeoutError ("timed out waiting for saturation coordination " +:+ name)) in
  match polls with
  | O => late
  | S polls =>
      r ← perform (SGet name);
      match r with
      | Ok value => Ret value
      | Raise (RecordNotFound _) =>
          now ← perform SMonotonic;
          if fleb deadline now then late
          else _ ← perform (SSleep (float_dec 5 (-2))); wait_loop polls name deadline
      | Raise e => Throw e
      end
  end.

Definition wait (polls : nat) (name : string) : prog satE pyval :=
  now ← perform SMonotonic;
  wait_loop polls name (fadd now COORDINATION_TIMEOUT_SECONDS).

(** [saturation.py:365-368 SaturationCoordinator.finish_rung] *)
Fixpoint wait_all (polls : nat) (names : list string) : prog satE (list pyval) :=
  match names with
  | [] => Ret []
  | name :: names =>
      value ← wait polls name;
      values ← wait_all polls names;
      Ret (value :: values)
  end.

(** The first worker whose observer saw both ends of the rung.
    [saturation.py:373-381 SaturationCoordinator.finish_rung] *)
Fixpoint observed_progress (progresses : list pyval) : res (option (pyval * pyval)) :=
  match progresses with
  | [] => Ok None
  | item :: progresses =>
      before ← py_get item "processed_before" PNone;
      after ← py_get item "processed_after" PNone;
      match before, after with
      | PDict _, PDict _ => Ok (Some (before, after))
      | _, _ => observed_progress progresses
      end
  end.

(** How many orders the observer saw complete, or why that is unknown.
    [saturation.py:382-402 SaturationCoordinator.finish_rung] *)
Definition processed_in_rung (application_type : string) (observed : option (pyval * pyval))
  : res (option Z * option string) :=
  match observed with
  | None =>
      Ok (None, if String.eqb application_type "NATS"
                then Some "NATS completed-order observer was unavailable" else None)
  | Some (before, after) =>
      id_before ← py_get before "observer_id" PNone;
      id_after ← py_get after "observer_id" PNone;
      if negb (py_eqb id_before id_after)
      then Ok (None, Some "NATS completed-order observer lost continuity")
      else
        total_after ← (v ← py_get after "total" (PInt (-1)); py_int v);
        total_before ← (v ← py_get before "total" (PInt 0); py_int v);
        if (total_after <? total_before)%Z
        then Ok (None, Some "NATS completed-order observer count decreased")
        else
          last ← (v ← py_get after "total" (PInt 0); py_int v);
          first ← (v ← py_get before "total" (PInt 0); py_int v);
          Ok (Some (last - first)%Z, None)
  end.

Fixpoint completed_total (progresses : list pyval) : res Z :=
  match progresses with
  | [] => Ok 0%Z
  | item :: progresses =>
      n ← (v ← py_get item "completed" (PInt 0); py_int v);
      rest ← completed_total progresses;
      Ok (n + rest)%Z
  end.

(** The decision of a rung from every worker's progress, as the coordinator's
    own report and its previous goodput determine it.
    [saturation.py:372-427 SaturationCoordinator.finish_rung] *)
Definition decide_rung (application_type : string) (worker_count rung : Z) (r : rung_report)
    (previous : option pyfloat) (progresses : list pyval) : res (list (string * pyval)) :=
  let duration := f_max (float_dec 1 (-3)) (fsub (rr_ended r) (rr_started r)) in
  observed ← observed_progress progresses;
  processed ← processed_in_rung application_type observed;
  completed ← completed_total progresses;
  decision ← evaluate_rung (RungInput application_type (rr_target_rate r) duration completed
    processed.1 previous (rr_pending_start r) (rr_pending_end r) (rr_final r) (rr_maximum_rate r));
  Ok (dict_update decision
    [("rung", PInt rung);
     ("started_elapsed_seconds", PFloat (f_round (rr_started r) 6));
     ("ended_elapsed_seconds", PFloat (f_round (rr_ended r) 6));
     ("worker_count", PInt worker_count);
     ("processing_goodput_unavailable_reason", opt_str processed.2)]).

(** The goodput the next rung is compared with.
    [saturation.py:428-432 SaturationCoordinator.finish_rung] *)
Definition next_goodput (previous : option pyfloat) (decision : list (string * pyval))
  : res (option pyfloat) :=
  match default PNone (alist_get "processing_goodput_orders_per_second" decision) with
  | PNone => Ok previous
  | v => x ← py_float v; Ok (Some x)
  end.

Definition worker_indexes (count : Z) : list Z := Z.of_nat <$> seq 0 (Z.to_nat count).

(** A worker at the end of a rung; returns the decision and the goodput it
    compares the next rung with.  With one worker there is no backend.
    [saturation.py:333-439 SaturationCoordinator.finish_rung] *)
Definition finish_rung (polls : nat) (run_id application_type : string)
    (worker_index worker_count rung : Z) (r : rung_report) (previous : option pyfloat)
  : prog satE (pyval * option pyfloat) :=
  let name suffix := coordination_name run_id rung suffix in
  let progress := progress_of worker_index r in
  let conclude progresses :=
    decision ← lift (decide_rung application_type worker_count rung r previous progresses);
    next ← lift (next_goodput previous decision);
    _ ← (if (1 <? worker_count)%Z then call (SPut (name "decision") (PDict decision)) else Ret tt);
    _ ← call (SAppend (json_dumps (PDict decision)));
    Ret (PDict decision, next) in
  if (1 <? worker_count)%Z then
    _ ← call (SPut (name (worker_suffix worker_index)) progress);
    if (worker_index =? 0)%Z then
      progresses ← wait_all polls (name <$> (worker_suffix <$> worker_indexes worker_count));
      conclude progresses
    else
      decision ← wait polls (name "decision");
      Ret (decision, previous)
  else conclude [progress].

(** ** The shared store of a run

    Objects by name, requests that can be lost, and an oracle for the clock
    and the local file. *)
Record sat_oracle := SatOracle {
  so_fault : nat → fault;
  so_monotonic : nat → pyfloat;
  so_append : nat → res unit;
}.

Record sat_world := SatWorld {
  sw_objects : gmap string pyval;
  sw_step : nat;
}.

Definition sat_handle (o : sat_oracle) (X : Type) (op : satE X) : sat_world → X * sat_world :=
  match op with
  | SGet name => λ w,
      (match so_fault o (sw_step w) with
       | NoFault => match sw_objects w !! name with
                    | Some v => Ok v | None => Raise (RecordNotFound name) end
       | RequestLost e | ReplyLost e => Raise e
       end, SatWorld (sw_objects w) (S (sw_step w)))
  | SPut name value => λ w,
      let put := <[name := json_dumps value]> (sw_objects w) in
      match so_fault o (sw_step w) with
      | NoFault => (Ok tt, SatWorld put (S (sw_step w)))
      | RequestLost e => (Raise e, SatWorld (sw_objects w) (S (sw_step w)))
      | ReplyLost e => (Raise e, SatWorld put (S (sw_step w)))
      end
  | SMonotonic => λ w, (so_monotonic o (sw_step w), SatWorld (sw_objects w) (S (sw_step w)))
  | SSleep _ => λ w, (tt, SatWorld (sw_objects w) (S (sw_step w)))
  | SAppend _ => λ w, (so_append o (sw_step w), SatWorld (sw_objects w) (S (sw_step w)))
  end.

(** ** The directory backend

    Files by name.  A value is written to a temporary file of its own and
    renamed over the destination, so a reader sees the old value or the new
    one. *)

(** [saturation.py:160-161 _FileBackend._path] *)
Definition file_path (name : string) : string :=
  of_chars ((λ c, if decide (c = "/"%char) then "-"%char else c) <$> chars name).

Abbreviation files := (gmap string pyval).

(** [saturation.py:163-170 _FileBackend.put] *)
Definition temporary_path (name : string) (pid : Z) (hex : string) : string :=
  file_path name +:+ ".tmp-" +:+ pretty pid +:+ "-" +:+ hex.
Definition file_write (name : string) (value : pyval) (pid : Z) (hex : string) (fs : files) : files :=
  <[temporary_path name pid hex := json_dumps value]> fs.

(** [os.replace].  [saturation.py:171-171 _FileBackend.put] *)
Definition file_replace (name : string) (pid : Z) (hex : string) (fs : files) : files :=
  match fs !! temporary_path name pid hex with
  | Some value => <[file_path name := value]> (delete (temporary_path name pid hex) fs)
  | None => fs
  end.

(** [saturation.py:163-171 _FileBackend.put] *)
Definition file_put (name : string) (value : pyval) (pid : Z) (hex : string) (fs : files) : files :=
  file_replace name pid hex (file_write name value pid hex fs).

Definition require_dict (name : string) (value : pyval) : res pyval :=
  match value with
  | PDict _ => Ok value
  | _ => Raise (ValueError ("coordination value " +:+ name +:+ " is not an object"))
  end.

(** [saturation.py:173-182 _FileBackend.get] *)
Definition file_get (name : string) (fs : files) : res pyval :=
  match fs !! file_path name with
  | None => Raise (RecordNotFound name)
  | Some value => require_dict name value
  end.

(** ** The bridge process

    [_NatsBackend] keeps the NATS client in a child process and exchanges one
    line of JSON per request.  [SGet] and [SPut] are here the operations of
    the store in the child. *)

(** [str(error)] and the class name, as the bridge reports an exception. *)
Definition bridge_error (request_id : pyval) (e : exn) : pyval :=
  PDict [("id", request_id); ("ok", PBool false); ("error_type", PStr (exn_class e));
         ("error", PStr (exn_str e))].

(** The operation of a request and the fields of its answer.
    [saturation_nats_bridge.py:21-45 dispatch] *)
Definition bridge_operation (request : pyval) (operation : pyval)
  : prog satE (list (string * pyval) * bool) :=
  if py_eqb operation (PStr "put") then
    name ← lift (py_get request "name" PNone);
    value ← lift (py_get request "value" PNone);
    match name, value with
    | PStr name, PDict _ => _ ← call (SPut name value); Ret ([], false)
    | _, _ => Throw (ValueError "put requires a string name and object value")
    end
  else if py_eqb operation (PStr "get") then
    name ← lift (py_get request "name" PNone);
    match name with
    | PStr name =>
        value ← call (SGet name);
        value ← lift (require_dict name value);
        Ret ([("value", value)], false)
    | _ => Throw (ValueError "get requires a string name")
    end
  else if py_eqb operation (PStr "close") then Ret ([], true)
  else Throw (ValueError ("unknown operation " +:+ py_repr operation)).

(** [saturation_nats_bridge.py:15-59 dispatch] *)
Definition dispatch (request : pyval) : prog satE (pyval * bool) :=
  request_id ← lift (py_get request "id" PNone);
  operation ← lift (py_get request "operation" PNone);
  r ← prog_try (bridge_operation request operation);
  match r with
  | Ok (fields, close) => Ret (PDict ([("id", request_id); ("ok", PBool true)] ++ fields), close)
  | Raise e => Ret (bridge_error request_id e, false)
  end.

(** One line of input: the value [json.loads] reads or its exception.  The
    store is opened for the first request that needs it; [opened] is what
    opening it would raise.
    [saturation_nats_bridge.py:66-84 main] *)
Definition bridge_line (line : res pyval) (opened : res unit) : prog satE (pyval * bool) :=
  r ← prog_try (
    request ← lift line;
    match request with
    | PDict _ =>
        operation ← lift (py_get request "operation" PNone);
        if py_eqb operation (PStr "close") then
          request_id ← lift (py_get request "id" PNone);
          Ret (PDict [("id", request_id); ("ok", PBool true)], true)
        else _ ← lift opened; dispatch request
    | _ => Throw (ValueError "request is not an object")
    end);
  match r with
  | Ok answer => Ret answer
  | Raise e => Ret (bridge_error PNone e, false)
  end.

(** The responses to the lines of standard input, until a close.
    [saturation_nats_bridge.py:62-94 main] *)
Fixpoint bridge_main (lines : list (res pyval * res unit)) : prog satE (list pyval) :=
  match lines with
  | [] => Ret []
  | (line, opened) :: lines =>
      answer ← bridge_line line opened;
      let '(response, should_close) := (answer : pyval * bool) in
      if should_close then Ret [response]
      else rest ← bridge_main lines; Ret (response :: rest)
  end.

(** [saturation.py:217-222 _NatsBackend._request] *)
Definition bridge_request (id : Z) (operation : string) (arguments : list (string * pyval)) : pyval :=
  PDict ([("id", PInt id); ("operation", PStr operation)] ++ arguments).

(** What became of the exchange of two lines with the child. *)
Inductive exchange :=
  | Exited (code : Z)
  | NoPipes
  | PipeBroken
  | OutputClosed
  | Answered (line : res pyval).

(** [saturation.py:204-255 _NatsBackend._request] *)
Definition check_response (id : Z) (operation : string) (arguments : list (string * pyval))
    (x : exchange) : res pyval :=
  match x with
  | Exited code => Raise (RuntimeError
      ("saturation NATS coordination process exited with code " +:+ pretty code))
  | NoPipes => Raise (RuntimeError "saturation NATS coordination pipes are unavailable")
  | PipeBroken => Raise (RuntimeError "lost saturation NATS coordination process")
  | OutputClosed => Raise (RuntimeError "saturation NATS coordination process closed its output")
  | Answered (Raise _) =>
      Raise (RuntimeError "saturation NATS coordination process returned invalid JSON")
  | Answered (Ok response) =>
      let unexpected : res pyval :=
        Raise (RuntimeError "saturation NATS coordination process returned an unexpected response") in
      match response with
      | PDict _ =>
          answered ← py_get response "id" PNone;
          if negb (py_eqb answered (PInt id)) then unexpected
          else
            ok ← py_get response "ok" PNone;
            if bool_decide (ok = PBool true) then Ok response
            else
              kind ← py_get response "error_type" PNone;
              if py_eqb kind (PStr "RecordNotFound")
              then Raise (RecordNotFound (py_str (default (PStr "") (alist_get "name" arguments))))
              else
                detail ← py_get response "error" (PStr "unknown error");
                Raise (RuntimeError ("saturation NATS coordination " +:+ operation +:+ " failed: "
                         +:+ py_str detail))
      | _ => unexpected
      end
  end.

(** A request through a child that is alive and reads one line per request:
    the exchange is [bridge_line]. *)
Definition bridged (id : Z) (operation : string) (arguments : list (string * pyval))
    (opened : res unit) : prog satE pyval :=
  answer ← bridge_line (Ok (bridge_request id operation arguments)) opened;
  lift (check_response id operation arguments (Answered (Ok (answer : pyval * bool).1))).

(** [saturation.py:257-258 _NatsBackend.put] *)
Definition nats_put (id : Z) (name : string) (value : pyval) (opened : res unit) : prog satE unit :=
  _ ← bridged id "put" [("name", PStr name); ("value", value)] opened; Ret tt.

(** [saturation.py:260-264 _NatsBackend.get] *)
Definition nats_get (id : Z) (name : string) (opened : res unit) : prog satE pyval :=
  response ← bridged id "get" [("name", PStr name)] opened;
  value ← lift (py_get response "value" PNone);
  lift (require_dict name value).

(** ** Agreement: lemmas *)

Section agreement.
Context (o : sat_oracle) (polls : nat) (run_id application_type : string) (count rung : Z).
Context (reports : Z → rung_report) (previous : Z → option pyfloat).
Hypothesis (Hcount : (1 < count)%Z).

Definition progress_name (i : Z) : string := coordination_name run_id rung (worker_suffix i).
Definition decision_name : string := coordination_name run_id rung "decision".
Definition progress_value (i : Z) : pyval := json_dumps (progress_of i (reports i)).
Definition decision_value : res (list (string * pyval)) :=
  decide_rung application_type count rung (reports 0) (previous 0)
    (progress_value <$> worker_indexes count).
Abbreviation worker i := (finish_rung polls run_id application_type i count rung (reports i) (previous i)).

Lemma worker_indexes_elem i : i ∈ worker_indexes count ↔ (0 ≤ i < count)%Z.
Proof.
  unfold worker_indexes. rewrite list_elem_of_fmap. setoid_rewrite elem_of_seq. split.
  - intros (n & -> & Hn). lia.
  - intros Hi. exists (Z.to_nat i). lia.
Qed.

Lemma coordination_name_inj s t :
  coordination_name run_id rung s = coordination_name run_id rung t → s = t.
Proof.
  unfold coordination_name. intros H. do 4 apply append_inj_l in H. by apply append_inj_r in H.
Qed.

Lemma progress_name_inj i j :
  (0 ≤ i)%Z → (0 ≤ j)%Z → progress_name i = progress_name j → i = j.
Proof.
  intros Hi Hj H. apply coordination_name_inj in H. unfold worker_suffix in H.
  apply append_inj_l in H. by apply pad0_inj in H.
Qed.

Lemma progress_not_decision i : progress_name i ≠ decision_name.
Proof. intros H. apply coordination_name_inj in H. discriminate. Qed.

(** Every object of the rung holds what its owner computes, and the decision
    is there only when every progress is. *)
Record coherent (w : sat_world) : Prop := {
  coh_progress i : (0 ≤ i < count)%Z →
    sw_objects w !! progress_name i = None ∨
    sw_objects w !! progress_name i = Some (progress_value i);
  coh_decision : sw_objects w !! decision_name = None ∨
    ∃ d, decision_value = Ok d ∧ sw_objects w !! decision_name = Some (json_dumps (PDict d)) ∧
      ∀ i, (0 ≤ i < count)%Z → is_Some (sw_objects w !! progress_name i);
}.

(** What a worker does to the store, and relies on others doing. *)
Definition rung_rely (w w' : sat_world) : Prop :=
  coherent w → coherent w' ∧
  ∀ name, is_Some (sw_objects w !! name) → is_Some (sw_objects w' !! name).

#[local] Instance rung_rely_preorder : PreOrder rung_rely.
Proof.
  split; [by intros w|]. intros w1 w2 w3 H12 H23 Hw. destruct (H12 Hw) as [Hw2 Hs].
  destruct (H23 Hw2) as [Hw3 Hs']. eauto.
Qed.

Lemma same_objects_rely w w' : sw_objects w' = sw_objects w → rung_rely w w'.
Proof.
  intros Heq [Hp Hd]. split; [|by rewrite Heq]. by split; rewrite Heq.
Qed.

Abbreviation safe := (safe (sat_handle o) rung_rely rung_rely).

(** The objects a program has seen stay. *)
Definition seen (names : list string) (w : sat_world) : Prop :=
  coherent w ∧ ∀ name, name ∈ names → is_Some (sw_objects w !! name).

Lemma seen_rely names w w' : rung_rely w w' → seen names w → seen names w'.
Proof. intros Hr [Hw Hs]. destruct (Hr Hw) as [Hw' Hk]. split; eauto. Qed.

Lemma seen_step names w w' : sw_objects w' = sw_objects w → seen names w → seen names w'.
Proof. intros Heq. apply seen_rely. by apply same_objects_rely. Qed.

Lemma safe_quiet {X} (op : satE X) names w :
  (∀ w, sw_objects (sat_handle o X op w).2 = sw_objects w) →
  seen names w → safe (λ _ w, seen names w) (perform op) w.
Proof.
  intros Hop Hw w1 Hr. split; [by apply same_objects_rely|].
  eapply seen_step; [apply Hop|]. by eapply seen_rely.
Qed.

Lemma sat_safe_get name names w :
  seen names w →
  safe (λ r w, seen names w ∧ ∀ v, r = Ok v → sw_objects w !! name = Some v) (perform (SGet name)) w.
Proof.
  intros Hw w1 Hr. split; [by apply same_objects_rely|]. simpl. split.
  - eapply (seen_step names w1); [done|]. by eapply seen_rely.
  - intros v. destruct (so_fault o (sw_step w1)); [|done..].
    destruct (sw_objects w1 !! name); congruence.
Qed.

Lemma safe_wait_loop n name deadline names w :
  seen names w →
  safe (λ v w, seen (name :: names) w ∧ sw_objects w !! name = Some v)
    (wait_loop n name deadline) w.
Proof.
  revert w. induction n as [|n IH]; intros w Hw; [done|].
  eapply safe_bind; [by apply (sat_safe_get name names)|]. intros r w1 [Hw1 Hr].
  assert (safe (λ v w, seen (name :: names) w ∧ sw_objects w !! name = Some v)
    (now ← perform SMonotonic;
     if fleb deadline now
     then Throw (TimeoutError ("timed out waiting for saturation coordination " +:+ name))
     else _ ← perform (SSleep (float_dec 5 (-2))); wait_loop n name deadline) w1) as Hagain.
  { eapply safe_bind; [by apply (safe_quiet SMonotonic names)|]. intros now w2 Hw2.
    destruct (fleb deadline now); [done|].
    eapply safe_bind; [by apply (safe_quiet (SSleep _) names)|]. intros u w3 Hw3. by apply IH. }
  destruct r as [v|e]; [|by destruct e].
  specialize (Hr v eq_refl). destruct Hw1 as [Hc Hs]. split; [|done]. split; [done|].
  intros name' [->|?]%elem_of_cons; [by eexists|auto].
Qed.

Lemma safe_wait name names w :
  seen names w →
  safe (λ v w, seen (name :: names) w ∧ sw_objects w !! name = Some v) (wait polls name) w.
Proof.
  intros Hw. eapply safe_bind; [by apply (safe_quiet SMonotonic names)|].
  intros now w1 Hw1. by apply safe_wait_loop.
Qed.

Lemma safe_wait_all indexes names w :
  (∀ i, i ∈ indexes → (0 ≤ i < count)%Z) → seen names w →
  safe (λ vs w, seen ((progress_name <$> indexes) ++ names) w ∧ vs = progress_value <$> indexes)
    (wait_all polls (progress_name <$> indexes)) w.
Proof.
  revert names w. induction indexes as [|i indexes IH]; intros names w Hin Hw; [done|].
  eapply safe_bind; [by apply safe_wait|]. intros v w1 [Hw1 Hv].
  assert (v = progress_value i) as ->.
  { destruct Hw1 as [Hc _]. destruct (coh_progress _ Hc i) as [H|H]; [apply Hin; left|congruence..]. }
  eapply safe_bind; [apply (IH (progress_name i :: names)); [|done]|].
  { intros j Hj. apply Hin. by right. }
  intros vs w2 [[Hc Hs] ->]. simpl. split; [|done]. split; [done|].
  intros name Hname. apply Hs. set_solver.
Qed.

Lemma put_progress_rely i w n : (0 ≤ i < count)%Z →
  rung_rely w (SatWorld (<[progress_name i := progress_value i]> (sw_objects w)) n).
Proof.
  intros Hi [Hp Hd]. split.
  - split; simpl.
    + intros j Hj. destruct (decide (i = j)) as [->|Hne]; [right; by rewrite lookup_insert_eq|].
      rewrite lookup_insert_ne; [by apply Hp|]. intros H. by apply progress_name_inj in H; [|lia..].
    + rewrite lookup_insert_ne by apply progress_not_decision.
      destruct Hd as [|(d & Hd & Hl & Hall)]; [by left|]. right. exists d. split_and!; [done..|].
      intros j Hj. rewrite lookup_insert_is_Some'. right. by apply Hall.
  - intros name Hname. simpl. rewrite lookup_insert_is_Some'. by right.
Qed.

Lemma put_decision_rely d w n :
  decision_value = Ok d → (∀ i, (0 ≤ i < count)%Z → is_Some (sw_objects w !! progress_name i)) →
  rung_rely w (SatWorld (<[decision_name := json_dumps (PDict d)]> (sw_objects w)) n).
Proof.
  intros Hd Hall [Hp _]. split.
  - split; simpl.
    + intros j Hj. rewrite lookup_insert_ne by (intros H; by apply (progress_not_decision j)). by apply Hp.
    + right. exists d. rewrite lookup_insert_eq. split_and!; [done..|].
      intros j Hj. rewrite lookup_insert_is_Some'. right. by apply Hall.
  - intros name Hname. simpl. rewrite lookup_insert_is_Some'. by right.
Qed.

(** A put that keeps the store coherent, lost or not. *)
Lemma safe_put name value names w :
  (∀ w n, seen names w → rung_rely w (SatWorld (<[name := json_dumps value]> (sw_objects w)) n)) →
  seen names w → safe (λ _ w, seen names w) (call (SPut name value)) w.
Proof.
  intros Hput Hw w1 Hr. pose proof (seen_rely _ _ _ Hr Hw) as Hw1. simpl.
  destruct (so_fault o (sw_step w1)) as [|e|e]; simpl.
  - pose proof (Hput w1 (S (sw_step w1)) Hw1) as Hrely.
    split; [done|]. by eapply seen_rely.
  - split; [by apply same_objects_rely|done].
  - split; [by apply Hput|done].
Qed.

Definition all_names : list string := progress_name <$> worker_indexes count.

Lemma seen_all w i : seen all_names w → (0 ≤ i < count)%Z → is_Some (sw_objects w !! progress_name i).
Proof.
  intros [_ Hs] Hi. apply Hs. apply list_elem_of_fmap. exists i. by rewrite worker_indexes_elem.
Qed.

(** What worker [i] returns. *)
Definition agreed (i : Z) (x : pyval * option pyfloat) (w : sat_world) : Prop :=
  seen all_names w ∧ ∃ d, decision_value = Ok d ∧
    x.1 = if (i =? 0)%Z then PDict d else json_dumps (PDict d).

Lemma agreed_rely i x w w' : rung_rely w w' → agreed i x w → agreed i x w'.
Proof. intros Hr [Hs Hd]. split; [by eapply seen_rely|done]. Qed.

Lemma safe_finish_rung i w : (0 ≤ i < count)%Z → coherent w → safe (agreed i) (worker i) w.
Proof.
  intros Hi Hw. unfold finish_rung. rewrite (proj2 (Z.ltb_lt 1 count)) by done.
  eapply safe_bind.
  { apply (safe_put _ _ []); [|split; [done|intros ? []%elem_of_nil]].
    intros w1 n _. by apply put_progress_rely. }
  intros u w1 Hw1. destruct (Z.eqb_spec i 0) as [->|Hne].
  - eapply safe_bind.
    { rewrite <- list_fmap_compose. apply (safe_wait_all _ []); [|done].
      intros j. by rewrite worker_indexes_elem. }
    intros values w2 [Hw2 ->]. rewrite app_nil_r in Hw2.
    destruct (decide_rung _ _ _ _ _ _) as [d|e] eqn:Hd; [|done].
    change (decision_value = Ok d) in Hd.
    eapply (safe_bind _ _ _ (λ x w, x = d ∧ seen all_names w)); [done|].
    intros d' w3 [-> Hw3]. destruct (next_goodput (previous 0) d) as [next|e]; [|done].
    eapply (safe_bind _ _ _ (λ x w, x = next ∧ seen all_names w)); [done|].
    clear w2 Hw2 w3 Hw3. intros next' w2 [-> Hw2].
    eapply (safe_bind _ _ _ (λ _ w, seen all_names w)).
    { apply (safe_put _ _ all_names); [|done].
      intros w3 n Hw3. apply put_decision_rely; [done|]. intros j. by apply seen_all. }
    intros u2 w3 Hw3 w4 Hr. pose proof (seen_rely _ _ _ Hr Hw3) as Hw4.
    split; [by apply same_objects_rely|]. simpl. destruct (so_append o (sw_step w4)); [|done]. simpl.
    split; [by apply (seen_step _ w4)|]. by exists d.
  - eapply safe_bind; [by apply (safe_wait decision_name [])|]. intros v w2 [[Hc _] Hv].
    destruct (coh_decision _ Hc) as [|(d & Hd & Hl & Hall)]; [congruence|].
    split.
    + split; [done|]. intros name (j & -> & Hj)%list_elem_of_fmap. apply Hall.
      by rewrite <- worker_indexes_elem.
    + exists d. split; [done|]. rewrite (proj2 (Z.eqb_neq _ _)) by done.
      change (v = json_dumps (PDict d)). congruence.
Qed.
End agreement.

(** ** The backends: lemmas *)

Definition slash_to_hyphen (c : ascii) : ascii := if decide (c = "/"%char) then "-"%char else c.

Lemma file_path_app s t : file_path (s +:+ t) = file_path s +:+ file_path t.
Proof.
  unfold file_path. rewrite chars_app, fmap_app.
  rewrite <- (of_chars_chars (of_chars _ +:+ of_chars _)), chars_app, !chars_of_chars. done.
Qed.

Lemma slash_free_path s : only_chars (λ c, c ≠ "/"%char) s → file_path s = s.
Proof.
  unfold only_chars, file_path. intros Hs. rewrite <- (of_chars_chars s) at 2. f_equal.
  induction Hs as [|c l Hc Hl IH]; [done|]. rewrite fmap_cons, IH. by rewrite decide_False.
Qed.

(** Up to the first hyphen, two equal strings have equal heads. *)
Lemma head_before_hyphen (l1 l2 t1 t2 : list ascii) :
  Forall (λ c, c ≠ "-"%char) l1 → Forall (λ c, c ≠ "-"%char) l2 →
  l1 ++ "-"%char :: t1 = l2 ++ "-"%char :: t2 → l1 = l2 ∧ t1 = t2.
Proof.
  intros H1. revert l2. induction H1 as [|c l1 Hc H1 IH]; intros l2 H2 Heq;
    destruct H2 as [|c' l2 Hc' H2]; simpl in *; try congruence.
  - by injection Heq.
  - injection Heq as -> Heq. by destruct (IH l2 H2 Heq) as [-> ->].
Qed.

Lemma pad0_no_char c w z :
  (0 ≤ z)%Z → ¬ (48 ≤ chr_code c ≤ 57)%Z → only_chars (λ x, x ≠ c) (pad0 w z).
Proof.
  intros Hz Hc. eapply Forall_impl; [by apply pad0_digits|]. intros x Hx ->. done.
Qed.

(** An object of a rung: the decision, or the progress of a worker. *)
Inductive coordination := Decision_of (rung : Z) | Progress_of (rung index : Z).
#[export] Instance coordination_eq_dec : EqDecision coordination.
Proof. solve_decision. Defined.
Definition coordination_wf (x : coordination) : Prop :=
  match x with Decision_of r => 0 ≤ r | Progress_of r i => 0 ≤ r ∧ 0 ≤ i end%Z.
Definition suffix_of (x : coordination) : string :=
  match x with Decision_of _ => "decision" | Progress_of _ i => worker_suffix i end.
Definition rung_of (x : coordination) : Z :=
  match x with Decision_of r | Progress_of r _ => r end.
Definition name_of (run_id : string) (x : coordination) : string :=
  coordination_name run_id (rung_of x) (suffix_of x).

Lemma suffix_slash_free x : coordination_wf x → only_chars (λ c, c ≠ "/"%char) (suffix_of x).
Proof.
  destruct x as [r|r i]; simpl; intros Hx.
  - unfold only_chars. apply (bool_decide_unpack _). vm_compute. exact I.
  - unfold worker_suffix. apply only_chars_app. split.
    + unfold only_chars. apply (bool_decide_unpack _). vm_compute. exact I.
    + apply pad0_no_char; [lia|]. change (chr_code "/"%char) with 47%Z. lia.
Qed.

Lemma file_path_name run_id x : coordination_wf x →
  file_path (name_of run_id x) =
    file_path run_id +:+ "-saturation-" +:+ pad0 4 (rung_of x) +:+ "-" +:+ suffix_of x +:+ ".json".
Proof.
  intros Hx. unfold name_of, coordination_name. rewrite !file_path_app.
  rewrite (slash_free_path (pad0 4 _)).
  2:{ apply pad0_no_char; [destruct x; simpl in *; lia|]. change (chr_code "/"%char) with 47%Z. lia. }
  by rewrite (slash_free_path (suffix_of x)) by by apply suffix_slash_free.
Qed.

Lemma file_path_inj run_id x y : coordination_wf x → coordination_wf y →
  file_path (name_of run_id x) = file_path (name_of run_id y) → x = y.
Proof.
  intros Hx Hy Heq. rewrite !file_path_name in Heq by done.
  apply append_inj_l, append_inj_l in Heq. apply (f_equal chars) in Heq. rewrite !chars_app in Heq.
  change (chars "-") with ["-"%char] in Heq. simpl in Heq.
  apply head_before_hyphen in Heq as [Hr Ht].
  2,3: apply pad0_no_char; [destruct x, y; simpl in *; lia|change (chr_code "-"%char) with 45%Z; lia].
  assert (rung_of x = rung_of y) as Hrung.
  { apply (pad0_inj 4); [destruct x; simpl in *; lia|destruct y; simpl in *; lia|].
    by rewrite <- (of_chars_chars (pad0 4 (rung_of x))), Hr, of_chars_chars. }
  assert (suffix_of x = suffix_of y) as Hs.
  { apply app_inv_tail in Ht. by rewrite <- (of_chars_chars (suffix_of x)), Ht, of_chars_chars. }
  destruct x as [r|r i], y as [r'|r' j]; simpl in *; subst; try discriminate; [done|].
  unfold worker_suffix in Hs. apply append_inj_l, pad0_inj in Hs; [by subst|lia..].
Qed.

(** The directory holds exactly the objects of the run. *)
Definition holds (run_id : string) (fs : files) (objects : gmap string pyval) : Prop :=
  ∀ x, coordination_wf x → fs !! file_path (name_of run_id x) = objects !! name_of run_id x.

Lemma name_of_inj run_id x y : coordination_wf x → coordination_wf y →
  name_of run_id x = name_of run_id y → x = y.
Proof. intros Hx Hy Heq. apply (file_path_inj run_id); [done..|]. by rewrite Heq. Qed.

(** A temporary path never is the path of an object: object paths end in
    [.json], temporary ones in a hexadecimal digit. *)
Lemma temporary_not_path run_id x y pid hex : coordination_wf x → coordination_wf y →
  only_chars (λ c, c ≠ "n"%char) hex → hex ≠ "" →
  temporary_path (name_of run_id x) pid hex ≠ file_path (name_of run_id y).
Proof.
  intros Hx Hy Hhex Hne Heq. unfold temporary_path in Heq. rewrite (file_path_name run_id y) in Heq by done.
  apply (f_equal chars) in Heq. rewrite !chars_app in Heq.
  change (chars ".json") with (["."; "j"; "s"; "o"]%char ++ ["n"%char]) in Heq.
  rewrite !app_assoc in Heq. destruct (@exists_last _ (chars hex)) as (l & c & E).
  { intros E. apply Hne. by rewrite <- (of_chars_chars hex), E. }
  unfold only_chars in Hhex. rewrite E in Heq, Hhex.
  rewrite app_assoc in Heq. apply app_inj_tail in Heq as [_ ->].
  apply Forall_app in Hhex as [_ Hhex]. by inversion Hhex.
Qed.

(** ** Properties *)

(** C38: the workers of a rung agree.  From a store without objects of the
    rung, whatever the interleaving of the workers, the lost requests and
    replies, the clocks and the crashes, every worker that finishes the rung
    returns the one decision determined by all the workers' reports (the
    coordinator the dictionary it computed, the others that dictionary as
    stored), and none finishes before every worker has published its
    progress. *)
Theorem rung_agreement (o : sat_oracle) (polls : nat) (run_id application_type : string)
    (count rung : Z) (reports : Z → rung_report) (previous : Z → option pyfloat) (w w' : sat_world)
    (ps' : list (prog satE (pyval * option pyfloat))) :
  (1 < count)%Z →
  (∀ i, (0 ≤ i < count)%Z → sw_objects w !! progress_name run_id rung i = None) →
  sw_objects w !! decision_name run_id rung = None →
  rtc (step (sat_handle o))
    (w, (λ i, finish_rung polls run_id application_type i count rung (reports i) (previous i))
        <$> worker_indexes count) (w', ps') →
  ∀ (i : nat) decision next, (Z.of_nat i < count)%Z → ps' !! i = Some (Ret (decision, next)) →
    (∃ d, decide_rung application_type count rung (reports 0%Z) (previous 0%Z)
            ((λ j, json_dumps (progress_of j (reports j))) <$> worker_indexes count) = Ok d ∧
       decision = if (i =? 0)%nat then PDict d else json_dumps (PDict d)) ∧
    ∀ j, (0 ≤ j < count)%Z → is_Some (sw_objects w' !! progress_name run_id rung j).
Proof.
  intros Hcount Hnone Hdnone Hsteps i decision next Hi Hret.
  set (A := agreed run_id application_type count rung reports previous).
  set (R := rung_rely run_id application_type count rung reports previous).
  assert (coherent run_id application_type count rung reports previous w) as Hw.
  { split; [intros j Hj; left; by apply Hnone|by left]. }
  pose proof (rung_rely_preorder run_id application_type count rung reports previous) as Hpre.
  assert (all_safe (sat_handle o) R R (λ i, A (Z.of_nat i))
    (w, (λ i, finish_rung polls run_id application_type i count rung (reports i) (previous i))
        <$> worker_indexes count)) as Hsafe.
  { intros j p Hj. simpl in *. exists w. split; [apply Hpre|].
    apply list_lookup_fmap_Some in Hj as (z & -> & Hz).
    apply list_lookup_fmap_Some in Hz as (m & -> & Hm). apply lookup_seq in Hm as [-> Hlt]. simpl.
    apply safe_finish_rung; [done|lia|done]. }
  destruct (safe_steps _ R R (λ s s' H, H) _ _ _ Hsteps Hsafe) as [_ Hsafe'].
  assert (A (Z.of_nat i) (decision, next) w') as [Hs (d & Hd & Heq)].
  { eapply safe_returned; [|by apply (Hsafe' i)]. intros s s'. apply agreed_rely. }
  split.
  - exists d. split; [exact Hd|]. simpl in Heq. rewrite Heq. by destruct i.
  - intros j Hj. by eapply seen_all.
Qed.

(** The directory backend implements the shared store for the objects of
    a run: a put makes exactly its object change, a half-finished put changes
    nothing a reader can see, and a get answers from the object or with
    [RecordNotFound]. *)
Theorem file_backend_refines run_id (fs : files) objects x value pid hex :
  coordination_wf x → only_chars (λ c, c ≠ "n"%char) hex → hex ≠ "" →
  holds run_id fs objects →
  holds run_id (file_write (name_of run_id x) value pid hex fs) objects ∧
  holds run_id (file_put (name_of run_id x) value pid hex fs)
    (<[name_of run_id x := json_dumps value]> objects) ∧
  file_get (name_of run_id x) fs =
    match objects !! name_of run_id x with
    | Some v => require_dict (name_of run_id x) v
    | None => Raise (RecordNotFound (name_of run_id x))
    end.
Proof.
  intros Hx Hhex Hne Hfs. split_and!.
  - intros y Hy. unfold file_write. rewrite lookup_insert_ne; [by apply Hfs|].
    by apply temporary_not_path.
  - intros y Hy. unfold file_put, file_replace, file_write.
    rewrite lookup_insert_eq. destruct (decide (x = y)) as [->|Hxy].
    + by rewrite !lookup_insert_eq.
    + rewrite !lookup_insert_ne.
      * rewrite lookup_delete_ne by by apply temporary_not_path.
        rewrite lookup_insert_ne by by apply temporary_not_path. by apply Hfs.
      * intros Heq. by apply Hxy, (name_of_inj run_id).
      * intros Heq. by apply Hxy, (file_path_inj run_id).
  - unfold file_get. rewrite (Hfs x Hx). by destruct (objects !! _).
Qed.

(** The bridge process is transparent: reading through it performs one read
    of the store, a dictionary arrives as it is, a missing object as
    [RecordNotFound] of the requested name, and every other failure as a
    [RuntimeError]. *)
Theorem bridge_get_spec (o : sat_oracle) id name w :
  let '(r, w') := sat_handle o _ (SGet name) w in
  run (sat_handle o) (nats_get id name (Ok tt)) w =
    (match r with
     | Ok (PDict d) => Ok (PDict d)
     | Ok _ => Raise (RuntimeError ("saturation NATS coordination get failed: coordination value "
                 +:+ name +:+ " is not an object"))
     | Raise e =>
         if String.eqb (exn_class e) "RecordNotFound" then Raise (RecordNotFound name)
         else Raise (RuntimeError ("saturation NATS coordination get failed: " +:+ exn_str e))
     end, w').
Proof.
  unfold nats_get, bridged, bridge_line, dispatch, bridge_operation, bridge_request. simpl.
  set (w' := SatWorld _ _).
  set (r := match so_fault o (sw_step w) with NoFault => _ | RequestLost e | ReplyLost e => _ e end).
  clearbody r w'. destruct r as [v|e].
  - destruct v; simpl; rewrite Z.eqb_refl; done.
  - simpl. rewrite Z.eqb_refl. simpl. by destruct (String.eqb (exn_class e) "RecordNotFound").
Qed.

Lemma saturated_iff i goodput growth :
  is_Some (saturation_reason i goodput growth) ↔
    (is_nats i = true ∧ ∃ g, growth = Some g ∧ fleb RAPID_PENDING_GROWTH_PER_SECOND g = true) ∨
    (∃ previous g, ri_previous_goodput i = Some previous ∧ goodput = Some g ∧ fleb g previous = true).
Proof.
  unfold saturation_reason. generalize RAPID_PENDING_GROWTH_PER_SECOND. intros limit.
  destruct (is_nats i && _) eqn:E.
  - apply andb_true_iff in E as [Hn Hg]. destruct growth as [g|]; [|done].
    split; [intros _; left; eauto|by eexists].
  - split.
    + intros [r Hr]. right. destruct (ri_previous_goodput i) as [p|], goodput as [g|]; try done.
      destruct (fleb g p) eqn:Hle; [eauto|done].
    + intros [(Hn & g & -> & Hg)|(p & g & -> & -> & Hle)]; [by rewrite Hn, Hg in E|].
      rewrite Hle. by eexists.
Qed.


(** The names under which the workers meet are those the Job deletes when the
    run is over (Parallel.v). *)
Lemma coordination_names_shared run_id rung index :
  name_of run_id (Decision_of rung) = saturation_decision_object run_id rung ∧
  name_of run_id (Progress_of rung index) = saturation_progress_object run_id rung index.
Proof. done. Qed.

(** ** Concrete inputs *)

Definition demo_report (before after : Z) : rung_report :=
  RungReport (float_dec 10 0) (float_dec 0 0) (float_dec 30 0) before after None None None None false false.
Definition demo_reports (i : Z) : rung_report := demo_report 0 (100 + i).
Definition demo_sat_oracle : sat_oracle :=
  SatOracle (λ n, if (n =? 0)%nat then ReplyLost (TimeoutError "nats: timeout") else NoFault)
    (λ _, float_dec 0 0) (λ _, Ok tt).
Definition demo_workers : list (prog satE (pyval * option pyfloat)) :=
  (λ i, finish_rung 3 "run" "GRPC" i 2 1 (demo_reports i) None) <$> worker_indexes 2.
Definition demo_calm_oracle : sat_oracle :=
  SatOracle (λ _, NoFault) (λ _, float_dec 0 0) (λ _, Ok tt).

(** Worker 1 publishes and waits, worker 0 publishes, collects and decides,
    worker 1 reads the decision. *)
Definition demo_schedule : list nat := [1; 1; 1; 1; 0; 0; 0; 0; 0; 0; 0; 0; 1; 1; 1].
Definition demo_final : sat_world * list (prog satE (pyval * option pyfloat)) :=
  run_schedule (sat_handle demo_calm_oracle) demo_schedule (SatWorld ∅ 0, demo_workers).

Example demo_both_finish :
  (λ p, match p with Ret _ => true | _ => false end) <$> demo_final.2 = [true; true].
Proof. vm_compute. reflexivity. Qed.

Lemma rung_agreement_witness :
  match demo_final.2 !! 1 with
  | Some (Ret (decision, next)) =>
      (∃ d, decide_rung "GRPC" 2 1 (demo_reports 0) None
              ((λ j, json_dumps (progress_of j (demo_reports j))) <$> worker_indexes 2) = Ok d ∧
         decision = json_dumps (PDict d)) ∧
      ∀ j, (0 ≤ j < 2)%Z → is_Some (sw_objects demo_final.1 !! progress_name "run" 1 j)
  | _ => False
  end.
Proof.
  destruct (demo_final.2 !! 1) as [[[decision next]|e|X op k]|] eqn:E.
  2-4: by vm_compute in E.
  apply (rung_agreement demo_calm_oracle 3 "run" "GRPC" 2 1 demo_reports (λ _, None)
    (SatWorld ∅ 0) demo_final.1 demo_final.2) with (i := 1) (next := next).
  - reflexivity.
  - intros i _. reflexivity.
  - reflexivity.
  - rewrite <- surjective_pairing. apply run_schedule_steps.
  - reflexivity.
  - exact E.
Defined.

Lemma file_backend_refines_witness :
  holds "run" (file_write (name_of "run" (Decision_of 1)) (PDict []) 7 "ab" ∅) ∅ ∧
  holds "run" (file_put (name_of "run" (Decision_of 1)) (PDict []) 7 "ab" ∅)
    (<[name_of "run" (Decision_of 1) := json_dumps (PDict [])]> ∅) ∧
  file_get (name_of "run" (Decision_of 1)) ∅ = Raise (RecordNotFound (name_of "run" (Decision_of 1))).
Proof.
  destruct (file_backend_refines "run" ∅ ∅ (Decision_of 1) (PDict []) 7 "ab") as (Hw & Hp & Hg).
  - simpl. lia.
  - unfold only_chars. apply (bool_decide_unpack _). vm_compute. exact I.
  - discriminate.
  - intros x _. reflexivity.
  - split_and!; [exact Hw|exact Hp|]. rewrite Hg, lookup_empty. reflexivity.
Defined.

Definition demo_rung : rung_input :=
  RungInput "NATS" (float_dec 10 0) (float_dec 30 0) 300 (Some 280%Z) (Some (float_dec 9 0))
    (Some (float_dec 0 0)) (Some (float_dec 600 0)) false false.


(** [sum([0.1] * 10)] is 1.0 with compensation. *)
Example float_sum_compensated : float_sum (replicate 10 (float_dec 1 (-1))) = float_dec 1 0.
Proof. vm_compute. reflexivity. Qed.
