(* ===== verification/Reporting.v ===== *)
(** * Benchmark reports (benchmarkservice/reporting.py)

    A report reduces the records of a run to a summary: percentiles, the
    outcomes of the orders, the workflow events, the outstanding orders, the
    verdict on capacity.  A record is a dictionary read from a JSON line.  The
    theorems: what the summaries count, and that they do not depend on the
    order in which the workers' records were merged. *)

From S2P Require Import Prelude PyFloat PyValue BenchConfig.
From Corelib Require Import SpecFloat.

(** ** Reading the artifacts *)

(** What [json.loads] makes of a line. *)
Inductive json_line :=
  | BlankLine
  | JsonLine (v : pyval)
  | BadLine.

(** The lines of an existing file; [number] is that of the first one.
    [reporting.py:117-134 read_json_lines] *)
Fixpoint read_json_lines (number : nat) (lines : list json_line) : res (list mapping) :=
  match lines with
  | [] => Ok []
  | line :: lines =>
      let rest := read_json_lines (S number) lines in
      match line with
      | BlankLine => rest
      | BadLine => if 1 <? number then rest else Raise (JSONDecodeError "invalid JSON")
      | JsonLine (PDict m) => l ← rest; Ok (m :: l)
      | JsonLine _ => rest
      end
  end%nat.

(** [document] is the parsed file, [None] when it does not exist.
    [reporting.py:137-142 read_json_object] *)
Definition read_json_object (document : option (res pyval)) : res mapping :=
  match document with
  | None => Ok []
  | Some document => value ← document; Ok match value with PDict m => m | _ => [] end
  end.

Definition field (record : mapping) (k : string) : pyval := default PNone (alist_get k record).

(** [record.get("context", {}).get(k, d)] *)
Definition context_get (record : mapping) (k : string) (d : pyval) : res pyval :=
  py_get (default (PDict []) (alist_get "context" record)) k d.

(** [[x for x in l if p(x)]] for a condition that may raise. *)
Fixpoint res_filter {A} (p : A → res bool) (l : list A) : res (list A) :=
  match l with
  | [] => Ok []
  | x :: l => b ← p x; rest ← res_filter p l; Ok (if (b : bool) then x :: rest else rest)
  end.

(** ** Percentiles *)

(** [sorted] compares with [<] and is stable.  Lists with a NaN are outside
    the model: the order [<] gives them is not defined by Python. *)
Definition float_le (x y : pyfloat) : Prop := fltb y x = false.
#[export] Instance float_le_dec x y : Decision (float_le x y).
Proof. unfold float_le. apply _. Defined.
Definition sorted_floats : list pyfloat → list pyfloat := merge_sort float_le.

(** [l[i]]; negative indexes count from the end. *)
Definition py_index {A} (l : list A) (i : Z) : res A :=
  let i := (if i <? 0 then i + Z.of_nat (length l) else i)%Z in
  if (i <? 0)%Z then Raise (IndexError "list index out of range")
  else match l !! Z.to_nat i with
       | Some x => Ok x
       | None => Raise (IndexError "list index out of range")
       end.

(** [reporting.py:145-160 percentile] *)
Definition percentile (values : list pyfloat) (quantile : pyfloat) : res (option pyfloat) :=
  let ordered := sorted_floats values in
  match ordered with
  | [] => Ok None
  | [x] => Ok (Some (f_round x 3))
  | _ =>
      n ← float_of_Z (Z.of_nat (length ordered) - 1);
      let position := fmul n quantile in
      lower ← f_floor position;
      upper ← f_ceil position;
      result ←
        (if (lower =? upper)%Z then py_index ordered lower
         else
           low ← py_index ordered lower;
           high ← py_index ordered upper;
           base ← float_of_Z lower;
           Ok (fadd low (fmul (fsub high low) (fsub position base))));
      Ok (Some (f_round result 3))
  end.

Definition opt_float (x : option pyfloat) : pyval :=
  match x with Some x => PFloat x | None => PNone end.

(** [max(values)] *)
Definition floats_max (values : list pyfloat) : option pyfloat :=
  match values with [] => None | x :: l => Some (foldl f_max x l) end.

Definition latencies (values : list pyfloat) : res mapping :=
  p50 ← percentile values (float_dec 50 (-2));
  p95 ← percentile values (float_dec 95 (-2));
  p99 ← percentile values (float_dec 99 (-2));
  Ok [("count", PInt (Z.of_nat (length values))); ("p50_ms", opt_float p50);
      ("p95_ms", opt_float p95); ("p99_ms", opt_float p99);
      ("max_ms", opt_float ((λ x, f_round x 3) <$> floats_max values))].

(** The response times of the samples that count. *)
Fixpoint response_times (keep : mapping → bool) (samples : list mapping) : res (list pyfloat) :=
  match samples with
  | [] => Ok []
  | sample :: samples =>
      if keep sample && negb (bool_decide (field sample "response_time_ms" = PNone)) then
        x ← py_float (field sample "response_time_ms");
        l ← response_times keep samples;
        Ok (x :: l)
      else response_times keep samples
  end.

(** [reporting.py:163-175 latency_summary] *)
Definition latency_summary (samples : list mapping) : res mapping :=
  values ← response_times (λ s, py_truth (field s "success")) samples;
  latencies values.

(** [reporting.py:178-193 recorded_latency_summary] *)
Definition recorded_latency_summary (samples : list mapping) (successful : bool) : res mapping :=
  values ← response_times (λ s, eqb (py_truth (field s "success")) successful) samples;
  latencies values.

(** [reporting.py:196-199 rate] *)
Definition rate (numerator denominator : Z) : res (option pyfloat) :=
  if (denominator =? 0)%Z then Ok None
  else q ← int_truediv numerator denominator; Ok (Some (f_round q 6)).

(** ** Workflow events *)

Definition unavailable (reason : string) : mapping :=
  [("available", PBool false); ("reason", PStr reason)].

Definition workflow_counters : list string :=
  ["successful_orders"; "shipments_rejected"; "payment_authorizations_released";
   "orders_in_manual_review"].

(** The differences of the counters, or the first that is not a difference of
    two counters.
    [reporting.py:234-251 workflow_event_summary] *)
Fixpoint counter_changes (names : list string) (before after : mapping) : mapping + string :=
  match names with
  | [] => inl []
  | name :: names =>
      match field before name, field after name with
      | PInt initial, PInt final =>
          if (final <? initial)%Z then inr name
          else match counter_changes names before after with
               | inl counts => inl ((name, PInt (final - initial)) :: counts)
               | inr name => inr name
               end
      | _, _ => inr name
      end
  end.

(** [reporting.py:202-252 workflow_event_summary] *)
Definition workflow_event_summary (value : mapping) : mapping :=
  let error := field value "error" in
  if py_truth error then unavailable (py_str error) else
  match field value "started", field value "ended" with
  | PDict started, PDict ended =>
      let observer_id := field started "observer_id" in
      if match observer_id with PStr id => String.eqb id "" | _ => true end
         || negb (py_eqb observer_id (field ended "observer_id"))
      then unavailable "workflow event observer lost continuity" else
      match field started "counts", field ended "counts" with
      | PDict before, PDict after =>
          match counter_changes workflow_counters before after with
          | inl counts => ("available", PBool true) :: counts
          | inr name => unavailable ("invalid workflow event counter " +:+ name)
          end
      | _, _ => unavailable "workflow event observer does not expose event counts"
      end
  | _, _ => unavailable "workflow event observer samples are missing"
  end.

(** ** Orders *)

(** [Counter(l)] keeps the order in which its keys were first seen. *)
Definition counts := list (string * Z).
Definition counter_add (m : counts) (k : string) : counts :=
  alist_set k (default 0 (alist_get k m) + 1)%Z m.
Definition counter : list string → counts := foldl counter_add [].

(** [counter.setdefault(k, 0)] *)
Definition with_zero (m : counts) (k : string) : counts :=
  match alist_get k m with Some _ => m | None => m ++ [(k, 0%Z)] end.

(** [dict(sorted(counter.items()))]; keys are distinct, so that the counts are
    never compared. *)
Definition sorted_counts (m : counts) : mapping :=
  merge_sort key_le ((λ kc, (kc.1, PInt kc.2)) <$> m).

Definition required_outcomes : list string :=
  ["COMPLETED"; "REJECTED"; "CANCELLED"; "MANUAL_REVIEW"; "TIMEOUT"; "INCOMPLETE";
   "GENERATOR_SATURATED"].

Definition named (name : string) (record : mapping) : bool := py_eqb (field record "name") (PStr name).
Definition steady (record : mapping) : bool := py_eqb (field record "phase") (PStr "steady").

(** [str(record.get("context", {}).get(k, "UNKNOWN"))] *)
Definition context_label (k : string) (record : mapping) : res string :=
  v ← context_get record k (PStr "UNKNOWN"); Ok (py_str v).
Definition context_truth (k : string) (record : mapping) : res bool :=
  v ← context_get record k PNone; Ok (py_truth v).
Definition context_is (k v : string) (record : mapping) : res bool :=
  x ← context_get record k PNone; Ok (py_eqb x (PStr v)).

(** [reporting.py:273-286 business_summary] *)
Definition outcome_counts (outcomes : list mapping) : res counts :=
  labels ← res_mapM (context_label "outcome") outcomes;
  Ok (foldl with_zero (counter labels) required_outcomes).

(** The labels of the records whose field is set.
    [reporting.py:303-312 business_summary] *)
Definition status_counts (k : string) (settlements : list mapping) : res counts :=
  chosen ← res_filter (context_truth k) settlements;
  labels ← res_mapM (context_label k) chosen;
  Ok (counter labels).

(** [count / duration] *)
Definition per_second (count : Z) (duration : pyval) : res pyfloat :=
  match duration with
  | PInt d => int_truediv count d
  | d => x ← float_of_Z count; y ← py_float d; f_truediv x y
  end.

(** [reporting.py:329-332 business_summary] *)
Fixpoint outcome_rates (sorted : mapping) (submitted : Z) : res mapping :=
  match sorted with
  | [] => Ok []
  | (outcome, count) :: sorted =>
      r ← rate (match count with PInt c => c | _ => 0%Z end) submitted;
      rest ← outcome_rates sorted submitted;
      Ok ((outcome, opt_float r) :: rest)
  end.

(** [reporting.py:255-355 business_summary] *)
Definition business_summary (records : list mapping) (duration : pyval) : res mapping :=
  let steady := filter (λ r, steady r = true) records in
  let outcomes := filter (λ r, named "checkout_to_outcome" r = true) steady in
  let acceptances := filter (λ r, named "checkout_acceptance" r = true) steady in
  let settlements := filter (λ r, named "checkout_to_settled" r = true) steady in
  counts ← outcome_counts outcomes;
  let submitted := Z.of_nat (length outcomes) in
  accepted ← res_filter (context_truth "accepted") outcomes;
  let accepted := Z.of_nat (length accepted) in
  let completed := default 0%Z (alist_get "COMPLETED" counts) in
  scheduled ← res_filter (λ r, v ← context_get r "scheduled_at" PNone;
                               Ok (negb (bool_decide (v = PNone)))) outcomes;
  settlement_labels ← res_mapM (context_label "settlement") settlements;
  notification_counts ← status_counts "notification_status" settlements;
  cart_clear_counts ← status_counts "cart_clear_status" settlements;
  acceptance_rate ← rate accepted submitted;
  completion_rate ← rate completed submitted;
  completion_rate_of_accepted ← rate completed accepted;
  goodput ← per_second completed duration;
  rates ← outcome_rates (sorted_counts counts) submitted;
  completed_records ← res_filter (context_is "outcome" "COMPLETED") outcomes;
  to_outcome ← latency_summary completed_records;
  accepted_records ← res_filter (context_truth "accepted") acceptances;
  acceptance ← latency_summary accepted_records;
  settled_records ← res_filter (context_is "settlement" "SETTLED") settlements;
  to_settled ← latency_summary settled_records;
  Ok [("submitted", PInt submitted);
      ("scheduled_open_loop", PInt (Z.of_nat (length scheduled)));
      ("accepted", PInt accepted); ("completed", PInt completed);
      ("acceptance_rate", opt_float acceptance_rate);
      ("completion_rate", opt_float completion_rate);
      ("completion_rate_of_accepted", opt_float completion_rate_of_accepted);
      ("goodput_orders_per_second", PFloat (f_round goodput 6));
      ("outcomes", PDict (sorted_counts counts)); ("outcome_rates", PDict rates);
      ("checkout_to_outcome", PDict to_outcome); ("checkout_acceptance", PDict acceptance);
      ("checkout_to_settled", PDict to_settled);
      ("settlements", PDict (sorted_counts (counter settlement_labels)));
      ("notification_outcomes", PDict (sorted_counts notification_counts));
      ("cart_clear_outcomes", PDict (sorted_counts cart_clear_counts))].

(** ** Outstanding orders *)

(** The highest and the last count of a second. *)
Record bucket := Bucket {
  b_phase : pyval;
  b_outstanding : Z;
  b_max : Z;
}.

(** The dictionary of buckets keeps its insertion order; the series sorts it
    by second. *)
Definition second_le (a b : Z * bucket) : Prop := (a.1 ≤ b.1)%Z.
#[export] Instance second_le_dec a b : Decision (second_le a b).
Proof. unfold second_le. apply _. Defined.

(** A record's second and count.
    [reporting.py:1149-1152 outstanding_summary] *)
Definition outstanding_point (record : mapping) : res (Z * Z) :=
  elapsed ← py_float (default (PInt 0) (alist_get "elapsed_seconds" record));
  value ← py_int (default (PInt 0) (alist_get "outstanding" record));
  second ← f_floor elapsed;
  Ok (Z.max 0 second, value).

(** [reporting.py:1153-1164 outstanding_summary] *)
Definition bucket_add (buckets : list (Z * bucket)) (second value : Z) (phase : pyval)
  : list (Z * bucket) :=
  let highest := match alist_get second buckets with Some b => Z.max (b_max b) value | None => value end in
  alist_set second (Bucket phase value highest) buckets.

(** [reporting.py:1148-1164 outstanding_summary] *)
Fixpoint outstanding_buckets (records : list mapping) (buckets : list (Z * bucket)) (maximum : Z)
  : res (list (Z * bucket) * Z) :=
  match records with
  | [] => Ok (buckets, maximum)
  | record :: records =>
      point ← outstanding_point record;
      outstanding_buckets records (bucket_add buckets point.1 point.2 (field record "phase"))
        (Z.max maximum point.2)
  end.

Definition bucket_point (sb : Z * bucket) : pyval :=
  PDict [("elapsed_seconds", PInt sb.1); ("phase", b_phase sb.2);
         ("outstanding", PInt (b_outstanding sb.2)); ("max_outstanding", PInt (b_max sb.2))].

(** [reporting.py:1138-1171 outstanding_summary] *)
Definition outstanding_summary (records : list mapping) : res mapping :=
  match last records with
  | None => Ok [("available", PBool false); ("max", PInt 0); ("final", PInt 0); ("series", PList [])]
  | Some final =>
      r ← outstanding_buckets records [] 0;
      final ← py_int (default (PInt 0) (alist_get "outstanding" final));
      Ok [("available", PBool true); ("max", PInt r.2); ("final", PInt final);
          ("series", PList (bucket_point <$> merge_sort second_le r.1))]
  end.

(** ** Capacity *)

Definition verdict (sustainable : pyval) (reasons : list string) : mapping :=
  [("sustainable", sustainable); ("reasons", PList (PStr <$> reasons))].

(** [x > 0] for a number. *)
Definition py_positive (v : pyval) : res bool :=
  match v with
  | PInt z => Ok (0 <? z)%Z
  | PBool b => Ok b
  | PFloat x => Ok (fltb (float_dec 0 0) x)
  | _ => Raise (TypeError "'>' not supported between instances")
  end.

(** What the business summary and the outstanding orders say.
    [reporting.py:1694-1703 capacity_assessment] *)
Definition order_reasons (business outstanding : mapping) : res (list string) :=
  outcomes ← py_get (PDict business) "outcomes" (PDict []);
  saturated ← py_get outcomes "GENERATOR_SATURATED" (PInt 0);
  saturated ← py_int saturated;
  completed ← py_item (PDict business) "completed";
  submitted ← py_item (PDict business) "submitted";
  left_over ← py_positive (default (PInt 0) (alist_get "final" outstanding));
  Ok ((if (saturated =? 0)%Z then []
       else ["load generator concurrency limit was reached " +:+ pretty saturated +:+ " times"]) ++
      (if py_eqb completed submitted then [] else ["not every submitted transaction completed"]) ++
      (if (left_over : bool) then ["accepted orders remained outstanding after drain"] else [])).

(** [reporting.py:1668-1713 capacity_assessment] *)
Definition capacity_assessment (c : config) (business outstanding nats : mapping) : res mapping :=
  if String.eqb (workload c) "fault_tolerance"
  then Ok (verdict PNone ["capacity is not assessed while faults are intentional"])
  else if negb (bool_decide (workload c ∈ ["open"; "saturation"]))
  then Ok (verdict PNone ["capacity is assessed only for open-loop runs"])
  else
    submitted ← py_item (PDict business) "submitted";
    if py_eqb submitted (PInt 0)
    then Ok (verdict PNone ["no steady-state transactions were recorded"])
    else
      reasons ← order_reasons business outstanding;
      let done reasons := verdict (PBool (match reasons with [] => true | _ => false end)) reasons in
      if negb (String.eqb (application_type c) "NATS") then Ok (done reasons) else
      let pending := if py_truth (field nats "available") then field nats "consumer_pending" else PNone in
      match pending with
      | PNone => Ok (verdict PNone (reasons ++ ["consumer backlog metrics were unavailable"]))
      | pending =>
          change ← py_get pending "change" (PInt 0);
          change ← py_float change;
          Ok (done (reasons ++ if fltb (float_dec 0 0) change
                               then ["JetStream consumer pending messages increased"] else []))
      end.

(** ** Samples of a window *)

(** A sample of a source is selected once, by the time at which the source
    collected it; [seen] are those already selected.  Only numbers have a
    [float], other values are skipped.
    [reporting.py:1911-1935 source_records_for_window] *)
Definition window_sample (source : string) (started ended maximum_age : pyfloat) (seen : list pyfloat)
    (record : mapping) : res (option (pyfloat * option pyfloat)) :=
  let source_samples := default (PDict []) (alist_get "source_samples" record) in
  sample ← py_get source_samples source (PDict []);
  source_elapsed ← py_get (default (PDict []) (alist_get "source_elapsed_seconds" record)) source PNone;
  let source_elapsed := match source_elapsed with
    | PNone => default (PInt (-1)) (alist_get "elapsed_seconds" record) | v => v end in
  match py_float source_elapsed with
  | Raise (TypeError _) | Raise (ValueError _) => Ok None
  | Raise e => Raise e
  | Ok elapsed =>
      if negb (fleb started elapsed && fleb elapsed ended) then Ok None else
      collected_at ← py_get sample "collected_at" PNone;
      match collected_at, field record "timestamp" with
      | (PInt _ | PFloat _ | PBool _), (PInt _ | PFloat _ | PBool _) =>
          timestamp ← py_float (field record "timestamp");
          collected ← py_float collected_at;
          let age := fsub timestamp collected in
          if fltb age (fsub (float_dec 0 0) maximum_age) || fltb maximum_age age
             || existsb (feqb collected) seen
          then Ok None else Ok (Some (elapsed, Some collected))
      | _, _ => Ok (Some (elapsed, None))
      end
  end.

(** [reporting.py:1909-1942 source_records_for_window] *)
Fixpoint window_records (source : string) (started ended maximum_age : pyfloat) (seen : list pyfloat)
    (records : list mapping) : res (list mapping) :=
  match records with
  | [] => Ok []
  | record :: records =>
      r ← window_sample source started ended maximum_age seen record;
      match r with
      | None => window_records source started ended maximum_age seen records
      | Some (elapsed, collected) =>
          let seen := match collected with Some i => i :: seen | None => seen end in
          rest ← window_records source started ended maximum_age seen records;
          Ok (alist_set "elapsed_seconds" (PFloat elapsed) record :: rest)
      end
  end.

(** [reporting.py:1897-1942 source_records_for_window] *)
Definition source_records_for_window (records : list mapping) (source : string)
    (started ended : pyfloat) : res (list mapping) :=
  window_records source started ended (float_dec 10 0) [] records.

(** ** Metrics over time *)

(** [reporting.py:641-652 _metric_stats] *)
Definition metric_stats (values : list (pyfloat * pyfloat)) : res mapping :=
  match values with
  | [] => Raise (ValueError "max() iterable argument is empty")
  | (e, v) :: rest =>
      let maximum := foldl (λ m ev, f_max m ev.2) v rest in
      match list_find (λ ev, feqb ev.2 maximum = true) values with
      | None => Raise (OtherError "StopIteration")
      | Some (_, (maximum_elapsed, _)) =>
          let final := default v (snd <$> last rest) in
          Ok [("first", PFloat v); ("last", PFloat final); ("max", PFloat maximum);
              ("max_at_elapsed_seconds", PFloat (f_round maximum_elapsed 3));
              ("change", PFloat (fsub final v))]
      end
  end.

(** What the loop of [_leader_summary] keeps. *)
Record leadership := Leadership {
  l_previous : option string;
  l_observed : list string;
  l_changes : list pyval;
}.

(** [reporting.py:659-672 _leader_summary] *)
Definition leader_turn (s : leadership) (value : pyfloat * string) : leadership :=
  let '(elapsed, leader) := value in
  if String.eqb leader "" || bool_decide (l_previous s = Some leader) then s else
  Leadership (Some leader)
    (if bool_decide (leader ∈ l_observed s) then l_observed s else l_observed s ++ [leader])
    (match l_previous s with
     | Some previous =>
         l_changes s ++ [PDict [("elapsed_seconds", PFloat (f_round elapsed 3));
                                ("from", PStr previous); ("to", PStr leader)]]
     | None => l_changes s
     end).

(** [reporting.py:655-678 _leader_summary] *)
Definition leader_summary (values : list (pyfloat * string)) : mapping :=
  let s := foldl leader_turn (Leadership None [] []) values in
  [("last", match l_previous s with Some l => PStr l | None => PNone end);
   ("observed", PList (PStr <$> l_observed s)); ("changes", PList (l_changes s));
   ("change_count", PInt (Z.of_nat (length (l_changes s))))].

(** The state of the scan for repeated samples. *)
Record staleness := Staleness {
  s_longest : pyfloat;
  s_started : option pyfloat;
  s_collected : option pyfloat;
  s_timestamp : option pyfloat;
}.

(** [reporting.py:716-727 source_collection_summary] *)
Definition stale_turn (s : staleness) (sample : pyfloat * pyfloat) : staleness :=
  let '(timestamp, collected) := sample in
  if match s_collected s with Some previous => feqb collected previous | None => false end then
    let started := match s_started s with Some t => Some t | None => s_timestamp s end in
    Staleness
      match started with
      | Some t => f_max (s_longest s) (fsub timestamp t)
      | None => s_longest s
      end started (Some collected) (Some timestamp)
  else Staleness (s_longest s) None (Some collected) (Some timestamp).

Definition longest_repeated (samples : list (pyfloat * pyfloat)) : pyfloat :=
  s_longest (foldl stale_turn (Staleness (float_dec 0 0) None None None) samples).

(** What the loop over the steady records accumulates. *)
Record collection := Collection {
  cl_ages : list pyfloat;
  cl_durations : list pyfloat;
  cl_samples : list (pyfloat * pyfloat);
  cl_partial : Z;
  cl_timed_out : Z;
  cl_missing : Z;
  cl_errors : Z;
}.

Definition is_number (v : pyval) : bool :=
  match v with PInt _ | PFloat _ | PBool _ => true | _ => false end.

(** [reporting.py:691-713 source_collection_summary] *)
Definition collection_turn (source : string) (s : collection) (record : mapping) : res collection :=
  sample ← py_get (default (PDict []) (alist_get "source_samples" record)) source PNone;
  match sample with
  | PDict ((_ :: _) as sample) =>
      let collected_at := field sample "collected_at" in
      let timestamp := field record "timestamp" in
      timing ← (if is_number collected_at && is_number timestamp then
                  t ← py_float timestamp; c ← py_float collected_at; Ok (Some (t, c))
                else Ok None);
      durations ← (let duration := field sample "duration_seconds" in
                   if is_number duration then d ← py_float duration; Ok (cl_durations s ++ [d])
                   else Ok (cl_durations s));
      timed_out ← (let v := default (PInt 0) (alist_get "requests_timed_out" sample) in
                   if py_truth v then py_int v else Ok 0%Z);
      errors ← py_iter (default (PList []) (alist_get "errors" record));
      let own := filter (λ e, str_startswith (source +:+ ":") (py_str e) = true) errors in
      Ok (Collection
            (match timing with
             | Some (t, c) => cl_ages s ++ [f_max (float_dec 0 0) (fsub t c)] | None => cl_ages s end)
            durations
            (match timing with Some tc => cl_samples s ++ [tc] | None => cl_samples s end)
            (cl_partial s + if py_truth (field sample "partial") then 1 else 0)
            (cl_timed_out s + timed_out) (cl_missing s)
            (cl_errors s + Z.of_nat (length own)))
  | _ => Ok (Collection (cl_ages s) (cl_durations s) (cl_samples s) (cl_partial s) (cl_timed_out s)
               (cl_missing s + 1) (cl_errors s))
  end%Z.

Fixpoint collection_loop (source : string) (s : collection) (records : list mapping) : res collection :=
  match records with
  | [] => Ok s
  | record :: records => s ← collection_turn source s record; collection_loop source s records
  end.

(** The number of different floats of a list. *)
Fixpoint distinct_floats (l : list pyfloat) : nat :=
  match l with
  | [] => 0
  | x :: l => if existsb (feqb x) l then distinct_floats l else S (distinct_floats l)
  end.

(** [reporting.py:681-749 source_collection_summary] *)
Definition source_collection_summary (records : list mapping) (source : string) : res mapping :=
  let steady := filter (λ r, steady r = true) records in
  s ← collection_loop source (Collection [] [] [] 0 0 0 0) steady;
  match cl_ages s, cl_durations s with
  | [], [] => Ok [("available", PBool false); ("reason", PStr "source sample metadata unavailable");
                  ("missing_samples", PInt (cl_missing s))]
  | _, _ =>
      age ← percentile (cl_ages s) (float_dec 95 (-2));
      duration ← percentile (cl_durations s) (float_dec 95 (-2));
      Ok [("available", PBool true); ("samples", PInt (Z.of_nat (length steady)));
          ("unique_source_samples", PInt (Z.of_nat (distinct_floats (cl_samples s).*2)));
          ("missing_samples", PInt (cl_missing s)); ("partial_samples", PInt (cl_partial s));
          ("timed_out_requests", PInt (cl_timed_out s)); ("recorded_errors", PInt (cl_errors s));
          ("max_sample_age_seconds", opt_float ((λ x, f_round x 6) <$> floats_max (cl_ages s)));
          ("p95_sample_age_seconds", opt_float age);
          ("max_collection_duration_seconds",
           opt_float ((λ x, f_round x 6) <$> floats_max (cl_durations s)));
          ("p95_collection_duration_seconds", opt_float duration);
          ("longest_repeated_sample_seconds", PFloat (f_round (longest_repeated (cl_samples s)) 6))]
  end.

(** ** Resources *)

(** [int(pod.get(k, 0))] and [float(pod.get(k, 0))] *)
Definition pod_int (pod : pyval) (k : string) : res Z := v ← py_get pod k (PInt 0); py_int v.
Definition pod_float (pod : pyval) (k : string) : res pyfloat := v ← py_get pod k (PInt 0); py_float v.

(** [record.get("pods", {})]; its values are iterated, so that it must be a
    dictionary. *)
Definition record_pods (record : mapping) : res mapping :=
  match default (PDict []) (alist_get "pods" record) with PDict m => Ok m | _ => attribute_error end.

(** Every pod's counters are read, also those the caller drops.
    [reporting.py:358-367 _pod_totals] *)
Fixpoint pod_totals (pods : mapping) : res (Z * Z * Z * Z) :=
  match pods with
  | [] => Ok (0, 0, 0, 0)%Z
  | (_, pod) :: pods =>
      cpu ← pod_int pod "cpu_usage_core_nanoseconds";
      memory ← pod_int pod "memory_working_set_bytes";
      received ← pod_int pod "network_rx_bytes";
      transmitted ← pod_int pod "network_tx_bytes";
      rest ← pod_totals pods;
      let '(c, m, r, t) := rest in Ok (cpu + c, memory + m, received + r, transmitted + t)%Z
  end.

Definition pods_memory (record : mapping) : res Z :=
  pods ← record_pods record; totals ← pod_totals pods; let '(_, m, _, _) := totals in Ok m.

Definition unavailable_counters : mapping :=
  (λ k, (k, PNone)) <$>
    ["cpu_seconds"; "memory_byte_seconds"; "network_rx_bytes"; "network_tx_bytes";
     "cpu_throttled_seconds"; "cpu_throttled_periods"; "cpu_periods"; "cpu_throttling_ratio";
     "disk_io_operations"; "disk_io_seconds"; "average_disk_latency_seconds"].

Definition service_of (pod : pyval) : res string :=
  v ← py_get pod "service" (PStr "unknown"); Ok (py_str v).

(** [reporting.py:375-380 _single_resource_sample_summary] *)
Fixpoint memory_by_service (pods : mapping) (acc : counts) : res counts :=
  match pods with
  | [] => Ok acc
  | (_, pod) :: pods =>
      service ← service_of pod;
      memory ← pod_int pod "memory_working_set_bytes";
      memory_by_service pods (alist_set service (default 0 (alist_get service acc) + memory)%Z acc)
  end.

(** [reporting.py:370-412 _single_resource_sample_summary] *)
Definition single_resource_sample_summary (record : mapping) : res mapping :=
  memory ← pods_memory record;
  pods ← record_pods record;
  by_service ← memory_by_service pods [];
  Ok ([("available", PBool true); ("partial", PBool true);
       ("partial_reason", PStr "only one steady-state sample; cumulative deltas are unavailable");
       ("sampled_seconds", PFloat (float_dec 0 0))] ++ unavailable_counters ++
      [("average_memory_bytes", PInt memory); ("max_sampled_memory_bytes", PInt memory);
       ("disk_latency_available", PBool false);
       ("by_service", PDict (merge_sort key_le
          ((λ sm, (sm.1, PDict (unavailable_counters ++ [("average_memory_bytes", PInt sm.2)])))
             <$> by_service)))]).

(** What one pod used between two samples; counters that went backwards count
    as unused.  [d_latency] says whether both samples know its disk latency. *)
Record pod_delta := PodDelta {
  d_cpu : Z;
  d_rx : Z;
  d_tx : Z;
  d_periods : Z;
  d_throttled_periods : Z;
  d_throttled_seconds : pyfloat;
  d_operations : Z;
  d_io_seconds : pyfloat;
  d_latency : bool;
  d_weighted_seconds : pyfloat;
  d_average_memory : pyfloat;
}.

(** [reporting.py:459-543 resource_summary] *)
Definition pod_change (previous current : pyval) : res pod_delta :=
  let int_delta k := c ← pod_int current k; p ← pod_int previous k; Ok (Z.max 0 (c - p)) in
  let float_delta k :=
    c ← pod_float current k; p ← pod_float previous k; Ok (f_max (float_dec 0 0) (fsub c p)) in
  cpu ← int_delta "cpu_usage_core_nanoseconds";
  rx ← int_delta "network_rx_bytes";
  tx ← int_delta "network_tx_bytes";
  periods ← int_delta "cpu_cfs_periods_total";
  throttled_periods ← int_delta "cpu_cfs_throttled_periods_total";
  throttled_seconds ← float_delta "cpu_cfs_throttled_seconds_total";
  operations ← int_delta "disk_io_operations_total";
  io_seconds ← float_delta "disk_io_time_seconds_total";
  let has k v := match v with
    | PDict m => match alist_get k m with Some _ => true | None => false end | _ => false end in
  let has_latency := has "disk_io_operations_total" current && has "disk_io_operations_total" previous
    && has "disk_io_time_weighted_seconds_total" current
    && has "disk_io_time_weighted_seconds_total" previous in
  weighted ← (if has_latency then float_delta "disk_io_time_weighted_seconds_total"
              else Ok (float_dec 0 0));
  m1 ← pod_int previous "memory_working_set_bytes";
  m2 ← pod_int current "memory_working_set_bytes";
  sum ← float_of_Z (m1 + m2);
  Ok (PodDelta cpu rx tx periods throttled_periods throttled_seconds operations io_seconds
        has_latency weighted (fdiv sum (float_dec 2 0))).

(** What a service used. *)
Record usage := Usage {
  u_cpu : pyfloat;
  u_memory : pyfloat;
  u_rx : pyfloat;
  u_tx : pyfloat;
  u_periods : pyfloat;
  u_throttled_periods : pyfloat;
  u_throttled_seconds : pyfloat;
  u_operations : pyfloat;
  u_latency_operations : pyfloat;
  u_io_seconds : pyfloat;
  u_weighted_seconds : pyfloat;
}.

(** [reporting.py:434-448 resource_summary] *)
Definition no_usage : usage :=
  let z := float_dec 0 0 in Usage z z z z z z z z z z z.

(** [x += n] for an integer [n] *)
Definition fadd_int (x : pyfloat) (n : Z) : res pyfloat := y ← float_of_Z n; Ok (fadd x y).

(** [reporting.py:556-579 resource_summary] *)
Definition usage_add (u : usage) (seconds : pyfloat) (d : pod_delta) : res usage :=
  cpu ← fadd_int (u_cpu u) (d_cpu d);
  rx ← fadd_int (u_rx u) (d_rx d);
  tx ← fadd_int (u_tx u) (d_tx d);
  periods ← fadd_int (u_periods u) (d_periods d);
  throttled ← fadd_int (u_throttled_periods u) (d_throttled_periods d);
  operations ← fadd_int (u_operations u) (d_operations d);
  latency_operations ← (if d_latency d then fadd_int (u_latency_operations u) (d_operations d)
                        else Ok (u_latency_operations u));
  Ok (Usage cpu (fadd (u_memory u) (fmul (d_average_memory d) seconds)) rx tx periods throttled
        (fadd (u_throttled_seconds u) (d_throttled_seconds d)) operations latency_operations
        (fadd (u_io_seconds u) (d_io_seconds d)) (fadd (u_weighted_seconds u) (d_weighted_seconds d))).

(** The totals of the run: the counts of periods and operations are integers,
    the memory is that of all pods of a sample. *)
Record totals := Totals {
  t_cpu : pyfloat;
  t_memory : pyfloat;
  t_rx : pyfloat;
  t_tx : pyfloat;
  t_periods : Z;
  t_throttled_periods : Z;
  t_throttled_seconds : pyfloat;
  t_operations : Z;
  t_latency_operations : Z;
  t_io_seconds : pyfloat;
  t_weighted_seconds : pyfloat;
  t_max_memory : Z;
  t_elapsed : pyfloat;
  t_services : list (string * usage);
}.

(** [reporting.py:425-433 resource_summary] *)
Definition no_totals : totals :=
  let z := float_dec 0 0 in Totals z z z z 0 0 z 0 0 z z 0 z [].

(** [reporting.py:544-579 resource_summary] *)
Definition totals_add (t : totals) (seconds : pyfloat) (service : string) (d : pod_delta) : res totals :=
  cpu ← fadd_int (t_cpu t) (d_cpu d);
  rx ← fadd_int (t_rx t) (d_rx d);
  tx ← fadd_int (t_tx t) (d_tx d);
  u ← usage_add (default no_usage (alist_get service (t_services t))) seconds d;
  Ok (Totals cpu (t_memory t) rx tx (t_periods t + d_periods d)
        (t_throttled_periods t + d_throttled_periods d)
        (fadd (t_throttled_seconds t) (d_throttled_seconds d)) (t_operations t + d_operations d)
        (t_latency_operations t + if d_latency d then d_operations d else 0)
        (fadd (t_io_seconds t) (d_io_seconds d)) (fadd (t_weighted_seconds t) (d_weighted_seconds d))
        (t_max_memory t) (t_elapsed t) (alist_set service u (t_services t)))%Z.

(** A pod that was not in the previous sample does not count.
    [reporting.py:463-579 resource_summary] *)
Fixpoint pods_add (t : totals) (seconds : pyfloat) (previous current : mapping) : res totals :=
  match current with
  | [] => Ok t
  | (name, pod) :: current =>
      match alist_get name previous with
      | None | Some PNone => pods_add t seconds previous current
      | Some before =>
          service ← service_of pod;
          d ← pod_change before pod;
          t ← totals_add t seconds service d;
          pods_add t seconds previous current
      end
  end.

(** Two consecutive samples.
    [reporting.py:450-579 resource_summary] *)
Definition interval_add (t : totals) (previous current : mapping) : res totals :=
  now ← (v ← py_item (PDict current) "timestamp"; py_float v);
  before ← (v ← py_item (PDict previous) "timestamp"; py_float v);
  let seconds := fsub now before in
  if fleb seconds (float_dec 0 0) then Ok t else
  m1 ← pods_memory previous;
  m2 ← pods_memory current;
  previous_pods ← record_pods previous;
  current_pods ← record_pods current;
  sum ← float_of_Z (m1 + m2);
  pods_add
    (Totals (t_cpu t) (fadd (t_memory t) (fmul (fdiv sum (float_dec 2 0)) seconds)) (t_rx t) (t_tx t)
       (t_periods t) (t_throttled_periods t) (t_throttled_seconds t) (t_operations t)
       (t_latency_operations t) (t_io_seconds t) (t_weighted_seconds t)
       (Z.max (Z.max (t_max_memory t) m1) m2) (fadd (t_elapsed t) seconds) (t_services t))
    seconds previous_pods current_pods.

Fixpoint intervals_add (t : totals) (records : list mapping) : res totals :=
  match records with
  | previous :: ((current :: _) as records) =>
      t ← interval_add t previous current; intervals_add t records
  | _ => Ok t
  end.

(** [round(x / y, n)], or [None] when [y] is zero. *)
Definition ratio_or_none (x y : pyfloat) (n : nat) : pyval :=
  if f_is_zero y then PNone else PFloat (f_round (fdiv x y) n).

Definition billion : pyfloat := float_dec 1000000000 0.

(** [reporting.py:583-618 resource_summary] *)
Definition usage_report (elapsed : pyfloat) (u : usage) : res mapping :=
  rx ← f_trunc (u_rx u);
  tx ← f_trunc (u_tx u);
  throttled ← f_trunc (u_throttled_periods u);
  periods ← f_trunc (u_periods u);
  operations ← f_trunc (u_operations u);
  Ok [("cpu_seconds", PFloat (f_round (fdiv (u_cpu u) billion) 6));
      ("memory_byte_seconds", PFloat (f_round (u_memory u) 3));
      ("average_memory_bytes", ratio_or_none (u_memory u) elapsed 3);
      ("network_rx_bytes", PInt rx); ("network_tx_bytes", PInt tx);
      ("cpu_throttled_seconds", PFloat (f_round (u_throttled_seconds u) 6));
      ("cpu_throttled_periods", PInt throttled); ("cpu_periods", PInt periods);
      ("cpu_throttling_ratio", ratio_or_none (u_throttled_periods u) (u_periods u) 6);
      ("disk_io_operations", PInt operations);
      ("disk_io_seconds", PFloat (f_round (u_io_seconds u) 6));
      ("average_disk_latency_seconds",
       ratio_or_none (u_weighted_seconds u) (u_latency_operations u) 9)].

Definition service_le (a b : string * usage) : Prop := String.le a.1 b.1.
#[export] Instance service_le_dec a b : Decision (service_le a b).
Proof. unfold service_le. apply _. Defined.

Definition service_reports (t : totals) : res mapping :=
  res_mapM (λ su, r ← usage_report (t_elapsed t) su.2; Ok (su.1, PDict r))
    (merge_sort service_le (t_services t)).

(** [reporting.py:415-638 resource_summary] *)
Definition resource_summary (records : list mapping) (allow_single_sample : bool) : res mapping :=
  let steady := filter (λ r, steady r = true) records in
  match steady with
  | [] => Ok (unavailable "fewer than two steady-state samples")
  | [record] =>
      if allow_single_sample then single_resource_sample_summary record
      else Ok (unavailable "fewer than two steady-state samples")
  | _ =>
      t ← intervals_add no_totals steady;
      services ← service_reports t;
      rx ← f_trunc (t_rx t);
      tx ← f_trunc (t_tx t);
      throttling ← (if (t_periods t =? 0)%Z then Ok PNone
                    else q ← int_truediv (t_throttled_periods t) (t_periods t);
                         Ok (PFloat (f_round q 6)));
      latency ← (if (t_latency_operations t =? 0)%Z then Ok PNone
                 else n ← float_of_Z (t_latency_operations t);
                      Ok (PFloat (f_round (fdiv (t_weighted_seconds t) n) 9)));
      Ok [("available", PBool true); ("sampled_seconds", PFloat (f_round (t_elapsed t) 3));
          ("cpu_seconds", PFloat (f_round (fdiv (t_cpu t) billion) 6));
          ("memory_byte_seconds", PFloat (f_round (t_memory t) 3));
          ("average_memory_bytes", ratio_or_none (t_memory t) (t_elapsed t) 3);
          ("max_sampled_memory_bytes", PInt (t_max_memory t));
          ("network_rx_bytes", PInt rx); ("network_tx_bytes", PInt tx);
          ("cpu_throttled_seconds", PFloat (f_round (t_throttled_seconds t) 6));
          ("cpu_throttled_periods", PInt (t_throttled_periods t));
          ("cpu_periods", PInt (t_periods t)); ("cpu_throttling_ratio", throttling);
          ("disk_io_operations", PInt (t_operations t));
          ("disk_io_seconds", PFloat (f_round (t_io_seconds t) 6));
          ("disk_latency_available", PBool (negb (t_latency_operations t =? 0)%Z));
          ("average_disk_latency_seconds", latency); ("by_service", PDict services)]
  end.

(** ** Computations over permuted records *)

Lemma res_mapM_cons {A B} (f : A → res B) x l b bs :
  f x = Ok b → res_mapM f l = Ok bs → res_mapM f (x :: l) = Ok (b :: bs).
Proof. intros Hb Hbs. cbn. rewrite Hb. cbn. fold (res_mapM (A:=A) (B:=B)). by rewrite Hbs. Qed.

Lemma res_mapM_Permutation {A B} (f : A → res B) l l' bs :
  l ≡ₚ l' → res_mapM f l = Ok bs → ∃ bs', res_mapM f l' = Ok bs' ∧ bs ≡ₚ bs'.
Proof.
  intros Hp. revert bs. induction Hp as [|x l l' _ IH|x y l|l l' l'' _ IH1 _ IH2]; intros bs Hbs.
  - by exists bs.
  - apply res_bind_ok in Hbs as (b & Hb & (cs & Hcs & [= <-])%res_bind_ok).
    destruct (IH _ Hcs) as (cs' & Hcs' & Hp). exists (b :: cs'). split; [by apply res_mapM_cons|by constructor].
  - apply res_bind_ok in Hbs as (b & Hb & (cs & Hcs & [= <-])%res_bind_ok).
    apply res_bind_ok in Hcs as (c & Hc & (ds & Hds & [= <-])%res_bind_ok).
    exists (c :: b :: ds). split; [by repeat apply res_mapM_cons|constructor].
  - destruct (IH1 _ Hbs) as (cs & Hcs & ?). destruct (IH2 _ Hcs) as (ds & Hds & ?).
    exists ds. split; [done|]. by etrans.
Qed.

Lemma res_filter_ok {A} (p : A → res bool) l l' :
  res_filter p l = Ok l' → l' = filter (λ x, p x = Ok true) l ∧ Forall (λ x, is_ok (p x) = true) l.
Proof.
  revert l'. induction l as [|x l IH]; intros l'; simpl; [by intros [= <-]|].
  destruct (p x) as [b|] eqn:Hx; [|done]. simpl.
  intros (rest & [-> Hok]%IH & [= <-])%res_bind_ok. split; [|constructor; [by rewrite Hx|done]].
  rewrite list.filter_cons. destruct b; case_decide; congruence.
Qed.

Lemma res_filter_total {A} (p : A → res bool) l :
  Forall (λ x, is_ok (p x) = true) l → res_filter p l = Ok (filter (λ x, p x = Ok true) l).
Proof.
  induction 1 as [|x l Hx _ IH]; [done|]. simpl. destruct (p x) as [b|] eqn:Hpx; [|done]. simpl.
  rewrite IH, list.filter_cons. simpl. destruct b; case_decide; congruence.
Qed.

Lemma res_filter_Permutation {A} (p : A → res bool) l l' k :
  l ≡ₚ l' → res_filter p l = Ok k → ∃ k', res_filter p l' = Ok k' ∧ k ≡ₚ k'.
Proof.
  intros Hp [-> Hok]%res_filter_ok. rewrite Hp in Hok. exists (filter (λ x, p x = Ok true) l').
  split; [by apply res_filter_total|by rewrite Hp].
Qed.

(** ** Counting *)

Definition occurrences (k : string) (l : list string) : Z := Z.of_nat (length (filter (k =.) l)).

Lemma occurrences_snoc k x l :
  occurrences k (l ++ [x]) = (occurrences k l + if decide (k = x) then 1 else 0)%Z.
Proof.
  unfold occurrences. rewrite filter_app, length_app, list.filter_cons, filter_nil.
  case_decide; simpl; lia.
Qed.

Lemma occurrences_zero k l : occurrences k l = 0%Z ↔ k ∉ l.
Proof.
  unfold occurrences. rewrite <- (Nat2Z.inj_0), Nat2Z.inj_iff, length_zero_iff_nil. split.
  - intros Hf Hk. assert (k ∈ filter (k =.) l) as Hin by by apply list_elem_of_filter. rewrite Hf in Hin.
    by apply not_elem_of_nil in Hin.
  - intros Hk. destruct (filter (k =.) l) as [|y ys] eqn:E; [done|].
    assert (y ∈ filter (k =.) l) as [-> ?]%list_elem_of_filter by (rewrite E; left). done.
Qed.

Lemma occurrences_Permutation k l l' : l ≡ₚ l' → occurrences k l = occurrences k l'.
Proof. intros Hp. unfold occurrences. by rewrite Hp. Qed.

Lemma counter_snoc l x : counter (l ++ [x]) = counter_add (counter l) x.
Proof. apply foldl_snoc. Qed.

Lemma counter_get k l :
  alist_get k (counter l) = if decide (k ∈ l) then Some (occurrences k l) else None.
Proof.
  induction l as [|x l IH] using rev_ind; [done|].
  rewrite counter_snoc. unfold counter_add. rewrite alist_get_set, occurrences_snoc. destruct (decide (k = x)) as [->|Hne].
  - rewrite decide_True by set_solver. rewrite IH. case_decide as Hx; simpl; [done|].
    apply occurrences_zero in Hx. by rewrite Hx.
  - rewrite IH, Z.add_0_r. repeat case_decide; set_solver.
Qed.

Lemma counter_NoDup l : NoDup (counter l).*1.
Proof.
  induction l as [|x l IH] using rev_ind; [constructor|].
  rewrite counter_snoc. by apply alist_set_NoDup.
Qed.

Lemma alist_set_sum k v (m : counts) :
  sum_Z (alist_set k v m).*2 = (sum_Z m.*2 - default 0 (alist_get k m) + v)%Z.
Proof.
  unfold counts in m. induction m as [|[k' v'] m IH]; simpl; [lia|].
  case_decide; simpl; [lia|].
  fold (@fmap list list_fmap (string * Z) Z snd). rewrite IH. lia.
Qed.

Lemma counter_sum l : sum_Z (counter l).*2 = Z.of_nat (length l).
Proof.
  induction l as [|x l IH] using rev_ind; [done|].
  rewrite counter_snoc, length_app. unfold counter_add. rewrite alist_set_sum. simpl. lia.
Qed.

Lemma with_zero_get m ks k :
  alist_get k (foldl with_zero m ks) =
    match alist_get k m with Some c => Some c | None => if decide (k ∈ ks) then Some 0%Z else None end.
Proof.
  revert m. induction ks as [|x ks IH]; intros m; simpl; [by destruct (alist_get k m)|].
  rewrite IH. unfold with_zero. destruct (alist_get x m) as [c|] eqn:Hx.
  - destruct (alist_get k m) eqn:Hk; [done|]. assert (k ≠ x) by congruence.
    rewrite (decide_ext (k ∈ x :: ks) (k ∈ ks)); [done|set_solver].
  - assert (alist_get k (m ++ [(x, 0%Z)]) =
      match alist_get k m with Some c => Some c | None => if decide (k = x) then Some 0%Z else None end) as ->.
    { clear. unfold counts in m. induction m as [|[k' v'] m IH]; [done|]. cbn [app alist_get]. by destruct (decide (k = k')). }
    destruct (alist_get k m); [done|]. destruct (decide (k = x)) as [->|Hne].
    + by rewrite decide_True by set_solver.
    + rewrite (decide_ext (k ∈ x :: ks) (k ∈ ks)); [done|set_solver].
Qed.

Lemma with_zero_NoDup m ks : NoDup m.*1 → NoDup (foldl with_zero m ks).*1.
Proof.
  revert m. induction ks as [|x ks IH]; intros m Hm; simpl; [done|]. apply IH. unfold with_zero.
  destruct (alist_get x m) eqn:Hx; [done|]. rewrite fmap_app. apply NoDup_app. split_and!; [done| |].
  - intros y Hy Hin%list_elem_of_singleton. subst y. by apply alist_get_None in Hx.
  - apply NoDup_singleton.
Qed.

Lemma with_zero_sum m ks : sum_Z (foldl with_zero m ks).*2 = sum_Z m.*2.
Proof.
  revert m. induction ks as [|x ks IH]; intros m; simpl; [done|]. rewrite IH. unfold with_zero.
  destruct (alist_get x m); [done|]. rewrite fmap_app, sum_Z_app. simpl. lia.
Qed.

(** ** Sorting measurements *)

(** The floats on which [<] is a linear order: no NaN, and one zero. *)
Definition ordered_float (x : pyfloat) : Prop :=
  match x with S754_nan | S754_zero true => False | _ => True end.
#[export] Instance ordered_float_dec x : Decision (ordered_float x).
Proof. destruct x as [[]|[]| |[]]; simpl; apply _. Defined.

Lemma ordered_number x : ordered_float x → f_is_nan x = false.
Proof. by destruct x. Qed.

Lemma float_le_rank x y :
  ordered_float x → ordered_float y → float_le x y ↔ ¬ lex_lt (f_rank y) (f_rank x).
Proof.
  intros Hx%ordered_number Hy%ordered_number. unfold float_le.
  rewrite <- not_true_iff_false, fltb_rank. tauto.
Qed.

Lemma f_rank_inj x y : ordered_float x → ordered_float y → f_rank x = f_rank y → x = y.
Proof.
  intros Hx Hy Hr. destruct x as [[]|[]| |[] m e], y as [[]|[]| |[] m' e']; simplify_eq/=; try done;
    f_equal; lia.
Qed.

Lemma float_le_antisym x y :
  ordered_float x → ordered_float y → float_le x y → float_le y x → x = y.
Proof.
  intros Hx Hy Hxy Hyx. rewrite float_le_rank in Hxy, Hyx by done. apply f_rank_inj; [done..|].
  destruct (f_rank x) as [[??]?], (f_rank y) as [[??]?]. unfold lex_lt in *. repeat f_equal; lia.
Qed.

Lemma float_le_trans x y z :
  ordered_float x → ordered_float y → ordered_float z → float_le x y → float_le y z → float_le x z.
Proof.
  intros Hx Hy Hz Hxy Hyz. rewrite float_le_rank in * by done.
  destruct (f_rank x) as [[??]?], (f_rank y) as [[??]?], (f_rank z) as [[??]?]. unfold lex_lt in *. lia.
Qed.

Lemma float_le_refl x : float_le x x.
Proof. apply fltb_irrefl. Qed.

#[export] Instance float_le_total : Total float_le.
Proof.
  intros x y. unfold float_le. destruct (fltb y x) eqn:Hyx; [right|by left].
  apply not_true_iff_false. intros Hxy. pose proof (fltb_trans _ _ _ Hxy Hyx) as Hirr.
  by rewrite fltb_irrefl in Hirr.
Qed.

Lemma sorted_ordered l : Forall ordered_float l → Sorted float_le l → StronglySorted float_le l.
Proof.
  induction 1 as [|x l Hx Hl IH]; intros Hs; [constructor|].
  apply Sorted_inv in Hs as [Hs Hhd]. specialize (IH Hs). constructor; [done|].
  destruct Hhd as [|y l Hxy]; [constructor|]. constructor; [done|].
  apply Forall_cons in Hl as [Hy Hl]. apply StronglySorted_inv in IH as [_ Hall].
  rewrite Forall_forall in *. intros z Hz. apply (float_le_trans x y z); auto.
Qed.

Lemma sorted_floats_Permutation l l' :
  Forall ordered_float l → l ≡ₚ l' → sorted_floats l = sorted_floats l'.
Proof.
  intros Hl Hp. assert (Forall ordered_float l') as Hl' by by rewrite <- Hp.
  unfold sorted_floats. apply (StronglySorted_unique_strong float_le).
  - intros x y Hx Hy. rewrite merge_sort_Permutation in Hx, Hy. rewrite Forall_forall in Hl, Hl'.
    by apply float_le_antisym; auto.
  - apply sorted_ordered; [by rewrite merge_sort_Permutation|apply Sorted_merge_sort, _].
  - apply sorted_ordered; [by rewrite merge_sort_Permutation|apply Sorted_merge_sort, _].
  - by rewrite !merge_sort_Permutation.
Qed.

(** The maximum of the list, without the order in which it is scanned. *)
Lemma foldl_f_max l x :
  ordered_float x → Forall ordered_float l →
  foldl f_max x l ∈ x :: l ∧ Forall (λ y, float_le y (foldl f_max x l)) (x :: l).
Proof.
  intros Hx Hl. revert x Hx. induction Hl as [|y l Hy Hl IH]; intros x Hx; simpl.
  { split; [left|]. constructor; [apply float_le_refl|constructor]. }
  assert (f_max x y ∈ [x; y] ∧ float_le x (f_max x y) ∧ float_le y (f_max x y)) as (Hin & Hxm & Hym).
  { unfold f_max. destruct (fltb x y) eqn:Hlt.
    - split_and!; [set_solver| |apply float_le_refl].
      destruct (total float_le x y) as [|Hyx]; [done|]. unfold float_le in Hyx. congruence.
    - split_and!; [set_solver|apply float_le_refl|exact Hlt]. }
  assert (ordered_float (f_max x y)) as Hm by (unfold f_max; by case_match).
  destruct (IH _ Hm) as [Hres Hall]. set (m := foldl f_max (f_max x y) l) in *.
  apply Forall_cons in Hall as [Hmax Hall].
  assert (ordered_float m) as Hom.
  { apply elem_of_cons in Hres as [->|Hres]; [done|]. rewrite Forall_forall in Hl. auto. }
  split.
  - apply elem_of_cons in Hres as [Hres|Hres]; [|by do 2 right].
    rewrite Hres. apply elem_of_cons in Hin as [Hin|Hin]; [rewrite Hin; left|]. apply list_elem_of_singleton in Hin.
    rewrite Hin. right. left.
  - constructor; [|constructor; [|done]]; by apply (float_le_trans _ (f_max x y)).
Qed.

Lemma floats_max_Permutation l l' :
  Forall ordered_float l → l ≡ₚ l' → floats_max l = floats_max l'.
Proof.
  intros Hl Hp. assert (Forall ordered_float l') as Hl' by by rewrite <- Hp.
  destruct l as [|x l], l' as [|x' l'].
  - done.
  - by apply Permutation_nil_l in Hp.
  - by symmetry in Hp; apply Permutation_nil_l in Hp.
  - simpl. f_equal. pose proof Hl as Hol. pose proof Hl' as Hol'.
    apply Forall_cons in Hl as [Hx Hl], Hl' as [Hx' Hl'].
    destruct (foldl_f_max l x) as [Hin Hall], (foldl_f_max l' x') as [Hin' Hall']; [done..|].
    rewrite Forall_forall in Hall, Hall', Hol, Hol'.
    apply float_le_antisym; [by apply Hol|by apply Hol'| |].
    + apply Hall'. by rewrite <- Hp.
    + apply Hall. by rewrite Hp.
Qed.

Lemma latencies_Permutation l l' :
  Forall ordered_float l → l ≡ₚ l' → latencies l = latencies l'.
Proof.
  intros Hl Hp. unfold latencies, percentile.
  rewrite (sorted_floats_Permutation l l' Hl Hp), (floats_max_Permutation l l' Hl Hp).
  by rewrite (Permutation_length Hp).
Qed.

(** ** Business summaries *)

Lemma sorted_counts_unique m m' :
  NoDup m.*1 → NoDup m'.*1 → (∀ k, alist_get k m = alist_get k m') → sorted_counts m = sorted_counts m'.
Proof.
  intros Hm Hm' Hget. apply merge_sort_keys_unique.
  - by rewrite <- list_fmap_compose.
  - apply fmap_Permutation, NoDup_Permutation.
    + by eapply NoDup_fmap_1.
    + by eapply NoDup_fmap_1.
    + intros [k v]. split; intros Hin.
      * apply (alist_get_elem _ _ _ Hm) in Hin. rewrite Hget in Hin. by apply alist_get_Some_elem.
      * apply (alist_get_elem _ _ _ Hm') in Hin. rewrite <- Hget in Hin. by apply alist_get_Some_elem.
Qed.

Lemma counter_Permutation l l' : l ≡ₚ l' → sorted_counts (counter l) = sorted_counts (counter l').
Proof.
  intros Hp. apply sorted_counts_unique; [apply counter_NoDup..|]. intros k.
  rewrite !counter_get, (occurrences_Permutation k l l') by done.
  apply decide_ext. by rewrite Hp.
Qed.

(** The counts of the outcomes: one for every label seen and every required
    outcome, and they add up to the orders. *)
Lemma outcome_counts_ok outcomes m :
  outcome_counts outcomes = Ok m →
  ∃ labels, res_mapM (context_label "outcome") outcomes = Ok labels ∧ length labels = length outcomes ∧
    NoDup m.*1 ∧ sum_Z m.*2 = Z.of_nat (length outcomes) ∧
    ∀ k, alist_get k m =
      if decide (k ∈ labels ∨ k ∈ required_outcomes) then Some (occurrences k labels) else None.
Proof.
  intros (labels & Hlabels & Hm)%res_bind_ok. exists labels.
  assert (m = foldl with_zero (counter labels) required_outcomes) as -> by congruence. clear Hm.
  assert (length labels = length outcomes) as Hlen.
  { apply res_mapM_ok in Hlabels. symmetry. by eapply Forall2_length. }
  split_and!; [done..| | |].
  - apply with_zero_NoDup, counter_NoDup.
  - by rewrite with_zero_sum, counter_sum, Hlen.
  - intros k. rewrite with_zero_get, counter_get. destruct (decide (k ∈ labels)) as [Hk|Hk].
    + by rewrite decide_True by by left.
    + apply occurrences_zero in Hk as Hz. rewrite Hz. apply decide_ext. tauto.
Qed.

Lemma outcome_counts_Permutation l l' m :
  l ≡ₚ l' → outcome_counts l = Ok m →
  ∃ m', outcome_counts l' = Ok m' ∧ sorted_counts m = sorted_counts m' ∧
    alist_get "COMPLETED" m = alist_get "COMPLETED" m'.
Proof.
  intros Hp Hm. destruct (outcome_counts_ok _ _ Hm) as (labels & Hlabels & _ & Hnd & _ & Hget).
  destruct (res_mapM_Permutation _ _ _ _ Hp Hlabels) as (labels' & Hlabels' & Hpl).
  unfold outcome_counts. rewrite Hlabels'. eexists. split; [reflexivity|].
  assert (outcome_counts l' = Ok (foldl with_zero (counter labels') required_outcomes)) as Hm'.
  { unfold outcome_counts. by rewrite Hlabels'. }
  destruct (outcome_counts_ok _ _ Hm') as (labels'' & Hlabels'' & _ & Hnd' & _ & Hget').
  rewrite Hlabels' in Hlabels''. injection Hlabels'' as <-.
  assert (∀ k, alist_get k m = alist_get k (foldl with_zero (counter labels') required_outcomes)) as Heq.
  { intros k. rewrite Hget, Hget', (occurrences_Permutation k labels labels') by done.
    apply decide_ext. by rewrite Hpl. }
  split; [|apply Heq]. by apply sorted_counts_unique.
Qed.

Lemma status_counts_Permutation k l l' m :
  l ≡ₚ l' → status_counts k l = Ok m → ∃ m', status_counts k l' = Ok m' ∧ sorted_counts m = sorted_counts m'.
Proof.
  intros Hp (chosen & Hchosen & (labels & Hlabels & [= <-])%res_bind_ok)%res_bind_ok.
  destruct (res_filter_Permutation _ _ _ _ Hp Hchosen) as (chosen' & Hchosen' & Hpc).
  destruct (res_mapM_Permutation _ _ _ _ Hpc Hlabels) as (labels' & Hlabels' & Hpl).
  exists (counter labels'). unfold status_counts. rewrite Hchosen'. cbn [mbind res_bind]. rewrite Hlabels'.
  split; [done|]. by apply counter_Permutation.
Qed.

(** The response time of a record, when it has one, is an ordinary number. *)
Definition timed (record : mapping) : Prop :=
  match py_float (field record "response_time_ms") with Ok x => ordered_float x | Raise _ => True end.

#[export] Instance timed_dec r : Decision (timed r).
Proof. unfold timed. destruct (py_float _); apply _. Defined.

Definition counted (keep : mapping → bool) (r : mapping) : bool :=
  keep r && negb (bool_decide (field r "response_time_ms" = PNone)).

Lemma response_times_mapM keep l :
  response_times keep l =
    res_mapM (λ r, py_float (field r "response_time_ms")) (filter (λ r, counted keep r = true) l).
Proof.
  induction l as [|r l IH]; [done|]. rewrite list.filter_cons. cbn [response_times]. fold (counted keep r).
  destruct (counted keep r) eqn:Hr; rewrite IH; [rewrite decide_True by done|rewrite decide_False by congruence]; done.
Qed.

Lemma response_times_ordered keep l values :
  Forall timed l → response_times keep l = Ok values → Forall ordered_float values.
Proof.
  intros Hl. rewrite response_times_mapM. intros Hv%res_mapM_ok.
  assert (Forall timed (filter (λ r, counted keep r = true) l)) as Hf.
  { rewrite Forall_forall in *. intros r [_ Hr]%list_elem_of_filter. auto. }
  induction Hv as [|r x rs xs Hx Hxs IH]; [constructor|]. apply Forall_cons in Hf as [Hr Hf].
  constructor; [|by apply IH]. unfold timed in Hr. by rewrite Hx in Hr.
Qed.

Lemma response_times_Permutation keep l l' values :
  l ≡ₚ l' → response_times keep l = Ok values →
  ∃ values', response_times keep l' = Ok values' ∧ values ≡ₚ values'.
Proof. rewrite !response_times_mapM. intros Hp. apply res_mapM_Permutation. by rewrite Hp. Qed.

Lemma latency_summary_Permutation l l' s :
  Forall timed l → l ≡ₚ l' → latency_summary l = Ok s → latency_summary l' = Ok s.
Proof.
  intros Hl Hp (values & Hv & Hs)%res_bind_ok.
  destruct (response_times_Permutation _ _ _ _ Hp Hv) as (values' & Hv' & Hpv).
  apply response_times_ordered in Hv; [|done]. unfold latency_summary. rewrite Hv'. cbn [mbind res_bind].
  by rewrite <- (latencies_Permutation values values').
Qed.

Lemma filter_timed (P : mapping → Prop) `{∀ r, Decision (P r)} l : Forall timed l → Forall timed (filter P l).
Proof. rewrite !Forall_forall. intros Hl r [_ Hr]%list_elem_of_filter. auto. Qed.

Lemma res_filter_timed p l l' : Forall timed l → res_filter p l = Ok l' → Forall timed l'.
Proof. intros Hl [-> _]%res_filter_ok. by apply filter_timed. Qed.

(** One binding of both computations. *)
Tactic Notation "bind_both" hyp(H) ident(x) ident(Hx) := apply res_bind_ok in H as (x & Hx & H).
Ltac bind_goal Hx := rewrite Hx; cbn [mbind res_bind].

(** C26: The report of a run does not depend on how the workers' records were
    merged.  Any two orders of the same records, whose response times are
    numbers, have the same summary of orders: counts, rates, percentiles and
    all. *)
Theorem business_summary_order_free records records' duration s :
  Forall timed records → records ≡ₚ records' →
  business_summary records duration = Ok s → business_summary records' duration = Ok s.
Proof.
  intros Ht Hp. unfold business_summary.
  set (st := filter _ records). set (st' := filter _ records').
  assert (st ≡ₚ st') as Hst by (unfold st, st'; by rewrite Hp).
  assert (Forall timed st) as Htst by by apply filter_timed. clearbody st st'. clear Hp Ht.
  set (out := filter _ st). set (out' := filter _ st').
  set (acc := filter (λ r, named "checkout_acceptance" r = true) st). set (acc' := filter (λ r, named "checkout_acceptance" r = true) st').
  set (sett := filter (λ r, named "checkout_to_settled" r = true) st). set (sett' := filter (λ r, named "checkout_to_settled" r = true) st').
  assert (out ≡ₚ out' ∧ acc ≡ₚ acc' ∧ sett ≡ₚ sett') as (Ho & Ha & Hs).
  { unfold out, out', acc, acc', sett, sett'. by rewrite Hst. }
  assert (Forall timed out ∧ Forall timed acc ∧ Forall timed sett) as (Hto & Hta & Hts).
  { split_and!; by apply filter_timed. }
  clearbody out out' acc acc' sett sett'. intros H.
  rewrite <- (Permutation_length Ho).
  bind_both H counts Hcounts. destruct (outcome_counts_Permutation _ _ _ Ho Hcounts) as (counts' & Hc' & Hsc & Hcomp).
  bind_goal Hc'. rewrite <- Hcomp, <- Hsc.
  bind_both H accepted Hacc. destruct (res_filter_Permutation _ _ _ _ Ho Hacc) as (accepted' & Hacc' & Hpa).
  bind_goal Hacc'. rewrite <- (Permutation_length Hpa).
  bind_both H scheduled Hsched. destruct (res_filter_Permutation _ _ _ _ Ho Hsched) as (scheduled' & Hsched' & Hpsched).
  bind_goal Hsched'. rewrite <- (Permutation_length Hpsched).
  bind_both H labels Hlabels. destruct (res_mapM_Permutation _ _ _ _ Hs Hlabels) as (labels' & Hlabels' & Hpl).
  bind_goal Hlabels'. rewrite <- (counter_Permutation _ _ Hpl).
  bind_both H notes Hnotes. destruct (status_counts_Permutation _ _ _ _ Hs Hnotes) as (notes' & Hnotes' & Hpn).
  bind_goal Hnotes'. rewrite <- Hpn.
  bind_both H carts Hcarts. destruct (status_counts_Permutation _ _ _ _ Hs Hcarts) as (carts' & Hcarts' & Hpc).
  bind_goal Hcarts'. rewrite <- Hpc.
  do 5 (let x := fresh in let Hx := fresh in bind_both H x Hx; bind_goal Hx).
  bind_both H done_ Hdone. destruct (res_filter_Permutation _ _ _ _ Ho Hdone) as (done' & Hdone' & Hpd).
  bind_goal Hdone'. bind_both H lat1 Hlat1.
  bind_goal (latency_summary_Permutation _ _ _ (res_filter_timed _ _ _ Hto Hdone) Hpd Hlat1).
  bind_both H accs Haccs. destruct (res_filter_Permutation _ _ _ _ Ha Haccs) as (accs' & Haccs' & Hpac).
  bind_goal Haccs'. bind_both H lat2 Hlat2.
  bind_goal (latency_summary_Permutation _ _ _ (res_filter_timed _ _ _ Hta Haccs) Hpac Hlat2).
  bind_both H setts Hsetts. destruct (res_filter_Permutation _ _ _ _ Hs Hsetts) as (setts' & Hsetts' & Hps).
  bind_goal Hsetts'. bind_both H lat3 Hlat3.
  bind_goal (latency_summary_Permutation _ _ _ (res_filter_timed _ _ _ Hts Hsetts) Hps Hlat3).
  exact H.
Qed.

Definition checkouts (records : list mapping) : list mapping :=
  filter (λ r, named "checkout_to_outcome" r = true) (filter (λ r, steady r = true) records).

Lemma res_filter_length {A} (p : A → res bool) l l' : res_filter p l = Ok l' → length l' ≤ length l.
Proof. intros [-> _]%res_filter_ok. apply length_filter. Qed.

Lemma occurrences_length k l : (0 ≤ occurrences k l ≤ Z.of_nat (length l))%Z.
Proof. unfold occurrences. pose proof (length_filter (k =.) l). lia. Qed.

Lemma business_counts records duration s :
  business_summary records duration = Ok s →
  let submitted := Z.of_nat (length (checkouts records)) in
  ∃ labels m accepted completed,
    res_mapM (context_label "outcome") (checkouts records) = Ok labels ∧
    alist_get "submitted" s = Some (PInt submitted) ∧
    alist_get "accepted" s = Some (PInt accepted) ∧ (0 ≤ accepted ≤ submitted)%Z ∧
    alist_get "completed" s = Some (PInt completed) ∧ (0 ≤ completed ≤ submitted)%Z ∧
    completed = occurrences "COMPLETED" labels ∧
    alist_get "outcomes" s = Some (PDict (sorted_counts m)) ∧
    StronglySorted key_le (sorted_counts m) ∧ sum_Z m.*2 = submitted ∧
    (∀ k, alist_get k m =
       if decide (k ∈ labels ∨ k ∈ required_outcomes) then Some (occurrences k labels) else None) ∧
    (alist_get "completion_rate" s = Some PNone ↔ submitted = 0%Z) ∧
    (alist_get "completion_rate_of_accepted" s = Some PNone ↔ accepted = 0%Z).
Proof.
  intros H. unfold business_summary in H. fold (checkouts records) in H.
  bind_both H m Hm. destruct (outcome_counts_ok _ _ Hm) as (labels & Hlabels & Hlen & Hnd & Hsum & Hget).
  bind_both H acc Hacc. apply res_filter_length in Hacc.
  do 4 (let x := fresh in let Hx := fresh in bind_both H x Hx).
  bind_both H r1 Hr1. bind_both H r2 Hr2. bind_both H r3 Hr3.
  do 8 (let x := fresh in let Hx := fresh in bind_both H x Hx).
  injection H as <-.
  assert (default 0%Z (alist_get "COMPLETED" m) = occurrences "COMPLETED" labels) as Hcompleted.
  { rewrite Hget, decide_True; [done|]. right. left. }
  exists labels, m, (Z.of_nat (length acc)), (occurrences "COMPLETED" labels).
  pose proof (occurrences_length "COMPLETED" labels).
  assert (∀ n d r, rate n d = Ok r → (opt_float r = PNone ↔ d = 0%Z)) as Hrate.
  { intros n d r. unfold rate. destruct (Z.eqb_spec d 0) as [->|Hd]; [by intros [= <-]|].
    intros (q & _ & [= <-])%res_bind_ok. done. }
  apply Hrate in Hr2, Hr3.
  split_and!; [done|reflexivity|reflexivity|lia|lia| |lia|lia|done|reflexivity| |done|done| |].
  - rewrite <- Hcompleted. reflexivity.
  - apply StronglySorted_merge_sort; apply _.
  - rewrite <- Hr2. split; [intros [= ->]; done|intros Hnone; cbn; by rewrite Hnone].
  - rewrite <- Hr3. split; [intros [= ->]; done|intros Hnone; cbn; by rewrite Hnone].
Qed.

(** What the report counts.  Every checkout of the steady interval is
    counted under exactly one outcome: the counts of [outcomes] are those of
    the recorded outcomes, every required outcome is listed, the list is
    sorted, and the counts add up to [submitted].  The completed orders are
    those recorded as completed, neither they nor the accepted ones exceed the
    submitted ones, and the rates exist exactly when there is something to
    divide by. *)
Theorem business_summary_spec records duration s :
  business_summary records duration = Ok s →
  let submitted := Z.of_nat (length (checkouts records)) in
  ∃ labels m accepted completed,
    res_mapM (context_label "outcome") (checkouts records) = Ok labels ∧
    alist_get "submitted" s = Some (PInt submitted) ∧
    alist_get "accepted" s = Some (PInt accepted) ∧ (0 ≤ accepted ≤ submitted)%Z ∧
    alist_get "completed" s = Some (PInt completed) ∧ (0 ≤ completed ≤ submitted)%Z ∧
    completed = occurrences "COMPLETED" labels ∧
    alist_get "outcomes" s = Some (PDict (sorted_counts m)) ∧
    StronglySorted key_le (sorted_counts m) ∧ sum_Z m.*2 = submitted ∧
    (∀ k, alist_get k m =
       if decide (k ∈ labels ∨ k ∈ required_outcomes) then Some (occurrences k labels) else None) ∧
    (alist_get "completion_rate" s = Some PNone ↔ submitted = 0%Z) ∧
    (alist_get "completion_rate_of_accepted" s = Some PNone ↔ accepted = 0%Z).
Proof. apply business_counts. Qed.

Lemma occurrences_all k l : occurrences k l = Z.of_nat (length l) → Forall (eq k) l.
Proof.
  unfold occurrences. intros Hn%Nat2Z.inj.
  induction l as [|x l IH]; [constructor|]. rewrite list.filter_cons in Hn. case_decide as Hx; simpl in Hn.
  - constructor; [done|]. apply IH. congruence.
  - pose proof (length_filter (k =.) l). lia.
Qed.

(** ** Capacity *)

Lemma order_reasons_completed business outstanding :
  order_reasons business outstanding = Ok [] →
  ∃ c s, alist_get "completed" business = Some c ∧ alist_get "submitted" business = Some s ∧ py_eqb c s = true.
Proof.
  unfold order_reasons. intros H.
  do 3 (let x := fresh in let Hx := fresh in bind_both H x Hx).
  bind_both H c Hc. bind_both H s Hs. bind_both H l Hl. injection H as H.
  cbn [py_item] in Hc, Hs.
  destruct (alist_get "completed" business) as [c'|]; [|done].
  destruct (alist_get "submitted" business) as [s'|]; [|done]. simplify_eq.
  exists c, s. split_and!; [done..|]. destruct (py_eqb c s); [done|].
  by destruct (_ =? 0)%Z.
Qed.

Lemma order_reasons_settled business outstanding :
  order_reasons business outstanding = Ok [] →
  py_positive (default (PInt 0) (alist_get "final" outstanding)) = Ok false.
Proof.
  unfold order_reasons. intros H.
  do 5 (let x := fresh in let Hx := fresh in bind_both H x Hx).
  bind_both H l Hl. injection H as H. rewrite Hl. destruct l; [|done].
  by destruct (_ =? 0)%Z, (py_eqb _ _).
Qed.

(** A sustainable verdict had no reason against it. *)
Lemma capacity_sustainable c business outstanding nats v :
  capacity_assessment c business outstanding nats = Ok v →
  alist_get "sustainable" v = Some (PBool true) →
  workload c ∈ ["open"; "saturation"] ∧ order_reasons business outstanding = Ok [] ∧
  (∃ submitted, alist_get "submitted" business = Some submitted ∧ py_eqb submitted (PInt 0) = false) ∧
  (application_type c = "NATS" →
     ∃ pending change x, field nats "consumer_pending" = PDict pending ∧
       default (PInt 0) (alist_get "change" pending) = change ∧ py_float change = Ok x ∧
       fltb (float_dec 0 0) x = false).
Proof.
  unfold capacity_assessment. intros H Hv. destruct (String.eqb (workload c) _); [by simplify_eq/=|].
  destruct (bool_decide _) eqn:Hw; [|by simplify_eq/=]. apply bool_decide_eq_true_1 in Hw. cbn [negb] in H.
  bind_both H submitted Hsub. destruct (py_eqb submitted (PInt 0)) eqn:Hzero; [by simplify_eq/=|].
  bind_both H reasons Hreasons. cbn [py_item] in Hsub.
  assert (∃ submitted, alist_get "submitted" business = Some submitted ∧ py_eqb submitted (PInt 0) = false) as Hs.
  { destruct (alist_get "submitted" business) as [s|]; simplify_eq. eauto. }
  destruct (String.eqb_spec (application_type c) "NATS") as [Happ|Happ]; cbn [negb] in H.
  - set (pending := if py_truth _ then _ else _) in H.
    assert (pending ≠ PNone → pending = field nats "consumer_pending") as Hpend.
    { unfold pending. by destruct (py_truth _). }
    destruct pending as [|b|z|f|str|l|d] eqn:Hp; [by simplify_eq/=|cbn in H; discriminate H..|].
    specialize (Hpend ltac:(done)). cbn [py_get] in H. bind_both H change Hc. injection Hc as Hc.
    bind_both H x Hx. injection H as <-. cbn in Hv.
    destruct reasons as [|? reasons]; [|done]. destruct (fltb _ x) eqn:Hpos; [done|].
    split_and!; [done..|]. intros _. exists d, change, x. by rewrite <- Hpend.
  - injection H as <-. cbn in Hv. destruct reasons; [|done]. done.
Qed.

(** A run is reported as sustainable only when it was.  The verdict is
    [True] only for an open-loop run in which something was submitted, every
    submitted checkout was recorded as completed, no order was outstanding
    after the last record, and, on NATS, the measured backlog of the consumers
    did not grow. *)
Theorem sustainable_run_sound c records duration orders business outstanding nats v :
  business_summary records duration = Ok business →
  outstanding_summary orders = Ok outstanding →
  capacity_assessment c business outstanding nats = Ok v →
  alist_get "sustainable" v = Some (PBool true) →
  workload c ∈ ["open"; "saturation"] ∧
  checkouts records ≠ [] ∧
  Forall (λ r, context_label "outcome" r = Ok "COMPLETED") (checkouts records) ∧
  (∀ r, last orders = Some r →
     ∃ n, py_int (default (PInt 0) (alist_get "outstanding" r)) = Ok n ∧ (n ≤ 0)%Z) ∧
  (application_type c = "NATS" →
     ∃ pending x, field nats "consumer_pending" = PDict pending ∧
       py_float (default (PInt 0) (alist_get "change" pending)) = Ok x ∧ fltb (float_dec 0 0) x = false).
Proof.
  intros Hb Ho Hc Hv.
  destruct (capacity_sustainable _ _ _ _ _ Hc Hv) as (Hw & Hreasons & (sub & Hsub & Hnz) & Hnats).
  destruct (order_reasons_completed _ _ Hreasons) as (cp & sb & Hcp & Hsb & Heq).
  destruct (business_counts _ _ _ Hb) as (labels & m & acc & comp & Hlabels & Hsub' & _ & _ & Hcp' & _ & Hocc & _).
  rewrite Hsub in Hsub'. injection Hsub' as ->. rewrite Hsub in Hsb. injection Hsb as <-.
  rewrite Hcp in Hcp'. injection Hcp' as ->. cbn in Heq, Hnz. apply Z.eqb_eq in Heq. apply Z.eqb_neq in Hnz.
  split_and!; [done| | | |].
  - intros Hnil. rewrite Hnil in Hnz. done.
  - apply res_mapM_ok in Hlabels. pose proof (Forall2_length _ _ _ Hlabels) as Hlen.
    assert (Forall (eq "COMPLETED") labels) as Hall by (apply occurrences_all; lia).
    clear -Hlabels Hall. induction Hlabels as [|r l rs ls Hr Hrs IH]; [constructor|].
    apply Forall_cons in Hall as [<- Hall]. constructor; auto.
  - intros r Hr. apply order_reasons_settled in Hreasons. unfold outstanding_summary in Ho. rewrite Hr in Ho.
    bind_both Ho buckets Hbuckets. bind_both Ho n Hn. injection Ho as <-. exists n. split; [done|].
    cbn in Hreasons. injection Hreasons as Hz. by apply Z.ltb_ge in Hz.
  - intros Happ. destruct (Hnats Happ) as (pending & change & x & ? & <- & ? & ?). by exists pending, x.
Qed.

(** ** Concrete reports *)

Definition demo_checkout (phase outcome : string) (accepted : bool) (ms : Z) : mapping :=
  [("name", PStr "checkout_to_outcome"); ("phase", PStr phase); ("success", PBool true);
   ("response_time_ms", PFloat (float_dec ms 0));
   ("context", PDict [("outcome", PStr outcome); ("accepted", PBool accepted)])].
Definition demo_records : list mapping :=
  [demo_checkout "warmup" "COMPLETED" true 5; demo_checkout "steady" "COMPLETED" true 100;
   demo_checkout "steady" "COMPLETED" true 300].
Definition demo_orders : list mapping :=
  [[("elapsed_seconds", PFloat (float_dec 31 0)); ("outstanding", PInt 1)];
   [("elapsed_seconds", PFloat (float_dec 32 0)); ("outstanding", PInt 0)]].

Definition demo_summary : mapping :=
  Eval vm_compute in match business_summary demo_records (PInt 2) with Ok s => s | Raise _ => [] end.

Lemma business_summary_order_free_witness :
  business_summary (reverse demo_records) (PInt 2) = Ok demo_summary.
Proof.
  apply (business_summary_order_free demo_records); [|by rewrite reverse_Permutation|vm_compute; reflexivity].
  apply (bool_decide_unpack _). vm_compute. exact I.
Defined.

Lemma business_summary_spec_witness :
  ∃ labels m accepted completed,
    res_mapM (context_label "outcome") (checkouts demo_records) = Ok labels ∧
    alist_get "submitted" demo_summary = Some (PInt 2) ∧
    alist_get "accepted" demo_summary = Some (PInt accepted) ∧ (0 ≤ accepted ≤ 2)%Z ∧
    alist_get "completed" demo_summary = Some (PInt completed) ∧ (0 ≤ completed ≤ 2)%Z ∧
    completed = occurrences "COMPLETED" labels ∧
    alist_get "outcomes" demo_summary = Some (PDict (sorted_counts m)) ∧
    StronglySorted key_le (sorted_counts m) ∧ sum_Z m.*2 = 2%Z ∧
    (∀ k, alist_get k m =
       if decide (k ∈ labels ∨ k ∈ required_outcomes) then Some (occurrences k labels) else None) ∧
    (alist_get "completion_rate" demo_summary = Some PNone ↔ 2%Z = 0%Z) ∧
    (alist_get "completion_rate_of_accepted" demo_summary = Some PNone ↔ accepted = 0%Z).
Proof. apply (business_summary_spec demo_records (PInt 2) demo_summary). vm_compute. reflexivity. Defined.

Definition demo_open : config :=
  Config "GRPC" "https://shop.example" None "open" 30 120 60 10 (float_dec 1 0) (float_dec 1 0)
    (float_dec 10 0) (float_dec 1000 0) 30 (float_dec 30 0) (float_dec 60 0) (float_dec 5 0) 1 true false.

Lemma sustainable_run_sound_witness :
  workload demo_open ∈ ["open"; "saturation"] ∧ checkouts demo_records ≠ [] ∧
  Forall (λ r, context_label "outcome" r = Ok "COMPLETED") (checkouts demo_records) ∧
  (∀ r, last demo_orders = Some r →
     ∃ n, py_int (default (PInt 0) (alist_get "outstanding" r)) = Ok n ∧ (n ≤ 0)%Z) ∧
  (application_type demo_open = "NATS" →
     ∃ pending x, field (unavailable "none") "consumer_pending" = PDict pending ∧
       py_float (default (PInt 0) (alist_get "change" pending)) = Ok x ∧ fltb (float_dec 0 0) x = false).
Proof.
  eapply (sustainable_run_sound demo_open demo_records (PInt 2) demo_orders demo_summary);
    vm_compute; reflexivity.
Defined.

(** Percentiles interpolate. *)
Example demo_percentile :
  percentile (float_dec 300 0 :: float_dec 100 0 :: [float_dec 200 0]) (float_dec 95 (-2))
  = Ok (Some (float_dec 290 0)).
Proof. vm_compute. reflexivity. Qed.
