(* ===== verification/FaultReport.v ===== *)
(** * The report of a fault-tolerance run (benchmarkservice/reporting.py)

    The orders of a fault-tolerance run are laid out second by second, beside
    the outages the fault injector recorded (FaultTolerance.v), and every
    outage is judged: when, if ever, did the application recover before the
    next one?  The theorems: the seconds account for every order, and the
    recovery that is reported is the first stable one. *)

From S2P Require Import Prelude PyFloat PyValue BenchConfig Saturation Reporting.

(** ** Expected requests *)

(** [math.ceil(rate * t - 1e-9)] *)
Definition scheduled_before (arrival_rate t : pyfloat) : res Z :=
  f_ceil (fsub (fmul arrival_rate t) (float_dec 1 (-9))).

(** [reporting.py:1174-1188 _fault_expected_requests] *)
Definition fault_expected_requests (c : config) (second : Z) : res Z :=
  s ← float_of_Z second;
  s' ← float_of_Z (second + 1);
  limit ← float_of_Z (submission_seconds c);
  let start := f_min s limit in
  let finish := f_min s' limit in
  if fleb finish start then Ok 0%Z else
  workers ← worker_count c;
  l ← res_mapM (λ index,
    w ← for_worker c index;
    e ← scheduled_before (arrival_rate w) finish;
    s ← scheduled_before (arrival_rate w) start;
    Ok (Z.max 0 (e - s))) (Z.of_nat <$> seq 0 (Z.to_nat workers));
  Ok (sum_Z l).

(** ** Consumers *)

Definition consumer_aliases : list (string * string) :=
  [("jetstream_consumer_num_pending", "waiting_events");
   ("jetstream_consumer_num_ack_pending", "ack_pending_events");
   ("jetstream_consumer_num_redelivered", "redelivered_events")].

(** The largest value each server reports for a consumer.
    [reporting.py:1198-1211 _fault_nats_totals] *)
Definition consumer_metric (consumers : list (string * list (string * pyfloat))) (metric : pyval)
  : res (list (string * list (string * pyfloat))) :=
  name ← py_get metric "name" (PStr "");
  match alist_get (py_str name) consumer_aliases with
  | None => Ok consumers
  | Some alias =>
      labels ← py_get metric "labels" (PDict []);
      s1 ← py_get labels "stream_name" PNone;
      stream ← (if py_truth s1 then Ok s1 else py_get labels "stream" PNone);
      c1 ← py_get labels "consumer_name" PNone;
      consumer ← (if py_truth c1 then Ok c1 else py_get labels "consumer" PNone);
      known ← (if py_truth consumer then py_in_set stream APPLICATION_STREAMS else Ok false);
      if negb known then Ok consumers else
      let key := py_str stream +:+ "/" +:+ py_str consumer in
      v ← py_get metric "value" (PInt 0);
      value ← py_float v;
      let values := default [] (alist_get key consumers) in
      let highest := f_max value (default (float_dec 0 0) (alist_get alias values)) in
      Ok (alist_set key (alist_set alias highest values) consumers)
  end.

Fixpoint consumer_metrics (consumers : list (string * list (string * pyfloat))) (metrics : list pyval)
  : res (list (string * list (string * pyfloat))) :=
  match metrics with
  | [] => Ok consumers
  | metric :: metrics => consumers ← consumer_metric consumers metric; consumer_metrics consumers metrics
  end.

Record nats_totals := NatsTotals {
  nt_waiting : pyfloat;
  nt_ack_pending : pyfloat;
  nt_redelivered : pyfloat;
}.

(** [reporting.py:1191-1217 _fault_nats_totals] *)
Definition fault_nats_totals (record : mapping) : res (option nats_totals) :=
  metrics ← py_iter (default (PList []) (alist_get "nats_metrics" record));
  consumers ← consumer_metrics [] metrics;
  let total alias := float_sum ((λ c, default (float_dec 0 0) (alist_get alias c.2)) <$> consumers) in
  Ok match consumers with
     | [] => None
     | _ => Some (NatsTotals (total "waiting_events") (total "ack_pending_events")
                    (total "redelivered_events"))
     end.

(** ** Outages *)

(** The elapsed seconds of the events are floats, the wall-clock times are
    copied from the records. *)
Record span := Span {
  sp_service : string;
  sp_deployment : pyval;
  sp_replicas : pyval;
  sp_down_at : pyval;
  sp_down : pyfloat;
  sp_disabled_at : pyval;
  sp_disabled : option pyfloat;
  sp_up_at : pyval;
  sp_up : option pyfloat;
  sp_reenabled_at : pyval;
  sp_reenabled : option pyfloat;
}.

(** The first event of a service with an action.
    [reporting.py:1247-1283 _fault_spans] *)
Definition first_event (records : list mapping) (service action : string) : option mapping :=
  snd <$> list_find (λ r, py_eqb (field r "service") (PStr service)
                          && py_eqb (field r "action") (PStr action) = true) records.

Definition event_elapsed (event : mapping) : res pyfloat :=
  py_float (default (PInt 0) (alist_get "elapsed_seconds" event)).
Definition optional_elapsed (event : option mapping) : res (option pyfloat) :=
  match event with None => Ok None | Some e => x ← event_elapsed e; Ok (Some x) end.
Definition event_at (event : option mapping) : pyval :=
  match event with None => PNone | Some e => field e "at" end.

(** [reporting.py:1243-1324 _fault_spans] *)
Definition planned_span (records : list mapping) (planned : mapping) : res (option span) :=
  let service := py_str (default (PStr "unknown") (alist_get "service" planned)) in
  let event action := first_event records service action in
  match event "scale_down_started" with
  | None => Ok None
  | Some down =>
      d ← event_elapsed down;
      disabled ← optional_elapsed (event "disabled");
      up ← optional_elapsed (event "scale_up_started");
      reenabled ← optional_elapsed (event "reenabled");
      Ok (Some (Span service (field planned "deployment") (field planned "original_replicas")
                  (field down "at") d (event_at (event "disabled")) disabled
                  (event_at (event "scale_up_started")) up
                  (event_at (event "reenabled")) reenabled))
  end.

Fixpoint planned_spans (records : list mapping) (faults : list pyval) : res (list span) :=
  match faults with
  | [] => Ok []
  | PDict planned :: faults =>
      s ← planned_span records planned;
      rest ← planned_spans records faults;
      Ok (option_list s ++ rest)
  | _ :: faults => planned_spans records faults
  end.

Definition span_le (a b : span) : Prop := float_le (sp_down a) (sp_down b).
#[export] Instance span_le_dec a b : Decision (span_le a b).
Proof. unfold span_le. apply _. Defined.

(** [reporting.py:1237-1330 _fault_spans] *)
Definition fault_spans (records : list mapping) (plan : mapping) : res (list span) :=
  match default (PList []) (alist_get "faults" plan) with
  | PList faults => l ← planned_spans records faults; Ok (merge_sort span_le l)
  | _ => Ok []
  end.

(** The dictionary of an outage.
    [reporting.py:1286-1324 _fault_spans] *)
Definition span_dict (s : span) : mapping :=
  [("service", PStr (sp_service s)); ("deployment", sp_deployment s);
   ("original_replicas", sp_replicas s); ("scale_down_started_at", sp_down_at s);
   ("scale_down_started_at_elapsed_seconds", PFloat (sp_down s));
   ("disabled_at", sp_disabled_at s); ("disabled_at_elapsed_seconds", opt_float (sp_disabled s));
   ("scale_up_started_at", sp_up_at s);
   ("scale_up_started_at_elapsed_seconds", opt_float (sp_up s));
   ("reenabled_at", sp_reenabled_at s); ("reenabled_at_elapsed_seconds", opt_float (sp_reenabled s));
   ("disabled_duration_seconds", opt_float ((λ up, f_round (fsub up (sp_down s)) 6) <$> sp_up s))].

(** [reporting.py:1220-1234 _fault_phase] *)
Fixpoint span_phase (phase : string) (elapsed : pyfloat) (spans : list span) : string :=
  match spans with
  | [] => phase
  | s :: spans =>
      if fltb elapsed (sp_down s) then phase
      else if match sp_up s with None => true | Some up => fltb elapsed up end
      then sp_service s +:+ "_disabled"
      else span_phase (sp_service s +:+ "_recovery") elapsed spans
  end.

(** [reporting.py:1220-1234 _fault_phase] *)
Definition fault_phase (second : Z) (spans : list span) (duration_seconds : Z) : res string :=
  if (duration_seconds <=? second)%Z then Ok "drain"
  else elapsed ← float_of_Z second; Ok (span_phase "baseline" elapsed spans).

(** ** Seconds *)

(** One second of the run.  The latencies hold the records observed in it. *)
Record point := Point {
  pt_second : Z;
  pt_phase : string;
  pt_expected : Z;
  pt_submitted : Z;
  pt_accepted : Z;
  pt_successful : Z;
  pt_failed : Z;
  pt_lost : Z;
  pt_processed : Z;
  pt_failures : Z;
  pt_completion : list mapping;
  pt_failure : list mapping;
  pt_nats : option nats_totals;
  pt_sample_age : option Z;
  pt_outstanding : Z;
}.

(** [reporting.py:1513-1554 fault_tolerance_summary] *)
Definition new_point (c : config) (spans : list span) (second : Z) : res point :=
  phase ← fault_phase second spans (duration_seconds c);
  expected ← fault_expected_requests c second;
  Ok (Point second phase expected 0 0 0 0 0 0 0 [] [] None None 0).

(** [reporting.py:1510-1554 fault_tolerance_summary] *)
Definition new_points (c : config) (spans : list span) : res (list point) :=
  res_mapM (new_point c spans) (Z.of_nat <$> seq 0 (Z.to_nat (Z.max 1 (run_seconds c)))).

(** [points[second]] for a second inside the run, and nothing otherwise. *)
Definition at_second (second : Z) (f : point → point) (points : list point) : list point :=
  if (second <? 0)%Z then points else alter f (Z.to_nat second) points.

Definition submit (accepted successful : bool) (p : point) : point :=
  Point (pt_second p) (pt_phase p) (pt_expected p) (pt_submitted p + 1)
    (pt_accepted p + if accepted then 1 else 0)
    (pt_successful p + if successful then 1 else 0) (pt_failed p + if successful then 0 else 1)
    (pt_lost p) (pt_processed p) (pt_failures p) (pt_completion p) (pt_failure p) (pt_nats p)
    (pt_sample_age p) (pt_outstanding p).
Definition observe (successful : bool) (record : mapping) (p : point) : point :=
  Point (pt_second p) (pt_phase p) (pt_expected p) (pt_submitted p) (pt_accepted p) (pt_successful p)
    (pt_failed p) (pt_lost p)
    (pt_processed p + if successful then 1 else 0) (pt_failures p + if successful then 0 else 1)
    (if successful then pt_completion p ++ [record] else pt_completion p)
    (if successful then pt_failure p else pt_failure p ++ [record]) (pt_nats p) (pt_sample_age p)
    (pt_outstanding p).

(** The second an order was due, and that its outcome was recorded.
    [reporting.py:1564-1583 fault_tolerance_summary] *)
Definition due_second (start_epoch : pyfloat) (record : mapping) : res Z :=
  scheduled_at ← context_get record "scheduled_at" PNone;
  let scheduled_at := if is_number scheduled_at then scheduled_at
                      else default (PFloat start_epoch) (alist_get "timestamp" record) in
  x ← py_float scheduled_at;
  f_floor (fsub x start_epoch).
Definition observed_second (start_epoch : pyfloat) (record : mapping) : res Z :=
  let recorded_at := field record "recorded_at" in
  x ← (if is_number recorded_at then py_float recorded_at
       else
         t ← py_float (default (PFloat start_epoch) (alist_get "timestamp" record));
         ms ← py_float (default (PInt 0) (alist_get "response_time_ms" record));
         Ok (fadd t (fdiv ms (float_dec 1000 0))));
  f_floor (fsub x start_epoch).

(** [reporting.py:1564-1593 fault_tolerance_summary] *)
Definition place_order (start_epoch : pyfloat) (points : list point) (record : mapping) : res (list point) :=
  due ← due_second start_epoch record;
  outcome ← context_label "outcome" record;
  accepted ← (if ((0 <=? due) && (due <? Z.of_nat (length points)))%Z
              then context_truth "accepted" record else Ok false);
  let successful := String.eqb outcome "COMPLETED" in
  let points := at_second due (submit accepted successful) points in
  observed ← observed_second start_epoch record;
  Ok (at_second observed (observe successful record) points).

Fixpoint place_orders (start_epoch : pyfloat) (points : list point) (records : list mapping)
  : res (list point) :=
  match records with
  | [] => Ok points
  | record :: records =>
      points ← place_order start_epoch points record; place_orders start_epoch points records
  end.

(** [reporting.py:1595-1606 fault_tolerance_summary] *)
Definition count_lost (p : point) : point :=
  Point (pt_second p) (pt_phase p) (pt_expected p) (pt_submitted p) (pt_accepted p) (pt_successful p)
    (pt_failed p) (Z.max 0 (pt_expected p - pt_submitted p)) (pt_processed p) (pt_failures p)
    (pt_completion p) (pt_failure p) (pt_nats p) (pt_sample_age p) (pt_outstanding p).

(** [math.floor(float(record.get("elapsed_seconds", -1)))] *)
Definition record_second (record : mapping) : res Z :=
  x ← py_float (default (PInt (-1)) (alist_get "elapsed_seconds" record)); f_floor x.

(** The last totals of each second of the run.
    [reporting.py:1608-1613 fault_tolerance_summary] *)
Fixpoint nats_seconds (count : Z) (records : list mapping) (acc : list (Z * nats_totals))
  : res (list (Z * nats_totals)) :=
  match records with
  | [] => Ok acc
  | record :: records =>
      second ← record_second record;
      totals ← fault_nats_totals record;
      nats_seconds count records
        match totals with
        | Some t => if ((0 <=? second) && (second <? count))%Z then alist_set second t acc else acc
        | None => acc
        end
  end.

(** [reporting.py:1632-1638 fault_tolerance_summary] *)
Fixpoint outstanding_seconds (count : Z) (records : list mapping) (acc : list (Z * Z))
  : res (list (Z * Z)) :=
  match records with
  | [] => Ok acc
  | record :: records =>
      second ← record_second record;
      acc ← (if ((0 <=? second) && (second <? count))%Z
             then n ← py_int (default (PInt 0) (alist_get "outstanding" record));
                  Ok (alist_set second n acc)
             else Ok acc);
      outstanding_seconds count records acc
  end.

(** The latest totals are carried to the seconds without a sample, with their
    age.
    [reporting.py:1614-1630 fault_tolerance_summary] *)
Fixpoint carry_nats (samples : list (Z * nats_totals)) (latest : option (Z * nats_totals))
    (second : Z) (points : list point) : list point :=
  match points with
  | [] => []
  | p :: points =>
      let latest := match alist_get second samples with Some t => Some (second, t) | None => latest end in
      Point (pt_second p) (pt_phase p) (pt_expected p) (pt_submitted p) (pt_accepted p) (pt_successful p)
        (pt_failed p) (pt_lost p) (pt_processed p) (pt_failures p) (pt_completion p) (pt_failure p)
        (snd <$> latest) ((λ st, second - st.1) <$> latest) (pt_outstanding p)
      :: carry_nats samples latest (second + 1) points
  end%Z.

(** [reporting.py:1639-1644 fault_tolerance_summary] *)
Fixpoint carry_outstanding (samples : list (Z * Z)) (latest second : Z) (points : list point) : list point :=
  match points with
  | [] => []
  | p :: points =>
      let latest := default latest (alist_get second samples) in
      Point (pt_second p) (pt_phase p) (pt_expected p) (pt_submitted p) (pt_accepted p) (pt_successful p)
        (pt_failed p) (pt_lost p) (pt_processed p) (pt_failures p) (pt_completion p) (pt_failure p)
        (pt_nats p) (pt_sample_age p) latest
      :: carry_outstanding samples latest (second + 1) points
  end.

(** ** Convergence *)

Record criteria := Criteria {
  cr_stable : Z;
  cr_fraction : pyfloat;
  cr_tolerance : pyfloat;
  cr_nats : bool;
}.

(** [reporting.py:1339-1345 _fault_convergence] *)
Definition plan_criteria (plan : mapping) (application_type : string) : res criteria :=
  stable ← py_int (default (PInt 3) (alist_get "convergence_stable_seconds" plan));
  fraction ← py_float (default (PFloat (float_dec 9 (-1))) (alist_get "convergence_success_fraction" plan));
  tolerance ← py_float (default (PInt 0) (alist_get "convergence_pending_tolerance" plan));
  Ok (Criteria stable fraction tolerance (String.eqb application_type "NATS")).

Definition sum_of (f : point → Z) (points : list point) : Z := sum_Z (f <$> points).

(** A sample is fresh for two seconds. *)
Definition fresh_waiting (p : point) : option pyfloat :=
  match pt_nats p, pt_sample_age p with
  | Some t, Some age => if (age <=? 2)%Z then Some (nt_waiting t) else None
  | _, _ => None
  end.

(** What the ten seconds before the outage looked like.
    [reporting.py:1373-1420 _fault_convergence] *)
Definition baseline_points (points : list point) (down : pyfloat) : list point :=
  filter (λ p, fleb (f_max (float_dec 0 0) (fsub down (float_dec 10 0))) (float_dec (pt_second p) 0)
               && fltb (float_dec (pt_second p) 0) down = true) points.

(** Whether a window of seconds counts as recovered; [lowest] is the success
    ratio it must reach, [pending] the backlog it may have.
    [reporting.py:1442-1478 _fault_convergence] *)
Definition window_recovered (k : criteria) (lowest : pyfloat) (pending : option pyfloat)
    (window : list point) : res bool :=
  if negb (Z.of_nat (length window) =? cr_stable k)%Z then Ok false else
  let expected := sum_of pt_expected window in
  if (expected <=? 0)%Z then Ok false else
  ratio ← int_truediv (sum_of pt_processed window) expected;
  if fltb ratio lowest || negb (sum_of pt_lost window =? 0)%Z then Ok false
  else if negb (cr_nats k) then Ok true
  else match pending with
       | None => Raise (OtherError "AssertionError")
       | Some pending =>
           Ok (forallb (λ p, match fresh_waiting p with
                             | Some w => negb (fltb (fadd pending (cr_tolerance k)) w)
                             | None => false
                             end) window)
       end.

(** [points[candidate:candidate + n]] *)
Definition window_at (points : list point) (n candidate : Z) : list point :=
  take (Z.to_nat n) (drop (Z.to_nat candidate) points).

(** The candidates [candidate, candidate + 1, ...], [fuel] of them.
    [reporting.py:1435-1480 _fault_convergence] *)
Fixpoint first_recovered (k : criteria) (lowest : pyfloat) (pending : option pyfloat)
    (points : list point) (candidate : Z) (fuel : nat) : res (option Z) :=
  match fuel with
  | 0 => Ok None
  | S fuel =>
      ok ← window_recovered k lowest pending (window_at points (cr_stable k) candidate);
      if (ok : bool) then Ok (Some candidate)
      else first_recovered k lowest pending points (candidate + 1) fuel
  end.

(** What is found about one outage. *)
Inductive convergence :=
  | NotReenabled
  | NoBaseline
  | NoPendingBaseline
  | Judged (successful_per_second : pyfloat) (pending : option pyfloat) (at_ : option Z).

(** The end of the search: the next outage, or the end of the plan.
    [reporting.py:1364-1372 _fault_convergence] *)
Definition search_end (plan : mapping) (count : Z) (next : option span) : res pyfloat :=
  match next with
  | Some s => Ok (sp_down s)
  | None => py_float (default (PInt count) (alist_get "duration_seconds" plan))
  end.

(** [reporting.py:1347-1480 _fault_convergence] *)
Definition judge_span (k : criteria) (plan : mapping) (points : list point) (s : span)
    (next : option span) : res convergence :=
  match sp_up s, sp_reenabled s with
  | Some up, Some _ =>
      limit ← search_end plan (Z.of_nat (length points)) next;
      let baseline := baseline_points points (sp_down s) in
      let expected := sum_of pt_expected baseline in
      let successful := sum_of pt_processed baseline in
      if (expected <=? 0)%Z || (successful <=? 0)%Z then Ok NoBaseline else
      ratio ← int_truediv successful expected;
      let lowest := fmul (f_min (float_dec 1 0) ratio) (cr_fraction k) in
      let pending := last (omap fresh_waiting baseline) in
      if cr_nats k && bool_decide (pending = None) then Ok NoPendingBaseline else
      first ← f_ceil up;
      final ← f_floor limit;
      let first := Z.max 0 first in
      let final := (final - cr_stable k)%Z in
      found ← first_recovered k lowest pending points first (Z.to_nat (final + 1 - first));
      per_second ← int_truediv successful (Z.of_nat (length baseline));
      Ok (Judged per_second pending found)
  | _, _ => Ok NotReenabled
  end.

Definition not_converged (reason : string) : mapping :=
  [("converged", PBool false); ("convergence_seconds", PNone); ("reason", PStr reason)].

(** [round(max(0.0, n - up), 6)] *)
Definition seconds_after (n : Z) (up : pyfloat) : pyval :=
  PFloat (f_round (f_max (float_dec 0 0) (fsub (float_dec n 0) up)) 6).

(** [reporting.py:1482-1490 _fault_convergence] *)
Definition convergence_dict (k : criteria) (s : span) (r : convergence) : mapping :=
  span_dict s ++
  match r with
  | NotReenabled => not_converged "the service was not re-enabled"
  | NoBaseline => not_converged "no successful pre-fault baseline traffic"
  | NoPendingBaseline => not_converged "pre-fault NATS pending metrics were unavailable"
  | Judged per_second pending found =>
      let up := default (float_dec 0 0) (sp_up s) in
      [("baseline_successful_requests_per_second", PFloat (f_round per_second 6));
       ("required_success_fraction_of_baseline", PFloat (cr_fraction k));
       ("baseline_nats_waiting_events", opt_float pending);
       ("nats_pending_tolerance", PFloat (cr_tolerance k)); ("stable_seconds", PInt (cr_stable k));
       ("converged", PBool (bool_decide (is_Some found)));
       ("convergence_at_elapsed_seconds", match found with Some n => PInt n | None => PNone end);
       ("convergence_seconds", match found with Some n => seconds_after n up | None => PNone end);
       ("confirmed_after_seconds",
        match found with Some n => seconds_after (n + cr_stable k) up | None => PNone end);
       ("reason", match found with
                  | Some _ => PNone
                  | None => PStr "recovery criteria were not stable before the next phase" end)]
  end.

(** [reporting.py:1333-1491 _fault_convergence] *)
Fixpoint judge_spans (k : criteria) (plan : mapping) (points : list point) (spans : list span)
  : res (list mapping) :=
  match spans with
  | [] => Ok []
  | s :: spans =>
      r ← judge_span k plan points s (head spans);
      rest ← judge_spans k plan points spans;
      Ok (convergence_dict k s r :: rest)
  end.

(** ** The summary *)

Definition point_dict (p : point) : res pyval :=
  completion ← latency_summary (pt_completion p);
  failure ← recorded_latency_summary (pt_failure p) false;
  let nats f := opt_float (f <$> pt_nats p) in
  Ok (PDict [("elapsed_seconds", PInt (pt_second p)); ("phase", PStr (pt_phase p));
             ("expected_requests", PInt (pt_expected p)); ("submitted_requests", PInt (pt_submitted p));
             ("accepted_requests", PInt (pt_accepted p));
             ("successful_requests", PInt (pt_successful p)); ("failed_requests", PInt (pt_failed p));
             ("lost_requests", PInt (pt_lost p)); ("successfully_processed", PInt (pt_processed p));
             ("failures_observed", PInt (pt_failures p));
             ("completion_latency_ms", PDict completion); ("failure_latency_ms", PDict failure);
             ("nats_waiting_events", nats nt_waiting); ("nats_ack_pending_events", nats nt_ack_pending);
             ("nats_redelivered_events", nats nt_redelivered);
             ("nats_metrics_sample_age_seconds",
              match pt_sample_age p with Some n => PInt n | None => PNone end);
             ("outstanding_orders", PInt (pt_outstanding p))]).

(** The seconds of a run, filled in.
    [reporting.py:1508-1644 fault_tolerance_summary] *)
Definition fault_points (c : config) (plan : mapping) (spans : list span)
    (business resources outstanding : list mapping) : res (list point) :=
  start_epoch ← py_float (default (PInt 0) (alist_get "start_epoch" plan));
  points ← new_points c spans;
  let count := Z.of_nat (length points) in
  let outcomes := filter (λ r, named "checkout_to_outcome" r && steady r = true) business in
  points ← place_orders start_epoch points outcomes;
  samples ← nats_seconds count resources [];
  left_over ← outstanding_seconds count outstanding [];
  Ok (carry_outstanding left_over 0 0 (carry_nats samples None 0 (count_lost <$> points))).

(** [reporting.py:1646-1665 fault_tolerance_summary] *)
Definition fault_totals (points : list point) : mapping :=
  let failed := sum_of pt_failed points in
  let lost := sum_of pt_lost points in
  [("expected_requests", PInt (sum_of pt_expected points));
   ("submitted_requests", PInt (sum_of pt_submitted points));
   ("successful_requests", PInt (sum_of pt_successful points));
   ("failed_requests", PInt failed); ("lost_requests", PInt lost);
   ("failed_or_lost_requests", PInt (failed + lost))].

(** [reporting.py:1494-1665 fault_tolerance_summary] *)
Definition fault_tolerance_summary (c : config) (plan : mapping)
    (faults business resources outstanding : list mapping) : res mapping :=
  match plan with
  | [] => Ok [("available", PBool false); ("reason", PStr "fault-plan.json was not recorded");
              ("per_second", PList []); ("faults", PList [])]
  | _ =>
      spans ← fault_spans faults plan;
      points ← fault_points c plan spans business resources outstanding;
      k ← plan_criteria plan (application_type c);
      judged ← judge_spans k plan points spans;
      per_second ← res_mapM point_dict points;
      Ok [("available", PBool (bool_decide (spans ≠ [])));
          ("reason", match spans with [] => PStr "no scale-down event was recorded" | _ => PNone end);
          ("plan", PDict plan); ("totals", PDict (fault_totals points));
          ("faults", PList (PDict <$> judged)); ("per_second", PList per_second)]
  end.

(** ** The seconds account for the orders *)

(** What holds of a second while orders are placed. *)
Definition point_ok (p : point) : Prop :=
  (pt_submitted p = pt_successful p + pt_failed p ∧ 0 ≤ pt_successful p ∧ 0 ≤ pt_failed p ∧
   0 ≤ pt_accepted p ≤ pt_submitted p ∧
   pt_processed p = Z.of_nat (length (pt_completion p)) ∧
   pt_failures p = Z.of_nat (length (pt_failure p)))%Z.

Lemma Forall_alter {A} (P : A → Prop) f i (l : list A) :
  (∀ x, P x → P (f x)) → Forall P l → Forall P (alter f i l).
Proof. intros Hf Hl. apply Forall_alter; [done|]. intros x _ Hx. auto. Qed.

Lemma at_second_ok second f points :
  (∀ p, point_ok p → point_ok (f p)) → Forall point_ok points → Forall point_ok (at_second second f points).
Proof. intros Hf Hp. unfold at_second. case_match; [done|]. by apply Forall_alter. Qed.

Lemma at_second_length second f points : length (at_second second f points) = length points.
Proof. unfold at_second. case_match; [done|]. by rewrite length_alter. Qed.

Lemma submit_ok a b p : point_ok p → point_ok (submit a b p).
Proof. unfold point_ok. intros (? & ? & ? & ? & ? & ?). simpl. destruct a, b; split_and!; try done; lia. Qed.

Lemma observe_ok b r p : point_ok p → point_ok (observe b r p).
Proof.
  unfold point_ok. intros (? & ? & ? & ? & Hc & Hf). simpl.
  destruct b; split_and!; rewrite ?length_app; simpl; lia.
Qed.

Lemma sum_of_cons f p points : sum_of f (p :: points) = (f p + sum_of f points)%Z.
Proof. done. Qed.

(** How many orders a function of the points counts. *)
Lemma sum_alter (f : point → Z) g i points (d : Z) :
  (∀ p, f (g p) = f p + d)%Z →
  sum_of f (alter g i points) = (sum_of f points + if decide (i < length points)%nat then d else 0)%Z.
Proof.
  intros Hg. revert i. induction points as [|p points IH]; intros [|i]; [done..| |].
  - change (alter g 0 (p :: points)) with (g p :: points). rewrite !sum_of_cons, Hg. simpl. lia.
  - change (alter g (S i) (p :: points)) with (p :: alter g i points). rewrite !sum_of_cons, IH. simpl.
    repeat case_decide; lia.
Qed.

Lemma sum_at_second (f : point → Z) g second points (d : Z) :
  (∀ p, f (g p) = f p + d)%Z →
  sum_of f (at_second second g points) =
    (sum_of f points + if ((0 <=? second) && (second <? Z.of_nat (length points)))%Z then d else 0)%Z.
Proof.
  intros Hg. unfold at_second. destruct (Z.ltb_spec second 0) as [Hneg|Hpos].
  - rewrite (proj2 (Z.leb_gt _ _)) by done. simpl. lia.
  - rewrite (sum_alter f g _ _ d) by done. rewrite (proj2 (Z.leb_le _ _)) by done. simpl.
    case_decide; destruct (Z.ltb_spec second (Z.of_nat (length points))); lia.
Qed.

Definition inside (count second : Z) : bool := ((0 <=? second) && (second <? count))%Z.

(** The orders due in a second of the run, those of them that were
    completed, and the completed ones observed in a second of the run. *)
Definition due_inside (start : pyfloat) (count : Z) (record : mapping) : bool :=
  match due_second start record with Ok d => inside count d | Raise _ => false end.
Definition completed (record : mapping) : bool :=
  match context_label "outcome" record with Ok l => String.eqb l "COMPLETED" | Raise _ => false end.
Definition observed_inside (start : pyfloat) (count : Z) (record : mapping) : bool :=
  match observed_second start record with Ok d => inside count d | Raise _ => false end.

Definition tally (p : mapping → bool) (records : list mapping) : Z :=
  Z.of_nat (length (filter (λ r, p r = true) records)).

Lemma tally_cons p r records : tally p (r :: records) = ((if p r then 1 else 0) + tally p records)%Z.
Proof. unfold tally. rewrite list.filter_cons. destruct (p r) eqn:Hr; case_decide; simpl in *; (congruence || lia). Qed.

(** Placing orders keeps what the points were given and counts each order. *)
Definition frame (p : point) : Z * string * Z := (pt_second p, pt_phase p, pt_expected p).

Lemma at_second_frame second f points :
  (∀ p, frame (f p) = frame p) → frame <$> at_second second f points = frame <$> points.
Proof.
  intros Hf. unfold at_second. case_match; [done|].
  generalize (Z.to_nat second). induction points as [|p points IH]; intros [|i]; [done..| |].
  - cbn. by rewrite Hf.
  - cbn. f_equal. apply IH.
Qed.

Lemma place_orders_ok start points records points' :
  place_orders start points records = Ok points' → Forall point_ok points →
  let count := Z.of_nat (length points) in
  length points' = length points ∧ frame <$> points' = frame <$> points ∧ Forall point_ok points' ∧
  (sum_of pt_submitted points' = sum_of pt_submitted points + tally (due_inside start count) records ∧
   sum_of pt_successful points' = sum_of pt_successful points
     + tally (λ r, due_inside start count r && completed r) records ∧
   sum_of pt_processed points' = sum_of pt_processed points
     + tally (λ r, observed_inside start count r && completed r) records)%Z.
Proof.
  revert points. induction records as [|r records IH]; intros points.
  { intros [= <-] Hok. split_and!; [done..| | |]; unfold tally; simpl; lia. }
  cbn [place_orders]. intros H Hok. bind_both H mid Hmid. unfold place_order in Hmid.
  bind_both Hmid due Hdue. bind_both Hmid outcome Hout. bind_both Hmid accepted Hacc.
  bind_both Hmid obs Hobs. injection Hmid as <-.
  set (ok := String.eqb outcome "COMPLETED") in *.
  apply IH in H as (Hlen & Hframe & Hok' & Hsub & Hsucc & Hproc).
  2: { apply at_second_ok; [intros; by apply observe_ok|]. apply at_second_ok; [intros; by apply submit_ok|done]. }
  rewrite !at_second_length in *.
  assert (due_inside start (Z.of_nat (length points)) r = inside (Z.of_nat (length points)) due) as Hd
    by (unfold due_inside; by rewrite Hdue).
  assert (completed r = ok) as Hc by (unfold completed; by rewrite Hout).
  assert (observed_inside start (Z.of_nat (length points)) r = inside (Z.of_nat (length points)) obs) as Ho
    by (unfold observed_inside; by rewrite Hobs).
  rewrite !tally_cons, Hd, Hc, Ho.
  split_and!; [done| |done| | |].
  - rewrite Hframe, !at_second_frame; done.
  - rewrite Hsub, (sum_at_second _ (observe ok r) _ _ 0), (sum_at_second _ (submit accepted ok) _ _ 1)
      by (intros; simpl; lia). unfold inside. repeat case_match; lia.
  - rewrite Hsucc, (sum_at_second _ (observe ok r) _ _ 0),
      (sum_at_second _ (submit accepted ok) _ _ (if ok then 1 else 0)%Z) by (intros; simpl; lia).
    unfold inside. destruct ok; repeat case_match; simpl in *; try discriminate; lia.
  - rewrite Hproc, (sum_at_second _ (observe ok r) _ _ (if ok then 1 else 0)%Z),
      (sum_at_second _ (submit accepted ok) _ _ 0) by (intros; simpl; lia).
    rewrite at_second_length. unfold inside. destruct ok; repeat case_match; simpl in *; try discriminate; lia.
Qed.

(** The counters of a second. *)
Definition tallies (p : point) : Z * Z * Z * Z * Z * Z * Z * Z :=
  (pt_second p, pt_expected p, pt_submitted p, pt_accepted p, pt_successful p, pt_failed p, pt_lost p,
   pt_processed p).

Lemma carry_nats_tallies samples latest second points :
  tallies <$> carry_nats samples latest second points = tallies <$> points.
Proof. revert latest second. induction points as [|p points IH]; intros; [done|]. cbn. by rewrite IH. Qed.

Lemma carry_outstanding_tallies samples latest second points :
  tallies <$> carry_outstanding samples latest second points = tallies <$> points.
Proof. revert latest second. induction points as [|p points IH]; intros; [done|]. cbn. by rewrite IH. Qed.

(** A statement about the counters only needs the counters. *)
Lemma tallies_Forall (P : Z * Z * Z * Z * Z * Z * Z * Z → Prop) points points' :
  tallies <$> points = tallies <$> points' → Forall (λ p, P (tallies p)) points → Forall (λ p, P (tallies p)) points'.
Proof.
  intros Heq Hp. assert (Forall P (tallies <$> points)) as Hf by by apply Forall_fmap.
  rewrite Heq in Hf. exact (proj1 (Forall_fmap _ _ _) Hf).
Qed.

Lemma tallies_sum (f : Z * Z * Z * Z * Z * Z * Z * Z → Z) points points' :
  tallies <$> points = tallies <$> points' →
  sum_of (λ p, f (tallies p)) points = sum_of (λ p, f (tallies p)) points'.
Proof.
  intros Heq. unfold sum_of. change (λ p, f (tallies p)) with (f ∘ tallies).
  by rewrite !list_fmap_compose, Heq.
Qed.

Lemma new_point_ok c spans second p :
  new_point c spans second = Ok p →
  point_ok p ∧ pt_second p = second ∧ pt_submitted p = 0%Z ∧ pt_successful p = 0%Z ∧ pt_processed p = 0%Z.
Proof.
  unfold new_point. intros H. bind_both H phase Hp. bind_both H expected He. injection H as <-.
  unfold point_ok. simpl. split_and!; lia.
Qed.

Lemma new_points_ok c spans points :
  new_points c spans = Ok points →
  length points = Z.to_nat (Z.max 1 (run_seconds c)) ∧ Forall point_ok points ∧
  pt_second <$> points = Z.of_nat <$> seq 0 (length points) ∧
  sum_of pt_submitted points = 0%Z ∧ sum_of pt_successful points = 0%Z ∧ sum_of pt_processed points = 0%Z.
Proof.
  unfold new_points. intros H%res_mapM_ok. pose proof (Forall2_length _ _ _ H) as Hlen.
  rewrite length_fmap, length_seq in Hlen. split; [done|]. rewrite <- Hlen. clear Hlen.
  revert H. generalize (Z.of_nat <$> seq 0 (Z.to_nat (Z.max 1 (run_seconds c)))). intros seconds H.
  induction H as [|second p seconds points Hp Hps IH]; [done|].
  destruct IH as (Hok & Hsec & H1 & H2 & H3). apply new_point_ok in Hp as (? & E & E1 & E2 & E3).
  rewrite !sum_of_cons, E1, E2, E3, H1, H2, H3. split_and!; [by constructor| |done..].
  rewrite fmap_cons, E. by f_equal.
Qed.

(** The final points of a report have the counters of the placed ones, with
    the lost requests. *)
Lemma fault_points_ok c plan spans business resources outstanding points :
  fault_points c plan spans business resources outstanding = Ok points →
  ∃ start, py_float (default (PInt 0) (alist_get "start_epoch" plan)) = Ok start ∧
  let outcomes := filter (λ r, named "checkout_to_outcome" r && steady r = true) business in
  let count := Z.max 1 (run_seconds c) in
  Z.of_nat (length points) = count ∧ pt_second <$> points = Z.of_nat <$> seq 0 (length points) ∧
  Forall (λ p, pt_submitted p = pt_successful p + pt_failed p ∧ 0 ≤ pt_successful p ∧ 0 ≤ pt_failed p ∧
               0 ≤ pt_accepted p ≤ pt_submitted p ∧
               pt_lost p = Z.max 0 (pt_expected p - pt_submitted p))%Z points ∧
  sum_of pt_submitted points = tally (due_inside start count) outcomes ∧
  sum_of pt_successful points = tally (λ r, due_inside start count r && completed r) outcomes ∧
  sum_of pt_processed points = tally (λ r, observed_inside start count r && completed r) outcomes.
Proof.
  unfold fault_points. intros H. bind_both H start Hstart. bind_both H blank Hblank.
  bind_both H placed Hplaced. bind_both H samples Hsamples. bind_both H left_over Hleft.
  injection H as H. exists start. split; [done|].
  apply new_points_ok in Hblank as (Hlen & Hok & Hseconds & S1 & S2 & S3).
  apply place_orders_ok in Hplaced as (Hlen' & Hframe & Hok' & P1 & P2 & P3); [|done].
  rewrite S1, S2, S3, !Z.add_0_l in *.
  assert (Z.of_nat (length blank) = Z.max 1 (run_seconds c)) as Hcount by (rewrite Hlen; lia).
  rewrite Hcount in P1, P2, P3.
  assert (tallies <$> points = tallies <$> (count_lost <$> placed)) as Ht.
  { rewrite <- H. by rewrite carry_outstanding_tallies, carry_nats_tallies. }
  assert (length points = length blank) as Hpl.
  { apply (f_equal length) in Ht. by rewrite !length_fmap, Hlen' in Ht. }
  split_and!.
  - by rewrite Hpl.
  - rewrite Hpl, <- Hseconds.
    transitivity (pt_second <$> placed).
    + apply (f_equal (fmap (λ t, t.1.1.1.1.1.1.1))) in Ht. by rewrite <- !list_fmap_compose in Ht.
    + apply (f_equal (fmap (λ t, t.1.1))) in Hframe. by rewrite <- !list_fmap_compose in Hframe.
  - apply (tallies_Forall (λ '(_, e, s, a, ok, bad, lost, _), s = ok + bad ∧ 0 ≤ ok ∧ 0 ≤ bad ∧ 0 ≤ a ≤ s ∧
        lost = Z.max 0 (e - s))%Z _ _ (eq_sym Ht)).
    rewrite Forall_fmap. eapply Forall_impl; [exact Hok'|]. unfold point_ok. simpl. intros p. tauto.
  - rewrite <- P1. symmetry in Ht. apply (tallies_sum (λ '(_, _, s, _, _, _, _, _), s)) in Ht.
    etrans; [exact (eq_sym Ht)|]. unfold sum_of. by rewrite <- list_fmap_compose.
  - rewrite <- P2. symmetry in Ht. apply (tallies_sum (λ '(_, _, _, _, s, _, _, _), s)) in Ht.
    etrans; [exact (eq_sym Ht)|]. unfold sum_of. by rewrite <- list_fmap_compose.
  - rewrite <- P3. symmetry in Ht. apply (tallies_sum (λ '(_, _, _, _, _, _, _, s), s)) in Ht.
    etrans; [exact (eq_sym Ht)|]. unfold sum_of. by rewrite <- list_fmap_compose.
Qed.


(** What a recovered window is. *)
Lemma window_recovered_true k lowest pending window :
  window_recovered k lowest pending window = Ok true →
  Z.of_nat (length window) = cr_stable k ∧ (0 < sum_of pt_expected window)%Z ∧
  sum_of pt_lost window = 0%Z ∧
  (∃ ratio, int_truediv (sum_of pt_processed window) (sum_of pt_expected window) = Ok ratio ∧
     fltb ratio lowest = false) ∧
  (cr_nats k = true → ∃ before, pending = Some before ∧
     Forall (λ p, ∃ w, fresh_waiting p = Some w ∧ fltb (fadd before (cr_tolerance k)) w = false) window).
Proof.
  unfold window_recovered. destruct (Z.eqb_spec (Z.of_nat (length window)) (cr_stable k)) as [Hlen|]; [|done].
  cbn [negb]. destruct (Z.leb_spec (sum_of pt_expected window) 0) as [|Hpos]; [done|].
  intros H. bind_both H ratio Hratio. destruct (fltb ratio lowest) eqn:Hlow; [done|].
  destruct (Z.eqb_spec (sum_of pt_lost window) 0) as [Hlost|]; [|done]. cbn in H.
  split_and!; [done..|by exists ratio|]. intros Hnats. rewrite Hnats in H. cbn in H.
  destruct pending as [before|]; [|done]. injection H as H. exists before. split; [done|].
  apply Forall_forall. intros p Hp. rewrite forallb_forall in H. specialize (H p).
  rewrite <- list_elem_of_In in H. specialize (H Hp). destruct (fresh_waiting p) as [w|]; [|done].
  exists w. split; [done|]. by destruct (fltb _ w).
Qed.

Lemma first_recovered_spec k lowest pending points candidate fuel found :
  first_recovered k lowest pending points candidate fuel = Ok found →
  let recovered n := window_recovered k lowest pending (window_at points (cr_stable k) n) in
  match found with
  | Some n => (candidate ≤ n < candidate + Z.of_nat fuel)%Z ∧ recovered n = Ok true ∧
      ∀ m, (candidate ≤ m < n)%Z → recovered m = Ok false
  | None => ∀ m, (candidate ≤ m < candidate + Z.of_nat fuel)%Z → recovered m = Ok false
  end.
Proof.
  revert candidate. induction fuel as [|fuel IH]; intros candidate; cbn [first_recovered].
  { intros [= <-]. intros m Hm. lia. }
  intros H. bind_both H ok Hok. destruct ok.
  - injection H as <-. split_and!; [lia|lia|done|]. intros m Hm. lia.
  - apply IH in H. cbn in H |- *. destruct found as [n|].
    + destruct H as (Hn & Hr & Hbefore). split_and!; [lia|lia|done|]. intros m Hm.
      destruct (decide (m = candidate)) as [->|]; [done|]. apply Hbefore. lia.
    + intros m Hm. destruct (decide (m = candidate)) as [->|]; [done|]. apply H. lia.
Qed.

Lemma sum_of_zero f points : Forall (λ p, 0 ≤ f p)%Z points → sum_of f points = 0%Z → Forall (λ p, f p = 0%Z) points.
Proof.
  intros Hf Hs. assert (∀ l, Forall (λ p, 0 ≤ f p)%Z l → (0 ≤ sum_of f l)%Z) as Hpos.
  { intros l. induction 1 as [|p l Hp Hl IH]; [done|]. rewrite sum_of_cons. lia. }
  induction Hf as [|p points Hp Hps IH]; [constructor|]. rewrite sum_of_cons in Hs.
  pose proof (Hpos _ Hps). constructor; [lia|apply IH; lia].
Qed.

(** The recovery that is reported is the first stable one.  When an outage
    is judged, the reported second starts a window of the required length
    between the end of the outage and the start of the next; in that window
    requests were expected and none was lost, enough of them were processed,
    and on NATS every second has a fresh sample whose backlog is within the
    tolerance of the backlog before the outage.  No earlier window qualifies,
    and when none is reported no window does. *)
Theorem convergence_earliest c plan spans business resources outstanding points k s next per_second pending found :
  fault_points c plan spans business resources outstanding = Ok points →
  judge_span k plan points s next = Ok (Judged per_second pending found) →
  ∃ up limit first final lowest,
  sp_up s = Some up ∧ f_ceil up = Ok first ∧
  search_end plan (Z.of_nat (length points)) next = Ok limit ∧ f_floor limit = Ok final ∧
  let window n := window_at points (cr_stable k) n in
  let recovered n := window_recovered k lowest pending (window n) in
  match found with
  | Some n =>
      (Z.max 0 first ≤ n)%Z ∧ (n + cr_stable k ≤ final)%Z ∧
      Z.of_nat (length (window n)) = cr_stable k ∧ (0 < sum_of pt_expected (window n))%Z ∧
      Forall (λ p, pt_lost p = 0%Z) (window n) ∧
      (∃ ratio, int_truediv (sum_of pt_processed (window n)) (sum_of pt_expected (window n)) = Ok ratio ∧
         fltb ratio lowest = false) ∧
      (cr_nats k = true → ∃ before, pending = Some before ∧
         Forall (λ p, ∃ w, fresh_waiting p = Some w ∧ fltb (fadd before (cr_tolerance k)) w = false)
           (window n)) ∧
      ∀ m, (Z.max 0 first ≤ m < n)%Z → recovered m = Ok false
  | None => ∀ m, (Z.max 0 first ≤ m ∧ m + cr_stable k ≤ final)%Z → recovered m = Ok false
  end.
Proof.
  intros Hpoints H. unfold judge_span in H.
  destruct (sp_up s) as [up|]; [|done]. destruct (sp_reenabled s); [|done].
  bind_both H limit Hlimit.
  destruct (_ || _); [done|]. bind_both H ratio Hratio. destruct (cr_nats k && _) eqn:Hp; [done|].
  bind_both H first Hfirst. bind_both H final Hfinal. bind_both H fd Hfound. bind_both H per Hper.
  injection H as <- Hpend <-. rewrite Hpend in Hfound.
  exists up, limit, first, final, (fmul (f_min (float_dec 1 0) ratio) (cr_fraction k)).
  split_and!; [done..|]. apply first_recovered_spec in Hfound. cbn in Hfound |- *.
  destruct fd as [n|].
  - destruct Hfound as (Hn & Hr & Hbefore).
    apply window_recovered_true in Hr as (Hlen & Hexp & Hlost & Henough & Hnats).
    split_and!; [lia|lia|done|done| |done|done|done].
    apply sum_of_zero; [|done]. apply fault_points_ok in Hpoints as (_ & _ & _ & _ & Hok & _).
    unfold window_at. apply Forall_take, Forall_drop.
    eapply Forall_impl; [exact Hok|]. simpl. intros p (_ & _ & _ & _ & ->). lia.
  - intros m Hm. apply Hfound. lia.
Qed.

(** ** A concrete run

    One order a second for twenty seconds; the payment service is away from
    second 10 to second 12, and the orders of seconds 10 to 12 are lost. *)
Definition demo_fault_config : config :=
  Config "NATS" "https://shop.example" None "fault_tolerance" 0 20 2 10 (float_dec 1 0) (float_dec 1 0)
    (float_dec 10 0) (float_dec 1000 0) 30 (float_dec 30 0) (float_dec 60 0) (float_dec 5 0) 1 true true.
Definition demo_order (second : Z) : mapping :=
  [("name", PStr "checkout_to_outcome"); ("phase", PStr "steady"); ("success", PBool true);
   ("response_time_ms", PFloat (float_dec 120 0)); ("recorded_at", PFloat (float_dec (1000 + second) 0));
   ("context", PDict [("scheduled_at", PInt (1000 + second)); ("outcome", PStr "COMPLETED");
                      ("accepted", PBool true)])].
Definition demo_business : list mapping :=
  demo_order <$> [0; 1; 2; 3; 4; 5; 6; 7; 8; 9; 13; 14; 15; 16; 17; 18; 19]%Z.
Definition demo_sample (second : Z) : mapping :=
  [("elapsed_seconds", PInt second);
   ("nats_metrics", PList [PDict [("name", PStr "jetstream_consumer_num_pending"); ("value", PInt 2);
      ("labels", PDict [("stream_name", PStr "BOUTIQUE_EVENTS"); ("consumer_name", PStr "payment")])]])].
Definition demo_resources : list mapping := (λ n, demo_sample (Z.of_nat n)) <$> seq 0 20.
Definition demo_plan : mapping :=
  [("start_epoch", PInt 1000); ("duration_seconds", PInt 20); ("convergence_stable_seconds", PInt 3);
   ("faults", PList [PDict [("service", PStr "payment"); ("deployment", PStr "paymentservice")]])].
Definition demo_event (action : string) (elapsed : pyfloat) : mapping :=
  [("service", PStr "payment"); ("action", PStr action); ("elapsed_seconds", PFloat elapsed)].
Definition demo_faults : list mapping :=
  [demo_event "scale_down_started" (float_dec 10 0); demo_event "disabled" (float_dec 105 (-1));
   demo_event "scale_up_started" (float_dec 12 0); demo_event "reenabled" (float_dec 125 (-1))].

Definition demo_fault_summary : mapping :=
  Eval vm_compute in
    match fault_tolerance_summary demo_fault_config demo_plan demo_faults demo_business demo_resources [] with
    | Ok s => s | Raise _ => [] end.
Definition demo_points : list point :=
  Eval vm_compute in
    match (spans ← fault_spans demo_faults demo_plan;
           fault_points demo_fault_config demo_plan spans demo_business demo_resources []) with
    | Ok p => p | Raise _ => [] end.
Definition demo_span : span :=
  Eval vm_compute in
    match fault_spans demo_faults demo_plan with
    | Ok (s :: _) => s | _ => Span "" PNone PNone PNone (float_dec 0 0) PNone None PNone None PNone None end.
Definition demo_criteria : criteria := Criteria 3 (float_dec 9 (-1)) (float_dec 0 0) true.

Example demo_converged :
  judge_span demo_criteria demo_plan demo_points demo_span None
  = Ok (Judged (float_dec 1 0) (Some (float_dec 2 0)) (Some 13%Z)).
Proof. vm_compute. reflexivity. Qed.


Lemma convergence_earliest_witness :
  ∃ up limit first final lowest,
  sp_up demo_span = Some up ∧ f_ceil up = Ok first ∧
  search_end demo_plan (Z.of_nat (length demo_points)) None = Ok limit ∧ f_floor limit = Ok final ∧
  let window n := window_at demo_points 3 n in
  let recovered n := window_recovered demo_criteria lowest (Some (float_dec 2 0)) (window n) in
  (Z.max 0 first ≤ 13)%Z ∧ (13 + 3 ≤ final)%Z ∧
  Z.of_nat (length (window 13%Z)) = 3%Z ∧ (0 < sum_of pt_expected (window 13%Z))%Z ∧
  Forall (λ p, pt_lost p = 0%Z) (window 13%Z) ∧
  (∃ ratio, int_truediv (sum_of pt_processed (window 13%Z)) (sum_of pt_expected (window 13%Z)) = Ok ratio ∧
     fltb ratio lowest = false) ∧
  (cr_nats demo_criteria = true → ∃ before, Some (float_dec 2 0) = Some before ∧
     Forall (λ p, ∃ w, fresh_waiting p = Some w ∧ fltb (fadd before (cr_tolerance demo_criteria)) w = false)
       (window 13%Z)) ∧
  ∀ m, (Z.max 0 first ≤ m < 13)%Z → recovered m = Ok false.
Proof.
  apply (convergence_earliest demo_fault_config demo_plan [demo_span] demo_business demo_resources []
           demo_points demo_criteria demo_span None (float_dec 1 0) (Some (float_dec 2 0)) (Some 13%Z));
    vm_compute; reflexivity.
Defined.
