(* ===== verification/ClusterMetrics.v ===== *)
(** * Cluster metrics (benchmarkservice/cluster_metrics.py)

    The collector scrapes the kubelets, the NATS exporters, the Raft state of
    the NATS servers and the micro services, and merges what it gets into one
    snapshot.  HTTP, NATS and the thread pools are outside the model: a
    function takes the bodies it fetched, or the results of its requests in the
    order in which the code visits them.  Bodies are texts of code points below
    256. *)

From S2P Require Import Prelude PyFloat PyValue PyUrl BenchConfig Program.
From Stdlib Require Import Ascii.
From Corelib Require Import SpecFloat.

(** ** Pods and services *)

(** [cluster_metrics.py:22-36 DEFAULT_SERVICES] *)
Definition DEFAULT_SERVICES : list string :=
  ["storefrontprojectionservice"; "productcatalogservice"; "recommendationservice"; "checkoutservice";
   "currencyservice"; "shippingservice"; "paymentservice"; "emailservice"; "cartservice"; "adservice";
   "redis-cart"; "redis-checkout"; "frontend"].

Definition chr_decimal (c : ascii) : bool := let n := chr_code c in ((48 <=? n) && (n <=? 57))%Z.

(** [re.fullmatch(r"nats-[0-9]+", name)] *)
Definition nats_pod (name : string) : bool :=
  str_startswith "nats-" name &&
  match chars (str_removeprefix "nats-" name) with
  | [] => false
  | digits => forallb chr_decimal digits
  end.

(** [cluster_metrics.py:125-148 service_for_pod] *)
Definition service_for_pod (namespace pod_name application_type application_namespace nats_namespace : string)
  : option string :=
  if String.eqb namespace nats_namespace then if nats_pod pod_name then Some "nats" else None
  else if negb (String.eqb namespace application_namespace) || str_startswith "benchmarkservice-" pod_name
  then None
  else
    match list_find (λ service, String.eqb pod_name service
                                || str_startswith (service +:+ "-") pod_name = true) DEFAULT_SERVICES with
    | None => None
    | Some (_, service) =>
        if String.eqb service "storefrontprojectionservice" && String.eqb application_type "GRPC"
        then None else Some service
    end.

(** ** The text format of Prometheus *)

Definition chr_name_start (c : ascii) : bool := chr_alpha c || is_char 95 c.
Definition chr_name (c : ascii) : bool := chr_name_start c || chr_decimal c.
Definition metric_start (c : ascii) : bool := chr_name_start c || is_char 58 c.
Definition metric_char (c : ascii) : bool := chr_name c || is_char 58 c.

Definition is_quote : ascii → bool := is_char 34.
Definition is_backslash : ascii → bool := is_char 92.
Definition is_newline : ascii → bool := is_char 10.

(** The longest prefix of characters of a class, and the rest. *)
Definition span_of (class : ascii → bool) : list ascii → list ascii * list ascii :=
  chars_break (λ c, negb (class c)).

(** What follows the closing quote of a label: a comma, or the end. *)
Definition label_end (l : list ascii) : option (list ascii) :=
  match l with
  | [] => Some []
  | c :: l => if is_char 44 c then Some l else None
  end.
Definition label_close (l : list ascii) : option (list ascii) :=
  match l with c :: l => if is_quote c then label_end l else None | [] => None end.

(** [(?:\\.|[^"])*"(?:,|$)]: the alternatives in the order in which a
    backtracking matcher tries them.  The answer is the value and what is
    left. *)
Fixpoint label_value (fuel : nat) (l : list ascii) : option (list ascii * list ascii) :=
  match fuel with
  | 0 => None
  | S fuel =>
      let escaped :=
        match l with
        | b :: c :: l' =>
            if is_backslash b && negb (is_newline c) then
              match label_value fuel l' with
              | Some (v, rest) => Some (b :: c :: v, rest) | None => None end
            else None
        | _ => None
        end in
      let plain :=
        match l with
        | c :: l' =>
            if is_quote c then None
            else match label_value fuel l' with
                 | Some (v, rest) => Some (c :: v, rest) | None => None end
        | [] => None
        end in
      match escaped with
      | Some r => Some r
      | None =>
          match plain with
          | Some r => Some r
          | None => match label_close l with Some rest => Some ([], rest) | None => None end
          end
      end
  end.

(** One label at the start of the text.
    [cluster_metrics.py:42-44 PROMETHEUS_LABEL] *)
Definition label_here (l : list ascii) : option (list ascii * list ascii * list ascii) :=
  match l with
  | c :: _ =>
      if chr_name_start c then
        let '(name, rest) := span_of chr_name l in
        match rest with
        | e :: q :: rest =>
            if is_char 61 e && is_quote q then
              match label_value (S (length rest)) rest with
              | Some (value, rest) => Some (name, value, rest) | None => None end
            else None
        | _ => None
        end
      else None
  | [] => None
  end.

(** [finditer]: the leftmost matches, one after the other. *)
Fixpoint find_labels (fuel : nat) (l : list ascii) : list (list ascii * list ascii) :=
  match fuel with
  | 0 => []
  | S fuel =>
      match l with
      | [] => []
      | _ :: l' =>
          match label_here l with
          | Some (name, value, rest) => (name, value) :: find_labels fuel rest
          | None => find_labels fuel l'
          end
      end
  end.

(** [s.replace(c1 + c2, d)] for two characters. *)
Fixpoint replace_pair (c1 c2 : ascii → bool) (d : ascii) (l : list ascii) : list ascii :=
  match l with
  | a :: ((b :: l'') as l') =>
      if c1 a && c2 b then d :: replace_pair c1 c2 d l'' else a :: replace_pair c1 c2 d l'
  | l => l
  end.

(** The three replacements, one after the other.
    [cluster_metrics.py:355-360 parse_labels] *)
Definition unescape (value : list ascii) : list ascii :=
  replace_pair is_backslash (is_char 110) (ascii_of_nat 10)
    (replace_pair is_backslash is_quote (ascii_of_nat 34)
       (replace_pair is_backslash is_backslash (ascii_of_nat 92) value)).

(** [cluster_metrics.py:352-362 parse_labels] *)
Definition parse_labels (raw : list ascii) : mapping :=
  foldl (λ labels nv, alist_set (of_chars nv.1) (PStr (of_chars (unescape nv.2))) labels) []
    (find_labels (length raw) raw).

(** *** Lines *)

(** [[0-9]*\.?[0-9]+] *)
Definition decimal_mantissa (l : list ascii) : bool :=
  match span_of chr_decimal l with
  | (_ :: _, []) => true
  | (_, c :: fraction) =>
      is_char 46 c && match fraction with [] => false | _ => forallb chr_decimal fraction end
  | ([], []) => false
  end.

(** The value of a sample, as the pattern accepts it.
    [cluster_metrics.py:39-39 PROMETHEUS_LINE] *)
Definition sample_value (l : list ascii) : bool :=
  let l := match l with
           | c :: l' => if is_char 43 c || is_char 45 c then l' else l | [] => l end in
  if decide (l = chars "Inf") then true else if decide (l = chars "NaN") then true else
  let '(mantissa, exponent) := chars_break (λ c, is_char 101 c || is_char 69 c) l in
  decimal_mantissa mantissa &&
  match exponent with
  | [] => true
  | _ :: digits =>
      let digits := match digits with
                    | c :: d => if is_char 43 c || is_char 45 c then d else digits | [] => [] end in
      match digits with [] => false | _ => forallb chr_decimal digits end
  end.

(** [[0-9]+(?:\.[0-9]+)?] *)
Definition sample_timestamp (l : list ascii) : bool :=
  match span_of chr_decimal l with
  | (_ :: _, []) => true
  | (_ :: _, c :: fraction) =>
      is_char 46 c && match fraction with [] => false | _ => forallb chr_decimal fraction end
  | _ => false
  end.

(** The words between white space. *)
Fixpoint words (fuel : nat) (l : list ascii) : list (list ascii) :=
  match fuel with
  | 0 => []
  | S fuel =>
      match drop_while chr_space l with
      | [] => []
      | l => let '(w, rest) := chars_break chr_space l in w :: words fuel rest
      end
  end.

(** The value and an optional timestamp, after at least one space. *)
Definition line_value (l : list ascii) : option (list ascii) :=
  match l with
  | c :: _ =>
      if chr_space c then
        match words (length l) l with
        | [v] => if sample_value v then Some v else None
        | [v; t] => if sample_value v && sample_timestamp t then Some v else None
        | _ => None
        end
      else None
  | [] => None
  end.

(** The labels reach to the last closing brace, since neither a value nor a
    timestamp has one.
    [cluster_metrics.py:37-41 PROMETHEUS_LINE] *)
Definition match_line (l : list ascii) : option (list ascii * list ascii * list ascii) :=
  match l with
  | c :: _ =>
      if metric_start c then
        let '(name, rest) := span_of metric_char l in
        match rest with
        | b :: inner =>
            if is_char 123 b then
              let '(tail_rev, before_rev) := chars_break (is_char 125) (reverse inner) in
              match before_rev with
              | [] => None
              | _ :: before_rev =>
                  match line_value (reverse tail_rev) with
                  | Some v => Some (name, reverse before_rev, v)
                  | None => None
                  end
              end
            else match line_value rest with Some v => Some (name, [], v) | None => None end
        | [] => None
        end
      else None
  | [] => None
  end.

(** [str.splitlines] below 256. *)
Definition line_break (c : ascii) : bool :=
  let n := chr_code c in ((10 <=? n) && (n <=? 13) || (28 <=? n) && (n <=? 30) || (n =? 133))%Z.
Fixpoint splitlines (l acc : list ascii) : list (list ascii) :=
  match l with
  | [] => match acc with [] => [] | _ => [reverse acc] end
  | c :: l' =>
      if line_break c then
        reverse acc ::
        match l' with
        | d :: l'' => if is_char 13 c && is_char 10 d then splitlines l'' [] else splitlines l' []
        | [] => []
        end
      else splitlines l' (c :: acc)
  end.

(** [math.isfinite] *)
Definition f_finite (x : pyfloat) : bool :=
  match x with S754_zero _ | S754_finite _ _ _ => true | _ => false end.

(** A metric of the text.
    [cluster_metrics.py:370-388 parse_prometheus] *)
Definition line_metric (names : list string) (endpoint : string) (line : list ascii) : option pyval :=
  match line with
  | [] => None
  | c :: _ =>
      if is_char 35 c then None else
      match match_line line with
      | None => None
      | Some (name, labels, value) =>
          if negb (bool_decide (of_chars name ∈ names)) then None else
          match float_of_str (of_chars value) with
          | Raise _ => None
          | Ok number =>
              if negb (f_finite number) then None else
              Some (PDict [("name", PStr (of_chars name)); ("labels", PDict (parse_labels labels));
                           ("value", PFloat number); ("endpoint", PStr endpoint)])
          end
      end
  end.

(** [cluster_metrics.py:365-389 parse_prometheus] *)
Definition parse_prometheus (body : string) (names : list string) (endpoint : string) : list pyval :=
  omap (line_metric names endpoint) (splitlines (chars body) []).

(** ** Raft groups *)

(** [int(source.get(name, 0))], 0 for what is not a number.
    [cluster_metrics.py:436-440 scrape_nats_raft.number] *)
Definition raft_number (source : mapping) (name : string) : res Z :=
  match py_int (default (PInt 0) (alist_get name source)) with
  | Raise (TypeError _) | Raise (ValueError _) => Ok 0%Z
  | r => r
  end.

Fixpoint raft_numbers (source : mapping) (fields : list (string * string)) : res mapping :=
  match fields with
  | [] => Ok []
  | (key, name) :: fields =>
      n ← raft_number source name; rest ← raft_numbers source fields; Ok ((key, PInt n) :: rest)
  end.

Definition raft_kind (group_name : string) : string :=
  if String.eqb group_name "_meta_" then "meta"
  else if str_startswith "S-" group_name then "stream"
  else if str_startswith "C-" group_name then "consumer" else "other".

Definition raft_fields : list (string * string) :=
  [("size", "size"); ("quorum_needed", "quorum_needed"); ("committed", "committed"); ("applied", "applied");
   ("term", "term"); ("pterm", "pterm"); ("pindex", "pindex"); ("proposal_queue", "ipq_proposal_len");
   ("entry_queue", "ipq_entry_len"); ("response_queue", "ipq_resp_len"); ("apply_queue", "ipq_apply_len")].
Definition wal_fields : list (string * string) :=
  [("wal_messages", "messages"); ("wal_bytes", "bytes"); ("wal_first_seq", "first_seq");
   ("wal_last_seq", "last_seq")].

Definition text_field (m : mapping) (k : string) : pyval := PStr (py_str (default (PStr "") (alist_get k m))).

(** [cluster_metrics.py:430-475 scrape_nats_raft] *)
Definition raft_group (url account group_name : string) (group : pyval) : res (option pyval) :=
  match group with
  | PDict group =>
      let wal := match alist_get "wal" group with Some (PDict w) => w | _ => [] end in
      numbers ← raft_numbers group raft_fields;
      wal_numbers ← raft_numbers wal wal_fields;
      Ok (Some (PDict ([("endpoint", PStr url); ("account", PStr account); ("group", PStr group_name);
                        ("kind", PStr (raft_kind group_name)); ("id", text_field group "id");
                        ("state", text_field group "state"); ("leader", text_field group "leader")]
                       ++ numbers ++ wal_numbers)))
  | _ => Ok None
  end.

Fixpoint raft_groups (url account : string) (groups : mapping) : res (list pyval) :=
  match groups with
  | [] => Ok []
  | (name, group) :: groups =>
      g ← raft_group url account name group;
      rest ← raft_groups url account groups;
      Ok (option_list g ++ rest)
  end.

Fixpoint raft_accounts (url : string) (accounts : mapping) : res (list pyval) :=
  match accounts with
  | [] => Ok []
  | (account, PDict groups) :: accounts =>
      l ← raft_groups url account groups; rest ← raft_accounts url accounts; Ok (l ++ rest)
  | _ :: accounts => raft_accounts url accounts
  end.

(** [document] is what the server answered.
    [cluster_metrics.py:408-476 scrape_nats_raft] *)
Definition scrape_nats_raft (url : string) (document : res pyval) : res (list pyval) :=
  value ← document;
  match value with
  | PDict accounts => raft_accounts url accounts
  | _ => Raise (RuntimeError ("NATS Raft endpoint " +:+ url +:+ " returned non-object JSON"))
  end.

(** ** Container counters *)

(** [cluster_metrics.py:102-116 CADVISOR_METRICS] *)
Definition CADVISOR_METRICS : list (string * string) :=
  [("container_cpu_cfs_periods_total", "cpu_cfs_periods_total");
   ("container_cpu_cfs_throttled_periods_total", "cpu_cfs_throttled_periods_total");
   ("container_cpu_cfs_throttled_seconds_total", "cpu_cfs_throttled_seconds_total");
   ("container_fs_reads_total", "disk_reads_completed_total");
   ("container_fs_writes_total", "disk_writes_completed_total");
   ("container_fs_io_time_seconds_total", "disk_io_time_seconds_total");
   ("container_fs_io_time_weighted_seconds_total", "disk_io_time_weighted_seconds_total")].
(** [cluster_metrics.py:117-122 INTEGER_CADVISOR_FIELDS] *)
Definition INTEGER_CADVISOR_FIELDS : list string :=
  ["cpu_cfs_periods_total"; "cpu_cfs_throttled_periods_total"; "disk_reads_completed_total";
   "disk_writes_completed_total"].

(** The counters of each pod. *)
Definition counters := list (string * list (string * pyfloat)).

(** [m.setdefault(key, {})[field] = m[key].get(field, 0.0) + value] *)
Definition counter_bump (m : counters) (key field : string) (value : pyfloat) : counters :=
  let fields := default [] (alist_get key m) in
  alist_set key (alist_set field (fadd (default (float_dec 0 0) (alist_get field fields)) value) fields) m.

Definition label (labels : mapping) (k : string) : string :=
  match alist_get k labels with Some v => py_str v | None => "" end.

(** A metric that [parse_prometheus] returned; sums per container go to the
    pod, those of the pod itself are kept apart.
    [cluster_metrics.py:486-506 add_cadvisor_metrics] *)
Definition cadvisor_turn (pods : mapping) (node : string) (acc : counters * counters) (metric : pyval)
  : counters * counters :=
  let '(values, fallbacks) := acc in
  match metric with
  | PDict metric =>
      let labels := match alist_get "labels" metric with Some (PDict l) => l | _ => [] end in
      let key := label labels "namespace" +:+ "/" +:+ label labels "pod" in
      let container := label labels "container" in
      let value := match alist_get "value" metric with Some (PFloat x) => x | _ => float_dec 0 0 end in
      match alist_get key pods, alist_get (label metric "name") CADVISOR_METRICS with
      | Some (PDict pod), Some field =>
          if negb (py_eqb (default PNone (alist_get "node" pod)) (PStr node)) then acc
          else if String.eqb container "" then
            if str_startswith "disk_io_time_" field
            then (values, counter_bump fallbacks key field value) else acc
          else if String.eqb container "POD" then acc
          else (counter_bump values key field value, fallbacks)
      | _, _ => acc
      end
  | _ => acc
  end.

(** [setdefault] of every field. *)
Definition with_fallbacks (fields fallback : list (string * pyfloat)) : list (string * pyfloat) :=
  foldl (λ fs kv, match alist_get kv.1 fs with Some _ => fs | None => fs ++ [kv] end) fields fallback.

(** The pods are changed in place: an exception leaves what was written so
    far.  [int] of a sum that overflowed raises. *)
Fixpoint pod_counters (pod : mapping) (fields : list (string * pyfloat)) : mapping * option exn :=
  match fields with
  | [] => (pod, None)
  | (field, value) :: fields =>
      match (if bool_decide (field ∈ INTEGER_CADVISOR_FIELDS)
             then n ← f_trunc value; Ok (PInt n) else Ok (PFloat value)) with
      | Ok v => pod_counters (alist_set field v pod) fields
      | Raise e => (pod, Some e)
      end
  end.

(** [cluster_metrics.py:509-518 add_cadvisor_metrics] *)
Definition finish_pod (pod : mapping) (fields : list (string * pyfloat)) : mapping * option exn :=
  let '(pod, stop) := pod_counters pod fields in
  match stop with
  | Some e => (pod, Some e)
  | None =>
      let count k := f_trunc (default (float_dec 0 0) (alist_get k fields)) in
      match (reads ← count "disk_reads_completed_total";
             writes ← count "disk_writes_completed_total"; Ok (reads, writes)) with
      | Raise e => (pod, Some e)
      | Ok (reads, writes) =>
          (if (reads =? 0)%Z && (writes =? 0)%Z then pod
           else alist_set "disk_io_operations_total" (PInt (reads + writes)) pod, None)
      end
  end.

(** [cluster_metrics.py:508-518 add_cadvisor_metrics] *)
Fixpoint finish_pods (pods : mapping) (values fallbacks : counters) : mapping * option exn :=
  match values with
  | [] => (pods, None)
  | (key, fields) :: values =>
      match alist_get key pods with
      | Some (PDict pod) =>
          let '(pod, stop) :=
            finish_pod pod (with_fallbacks fields (default [] (alist_get key fallbacks))) in
          let pods := alist_set key (PDict pod) pods in
          match stop with Some e => (pods, Some e) | None => finish_pods pods values fallbacks end
      | _ => finish_pods pods values fallbacks
      end
  end.

(** The pods with the counters of a body; they were built by [sample_node],
    which makes each of them a dictionary.
    [cluster_metrics.py:479-518 add_cadvisor_metrics] *)
Definition add_cadvisor_metrics (pods : mapping) (body node : string) : mapping * option exn :=
  let '(values, fallbacks) :=
    foldl (cadvisor_turn pods node) ([], []) (parse_prometheus body CADVISOR_METRICS.*1 node) in
  finish_pods pods values fallbacks.

(** ** The kubelets *)

Section kubernetes.
(** [self.application_type], [self.application_namespace] and
    [self.nats_namespace]. *)
Context (application_type application_namespace nats_namespace : string).

Definition pod_service (namespace name : string) : option string :=
  service_for_pod namespace name application_type application_namespace nats_namespace.

(** [str(v.get(k, ""))] *)
Definition get_text (v : pyval) (k : string) : res string := x ← py_get v k (PStr ""); Ok (py_str x).

(** The node of a pod of the application.
    [cluster_metrics.py:221-234 _relevant_nodes] *)
Definition relevant_node (item : pyval) : res (option string) :=
  metadata ← py_get item "metadata" (PDict []);
  namespace ← get_text metadata "namespace";
  name ← get_text metadata "name";
  match pod_service namespace name with
  | None => Ok None
  | Some _ =>
      spec ← py_get item "spec" (PDict []);
      node ← get_text spec "nodeName";
      Ok (if String.eqb node "" then None else Some node)
  end.

(** [_get]: the document must be an object.
    [cluster_metrics.py:204-211 _get] *)
Definition kube_get (path : string) (document : res pyval) : res mapping :=
  value ← document;
  match value with
  | PDict m => Ok m
  | _ => Raise (RuntimeError ("Kubernetes endpoint " +:+ path +:+ " returned non-object JSON"))
  end.

(** The nodes, and what is cached afterwards.
    [cluster_metrics.py:217-238 _relevant_nodes] *)
Definition relevant_nodes (cached : list string) (document : res pyval) : res (list string * list string) :=
  value ← kube_get "/api/v1/pods" document;
  items ← py_iter (default (PList []) (alist_get "items" value));
  nodes ← res_mapM relevant_node items;
  let discovered := sorted_strings (list_to_set (omap id nodes)) in
  Ok match discovered with [] => (cached, cached) | _ => (discovered, discovered) end.

(** [int(v.get(k, 0))] *)
Definition get_int (v : pyval) (k : string) : res Z := x ← py_get v k (PInt 0); py_int x.

(** [cluster_metrics.py:247-271 _sample_node] *)
Definition node_pod (node : string) (pod : pyval) : res (option (string * pyval)) :=
  reference ← py_get pod "podRef" (PDict []);
  namespace ← get_text reference "namespace";
  name ← get_text reference "name";
  match pod_service namespace name with
  | None => Ok None
  | Some service =>
      network ← py_get pod "network" (PDict []);
      cpu ← (v ← py_get pod "cpu" (PDict []); get_int v "usageCoreNanoSeconds");
      memory ← (v ← py_get pod "memory" (PDict []); get_int v "workingSetBytes");
      rx ← get_int network "rxBytes";
      tx ← get_int network "txBytes";
      Ok (Some (namespace +:+ "/" +:+ name,
                PDict [("service", PStr service); ("node", PStr node);
                       ("cpu_usage_core_nanoseconds", PInt cpu); ("memory_working_set_bytes", PInt memory);
                       ("network_rx_bytes", PInt rx); ("network_tx_bytes", PInt tx)]))
  end.

Fixpoint node_pods (node : string) (pods : list pyval) (acc : mapping) : res mapping :=
  match pods with
  | [] => Ok acc
  | pod :: pods =>
      r ← node_pod node pod;
      node_pods node pods match r with Some (key, p) => alist_set key p acc | None => acc end
  end.

(** The pods of a node and the errors; [cadvisor] is the body of the cAdvisor
    endpoint when it is asked for.  Its failure is reported, the pods are
    kept.
    [cluster_metrics.py:240-280 _sample_node] *)
Definition sample_node (node : string) (summary : res pyval) (cadvisor : option (res string))
  : res (mapping * list string) :=
  summary ← kube_get ("/api/v1/nodes/" +:+ node +:+ "/proxy/stats/summary") summary;
  items ← py_iter (default (PList []) (alist_get "pods" summary));
  pods ← node_pods node items [];
  let failed e := [node +:+ " cAdvisor: " +:+ exn_str e] in
  Ok match cadvisor with
     | None => (pods, [])
     | Some (Raise e) => (pods, failed e)
     | Some (Ok body) =>
         let '(pods, stop) := add_cadvisor_metrics pods body node in
         (pods, match stop with Some e => failed e | None => [] end)
     end.
End kubernetes.

(** *** One sample of all nodes *)

(** What the client keeps between samples. *)
Record kube_client := KubeClient {
  kc_cached_nodes : list string;
  kc_last_cadvisor : pyfloat;
  kc_cadvisor_cache : list (string * mapping);
  kc_errors : list string;
}.

Definition base_fields : list string :=
  ["service"; "node"; "cpu_usage_core_nanoseconds"; "memory_working_set_bytes"; "network_rx_bytes";
   "network_tx_bytes"].

(** The counters of a pod that come from cAdvisor.
    [cluster_metrics.py:315-331 sample] *)
Definition cadvisor_counters (pod : pyval) : mapping :=
  match pod with
  | PDict m => filter (λ kv, negb (bool_decide (kv.1 ∈ base_fields))
      && match kv.2 with PInt _ | PFloat _ => true | _ => false end = true) m
  | _ => []
  end.

Definition cache_counters (cache : list (string * mapping)) (pods : mapping) : list (string * mapping) :=
  foldl (λ cache kp, match cadvisor_counters kp.2 with
                     | [] => cache | counters => alist_set kp.1 counters cache end) cache pods.

(** Counters of an earlier sample stand in for those a sample does not have.
    [cluster_metrics.py:334-336 sample] *)
Definition fill_pod (cache : list (string * mapping)) (kp : string * pyval) : string * pyval :=
  (kp.1, match kp.2 with
         | PDict m => PDict (foldl (λ m kv, match alist_get kv.1 m with Some _ => m | None => m ++ [kv] end) m
                               (default [] (alist_get kp.1 cache)))
         | v => v
         end).

(** [started] is the clock at the start of the sample; [results] are the
    results of the nodes that answered in time, in the order in which they are
    visited, and [late] the nodes that did not.
    [cluster_metrics.py:282-346 sample] *)
Definition kube_sample (interval : pyfloat) (enabled : bool) (c : kube_client) (started : pyfloat)
    (discovery : res (list string * list string))
    (results : bool → list (string * res (mapping * list string))) (late : list string)
  : mapping * kube_client :=
  let '(cached, errors) := match discovery with
    | Ok (_, cached) => (cached, [])
    | Raise e => (kc_cached_nodes c, ["pod discovery: " +:+ exn_str e])
    end in
  let collect := enabled && fleb interval (fsub started (kc_last_cadvisor c)) in
  let last := if collect then started else kc_last_cadvisor c in
  let '(pods, errors) := foldl (λ pe nr,
      match nr.2 with
      | Ok (pods, errs) => (dict_update pe.1 pods, pe.2 ++ errs)
      | Raise e => (pe.1, pe.2 ++ [nr.1 +:+ ": " +:+ exn_str e])
      end) ([], errors) (results collect) in
  let errors := errors ++ ((λ node, node +:+ ": snapshot deadline exceeded") <$> late) in
  let cache := if collect then cache_counters (kc_cadvisor_cache c) pods else kc_cadvisor_cache c in
  (fill_pod cache <$> pods, KubeClient cached last cache errors).

(** ** Micro services *)

(** The first of the names that is a number; an infinite float raises.
    [cluster_metrics.py:535-547 normalize_nats_micro_stats] *)
Fixpoint first_pending (candidates : list pyval) : res (option Z) :=
  match candidates with
  | [] => Ok None
  | PNone :: candidates => first_pending candidates
  | candidate :: candidates =>
      match py_int candidate with
      | Ok n => Ok (Some (Z.max 0 n))
      | Raise (TypeError _) | Raise (ValueError _) => first_pending candidates
      | Raise e => Raise e
      end
  end.

Definition pending_names : list string := ["pending_requests"; "num_pending"; "pending"].

(** [int(endpoint.get(k, 0))] *)
Definition dict_int (m : mapping) (k : string) : res Z := py_int (default (PInt 0) (alist_get k m)).

(** [cluster_metrics.py:529-568 normalize_nats_micro_stats] *)
Definition micro_endpoint (service_name service_id version : string) (endpoint : pyval) : res (option mapping) :=
  match endpoint with
  | PDict endpoint =>
      let data := match alist_get "data" endpoint with Some (PDict d) => d | _ => [] end in
      let values source := (λ name, default PNone (alist_get name source)) <$> pending_names in
      pending ← first_pending (values endpoint ++ values data);
      requests ← dict_int endpoint "num_requests";
      errors ← dict_int endpoint "num_errors";
      processing ← dict_int endpoint "processing_time";
      average ← dict_int endpoint "average_processing_time";
      let queue := match alist_get "queue_group" endpoint with
                   | Some q => py_str q
                   | None => py_str (default (PStr "") (alist_get "queue" endpoint)) end in
      Ok (Some [("service_name", PStr service_name); ("service_id", PStr service_id);
                ("version", PStr version); ("endpoint_name", text_field endpoint "name");
                ("subject", text_field endpoint "subject"); ("queue_group", PStr queue);
                ("num_requests", PInt requests); ("num_errors", PInt errors);
                ("processing_time_nanoseconds", PInt processing);
                ("average_processing_time_nanoseconds", PInt average);
                ("pending_requests", match pending with Some n => PInt n | None => PNone end)])
  | _ => Ok None
  end.

Fixpoint micro_endpoints (service_name service_id version : string) (endpoints : list pyval)
  : res (list mapping) :=
  match endpoints with
  | [] => Ok []
  | e :: endpoints =>
      m ← micro_endpoint service_name service_id version e;
      rest ← micro_endpoints service_name service_id version endpoints;
      Ok (option_list m ++ rest)
  end.

(** [cluster_metrics.py:521-569 normalize_nats_micro_stats] *)
Definition normalize_nats_micro_stats (value : mapping) : res (list mapping) :=
  let get k := py_str (default (PStr "") (alist_get k value)) in
  if String.eqb (get "name") "" || String.eqb (get "id") "" then Ok [] else
  endpoints ← py_iter (default (PList []) (alist_get "endpoints" value));
  micro_endpoints (get "name") (get "id") (get "version") endpoints.

(** The order of the responses of a sample. *)
Definition response_key (m : mapping) : string * string * string :=
  (label m "service_name", label m "service_id", label m "endpoint_name").
Definition key3_le (a b : string * string * string) : Prop :=
  (String.le a.1.1 b.1.1 ∧ a.1.1 ≠ b.1.1) ∨
  (a.1.1 = b.1.1 ∧ ((String.le a.1.2 b.1.2 ∧ a.1.2 ≠ b.1.2) ∨ (a.1.2 = b.1.2 ∧ String.le a.2 b.2))).
#[export] Instance key3_le_dec a b : Decision (key3_le a b).
Proof. unfold key3_le. apply _. Defined.
Definition response_le (a b : mapping) : Prop := key3_le (response_key a) (response_key b).
#[export] Instance response_le_dec a b : Decision (response_le a b).
Proof. unfold response_le. apply _. Defined.

(** [messages] are the documents received before the deadline, [None] for
    data that is not JSON.
    [cluster_metrics.py:653-666 _sample] *)
Fixpoint micro_responses (messages : list (option pyval)) : res (list mapping) :=
  match messages with
  | [] => Ok []
  | Some (PDict value) :: messages =>
      l ← normalize_nats_micro_stats value; rest ← micro_responses messages; Ok (l ++ rest)
  | _ :: messages => micro_responses messages
  end.

(** [cluster_metrics.py:642-676 _sample] *)
Definition micro_sample (messages : list (option pyval)) : res (list mapping) :=
  l ← micro_responses messages; Ok (merge_sort response_le l).

(** ** Workflow events

    The client counts the events of four subjects.  A disconnection may lose
    events, so it starts a new count under a new identity. *)

(** [cluster_metrics.py:90-101 WORKFLOW_EVENT_SUBJECTS] *)
Definition WORKFLOW_EVENT_SUBJECTS : list (string * string) :=
  [("successful_orders", "boutique.evt.order.completed.v1");
   ("shipments_rejected", "boutique.evt.shipping.shipment-creation-failed.v1");
   ("payment_authorizations_released", "boutique.evt.payment.authorization-released.v1");
   ("orders_in_manual_review", "boutique.evt.order.manual-review-required.v1")].

(** [ob_subscribed] are the counters of the live subscriptions, once for each
    subscription, over all open connections; an event is delivered to every
    subscription.  The client reconnects for ever, so that a connection is
    never closed before the client is.
    [cluster_metrics.py:589-594 __init__] *)
Record observer := Observer {
  ob_id : string;
  ob_totals : list (string * Z);
  ob_error : option string;
  ob_connected : bool;
  ob_subscribed : list string;
}.

Definition zero_totals : list (string * Z) := (λ ns, (ns.1, 0%Z)) <$> WORKFLOW_EVENT_SUBJECTS.

(** [cluster_metrics.py:589-594 __init__] *)
Definition new_observer (id : string) : observer := Observer id zero_totals None false [].

(** What the connections tell their client. *)
Inductive observation :=
  | EventSeen (subject : string)
  | Disconnected (new_id : string)
  | ConnectionError (message : string).

(** The counters an event bumps, once for each subscription. *)
Definition counters_of (o : observer) (subject : string) : list string :=
  filter (λ name, alist_get name WORKFLOW_EVENT_SUBJECTS = Some subject) (ob_subscribed o).

Definition bump (m : list (string * Z)) (name : string) : list (string * Z) :=
  alist_set name (default 0 (alist_get name m) + 1)%Z m.

(** The callbacks.
    [cluster_metrics.py:613-638 _ensure_connected] *)
Definition observe (o : observer) (e : observation) : observer :=
  match e with
  | EventSeen subject =>
      Observer (ob_id o) (foldl bump (ob_totals o) (counters_of o subject)) (ob_error o)
        (ob_connected o) (ob_subscribed o)
  | Disconnected new_id => Observer new_id zero_totals (ob_error o) (ob_connected o) (ob_subscribed o)
  | ConnectionError message =>
      Observer (ob_id o) (ob_totals o) (Some message) (ob_connected o) (ob_subscribed o)
  end.

(** The points at which a coroutine waits, and its looks at the client.
    Other coroutines and callbacks act between them. *)
Inductive observerE : Type → Type :=
  | OConnected : observerE bool
  | OConnect : observerE (res unit)
  | OSubscribe (name : string) : observerE (res unit)
  | OFlush : observerE (res unit)
  | OCounts : observerE (option string * string * list (string * Z)).

(** [cluster_metrics.py:634-638 _ensure_connected] *)
Fixpoint subscribe_all (subjects : list (string * string)) : prog observerE unit :=
  match subjects with
  | [] => Ret tt
  | (name, _) :: subjects => _ ← call (OSubscribe name); subscribe_all subjects
  end.

(** [cluster_metrics.py:600-640 _ensure_connected] *)
Definition ensure_connected : prog observerE unit :=
  connected ← perform OConnected;
  if (connected : bool) then Ret tt else
  _ ← call OConnect;
  _ ← subscribe_all WORKFLOW_EVENT_SUBJECTS;
  call OFlush.

(** [cluster_metrics.py:686-697 _order_completed_sample] *)
Definition order_completed_sample : prog observerE mapping :=
  _ ← ensure_connected;
  _ ← call OFlush;
  counts ← perform OCounts;
  let '(error, id, totals) := (counts : option string * string * list (string * Z)) in
  match error with
  | Some message => Throw (RuntimeError message)
  | None =>
      total ← lift (py_item (PDict ((λ nc, (nc.1, PInt nc.2)) <$> totals)) "successful_orders");
      Ret [("observer_id", PStr id); ("total", total);
           ("counts", PDict ((λ nc, (nc.1, PInt nc.2)) <$> totals))]
  end.

(** What the server answers, and what arrives while a coroutine waits. *)
Record observer_oracle := ObserverOracle {
  oo_connect : nat → res unit;
  oo_subscribe : nat → res unit;
  oo_flush : nat → res unit;
  oo_seen : nat → list observation;
}.

Record observer_world := ObserverWorld {
  ow_observer : observer;
  ow_seen : list observation;
  ow_step : nat;
}.

Section handle.
Context (o : observer_oracle).

(** A wait: what arrives is delivered, then the answer comes. *)
Definition waited {X} (answer : nat → X) (after : X → observer → observer) (w : observer_world)
  : X * observer_world :=
  let x := answer (ow_step w) in
  let seen := oo_seen o (ow_step w) in
  (x, ObserverWorld (after x (foldl observe (ow_observer w) seen)) (ow_seen w ++ seen) (S (ow_step w))).

Definition when_ok (f : observer → observer) (x : res unit) (ob : observer) : observer :=
  match x with Ok _ => f ob | Raise _ => ob end.

Definition observer_handle (X : Type) (op : observerE X) : observer_world → X * observer_world :=
  match op in observerE X return observer_world → X * observer_world with
  | OConnected => λ w, (ob_connected (ow_observer w), w)
  | OConnect => waited (oo_connect o) (when_ok (λ ob,
      Observer (ob_id ob) (ob_totals ob) (ob_error ob) true (ob_subscribed ob)))
  | OSubscribe name => waited (oo_subscribe o) (when_ok (λ ob,
      Observer (ob_id ob) (ob_totals ob) (ob_error ob) (ob_connected ob) (ob_subscribed ob ++ [name])))
  | OFlush => waited (oo_flush o) (λ _ ob, ob)
  | OCounts => λ w, ((ob_error (ow_observer w), ob_id (ow_observer w), ob_totals (ow_observer w)), w)
  end.
End handle.

(** ** What the counts count *)

Definition counter_names : list string := WORKFLOW_EVENT_SUBJECTS.*1.

(** Whether an observation is an event of a counter. *)
Definition is_event (name : string) (e : observation) : bool :=
  match e with EventSeen subject => bool_decide (alist_get name WORKFLOW_EVENT_SUBJECTS = Some subject) | _ => false end.
Definition events (name : string) (l : list observation) : Z :=
  Z.of_nat (length (filter (λ e, is_event name e = true) l)).
Definition is_disconnection (e : observation) : bool :=
  match e with Disconnected _ => true | _ => false end.

Lemma events_app name l l' : events name (l ++ l') = (events name l + events name l')%Z.
Proof. unfold events. rewrite filter_app, length_app. lia. Qed.

Lemma events_one name e : events name [e] = if is_event name e then 1%Z else 0%Z.
Proof. unfold events. rewrite list.filter_cons. destruct (is_event name e) eqn:He; case_decide; congruence || done. Qed.

(** A client that counts each subject once. *)
Definition complete (o : observer) : Prop := ob_connected o = true ∧ ob_subscribed o = counter_names.

Lemma foldl_bump_get names m name :
  alist_get name (foldl bump m names) =
    match length (filter (name =.) names) with
    | 0 => alist_get name m
    | n => Some (default 0 (alist_get name m) + Z.of_nat n)%Z
    end.
Proof.
  revert m. induction names as [|x names IH]; intros m; [done|]. cbn [foldl].
  rewrite IH, list.filter_cons. unfold bump. rewrite alist_get_set.
  destruct (decide (name = x)) as [->|Hx]; [|done].
  cbn [length default]. destruct (length (filter (eq x) names)) eqn:Hn; cbn; f_equal; lia.
Qed.

Lemma counters_of_complete o subject name :
  complete o → name ∈ counter_names →
  length (filter (name =.) (counters_of o subject)) =
    if bool_decide (alist_get name WORKFLOW_EVENT_SUBJECTS = Some subject) then 1 else 0.
Proof.
  intros [_ Hs] Hname. unfold counters_of. rewrite Hs.
  assert (∀ l, NoDup l → length (filter (name =.) (filter
      (λ n, alist_get n WORKFLOW_EVENT_SUBJECTS = Some subject) l)) =
    if decide (name ∈ l) then
      if bool_decide (alist_get name WORKFLOW_EVENT_SUBJECTS = Some subject) then 1 else 0 else 0) as Hall.
  { clear. induction 1 as [|x l Hx Hl IH]; [done|]. rewrite list.filter_cons.
    destruct (decide (alist_get x WORKFLOW_EVENT_SUBJECTS = Some subject)) as [Hsub|Hsub].
    - rewrite list.filter_cons. destruct (decide (name = x)) as [->|Hne].
      + cbn [length]. rewrite IH, decide_False by done. rewrite decide_True by left.
        by rewrite bool_decide_eq_true_2.
      + rewrite IH. apply decide_ext. set_solver.
    - rewrite IH. destruct (decide (name = x)) as [->|Hne].
      + rewrite bool_decide_eq_false_2 by done. repeat case_decide; done.
      + apply decide_ext. set_solver. }
  rewrite Hall, decide_True; [done|done|]. apply (bool_decide_unpack _). vm_compute. exact I.
Qed.

Definition counts_from (o : observer) (name : string) (base : Z) : Prop :=
  alist_get name (ob_totals o) = Some base.

(** Without a disconnection the identity stays and every event of a counter is
    counted once. *)
Lemma observe_counts o l name base :
  complete o → name ∈ counter_names → existsb is_disconnection l = false → counts_from o name base →
  ob_id (foldl observe o l) = ob_id o ∧ counts_from (foldl observe o l) name (base + events name l)%Z.
Proof.
  intros Hc Hname. revert o base Hc. induction l as [|e l IH]; intros o base Hc Hl Hbase.
  { split; [done|]. cbn. by rewrite Z.add_0_r. }
  cbn [existsb] in Hl. apply orb_false_iff in Hl as [He Hl]. cbn [foldl].
  assert (complete (observe o e) ∧ ob_id (observe o e) = ob_id o ∧
    counts_from (observe o e) name (base + events name [e])%Z) as (Hc' & Hid & Hb').
  { destruct e as [subject|id|message]; [|done|].
    - split_and!; [done|done|]. unfold counts_from. cbn [observe ob_totals].
      rewrite foldl_bump_get, counters_of_complete, events_one by done. cbn [is_event].
      unfold counts_from in Hbase. rewrite Hbase. destruct (bool_decide _); [done|]. by rewrite Z.add_0_r.
    - split_and!; [done|done|]. cbn. by rewrite Z.add_0_r. }
  destruct (IH _ _ Hc' Hl Hb') as [Hid' Hb'']. split; [congruence|].
  rewrite (events_app name [e] l : events name (e :: l) = _), Z.add_assoc. exact Hb''.
Qed.

(** The identities a client takes. *)
Definition identities (l : list observation) : list string :=
  omap (λ e, match e with Disconnected id => Some id | _ => None end) l.

(** After a disconnection the identity is one of the new ones. *)
Lemma observe_id o l :
  ob_id (foldl observe o l) = default (ob_id o) (last (identities l)).
Proof.
  revert o. induction l as [|e l IH]; intros o; [done|]. cbn [foldl]. rewrite IH.
  destruct e as [subject|id|message]; [done| |done]. cbn [identities omap list_omap observe ob_id].
  fold (identities l). rewrite last_cons. by destruct (last (identities l)).
Qed.

Lemma observe_complete o l : complete o → complete (foldl observe o l).
Proof.
  intros Hc. revert o Hc. induction l as [|e l IH]; intros o Hc; [done|]. apply IH. by destruct e.
Qed.

(** ** What the model shows of the client *)

Definition quiet_oracle (subscribe : nat → res unit) : observer_oracle :=
  ObserverOracle (λ _, Ok tt) subscribe (λ _, Ok tt) (λ _, []).

Definition completed_order : observation := EventSeen "boutique.evt.order.completed.v1".

(** Two coroutines that find no connection both connect and subscribe, so that
    one event is counted twice. *)
Lemma concurrent_samples_count_twice :
  let '(w, _) := run_schedule (observer_handle (quiet_oracle (λ _, Ok tt)))
    [0; 1; 0; 1; 0; 0; 0; 0; 0; 1; 1; 1; 1; 1]
    (ObserverWorld (new_observer "a") [] 0, [ensure_connected; ensure_connected]) in
  events "successful_orders" [completed_order] = 1%Z ∧
  alist_get "successful_orders" (ob_totals (observe (ow_observer w) completed_order)) = Some 2%Z.
Proof. vm_compute. split; reflexivity. Qed.

(** A subscription that fails leaves a connected client without subscriptions:
    its next sample succeeds and counts nothing. *)
Lemma failed_subscription_is_silent :
  let h := observer_handle (quiet_oracle (λ n, if Nat.eqb n 1 then Raise (TimeoutError "nats: timeout") else Ok tt)) in
  let '(first, w) := run h order_completed_sample (ObserverWorld (new_observer "a") [] 0) in
  let '(second, w') := run h order_completed_sample
    (ObserverWorld (observe (ow_observer w) completed_order) [completed_order] (ow_step w)) in
  first = Raise (TimeoutError "nats: timeout") ∧
  second = Ok [("observer_id", PStr "a"); ("total", PInt 0);
               ("counts", PDict ((λ nc, (nc.1, PInt nc.2)) <$> zero_totals))].
Proof. vm_compute. split; reflexivity. Qed.

(** An escaped backslash before the letter n is read as a line break. *)
Lemma escaped_backslash_misread :
  unescape (ascii_of_nat 92 :: ascii_of_nat 92 :: chars "n") = [ascii_of_nat 10].
Proof. reflexivity. Qed.
