(* ===== verification/OrderObserver.v ===== *)
(** * The workflow observer (benchmarkservice/nats_order_observer.py)

    A NATS run reports how many orders completed, were rejected or needed
    review.  The events are counted by a client in a process of its own
    (cluster_metrics.py), behind a line protocol (nats_order_observer_bridge.py)
    and its facade; the runner (runtime.py) samples the counts when the load
    starts and when it ends, and the report takes the difference
    (reporting.py).  The theorems follow a count through all of them. *)

From S2P Require Import Prelude PyFloat PyValue BenchConfig Program Reporting ClusterMetrics.

(** ** The bridge process *)

(** [sampled] is the outcome of the client's sample; the answer says whether
    the process ends.
    [nats_order_observer_bridge.py:15-36 dispatch] *)
Definition dispatch (sampled : res mapping) (request : mapping) : mapping * bool :=
  let request_id := field request "id" in
  let operation := field request "operation" in
  let failed e := [("id", request_id); ("ok", PBool false); ("error_type", PStr (exn_class e));
                   ("error", PStr (exn_str e))] in
  if py_eqb operation (PStr "sample") then
    match sampled with
    | Ok value => ([("id", request_id); ("ok", PBool true); ("value", PDict value)], false)
    | Raise e => (failed e, false)
    end
  else if py_eqb operation (PStr "close") then ([("id", request_id); ("ok", PBool true)], true)
  else (failed (ValueError ("unknown operation " +:+ py_repr operation)), false).

(** One line of input: what [json.loads] makes of it, and whether the sample is
    taken by a request.
    [nats_order_observer_bridge.py:43-55 main] *)
Definition bridge_answer (sampled : res mapping) (line : res pyval) : mapping * bool :=
  let failed e := ([("id", PNone); ("ok", PBool false); ("error_type", PStr (exn_class e));
                    ("error", PStr (exn_str e))], false) in
  match line with
  | Raise e => failed e
  | Ok (PDict request) => dispatch sampled request
  | Ok _ => failed (ValueError "request is not an object")
  end.

(** The lines until one closes; [observer.close()] follows in every case.
    [nats_order_observer_bridge.py:39-64 main] *)
Fixpoint bridge_main (lines : list (res mapping * res pyval)) : list mapping :=
  match lines with
  | [] => []
  | (sampled, line) :: lines =>
      let '(response, should_close) := bridge_answer sampled line in
      response :: if should_close then [] else bridge_main lines
  end.

(** ** The facade *)

(** What a write followed by a read of the pipes brings. *)
Inductive pipe_reply :=
  | EndOfOutput
  | Reply (line : res pyval).

(** The operations on the child process. *)
Inductive childE : Type → Type :=
  | CPoll : childE (option Z)
  | CPipes : childE bool
  | CNextId : childE Z
  | CExchange (request : pyval) : childE (res pipe_reply)
  | CTerminate : childE unit
  | CKill : childE unit
  | CCloseStdin : childE (res unit)
  | CCloseStdout : childE unit
  | CWait : childE (res Z).

Definition observer_failed (detail : string) : exn :=
  RuntimeError ("NATS completed-order observer " +:+ detail).

(** The response of the process to request [id].
    [nats_order_observer.py:54-76 _request] *)
Definition facade_response (id : Z) (reply : pipe_reply) : res mapping :=
  match reply with
  | EndOfOutput => Raise (observer_failed "closed its output")
  | Reply (Raise (JSONDecodeError _)) => Raise (observer_failed "returned invalid JSON")
  | Reply (Raise e) => Raise e
  | Reply (Ok (PDict response)) =>
      if negb (py_eqb (field response "id") (PInt id))
      then Raise (observer_failed "returned an unexpected response")
      else if negb (bool_decide (field response "ok" = PBool true))
      then Raise (observer_failed
                    ("failed: " +:+ py_str (default (PStr "unknown error") (alist_get "error" response))))
      else Ok response
  | Reply (Ok _) => Raise (observer_failed "returned an unexpected response")
  end.

(** Broken pipes are the only failures of the exchange.
    [nats_order_observer.py:32-76 _request] *)
Definition facade_request (operation : string) : prog childE mapping :=
  code ← perform CPoll;
  match code with
  | Some code => Throw (observer_failed ("exited with code " +:+ pretty code))
  | None =>
      pipes ← perform CPipes;
      if negb pipes then Throw (observer_failed "pipes are unavailable") else
      id ← perform CNextId;
      r ← prog_try (call (CExchange (PDict [("id", PInt id); ("operation", PStr operation)])));
      match r with
      | Raise _ => Throw (RuntimeError "lost NATS completed-order observer process")
      | Ok reply => lift (facade_response id reply)
      end
  end.

Definition valid_count (count : pyval) : bool :=
  match count with PInt n => (0 <=? n)%Z | _ => false end.

(** The sample a response carries.
    [nats_order_observer.py:78-109 sample] *)
Definition checked_sample (response : mapping) : res mapping :=
  let invalid := Raise (observer_failed "returned an invalid sample") in
  match field response "value" with
  | PDict value =>
      match field value "observer_id", field value "total" with
      | PStr observer_id, PInt _ =>
          let counts_ok := match field value "counts" with
            | PNone => true
            | PDict counts => forallb (λ kv, valid_count kv.2) counts
            | _ => false
            end in
          if negb (String.eqb observer_id "") && counts_ok then Ok value else invalid
      | _, _ => invalid
      end
  | _ => invalid
  end.

(** [nats_order_observer.py:78-109 sample] *)
Definition facade_sample : prog childE mapping :=
  response ← facade_request "sample"; lift (checked_sample response).

(** [subprocess.TimeoutExpired] *)
Definition expired (e : exn) : bool := String.eqb (exn_str e) "TimeoutExpired".

(** [nats_order_observer.py:111-129 close] *)
Definition facade_close : prog childE unit :=
  code ← perform CPoll;
  _ ← (match code with
       | Some _ => Ret tt
       | None =>
           r ← prog_try (facade_request "close");
           match r with Ok _ => Ret tt | Raise _ => perform CTerminate end
       end);
  _ ← call CCloseStdin;
  _ ← perform CCloseStdout;
  r ← prog_try (call CWait);
  match r with
  | Ok _ => Ret tt
  | Raise e =>
      if negb (expired e) then Throw e else
      _ ← perform CTerminate;
      r ← prog_try (call CWait);
      match r with
      | Ok _ => Ret tt
      | Raise e =>
          if negb (expired e) then Throw e else
          _ ← perform CKill;
          _ ← call CWait;
          Ret tt
      end
  end.

(** ** The runner *)

(** The samples of the runner are kept as outcomes: the error of the last one
    that failed is reported.
    The error of a first sample that failed is set in [start] (346 to 355).
    [runtime.py:370-380 ResourceSampler.stop] *)
Definition workflow_document (started ended : res mapping) : pyval :=
  let value r := match r with Ok m => PDict m | Raise _ => PNone end in
  json_dumps (PDict
    [("started", value started); ("ended", value ended);
     ("error", match ended with
               | Raise e => PStr (exn_str e)
               | Ok _ => match started with Raise e => PStr (exn_str e) | Ok _ => PNone end
               end)]).

(** ** The facade in front of the bridge

    The child process is alive; an exchange is one turn of the bridge's loop,
    in which the client takes its sample. *)
Record runner_world := RunnerWorld {
  rw_id : Z;
  rw_client : observer_world;
}.

Definition wants_sample (request : pyval) : bool :=
  match request with PDict m => py_eqb (field m "operation") (PStr "sample") | _ => false end.

Section linked.
Context (o : observer_oracle).

Definition take_sample (w : observer_world) : res mapping * observer_world :=
  run (observer_handle o) order_completed_sample w.

Definition exchange (request : pyval) (w : runner_world) : res pipe_reply * runner_world :=
  let '(sampled, client) :=
    if wants_sample request then take_sample (rw_client w) else (Ok [], rw_client w) in
  (Ok (Reply (Ok (PDict (bridge_answer sampled (Ok request)).1))), RunnerWorld (rw_id w) client).

Definition linked_handle (X : Type) (op : childE X) : runner_world → X * runner_world :=
  match op in childE X return runner_world → X * runner_world with
  | CPoll => λ w, (None, w)
  | CPipes => λ w, (true, w)
  | CNextId => λ w, ((rw_id w + 1)%Z, RunnerWorld (rw_id w + 1) (rw_client w))
  | CExchange request => exchange request
  | CTerminate => λ w, (tt, w)
  | CKill => λ w, (tt, w)
  | CCloseStdin => λ w, (Ok tt, w)
  | CCloseStdout => λ w, (tt, w)
  | CWait => λ w, (Ok 0%Z, w)
  end.

Definition sample_request (id : Z) : mapping := [("id", PInt id); ("operation", PStr "sample")].

Lemma run_exchange id w :
  exchange (PDict (sample_request id)) w =
    let '(sampled, client) := take_sample (rw_client w) in
    (Ok (Reply (Ok (PDict (dispatch sampled (sample_request id)).1))), RunnerWorld (rw_id w) client).
Proof. done. Qed.

Lemma run_facade_request n w :
  run linked_handle (facade_request "sample") (RunnerWorld n w) =
    let '(sampled, w') := take_sample w in
    (facade_response (n + 1) (Reply (Ok (PDict (dispatch sampled (sample_request (n + 1))).1))),
     RunnerWorld (n + 1) w').
Proof.
  unfold facade_request. rewrite run_bind. cbn [run perform linked_handle].
  rewrite run_bind. cbn [run perform linked_handle negb]. rewrite run_bind. cbn [run perform linked_handle rw_id rw_client].
  rewrite run_bind, run_try, run_call. cbn [linked_handle]. rewrite (run_exchange (n + 1)). cbn [rw_client rw_id].
  destruct (take_sample w) as [sampled w']. cbn [run]. by rewrite run_lift.
Qed.

(** A sample through the pipes is the client's, checked, or its failure. *)
Lemma run_facade_sample n w :
  run linked_handle facade_sample (RunnerWorld n w) =
    let '(sampled, w') := take_sample w in
    (match sampled with
     | Ok m => checked_sample [("id", PInt (n + 1)); ("ok", PBool true); ("value", PDict m)]
     | Raise e => Raise (observer_failed ("failed: " +:+ exn_str e))
     end, RunnerWorld (n + 1) w').
Proof.
  unfold facade_sample. rewrite run_bind, run_facade_request.
  destruct (take_sample w) as [[m|e] w']; cbn [dispatch sample_request field facade_response].
  - unfold facade_response. change (py_eqb (field (dispatch (Ok m) (sample_request (n + 1))).1 "id") (PInt (n + 1)))
      with (n + 1 =? n + 1)%Z. rewrite Z.eqb_refl. cbn [negb].
    change (field (dispatch (Ok m) (sample_request (n + 1))).1 "ok") with (PBool true).
    rewrite bool_decide_eq_true_2 by done. cbn [negb]. by rewrite run_lift.
  - unfold facade_response.
    change (py_eqb (field (dispatch (Raise e) (sample_request (n + 1))).1 "id") (PInt (n + 1)))
      with (n + 1 =? n + 1)%Z. rewrite Z.eqb_refl. cbn [negb].
    change (field (dispatch (Raise e) (sample_request (n + 1))).1 "ok") with (PBool false).
    rewrite bool_decide_eq_false_2 by done. done.
Qed.
End linked.

(** ** The client's states *)

(** Four counters, always the same. *)
Definition counted (o : observer) : Prop := (ob_totals o).*1 = counter_names.

Lemma bump_keys m name : name ∈ m.*1 → (bump m name).*1 = m.*1.
Proof.
  unfold bump. generalize (default 0%Z (alist_get name m) + 1)%Z. intros z.
  induction m as [|[k v] m IH]; [by intros ?%not_elem_of_nil|]. cbn. destruct (decide (name = k)) as [->|Hne]; [done|].
  intros [?|Hin]%elem_of_cons; [done|]. cbn. f_equal. by apply IH.
Qed.

Lemma observe_counted o e : counted o → counted (observe o e).
Proof.
  unfold counted. destruct e as [subject|id|message]; [|done|done]. cbn [observe ob_totals]. intros Hc.
  assert (Forall (λ name, name ∈ counter_names) (counters_of o subject)) as Hall.
  { apply Forall_forall. intros name [Hget _]%list_elem_of_filter. apply alist_get_Some_elem in Hget.
    by apply (list_elem_of_fmap_2 fst) in Hget. }
  revert Hc. generalize (ob_totals o). induction Hall as [|name names Hname Hall IH]; intros m Hm; [done|].
  cbn [foldl]. apply IH. rewrite bump_keys; [done|]. by rewrite Hm.
Qed.

Lemma observe_all_counted l o : counted o → counted (foldl observe o l).
Proof. revert o. induction l as [|e l IH]; intros o Ho; [done|]. by apply IH, observe_counted. Qed.

Lemma observe_connection o l :
  ob_connected (foldl observe o l) = ob_connected o ∧ ob_subscribed (foldl observe o l) = ob_subscribed o.
Proof.
  revert o. induction l as [|e l IH]; intros o; [done|]. cbn [foldl]. destruct (IH (observe o e)) as [-> ->].
  by destruct e.
Qed.

(** A client that has not connected yet, and one that samples. *)
Definition unconnected (o : observer) : Prop :=
  ob_connected o = false ∧ ob_subscribed o = [] ∧ counted o.
Definition sampling (o : observer) : Prop := complete o ∧ counted o.

Lemma waited_spec o {X} (answer : nat → X) (after : X → observer → observer) w x w' :
  waited o answer after w = (x, w') →
  ∃ seen, ow_seen w' = ow_seen w ++ seen ∧ ow_observer w' = after x (foldl observe (ow_observer w) seen).
Proof. intros [= <- <-]. by eexists. Qed.

(** Subscribing adds the counters and leaves the rest to the callbacks. *)
Lemma run_subscribe_all o subjects w r w' :
  run (observer_handle o) (subscribe_all subjects) w = (r, w') → counted (ow_observer w) →
  counted (ow_observer w') ∧ ob_connected (ow_observer w') = ob_connected (ow_observer w) ∧
  ∃ seen, ow_seen w' = ow_seen w ++ seen ∧
  (r = Ok tt → ob_subscribed (ow_observer w') = ob_subscribed (ow_observer w) ++ subjects.*1).
Proof.
  revert w. induction subjects as [|[name subject] subjects IH]; intros w.
  { intros [= <- <-] Hc. split_and!; [done|done|]. exists []. by rewrite !app_nil_r. }
  cbn [subscribe_all]. rewrite run_bind, run_call. cbn [observer_handle].
  destruct (waited o (oo_subscribe o) _ w) as [x w1] eqn:Hw. intros Hrun Hc.
  apply waited_spec in Hw as (seen & Hseen & Hob).
  destruct (observe_connection (ow_observer w) seen) as [Hconn Hsub].
  pose proof (observe_all_counted seen _ Hc) as Hc1.
  destruct x as [[]|e]; cbn [when_ok] in Hob.
  - apply IH in Hrun as (Hc2 & Hconn2 & seen2 & Hseen2 & Hok); [|by rewrite Hob].
    rewrite Hob in Hconn2, Hok. cbn in Hconn2, Hok.
    split_and!; [done|by rewrite Hconn2|]. exists (seen ++ seen2). rewrite Hseen2, Hseen, app_assoc. split; [done|].
    intros Hr. rewrite Hok, Hsub by done. by rewrite <- app_assoc.
  - injection Hrun as <- <-. rewrite Hob. split_and!; [done|done|]. by exists seen.
Qed.

(** A sample by a client alone: it reports the current identity and counts. *)
Definition sample_of (ob : observer) : mapping :=
  [("observer_id", PStr (ob_id ob));
   ("total", default (PInt 0) (alist_get "successful_orders" ((λ nc, (nc.1, PInt nc.2)) <$> ob_totals ob)));
   ("counts", PDict ((λ nc, (nc.1, PInt nc.2)) <$> ob_totals ob))].

Lemma run_ensure_connected o w r w' :
  run (observer_handle o) ensure_connected w = (r, w') →
  unconnected (ow_observer w) ∨ sampling (ow_observer w) →
  r = Ok tt → sampling (ow_observer w') ∧ (sampling (ow_observer w) → w' = w).
Proof.
  unfold ensure_connected. rewrite run_bind. cbn [perform run observer_handle].
  intros Hrun [(Hconn & Hsub & Hc)|[[Hconn Hsub] Hc]] Hr; rewrite Hconn in Hrun.
  2: { injection Hrun as <- <-. split; [|done]. repeat split; done. }
  split; [|intros [[? _] _]; congruence].
  rewrite run_bind, run_call in Hrun. cbn [observer_handle] in Hrun.
  destruct (waited o (oo_connect o) _ w) as [x w1] eqn:Hw. apply waited_spec in Hw as (seen & _ & Hob).
  destruct (observe_connection (ow_observer w) seen) as [_ Hsub1].
  pose proof (observe_all_counted seen _ Hc) as Hc1.
  destruct x as [[]|e]; [|injection Hrun as <- _; done]. cbn [when_ok] in Hob.
  rewrite run_bind in Hrun. destruct (run _ (subscribe_all _) w1) as [r2 w2] eqn:Hrun2.
  apply run_subscribe_all in Hrun2 as (Hc2 & Hconn2 & _ & _ & Hok); [|by rewrite Hob].
  destruct r2 as [[]|e]; [|injection Hrun as <- _; done].
  rewrite run_call in Hrun. cbn [observer_handle] in Hrun.
  destruct (waited o (oo_flush o) _ w2) as [y w3] eqn:Hw. apply waited_spec in Hw as (seen3 & _ & Hob3).
  injection Hrun as _ <-. rewrite Hob3. destruct (observe_connection (ow_observer w2) seen3) as [Hconn3 Hsub3].
  split; [split|].
  - rewrite Hconn3, Hconn2, Hob. done.
  - rewrite Hsub3, Hok, Hob by done. cbn. by rewrite Hsub1, Hsub.
  - by apply observe_all_counted.
Qed.

Lemma run_order_completed_sample o w m w' :
  run (observer_handle o) order_completed_sample w = (Ok m, w') →
  unconnected (ow_observer w) ∨ sampling (ow_observer w) →
  sampling (ow_observer w') ∧ m = sample_of (ow_observer w') ∧
  (sampling (ow_observer w) → ∃ seen, ow_seen w' = ow_seen w ++ seen ∧
     ow_observer w' = foldl observe (ow_observer w) seen).
Proof.
  unfold order_completed_sample. rewrite run_bind. intros Hrun Hw.
  destruct (run _ ensure_connected w) as [r w1] eqn:He. destruct r as [[]|e]; [|done].
  apply run_ensure_connected in He as [[Hcomp Hc] Hsame]; [|done|done].
  rewrite run_bind, run_call in Hrun. cbn [observer_handle] in Hrun.
  destruct (waited o (oo_flush o) _ w1) as [x w2] eqn:Hwait. apply waited_spec in Hwait as (seen & Hseen & Hob).
  destruct x as [[]|e]; [|done]. rewrite run_bind in Hrun. cbn [perform run observer_handle] in Hrun.
  assert (sampling (ow_observer w2)) as Hs.
  { rewrite Hob. split; [by apply observe_complete|by apply observe_all_counted]. }
  destruct (ob_error (ow_observer w2)); [done|]. rewrite run_bind, run_lift in Hrun.
  unfold py_item in Hrun. unfold sample_of.
  destruct (alist_get "successful_orders" _) as [total|] eqn:Htotal; [|done].
  injection Hrun as <- <-. rewrite Htotal. split_and!; [done|done|].
  intros Hsampling. rewrite (Hsame Hsampling) in *. by exists seen.
Qed.

Lemma counted_totals ob :
  counted ob → ∃ a b c d, ob_totals ob =
    [("successful_orders", a); ("shipments_rejected", b); ("payment_authorizations_released", c);
     ("orders_in_manual_review", d)].
Proof.
  unfold counted. destruct (ob_totals ob) as [|[k1 a] [|[k2 b] [|[k3 c] [|[k4 d] [|]]]]]; try done.
  intros [= -> -> -> ->]. by exists a, b, c, d.
Qed.

(** The report of two samples. *)
Definition reported (document : pyval) : mapping :=
  match document with PDict doc => workflow_event_summary doc | _ => [] end.

Lemma reported_samples id1 id2 a b c d a' b' c' d' e1 e2 e3 :
  let totals a b c d := [("successful_orders", a); ("shipments_rejected", b);
                         ("payment_authorizations_released", c); ("orders_in_manual_review", d)]%Z in
  reported (workflow_document (Ok (sample_of (Observer id1 (totals a b c d) e1 true e2)))
              (Ok (sample_of (Observer id2 (totals a' b' c' d') e1 true e3)))) =
    if String.eqb id1 "" || negb (String.eqb id1 id2)
    then unavailable "workflow event observer lost continuity"
    else match counter_changes workflow_counters
                 ((λ nc, (nc.1, PInt nc.2)) <$> totals a b c d)
                 ((λ nc, (nc.1, PInt nc.2)) <$> totals a' b' c' d') with
         | inl counts => ("available", PBool true) :: counts
         | inr name => unavailable ("invalid workflow event counter " +:+ name)
         end.
Proof. reflexivity. Qed.

Lemma checked_sample_ok n m v :
  checked_sample [("id", PInt n); ("ok", PBool true); ("value", PDict m)] = Ok v →
  v = m ∧ ∀ id, field m "observer_id" = PStr id → String.eqb id "" = false.
Proof.
  unfold checked_sample. change (field _ "value") with (PDict m). cbn match.
  destruct (field m "observer_id") as [| | | |id| |]; try done. destruct (field m "total"); try done.
  destruct (String.eqb id "") eqn:Hid; [done|]. cbn [negb andb].
  match goal with |- context [if ?b then _ else _] => destruct b end; [|done].
  intros [= <-]. split; [done|]. by intros ? [= <-].
Qed.

Lemma checked_sample_raises response e :
  checked_sample response = Raise e → e = observer_failed "returned an invalid sample".
Proof. unfold checked_sample. intros H. repeat case_match; simplify_eq; done. Qed.

Lemma run_facade_sample_raises o n w e w' :
  run (linked_handle o) facade_sample (RunnerWorld n w) = (Raise e, w') → exn_str e ≠ "".
Proof.
  rewrite run_facade_sample. destruct (take_sample o w) as [[m|e'] w1]; intros H; injection H as He _.
  - apply checked_sample_raises in He as ->. done.
  - by subst e.
Qed.

(** Deliver what arrives between two samples. *)
Definition deliver (l : list observation) (w : observer_world) : observer_world :=
  ObserverWorld (foldl observe (ow_observer w) l) (ow_seen w ++ l) (ow_step w).

Lemma last_in_identities o l :
  existsb is_disconnection l = true → ob_id (foldl observe o l) ∈ identities l.
Proof.
  intros Hl. rewrite observe_id. destruct (last (identities l)) as [id|] eqn:Hlast.
  { apply last_Some_elem_of in Hlast. done. }
  apply last_None in Hlast. exfalso. revert Hl Hlast. clear. induction l as [|e l IH]; [done|].
  destruct e as [s|id|msg]; cbn; [apply IH|done|apply IH].
Qed.

Lemma counter_changes_exact ob ob' seen names :
  (∀ name, name ∈ names → ∃ base, counts_from ob name base ∧ counts_from ob' name (base + events name seen)) →
  counter_changes names ((λ nc, (nc.1, PInt nc.2)) <$> ob_totals ob) ((λ nc, (nc.1, PInt nc.2)) <$> ob_totals ob')
  = inl ((λ name, (name, PInt (events name seen))) <$> names).
Proof.
  intros Hnames. assert (∀ m k, alist_get k ((λ nc : string * Z, (nc.1, PInt nc.2)) <$> m) = PInt <$> alist_get k m) as Hget.
  { intros m k. induction m as [|[k' z] m IH]; [done|]. cbn. by case_decide. }
  induction names as [|name names IH]; [done|]. cbn [counter_changes].
  destruct (Hnames name) as (base & Hb & Hb'); [left|]. unfold field. rewrite !Hget, Hb, Hb'. cbn.
  rewrite (proj2 (Z.ltb_ge _ _)) by (unfold events; lia).
  rewrite IH by (intros; apply Hnames; by right). do 3 f_equal. f_equal. lia.
Qed.

(** A failed last sample is reported, whatever the first one brought. *)
Lemma reported_error started e :
  exn_str e ≠ "" → reported (workflow_document (Ok started) (Raise e)) = unavailable (exn_str e).
Proof.
  intros He. set (fields := [("started", PDict started); ("ended", PNone); ("error", PStr (exn_str e))]).
  destruct (json_sorted_lookup fields) as (d & Hd & _ & Hget).
  { apply (bool_decide_unpack _). vm_compute. exact I. }
  unfold workflow_document, json_dumps. fold fields. rewrite Hd. cbn [reported]. unfold workflow_event_summary.
  assert (field d "error" = PStr (exn_str e)) as -> by (unfold field; by rewrite Hget).
  cbn [py_truth]. by apply String.eqb_neq in He as ->.
Qed.

(** C25: The workflow counts of a report are exact.  The runner samples the
    observer when the load starts and when it ends, through the facade, the
    bridge and the report's file.  Whatever the client sees in between, the
    report gives for each counter the number of events of its subject that
    arrived between the two samples; if the connection was lost in between, so
    that events may be missing, it gives no counts, and if the last sample
    failed it says why. *)
Theorem workflow_counts_exact o n w started n1 w1 between r w2 :
  unconnected (ow_observer w) ∨ sampling (ow_observer w) →
  run (linked_handle o) facade_sample (RunnerWorld n w) = (Ok started, RunnerWorld n1 w1) →
  run (linked_handle o) facade_sample (RunnerWorld n1 (deliver between w1)) = (r, w2) →
  let seen := drop (length (ow_seen w1)) (ow_seen (rw_client w2)) in
  NoDup (ob_id (ow_observer w1) :: identities seen) →
  reported (workflow_document (Ok started) r) =
    match r with
    | Ok _ =>
        if existsb is_disconnection seen
        then unavailable "workflow event observer lost continuity"
        else ("available", PBool true) :: ((λ name, (name, PInt (events name seen))) <$> workflow_counters)
    | Raise e => unavailable (exn_str e)
    end.
Proof.
  intros Hw Hfirst Hsecond seen Hids. destruct r as [ended|e].
  2: { apply run_facade_sample_raises in Hsecond. by apply reported_error. }
  rewrite run_facade_sample in Hfirst, Hsecond.
  destruct (take_sample o w) as [[m1|] w1'] eqn:H1; [|done]. injection Hfirst as Hm1 <- <-.
  destruct (take_sample o (deliver between w1')) as [[m2|] w2'] eqn:H2; [|done]. injection Hsecond as Hm2 <-.
  apply run_order_completed_sample in H1 as ([Hcomp Hc] & -> & _); [|done].
  assert (sampling (ow_observer (deliver between w1'))) as Hs.
  { split; [by apply observe_complete|by apply observe_all_counted]. }
  apply run_order_completed_sample in H2 as ([_ Hc2] & -> & Hsame); [|by right].
  destruct (Hsame Hs) as (later & Hlater & Hob). cbn [deliver ow_seen ow_observer] in Hlater, Hob.
  rewrite <- foldl_app in Hob. cbn [rw_client] in *.
  assert (seen = between ++ later) as Hseen.
  { unfold seen. rewrite Hlater, <- app_assoc. by rewrite drop_app_length. }
  rewrite <- Hseen in Hob. clearbody seen. clear Hseen Hlater Hsame Hs later between.
  apply checked_sample_ok in Hm1 as [-> Hid1], Hm2 as [-> _]. specialize (Hid1 _ eq_refl).
  pose proof (counted_totals _ Hc) as (a & b & c & d & Ht). pose proof (counted_totals _ Hc2) as (a' & b' & c' & d' & Ht').
  pose proof (reported_samples (ob_id (ow_observer w1')) (ob_id (ow_observer w2')) a b c d a' b' c' d' None [] []) as Hrep.
  cbn zeta in Hrep. unfold sample_of in Hrep |- *. cbn [ob_id ob_totals] in Hrep. rewrite <- Ht, <- Ht' in Hrep.
  rewrite Hrep, Hid1. cbn [orb]. destruct (existsb is_disconnection seen) eqn:Hdisc.
  - assert (String.eqb (ob_id (ow_observer w1')) (ob_id (ow_observer w2')) = false) as ->; [|done].
    apply String.eqb_neq. intros Heq. apply NoDup_cons in Hids as [Hnew _]. apply Hnew.
    rewrite Heq, Hob. by apply last_in_identities.
  - assert (ob_id (ow_observer w2') = ob_id (ow_observer w1')) as ->.
    { rewrite Hob, observe_id. assert (identities seen = []) as ->; [|done].
      clear -Hdisc. induction seen as [|e seen IH]; [done|]. cbn in Hdisc. apply orb_false_iff in Hdisc as [He Hs].
      destruct e; [|done|]; cbn; by apply IH. }
    rewrite String.eqb_refl. cbn [negb]. rewrite (counter_changes_exact _ _ seen); [done|].
    intros name Hname. destruct (alist_get name (ob_totals (ow_observer w1'))) as [base|] eqn:Hbase.
    + exists base. split; [done|]. rewrite Hob. by apply observe_counts.
    + apply alist_get_None in Hbase. unfold counted in Hc. rewrite Hc in Hbase. exfalso. by apply Hbase.
Qed.

(** A run with an order before the load and three events during it. *)
Definition sample_oracle : observer_oracle :=
  ObserverOracle (λ _, Ok tt) (λ _, Ok tt) (λ _, Ok tt)
    (λ n, if Nat.eqb n 6 then [EventSeen "boutique.evt.order.completed.v1"]
          else if Nat.eqb n 7 then [EventSeen "boutique.evt.shipping.shipment-creation-failed.v1";
                                    EventSeen "boutique.evt.order.completed.v1"] else []).
Definition sample_start : observer_world := ObserverWorld (new_observer "a") [] 0.
Definition first_sample : res mapping * runner_world :=
  run (linked_handle sample_oracle) facade_sample (RunnerWorld 0 sample_start).
Definition first_world : observer_world := rw_client first_sample.2.
Definition first_value : mapping := match first_sample.1 with Ok m => m | Raise _ => [] end.
Definition arrivals : list observation := [EventSeen "boutique.evt.order.completed.v1"].
Definition second_sample : res mapping * runner_world :=
  run (linked_handle sample_oracle) facade_sample (RunnerWorld 1 (deliver arrivals first_world)).

Lemma workflow_counts_exact_witness :
  reported (workflow_document (Ok first_value) second_sample.1) =
    [("available", PBool true); ("successful_orders", PInt 2); ("shipments_rejected", PInt 1);
     ("payment_authorizations_released", PInt 0); ("orders_in_manual_review", PInt 0)].
Proof.
  pose proof (workflow_counts_exact sample_oracle 0 sample_start first_value 1 first_world arrivals
                second_sample.1 second_sample.2) as H.
  cbn zeta in H. rewrite H.
  - vm_compute. reflexivity.
  - left. repeat split.
  - vm_compute. reflexivity.
  - vm_compute. reflexivity.
  - apply (bool_decide_unpack _). vm_compute. exact I.
Defined.
