(* ===== verification/FaultTolerance.v ===== *)
(** * Fault injection (benchmarkservice/fault_tolerance.py)

    A fault-tolerance run scales two deployments to zero and back while load
    is offered.  The controller must leave the cluster as it found it, however
    the run ends.  The cluster and kubectl are outside the repository:
    [Cluster] is what a kubectl command does to it, with the documented
    behaviour of the three commands the controller uses. *)

From S2P Require Import Prelude PyFloat PyValue Program BenchConfig.

(** ** The plan *)

(** [fault_tolerance.py:27-33 Fault] *)
Record injected := Injected {
  f_service : string;
  f_deployment : string;
  f_disable_at : Z;
  f_enable_at : Z;
  f_replicas : Z;
}.

(** [fault_tolerance.py:36-48 FaultPlan] *)
Record fault_plan := FaultPlan {
  p_namespace : string;
  p_context : option string;
  p_startup_time : Z;
  p_disable_paymentservice_time : Z;
  p_between_disable_time : Z;
  p_disable_shippingservice_time : Z;
  p_recovery_time : Z;
  p_stable_seconds : Z;
  p_success_fraction : pyfloat;
  p_pending_tolerance : Z;
  p_faults : list injected;
}.

(** [fault_tolerance.py:50-58 FaultPlan.duration_seconds] *)
Definition plan_duration (p : fault_plan) : Z :=
  (p_startup_time p + p_disable_paymentservice_time p + p_between_disable_time p
   + p_disable_shippingservice_time p + p_recovery_time p)%Z.

Definition fault_dict (f : injected) : pyval :=
  PDict [("service", PStr (f_service f)); ("deployment", PStr (f_deployment f));
         ("disable_at_seconds", PInt (f_disable_at f)); ("enable_at_seconds", PInt (f_enable_at f));
         ("original_replicas", PInt (f_replicas f))].

(** [fault_tolerance.py:60-66 FaultPlan.as_dict] *)
Definition plan_dict (p : fault_plan) (start_epoch : pyfloat) : pyval :=
  PDict [("schema_version", PInt 1); ("start_epoch", PFloat start_epoch);
         ("duration_seconds", PInt (plan_duration p));
         ("namespace", PStr (p_namespace p));
         ("context", match p_context p with Some c => PStr c | None => PNone end);
         ("startup_time", PInt (p_startup_time p));
         ("disable_paymentservice_time", PInt (p_disable_paymentservice_time p));
         ("between_disable_time", PInt (p_between_disable_time p));
         ("disable_shippingservice_time", PInt (p_disable_shippingservice_time p));
         ("recovery_time", PInt (p_recovery_time p));
         ("convergence_stable_seconds", PInt (p_stable_seconds p));
         ("convergence_success_fraction", PFloat (p_success_fraction p));
         ("convergence_pending_tolerance", PInt (p_pending_tolerance p));
         ("faults", PList (fault_dict <$> p_faults p))].

(** ** Environment

    [FDown*] are the operations of the controller's own dictionary of
    deployments it has scaled down, which outlives an exception. *)
Inductive completion :=
  | Completed (stdout : string)
  | ExecutableMissing
  | Expired
  | Exited (stderr stdout : string).

Inductive faultE : Type → Type :=
  | FRun (command : list string) : faultE completion
  | FTime : faultE pyfloat
  | FUtcNow : faultE string
  | FStopWait (seconds : pyfloat) : faultE bool
  | FWritePlan (value : pyval) : faultE (res unit)
  | FOpenEvents : faultE (res unit)
  | FAppend (value : pyval) : faultE (res unit)
  | FDownSet (f : injected) : faultE unit
  | FDownPop (deployment : string) : faultE unit
  | FDownAll : faultE (list injected).

(** ** kubectl *)

(** [fault_tolerance.py:69-80 Kubectl] *)
Record kubectl := Kubectl {
  kc_namespace : string;
  kc_context : option string;
  kc_executable : string;
  kc_timeout_seconds : Z;
}.

Definition opt_string_truth (s : option string) : bool :=
  match s with Some s => negb (String.eqb s "") | None => false end.

(** [fault_tolerance.py:82-87 Kubectl._command] *)
Definition command (k : kubectl) (arguments : list string) : list string :=
  [kc_executable k] ++
  (if opt_string_truth (kc_context k) then ["--context"; default "" (kc_context k)] else []) ++
  ["--namespace"; kc_namespace k] ++ arguments.

(** [fault_tolerance.py:89-113 Kubectl._run] *)
Definition kubectl_run (k : kubectl) (arguments : list string) : prog faultE string :=
  let command := command k arguments in
  r ← perform (FRun command);
  match r with
  | Completed stdout => Ret (str_strip stdout)
  | ExecutableMissing => Throw (RuntimeError
      ("kubectl executable " +:+ str_repr (kc_executable k) +:+ " was not found"))
  | Expired => Throw (RuntimeError ("kubectl timed out after " +:+ pretty (kc_timeout_seconds k)
      +:+ "s: " +:+ str_join " " command))
  | Exited stderr stdout =>
      let detail := str_strip (if String.eqb stderr "" then stdout else stderr) in
      Throw (RuntimeError ("kubectl failed (" +:+ str_join " " command +:+ "): " +:+ detail))
  end.

Definition get_arguments (deployment : string) : list string :=
  ["get"; "deployment"; deployment; "--output"; "jsonpath={.spec.replicas}"].

(** [int(raw or "1")] with its checks.
    [fault_tolerance.py:123-134 Kubectl.replicas] *)
Definition read_replicas (deployment raw : string) : res Z :=
  match int_of_str (if String.eqb raw "" then "1" else raw) with
  | Raise (ValueError _) => Raise (RuntimeError ("deployment/" +:+ deployment
      +:+ " returned invalid replicas " +:+ str_repr raw))
  | Raise e => Raise e
  | Ok replicas =>
      if (replicas <? 1)%Z
      then Raise (RuntimeError ("deployment/" +:+ deployment
             +:+ " must have at least one replica before the benchmark"))
      else Ok replicas
  end.

(** [fault_tolerance.py:115-134 Kubectl.replicas] *)
Definition kubectl_replicas (k : kubectl) (deployment : string) : prog faultE Z :=
  raw ← kubectl_run k (get_arguments deployment);
  lift (read_replicas deployment raw).

Definition can_i_arguments (deployment : string) : list string :=
  ["auth"; "can-i"; "update"; "deployment/" +:+ deployment; "--subresource=scale"].

(** [fault_tolerance.py:136-148 Kubectl.ensure_scalable] *)
Definition ensure_scalable (k : kubectl) (deployment : string) : prog faultE unit :=
  allowed ← kubectl_run k (can_i_arguments deployment);
  if String.eqb (str_lower (str_strip allowed)) "yes" then Ret tt
  else Throw (RuntimeError ("kubectl user cannot scale deployment/" +:+ deployment
         +:+ " in namespace " +:+ kc_namespace k)).

Definition scale_arguments (deployment : string) (replicas : Z) : list string :=
  ["scale"; "deployment"; deployment; "--replicas=" +:+ pretty replicas].

(** [fault_tolerance.py:150-156 Kubectl.scale] *)
Definition kubectl_scale (k : kubectl) (deployment : string) (replicas : Z) : prog faultE unit :=
  _ ← kubectl_run k (scale_arguments deployment replicas); Ret tt.

(** ** The controller *)

Section controller.
Context (k : kubectl) (polls : nat) (start_epoch : pyfloat).

(** [polls] bounds the waiting; [wait_until_returns] gives the number that
    makes it immaterial.
    [fault_tolerance.py:172-181 FaultController._wait_until] *)
Fixpoint wait_until (n : nat) (deadline_epoch : pyfloat) : prog faultE unit :=
  match n with
  | 0 => Throw (TimeoutError "")
  | S n =>
      now ← perform FTime;
      let remaining := fsub deadline_epoch now in
      if fleb remaining (float_dec 0 0) then Ret tt
      else
        stopped ← perform (FStopWait (f_min remaining (float_dec 5 (-1))));
        if (stopped : bool) then Throw (InterruptedError "fault-tolerance run was interrupted")
        else wait_until n deadline_epoch
  end.

(** [start_epoch + seconds] *)
Definition wait_for_second (seconds : Z) : prog faultE unit :=
  s ← lift (float_of_Z seconds); wait_until polls (fadd start_epoch s).

(** [fault_tolerance.py:198-218 FaultController.__call__.record] *)
Definition record (f : injected) (action : string) (details : list (string * pyval)) : prog faultE unit :=
  timestamp ← perform FTime;
  at_ ← perform FUtcNow;
  call (FAppend (json_dumps (PDict (dict_update
    [("timestamp", PFloat timestamp); ("at", PStr at_);
     ("elapsed_seconds", PFloat (f_round (f_max (float_dec 0 0) (fsub timestamp start_epoch)) 6));
     ("service", PStr (f_service f)); ("deployment", PStr (f_deployment f));
     ("action", PStr action); ("original_replicas", PInt (f_replicas f))] details)))).

(** One fault of the schedule.
    [fault_tolerance.py:221-253 FaultController.__call__] *)
Definition inject (f : injected) : prog faultE unit :=
  _ ← wait_for_second (f_disable_at f);
  _ ← record f "scale_down_started" [("planned_elapsed_seconds", PInt (f_disable_at f))];
  _ ← perform (FDownSet f);
  _ ← kubectl_scale k (f_deployment f) 0;
  _ ← record f "disabled" [("replicas", PInt 0)];
  _ ← wait_for_second (f_enable_at f);
  _ ← record f "scale_up_started" [("planned_elapsed_seconds", PInt (f_enable_at f))];
  _ ← kubectl_scale k (f_deployment f) (f_replicas f);
  _ ← perform (FDownPop (f_deployment f));
  record f "reenabled" [("replicas", PInt (f_replicas f))].

Fixpoint inject_all (faults : list injected) : prog faultE unit :=
  match faults with
  | [] => Ret tt
  | f :: faults => _ ← inject f; inject_all faults
  end.

(** [fault_tolerance.py:220-258 FaultController.__call__] *)
Definition schedule (p : fault_plan) : prog faultE unit :=
  _ ← inject_all (p_faults p);
  wait_for_second (plan_duration p).

(** The restoration, collecting the errors.
    [fault_tolerance.py:260-275 FaultController.__call__] *)
Fixpoint restore (faults : list injected) (errors : list string) : prog faultE (list string) :=
  match faults with
  | [] => Ret errors
  | f :: faults =>
      r ← prog_try (
        _ ← kubectl_scale k (f_deployment f) (f_replicas f);
        record f "restored" [("replicas", PInt (f_replicas f))]);
      match r with
      | Ok _ => restore faults errors
      | Raise error =>
          _ ← record f "restore_failed" [("error", PStr (exn_str error))];
          restore faults (errors ++ ["deployment/" +:+ f_deployment f +:+ ": " +:+ exn_str error])
      end
  end.

(** The [finally] clause.
    [fault_tolerance.py:259-280 FaultController.__call__] *)
Definition restore_all : prog faultE unit :=
  down ← perform FDownAll;
  errors ← restore (reverse down) [];
  match errors with
  | [] => Ret tt
  | _ => Throw (RuntimeError ("could not restore scaled deployments: " +:+ str_join "; " errors))
  end.

(** [fault_tolerance.py:183-280 FaultController.__call__] *)
Definition control (p : fault_plan) : prog faultE unit :=
  _ ← call (FWritePlan (plan_dict p start_epoch));
  _ ← call FOpenEvents;
  r ← prog_try (schedule p);
  _ ← restore_all;
  lift r.
End controller.

(** ** Building the plan *)

(** The parsed command line, with the defaults of [parser].
    [fault_tolerance.py:283-344 parser] *)
Record arguments := Arguments {
  a_target_url : string;
  a_metrics_url : string;
  a_application_type : string;
  a_arrival_rate : pyfloat;
  a_drain_seconds : Z;
  a_outcome_timeout_seconds : pyfloat;
  a_settlement_timeout_seconds : pyfloat;
  a_seed : Z;
  a_startup_time : Z;
  a_disable_paymentservice_time : Z;
  a_between_disable_time : Z;
  a_disable_shippingservice_time : Z;
  a_recovery_time : Z;
  a_namespace : string;
  a_context : option string;
  a_payment_deployment : string;
  a_shipping_deployment : string;
  a_kubectl : string;
  a_kubectl_timeout_seconds : Z;
  a_stable_seconds : Z;
  a_success_fraction : pyfloat;
  a_pending_tolerance : Z;
}.

(** [fault_tolerance.py:285-343 parser] *)
Definition default_arguments (target_url metrics_url application_type : string) : arguments :=
  Arguments target_url metrics_url application_type (float_dec 1 0) 60 (float_dec 30 0) (float_dec 60 0) 1
    30 30 30 30 60 "default" None "paymentservice" "shippingservice" "kubectl" 30 3 (float_dec 9 (-1)) 0.

(** The checks before the cluster is asked.
    [fault_tolerance.py:348-377 plan_from_args] *)
Definition check_arguments (a : arguments) : res unit :=
  let at_least_one field v := raise_if (v <? 1)%Z (ConfigError (field +:+ " must be at least 1 second")) in
  _ ← at_least_one "startup_time" (a_startup_time a);
  _ ← at_least_one "disable_paymentservice_time" (a_disable_paymentservice_time a);
  _ ← at_least_one "between_disable_time" (a_between_disable_time a);
  _ ← at_least_one "disable_shippingservice_time" (a_disable_shippingservice_time a);
  _ ← at_least_one "recovery_time" (a_recovery_time a);
  _ ← raise_if (a_stable_seconds a <? 1)%Z (ConfigError "convergence_stable_seconds must be at least 1");
  _ ← raise_if (a_recovery_time a <? a_stable_seconds a)%Z
        (ConfigError "recovery_time must be at least convergence_stable_seconds");
  _ ← raise_if (negb (fltb (float_dec 0 0) (a_success_fraction a) && fleb (a_success_fraction a) (float_dec 1 0)))
        (ConfigError "convergence_success_fraction must be greater than 0 and no more than 1");
  _ ← raise_if (a_pending_tolerance a <? 0)%Z
        (ConfigError "convergence_pending_tolerance must not be negative");
  raise_if (String.eqb (a_payment_deployment a) (a_shipping_deployment a))
    (ConfigError "payment_deployment and shipping_deployment must be different").

(** [fault_tolerance.py:383-421 plan_from_args] *)
Definition build_plan (a : arguments) (payment_replicas shipping_replicas : Z) : fault_plan :=
  let payment_down := a_startup_time a in
  let payment_up := (payment_down + a_disable_paymentservice_time a)%Z in
  let shipping_down := (payment_up + a_between_disable_time a)%Z in
  let shipping_up := (shipping_down + a_disable_shippingservice_time a)%Z in
  FaultPlan (a_namespace a) (a_context a) (a_startup_time a) (a_disable_paymentservice_time a)
    (a_between_disable_time a) (a_disable_shippingservice_time a) (a_recovery_time a)
    (a_stable_seconds a) (a_success_fraction a) (a_pending_tolerance a)
    [Injected "paymentservice" (a_payment_deployment a) payment_down payment_up payment_replicas;
     Injected "shippingservice" (a_shipping_deployment a) shipping_down shipping_up shipping_replicas].

(** [fault_tolerance.py:347-421 plan_from_args] *)
Definition plan_from_args (a : arguments) (k : kubectl) : prog faultE fault_plan :=
  _ ← lift (check_arguments a);
  _ ← ensure_scalable k (a_payment_deployment a);
  _ ← ensure_scalable k (a_shipping_deployment a);
  payment_replicas ← kubectl_replicas k (a_payment_deployment a);
  shipping_replicas ← kubectl_replicas k (a_shipping_deployment a);
  Ret (build_plan a payment_replicas shipping_replicas).

(** [fault_tolerance.py:424-446 config_from_args] *)
Definition config_from_args (bracket_ok : string → bool) (a : arguments) (p : fault_plan) : res config :=
  from_request bracket_ok
    [("target_url", PStr (a_target_url a)); ("metrics_url", PStr (a_metrics_url a));
     ("workload", PStr "fault_tolerance"); ("warmup_seconds", PInt 0);
     ("duration_seconds", PInt (plan_duration p)); ("drain_seconds", PInt (a_drain_seconds a));
     ("arrival_rate", PFloat (a_arrival_rate a));
     ("outcome_timeout_seconds", PFloat (a_outcome_timeout_seconds a));
     ("settlement_timeout_seconds", PFloat (a_settlement_timeout_seconds a));
     ("resource_sample_interval_seconds", PInt 1); ("seed", PInt (a_seed a));
     ("collect_resources", PBool true);
     ("collect_nats_metrics", PBool (String.eqb (a_application_type a) "NATS"))]
    (a_application_type a).

(** ** The cluster *)

(** What kubectl, the clock, the stop request and the run directory do to a
    state [S] of the cluster. *)
Class Cluster (S : Type) := {
  ask : ∀ X, faultE X → S → X * S;
  replicas_of : string → S → Z;
}.
Arguments ask {S _ X} op s.

Definition is_local {X} (op : faultE X) : Prop :=
  match op with FRun _ => False | _ => True end.

(** The documented behaviour of the commands of the controller.  A command
    can fail whether or not it was applied. *)
Class ClusterLaws (k : kubectl) (S : Type) `{Cluster S} : Prop := {
  law_scale d n s r s' : ask (FRun (command k (scale_arguments d n))) s = (r, s') →
    (∀ d', d' ≠ d → replicas_of d' s' = replicas_of d' s) ∧
    (replicas_of d s' = n ∨
     replicas_of d s' = replicas_of d s ∧ ∀ out, r ≠ Completed out);
  law_get d s r s' : ask (FRun (command k (get_arguments d))) s = (r, s') →
    (∀ d', replicas_of d' s' = replicas_of d' s) ∧
    (∀ out, r = Completed out → int_of_str (str_strip out) = Ok (replicas_of d s));
  law_can_i d s r s' : ask (FRun (command k (can_i_arguments d))) s = (r, s') →
    ∀ d', replicas_of d' s' = replicas_of d' s;
  law_local X (op : faultE X) s d : is_local op → replicas_of d (ask op s).2 = replicas_of d s;
}.

(** The dictionary [scaled_down]: a new key goes last. *)
Fixpoint down_set (f : injected) (down : list injected) : list injected :=
  match down with
  | [] => [f]
  | g :: down => if String.eqb (f_deployment g) (f_deployment f) then f :: down else g :: down_set f down
  end.
Definition down_pop (d : string) (down : list injected) : list injected :=
  filter (λ g, f_deployment g ≠ d) down.

Definition fault_handle {S} `{Cluster S} (X : Type) (op : faultE X)
  : S * list injected → X * (S * list injected) :=
  match op with
  | FDownSet f => λ w, (tt, (w.1, down_set f w.2))
  | FDownPop d => λ w, (tt, (w.1, down_pop d w.2))
  | FDownAll => λ w, (w.2, w)
  | op => λ w, let '(x, s) := ask op w.1 in (x, (s, w.2))
  end.

Section theory.
Context (k : kubectl) {S : Type} `{Cluster S} {laws : ClusterLaws k S}.
Implicit Types w : S * list injected.
Abbreviation run := (Program.run fault_handle).

Definition same_except (d : option string) w w' : Prop :=
  ∀ d', Some d' ≠ d → replicas_of d' w'.1 = replicas_of d' w.1.

(** A program that leaves the deployments and the dictionary alone. *)
Definition calm {A} (p : prog faultE A) : Prop :=
  ∀ w, (run p w).2.2 = w.2 ∧ same_except None w (run p w).2.

Lemma calm_ret {A} (a : A) : calm (Ret a).
Proof using. by intros w. Qed.
Lemma calm_throw {A} e : calm (Throw e : prog faultE A).
Proof using. by intros w. Qed.
Lemma calm_lift {A} (m : res A) : calm (lift m).
Proof using. destruct m; [apply calm_ret|apply calm_throw]. Qed.
Lemma calm_bind {A B} (p : prog faultE A) (f : A → prog faultE B) :
  calm p → (∀ a, calm (f a)) → calm (p ≫= f).
Proof using.
  intros Hp Hf w. destruct (Hp w) as [Hd Hs]. rewrite run_bind.
  destruct (run p w) as [[a|e] w1]; [|done].
  destruct (Hf a w1) as [Hd' Hs']. simpl in *. split; [congruence|].
  intros d Hne. rewrite Hs' by done. by apply Hs.
Qed.
Lemma calm_op {X} (op : faultE X) :
  is_local op → match op with FDownSet _ | FDownPop _ => False | _ => True end → calm (perform op).
Proof using laws.
  intros Hl Hk w. pose proof (λ s d, law_local X op s d Hl) as Hsame.
  destruct op; try done; simpl in *; specialize (Hsame w.1); destruct (ask _ _) as [x s];
    (split; [done|]; intros d _; apply Hsame).
Qed.
Lemma calm_call {A} (op : faultE (res A)) : calm (perform op) → calm (call op).
Proof using.
  intros Hq w. specialize (Hq w). rewrite run_call. simpl in *. by destruct (fault_handle _ _ _).
Qed.
Hint Resolve calm_ret calm_throw calm_lift : core.

Lemma wait_until_calm n deadline : calm (wait_until n deadline).
Proof using laws.
  induction n as [|n IH]; [apply calm_throw|]. cbn [wait_until].
  apply calm_bind; [by apply calm_op|]. intros now. destruct (fleb _ _); [done|].
  apply calm_bind; [by apply calm_op|]. intros []; [done|apply IH].
Qed.

Lemma wait_for_second_calm polls start seconds : calm (wait_for_second polls start seconds).
Proof using laws. apply calm_bind; [done|]. intros s. apply wait_until_calm. Qed.

Lemma record_calm start f action details : calm (record start f action details).
Proof using laws.
  apply calm_bind; [by apply calm_op|]. intros t. apply calm_bind; [by apply calm_op|].
  intros at_. by apply calm_call, calm_op.
Qed.

Lemma kubectl_run_run args w :
  ∃ m, run (kubectl_run k args) w = (m, ((ask (FRun (command k args)) w.1).2, w.2)) ∧
    ∀ raw, m = Ok raw → ∃ out, (ask (FRun (command k args)) w.1).1 = Completed out ∧ raw = str_strip out.
Proof using.
  unfold kubectl_run. simpl. destruct (ask _ w.1) as [[out| | |err out] s]; simpl;
    eexists; (split; [done|]); intros raw Hraw; simplify_eq; by eexists.
Qed.

Lemma scale_run d n w r w' :
  run (kubectl_scale k d n) w = (r, w') →
  w'.2 = w.2 ∧ same_except (Some d) w w' ∧
  (replicas_of d w'.1 = n ∨ replicas_of d w'.1 = replicas_of d w.1) ∧
  (r = Ok tt → replicas_of d w'.1 = n).
Proof using laws.
  unfold kubectl_scale. rewrite run_bind.
  destruct (kubectl_run_run (scale_arguments d n) w) as (m & -> & Hm).
  destruct (ask _ w.1) as [c s] eqn:Hask. pose proof (law_scale _ _ _ _ _ Hask) as [Hne Hd].
  intros Hr. assert (w' = (s, w.2) ∧ (r = Ok tt → ∃ out, c = Completed out)) as [-> Hc].
  { destruct m as [raw|e]; simpl in Hr; injection Hr as <- <-; (split; [done|]); [|done].
    intros _. destruct (Hm raw eq_refl) as (out & ? & _). by exists out. }
  simpl. split_and!; [done| |naive_solver|].
  - intros d' Hd'. apply Hne. congruence.
  - intros Hok. destruct (Hc Hok) as [out ->]. destruct Hd as [Hd|[_ Hd]]; [done|].
    by destruct (Hd out).
Qed.

(** *** One fault *)

Lemma down_set_fresh f : down_set f [] = [f]. Proof. done. Qed.
Lemma down_pop_self f : down_pop (f_deployment f) [f] = [].
Proof using. unfold down_pop. rewrite list.filter_cons. by case_decide. Qed.

(** Between two faults nothing is scaled down; within one only its
    deployment is. *)
Definition clean w w' : Prop := w'.2 = [] ∧ same_except None w w'.
Definition dirty (f : injected) w w' : Prop := w'.2 = [f] ∧ same_except (Some (f_deployment f)) w w'.

Lemma same_trans d w w1 w2 : same_except d w w1 → same_except None w1 w2 → same_except d w w2.
Proof using. intros H1 H2 d' Hd'. rewrite H2 by done. by apply H1. Qed.
Lemma quiet_clean {A} (p : prog faultE A) w w1 : calm p → clean w w1 → clean w (run p w1).2.
Proof using.
  intros Hq [Hd Hs]. destruct (Hq w1) as [Hd1 Hs1]. split; [congruence|by eapply same_trans].
Qed.
Lemma quiet_dirty {A} (p : prog faultE A) f w w1 : calm p → dirty f w w1 → dirty f w (run p w1).2.
Proof using.
  intros Hq [Hd Hs]. destruct (Hq w1) as [Hd1 Hs1]. split; [congruence|by eapply same_trans].
Qed.

(** Where an exception leaves the run. *)
Definition interrupted (f : injected) w w' : Prop := clean w w' ∨ dirty f w w'.

Abbreviation hoare := (Program.hoare fault_handle).

Lemma calm_hoare {A} (I : S * list injected → Prop) (R : exn → S * list injected → Prop) (p : prog faultE A) :
  calm p → (∀ w1 w2, w2.2 = w1.2 → same_except None w1 w2 → I w1 → I w2) →
  (∀ e w1, I w1 → R e w1) → hoare I p (λ _, I) R.
Proof using.
  intros Hq HI HR w Hw. destruct (Hq w) as [Hd Hs].
  destruct (run p w) as [[a|e] w1]; simpl in *; [|apply HR]; by eapply HI.
Qed.

Lemma clean_calm w w1 w2 : w2.2 = w1.2 → same_except None w1 w2 → clean w w1 → clean w w2.
Proof using. intros Hd Hs [Hd1 Hs1]. split; [congruence|by eapply same_trans]. Qed.
Lemma dirty_calm f w w1 w2 : w2.2 = w1.2 → same_except None w1 w2 → dirty f w w1 → dirty f w w2.
Proof using. intros Hd Hs [Hd1 Hs1]. split; [congruence|by eapply same_trans]. Qed.

Lemma clean_stage {A B} f w (p : prog faultE A) (q : A → prog faultE B) Q :
  calm p → (∀ a, hoare (clean w) (q a) Q (λ _, interrupted f w)) →
  hoare (clean w) (p ≫= q) Q (λ _, interrupted f w).
Proof using.
  intros Hp Hq. eapply hoare_bind; [|apply Hq].
  apply calm_hoare; [done|apply clean_calm|by left].
Qed.
Lemma dirty_stage {A B} f w (p : prog faultE A) (q : A → prog faultE B) Q :
  calm p → (∀ a, hoare (dirty f w) (q a) Q (λ _, interrupted f w)) →
  hoare (dirty f w) (p ≫= q) Q (λ _, interrupted f w).
Proof using.
  intros Hp Hq. eapply hoare_bind; [|apply Hq].
  apply calm_hoare; [done|apply dirty_calm|by right].
Qed.

Lemma scale_stage {B} f w n (q : () → prog faultE B) (I : S * list injected → Prop) Q :
  (∀ w1, dirty f w w1 → replicas_of (f_deployment f) w1.1 = n → I w1) →
  hoare I (q tt) Q (λ _, interrupted f w) →
  hoare (dirty f w) (kubectl_scale k (f_deployment f) n ≫= q) Q (λ _, interrupted f w).
Proof using laws.
  intros HI Hq w1 [Hd1 Hs1]. rewrite run_bind.
  destruct (run (kubectl_scale _ _ _) w1) as [r w2] eqn:Hrun.
  destruct (scale_run _ _ _ _ _ Hrun) as (Hd2 & Hs2 & _ & Hn).
  assert (dirty f w w2) as Hdirty.
  { split; [congruence|]. intros d Hd. rewrite Hs2 by done. by apply Hs1. }
  destruct r as [[]|e]; [|by right]. apply Hq, HI; [done|by apply Hn].
Qed.

Lemma down_stage {B} f w (q : () → prog faultE B) Q :
  hoare (dirty f w) (q tt) Q (λ _, interrupted f w) →
  hoare (clean w) (perform (FDownSet f) ≫= q) Q (λ _, interrupted f w).
Proof using.
  intros Hq w1 [Hd1 Hs1]. simpl. rewrite Hd1. apply Hq. split; [done|].
  intros d Hd. by apply Hs1.
Qed.

Lemma up_stage {B} f w (q : () → prog faultE B) Q :
  replicas_of (f_deployment f) w.1 = f_replicas f →
  hoare (clean w) (q tt) Q (λ _, interrupted f w) →
  hoare (λ w1, dirty f w w1 ∧ replicas_of (f_deployment f) w1.1 = f_replicas f)
    (perform (FDownPop (f_deployment f)) ≫= q) Q (λ _, interrupted f w).
Proof using.
  intros Hf Hq w1 [[Hd1 Hs1] Hn]. cbn [mbind prog_mbind prog_bind perform Program.run fault_handle].
  rewrite Hd1, down_pop_self. apply Hq. split; [done|].
  intros d _. simpl. destruct (decide (d = f_deployment f)) as [->|Hne]; [congruence|].
  apply Hs1. congruence.
Qed.
Hint Resolve wait_for_second_calm record_calm : core.

Lemma inject_outcome polls start f w :
  replicas_of (f_deployment f) w.1 = f_replicas f →
  hoare (clean w) (inject k polls start f) (λ _, clean w) (λ _, interrupted f w).
Proof using laws.
  intros Hf. unfold inject. do 2 (apply clean_stage; [done|]; intros _). apply down_stage.
  apply scale_stage with (I := dirty f w); [done|].
  do 3 (apply dirty_stage; [done|]; intros _).
  apply scale_stage with (I := λ w1, dirty f w w1 ∧ replicas_of (f_deployment f) w1.1 = f_replicas f); [done|].
  apply up_stage; [done|].
  apply calm_hoare; [done|apply clean_calm|by left].
Qed.

(** *** The schedule and the restoration *)

Definition faults_original (faults : list injected) w : Prop :=
  Forall (λ f, replicas_of (f_deployment f) w.1 = f_replicas f) faults.

Definition interrupted_in (faults : list injected) w w' : Prop :=
  clean w w' ∨ ∃ f, f ∈ faults ∧ dirty f w w'.

Lemma schedule_outcome polls start p w :
  faults_original (p_faults p) w →
  hoare (clean w) (schedule k polls start p) (λ _, clean w) (λ _, interrupted_in (p_faults p) w).
Proof using laws.
  intros Hf. unfold schedule. apply hoare_bind with (Q := λ _, clean w).
  - induction Hf as [|f faults Hf Hfs IH]; simpl.
    + by intros w1 Hw1.
    + apply hoare_bind with (Q := λ _, clean w).
      * eapply hoare_conseq; [by apply inject_outcome|done|done|].
        intros e w1 [?|?]; [by left|right]. exists f. split; [by left|done].
      * intros _. eapply hoare_conseq; [exact IH|done|done|].
        intros e w1 [?|(g & ? & ?)]; [by left|right]. exists g. split; [by right|done].
  - intros _. apply calm_hoare; [done|apply clean_calm|by left].
Qed.

(** The errors of a failed restoration. *)
Definition restoration_error (d : string) (e : exn) : Prop :=
  (∃ msg, e = RuntimeError ("could not restore scaled deployments: deployment/" +:+ d +:+ ": " +:+ msg)) ∨
  ∃ s v, (ask (FAppend v) s).1 = Raise e.

Lemma record_raises start f action details w e :
  (run (record start f action details) w).1 = Raise e → ∃ s v, (ask (FAppend v) s).1 = Raise e.
Proof using.
  unfold record. simpl. destruct (ask FTime w.1) as [t s1]. simpl.
  destruct (ask FUtcNow s1) as [a s2]. simpl.
  match goal with |- context [FAppend ?v] => generalize v; intros v' end.
  destruct (ask (FAppend v') s2) as [[u|e'] s3] eqn:Happ; simpl; [done|].
  intros [= ->]. exists s2, v'. by rewrite Happ.
Qed.

Lemma restore_all_clean start w w1 : clean w w1 → run (restore_all k start) w1 = (Ok tt, w1).
Proof using. intros [Hd _]. unfold restore_all. simpl. by rewrite Hd. Qed.

Lemma restore_all_dirty start f w w1 :
  replicas_of (f_deployment f) w.1 = f_replicas f → dirty f w w1 →
  match run (restore_all k start) w1 with
  | (Ok _, w2) => same_except None w w2
  | (Raise e, w2) => same_except (Some (f_deployment f)) w w2 ∧ restoration_error (f_deployment f) e
  end.
Proof using laws.
  intros Hf [Hd Hs]. unfold restore_all. rewrite run_bind. cbn [perform Program.run fault_handle].
  rewrite Hd. change (reverse [f]) with [f]. rewrite run_bind. cbn [restore]. rewrite run_bind, run_try, run_bind.
  destruct (run (kubectl_scale _ _ _) w1) as [r w2] eqn:Hscale.
  destruct (scale_run _ _ _ _ _ Hscale) as (Hd2 & Hs2 & _ & Hn).
  assert (same_except (Some (f_deployment f)) w w2) as Hs12.
  { intros d Hne. rewrite Hs2 by done. by apply Hs. }
  assert (∀ (error : exn) w3, same_except (Some (f_deployment f)) w w3 →
    match run ((_ ← record start f "restore_failed" [("error", PStr (exn_str error))];
                restore k start [] ([] ++ ["deployment/" +:+ f_deployment f +:+ ": " +:+ exn_str error]))
              ≫= λ errors, match errors with [] => Ret tt | _ => Throw (RuntimeError
                ("could not restore scaled deployments: " +:+ str_join "; " errors)) end) w3 with
    | (Ok _, w2) => same_except None w w2
    | (Raise e, w2) => same_except (Some (f_deployment f)) w w2 ∧ restoration_error (f_deployment f) e
    end) as Hfailed.
  { intros error w3 Hw3. rewrite run_bind, run_bind.
    destruct (record_calm start f "restore_failed" [("error", PStr (exn_str error))] w3) as [_ Hq].
    pose proof (record_raises start f "restore_failed" [("error", PStr (exn_str error))] w3) as Hraise.
    destruct (run (record _ _ _ _) w3) as [[[]|e] w4]; simpl in *.
    - split; [by eapply same_trans|]. left. by eexists.
    - split; [by eapply same_trans|]. right. by apply Hraise. }
  assert (∀ error w3, same_except (Some (f_deployment f)) w w3 → _) as Hfailed'
    by (intros error w3 Hw3; specialize (Hfailed error w3 Hw3); rewrite run_bind in Hfailed; exact Hfailed).
  destruct r as [[]|e]; [|by apply Hfailed'].
  destruct (record_calm start f "restored" [("replicas", PInt (f_replicas f))] w2) as [_ Hq].
  destruct (run (record _ _ _ _) w2) as [[[]|e] w3]; [|apply Hfailed'; by eapply same_trans].
  simpl in *. intros d _. destruct (decide (d = f_deployment f)) as [->|Hne].
  - rewrite Hq by done. by rewrite Hn.
  - rewrite Hq by done. apply Hs12. congruence.
Qed.

Lemma control_outcome polls start p w r w' :
  w.2 = [] → faults_original (p_faults p) w →
  run (control k polls start p) w = (r, w') →
  same_except None w w' ∨
  ∃ f e, f ∈ p_faults p ∧ r = Raise e ∧ same_except (Some (f_deployment f)) w w' ∧ restoration_error (f_deployment f) e.
Proof using laws.
  intros Hnil Hf. unfold control.
  assert (calm (call (FWritePlan (plan_dict p start)))) as Hq1 by by apply calm_call, calm_op.
  assert (calm (call FOpenEvents)) as Hq2 by by apply calm_call, calm_op.
  generalize dependent (call (FWritePlan (plan_dict p start))). intros write Hq1.
  generalize dependent (call FOpenEvents). intros open Hq2.
  rewrite run_bind. destruct (Hq1 w) as [Hd1 Hs1]. destruct (run write w) as [[[]|e] w1]; cbn [fst snd] in *.
  2:{ intros [= <- <-]. by left. }
  rewrite run_bind. destruct (Hq2 w1) as [Hd2 Hs2]. destruct (run open w1) as [[[]|e] w2]; cbn [fst snd] in *.
  2:{ intros [= <- <-]. left. by eapply same_trans. }
  assert (clean w w2) as Hclean by (split; [congruence|by eapply same_trans]).
  rewrite run_bind, run_try. pose proof (schedule_outcome polls start p w Hf w2 Hclean) as Hsched.
  destruct (run (schedule _ _ _ _) w2) as [r3 w3]. rewrite run_bind.
  assert (interrupted_in (p_faults p) w w3) as [Hc|(f & Hin & Hdirty)].
  { destruct r3; [by left|done]. }
  - rewrite (restore_all_clean start w w3 Hc). rewrite run_lift. intros [= <- <-]. left. apply Hc.
  - pose proof (restore_all_dirty start f w w3) as Hres.
    unfold faults_original in Hf. rewrite Forall_forall in Hf.
    specialize (Hres (Hf f Hin) Hdirty). destruct (run (restore_all _ _) w3) as [[[]|e] w4].
    + rewrite run_lift. intros [= <- <-]. by left.
    + intros [= <- <-]. right. by exists f, e.
Qed.

(** *** Planning *)

Lemma kubectl_run_calm args :
  (∀ s r s', ask (FRun (command k args)) s = (r, s') → ∀ d, replicas_of d s' = replicas_of d s) →
  calm (kubectl_run k args).
Proof using.
  intros Hq w. destruct (kubectl_run_run args w) as (m & -> & _). split; [done|].
  intros d _. simpl. destruct (ask _ w.1) as [r s] eqn:Hask. by eapply Hq.
Qed.

Lemma ensure_scalable_calm d : calm (ensure_scalable k d).
Proof using laws.
  apply calm_bind; [apply kubectl_run_calm; intros; by eapply law_can_i|].
  intros allowed. by destruct (String.eqb _ _).
Qed.

Lemma kubectl_replicas_calm d : calm (kubectl_replicas k d).
Proof using laws.
  apply calm_bind; [|done]. apply kubectl_run_calm. intros s r s' Hask. by eapply law_get.
Qed.
Hint Resolve ensure_scalable_calm kubectl_replicas_calm : core.

Lemma read_replicas_ok d raw n : read_replicas d raw = Ok n → (1 ≤ n)%Z.
Proof using.
  unfold read_replicas. destruct (int_of_str _) as [z|[]]; try done.
  destruct (z <? 1)%Z eqn:Hz; [done|]. intros [= <-]. lia.
Qed.

Lemma kubectl_replicas_ok d w n w' :
  run (kubectl_replicas k d) w = (Ok n, w') → (1 ≤ n)%Z ∧ replicas_of d w.1 = n.
Proof using laws.
  unfold kubectl_replicas. rewrite run_bind.
  destruct (kubectl_run_run (get_arguments d) w) as (m & -> & Hm).
  destruct m as [raw|e]; [|done]. rewrite run_lift. intros [= Hn _].
  split; [by eapply read_replicas_ok|]. destruct (Hm raw eq_refl) as (out & Hout & ->).
  destruct (ask _ w.1) as [c s] eqn:Hask. destruct (law_get _ _ _ _ Hask) as [_ Hget].
  specialize (Hget out Hout). unfold read_replicas in Hn.
  destruct (String.eqb _ "") eqn:Hempty.
  - apply String.eqb_eq in Hempty. rewrite Hempty in Hget. by vm_compute in Hget.
  - rewrite Hget in Hn. destruct (_ <? 1)%Z; [done|]. by injection Hn.
Qed.

Lemma calm_run {A} (p : prog faultE A) w r w' :
  calm p → run p w = (r, w') → w'.2 = w.2 ∧ same_except None w w'.
Proof using. intros Hq Hrun. specialize (Hq w). by rewrite Hrun in Hq. Qed.

Lemma plan_from_args_outcome a w r w' :
  run (plan_from_args a k) w = (r, w') →
  w'.2 = w.2 ∧ same_except None w w' ∧
  ∀ p, r = Ok p → check_arguments a = Ok tt ∧ ∃ n1 n2, p = build_plan a n1 n2 ∧
    (1 ≤ n1)%Z ∧ (1 ≤ n2)%Z ∧
    replicas_of (a_payment_deployment a) w.1 = n1 ∧ replicas_of (a_shipping_deployment a) w.1 = n2.
Proof using laws.
  intros Hrun.
  assert (calm (plan_from_args a k)) as Hquiet.
  { unfold plan_from_args. repeat (apply calm_bind; [done|intros ?]). done. }
  destruct (calm_run _ _ _ _ Hquiet Hrun) as [Hd Hs]. split_and!; [done|done|].
  intros p ->. revert Hrun. unfold plan_from_args. rewrite run_bind, run_lift.
  destruct (check_arguments a) as [[]|e]; [|done]. rewrite run_bind.
  destruct (run (ensure_scalable _ (a_payment_deployment a)) w) as [[[]|e] w1] eqn:H1; [|done]. rewrite run_bind.
  destruct (run (ensure_scalable _ _) w1) as [[[]|e] w2] eqn:H2; [|done]. rewrite run_bind.
  destruct (run (kubectl_replicas _ _) w2) as [[n1|e] w3] eqn:H3; [|done]. rewrite run_bind.
  destruct (run (kubectl_replicas _ _) w3) as [[n2|e] w4] eqn:H4; [|done].
  intros [= <- <-]. split; [done|]. exists n1, n2.
  apply calm_run in H1 as [_ H1]; [|done]. apply calm_run in H2 as [_ H2]; [|done].
  pose proof (calm_run _ _ _ _ (kubectl_replicas_calm _) H3) as [_ H3q].
  apply kubectl_replicas_ok in H3 as [? H3], H4 as [? H4].
  split_and!; [done..| |].
  - by rewrite <- H1, <- H2.
  - by rewrite <- H1, <- H2, <- H3q.
Qed.

Lemma check_arguments_ok a :
  check_arguments a = Ok tt →
  (1 ≤ a_startup_time a ∧ 1 ≤ a_disable_paymentservice_time a ∧ 1 ≤ a_between_disable_time a ∧
   1 ≤ a_disable_shippingservice_time a ∧ 1 ≤ a_stable_seconds a ≤ a_recovery_time a ∧
   0 ≤ a_pending_tolerance a)%Z ∧ a_payment_deployment a ≠ a_shipping_deployment a.
Proof using.
  unfold check_arguments. rewrite <- (String.eqb_neq (a_payment_deployment a)).
  intros Hok. repeat (let Hc := fresh in apply res_bind_ok in Hok as ([] & Hc & Hok); apply raise_if_ok in Hc).
  apply raise_if_ok in Hok. split; [lia|done].
Qed.

(** *** The wait returns *)

(** The state after one unsuccessful poll. *)
Definition poll (deadline : pyfloat) (s : S) : S :=
  let '(now, s) := ask FTime s in
  (ask (FStopWait (f_min (fsub deadline now) (float_dec 5 (-1)))) s).2.

(** As many polls as the clock needs to reach the deadline are enough. *)
Lemma wait_until_returns deadline m n w :
  m < n →
  fleb (fsub deadline (ask FTime (Nat.iter m (poll deadline) w.1)).1) (float_dec 0 0) = true →
  (run (wait_until n deadline) w).1 = Ok tt ∨
  (run (wait_until n deadline) w).1 = Raise (InterruptedError "fault-tolerance run was interrupted").
Proof using.
  revert m w. induction n as [|n IH]; intros m w Hm Hdeadline; [lia|].
  simpl. destruct m as [|m].
  - simpl in Hdeadline. destruct (ask FTime w.1) as [now s]. simpl in *. rewrite Hdeadline. by left.
  - rewrite Nat.iter_succ_r in Hdeadline.
    assert (poll deadline w.1 = (ask (FStopWait (f_min (fsub deadline (ask FTime w.1).1) (float_dec 5 (-1))))
      (ask FTime w.1).2).2) as Hpoll by (unfold poll; by destruct (ask FTime w.1)).
    rewrite Hpoll in Hdeadline. destruct (ask FTime w.1) as [now s]. cbn [fst snd] in *.
    match goal with |- context [if ?b then Ret tt else _] => destruct b end; [by left|]. simpl.
    destruct (ask (FStopWait _) s) as [[] s']; [by right|]. by apply (IH m); [lia|].
Qed.

(** *** Properties *)

(** C4: A fault-tolerance run leaves the cluster as it found it.  Whatever
    kubectl, the clock, the stop request and the run directory do, and
    wherever an exception ends the schedule, every deployment has its original
    number of replicas when the controller is done, unless the controller
    raises: then only one deployment of the plan can be off, and the error is
    the one that says it could not be restored, or the failure to record it. *)
Theorem fault_run_restores a polls start s r w' :
  run (p ← plan_from_args a k; control k polls start p) (s, []) = (r, w') →
  (∀ d, replicas_of d w'.1 = replicas_of d s) ∨
  ∃ d e, (d = a_payment_deployment a ∨ d = a_shipping_deployment a) ∧ r = Raise e ∧
    restoration_error d e ∧
    ∀ d', d' ≠ d → replicas_of d' w'.1 = replicas_of d' s.
Proof using laws.
  rewrite run_bind. destruct (run (plan_from_args a k) (s, [])) as [r1 w1] eqn:Hplan.
  apply plan_from_args_outcome in Hplan as (Hd & Hs & Hp).
  destruct r1 as [p|e]; [|intros [= <- <-]; left; intros d; by apply Hs].
  destruct (Hp p eq_refl) as (_ & n1 & n2 & -> & _ & _ & H1 & H2).
  intros Hrun. apply control_outcome in Hrun as [Hsame|(f & e & Hf & -> & Hsame & He)]; [| |done|].
  - left. intros d. rewrite Hsame by done. by apply Hs.
  - right. exists (f_deployment f), e. split_and!; [|done..|].
    + simpl in Hf. set_solver.
    + intros d' Hne. rewrite Hsame by congruence. by apply Hs.
  - repeat constructor; simpl; by rewrite Hs.
Qed.

(** The plan of a fault-tolerance run is well formed: the two outages
    are of different deployments, last at least a second each, do not overlap,
    start after the load and end early enough for the recovery to be observed,
    and the replicas to restore are those the cluster has, at least one. *)
Theorem plan_from_args_well_formed a w p w' :
  run (plan_from_args a k) w = (Ok p, w') →
  ∃ f1 f2, p_faults p = [f1; f2] ∧ f_deployment f1 ≠ f_deployment f2 ∧
    (0 < f_disable_at f1 < f_enable_at f1 ∧ f_enable_at f1 < f_disable_at f2 < f_enable_at f2 ∧
     1 ≤ p_stable_seconds p ≤ plan_duration p - f_enable_at f2 ∧ 0 ≤ p_pending_tolerance p)%Z ∧
    Forall (λ f, 1 ≤ f_replicas f ∧ replicas_of (f_deployment f) w.1 = f_replicas f)%Z (p_faults p).
Proof using laws.
  intros Hrun. apply plan_from_args_outcome in Hrun as (_ & _ & Hp).
  destruct (Hp p eq_refl) as (Hcheck & n1 & n2 & -> & ? & ? & ? & ?).
  apply check_arguments_ok in Hcheck as [Hbounds Hne].
  do 2 eexists. split_and!; [reflexivity|done| | | | | | | |];
    unfold plan_duration; simpl; [lia..|by repeat constructor].
Qed.
End theory.

(** ** A concrete cluster *)

(** [sim_broken]: commands that scale up are lost without effect. *)
Record sim := Sim {
  sim_replicas : gmap string Z;
  sim_now : Z;
  sim_stop_at : Z;
  sim_broken : bool;
}.

Definition sim_get (d : string) (s : sim) : Z := default 1%Z (sim_replicas s !! d).
Definition sim_set (d : string) (n : Z) (s : sim) : sim :=
  Sim (<[d := n]> (sim_replicas s)) (sim_now s) (sim_stop_at s) (sim_broken s).

(** Replica counts up to 99 are enough for a demonstration. *)
Definition read_option (o : string) : option Z :=
  snd <$> list_find (λ n, "--replicas=" +:+ pretty n = o) (seqZ 0 100).

Definition sim_kubectl (k : kubectl) (cmd : list string) (s : sim) : completion * sim :=
  match drop (length (command k [])) cmd with
  | [_; _; d; o] =>
      match read_option o with
      | Some n => if sim_broken s && (0 <? n)%Z then (Expired, s) else (Completed "scaled", sim_set d n s)
      | None => (Exited "invalid replicas" "", s)
      end
  | [sub; _; d; _; _] =>
      if String.eqb sub "auth" then (Completed "yes", s)
      else if decide (int_of_str (str_strip (pretty (sim_get d s))) = Ok (sim_get d s))
      then (Completed (pretty (sim_get d s)), s) else (Exited "not found" "", s)
  | _ => (ExecutableMissing, s)
  end.

Definition sim_clock (n : Z) : pyfloat := float_dec n 0.

Definition sim_cluster (k : kubectl) : Cluster sim := {|
  ask X op := match op with
    | FRun cmd => sim_kubectl k cmd
    | FTime => λ s, (sim_clock (sim_now s), s)
    | FUtcNow => λ s, ("2026-01-01T00:00:00+00:00", s)
    | FStopWait _ => λ s, (bool_decide (sim_stop_at s ≤ sim_now s)%Z,
        Sim (sim_replicas s) (sim_now s + 1) (sim_stop_at s) (sim_broken s))
    | FWritePlan _ | FOpenEvents | FAppend _ => λ s, (Ok tt, s)
    | FDownSet _ | FDownPop _ => λ s, (tt, s)
    | FDownAll => λ s, ([], s)
    end;
  replicas_of := sim_get;
|}.

Lemma drop_command k args : drop (length (command k [])) (command k args) = args.
Proof.
  unfold command. rewrite app_nil_r, !app_assoc. apply drop_app_length'.
  by rewrite !length_app.
Qed.

Lemma read_option_ok n : match read_option ("--replicas=" +:+ pretty n) with Some m => m = n | None => True end.
Proof.
  unfold read_option. destruct (list_find _ _) as [[i m]|] eqn:Hfind; [|done].
  apply list_find_Some in Hfind as (_ & Heq & _). by apply append_inj_l, (inj pretty) in Heq.
Qed.

#[export] Instance sim_laws k : @ClusterLaws k sim (sim_cluster k).
Proof.
  split.
  - intros d n s r s'. simpl. unfold sim_kubectl. rewrite drop_command. cbn [scale_arguments].
    pose proof (read_option_ok n) as Hn. destruct (read_option _) as [m|]; [subst m|].
    + destruct (sim_broken s && (0 <? n)%Z); intros [= <- <-]; [naive_solver|].
      unfold sim_get, sim_set. simpl. rewrite lookup_insert_eq. split; [|by left].
      intros d' Hne. by rewrite lookup_insert_ne.
    + intros [= <- <-]. naive_solver.
  - intros d s r s'. simpl. unfold sim_kubectl. rewrite drop_command. cbn [get_arguments].
    simpl. case_decide as Hd; intros [= <- <-]; naive_solver.
  - intros d s r s'. simpl. unfold sim_kubectl. rewrite drop_command. cbn [can_i_arguments].
    by intros [= <- <-].
  - intros X op s d Hl. by destruct op.
Qed.

Definition demo_kubectl : kubectl := Kubectl "shop" (Some "bench") "kubectl" 30.
Definition demo_arguments : arguments :=
  default_arguments "http://frontend" "http://metrics" "NATS".
Definition demo_faulted (replicas : Z) (s : sim) : bool :=
  forallb (λ d, sim_get d s =? replicas)%Z ["paymentservice"; "shippingservice"].
Definition demo_sim (stop_at : Z) (broken : bool) : sim :=
  Sim {["paymentservice" := 3%Z; "shippingservice" := 3%Z]} 0 stop_at broken.
Definition demo_run (stop_at : Z) (broken : bool) : res unit * (sim * list injected) :=
  Program.run (@fault_handle sim (sim_cluster demo_kubectl))
    (p ← plan_from_args demo_arguments demo_kubectl; control demo_kubectl 1000 (float_dec 0 0) p)
    (demo_sim stop_at broken, []).

(** A complete run, a run stopped during the second outage, and one in which
    the first deployment cannot be brought back. *)
Example run_completes : (demo_run 1000 false).1 = Ok tt ∧ demo_faulted 3 (demo_run 1000 false).2.1 = true.
Proof. split; vm_compute; reflexivity. Qed.
Example run_interrupted :
  (demo_run 100 false).1 = Raise (InterruptedError "fault-tolerance run was interrupted") ∧
  demo_faulted 3 (demo_run 100 false).2.1 = true.
Proof. split; vm_compute; reflexivity. Qed.
Example run_unrestored :
  (demo_run 1000 true).1 = Raise (RuntimeError ("could not restore scaled deployments: deployment/paymentservice: kubectl timed out after 30s: kubectl --context bench --namespace shop scale deployment paymentservice --replicas=3")) ∧
  sim_get "paymentservice" (demo_run 1000 true).2.1 = 0%Z ∧ sim_get "shippingservice" (demo_run 1000 true).2.1 = 3%Z.
Proof. split_and!; vm_compute; reflexivity. Qed.

Lemma fault_run_restores_witness :
  (∀ d, sim_get d (demo_run 1000 true).2.1 = sim_get d (demo_sim 1000 true)) ∨
  ∃ d e, (d = "paymentservice" ∨ d = "shippingservice") ∧ (demo_run 1000 true).1 = Raise e ∧
    @restoration_error sim (sim_cluster demo_kubectl) d e ∧
    ∀ d', d' ≠ d → sim_get d' (demo_run 1000 true).2.1 = sim_get d' (demo_sim 1000 true).
Proof.
  apply (@fault_run_restores demo_kubectl sim (sim_cluster demo_kubectl) (sim_laws demo_kubectl)
    demo_arguments 1000 (float_dec 0 0) (demo_sim 1000 true)).
  apply surjective_pairing.
Defined.

Lemma plan_from_args_well_formed_witness :
  ∃ p w', Program.run (@fault_handle sim (sim_cluster demo_kubectl))
      (plan_from_args demo_arguments demo_kubectl) (demo_sim 1000 true, []) = (Ok p, w') ∧
    ∃ f1 f2, p_faults p = [f1; f2] ∧ f_deployment f1 ≠ f_deployment f2 ∧
    (0 < f_disable_at f1 < f_enable_at f1 ∧ f_enable_at f1 < f_disable_at f2 < f_enable_at f2 ∧
     1 ≤ p_stable_seconds p ≤ plan_duration p - f_enable_at f2 ∧ 0 ≤ p_pending_tolerance p)%Z ∧
    Forall (λ f, 1 ≤ f_replicas f ∧ sim_get (f_deployment f) (demo_sim 1000 true) = f_replicas f)%Z (p_faults p).
Proof.
  exists (build_plan demo_arguments 3 3), (demo_sim 1000 true, []). split; [vm_compute; reflexivity|].
  apply (@plan_from_args_well_formed demo_kubectl sim (sim_cluster demo_kubectl) (sim_laws demo_kubectl)
    demo_arguments (demo_sim 1000 true, []) (build_plan demo_arguments 3 3) (demo_sim 1000 true, [])).
  vm_compute. reflexivity.
Defined.
