(* ===== verification/Sse.v ===== *)
(** * Order event streams (benchmarkservice/sse.py)

    The load generator follows an order over Server-Sent Events.  The stream
    arrives as lines of bytes, which are decoded to code points (PyText.v).
    [json.loads] is a parameter. *)

From S2P Require Import Prelude PyFloat PyValue PyText Program PyUrl.
From Stdlib Require Import Ascii.

(** ** URLs and content types *)

(** [sse.py:37-45 order_events_url] *)
Definition order_events_url (bracket_ok : string → bool) (location : string) : res string :=
  parsed ← urlsplit bracket_ok location;
  let path := str_rstrip "/" (url_path parsed) in
  _ ← raise_if (String.eqb path "") (ValueError "order Location has no path");
  Ok (urlunsplit (Url (url_scheme parsed) (url_netloc parsed) (path +:+ "/events") (url_query parsed) "")).

(** [sse.py:48-51 is_event_stream_content_type] *)
Definition is_event_stream_content_type (value : pyval) : bool :=
  match value with
  | PStr value =>
      String.eqb (str_lower (str_strip (default "" (head (str_split ";"%char value))))) "text/event-stream"
  | _ => false
  end.

(** ** The decoder *)

Inductive raw_line :=
  | RawBytes (bytes : list Z)
  | RawText (s : text).

(** [sse.py:18-22 ServerSentEvent] *)
Record server_sent_event := ServerSentEvent {
  ev_event : text;
  ev_data : text;
  ev_id : option text;
}.

(** The variables of the loop. *)
Record sse_state := SseState {
  st_event_type : text;
  st_data : list text;
  st_last_id : option text;
  st_first : bool;
}.

(** [sse.py:65-68 iter_sse_events] *)
Definition sse_start : sse_state := SseState (text_of "message") [] None true.

(** [sse.py:71-83 iter_sse_events] *)
Definition decode_line (raw : raw_line) (first : bool) : res text :=
  line ← match raw with
         | RawBytes bytes =>
             match utf8_decode bytes with
             | Some line => Ok line
             | None => Raise (SSEProtocolError "order event stream is not valid UTF-8")
             end
         | RawText line => Ok line
         end;
  let line := rdrop_while (λ c, (c =? 13) || (c =? 10))%Z line in
  Ok (match line with
      | c :: line' => if first && (c =? 65279)%Z then line' else line
      | [] => []
      end).

(** A decoded line: the next state and the event it completes.
    [sse.py:85-106 iter_sse_events] *)
Definition feed_line (st : sse_state) (line : text) : sse_state * option server_sent_event :=
  let 'SseState event_type data last_event_id _ := st in
  match line with
  | [] =>
      (SseState (text_of "message") [] last_event_id false,
       match data with
       | [] => None
       | _ => Some (ServerSentEvent event_type (text_join 10 data) last_event_id)
       end)
  | c :: _ =>
      if (c =? 58)%Z then (SseState event_type data last_event_id false, None)
      else
        let '(field, separator, value) := text_partition 58 line in
        let value := match value with
                     | 32%Z :: value' => if (separator : bool) then value' else value
                     | _ => value
                     end in
        (if decide (field = text_of "event") then SseState value data last_event_id false
         else if decide (field = text_of "data") then SseState event_type (data ++ [value]) last_event_id false
         else if bool_decide (field = text_of "id") && negb (bool_decide (0%Z ∈ value))
         then SseState event_type data (Some value) false
         else SseState event_type data last_event_id false, None)
  end.

(** One turn of the loop.
    [sse.py:70-106 iter_sse_events] *)
Definition sse_feed (st : sse_state) (raw : raw_line) : res (sse_state * option server_sent_event) :=
  line ← decode_line raw (st_first st);
  Ok (feed_line st line).

(** All of a finite stream: the events, and the exception that ends it.
    [sse.py:62-106 iter_sse_events] *)
Fixpoint iter_sse_events (st : sse_state) (lines : list raw_line)
  : list server_sent_event * option exn :=
  match lines with
  | [] => ([], None)
  | raw :: lines =>
      match sse_feed st raw with
      | Raise e => ([], Some e)
      | Ok (st, ev) =>
          let '(evs, stop) := iter_sse_events st lines in (option_list ev ++ evs, stop)
      end
  end.

(** ** The order stream *)

(** [sse.py:25-30 ReceivedOrderEvent] *)
Record received_order := ReceivedOrder {
  ro_order : list (string * pyval);
  ro_event_id : option text;
  ro_received_monotonic : pyfloat;
  ro_received_epoch : pyfloat;
}.

(** [json.loads]: a value, a [JSONDecodeError], or another exception. *)
Inductive loaded :=
  | Loaded (v : pyval)
  | DecodeError
  | LoadRaised (e : exn).

(** The answer of [OYield] is whether the consumer asks for another order
    (otherwise it closes the generator). *)
Inductive orderE : Type → Type :=
  | OReadLine : orderE (res raw_line)
  | OMonotonic : orderE pyfloat
  | OEpoch : orderE pyfloat
  | OYield (order : received_order) : orderE bool
  | ORelease : orderE unit.

Section orders.
Context (loads : text → loaded).

(** [str(order.get(key, "")).strip()] *)
Definition has_text (d : list (string * pyval)) (key : string) : bool :=
  negb (String.eqb (str_strip (py_str (default (PStr "") (alist_get key d)))) "").

(** The data of an order event.
    [sse.py:133-144 iter_received_orders] *)
Definition parse_order (data : text) : res (list (string * pyval)) :=
  match loads data with
  | DecodeError => Raise (SSEProtocolError "order event data is not valid JSON")
  | LoadRaised e => Raise e
  | Loaded (PDict d) =>
      _ ← raise_if (negb (has_text d "order_id")) (SSEProtocolError "order event omitted order_id");
      _ ← raise_if (negb (has_text d "status")) (SSEProtocolError "order event omitted status");
      Ok d
  | Loaded _ => Raise (SSEProtocolError "order event data is not a JSON object")
  end.

Definition is_empty_line (raw : raw_line) : bool :=
  match raw with RawBytes [] | RawText [] => true | _ => false end.

(** The body of the [try]; [fuel] bounds the number of lines.
    [sse.py:120-150 iter_received_orders] *)
Fixpoint order_loop (fuel : nat) (st : sse_state) : prog orderE unit :=
  match fuel with
  | 0 => Throw (TimeoutError "")
  | S fuel =>
      raw ← call OReadLine;
      if is_empty_line raw then Ret tt else
      '(st, ev) ← lift (sse_feed st raw);
      match ev with
      | Some event =>
          if negb (bool_decide (ev_event event = text_of "order")) then order_loop fuel st else
          received_monotonic ← perform OMonotonic;
          received_epoch ← perform OEpoch;
          order ← lift (parse_order (ev_data event));
          more ← perform (OYield (ReceivedOrder order (ev_id event) received_monotonic received_epoch));
          if (more : bool) then order_loop fuel st else Ret tt
      | None => order_loop fuel st
      end
  end.

(** [sse.py:155-159 close_stream_response] *)
Definition close_stream_response (releasable : bool) : prog orderE unit :=
  if releasable then perform ORelease else Ret tt.

(** [sse.py:109-152 iter_received_orders] *)
Definition iter_received_orders (streamable releasable : bool) (fuel : nat) : prog orderE unit :=
  if negb streamable then Throw (SSEProtocolError "order event response is not streamable") else
  r ← prog_try (order_loop fuel sse_start);
  _ ← close_stream_response releasable;
  lift r.
End orders.

(** ** Rendered streams

    What a server may send for a list of items, in the order the frontend
    writes the fields; a comment is its keep-alive. *)
Inductive item :=
  | Event (event id : option text) (data : list text)
  | Comment (s : text).

Definition field_line (name : string) (value : text) : text := text_of name ++ 58%Z :: 32%Z :: value.
Definition item_lines (i : item) : list text :=
  match i with
  | Event event id data =>
      (field_line "event" <$> option_list event) ++ (field_line "id" <$> option_list id)
      ++ (field_line "data" <$> data) ++ [[]]
  | Comment s => [58%Z :: s]
  end.

(** What the items mean: an event without data is not dispatched, an
    event without a type is a message, and the last id carries over. *)
Fixpoint items_events (last : option text) (items : list item) : list server_sent_event :=
  match items with
  | [] => []
  | Comment _ :: items => items_events last items
  | Event event id data :: items =>
      let last := match id with Some _ => id | None => last end in
      match data with
      | [] => items_events last items
      | _ => ServerSentEvent (default (text_of "message") event) (text_join 10 data) last
             :: items_events last items
      end
  end.

Definition line_ok (s : text) : Prop := Forall (λ c, scalar c ∧ c ≠ 10%Z ∧ c ≠ 13%Z) s.
Definition item_ok (i : item) : Prop :=
  match i with
  | Event event id data =>
      from_option line_ok True event ∧ from_option (λ s, line_ok s ∧ 0%Z ∉ s) True id ∧ Forall line_ok data
  | Comment s => line_ok s
  end.
#[export] Instance line_ok_dec s : Decision (line_ok s).
Proof. unfold line_ok. apply _. Defined.
#[export] Instance item_ok_dec i : Decision (item_ok i).
Proof. destruct i as [[event|] [id|] data|s]; simpl; apply _. Defined.

(** The bytes of the lines; a byte order mark may precede the first. *)
Definition render_line (s : text) : raw_line := RawBytes (utf8_encode (s ++ [10%Z])).
Definition render (bom : bool) (lines : list text) : list raw_line :=
  match lines with
  | [] => []
  | l :: lines => render_line (if bom then 65279%Z :: l else l) :: (render_line <$> lines)
  end.

Lemma strip_line s : line_ok s →
  rdrop_while (λ c, (c =? 13) || (c =? 10))%Z (s ++ [10%Z]) = s.
Proof.
  intros Hs. unfold rdrop_while. rewrite reverse_app. simpl.
  destruct (reverse s) as [|c l] eqn:Hr; [by rewrite <- (reverse_involutive s), Hr|].
  assert (c ∈ s) as Hc by (rewrite <- elem_of_reverse, Hr; left).
  unfold line_ok in Hs. rewrite Forall_forall in Hs. destruct (Hs c Hc) as (_ & ? & ?).
  simpl. replace ((c =? 13) || (c =? 10))%Z with false by lia. by rewrite <- Hr, reverse_involutive.
Qed.

Lemma sse_feed_rendered st (bom : bool) s :
  line_ok s → (bom = true → st_first st = true) →
  (bom = false → head s ≠ Some 65279%Z) →
  sse_feed st (render_line (if bom then 65279%Z :: s else s)) = Ok (feed_line st s).
Proof.
  intros Hs Hfirst Hhead. unfold sse_feed, decode_line, render_line.
  assert (∀ s', line_ok s' → utf8_decode (utf8_encode (s' ++ [10%Z])) = Some (s' ++ [10%Z])) as Hdecode.
  { intros s' Hs'. apply utf8_decode_encode, Forall_app. split; [|apply Forall_singleton; unfold scalar; lia].
    eapply Forall_impl; [exact Hs'|]. by intros c [? _]. }
  assert (line_ok (65279%Z :: s)) as Hbom.
  { constructor; [|done]. unfold scalar. lia. }
  destruct bom.
  - rewrite Hdecode by done. cbn [mbind res_bind]. rewrite strip_line by done. by rewrite Hfirst.
  - rewrite Hdecode by done. cbn [mbind res_bind]. rewrite strip_line by done.
    specialize (Hhead eq_refl). destruct s as [|c s]; [done|]. simpl in Hhead.
    replace (c =? 65279)%Z with false by (symmetry; apply Z.eqb_neq; congruence).
    by rewrite andb_false_r.
Qed.

(** The decoder on decoded lines. *)
Fixpoint feed_lines (st : sse_state) (lines : list text) : sse_state * list server_sent_event :=
  match lines with
  | [] => (st, [])
  | l :: lines =>
      let '(st, ev) := feed_line st l in
      let '(st, evs) := feed_lines st lines in (st, option_list ev ++ evs)
  end.

Lemma feed_lines_app st l1 l2 :
  feed_lines st (l1 ++ l2) =
    let '(st1, e1) := feed_lines st l1 in
    let '(st2, e2) := feed_lines st1 l2 in (st2, e1 ++ e2).
Proof.
  revert st. induction l1 as [|l l1 IH]; intros st; simpl.
  - by destruct (feed_lines st l2).
  - destruct (feed_line st l) as [st1 ev]. rewrite IH.
    destruct (feed_lines st1 l1) as [st2 e1], (feed_lines st2 l2) as [st3 e2]. by rewrite app_assoc.
Qed.

Definition plain_line (s : text) : Prop := line_ok s ∧ head s ≠ Some 65279%Z.

Lemma iter_rendered st lines :
  Forall plain_line lines →
  iter_sse_events st (render_line <$> lines) = ((feed_lines st lines).2, None).
Proof.
  intros Hl. revert st. induction Hl as [|l lines [Hl Hhead] Hls IH]; intros st; [done|].
  cbn [fmap list_fmap iter_sse_events feed_lines].
  rewrite (sse_feed_rendered st false) by done.
  destruct (feed_line st l) as [st' ev]. rewrite IH. by destruct (feed_lines st' lines).
Qed.

Lemma iter_render bom lines :
  Forall plain_line lines →
  iter_sse_events sse_start (render bom lines) = ((feed_lines sse_start lines).2, None).
Proof.
  intros Hl. destruct Hl as [|l lines [Hl Hhead] Hls]; [done|].
  cbn [render iter_sse_events feed_lines]. rewrite sse_feed_rendered by done.
  destruct (feed_line sse_start l) as [st' ev]. rewrite iter_rendered by done.
  by destruct (feed_lines st' lines).
Qed.

(** *** Items *)

Definition between (last : option text) (first : bool) : sse_state :=
  SseState (text_of "message") [] last first.

Lemma feed_data ty data last first more :
  feed_lines (SseState ty data last first) (field_line "data" <$> more) =
    (SseState ty (data ++ more) last (match more with [] => first | _ => false end), []).
Proof.
  revert data first. induction more as [|d more IH]; intros data first; simpl; [by rewrite app_nil_r|].
  rewrite IH, <- app_assoc. simpl. by destruct more.
Qed.

Lemma feed_event ty data last first s :
  feed_line (SseState ty data last first) (field_line "event" s) = (SseState s data last false, None).
Proof. done. Qed.
Lemma feed_id ty data last first s :
  0%Z ∉ s →
  feed_line (SseState ty data last first) (field_line "id" s) = (SseState ty data (Some s) false, None).
Proof. intros Hs. simpl. by rewrite bool_decide_eq_false_2. Qed.

Lemma feed_item last first i :
  item_ok i →
  feed_lines (between last first) (item_lines i) =
    (between (match i with Event _ (Some id) _ => Some id | _ => last end) false,
     items_events last [i]).
Proof.
  intros Hi. destruct i as [event id data|s]; [|done].
  destruct Hi as (_ & Hid & _). unfold item_lines, between.
  assert (∀ ty last first, feed_lines (SseState ty [] last first) ((field_line "data" <$> data) ++ [[]]) =
    (SseState (text_of "message") [] last false,
     match data with [] => [] | _ => [ServerSentEvent ty (text_join 10 data) last] end)) as Hdata.
  { intros ty l f. rewrite feed_lines_app, feed_data. simpl. by destruct data. }
  destruct event as [event|], id as [id|]; unfold option_list; cbn [option_rect fmap list_fmap app feed_lines];
    rewrite ?feed_event; cbn [feed_lines]; rewrite ?feed_id by apply Hid; cbn [feed_lines]; rewrite Hdata;
    by destruct data.
Qed.

Lemma items_events_cons last i items :
  items_events last (i :: items) =
    items_events last [i] ++
    items_events (match i with Event _ (Some id) _ => Some id | _ => last end) items.
Proof. by destruct i as [event [id|] [|d data]|s]. Qed.

Lemma feed_items last first items :
  Forall item_ok items →
  (feed_lines (between last first) (items ≫= item_lines)).2 = items_events last items.
Proof.
  intros Hi. revert last first. induction Hi as [|i items Hi Hitems IH]; intros last first; [done|].
  cbn [mbind list_bind]. rewrite feed_lines_app, feed_item, (items_events_cons last i items) by done. cbn iota beta.
  specialize (IH (match i with Event _ (Some id) _ => Some id | _ => last end) false).
  destruct (feed_lines _ (items ≫= item_lines)) as [st evs]. cbn [snd] in *. by rewrite IH.
Qed.

Lemma item_lines_plain i : item_ok i → Forall plain_line (item_lines i).
Proof.
  assert (∀ name s, Forall (λ c, scalar c ∧ c ≠ 10 ∧ c ≠ 13)%Z (text_of name) →
    head (text_of name) ≠ Some 65279%Z → line_ok s → plain_line (field_line name s)) as Hfield.
  { intros name s Hn Hh Hs. split.
    - apply Forall_app. split; [done|]. do 2 (constructor; [unfold scalar; lia|]). done.
    - by destruct name. }
  destruct i as [event id data|s].
  - intros (He & Hid & Hd). unfold item_lines. rewrite !Forall_app, !Forall_fmap. split_and!.
    + destruct event as [s|]; constructor; [|constructor].
      apply Hfield; [apply (bool_decide_unpack _); vm_compute; exact I|done|done].
    + destruct id as [s|]; constructor; [|constructor].
      apply Hfield; [apply (bool_decide_unpack _); vm_compute; exact I|done|apply Hid].
    + eapply Forall_impl; [exact Hd|]. intros s Hs.
      apply Hfield; [apply (bool_decide_unpack _); vm_compute; exact I|done|done].
    + apply Forall_singleton. split; [constructor|done].
  - intros Hs. apply Forall_singleton. split; [|done]. constructor; [unfold scalar; lia|done].
Qed.

(** Whatever a conforming server sends, split into lines and encoded in
    UTF-8, the decoder recovers: the events with data, in order, each with its
    type, its data and the last id seen; comments and a byte order mark are
    dropped, and no error is raised. *)
Lemma sse_roundtrip bom items :
  Forall item_ok items →
  iter_sse_events sse_start (render bom (items ≫= item_lines)) = (items_events None items, None).
Proof.
  intros Hi. rewrite iter_render.
  - f_equal. by apply (feed_items None true).
  - induction Hi as [|i items Hi Hitems IH]; [constructor|]. cbn [mbind list_bind].
    apply Forall_app. split; [by apply item_lines_plain|done].
Qed.

(** ** The stream in a world *)

Record stream := Stream {
  s_lines : list (res raw_line);
  s_orders : list received_order;
  s_released : nat;
}.

Section world.
Context (monotonic epoch : nat → pyfloat) (more : list received_order → bool).

Definition stream_handle (X : Type) (op : orderE X) : stream → X * stream :=
  match op with
  | OReadLine => λ w,
      match s_lines w with
      | [] => (Ok (RawBytes []), w)
      | l :: ls => (l, Stream ls (s_orders w) (s_released w))
      end
  | OMonotonic => λ w, (monotonic (length (s_orders w)), w)
  | OEpoch => λ w, (epoch (length (s_orders w)), w)
  | OYield o => λ w, (more (s_orders w ++ [o]), Stream (s_lines w) (s_orders w ++ [o]) (s_released w))
  | ORelease => λ w, (tt, Stream (s_lines w) (s_orders w) (S (s_released w)))
  end.
Abbreviation run := (Program.run stream_handle).

Context (loads : text → loaded).

(** The orders among the events, up to the first that is malformed. *)
Fixpoint orders_of (evs : list server_sent_event)
  : list (list (string * pyval) * option text) * option exn :=
  match evs with
  | [] => ([], None)
  | ev :: evs =>
      if negb (bool_decide (ev_event ev = text_of "order")) then orders_of evs else
      match parse_order loads (ev_data ev) with
      | Ok d => let '(os, e) := orders_of evs in ((d, ev_id ev) :: os, e)
      | Raise e => ([], Some e)
      end
  end.

(** The loop never releases the response. *)
Lemma order_loop_released fuel st w : s_released (run (order_loop loads fuel st) w).2 = s_released w.
Proof using.
  revert st w. induction fuel as [|fuel IH]; intros st w; [done|]. cbn [order_loop].
  rewrite run_bind, run_call. cbn [stream_handle].
  destruct (s_lines w) as [|[raw|e] ls] eqn:Hw; [done| |done].
  destruct (is_empty_line raw); [done|].
  rewrite run_bind, run_lift. destruct (sse_feed st raw) as [[st' [ev|]]|e]; [|by rewrite IH|done].
  destruct (negb _); [by rewrite IH|]. simpl. rewrite run_bind, run_lift.
  destruct (parse_order _ _) as [d|e]; [|done]. simpl. destruct (more _); [by rewrite IH|done].
Qed.

Definition stop_result (bad stop : option exn) : res unit :=
  match bad, stop with Some e, _ | None, Some e => Raise e | None, None => Ok tt end.
Definition delivered (w : stream) : list (list (string * pyval) * option text) :=
  (λ o, (ro_order o, ro_event_id o)) <$> s_orders w.

(** A consumer that never closes gets the orders of the decoded events. *)
Lemma order_loop_orders (Hmore : ∀ os, more os = true) fuel st raws w :
  length raws < fuel → s_lines w = Ok <$> raws → Forall (λ r, is_empty_line r = false) raws →
  let '(evs, stop) := iter_sse_events st raws in
  let '(os, bad) := orders_of evs in
  ∃ w', run (order_loop loads fuel st) w = (stop_result bad stop, w') ∧ delivered w' = delivered w ++ os.
Proof using.
  revert fuel st w. induction raws as [|raw raws IH]; intros fuel st w Hfuel Hlines Hne;
    (destruct fuel as [|fuel]; [simpl in Hfuel; lia|]); cbn [order_loop]; rewrite run_bind, run_call;
    cbn [stream_handle]; rewrite Hlines; cbn [fmap list_fmap iter_sse_events].
  { simpl. eexists. split; [done|]. by rewrite app_nil_r. }
  inversion_clear Hne as [|?? Hraw Hraws]. rewrite Hraw, run_bind, run_lift. simpl in Hfuel.
  destruct (sse_feed st raw) as [[st' ev]|e].
  2:{ simpl. eexists. split; [done|]. by rewrite app_nil_r. }
  assert (∀ os, let w1 := Stream (Ok <$> raws) os (s_released w) in
    let '(evs, stop) := iter_sse_events st' raws in
    let '(os', bad) := orders_of evs in
    ∃ w', run (order_loop loads fuel st') w1 = (stop_result bad stop, w') ∧
      delivered w' = delivered w1 ++ os') as Hrest by (intros os; apply IH; [lia|done|done]).
  clear IH. destruct (iter_sse_events st' raws) as [evs stop]. destruct ev as [ev|]; [|apply Hrest].
  cbn [option_list option_rect app orders_of].
  destruct (negb _); [apply Hrest|]. simpl. rewrite run_bind, run_lift.
  destruct (parse_order loads (ev_data ev)) as [d|e].
  2:{ simpl. eexists. split; [done|]. unfold delivered. simpl. by rewrite app_nil_r. }
  simpl. rewrite Hmore. match goal with |- context [Stream _ ?os _] => specialize (Hrest os) end.
  destruct (orders_of evs) as [os bad]. destruct Hrest as (w' & Hrun & Hdel).
  exists w'. split; [done|]. rewrite Hdel. unfold delivered. simpl. by rewrite fmap_app, <- app_assoc.
Qed.
End world.

Lemma render_nonempty bom lines : Forall (λ r, is_empty_line r = false) (render bom lines).
Proof.
  assert (∀ s, is_empty_line (render_line s) = false) as Hl.
  { intros s. unfold render_line, utf8_encode. simpl. rewrite bind_app. simpl.
    by destruct (s ≫= encode_one). }
  destruct lines as [|l lines]; [constructor|]. simpl. constructor; [apply Hl|].
  apply Forall_fmap, Forall_true. intros x. apply Hl.
Qed.

(** C15: What the server sends is what the load generator observes.  For every
    stream of events and keep-alive comments, in UTF-8 and with or without a
    byte order mark, the orders delivered are exactly those of the order
    events with data, in order and with their ids, up to the first that is not
    a JSON object naming its order and status; that one raises.  As many turns
    as the stream has lines, and one more, are enough, and the response is
    released once. *)
Theorem order_stream_delivers (monotonic epoch : nat → pyfloat) (loads : text → loaded) bom items fuel :
  Forall item_ok items → length (items ≫= item_lines) < fuel →
  let '(os, bad) := orders_of loads (items_events None items) in
  ∃ w', Program.run (stream_handle monotonic epoch (λ _, true)) (iter_received_orders loads true true fuel)
      (Stream (Ok <$> render bom (items ≫= item_lines)) [] 0) = (stop_result bad None, w') ∧
    delivered w' = os ∧ s_released w' = 1.
Proof.
  intros Hitems Hfuel.
  pose proof (order_loop_orders monotonic epoch (λ _, true) loads (λ _, eq_refl) fuel sse_start
    (render bom (items ≫= item_lines)) (Stream (Ok <$> render bom (items ≫= item_lines)) [] 0)) as Hloop.
  pose proof (order_loop_released monotonic epoch (λ _, true) loads fuel sse_start
    (Stream (Ok <$> render bom (items ≫= item_lines)) [] 0)) as Hrel.
  rewrite sse_roundtrip in Hloop by done. destruct (orders_of loads _) as [os bad].
  destruct Hloop as (w' & Hrun & Hdel).
  { destruct (items ≫= item_lines) as [|l ls]; simpl in *; rewrite ?length_fmap; lia. }
  { done. }
  { apply render_nonempty. }
  exists (Stream (s_lines w') (s_orders w') 1). split_and!; [|done|done].
  rewrite Hrun in Hrel. simpl in Hrel. unfold iter_received_orders.
  cbn [negb]. rewrite run_bind, run_try, Hrun, run_bind. cbn [close_stream_response].
  simpl. by rewrite run_lift, Hrel.
Qed.

(** Whatever the stream brings and wherever the iteration ends (its end,
    a broken connection, a malformed event, the consumer closing it), an open
    response is released exactly once. *)
Theorem response_released monotonic epoch more loads (releasable : bool) fuel w :
  s_released (Program.run (stream_handle monotonic epoch more)
    (iter_received_orders loads true releasable fuel) w).2
  = s_released w + (if releasable then 1 else 0).
Proof.
  unfold iter_received_orders. cbn [negb]. rewrite run_bind, run_try, <- (order_loop_released monotonic epoch more loads fuel sse_start w).
  destruct (Program.run _ (order_loop _ _ _) w) as [r w1]. rewrite run_bind.
  destruct releasable; simpl; rewrite run_lift; simpl; lia.
Qed.

(** ** Concrete streams *)

Definition demo_loads (s : text) : loaded :=
  if decide (s = text_of "{o}") then Loaded (PDict [("order_id", PStr "o-1"); ("status", PStr "COMPLETED")])
  else DecodeError.
Definition demo_items : list item :=
  [Event (Some (text_of "order")) (Some (text_of "7")) [text_of "{o}"];
   Comment (text_of " keep-alive"); Event None None [];
   Event (Some (text_of "order")) None [[128512%Z]]].

Lemma order_stream_delivers_witness :
  ∃ w', Program.run (stream_handle (λ _, float_dec 1 0) (λ _, float_dec 2 0) (λ _, true))
      (iter_received_orders demo_loads true true 20)
      (Stream (Ok <$> render true (demo_items ≫= item_lines)) [] 0) =
        (Raise (SSEProtocolError "order event data is not valid JSON"), w') ∧
    delivered w' = [([("order_id", PStr "o-1"); ("status", PStr "COMPLETED")], Some (text_of "7"))] ∧
    s_released w' = 1.
Proof.
  apply (order_stream_delivers (λ _, float_dec 1 0) (λ _, float_dec 2 0) demo_loads true demo_items 20).
  - apply (bool_decide_unpack _). vm_compute. exact I.
  - vm_compute. lia.
Defined.
