(* ===== verification/EmailWorker.v ===== *)
(** * The order confirmation worker (emailservice/nats_worker.py)

    The worker turns completed orders into confirmation events.  Its
    connection to NATS, the parsing of envelopes and SHA-256 are outside the
    repository; messages of a batch are settled by several tasks that share
    one iterator. *)

From S2P Require Import Prelude PyFloat PyValue PyText Program.
From Stdlib Require Import Ascii.

(** [nats_worker.py:28-33 ORDER_SUBJECT] *)
Definition ORDER_SUBJECT : string := "boutique.evt.order.completed.v1".
Definition SENT_SUBJECT : string := "boutique.evt.notification.order-confirmation-sent.v1".
Definition FAILED_SUBJECT : string := "boutique.evt.notification.order-confirmation-failed.v1".
Definition NOTIFICATION_TYPE : string := "order-confirmation".
Definition RESULT_SLOT : string := "notification.order-confirmation".

(** ** Messages

    The payload of an envelope by its protobuf type; [Unpack] succeeds
    exactly on completed orders. *)
Inductive order_payload :=
  | OrderCompleted (order_id email : string)
  | OtherData (type_url : string).

Record order_envelope := OrderEnvelope {
  oe_message_id : string;
  oe_correlation_id : string;
  oe_aggregate_id : string;
  oe_aggregate_version : Z;
  oe_occurred_at : option (Z * Z);
  oe_data : option order_payload;
  oe_traceparent : string;
  oe_tracestate : string;
}.

Inductive confirmation :=
  | ConfirmationSent (order_id masked_recipient provider_message_id : string)
  | ConfirmationFailed (order_id code : string) (retryable : bool) (safe_message : string)
      (attempt_count : Z).

(** The published envelope; schema version, producer and aggregate type are
    constants. *)
Record result_envelope := ResultEnvelope {
  re_message_id : string;
  re_message_type : string;
  re_aggregate_id : string;
  re_aggregate_version : Z;
  re_correlation_id : string;
  re_causation_id : string;
  re_traceparent : string;
  re_tracestate : string;
  re_data : confirmation;
  re_occurred_at : Z * Z;
}.

Record outcome := Outcome {
  oc_subject : string;
  oc_message_id : string;
  oc_provider_key : string;
  oc_data : result_envelope;
}.

(** A delivery; [om_token] is its reply subject. *)
Record delivery := Delivery { om_token : nat; om_data : string }.
#[export] Instance delivery_eq_dec : EqDecision delivery.
Proof. solve_decision. Defined.

(** ** Environment *)

Inductive fetched :=
  | Fetched (messages : list delivery)
  | FetchTimedOut
  | FetchInterrupted (e : exn)
  | FetchRaised (e : exn).

(** [ETake worker] is [next(messages)] in a task; [EBatch] runs the tasks of
    one batch to the end. *)
Inductive emailE : Type → Type :=
  | EPublish (subject message_id : string) (data : result_envelope) : emailE (res unit)
  | EAck (m : delivery) : emailE (res unit)
  | ENak (m : delivery) : emailE (res unit)
  | ETake (worker : nat) : emailE (option delivery)
  | EStopped : emailE bool
  | EReady (ready : bool) : emailE unit
  | EFetch (batch : Z) : emailE fetched
  | EBatch (messages : list delivery) (failure_mode : string) (concurrency : Z) : emailE (res unit)
  | EConnect : emailE (res unit)
  | ESubscribe : emailE (res unit)
  | EDrain : emailE (res unit)
  | ESleep : emailE unit.

Section worker.
(** [environ] is [os.getenv]; [to_datetime] the range check of protobuf
    timestamps; [span] the trace context of the consumer span, when tracing
    is enabled. *)
Context (environ : string → option string).
Context (parse : string → res order_envelope) (to_datetime : Z * Z → res unit).
Context (sha256 : list Z → list Z) (span : option (string * string)).

Definition getenv (name : string) : string := default "" (environ name).

(** ** Identifiers *)

(** [nats_worker.py:43-47 _stable_id] *)
Definition stable_id (parts : list string) : res string :=
  let digest := take 16 (sha256 (str_encode (str_join (String (ascii_of_nat 0) "") parts))) in
  _ ← raise_if (negb (length digest =? 16)%nat) (ValueError "bytes is not a 16-char string");
  let digest := alter (λ b, Z.lor (Z.land b 15) 80) 6 digest in
  let digest := alter (λ b, Z.lor (Z.land b 63) 128) 8 digest in
  Ok (uuid_str digest).

(** [struct.pack(">I", n)] *)
Definition pack_u32 (n : Z) : res (list Z) :=
  if (n <? 4294967296)%Z
  then Ok [n / 16777216 mod 256; n / 65536 mod 256; n / 256 mod 256; n mod 256]%Z
  else Raise (OtherError "struct.error").

(** The bytes that are hashed. *)
Definition result_preimage (input_message_id result_slot : string) : res (list Z) :=
  let input_bytes := str_encode input_message_id in
  let slot_bytes := str_encode result_slot in
  input_length ← pack_u32 (Z.of_nat (length input_bytes));
  slot_length ← pack_u32 (Z.of_nat (length slot_bytes));
  Ok (str_encode "boutique.result.v1" ++ [0%Z] ++ input_length ++ input_bytes ++ slot_length ++ slot_bytes).

(** [nats_worker.py:50-61 _result_message_id] *)
Definition result_message_id (input_message_id result_slot : string) : res string :=
  if String.eqb input_message_id "" then Raise (ValueError "input message ID is required") else
  preimage ← result_preimage input_message_id result_slot;
  Ok ("br1_" +:+ str_rstrip "=" (urlsafe_b64encode (sha256 preimage))).

(** [nats_worker.py:64-68 _mask_recipient] *)
Definition mask_recipient (address : string) : string :=
  let '(local, separator, domain) := str_partition "@"%char address in
  if negb separator then "***"
  else (if String.eqb local "" then "*" else String.substring 0 1 local) +:+ "***@" +:+ domain.

(** [nats_worker.py:71-74 _provider_idempotency_key] *)
Definition provider_idempotency_key (order_id notification_type : string) : res string :=
  if String.eqb order_id "" || String.eqb notification_type ""
  then Raise (ValueError "order ID and notification type are required")
  else Ok (order_id +:+ ":" +:+ notification_type).

(** ** The outcome of an order *)

(** [nats_worker.py:77-83 _validate_input] *)
Definition validate_input (e : order_envelope) : res unit :=
  let incomplete := Raise (ValueError "completed order envelope is incomplete") in
  if String.eqb (oe_message_id e) "" || String.eqb (oe_correlation_id e) ""
     || String.eqb (oe_aggregate_id e) "" || (oe_aggregate_version e =? 0)%Z then incomplete
  else match oe_occurred_at e, oe_data e with
       | Some time, Some _ => to_datetime time
       | _, _ => incomplete
       end.

(** The confirmation and its subject and type.
    [nats_worker.py:100-119 _build_outcome] *)
Definition build_confirmation (failure_mode order_id email provider_key : string)
  : res (string * confirmation * string) :=
  if String.eqb failure_mode "failed" then
    Ok (FAILED_SUBJECT,
        ConfirmationFailed order_id "EMAIL_PROVIDER_UNAVAILABLE" true
          "Order confirmation could not be sent." 1,
        "boutique.notification.OrderConfirmationFailed.v1")
  else
    provider_message_id ← stable_id ["email-provider-v1"; provider_key];
    Ok (SENT_SUBJECT, ConfirmationSent order_id (mask_recipient email) provider_message_id,
        "boutique.notification.OrderConfirmationSent.v1").

(** [nats_worker.py:86-144 _build_outcome] *)
Definition build_outcome (e : order_envelope) (failure_mode : option string) : res outcome :=
  _ ← validate_input e;
  match oe_data e, oe_occurred_at e with
  | Some (OrderCompleted order_id email), Some occurred_at =>
      if String.eqb order_id "" then Raise (ValueError "completed order payload is invalid") else
      if negb (String.eqb order_id (oe_aggregate_id e))
      then Raise (ValueError "completed order does not match the envelope aggregate") else
      provider_key ← provider_idempotency_key order_id NOTIFICATION_TYPE;
      let mode := default (getenv "EMAIL_FAILURE_MODE") failure_mode in
      c ← build_confirmation mode order_id email provider_key;
      message_id ← result_message_id (oe_message_id e) RESULT_SLOT;
      Ok (Outcome c.1.1 message_id provider_key
        (ResultEnvelope message_id c.2 order_id (oe_aggregate_version e) (oe_correlation_id e)
          (oe_message_id e) (oe_traceparent e) (oe_tracestate e) c.1.2 occurred_at))
  | _, _ => Raise (ValueError "completed order payload is invalid")
  end.

(** [nats_worker.py:147-155 _bounded_integer_env] *)
Definition bounded_integer_env (name : string) (fallback minimum maximum : Z) : res Z :=
  value ← match environ name with
          | Some raw =>
              if String.eqb raw "" then Ok fallback else
              match int_of_str raw with
              | Raise (ValueError _) => Raise (ValueError (name +:+ " must be an integer"))
              | r => r
              end
          | None => Ok fallback
          end;
  if ((value <? minimum) || (maximum <? value))%Z
  then Raise (ValueError (name +:+ " must be between " +:+ pretty minimum +:+ " and " +:+ pretty maximum))
  else Ok value.

(** ** Messages *)

(** [inject_envelope]: the propagation fields are those of the span. *)
Definition with_span (e : order_envelope) : order_envelope :=
  match span with
  | Some (traceparent, tracestate) =>
      OrderEnvelope (oe_message_id e) (oe_correlation_id e) (oe_aggregate_id e)
        (oe_aggregate_version e) (oe_occurred_at e) (oe_data e) traceparent tracestate
  | None => e
  end.

Definition message_outcome (m : delivery) (failure_mode : string) : res outcome :=
  e ← parse (om_data m); build_outcome (with_span e) (Some failure_mode).

(** [nats_worker.py:188-236 _process_message] *)
Definition process_message (m : delivery) (failure_mode : string) : prog emailE unit :=
  r ← prog_try (
    o ← lift (message_outcome m failure_mode);
    _ ← call (EPublish (oc_subject o) (oc_message_id o) (oc_data o));
    call (EAck m));
  match r with
  | Ok _ => Ret tt
  | Raise _ => call (ENak m)
  end.

(** One task of a batch; the number of messages left is fuel enough.  The
    answer is whether the iterator was exhausted.
    [nats_worker.py:243-245 _process_messages.process] *)
Fixpoint process (fuel worker : nat) (failure_mode : string) : prog emailE bool :=
  match fuel with
  | 0 => Ret false
  | S fuel =>
      next ← perform (ETake worker);
      match next with
      | None => Ret true
      | Some m => _ ← process_message m failure_mode; process fuel worker failure_mode
      end
  end.

(** The tasks [gather] runs together.
    [nats_worker.py:239-247 _process_messages] *)
Definition process_messages (messages : list delivery) (failure_mode : string) (concurrency : Z)
  : list (prog emailE bool) :=
  let worker_count := Z.min concurrency (Z.of_nat (length messages)) in
  (λ worker, process (S (length messages)) worker failure_mode) <$> seq 0 (Z.to_nat worker_count).

(** ** The connection *)

(** [None]: still waiting after [fuel] requests.
    [nats_worker.py:158-179 _fetch_messages] *)
Fixpoint fetch_messages (fuel : nat) (batch_size : Z) : prog emailE (option (list delivery)) :=
  match fuel with
  | 0 => Ret None
  | S fuel =>
      stopped ← perform EStopped;
      if (stopped : bool) then Ret (Some []) else
      r ← perform (EFetch batch_size);
      match r with
      | FetchTimedOut => _ ← perform (EReady true); fetch_messages fuel batch_size
      | FetchInterrupted _ =>
          _ ← perform (EReady false);
          Throw (RuntimeError "email durable subscription fetch failed")
      | FetchRaised e => Throw e
      | Fetched messages =>
          _ ← perform (EReady true);
          match messages with
          | [] => fetch_messages fuel batch_size
          | _ => Ret (Some messages)
          end
      end
  end.

(** [None]: still serving after [fuel] batches.
    [nats_worker.py:284-288 _consume_connection] *)
Fixpoint serve (fuel : nat) (batch_size : Z) (failure_mode : string) (concurrency : Z)
  : prog emailE (option unit) :=
  match fuel with
  | 0 => Ret None
  | S n =>
      stopped ← perform EStopped;
      if (stopped : bool) then Ret (Some tt) else
      messages ← fetch_messages fuel batch_size;
      match messages with
      | None => Ret None
      | Some [] => serve n batch_size failure_mode concurrency
      | Some messages =>
          _ ← call (EBatch messages failure_mode concurrency);
          serve n batch_size failure_mode concurrency
      end
  end.

(** [None]: the connection is still open.
    [nats_worker.py:250-291 _consume_connection] *)
Definition consume_connection (fuel : nat) : prog emailE (option unit) :=
  _ ← call EConnect;
  r ← prog_try (
    _ ← call ESubscribe;
    let failure_mode := getenv "EMAIL_FAILURE_MODE" in
    batch_size ← lift (bounded_integer_env "NATS_CONSUMER_BATCH_SIZE" 32 1 256);
    concurrency ← lift (bounded_integer_env "NATS_CONSUMER_CONCURRENCY" 8 1 64);
    _ ← perform (EReady true);
    serve fuel batch_size failure_mode concurrency);
  match r with
  | Ok None => Ret None
  | _ => _ ← perform (EReady false); _ ← call EDrain; lift r
  end.

(** [None]: still running after [fuel] connections.
    [nats_worker.py:300-310 _run] *)
Fixpoint reconnect (fuel connection_fuel : nat) : prog emailE (option unit) :=
  match fuel with
  | 0 => Ret None
  | S fuel =>
      stopped ← perform EStopped;
      if (stopped : bool) then Ret (Some tt) else
      r ← prog_try (consume_connection connection_fuel);
      match r with
      | Ok None => Ret None
      | Ok (Some _) => reconnect fuel connection_fuel
      | Raise _ =>
          _ ← perform (EReady false);
          stopped ← perform EStopped;
          if (stopped : bool) then Ret (Some tt)
          else _ ← perform ESleep; reconnect fuel connection_fuel
      end
  end.

(** [nats_worker.py:294-310 _run] *)
Definition email_run (fuel connection_fuel : nat) : prog emailE (option unit) :=
  let required := ["NATS_URL"; "NATS_USER"; "NATS_PASSWORD"; "NATS_CA_FILE"; "REGION_ID"; "K8S_CLUSTER_NAME"] in
  match list_find (λ name, getenv name = "") required with
  | Some (_, name) => Throw (RuntimeError (name +:+ " is required"))
  | None => reconnect fuel connection_fuel
  end.
End worker.

(** ** Identifiers: lemmas *)

Lemma pack_u32_inj n n' bs :
  (0 ≤ n)%Z → (0 ≤ n')%Z → pack_u32 n = Ok bs → pack_u32 n' = Ok bs → n = n'.
Proof.
  unfold pack_u32. intros Hn Hn'. destruct (n <? 4294967296)%Z eqn:H1; [|done].
  destruct (n' <? 4294967296)%Z eqn:H2; [|done]. intros [= <-] [= H3 H4 H5 H6].
  Z.to_euclidean_division_equations; lia.
Qed.

Lemma pack_u32_length n bs : pack_u32 n = Ok bs → length bs = 4.
Proof. unfold pack_u32. case_match; [|done]. by intros [= <-]. Qed.

Lemma pack_u32_sized a a' bs :
  pack_u32 (Z.of_nat (length (str_encode a))) = Ok bs →
  pack_u32 (Z.of_nat (length (str_encode a'))) = Ok bs →
  length (str_encode a) = length (str_encode a').
Proof. intros H H'. apply Nat2Z.inj. by eapply pack_u32_inj; [lia|lia|..]. Qed.

Lemma result_preimage_ok a s p :
  result_preimage a s = Ok p ↔
    ∃ la ls, pack_u32 (Z.of_nat (length (str_encode a))) = Ok la ∧
      pack_u32 (Z.of_nat (length (str_encode s))) = Ok ls ∧
      p = str_encode "boutique.result.v1" ++ [0%Z] ++ la ++ str_encode a ++ ls ++ str_encode s.
Proof.
  unfold result_preimage. split.
  - intros H. apply res_bind_ok in H as (la & Ha & H). apply res_bind_ok in H as (ls & Hs & [= <-]). eauto.
  - intros (la & ls & -> & Hs & ->). simpl. by rewrite Hs.
Qed.

(** The length prefixes keep the two parts apart. *)
Lemma result_preimage_inj a s a' s' p :
  result_preimage a s = Ok p → result_preimage a' s' = Ok p → a = a' ∧ s = s'.
Proof.
  rewrite !result_preimage_ok. intros (la & ls & Ha & Hs & ->) (la' & ls' & Ha' & Hs' & Heq).
  apply app_inv_head in Heq. injection Heq as Heq.
  apply app_inj_1 in Heq as [<- Heq]; [|by rewrite (pack_u32_length _ _ Ha), (pack_u32_length _ _ Ha')].
  apply app_inj_1 in Heq as [Hab Heq]; [|by eapply pack_u32_sized].
  apply app_inj_1 in Heq as [_ Heq]; [|by rewrite (pack_u32_length _ _ Hs), (pack_u32_length _ _ Hs')].
  split; by apply str_encode_inj.
Qed.

(** ** The world of the worker

    The oracle answers the broker's operations by the number performed so
    far; the log holds what the broker accepted. *)
Inductive email_sent :=
  | Published (subject message_id : string) (data : result_envelope)
  | Acked (m : delivery)
  | Nacked (m : delivery).

Record email_oracle := EmailOracle {
  eo_publish : nat → res unit;
  eo_ack : nat → res unit;
  eo_nak : nat → res unit;
  eo_stopped : nat → bool;
  eo_fetch : nat → fetched;
  eo_batch : nat → res unit;
  eo_connect : nat → res unit;
  eo_subscribe : nat → res unit;
  eo_drain : nat → res unit;
}.

(** [ew_open] counts the connections that are open. *)
Record email_world := EmailWorld {
  ew_queue : list delivery;
  ew_taken : list (nat * delivery);
  ew_log : list email_sent;
  ew_ready : bool;
  ew_open : nat;
  ew_step : nat;
}.

Definition logged (r : res unit) (x : email_sent) (w : email_world) : email_world :=
  EmailWorld (ew_queue w) (ew_taken w) (if is_ok r then ew_log w ++ [x] else ew_log w)
    (ew_ready w) (ew_open w) (S (ew_step w)).
Lemma logged_log r x w : ew_log (logged r x w) = ew_log w ++ (if is_ok r then [x] else []).
Proof. simpl. destruct (is_ok r); by rewrite ?app_nil_r. Qed.
Definition ticked (ready : bool) (connections : nat) (w : email_world) : email_world :=
  EmailWorld (ew_queue w) (ew_taken w) (ew_log w) ready connections (S (ew_step w)).

Definition email_handle (o : email_oracle) (X : Type) (op : emailE X) : email_world → X * email_world :=
  match op with
  | EPublish subject id data => λ w,
      let r := eo_publish o (ew_step w) in (r, logged r (Published subject id data) w)
  | EAck m => λ w, let r := eo_ack o (ew_step w) in (r, logged r (Acked m) w)
  | ENak m => λ w, let r := eo_nak o (ew_step w) in (r, logged r (Nacked m) w)
  | ETake worker => λ w,
      match ew_queue w with
      | [] => (None, w)
      | m :: queue => (Some m, EmailWorld queue (ew_taken w ++ [(worker, m)]) (ew_log w) (ew_ready w)
                                 (ew_open w) (ew_step w))
      end
  | EStopped => λ w, (eo_stopped o (ew_step w), ticked (ew_ready w) (ew_open w) w)
  | EReady ready => λ w, (tt, ticked ready (ew_open w) w)
  | EFetch _ => λ w, (eo_fetch o (ew_step w), ticked (ew_ready w) (ew_open w) w)
  | EBatch _ _ _ => λ w, (eo_batch o (ew_step w), ticked (ew_ready w) (ew_open w) w)
  | EConnect => λ w,
      let r := eo_connect o (ew_step w) in
      (r, ticked (ew_ready w) (if is_ok r then S (ew_open w) else ew_open w) w)
  | ESubscribe => λ w, (eo_subscribe o (ew_step w), ticked (ew_ready w) (ew_open w) w)
  | EDrain => λ w, (eo_drain o (ew_step w), ticked (ew_ready w) (pred (ew_open w)) w)
  | ESleep => λ w, (tt, ticked (ew_ready w) (ew_open w) w)
  end.

Definition settles (m : delivery) (x : email_sent) : bool :=
  match x with Acked m' | Nacked m' => bool_decide (m' = m) | Published _ _ _ => false end.
(** How often a delivery was acknowledged, positively or negatively. *)
Definition settled (m : delivery) (log : list email_sent) : nat :=
  length (filter (λ x, settles m x = true) log).

Lemma settled_app m l l' : settled m (l ++ l') = settled m l + settled m l'.
Proof. unfold settled. by rewrite filter_app, length_app. Qed.

Lemma settled_cons m x l : settled m (x :: l) = (if settles m x then 1 else 0) + settled m l.
Proof.
  unfold settled. rewrite list.filter_cons. destruct (settles m x); [by rewrite decide_True|by rewrite decide_False].
Qed.

Section theory.
Context (environ : string → option string) (parse : string → res order_envelope)
  (to_datetime : Z * Z → res unit) (sha256 : list Z → list Z) (span : option (string * string)).
Abbreviation outcome_of := (message_outcome environ parse to_datetime sha256 span).
Abbreviation process_message := (process_message environ parse to_datetime sha256 span).
Abbreviation process := (process environ parse to_datetime sha256 span).

Lemma process_message_log o m mode w :
  let '(r, w') := run (email_handle o) (process_message m mode) w in
  ∃ l, ew_log w' = ew_log w ++ l ∧
    match r with
    | Ok _ => (∃ oc, outcome_of m mode = Ok oc ∧
                 l = [Published (oc_subject oc) (oc_message_id oc) (oc_data oc); Acked m]) ∨
              l = [Nacked m] ∨
              (∃ oc, outcome_of m mode = Ok oc ∧
                 l = [Published (oc_subject oc) (oc_message_id oc) (oc_data oc); Nacked m])
    | Raise _ => l = [] ∨
              (∃ oc, outcome_of m mode = Ok oc ∧
                 l = [Published (oc_subject oc) (oc_message_id oc) (oc_data oc)])
    end.
Proof using.
  assert (∀ w1, run (email_handle o) (call (ENak m)) w1 =
    (eo_nak o (ew_step w1), logged (eo_nak o (ew_step w1)) (Nacked m) w1)) as Hnak
    by (intros w1; by rewrite run_call).
  unfold EmailWorker.process_message. rewrite run_bind, run_try, run_bind, run_lift.
  destruct (outcome_of m mode) as [oc|e] eqn:Hoc.
  2:{ rewrite Hnak. exists (if is_ok (eo_nak o (ew_step w)) then [Nacked m] else []).
      split; [apply logged_log|]. destruct (eo_nak o (ew_step w)); simpl; auto. }
  rewrite run_bind, run_call. cbn [email_handle]. pose proof (logged_log (eo_publish o (ew_step w))
    (Published (oc_subject oc) (oc_message_id oc) (oc_data oc)) w) as Hlog.
  destruct (eo_publish o (ew_step w)) as [[]|e]; set (w1 := logged _ _ w) in *; clearbody w1.
  - rewrite run_call. cbn [email_handle].
    pose proof (logged_log (eo_ack o (ew_step w1)) (Acked m) w1) as Hlog1.
    destruct (eo_ack o (ew_step w1)) as [[]|e]; set (w2 := logged _ _ w1) in *; clearbody w2.
    + cbn [Program.run]. eexists. rewrite Hlog1, Hlog, <- app_assoc. split; [done|]. left. by exists oc.
    + rewrite Hnak, logged_log, Hlog1, Hlog, <- !app_assoc. eexists. split; [done|].
      destruct (eo_nak o (ew_step w2)); simpl; eauto 10.
  - rewrite Hnak, logged_log, Hlog, <- !app_assoc. eexists. split; [done|].
    destruct (eo_nak o (ew_step w1)); simpl; auto.
Qed.

(** *** The tasks of a batch *)

Definition batch_total (w : email_world) : list delivery := (ew_taken w).*2 ++ ew_queue w.
Definition took (i : nat) (w : email_world) : list (nat * delivery) := filter (λ x, x.1 = i) (ew_taken w).
Definition fresh (w : email_world) : Prop := ∀ m, m ∈ ew_queue w → settled m (ew_log w) = 0.

(** What the other tasks may do while task [i] waits, and what it may do:
    only the task that took a message settles it. *)
Definition rely (i : nat) (w w' : email_world) : Prop :=
  batch_total w' = batch_total w ∧ took i w' = took i w ∧
  length (ew_queue w') ≤ length (ew_queue w) ∧
  (NoDup (batch_total w) → fresh w → fresh w') ∧
  (NoDup (batch_total w) → ∀ m, (i, m) ∈ ew_taken w → settled m (ew_log w') = settled m (ew_log w)).
Definition guar (i : nat) (w w' : email_world) : Prop :=
  batch_total w' = batch_total w ∧ (∀ j, i ≠ j → took j w' = took j w) ∧
  length (ew_queue w') ≤ length (ew_queue w) ∧
  (NoDup (batch_total w) → fresh w → fresh w') ∧
  (∀ m, settled m (ew_log w') ≠ settled m (ew_log w) → (i, m) ∈ ew_taken w).

Lemma took_elem i m w : (i, m) ∈ ew_taken w ↔ (i, m) ∈ took i w.
Proof using. unfold took. rewrite list_elem_of_filter. naive_solver. Qed.

#[export] Instance rely_preorder i : PreOrder (rely i).
Proof using.
  split.
  - intros w. by unfold rely.
  - intros w1 w2 w3 (T1 & K1 & L1 & F1 & S1) (T2 & K2 & L2 & F2 & S2).
    split_and!; [congruence|congruence|lia|..].
    + intros Hn Hf. rewrite <- T1 in Hn. apply F2; [done|]. apply F1; [by rewrite <- T1|done].
    + intros Hn m Hm. rewrite <- S1 by done. apply S2; [by rewrite T1|].
      apply took_elem. rewrite K1. by apply took_elem.
Qed.

Lemma taken_once i j m w : NoDup (batch_total w) → (i, m) ∈ ew_taken w → (j, m) ∈ ew_taken w → i = j.
Proof using.
  unfold batch_total. intros [Hn _]%NoDup_app [a Ha]%list_elem_of_lookup [b Hb]%list_elem_of_lookup.
  assert (a = b) as ->.
  { eapply NoDup_lookup; [exact Hn| |]; rewrite list_lookup_fmap; [by rewrite Ha|by rewrite Hb]. }
  congruence.
Qed.

Lemma taken_not_queued i m w : NoDup (batch_total w) → (i, m) ∈ ew_taken w → m ∉ ew_queue w.
Proof using.
  unfold batch_total. intros (_ & Hn & _)%NoDup_app Hm. apply Hn. apply list_elem_of_fmap. by exists (i, m).
Qed.

Lemma guar_rely i j w w' : i ≠ j → guar i w w' → rely j w w'.
Proof using.
  intros Hij (T & K & L & F & C). split_and!; [done|by apply K|done|done|].
  intros Hn m Hm. destruct (decide (settled m (ew_log w') = settled m (ew_log w))) as [|Hne]; [done|].
  exfalso. apply Hij. by eapply taken_once; [|by apply C|].
Qed.

(** Task [i] has settled what it took, except perhaps the message at hand. *)
Definition mine (i : nat) (at_hand : option delivery) (w : email_world) : Prop :=
  (∀ m, at_hand = Some m → (i, m) ∈ ew_taken w) ∧
  (NoDup (batch_total w) → fresh w ∧
    ∀ m, (i, m) ∈ ew_taken w → settled m (ew_log w) = if decide (at_hand = Some m) then 0 else 1).

Lemma mine_rely i at_hand w w' : rely i w w' → mine i at_hand w → mine i at_hand w'.
Proof using.
  intros (T & K & L & F & C) [Hh Hm].
  assert (∀ m, (i, m) ∈ ew_taken w' ↔ (i, m) ∈ ew_taken w) as Htaken
    by (intros m; by rewrite !took_elem, K).
  split; [intros m Ha; by apply Htaken, Hh|].
  rewrite T. intros Hn. destruct (Hm Hn) as [Hf Hs]. split; [by apply F|].
  intros m Hin. rewrite C by (done || by apply Htaken). by apply Hs, Htaken.
Qed.

Lemma logged_publish i r s id d at_hand w :
  mine i at_hand w → guar i w (logged r (Published s id d) w) ∧ mine i at_hand (logged r (Published s id d) w).
Proof using.
  intros [Hh Hm].
  assert (∀ m, settled m (ew_log (logged r (Published s id d) w)) = settled m (ew_log w)) as Hsame.
  { intros m. rewrite logged_log, settled_app. destruct (is_ok r); unfold settled at 2; simpl; lia. }
  split.
  - split_and!; try done. + intros _ Hf m Hin. rewrite Hsame. by apply Hf. + intros m Hne. by rewrite Hsame in Hne.
  - split; [done|]. intros Hn. destruct (Hm Hn) as [Hf Hs]. split.
    + intros m Hin. rewrite Hsame. by apply Hf.
    + intros m Hin. rewrite Hsame. by apply Hs.
Qed.

Lemma settled_other m m' r x w :
  (∀ m'', settles m'' x = true → m'' = m) → m' ≠ m →
  settled m' (ew_log (logged r x w)) = settled m' (ew_log w).
Proof using.
  intros Hx Hne. rewrite logged_log, settled_app.
  destruct (is_ok r); unfold settled at 2; [|simpl; lia]. rewrite list.filter_cons.
  case_decide as Hs; [|simpl; lia]. by apply Hx in Hs.
Qed.

Lemma logged_settle i m r x w :
  settles m x = true → (∀ m', settles m' x = true → m' = m) →
  mine i (Some m) w →
  guar i w (logged r x w) ∧ mine i (if is_ok r then None else Some m) (logged r x w).
Proof using.
  intros Hx Hx' [Hh Hm]. specialize (Hh m eq_refl).
  assert (∀ m', m' ≠ m → settled m' (ew_log (logged r x w)) = settled m' (ew_log w)) as Hother
    by (intros; by eapply settled_other).
  assert (NoDup (batch_total w) → fresh w → fresh (logged r x w)) as Hfresh.
  { intros Hn Hf m' Hin. rewrite Hother; [by apply Hf|]. intros ->. by eapply taken_not_queued in Hh. }
  split.
  - split_and!; try done. intros m' Hne. destruct (decide (m' = m)) as [->|Hd]; [done|]. by rewrite Hother in Hne.
  - split; [intros m' Heq; destruct (is_ok r); [done|]; by simplify_eq|].
    intros Hn. destruct (Hm Hn) as [Hf Hs]. split; [by apply Hfresh|].
    intros m' Hin. destruct (decide (m' = m)) as [->|Hne].
    + rewrite logged_log, settled_app, (Hs m Hin), decide_True by done.
      destruct (is_ok r).
      * unfold settled. rewrite list.filter_cons, decide_True, decide_False by done. done.
      * by rewrite decide_True.
    + rewrite Hother, (Hs m' Hin), decide_False by congruence.
      destruct (is_ok r); by rewrite decide_False by congruence.
Qed.

Section batch.
Context (o : email_oracle) (mode : string).
Abbreviation safe i := (safe (email_handle o) (rely i) (guar i)).

Lemma safe_process_message i fuel m w :
  mine i (Some m) w → length (ew_queue w) < fuel →
  safe i (λ _ w', mine i None w' ∧ length (ew_queue w') < fuel) (process_message m mode) w.
Proof using.
  intros Hw Hfuel. unfold EmailWorker.process_message.
  assert (∀ w0 w1, rely i w0 w1 → length (ew_queue w0) < fuel → length (ew_queue w1) < fuel) as Hshrink.
  { intros w0 w1 (_ & _ & Hl & _). lia. }
  assert (∀ w1, mine i (Some m) w1 → length (ew_queue w1) < fuel →
    safe i (λ _ w', mine i None w' ∧ length (ew_queue w') < fuel) (call (ENak m)) w1) as Hnak.
  { intros w1 Hw1 Hl1 w2 Hr. apply (mine_rely _ _ _ _ Hr) in Hw1. apply (Hshrink _ _ Hr) in Hl1.
    destruct (logged_settle i m (eo_nak o (ew_step w2)) (Nacked m) w2) as [HG Hm]; [..|done|].
    { by apply bool_decide_eq_true. } { intros m' <-%bool_decide_eq_true. done. }
    cbn [email_handle fst snd]. split; [done|]. by destruct (eo_nak _ _). }
  eapply (safe_bind _ _ _ (λ r w', match r with
    | Ok _ => mine i None w' | Raise _ => mine i (Some m) w' end ∧ length (ew_queue w') < fuel)).
  - destruct (outcome_of m mode) as [oc|e]; [|done]. cbn [lift]. intros w1 Hr.
    apply (mine_rely _ _ _ _ Hr) in Hw. apply (Hshrink _ _ Hr) in Hfuel.
    destruct (logged_publish i (eo_publish o (ew_step w1)) (oc_subject oc) (oc_message_id oc)
      (oc_data oc) (Some m) w1 Hw) as [HG Hm].
    split; [done|]. cbn [email_handle fst snd]. destruct (eo_publish o (ew_step w1)) as [[]|e]; [|done].
    set (w2 := logged _ _ w1) in *. assert (length (ew_queue w2) < fuel) as Hl2 by done. clearbody w2.
    intros w3 Hr3. apply (mine_rely _ _ _ _ Hr3) in Hm. apply (Hshrink _ _ Hr3) in Hl2.
    destruct (logged_settle i m (eo_ack o (ew_step w3)) (Acked m) w3) as [HG3 Hm3]; [..|done|].
    { by apply bool_decide_eq_true. } { intros m' <-%bool_decide_eq_true. done. }
    split; [done|]. cbn [email_handle fst snd]. by destruct (eo_ack o (ew_step w3)).
  - intros [[]|e] w1 [Hm Hl]; [done|]. by apply Hnak.
Qed.

(** A task that returns found the iterator empty and has settled exactly once
    every message it took; the fuel suffices. *)
Lemma safe_task i fuel w :
  mine i None w → length (ew_queue w) < fuel →
  safe i (λ b w', b = true ∧ ew_queue w' = [] ∧ mine i None w') (process fuel i mode) w.
Proof using.
  revert w. induction fuel as [|fuel IH]; intros w Hw Hfuel; [lia|]. cbn [EmailWorker.process].
  intros w1 Hr. apply (mine_rely _ _ _ _ Hr) in Hw.
  assert (length (ew_queue w1) < S fuel) as Hl by (destruct Hr as (_ & _ & ? & _); lia).
  cbn [email_handle]. destruct (ew_queue w1) as [|m queue] eqn:Hq; cbn [fst snd].
  { split; [|done]. by unfold guar. }
  set (w2 := EmailWorld queue _ _ _ _ _).
  assert (batch_total w2 = batch_total w1) as Htotal.
  { unfold batch_total. simpl. by rewrite Hq, fmap_app, <- app_assoc. }
  assert (NoDup (batch_total w1) → m ∉ (ew_taken w1).*2) as Hnew.
  { unfold batch_total. rewrite Hq. intros (_ & Hn & _)%NoDup_app Hin. apply (Hn m Hin). by left. }
  split.
  - split_and!; [done| |simpl; rewrite Hq; simpl; lia| |done].
    + intros j Hne. unfold took. simpl. rewrite filter_app, filter_cons_False by (simpl; congruence).
      by rewrite app_nil_r.
    + intros _ Hf m' Hin. apply Hf. rewrite Hq. by right.
  - destruct Hw as [_ Hm]. assert (mine i (Some m) w2) as Hw2.
    { split; [intros m' [= <-]; apply elem_of_app; right; by left|].
      rewrite Htotal. intros Hn. destruct (Hm Hn) as [Hf Hs]. split.
      - intros m' Hin. apply Hf. rewrite Hq. by right.
      - intros m' [Hin|Hin%list_elem_of_singleton]%elem_of_app.
        + rewrite decide_False; [by apply Hs|]. intros [= <-]. apply (Hnew Hn).
          apply list_elem_of_fmap. by exists (i, m).
        + injection Hin as ->. rewrite decide_True by done. apply Hf. rewrite Hq. by left. }
    eapply safe_bind; [apply (safe_process_message i fuel); [done|simpl; simpl in Hl; lia]|].
    intros _ w3 [Hm3 Hl3]. by apply IH.
Qed.
End batch.
End theory.

Lemma steps_total o (c c' : email_world * list (prog emailE bool)) :
  rtc (step (email_handle o)) c c' → batch_total c'.1 = batch_total c.1.
Proof.
  induction 1 as [c|c c1 c' Hstep Hsteps IH]; [done|]. rewrite IH.
  destruct Hstep as [w ps i X op k Hi|w ps i e Hi]; [|done]. cbn [fst].
  destruct op; try done. simpl. unfold batch_total.
  destruct (ew_queue w) as [|m queue] eqn:Hq; simpl; [by rewrite ?Hq|]. by rewrite ?Hq, fmap_app, <- app_assoc.
Qed.

(** C5: However the tasks of a batch interleave and whatever the broker
    answers, once one task has returned every message of the batch has been
    taken by exactly one task, in order, and every task that returned has
    acknowledged or negatively acknowledged each message it took exactly once.
    No task returns early. *)
Theorem batch_settled_once environ parse to_datetime sha256 span (o : email_oracle)
    (messages : list delivery) (mode : string) (concurrency : Z) w w' ps' i b :
  NoDup messages → ew_queue w = messages → ew_taken w = [] →
  (∀ m, m ∈ messages → settled m (ew_log w) = 0) →
  rtc (step (email_handle o))
    (w, process_messages environ parse to_datetime sha256 span messages mode concurrency) (w', ps') →
  ps' !! i = Some (Ret b) →
  b = true ∧ (ew_taken w').*2 = messages ∧
  ∀ m, (i, m) ∈ ew_taken w' → settled m (ew_log w') = 1.
Proof.
  intros Hnodup Hqueue Htaken Hfresh Hsteps Hi.
  assert (each_safe (email_handle o) rely guar
    (λ i b w', b = true ∧ ew_queue w' = [] ∧ mine i None w')
    (w, process_messages environ parse to_datetime sha256 span messages mode concurrency)) as Hstart.
  { intros j p Hp. exists w. split; [reflexivity|].
    unfold process_messages in Hp. cbn [snd] in Hp. apply list_lookup_fmap_Some in Hp as (n & -> & Hn).
    apply lookup_seq in Hn as [-> _]. apply safe_task; [|rewrite Hqueue; lia].
    split; [done|]. intros _. rewrite Htaken. split; [|set_solver].
    intros m Hm. rewrite Hqueue in Hm. by apply Hfresh. }
  pose proof (steps_total _ _ _ Hsteps) as Htotal.
  destruct (each_safe_steps _ _ _ guar_rely _ _ _ Hsteps Hstart i _ Hi) as (w0 & Hr & Hb & Hq & Hm).
  apply (mine_rely _ _ _ _ Hr) in Hm as [_ Hm]. destruct Hr as (_ & _ & Hl & _).
  rewrite Hq in Hl. apply Nat.le_0_r, nil_length_inv in Hl.
  cbn [fst] in Htotal.
  assert (batch_total w' = messages) as Hall by (rewrite Htotal; unfold batch_total; by rewrite Htaken, Hqueue).
  split_and!; [done| |].
  - rewrite <- Hall. unfold batch_total. cbn [fst] in Hl. by rewrite Hl, app_nil_r.
  - intros m Hin. cbn [fst] in Hm. rewrite Hall in Hm. destruct (Hm Hnodup) as [_ Hs]. by apply Hs.
Qed.

(** What happens to one message.  It is acknowledged only after the
    confirmation it determines was published, a message that determines none
    publishes nothing, and the handler returns exactly when the message was
    settled, positively or negatively, exactly once. *)
Theorem process_message_spec environ parse to_datetime sha256 span o m mode w :
  let '(r, w') := run (email_handle o) (process_message environ parse to_datetime sha256 span m mode) w in
  ∃ l, ew_log w' = ew_log w ++ l ∧
    settled m l = (if is_ok r then 1 else 0) ∧
    (Acked m ∈ l → ∃ oc, message_outcome environ parse to_datetime sha256 span m mode = Ok oc ∧
       l = [Published (oc_subject oc) (oc_message_id oc) (oc_data oc); Acked m]) ∧
    (∀ s id d, Published s id d ∈ l →
       ∃ oc, message_outcome environ parse to_datetime sha256 span m mode = Ok oc ∧
         s = oc_subject oc ∧ id = oc_message_id oc ∧ d = oc_data oc).
Proof.
  pose proof (process_message_log environ parse to_datetime sha256 span o m mode w) as Hlog.
  destruct (run _ _ w) as [r w']. destruct Hlog as (l & Hl & Hr). exists l. split; [done|].
  destruct r as [[]|e].
  - destruct Hr as [(oc & Hoc & ->)|[->|(oc & Hoc & ->)]]; (split; [by rewrite ?settled_cons; simpl; rewrite bool_decide_eq_true_2|]);
      set_solver.
  - destruct Hr as [->|(oc & Hoc & ->)]; (split; [done|]); set_solver.
Qed.

(** Results have identities of their own: unless SHA-256 maps their two
    inputs to the same digest, results for different messages or slots have
    different message ids, so the broker drops exactly the redeliveries. *)
Theorem result_message_id_injective (sha256 : list Z → list Z) a s a' s' id id' :
  (∀ p p', result_preimage a s = Ok p → result_preimage a' s' = Ok p' →
     sha256 p = sha256 p' → p = p') →
  (∀ p, Forall is_byte (sha256 p)) →
  result_message_id sha256 a s = Ok id → result_message_id sha256 a' s' = Ok id' →
  (a, s) ≠ (a', s') → id ≠ id'.
Proof.
  intros Hcollision Hbytes. unfold result_message_id.
  destruct (String.eqb a ""), (String.eqb a' ""); try done.
  intros (p & Hp & [= <-])%res_bind_ok (p' & Hp' & [= <-])%res_bind_ok Hne [= Hid]. apply Hne.
  assert (p = p') as <-.
  { apply Hcollision; [done..|]. by apply b64_inj; [apply Hbytes..|]. }
  by destruct (result_preimage_inj _ _ _ _ _ Hp Hp') as [-> ->].
Qed.

(** ** The connection supervisor *)

Section supervisor.
Context (environ : string → option string) (o : email_oracle).
Abbreviation run := (Program.run (email_handle o)).

(** Programs that neither open nor close a connection. *)
Definition keeps_open {A} (p : prog emailE A) : Prop := ∀ w, ew_open (run p w).2 = ew_open w.

Lemma keeps_open_bind {A B} (p : prog emailE A) (f : A → prog emailE B) :
  keeps_open p → (∀ a, keeps_open (f a)) → keeps_open (p ≫= f).
Proof using.
  intros Hp Hf w. rewrite run_bind. specialize (Hp w). destruct (run p w) as [[a|e] w1]; [|done].
  rewrite Hf. exact Hp.
Qed.

Lemma fetch_keeps_open fuel batch_size : keeps_open (fetch_messages fuel batch_size).
Proof using.
  induction fuel as [|fuel IH]; [done|]. cbn [fetch_messages].
  apply keeps_open_bind; [done|]. intros []; [done|]. apply keeps_open_bind; [done|].
  intros [[|m messages]| |e|e]; try done; (apply keeps_open_bind; [done|]); intros _; done || apply IH.
Qed.

Lemma keeps_open_batch messages mode concurrency : keeps_open (call (EBatch messages mode concurrency)).
Proof using. intros w. by rewrite run_call. Qed.

Lemma serve_keeps_open fuel batch_size mode concurrency : keeps_open (serve fuel batch_size mode concurrency).
Proof using.
  induction fuel as [|fuel IH]; [done|]. cbn [serve].
  apply keeps_open_bind; [done|]. intros []; [done|]. apply keeps_open_bind; [apply fetch_keeps_open|].
  intros [[|m messages]|]; [apply IH| |done].
  apply keeps_open_bind; [apply keeps_open_batch|]. intros _. apply IH.
Qed.

(** A connection that was opened is drained, and the worker is no longer
    ready, unless it is still serving. *)
Lemma consume_connection_closes fuel w :
  let '(r, w') := run (consume_connection environ fuel) w in
  match r with
  | Ok None => ew_open w' = S (ew_open w)
  | Ok (Some _) => ew_open w' = ew_open w ∧ ew_ready w' = false
  | Raise _ => ew_open w' = ew_open w
  end.
Proof using.
  unfold consume_connection. rewrite run_bind, run_call. cbn [email_handle].
  destruct (eo_connect o (ew_step w)) as [[]|e]; [|done]. cbn [is_ok].
  set (w1 := ticked _ _ w). assert (ew_open w1 = S (ew_open w)) as Hw1 by done. clearbody w1.
  rewrite run_bind, run_try.
  match goal with |- context [run ?p w1] => assert (keeps_open p) as Hkeep; [|specialize (Hkeep w1);
    destruct (run p w1) as [r w2]] end.
  { apply keeps_open_bind; [intros w0; by rewrite run_call|]. intros _.
    apply keeps_open_bind; [intros w0; by rewrite run_lift|]. intros batch_size.
    apply keeps_open_bind; [intros w0; by rewrite run_lift|]. intros concurrency.
    apply keeps_open_bind; [done|]. intros _. apply serve_keeps_open. }
  cbn [snd] in Hkeep.
  assert (∀ r' : res (option unit), r' ≠ Ok None → let '(r, w') :=
    run (_ ← perform (EReady false); _ ← call EDrain; lift r') w2 in
    match r with
    | Ok None => ew_open w' = S (ew_open w)
    | Ok (Some _) => ew_open w' = ew_open w ∧ ew_ready w' = false
    | Raise _ => ew_open w' = ew_open w
    end) as Hclose.
  { intros r' Hr'. simpl. destruct (eo_drain o _) as [[]|e]; simpl; [rewrite run_lift|];
      destruct r' as [[[]|]|]; simpl; rewrite ?Hkeep, ?Hw1; done. }
  destruct r as [[[]|]|e]; [by apply Hclose|simpl; congruence|by apply Hclose].
Qed.

End supervisor.

(** ** Concrete inputs *)

(** The digest SHA-256 gives for the contract vector of the repository's
    tests. *)
Definition demo_digest (_ : list Z) : list Z :=
  [6; 42; 102; 20; 79; 226; 124; 141; 137; 169; 22; 250; 236; 209; 107; 130; 43; 35; 101; 135;
   158; 140; 244; 229; 144; 168; 104; 141; 19; 245; 51; 63]%Z.
Example result_id_vector :
  result_message_id demo_digest "event-order-completed-42" RESULT_SLOT
  = Ok "br1_BipmFE_ifI2JqRb67NFrgisjZYeejPTlkKhojRP1Mz8".
Proof. vm_compute. reflexivity. Qed.
Example stable_id_vector :
  stable_id demo_digest ["email-provider-v1"; "order-42:order-confirmation"]
  = Ok "062a6614-4fe2-5c8d-89a9-16faecd16b82".
Proof. vm_compute. reflexivity. Qed.
Example mask_vectors :
  mask_recipient <$> ["buyer@example.com"; "@example.com"; "nobody"]
  = ["b***@example.com"; "****@example.com"; "***"].
Proof. vm_compute. reflexivity. Qed.

Definition demo_environ (name : string) : option string :=
  if decide (name = "EMAIL_FAILURE_MODE") then None
  else if decide (name ∈ ["NATS_CONSUMER_BATCH_SIZE"; "NATS_CONSUMER_CONCURRENCY"]) then Some "4"
  else Some "set".
Definition demo_parse (data : string) : res order_envelope :=
  if String.eqb data "" then Raise (OtherError "DecodeError")
  else Ok (OrderEnvelope data "order-42" "order-42" 7 (Some (1785148200, 123000000)%Z)
    (Some (OrderCompleted "order-42" "buyer@example.com")) "" "").
Definition demo_oracle : email_oracle :=
  EmailOracle (λ n, if decide (n = 0) then Raise (TimeoutError "") else Ok tt) (λ _, Ok tt) (λ _, Ok tt)
    (λ n, bool_decide (30 ≤ n)) (λ n, if decide (n = 3) then FetchInterrupted (OtherError "") else FetchTimedOut)
    (λ _, Ok tt) (λ _, Ok tt) (λ _, Ok tt) (λ _, Ok tt).
Definition demo_messages : list delivery := [Delivery 1 "m-1"; Delivery 2 ""; Delivery 3 "m-3"].
Definition demo_world : email_world := EmailWorld demo_messages [] [] false 0 0.
Definition demo_tasks : list (prog emailE bool) :=
  process_messages demo_environ demo_parse (λ _, Ok tt) demo_digest None demo_messages "" 2.
Definition demo_schedule : list nat := [0; 1; 0; 1; 0; 0; 0; 1; 0; 1; 1; 1; 0; 0; 0; 0; 0].
Definition demo_final : email_world * list (prog emailE bool) :=
  run_schedule (email_handle demo_oracle) demo_schedule (demo_world, demo_tasks).

(** Two tasks share three messages: one publication fails and one message
    cannot be parsed. *)
Example demo_settles :
  (λ m, settled m (ew_log demo_final.1)) <$> demo_messages = [1; 1; 1] ∧
  (λ p, match p with Ret b => b | _ => false end) <$> demo_final.2 = [true; true].
Proof. split; vm_compute; reflexivity. Qed.

Lemma batch_settled_once_witness :
  true = true ∧ (ew_taken demo_final.1).*2 = demo_messages ∧
  (0, Delivery 1 "m-1") ∈ ew_taken demo_final.1 ∧ settled (Delivery 1 "m-1") (ew_log demo_final.1) = 1.
Proof.
  destruct (batch_settled_once demo_environ demo_parse (λ _, Ok tt) demo_digest None demo_oracle
    demo_messages "" 2 demo_world demo_final.1 demo_final.2 0 true) as (Hb & Htaken & Hs).
  - apply (bool_decide_unpack _). vm_compute. exact I.
  - reflexivity.
  - reflexivity.
  - intros m _. reflexivity.
  - rewrite <- surjective_pairing. apply run_schedule_steps.
  - vm_compute. reflexivity.
  - assert ((0, Delivery 1 "m-1") ∈ ew_taken demo_final.1) as Hin
      by (apply (bool_decide_unpack _); vm_compute; exact I).
    split; [exact Hb|]. split; [exact Htaken|]. split; [exact Hin|]. by apply Hs.
Defined.

Definition demo_hash (p : list Z) : list Z := (λ b, b mod 256)%Z <$> p.

Definition demo_id (a : string) : string :=
  match result_message_id demo_hash a RESULT_SLOT with Ok id => id | Raise _ => "" end.

Lemma result_message_id_injective_witness : demo_id "event-1" ≠ demo_id "event-2".
Proof.
  apply (result_message_id_injective demo_hash "event-1" RESULT_SLOT "event-2" RESULT_SLOT).
  - intros p p' Hp Hp' Heq. vm_compute in Hp, Hp'. injection Hp as <-. injection Hp' as <-. discriminate Heq.
  - intros p. unfold demo_hash. apply Forall_fmap, Forall_true. intros b. simpl.
    unfold is_byte. apply Z.mod_pos_bound. lia.
  - vm_compute. reflexivity.
  - vm_compute. reflexivity.
  - discriminate.
Defined.


(** A lost fetch reopens the connection, and the stop request ends it. *)
Example supervisor_stops :
  (Program.run (email_handle demo_oracle) (email_run demo_environ 20 20) demo_world).1 = Ok (Some tt).
Proof. vm_compute. reflexivity. Qed.
