(* ===== verification/Runtime.v ===== *)
(** * The load generator's runtime (benchmarkservice/runtime.py)

    Every worker process of a run keeps a clock, writes what it observes to
    its artifacts, and samples the metrics of the target.  The clocks, the
    files and the HTTP client are outside the model: a function takes the
    readings it makes as arguments, in order.  The worker-local logs are the
    inputs of the merge of Parallel.v. *)

From S2P Require Import Prelude PyFloat PyValue PyUrl BenchConfig Parallel Saturation.
From Stdlib Require Import Ascii.

(** ** Clocks and phases

    Second counts are below 2^53, where their conversion to a float is
    exact. *)
Definition seconds (n : Z) : pyfloat := float_dec n 0.

(** The module's variables.
    [runtime.py:29-33 TEST_STARTED_MONOTONIC] *)
Record clocks := Clocks {
  started_monotonic : pyfloat;
  started_epoch : pyfloat;
  early_drain_deadline : option pyfloat;
  active_rung : option Z;
  active_rate : option pyfloat;
}.

(** The delay before the synchronised start, when there is one.
    [runtime.py:38-43 start_clock] *)
Definition start_delay (start_epoch : option string) (now : pyfloat) : res (option pyfloat) :=
  synchronized_start ←
    match start_epoch with
    | Some s => if String.eqb s "" then Ok (float_dec 0 0) else float_of_str s
    | None => float_of_str "0"
    end;
  let delay := fsub synchronized_start now in
  Ok (if fltb (float_dec 0 0) delay then Some delay else None).

(** [runtime.py:36-45 start_clock] *)
Definition start_clock (s : clocks) (monotonic epoch : pyfloat) : clocks :=
  Clocks monotonic epoch (early_drain_deadline s) (active_rung s) (active_rate s).

(** [runtime.py:48-51 elapsed_now] *)
Definition elapsed_now (s : clocks) (monotonic : pyfloat) : pyfloat :=
  if f_is_zero (started_monotonic s) then float_dec 0 0 else fsub monotonic (started_monotonic s).

Section configured.
Context (c : config).

(** [runtime.py:54-61 phase_for_elapsed] *)
Definition phase_for_elapsed (elapsed : pyfloat) : string :=
  if fltb elapsed (seconds (warmup_seconds c)) then "warmup"
  else if fltb elapsed (seconds (submission_seconds c)) then "steady"
  else if fltb elapsed (seconds (run_seconds c)) then "drain"
  else "after".

(** [now] is the reading for the early drain, [later] that of
    [elapsed_now].
    [runtime.py:64-72 phase_now] *)
Definition phase_now (s : clocks) (now later : pyfloat) : string :=
  if match early_drain_deadline s with
     | Some deadline => fleb (fsub deadline (seconds (drain_seconds c))) now
     | None => false
     end then "drain"
  else match active_rung s with
       | Some _ => "steady"
       | None => phase_for_elapsed (elapsed_now s later)
       end.

(** [runtime.py:75-77 drain_deadline] *)
Definition drain_deadline (s : clocks) : pyfloat :=
  let configured := fadd (started_monotonic s) (seconds (run_seconds c)) in
  f_min configured
    match early_drain_deadline s with
    | Some deadline => if f_is_zero deadline then configured else deadline
    | None => configured
    end.

(** [runtime.py:80-86 begin_early_drain] *)
Definition begin_early_drain (s : clocks) (monotonic : pyfloat) : pyfloat * clocks :=
  let deadline := fadd monotonic (seconds (drain_seconds c)) in
  (deadline, Clocks (started_monotonic s) (started_epoch s) (Some deadline) None None).

(** [runtime.py:89-92 set_saturation_rung] *)
Definition set_saturation_rung (s : clocks) (rung : Z) (target_rate : pyfloat) : clocks :=
  Clocks (started_monotonic s) (started_epoch s) (early_drain_deadline s) (Some rung) (Some target_rate).

(** [runtime.py:95-96 submission_deadline] *)
Definition submission_deadline (s : clocks) : pyfloat :=
  fadd (started_monotonic s) (seconds (submission_seconds c)).

(** ** The artifact recorder

    The recorder's lock makes each method atomic.  A file is the list of the
    records written to it; [None] is a closed file, whose records stay. *)

(** [runtime.py:100-105 ArtifactRecorder.__init__] *)
Record recorder := Recorder {
  rc_open : bool;
  rc_business : list pyval;
  rc_outstanding : list pyval;
  rc_outstanding_count : Z;
  rc_completed_count : Z;
}.

(** [runtime.py:107-114 ArtifactRecorder.open] *)
Definition recorder_open (r : recorder) : recorder :=
  Recorder true (rc_business r) (rc_outstanding r) (rc_outstanding_count r) (rc_completed_count r).

(** [runtime.py:116-123 ArtifactRecorder.close] *)
Definition recorder_close (r : recorder) : recorder :=
  Recorder false (rc_business r) (rc_outstanding r) (rc_outstanding_count r) (rc_completed_count r).

(** The record of a request.
    [runtime.py:136-159 ArtifactRecorder.request] *)
Definition request_record (s : clocks) (name : string) (response_time : pyfloat) (error : option exn)
    (timestamp recorded_at : pyfloat) (safe_context : mapping) : pyval :=
  let phase := default (PStr (phase_for_elapsed (f_max (float_dec 0 0) (fsub timestamp (started_epoch s)))))
                 (alist_get "phase" safe_context) in
  PDict [("timestamp", PFloat timestamp); ("recorded_at", PFloat recorded_at);
         ("recorded_elapsed_seconds",
          PFloat (f_round (f_max (float_dec 0 0) (fsub recorded_at (started_epoch s))) 6));
         ("phase", phase); ("request_type", PStr "BUSINESS"); ("name", PStr name);
         ("response_time_ms", PFloat (f_round response_time 3));
         ("success", PBool (match error with None => true | Some _ => false end));
         ("error", match error with Some e => PStr (exn_str e) | None => PNone end);
         ("context", PDict safe_context)].

(** [start_time or time.time()] reads the clock when the start is missing
    or zero.
    [runtime.py:125-166 ArtifactRecorder.request] *)
Definition recorder_request (r : recorder) (s : clocks) (request_type name : string)
    (response_time : pyfloat) (error : option exn) (start_time : option pyfloat)
    (context : option mapping) (now recorded_at : pyfloat) : recorder :=
  if negb (String.eqb request_type "BUSINESS") || negb (rc_open r) then r else
  let safe_context := filter (λ kv, str_startswith "_" kv.1 = false) (default [] context) in
  let timestamp := match start_time with
                   | Some t => if f_is_zero t then now else t
                   | None => now
                   end in
  let record := request_record s name response_time error timestamp recorded_at safe_context in
  let completed := String.eqb name "checkout_to_outcome"
    && match alist_get "outcome" safe_context with Some v => py_eqb v (PStr "COMPLETED") | None => false end in
  Recorder (rc_open r) (rc_business r ++ [json_dumps record]) (rc_outstanding r)
    (rc_outstanding_count r) (if completed then rc_completed_count r + 1 else rc_completed_count r)%Z.

(** [runtime.py:182-200 ArtifactRecorder._write_outstanding] *)
Definition write_outstanding (r : recorder) (count : Z) (timestamp elapsed : pyfloat)
    (event transaction_id phase : string) : recorder :=
  let record := PDict [("timestamp", PFloat timestamp); ("elapsed_seconds", PFloat (f_round elapsed 6));
                       ("phase", PStr phase); ("event", PStr event);
                       ("transaction_id", PStr transaction_id); ("outstanding", PInt count)] in
  Recorder (rc_open r) (rc_business r)
    (if rc_open r then rc_outstanding r ++ [json_dumps record] else rc_outstanding r)
    count (rc_completed_count r).

(** [runtime.py:172-175 ArtifactRecorder.accepted] *)
Definition recorder_accepted (r : recorder) (timestamp elapsed : pyfloat) (transaction_id phase : string)
  : recorder :=
  write_outstanding r (rc_outstanding_count r + 1) timestamp elapsed "accepted" transaction_id phase.

(** [runtime.py:177-180 ArtifactRecorder.terminal] *)
Definition recorder_terminal (r : recorder) (timestamp elapsed : pyfloat)
    (transaction_id outcome phase : string) : recorder :=
  write_outstanding r (Z.max 0 (rc_outstanding_count r - 1)) timestamp elapsed (str_lower outcome)
    transaction_id phase.
End configured.

(** ** The metrics endpoint *)

Definition is_list (v : pyval) : bool := match v with PList _ => true | _ => false end.
Definition is_dict (v : pyval) : bool := match v with PDict _ => true | _ => false end.
Definition get_field (m : mapping) (k : string) (d : pyval) : pyval := default d (alist_get k m).

(** The document of the endpoint must be an object.
    [runtime.py:217-220 RemoteMetricsClient._get] *)
Definition metrics_object (value : pyval) : res mapping :=
  match value with
  | PDict m => Ok m
  | _ => Raise (RuntimeError "metrics endpoint returned non-object JSON")
  end.

(** [document] is what the endpoint answered.
    [runtime.py:222-254 RemoteMetricsClient.sample] *)
Definition remote_sample (document : res pyval) : res mapping :=
  document ← document;
  value ← metrics_object document;
  let pods := get_field value "pods" (PDict []) in
  let nats_metrics := get_field value "nats_metrics" (PList []) in
  let nats_micro_endpoints := get_field value "nats_micro_endpoints" (PList []) in
  let observer := get_field value "nats_order_completed_observer" PNone in
  let nats_raft_groups := get_field value "nats_raft_groups" (PList []) in
  let source_samples := get_field value "source_samples" (PDict []) in
  let snapshot := get_field value "snapshot" (PDict []) in
  let errors := get_field value "errors" (PList []) in
  if negb (is_dict pods) then Raise (RuntimeError "metrics endpoint returned invalid pods") else
  match errors with
  | PList errors =>
      if negb (is_list nats_metrics) || negb (is_list nats_micro_endpoints) || negb (is_list nats_raft_groups)
      then Raise (RuntimeError "metrics endpoint returned invalid metric lists")
      else if negb (is_dict source_samples) || negb (is_dict snapshot)
      then Raise (RuntimeError "metrics endpoint returned invalid sample metadata")
      else
        Ok [("pods", pods); ("nats_metrics", nats_metrics);
            ("nats_micro_endpoints", nats_micro_endpoints);
            ("nats_order_completed_observer", observer); ("nats_raft_groups", nats_raft_groups);
            ("source_samples", source_samples); ("snapshot", snapshot);
            ("errors", PList ((λ e, PStr (py_str e)) <$> errors))]
  | _ => Raise (RuntimeError "metrics endpoint returned invalid metric lists")
  end.

(** [path.rsplit("/", 1)[0]] *)
Definition parent_path (path : string) : string :=
  let '(last_rev, before_rev) := chars_break (is_char 47) (reverse (chars path)) in
  match before_rev with [] => path | _ :: before_rev => of_chars (reverse before_rev) end.

(** [runtime.py:257-265 RemoteMetricsClient.nats_order_completed_sample] *)
Definition observer_url (bracket_ok : string → bool) (url : string) : res string :=
  parts ← urlsplit bracket_ok url;
  Ok (urlunsplit (Url (url_scheme parts) (url_netloc parts)
        (parent_path (url_path parts) +:+ "/nats-order-completed-observer") "" "")).

(** [runtime.py:266-282 RemoteMetricsClient.nats_order_completed_sample] *)
Definition observer_sample (document : res pyval) : res mapping :=
  document ← document;
  value ← metrics_object document;
  let invalid := Raise (RuntimeError "metrics endpoint returned invalid completed-order observer") in
  match get_field value "nats_order_completed_observer" PNone with
  | PDict observer =>
      match get_field observer "observer_id" PNone, get_field observer "total" PNone with
      | PStr observer_id, PInt total => if String.eqb observer_id "" then invalid else Ok observer
      | _, _ => invalid
      end
  | _ => invalid
  end.

(** ** The resource sampler *)

(** The floor of the exact quotient, which the float division gives below
    2^53. *)
Definition floor_quotient (x y : pyfloat) : res Z :=
  match f_ratio x, f_ratio y with
  | Some (p, q), Some (p', q') =>
      if (p' =? 0)%Z then Raise (ZeroDivisionError "float floor division by zero")
      else Ok (p * q' / (q * p'))%Z
  | _, _ => Raise (ValueError "cannot convert float NaN to integer")
  end.

(** [runtime.py:506-514 advance_sample_deadline] *)
Definition advance_sample_deadline (previous now interval : pyfloat) : res (pyfloat * Z) :=
  let deadline := fadd previous interval in
  if fltb now deadline then Ok (deadline, 0%Z)
  else
    q ← floor_quotient (fsub now deadline) interval;
    let skipped := (q + 1)%Z in
    s ← float_of_Z skipped;
    Ok (fadd deadline (fmul s interval), skipped).

(** What the sampler keeps between samples. *)
Record sampler := Sampler {
  sm_records : list pyval;
  sm_latest_pending : option pyfloat;
  sm_latest_observer : option mapping;
  sm_next_sample : pyfloat;
  sm_skipped_ticks : Z;
}.

(** The record before the endpoint is asked.
    [runtime.py:411-430 ResourceSampler._run] *)
Definition base_record (c : config) (s : clocks) (timestamp elapsed : pyfloat) (phase : string) : mapping :=
  [("timestamp", PFloat timestamp); ("elapsed_seconds", PFloat (f_round elapsed 6));
   ("phase", PStr phase); ("pods", PDict []); ("nats_metrics", PList []);
   ("nats_micro_endpoints", PList []); ("nats_order_completed_observer", PNone);
   ("nats_raft_groups", PList []); ("errors", PList [])] ++
  (if String.eqb (workload c) "saturation" then
     [("saturation_rung", match active_rung s with Some r => PInt r | None => PNone end);
      ("target_requests_per_second", match active_rate s with Some r => PFloat r | None => PNone end)]
   else []).

(** The elapsed seconds at which each source collected; the entries before a
    failing one stay in the record.
    [runtime.py:438-445 ResourceSampler._run] *)
Fixpoint source_elapsed (timestamp elapsed : pyfloat) (samples acc : mapping) : mapping * option exn :=
  match samples with
  | [] => (acc, None)
  | (source, sample) :: samples =>
      match py_get sample "collected_at" PNone with
      | Raise e => (acc, Some e)
      | Ok collected_at =>
          match collected_at with
          | PInt _ | PFloat _ | PBool _ =>
              match py_float collected_at with
              | Ok t => source_elapsed timestamp elapsed samples
                  (alist_set source (PFloat (f_round (fsub elapsed (fsub timestamp t)) 6)) acc)
              | Raise e => (acc, Some e)
              end
          | _ => source_elapsed timestamp elapsed samples acc
          end
      end
  end.

(** A step of the [try] block either extends the record or ends the block,
    keeping what the record holds. *)
Definition then_step (r : mapping * option exn) (f : mapping → mapping * option exn)
  : mapping * option exn :=
  match r with (record, None) => f record | r => r end.
Definition put (k : string) (v : pyval) (record : mapping) : mapping * option exn :=
  (alist_set k v record, None).
(** [record[k] = snapshot[k']] *)
Definition put_item (snapshot : mapping) (k : string) (record : mapping) : mapping * option exn :=
  match alist_get k snapshot with
  | Some v => (alist_set k v record, None)
  | None => (record, Some (KeyError k))
  end.

(** [runtime.py:433-447 ResourceSampler._run] *)
Definition put_sources (c : config) (snapshot record : mapping) (timestamp elapsed : pyfloat)
  : mapping * option exn :=
  let samples := get_field snapshot "source_samples" (PDict []) in
  then_step
    (then_step
      (then_step (put "snapshot" (get_field snapshot "snapshot" (PDict [])) record)
        (put "source_samples" samples))
      (λ record,
        match samples with
        | PDict samples =>
            let '(sources, stop) := source_elapsed timestamp elapsed samples [] in
            (alist_set "source_elapsed_seconds" (PDict sources) record, stop)
        | _ => (alist_set "source_elapsed_seconds" (PDict []) record, Some (OtherError "AttributeError"))
        end))
    (λ record, if collect_resources c then put_item snapshot "pods" record else (record, None)).

(** The NATS part, with what it leaves in the sampler.
    [runtime.py:448-468 ResourceSampler._run] *)
Definition put_nats (snapshot record : mapping) (pending : option pyfloat) (observer : option mapping)
  : mapping * option exn * option pyfloat * option mapping :=
  let r :=
    then_step
      (then_step (put_item snapshot "nats_metrics" record)
        (put "nats_raft_groups" (get_field snapshot "nats_raft_groups" (PList []))))
      (put_item snapshot "nats_micro_endpoints") in
  match r with
  | (record, Some e) => (record, Some e, pending, observer)
  | (record, None) =>
      match get_field snapshot "nats_metrics" (PList []) with
      | PList metrics =>
          match consumer_pending_total metrics with
          | Raise e => (record, Some e, pending, observer)
          | Ok pending =>
              match get_field snapshot "nats_order_completed_observer" PNone with
              | PDict completed =>
                  (alist_set "nats_order_completed_observer" (PDict completed) record, None, pending, Some completed)
              | _ => (record, None, pending, observer)
              end
          end
      | _ => (record, Some (TypeError "object is not iterable"), pending, observer)
      end
  end.

(** [record["errors"].extend(snapshot["errors"])] *)
Definition put_errors (snapshot record : mapping) : mapping * option exn :=
  match alist_get "errors" snapshot with
  | Some (PList errors) => (alist_set "errors" (PList errors) record, None)
  | Some _ => (record, Some (TypeError "object is not iterable"))
  | None => (record, Some (KeyError "errors"))
  end.

(** One turn of the loop up to the wait: the record is written whatever the
    endpoint answered.
    [runtime.py:411-479 ResourceSampler._run] *)
Definition sample_turn (c : config) (s : clocks) (sampled : res mapping) (m : sampler)
    (timestamp elapsed : pyfloat) (phase : string) (now : pyfloat) : res sampler :=
  let record := base_record c s timestamp elapsed phase in
  let '(record, stop, pending, observer) :=
    match sampled with
    | Raise e => (record, Some e, sm_latest_pending m, sm_latest_observer m)
    | Ok snapshot =>
        match put_sources c snapshot record timestamp (f_round elapsed 6) with
        | (record, Some e) => (record, Some e, sm_latest_pending m, sm_latest_observer m)
        | (record, None) =>
            let '(record, stop, pending, observer) :=
              if collect_nats_metrics c
              then put_nats snapshot record (sm_latest_pending m) (sm_latest_observer m)
              else (record, None, sm_latest_pending m, sm_latest_observer m) in
            match stop with
            | Some e => (record, Some e, pending, observer)
            | None => let '(record, stop) := put_errors snapshot record in (record, stop, pending, observer)
            end
        end
    end in
  let record :=
    match stop with
    | Some e => alist_set "errors" (PList [PStr ("metrics endpoint: " +:+ exn_str e)]) record
    | None => record
    end in
  let record := alist_set "sampler_skipped_ticks" (PInt (sm_skipped_ticks m)) record in
  next ← advance_sample_deadline (sm_next_sample m) now (resource_sample_interval_seconds c);
  Ok (Sampler (sm_records m ++ [json_dumps (PDict record)]) pending observer next.1 (sm_skipped_ticks m + next.2)).

(** ** Phases *)

Definition phase_rank (phase : string) : nat :=
  if String.eqb phase "warmup" then 0 else if String.eqb phase "steady" then 1
  else if String.eqb phase "drain" then 2 else 3.

(** Time only moves a run forward through its phases: warm-up, steady
    interval, drain, after. *)
Theorem phases_progress c earlier later :
  fleb earlier later = true →
  phase_rank (phase_for_elapsed c earlier) ≤ phase_rank (phase_for_elapsed c later).
Proof.
  intros Hle. unfold phase_for_elapsed.
  assert (∀ limit, fltb later limit = true → fltb earlier limit = true) as Hbefore.
  { intros limit. by apply fleb_fltb_trans. }
  repeat match goal with
  | |- context [fltb later ?limit] =>
      destruct (fltb later limit) eqn:?; [rewrite (Hbefore limit) by done|]
  end; repeat case_match; apply Nat.leb_le; reflexivity.
Qed.

(** ** The recorder and the merge *)

(** A call of the recorder, with its readings of the clocks. *)
Inductive order_call :=
  | AcceptedCall (timestamp elapsed : pyfloat) (transaction_id phase : string)
  | TerminalCall (timestamp elapsed : pyfloat) (transaction_id outcome phase : string).

Definition apply_call (r : recorder) (call : order_call) : recorder :=
  match call with
  | AcceptedCall t e id phase => recorder_accepted r t e id phase
  | TerminalCall t e id outcome phase => recorder_terminal r t e id outcome phase
  end.
Definition recorded_log (calls : list order_call) : list pyval :=
  rc_outstanding (foldl apply_call (recorder_open (Recorder false [] [] 0 0)) calls).

Definition call_delta (call : order_call) : Z :=
  match call with AcceptedCall _ _ _ _ => 1 | TerminalCall _ _ _ _ _ => -1 end.
Definition call_balance (calls : list order_call) : Z := sum_Z (call_delta <$> calls).

(** No outcome is spelled like the event of an acceptance, and no prefix
    settles more orders than it accepts. *)
Definition call_ok (call : order_call) : Prop :=
  match call with TerminalCall _ _ _ outcome _ => str_lower outcome ≠ "accepted" | _ => True end.
Definition orderly (calls : list order_call) : Prop :=
  Forall call_ok calls ∧ ∀ n, (0 ≤ call_balance (take n calls))%Z.

Definition outstanding_record (count : Z) (timestamp elapsed : pyfloat) (event id phase : string) : pyval :=
  json_dumps (PDict [("timestamp", PFloat timestamp); ("elapsed_seconds", PFloat (f_round elapsed 6));
                     ("phase", PStr phase); ("event", PStr event);
                     ("transaction_id", PStr id); ("outstanding", PInt count)]).

Lemma outstanding_record_get count t e event id phase k :
  py_get (outstanding_record count t e event id phase) k PNone =
    Ok (default PNone (json_sorted <$> alist_get k
      [("timestamp", PFloat t); ("elapsed_seconds", PFloat (f_round e 6)); ("phase", PStr phase);
       ("event", PStr event); ("transaction_id", PStr id); ("outstanding", PInt count)])).
Proof.
  apply json_sorted_get. cbn [fmap list_fmap fst]. apply (bool_decide_unpack _). vm_compute. exact I.
Qed.

Lemma outstanding_record_delta count t e event id phase :
  event_delta (outstanding_record count t e event id phase) = if String.eqb event "accepted" then 1%Z else (-1)%Z.
Proof.
  unfold event_delta. rewrite outstanding_record_get. reflexivity.
Qed.

Lemma outstanding_record_readable count t e event id phase :
  readable (outstanding_record count t e event id phase).
Proof.
  pose proof (outstanding_record_get count t e event id phase "timestamp") as Ht.
  unfold outstanding_record, json_dumps in *. cbn [json_sorted] in *.
  do 2 eexists. split; [done|]. unfold timestamp.
  match type of Ht with py_get (PDict ?d) _ _ = _ => generalize dependent d end. intros d Ht.
  cbn [py_get] in *. injection Ht as Ht. simpl in Ht.
  destruct (alist_get "timestamp" d) as [v|]; simpl in *; [by subst v|done].
Qed.

(** The records a worker writes say what its calls were, and its own count is
    the balance of its log. *)
Lemma recorder_log_spec calls r :
  rc_open r = true → Forall call_ok calls → (∀ n, 0 ≤ rc_outstanding_count r + call_balance (take n calls))%Z →
  (0 ≤ rc_outstanding_count r)%Z →
  ∃ log, rc_outstanding (foldl apply_call r calls) = rc_outstanding r ++ log ∧
    Forall readable log ∧ event_delta <$> log = call_delta <$> calls ∧
    rc_outstanding_count (foldl apply_call r calls) = (rc_outstanding_count r + call_balance calls)%Z.
Proof.
  intros Hopen Hok. revert r Hopen. induction Hok as [|call calls Hcall Hok IH]; intros r Hopen Hbal H0.
  { exists []. split_and!; [by rewrite app_nil_r|constructor|done|]. unfold call_balance. simpl. lia. }
  assert (∃ x, rc_outstanding (apply_call r call) = rc_outstanding r ++ [x] ∧ readable x ∧
    event_delta x = call_delta call ∧ rc_open (apply_call r call) = true ∧
    rc_outstanding_count (apply_call r call) = (rc_outstanding_count r + call_delta call)%Z)
    as (x & Hx & Hread & Hdelta & Hopen' & Hcount).
  { specialize (Hbal 1). unfold call_balance in Hbal. simpl in Hbal.
    destruct call as [t e id phase|t e id outcome phase];
      unfold apply_call, recorder_accepted, recorder_terminal, write_outstanding; rewrite Hopen;
      cbn [rc_outstanding rc_open rc_outstanding_count call_delta];
      [exists (outstanding_record (rc_outstanding_count r + 1) t e "accepted" id phase)
      |exists (outstanding_record (Z.max 0 (rc_outstanding_count r - 1)) t e (str_lower outcome) id phase)];
      rewrite outstanding_record_delta; (split_and!; [done|apply outstanding_record_readable| |done|]).
    - done.
    - done.
    - simpl in Hcall. by apply String.eqb_neq in Hcall as ->.
    - simpl in Hbal. lia. }
  assert (∀ n, call_balance (take (S n) (call :: calls)) = (call_delta call + call_balance (take n calls))%Z) as Hcons by done.
  destruct (IH (apply_call r call)) as (log & Hlog & Hreads & Hdeltas & Hfinal); [done| | |].
  { intros n. rewrite Hcount. specialize (Hbal (S n)). rewrite Hcons in Hbal. lia. }
  { rewrite Hcount. specialize (Hbal 1). rewrite Hcons in Hbal. change (call_balance (take 0 calls)) with 0%Z in Hbal. lia. }
  exists (x :: log). cbn [foldl]. rewrite Hlog, Hx, <- app_assoc. split_and!; [done|by constructor| |].
  - cbn [fmap list_fmap]. by rewrite Hdelta, Hdeltas.
  - rewrite Hfinal, Hcount. change (call_balance (call :: calls)) with (call_delta call + call_balance calls)%Z. lia.
Qed.

Lemma recorded_log_spec calls :
  orderly calls → Forall readable (recorded_log calls) ∧ ∀ n, (0 ≤ balance (take n (recorded_log calls)))%Z.
Proof.
  intros [Hok Hbal]. unfold recorded_log.
  destruct (recorder_log_spec calls (recorder_open (Recorder false [] [] 0 0))) as (log & -> & Hread & Hdelta & _);
    [done|done|intros n; simpl; rewrite Z.add_0_l; apply Hbal|done|].
  simpl. split; [done|]. intros n. unfold balance. rewrite fmap_take, Hdelta, <- fmap_take. apply Hbal.
Qed.

(** From the workers' recorders to the merged log.  Whatever orderly calls
    each worker's recorder gets, the logs they write are merged and rebased
    without an error, nothing is lost, and after each record the rebased count
    is the number of orders accepted so far less the number settled so far over
    all workers, never negative. *)
Theorem workers_outstanding_exact (workers : list (list order_call)) :
  Forall orderly workers →
  ∃ merged out,
    merge_records (document_file <$> (recorded_log <$> workers)) = Ok merged ∧
    rebase_outstanding 0 merged = Ok out ∧
    merged ≡ₚ concat (recorded_log <$> workers) ∧ length out = length merged ∧
    ∀ i r, out !! i = Some r →
      py_item r "outstanding" = Ok (PInt (balance (take (S i) merged))) ∧
      (0 ≤ balance (take (S i) merged))%Z.
Proof.
  intros Hworkers.
  assert (Forall (Forall readable) (recorded_log <$> workers)) as Hread.
  { rewrite Forall_fmap. eapply Forall_impl; [exact Hworkers|]. intros calls Hc. by apply recorded_log_spec. }
  destruct (merge_records_total _ Hread) as (merged & Hmerged & Hperm).
  destruct (rebase_total 0 merged) as [out Hout].
  { rewrite Hperm. by apply Forall_concat. }
  destruct (merged_outstanding (document_file <$> (recorded_log <$> workers)) (recorded_log <$> workers) merged out)
    as [Hlen Hget]; [by apply read_document_files| |done|done|by exists merged, out].
  rewrite Forall_fmap. eapply Forall_impl; [exact Hworkers|]. intros calls Hc. exact (proj2 (recorded_log_spec calls Hc)).
Qed.

(** ** Concrete inputs *)

Definition demo_calls : list (list order_call) :=
  [[AcceptedCall (float_dec 1 0) (float_dec 0 0) "a" "steady";
    TerminalCall (float_dec 4 0) (float_dec 3 0) "a" "COMPLETED" "steady"];
   [AcceptedCall (float_dec 2 0) (float_dec 1 0) "b" "steady";
    TerminalCall (float_dec 3 0) (float_dec 2 0) "b" "REJECTED" "drain"]].

Lemma workers_outstanding_exact_witness :
  ∃ merged out,
    merge_records (document_file <$> (recorded_log <$> demo_calls)) = Ok merged ∧
    rebase_outstanding 0 merged = Ok out ∧
    merged ≡ₚ concat (recorded_log <$> demo_calls) ∧ length out = length merged ∧
    ∀ i r, out !! i = Some r →
      py_item r "outstanding" = Ok (PInt (balance (take (S i) merged))) ∧
      (0 ≤ balance (take (S i) merged))%Z.
Proof.
  apply (workers_outstanding_exact demo_calls).
  repeat (apply Forall_cons; split); try apply Forall_nil_2; (split;
    [repeat (apply Forall_cons; split); try apply Forall_nil_2; simpl; trivial; vm_compute; discriminate
    |intros [|[|[|n]]]; vm_compute; discriminate]).
Defined.

Lemma phases_progress_witness :
  phase_rank (phase_for_elapsed demo_config (float_dec 1 0)) ≤ phase_rank (phase_for_elapsed demo_config (float_dec 100 0)).
Proof. apply (phases_progress demo_config (float_dec 1 0) (float_dec 100 0)). vm_compute. reflexivity. Defined.

(** The counts of the merged log of the example. *)
Example demo_counts :
  (m ← merge_records (document_file <$> (recorded_log <$> demo_calls));
   out ← rebase_outstanding 0 m; res_mapM (λ r, py_item r "outstanding") out)
  = Ok [PInt 1; PInt 2; PInt 1; PInt 0].
Proof. vm_compute. reflexivity. Qed.

(** A sample that fails still leaves a record. *)
Example demo_sample :
  sm_records <$> match sample_turn demo_config (Clocks (float_dec 5 0) (float_dec 5 0) None None None)
    (Raise (RuntimeError "metrics endpoint returned invalid pods"))
    (Sampler [] None None (float_dec 10 0) 0) (float_dec 9 0) (float_dec 4 0) "steady" (float_dec 100 0) with
    | Ok m => Some m | Raise _ => None end
  = Some [json_dumps (PDict [("timestamp", PFloat (float_dec 9 0)); ("elapsed_seconds", PFloat (float_dec 4 0));
      ("phase", PStr "steady"); ("pods", PDict []); ("nats_metrics", PList []);
      ("nats_micro_endpoints", PList []); ("nats_order_completed_observer", PNone);
      ("nats_raft_groups", PList []);
      ("errors", PList [PStr "metrics endpoint: metrics endpoint returned invalid pods"]);
      ("sampler_skipped_ticks", PInt 0)])].
Proof. vm_compute. reflexivity. Qed.
Example demo_deadline :
  advance_sample_deadline (float_dec 10 0) (float_dec 27 0) (float_dec 5 0) = Ok (float_dec 30 0, 3%Z).
Proof. vm_compute. reflexivity. Qed.
