(* ===== verification/Storefront.v ===== *)
(** * The storefront client (benchmarkservice/locustfile.py, the adapters)

    A simulated user prepares a cart, submits its checkout, follows the
    order's event stream to its outcome and then to its settlement, and
    reports each of the three to Locust and to the recorder of Runtime.v.  A
    method is a program over the calls it makes (clocks, HTTP, the event
    stream, Locust's events, the recorder).  Its caller can be killed while it
    waits: a wait may raise [GreenletExit], which no [except] catches.

    Dictionaries are values here: each is mutated by one method at a time and
    Locust reads it when an event is fired. *)

From S2P Require Import Prelude PyFloat PyValue PyText PyUrl BenchConfig Program Sse Runtime Saturation Reporting.
From Stdlib Require Import Ascii.
From Corelib Require Import SpecFloat.

(** [except Exception] lets these pass. *)
Definition is_exception (e : exn) : bool :=
  match e with GreenletExit | GeventTimeout _ => false | _ => true end.

(** ** Time stamps *)

(** The proleptic Gregorian date of a day counted from 1970-01-01. *)
Definition civil (days : Z) : Z * Z * Z :=
  let z := (days + 719468)%Z in
  let era := (z / 146097)%Z in
  let doe := (z mod 146097)%Z in
  let yoe := ((doe - doe / 1460 + doe / 36524 - doe / 146096) / 365)%Z in
  let doy := (doe - (365 * yoe + yoe / 4 - yoe / 100))%Z in
  let mp := ((5 * doy + 2) / 153)%Z in
  let m := (if mp <? 10 then mp + 3 else mp - 9)%Z in
  ((yoe + era * 400 + (if m <=? 2 then 1 else 0))%Z, m, (doy - (153 * mp + 2) / 5 + 1)%Z).

(** [n] digits of a number. *)
Fixpoint digits (n : nat) (z : Z) : string :=
  match n with
  | 0 => ""
  | S n => digits n (z / 10)%Z +:+ String (ascii_of_nat (48 + Z.to_nat (z mod 10))) ""
  end.

(** The seconds and microseconds of a time stamp: the fraction is scaled and
    rounded to even. *)
Definition split_epoch (epoch : pyfloat) : res (Z * Z) :=
  seconds ← f_trunc epoch;
  whole ← float_of_Z seconds;
  us ← f_round_int (fmul (fsub epoch whole) (float_dec 1000000 0));
  Ok (if (1000000 <=? us)%Z then (seconds + 1, us - 1000000)%Z
      else if (us <? 0)%Z then (seconds - 1, us + 1000000)%Z else (seconds, us)).

(** [sse.py:54-59 utc_timestamp] *)
Definition utc_timestamp (epoch : pyfloat) : res string :=
  '(seconds, us) ← split_epoch epoch;
  let '(y, m, d) := civil (seconds / 86400)%Z in
  let s := (seconds mod 86400)%Z in
  if (y <? 1)%Z || (9999 <? y)%Z then Raise (ValueError ("year " +:+ pretty y +:+ " is out of range")) else
  Ok (digits 4 y +:+ "-" +:+ digits 2 m +:+ "-" +:+ digits 2 d +:+ "T" +:+ digits 2 (s / 3600) +:+ ":"
      +:+ digits 2 (s / 60 mod 60) +:+ ":" +:+ digits 2 (s mod 60) +:+ "." +:+ digits 6 us +:+ "Z").

(** An event id, in UTF-8. *)
Definition text_utf8 (t : text) : string := of_chars ((λ b, ascii_of_nat (Z.to_nat b)) <$> utf8_encode t).

(** [timing.py:6-12 received_latency_ms] *)
Definition received_latency_ms (request_started_monotonic received_monotonic : pyfloat) : res pyfloat :=
  if fltb received_monotonic request_started_monotonic
  then Raise (ValueError "event receipt preceded request start")
  else Ok (fmul (fsub received_monotonic request_started_monotonic) (float_dec 1000 0)).

(** ** Failures *)

(** [locustfile.py:76-90 BusinessFailure] *)
Record failure := Failure {
  fl_outcome : string;
  fl_detail : string;
  fl_received : option (pyfloat * pyfloat);
}.
Definition failure_exn (f : failure) : exn := BusinessFailure (fl_outcome f) (fl_detail f).
Definition failure_str (f : failure) : string := exn_str (failure_exn f).

(** [locustfile.py:126-138 failure_message] *)
Definition failure_message (outcome detail : string) : failure := Failure outcome detail None.

(** [received] are the monotonic clock and the epoch at the receipt.
    [locustfile.py:141-162 http_status_failure] *)
Definition http_status_failure (status_code : Z) (fallback_outcome operation : string)
    (received : option (pyfloat * pyfloat)) : failure :=
  if (status_code =? 0)%Z then Failure "TIMEOUT" (operation +:+ " timed out") received
  else Failure fallback_outcome (operation +:+ " status " +:+ pretty status_code) received.

(** [locustfile.py:165-174 receipt_context] *)
Definition receipt_context (context : mapping) (prefix : string) (received_epoch : pyfloat)
    (event_id : option string) : res mapping :=
  at_time ← utc_timestamp received_epoch;
  let context := alist_set (prefix +:+ "_received_at") (PStr at_time) context in
  let context := alist_set (prefix +:+ "_received_epoch") (PFloat (f_round received_epoch 6)) context in
  Ok match event_id with
     | Some id => if String.eqb id "" then context else alist_set (prefix +:+ "_event_id") (PStr id) context
     | None => context
     end.

(** [locustfile.py:177-183 record_received_failure] *)
Definition record_received_failure (context : mapping) (error : failure) : res mapping :=
  match fl_received error with
  | None => Ok context
  | Some (_, received_epoch) =>
      context ← receipt_context context "failure" received_epoch None;
      Ok (alist_set "failure_message"
            (PStr (if String.eqb (fl_detail error) "" then failure_str error else fl_detail error)) context)
  end.

(** ** Calls *)

(** A response; [rs_json] is what its [json()] makes of the body, and
    [rs_stream] names the event stream it opened. *)
Record response := Response {
  rs_status : Z;
  rs_header : string → option string;
  rs_json : res pyval;
  rs_stream : nat;
}.

(** [SNext] asks the generator of a stream for its next order, within the
    seconds of a [gevent.Timeout] that raises [SSEDeadlineReached].
    [SMeasured] is the end of Locust's [measure], which fires the event. *)
Inductive shopE : Type → Type :=
  | SMonotonic : shopE pyfloat
  | STime : shopE pyfloat
  | SSleep (seconds : pyfloat) : shopE (res unit)
  | SUuid4 : shopE string
  | SYear : shopE Z
  | SRandint (a b : Z) : shopE Z
  | SChoice (l : list string) : shopE string
  | SUniform (a b : pyfloat) : shopE pyfloat
  | SPhaseNow : shopE string
  | SStartedEpoch : shopE pyfloat
  | SDrainDeadline : shopE pyfloat
  | SPost (path name : string) (data headers : mapping) : shopE (res response)
  | SGet (path name : string) (headers : mapping) : shopE (res response)
  | SSuccess : shopE unit
  | SFailure (message : string) : shopE unit
  | SAcquireSlot : shopE (res unit)
  | SReleaseSlot : shopE unit
  | SOpen (path name : string) (headers : mapping) : shopE (res response)
  | SReleaseResponse (stream : nat) : shopE unit
  | SNext (stream : nat) (seconds : pyfloat) : shopE (res received_order)
  | SClose (stream : nat) : shopE unit
  | SMeasured (name : string) (context : mapping) (error : option exn) : shopE unit
  | SFire (name : string) (response_time start_time : pyfloat) (context : mapping) (error : option exn)
      : shopE unit
  | SAccepted (transaction_id phase : string) : shopE unit
  | STerminal (transaction_id outcome phase : string) : shopE unit
  | SSpawnTracker (events_location : string) (order : received_order) (stream : option nat)
      (checkout_started checkout_started_epoch : pyfloat) (context : mapping) : shopE unit.

(** [locustfile.py:97-102 retry_after_seconds] *)
Definition retry_after_seconds (r : response) : pyfloat :=
  let value := match rs_header r "Retry-After" with
               | Some s => match float_of_str s with Ok x => x | Raise _ => float_dec 1 0 end
               | None => float_dec 1 0
               end in
  f_min (float_dec 5 0) (f_max (float_dec 5 (-2)) value).

(** [locustfile.py:67-71 SSE_RECONNECT_INITIAL_SECONDS] *)
Definition SSE_RECONNECT_INITIAL_SECONDS : pyfloat := float_dec 1 0.
Definition SSE_RECONNECT_MAX_SECONDS : pyfloat := float_dec 5 0.
Definition SSE_RECONNECT_JITTER_RATIO : pyfloat := float_dec 2 (-1).

(** [locustfile.py:110-114 sse_reconnect_delay] *)
Definition reconnect_base (attempt : Z) : pyfloat :=
  let exponent := Z.min (Z.max 0 attempt) 16 in
  f_min SSE_RECONNECT_MAX_SECONDS (fmul SSE_RECONNECT_INITIAL_SECONDS (float_dec (2 ^ exponent) 0)).
Definition reconnect_limit (base : pyfloat) : pyfloat :=
  f_min SSE_RECONNECT_MAX_SECONDS (fmul base (fadd (float_dec 1 0) SSE_RECONNECT_JITTER_RATIO)).

(** [locustfile.py:105-123 sse_reconnect_delay] *)
Definition sse_reconnect_delay (attempt : Z) (retry_after : option pyfloat) : prog shopE pyfloat :=
  let base := reconnect_base attempt in
  jittered ← perform (SUniform base (reconnect_limit base));
  let advertised := default (float_dec 0 0) retry_after in
  Ret (f_min SSE_RECONNECT_MAX_SECONDS (f_max advertised jittered)).

(** [locustfile.py:186-193 close_order_stream] *)
Definition close_order_stream (stream : option nat) : prog shopE unit :=
  match stream with None => Ret tt | Some s => perform (SClose s) end.

(** [locustfile.py:196-203 next_order_event_before] *)
Definition next_order_event_before (stream : nat) (deadline : pyfloat) : prog shopE received_order :=
  now ← perform SMonotonic;
  let remaining := fsub deadline now in
  if fleb remaining (float_dec 0 0) then Throw SSEDeadlineReached else call (SNext stream remaining).

(** Wait before the next connection, not beyond the deadline.
    [locustfile.py:881-890 NatsAdapter._checkout_to_outcome] *)
Definition back_off (deadline : pyfloat) (attempt : Z) (retry_after : option pyfloat) : prog shopE unit :=
  delay ← sse_reconnect_delay attempt retry_after;
  now ← perform SMonotonic;
  call (SSleep (f_min delay (f_max (float_dec 0 0) (fsub deadline now)))).

(** ** The adapter *)

(** [locustfile.py:47-57 PRODUCTS] *)
Definition PRODUCTS : list string :=
  ["0PUK6V6EV0"; "1YMWWN1N4O"; "2ZYFJ3GM2N"; "66VCHSJNUP"; "6E92ZMYYFZ"; "9SIQT8TOJO"; "L9ECAV7KIM";
   "LS4PSXUNUM"; "OLJCESPC7Z"].
(** [locustfile.py:58-58 CURRENCIES] *)
Definition CURRENCIES : list string := ["EUR"; "USD"; "JPY"; "CAD"; "GBP"; "TRY"].
(** [locustfile.py:59-64 TERMINAL_ORDER_STATUSES] *)
Definition TERMINAL_ORDER_STATUSES : list string := ["COMPLETED"; "CANCELLED"; "REJECTED"; "MANUAL_REVIEW"].
(** [locustfile.py:65-66 TERMINAL_NOTIFICATION_STATUSES] *)
Definition TERMINAL_NOTIFICATION_STATUSES : list string := ["SENT"; "FAILED"].
Definition TERMINAL_CART_CLEAR_STATUSES : list string := ["SUCCEEDED"; "REJECTED"].

(** [session_cookie.py:10-10 SESSION_COOKIE_NAME] *)
Definition SESSION_COOKIE_NAME : string := "shop_session-id".

(** [locustfile.py:288-302 StorefrontAdapter.headers] *)
Definition headers (session_cookie accept : option string) (idempotency_key : bool) : prog shopE mapping :=
  let truthy key prefix (o : option string) := match o with
    | Some s => if String.eqb s "" then [] else [(key, PStr (prefix +:+ s))] | None => [] end in
  let base := truthy "Accept" "" accept ++ truthy "Cookie" (SESSION_COOKIE_NAME +:+ "=") session_cookie in
  if idempotency_key then key ← perform SUuid4; Ret (base ++ [("Idempotency-Key", PStr key)]) else Ret base.

(** A plain page: only a time-out is a failure.
    [locustfile.py:304-311 StorefrontAdapter.home] *)
Definition visit (session_cookie : option string) (path name operation : string) : prog shopE unit :=
  h ← headers session_cookie None false;
  r ← call (SGet path name h);
  if (rs_status r =? 0)%Z
  then perform (SFailure (failure_str (http_status_failure 0 "HTTP_FAILURE" operation None))) else Ret tt.

Definition home (session_cookie : option string) : prog shopE unit :=
  visit session_cookie "/" "/" "home request".

(** [locustfile.py:313-326 StorefrontAdapter.set_currency] *)
Definition set_currency (session_cookie : option string) : prog shopE unit :=
  code ← perform (SChoice CURRENCIES);
  h ← headers session_cookie None false;
  r ← call (SPost "/setCurrency" "/setCurrency" [("currency_code", PStr code)] h);
  if bool_decide (rs_status r ∈ [302; 303]%Z) then Ret tt
  else perform (SFailure (failure_str (http_status_failure (rs_status r) "HTTP_FAILURE" "currency request" None))).

(** [locustfile.py:328-342 StorefrontAdapter.browse_product] *)
Definition browse_product (session_cookie : option string) : prog shopE unit :=
  product ← perform (SChoice PRODUCTS);
  visit session_cookie ("/product/" +:+ product) "/product/[id]" "product request".

(** [locustfile.py:344-351 StorefrontAdapter.view_cart] *)
Definition view_cart (session_cookie : option string) : prog shopE unit :=
  visit session_cookie "/cart" "/cart" "cart request".

(** [locustfile.py:384-399 StorefrontAdapter.checkout_data] *)
Definition checkout_data : prog shopE mapping :=
  year ← perform SYear;
  id ← perform SUuid4;
  month ← perform (SRandint 1 12);
  expiry ← perform (SRandint (year + 1) (year + 1 + 4));
  cvv ← perform (SRandint 100 999);
  Ret [("email", PStr ("benchmark-" +:+ id +:+ "@example.com"));
       ("street_address", PStr "1600 Amphitheatre Parkway"); ("zip_code", PStr "94043");
       ("city", PStr "Mountain View"); ("state", PStr "CA"); ("country", PStr "United States");
       ("credit_card_number", PStr "4111111111111111"); ("credit_card_expiration_month", PInt month);
       ("credit_card_expiration_year", PInt expiry); ("credit_card_cvv", PStr (pretty cvv))].

Section adapter.
Context (c : config) (bracket_ok : string → bool).
(** [SimpleCookie().load(raw)]: the cookies of a header. *)
Context (load_cookies : string → res (list (string * string))).

(** When, in an open schedule, the transaction was due, and in a ladder the
    rung it belongs to. *)
Record slot := Slot {
  sl_scheduled_at : option pyfloat;
  sl_delay_ms : option pyfloat;
  sl_rung : option Z;
  sl_rate : option pyfloat;
}.

Definition opt_float (o : option pyfloat) : pyval := match o with Some x => PFloat x | None => PNone end.

(** [locustfile.py:401-440 StorefrontAdapter.base_context] *)
Definition base_context (s : slot) : prog shopE mapping :=
  phase ← perform SPhaseNow;
  phase ← match sl_scheduled_at s with
          | Some scheduled_at =>
              started ← perform SStartedEpoch;
              Ret (phase_for_elapsed c (f_max (float_dec 0 0) (fsub scheduled_at started)))
          | None => Ret phase
          end;
  let phase := match sl_rung s with
               | Some _ => "steady"
               | None => if String.eqb (workload c) "saturation"
                            && match sl_rate s with Some _ => true | None => false end
                         then "warmup" else phase
               end in
  let context := [("application_type", PStr (application_type c)); ("workload", PStr (workload c));
                  ("phase", PStr phase); ("scheduled_at", opt_float (sl_scheduled_at s));
                  ("schedule_delay_ms", opt_float ((λ x, f_round x 3) <$> sl_delay_ms s));
                  ("accepted", PBool false); ("outcome", PStr "UNKNOWN")] in
  Ret (if String.eqb (workload c) "saturation"
       then context ++ [("saturation_rung", match sl_rung s with Some r => PInt r | None => PNone end);
                        ("target_requests_per_second", opt_float (sl_rate s))]
       else context).

(** [locustfile.py:442-464 StorefrontAdapter.record_precondition_failure] *)
Definition record_precondition_failure (s : slot) (error : failure) : prog shopE unit :=
  context ← base_context s;
  let context := alist_set "outcome" (PStr (fl_outcome error)) context in
  let context := alist_set "failure_message"
    (PStr (if String.eqb (fl_detail error) "" then failure_str error else fl_detail error)) context in
  perform (SMeasured "checkout_to_outcome" context (Some (failure_exn error))).

(** [locustfile.py:466-486 StorefrontAdapter.record_generator_saturation] *)
Definition record_generator_saturation (s : slot) : prog shopE unit :=
  context ← base_context s;
  let error := failure_message "GENERATOR_SATURATED" "open-loop concurrency limit reached" in
  perform (SMeasured "checkout_to_outcome" (alist_set "outcome" (PStr "GENERATOR_SATURATED") context)
             (Some (failure_exn error))).

(** [session_cookie.py:13-21 issued_session_cookie] *)
Definition issued_session_cookie (r : response) : res (option string) :=
  match rs_header r "Set-Cookie" with
  | None => Ok None
  | Some raw =>
      if String.eqb raw "" then Ok None else
      cookies ← load_cookies raw; Ok (alist_get SESSION_COOKIE_NAME cookies)
  end.

Definition status_failure (r : response) (operation : string) : failure :=
  http_status_failure (rs_status r) "PRECONDITION_FAILED" operation None.
Definition not_prepared (detail : string) : option failure := Some (failure_message "PRECONDITION_FAILED" detail).

(** [locustfile.py:500-520 GrpcAdapter._submit_cart_add] *)
Definition grpc_submit_cart_add (cookie : option string) (data : mapping) : prog shopE (option failure) :=
  h ← headers cookie None false;
  r ← call (SPost "/cart" "/cart" data h);
  if bool_decide (rs_status r ∈ [302; 303]%Z) then _ ← perform SSuccess; Ret None
  else
    let error := status_failure r "cart request" in
    _ ← perform (SFailure (failure_str error)); Ret (Some error).

(** [fuel] bounds the polls; [None] is running out of it.
    [locustfile.py:600-637 NatsAdapter._submit_cart_add] *)
Fixpoint poll_operation (fuel : nat) (cookie : option string) (location : string) (deadline delay : pyfloat)
  : prog shopE (option (option failure)) :=
  match fuel with
  | 0 => Ret None
  | S fuel =>
      now ← perform SMonotonic;
      if negb (fltb now deadline) then Ret (Some (not_prepared "cart operation did not complete")) else
      _ ← call (SSleep delay);
      h ← headers cookie (Some "application/json") false;
      r ← call (SGet location "/operations/[id]" h);
      let delay := retry_after_seconds r in
      if bool_decide (rs_status r ∈ [404; 503]%Z)
      then _ ← perform SSuccess; poll_operation fuel cookie location deadline delay
      else if negb (rs_status r =? 200)%Z
      then
        let error := status_failure r "cart operation request" in
        _ ← perform (SFailure (failure_str error)); Ret (Some (Some error))
      else match rs_json r with
      | Raise _ =>
          _ ← perform (SFailure "operation response is not JSON");
          Ret (Some (not_prepared "cart operation response is not JSON"))
      | Ok operation =>
          _ ← perform SSuccess;
          status ← lift (py_get operation "status" PNone);
          if py_eqb status (PStr "SUCCEEDED") then Ret (Some None)
          else
            status ← lift (py_get operation "status" PNone);
            if py_eqb status (PStr "REJECTED") then Ret (Some (not_prepared "cart operation was rejected"))
            else poll_operation fuel cookie location deadline delay
      end
  end.

(** [locustfile.py:564-637 NatsAdapter._submit_cart_add] *)
Definition nats_submit_cart_add (fuel : nat) (cookie : option string) (data : mapping)
  : prog shopE (option (option failure)) :=
  h ← headers cookie (Some "application/json") true;
  r ← call (SPost "/cart" "/cart" data h);
  if bool_decide (rs_status r ∈ [302; 303]%Z) then _ ← perform SSuccess; Ret (Some None)
  else if negb (rs_status r =? 202)%Z
  then
    let error := status_failure r "cart request" in
    _ ← perform (SFailure (failure_str error)); Ret (Some (Some error))
  else match rs_header r "Location" with
  | None | Some "" =>
      _ ← perform (SFailure "202 cart operation omitted Location");
      Ret (Some (not_prepared "cart operation Location is missing"))
  | Some location =>
      let delay := retry_after_seconds r in
      _ ← perform SSuccess;
      now ← perform SMonotonic;
      drain ← perform SDrainDeadline;
      poll_operation fuel cookie location (f_min (fadd now (outcome_timeout_seconds c)) drain) delay
  end.

(** The answer is the adapter's cookie afterwards, and the failure.
    [locustfile.py:353-377 StorefrontAdapter.add_item] *)
Definition add_item (fuel : nat) (cookie : option string) : prog shopE (option string * option (option failure)) :=
  product ← perform (SChoice PRODUCTS);
  h ← headers cookie None false;
  r ← call (SGet ("/product/" +:+ product) "/product/[id]" h);
  if negb (rs_status r =? 200)%Z then
    let error := status_failure r "product request" in
    _ ← perform (SFailure (failure_str error)); Ret (cookie, Some (Some error))
  else
    issued ← lift (issued_session_cookie r);
    let cookie := match issued with Some s => Some s | None => cookie end in
    quantity ← perform (SRandint 1 10);
    let data := [("product_id", PStr product); ("quantity", PInt quantity)] in
    added ← (if String.eqb (application_type c) "NATS" then nats_submit_cart_add fuel cookie data
             else e ← grpc_submit_cart_add cookie data; Ret (Some e));
    Ret (cookie, added).

(** *** Checkout to outcome *)

(** How a measured body ends: with what it returns and what it left in the
    measurement, by an exception (with the context as it was then), or out of
    fuel. *)
Inductive body_end :=
  | Finished (context : mapping) (order : option received_order) (events_location : option string)
      (stream : option nat) (error : option failure) (response_time : option pyfloat)
  | Escaped (context : mapping) (e : exn)
  | OutOfFuel.

(** Run [p]; its exception leaves the body. *)
Definition guard {A} (context : mapping) (p : prog shopE A) (k : A → prog shopE body_end) : prog shopE body_end :=
  r ← prog_try p; match r with Ok a => k a | Raise e => Ret (Escaped context e) end.

Definition opt_str (o : option string) : pyval := match o with Some s => PStr s | None => PNone end.

(** [locustfile.py:1054-1102 NatsAdapter._open_order_event_stream] *)
Definition open_order_event_stream (cookie : option string) (events_location name : string)
  : prog shopE (option nat * option failure * option pyfloat) :=
  _ ← call SAcquireSlot;
  r ← prog_try (h ← headers cookie (Some "text/event-stream") false; call (SOpen events_location name h));
  _ ← perform SReleaseSlot;
  r ← lift r;
  received_monotonic ← perform SMonotonic;
  received_epoch ← perform STime;
  let received := Some (received_monotonic, received_epoch) in
  if bool_decide (rs_status r ∈ [404; 503]%Z) then
    let retry_after := retry_after_seconds r in
    _ ← perform SSuccess; _ ← perform (SReleaseResponse (rs_stream r)); Ret (None, None, Some retry_after)
  else if negb (rs_status r =? 200)%Z then
    let error := http_status_failure (rs_status r) "STATUS_ERROR" "SSE" received in
    _ ← perform (SFailure (failure_str error)); _ ← perform (SReleaseResponse (rs_stream r));
    Ret (None, Some error, None)
  else
    let content_type := default "" (rs_header r "Content-Type") in
    if negb (is_event_stream_content_type (PStr content_type)) then
      _ ← perform (SFailure "order event response is not text/event-stream");
      _ ← perform (SReleaseResponse (rs_stream r));
      Ret (None, Some (Failure "INVALID_RESPONSE" ("SSE Content-Type is " +:+ str_repr content_type) received), None)
    else _ ← perform SSuccess; Ret (Some (rs_stream r), None, None).

(** The exceptions of the loops' [except] clauses: all but a kill. *)
Definition loop_catches (e : exn) : bool := match e with GreenletExit => false | _ => true end.

Section outcome.
(** The order's stream, its deadlines and its transaction. *)
Context (cookie : option string) (events_location transaction_id : string).
Context (checkout_started per_order_deadline deadline : pyfloat).

(** The end of the loop at its deadline.
    [locustfile.py:1042-1052 NatsAdapter._checkout_to_outcome] *)
Definition at_deadline (context : mapping) (stream : option nat) : prog shopE body_end :=
  _ ← close_order_stream stream;
  drain ← perform SDrainDeadline;
  let outcome := if fleb drain per_order_deadline then "INCOMPLETE" else "TIMEOUT" in
  let context := alist_set "outcome" (PStr outcome) context in
  phase ← perform SPhaseNow;
  _ ← perform (STerminal transaction_id outcome phase);
  Ret (Finished context None (Some events_location) None (Some (failure_message outcome "")) None).

(** A malformed stream or an event of another order.
    [locustfile.py:902-919 NatsAdapter._checkout_to_outcome] *)
Definition reject_stream (context : mapping) (detail : string) (monotonic epoch : pyfloat) : prog shopE body_end :=
  let error := Failure "INVALID_RESPONSE" detail (Some (monotonic, epoch)) in
  let context := alist_set "outcome" (PStr "INVALID_RESPONSE") context in
  guard context (lift (record_received_failure context error)) (λ context,
  guard context (lift (received_latency_ms checkout_started monotonic)) (λ response_time,
  phase ← perform SPhaseNow;
  _ ← perform (STerminal transaction_id "INVALID_RESPONSE" phase);
  Ret (Finished context None (Some events_location) None (Some error) (Some response_time)))).

(** [locustfile.py:865-879 NatsAdapter._checkout_to_outcome] *)
Definition refuse_stream (context : mapping) (error : failure) : prog shopE body_end :=
  let context := alist_set "outcome" (PStr (fl_outcome error)) context in
  guard context (lift (record_received_failure context error)) (λ context,
  guard context (lift match fl_received error with
                      | Some (monotonic, _) =>
                          ms ← received_latency_ms checkout_started monotonic; Ok (Some ms)
                      | None => Ok None
                      end) (λ response_time,
  phase ← perform SPhaseNow;
  _ ← perform (STerminal transaction_id (fl_outcome error) phase);
  Ret (Finished context None (Some events_location) None (Some error) response_time))).

(** A terminal status.
    [locustfile.py:995-1040 NatsAdapter._checkout_to_outcome] *)
Definition settle_outcome (context : mapping) (s : nat) (received : received_order) (event_order_id status : string)
  : prog shopE body_end :=
  let order := ro_order received in
  guard context (lift (received_latency_ms checkout_started (ro_received_monotonic received))) (λ response_time,
  let context := dict_update context
    [("outcome", PStr status); ("order_id", PStr event_order_id);
     ("failure_code", field order "failure_code"); ("safe_message", field order "safe_message");
     ("outcome_at", field order "outcome_at"); ("outcome_transport", PStr "SSE")] in
  guard context (lift (receipt_context context "outcome" (ro_received_epoch received)
                         (text_utf8 <$> ro_event_id received))) (λ context,
  phase ← perform SPhaseNow;
  _ ← perform (STerminal transaction_id status phase);
  if String.eqb status "COMPLETED"
  then Ret (Finished context (Some received) (Some events_location) (Some s) None (Some response_time))
  else
    let detail := py_str (py_or (py_or (field order "safe_message") (field order "failure_code")) (PStr "")) in
    let error := Failure status detail
      (Some (ro_received_monotonic received, ro_received_epoch received)) in
    guard context (lift (record_received_failure context error)) (λ context,
    _ ← perform (SClose s);
    Ret (Finished context (Some received) (Some events_location) None (Some error) (Some response_time))))).

(** One order from the open stream [s]; [again] is the next turn of the
    loop.
    [locustfile.py:893-1040 NatsAdapter._checkout_to_outcome] *)
Definition outcome_turn (again : mapping → option nat → Z → prog shopE body_end) (context : mapping) (s : nat)
    (attempt : Z) : prog shopE body_end :=
  r ← prog_try (next_order_event_before s deadline);
  match r with
  | Raise SSEDeadlineReached => at_deadline context (Some s)
  | Raise (SSEProtocolError detail) =>
      monotonic ← perform SMonotonic;
      epoch ← perform STime;
      _ ← perform (SClose s);
      reject_stream context detail monotonic epoch
  | Raise e =>
      if loop_catches e then
        _ ← perform (SClose s);
        guard context (back_off deadline attempt None) (λ _, again context None (attempt + 1)%Z)
      else Ret (Escaped context e)
  | Ok received =>
      let order := ro_order received in
      let event_order_id := py_str (default (PStr "") (alist_get "order_id" order)) in
      let expected := field context "order_id" in
      if py_truth expected && negb (py_eqb (PStr event_order_id) expected) then
        _ ← perform (SClose s);
        reject_stream context "order event ID does not match accepted order"
          (ro_received_monotonic received) (ro_received_epoch received)
      else
        let status := py_str (default (PStr "UNKNOWN") (alist_get "status" order)) in
        if bool_decide (status ∈ TERMINAL_ORDER_STATUSES) then settle_outcome context s received event_order_id status
        else again context (Some s) 0%Z
  end.

(** [locustfile.py:860-1052 NatsAdapter._checkout_to_outcome] *)
Fixpoint await_outcome (fuel : nat) (context : mapping) (stream : option nat) (attempt : Z) : prog shopE body_end :=
  match fuel with
  | 0 => Ret OutOfFuel
  | S fuel =>
      now ← perform SMonotonic;
      if negb (fltb now deadline) then at_deadline context stream else
      match stream with
      | Some s => outcome_turn (await_outcome fuel) context s attempt
      | None =>
          guard context (open_order_event_stream cookie events_location "/orders/[id]/events")
            (λ '(opened, error, retry_after),
              match error, opened with
              | Some error, _ => refuse_stream context error
              | None, Some s => outcome_turn (await_outcome fuel) context s attempt
              | None, None =>
                  guard context (back_off deadline attempt retry_after)
                    (λ _, await_outcome fuel context None (attempt + 1)%Z)
              end)
      end
  end.
End outcome.

(** The acceptance of a checkout: the context afterwards, and where the order
    is or why it was not accepted.
    [locustfile.py:778-836 NatsAdapter._checkout_to_outcome] *)
Definition submit_checkout (cookie : option string) (data context : mapping) (transaction_id : string)
  : prog shopE (res (mapping * option string * option failure)) :=
  let acceptance := dict_update context [("outcome", PStr "UNKNOWN"); ("accepted", PBool false)] in
  r ← prog_try (h ← headers cookie (Some "application/json") true;
                call (SPost "/cart/checkout" "/cart/checkout" data h));
  match r with
  | Raise e =>
      _ ← perform (SMeasured "checkout_acceptance" acceptance (if is_exception e then Some e else None));
      Ret (if is_exception e then Ok (context, None, None) else Raise e)
  | Ok r =>
      if negb (rs_status r =? 202)%Z then
        let error := http_status_failure (rs_status r) "HTTP_FAILURE" "checkout request" None in
        _ ← perform (SFailure (failure_str error));
        let outcome := PStr (fl_outcome error) in
        _ ← perform (SMeasured "checkout_acceptance" (alist_set "outcome" outcome acceptance)
                       (Some (failure_exn error)));
        Ret (Ok (alist_set "outcome" outcome context, None, Some error))
      else match rs_header r "Location" with
      | None | Some "" =>
          _ ← perform (SFailure "202 checkout response omitted Location");
          let error := failure_message "INVALID_RESPONSE" "Location is missing" in
          let outcome := PStr "INVALID_RESPONSE" in
          _ ← perform (SMeasured "checkout_acceptance" (alist_set "outcome" outcome acceptance)
                         (Some (failure_exn error)));
          Ret (Ok (alist_set "outcome" outcome context, None, Some error))
      | Some location =>
          _ ← perform SSuccess;
          let order_id := opt_str (rs_header r "X-Order-ID") in
          let context := dict_update context [("accepted", PBool true); ("order_id", order_id)] in
          let acceptance := dict_update acceptance
            [("accepted", PBool true); ("outcome", PStr "ACCEPTED"); ("order_id", order_id)] in
          _ ← perform (SAccepted transaction_id (py_str (field context "phase")));
          _ ← perform (SMeasured "checkout_acceptance" acceptance None);
          Ret (Ok (context, Some location, None))
      end
  end.

(** The measured body.
    [locustfile.py:778-1052 NatsAdapter._checkout_to_outcome] *)
Definition outcome_body (fuel : nat) (cookie : option string) (data context : mapping) (transaction_id : string)
    (checkout_started : pyfloat) : prog shopE body_end :=
  r ← submit_checkout cookie data context transaction_id;
  match r with
  | Raise e => Ret (Escaped context e)
  | Ok (context, None, error) | Ok (context, _, (Some _) as error) =>
      Ret (Finished context None None None error None)
  | Ok (context, Some location, None) =>
      match order_events_url bracket_ok location with
      | Raise (ValueError detail) =>
          let context := alist_set "outcome" (PStr "INVALID_RESPONSE") context in
          phase ← perform SPhaseNow;
          _ ← perform (STerminal transaction_id "INVALID_RESPONSE" phase);
          Ret (Finished context None None None (Some (failure_message "INVALID_RESPONSE" detail)) None)
      | Raise e => Ret (Escaped context e)
      | Ok events_location =>
          let per_order_deadline := fadd checkout_started (outcome_timeout_seconds c) in
          drain ← perform SDrainDeadline;
          await_outcome cookie events_location transaction_id checkout_started per_order_deadline
            (f_min per_order_deadline drain) fuel context None 0
      end
  end.

(** What [_checkout_to_outcome] returns. *)
Record checkout_outcome := CheckoutOutcome {
  co_context : mapping;
  co_order : option received_order;
  co_events_location : option string;
  co_stream : option nat;
  co_error : option failure;
}.

(** The measurement swallows an exception, after which the method returns
    [None]; a kill goes on. *)
Inductive measured :=
  | Returned (o : checkout_outcome)
  | Swallowed
  | Killed (e : exn)
  | MeasureOutOfFuel.

(** [locustfile.py:206-236 measure_business] *)
Definition measure_business (name : string) (started_monotonic started_epoch : pyfloat) (body : prog shopE body_end)
  : prog shopE measured :=
  let elapsed := now ← perform SMonotonic; Ret (fmul (fsub now started_monotonic) (float_dec 1000 0)) in
  r ← body;
  match r with
  | Finished context order events_location stream error response_time =>
      ms ← match response_time with Some ms => Ret ms | None => elapsed end;
      _ ← perform (SFire name ms started_epoch context (failure_exn <$> error));
      Ret (Returned (CheckoutOutcome context order events_location stream error))
  | Escaped context e =>
      ms ← elapsed;
      _ ← perform (SFire name ms started_epoch context (if is_exception e then Some e else None));
      Ret (if is_exception e then Swallowed else Killed e)
  | OutOfFuel => Ret MeasureOutOfFuel
  end.

(** [locustfile.py:750-1052 NatsAdapter._checkout_to_outcome] *)
Definition checkout_to_outcome (fuel : nat) (cookie : option string) (data context : mapping)
    (checkout_started checkout_started_epoch : pyfloat) : prog shopE measured :=
  transaction_id ← perform SUuid4;
  let context := alist_set "transaction_id" (PStr transaction_id) context in
  measure_business "checkout_to_outcome" checkout_started checkout_started_epoch
    (outcome_body fuel cookie data context transaction_id checkout_started).
End adapter.
