(* ===== verification/Settlement.v ===== *)
(** * Checkouts to their settlement (benchmarkservice/locustfile.py)

    An order that completed is followed until its notification and the
    clearing of its cart are terminal.  This file models the settlement and
    the checkouts of both adapters, over the calls of Storefront.v, and proves
    what a checkout reports, against any server, clock and interruption. *)

From S2P Require Import Prelude PyFloat PyValue PyText PyUrl BenchConfig Program Sse Runtime Saturation Reporting Storefront.

(** ** One event *)

Definition or_none (s : string) : pyval := if String.eqb s "" then PNone else PStr s.
Definition absent (k : string) (context : mapping) : bool :=
  match alist_get k context with Some _ => false | None => true end.

(** The context is changed in place: what a step wrote before it raised
    stays. *)
Definition when_then (b : bool) (f : mapping → mapping * option exn) (context : mapping) : mapping * option exn :=
  if b then f context else (context, None).
Definition in_place (r : res mapping) (context : mapping) : mapping * option exn :=
  match r with Ok context => (context, None) | Raise e => (context, Some e) end.

(** A failed leg is recorded, and is the failure of the order unless there was
    one.
    [locustfile.py:1245-1263 NatsAdapter._record_settlement_event] *)
Definition record_leg_failure (leg : string) (message : string)
    (stamp : string → mapping → mapping * option exn) (context : mapping) : mapping * option exn :=
  then_step (then_step (stamp (leg +:+ "_failure") context) (put (leg +:+ "_failure_message") (PStr message)))
    (λ context, when_then (absent "failure_received_at" context)
      (λ context, then_step (stamp "failure" context) (put "failure_message" (PStr message))) context).

Definition notification_status_of (order : mapping) : string :=
  py_str (default (PStr "") (alist_get "notification_status" order)).
Definition cart_clear_status_of (order : mapping) : string :=
  py_str (default (PStr "") (alist_get "cart_clear_status" order)).

(** Both legs have ended. *)
Definition is_settled (order : mapping) : bool :=
  bool_decide (notification_status_of order ∈ TERMINAL_NOTIFICATION_STATUSES)
  && bool_decide (cart_clear_status_of order ∈ TERMINAL_CART_CLEAR_STATUSES).

(** The legs of an event, in the order of the code.
    [locustfile.py:1231-1297 NatsAdapter._record_settlement_event] *)
Definition record_legs (received : received_order) (stamp : string → mapping → mapping * option exn)
    (context : mapping) : mapping * option exn :=
  let order := ro_order received in
  let notification_status := notification_status_of order in
  let cart_clear_status := cart_clear_status_of order in
  let r := when_then (bool_decide (notification_status ∈ TERMINAL_NOTIFICATION_STATUSES)
                      && absent "notification_received_at" context) (stamp "notification") context in
  let r := then_step r (λ context,
    when_then (String.eqb notification_status "FAILED" && absent "notification_failure_received_at" context)
      (record_leg_failure "notification" "order confirmation notification failed" stamp) context) in
  let r := then_step r (λ context,
    when_then (bool_decide (cart_clear_status ∈ TERMINAL_CART_CLEAR_STATUSES)
               && absent "cart_clear_received_at" context) (stamp "cart_clear") context) in
  then_step r (λ context,
    when_then (String.eqb cart_clear_status "REJECTED" && absent "cart_clear_failure_received_at" context)
      (record_leg_failure "cart_clear"
         (py_str (py_or (field order "cart_clear_failure_code") (PStr "cart clear rejected"))) stamp) context).

(** [locustfile.py:1213-1313 NatsAdapter._record_settlement_event] *)
Definition record_settlement_event (context : mapping) (received : received_order) : mapping * res bool :=
  let order := ro_order received in
  let stamp prefix context :=
    in_place (receipt_context context prefix (ro_received_epoch received) (text_utf8 <$> ro_event_id received))
      context in
  let context := dict_update context
    [("notification_status", or_none (notification_status_of order));
     ("cart_clear_status", or_none (cart_clear_status_of order));
     ("cart_clear_failure_code", field order "cart_clear_failure_code"); ("settlement_transport", PStr "SSE")] in
  let r := record_legs received stamp context in
  let '(context, stop) :=
    if is_settled order
    then then_step (then_step r (stamp "settlement"))
           (put "_settlement_received_monotonic" (PFloat (ro_received_monotonic received)))
    else r in
  (context, match stop with Some e => Raise e | None => Ok (is_settled order) end).

(** ** The wait *)

(** How the wait ends: with its error and context, by an exception, or out of
    fuel. *)
Inductive wait_end :=
  | Waited (context : mapping) (error : option failure)
  | WaitEscaped (context : mapping) (e : exn)
  | WaitOutOfFuel.

(** The stream to close comes with the end. *)
Definition wait_guard {A} (context : mapping) (stream : option nat) (p : prog shopE A)
    (k : A → prog shopE (option nat * wait_end)) : prog shopE (option nat * wait_end) :=
  r ← prog_try p;
  match r with Ok a => k a | Raise e => Ret (stream, WaitEscaped context e) end.

Section settlement.
Context (c : config) (cookie : option string) (events_location : string).
Context (per_order_deadline deadline : pyfloat).

(** [locustfile.py:1122-1129 NatsAdapter._wait_for_settlement] *)
Definition unsettled (context : mapping) (stream : option nat) : prog shopE (option nat * wait_end) :=
  drain ← perform SDrainDeadline;
  let settlement := if fleb drain per_order_deadline then "INCOMPLETE" else "SETTLEMENT_TIMEOUT" in
  Ret (stream, Waited (alist_set "settlement" (PStr settlement) context) (Some (failure_message settlement ""))).

(** [locustfile.py:1136-1139 NatsAdapter._wait_for_settlement] *)
Definition failed_wait (context : mapping) (stream : option nat) (error : failure)
  : prog shopE (option nat * wait_end) :=
  let context := alist_set "settlement" (PStr (fl_outcome error)) context in
  wait_guard context stream (lift (record_received_failure context error))
    (λ context, Ret (stream, Waited context (Some error))).

(** The next order of an open stream.
    [locustfile.py:1153-1209 NatsAdapter._wait_for_settlement] *)
Definition settlement_turn
    (again : mapping → received_order → option nat → Z → prog shopE (option nat * wait_end))
    (context : mapping) (order : received_order) (s : nat) (attempt : Z) : prog shopE (option nat * wait_end) :=
  r ← prog_try (next_order_event_before s deadline);
  match r with
  | Raise SSEDeadlineReached => again context order (Some s) attempt
  | Raise (SSEProtocolError detail) =>
      monotonic ← perform SMonotonic;
      epoch ← perform STime;
      failed_wait context (Some s) (Failure "INVALID_RESPONSE" detail (Some (monotonic, epoch)))
  | Raise e =>
      if loop_catches e then
        _ ← perform (SClose s);
        wait_guard context None (back_off deadline attempt None)
          (λ _, again context order None (attempt + 1)%Z)
      else Ret (Some s, WaitEscaped context e)
  | Ok received => again context received (Some s) 0%Z
  end.

(** [locustfile.py:1118-1209 NatsAdapter._wait_for_settlement] *)
Fixpoint await_settlement (fuel : nat) (context : mapping) (order : received_order) (stream : option nat)
    (attempt : Z) : prog shopE (option nat * wait_end) :=
  match fuel with
  | 0 => Ret (stream, WaitOutOfFuel)
  | S fuel =>
      match record_settlement_event context order with
      | (context, Raise e) => Ret (stream, WaitEscaped context e)
      | (context, Ok true) => Ret (stream, Waited (alist_set "settlement" (PStr "SETTLED") context) None)
      | (context, Ok false) =>
          now ← perform SMonotonic;
          if fleb deadline now then unsettled context stream else
          match stream with
          | Some s => settlement_turn (await_settlement fuel) context order s attempt
          | None =>
              wait_guard context None
                (open_order_event_stream cookie events_location "/orders/[id]/events [settlement]")
                (λ '(opened, error, retry_after),
                  match error, opened with
                  | Some error, _ => failed_wait context opened error
                  | None, Some s => settlement_turn (await_settlement fuel) context order s attempt
                  | None, None =>
                      wait_guard context None (back_off deadline attempt retry_after)
                        (λ _, await_settlement fuel context order None (attempt + 1)%Z)
                  end)
          end
      end
  end.
End settlement.

Section checkout.
Context (c : config) (bracket_ok : string → bool) (cookie : option string).

(** [locustfile.py:1104-1211 NatsAdapter._wait_for_settlement] *)
Definition wait_for_settlement (fuel : nat) (events_location : string) (order : received_order)
    (stream : option nat) (checkout_started : pyfloat) (context : mapping) : prog shopE wait_end :=
  let per_order_deadline := fadd checkout_started (settlement_timeout_seconds c) in
  drain ← perform SDrainDeadline;
  r ← await_settlement cookie events_location per_order_deadline (f_min per_order_deadline drain)
        fuel context order stream 0;
  let '(stream, ended) := (r : option nat * wait_end) in
  _ ← close_order_stream stream;
  Ret ended.

(** [error] is the business failure, if there is one.
    [locustfile.py:724-748 NatsAdapter._fire_settlement] *)
Definition fire_settlement (context : mapping) (checkout_started checkout_started_epoch : pyfloat)
    (error : option failure) : prog shopE unit :=
  finished ← match alist_get "_settlement_received_monotonic" context with
             | Some (PFloat x) => Ret x
             | _ => match error ≫= fl_received with
                    | Some (monotonic, _) => Ret monotonic
                    | None => perform SMonotonic
                    end
             end;
  ms ← lift (received_latency_ms checkout_started finished);
  perform (SFire "checkout_to_settled" ms checkout_started_epoch context (failure_exn <$> error)).

(** [None] is running out of fuel.
    [locustfile.py:699-722 NatsAdapter._track_settlement] *)
Definition track_settlement (fuel : nat) (events_location : string) (order : received_order)
    (stream : option nat) (checkout_started checkout_started_epoch : pyfloat) (context : mapping)
  : prog shopE (option unit) :=
  ended ← wait_for_settlement fuel events_location order stream checkout_started context;
  let fire context error :=
    fire_settlement (if absent "settlement" context then alist_set "settlement" (PStr "INCOMPLETE") context
                     else context) checkout_started checkout_started_epoch error in
  match ended with
  | Waited context error => _ ← fire context error; Ret (Some tt)
  | WaitEscaped context e => _ ← fire context (Some (failure_message "INCOMPLETE" "")); Throw e
  | WaitOutOfFuel => Ret None
  end.

(** [fuel] bounds the turns of each wait.
    [locustfile.py:639-697 NatsAdapter.checkout] *)
Definition nats_checkout (fuel : nat) (s : slot) (track_settlement_inline : bool) : prog shopE (option unit) :=
  base ← base_context c s;
  data ← checkout_data;
  checkout_started ← perform SMonotonic;
  checkout_started_epoch ← perform STime;
  r ← checkout_to_outcome c bracket_ok fuel cookie data base checkout_started checkout_started_epoch;
  match r with
  | MeasureOutOfFuel => Ret None
  | Killed e => Throw e
  | Swallowed => Throw (TypeError "cannot unpack non-iterable NoneType object")
  | Returned o =>
      let settled_context := dict_update base (co_context o) in
      match co_error o, co_order o, co_events_location o with
      | None, Some order, Some events_location =>
          if track_settlement_inline
          then track_settlement fuel events_location order (co_stream o) checkout_started checkout_started_epoch
                 settled_context
          else
            _ ← perform (SSpawnTracker events_location order (co_stream o) checkout_started
                           checkout_started_epoch settled_context);
            Ret (Some tt)
      | error, _, _ =>
          _ ← close_order_stream (co_stream o);
          let outcome := py_str (default (PStr "UNKNOWN") (alist_get "outcome" (co_context o))) in
          _ ← fire_settlement (alist_set "settlement" (PStr "ORDER_NOT_COMPLETED") settled_context)
                checkout_started checkout_started_epoch
                (Some (default (failure_message outcome "") error));
          Ret (Some tt)
      end
  end.

(** [locustfile.py:522-560 GrpcAdapter.checkout] *)
Definition grpc_checkout (s : slot) : prog shopE unit :=
  context ← base_context c s;
  data ← checkout_data;
  r ← prog_try (h ← headers cookie (Some "text/html") false;
                call (SPost "/cart/checkout" "/cart/checkout" data h));
  match r with
  | Raise e =>
      _ ← perform (SMeasured "checkout_to_outcome" context (if is_exception e then Some e else None));
      if is_exception e then Ret tt else Throw e
  | Ok r =>
      if negb (rs_status r =? 200)%Z then
        let error := http_status_failure (rs_status r) "HTTP_FAILURE" "checkout request" None in
        _ ← perform (SFailure (failure_str error));
        perform (SMeasured "checkout_to_outcome" (alist_set "outcome" (PStr (fl_outcome error)) context)
                   (Some (failure_exn error)))
      else
        _ ← perform SSuccess;
        let context := alist_set "outcome" (PStr "COMPLETED") (alist_set "accepted" (PBool true) context) in
        perform (SMeasured "checkout_to_outcome" context None)
  end.

(** The adapter of the application.
    [locustfile.py:1316-1320 adapter_for] *)
Definition adapter_checkout (fuel : nat) (s : slot) (track_settlement_inline : bool) : prog shopE (option unit) :=
  if String.eqb (application_type c) "NATS" then nats_checkout fuel s track_settlement_inline
  else _ ← grpc_checkout s; Ret (Some tt).
End checkout.
