(* ===== verification/CheckoutReports.v ===== *)
(** * What a checkout reports

    Theorems about the checkouts of Storefront.v and Settlement.v, against any
    server, clock, stream and interruption: the answers of the calls are
    arbitrary ([wp]).  The reports of a checkout are its calls of the recorder
    and the business events it fires, in order. *)

From S2P Require Import Prelude PyFloat PyValue PyText PyUrl BenchConfig Program Sse Parallel Runtime Saturation Reporting Storefront Settlement.

(** ** Reports *)

Inductive report :=
  | Measured (name : string) (context : mapping) (error : option exn)
  | Fired (name : string) (context : mapping) (error : option exn)
  | Accepted (transaction_id phase : string)
  | Ended (transaction_id outcome phase : string).

Definition report_of {X} (op : shopE X) : list report :=
  match op with
  | SMeasured name context error => [Measured name context error]
  | SFire name _ _ context error => [Fired name context error]
  | SAccepted id phase => [Accepted id phase]
  | STerminal id outcome phase => [Ended id outcome phase]
  | _ => []
  end.

Definition is_order_report (r : report) : bool :=
  match r with Accepted _ _ | Ended _ _ _ => true | _ => false end.
(** 0 before the acceptance, 1 while the order is outstanding, 2 after. *)
Definition order_stage (t : list report) : nat := length (filter (λ r, is_order_report r = true) t).

(** An order is accepted once and then ended once, with an outcome that is not
    spelled like an acceptance. *)
Definition report_ok (X : Type) (op : shopE X) (t : list report) : Prop :=
  match op with
  | SAccepted _ _ => order_stage t = 0
  | STerminal _ outcome _ => order_stage t = 1 ∧ str_lower outcome ≠ "accepted"
  | _ => True
  end.
Definition any_answer (X : Type) (op : shopE X) (t : list report) (x : X) : Prop := True.
Definition record_report (X : Type) (op : shopE X) (x : X) (t : list report) : list report := t ++ report_of op.

Abbreviation reports := (wp report_ok any_answer record_report).

(** A step of a program or of its results; [lib] proves the specifications of
    its parts. *)
Ltac shop_step lib :=
  cbv beta iota;
  lazymatch goal with
  | |- wp _ _ _ (headers _ _ _) _ _ => lib
  | |- wp _ _ _ (back_off _ _ _) _ _ => lib
  | |- wp _ _ _ (next_order_event_before _ _) _ _ => lib
  | |- wp _ _ _ (open_order_event_stream _ _ _) _ _ => lib
  | |- wp _ _ _ _ _ _ => wp_step
  | |- report_ok _ _ _ => exact I
  | |- match ?x with _ => _ end => destruct x eqn:?
  end; unfold record_report in *; cbn [report_of] in *; rewrite ?app_nil_r in *.
Ltac no_lib := fail.

Lemma headers_quiet cookie accept key t : reports (headers cookie accept key) (λ r t', is_ok r = true ∧ t' = t) t.
Proof. unfold headers. repeat shop_step no_lib; done. Qed.

Lemma back_off_quiet deadline attempt retry t : reports (back_off deadline attempt retry) (λ _ t', t' = t) t.
Proof. unfold back_off, sse_reconnect_delay. repeat shop_step no_lib; done. Qed.

Lemma next_quiet s deadline t : reports (next_order_event_before s deadline) (λ _ t', t' = t) t.
Proof. unfold next_order_event_before. repeat shop_step no_lib; done. Qed.

Ltac quiet_lib :=
  first [ eapply wp_conseq; [apply headers_quiet|]; intros [?h|?e] ? [?Hok ->]; [|discriminate]
        | eapply wp_conseq; [apply back_off_quiet|]; intros ? ? ->
        | eapply wp_conseq; [apply next_quiet|]; intros ? ? -> ].

Definition stream_outcomes : list string := ["TIMEOUT"; "STATUS_ERROR"; "INVALID_RESPONSE"].

Lemma http_failure_outcome status fallback operation received :
  fl_outcome (http_status_failure status fallback operation received) = "TIMEOUT" ∨
  fl_outcome (http_status_failure status fallback operation received) = fallback.
Proof. unfold http_status_failure. destruct (status =? 0)%Z; [by left|by right]. Qed.

Lemma open_stream_quiet cookie location name t :
  reports (open_order_event_stream cookie location name) (λ r t', t' = t ∧
    match r with Ok (_, Some error, _) => fl_outcome error ∈ stream_outcomes | _ => True end) t.
Proof.
  unfold open_order_event_stream. repeat shop_step quiet_lib; try done.
  - split; [done|]. match goal with |- fl_outcome (http_status_failure ?a ?b ?c ?d) ∈ _ =>
      destruct (http_failure_outcome a b c d) as [-> | ->] end; [by left|by right; left].
  - split; [done|]. by right; right; left.
Qed.

(** ** Contexts *)

Lemma field_set_eq k v m : field (alist_set k v m) k = v.
Proof. unfold field. by rewrite alist_get_set_eq. Qed.
Lemma field_set_ne k k' v m : k ≠ k' → field (alist_set k' v m) k = field m k.
Proof. intros. unfold field. by rewrite alist_get_set_ne. Qed.
Ltac fields := unfold dict_update; cbn [foldl fst snd]; repeat first [rewrite field_set_eq | rewrite field_set_ne by done].

Lemma receipt_context_field context prefix epoch id context' k :
  receipt_context context prefix epoch id = Ok context' →
  k ≠ prefix +:+ "_received_at" → k ≠ prefix +:+ "_received_epoch" → k ≠ prefix +:+ "_event_id" →
  field context' k = field context k.
Proof.
  unfold receipt_context. destruct (utc_timestamp epoch) as [at_time|e]; [|done]. cbn. intros [= <-] H1 H2 H3.
  destruct id as [id|]; [destruct (String.eqb id "")|]; by rewrite ?field_set_ne by done.
Qed.

Lemma record_failure_field context error context' k :
  record_received_failure context error = Ok context' →
  k ≠ "failure_received_at" → k ≠ "failure_received_epoch" → k ≠ "failure_event_id" → k ≠ "failure_message" →
  field context' k = field context k.
Proof.
  unfold record_received_failure. destruct (fl_received error) as [[m epoch]|]; [|by intros [= <-]].
  destruct (receipt_context context "failure" epoch None) as [c1|e] eqn:H; [|done]. cbn. intros [= <-] ????.
  rewrite field_set_ne by done. by eapply receipt_context_field.
Qed.

Lemma record_failure_kept context error context' :
  record_received_failure context error = Ok context' →
  field context' "outcome" = field context "outcome" ∧ field context' "accepted" = field context "accepted".
Proof. intros H. split; by apply (record_failure_field _ _ _ _ H). Qed.
Lemma outcome_receipt_kept context epoch id context' :
  receipt_context context "outcome" epoch id = Ok context' →
  field context' "outcome" = field context "outcome" ∧ field context' "accepted" = field context "accepted".
Proof. intros H. split; by apply (receipt_context_field _ _ _ _ _ _ H). Qed.
Ltac kept :=
  repeat match goal with
  | H : record_received_failure _ _ = Ok _ |- _ => apply record_failure_kept in H as [?Hk ?Hk']
  | H : receipt_context _ "outcome" _ _ = Ok _ |- _ => apply outcome_receipt_kept in H as [?Hk ?Hk']
  end;
  repeat match goal with
  | Hk : field ?m ?k = _ |- context [field ?m ?k] => rewrite Hk; clear Hk
  end.

(** ** The outcome *)

Section outcome.
Context (c : config) (cookie : option string) (events_location transaction_id : string).
Context (checkout_started per_order_deadline deadline : pyfloat).

(** The end of an accepted order from the history [t]: it is ended once, with
    the outcome of the context; there is no error exactly if it completed. *)
Definition ended_from (accepted : pyval) (t : list report) (b : body_end) (t' : list report) : Prop :=
  match b with
  | Finished context order location _ error _ =>
      ∃ outcome phase, t' = t ++ [Ended transaction_id outcome phase] ∧
        field context "outcome" = PStr outcome ∧ field context "accepted" = accepted ∧ is_Some location ∧
        match error with
        | None => outcome = "COMPLETED" ∧ is_Some order
        | Some f => fl_outcome f = outcome ∧ outcome ≠ "COMPLETED"
        end
  | Escaped _ _ => t' = t ∨ ∃ outcome phase, t' = t ++ [Ended transaction_id outcome phase]
  | OutOfFuel => t' = t
  end.
Definition ends (context : mapping) (t : list report) (p : prog shopE body_end) : Prop :=
  reports p (λ r t', ∃ b, r = Ok b ∧ ended_from (field context "accepted") t b t') t.

Ltac outcome_ok := split; [done|by vm_compute].
Ltac ended_once :=
  eexists; split; [reflexivity|]; cbn [ended_from]; do 2 eexists; (split; [reflexivity|]);
  kept; fields; (split; [reflexivity|]); (split; [done|]); (split; [done|]).
Ltac escapes := eexists; split; [reflexivity|]; first [by left | right; by do 2 eexists].
Ltac end_cases := first [outcome_ok | escapes | ended_once].

Lemma at_deadline_ends context stream t :
  order_stage t = 1 → ends context t (at_deadline events_location transaction_id per_order_deadline context stream).
Proof using.
  intros Ht. unfold ends, at_deadline, close_order_stream. repeat shop_step quiet_lib.
  all: destruct (fleb _ _); end_cases; done.
Qed.

Lemma reject_stream_ends context detail monotonic epoch t :
  order_stage t = 1 →
  ends context t (reject_stream events_location transaction_id checkout_started context detail monotonic epoch).
Proof using.
  intros Ht. unfold ends, reject_stream, guard. repeat shop_step quiet_lib; end_cases; done.
Qed.

Lemma refuse_stream_ends context error t :
  order_stage t = 1 → fl_outcome error ∈ stream_outcomes →
  ends context t (refuse_stream events_location transaction_id checkout_started context error).
Proof using.
  intros Ht Herror. unfold ends, refuse_stream, guard. repeat shop_step quiet_lib.
  all: try (split; [done|]); try end_cases; try (split; [done|]).
  all: repeat (apply elem_of_cons in Herror as [-> | Herror]; [by vm_compute|]); by apply not_elem_of_nil in Herror.
Qed.

Lemma terminal_spelling status : status ∈ TERMINAL_ORDER_STATUSES → str_lower status ≠ "accepted".
Proof.
  intros H. repeat (apply elem_of_cons in H as [-> | H]; [by vm_compute|]). by apply not_elem_of_nil in H.
Qed.

Lemma settle_outcome_ends context s received id status t :
  order_stage t = 1 → status ∈ TERMINAL_ORDER_STATUSES →
  ends context t (settle_outcome events_location transaction_id checkout_started context s received id status).
Proof using.
  intros Ht Hstatus. unfold ends, settle_outcome, guard. repeat shop_step quiet_lib.
  all: try (split; [done|by apply terminal_spelling]); try end_cases.
  - split; [by apply String.eqb_eq|by eexists].
  - split; [done|by apply String.eqb_neq].
Qed.

Lemma outcome_turn_ends again context s attempt t :
  order_stage t = 1 → (∀ stream attempt, ends context t (again context stream attempt)) →
  ends context t (outcome_turn events_location transaction_id checkout_started per_order_deadline deadline
                    again context s attempt).
Proof using.
  intros Ht Hagain. unfold ends, outcome_turn, guard.
  repeat (shop_step ltac:(first [quiet_lib]); try apply Hagain; try by apply at_deadline_ends;
          try by apply reject_stream_ends).
  all: try by apply at_deadline_ends. all: try by apply reject_stream_ends. all: try escapes.
  apply settle_outcome_ends; [done|]. by match goal with H : bool_decide _ = true |- _ => apply bool_decide_eq_true_1 in H end.
Qed.

Lemma await_outcome_ends fuel context stream attempt t :
  order_stage t = 1 →
  ends context t (await_outcome cookie events_location transaction_id checkout_started per_order_deadline deadline
                    fuel context stream attempt).
Proof using.
  intros Ht. revert stream attempt. induction fuel as [|fuel IH]; intros stream attempt.
  { eexists. split; [done|]. done. }
  unfold ends. cbn [await_outcome]. shop_step quiet_lib. shop_step quiet_lib. { exact I. }
  shop_step quiet_lib; [by apply at_deadline_ends|].
  destruct stream as [s|]; [by apply outcome_turn_ends|].
  unfold guard. shop_step quiet_lib. apply wp_try. eapply wp_conseq; [apply open_stream_quiet|].
  intros [[[opened error] retry]|e] ? [-> Herror]; [|escapes].
  destruct error as [error|]; [by apply refuse_stream_ends|].
  destruct opened as [s|]; [by apply outcome_turn_ends|]. repeat shop_step quiet_lib; [apply IH|escapes].
Qed.
End outcome.

(** ** The whole checkout *)

Lemma order_events_url_error bracket_ok location e :
  order_events_url bracket_ok location = Raise e → ∃ detail, e = ValueError detail.
Proof.
  unfold order_events_url, urlsplit, raise_if. intros H. repeat (case_match || simplify_eq/=); by eexists.
Qed.

(** What the acceptance and the outcome of a checkout report, with the context
    and the error of the outcome. *)
Definition outcome_reported (t : list report) (context : mapping) (error : option exn) : Prop :=
  (∃ acceptance refused,
     t = [Measured "checkout_acceptance" acceptance refused; Fired "checkout_to_outcome" context error] ∧
     field context "accepted" = PBool false ∧ (error = None → field context "outcome" = PStr "UNKNOWN")) ∨
  (∃ id phase acceptance outcome phase',
     t = [Accepted id phase; Measured "checkout_acceptance" acceptance None; Ended id outcome phase';
          Fired "checkout_to_outcome" context error] ∧
     field context "accepted" = PBool true ∧ field context "outcome" = PStr outcome ∧
     (error = None ↔ outcome = "COMPLETED")).

(** A context of which no call has been made yet. *)
Definition fresh (context : mapping) : Prop :=
  field context "accepted" = PBool false ∧ field context "outcome" = PStr "UNKNOWN".

Lemma submit_reports cookie data context id :
  fresh context →
  reports (submit_checkout cookie data context id) (λ r t, ∃ m, r = Ok m ∧
    match m with
    | Ok (context', None, error) =>
        (∃ acceptance refused, t = [Measured "checkout_acceptance" acceptance refused]) ∧
        field context' "accepted" = PBool false ∧ (error = None → field context' "outcome" = PStr "UNKNOWN")
    | Ok (context', Some _, error) =>
        (∃ phase acceptance, t = [Accepted id phase; Measured "checkout_acceptance" acceptance None]) ∧
        error = None ∧ field context' "accepted" = PBool true
    | Raise e => ∃ acceptance refused, t = [Measured "checkout_acceptance" acceptance refused]
    end) [].
Proof.
  intros [Ha Ho]. unfold submit_checkout. repeat shop_step quiet_lib; try done.
  all: eexists; (split; [done|]); cbn [app].
  all: repeat case_match; simplify_eq; fields; repeat split; try done; by do 2 eexists.
Qed.

Lemma outcome_body_reports c bracket_ok fuel cookie data context id started :
  fresh context →
  reports (outcome_body c bracket_ok fuel cookie data context id started) (λ r t, ∃ b, r = Ok b ∧
    match b with
    | Finished context' order location _ error _ =>
        outcome_reported (t ++ [Fired "checkout_to_outcome" context' (failure_exn <$> error)]) context'
          (failure_exn <$> error) ∧
        (is_Some order → field context' "accepted" = PBool true)
    | _ => True
    end) [].
Proof.
  intros Hfresh. unfold outcome_body. shop_step quiet_lib. eapply wp_conseq; [by apply submit_reports|].
  intros r t (m & -> & Hm). destruct m as [[[context' [location|]] error]|e]; cbv beta iota.
  - destruct Hm as ((phase & acceptance & ->) & -> & Hacc).
    destruct (order_events_url bracket_ok location) as [events_location|e] eqn:Hurl.
    + shop_step quiet_lib. shop_step quiet_lib; [exact I|].
      eapply wp_conseq; [by apply await_outcome_ends|]. intros r t' (b & -> & Hb). eexists. split; [done|].
      destruct b as [c2 order loc st error rt|c2 e|]; [|done..]. cbn [ended_from] in Hb.
      destruct Hb as (outcome & phase' & -> & Ho & Ha & Hloc & Herr). rewrite Hacc in Ha.
      split; [|done].
      right. do 5 eexists. split; [done|]. split; [done|]. split; [done|].
      destruct error as [f|]; [|by destruct Herr]. destruct Herr as [_ Hne]. by split.
    + apply order_events_url_error in Hurl as [detail ->]. repeat shop_step quiet_lib.
      { by split. } eexists. split; [done|]. split; [|by intros []]. right. do 5 eexists. split; [done|]. fields.
      split; [done|]. split; [done|]. by split.
  - destruct Hm as ((acceptance & refused & ->) & Hacc & Herr). destruct error as [f|]; repeat shop_step quiet_lib.
    all: eexists; (split; [done|]); (split; [|by intros []]); left; do 2 eexists; (split; [done|]).
    + by split.
    + split; [done|]. intros _. by apply Herr.
  - eexists. by split.
Qed.

Lemma checkout_to_outcome_reports c bracket_ok fuel cookie data context started epoch :
  fresh context →
  reports (checkout_to_outcome c bracket_ok fuel cookie data context started epoch) (λ r t, ∃ m, r = Ok m ∧
    match m with
    | Returned o =>
        outcome_reported t (co_context o) (failure_exn <$> co_error o) ∧
        (is_Some (co_order o) → field (co_context o) "accepted" = PBool true)
    | _ => True
    end) [].
Proof.
  intros [Ha Ho]. unfold checkout_to_outcome, measure_business. do 2 shop_step quiet_lib; [exact I|].
  shop_step quiet_lib. eapply wp_conseq; [apply outcome_body_reports; split; by fields|].
  intros r t (b & -> & Hb). destruct b as [context' order location stream error response_time|context' e|].
  - destruct Hb as [Hb Hsome]. destruct response_time as [ms|]; repeat shop_step quiet_lib; by eexists.
  - repeat shop_step quiet_lib. eexists. split; [done|]. by destruct (is_exception e).
  - repeat shop_step quiet_lib. by eexists.
Qed.

(** *** Settlement *)

(** A step of the in-place style leaves a field. *)
Definition leaves (k : string) (f : mapping → mapping * option exn) : Prop := ∀ m, field (f m).1 k = field m k.

Lemma leaves_then k m (r : mapping * option exn) f : field r.1 k = field m k → leaves k f → field (then_step r f).1 k = field m k.
Proof. intros Hr Hf. destruct r as [m' [e|]]; [done|]. cbn. by rewrite Hf. Qed.
Lemma leaves_when k b m f : leaves k f → field (when_then b f m).1 k = field m k.
Proof. intros Hf. destruct b; [apply Hf|done]. Qed.
Lemma leaves_put k k' v : k ≠ k' → leaves k (put k' v).
Proof. intros Hk m. by apply field_set_ne. Qed.

Section legs.
Context (received : received_order) (stamp : string → mapping → mapping * option exn) (k : string).
Context (stamp_leaves : ∀ prefix, prefix ∈ ["notification"; "notification_failure"; "cart_clear"; "cart_clear_failure"; "failure"] →
  leaves k (stamp prefix)).

Lemma leg_failure_leaves leg message :
  leg ∈ ["notification"; "cart_clear"] →
  k ≠ leg +:+ "_failure_message" → k ≠ "failure_message" → leaves k (record_leg_failure leg message stamp).
Proof using stamp_leaves.
  intros Hleg H1 H2 m. unfold record_leg_failure.
  apply leaves_then; [apply leaves_then|]; [|by apply leaves_put|].
  - apply stamp_leaves. repeat (apply elem_of_cons in Hleg as [-> | Hleg]; [set_solver|]). by apply not_elem_of_nil in Hleg.
  - intros m'. apply leaves_when. intros m2. apply leaves_then; [apply stamp_leaves; set_solver|by apply leaves_put].
Qed.

Lemma legs_leave m :
  k ≠ "notification_failure_message" → k ≠ "cart_clear_failure_message" → k ≠ "failure_message" →
  field (record_legs received stamp m).1 k = field m k.
Proof using stamp_leaves.
  intros H1 H2 H3. unfold record_legs.
  apply leaves_then; [apply leaves_then; [apply leaves_then|]|].
  - apply leaves_when, stamp_leaves. set_solver.
  - intros m'. apply leaves_when, leg_failure_leaves; [set_solver|done|done].
  - intros m'. apply leaves_when, stamp_leaves. set_solver.
  - intros m'. apply leaves_when, leg_failure_leaves; [set_solver|done|done].
Qed.
End legs.

(** The settled event says so in the context. *)
Definition settled_context (context : mapping) : Prop :=
  ∃ notification cart_clear, field context "notification_status" = PStr notification ∧
    field context "cart_clear_status" = PStr cart_clear ∧
    notification ∈ TERMINAL_NOTIFICATION_STATUSES ∧ cart_clear ∈ TERMINAL_CART_CLEAR_STATUSES.

Lemma record_settlement_settled context received context' :
  record_settlement_event context received = (context', Ok true) → settled_context context'.
Proof.
  unfold record_settlement_event. set (start := dict_update _ _).
  set (stamp := λ prefix m, in_place _ m). destruct (is_settled (ro_order received)) eqn:Hs.
  2: { destruct (record_legs received stamp start) as [m [e|]]; intros [=]. }
  unfold is_settled in Hs. apply andb_true_iff in Hs as [Hn%bool_decide_eq_true_1 Hc%bool_decide_eq_true_1].
  assert (∀ k prefix, k ≠ prefix +:+ "_received_at" → k ≠ prefix +:+ "_received_epoch" →
    k ≠ prefix +:+ "_event_id" → leaves k (stamp prefix)) as Hstamp.
  { intros k prefix ??? m. unfold stamp. destruct (receipt_context _ _ _ _) as [m'|e] eqn:Hr; [|done].
    by eapply receipt_context_field. }
  assert (∀ k, k ∈ ["notification_status"; "cart_clear_status"] →
    field (then_step (then_step (record_legs received stamp start) (stamp "settlement"))
             (put "_settlement_received_monotonic" (PFloat (ro_received_monotonic received)))).1 k = field start k) as Hkeep.
  { intros k Hk. apply leaves_then; [apply leaves_then; [apply legs_leave|]|];
      repeat (apply elem_of_cons in Hk as [-> | Hk]); try by apply not_elem_of_nil in Hk.
    all: try done; try (by apply Hstamp); try (by apply leaves_put).
    all: intros prefix Hp; repeat (apply elem_of_cons in Hp as [-> | Hp]; [by apply Hstamp|]);
      by apply not_elem_of_nil in Hp. }
  destruct (then_step _ _) as [m [e|]] eqn:Hm; intros [= <-].
  exists (notification_status_of (ro_order received)), (cart_clear_status_of (ro_order received)).
  assert (∀ s (l : list string), s ∈ l → "" ∉ l → or_none s = PStr s) as Hor.
  { intros s l Hin Hempty. unfold or_none. destruct (String.eqb s "") eqn:He; [|done].
    apply String.eqb_eq in He as ->. by destruct Hempty. }
  cbn [fst] in Hkeep. rewrite !Hkeep by set_solver. unfold start. fields.
  split_and!; [apply (Hor _ _ Hn)|apply (Hor _ _ Hc)|done|done];
    by apply (bool_decide_unpack _); vm_compute.
Qed.

(** The wait reports nothing; without an error it ends settled. *)
Definition settled_wait (e : wait_end) : Prop :=
  match e with
  | Waited context None => field context "settlement" = PStr "SETTLED" ∧ settled_context context
  | _ => True
  end.
Definition waits (t : list report) (p : prog shopE (option nat * wait_end)) : Prop :=
  reports p (λ r t', t' = t ∧ ∃ stream e, r = Ok (stream, e) ∧ settled_wait e) t.

Section wait.
Context (cookie : option string) (events_location : string) (per_order_deadline deadline : pyfloat).

Lemma failed_wait_waits context stream error t : waits t (failed_wait context stream error).
Proof using.
  unfold waits, failed_wait, wait_guard. repeat shop_step quiet_lib; (split; [done|]); do 2 eexists; by split.
Qed.

Lemma unsettled_waits context stream t : waits t (unsettled per_order_deadline context stream).
Proof using. unfold waits, unsettled. repeat shop_step quiet_lib; try done. split; [done|]. do 2 eexists. by split. Qed.

Lemma settlement_turn_waits again context order s attempt t :
  (∀ context order stream attempt, waits t (again context order stream attempt)) →
  waits t (settlement_turn deadline again context order s attempt).
Proof using.
  intros Hagain. unfold waits, settlement_turn, wait_guard.
  repeat shop_step quiet_lib; try apply Hagain; try apply failed_wait_waits.
  all: try done; (split; [done|]); do 2 eexists; by split.
Qed.

Lemma await_settlement_waits fuel context order stream attempt t :
  waits t (await_settlement cookie events_location per_order_deadline deadline fuel context order stream attempt).
Proof using.
  revert context order stream attempt. induction fuel as [|fuel IH]; intros context order stream attempt.
  { split; [done|]. do 2 eexists. by split. }
  unfold waits. cbn [await_settlement].
  destruct (record_settlement_event context order) as [context' [[|]|e]] eqn:Hr.
  - split; [done|]. do 2 eexists. split; [done|]. split; [by apply field_set_eq|].
    destruct (record_settlement_settled _ _ _ Hr) as (n & cc & ? & ? & ? & ?).
    exists n, cc. rewrite !field_set_ne by done. done.
  - do 2 shop_step quiet_lib; [exact I|]. shop_step quiet_lib; [apply unsettled_waits|].
    destruct stream as [s|]; [by apply settlement_turn_waits|]. unfold wait_guard.
    shop_step quiet_lib. apply wp_try. eapply wp_conseq; [apply open_stream_quiet|].
    intros [[[opened error] retry]|e] ? [-> _]; [|split; [done|]; do 2 eexists; by split].
    destruct error as [error|]; [apply failed_wait_waits|].
    destruct opened as [s|]; [by apply settlement_turn_waits|].
    repeat shop_step quiet_lib; [apply IH|]. split; [done|]. do 2 eexists. by split.
  - split; [done|]. do 2 eexists. by split.
Qed.
End wait.

Lemma wait_for_settlement_reports c cookie fuel location order stream started context t :
  reports (wait_for_settlement c cookie fuel location order stream started context)
    (λ r t', t' = t ∧ ∃ e, r = Ok e ∧ settled_wait e) t.
Proof.
  unfold wait_for_settlement. do 2 shop_step quiet_lib; [exact I|]. shop_step quiet_lib.
  eapply wp_conseq; [apply await_settlement_waits|]. intros r t' (-> & st & e & -> & He). cbv beta iota.
  unfold close_order_stream. repeat shop_step quiet_lib; (split; [done|]); by eexists.
Qed.

Lemma fire_settlement_reports context started epoch error t :
  reports (fire_settlement context started epoch error)
    (λ r t', is_ok r = true → t' = t ++ [Fired "checkout_to_settled" context (failure_exn <$> error)]) t.
Proof. unfold fire_settlement. repeat shop_step quiet_lib; done. Qed.

Lemma track_settlement_reports c cookie fuel location order stream started epoch context t :
  reports (track_settlement c cookie fuel location order stream started epoch context)
    (λ r t', r = Ok (Some tt) → ∃ settled error,
       t' = t ++ [Fired "checkout_to_settled" settled error] ∧
       (error = None → field settled "settlement" = PStr "SETTLED" ∧ settled_context settled)) t.
Proof.
  unfold track_settlement. shop_step quiet_lib. eapply wp_conseq; [apply wait_for_settlement_reports|].
  intros r t' (-> & e & -> & He). destruct e as [context' error|context' e|]; cbv beta iota; [| |done].
  - shop_step quiet_lib. eapply wp_conseq; [apply fire_settlement_reports|]. intros [[]|e] t' Ht; [|done].
    intros _. do 2 eexists. split; [by apply Ht|]. destruct error as [f|]; [done|]. intros _.
    destruct He as [Hs Hc]. assert (absent "settlement" context' = false) as ->; [|done].
    unfold field in Hs. unfold absent. by destruct (alist_get "settlement" context').
  - shop_step quiet_lib. eapply wp_conseq; [apply fire_settlement_reports|]. by intros [[]|e'] t' Ht.
Qed.

Lemma base_context_reports c s t :
  reports (base_context c s) (λ r t', t' = t ∧ ∃ context, r = Ok context ∧ fresh context) t.
Proof.
  unfold base_context. repeat shop_step quiet_lib; try done.
  all: (split; [done|]); eexists; (split; [done|]); by destruct (String.eqb (workload c) "saturation").
Qed.

Lemma checkout_data_reports t : reports checkout_data (λ r t', t' = t ∧ is_ok r = true) t.
Proof. unfold checkout_data. repeat shop_step quiet_lib; done. Qed.

(** What a checkout that returns has reported. *)
Definition checkout_reported (t : list report) : Prop :=
  ∃ t1 context error settled settled_error,
    t = t1 ++ [Fired "checkout_to_settled" settled settled_error] ∧
    outcome_reported t1 context error ∧
    (settled_error = None → error = None ∧ field context "outcome" = PStr "COMPLETED" ∧
       field settled "settlement" = PStr "SETTLED" ∧ settled_context settled) ∧
    (field context "outcome" ≠ PStr "COMPLETED" → field settled "settlement" = PStr "ORDER_NOT_COMPLETED").

(** The settlement of an order that did not complete. *)
Lemma not_completed_reports o settled error started epoch t :
  outcome_reported t (co_context o) (failure_exn <$> co_error o) →
  reports (_ ← close_order_stream (co_stream o);
           _ ← fire_settlement (alist_set "settlement" (PStr "ORDER_NOT_COMPLETED") settled) started epoch (Some error);
           Ret (Some tt))
    (λ r t', r = Ok (Some tt) → checkout_reported t') t.
Proof.
  intros Hrep. unfold close_order_stream. repeat shop_step quiet_lib; try done.
  all: eapply wp_conseq; [apply fire_settlement_reports|]; intros [[]|e] t' Ht; [intros _|done].
  all: rewrite Ht by done; do 5 eexists; (split; [done|]); (split; [done|]); (split; [done|]).
  all: intros _; apply field_set_eq.
Qed.


(** ** The orders of a worker

    A worker runs its checkouts and settlements concurrently over one
    recorder; [timestamp] and [elapsed] are its readings of the clocks. *)

Record worker_world (S : Type) := WorkerWorld {
  ww_env : S;
  ww_calls : list order_call;
}.
Arguments WorkerWorld {S} ww_env ww_calls.
Arguments ww_env {S} w : rename.
Arguments ww_calls {S} w : rename.

Section worker.
Context {S : Type} (h : ∀ X, shopE X → S → X * S) (timestamp elapsed : S → pyfloat).
Context (c : config) (bracket_ok : string → bool).

Definition calls_of (s : S) {X} (op : shopE X) : list order_call :=
  match op with
  | SAccepted id phase => [AcceptedCall (timestamp s) (elapsed s) id phase]
  | STerminal id outcome phase => [TerminalCall (timestamp s) (elapsed s) id outcome phase]
  | _ => []
  end.

Definition worker_handle (X : Type) (op : shopE X) (w : worker_world S) : X * worker_world S :=
  let '(x, s) := h X op (ww_env w) in (x, WorkerWorld s (ww_calls w ++ calls_of (ww_env w) op)).

(** The processes of a worker. *)
Definition load_process (p : prog shopE (option unit)) : Prop :=
  (∃ cookie fuel s inline, p = nats_checkout c bracket_ok cookie fuel s inline) ∨
  (∃ cookie fuel location order stream started epoch context,
     p = track_settlement c cookie fuel location order stream started epoch context).

Lemma checkout_disciplined cookie fuel s inline :
  reports (nats_checkout c bracket_ok cookie fuel s inline) (λ _ _, True) [].
Proof using.
  unfold nats_checkout. shop_step quiet_lib. eapply wp_conseq; [apply base_context_reports|].
  intros r t (-> & base & -> & Hfresh). cbv beta iota. shop_step quiet_lib.
  eapply wp_conseq; [apply checkout_data_reports|]. intros [data|e] t [-> Hd]; [|done].
  do 2 shop_step quiet_lib; [exact I|]. do 2 shop_step quiet_lib; [exact I|]. shop_step quiet_lib.
  eapply wp_conseq; [by apply checkout_to_outcome_reports|]. intros r t (m & -> & Hm).
  destruct m as [o| |e|]; [|done..]. destruct Hm as [Hrep _]. cbv beta iota.
  destruct (co_error o) as [f|] eqn:Herror.
  { eapply wp_conseq; [by apply not_completed_reports; rewrite Herror|done]. }
  destruct (co_order o) as [order|].
  2: { eapply wp_conseq; [by apply not_completed_reports; rewrite Herror|done]. }
  destruct (co_events_location o) as [location|].
  2: { eapply wp_conseq; [by apply not_completed_reports; rewrite Herror|done]. }
  destruct inline; [eapply wp_conseq; [apply track_settlement_reports|done]|].
  by repeat shop_step quiet_lib.
Qed.

Lemma load_process_disciplined p : load_process p → reports p (λ _ _, True) [].
Proof using.
  intros [(cookie & fuel & s & inline & ->)|(cookie & fuel & l & o & st & s & e & ctx & ->)].
  - apply checkout_disciplined.
  - eapply wp_conseq; [apply track_settlement_reports|done].
Qed.

(** The orders outstanding over all processes. *)
Definition outstanding_of (t : list report) : Z := if Nat.eqb (order_stage t) 1 then 1 else 0.
Definition worker_inv (w : worker_world S) (ts : list (list report)) : Prop :=
  Forall (λ t, order_stage t ≤ 2) ts ∧ orderly (ww_calls w) ∧
  call_balance (ww_calls w) = sum_Z (outstanding_of <$> ts).

Lemma sum_cons x l : sum_Z (x :: l) = (x + sum_Z l)%Z.
Proof using. done. Qed.

Lemma sum_insert ts i t t' :
  ts !! i = Some t → sum_Z (outstanding_of <$> <[i:=t']> ts) =
    (sum_Z (outstanding_of <$> ts) - outstanding_of t + outstanding_of t')%Z.
Proof using.
  revert i. induction ts as [|x ts IH]; intros [|i] Hi; try done.
  - injection Hi as ->. change (<[0:=t']> (t :: ts)) with (t' :: ts). rewrite !fmap_cons, !sum_cons. ring.
  - change (<[Datatypes.S i:=t']> (x :: ts)) with (x :: <[i:=t']> ts).
    rewrite !fmap_cons, !sum_cons, IH by done. ring.
Qed.

Lemma outstanding_nonneg ts : (0 ≤ sum_Z (outstanding_of <$> ts))%Z.
Proof using.
  induction ts as [|t ts IH]; [done|]. rewrite fmap_cons, sum_cons. unfold outstanding_of at 1.
  destruct (Nat.eqb _ _); lia.
Qed.

Lemma call_balance_app calls calls' : call_balance (calls ++ calls') = (call_balance calls + call_balance calls')%Z.
Proof using. unfold call_balance. by rewrite fmap_app, sum_Z_app. Qed.

Lemma orderly_snoc calls call :
  orderly calls → call_ok call → (0 ≤ call_balance (calls ++ [call]))%Z → orderly (calls ++ [call]).
Proof using.
  intros [Hok Hbal] Hcall Hlast. split; [by apply Forall_app; split; [|by constructor]|].
  intros n. destruct (decide (n ≤ length calls)) as [Hn|Hn].
  - rewrite take_app_le by done. apply Hbal.
  - by rewrite take_ge by (rewrite length_app; simpl; lia).
Qed.

Lemma worker_step X (op : shopE X) w ts i t :
  worker_inv w ts → ts !! i = Some t → report_ok X op t →
  any_answer X op t (worker_handle X op w).1 ∧
  worker_inv (worker_handle X op w).2 (<[i := record_report X op (worker_handle X op w).1 t]> ts).
Proof using.
  intros (Hstage & Horder & Hbal) Ht Hok. split; [done|]. unfold worker_handle.
  destruct (h X op (ww_env w)) as [x s]. cbn [fst snd]. unfold worker_inv. cbn [ww_calls].
  pose proof (Forall_lookup_1 _ _ _ _ Hstage Ht) as Hle. cbn beta in Hle.
  assert (order_stage (record_report X op x t) = order_stage t + length (calls_of (ww_env w) op)) as Hnew.
  { unfold order_stage, record_report. rewrite filter_app, length_app. by destruct op. }
  assert (length (calls_of (ww_env w) op) = 0 ∧ calls_of (ww_env w) op = [] ∨
    ∃ call, calls_of (ww_env w) op = [call] ∧ call_ok call ∧
      (call_delta call = outstanding_of (record_report X op x t) - outstanding_of t)%Z ∧
      order_stage t ≤ 1) as [[H0 Hnil]|(call & Hcall & Hcok & Hdelta & Hle1)].
  { destruct op; try (by left); right; eexists; (split; [done|]); cbn [report_ok] in Hok;
      unfold outstanding_of; rewrite Hnew; cbn [calls_of length]; [rewrite Hok|destruct Hok as [Hok ?]; rewrite Hok];
      (split; [done|]); (split; [reflexivity|]); lia. }
  - assert (outstanding_of (record_report X op x t) = outstanding_of t) as Hsame.
    { unfold outstanding_of. by rewrite Hnew, H0, Nat.add_0_r. }
    rewrite Hnil, app_nil_r, (sum_insert ts i t), Hsame by done. split_and!; [|done|lia].
    apply Forall_insert; [done|]. by rewrite Hnew, H0, Nat.add_0_r.
  - rewrite Hcall in *. assert (call_balance (ww_calls w ++ [call]) =
      sum_Z (outstanding_of <$> <[i:=record_report X op x t]> ts)) as Hb.
    { rewrite call_balance_app, (sum_insert ts i t) by done.
      change (call_balance [call]) with (call_delta call + 0)%Z. lia. }
    split_and!; [|apply orderly_snoc; [done|done|rewrite Hb; apply outstanding_nonneg]|done].
    apply Forall_insert; [done|]. rewrite Hnew. simpl. lia.
Qed.

(** However the processes interleave, and whichever are killed, the calls of
    the recorder are orderly. *)
Lemma worker_orderly s ps w ps' :
  Forall load_process ps → rtc (step worker_handle) (WorkerWorld s [], ps) (w, ps') → orderly (ww_calls w).
Proof using.
  intros Hps Hsteps.
  destruct (wp_steps worker_handle report_ok any_answer record_report worker_inv worker_step
    (λ _ _, True) _ _ (replicate (length ps) []) Hsteps) as (ts' & _ & _ & Horder & _); [| |done].
  - cbn [snd]. clear -Hps. induction Hps as [|p ps Hp _ IH]; [constructor|].
    constructor; [right; by apply load_process_disciplined|done].
  - split; [|split]; cbn [fst ww_calls].
    + apply Forall_replicate. unfold order_stage. simpl. lia.
    + split; [constructor|]. intros n. by rewrite take_nil.
    + clear. induction (length ps) as [|n IH]; [done|]. cbn in *. done.
Qed.
End worker.

(** C7: The outstanding orders of a run are counted exactly.  However many
    workers a run has, whatever their servers, streams and clocks do, in
    whatever order the checkouts and settlements of each of them make their
    calls, and whichever of them are killed, the logs that their recorders
    write are merged and rebased without an error, nothing is lost, and after
    each record the count is the number of orders accepted so far less the
    number ended so far over all workers, and never negative. *)
Theorem run_outstanding_exact {S} (h : ∀ X, shopE X → S → X * S) (timestamp elapsed : S → pyfloat) c bracket_ok
    (workers : list (list order_call)) :
  Forall (λ calls, ∃ s ps w ps', Forall (load_process c bracket_ok) ps ∧
    rtc (step (worker_handle h timestamp elapsed)) (WorkerWorld s [], ps) (w, ps') ∧ calls = ww_calls w) workers →
  ∃ merged out,
    merge_records (document_file <$> (recorded_log <$> workers)) = Ok merged ∧
    rebase_outstanding 0 merged = Ok out ∧
    merged ≡ₚ concat (recorded_log <$> workers) ∧ length out = length merged ∧
    ∀ i r, out !! i = Some r →
      py_item r "outstanding" = Ok (PInt (balance (take (Datatypes.S i) merged))) ∧
      (0 ≤ balance (take (Datatypes.S i) merged))%Z.
Proof.
  intros Hworkers. apply workers_outstanding_exact. eapply Forall_impl; [exact Hworkers|].
  intros calls (s & ps & w & ps' & Hps & Hsteps & ->). by eapply worker_orderly.
Qed.
