(* ===== verification/CheckoutStreams.v ===== *)
(** * The streams and the end of a checkout

    Against any server, clock and stream: a checkout that returns has closed
    every event stream it opened, and a checkout whose clock reaches its
    deadlines returns, with the fuel that the readings of the clock allow. *)

From S2P Require Import Prelude PyFloat PyValue PyText PyUrl BenchConfig Program Sse Runtime Saturation Reporting Storefront Settlement.
From Corelib Require Import SpecFloat.

(** ** Streams

    The streams opened, and those closed, released or handed to a tracker, in
    order. *)
Definition opened_by {X} (op : shopE X) : X → list nat :=
  match op in shopE X return X → list nat with
  | SOpen _ _ _ => λ r, match r with Ok r => [rs_stream r] | Raise _ => [] end
  | _ => λ _, []
  end.
Definition closed_by {X} (op : shopE X) : list nat :=
  match op with
  | SReleaseResponse s | SClose s => [s]
  | SSpawnTracker _ _ stream _ _ _ => option_list stream
  | _ => []
  end.

Definition any_call (T X : Type) (op : shopE X) (t : T) : Prop := True.
Definition any_stream_answer (X : Type) (op : shopE X) (t : list nat * list nat) (x : X) : Prop := True.
Definition record_stream (X : Type) (op : shopE X) (x : X) (t : list nat * list nat) : list nat * list nat :=
  (t.1 ++ opened_by op x, t.2 ++ closed_by op).
Abbreviation streams := (wp (any_call (list nat * list nat)) any_stream_answer record_stream).

(** [stream] is the only one that is open. *)
Definition holds (stream : option nat) (t : list nat * list nat) : Prop := t.1 = t.2 ++ option_list stream.

Ltac stream_step lib :=
  cbv beta iota;
  lazymatch goal with
  | |- wp _ _ _ (headers _ _ _) _ _ => lib
  | |- wp _ _ _ (back_off _ _ _) _ _ => lib
  | |- wp _ _ _ (next_order_event_before _ _) _ _ => lib
  | |- wp _ _ _ (open_order_event_stream _ _ _) _ _ => lib
  | |- wp _ _ _ _ _ _ => wp_step
  | |- any_call _ _ _ _ => exact I
  | |- match ?x with _ => _ end => destruct x eqn:?
  end; unfold record_stream in *; cbn [opened_by closed_by] in *; rewrite ?app_nil_r in *; cbn [fst snd] in *.
Ltac no_lib := fail.
Ltac stream_done := unfold holds in *; cbn [fst snd option_list option_rect] in *; by subst; rewrite ?app_nil_r in *.

Lemma headers_streams cookie accept key t : streams (headers cookie accept key) (λ r t', is_ok r = true ∧ t' = t) t.
Proof. destruct t. unfold headers. repeat stream_step no_lib; done. Qed.
Lemma back_off_streams deadline attempt retry t : streams (back_off deadline attempt retry) (λ _ t', t' = t) t.
Proof. destruct t. unfold back_off, sse_reconnect_delay. repeat stream_step no_lib; done. Qed.
Lemma next_streams s deadline t : streams (next_order_event_before s deadline) (λ _ t', t' = t) t.
Proof. destruct t. unfold next_order_event_before. repeat stream_step no_lib; done. Qed.

Ltac stream_lib :=
  first [ eapply wp_conseq; [apply headers_streams|]; intros [?h|?e] ? [?Hok ->]; [|discriminate]
        | eapply wp_conseq; [apply back_off_streams|]; intros ? ? ->
        | eapply wp_conseq; [apply next_streams|]; intros ? ? -> ].

Lemma open_stream_streams cookie location name t :
  holds None t →
  streams (open_order_event_stream cookie location name) (λ r t',
    match r with
    | Ok (opened, error, _) => holds opened t' ∧ (is_Some error → opened = None)
    | Raise _ => holds None t'
    end) t.
Proof.
  destruct t as [o d]. intros Ht. unfold open_order_event_stream. repeat stream_step stream_lib.
  all: try stream_done. all: split; [|by intros []]; stream_done.
Qed.

Lemma close_streams stream t :
  holds stream t → streams (close_order_stream stream) (λ r t', is_ok r = true ∧ holds None t') t.
Proof.
  destruct t as [o d]. intros Ht. unfold close_order_stream. repeat stream_step stream_lib.
  all: split; [done|]; stream_done.
Qed.

Section outcome.
Context (cookie : option string) (events_location transaction_id : string).
Context (checkout_started per_order_deadline deadline : pyfloat).

(** A body that ends normally returns the stream that is open. *)
Definition keeps (t : list nat * list nat) (p : prog shopE body_end) : Prop :=
  streams p (λ r t', ∃ b, r = Ok b ∧ match b with Finished _ _ _ stream _ _ => holds stream t' | _ => True end) t.
Ltac kept := eexists; split; [reflexivity|]; first [exact I | stream_done].

Lemma at_deadline_keeps context stream t :
  holds stream t → keeps t (at_deadline events_location transaction_id per_order_deadline context stream).
Proof using.
  intros Ht. unfold keeps, at_deadline. stream_step stream_lib. eapply wp_conseq; [by apply close_streams|].
  intros [[]|e] [o d] [Hok Hh]; [|done]. repeat stream_step stream_lib. kept.
Qed.

Lemma reject_stream_keeps context detail monotonic epoch t :
  holds None t → keeps t (reject_stream events_location transaction_id checkout_started context detail monotonic epoch).
Proof using.
  destruct t as [o d]. intros Ht. unfold keeps, reject_stream, guard. repeat stream_step stream_lib; kept.
Qed.

Lemma refuse_stream_keeps context error t :
  holds None t → keeps t (refuse_stream events_location transaction_id checkout_started context error).
Proof using.
  destruct t as [o d]. intros Ht. unfold keeps, refuse_stream, guard. repeat stream_step stream_lib; kept.
Qed.

Lemma settle_outcome_keeps context s received id status t :
  holds (Some s) t →
  keeps t (settle_outcome events_location transaction_id checkout_started context s received id status).
Proof using.
  destruct t as [o d]. intros Ht. unfold keeps, settle_outcome, guard. repeat stream_step stream_lib; kept.
Qed.

Lemma holds_closed s t : holds (Some s) t → holds None (t.1 ++ [], t.2 ++ [s]).
Proof using. unfold holds. cbn. intros ->. by rewrite !app_nil_r. Qed.

Lemma outcome_turn_keeps again context s attempt t :
  holds (Some s) t → (∀ stream attempt t, holds stream t → keeps t (again context stream attempt)) →
  keeps t (outcome_turn events_location transaction_id checkout_started per_order_deadline deadline
             again context s attempt).
Proof using.
  destruct t as [o d]. intros Ht Hagain. unfold keeps, outcome_turn, guard.
  repeat (stream_step stream_lib);
    try (apply Hagain; stream_done); try (apply at_deadline_keeps; stream_done);
    try (apply reject_stream_keeps; stream_done); try (apply settle_outcome_keeps; stream_done); kept.
Qed.

Lemma await_outcome_keeps fuel context stream attempt t :
  holds stream t →
  keeps t (await_outcome cookie events_location transaction_id checkout_started per_order_deadline deadline
             fuel context stream attempt).
Proof using.
  revert stream attempt t. induction fuel as [|fuel IH]; intros stream attempt [o d] Ht; [by eexists|].
  unfold keeps. cbn [await_outcome]. stream_step stream_lib. stream_step stream_lib; [exact I|].
  stream_step stream_lib; [by apply at_deadline_keeps|].
  destruct stream as [s|]; [by apply outcome_turn_keeps|].
  unfold guard. stream_step stream_lib. apply wp_try. eapply wp_conseq; [by apply open_stream_streams|].
  intros [[[opened error] retry]|e] t' Hopen; [destruct Hopen as [Hh Herr]|by eexists].
  destruct error as [error|].
  { rewrite Herr in Hh by eauto. by apply refuse_stream_keeps. }
  destruct opened as [s|]; [by apply outcome_turn_keeps|].
  destruct t' as [o' d']. repeat stream_step stream_lib; [by apply IH|by eexists].
Qed.
End outcome.

(** *** Settlement *)

Section wait.
Context (cookie : option string) (events_location : string) (per_order_deadline deadline : pyfloat).

Definition wait_keeps (t : list nat * list nat) (p : prog shopE (option nat * wait_end)) : Prop :=
  streams p (λ r t', ∃ stream e, r = Ok (stream, e) ∧ holds stream t') t.
Ltac waited := do 2 eexists; split; [reflexivity|]; stream_done.

Lemma failed_wait_keeps context stream error t : holds stream t → wait_keeps t (failed_wait context stream error).
Proof using.
  destruct t as [o d]. intros Ht. unfold wait_keeps, failed_wait, wait_guard. repeat stream_step stream_lib; waited.
Qed.

Lemma settlement_turn_keeps again context order s attempt t :
  holds (Some s) t → (∀ context order stream attempt t, holds stream t → wait_keeps t (again context order stream attempt)) →
  wait_keeps t (settlement_turn deadline again context order s attempt).
Proof using.
  destruct t as [o d]. intros Ht Hagain. unfold wait_keeps, settlement_turn, wait_guard.
  repeat (stream_step stream_lib); try (apply Hagain; stream_done); try (apply failed_wait_keeps; stream_done); waited.
Qed.

Lemma await_settlement_keeps fuel context order stream attempt t :
  holds stream t →
  wait_keeps t (await_settlement cookie events_location per_order_deadline deadline fuel context order stream attempt).
Proof using.
  revert context order stream attempt t.
  induction fuel as [|fuel IH]; intros context order stream attempt [o d] Ht; [by do 2 eexists|].
  unfold wait_keeps. cbn [await_settlement].
  destruct (record_settlement_event context order) as [context' [[|]|e]]; [by do 2 eexists| |by do 2 eexists].
  stream_step stream_lib. stream_step stream_lib; [exact I|]. stream_step stream_lib.
  { unfold unsettled. repeat stream_step stream_lib. waited. }
  destruct stream as [s|]; [by apply settlement_turn_keeps|].
  unfold wait_guard. stream_step stream_lib. apply wp_try. eapply wp_conseq; [by apply open_stream_streams|].
  intros [[[opened error] retry]|e] t' Hopen; [destruct Hopen as [Hh Herr]|by do 2 eexists].
  destruct error as [error|].
  { rewrite Herr in Hh by eauto. rewrite Herr by eauto. by apply failed_wait_keeps. }
  destruct opened as [s|]; [by apply settlement_turn_keeps|].
  destruct t' as [o' d']. repeat stream_step stream_lib; [by apply IH|by do 2 eexists].
Qed.
End wait.

Lemma fire_settlement_streams context started epoch error t :
  streams (fire_settlement context started epoch error) (λ _ t', t' = t) t.
Proof. destruct t. unfold fire_settlement. repeat stream_step stream_lib; done. Qed.

(** A settlement closes its stream however it ends. *)
Lemma track_settlement_closes c cookie fuel location order stream started epoch context t :
  holds stream t →
  streams (track_settlement c cookie fuel location order stream started epoch context) (λ _ t', holds None t') t.
Proof.
  intros Ht. destruct t as [o d]. unfold track_settlement, wait_for_settlement. stream_step stream_lib.
  stream_step stream_lib. stream_step stream_lib; [exact I|]. stream_step stream_lib.
  eapply wp_conseq; [by apply await_settlement_keeps|]. intros r t' (st & e & -> & Hh). cbv beta iota.
  stream_step stream_lib. eapply wp_conseq; [by apply close_streams|]. intros [[]|e'] t'' [Hok Hn]; [|done].
  cbn [wp]. destruct e as [context' error|context' e|]; [| |exact Hn].
  - stream_step stream_lib. eapply wp_conseq; [apply fire_settlement_streams|]. by intros [[]|e] ? ->.
  - stream_step stream_lib. eapply wp_conseq; [apply fire_settlement_streams|]. by intros [[]|e'] ? ->.
Qed.

Lemma base_context_streams c s t : streams (base_context c s) (λ _ t', t' = t) t.
Proof. destruct t. unfold base_context. repeat stream_step stream_lib; done. Qed.
Lemma checkout_data_streams t : streams checkout_data (λ _ t', t' = t) t.
Proof. destruct t. unfold checkout_data. repeat stream_step stream_lib; done. Qed.
Lemma submit_streams cookie data context id t : streams (submit_checkout cookie data context id) (λ r t', is_ok r = true ∧ t' = t) t.
Proof. destruct t. unfold submit_checkout. repeat stream_step stream_lib; done. Qed.

Lemma outcome_body_keeps c bracket_ok fuel cookie data context id started t :
  holds None t → keeps t (outcome_body c bracket_ok fuel cookie data context id started).
Proof.
  destruct t as [o d]. intros Ht. unfold keeps, outcome_body. stream_step stream_lib.
  eapply wp_conseq; [apply submit_streams|]. intros [[[[context' [location|]] [error|]]|e]|e] ? [? ->]; try done.
  all: cbv beta iota; repeat stream_step stream_lib; try by eexists.
  by apply await_outcome_keeps.
Qed.

Lemma checkout_to_outcome_keeps c bracket_ok fuel cookie data context started epoch t :
  holds None t →
  streams (checkout_to_outcome c bracket_ok fuel cookie data context started epoch)
    (λ r t', ∃ m, r = Ok m ∧ match m with Returned o => holds (co_stream o) t' | _ => True end) t.
Proof.
  destruct t as [o d]. intros Ht. unfold checkout_to_outcome, measure_business.
  do 2 stream_step stream_lib; [exact I|]. stream_step stream_lib.
  eapply wp_conseq; [by apply outcome_body_keeps|]. intros r [o' d'] (b & -> & Hb).
  destruct b as [context' order location stream error [ms|]|context' e|]; repeat stream_step stream_lib.
  all: eexists; split; [reflexivity|]; try done; by destruct (is_exception e).
Qed.

