(* ===== verification/CheckoutEnds.v ===== *)
(** * A checkout ends

    The loops of a checkout follow a stream that may never end, against the
    clock.  Whatever the server and the stream do, a checkout whose calls
    answer and whose clock reaches the end of the run returns, within as many
    turns as the clock is read before that. *)

From S2P Require Import Prelude PyFloat PyValue PyText PyUrl BenchConfig Program Sse Parallel Runtime Saturation Reporting Storefront Settlement CheckoutReports.
From Corelib Require Import SpecFloat.

(** ** Deadlines *)

Lemma fleb_not_fltb x y : fleb x y = true → fltb y x = false.
Proof.
  rewrite fleb_rank. intros (Hx & Hy & H). apply not_true_iff_false. rewrite fltb_rank. tauto.
Qed.
Lemma fleb_nan x y : fleb x y = true → f_is_nan x = false ∧ f_is_nan y = false.
Proof. rewrite fleb_rank. tauto. Qed.

(** A deadline that is not after [finish] has passed at [finish]. *)
Lemma deadline_passed per drain finish x :
  fleb drain finish = true → fleb finish x = true → fltb x (f_min per drain) = false.
Proof.
  intros Hd Hx. pose proof (fleb_trans _ _ _ Hd Hx) as Hdx. unfold f_min. destruct (fltb drain per) eqn:Hlt.
  { by apply fleb_not_fltb. }
  destruct (fltb x per) eqn:Hp; [|done]. exfalso. apply not_true_iff_false in Hlt. apply Hlt.
  by eapply fleb_fltb_trans.
Qed.
Lemma deadline_reached per drain finish x :
  f_is_nan per = false → fleb drain finish = true → fleb finish x = true → fleb (f_min per drain) x = true.
Proof.
  intros Hper Hd Hx. pose proof (deadline_passed per drain finish x Hd Hx) as Hpass.
  apply fleb_nan in Hd as [Hdn _], Hx as [_ Hxn]. apply fltb_false; [done| |done].
  unfold f_min. by destruct (fltb drain per).
Qed.

(** ** The mark of a settlement in a context *)

Definition STAMP : string := "_settlement_received_monotonic".
Definition unstamped (m : mapping) : Prop := STAMP ∉ m.*1.

Lemma alist_set_keys k v (m : mapping) k' : k' ∈ (alist_set k v m).*1 → k' = k ∨ k' ∈ m.*1.
Proof.
  induction m as [|[k0 v0] m IH]; cbn; [rewrite list_elem_of_singleton; auto|].
  case_decide; cbn; rewrite !elem_of_cons; [naive_solver|]. intros [->|Hin]; [auto|]. destruct (IH Hin); auto.
Qed.
Lemma unstamped_set k v m : k ≠ STAMP → unstamped m → unstamped (alist_set k v m).
Proof. intros Hk Hm [?|?]%alist_set_keys; [congruence|done]. Qed.
Lemma unstamped_update m u : unstamped m → unstamped u → unstamped (dict_update m u).
Proof.
  unfold dict_update. revert m. induction u as [|[k v] u IH]; intros m Hm Hu; [done|]. cbn [foldl].
  unfold unstamped in Hu. cbn in Hu. apply not_elem_of_cons in Hu as [Hk Hu].
  apply IH; [by apply unstamped_set|done].
Qed.
Lemma unstamped_receipt context prefix epoch id :
  prefix +:+ "_received_at" ≠ STAMP → prefix +:+ "_received_epoch" ≠ STAMP → prefix +:+ "_event_id" ≠ STAMP →
  unstamped context → is_ok (utc_timestamp epoch) = true →
  ∃ context', receipt_context context prefix epoch id = Ok context' ∧ unstamped context'.
Proof.
  intros H1 H2 H3 Hc He. unfold receipt_context. destruct (utc_timestamp epoch) as [s|e]; [|done].
  eexists. split; [done|]. destruct id as [id|]; [destruct (String.eqb id "")|]; by repeat apply unstamped_set.
Qed.

Section ends.
Context (c : config) (finish : pyfloat) (n : nat).

(** The readings of the monotonic clock so far, and the last of them. *)
Definition clocked : Type := nat * pyfloat.

(** The clock does not go back and is at [finish] from its reading [n] on;
    every drain deadline is [finish] at the latest; calls answer, nobody is
    killed, and epochs are representable as dates. *)
Definition fair (X : Type) (op : shopE X) : clocked → X → Prop :=
  match op in shopE X return clocked → X → Prop with
  | SMonotonic => λ t x, fleb t.2 x = true ∧ (n ≤ t.1 → fleb finish x = true) ∧
      f_is_nan (fadd x (settlement_timeout_seconds c)) = false
  | STime => λ _ x, is_ok (utc_timestamp x) = true
  | SDrainDeadline => λ _ x, fleb x finish = true
  | SSleep _ => λ _ r, is_ok r = true
  | SAcquireSlot => λ _ r, is_ok r = true
  | SPost _ _ _ _ => λ _ r, is_ok r = true
  | SOpen _ _ _ => λ _ r, is_ok r = true
  | SNext _ _ => λ t r,
      match r with
      | Ok o => fleb t.2 (ro_received_monotonic o) = true ∧ is_ok (utc_timestamp (ro_received_epoch o)) = true
      | Raise e => e ≠ GreenletExit
      end
  | _ => λ _ _, True
  end.
Definition fair_call (X : Type) (op : shopE X) (t : clocked) : Prop := True.
Definition fair_answer (X : Type) (op : shopE X) (t : clocked) (x : X) : Prop := fair X op t x.
Definition record_clock (X : Type) (op : shopE X) (x : X) (t : clocked) : clocked :=
  match op in shopE X return X → clocked with
  | SMonotonic => λ x, (S t.1, x)
  | SNext _ _ => λ r, match r with Ok o => (t.1, ro_received_monotonic o) | Raise _ => t end
  | _ => λ _, t
  end x.
Abbreviation clocks_of := (wp fair_call fair_answer record_clock).

Ltac clock_step lib :=
  cbv beta iota;
  lazymatch goal with
  | |- wp _ _ _ (headers _ _ _) _ _ => lib
  | |- wp _ _ _ (back_off _ _ _) _ _ => lib
  | |- wp _ _ _ (next_order_event_before _ _) _ _ => lib
  | |- wp _ _ _ (close_order_stream _) _ _ => lib
  | |- wp _ _ _ _ _ _ => wp_step
  | |- fair_call _ _ _ => exact I
  | |- match ?x with _ => _ end => destruct x eqn:?
  end; unfold fair_answer, record_clock in *; cbn [fair fst snd] in *.
Ltac no_lib := fail.

Section started.
(** The reading at which the checkout started. *)
Context (started : pyfloat).

Definition after (t : clocked) : Prop := fleb started t.2 = true.
Definition receipt_ok (monotonic epoch : pyfloat) : Prop :=
  fleb started monotonic = true ∧ is_ok (utc_timestamp epoch) = true.
Definition order_ok (o : received_order) : Prop := receipt_ok (ro_received_monotonic o) (ro_received_epoch o).
Definition failure_ok (f : failure) : Prop :=
  match fl_received f with Some (monotonic, epoch) => receipt_ok monotonic epoch | None => True end.

(** Parts that answer and keep the clock. *)
Definition passes {A} (t : clocked) (p : prog shopE A) : Prop :=
  clocks_of p (λ r t', is_ok r = true ∧ t.1 ≤ t'.1 ∧ after t') t.

Lemma headers_pass cookie accept key t : after t → passes t (headers cookie accept key).
Proof using. intros. unfold passes, headers. repeat clock_step no_lib; done. Qed.

Lemma after_step t x : after t → fleb t.2 x = true → fleb started x = true.
Proof using. intros. by eapply fleb_trans. Qed.
Hint Resolve after_step : core.

Lemma back_off_passes deadline attempt retry t : after t → passes t (back_off deadline attempt retry).
Proof using.
  intros. unfold passes, back_off, sse_reconnect_delay. repeat clock_step no_lib; destruct_and?.
  split; [done|]. split; [lia|]. unfold after in *; cbn in *. by eapply after_step.
Qed.

Lemma close_passes stream t : after t → passes t (close_order_stream stream).
Proof using. intros. unfold passes, close_order_stream. repeat clock_step no_lib; done. Qed.

(** What is known to be after the start. *)
Ltac since_start :=
  unfold order_ok, failure_ok, receipt_ok, after in *; cbn [fst snd fl_received from_option option_rect] in *; destruct_and?;
  repeat match goal with
  | H1 : fleb ?a ?b = true, H2 : fleb ?b ?d = true |- _ =>
      match goal with
      | H : fleb a d = true |- _ => fail 1
      | _ => pose proof (fleb_trans _ _ _ H1 H2)
      end
  end.

Lemma next_answers s deadline t :
  after t →
  clocks_of (next_order_event_before s deadline) (λ r t', t.1 ≤ t'.1 ∧ after t' ∧
    match r with Ok o => order_ok o | Raise e => e ≠ GreenletExit end) t.
Proof using.
  destruct t as [k l]. intros. unfold next_order_event_before, order_ok, receipt_ok, after in *.
  repeat clock_step no_lib; try match goal with m : res received_order |- _ => destruct m end; since_start.
  all: split; [lia|done].
Qed.

Ltac clock_lib :=
  first [ eapply wp_conseq; [by apply headers_pass|]; intros [?h|?e] [? ?] (?Hok & ?Hle & ?Ha); [|discriminate]
        | eapply wp_conseq; [by apply back_off_passes|]; intros [?u|?e] [? ?] (?Hok & ?Hle & ?Ha); [|discriminate]
        | eapply wp_conseq; [by apply close_passes|]; intros [?u|?e] [? ?] (?Hok & ?Hle & ?Ha); [|discriminate]
        | eapply wp_conseq; [by apply next_answers|]; intros ? [? ?] (?Hle & ?Ha & ?Hr) ].

Lemma open_stream_answers cookie location name t :
  after t →
  clocks_of (open_order_event_stream cookie location name) (λ r t', t.1 ≤ t'.1 ∧ after t' ∧
    ∃ opened error retry, r = Ok (opened, error, retry) ∧ from_option failure_ok True error) t.
Proof using.
  destruct t as [k l]. intros. unfold open_order_event_stream.
  repeat clock_step clock_lib; try done; since_start.
  all: split; [lia|]; (split; [done|]); do 3 eexists; (split; [done|]); try done.
  all: unfold http_status_failure; try case_match; by cbn.
Qed.

Lemma failure_recorded context error :
  unstamped context → failure_ok error →
  ∃ context', record_received_failure context error = Ok context' ∧ unstamped context'.
Proof using.
  intros Hc Hf. unfold record_received_failure, failure_ok in *. destruct (fl_received error) as [[m e]|]; [|by eexists].
  destruct Hf as [_ He]. destruct (unstamped_receipt context "failure" e None) as (c' & -> & Hc'); [done..|].
  eexists. split; [done|]. by apply unstamped_set.
Qed.

Lemma latency_ok m : fleb started m = true → is_ok (received_latency_ms started m) = true.
Proof using. intros H. unfold received_latency_ms. by rewrite fleb_not_fltb. Qed.

(** *** The outcome *)

Section outcome.
Context (cookie : option string) (events_location transaction_id : string) (per_order_deadline deadline : pyfloat).
Context (deadline_out : ∀ x, fleb finish x = true → fltb x deadline = false).

Definition finished (b : body_end) : Prop :=
  match b with
  | Finished context order _ _ error _ =>
      unstamped context ∧ from_option failure_ok True error ∧ from_option order_ok True order
  | _ => False
  end.
Definition finishes (t : clocked) (p : prog shopE body_end) : Prop :=
  clocks_of p (λ r t', after t' ∧ ∃ b, r = Ok b ∧ finished b) t.
Ltac recorded :=
  match goal with
  | H : record_received_failure ?m ?f = _ |- _ =>
      let c := fresh "c" in let Hc := fresh "Hc" in let Hu := fresh "Hu" in
      destruct (failure_recorded m f) as (c & Hc & Hu); [by repeat apply unstamped_set|by since_start|];
      rewrite Hc in H; clear Hc; simplify_eq
  | H : receipt_context ?m ?p ?e ?i = _ |- _ =>
      let c := fresh "c" in let Hc := fresh "Hc" in let Hu := fresh "Hu" in
      destruct (unstamped_receipt m p e i) as (c & Hc & Hu);
      [done|done|done|first [done | by apply unstamped_update; [|by apply (bool_decide_unpack _); vm_compute]]|by since_start|];
      rewrite Hc in H; clear Hc; simplify_eq
  | H : received_latency_ms started ?m = Raise _ |- _ =>
      exfalso; let Hl := fresh "Hl" in
      assert (is_ok (received_latency_ms started m) = true) as Hl by (apply latency_ok; since_start; done);
      by rewrite H in Hl
  end.
Ltac finished_ := since_start; split; [done|]; eexists; (split; [reflexivity|]); cbn [finished];
  split_and!; first [done | by repeat apply unstamped_set | by (cbn; since_start)].

Lemma at_deadline_finishes context stream t :
  after t → unstamped context →
  finishes t (at_deadline events_location transaction_id per_order_deadline context stream).
Proof using.
  destruct t. intros Ha Hc. unfold finishes, at_deadline. repeat clock_step clock_lib; finished_.
Qed.

Lemma reject_stream_finishes context detail monotonic epoch t :
  after t → unstamped context → receipt_ok monotonic epoch →
  finishes t (reject_stream events_location transaction_id started context detail monotonic epoch).
Proof using.
  destruct t. intros Ha Hc Hr. unfold finishes, reject_stream, guard.
  repeat clock_step clock_lib; repeat recorded. all: finished_.
Qed.

Lemma refuse_stream_finishes context error t :
  after t → unstamped context → failure_ok error →
  finishes t (refuse_stream events_location transaction_id started context error).
Proof using.
  destruct t. intros Ha Hc Hf. unfold finishes, refuse_stream, guard.
  destruct error as [outcome detail [[m e]|]]; cbn [fl_received];
    repeat clock_step clock_lib; repeat recorded; try done.
  all: try (exfalso; assert (is_ok (received_latency_ms started m) = true) by (apply latency_ok; since_start; done);
    by destruct (received_latency_ms started m)).
  all: finished_.
Qed.

Lemma settle_outcome_finishes context s received id status t :
  after t → unstamped context → order_ok received →
  finishes t (settle_outcome events_location transaction_id started context s received id status).
Proof using.
  destruct t. intros Ha Hc Hr. unfold finishes, settle_outcome, guard.
  repeat clock_step clock_lib; repeat recorded. all: finished_.
Qed.

Lemma outcome_turn_finishes again context s attempt t :
  after t → unstamped context →
  (∀ stream attempt t', t.1 ≤ t'.1 → after t' → finishes t' (again context stream attempt)) →
  finishes t (outcome_turn events_location transaction_id started per_order_deadline deadline again context s attempt).
Proof using.
  destruct t as [k l]. intros Ha Hc Hagain. unfold finishes, outcome_turn, guard.
  repeat clock_step clock_lib;
    try (apply at_deadline_finishes; [done|done]); try done.
  all: try (apply reject_stream_finishes; [since_start; done|done|since_start; done]).
  all: try (apply settle_outcome_finishes; [since_start; done|done|since_start; done]).
  all: apply Hagain; [cbn [fst] in *; lia|since_start; done].
Qed.

Lemma await_outcome_finishes fuel context stream attempt t :
  0 < fuel → n < t.1 + fuel → after t → unstamped context →
  finishes t (await_outcome cookie events_location transaction_id started per_order_deadline deadline
                fuel context stream attempt).
Proof using deadline_out.
  revert stream attempt t. induction fuel as [|fuel IH]; intros stream attempt [k l] Hpos Hk Ha Hc; [lia|].
  cbn [fst] in Hk. unfold finishes. cbn [await_outcome]. clock_step clock_lib. clock_step clock_lib; [exact I|].
  destruct Hx as (Hl & Hn & _). clock_step clock_lib.
  { apply at_deadline_finishes; [since_start; done|done]. }
  assert (k < n) as Hkn.
  { destruct (decide (n ≤ k)) as [Hle|]; [|lia]. by rewrite deadline_out in Heqb by auto. }
  assert (after (S k, x)) as Ha1 by (since_start; done).
  assert (∀ stream attempt t', S k ≤ t'.1 → after t' → finishes t'
    (await_outcome cookie events_location transaction_id started per_order_deadline deadline fuel context stream attempt))
    as Hagain by (intros; apply IH; [lia|lia|done|done]).
  destruct stream as [s|]; [by apply outcome_turn_finishes|].
  unfold guard. clock_step clock_lib. apply wp_try. eapply wp_conseq; [by apply open_stream_answers|].
  intros r [k2 l2] (Hle & Ha2 & opened & error & retry & -> & Hf). cbn [fst] in Hle. cbv beta iota.
  destruct error as [error|]; [by apply refuse_stream_finishes|].
  destruct opened as [s|].
  { apply outcome_turn_finishes; [done|done|]. intros. apply Hagain; [cbn [fst] in *; lia|done]. }
  repeat clock_step clock_lib. apply Hagain; [cbn [fst] in *; lia|done].
Qed.
End outcome.

(** *** The settlement *)

(** A step of the in-place style that does not raise, and does not settle. *)
Definition runs (f : mapping → mapping * option exn) : Prop :=
  ∀ m, unstamped m → ∃ m', f m = (m', None) ∧ unstamped m'.

Lemma runs_then r f : (∃ m', r = (m', None) ∧ unstamped m') → runs f → ∃ m', then_step r f = (m', None) ∧ unstamped m'.
Proof using. intros (m' & -> & Hm) Hf. by apply Hf. Qed.
Lemma runs_when b f m : runs f → unstamped m → ∃ m', when_then b f m = (m', None) ∧ unstamped m'.
Proof using. intros Hf Hm. destruct b; [by apply Hf|by eexists]. Qed.
Lemma runs_put k v : k ≠ STAMP → runs (put k v).
Proof using. intros Hk m Hm. eexists. split; [done|]. by apply unstamped_set. Qed.

Lemma leg_failure_runs leg message stamp :
  (∀ prefix, prefix ∈ ["notification"; "notification_failure"; "cart_clear"; "cart_clear_failure"; "failure"; "settlement"] →
     runs (stamp prefix)) →
  leg ∈ ["notification"; "cart_clear"] → runs (record_leg_failure leg message stamp).
Proof using.
  intros Hstamp Hleg m Hm. unfold record_leg_failure.
  apply runs_then; [apply runs_then|].
  - apply Hstamp; [|done]. repeat (apply elem_of_cons in Hleg as [-> | Hleg]; [set_solver|]). by apply not_elem_of_nil in Hleg.
  - apply runs_put. repeat (apply elem_of_cons in Hleg as [-> | Hleg]; [done|]). by apply not_elem_of_nil in Hleg.
  - intros m' Hm'. apply runs_when; [|done]. intros m2 Hm2.
    apply runs_then; [apply Hstamp; [set_solver|done]|by apply runs_put].
Qed.

Lemma settlement_event_runs context o :
  unstamped context → order_ok o →
  ∃ context', record_settlement_event context o = (context', Ok (is_settled (ro_order o))) ∧
    if is_settled (ro_order o) then alist_get STAMP context' = Some (PFloat (ro_received_monotonic o))
    else unstamped context'.
Proof using.
  intros Hc [_ He]. unfold record_settlement_event. set (start := dict_update _ _).
  set (stamp := λ prefix m, in_place _ m).
  assert (unstamped start) as Hs.
  { apply unstamped_update; [done|]. apply (bool_decide_unpack _). vm_compute. exact I. }
  assert (∀ prefix, prefix ∈ ["notification"; "notification_failure"; "cart_clear"; "cart_clear_failure"; "failure"; "settlement"] →
     runs (stamp prefix)) as Hstamp.
  { intros prefix Hp m Hm. unfold stamp.
    destruct (unstamped_receipt m prefix (ro_received_epoch o) (text_utf8 <$> ro_event_id o)) as (m' & Hr & Hm');
      [..|done|done|rewrite Hr; by eexists].
    all: repeat (apply elem_of_cons in Hp as [-> | Hp]; [done|]); by apply not_elem_of_nil in Hp. }
  assert (∃ m', record_legs o stamp start = (m', None) ∧ unstamped m') as Hlegs.
  { unfold record_legs. repeat first [apply runs_then | apply runs_when]; try done.
    all: try (intros m Hm; apply runs_when; [|done]); first [apply leg_failure_runs; [done|set_solver] | apply Hstamp; set_solver]. }
  destruct (is_settled (ro_order o)); cbn iota.
  - match goal with |- context [then_step (then_step ?r ?f) ?g] =>
      change (then_step (then_step r f) g) with (then_step (then_step (record_legs o stamp start) (stamp "settlement")) g) end.
    destruct (runs_then _ (stamp "settlement") Hlegs) as (m' & -> & Hm'); [apply Hstamp; set_solver|].
    eexists. split; [done|]. apply alist_get_set_eq.
  - destruct Hlegs as (m' & -> & Hm'). by eexists.
Qed.

Section wait.
Context (cookie : option string) (events_location : string) (per_order_deadline deadline : pyfloat).
Context (deadline_in : ∀ x, fleb finish x = true → fleb deadline x = true).

Definition stamped_ok (context : mapping) : Prop :=
  ∀ x, alist_get STAMP context = Some (PFloat x) → fleb started x = true.
Lemma unstamped_ok context : unstamped context → stamped_ok context.
Proof using. intros Hc x Hx%alist_get_Some_elem. destruct Hc. by apply (list_elem_of_fmap_2 fst) in Hx. Qed.

Definition waited (e : wait_end) : Prop :=
  match e with Waited context error => stamped_ok context ∧ from_option failure_ok True error | _ => False end.
Definition wait_ends (t : clocked) (p : prog shopE (option nat * wait_end)) : Prop :=
  clocks_of p (λ r t', after t' ∧ ∃ stream e, r = Ok (stream, e) ∧ waited e) t.
Ltac waited_ := since_start; split; [done|]; do 2 eexists; (split; [reflexivity|]); cbn [waited];
  split; [first [done | apply unstamped_ok; by repeat apply unstamped_set] | first [done | by (cbn; since_start)]].

Lemma failed_wait_ends context stream error t :
  after t → unstamped context → failure_ok error → wait_ends t (failed_wait context stream error).
Proof using.
  destruct t. intros Ha Hc Hf. unfold wait_ends, failed_wait, wait_guard.
  destruct (failure_recorded (alist_set "settlement" (PStr (fl_outcome error)) context) error) as (c' & Hr & Hc');
    [by apply unstamped_set|done|].
  do 3 clock_step clock_lib. rewrite Hr. cbv beta iota. cbn [wp]. split; [done|]. do 2 eexists.
  split; [reflexivity|]. split; [by apply unstamped_ok|done].
Qed.

Lemma settlement_turn_ends again context order s attempt t :
  after t → unstamped context → order_ok order →
  (∀ order stream attempt t', order_ok order → t.1 ≤ t'.1 → after t' → wait_ends t' (again context order stream attempt)) →
  wait_ends t (settlement_turn deadline again context order s attempt).
Proof using.
  destruct t as [k l]. intros Ha Hc Ho Hagain. unfold wait_ends, settlement_turn, wait_guard.
  repeat clock_step clock_lib; try done.
  all: try (apply failed_wait_ends; [since_start; done|done|since_start; done]).
  all: apply Hagain; [done|cbn [fst] in *; lia|since_start; done].
Qed.

Lemma await_settlement_ends fuel context order stream attempt t :
  0 < fuel → n < t.1 + fuel → after t → unstamped context → order_ok order →
  wait_ends t (await_settlement cookie events_location per_order_deadline deadline fuel context order stream attempt).
Proof using deadline_in.
  revert context order stream attempt t.
  induction fuel as [|fuel IH]; intros context order stream attempt [k l] Hpos Hk Ha Hc Ho; [lia|].
  cbn [fst] in Hk. unfold wait_ends. cbn [await_settlement].
  destruct (settlement_event_runs context order Hc Ho) as (c1 & -> & Hc1).
  destruct (is_settled (ro_order order)).
  { split; [done|]. do 2 eexists. split; [done|]. split; [|done]. intros x.
    rewrite alist_get_set_ne, Hc1 by done. intros [= <-]. apply Ho. }
  clock_step clock_lib. clock_step clock_lib; [exact I|]. destruct Hx as (Hl & Hn & _). clock_step clock_lib.
  { unfold unsettled. repeat clock_step clock_lib; try done. waited_. }
  assert (k < n) as Hkn.
  { destruct (decide (n ≤ k)) as [Hle|]; [|lia]. by rewrite deadline_in in Heqb by auto. }
  assert (after (S k, x)) as Ha1 by (since_start; done).
  assert (∀ order stream attempt t', order_ok order → S k ≤ t'.1 → after t' → wait_ends t'
    (await_settlement cookie events_location per_order_deadline deadline fuel c1 order stream attempt))
    as Hagain by (intros; apply IH; [lia|lia|done|done|done]).
  destruct stream as [s|]; [by apply settlement_turn_ends|].
  unfold wait_guard. clock_step clock_lib. apply wp_try. eapply wp_conseq; [by apply open_stream_answers|].
  intros r [k2 l2] (Hle & Ha2 & opened & error & retry & -> & Hf). cbn [fst] in Hle. cbv beta iota.
  destruct error as [error|]; [by apply failed_wait_ends|].
  destruct opened as [s|].
  { apply settlement_turn_ends; [done|done|done|]. intros. apply Hagain; [done|cbn [fst] in *; lia|done]. }
  repeat clock_step clock_lib. apply Hagain; [done|cbn [fst] in *; lia|done].
Qed.
End wait.

(** *** The whole *)

Lemma submit_answers cookie data context id t :
  after t → unstamped context →
  clocks_of (submit_checkout cookie data context id) (λ r t', after t' ∧
    ∃ context' location error, r = Ok (Ok (context', location, error)) ∧ unstamped context' ∧
      from_option failure_ok True error) t.
Proof using.
  destruct t. intros Ha Hc. unfold submit_checkout. repeat clock_step clock_lib; try done.
  all: split; [done|]; do 3 eexists; (split; [reflexivity|]).
  all: (split; [repeat apply unstamped_set; done || (apply unstamped_update; [done|by apply (bool_decide_unpack _); vm_compute])|]).
  all: unfold http_status_failure; try case_match; done.
Qed.

Lemma outcome_body_finishes bracket_ok fuel cookie data context id t :
  n < fuel → after t → unstamped context →
  finishes t (outcome_body c bracket_ok fuel cookie data context id started).
Proof using.
  intros Hn Ha Hc. unfold finishes, outcome_body. clock_step clock_lib.
  eapply wp_conseq; [by apply submit_answers|].
  intros r [k l] (Ha' & context' & location & error & -> & Hc' & Hf). cbv beta iota.
  destruct location as [location|]; [destruct error as [error|]|].
  - split; [done|]. eexists. by split.
  - destruct (order_events_url bracket_ok location) as [url|e] eqn:Hurl.
    + do 2 clock_step clock_lib; [exact I|].
      apply await_outcome_finishes; [|lia|cbn; lia|done|done]. intros y Hy. by eapply deadline_passed.
    + assert (∃ detail, e = ValueError detail) as [detail ->].
      { revert Hurl. unfold order_events_url, urlsplit, raise_if. intros H.
        repeat (case_match || simplify_eq/=); by eexists. }
      repeat clock_step clock_lib. split; [done|]. eexists. split; [reflexivity|]. split; [by apply unstamped_set|done].
  - destruct error as [error|]; (split; [done|]); eexists; by split.
Qed.

Lemma checkout_to_outcome_ends bracket_ok fuel cookie data context epoch t :
  n < fuel → after t → unstamped context →
  clocks_of (checkout_to_outcome c bracket_ok fuel cookie data context started epoch) (λ r t', after t' ∧
    ∃ o, r = Ok (Returned o) ∧ unstamped (co_context o) ∧ from_option failure_ok True (co_error o) ∧
      from_option order_ok True (co_order o)) t.
Proof using.
  destruct t. intros Hn Ha Hc. unfold checkout_to_outcome, measure_business.
  do 2 clock_step clock_lib; [exact I|]. clock_step clock_lib.
  eapply wp_conseq; [apply outcome_body_finishes; [done|done|by apply unstamped_set]|].
  intros r [k l] (Ha' & b & -> & Hb). destruct b as [context' order location stream error ms|context' e|]; [|done..].
  destruct ms as [ms|]; repeat clock_step clock_lib; (split; [since_start; done|]); eexists; (split; [reflexivity|]);
    split_and!; apply Hb.
Qed.

Lemma fire_settlement_ends context epoch error t :
  after t → stamped_ok context → from_option failure_ok True error →
  clocks_of (fire_settlement context started epoch error) (λ r _, r = Ok tt) t.
Proof using.
  destruct t as [k l]. intros Ha Hc Hf. unfold fire_settlement.
  assert (∀ y t', fleb started y = true → clocks_of
    (ms ← lift (received_latency_ms started y);
     perform (SFire "checkout_to_settled" ms epoch context (failure_exn <$> error))) (λ r _, r = Ok tt) t') as Hfire.
  { intros y t' Hy. pose proof (latency_ok _ Hy) as Hl. repeat clock_step clock_lib; by try destruct x. }
  clock_step clock_lib. pose proof (λ x, Hc x) as Hstamp. change "_settlement_received_monotonic" with STAMP.
  assert (clocks_of match error ≫= fl_received with Some (m, _) => Ret m | None => perform SMonotonic end
    (λ r t', match r with Ok y => fleb started y = true | Raise e => False end) (k, l)) as Hdefault.
  { destruct error as [[outcome detail [[m e]|]]|]; cbn in Hf |- *.
    - apply Hf.
    - split; [exact I|]. intros y Hy. unfold fair_answer in Hy. cbn in Hy. since_start. done.
    - split; [exact I|]. intros y Hy. unfold fair_answer in Hy. cbn in Hy. since_start. done. }
  assert (clocks_of match alist_get STAMP context with
      | Some (PFloat x) => Ret x
      | _ => match error ≫= fl_received with Some (m, _) => Ret m | None => perform SMonotonic end
      end (λ r t', match r with Ok y => fleb started y = true | Raise e => False end) (k, l)) as Hall.
  { destruct (alist_get STAMP context) as [[]|] eqn:Hs; try exact Hdefault. by apply Hstamp. }
  eapply wp_conseq; [exact Hall|]. intros [y|e] t' Hy; [by apply Hfire|done].
Qed.

Lemma track_settlement_ends fuel cookie location order stream epoch context t :
  n < fuel → after t → unstamped context → order_ok order → f_is_nan (fadd started (settlement_timeout_seconds c)) = false →
  clocks_of (track_settlement c cookie fuel location order stream started epoch context) (λ r _, r = Ok (Some tt)) t.
Proof using.
  destruct t as [k l]. intros Hn Ha Hc Ho Hnan. unfold track_settlement, wait_for_settlement. do 2 clock_step clock_lib.
  clock_step clock_lib; [exact I|]. clock_step clock_lib.
  eapply wp_conseq; [apply await_settlement_ends; [|lia|cbn; lia|done|done|done]; intros y Hy; by eapply deadline_reached|].
  intros r [k2 l2] (Ha2 & st & e & -> & He). cbv beta iota. clock_step clock_lib. clock_step clock_lib.
  cbn [wp]. destruct e as [context' error|context' e|]; [|done..]. destruct He as [Hs Hf]. clock_step clock_lib.
  eapply wp_conseq; [apply fire_settlement_ends; [done| |done]|by intros ? ? ->].
  destruct (absent "settlement" context'); [|done]. intros y. rewrite alist_get_set_ne by done. apply Hs.
Qed.
End started.

Lemma base_context_answers s t :
  clocks_of (base_context c s)
    (λ r t', t' = t ∧ ∃ context, r = Ok context ∧ unstamped context) t.
Proof using.
  unfold base_context. repeat clock_step no_lib; try done.
  all: (split; [done|]); eexists; (split; [done|]); destruct (String.eqb (workload c) "saturation");
    apply (bool_decide_unpack _); vm_compute; exact I.
Qed.
Lemma checkout_data_answers t :
  clocks_of checkout_data (λ r t', t' = t ∧ is_ok r = true) t.
Proof using. unfold checkout_data. repeat clock_step no_lib; done. Qed.

(** C8: A checkout ends.  Whatever the server and the stream do (answer 503
    for ever, stream without end, break, send malformed or foreign events), if
    the calls answer and the clock is at the end of the drain from its [n]-th
    reading on, a checkout returns, with its settlement or with a tracker
    started, when each of its loops may take more than [n] turns. *)
Theorem checkout_ends bracket_ok cookie fuel s inline start :
  n < fuel →
  clocks_of (nats_checkout c bracket_ok cookie fuel s inline) (λ r _, r = Ok (Some tt)) (0, start).
Proof using.
  intros Hn. unfold nats_checkout. clock_step no_lib. eapply wp_conseq; [apply base_context_answers|].
  intros r t (-> & base & -> & Hbase). cbv beta iota. clock_step no_lib.
  eapply wp_conseq; [apply checkout_data_answers|]. intros [data|e] t' [-> Hok]; [|done].
  clock_step no_lib. clock_step no_lib; [exact I|]. destruct Hx as (Hstart & _ & Hnan).
  clock_step no_lib. clock_step no_lib; [exact I|]. clock_step no_lib.
  assert (after x (1, x)) as Ha by (apply fleb_refl; by apply fleb_nan in Hstart as [_ ?]).
  eapply wp_conseq; [by apply (checkout_to_outcome_ends x)|].
  intros r t (Ha' & o & -> & Hc & Hf & Ho). cbv beta iota.
  assert (∀ m f, unstamped m → failure_ok x f → clocks_of
    (_ ← close_order_stream (co_stream o); _ ← fire_settlement m x x0 (Some f); Ret (Some tt))
    (λ r _, r = Ok (Some tt)) t) as Hnot.
  { intros m f Hm Hfok. clock_step no_lib. eapply wp_conseq; [by apply (close_passes x)|].
    intros [[]|e] t2 (Hok2 & _ & Ha2); [|done]. clock_step no_lib.
    eapply wp_conseq; [apply fire_settlement_ends; [done|by apply unstamped_ok|done]|by intros ? ? ->]. }
  assert (unstamped (dict_update base (co_context o))) as Hu by by apply unstamped_update.
  assert (unstamped (alist_set "settlement" (PStr "ORDER_NOT_COMPLETED") (dict_update base (co_context o)))) as Hu'
    by by apply unstamped_set.
  destruct (co_error o) as [f|]; [by apply Hnot|].
  destruct (co_order o) as [order|]; [|by apply Hnot].
  destruct (co_events_location o) as [location|]; [|by apply Hnot].
  destruct inline; [by apply track_settlement_ends|]. by repeat clock_step no_lib.
Qed.
End ends.

(** ** Concrete checkouts

    A scripted environment: the answers of each kind of call in order, the last
    one for ever, and a log of what was done. *)
Inductive entry :=
  | LogAccepted
  | LogEnded (outcome : string)
  | LogFired (name : string) (outcome : pyval) (error : option exn)
  | LogOpened (stream : nat)
  | LogAsked (stream : nat)
  | LogReleased (stream : nat)
  | LogClosed (stream : nat).

Record script := Script {
  sc_clock : list pyfloat;
  sc_posts : list (res response);
  sc_opens : list (res response);
  sc_nexts : list (res received_order);
  sc_log : list entry;
}.

(** The next answer, and those after it. *)
Definition next_of {A} (d : A) (l : list A) : A * list A :=
  match l with [] => (d, []) | [x] => (x, [x]) | x :: l => (x, l) end.
Definition logged (e : entry) (w : script) : script :=
  Script (sc_clock w) (sc_posts w) (sc_opens w) (sc_nexts w) (sc_log w ++ [e]).
Definition no_response : res response := Ok (Response 0 (λ _, None) (Raise (JSONDecodeError "")) 0).

Definition script_handle (X : Type) (op : shopE X) (w : script) : X * script :=
  match op in shopE X return X * script with
  | SMonotonic => let '(x, l) := next_of (float_dec 0 0) (sc_clock w) in
      (x, Script l (sc_posts w) (sc_opens w) (sc_nexts w) (sc_log w))
  | STime | SStartedEpoch => (float_dec 0 0, w)
  | SDrainDeadline => (float_dec 100 0, w)
  | SSleep _ | SAcquireSlot => (Ok tt, w)
  | SUuid4 => ("id", w)
  | SYear => (2026%Z, w)
  | SRandint a _ => (a, w)
  | SChoice l => (default "" (head l), w)
  | SUniform a _ => (a, w)
  | SPhaseNow => ("steady", w)
  | SPost _ _ _ _ => let '(x, l) := next_of no_response (sc_posts w) in
      (x, Script (sc_clock w) l (sc_opens w) (sc_nexts w) (sc_log w))
  | SGet _ _ _ => (no_response, w)
  | SOpen _ _ _ => let '(x, l) := next_of no_response (sc_opens w) in
      (x, let w := Script (sc_clock w) (sc_posts w) l (sc_nexts w) (sc_log w) in
          match x with Ok r => logged (LogOpened (rs_stream r)) w | Raise _ => w end)
  | SNext s _ => let '(x, l) := next_of (Raise StopIteration) (sc_nexts w) in
      (x, logged (LogAsked s) (Script (sc_clock w) (sc_posts w) (sc_opens w) l (sc_log w)))
  | SReleaseResponse s => (tt, logged (LogReleased s) w)
  | SClose s => (tt, logged (LogClosed s) w)
  | SMeasured name context error | SFire name _ _ context error =>
      (tt, logged (LogFired name (field context "outcome") error) w)
  | SAccepted _ _ => (tt, logged LogAccepted w)
  | STerminal _ outcome _ => (tt, logged (LogEnded outcome) w)
  | SSuccess | SReleaseSlot => (tt, w)
  | SFailure _ => (tt, w)
  | SSpawnTracker _ _ _ _ _ _ => (tt, w)
  end.

Definition demo_shop : config :=
  Config "NATS" "http://frontend" None "closed" 0 60 30 1 (float_dec 1 0) (float_dec 1 0) (float_dec 1 0)
    (float_dec 10 0) 30 (float_dec 30 0) (float_dec 60 0) (float_dec 1 0) 7 false false.
Definition demo_slot : slot := Slot None None None None.
Definition accepted_response : res response :=
  Ok (Response 202 (λ k, if String.eqb k "Location" then Some "/orders/1"
                         else if String.eqb k "X-Order-ID" then Some "1" else None) (Raise (JSONDecodeError "")) 0).
Definition stream_response (s : nat) : res response :=
  Ok (Response 200 (λ k, if String.eqb k "Content-Type" then Some "text/event-stream" else None)
        (Raise (JSONDecodeError "")) s).
Definition order_event (fields : mapping) (at_time : pyfloat) : res received_order :=
  Ok (ReceivedOrder ([("order_id", PStr "1")] ++ fields) None at_time (float_dec 0 0)).
Definition demo_run (fuel : nat) (clock : list pyfloat) (opens : list (res response)) (nexts : list (res received_order))
  : res (option unit) * list entry :=
  let '(r, w) := run script_handle (nats_checkout demo_shop (λ _, true) None fuel demo_slot true)
                   (Script clock [accepted_response] opens nexts []) in (r, sc_log w).

Definition at_second (s : Z) : pyfloat := float_dec s 0.

(** An order that completes and settles on one stream. *)
Example demo_settled :
  demo_run 5 [at_second 0] [stream_response 1]
    [order_event [("status", PStr "PENDING")] (at_second 1); order_event [("status", PStr "COMPLETED")] (at_second 2);
     order_event [("status", PStr "COMPLETED"); ("notification_status", PStr "SENT");
                  ("cart_clear_status", PStr "SUCCEEDED")] (at_second 3)] =
  (Ok (Some tt),
   [LogAccepted; LogFired "checkout_acceptance" (PStr "ACCEPTED") None; LogOpened 1; LogAsked 1; LogAsked 1;
    LogEnded "COMPLETED"; LogFired "checkout_to_outcome" (PStr "COMPLETED") None; LogAsked 1; LogClosed 1;
    LogFired "checkout_to_settled" (PStr "COMPLETED") None]).
Proof. vm_compute. reflexivity. Qed.

(** A stream whose deadline passes while it is opened is closed before it was
    asked for an order.  Closing a generator that never ran does not run its
    [finally], which is what releases the response. *)
Example late_stream_not_released :
  demo_run 5 [at_second 0; at_second 0; at_second 0; at_second 31] [stream_response 1] [] =
  (Ok (Some tt),
   [LogAccepted; LogFired "checkout_acceptance" (PStr "ACCEPTED") None; LogOpened 1; LogClosed 1;
    LogEnded "TIMEOUT"; LogFired "checkout_to_outcome" (PStr "TIMEOUT") (Some (BusinessFailure "TIMEOUT" ""));
    LogFired "checkout_to_settled" (PStr "TIMEOUT") (Some (BusinessFailure "TIMEOUT" ""))]).
Proof. vm_compute. reflexivity. Qed.

(** A checkout killed while it waits is fired without an error, and its order
    is never ended in the recorder. *)
Example killed_checkout_reported :
  demo_run 5 [at_second 0] [stream_response 1] [Raise GreenletExit] =
  (Raise GreenletExit,
   [LogAccepted; LogFired "checkout_acceptance" (PStr "ACCEPTED") None; LogOpened 1; LogAsked 1;
    LogFired "checkout_to_outcome" (PStr "UNKNOWN") None]).
Proof. vm_compute. reflexivity. Qed.

(** A server that answers 503 for ever, and a clock that moves by ten seconds
    with each reading. *)
Definition busy_handle (X : Type) (op : shopE X) (w : nat) : X * nat :=
  match op in shopE X return X * nat with
  | SMonotonic => (at_second (10 * Z.of_nat (min w 12)), S w)
  | STime | SStartedEpoch => (at_second 0, w)
  | SDrainDeadline => (at_second 100, w)
  | SSleep _ | SAcquireSlot => (Ok tt, w)
  | SUuid4 => ("id", w)
  | SYear => (2026%Z, w)
  | SRandint a _ => (a, w)
  | SChoice l => (default "" (head l), w)
  | SUniform a _ => (a, w)
  | SPhaseNow => ("steady", w)
  | SPost _ _ _ _ => (accepted_response, w)
  | SGet _ _ _ | SOpen _ _ _ => (Ok (Response 503 (λ _, None) (Raise (JSONDecodeError "")) 0), w)
  | SNext _ _ => (Raise StopIteration, w)
  | SReleaseResponse _ | SClose _ => (tt, w)
  | SMeasured _ _ _ | SFire _ _ _ _ _ => (tt, w)
  | SAccepted _ _ | STerminal _ _ _ => (tt, w)
  | SSuccess | SReleaseSlot | SFailure _ => (tt, w)
  | SSpawnTracker _ _ _ _ _ _ => (tt, w)
  end.

Definition busy_rel (w : nat) (t : clocked) : Prop := t.1 = w ∧ fleb t.2 (at_second (10 * Z.of_nat (min w 12))) = true.

Lemma busy_clock w :
  let now k := at_second (10 * Z.of_nat (min k 12)) in
  fleb (now w) (now (S w)) = true ∧ (12 ≤ w → fleb (at_second 100) (now w) = true) ∧
  f_is_nan (fadd (now w) (settlement_timeout_seconds demo_shop)) = false.
Proof.
  cbn zeta. destruct (decide (12 ≤ w)) as [H|H].
  - rewrite !Nat.min_r by lia. split_and!; [| intros _ |]; vm_compute; reflexivity.
  - do 12 (destruct w as [|w]; [split_and!; [vm_compute; reflexivity|lia|vm_compute; reflexivity]|]). lia.
Qed.

Lemma busy_fair X (op : shopE X) w t :
  busy_rel w t → fair_call X op t →
  fair_answer demo_shop (at_second 100) 12 X op t (busy_handle X op w).1 ∧
  busy_rel (busy_handle X op w).2 (record_clock X op (busy_handle X op w).1 t).
Proof.
  intros [Hw Hle] _. destruct t as [k l]. cbn in Hw, Hle. subst k. unfold busy_rel, fair_answer.
  destruct (busy_clock w) as (Hstep & Hend & Hnan).
  destruct op; cbn [fair busy_handle record_clock fst snd]; try (by split); try (by repeat split).
Qed.

Lemma checkout_ends_witness :
  (run busy_handle (nats_checkout demo_shop (λ _, true) None 13 demo_slot true) 0).1 = Ok (Some tt).
Proof.
  destruct (wp_run _ _ _ busy_handle busy_rel _ _ 0 (0, at_second 0) busy_fair
    (checkout_ends demo_shop (at_second 100) 12 (λ _, true) None 13 demo_slot true (at_second 0) (le_n 13))) as (t & H & _).
  { split; [done|]. vm_compute. reflexivity. }
  exact H.
Defined.

(** ** A concrete run of two workers

    Each worker runs two checkouts that alternate, operation by operation,
    over the streams of the example above. *)
Definition demo_worker (sched : list nat) (nexts : list (res received_order)) : list order_call :=
  ww_calls (run_schedule (worker_handle script_handle (λ w, hd (float_dec 0 0) (sc_clock w)) (λ w, hd (float_dec 0 0) (sc_clock w)))
    sched (WorkerWorld (Script [at_second 0] [accepted_response] [stream_response 1] nexts []) [],
      replicate 2 (nats_checkout demo_shop (λ _, true) None 5 demo_slot true))).1.
Definition demo_workers : list (list order_call) :=
  [demo_worker (concat (replicate 60 [0; 1])) [order_event [("status", PStr "COMPLETED")] (at_second 1)];
   demo_worker (replicate 40 1 ++ replicate 60 0) [order_event [("status", PStr "REJECTED")] (at_second 1)]].

Example demo_workers_calls :
  map (map call_delta) demo_workers = [[1; 1; -1; -1]; [1; -1; 1; -1]]%Z.
Proof. vm_compute. reflexivity. Qed.

Lemma run_outstanding_exact_witness :
  ∃ merged out,
    merge_records (document_file <$> (recorded_log <$> demo_workers)) = Ok merged ∧
    rebase_outstanding 0 merged = Ok out ∧
    merged ≡ₚ concat (recorded_log <$> demo_workers) ∧ length out = length merged ∧
    ∀ i r, out !! i = Some r →
      py_item r "outstanding" = Ok (PInt (balance (take (Datatypes.S i) merged))) ∧
      (0 ≤ balance (take (Datatypes.S i) merged))%Z.
Proof.
  apply (run_outstanding_exact script_handle (λ w, hd (float_dec 0 0) (sc_clock w)) (λ w, hd (float_dec 0 0) (sc_clock w))
    demo_shop (λ _, true) demo_workers).
  repeat (apply Forall_cons; split); try apply Forall_nil_2.
  all: do 4 eexists; (split; [|split; [|reflexivity]]);
    [|erewrite <- surjective_pairing; apply run_schedule_steps].
  all: apply Forall_replicate; left; by do 4 eexists.
Defined.
