(* ===== verification/LoadDriver.v ===== *)
(** * The drivers of the load (benchmarkservice/locustfile.py)

    Three kinds of Locust user put load on the frontend: closed-loop users
    that repeat weighted tasks, an open-loop driver that starts a transaction
    at each instant of a fixed-rate schedule, and the saturation driver that
    climbs a ladder of rates.  The drivers start each transaction in a
    greenlet of its own and bound how many are active. *)

From S2P Require Import Prelude PyFloat PyValue PyText PyUrl BenchConfig Program Sse Runtime Saturation Reporting Storefront Settlement.

(** ** The operations of a driver *)

(** What a greenlet of a driver is started with. *)
Record transaction := Transaction {
  tx_index : Z;
  tx_scheduled_at : pyfloat;
  tx_delay_ms : pyfloat;
  tx_rung : option Z;
  tx_rate : option pyfloat;
}.

Definition tx_slot (t : transaction) : slot :=
  Slot (Some (tx_scheduled_at t)) (Some (tx_delay_ms t)) (tx_rung t) (tx_rate t).

(** The calls of the storefront, and those of gevent, Locust, the coordinator
    and the sampler.  [active] is the set of the greenlets a driver has
    started, which the completed ones leave while it is suspended:
    [DActive] is its size, [DSpawn] starts a greenlet, adds it and links its
    end.  [DAdapter] constructs an adapter with its generator of random
    numbers. *)
Inductive driverE : Type → Type :=
  | DShop (X : Type) (op : shopE X) : driverE X
  | DAdapter (seed : Z) : driverE unit
  | DSubmissionDeadline : driverE pyfloat
  | DActive : driverE nat
  | DSpawn (t : transaction) : driverE unit
  | DJoinActive (timeout : pyfloat) : driverE (res unit)
  | DKillActive : driverE unit
  | DStarted : driverE bool
  | DMarkStarted : driverE unit
  | DCoordinator : driverE (res unit)
  | DFinishRung (rung : Z) (r : rung_report) : driverE (res pyval)
  | DCloseCoordinator : driverE (res unit)
  | DSetRung (rung : Z) (rate : pyfloat) : driverE unit
  | DCompletedCount : driverE Z
  | DProcessed : driverE (res (option mapping))
  | DLatestPending : driverE (option pyfloat)
  | DElapsed : driverE pyfloat
  | DEarlyDrain : driverE unit
  | DExitCode : driverE unit
  | DHasRunner : driverE bool
  | DQuitLater : driverE unit
  | DJoinTrackers (timeout : pyfloat) : driverE (res unit)
  | DTrackers : driverE (list nat)
  | DKillTracker (g : nat) : driverE (res unit)
  | DStartClock : driverE unit
  | DSeedRandom (seed : Z) : driverE unit
  | DOpenRecorder : driverE (res unit)
  | DCloseRecorder : driverE (res unit)
  | DStartSampler : driverE (res unit)
  | DStopSampler : driverE (res unit).

(** A program of the storefront, run by a driver or by one of its users. *)
Fixpoint shop {A} (p : prog shopE A) : prog driverE A :=
  match p with
  | Ret a => Ret a
  | Throw e => Throw e
  | Vis op k => Vis (DShop _ op) (λ x, shop (k x))
  end.

Section drivers.
Context (c : config) (bracket_ok : string → bool).
Context (load_cookies : string → res (list (string * string))).

(** *** The adapter *)

(** The cookie an adapter starts with is the session it is given.
    [locustfile.py:277-286 StorefrontAdapter.__init__] *)
Definition new_adapter (seed : Z) (session_id : option string) : prog driverE (option string) :=
  _ ← perform (DAdapter seed);
  Ret session_id.

(** What both drivers do in the greenlet of a transaction; [fuel] bounds the
    turns of each wait.
    [locustfile.py:1443-1460 OpenLoopDriver._transaction] *)
Definition place_transaction (fuel : nat) (seed : Z) (s : slot) : prog driverE (option unit) :=
  id ← shop (perform SUuid4);
  cookie ← new_adapter seed (Some ("benchmark-" +:+ id));
  prepared ← shop (add_item c load_cookies fuel cookie);
  match (prepared : option string * option (option failure)).2 with
  | None => Ret None
  | Some (Some error) => _ ← shop (record_precondition_failure c s error); Ret (Some tt)
  | Some None => shop (adapter_checkout c bracket_ok prepared.1 fuel s true)
  end.

(** [locustfile.py:1437-1460 OpenLoopDriver._transaction] *)
Definition open_transaction (fuel : nat) (t : transaction) : prog driverE (option unit) :=
  place_transaction fuel (seed c + tx_index t + 1)%Z (tx_slot t).

(** The seed of a transaction of a ladder; warm-up transactions have no rung.
    [locustfile.py:1661-1663 SaturationDriver._transaction] *)
Definition ladder_seed (rung : option Z) (ordinal : Z) : Z :=
  (seed c + default 0 rung * 1000003 + ordinal + 1)%Z.

(** [locustfile.py:1653-1682 SaturationDriver._transaction] *)
Definition ladder_transaction (fuel : nat) (t : transaction) : prog driverE (option unit) :=
  place_transaction fuel (ladder_seed (tx_rung t) (tx_index t)) (tx_slot t).

(** *** Dispatching *)

(** How late the driver is.
    [locustfile.py:1409-1411 OpenLoopDriver.schedule] *)
Definition schedule_delay_ms (scheduled_monotonic : pyfloat) : prog driverE pyfloat :=
  now ← shop (perform SMonotonic);
  Ret (f_max (float_dec 0 0) (fmul (fsub now scheduled_monotonic) (float_dec 1000 0))).

(** [locustfile.py:1405-1407 OpenLoopDriver.schedule] *)
Definition sleep_until (instant : pyfloat) : prog driverE unit :=
  now ← shop (perform SMonotonic);
  let delay := fsub instant now in
  if fltb (float_dec 0 0) delay then shop (call (SSleep delay)) else Ret tt.

(** A transaction is started unless too many are active; then it is recorded
    as refused by the generator.
    [locustfile.py:1412-1430 OpenLoopDriver.schedule] *)
Definition dispatch (limit : Z) (transaction_seed : Z) (t : transaction) : prog driverE unit :=
  active ← perform DActive;
  if (limit <=? Z.of_nat active)%Z then
    _ ← new_adapter transaction_seed None;
    shop (record_generator_saturation c (tx_slot t))
  else perform (DSpawn t).

(** The transactions in flight that a rate may need, within bounds.
    [locustfile.py:1377-1389 OpenLoopDriver] *)
Definition concurrency_limit (rate : pyfloat) : res Z :=
  n ← f_ceil (fmul rate (f_max (outcome_timeout_seconds c) (settlement_timeout_seconds c)));
  Ok (Z.max 20 (Z.min 5000 n)).

(** *** The open-loop driver *)

(** The instants of the schedule, in seconds from its start.
    [locustfile.py:1397 OpenLoopDriver.schedule] *)
Definition scheduled_elapsed (interval : pyfloat) (index : nat) : pyfloat :=
  fmul (float_dec (Z.of_nat index) 0) interval.

(** The end of a driver: the transactions still active at the drain deadline
    are killed.
    [locustfile.py:1432-1434 OpenLoopDriver.schedule] *)
Definition drain_active : prog driverE unit :=
  deadline ← shop (perform SDrainDeadline);
  now ← shop (perform SMonotonic);
  _ ← call (DJoinActive (f_max (float_dec 0 0) (fsub deadline now)));
  perform DKillActive.

(** One turn of the loop of the schedule.
    [locustfile.py:1397-1431 OpenLoopDriver.schedule] *)
Definition open_turn (limit : Z) (interval : pyfloat) (index : nat) : prog driverE unit :=
  let elapsed := scheduled_elapsed interval index in
  deadline ← perform DSubmissionDeadline;
  let scheduled_monotonic := fadd (fsub deadline (seconds (submission_seconds c))) elapsed in
  _ ← sleep_until scheduled_monotonic;
  started ← shop (perform SStartedEpoch);
  let scheduled_at := fadd started elapsed in
  delay_ms ← schedule_delay_ms scheduled_monotonic;
  dispatch limit (seed c + Z.of_nat index + 1)%Z
    (Transaction (Z.of_nat index) scheduled_at delay_ms None None).

(** The schedule never returns normally: it ends by [StopUser].  A normal
    return stands for the end of the fuel.
    [locustfile.py:1395-1435 OpenLoopDriver.schedule] *)
Fixpoint open_loop (fuel : nat) (limit : Z) (interval : pyfloat) (index : nat) : prog driverE unit :=
  match fuel with
  | O => Ret tt
  | Datatypes.S fuel =>
      if fleb (seconds (submission_seconds c)) (scheduled_elapsed interval index) then
        _ ← drain_active; Throw StopUser
      else _ ← open_turn limit interval index; open_loop fuel limit interval (Datatypes.S index)
  end.

(** [locustfile.py:1391-1395 OpenLoopDriver.schedule] *)
Definition open_schedule (fuel : nat) (limit : Z) : prog driverE unit :=
  interval ← lift (f_truediv (float_dec 1 0) (arrival_rate c));
  open_loop fuel limit interval 0.

(** *** The saturation driver *)

(** [range(a, b, step)] for a positive step.
    [locustfile.py:1613-1615 SaturationDriver._schedule_window] *)
Definition py_range (a b step : Z) : list Z :=
  (λ k, a + step * k)%Z <$> seqZ 0 (Z.max 0 ((b - a + step - 1) / step)).

(** How many transactions a window has, over all workers.
    [locustfile.py:1610-1612 SaturationDriver._schedule_window] *)
Definition scheduled_count (target_rate duration : pyfloat) : res Z :=
  n ← f_ceil (fsub (fmul target_rate duration) (float_dec 1 (-9)));
  Ok (Z.max 0 n).

(** [locustfile.py:1613-1646 SaturationDriver._schedule_window] *)
Definition window_turn (limit : Z) (started started_epoch target_rate : pyfloat) (rung : option Z) (ordinal : Z)
  : prog driverE unit :=
  offset ← lift (f_truediv (float_dec ordinal 0) target_rate);
  let scheduled_monotonic := fadd started offset in
  _ ← sleep_until scheduled_monotonic;
  delay_ms ← schedule_delay_ms scheduled_monotonic;
  dispatch limit (ladder_seed rung ordinal)
    (Transaction ordinal (fadd started_epoch offset) delay_ms rung (Some target_rate)).

Fixpoint window_loop (turn : Z → prog driverE unit) (ordinals : list Z) : prog driverE unit :=
  match ordinals with
  | [] => Ret tt
  | ordinal :: ordinals => _ ← turn ordinal; window_loop turn ordinals
  end.

(** A worker starts every [worker_count]-th transaction of a window.
    [locustfile.py:1599-1651 SaturationDriver._schedule_window] *)
Definition schedule_window (limit worker_index worker_count : Z) (duration target_rate : pyfloat) (rung : option Z)
  : prog driverE unit :=
  started ← shop (perform SMonotonic);
  started_epoch ← shop (perform STime);
  count ← lift (scheduled_count target_rate duration);
  _ ← window_loop (window_turn limit started started_epoch target_rate rung)
        (py_range worker_index count worker_count);
  sleep_until (fadd started duration).

(** [locustfile.py:1525-1529 SaturationDriver.schedule] *)
Definition rung_rate (rung : nat) : pyfloat :=
  f_min (saturation_max_rate c)
    (fadd (saturation_start_rate c) (fmul (float_dec (Z.of_nat rung) 0) SATURATION_STEP_RATE)).

(** A rung: the decision of the workers on it, and the time left.
    [locustfile.py:1521-1569 SaturationDriver.schedule] *)
Definition climb (limit worker_index worker_count : Z) (rung : nat) (remaining : pyfloat)
  : prog driverE (pyval * pyfloat) :=
  let duration := f_min (seconds (saturation_step_seconds c)) remaining in
  let target_rate := rung_rate rung in
  _ ← perform (DSetRung (Z.of_nat rung) target_rate);
  completed_before ← perform DCompletedCount;
  processed_before ← call DProcessed;
  pending_start ← perform DLatestPending;
  started_elapsed ← perform DElapsed;
  _ ← schedule_window limit worker_index worker_count duration target_rate (Some (Z.of_nat rung));
  processed_after ← call DProcessed;
  ended_elapsed ← perform DElapsed;
  let remaining := fsub remaining duration in
  completed_after ← perform DCompletedCount;
  pending_end ← perform DLatestPending;
  decision ← call (DFinishRung (Z.of_nat rung)
    (RungReport target_rate started_elapsed ended_elapsed completed_before completed_after
       processed_before processed_after pending_start pending_end
       (fleb remaining (float_dec 0 0)) (fleb (saturation_max_rate c) target_rate)));
  Ret (decision, remaining).

(** The ladder: it ends when the time is used up or the workers agreed to
    stop.  The answer is false when the fuel ends first.
    [locustfile.py:1518-1573 SaturationDriver.schedule] *)
Fixpoint ladder (fuel : nat) (limit worker_index worker_count : Z) (rung : nat) (remaining : pyfloat)
  : prog driverE bool :=
  if negb (fltb (float_dec 0 0) remaining) then Ret true
  else match fuel with
  | O => Ret false
  | Datatypes.S fuel =>
      r ← climb limit worker_index worker_count rung remaining;
      stop ← lift (py_get (r : pyval * pyfloat).1 "stop" PNone);
      if py_truth stop then _ ← perform DEarlyDrain; Ret true
      else ladder fuel limit worker_index worker_count (Datatypes.S rung) r.2
  end.

(** [locustfile.py:1510-1578 SaturationDriver.schedule] *)
Definition ladder_body (fuel : nat) (limit worker_index worker_count : Z) : prog driverE bool :=
  _ ← (if (warmup_seconds c =? 0)%Z then Ret tt
       else schedule_window limit worker_index worker_count (seconds (warmup_seconds c))
              (saturation_start_rate c) None);
  finished ← ladder fuel limit worker_index worker_count 0 (seconds (duration_seconds c));
  if (finished : bool) then _ ← drain_active; Ret true else Ret false.

(** [locustfile.py:1593-1596 SaturationDriver.schedule] *)
Definition quit_runner : prog driverE unit :=
  runner ← perform DHasRunner;
  if (runner : bool) then perform DQuitLater else Ret tt.

(** An exception is remembered in the exit code of the process and raised
    again.
    [locustfile.py:1579-1584 SaturationDriver.schedule] *)
Definition exit_code_on {A} (r : res A) : prog driverE unit :=
  match r with
  | Raise e => if is_exception e then perform DExitCode else Ret tt
  | Ok _ => Ret tt
  end.

(** The end of a ladder, whatever happened in it.
    [locustfile.py:1585-1597 SaturationDriver.schedule] *)
Definition leave_ladder {A} (created : bool) (r : res A) : prog driverE A :=
  _ ← exit_code_on r;
  _ ← perform DKillActive;
  closed ← prog_try (if created then call DCloseCoordinator else Ret tt);
  _ ← exit_code_on closed;
  _ ← quit_runner;
  _ ← lift closed;
  lift r.

(** Like the open schedule it ends by [StopUser], or by the exception that
    stopped it; a normal return stands for the end of the fuel.
    [locustfile.py:1490-1597 SaturationDriver.schedule] *)
Definition saturation_schedule (fuel : nat) (limit worker_index worker_count : Z) : prog driverE unit :=
  again ← perform DStarted;
  if (again : bool) then
    _ ← perform DExitCode; _ ← quit_runner; Throw StopUser
  else
    _ ← perform DMarkStarted;
    coordinator ← prog_try (call DCoordinator);
    r ← prog_try (_ ← lift coordinator; ladder_body fuel limit worker_index worker_count);
    finished ← leave_ladder (is_ok coordinator) r;
    if (finished : bool) then Throw StopUser else Ret tt.

(** *** Closed-loop users *)

Inductive task := Home | Currency | Product | AddToCart | Cart | Checkout.

(** [locustfile.py:1336-1361 ClosedLoopUser] *)
Definition task_weight (t : task) : nat :=
  match t with Home => 1 | Currency => 2 | Product => 10 | AddToCart => 2 | Cart => 3 | Checkout => 1 end.

(** [object_id] is the identity of the user object.
    [locustfile.py:1328-1331 ClosedLoopUser.on_start] *)
Definition on_start (object_id : Z) : prog driverE (option string) :=
  cookie ← new_adapter (seed c + object_id mod 1000003)%Z None;
  _ ← shop (home cookie);
  Ret cookie.

(** [locustfile.py:1333-1335 ClosedLoopUser.ensure_submission_window] *)
Definition ensure_submission_window : prog driverE unit :=
  now ← shop (perform SMonotonic);
  deadline ← perform DSubmissionDeadline;
  if fleb deadline now then Throw StopUser else Ret tt.

(** The answer is the adapter's cookie afterwards; [None] stands for the end
    of the fuel.
    [locustfile.py:1336-1369 ClosedLoopUser] *)
Definition run_task (fuel : nat) (t : task) (cookie : option string) : prog driverE (option (option string)) :=
  _ ← ensure_submission_window;
  match t with
  | Home => _ ← shop (home cookie); Ret (Some cookie)
  | Currency => _ ← shop (set_currency cookie); Ret (Some cookie)
  | Product => _ ← shop (browse_product cookie); Ret (Some cookie)
  | Cart => _ ← shop (view_cart cookie); Ret (Some cookie)
  | AddToCart =>
      added ← shop (add_item c load_cookies fuel cookie);
      match (added : option string * option (option failure)).2 with
      | None => Ret None
      | Some _ => Ret (Some added.1)
      end
  | Checkout =>
      prepared ← shop (add_item c load_cookies fuel cookie);
      match (prepared : option string * option (option failure)).2 with
      | None => Ret None
      | Some (Some error) =>
          _ ← shop (record_precondition_failure c (Slot None None None None) error);
          Ret (Some prepared.1)
      | Some None =>
          r ← shop (adapter_checkout c bracket_ok prepared.1 fuel (Slot None None None None) false);
          Ret (match (r : option unit) with Some _ => Some prepared.1 | None => None end)
      end
  end.

(** *** The test's listeners *)

(** [locustfile.py:239-244 on_test_start] *)
Definition on_test_start : prog driverE unit :=
  _ ← perform DStartClock;
  _ ← perform (DSeedRandom (seed c));
  _ ← call DOpenRecorder;
  call DStartSampler.

Fixpoint kill_trackers (trackers : list nat) : prog driverE unit :=
  match trackers with
  | [] => Ret tt
  | g :: trackers => _ ← call (DKillTracker g); kill_trackers trackers
  end.

(** [locustfile.py:267-273 on_test_stop] *)
Definition on_test_stop : prog driverE unit :=
  _ ← call (DJoinTrackers (float_dec 3 0));
  trackers ← perform DTrackers;
  _ ← kill_trackers trackers;
  _ ← call DStopSampler;
  call DCloseRecorder.
End drivers.
