(* ===== verification/LoadSchedules.v ===== *)
(** * What the drivers start

    Theorems about the drivers of LoadDriver.v, against any clock, server,
    coordinator and interruption ([wp]): what they dispatch, how many
    transactions are active, and how a ladder ends. *)

From S2P Require Import Prelude PyFloat PyValue PyText PyUrl BenchConfig Program Sse Runtime Saturation Reporting Storefront Settlement LoadDriver.

(** ** Traces *)

Inductive event :=
  | EvAdapter (seed : Z)
  | EvMeasured (outcome scheduled_at : pyval)
  | EvSpawn (t : transaction)
  | EvKill
  | EvStarted (again : bool)
  | EvCoordinator
  | EvClose
  | EvRung (rung : Z) (rate : pyfloat)
  | EvDrain
  | EvExit
  | EvRunner (present : bool)
  | EvQuit.

(** The transactions that may be active, and what was done. *)
Record trace := Trace {
  tr_active : nat;
  tr_log : list event;
}.

Definition shop_events {X} (op : shopE X) : list event :=
  match op with
  | SMeasured _ context _ => [EvMeasured (field context "outcome") (field context "scheduled_at")]
  | _ => []
  end.
Definition events_of {X} (op : driverE X) : X → list event :=
  match op in driverE X return X → list event with
  | DShop _ op => λ _, shop_events op
  | DAdapter s => λ _, [EvAdapter s]
  | DSpawn t => λ _, [EvSpawn t]
  | DKillActive => λ _, [EvKill]
  | DStarted => λ again, [EvStarted again]
  | DCoordinator => λ r, if is_ok r then [EvCoordinator] else []
  | DCloseCoordinator => λ _, [EvClose]
  | DSetRung rung rate => λ _, [EvRung rung rate]
  | DEarlyDrain => λ _, [EvDrain]
  | DExitCode => λ _, [EvExit]
  | DHasRunner => λ b, [EvRunner b]
  | DQuitLater => λ _, [EvQuit]
  | _ => λ _, []
  end.
Definition active_after {X} (op : driverE X) (n : nat) : X → nat :=
  match op in driverE X return X → nat with
  | DActive => λ x, x
  | DSpawn _ => λ _, Datatypes.S n
  | _ => λ _, n
  end.
Definition record_event (X : Type) (op : driverE X) (x : X) (t : trace) : trace :=
  Trace (active_after op (tr_active t) x) (tr_log t ++ events_of op x).

Definition not_stop {A} (r : res A) : Prop := r ≠ Raise StopUser.

(** A greenlet is started only while fewer than [limit] are active. *)
Definition drive_ok (limit : Z) (X : Type) (op : driverE X) (t : trace) : Prop :=
  match op with DSpawn _ => (Z.of_nat (tr_active t) < limit)%Z | _ => True end.

(** Transactions end on their own: the size of the set is at most what it was
    when it was last read, plus those started since.  The start of the test
    does not change, and what the drivers call does not raise [StopUser], which
    is Locust's. *)
Definition drive_may (epoch : pyfloat) (X : Type) (op : driverE X) (t : trace) : X → Prop :=
  match op in driverE X return X → Prop with
  | DShop _ op =>
      match op in shopE X return X → Prop with
      | SStartedEpoch => λ x, x = epoch
      | SSleep _ => not_stop
      | _ => λ _, True
      end
  | DActive => λ x, x ≤ tr_active t
  | DJoinActive _ => not_stop
  | DCoordinator | DCloseCoordinator => not_stop
  | DFinishRung _ _ => not_stop
  | DProcessed => not_stop
  | _ => λ _, True
  end.

Abbreviation drives limit epoch := (wp (drive_ok limit) (drive_may epoch) record_event).

Section shops.
Context (limit : Z) (epoch : pyfloat).

Lemma wp_shop_bind {A B} (f : A → prog shopE B) (Q : res B → trace → Prop) p t :
  drives limit epoch (shop p) (λ r t', match r with Ok a => drives limit epoch (shop (f a)) Q t' | Raise e => Q (Raise e) t' end) t →
  drives limit epoch (shop (p ≫= f)) Q t.
Proof using.
  revert t. induction p as [a|e|X op k IH]; intros t Hp; [exact Hp|exact Hp|].
  split; [apply Hp|]. intros x Hx. by apply IH, Hp.
Qed.

Lemma wp_shop_perform {X} (op : shopE X) (Q : res X → trace → Prop) t :
  (∀ x, drive_may epoch X (DShop X op) t x → Q (Ok x) (record_event X (DShop X op) x t)) → drives limit epoch (shop (perform op)) Q t.
Proof using. done. Qed.

Lemma wp_shop_call {A} (op : shopE (res A)) (Q : res A → trace → Prop) t :
  (∀ m, drive_may epoch _ (DShop _ op) t m → Q m (record_event _ (DShop _ op) m t)) → drives limit epoch (shop (call op)) Q t.
Proof using. intros H. split; [done|]. intros m Hm. specialize (H m Hm). by destruct m. Qed.

End shops.

Lemma record_quiet {X} (op : driverE X) x t :
  events_of op x = [] → active_after op (tr_active t) x = tr_active t → record_event X op x t = t.
Proof. intros He Ha. unfold record_event. rewrite He, Ha, app_nil_r. by destruct t. Qed.

(** One step of a driver; [quiet] closes what a silent call leaves. *)
Ltac drive_step :=
  lazymatch goal with
  | |- wp _ _ _ (shop (_ ≫= _)) _ _ => apply wp_shop_bind
  | |- wp _ _ _ (shop (perform _)) _ _ => apply wp_shop_perform; intros ?x ?Hx
  | |- wp _ _ _ (shop (call _)) _ _ => apply wp_shop_call; intros ?m ?Hm
  | |- wp _ _ _ (shop (Ret _)) _ _ => cbn [shop wp]
  | |- wp _ _ _ (shop (match ?x with _ => _ end)) _ _ => destruct x eqn:?
  | |- _ => wp_step
  end; try rewrite record_quiet by done; cbv beta iota.

Section dispatching.
Context (limit : Z) (epoch : pyfloat) (c : config).

(** ** Dispatching *)

(** The greenlet of a transaction, or the record that the generator was
    saturated. *)
Definition turn_of (transaction_seed index : Z) (at_time : pyfloat) (rung : option Z) (rate : option pyfloat)
    (turn : list event) : Prop :=
  (∃ delay, turn = [EvSpawn (Transaction index at_time delay rung rate)]) ∨
  turn = [EvAdapter transaction_seed; EvMeasured (PStr "GENERATOR_SATURATED") (PFloat at_time)].

(** The log of [t'] extends that of [t] by [entries]. *)
Definition extends (t t' : trace) (entries : list event) : Prop := tr_log t' = tr_log t ++ entries.

Lemma extends_nil t : extends t t [].
Proof using. unfold extends. by rewrite app_nil_r. Qed.
Lemma extends_app t t1 t2 l1 l2 : extends t t1 l1 → extends t1 t2 l2 → extends t t2 (l1 ++ l2).
Proof using. unfold extends. intros H1 H2. by rewrite H2, H1, app_assoc. Qed.

Lemma refused_drives s t :
  drives limit epoch (shop (record_generator_saturation c s))
    (λ r t', r = Ok tt ∧ extends t t' [EvMeasured (PStr "GENERATOR_SATURATED") (opt_float (sl_scheduled_at s))]) t.
Proof using.
  unfold record_generator_saturation, base_context. repeat drive_step.
  all: match goal with x : () |- _ => destruct x end; (split; [done|]); unfold extends; by destruct (String.eqb (workload c) "saturation").
Qed.

Lemma dispatch_drives s t0 t :
  drives limit epoch (dispatch c limit s t0)
    (λ r t', r = Ok tt ∧ ∃ turn, extends t t' turn ∧
       turn_of s (tx_index t0) (tx_scheduled_at t0) (tx_rung t0) (tx_rate t0) turn) t.
Proof using.
  unfold dispatch. apply wp_bind, wp_perform; [done|]. intros n Hn. cbn in Hn. cbv beta iota.
  destruct (Z.leb_spec limit (Z.of_nat n)) as [Hfull|Hfree].
  - unfold new_adapter. do 3 drive_step; [done|]. drive_step. eapply wp_conseq; [apply refused_drives|].
    intros r t' [-> Ht]. split; [done|]. eexists. split; [|by right].
    eapply (extends_app _ (record_event _ DActive n t) _ []); [|eapply (extends_app _ _ _ [_]); [|exact Ht]]; done.
  - split; [exact Hfree|]. intros [] _. split; [done|]. exists [EvSpawn t0]. split; [|left].
    + unfold extends, record_event. cbn. by rewrite app_nil_r.
    + destruct t0. by eexists.
Qed.

Lemma sleep_until_drives x t : drives limit epoch (sleep_until x) (λ r t', not_stop r ∧ t' = t) t.
Proof using. unfold sleep_until. repeat drive_step; (split; [|done]); [exact Hm|done]. Qed.

Lemma drain_active_drives t :
  drives limit epoch drain_active (λ r t', match r with Ok _ => extends t t' [EvKill] | Raise e => e ≠ StopUser ∧ t' = t end) t.
Proof using.
  unfold drain_active. repeat drive_step; [exact I|]. destruct m as [[]|e].
  - drive_step; [exact I|done].
  - split; [|done]. intros ->. by apply Hm.
Qed.

(** ** The open-loop schedule *)

(** What the schedule does for its [index]-th instant. *)
Definition open_turn_of (interval : pyfloat) (index : nat) : list event → Prop :=
  turn_of (seed c + Z.of_nat index + 1)%Z (Z.of_nat index) (fadd epoch (scheduled_elapsed interval index)) None None.

Lemma open_turn_drives interval index t :
  drives limit epoch (open_turn c limit interval index)
    (λ r t', match r with
             | Ok _ => ∃ turn, extends t t' turn ∧ open_turn_of interval index turn
             | Raise e => e ≠ StopUser ∧ t' = t
             end) t.
Proof using.
  unfold open_turn, schedule_delay_ms. drive_step. drive_step; [exact I|]. drive_step.
  eapply wp_conseq; [apply sleep_until_drives|]. intros [[]|e] t' [He ->]; cbv beta iota.
  - do 3 drive_step. rename x0 into started, Hx0 into Hstarted. cbn in Hstarted. subst started.
    do 2 drive_step. cbn [wp]. eapply wp_conseq; [apply dispatch_drives|]. by intros r t' [-> Ht].
  - split; [|done]. intros ->. by apply He.
Qed.

(** The turns of the instants from [first] on. *)
Definition open_turns (interval : pyfloat) (first : nat) (turns : list (list event)) : Prop :=
  ∀ i turn, turns !! i = Some turn → open_turn_of interval (first + i) turn.

Lemma open_turns_cons interval first turn turns :
  open_turn_of interval first turn → open_turns interval (Datatypes.S first) turns →
  open_turns interval first (turn :: turns).
Proof using.
  intros Hturn Hturns [|i] turn'; simpl.
  - intros [= <-]. by rewrite Nat.add_0_r.
  - intros Hi. rewrite Nat.add_succ_r. by apply (Hturns i).
Qed.

(** [n] is the number of the schedule's instants. *)
Definition instants (interval : pyfloat) (n : nat) : Prop :=
  (∀ k, k < n → fleb (seconds (submission_seconds c)) (scheduled_elapsed interval k) = false) ∧
  fleb (seconds (submission_seconds c)) (scheduled_elapsed interval n) = true.

Lemma open_loop_drives interval n fuel index t :
  instants interval n → index ≤ n → n < index + fuel →
  drives limit epoch (open_loop c fuel limit interval index)
    (λ r t', ∃ turns e, r = Raise e ∧ open_turns interval index turns ∧
       if bool_decide (e = StopUser) then index + length turns = n ∧ extends t t' (concat turns ++ [EvKill])
       else index + length turns ≤ n ∧ extends t t' (concat turns)) t.
Proof using.
  intros [Hbefore Hend]. revert index t. induction fuel as [|fuel IH]; intros index t Hle Hfuel; [lia|].
  cbn [open_loop]. destruct (decide (index = n)) as [->|Hne].
  - rewrite Hend. apply wp_bind. eapply wp_conseq; [apply drain_active_drives|]. intros [[]|e] t' Ht.
    + exists [], StopUser. split_and!; [done|by intros []|]. by rewrite bool_decide_eq_true_2, Nat.add_0_r.
    + destruct Ht as [He ->]. exists [], e. split_and!; [done|by intros []|].
      rewrite bool_decide_eq_false_2, Nat.add_0_r by done. split; [done|apply extends_nil].
  - rewrite Hbefore by lia. apply wp_bind. eapply wp_conseq; [apply open_turn_drives|]. intros [[]|e] t' Ht.
    + destruct Ht as (turn & Ht & Hturn). eapply wp_conseq; [apply IH; lia|].
      intros r t2 (turns & e & -> & Hturns & Hlog). exists (turn :: turns), e.
      split_and!; [done|by apply open_turns_cons|]. simpl.
      case_bool_decide; destruct Hlog as [Hlen Hlog]; (split; [lia|]); rewrite <- ?app_assoc; by eapply extends_app.
    + destruct Ht as [He ->]. exists [], e. split_and!; [done|by intros []|].
      rewrite bool_decide_eq_false_2, Nat.add_0_r by done. split; [lia|apply extends_nil].
Qed.

(** ** The windows of a ladder *)

(** What a window that started at [start] does for an ordinal. *)
Definition window_turn_of (target_rate : pyfloat) (rung : option Z) (start : pyfloat) (ordinal : Z) : list event → Prop :=
  turn_of (ladder_seed c rung ordinal) ordinal (fadd start (fdiv (float_dec ordinal 0) target_rate)) rung (Some target_rate).

(** A window that was not interrupted, and one that may have been. *)
Definition whole_window (target_rate : pyfloat) (rung : option Z) (ordinals : list Z) (entries : list event) : Prop :=
  ∃ start turns, Forall2 (window_turn_of target_rate rung start) ordinals turns ∧ entries = concat turns.
Definition part_window (target_rate : pyfloat) (rung : option Z) (ordinals : list Z) (entries : list event) : Prop :=
  ∃ n, whole_window target_rate rung (take n ordinals) entries.

Lemma window_turn_drives started start target_rate rung ordinal t :
  drives limit epoch (window_turn c limit started start target_rate rung ordinal)
    (λ r t', match r with
             | Ok _ => ∃ turn, extends t t' turn ∧ window_turn_of target_rate rung start ordinal turn
             | Raise e => e ≠ StopUser ∧ t' = t
             end) t.
Proof using.
  unfold window_turn, f_truediv, schedule_delay_ms. drive_step. drive_step.
  destruct (f_is_zero target_rate); [done|]. drive_step.
  eapply wp_conseq; [apply sleep_until_drives|]. intros [[]|e] t' [He ->]; cbv beta iota.
  - do 3 drive_step. cbn [wp]. eapply wp_conseq; [apply dispatch_drives|]. by intros r t' [-> Ht].
  - split; [|done]. intros ->. by apply He.
Qed.

Lemma window_loop_drives started start target_rate rung ordinals t :
  drives limit epoch (window_loop (window_turn c limit started start target_rate rung) ordinals)
    (λ r t', ∃ turns entries, extends t t' entries ∧ entries = concat turns ∧
       match r with
       | Ok _ => Forall2 (window_turn_of target_rate rung start) ordinals turns
       | Raise e => e ≠ StopUser ∧ ∃ n, Forall2 (window_turn_of target_rate rung start) (take n ordinals) turns
       end) t.
Proof using.
  revert t. induction ordinals as [|ordinal ordinals IH]; intros t.
  - exists [], []. split_and!; [apply extends_nil|done|constructor].
  - cbn [window_loop]. apply wp_bind. eapply wp_conseq; [apply window_turn_drives|]. intros [[]|e] t1 Ht.
    + destruct Ht as (turn & Ht & Hturn). eapply wp_conseq; [apply IH|].
      intros r t2 (turns & entries & Hlog & -> & Hr). exists (turn :: turns), (turn ++ concat turns).
      split_and!; [by eapply extends_app|done|]. destruct r as [|e]; [by constructor|].
      destruct Hr as (He & n & Hn). split; [done|]. exists (Datatypes.S n). by constructor.
    + destruct Ht as [He ->]. exists [], []. split_and!; [apply extends_nil|done|done|by exists 0].
Qed.

(** The ordinals of a worker in a window. *)
Definition window_ordinals (worker_index worker_count : Z) (duration target_rate : pyfloat) : list Z :=
  match scheduled_count target_rate duration with
  | Ok count => py_range worker_index count worker_count
  | Raise _ => []
  end.

Lemma f_to_int_not_stop round x : not_stop (f_to_int round x).
Proof using. unfold f_to_int. by repeat case_match. Qed.

Lemma schedule_window_drives worker_index worker_count duration target_rate rung t :
  drives limit epoch (schedule_window c limit worker_index worker_count duration target_rate rung)
    (λ r t', ∃ entries, extends t t' entries ∧
       match r with
       | Ok _ => whole_window target_rate rung (window_ordinals worker_index worker_count duration target_rate) entries
       | Raise e => e ≠ StopUser ∧
           part_window target_rate rung (window_ordinals worker_index worker_count duration target_rate) entries
       end) t.
Proof using.
  unfold schedule_window, window_ordinals. do 6 drive_step. rename x0 into start.
  destruct (scheduled_count target_rate duration) as [count|e] eqn:Hcount; cbv beta iota.
  - apply wp_bind. eapply wp_conseq; [apply window_loop_drives|].
    intros r t1 (turns & entries & Hlog & -> & Hr).
    destruct r as [[]|e].
    + eapply wp_conseq; [apply sleep_until_drives|]. intros [[]|e] t2 [He ->]; exists (concat turns); (split; [done|]).
      * by exists start, turns.
      * split; [intros ->; by apply He|]. exists (length (py_range worker_index count worker_count)), start, turns.
        by rewrite take_ge.
    + destruct Hr as (He & n & Hn). exists (concat turns). split_and!; [done..|]. by exists n, start, turns.
  - exists []. split; [apply extends_nil|]. split.
    + intros ->. unfold scheduled_count in Hcount. cbn in Hcount.
      destruct (f_ceil _) eqn:Hceil; [done|]. injection Hcount as ->. by apply f_to_int_not_stop in Hceil.
    + exists 0, start, []. by split; [constructor|].
Qed.
End dispatching.

(** C10: The open-loop schedule is exact.  Whatever the clocks, the server and
    the transactions do, the driver handles the instants 0, 1, 2, ... of its
    rate in order: at each it starts one transaction, or records one refusal,
    with the seed and the scheduled time of that instant, and it starts one only
    while fewer than [limit] are active.  With fuel for its instants it never
    runs out: it ends by [StopUser] after all of them, having killed what was
    still active at the drain deadline, or by an interruption, after a prefix. *)
Theorem open_schedule_exact limit epoch c interval n fuel :
  f_truediv (float_dec 1 0) (arrival_rate c) = Ok interval → instants c interval n → n < fuel →
  drives limit epoch (open_schedule c fuel limit)
    (λ r t, ∃ turns e, r = Raise e ∧ open_turns epoch c interval 0 turns ∧
       if bool_decide (e = StopUser) then length turns = n ∧ tr_log t = concat turns ++ [EvKill]
       else length turns ≤ n ∧ tr_log t = concat turns) (Trace 0 []).
Proof.
  intros Hinterval Hn Hfuel. unfold open_schedule. rewrite Hinterval.
  eapply wp_conseq; [by apply open_loop_drives; [done|lia|simpl]|].
  intros r t (turns & e & -> & Hturns & Hlog). by exists turns, e.
Qed.
