(* ===== verification/LoadLadder.v ===== *)
(** * Windows and ladders

    The workers of a run share the transactions of a window; the saturation
    driver climbs its rungs and leaves the ladder.  Continues LoadSchedules.v. *)

From S2P Require Import Prelude PyFloat IntFloat PyValue PyText PyUrl BenchConfig Program Sse Runtime Saturation Reporting Storefront Settlement LoadDriver LoadSchedules.

(** ** The shares of a window *)

Lemma elem_of_py_range x a b step :
  (0 < step)%Z → x ∈ py_range a b step ↔ (a ≤ x < b ∧ (x - a) mod step = 0)%Z.
Proof.
  intros Hstep. unfold py_range. rewrite list_elem_of_fmap. setoid_rewrite elem_of_seqZ. split.
  - intros (k & -> & Hk). assert (k < (b - a + step - 1) / step)%Z as Hlt by lia.
    assert (step * ((b - a + step - 1) / step) ≤ b - a + step - 1)%Z by (apply Z.mul_div_le; lia).
    replace (a + step * k - a)%Z with (k * step)%Z by ring. rewrite Z_mod_mult. nia.
  - intros [Hx Hmod]. apply Z_div_exact_2 in Hmod; [|lia]. exists ((x - a) / step)%Z. split; [lia|].
    assert (0 ≤ (x - a) / step)%Z by (apply Z.div_pos; lia).
    assert ((x - a) / step < (b - a + step - 1) / step)%Z; [|lia].
    assert (1 + (x - a) / step ≤ (b - a + step - 1) / step)%Z; [|lia].
    rewrite <- Z_div_plus_full_l by lia. apply Z.div_le_mono; lia.
Qed.

Lemma NoDup_py_range a b step : (0 < step)%Z → NoDup (py_range a b step).
Proof.
  intros Hstep. unfold py_range. apply NoDup_fmap_2_strong; [|apply NoDup_seqZ]. intros x y _ _. nia.
Qed.

(** Every ordinal belongs to exactly one worker. *)
Lemma py_range_partition count step :
  (0 < step)%Z → (0 ≤ count)%Z → (seqZ 0 step ≫= λ i, py_range i count step) ≡ₚ seqZ 0 count.
Proof.
  intros Hstep Hcount. apply NoDup_Permutation.
  - apply NoDup_bind; [|intros; by apply NoDup_py_range|apply NoDup_seqZ].
    intros i j x [Hi0 Hi]%elem_of_seqZ [Hj0 Hj]%elem_of_seqZ.
    rewrite !elem_of_py_range by done. intros [Hx Hxi] [Hy Hxj]. cbn beta in *.
    apply Z.mod_divide in Hxi as [p Hp], Hxj as [q Hq]; [|lia..]. assert (p = q) by nia. nia.
  - apply NoDup_seqZ.
  - intros x. rewrite list_elem_of_bind. setoid_rewrite elem_of_seqZ. split.
    + intros (i & Hx & Hi). apply elem_of_py_range in Hx as [Hx _]; lia.
    + intros Hx. exists (x mod step)%Z. pose proof (Z.mod_pos_bound x step Hstep). split; [|lia].
      apply elem_of_py_range; [done|]. pose proof (Z.mod_le x step).
      split; [lia|]. rewrite Zminus_mod_idemp_r. by rewrite Z.sub_diag, Z.mod_0_l by lia.
Qed.

Lemma bind_indexed {A B C} (f : A → list C) (g : Z → list B) (F : B → C) l n :
  (∀ i x, l !! i = Some x → f x = F <$> g (Z.of_nat (n + i))) →
  l ≫= f = F <$> ((Z.of_nat <$> seq n (length l)) ≫= g).
Proof.
  revert n. induction l as [|x l IH]; intros n Hl; [done|]. cbn [length seq fmap list_fmap mbind list_bind].
  rewrite fmap_app, (Hl 0 x eq_refl), Nat.add_0_r. f_equal. apply IH.
  intros i y Hy. rewrite Nat.add_succ_l, <- Nat.add_succ_r. by apply Hl.
Qed.

Section shares.
Context (c : config).

(** The seed of the transaction that an event starts or refuses. *)
Definition dispatched (e : event) : option Z :=
  match e with
  | EvSpawn t => Some (ladder_seed c (tx_rung t) (tx_index t))
  | EvAdapter s => Some s
  | _ => None
  end.

Lemma turns_dispatched rate rung start ordinals turns :
  Forall2 (window_turn_of c rate rung start) ordinals turns →
  omap dispatched (concat turns) = ladder_seed c rung <$> ordinals.
Proof using.
  induction 1 as [|ordinal turn ordinals turns Hturn _ IH]; [done|].
  cbn [concat fmap list_fmap]. rewrite omap_app, IH. by destruct Hturn as [[delay ->]| ->].
Qed.

Lemma whole_window_dispatched rate rung ordinals entries :
  whole_window c rate rung ordinals entries → omap dispatched entries = ladder_seed c rung <$> ordinals.
Proof using. intros (start & turns & Hturns & ->). by eapply turns_dispatched. Qed.
End shares.

(** A world in which a driver runs and whose trace can be observed. *)
Definition observed_world {S} (limit : Z) (epoch : pyfloat) (h : ∀ X, driverE X → S → X * S) (observe : S → trace) : Prop :=
  ∀ X (op : driverE X) s, drive_ok limit X op (observe s) →
    drive_may epoch X op (observe s) (h X op s).1 ∧
    observe (h X op s).2 = record_event X op (h X op s).1 (observe s).

(** C12: The workers of a run share a window exactly.  Each of the
    [worker_count] workers schedules the same window in its own world, whatever
    its clock, server and transactions do.  When their windows end, the
    transactions they started or refused are together those of the ordinals
    0, ..., count - 1 of the window, each exactly once. *)
Theorem window_partition {S} (h : ∀ X, driverE X → S → X * S) (observe : S → trace)
    limit epoch c worker_count duration rate rung count (workers : list (S * S)) :
  observed_world limit epoch h observe → (0 < worker_count)%Z → scheduled_count rate duration = Ok count →
  Z.of_nat (length workers) = worker_count →
  (∀ i s s', workers !! i = Some (s, s') → tr_log (observe s) = [] ∧
     run h (schedule_window c limit (Z.of_nat i) worker_count duration rate rung) s = (Ok tt, s')) →
  (workers ≫= λ w, omap (dispatched c) (tr_log (observe w.2))) ≡ₚ ladder_seed c rung <$> seqZ 0 count.
Proof.
  intros Hworld Hpos Hcount Hlen Hworkers.
  assert (∀ i s s', workers !! i = Some (s, s') →
    omap (dispatched c) (tr_log (observe s')) = ladder_seed c rung <$> py_range (Z.of_nat i) count worker_count) as Hlog.
  { intros i s s' Hi. destruct (Hworkers i s s' Hi) as [Hnil Hrun].
    destruct (wp_run _ _ _ h (λ s t, observe s = t) _ _ s (observe s) ltac:(intros X op s1 t <- ?; by apply Hworld)
      (schedule_window_drives limit epoch c (Z.of_nat i) worker_count duration rate rung (observe s)) eq_refl)
      as (t & (entries & Hext & Hwin) & Ht).
    rewrite Hrun in *. cbn in Hwin, Ht. subst t. unfold extends in Hext. rewrite Hext, Hnil.
    apply whole_window_dispatched in Hwin. cbn [app]. rewrite Hwin. unfold window_ordinals. by rewrite Hcount. }
  rewrite (bind_indexed _ (λ i, py_range i count worker_count) (ladder_seed c rung) workers 0) by
    (intros i [s s'] Hi; by apply (Hlog i s)).
  replace (Z.of_nat <$> seq 0 (length workers)) with (seqZ 0 worker_count)
    by (rewrite <- Hlen; unfold seqZ; rewrite Nat2Z.id; apply list_fmap_ext; intros; lia).
  apply fmap_Permutation, py_range_partition; [done|].
  unfold scheduled_count in Hcount. destruct (f_ceil _) as [n|]; [|done]. injection Hcount as <-. lia.
Qed.

(** ** The ladder *)

Section climbing.
Context (limit : Z) (epoch : pyfloat) (c : config) (worker_index worker_count : Z).

(** The rungs that fill the duration, and the seconds of each. *)
Definition ladder_rungs : nat :=
  Z.to_nat ((duration_seconds c + saturation_step_seconds c - 1) / saturation_step_seconds c).
Definition seconds_left (rung : nat) : Z := Z.max 0 (duration_seconds c - Z.of_nat rung * saturation_step_seconds c).
Definition rung_seconds (rung : nat) : Z := Z.min (saturation_step_seconds c) (seconds_left rung).

(** What a whole rung does: a window of transactions at the rate of the rung. *)
Definition rung_block (rung : nat) (block : list event) : Prop :=
  ∃ entries, block = EvRung (Z.of_nat rung) (rung_rate c rung) :: entries ∧
    whole_window c (rung_rate c rung) (Some (Z.of_nat rung))
      (window_ordinals worker_index worker_count (seconds (rung_seconds rung)) (rung_rate c rung)) entries.
Definition rung_blocks (first : nat) (blocks : list (list event)) : Prop :=
  ∀ i block, blocks !! i = Some block → rung_block (first + i) block.

(** Events of the ladder itself, as opposed to those of entering and leaving
    it. *)
Definition in_ladder (e : event) : Prop :=
  match e with EvAdapter _ | EvMeasured _ _ | EvSpawn _ | EvRung _ _ | EvDrain | EvKill => True | _ => False end.

Lemma turn_in_ladder s index at_time rung rate turn : turn_of s index at_time rung rate turn → Forall in_ladder turn.
Proof using. intros [[delay ->]| ->]; by repeat constructor. Qed.
Lemma window_in_ladder rate rung ordinals entries : whole_window c rate rung ordinals entries → Forall in_ladder entries.
Proof using.
  intros (start & turns & Hturns & ->). apply Forall_concat.
  induction Hturns as [|? ? ? ? Hturn _ IH]; constructor; [by eapply turn_in_ladder|done].
Qed.
Lemma rung_blocks_in_ladder first blocks : rung_blocks first blocks → Forall in_ladder (concat blocks).
Proof using.
  intros Hblocks. apply Forall_concat, Forall_lookup. intros i block Hi.
  destruct (Hblocks i block Hi) as (entries & -> & Hwin). constructor; [done|by eapply window_in_ladder].
Qed.

Lemma rung_blocks_cons first block blocks :
  rung_block first block → rung_blocks (Datatypes.S first) blocks → rung_blocks first (block :: blocks).
Proof using.
  intros Hblock Hblocks [|i] block'; simpl.
  - intros [= <-]. by rewrite Nat.add_0_r.
  - intros Hi. rewrite Nat.add_succ_r. by apply (Hblocks i).
Qed.

Context (Hstep : (1 ≤ saturation_step_seconds c < 2 ^ 53)%Z) (Hduration : (0 ≤ duration_seconds c < 2 ^ 53)%Z).

Lemma seconds_left_small rung : small (seconds_left rung).
Proof using Hstep Hduration. unfold small, seconds_left. nia. Qed.
Lemma rung_seconds_spec rung :
  f_min (seconds (saturation_step_seconds c)) (seconds (seconds_left rung)) = seconds (rung_seconds rung) ∧
  fsub (seconds (seconds_left rung)) (seconds (rung_seconds rung)) = seconds (seconds_left (Datatypes.S rung)).
Proof using Hstep Hduration.
  pose proof (seconds_left_small rung) as Hsmall. unfold seconds, rung_seconds. split.
  - apply f_min_int; [unfold small; lia|done].
  - rewrite fsub_int by (unfold small, seconds_left in *; lia). f_equal. unfold seconds_left. lia.
Qed.
Lemma ladder_continues rung : fltb (float_dec 0 0) (seconds (seconds_left rung)) = bool_decide (rung < ladder_rungs).
Proof using Hstep Hduration.
  unfold seconds. rewrite fltb_int by (done || apply seconds_left_small).
  unfold seconds_left, ladder_rungs. set (d := duration_seconds c). set (s := saturation_step_seconds c) in *.
  apply eq_bool_prop_intro. rewrite Is_true_true, Z.ltb_lt, bool_decide_spec.
  assert (s * ((d + s - 1) / s) ≤ d + s - 1 < s * ((d + s - 1) / s) + s)%Z as [H1 H2].
  { split; [apply Z.mul_div_le; lia|]. pose proof (Z.mod_pos_bound (d + s - 1) s). pose proof (Z.div_mod (d + s - 1) s). lia. }
  assert (0 ≤ (d + s - 1) / s)%Z by (apply Z.div_pos; lia).
  split; intros; nia.
Qed.

(** Calls of the ladder that only read or coordinate. *)
Lemma py_get_not_stop v k d : py_get v k d ≠ Raise StopUser.
Proof using. by destruct v. Qed.

Lemma climb_drives rung t :
  drives limit epoch (climb c limit worker_index worker_count rung (seconds (seconds_left rung)))
    (λ r t', ∃ block, extends t t' block ∧
       match r with
       | Ok (_, time_left) => rung_block rung block ∧ time_left = seconds (seconds_left (Datatypes.S rung))
       | Raise e => e ≠ StopUser ∧ Forall in_ladder block
       end) t.
Proof using Hstep Hduration.
  destruct (rung_seconds_spec rung) as [Hmin Hleft]. unfold climb. rewrite Hmin, Hleft.
  apply wp_bind, wp_perform; [exact I|]. intros [] _. cbv beta iota.
  set (t1 := record_event _ _ _ t). assert (extends t t1 [EvRung (Z.of_nat rung) (rung_rate c rung)]) as Ht1 by done.
  clearbody t1. drive_step. drive_step; [exact I|]. drive_step. drive_step; [exact I|].
  destruct m as [before|e].
  2: { eexists. split; [exact Ht1|]. split; [intros ->; by apply Hm|by repeat constructor]. }
  do 2 (drive_step; drive_step; [exact I|]). drive_step.
  eapply wp_conseq; [apply schedule_window_drives|]. intros r t2 (entries & Ht2 & Hr). cbv beta in Hr.
  pose proof (extends_app _ _ _ _ _ Ht1 Ht2) as Ht12.
  destruct r as [[]|e].
  2: { eexists. split; [exact Ht12|]. destruct Hr as (He & n & Hr). split; [done|].
       constructor; [done|by eapply window_in_ladder]. }
  assert (rung_block rung (EvRung (Z.of_nat rung) (rung_rate c rung) :: entries)) as Hblock by (by exists entries).
  assert (Forall in_ladder (EvRung (Z.of_nat rung) (rung_rate c rung) :: entries)) as Hin
    by (constructor; [done|by eapply window_in_ladder]).
  drive_step. drive_step; [exact I|]. destruct m as [after|e].
  2: { eexists. split; [exact Ht12|]. split; [intros ->; by apply Hm0|done]. }
  do 3 (drive_step; drive_step; [exact I|]). drive_step. drive_step; [exact I|].
  destruct m as [decision|e]; cbn [wp]; eexists; (split; [exact Ht12|]); [done|].
  split; [intros ->; by apply Hm1|done].
Qed.

(** A ladder that ended: all its rungs, or those before the workers agreed to
    stop, and then the early drain. *)
Definition climbed (first : nat) (entries : list event) : Prop :=
  ∃ blocks stop, rung_blocks first blocks ∧ entries = concat blocks ++ stop ∧
    (stop = [] ∧ first + length blocks = ladder_rungs ∨
     stop = [EvDrain] ∧ blocks ≠ [] ∧ first + length blocks ≤ ladder_rungs).

Lemma climbed_cons first block entries :
  rung_block first block → climbed (Datatypes.S first) entries → climbed first (block ++ entries).
Proof using.
  intros Hblock (blocks & stop & Hblocks & -> & Hstop). exists (block :: blocks), stop.
  split_and!; [by apply rung_blocks_cons|by rewrite app_assoc|]. simpl.
  destruct Hstop as [[-> Hlen]|(-> & Hne & Hlen)]; [left|right]; split_and!; (done || lia).
Qed.

Lemma climbed_in_ladder first entries : climbed first entries → Forall in_ladder entries.
Proof using.
  intros (blocks & stop & Hblocks & -> & Hstop). apply Forall_app. split; [by eapply rung_blocks_in_ladder|].
  destruct Hstop as [[-> _]|[-> _]]; by repeat constructor.
Qed.

Lemma ladder_drives fuel rung t :
  rung ≤ ladder_rungs → ladder_rungs ≤ rung + fuel →
  drives limit epoch (ladder c fuel limit worker_index worker_count rung (seconds (seconds_left rung)))
    (λ r t', ∃ entries, extends t t' entries ∧
       match r with
       | Ok finished => finished = true ∧ climbed rung entries
       | Raise e => e ≠ StopUser ∧ Forall in_ladder entries
       end) t.
Proof using Hstep Hduration.
  revert rung t. induction fuel as [|fuel IH]; intros rung t Hle Hfuel; cbn [ladder]; rewrite ladder_continues.
  - rewrite bool_decide_eq_false_2 by lia. exists []. split_and!; [apply extends_nil|done|].
    exists [], []. split_and!; [by intros []|done|left; simpl; split; [done|lia]].
  - destruct (decide (rung < ladder_rungs)) as [Hlt|Hge].
    2: { rewrite bool_decide_eq_false_2 by lia. exists []. split_and!; [apply extends_nil|done|].
         exists [], []. split_and!; [by intros []|done|left; simpl; split; [done|lia]]. }
    rewrite bool_decide_eq_true_2 by done. cbn [negb]. apply wp_bind.
    eapply wp_conseq; [apply climb_drives|]. intros r t1 (block & Ht1 & Hr).
    destruct r as [[decision time_left]|e]; [|by exists block]. destruct Hr as [Hblock ->]. cbn [fst snd].
    assert (Forall in_ladder block) as Hin by (destruct Hblock as (? & -> & ?); constructor; [done|by eapply window_in_ladder]).
    apply wp_bind, wp_lift. destruct (py_get decision "stop" PNone) as [stop|e] eqn:Hget.
    2: { exists block. split_and!; [done| |done]. intros ->. by eapply py_get_not_stop. }
    destruct (py_truth stop).
    + drive_step. apply wp_perform; [exact I|]. intros [] _. cbn [wp]. exists (block ++ [EvDrain]).
      split_and!; [by eapply extends_app|done|]. exists [block], [EvDrain].
      split_and!; [|simpl; by rewrite app_nil_r|right; simpl; split_and!; [done..|lia]].
      apply rung_blocks_cons; [done|by intros []].
    + eapply wp_conseq; [apply IH; lia|]. intros r t2 (entries & Ht2 & Hr).
      exists (block ++ entries). split; [by eapply extends_app|].
      destruct r as [finished|e]; destruct Hr as [? Hr]; (split; [done|]); [by apply climbed_cons|by apply Forall_app].
Qed.

(** The warm-up, if there is one. *)
Definition warmed_up (entries : list event) : Prop :=
  if (warmup_seconds c =? 0)%Z then entries = []
  else whole_window c (saturation_start_rate c) None
         (window_ordinals worker_index worker_count (seconds (warmup_seconds c)) (saturation_start_rate c)) entries.

(** A whole ladder, with its warm-up and its drain. *)
Definition whole_ladder (entries : list event) : Prop :=
  ∃ warm rungs, warmed_up warm ∧ climbed 0 rungs ∧ entries = warm ++ rungs ++ [EvKill].

Lemma ladder_body_drives fuel t :
  ladder_rungs ≤ fuel →
  drives limit epoch (ladder_body c fuel limit worker_index worker_count)
    (λ r t', ∃ entries, extends t t' entries ∧ Forall in_ladder entries ∧
       match r with
       | Ok finished => finished = true ∧ whole_ladder entries
       | Raise e => e ≠ StopUser
       end) t.
Proof using Hstep Hduration.
  intros Hfuel. unfold ladder_body. apply wp_bind.
  assert (drives limit epoch (if (warmup_seconds c =? 0)%Z then Ret tt
       else schedule_window c limit worker_index worker_count (seconds (warmup_seconds c)) (saturation_start_rate c) None)
    (λ r t', ∃ entries, extends t t' entries ∧ Forall in_ladder entries ∧
       match r with Ok _ => warmed_up entries | Raise e => e ≠ StopUser end) t) as Hwarm.
  { unfold warmed_up. destruct (warmup_seconds c =? 0)%Z.
    - exists []. split_and!; [apply extends_nil|constructor|done].
    - eapply wp_conseq; [apply schedule_window_drives|]. intros r t1 (entries & Ht1 & Hr). exists entries. split; [done|].
      destruct r as [|e]; [split; [by eapply window_in_ladder|done]|].
      destruct Hr as (He & n & Hr). split; [by eapply window_in_ladder|done]. }
  eapply wp_conseq; [exact Hwarm|]. intros r t1 (warm & Ht1 & Hin1 & Hr).
  destruct r as [[]|e]; [|by exists warm]. cbn beta in Hr. rename Hr into Hw. apply wp_bind.
  assert (seconds (duration_seconds c) = seconds (seconds_left 0)) as ->.
  { unfold seconds_left. f_equal. lia. }
  eapply wp_conseq; [apply ladder_drives; lia|]. intros r t2 (rungs & Ht2 & Hr).
  pose proof (extends_app _ _ _ _ _ Ht1 Ht2) as Ht12.
  destruct r as [finished|e].
  2: { destruct Hr as [He Hin2]. exists (warm ++ rungs). split_and!; [done|by apply Forall_app|done]. }
  destruct Hr as [-> Hr]. pose proof (climbed_in_ladder _ _ Hr) as Hin2.
  apply wp_bind. eapply wp_conseq; [apply drain_active_drives|]. intros [[]|e] t3 Ht3; cbn [wp].
  - exists ((warm ++ rungs) ++ [EvKill]). split_and!; [by eapply extends_app| |done|].
    + by repeat (apply Forall_app; split); repeat constructor.
    + exists warm, rungs. by rewrite app_assoc.
  - destruct Ht3 as [He ->]. exists (warm ++ rungs). split_and!; [done|by apply Forall_app|done].
Qed.

(** *** Leaving the ladder *)

Definition failed {A} (r : res A) : bool := match r with Ok _ => false | Raise e => is_exception e end.
Definition exit_events (b : bool) : list event := if b then [EvExit] else [].
Definition quit_events (runner : bool) : list event := EvRunner runner :: if runner then [EvQuit] else [].
Definition leave_events (created body_failed close_failed runner : bool) : list event :=
  exit_events body_failed ++ [EvKill] ++ (if created then [EvClose] else []) ++ exit_events close_failed ++
  quit_events runner.

Lemma exit_code_drives {A} (r : res A) t :
  drives limit epoch (exit_code_on r) (λ r' t', r' = Ok tt ∧ extends t t' (exit_events (failed r))) t.
Proof using.
  unfold exit_code_on. destruct r as [a|e]; cbn [failed]; [by split; [|apply extends_nil]|].
  destruct (is_exception e); [split; [exact I|]; intros [] _; done|by split; [|apply extends_nil]].
Qed.
Lemma quit_drives t :
  drives limit epoch quit_runner (λ r t', ∃ runner, r = Ok tt ∧ extends t t' (quit_events runner)) t.
Proof using.
  unfold quit_runner. apply wp_bind, wp_perform; [exact I|]. intros [] _; cbv beta iota.
  - split; [exact I|]. intros [] _. exists true. split; [done|]. eapply (extends_app _ _ _ [_] [_]); [|done]. done.
  - exists false. done.
Qed.

Lemma leave_drives {A} created (r : res A) t :
  drives limit epoch (leave_ladder created r)
    (λ r' t', ∃ close_failed runner, extends t t' (leave_events created (failed r) close_failed runner) ∧
       (r' = r ∧ close_failed = false ∨
        ∃ e, r' = Raise e ∧ e ≠ StopUser ∧ created = true ∧ close_failed = is_exception e)) t.
Proof using.
  unfold leave_ladder, leave_events. apply wp_bind. eapply wp_conseq; [apply exit_code_drives|].
  intros r1 t1 [-> Ht1]. apply wp_bind, wp_perform; [exact I|]. intros [] _. cbv beta iota.
  set (t2 := record_event _ _ _ t1). assert (extends t1 t2 [EvKill]) as Ht2 by done. clearbody t2.
  apply wp_bind, wp_try.
  assert (drives limit epoch (if created then call DCloseCoordinator else Ret tt)
    (λ closed t3, extends t2 t3 (if created then [EvClose] else []) ∧ not_stop closed ∧
       (created = false → closed = Ok tt)) t2) as Hclose.
  { destruct created; [|by split; [apply extends_nil|]]. apply wp_call; [exact I|]. intros m Hm. by split. }
  eapply wp_conseq; [exact Hclose|]. intros closed t3 (Ht3 & Hclosed & Hcreated). cbv beta iota.
  apply wp_bind. eapply wp_conseq; [apply exit_code_drives|]. intros r4 t4 [-> Ht4]. cbv beta iota.
  apply wp_bind. eapply wp_conseq; [apply quit_drives|]. intros r5 t5 (runner & -> & Ht5). cbv beta iota.
  assert (extends t t5 (exit_events (failed r) ++ [EvKill] ++ (if created then [EvClose] else []) ++
    exit_events (failed closed) ++ quit_events runner)) as Ht by (repeat (eapply extends_app; [eassumption|]); done).
  apply wp_bind, wp_lift. destruct closed as [[]|e].
  - apply wp_lift. exists false, runner. split; [exact Ht|]. by left.
  - exists (is_exception e), runner. split; [exact Ht|]. right. exists e. split_and!; [done| | |done].
    + intros ->. by apply Hclosed.
    + destruct created; [done|]. by specialize (Hcreated eq_refl).
Qed.

(** What a first call of the schedule did when it ended by [e]. *)
Definition ladder_outcome (e : exn) (entries : list event) : Prop :=
  ∃ created ladder body_failed close_failed runner,
    entries = (if created : bool then [EvCoordinator] else []) ++ ladder ++
                leave_events created body_failed close_failed runner ∧
    Forall in_ladder ladder ∧
    if decide (e = StopUser)
    then created = true ∧ body_failed = false ∧ close_failed = false ∧ whole_ladder ladder
    else is_exception e = true → body_failed || close_failed = true.

Lemma leave_outcome created (r : res bool) ladder t0 t :
  extends t0 t ((if created : bool then [EvCoordinator] else []) ++ ladder) → Forall in_ladder ladder →
  match r with
  | Ok finished => created = true ∧ finished = true ∧ whole_ladder ladder
  | Raise e => e ≠ StopUser
  end →
  drives limit epoch (finished ← leave_ladder created r; if (finished : bool) then Throw StopUser else Ret tt)
    (λ r t', ∃ e entries, r = Raise e ∧ extends t0 t' entries ∧ ladder_outcome e entries) t.
Proof using.
  intros Ht Hin Hr. apply wp_bind. eapply wp_conseq; [apply leave_drives|].
  intros r' t' (close_failed & runner & Ht' & Hr').
  pose proof (extends_app _ _ _ _ _ Ht Ht') as Hlog. rewrite <- app_assoc in Hlog.
  destruct Hr' as [[-> ->]|(e & -> & He & -> & ->)]; [destruct r as [finished|e]|].
  - destruct Hr as (-> & -> & Hwhole). cbn [wp]. do 2 eexists. split_and!; [done|exact Hlog|].
    exists true, ladder, false, false, runner. split; [done|]. split; [done|]. by rewrite decide_True.
  - do 2 eexists. split_and!; [done|exact Hlog|]. exists created, ladder, (is_exception e), false, runner. split; [done|]. split; [done|].
    rewrite decide_False by done. cbn [failed]. by intros ->.
  - do 2 eexists. split_and!; [done|exact Hlog|]. exists true, ladder, (failed r), (is_exception e), runner. split; [done|]. split; [done|].
    rewrite decide_False by done. intros ->. apply orb_true_r.
Qed.
End climbing.

(** C11: A ladder runs once and always ends the run.  Whatever the clocks, the
    coordinator, the sampler and the transactions do, the schedule never
    returns: the first call creates the coordinator, runs the warm-up and the
    rungs 0, 1, 2, ... each at its rate and with this worker's share of its
    window, until the duration is filled or the workers agree to stop, drains,
    and ends by [StopUser]; or it fails.  In every case the transactions left
    are killed, the coordinator that was created is closed once, the runner, if
    there is one, is told to quit once, and a failure by an exception sets the
    exit code of the process.  A second call starts nothing. *)
Theorem ladder_ends limit epoch c worker_index worker_count fuel :
  (1 ≤ saturation_step_seconds c < 2 ^ 53)%Z → (0 ≤ duration_seconds c < 2 ^ 53)%Z → ladder_rungs c ≤ fuel →
  drives limit epoch (saturation_schedule c fuel limit worker_index worker_count)
    (λ r t, ∃ again entries e, tr_log t = EvStarted again :: entries ∧ r = Raise e ∧
       if (again : bool) then e = StopUser ∧ ∃ runner, entries = EvExit :: quit_events runner
       else ladder_outcome c worker_index worker_count e entries) (Trace 0 []).
Proof.
  intros Hstep Hduration Hfuel. unfold saturation_schedule. apply wp_bind, wp_perform; [exact I|].
  intros [] _; cbv beta iota.
  - apply wp_bind, wp_perform; [exact I|]. intros [] _. cbv beta iota. apply wp_bind.
    eapply wp_conseq; [apply quit_drives|]. intros r t (runner & -> & Ht). cbn [wp].
    exists true. do 2 eexists. split; [unfold extends in Ht; by rewrite Ht|]. split; [done|]. split; [done|]. by exists runner.
  - apply wp_bind, wp_perform; [exact I|]. intros [] _. cbv beta iota. rewrite record_quiet by done.
    set (t0 := record_event _ _ _ _). assert (tr_log t0 = [EvStarted false]) as Ht0 by done. clearbody t0.
    apply wp_bind, wp_try, wp_call; [exact I|]. intros coordinator Hc. cbn in Hc. cbv beta iota.
    set (t1 := record_event _ _ _ t0).
    assert (extends t0 t1 (if is_ok coordinator then [EvCoordinator] else [])) as Ht1 by done. clearbody t1.
    apply wp_bind, wp_try, wp_bind, wp_lift.
    assert (∀ r t, (∃ e entries, r = Raise (A:=unit) e ∧ extends t0 t entries ∧ ladder_outcome c worker_index worker_count e entries) →
      ∃ again entries e, tr_log t = EvStarted again :: entries ∧ r = Raise e ∧
        if (again : bool) then e = StopUser ∧ ∃ runner, entries = EvExit :: quit_events runner
        else ladder_outcome c worker_index worker_count e entries) as Hpost.
    { intros r t (e & entries & -> & Ht & Hout). exists false, entries, e. unfold extends in Ht. by rewrite Ht, Ht0. }
    destruct coordinator as [[]|e]; cbv beta iota.
    + eapply wp_conseq; [by apply ladder_body_drives|]. intros r t2 (ladder & Ht2 & Hin & Hr).
      eapply wp_conseq; [|exact Hpost]. eapply leave_outcome; [by eapply extends_app|done|]. by destruct r.
    + eapply wp_conseq; [|exact Hpost]. apply (leave_outcome _ _ _ _ _ false (Raise e) []); [exact Ht1|done|].
      intros ->. by apply Hc.
Qed.
