(* ===== verification/LoadRuns.v ===== *)
(** * Concrete runs of the drivers

    A world whose clock stands still and whose transactions never end, driven
    by the schedules of LoadDriver.v. *)

From S2P Require Import Prelude PyFloat IntFloat PyValue PyText PyUrl BenchConfig Program Sse Runtime Saturation Reporting Storefront Settlement CheckoutEnds LoadDriver LoadSchedules LoadLadder.

(** The world's state is its trace; a coordinator never stops the ladder. *)
Definition still_handle (X : Type) (op : driverE X) (t : trace) : X * trace :=
  let x :=
    match op in driverE X return X with
    | DShop _ op => (busy_handle _ op 0).1
    | DAdapter _ | DSpawn _ | DKillActive | DMarkStarted | DSetRung _ _ | DEarlyDrain | DExitCode | DQuitLater
    | DStartClock | DSeedRandom _ => tt
    | DSubmissionDeadline => at_second 3
    | DActive => tr_active t
    | DJoinActive _ | DCoordinator | DCloseCoordinator | DJoinTrackers _ | DKillTracker _ | DOpenRecorder
    | DCloseRecorder | DStartSampler | DStopSampler => Ok tt
    | DStarted => false
    | DFinishRung _ _ => Ok (PDict [("stop", PBool false)])
    | DCompletedCount => 0%Z
    | DProcessed => Ok None
    | DLatestPending => None
    | DElapsed => at_second 0
    | DHasRunner => true
    | DTrackers => []
    end in
  (x, record_event X op x t).

Lemma still_observed limit : observed_world limit (at_second 0) still_handle id.
Proof.
  intros X op t _. split; [|done]. destruct op; try done; [|simpl; lia].
  by match goal with op : shopE _ |- _ => destruct op end.
Qed.

Definition demo_open : config :=
  Config "NATS" "http://frontend" None "open" 0 3 30 1 (float_dec 1 0) (float_dec 1 0) (float_dec 1 0)
    (float_dec 10 0) 30 (float_dec 30 0) (float_dec 60 0) (float_dec 1 0) 7 false false.
Definition demo_ladder : config :=
  Config "NATS" "http://frontend" None "saturation" 0 25 30 1 (float_dec 1 0) (float_dec 1 0) (float_dec 5 (-1))
    (float_dec 6 (-1)) 10 (float_dec 30 0) (float_dec 60 0) (float_dec 1 0) 7 false false.

(** What was dispatched: a transaction and its index, or a refusal. *)
Definition brief (e : event) : list (option Z) :=
  match e with EvSpawn t => [Some (tx_index t)] | EvMeasured _ _ => [None] | _ => [] end.

(** At most two transactions are active: the third is refused. *)
Example open_run :
  let '(r, t) := run still_handle (open_schedule demo_open 4 2) (Trace 0 []) in
  (r, tr_log t ≫= brief) = (Raise StopUser, [Some 0; Some 1; None]%Z).
Proof. vm_compute. reflexivity. Qed.

(** The second of two workers climbs three rungs, the last of five seconds. *)
Example ladder_run :
  let '(r, t) := run still_handle (saturation_schedule demo_ladder 3 20 1 2) (Trace 0 []) in
  (r, omap (dispatched demo_ladder) (tr_log t)) =
  (Raise StopUser, [9; 11; 1000012; 1000014; 1000016; 2000015]%Z).
Proof. vm_compute. reflexivity. Qed.

Lemma demo_instants : instants demo_open (float_dec 1 0) 3.
Proof.
  split; [|vm_compute; reflexivity]. intros k Hk. do 3 (destruct k as [|k]; [vm_compute; reflexivity|]). lia.
Qed.

Lemma open_schedule_exact_witness :
  drives 2 (at_second 0) (open_schedule demo_open 4 2)
    (λ r t, ∃ turns e, r = Raise e ∧ open_turns (at_second 0) demo_open (float_dec 1 0) 0 turns ∧
       if bool_decide (e = StopUser) then length turns = 3 ∧ tr_log t = concat turns ++ [EvKill]
       else length turns ≤ 3 ∧ tr_log t = concat turns) (Trace 0 []).
Proof. apply (open_schedule_exact 2 (at_second 0) demo_open (float_dec 1 0) 3 4); [vm_compute; reflexivity|apply demo_instants|lia]. Defined.

(** Three workers share a window of four transactions. *)
Definition demo_window (i : Z) : prog driverE unit :=
  schedule_window demo_ladder 20 i 3 (at_second 2) (at_second 2) (Some 1%Z).
Definition demo_shares : list (trace * trace) :=
  (λ i, (Trace 0 [], (run still_handle (demo_window i) (Trace 0 [])).2)) <$> [0; 1; 2]%Z.

Lemma window_partition_witness :
  (demo_shares ≫= λ w, omap (dispatched demo_ladder) (tr_log w.2)) ≡ₚ ladder_seed demo_ladder (Some 1%Z) <$> seqZ 0 4.
Proof.
  apply (window_partition still_handle id 20 (at_second 0) demo_ladder 3 (at_second 2) (at_second 2) (Some 1%Z) 4 demo_shares).
  - apply still_observed.
  - done.
  - vm_compute. reflexivity.
  - vm_compute. reflexivity.
  - intros i s s' (j & [-> ->]%pair_equal_spec & Hj)%list_lookup_fmap_Some. split; [done|].
    assert (j = Z.of_nat i ∧ (run still_handle (demo_window j) (Trace 0 [])).1 = Ok tt) as [<- Hrun].
    { do 3 (destruct i as [|i]; [injection Hj as <-; split; [done|vm_compute; reflexivity]|]). done. }
    rewrite <- Hrun. apply surjective_pairing.
Defined.

Lemma ladder_ends_witness :
  drives 20 (at_second 0) (saturation_schedule demo_ladder 3 20 1 2)
    (λ r t, ∃ again entries e, tr_log t = EvStarted again :: entries ∧ r = Raise e ∧
       if (again : bool) then e = StopUser ∧ ∃ runner, entries = EvExit :: quit_events runner
       else ladder_outcome demo_ladder 1 2 e entries) (Trace 0 []).
Proof.
  apply (ladder_ends 20 (at_second 0) demo_ladder 1 2 3).
  - by vm_compute.
  - by vm_compute.
  - vm_compute. lia.
Defined.
