(* ===== verification/Collector.v ===== *)
(** * The metrics collector and its server
    (benchmarkservice/cluster_metrics.py, benchmarkservice/metrics_server.py)

    The collector sends the requests of a source to a thread pool and waits
    for them until a deadline; a snapshot waits for the sources in the same
    way.  The metrics server refreshes every source in a thread of its own and
    serves the last values.  A wait answers with the requests that completed,
    in any order, and those that did not: the pools, the clocks and HTTP are
    arguments. *)

From S2P Require Import Prelude PyFloat PyValue PyUrl BenchConfig Program Runtime Saturation Reporting ClusterMetrics.

Definition texts (l : list string) : pyval := PList (PStr <$> l).

(** Whether a value of a source reports an error. *)
Definition partial_of (errors : list string) : pyval := PBool (match errors with [] => false | _ => true end).

(** ** The sources *)

(** [sample] is what the client answered, with the errors of its nodes.
    [cluster_metrics.py:792-812 ClusterMetricsCollector._collect_kubernetes] *)
Definition collect_kubernetes (started_at collected_at duration : pyfloat)
    (sample : res mapping) (node_errors : list string) (diagnostics : mapping) : mapping :=
  let '(pods, errors) := match sample with
    | Ok pods => (pods, node_errors)
    | Raise e => ([], [exn_str e])
    end in
  [("pods", PDict pods); ("errors", texts errors);
   ("sample", PDict [("requested_at", PFloat started_at); ("collected_at", PFloat collected_at);
                     ("duration_seconds", PFloat (f_round duration 6)); ("diagnostics", PDict diagnostics);
                     ("partial", partial_of errors)])].

(** The requests of the NATS source, with their answers. *)
Inductive nats_reply :=
  | ExporterReply (url : string) (answer : res (list pyval))
  | MicroReply (answer : res (list mapping))
  | ObserverReply (answer : res mapping).

(** [cluster_metrics.py:823-839 ClusterMetricsCollector._collect_nats] *)
Definition reply_endpoint (r : nats_reply) : string :=
  match r with
  | ExporterReply url _ => url
  | MicroReply _ => "micro stats"
  | ObserverReply _ => "completed-order count"
  end.
Definition nats_endpoints (urls : list string) (micro : bool) : list string :=
  urls ++ if micro then ["micro stats"; "completed-order count"] else [].

(** What a source has gathered. *)
Record nats_value := NatsValue {
  nv_metrics : list pyval;
  nv_micro : list mapping;
  nv_observer : option mapping;
  nv_errors : list string;
}.

(** [cluster_metrics.py:841-852 ClusterMetricsCollector._collect_nats] *)
Definition take_reply (v : nats_value) (r : nats_reply) : nats_value :=
  let failed e := NatsValue (nv_metrics v) (nv_micro v) (nv_observer v)
    (nv_errors v ++ [reply_endpoint r +:+ ": " +:+ exn_str e]) in
  match r with
  | ExporterReply _ (Ok metrics) => NatsValue (nv_metrics v ++ metrics) (nv_micro v) (nv_observer v) (nv_errors v)
  | MicroReply (Ok endpoints) => NatsValue (nv_metrics v) endpoints (nv_observer v) (nv_errors v)
  | ObserverReply (Ok sample) => NatsValue (nv_metrics v) (nv_micro v) (Some sample) (nv_errors v)
  | ExporterReply _ (Raise e) | MicroReply (Raise e) | ObserverReply (Raise e) => failed e
  end.

Definition deadline_exceeded (what endpoint : string) : string := endpoint +:+ ": " +:+ what +:+ " deadline exceeded".

(** The Raft groups of the application's streams that a metric names.
    [cluster_metrics.py:858-864 ClusterMetricsCollector._collect_nats] *)
Definition metric_group (metric : pyval) : res (option (string * string)) :=
  labels ← py_get metric "labels" (PDict []);
  name ← py_get labels "stream_name" PNone;
  other ← (if py_truth name then Ok name else py_get labels "stream" PNone);
  group ← py_get labels "stream_raft_group" PNone;
  Ok (if existsb (λ s, py_eqb other (PStr s)) APPLICATION_STREAMS && py_truth group
      then Some (py_str group, py_str other) else None).

Fixpoint metric_groups (metrics : list pyval) (groups : list (string * string)) : res (list (string * string)) :=
  match metrics with
  | [] => Ok groups
  | metric :: metrics =>
      g ← metric_group metric;
      metric_groups metrics (match g with Some (k, s) => alist_set k s groups | None => groups end)
  end.

Definition sample_document (started_at collected_at duration : pyfloat) (requests completed timed_out : nat) (rest : mapping)
    (errors : list string) : pyval :=
  PDict ([("requested_at", PFloat started_at); ("collected_at", PFloat collected_at);
          ("duration_seconds", PFloat (f_round duration 6)); ("requests", PInt (Z.of_nat requests));
          ("requests_completed", PInt (Z.of_nat completed)); ("requests_timed_out", PInt (Z.of_nat timed_out))] ++
         rest ++ [("partial", partial_of errors)]).

(** [known] are the Raft groups of the application's streams that the
    collector knows; the answer is its value and what it knows afterwards.
    [cluster_metrics.py:814-877 ClusterMetricsCollector._collect_nats] *)
Definition collect_nats (started_at collected_at duration : pyfloat) (known : list (string * string))
    (completed : list nats_reply) (unfinished : list string) : res (mapping * list (string * string)) :=
  let v := foldl take_reply (NatsValue [] [] None []) completed in
  let errors := nv_errors v ++ (deadline_exceeded "NATS snapshot" <$> unfinished) in
  groups ← metric_groups (nv_metrics v) [];
  let known := foldl (λ known g, alist_set g.1 g.2 known) known groups in
  Ok ([("nats_metrics", PList (nv_metrics v)); ("nats_micro_endpoints", PList (PDict <$> nv_micro v));
       ("nats_order_completed_observer", match nv_observer v with Some m => PDict m | None => PNone end);
       ("errors", texts errors);
       ("sample", sample_document started_at collected_at duration (length completed + length unfinished)
          (length completed) (length unfinished) [] errors)], known).

(** A group is kept when it belongs to no stream or to one of the
    application's, which it is then labelled with.
    [cluster_metrics.py:903-911 ClusterMetricsCollector._collect_nats_raft] *)
Definition select_group (known : list (string * string)) (group : mapping) : option mapping :=
  let name := py_str (default (PStr "") (alist_get "group" group)) in
  match alist_get name known with
  | Some stream => Some (alist_set "stream_name" (PStr stream) group)
  | None =>
      let kind := field group "kind" in
      if py_eqb kind (PStr "meta") || py_eqb kind (PStr "consumer") then Some group else None
  end.

(** [cluster_metrics.py:888-893 ClusterMetricsCollector._collect_nats_raft] *)
Definition take_raft (v : list mapping * list string) (r : string * res (list mapping)) : list mapping * list string :=
  match r.2 with
  | Ok groups => (v.1 ++ groups, v.2)
  | Raise e => (v.1, v.2 ++ [r.1 +:+ ": " +:+ exn_str e])
  end.

(** [cluster_metrics.py:879-923 ClusterMetricsCollector._collect_nats_raft] *)
Definition collect_nats_raft (started_at collected_at duration : pyfloat) (known : list (string * string))
    (completed : list (string * res (list mapping))) (unfinished : list string) : mapping :=
  let '(groups, errors) := foldl take_raft ([], []) completed in
  let errors := errors ++ (deadline_exceeded "NATS Raft snapshot" <$> unfinished) in
  let selected := omap (select_group known) groups in
  [("nats_raft_groups", PList (PDict <$> selected)); ("errors", texts errors);
   ("sample", sample_document started_at collected_at duration (length completed + length unfinished)
      (length completed) (length unfinished) [("groups", PInt (Z.of_nat (length selected)))] errors)].

(** ** Snapshots *)

(** What every snapshot has, before a source has answered. *)
Definition empty_data : mapping :=
  [("pods", PDict []); ("nats_metrics", PList []); ("nats_micro_endpoints", PList []);
   ("nats_order_completed_observer", PNone); ("nats_raft_groups", PList [])].

Record gathered := Gathered {
  ga_data : mapping;
  ga_errors : list string;
  ga_samples : mapping;
}.

(** The errors of a source, with its name. *)
Definition source_errors (source : string) (value : mapping) : list string :=
  match field value "errors" with
  | PList errors => (λ e, source +:+ ": " +:+ py_str e) <$> errors
  | _ => []
  end.
Definition source_data (value : mapping) : mapping := alist_del "errors" (alist_del "sample" value).

(** [cluster_metrics.py:946-956 ClusterMetricsCollector.snapshot] *)
Definition take_source (g : gathered) (sr : string * res mapping) : gathered :=
  let '(source, r) := sr in
  match r with
  | Raise e => Gathered (ga_data g) (ga_errors g ++ [source +:+ ": " +:+ exn_str e]) (ga_samples g)
  | Ok value =>
      Gathered (dict_update (ga_data g) (source_data value)) (ga_errors g ++ source_errors source value)
        (alist_set source (field value "sample") (ga_samples g))
  end.

Definition assemble (g : gathered) (errors : list string) (about : mapping) : mapping :=
  ga_data g ++ [("errors", texts (ga_errors g ++ errors)); ("source_samples", PDict (ga_samples g)); ("snapshot", PDict about)].

Definition sorted_texts (l : list string) : pyval := texts (merge_sort String.le l).

(** [cluster_metrics.py:925-970 ClusterMetricsCollector.snapshot] *)
Definition collector_snapshot (requested_at completed_at duration : pyfloat)
    (completed : list (string * res mapping)) (unfinished : list string) : mapping :=
  let g := foldl take_source (Gathered empty_data [] []) completed in
  assemble g ((λ source, source +:+ ": whole-snapshot deadline exceeded") <$> unfinished)
    [("requested_at", PFloat requested_at); ("completed_at", PFloat completed_at);
     ("duration_seconds", PFloat (f_round duration 6));
     ("sources_completed", sorted_texts completed.*1); ("sources_timed_out", sorted_texts unfinished)].

(** ** The cache of the metrics server *)

(** [metrics_server.py:100-102 SnapshotCache.get] *)
Definition expected_sources (application_type : string) : list string :=
  if String.eqb application_type "NATS" then ["kubernetes"; "nats"; "nats_raft"] else ["kubernetes"].

(** The value that stands for a refresh that failed.
    [metrics_server.py:67-76 SnapshotCache._refresh_source] *)
Definition refresh_failure (requested_at collected_at : pyfloat) (e : exn) : mapping :=
  [("errors", texts ["cache refresh: " +:+ exn_str e]);
   ("sample", PDict [("requested_at", PFloat requested_at); ("collected_at", PFloat collected_at);
                     ("duration_seconds", PInt 0); ("partial", PBool true)])].

(** One refresh: the cache with the new value, and when the next one is due.
    [metrics_server.py:62-84 SnapshotCache._refresh_source] *)
Definition refresh_source (source : string) (interval next_refresh requested_at collected_at now : pyfloat)
    (collected : res mapping) (values : list (string * mapping)) : res (list (string * mapping) * pyfloat) :=
  let value := match collected with Ok value => value | Raise e => refresh_failure requested_at collected_at e end in
  let values := alist_set source value values in
  let next := fadd next_refresh interval in
  if fleb next now then
    q ← floor_quotient (fsub now next) interval;
    skipped ← float_of_Z (q + 1);
    Ok (values, fadd next (fmul skipped interval))
  else Ok (values, next).

(** [metrics_server.py:103-112 SnapshotCache.get] *)
Definition take_cached (values : list (string * mapping)) (g : gathered) (source : string) : gathered :=
  match alist_get source values with
  | None => Gathered (ga_data g) (ga_errors g ++ [source +:+ ": metrics cache is warming"]) (ga_samples g)
  | Some value =>
      Gathered (dict_update (ga_data g) (source_data value)) (ga_errors g ++ source_errors source value)
        (match field value "sample" with
         | PDict sample => alist_set source (PDict sample) (ga_samples g)
         | _ => ga_samples g
         end)
  end.

(** [metrics_server.py:120-126 SnapshotCache.get] *)
Fixpoint source_ages (now : pyfloat) (samples : mapping) : res mapping :=
  match samples with
  | [] => Ok []
  | (source, sample) :: samples =>
      collected ← py_get sample "collected_at" PNone;
      match collected with
      | PInt _ | PFloat _ | PBool _ =>
          at_time ← py_float collected;
          ages ← source_ages now samples;
          Ok ((source, PFloat (f_round (f_max (float_dec 0 0) (fsub now at_time)) 6)) :: ages)
      | _ => source_ages now samples
      end
  end.

(** [metrics_server.py:86-128 SnapshotCache.get] *)
Definition cache_get (application_type : string) (values : list (string * mapping)) (now : pyfloat) : res mapping :=
  let g := foldl (take_cached values) (Gathered empty_data [] []) (expected_sources application_type) in
  ages ← source_ages now (ga_samples g);
  Ok (assemble g []
    [("requested_at", PFloat now); ("completed_at", PFloat now); ("duration_seconds", PInt 0); ("cached", PBool true);
     ("source_ages_seconds", PDict ages)]).

(** ** The requests of the metrics server *)

Record metrics_request := MetricsRequest {
  mr_target : string;
  mr_authorization : option string;
}.

Inductive metricsE : Type → Type :=
  | MCached : metricsE (res mapping)
  | MObserved : metricsE (res (option mapping))
  | MSend (status : Z) (value : pyval) : metricsE (res unit).

(** [str.partition(" ")] *)
Fixpoint partition_space (s : string) : string * bool * string :=
  match s with
  | EmptyString => (EmptyString, false, EmptyString)
  | String.String c s =>
      if is_char 32 c then (EmptyString, true, s)
      else let '(a, found, b) := partition_space s in (String.String c a, found, b)
  end.

Definition str_ascii (s : string) : bool := forallb (λ c, (chr_code c <? 128)%Z) (chars s).

(** [hmac.compare_digest] on texts: only ASCII ones can be compared. *)
Definition compare_digest (a b : string) : res bool :=
  if str_ascii a && str_ascii b then Ok (String.eqb a b)
  else Raise (TypeError "comparing strings with non-ASCII characters is not supported").

Section server.
Context (bracket_ok : string → bool) (token : string).

(** [metrics_server.py:167-176 MetricsHandler._authorized] *)
Definition authorized (rq : metrics_request) : res bool :=
  if String.eqb token "" then Ok true else
  let '(scheme, separator, supplied) := partition_space (default "" (mr_authorization rq)) in
  if separator && String.eqb (str_lower scheme) "bearer" then compare_digest supplied token else Ok false.

(** [metrics_server.py:158-165 MetricsHandler._json] *)
Definition send_json (status : Z) (value : pyval) : prog metricsE unit := call (MSend status (json_dumps value)).

(** The document of a path, sent.
    [metrics_server.py:189-201 MetricsHandler.do_GET] *)
Definition serve_metrics (path : string) : prog metricsE unit :=
  if String.eqb path "/nats-order-completed-observer" then
    observed ← call MObserved;
    send_json 200 (PDict [("nats_order_completed_observer", match (observed : option mapping) with Some m => PDict m | None => PNone end)])
  else value ← call MCached; send_json 200 (PDict value).

(** [metrics_server.py:178-201 MetricsHandler.do_GET] *)
Definition metrics_GET (rq : metrics_request) : prog metricsE unit :=
  path ← lift (urlparse_path bracket_ok (mr_target rq));
  if String.eqb path "/healthz" then send_json 200 (PDict [("status", PStr "ok")])
  else if negb (bool_decide (path ∈ ["/snapshot"; "/nats-order-completed-observer"])) then
    send_json 404 (PDict [("error", PStr "not found")])
  else
    allowed ← lift (authorized rq);
    if negb allowed then send_json 401 (PDict [("error", PStr "unauthorized")])
    else
      r ← prog_try (serve_metrics path);
      match r with
      | Ok _ => Ret tt
      | Raise e => send_json 503 (PDict [("error", PStr (exn_str e))])
      end.
End server.

(** ** The order in which sources complete *)

(** Two gatherings that differ in the order of their errors and of their
    keys. *)
#[export] Instance gathered_equiv : Equiv gathered := λ g g',
  (∀ k, alist_get k (ga_data g) = alist_get k (ga_data g')) ∧ ga_errors g ≡ₚ ga_errors g' ∧
  (∀ s, alist_get s (ga_samples g) = alist_get s (ga_samples g')).
#[export] Instance gathered_equivalence : Equivalence (≡@{gathered}).
Proof.
  split.
  - intros g. by split_and!.
  - intros g g' (? & ? & ?). by split_and!.
  - intros g1 g2 g3 (H1 & H2 & H3) (H1' & H2' & H3'). split_and!; [intros; by rewrite H1|by rewrite H2|intros; by rewrite H3].
Qed.

Lemma dict_update_congr m m' u :
  (∀ k, alist_get k m = alist_get k m') → ∀ k, alist_get k (dict_update m u) = alist_get k (dict_update m' u).
Proof.
  unfold dict_update. revert m m'. induction u as [|[k' v] u IH]; intros m m' H; [done|].
  simpl. apply IH. intros k. by rewrite !alist_get_set, H.
Qed.

#[export] Instance take_source_proper sr : Proper ((≡@{gathered}) ==> (≡)) (λ g, take_source g sr).
Proof.
  intros g g' (Hd & He & Hs). destruct sr as [source [value|e]]; split_and!; cbn.
  - by apply dict_update_congr.
  - by rewrite He.
  - intros s. by rewrite !alist_get_set, Hs.
  - done.
  - by rewrite He.
  - done.
Qed.

(** The results of different sources: no key is given twice. *)
Definition separate (sr sr' : string * res mapping) : Prop :=
  sr.1 ≠ sr'.1 ∧
  match sr.2, sr'.2 with
  | Ok v, Ok v' => ∀ k, alist_get k (source_data v) = None ∨ alist_get k (source_data v') = None
  | _, _ => True
  end.
Definition well_keyed (sr : string * res mapping) : Prop :=
  match sr.2 with Ok v => NoDup (source_data v).*1 | Raise _ => True end.

Lemma separate_disjoint s v s' v' :
  s ≠ s' → (source_data v).*1 ## (source_data v').*1 → separate (s, Ok v) (s', Ok v').
Proof.
  intros Hs Hd. split; [done|]. intros k. cbn. rewrite !alist_get_None. destruct (decide (k ∈ (source_data v).*1)); [right|by left].
  intros ?. by eapply Hd.
Qed.

Lemma take_source_commute sr sr' g :
  separate sr sr' → well_keyed sr → well_keyed sr' →
  take_source (take_source g sr) sr' ≡ take_source (take_source g sr') sr.
Proof.
  intros [Hs Hd] Hk Hk'. destruct sr as [s [v|e]], sr' as [s' [v'|e']]; unfold well_keyed in *; cbn in *; split_and!;
    cbn [ga_data ga_errors ga_samples take_source]; try done; try (rewrite <- !app_assoc; f_equiv; apply Permutation_app_comm).
  - intros k. rewrite !dict_update_get by done. destruct (Hd k) as [-> | ->]; by destruct (alist_get k _).
  - intros k. rewrite !alist_get_set. repeat case_decide; congruence.
Qed.

Lemma foldl_reverse {A B} (f : A → B → A) a l : foldl f a l = foldr (λ x y, f y x) a (reverse l).
Proof. induction l as [|x l IH] using rev_ind; [done|]. by rewrite foldl_snoc, reverse_snoc, IH. Qed.

Lemma gather_order_free g l l' :
  Forall well_keyed l → (∀ i j x y, i ≠ j → l !! i = Some x → l !! j = Some y → separate x y) → l ≡ₚ l' →
  foldl take_source g l ≡ foldl take_source g l'.
Proof.
  intros Hk Hsep Hperm. rewrite !foldl_reverse. apply (foldr_permutation (≡) _ _).
  - intros i x j y b Hij [Hi Hil]%reverse_lookup_Some [Hj Hjl]%reverse_lookup_Some. symmetry.
    apply take_source_commute;
      [by eapply (Hsep (length l - Datatypes.S i) (length l - Datatypes.S j)); [lia|..]|by eapply Forall_lookup_1..].
  - by rewrite !reverse_Permutation.
Qed.

Lemma alist_get_app {V} k (m m' : list (string * V)) :
  alist_get k (m ++ m') = match alist_get k m with Some v => Some v | None => alist_get k m' end.
Proof. induction m as [|[k' v] m IH]; [done|]. simpl. by case_decide. Qed.

(** What a snapshot says: its data, its errors and the samples of its
    sources. *)
Definition reports (snapshot : mapping) (data : string → option pyval) (errors : list string) (samples : string → option pyval) : Prop :=
  (∀ k, k ∉ ["errors"; "source_samples"; "snapshot"] → alist_get k snapshot = data k) ∧
  (∃ l, field snapshot "errors" = texts l ∧ l ≡ₚ errors) ∧
  (∃ m, field snapshot "source_samples" = PDict m ∧ ∀ s, alist_get s m = samples s).

Lemma assemble_reports g g' errors about :
  g ≡ g' → (∀ k, k ∈ ["errors"; "source_samples"; "snapshot"] → alist_get k (ga_data g') = None) →
  reports (assemble g errors about) (λ k, alist_get k (ga_data g')) (ga_errors g' ++ errors) (λ s, alist_get s (ga_samples g')).
Proof.
  intros (Hd & He & Hs) Hnone. unfold reports, assemble, field.
  split_and!;
    [|exists (ga_errors g ++ errors); split; [|by rewrite He]|exists (ga_samples g); split; [|exact Hs]].
  - intros k Hk. rewrite alist_get_app, Hd. destruct (alist_get k (ga_data g')); [done|]. cbn.
    rewrite !elem_of_cons in Hk. by repeat (case_decide; [naive_solver|]).
  - rewrite alist_get_app, Hd, Hnone by set_solver. done.
  - rewrite alist_get_app, Hd, Hnone by set_solver. done.
Qed.

Lemma take_cached_present values g source value sample :
  alist_get source values = Some value → field value "sample" = PDict sample →
  take_cached values g source = take_source g (source, Ok value).
Proof. intros Hv Hs. unfold take_cached, take_source. by rewrite Hv, Hs. Qed.

(** The value of a source: its data, its errors and its sample. *)
Definition shaped (keys : list string) (value : mapping) : Prop :=
  ∃ data errors sample at_time, value = data ++ [("errors", texts errors); ("sample", PDict sample)] ∧
    data.*1 = keys ∧ alist_get "collected_at" sample = Some (PFloat at_time).

Lemma kubernetes_shaped s c d pods node_errors diagnostics :
  shaped ["pods"] (collect_kubernetes s c d pods node_errors diagnostics).
Proof.
  destruct pods; eexists [_], _, _, c; (split; [reflexivity|]); by split.
Qed.
Lemma nats_shaped s c d known completed unfinished value known' :
  collect_nats s c d known completed unfinished = Ok (value, known') →
  shaped ["nats_metrics"; "nats_micro_endpoints"; "nats_order_completed_observer"] value.
Proof.
  unfold collect_nats. destruct (metric_groups _ _); [|done]. intros [= <- _].
  eexists [_; _; _], _, _, c. split; [reflexivity|]. by split.
Qed.
Lemma raft_shaped s c d known completed unfinished :
  shaped ["nats_raft_groups"] (collect_nats_raft s c d known completed unfinished).
Proof.
  unfold collect_nats_raft. destruct (foldl _ _ _). eexists [_], _, _, c. split; [reflexivity|]. by split.
Qed.

Lemma source_ages_shaped now samples :
  Forall (λ s, ∃ sample at_time, s.2 = PDict sample ∧ alist_get "collected_at" sample = Some (PFloat at_time)) samples →
  ∃ ages, source_ages now samples = Ok ages.
Proof.
  induction 1 as [|[s v] samples (sample & t & Hv & Ht) _ [ages IH]]; [by eexists|]. cbn in Hv. subst v.
  eexists. cbn [source_ages py_get]. cbn [mbind res_bind]. rewrite Ht. cbn. by rewrite IH.
Qed.


(** ** What the metrics server answers *)

(** Its data is read only for a request that is authorized. *)
Definition metrics_ok (token : string) (rq : metrics_request) (X : Type) (op : metricsE X) (sent : list Z) : Prop :=
  match op with MSend _ _ => True | _ => authorized token rq = Ok true end.
Definition metrics_may (X : Type) (op : metricsE X) (sent : list Z) (x : X) : Prop := True.
Definition record_status (X : Type) (op : metricsE X) (x : X) (sent : list Z) : list Z :=
  match op with MSend status _ => sent ++ [status] | _ => sent end.

(** The statuses that a path and its authorization allow, and the exception
    that leaves a request without a response. *)
Definition metrics_answer (path : res string) (allowed : res bool) (r : res unit) (sent : list Z) : Prop :=
  match path with
  | Raise e => r = Raise e ∧ sent = []
  | Ok path =>
      if String.eqb path "/healthz" then sent = [200%Z]
      else if negb (bool_decide (path ∈ ["/snapshot"; "/nats-order-completed-observer"])) then sent = [404%Z]
      else match allowed with
      | Raise e => r = Raise e ∧ sent = []
      | Ok false => sent = [401%Z]
      | Ok true => sent = [200%Z] ∨ sent = [503%Z] ∨ sent = [200%Z; 503%Z]
      end
  end.

Lemma send_json_answers token rq status value sent :
  wp (metrics_ok token rq) metrics_may record_status (send_json status value) (λ _ t, t = sent ++ [status]) sent.
Proof. by apply wp_call. Qed.

Lemma serve_metrics_answers token rq path sent :
  authorized token rq = Ok true →
  wp (metrics_ok token rq) metrics_may record_status (serve_metrics path)
    (λ r t, t = sent ++ [200%Z] ∨ t = sent ∧ is_ok r = false) sent.
Proof.
  intros Hallowed. unfold serve_metrics. destruct (String.eqb _ _); apply wp_bind, wp_call; try done; intros [m|e] _; [|by right| |by right].
  all: eapply wp_conseq; [apply send_json_answers|]; intros r t ->; by left.
Qed.


(** ** Concrete inputs *)

(** A token outside ASCII cannot be compared: the request gets no response. *)
Example odd_token_unanswered :
  authorized "secret" (MetricsRequest "/snapshot" (Some ("Bearer " +:+ String.String (Ascii.ascii_of_nat 233) ""))) =
  Raise (TypeError "comparing strings with non-ASCII characters is not supported").
Proof. vm_compute. reflexivity. Qed.
Example token_checked :
  (λ a, authorized "secret" (MetricsRequest "/snapshot" a)) <$>
    [None; Some "secret"; Some "Basic secret"; Some "bearer secret"; Some "Bearer secre"] =
  [Ok false; Ok false; Ok false; Ok true; Ok false].
Proof. vm_compute. reflexivity. Qed.

Definition demo_metric : pyval :=
  PDict [("name", PStr "jetstream_consumer_num_pending");
         ("labels", PDict [("stream_name", PStr "BOUTIQUE_EVENTS"); ("stream_raft_group", PStr "S-R3F-a")]);
         ("value", PFloat (float_dec 4 0)); ("endpoint", PStr "http://nats-0")].
Definition demo_replies : list nats_reply :=
  [ObserverReply (Raise (TimeoutError "timed out")); ExporterReply "http://nats-0" (Ok [demo_metric])].
Definition demo_nats : mapping * list (string * string) :=
  match collect_nats (float_dec 0 0) (float_dec 1 0) (float_dec 1 0) [] demo_replies ["http://nats-1"] with
  | Ok v => v | Raise _ => ([], []) end.
Definition demo_kubernetes : mapping :=
  collect_kubernetes (float_dec 0 0) (float_dec 1 0) (float_dec 1 0) (Raise (RuntimeError "forbidden")) [] [].
Definition demo_raft : mapping :=
  collect_nats_raft (float_dec 0 0) (float_dec 1 0) (float_dec 1 0) demo_nats.2
    [("http://nats-0", Ok [[("group", PStr "S-R3F-a"); ("kind", PStr "stream")]; [("group", PStr "S-R3F-b"); ("kind", PStr "stream")]])] [].

(** The groups of the application's streams are known from its metrics. *)
Example demo_selected :
  field demo_raft "nats_raft_groups" =
  PList [PDict [("group", PStr "S-R3F-a"); ("kind", PStr "stream"); ("stream_name", PStr "BOUTIQUE_EVENTS")]].
Proof. vm_compute. reflexivity. Qed.

