(* ===== verification/NatsReport.v ===== *)
(** * The NATS tables of a report (benchmarkservice/reporting.py)

    A report reduces the NATS samples of the steady interval: the Raft groups,
    the consumers and streams, the servers, and the micro services. *)

From S2P Require Import Prelude PyFloat PyValue BenchConfig Saturation Reporting.

(** [sorted(d.items())]; keys are distinct. *)
Definition item_le {V} (a b : string * V) : Prop := String.le a.1 b.1.
#[export] Instance item_le_dec {V} (a b : string * V) : Decision (item_le a b).
Proof. unfold item_le. apply _. Defined.
Definition sorted_items {V} : list (string * V) → list (string * V) := merge_sort item_le.

(** [d[k].append(x)] on a [defaultdict(list)]. *)
Definition push {K V} `{EqDecision K} (d : list (K * list V)) (k : K) (x : V) : list (K * list V) :=
  alist_set k (default [] (alist_get k d) ++ [x]) d.

(** [int(m.get(k, 0))] *)
Definition item_int (m : mapping) (k : string) : res Z := py_int (default (PInt 0) (alist_get k m)).

(** [float(record.get("elapsed_seconds", index))] *)
Definition record_elapsed (record : mapping) (index : nat) : res pyfloat :=
  py_float (default (PInt (Z.of_nat index)) (alist_get "elapsed_seconds" record)).

(** ** Raft groups *)

(** What a group was like at a sample, over its replicas. *)
Record raft_point := RaftPoint {
  rp_elapsed : pyfloat;
  rp_kind : string;
  rp_stream_name : pyval;
  rp_leader : string;
  rp_term : Z;
  rp_committed : Z;
  rp_applied : Z;
  rp_gap : Z;
  rp_queue : Z;
  rp_wal_messages : Z;
  rp_wal_bytes : Z;
  rp_wal_first : Z;
  rp_wal_last : Z;
  rp_replicas : Z;
}.

(** The observations of a record by account and group.
    [reporting.py:758-765 nats_raft_summary] *)
Fixpoint sample_groups (observations : list pyval) (groups : list (string * list mapping)) : list (string * list mapping) :=
  match observations with
  | [] => groups
  | PDict m :: observations =>
      let account := py_str (default (PStr "unknown") (alist_get "account" m)) in
      let group := py_str (default (PStr "") (alist_get "group" m)) in
      sample_groups observations
        (if String.eqb group "" then groups else push groups (account +:+ "/" +:+ group) m)
  | _ :: observations => sample_groups observations groups
  end.

Definition z_max (x : Z) (l : list Z) : Z := foldl Z.max x l.

(** [max(observations, key=...)]: the first of the largest. *)
Definition first_max (x : mapping * Z) (l : list (mapping * Z)) : mapping * Z :=
  foldl (λ best o, if (best.2 <? o.2)%Z then o else best) x l.

Definition queue_names : list string := ["proposal_queue"; "entry_queue"; "response_queue"; "apply_queue"].

(** The point of a group, whose observations are not empty: the leader's view,
    or that of the replica that committed most.
    [reporting.py:766-819 nats_raft_summary] *)
Definition group_point (elapsed : pyfloat) (first : mapping) (rest : list mapping) : res raft_point :=
  let observations := first :: rest in
  c ← item_int first "committed";
  cs ← res_mapM (λ o, item_int o "committed") rest;
  let best := (first_max (first, c) (zip rest cs)).1 in
  let leader := match list_find (λ o, py_eqb (field o "state") (PStr "LEADER") = true) observations with
                | Some (_, o) => o | None => best end in
  let committed := z_max c cs in
  a ← item_int first "applied";
  applied ← res_mapM (λ o, item_int o "applied") rest;
  term ← item_int leader "term";
  queues ← res_mapM (λ o, q ← res_mapM (item_int o) queue_names; Ok (sum_Z q)) observations;
  messages ← item_int leader "wal_messages";
  bytes ← item_int leader "wal_bytes";
  wal_first ← item_int leader "wal_first_seq";
  wal_last ← item_int leader "wal_last_seq";
  Ok (RaftPoint elapsed (py_str (default (PStr "other") (alist_get "kind" leader))) (field leader "stream_name")
        (py_str (default (PStr "") (alist_get "leader" leader))) term committed (z_max a applied)
        (z_max (committed - a) ((λ x, committed - x) <$> applied))%Z
        (match queues with q :: qs => z_max q qs | [] => 0%Z end)
        messages bytes wal_first wal_last (Z.of_nat (length observations))).

Fixpoint add_points (elapsed : pyfloat) (groups : list (string * list mapping)) (points : list (string * list raft_point))
  : res (list (string * list raft_point)) :=
  match groups with
  | [] => Ok points
  | (key, first :: rest) :: groups =>
      point ← group_point elapsed first rest; add_points elapsed groups (push points key point)
  | (_, []) :: groups => add_points elapsed groups points
  end.

(** [reporting.py:754-819 nats_raft_summary] *)
Fixpoint raft_points (index : nat) (records : list mapping) (points : list (string * list raft_point))
  : res (list (string * list raft_point)) :=
  match records with
  | [] => Ok points
  | record :: records =>
      if negb (steady record) then raft_points (S index) records points else
      elapsed ← record_elapsed record index;
      observations ← py_iter (default (PList []) (alist_get "nats_raft_groups" record));
      points ← add_points elapsed (sample_groups observations []) points;
      raft_points (S index) records points
  end.

(** The write-ahead log moved its start forward under the same leader.
    [reporting.py:826-841 nats_raft_summary] *)
Definition compaction (previous current : raft_point) : option mapping :=
  if (rp_wal_first current <=? rp_wal_first previous)%Z
     || negb (String.eqb (rp_leader current) (rp_leader previous))
     || negb (rp_term current =? rp_term previous)%Z
  then None
  else Some [("elapsed_seconds", PFloat (f_round (rp_elapsed current) 3));
             ("wal_first_sequence_before", PInt (rp_wal_first previous));
             ("wal_first_sequence_after", PInt (rp_wal_first current));
             ("wal_messages_before", PInt (rp_wal_messages previous));
             ("wal_messages_after", PInt (rp_wal_messages current));
             ("wal_bytes_before", PInt (rp_wal_bytes previous));
             ("wal_bytes_after", PInt (rp_wal_bytes current))].

Definition compactions (points : list raft_point) : list mapping :=
  omap (λ pc, compaction pc.1 pc.2) (zip points (tail points)).

(** [_metric_stats] of integers; they are compared and subtracted exactly.
    [reporting.py:641-652 _metric_stats] *)
Definition int_stats (first : pyfloat * Z) (rest : list (pyfloat * Z)) : mapping :=
  let maximum := z_max first.2 rest.*2 in
  let at_elapsed := match list_find (λ ev, ev.2 = maximum) (first :: rest) with
                    | Some (_, ev) => ev.1 | None => first.1 end in
  let final := default first (last rest) in
  [("first", PInt first.2); ("last", PInt final.2); ("max", PInt maximum);
   ("max_at_elapsed_seconds", PFloat (f_round at_elapsed 3)); ("change", PInt (final.2 - first.2))].

(** The table of a group, whose points are not empty.
    [reporting.py:844-880 nats_raft_summary] *)
Definition group_table (first : raft_point) (rest : list raft_point) : mapping :=
  let points := first :: rest in
  let final := default first (last rest) in
  let stats f := PDict (int_stats (rp_elapsed first, f first) ((λ p, (rp_elapsed p, f p)) <$> rest)) in
  [("kind", PStr (rp_kind final)); ("stream_name", rp_stream_name final);
   ("samples", PInt (Z.of_nat (length points)));
   ("replicas_seen_max", PInt (z_max (rp_replicas first) (rp_replicas <$> rest)));
   ("leader", PDict (leader_summary ((λ p, (rp_elapsed p, rp_leader p)) <$> points)));
   ("term", stats rp_term); ("committed", stats rp_committed); ("applied", stats rp_applied);
   ("max_commit_apply_gap", PInt (z_max (rp_gap first) (rp_gap <$> rest)));
   ("max_queue_depth", PInt (z_max (rp_queue first) (rp_queue <$> rest)));
   ("wal_messages", stats rp_wal_messages); ("wal_bytes", stats rp_wal_bytes);
   ("wal_first_sequence", stats rp_wal_first); ("wal_last_sequence", stats rp_wal_last);
   ("snapshot_or_compaction_events", PList (PDict <$> compactions points))].

Definition raft_tables (groups : list (string * list raft_point)) : list (string * mapping) :=
  omap (λ kp, match kp.2 with first :: rest => Some (kp.1, group_table first rest) | [] => None end) groups.
Definition tables_of_kind (kind : string) (tables : list (string * mapping)) : pyval :=
  PInt (Z.of_nat (length (filter (λ kt, py_eqb (field kt.2 "kind") (PStr kind) = true) tables))).
Definition table_maximum (k : string) (tables : list (string * mapping)) : pyval :=
  PInt (z_max 0 ((λ kt, match field kt.2 k with PInt z => z | _ => 0%Z end) <$> tables)).

(** [reporting.py:752-896 nats_raft_summary] *)
Definition nats_raft_summary (records : list mapping) : res mapping :=
  points ← raft_points 0 records [];
  let groups := sorted_items points in
  let tables := raft_tables groups in
  let events := groups ≫= λ kp, (λ event, PDict (("group", PStr kp.1) :: event)) <$> compactions kp.2 in
  Ok [("available", PBool (match tables with [] => false | _ => true end));
      ("groups", PInt (Z.of_nat (length tables))); ("stream_groups", tables_of_kind "stream" tables);
      ("consumer_groups", tables_of_kind "consumer" tables);
      ("snapshot_or_compaction_event_count", PInt (Z.of_nat (length events)));
      ("snapshot_or_compaction_events", PList events);
      ("max_commit_apply_gap", table_maximum "max_commit_apply_gap" tables);
      ("max_queue_depth", table_maximum "max_queue_depth" tables);
      ("by_group", PDict ((λ kt, (kt.1, PDict kt.2)) <$> tables))].

(** ** Consumers, streams and servers *)

(** [reporting.py:22-31 NATS_CONSUMER_METRICS] *)
Definition NATS_CONSUMER_METRICS : list (string * string) :=
  [("jetstream_consumer_num_pending", "consumer_pending");
   ("jetstream_consumer_num_ack_pending", "consumer_ack_pending");
   ("jetstream_consumer_num_redelivered", "consumer_redelivered");
   ("jetstream_consumer_num_waiting", "consumer_waiting");
   ("jetstream_consumer_ack_floor_consumer_seq", "ack_floor_consumer_seq");
   ("jetstream_consumer_ack_floor_stream_seq", "ack_floor_stream_seq");
   ("jetstream_consumer_delivered_consumer_seq", "delivered_consumer_seq");
   ("jetstream_consumer_delivered_stream_seq", "delivered_stream_seq")].

(** [reporting.py:32-39 NATS_STREAM_METRICS] *)
Definition NATS_STREAM_METRICS : list (string * string) :=
  [("jetstream_stream_consumer_count", "consumer_count"); ("jetstream_stream_first_seq", "first_sequence");
   ("jetstream_stream_last_seq", "last_sequence"); ("jetstream_stream_subject_count", "subject_count");
   ("jetstream_stream_total_bytes", "stored_bytes"); ("jetstream_stream_total_messages", "stored_messages")].

(** Whether the values of the servers are added; otherwise the largest counts.
    [reporting.py:40-105 NATS_SERVER_METRICS] *)
Definition NATS_SERVER_METRICS : list (string * (string * bool)) :=
  [("gnatsd_varz_jetstream_stats_storage", ("storage_bytes", true));
   ("gnatsd_varz_jetstream_stats_memory", ("jetstream_memory_bytes", true));
   ("gnatsd_varz_jetstream_stats_reserved_storage", ("reserved_storage_bytes", true));
   ("gnatsd_varz_jetstream_stats_reserved_memory", ("reserved_memory_bytes", true));
   ("gnatsd_varz_jetstream_config_max_storage", ("max_storage_bytes", true));
   ("gnatsd_varz_jetstream_config_max_memory", ("max_memory_bytes", true));
   ("jetstream_account_storage_used", ("account_storage_used_bytes", false));
   ("gnatsd_varz_jetstream_stats_ha_assets", ("ha_assets", true));
   ("gnatsd_varz_cpu", ("nats_cpu_percent", true)); ("gnatsd_varz_mem", ("nats_memory_bytes", true));
   ("gnatsd_varz_in_bytes", ("in_bytes", true)); ("gnatsd_varz_in_msgs", ("in_messages", true));
   ("gnatsd_varz_out_bytes", ("out_bytes", true)); ("gnatsd_varz_out_msgs", ("out_messages", true));
   ("gnatsd_varz_jetstream_stats_api_errors", ("jetstream_api_errors", true));
   ("gnatsd_varz_jetstream_stats_api_total", ("jetstream_api_requests", true));
   ("gnatsd_varz_slow_consumers", ("slow_consumers", true));
   ("gnatsd_varz_stale_connections", ("stale_connections", true));
   ("gnatsd_varz_stalled_clients", ("stalled_clients", true));
   ("gnatsd_varz_jetstream_config_sync_interval", ("sync_interval_nanoseconds", false));
   ("gnatsd_varz_jetstream_meta_cluster_size", ("meta_cluster_size", false));
   ("gnatsd_varz_jetstream_meta_pending", ("meta_pending", false));
   ("gnatsd_varz_jetstream_meta_pending_infos", ("meta_pending_infos", false));
   ("gnatsd_varz_jetstream_meta_pending_requests", ("meta_pending_requests", false));
   ("gnatsd_varz_jetstream_meta_snapshot_last_duration", ("meta_snapshot_last_duration_nanoseconds", false));
   ("gnatsd_varz_jetstream_meta_snapshot_pending_entries", ("meta_snapshot_pending_entries", false));
   ("gnatsd_varz_jetstream_meta_snapshot_pending_size", ("meta_snapshot_pending_bytes", false))].

(** [reporting.py:106-115 NATS_MAINTENANCE_ALIASES] *)
Definition NATS_MAINTENANCE_ALIASES : list string :=
  ["sync_interval_nanoseconds"; "meta_cluster_size"; "meta_pending"; "meta_pending_infos"; "meta_pending_requests";
   "meta_snapshot_last_duration_nanoseconds"; "meta_snapshot_pending_entries"; "meta_snapshot_pending_bytes"].

(** Values by owner and alias, and series of values. *)
Definition values_by := list (string * list (string * pyfloat)).
Definition series := list (string * list (pyfloat * pyfloat)).

(** [d[key][alias] = max(value, d[key].get(alias, 0.0))] *)
Definition keep_highest (d : values_by) (key alias : string) (value : pyfloat) : values_by :=
  let values := default [] (alist_get key d) in
  alist_set key (alist_set alias (f_max value (default (float_dec 0 0) (alist_get alias values))) values) d.

(** What the metrics of one record give. *)
Record gathering := Gathering {
  g_consumers : values_by;
  g_streams : values_by;
  g_leaders : list (string * string);
  g_servers : list (string * list pyfloat);
  g_meta : list (pyfloat * string);
}.

(** [labels.get(a) or labels.get(b)] *)
Definition label_or (labels : pyval) (a b : string) : res pyval :=
  x ← py_get labels a PNone; if py_truth x then Ok x else py_get labels b PNone.

(** [reporting.py:939-980 nats_summary] *)
Definition metric_turn (elapsed : pyfloat) (g : gathering) (metric : pyval) : res gathering :=
  name ← py_get metric "name" (PStr "");
  let name := py_str name in
  v ← py_get metric "value" (PInt 0);
  value ← py_float v;
  labels ← py_get metric "labels" (PDict []);
  consumer ← label_or labels "consumer_name" "consumer";
  stream ← label_or labels "stream_name" "stream";
  match alist_get name NATS_CONSUMER_METRICS with
  | Some alias =>
      known ← py_in_set stream APPLICATION_STREAMS;
      Ok (if negb known || negb (py_truth consumer) then g else
          Gathering (keep_highest (g_consumers g) (py_str stream +:+ "/" +:+ py_str consumer) alias value)
            (g_streams g) (g_leaders g) (g_servers g) (g_meta g))
  | None =>
  match alist_get name NATS_STREAM_METRICS with
  | Some alias =>
      known ← py_in_set stream APPLICATION_STREAMS;
      if negb known then Ok g else
      leader ← py_get labels "stream_leader" PNone;
      Ok (Gathering (g_consumers g) (keep_highest (g_streams g) (py_str stream) alias value)
            (if py_truth leader then alist_set (py_str stream) (py_str leader) (g_leaders g) else g_leaders g)
            (g_servers g) (g_meta g))
  | None =>
  match alist_get name NATS_SERVER_METRICS with
  | Some (alias, _) =>
      Ok (Gathering (g_consumers g) (g_streams g) (g_leaders g) (push (g_servers g) alias value) (g_meta g))
  | None =>
      if String.eqb name "gnatsd_varz_jetstream_meta_leader" && fltb (float_dec 0 0) value then
        leader ← label_or labels "value" "leader";
        Ok (Gathering (g_consumers g) (g_streams g) (g_leaders g) (g_servers g)
              (if py_truth leader then g_meta g ++ [(elapsed, py_str leader)] else g_meta g))
      else Ok g
  end end end.

Fixpoint metric_turns (elapsed : pyfloat) (g : gathering) (metrics : list pyval) : res gathering :=
  match metrics with
  | [] => Ok g
  | metric :: metrics => g ← metric_turn elapsed g metric; metric_turns elapsed g metrics
  end.

(** What the records give. *)
Record tables := Tables {
  t_series : series;
  t_pending : list (Z * pyfloat);
  t_consumers : list (string * series);
  t_streams : list (string * series);
  t_stream_leaders : list (string * list (pyfloat * string));
  t_meta : list (pyfloat * string);
}.

(** Every value of an owner goes to its series.
    [reporting.py:982-985 nats_summary] *)
Definition extend_series (elapsed : pyfloat) (d : list (string * series)) (values : values_by) : list (string * series) :=
  foldl (λ d kv, alist_set kv.1
    (foldl (λ s av, push s av.1 (elapsed, av.2)) (default [] (alist_get kv.1 d)) kv.2) d) d values.

(** The sums over the consumers.
    [reporting.py:982-985 nats_summary] *)
Definition consumer_totals (values : values_by) : list (string * pyfloat) :=
  foldl (λ totals av, alist_set av.1 (fadd (default (float_dec 0 0) (alist_get av.1 totals)) av.2) totals) []
    (values ≫= snd).

(** The value of the servers together.
    [reporting.py:995-1003 nats_summary] *)
Definition server_value (alias : string) (values : list pyfloat) : pyfloat :=
  match list_find (λ m, m.2.1 = alias) NATS_SERVER_METRICS with
  | Some (_, (_, (_, true))) => float_sum values
  | _ => match values with [] => float_dec 0 0 | v :: values => foldl f_max v values end
  end.

(** [reporting.py:932-1003 nats_summary] *)
Definition record_turn (index : nat) (t : tables) (record : mapping) : res tables :=
  elapsed ← record_elapsed record index;
  metrics ← py_iter (default (PList []) (alist_get "nats_metrics" record));
  g ← metric_turns elapsed (Gathering [] [] [] [] (t_meta t)) metrics;
  let totals := consumer_totals (g_consumers g) in
  second ← match alist_get "consumer_pending" totals with
           | Some pending => s ← f_floor elapsed; Ok (Some (Z.max 0 s, pending))
           | None => Ok None
           end;
  let series := foldl (λ s av, push s av.1 (elapsed, av.2)) (t_series t) totals in
  let series := foldl (λ s av, push s av.1 (elapsed, server_value av.1 av.2)) series (g_servers g) in
  Ok (Tables series
        (match second with Some (s, pending) => alist_set s pending (t_pending t) | None => t_pending t end)
        (extend_series elapsed (t_consumers t) (g_consumers g))
        (extend_series elapsed (t_streams t) (g_streams g))
        (foldl (λ d sl, push d sl.1 (elapsed, sl.2)) (t_stream_leaders t) (g_leaders g))
        (g_meta g)).

Fixpoint record_turns (index : nat) (t : tables) (records : list mapping) : res tables :=
  match records with
  | [] => Ok t
  | record :: records => t ← record_turn index t record; record_turns (S index) t records
  end.

(** The pending events second by second, the last count standing for the
    seconds without one.
    [reporting.py:1029-1037 nats_summary] *)
Fixpoint pending_points (pending : list (Z * pyfloat)) (seconds : list Z) (latest : option pyfloat) : list pyval :=
  match seconds with
  | [] => []
  | second :: seconds =>
      let latest := match alist_get second pending with Some v => Some v | None => latest end in
      match latest with
      | Some v => PDict [("elapsed_seconds", PInt second); ("waiting_events", PFloat v)] :: pending_points pending seconds latest
      | None => pending_points pending seconds latest
      end
  end.
(** [reporting.py:1024-1038 nats_summary] *)
Definition pending_series (pending : list (Z * pyfloat)) : list pyval :=
  match pending.*1 with
  | [] => []
  | s :: seconds =>
      let first := foldl Z.min s seconds in
      pending_points pending (seqZ first (foldl Z.max s seconds - first + 1)) None
  end.

(** The statistics of the series of an owner. *)
Definition series_stats (s : series) : res mapping :=
  res_mapM (λ av, stats ← metric_stats av.2; Ok (av.1, PDict stats)) (sorted_items s).

(** Where a server-wide statistic goes.
    [reporting.py:1018-1023 nats_summary] *)
Inductive place := InResult | InMaintenance | InServer.
Definition place_of (alias : string) : place :=
  if bool_decide (alias ∈ NATS_CONSUMER_METRICS.*2) || String.eqb alias "storage_bytes" then InResult
  else if bool_decide (alias ∈ NATS_MAINTENANCE_ALIASES) then InMaintenance else InServer.
#[export] Instance place_eq_dec : EqDecision place.
Proof. solve_decision. Defined.

Definition with_pending (pending : list (Z * pyfloat)) (as_ : string * pyval) : string * pyval :=
  match pending, as_.2 with
  | _ :: _, PDict stats =>
      if String.eqb as_.1 "consumer_pending"
      then (as_.1, PDict (alist_set "series" (PList (pending_series pending)) stats)) else as_
  | _, _ => as_
  end.

(** ** Micro services *)

Definition micro_totals := list (string * (pyfloat * pyfloat * pyfloat)).

(** What the micro-service samples of the records give. *)
Record micro_tables := MicroTables {
  m_instances : list (string * string * string * list mapping);
  m_pending : list (string * list Z);
  m_subjects : list (string * string);
}.

(** One sample of an endpoint.
    [reporting.py:1072-1083 nats_micro_summary] *)
Definition endpoint_turn (t : micro_tables) (pending : counts) (endpoint : pyval) : res (micro_tables * counts) :=
  s ← py_get endpoint "service_name" (PStr "");
  i ← py_get endpoint "service_id" (PStr "");
  n ← py_get endpoint "endpoint_name" (PStr "");
  let '(service, instance, name) := (py_str s, py_str i, py_str n) in
  if String.eqb service "" || String.eqb instance "" || String.eqb name "" then Ok (t, pending) else
  let key := service +:+ "/" +:+ name in
  subject ← py_get endpoint "subject" (PStr "");
  p ← py_get endpoint "pending_requests" PNone;
  let observation := match endpoint with PDict m => m | _ => [] end in
  let t := MicroTables (push (m_instances t) (service, instance, name) observation) (m_pending t)
             (alist_set key (py_str subject) (m_subjects t)) in
  match p with
  | PNone => Ok (t, pending)
  | p => n ← py_int p; Ok (t, alist_set key (default 0 (alist_get key pending) + Z.max 0 n)%Z pending)
  end.

Fixpoint endpoint_turns (t : micro_tables) (pending : counts) (endpoints : list pyval) : res (micro_tables * counts) :=
  match endpoints with
  | [] => Ok (t, pending)
  | endpoint :: endpoints => r ← endpoint_turn t pending endpoint; endpoint_turns r.1 r.2 endpoints
  end.

(** [reporting.py:1070-1085 nats_micro_summary] *)
Fixpoint micro_records (t : micro_tables) (records : list mapping) : res micro_tables :=
  match records with
  | [] => Ok t
  | record :: records =>
      endpoints ← py_iter (default (PList []) (alist_get "nats_micro_endpoints" record));
      r ← endpoint_turns t [] endpoints;
      let '(t, pending) := (r : micro_tables * counts) in
      micro_records (MicroTables (m_instances t)
                       (foldl (λ d kp, push d kp.1 kp.2) (m_pending t) pending) (m_subjects t)) records
  end.

(** What an instance did between its first and its last sample; a counter that
    went backwards counts as unused.
    [reporting.py:1094-1112 nats_micro_summary] *)
Definition instance_change (first final : mapping) (k : string) : res Z :=
  a ← item_int final k; b ← item_int first k; Ok (Z.max 0 (a - b)).

Fixpoint instance_totals (instances : list (string * string * string * list mapping)) (totals : micro_totals)
  : res micro_totals :=
  match instances with
  | [] => Ok totals
  | ((service, _, name), first :: rest) :: instances =>
      let final := default first (last rest) in
      let key := service +:+ "/" +:+ name in
      let '(r, e, p) := default (float_dec 0 0, float_dec 0 0, float_dec 0 0) (alist_get key totals) in
      requests ← instance_change first final "num_requests";
      r ← fadd_int r requests;
      errors ← instance_change first final "num_errors";
      e ← fadd_int e errors;
      processing ← instance_change first final "processing_time_nanoseconds";
      p ← fadd_int p processing;
      instance_totals instances (alist_set key (r, e, p) totals)
  | (_, []) :: instances => instance_totals instances totals
  end.

(** [reporting.py:1118-1134 nats_micro_summary] *)
Definition endpoint_table (t : micro_tables) (key : string) (values : pyfloat * pyfloat * pyfloat) : res mapping :=
  let '(r, e, p) := values in
  requests ← f_trunc r;
  let seconds := fdiv p (float_dec 1000000000 0) in
  errors ← f_trunc e;
  average ← (if (requests =? 0)%Z then Ok PNone
             else n ← float_of_Z requests; Ok (PFloat (f_round (fdiv seconds n) 9)));
  let pending := default [] (alist_get key (m_pending t)) in
  Ok [("subject", PStr (default "" (alist_get key (m_subjects t)))); ("requests", PInt requests);
      ("errors", PInt errors); ("processing_seconds", PFloat (f_round seconds 9));
      ("average_processing_seconds", average);
      ("max_pending_requests", match pending with [] => PNone | p :: ps => PInt (z_max p ps) end);
      ("last_pending_requests", match last pending with None => PNone | Some p => PInt p end)].

(** [reporting.py:1063-1135 nats_micro_summary] *)
Definition nats_micro_summary (records : list mapping) : res mapping :=
  t ← micro_records (MicroTables [] [] []) records;
  totals ← instance_totals (m_instances t) [];
  match totals with
  | [] => Ok (unavailable "no NATS micro endpoint samples")
  | _ =>
      by_endpoint ← res_mapM (λ kv, table ← endpoint_table t kv.1 kv.2; Ok (kv.1, PDict table)) (sorted_items totals);
      Ok [("available", PBool true); ("by_endpoint", PDict by_endpoint)]
  end.

(** ** The summary *)

(** [reporting.py:913-920 nats_summary] *)
Definition collection_tables (health : list mapping) : res mapping :=
  exporter ← source_collection_summary health "nats";
  raft ← source_collection_summary health "nats_raft";
  Ok [("exporter", PDict exporter); ("raft", PDict raft)].

(** [reporting.py:1042-1051 nats_summary] *)
Definition stream_table (t : tables) (stream : string) (s : series) : res mapping :=
  stats ← series_stats s;
  Ok (alist_set "leader" (PDict (leader_summary (default [] (alist_get stream (t_stream_leaders t))))) stats).

(** [reporting.py:1006-1060 nats_summary] *)
Definition summary_of (t : tables) (raft collection : mapping) (steady : list mapping) : res mapping :=
  stats ← series_stats (t_series t);
  let at_place p := filter (λ as_, place_of as_.1 = p) stats in
  streams ← res_mapM (λ kv, table ← stream_table t kv.1 kv.2; Ok (kv.1, PDict table)) (sorted_items (t_streams t));
  consumers ← res_mapM (λ kv, table ← series_stats kv.2; Ok (kv.1, PDict table)) (sorted_items (t_consumers t));
  micro ← nats_micro_summary steady;
  let available := match t_series t, t_streams t with [], [] => py_truth (field raft "available") | _, _ => true end in
  Ok ([("available", PBool available); ("collection", PDict collection); ("raft", PDict raft)] ++
      (with_pending (t_pending t) <$> at_place InResult) ++
      [("maintenance", PDict (at_place InMaintenance ++ [("meta_leader", PDict (leader_summary (t_meta t)))]));
       ("server", PDict (at_place InServer)); ("streams", PDict streams); ("by_consumer", PDict consumers);
       ("micro_endpoints", PDict micro)]).

(** Before the first record. *)
Definition no_tables : tables := Tables [] [] [] [] [] [].

(** [reporting.py:899-1060 nats_summary] *)
Definition nats_summary (records : list mapping) (raft_records health_records : option (list mapping)) : res mapping :=
  let steady_records := filter (λ r, steady r = true) records in
  let raft_steady := filter (λ r, steady r = true) (default records raft_records) in
  collection ← collection_tables (default records health_records);
  match steady_records, raft_steady with
  | [], [] => Ok (unavailable "no steady-state samples" ++ [("collection", PDict collection)])
  | _, _ =>
      t ← record_turns 0 no_tables steady_records;
      raft ← nats_raft_summary raft_steady;
      summary_of t raft collection steady_records
  end.

(** ** The backlog of a run *)

Lemma series_stats_elem s stats k v :
  series_stats s = Ok stats → (k, v) ∈ stats →
  ∃ values m, (k, values) ∈ s ∧ metric_stats values = Ok m ∧ v = PDict m.
Proof.
  unfold series_stats. intros H%res_mapM_ok Hin. apply list_elem_of_lookup_1 in Hin as [i Hi].
  destruct (Forall2_lookup_r _ _ _ _ _ H Hi) as ([k' values] & Hk & Hm). cbn [fst snd] in Hm.
  bind_both Hm m Hstats. injection Hm as <- <-. exists values, m. split_and!; [|done|done].
  apply list_elem_of_lookup_2 in Hk. unfold sorted_items in Hk. by rewrite merge_sort_Permutation in Hk.
Qed.

(** Adding the seconds keeps the other statistics. *)
Lemma with_pending_get p x k m : with_pending p x = (k, PDict m) →
  ∃ m', x = (k, PDict m') ∧ alist_get "change" m = alist_get "change" m'.
Proof.
  destruct x as [k' v]. unfold with_pending. cbn [fst snd]. intros H.
  destruct p as [|q p]; [exists m; by rewrite H|]. destruct v as [| | | | | |stats]; try done.
  destruct (String.eqb k' _); [|exists m; by rewrite H]. injection H as <- <-. exists stats.
  split; [done|]. by rewrite alist_get_set_ne.
Qed.

Lemma metric_stats_change values m : metric_stats values = Ok m →
  ∃ first final, head values = Some first ∧ last values = Some final ∧
    alist_get "change" m = Some (PFloat (fsub final.2 first.2)).
Proof.
  destruct values as [|[e v] rest]; [done|]. cbn [metric_stats]. intros H. destruct (list_find _ _) as [[? [? ?]]|]; [|done].
  injection H as <-. exists (e, v), (default (e, v) (last rest)).
  split_and!; [done|by rewrite last_cons; destruct (last rest)|]. cbn. by destruct (last rest).
Qed.

(** The change of the backlog in a summary is that of the totals over the
    consumers of the application's streams, between the first and the last
    sample that has them. *)
Lemma nats_backlog records raft health s p :
  nats_summary records raft health = Ok s → field s "consumer_pending" = PDict p →
  ∃ t values first final,
    record_turns 0 no_tables (filter (λ r, steady r = true) records) = Ok t ∧
    ("consumer_pending", values) ∈ t_series t ∧ head values = Some first ∧ last values = Some final ∧
    alist_get "change" p = Some (PFloat (fsub final.2 first.2)).
Proof.
  unfold nats_summary. intros H Hp. bind_both H collection Hc.
  assert (∃ t r, record_turns 0 no_tables (filter (λ r, steady r = true) records) = Ok t ∧
    summary_of t r collection (filter (λ r, steady r = true) records) = Ok s) as (t & r & Ht & Hs).
  { destruct (filter _ records) as [|x l]; [destruct (filter _ (default records raft))|].
    - by injection H as <-.
    - bind_both H t Ht. bind_both H r Hr. by exists t, r.
    - bind_both H t Ht. bind_both H r Hr. by exists t, r. }
  clear H. unfold summary_of in Hs. bind_both Hs stats Hstats. bind_both Hs streams Hstreams.
  bind_both Hs consumers Hcons. bind_both Hs micro Hmicro. injection Hs as <-.
  unfold field in Hp. destruct (alist_get _ _) as [v|] eqn:Hget in Hp; [|done]. cbn in Hp. subst v.
  apply alist_get_Some_elem in Hget.
  rewrite !elem_of_cons, elem_of_app, !elem_of_cons, elem_of_nil, list_elem_of_fmap in Hget.
  destruct Hget as [[=]|[[=]|[[=]|[(x & Hx & Hin)|Hrest]]]]; [|by repeat destruct Hrest as [[=]|Hrest]].
  destruct (with_pending_get _ _ _ _ (eq_sym Hx)) as (m & -> & Hchange).
  apply list_elem_of_filter in Hin as [_ Hin].
  destruct (series_stats_elem _ _ _ _ Hstats Hin) as (values & m' & Hv & Hm & [= <-]).
  destruct (metric_stats_change _ _ Hm) as (first & final & Hfirst & Hfinal & Heq).
  exists t, values, first, final. by rewrite Hchange.
Qed.

(** ** The series of waiting events *)

(** The count at the last sampled second that is not after [second]. *)
Definition latest_at (pending : list (Z * pyfloat)) (first second : Z) (v : pyfloat) : Prop :=
  ∃ k, (first ≤ k ≤ second)%Z ∧ alist_get k pending = Some v ∧
       ∀ k', (k < k' ≤ second)%Z → alist_get k' pending = None.

Definition pending_point (second : Z) (v : pyfloat) : pyval :=
  PDict [("elapsed_seconds", PInt second); ("waiting_events", PFloat v)].

Lemma latest_at_here pending first second v :
  (first ≤ second)%Z → alist_get second pending = Some v → latest_at pending first second v.
Proof. intros Hle Hv. exists second. split_and!; [lia|lia|done|]. intros k' Hk'. lia. Qed.

Lemma latest_at_step pending first second v :
  alist_get (second + 1)%Z pending = None → latest_at pending first second v → latest_at pending first (second + 1) v.
Proof.
  intros Hnone (k & Hk & Hv & Hlater). exists k. split_and!; [lia|lia|done|]. intros k' Hk'.
  destruct (decide (k' = second + 1)%Z) as [->|]; [done|]. apply Hlater. lia.
Qed.

Lemma pending_points_spec pending first n start v :
  latest_at pending first start v →
  ∃ values, pending_points pending (seqZ (start + 1) (Z.of_nat n)) (Some v)
      = zip_with pending_point (seqZ (start + 1) (Z.of_nat n)) values ∧ length values = n ∧
    ∀ (i : nat) w, values !! i = Some w → latest_at pending first (start + 1 + Z.of_nat i) w.
Proof.
  revert start v. induction n as [|n IH]; intros start v Hv; [by exists []|].
  rewrite seqZ_cons by lia. cbn [pending_points].
  replace (Z.pred (Z.of_nat (S n))) with (Z.of_nat n) by lia. replace (Z.succ (start + 1)) with (start + 1 + 1)%Z by lia.
  assert (∃ w, match alist_get (start + 1)%Z pending with Some v => Some v | None => Some v end = Some w ∧
    latest_at pending first (start + 1) w) as (w & Hw & Hat).
  { destruct (alist_get (start + 1)%Z pending) as [w|] eqn:Hget.
    - exists w. split; [done|]. apply latest_at_here; [|done]. destruct Hv as (k & Hk & _). lia.
    - exists v. split; [done|]. by apply latest_at_step. }
  rewrite Hw. destruct (IH (start + 1)%Z w Hat) as (values & -> & Hlen & Hvalues).
  exists (w :: values). split_and!; [done|cbn; lia|]. intros [|i] x Hx.
  - injection Hx as <-. by replace (start + 1 + Z.of_nat 0)%Z with (start + 1)%Z by lia.
  - replace (start + 1 + Z.of_nat (S i))%Z with (start + 1 + 1 + Z.of_nat i)%Z by lia. by apply Hvalues.
Qed.

Lemma foldl_min_le l x : (foldl Z.min x l ≤ x ∧ Forall (λ y, foldl Z.min x l ≤ y) l ∧ (foldl Z.min x l ∈ x :: l))%Z.
Proof.
  revert x. induction l as [|y l IH]; intros x; cbn [foldl]; [split_and!; [lia|constructor|by left]|].
  destruct (IH (Z.min x y)) as (Hx & Hl & Hin). split_and!; [lia|constructor; [lia|done]|].
  apply elem_of_cons in Hin as [Heq|Hin]; [|by do 2 right]. rewrite Heq.
  destruct (Z.min_spec x y) as [[_ ->]|[_ ->]]; [left|right; left].
Qed.

Lemma foldl_max_ge l x : (x ≤ foldl Z.max x l)%Z ∧ Forall (λ y, y ≤ foldl Z.max x l)%Z l.
Proof.
  revert x. induction l as [|y l IH]; intros x; cbn [foldl]; [split; [lia|constructor]|].
  destruct (IH (Z.max x y)) as (Hx & Hl). split; [lia|constructor; [lia|done]].
Qed.

(** The series of waiting events has every second from the first to the
    last sampled one, in order and once each, and gives each the count of the
    last sample that is not after it. *)
Theorem pending_series_spec pending :
  pending ≠ [] →
  ∃ first final values,
    (∃ v, alist_get first pending = Some v) ∧
    Forall (λ k, first ≤ k ≤ final)%Z pending.*1 ∧
    pending_series pending = zip_with pending_point (seqZ first (final - first + 1)) values ∧
    Z.of_nat (length values) = (final - first + 1)%Z ∧
    ∀ (i : nat) v, values !! i = Some v → latest_at pending first (first + Z.of_nat i) v.
Proof.
  destruct pending as [|[k0 v0] rest]; [done|intros _]. set (pending := (k0, v0) :: rest).
  destruct (foldl_min_le rest.*1 k0) as (Hmin & Hmins & Hin). destruct (foldl_max_ge rest.*1 k0) as (Hmax & Hmaxs).
  unfold pending_series. change (pending.*1) with (k0 :: rest.*1). cbv beta iota zeta.
  set (first := foldl Z.min k0 rest.*1) in *. set (final := foldl Z.max k0 rest.*1) in *.
  assert (∃ v, alist_get first pending = Some v) as [v Hv].
  { destruct (alist_get first pending) as [v|] eqn:Hv; [by exists v|]. by apply alist_get_None in Hv. }
  rewrite seqZ_cons by lia. cbn [pending_points]. rewrite Hv.
  replace (Z.succ first) with (first + 1)%Z by lia. replace (Z.pred (final - first + 1)) with (Z.of_nat (Z.to_nat (final - first))) by lia.
  destruct (pending_points_spec pending first (Z.to_nat (final - first)) first v) as (values & -> & Hlen & Hvalues).
  { apply latest_at_here; [lia|done]. }
  exists first, final, (v :: values). split_and!; [by exists v| | |cbn; lia|].
  - constructor; [cbn; lia|]. apply Forall_forall. intros k Hk. rewrite Forall_forall in Hmins, Hmaxs.
    split; [by apply Hmins|by apply Hmaxs].
  - rewrite (seqZ_cons first) by lia. replace (Z.succ first) with (first + 1)%Z by lia.
    by replace (Z.pred (final - first + 1)) with (Z.of_nat (Z.to_nat (final - first))) by lia.
  - intros [|i] w Hw.
    + injection Hw as <-. apply latest_at_here; [lia|]. by replace (first + Z.of_nat 0)%Z with first by lia.
    + replace (first + Z.of_nat (S i))%Z with (first + 1 + Z.of_nat i)%Z by lia. by apply Hvalues.
Qed.

Lemma pending_series_spec_witness :
  ∃ first final values,
    (∃ v, alist_get first [(7, float_dec 2 0); (4, float_dec 5 0)]%Z = Some v) ∧
    Forall (λ k, first ≤ k ≤ final)%Z [7; 4]%Z ∧
    pending_series [(7, float_dec 2 0); (4, float_dec 5 0)]%Z
      = zip_with pending_point (seqZ first (final - first + 1)) values ∧
    Z.of_nat (length values) = (final - first + 1)%Z ∧
    ∀ (i : nat) v, values !! i = Some v → latest_at [(7, float_dec 2 0); (4, float_dec 5 0)]%Z first (first + Z.of_nat i) v.
Proof. by apply (pending_series_spec [(7, float_dec 2 0); (4, float_dec 5 0)]%Z). Defined.

Example demo_pending_series :
  pending_series [(7, float_dec 2 0); (4, float_dec 5 0)]%Z
  = [pending_point 4 (float_dec 5 0); pending_point 5 (float_dec 5 0); pending_point 6 (float_dec 5 0);
     pending_point 7 (float_dec 2 0)].
Proof. vm_compute. reflexivity. Qed.
