(* ===== verification/RunReport.v ===== *)
(** * The report of a run (benchmarkservice/reporting.py)

    [build_report] reads the artifacts of a run, reduces them by the summaries
    of Reporting.v, FaultReport.v and NatsReport.v, and writes the tables and
    the summary.  The theorems: the staged reduction of the rungs computes what
    [saturation_summary] computes, the rate it reports is the one before the
    first saturated rung, a run it calls sustainable was, and the table of the
    orders has a row per record. *)

From S2P Require Import Prelude PyFloat PyValue BenchConfig Saturation Reporting FaultReport NatsReport.
From Corelib Require Import SpecFloat.

(** ** Per-order metrics *)

(** [x <= 0] for a number. *)
Definition py_nonpositive (v : pyval) : res bool :=
  match v with
  | PInt z => Ok (z <=? 0)%Z
  | PBool b => Ok (negb b)
  | PFloat x => Ok (fleb x (float_dec 0 0))
  | _ => Raise (TypeError "'<=' not supported between instances")
  end.

(** [round(v / n, digits)] *)
Definition round_quotient (v : pyval) (n : Z) (digits : nat) : res pyval :=
  q ← match v with
      | PInt a => int_truediv a n
      | PFloat x => y ← float_of_Z n; f_truediv x y
      | _ => Raise (TypeError "unsupported operand type(s) for /")
      end;
  Ok (PFloat (f_round q digits)).

(** [resources[k] / completed], rounded. *)
Definition per_order (resources : mapping) (completed : Z) (k : string) (digits : nat) : res (string * pyval) :=
  v ← py_item (PDict resources) k; q ← round_quotient v completed digits; Ok (k, q).

(** [reporting.py:1716-1732 add_per_order_resource_metrics] *)
Definition add_per_order_resource_metrics (resources : mapping) (completed : Z) : res mapping :=
  if negb (py_truth (field resources "available")) then Ok resources else
  empty ← py_nonpositive (default (PInt 0) (alist_get "sampled_seconds" resources));
  if (empty : bool) || (completed <=? 0)%Z then Ok resources else
  cpu ← per_order resources completed "cpu_seconds" 9;
  memory ← per_order resources completed "memory_byte_seconds" 3;
  rx ← per_order resources completed "network_rx_bytes" 3;
  tx ← per_order resources completed "network_tx_bytes" 3;
  Ok (alist_set "per_completed_order" (PDict [cpu; memory; rx; tx]) resources).

(** [business["completed"]]: a count. *)
Definition completed_of (business : mapping) : res Z := v ← py_item (PDict business) "completed"; py_int v.

(** ** Rungs *)

Definition not_applicable : mapping := unavailable "not applicable to GRPC application".
Definition no_rungs : mapping := unavailable "no saturation rung decisions were recorded" ++ [("rungs", PList [])].

Definition decision_int (decision : mapping) (k : string) : res Z := v ← py_item (PDict decision) k; py_int v.
Definition decision_float (decision : mapping) (k : string) : res pyfloat := v ← py_item (PDict decision) k; py_float v.

(** The records that a worker made in a rung.
    [reporting.py:1758-1763 saturation_summary] *)
Definition rung_records (rung : Z) : list mapping → res (list mapping) :=
  res_filter (λ record, v ← context_get record "saturation_rung" PNone; Ok (py_eqb v (PInt rung))).

(** [started <= float(record.get("elapsed_seconds", -1)) <= ended]
    [reporting.py:1773-1784 saturation_summary] *)
Definition records_between (started ended : pyfloat) : list mapping → res (list mapping) :=
  res_filter (λ record, x ← py_float (default (PInt (-1)) (alist_get "elapsed_seconds" record));
                        Ok (fleb started x && fleb x ended)).

(** Dictionaries by rung. *)
Definition by_rung := list (Z * mapping).

Record rung_tables := RungTables {
  business_by_rung : by_rung;
  resources_by_rung : by_rung;
  nats_by_rung : by_rung;
  outstanding_by_rung : by_rung;
}.

Section rungs.
Context (c : config) (business_records resource_records outstanding_records : list mapping).

(** The loop body over the decisions.
    [reporting.py:1753-1807 saturation_summary] *)
Definition rung_turn (t : rung_tables) (decision : mapping) : res rung_tables :=
  rung_number ← decision_int decision "rung";
  started ← decision_float decision "started_elapsed_seconds";
  ended ← decision_float decision "ended_elapsed_seconds";
  duration ← decision_float decision "duration_seconds";
  rung_business_records ← rung_records rung_number business_records;
  rung_resource_records ← source_records_for_window resource_records "kubernetes" started ended;
  rung_nats_records ← source_records_for_window resource_records "nats" started ended;
  rung_raft_records ← source_records_for_window resource_records "nats_raft" started ended;
  rung_metrics_health_records ← records_between started ended resource_records;
  rung_outstanding_records ← records_between started ended outstanding_records;
  business ← business_summary rung_business_records (PFloat duration);
  resources ← resource_summary rung_resource_records true;
  completed ← completed_of business;
  resources ← add_per_order_resource_metrics resources completed;
  nats ← (if String.eqb (application_type c) "NATS"
          then nats_summary rung_nats_records (Some rung_raft_records) (Some rung_metrics_health_records)
          else Ok not_applicable);
  outstanding ← outstanding_summary rung_outstanding_records;
  Ok (RungTables (alist_set rung_number business (business_by_rung t))
        (alist_set rung_number resources (resources_by_rung t)) (alist_set rung_number nats (nats_by_rung t))
        (alist_set rung_number outstanding (outstanding_by_rung t))).

Fixpoint rung_turns (t : rung_tables) (decisions : list mapping) : res rung_tables :=
  match decisions with
  | [] => Ok t
  | decision :: decisions => t ← rung_turn t decision; rung_turns t decisions
  end.

(** [d[int(decision["rung"])]] *)
Definition at_rung (d : by_rung) (decision : mapping) : res pyval :=
  rung ← decision_int decision "rung";
  match alist_get rung d with Some m => Ok (PDict m) | None => Raise (KeyError (pretty rung)) end.

(** A decision with its tables.
    [reporting.py:1834-1843 assemble_saturation_summary] *)
Definition assemble_rung (t : rung_tables) (decision : mapping) : res mapping :=
  business ← at_rung (business_by_rung t) decision;
  outstanding ← at_rung (outstanding_by_rung t) decision;
  resources ← at_rung (resources_by_rung t) decision;
  nats ← at_rung (nats_by_rung t) decision;
  Ok (dict_update decision [("business", business); ("outstanding_orders", outstanding);
                            ("resources", resources); ("nats", nats)]).

(** Of the first saturated rung; artifacts written before saturation had a
    reason of its own have the reason for which the ladder stopped.
    [reporting.py:1864-1870 assemble_saturation_summary] *)
Definition reason_of (first_saturated : mapping) : pyval :=
  match field first_saturated "saturation_reason" with
  | PNone => field first_saturated "stop_reason" | reason => reason end.

(** [reporting.py:1819-1894 assemble_saturation_summary] *)
Definition assemble_saturation_summary (decisions : list mapping) (t : rung_tables) : res mapping :=
  match decisions with
  | [] => Ok no_rungs
  | _ =>
      rungs ← res_mapM (assemble_rung t) decisions;
      let first_saturated := list_find (λ rung, py_truth (field rung "saturated") = true) rungs in
      let sustainable_rungs := match first_saturated with Some (i, _) => take i rungs | None => rungs end in
      let target rung := field rung "target_requests_per_second" in
      Ok [("available", PBool true);
          ("start_requests_per_second", PFloat (saturation_start_rate c));
          ("step_requests_per_second", PFloat SATURATION_STEP_RATE);
          ("step_seconds", PInt (saturation_step_seconds c));
          ("maximum_requests_per_second", PFloat (saturation_max_rate c));
          ("rapid_pending_growth_threshold_per_second", PFloat RAPID_PENDING_GROWTH_PER_SECOND);
          ("saturated", PBool (bool_decide (is_Some first_saturated)));
          ("stop_reason", match last rungs with Some final => field final "stop_reason" | None => PNone end);
          ("saturation_reason", match first_saturated with Some (_, rung) => reason_of rung | None => PNone end);
          ("saturation_requests_per_second",
             match first_saturated with Some (_, rung) => target rung | None => PNone end);
          ("highest_sustainable_requests_per_second",
             match last sustainable_rungs with Some rung => target rung | None => PNone end);
          ("rungs", PList (PDict <$> rungs))]
  end.

(** The reduction in one loop, over all the records.
    [reporting.py:1735-1816 saturation_summary] *)
Definition saturation_summary (decisions : list mapping) : res mapping :=
  match decisions with
  | [] => Ok no_rungs
  | _ => t ← rung_turns (RungTables [] [] [] []) decisions; assemble_saturation_summary decisions t
  end.

(** ** The staged reduction *)

(** A loop over the decisions that fills one dictionary. *)
Fixpoint fill (f : mapping → Z → res mapping) (d : by_rung) (decisions : list mapping) : res by_rung :=
  match decisions with
  | [] => Ok d
  | decision :: decisions =>
      rung ← decision_int decision "rung"; m ← f decision rung; fill f (alist_set rung m d) decisions
  end.

(** [reporting.py:1978-1989 build_report] *)
Definition stage_business (decision : mapping) (rung : Z) : res mapping :=
  records ← rung_records rung business_records;
  duration ← decision_float decision "duration_seconds";
  business_summary records (PFloat duration).

(** [reporting.py:2022-2032 build_report] *)
Definition stage_resources (saturation_business : by_rung) (decision : mapping) (rung : Z) : res mapping :=
  started ← decision_float decision "started_elapsed_seconds";
  ended ← decision_float decision "ended_elapsed_seconds";
  records ← source_records_for_window resource_records "kubernetes" started ended;
  rung_resources ← resource_summary records true;
  completed ← match alist_get rung saturation_business with
              | Some business => completed_of business | None => Raise (KeyError (pretty rung)) end;
  add_per_order_resource_metrics rung_resources completed.

(** [reporting.py:2033-2053 build_report] *)
Definition stage_nats (decision : mapping) (rung : Z) : res mapping :=
  started ← decision_float decision "started_elapsed_seconds";
  ended ← decision_float decision "ended_elapsed_seconds";
  if negb (String.eqb (application_type c) "NATS") then Ok not_applicable else
  records ← source_records_for_window resource_records "nats" started ended;
  raft_records ← source_records_for_window resource_records "nats_raft" started ended;
  health_records ← records_between started ended resource_records;
  nats_summary records (Some raft_records) (Some health_records).

(** The two dictionaries of the second stage, filled by one loop.
    [reporting.py:2017-2053 build_report] *)
Fixpoint fill_sources (saturation_business : by_rung) (resources nats : by_rung) (decisions : list mapping)
  : res (by_rung * by_rung) :=
  match decisions with
  | [] => Ok (resources, nats)
  | decision :: decisions =>
      rung ← decision_int decision "rung";
      r ← stage_resources saturation_business decision rung;
      n ← stage_nats decision rung;
      fill_sources saturation_business (alist_set rung r resources) (alist_set rung n nats) decisions
  end.

(** [reporting.py:2059-2072 build_report] *)
Definition stage_outstanding (decision : mapping) (rung : Z) : res mapping :=
  started ← decision_float decision "started_elapsed_seconds";
  ended ← decision_float decision "ended_elapsed_seconds";
  records ← records_between started ended outstanding_records;
  outstanding_summary records.

End rungs.

(** ** Tables *)

(** The header and the rows of a CSV file. *)
Record table := Table { header : list string; rows : list (list pyval) }.

(** [csv.DictWriter]: the cells of a row are looked up by the header.  The
    modelled rows have no other keys. *)
Definition dict_row (fields : list string) (row : mapping) : list pyval := field row <$> fields.

(** [sorted(set)] of strings. *)
Definition sorted_names (names : list string) : list string := merge_sort String.le (remove_dups names).

(** [record.get("context", {}).items()] *)
Definition context_items (record : mapping) : res mapping :=
  match default (PDict []) (alist_get "context" record) with PDict m => Ok m | _ => attribute_error end.

Definition business_fields : list string :=
  ["timestamp"; "recorded_at"; "recorded_elapsed_seconds"; "phase"; "request_type"; "name"; "response_time_ms";
   "success"; "error"].

(** [reporting.py:2155-2165 write_business_csv] *)
Definition business_row (fields context_fields : list string) (record : mapping) : res (list pyval) :=
  context ← context_items record;
  let row := (λ key, (key, field record key)) <$> fields in
  Ok (dict_row fields (dict_update row (filter (λ kv, kv.1 ∈ context_fields) context))).

(** [reporting.py:2130-2165 write_business_csv] *)
Definition business_csv (records : list mapping) : res table :=
  contexts ← res_mapM context_items records;
  let names := filter (λ key, str_startswith "_" key = false) (contexts ≫= λ m, m.*1) in
  let context_fields := sorted_names names in
  let fields := business_fields ++ context_fields in
  rows ← res_mapM (business_row fields context_fields) records;
  Ok (Table fields rows).

Definition latency_fields (prefix : string) : list (string * string) :=
  [(prefix +:+ "_count", "count"); (prefix +:+ "_p50_ms", "p50_ms"); (prefix +:+ "_p95_ms", "p95_ms");
   (prefix +:+ "_p99_ms", "p99_ms"); (prefix +:+ "_max_ms", "max_ms")].
Definition second_fields : list string :=
  ["elapsed_seconds"; "phase"; "expected_requests"; "submitted_requests"; "accepted_requests";
   "successful_requests"; "failed_requests"; "lost_requests"; "successfully_processed"; "failures_observed";
   "outstanding_orders"; "nats_waiting_events"; "nats_ack_pending_events"; "nats_redelivered_events";
   "nats_metrics_sample_age_seconds"].

Definition latency_cells (latency : pyval) (fields : list (string * string)) : res mapping :=
  res_mapM (λ fk, v ← py_get latency fk.2 PNone; Ok (fk.1, v)) fields.

(** [reporting.py:2203-2223 write_fault_tolerance_csv] *)
Definition fault_row (fields : list string) (point : pyval) : res (list pyval) :=
  latency ← py_get point "completion_latency_ms" (PDict []);
  failure_latency ← py_get point "failure_latency_ms" (PDict []);
  seconds ← res_mapM (λ k, v ← py_get point k PNone; Ok (k, v)) second_fields;
  completion ← latency_cells latency (latency_fields "latency");
  failure ← latency_cells failure_latency (latency_fields "failure_latency");
  Ok (dict_row fields (seconds ++ completion ++ failure)).

(** [reporting.py:2168-2223 write_fault_tolerance_csv] *)
Definition fault_tolerance_csv (summary : mapping) : res table :=
  let fields := second_fields ++ (latency_fields "latency").*1 ++ (latency_fields "failure_latency").*1 in
  points ← py_iter (default (PList []) (alist_get "per_second" summary));
  rows ← res_mapM (fault_row fields) points;
  Ok (Table fields rows).

(** ** The report *)

(** The files of a run directory that the report reads.  A log that does not
    exist is [None]; the configuration is always there. *)
Record artifacts := Artifacts {
  config_json : res mapping;
  saturation_jsonl : option (list json_line);
  business_jsonl : option (list json_line);
  workflow_events_json : option (res pyval);
  resources_jsonl : option (list json_line);
  outstanding_jsonl : option (list json_line);
  faults_jsonl : option (list json_line);
  fault_plan_json : option (res pyval);
}.

(** The files that it writes. *)
Record outputs := Outputs {
  business_csv_file : option table;
  summary_json : option pyval;
  fault_tolerance_csv_file : option table;
}.

Definition read_log (log : option (list json_line)) : res (list mapping) :=
  match log with None => Ok [] | Some lines => read_json_lines 1 lines end.

(** [math.nextafter(x, -math.inf)] *)
Definition f_pred : pyfloat → pyfloat := SFpred prec64 emax64.

Definition is_saturation (c : config) : bool := String.eqb (workload c) "saturation".
Definition is_fault_tolerance (c : config) : bool := String.eqb (workload c) "fault_tolerance".

(** [reporting.py:1951-1958 build_report] *)
Definition measured_duration (c : config) (decisions : list mapping) : res pyfloat :=
  match decisions with
  | _ :: _ =>
      if is_saturation c
      then durations ← res_mapM (λ d, py_float (default (PInt 0) (alist_get "duration_seconds" d))) decisions;
           Ok (float_sum durations)
      else float_of_Z (duration_seconds c)
  | [] => float_of_Z (duration_seconds c)
  end.

(** What the first stage leaves to the others. *)
Record business_stage := BusinessStage {
  bs_config : config;
  bs_decisions : list mapping;
  bs_duration : pyfloat;
  bs_records : list mapping;
  bs_business : mapping;
  bs_workflow : mapping;
}.

Section report.
Context (bracket_ok : string → bool) (a : artifacts).

(** The configuration, the decisions and the orders.
    [reporting.py:1946-1976 build_report] *)
Definition read_business : res business_stage :=
  values ← config_json a;
  c ← from_dict bracket_ok values;
  decisions ← read_log (saturation_jsonl a);
  duration ← measured_duration c decisions;
  records ← read_log (business_jsonl a);
  business ← business_summary records (PFloat duration);
  workflow ← (if String.eqb (application_type c) "NATS"
              then value ← read_json_object (workflow_events_json a); Ok (workflow_event_summary value)
              else Ok not_applicable);
  Ok (BusinessStage c decisions duration records business workflow).

(** The samples of the steady phase, whose end belongs to the drain.
    [reporting.py:1997-2016 build_report] *)
Definition steady_nats (c : config) (duration : pyfloat) (resource_records : list mapping) : res mapping :=
  steady_started ← float_of_Z (warmup_seconds c);
  let steady_ended := f_pred (fadd steady_started duration) in
  if negb (String.eqb (application_type c) "NATS") then Ok not_applicable else
  records ← source_records_for_window resource_records "nats" steady_started steady_ended;
  raft_records ← source_records_for_window resource_records "nats_raft" steady_started steady_ended;
  nats_summary records (Some raft_records) (Some resource_records).

(** The decisions of a saturation run; the other runs have no rungs. *)
Definition rung_decisions (s : business_stage) : list mapping :=
  if is_saturation (bs_config s) then bs_decisions s else [].

(** The summary of a run, from what the stages reduced.
    [reporting.py:2075-2119 build_report] *)
Definition assemble_report (now : string) (s : business_stage) (t : rung_tables)
    (resources nats outstanding : mapping) (resource_records outstanding_records : list mapping) : res mapping :=
  let c := bs_config s in
  workers ← worker_count c;
  capacity ← capacity_assessment c (bs_business s) outstanding nats;
  saturation ← (if is_saturation c
                then summary ← assemble_saturation_summary c (bs_decisions s) t;
                     Ok [("configured_steady_seconds", PInt (duration_seconds c)); ("saturation", PDict summary)]
                else Ok []);
  fault ← (if is_fault_tolerance c
           then faults ← read_log (faults_jsonl a);
                plan ← read_json_object (fault_plan_json a);
                summary ← fault_tolerance_summary c plan faults (bs_records s) resource_records outstanding_records;
                Ok [("arrival_rate", PFloat (arrival_rate c)); ("fault_tolerance", PDict summary)]
           else Ok []);
  completed ← completed_of (bs_business s);
  resources ← add_per_order_resource_metrics resources completed;
  Ok ([("generated_at", PStr now); ("application_type", PStr (application_type c)); ("workload", PStr (workload c));
       ("worker_count", PInt workers); ("warmup_seconds", PInt (warmup_seconds c));
       ("steady_seconds", PFloat (bs_duration s)); ("drain_seconds", PInt (drain_seconds c));
       ("business", PDict (bs_business s)); ("workflow_events", PDict (bs_workflow s));
       ("outstanding_orders", PDict outstanding); ("resources", PDict resources); ("nats", PDict nats);
       ("capacity", PDict capacity)] ++
      (if String.eqb (workload c) "closed" then [("users", PInt (users c))] else []) ++ saturation ++ fault).

(** The stages after the table of the orders is written.
    [reporting.py:1978-2119 build_report] *)
Definition reduce_records (now : string) (s : business_stage) : res mapping :=
  let c := bs_config s in
  saturation_business ← fill (stage_business (bs_records s)) [] (rung_decisions s);
  resource_records ← read_log (resources_jsonl a);
  resources ← resource_summary resource_records (is_saturation c);
  nats ← steady_nats c (bs_duration s) resource_records;
  sources ← fill_sources c resource_records saturation_business [] [] (rung_decisions s);
  outstanding_records ← read_log (outstanding_jsonl a);
  outstanding ← outstanding_summary outstanding_records;
  saturation_outstanding ← fill (stage_outstanding outstanding_records) [] (rung_decisions s);
  assemble_report now s (RungTables saturation_business sources.1 sources.2 saturation_outstanding)
    resources nats outstanding resource_records outstanding_records.

(** The files written, and the summary or the exception.
    [reporting.py:1945-2127 build_report] *)
Definition build_report (now : string) : outputs * res mapping :=
  match (s ← read_business; orders ← business_csv (bs_records s); Ok (s, orders)) with
  | Raise e => (Outputs None None None, Raise e)
  | Ok (s, orders) =>
      match reduce_records now s with
      | Raise e => (Outputs (Some orders) None None, Raise e)
      | Ok summary =>
          let stored := json_sorted (PDict summary) in
          if negb (is_fault_tolerance (bs_config s)) then (Outputs (Some orders) (Some stored) None, Ok summary) else
          match (faults ← py_item (PDict summary) "fault_tolerance";
                 match faults with PDict m => fault_tolerance_csv m | _ => attribute_error end) with
          | Raise e => (Outputs (Some orders) (Some stored) None, Raise e)
          | Ok seconds => (Outputs (Some orders) (Some stored) (Some seconds), Ok summary)
          end
      end
  end.
End report.

(** ** The staged reduction computes the reference *)

(** The completed orders of a summary do not depend on the duration. *)
Lemma completed_unique records d d' b b' :
  business_summary records d = Ok b → business_summary records d' = Ok b' → completed_of b = completed_of b'.
Proof.
  intros (l & m & n & k & Hl & _ & _ & _ & Hk & _ & -> & _)%business_counts
    (l' & m' & n' & k' & Hl' & _ & _ & _ & Hk' & _ & -> & _)%business_counts.
  rewrite Hl in Hl'. injection Hl' as <-. unfold completed_of. cbn [py_item]. by rewrite Hk, Hk'.
Qed.

#[local] Arguments decision_int : simpl never.
#[local] Arguments decision_float : simpl never.
#[local] Arguments completed_of : simpl never.
#[local] Arguments nats_summary : simpl never.

Section staged.
Context (c : config) (br rr orr : list mapping).

(** The dictionary of a rung summarises the records of the rung. *)
Definition rung_business (sb : by_rung) (n : Z) : Prop :=
  ∃ b d records, alist_get n sb = Some b ∧ rung_records n br = Ok records ∧
                 business_summary records (PFloat d) = Ok b.
Definition covers (sb : by_rung) (decisions : list mapping) : Prop :=
  Forall (λ decision, ∀ n, decision_int decision "rung" = Ok n → rung_business sb n) decisions.

Lemma stage_business_ok d n b : stage_business br d n = Ok b →
  ∃ records duration, rung_records n br = Ok records ∧ decision_float d "duration_seconds" = Ok duration ∧
    business_summary records (PFloat duration) = Ok b.
Proof.
  unfold stage_business. intros H. bind_both H records Hr. bind_both H duration Hd. eauto.
Qed.

Lemma fill_covers decisions sb sb' : fill (stage_business br) sb decisions = Ok sb' →
  covers sb' decisions ∧ ∀ n, rung_business sb n → rung_business sb' n.
Proof.
  revert sb. induction decisions as [|d ds IH]; cbn [fill]; intros sb H; [injection H as <-; split; [constructor|done]|].
  bind_both H n Hn. bind_both H b Hb. apply IH in H as [Hc Hm].
  apply stage_business_ok in Hb as (records & duration & ? & _ & ?).
  split.
  - constructor; [|done]. intros n' Hn'. rewrite Hn in Hn'. injection Hn' as <-. apply Hm.
    exists b, duration, records. by rewrite alist_get_set_eq.
  - intros n' (b' & dur' & records' & Hb' & Hr' & Hs'). apply Hm. unfold rung_business.
    rewrite alist_get_set. case_decide as Hdec; [subst n'|].
    + exists b, duration, records. done.
    + by exists b', dur', records'.
Qed.

(** One turn of the loop is one turn of each stage. *)
Lemma rung_turn_stages t d t' n sb :
  decision_int d "rung" = Ok n → rung_business sb n →
  rung_turn c br rr orr t d = Ok t' →
  ∃ b r m o, stage_business br d n = Ok b ∧ stage_resources rr sb d n = Ok r ∧ stage_nats c rr d n = Ok m ∧
    stage_outstanding orr d n = Ok o ∧
    t' = RungTables (alist_set n b (business_by_rung t)) (alist_set n r (resources_by_rung t))
           (alist_set n m (nats_by_rung t)) (alist_set n o (outstanding_by_rung t)).
Proof.
  unfold rung_turn. intros Hn (b' & d' & records & Hget & Hrecords & Hsum) H. rewrite Hn in H. cbn in H.
  bind_both H started Hstarted. bind_both H ended Hended. bind_both H duration Hduration.
  rewrite Hrecords in H. cbn in H.
  bind_both H kube Hkube. bind_both H nats Hnats. bind_both H raft Hraft. bind_both H health Hhealth.
  bind_both H out Hout. bind_both H b Hb. bind_both H r Hr. bind_both H k Hk. bind_both H r' Hr'.
  bind_both H m Hm. bind_both H o Ho. injection H as <-. exists b, r', m, o.
  unfold stage_business, stage_resources, stage_nats, stage_outstanding.
  rewrite Hrecords, Hduration, Hstarted, Hended. cbn. rewrite Hkube, Hout. cbn.
  rewrite Hr, Hget, (completed_unique _ _ _ _ _ Hsum Hb), Hk. cbn. rewrite Hr'.
  split_and!; [done|done| |done|done].
  destruct (String.eqb _ _); [|by injection Hm as <-]. cbn. rewrite Hnats, Hraft. cbn. by rewrite Hhealth.
Qed.

Lemma stages_rung_turn t d n sb b r m o :
  application_type c = "NATS" →
  decision_int d "rung" = Ok n → rung_business sb n →
  stage_business br d n = Ok b → stage_resources rr sb d n = Ok r → stage_nats c rr d n = Ok m →
  stage_outstanding orr d n = Ok o →
  rung_turn c br rr orr t d = Ok (RungTables (alist_set n b (business_by_rung t)) (alist_set n r (resources_by_rung t))
           (alist_set n m (nats_by_rung t)) (alist_set n o (outstanding_by_rung t))).
Proof.
  intros Happ Hn (b' & d' & records & Hget & Hrecords & Hsum). unfold rung_turn.
  unfold stage_business, stage_resources, stage_nats, stage_outstanding. rewrite Happ, Hrecords, Hget.
  cbn [mbind res_bind String.eqb Ascii.eqb Bool.eqb negb].
  intros Hb Hr Hm Ho. bind_both Hb duration Hduration.
  bind_both Hr started Hstarted. bind_both Hr ended Hended. bind_both Hr kube Hkube. bind_both Hr r0 Hr0.
  bind_both Hr k Hk. rewrite Hstarted, Hended in Hm, Ho. cbn in Hm, Ho.
  bind_both Hm nats Hnats. bind_both Hm raft Hraft. bind_both Hm health Hhealth. bind_both Ho out Hout.
  rewrite Hn, Hstarted, Hended, Hduration. cbn. rewrite Hrecords. cbn. rewrite Hkube, Hnats, Hraft, Hhealth, Hout. cbn.
  rewrite Hb. cbn. rewrite Hr0. cbn. rewrite (completed_unique _ _ _ _ _ Hb Hsum), Hk. cbn. rewrite Hr. cbn.
  rewrite Hm. cbn. by rewrite Ho.
Qed.

Lemma rung_turns_stages decisions t t' sb :
  covers sb decisions → rung_turns c br rr orr t decisions = Ok t' →
  fill (stage_business br) (business_by_rung t) decisions = Ok (business_by_rung t') ∧
  fill_sources c rr sb (resources_by_rung t) (nats_by_rung t) decisions
    = Ok (resources_by_rung t', nats_by_rung t') ∧
  fill (stage_outstanding orr) (outstanding_by_rung t) decisions = Ok (outstanding_by_rung t').
Proof.
  intros Hc. revert t. induction Hc as [|d ds Hd Hc IH]; cbn [rung_turns fill fill_sources]; intros t H;
    [by injection H as <-|].
  bind_both H t1 Ht1. pose proof Ht1 as Hn. unfold rung_turn in Hn. bind_both Hn n Hdn. clear Hn. rewrite Hdn. cbn.
  destruct (rung_turn_stages _ _ _ _ _ Hdn (Hd _ Hdn) Ht1) as (b & r & m & o & -> & -> & -> & -> & ->). cbn.
  by apply IH in H.
Qed.

Lemma stages_rung_turns decisions t sb B R N O :
  application_type c = "NATS" → covers sb decisions →
  fill (stage_business br) (business_by_rung t) decisions = Ok B →
  fill_sources c rr sb (resources_by_rung t) (nats_by_rung t) decisions = Ok (R, N) →
  fill (stage_outstanding orr) (outstanding_by_rung t) decisions = Ok O →
  rung_turns c br rr orr t decisions = Ok (RungTables B R N O).
Proof.
  intros Happ Hc. revert t. induction Hc as [|d ds Hd Hc IH]; cbn [rung_turns fill fill_sources]; intros t HB HR HO.
  { simplify_eq. by destruct t. }
  bind_both HB n Hn. bind_both HB b Hb. rewrite Hn in HR, HO. cbn in HR, HO.
  bind_both HR r Hr. bind_both HR m Hm. bind_both HO o Ho.
  rewrite (stages_rung_turn t _ _ _ _ _ _ _ Happ Hn (Hd _ Hn) Hb Hr Hm Ho). cbn. by apply IH.
Qed.

(** The one loop and the stages. *)
Lemma stages_agree decisions sb sources outstanding s :
  fill (stage_business br) [] decisions = Ok sb →
  fill_sources c rr sb [] [] decisions = Ok sources →
  fill (stage_outstanding orr) [] decisions = Ok outstanding →
  assemble_saturation_summary c decisions (RungTables sb sources.1 sources.2 outstanding) = Ok s →
  (application_type c = "NATS" → saturation_summary c br rr orr decisions = Ok s) ∧
  ∀ s', saturation_summary c br rr orr decisions = Ok s' → s' = s.
Proof.
  intros HB HR HO Hs. destruct (fill_covers _ _ _ HB) as [Hc _]. destruct sources as [R N]. cbn in Hs.
  assert (application_type c = "NATS" →
    rung_turns c br rr orr (RungTables [] [] [] []) decisions = Ok (RungTables sb R N outstanding)) as Hall.
  { intros Happ. by apply (stages_rung_turns _ (RungTables [] [] [] []) sb). }
  assert (∀ t, rung_turns c br rr orr (RungTables [] [] [] []) decisions = Ok t →
    t = RungTables sb R N outstanding) as Honly.
  { intros t (HB' & HR' & HO')%(rung_turns_stages _ _ _ sb); [|done]. destruct t. cbn [business_by_rung
      resources_by_rung nats_by_rung outstanding_by_rung] in *. congruence. }
  clear HB HR HO Hc. unfold saturation_summary. destruct decisions as [|d ds].
  { injection Hs as <-. split; [done|]. intros s' H. by injection H. }
  split.
  - intros Happ. by rewrite (Hall Happ).
  - intros s' H. bind_both H t Ht. apply Honly in Ht as ->. congruence.
Qed.
End staged.

(** ** What a report contains *)

Section report_of.
Context (bracket_ok : string → bool) (a : artifacts) (now : string).

Lemma build_report_ok files report :
  build_report bracket_ok a now = (files, Ok report) →
  ∃ s orders, read_business bracket_ok a = Ok s ∧ business_csv (bs_records s) = Ok orders ∧
    reduce_records a now s = Ok report ∧ business_csv_file files = Some orders ∧
    summary_json files = Some (json_sorted (PDict report)).
Proof.
  unfold build_report. destruct (read_business bracket_ok a) as [s|e]; cbn [mbind res_bind]; [|done].
  destruct (business_csv (bs_records s)) as [orders|e] eqn:Ho; cbn [mbind res_bind]; [|done].
  destruct (reduce_records a now s) as [report'|e] eqn:Hr; [|done]. intros H. exists s, orders.
  destruct (negb _); [injection H as <- <-; by split_and!|].
  destruct (_ ≫= _) in H; [injection H as <- <-; by split_and!|done].
Qed.

(** What the reduction of the records computed. *)
Lemma reduce_records_ok s report :
  reduce_records a now s = Ok report →
  ∃ sb sources so rr orr resources nats outstanding,
    read_log (resources_jsonl a) = Ok rr ∧ read_log (outstanding_jsonl a) = Ok orr ∧
    fill (stage_business (bs_records s)) [] (rung_decisions s) = Ok sb ∧
    fill_sources (bs_config s) rr sb [] [] (rung_decisions s) = Ok sources ∧
    fill (stage_outstanding orr) [] (rung_decisions s) = Ok so ∧
    resource_summary rr (is_saturation (bs_config s)) = Ok resources ∧
    steady_nats (bs_config s) (bs_duration s) rr = Ok nats ∧ outstanding_summary orr = Ok outstanding ∧
    assemble_report a now s (RungTables sb sources.1 sources.2 so) resources nats outstanding rr orr = Ok report.
Proof.
  unfold reduce_records. intros H. bind_both H sb Hsb. bind_both H rr Hrr. bind_both H resources Hres.
  bind_both H nats Hnats. bind_both H sources Hsources. bind_both H orr Horr. bind_both H out Hout.
  bind_both H so Hso. eauto 20.
Qed.

Lemma assemble_report_ok s t resources nats outstanding rr orr report :
  assemble_report a now s t resources nats outstanding rr orr = Ok report →
  alist_get "business" report = Some (PDict (bs_business s)) ∧
  (∃ v, capacity_assessment (bs_config s) (bs_business s) outstanding nats = Ok v ∧
        alist_get "capacity" report = Some (PDict v)) ∧
  (is_saturation (bs_config s) = true →
     ∃ m, assemble_saturation_summary (bs_config s) (bs_decisions s) t = Ok m ∧
          alist_get "saturation" report = Some (PDict m)).
Proof.
  unfold assemble_report. intros H. bind_both H workers Hw. bind_both H v Hv. bind_both H sat Hsat.
  bind_both H fault Hf. bind_both H k Hk. bind_both H r Hr. injection H as <-.
  split_and!; [done|by exists v|]. intros His. rewrite His in Hsat. bind_both Hsat m Hm. injection Hsat as <-.
  exists m. split; [done|]. destruct (String.eqb_spec (workload (bs_config s)) "closed") as [Hclosed|_]; [|done].
  unfold is_saturation in His. by rewrite Hclosed in His.
Qed.
End report_of.

(** C27: Reducing the records of a saturation run stage by stage, so that only
    one log is in memory, gives what [saturation_summary] gives over all the
    logs at once: whenever the reference returns, the report holds what it
    returned, and on NATS the reference returns whenever the report is
    written.  (On gRPC the reference also reads the NATS samples, which the
    stages leave alone.) *)
Theorem staged_report_agrees bracket_ok a now files report s resource_records outstanding_records :
  build_report bracket_ok a now = (files, Ok report) →
  read_business bracket_ok a = Ok s → is_saturation (bs_config s) = true →
  read_log (resources_jsonl a) = Ok resource_records → read_log (outstanding_jsonl a) = Ok outstanding_records →
  let reference :=
    saturation_summary (bs_config s) (bs_records s) resource_records outstanding_records (bs_decisions s) in
  ∃ m, alist_get "saturation" report = Some (PDict m) ∧
       (application_type (bs_config s) = "NATS" → reference = Ok m) ∧ ∀ m', reference = Ok m' → m' = m.
Proof.
  intros (s' & orders & Hs' & _ & Hr & _)%build_report_ok Hs Hsat Hrr Horr. rewrite Hs in Hs'. injection Hs' as <-.
  apply reduce_records_ok in Hr as (sb & sources & so & rr & orr & resources & nats & outstanding &
    Hrr' & Horr' & Hsb & Hsources & Hso & _ & _ & _ & Hr).
  rewrite Hrr in Hrr'. rewrite Horr in Horr'. simplify_eq. apply assemble_report_ok in Hr as (_ & _ & Hm).
  destruct (Hm Hsat) as (m & Hmeq & Hget). unfold rung_decisions in Hsb, Hsources, Hso. rewrite Hsat in Hsb, Hsources, Hso.
  exists m. split; [done|]. by eapply stages_agree.
Qed.

(** ** The rate before saturation *)

Definition rung_keys : list string := ["business"; "outstanding_orders"; "resources"; "nats"].
Definition rung_saturated (decision : mapping) : bool := py_truth (field decision "saturated").
Definition rung_target (decision : mapping) : pyval := field decision "target_requests_per_second".

Lemma field_update k (d u : mapping) : k ∉ u.*1 → field (dict_update d u) k = field d k.
Proof.
  unfold dict_update, field. revert d. induction u as [|[k' v] u IH]; intros d Hk; [done|].
  rewrite fmap_cons, not_elem_of_cons in Hk. destruct Hk as [Hne Hk].
  cbn [foldl fst snd]. rewrite (IH _ Hk). f_equal. by apply alist_get_set_ne.
Qed.

(** The tables of a rung leave the fields of its decision alone. *)
Lemma assemble_rung_field t decision rung k :
  assemble_rung t decision = Ok rung → k ∉ rung_keys → field rung k = field decision k.
Proof.
  unfold assemble_rung. intros H Hk. bind_both H b Hb. bind_both H o Ho. bind_both H r Hr. bind_both H n Hn.
  injection H as <-.
  by apply (field_update k decision [("business", b); ("outstanding_orders", o); ("resources", r); ("nats", n)]).
Qed.

Lemma assembled_fields t decisions rungs :
  res_mapM (assemble_rung t) decisions = Ok rungs →
  Forall2 (λ decision rung, ∀ k, k ∉ rung_keys → field rung k = field decision k) decisions rungs.
Proof. intros H%res_mapM_ok. eapply Forall2_impl; [exact H|]. intros d rung Hd k Hk. by apply (assemble_rung_field t). Qed.

Lemma list_find_split {A} (P : A → Prop) `{∀ x, Decision (P x)} pre x post :
  Forall (λ y, ¬ P y) pre → P x → list_find P (pre ++ x :: post) = Some (length pre, x).
Proof.
  intros Hpre Hx. apply list_find_Some. split_and!; [by apply list_lookup_middle|done|].
  intros j y Hj Hlt. rewrite lookup_app_l in Hj by done. rewrite Forall_lookup in Hpre. eauto.
Qed.

Lemma keeps_saturated x y : (∀ k, k ∉ rung_keys → field y k = field x k) →
  py_truth (field y "saturated") = rung_saturated x.
Proof. intros H. unfold rung_saturated. rewrite H; [done|]. apply (bool_decide_unpack _). vm_compute. exact I. Qed.
Lemma keeps_target x y : (∀ k, k ∉ rung_keys → field y k = field x k) →
  field y "target_requests_per_second" = rung_target x.
Proof. intros H. unfold rung_target. rewrite H; [done|]. apply (bool_decide_unpack _). vm_compute. exact I. Qed.

Lemma last_target decisions rungs :
  Forall2 (λ decision rung, ∀ k, k ∉ rung_keys → field rung k = field decision k) decisions rungs →
  match last rungs with Some rung => field rung "target_requests_per_second" | None => PNone end
  = default PNone (rung_target <$> last decisions).
Proof. intros H%Forall2_last. destruct H as [x y Hxy|]; [|done]. by apply keeps_target. Qed.

(** The rates of a saturation report.  When every rung stayed clear of
    saturation the report says so and the sustainable rate is that of the last
    rung; otherwise the rate of saturation is that of the first saturated rung
    and the sustainable rate that of the rung before it, or none when the very
    first rung was saturated. *)
Theorem sustainable_rate_spec c decisions t s :
  assemble_saturation_summary c decisions t = Ok s → decisions ≠ [] →
  (Forall (λ d, rung_saturated d = false) decisions →
     alist_get "saturated" s = Some (PBool false) ∧
     alist_get "saturation_requests_per_second" s = Some PNone ∧
     alist_get "highest_sustainable_requests_per_second" s = Some (default PNone (rung_target <$> last decisions))) ∧
  (∀ pre d post, decisions = pre ++ d :: post → Forall (λ d, rung_saturated d = false) pre →
     rung_saturated d = true →
     alist_get "saturated" s = Some (PBool true) ∧
     alist_get "saturation_requests_per_second" s = Some (rung_target d) ∧
     alist_get "highest_sustainable_requests_per_second" s = Some (default PNone (rung_target <$> last pre))).
Proof.
  destruct decisions as [|d0 ds]; [done|]. cbn [assemble_saturation_summary]. set (decisions := d0 :: ds).
  intros H _. bind_both H rungs Hrungs. apply assembled_fields in Hrungs.
  split.
  - intros Hall. assert (list_find (λ rung, py_truth (field rung "saturated") = true) rungs = None) as Hnone.
    { apply list_find_None. eapply Forall2_Forall_r; [exact Hrungs|]. eapply Forall_impl; [exact Hall|].
      cbv beta. intros x Hx y Hxy. rewrite (keeps_saturated _ _ Hxy). congruence. }
    rewrite Hnone in H. injection H as <-. split_and!; [done|done|]. cbn [alist_get decide]. by rewrite <- (last_target _ _ Hrungs).
  - intros pre d post Heq Hpre Hd. rewrite Heq in Hrungs.
    apply Forall2_app_inv_l in Hrungs as (pre' & rest & Hpre' & Hrest & ->).
    apply Forall2_cons_inv_l in Hrest as (d' & post' & Hd' & _ & ->).
    rewrite list_find_split in H; [| |by rewrite (keeps_saturated _ _ Hd')].
    + rewrite take_app_length in H. injection H as <-. split_and!; [done| |].
      * cbn. f_equal. by apply keeps_target.
      * cbn. by rewrite <- (last_target _ _ Hpre').
    + eapply Forall2_Forall_r; [exact Hpre'|]. eapply Forall_impl; [exact Hpre|]. cbv beta.
      intros x Hx y Hxy. rewrite (keeps_saturated _ _ Hxy). congruence.
Qed.

(** ** The verdict *)

(** C28: A report calls a run sustainable only when its logs say that it was:
    the run was open-loop, it submitted something in its steady interval, every
    checkout of that interval was recorded as completed, no order was
    outstanding at the end, and, on NATS, the events that waited for the
    application's consumers were no more at the last sample of the interval
    than at the first. *)
Theorem report_sustainable_sound bracket_ok a now files report v :
  build_report bracket_ok a now = (files, Ok report) →
  alist_get "capacity" report = Some (PDict v) → alist_get "sustainable" v = Some (PBool true) →
  ∃ s outstanding_records,
    read_business bracket_ok a = Ok s ∧ read_log (outstanding_jsonl a) = Ok outstanding_records ∧
    workload (bs_config s) ∈ ["open"; "saturation"] ∧ checkouts (bs_records s) ≠ [] ∧
    Forall (λ r, context_label "outcome" r = Ok "COMPLETED") (checkouts (bs_records s)) ∧
    (∀ r, last outstanding_records = Some r →
       ∃ n, py_int (default (PInt 0) (alist_get "outstanding" r)) = Ok n ∧ (n ≤ 0)%Z) ∧
    (application_type (bs_config s) = "NATS" →
       ∃ rr started samples t values first final,
         read_log (resources_jsonl a) = Ok rr ∧ float_of_Z (warmup_seconds (bs_config s)) = Ok started ∧
         source_records_for_window rr "nats" started (f_pred (fadd started (bs_duration s))) = Ok samples ∧
         record_turns 0 no_tables (filter (λ r, steady r = true) samples) = Ok t ∧
         ("consumer_pending", values) ∈ t_series t ∧ head values = Some first ∧ last values = Some final ∧
         fltb (float_dec 0 0) (fsub final.2 first.2) = false).
Proof.
  intros (s & _ & Hs & _ & Hr & _)%build_report_ok Hcapacity Hv.
  apply reduce_records_ok in Hr as (sb & sources & so & rr & orr & resources & nats & outstanding &
    Hrr & Horr & _ & _ & _ & _ & Hnats & Hout & Hr).
  apply assemble_report_ok in Hr as (_ & (v' & Hassess & Hv') & _). rewrite Hcapacity in Hv'. injection Hv' as <-.
  exists s, orr. split; [done|]. split; [done|].
  pose proof Hs as Hb. unfold read_business in Hb. bind_both Hb values Hvalues. bind_both Hb c Hc.
  bind_both Hb decisions Hd. bind_both Hb duration Hdur. bind_both Hb records Hrecords.
  bind_both Hb business Hbusiness. bind_both Hb workflow Hwf. injection Hb as <-. cbn [bs_config bs_records
    bs_duration bs_business] in *.
  destruct (sustainable_run_sound _ _ _ _ _ _ _ _ Hbusiness Hout Hassess Hv) as (? & ? & ? & ? & Hpending).
  split_and!; [done..|]. intros Happ. destruct (Hpending Happ) as (pending & x & Hp & Hx & Hneg).
  unfold steady_nats in Hnats. bind_both Hnats started Hstarted. rewrite Happ in Hnats.
  change (negb (String.eqb "NATS" "NATS")) with false in Hnats. cbv iota in Hnats.
  bind_both Hnats samples Hsamples. bind_both Hnats raft Hraft.
  destruct (nats_backlog _ _ _ _ _ Hnats Hp) as (t & series & first & final & Ht & Hin & Hfirst & Hfinal & Hchange).
  rewrite Hchange in Hx. injection Hx as <-.
  by exists rr, started, samples, t, series, first, final.
Qed.

(** ** The table of the orders *)

Lemma alist_get_fmap_fields (record : mapping) fields k :
  alist_get k ((λ key, (key, field record key)) <$> fields) = if decide (k ∈ fields) then Some (field record k) else None.
Proof.
  induction fields as [|f fields IH]; [done|]. cbn [fmap list_fmap alist_get].
  destruct (decide (k = f)) as [->|Hne]; [by rewrite decide_True by left|].
  rewrite IH. apply decide_ext. rewrite elem_of_cons. naive_solver.
Qed.

Lemma alist_get_filter_keys (m : mapping) (names : list string) (k : string) :
  alist_get k (filter (λ kv, kv.1 ∈ names) m) = if decide (k ∈ names) then alist_get k m else None.
Proof.
  induction m as [|[k' v] m IH]; [by case_decide|]. rewrite list.filter_cons.
  cbn [fst alist_get]. destruct (decide (k' ∈ names)) as [Hk'|Hk']; cbn [alist_get].
  - destruct (decide (k = k')) as [->|Hne]; [by rewrite decide_True|]. done.
  - destruct (decide (k = k')) as [->|Hne]; [by rewrite decide_False in IH |- * by done|]. done.
Qed.

Lemma sorted_names_elem k names : k ∈ sorted_names names ↔ k ∈ names.
Proof. unfold sorted_names. rewrite merge_sort_Permutation. apply elem_of_remove_dups. Qed.

Lemma context_names (ms : list mapping) k :
  k ∈ filter (λ key, str_startswith "_" key = false) (ms ≫= λ m, m.*1) ↔
    str_startswith "_" k = false ∧ ∃ m, m ∈ ms ∧ k ∈ m.*1.
Proof. rewrite list_elem_of_filter, list_elem_of_bind. naive_solver. Qed.

(** What a cell of the table should hold: the entry of the context, or the
    field of the record. *)
Definition order_cell (record context : mapping) (name : string) : pyval :=
  default (field record name) (alist_get name context).

Lemma fixed_public k : k ∈ business_fields → str_startswith "_" k = false.
Proof.
  assert (Forall (λ k, str_startswith "_" k = false) business_fields) as H.
  { apply (bool_decide_unpack _). vm_compute. exact I. }
  rewrite Forall_forall in H. apply H.
Qed.

#[local] Arguments business_row : simpl never.
#[local] Arguments business_fields : simpl never.

Lemma business_row_cells fields names record context row :
  (∀ k, k ∈ fields → k ∈ names ∨ str_startswith "_" k = false) →
  context_items record = Ok context → NoDup context.*1 →
  (∀ k, k ∈ context.*1 → str_startswith "_" k = false → k ∈ names) →
  business_row fields names record = Ok row → row = order_cell record context <$> fields.
Proof.
  intros Hfields Hcontext Hnd Hin H. unfold business_row in H. rewrite Hcontext in H. injection H as <-.
  apply list_fmap_ext. intros i k Hk%list_elem_of_lookup_2. unfold field at 1, order_cell.
  rewrite dict_update_get by (eapply sublist_NoDup; [exact Hnd|apply fmap_sublist, sublist_filter]).
  rewrite alist_get_filter_keys, alist_get_fmap_fields, (decide_True (P := k ∈ fields)) by done.
  destruct (alist_get k context) as [v|] eqn:Hget; [|by case_decide].
  apply alist_get_Some_elem in Hget. assert (k ∈ context.*1) as Hkm by (apply list_elem_of_fmap; by exists (k, v)).
  rewrite decide_True; [done|]. destruct (Hfields k Hk) as [|Hpublic]; [done|by apply Hin].
Qed.

(** The table of the orders.  It has a row for every record and a cell for
    every column; the columns are the fixed ones and then every public key of
    the contexts, sorted and once each, and a cell holds the value of the
    context where the context has one and the field of the record otherwise. *)
Theorem business_csv_spec records t :
  Forall (λ r, ∀ m, context_items r = Ok m → NoDup m.*1) records →
  business_csv records = Ok t →
  ∃ contexts names,
    Forall2 (λ r m, context_items r = Ok m) records contexts ∧ header t = business_fields ++ names ∧
    NoDup names ∧ Sorted String.le names ∧
    (∀ k, k ∈ names ↔ str_startswith "_" k = false ∧ ∃ m, m ∈ contexts ∧ k ∈ m.*1) ∧
    rows t = zip_with (λ r m, order_cell r m <$> header t) records contexts.
Proof.
  unfold business_csv. intros Hnd H. bind_both H contexts Hcontexts. bind_both H table Hrows. injection H as <-.
  set (names := sorted_names _) in *. apply res_mapM_ok in Hcontexts, Hrows. exists contexts, names.
  assert (∀ k, k ∈ names ↔ str_startswith "_" k = false ∧ ∃ m, m ∈ contexts ∧ k ∈ m.*1) as Hnames.
  { intros k. unfold names. by rewrite sorted_names_elem, context_names. }
  cbn [header rows]. split_and!; [done|done| | |done|].
  - unfold names, sorted_names. rewrite merge_sort_Permutation. apply NoDup_remove_dups.
  - apply Sorted_merge_sort. apply _.
  - assert (∀ m, m ∈ contexts → ∀ k, k ∈ m.*1 → str_startswith "_" k = false → k ∈ names) as Hin by naive_solver.
    clear Hnames. clearbody names. revert table Hrows.
    induction Hcontexts as [|r m records contexts Hm Hcontexts IH]; intros table Hrows; inversion Hrows; subst; [done|].
    apply Forall_cons in Hnd as [Hndm Hnd]. cbn [zip_with]. f_equal.
    + eapply business_row_cells; [|done|by apply Hndm|apply Hin; by left|done].
      intros k Hk. change (k ∈ business_fields ++ names) in Hk.
      apply elem_of_app in Hk as [Hk|Hk]; [right; by apply fixed_public|by left].
    + apply IH; [done| |done]. intros m' Hm'. apply Hin. by right.
Qed.

(** ** A concrete run *)

Definition demo_saturation : config :=
  Config "NATS" "https://shop.example" (Some "https://metrics.example") "saturation" 30 120 60 10 (float_dec 1 0) (float_dec 1 0)
    (float_dec 10 0) (float_dec 20 0) 60 (float_dec 30 0) (float_dec 60 0) (float_dec 5 0) 1 true true.

Definition demo_rung (n target started ended : Z) (saturated : bool) : mapping :=
  [("rung", PInt n); ("target_requests_per_second", PFloat (float_dec target 0));
   ("started_elapsed_seconds", PFloat (float_dec started 0)); ("ended_elapsed_seconds", PFloat (float_dec ended 0));
   ("duration_seconds", PFloat (float_dec (ended - started) 0)); ("saturated", PBool saturated);
   ("saturation_reason", if saturated then PStr "processing goodput fell behind" else PNone);
   ("stop_reason", if saturated then PStr "saturated" else PNone)].
Definition demo_decisions : list mapping := [demo_rung 1 10 30 90 false; demo_rung 2 20 90 150 true].

Definition demo_rung_order (rung : Z) (outcome : string) : mapping :=
  [("name", PStr "checkout_to_outcome"); ("phase", PStr "steady"); ("success", PBool true);
   ("response_time_ms", PFloat (float_dec 100 0));
   ("context", PDict [("phase", PStr "steady"); ("outcome", PStr outcome); ("accepted", PBool true);
                      ("saturation_rung", PInt rung)])].

Definition demo_pods (cpu memory : Z) : pyval :=
  PDict [("cart-0", PDict [("service", PStr "cart"); ("cpu_usage_core_nanoseconds", PInt cpu);
                           ("memory_working_set_bytes", PInt memory)])].
Definition demo_pending (n : Z) : pyval :=
  PList [PDict [("name", PStr "jetstream_consumer_num_pending"); ("value", PInt n);
                ("labels", PDict [("consumer_name", PStr "payment"); ("stream_name", PStr "BOUTIQUE_COMMANDS")])]].
Definition demo_resource (second cpu pending : Z) : mapping :=
  [("phase", PStr "steady"); ("elapsed_seconds", PFloat (float_dec second 0));
   ("timestamp", PFloat (float_dec (1000 + second) 0)); ("pods", demo_pods cpu 1000000);
   ("nats_metrics", demo_pending pending)].

Definition json_lines (records : list mapping) : option (list json_line) := Some ((λ m, JsonLine (PDict m)) <$> records).

Definition demo_artifacts (c : config) (decisions orders resources : list mapping) : artifacts :=
  Artifacts (Ok (as_dict c)) (json_lines decisions) (json_lines orders) None (json_lines resources)
    (json_lines demo_orders) None None.

Definition demo_run_orders : list mapping := [demo_rung_order 1 "COMPLETED"; demo_rung_order 2 "COMPLETED"].
Definition demo_samples : list mapping :=
  [demo_resource 40 0 3; demo_resource 80 6000000000 2; demo_resource 100 7000000000 2; demo_resource 140 9000000000 3].
Definition demo_run : artifacts := demo_artifacts demo_saturation demo_decisions demo_run_orders demo_samples.

Definition demo_result : outputs * res mapping := Eval vm_compute in build_report any_bracket demo_run "now".
Definition demo_report : mapping := match demo_result.2 with Ok m => m | Raise _ => [] end.

Example demo_rates :
  match field demo_report "saturation" with
  | PDict m => (field m "saturation_requests_per_second", field m "highest_sustainable_requests_per_second")
  | _ => (PNone, PNone)
  end = (PFloat (float_dec 20 0), PFloat (float_dec 10 0)).
Proof. vm_compute. reflexivity. Qed.
Example demo_capacity :
  field demo_report "capacity" = PDict (verdict (PBool true) []).
Proof. vm_compute. reflexivity. Qed.
Example demo_header : match business_csv_file demo_result.1 with Some t => header t | None => [] end
  = business_fields ++ ["accepted"; "outcome"; "phase"; "saturation_rung"].
Proof. vm_compute. reflexivity. Qed.

(** A context has the phase of its order, and so the table has the column
    twice; both hold the phase of the context. *)
Example phase_column_twice :
  match business_csv_file demo_result.1 with
  | Some t => (length (filter (λ name, name = "phase") (header t)), length (rows t)) | None => (0, 0) end = (2, 2).
Proof. vm_compute. reflexivity. Qed.

Definition demo_stage : business_stage :=
  Eval vm_compute in
    match read_business any_bracket demo_run with
    | Ok s => s | Raise _ => BusinessStage demo_saturation [] (float_dec 0 0) [] [] [] end.

Lemma staged_report_agrees_witness :
  let reference := saturation_summary (bs_config demo_stage) (bs_records demo_stage) demo_samples demo_orders
                     (bs_decisions demo_stage) in
  ∃ m, alist_get "saturation" demo_report = Some (PDict m) ∧
       (application_type (bs_config demo_stage) = "NATS" → reference = Ok m) ∧ ∀ m', reference = Ok m' → m' = m.
Proof.
  apply (staged_report_agrees any_bracket demo_run "now" demo_result.1 demo_report demo_stage);
    vm_compute; reflexivity.
Defined.

Definition demo_tables : rung_tables :=
  Eval vm_compute in
    match rung_turns demo_saturation demo_run_orders demo_samples demo_orders (RungTables [] [] [] []) demo_decisions with
    | Ok t => t | Raise _ => RungTables [] [] [] [] end.
Definition demo_rates_summary : mapping :=
  Eval vm_compute in match assemble_saturation_summary demo_saturation demo_decisions demo_tables with
                     | Ok m => m | Raise _ => [] end.

Lemma sustainable_rate_spec_witness :
  (Forall (λ d, rung_saturated d = false) demo_decisions →
     alist_get "saturated" demo_rates_summary = Some (PBool false) ∧
     alist_get "saturation_requests_per_second" demo_rates_summary = Some PNone ∧
     alist_get "highest_sustainable_requests_per_second" demo_rates_summary
       = Some (default PNone (rung_target <$> last demo_decisions))) ∧
  (∀ pre d post, demo_decisions = pre ++ d :: post → Forall (λ d, rung_saturated d = false) pre →
     rung_saturated d = true →
     alist_get "saturated" demo_rates_summary = Some (PBool true) ∧
     alist_get "saturation_requests_per_second" demo_rates_summary = Some (rung_target d) ∧
     alist_get "highest_sustainable_requests_per_second" demo_rates_summary
       = Some (default PNone (rung_target <$> last pre))).
Proof.
  apply (sustainable_rate_spec demo_saturation demo_decisions demo_tables demo_rates_summary);
    [vm_compute; reflexivity|done].
Defined.

Lemma report_sustainable_sound_witness :
  ∃ s outstanding_records,
    read_business any_bracket demo_run = Ok s ∧ read_log (outstanding_jsonl demo_run) = Ok outstanding_records ∧
    workload (bs_config s) ∈ ["open"; "saturation"] ∧ checkouts (bs_records s) ≠ [] ∧
    Forall (λ r, context_label "outcome" r = Ok "COMPLETED") (checkouts (bs_records s)) ∧
    (∀ r, last outstanding_records = Some r →
       ∃ n, py_int (default (PInt 0) (alist_get "outstanding" r)) = Ok n ∧ (n ≤ 0)%Z) ∧
    (application_type (bs_config s) = "NATS" →
       ∃ rr started samples t values first final,
         read_log (resources_jsonl demo_run) = Ok rr ∧ float_of_Z (warmup_seconds (bs_config s)) = Ok started ∧
         source_records_for_window rr "nats" started (f_pred (fadd started (bs_duration s))) = Ok samples ∧
         record_turns 0 no_tables (filter (λ r, steady r = true) samples) = Ok t ∧
         ("consumer_pending", values) ∈ t_series t ∧ head values = Some first ∧ last values = Some final ∧
         fltb (float_dec 0 0) (fsub final.2 first.2) = false).
Proof.
  apply (report_sustainable_sound any_bracket demo_run "now" demo_result.1 demo_report (verdict (PBool true) []));
    vm_compute; reflexivity.
Defined.

Definition demo_table : table :=
  Eval vm_compute in match business_csv demo_run_orders with Ok t => t | Raise _ => Table [] [] end.

Lemma business_csv_spec_witness :
  ∃ contexts names,
    Forall2 (λ r m, context_items r = Ok m) demo_run_orders contexts ∧ header demo_table = business_fields ++ names ∧
    NoDup names ∧ Sorted String.le names ∧
    (∀ k, k ∈ names ↔ str_startswith "_" k = false ∧ ∃ m, m ∈ contexts ∧ k ∈ m.*1) ∧
    rows demo_table = zip_with (λ r m, order_cell r m <$> header demo_table) demo_run_orders contexts.
Proof.
  apply (business_csv_spec demo_run_orders demo_table); [|vm_compute; reflexivity].
  repeat constructor; intros m [= <-]; apply (bool_decide_unpack _); vm_compute; exact I.
Defined.
