(* ===== verification/NatsWire.v ===== *)
(** * The wire protocol of NATS, as the supercluster benchmark speaks it

    src/benchmark/supercluster/supercluster_benchmark.py has its own small
    NATS client.  This file is its parser: lines, [MSG] and [HMSG] frames,
    headers.  The theorem: whatever the payloads hold, the parser gives back
    the frames that a server wrote, in order, and consumes nothing more. *)

From S2P Require Import Prelude PyValue PyText.
From Stdlib Require Import Ascii.

(** ** Bytes

    Bytes are strings of [ascii], one per byte. *)
Definition LF : ascii := ascii_of_nat 10.
Definition CR : ascii := ascii_of_nat 13.
Definition CRLF : string := String CR (String LF "").

Definition bytes_length (s : string) : Z := Z.of_nat (String.length s).

(** [reader.readline()]: up to and including the next line feed, or what is
    left at the end of the stream. *)
Fixpoint readline (s : string) : string * string :=
  match s with
  | "" => ("", "")
  | String c s =>
      if Ascii.eqb c LF then (String c "", s) else let '(line, rest) := readline s in (String c line, rest)
  end.

(** [s[:n]] and [s[n:]] for [n <= len(s)] *)
Fixpoint bytes_split (n : nat) (s : string) : string * string :=
  match n, s with
  | S n, String c s => let '(front, rest) := bytes_split n s in (String c front, rest)
  | _, _ => ("", s)
  end.

(** [reader.readexactly(n)] *)
Definition readexactly (n : Z) (s : string) : res (string * string) :=
  if (n <? 0)%Z then Raise (ValueError "readexactly size can not be less than zero")
  else if (bytes_length s <? n)%Z then Raise (OtherError "IncompleteReadError")
  else Ok (bytes_split (Z.to_nat n) s).

(** [s[i:j]]: negative indices count from the end. *)
Definition slice_index (i len : Z) : Z := if (i <? 0)%Z then Z.max 0 (len + i) else Z.min i len.
Definition bytes_slice (s : string) (i j : Z) : string :=
  let len := bytes_length s in
  let a := slice_index i len in
  let b := slice_index j len in
  (bytes_split (Z.to_nat (b - a)) (bytes_split (Z.to_nat a) s).2).1.

(** [repr(s)] of bytes *)
Definition byte_repr (quote c : ascii) : string :=
  let n := chr_code c in
  if bool_decide (c = quote) || (n =? 92)%Z then String "\" (String c "")
  else if (n =? 9)%Z then "\t" else if (n =? 10)%Z then "\n" else if (n =? 13)%Z then "\r"
  else if ((n <? 32) || (127 <=? n))%Z then "\x" +:+ hex_digit (n / 16) +:+ hex_digit (n mod 16)
  else String c "".
Definition bytes_repr (s : string) : string :=
  let quote := if str_contains_char single_quote s && negb (str_contains_char double_quote s)
               then double_quote else single_quote in
  "b" +:+ String quote (str_join "" (byte_repr quote <$> chars s)) +:+ String quote "".

(** [s.decode("ascii")] *)
Definition decode_ascii (s : string) : res string :=
  if forallb (λ c, chr_code c <? 128)%Z (chars s) then Ok s
  else Raise (ValueError "'ascii' codec can't decode byte: ordinal not in range(128)").

(** [s.split()]: the words between runs of white space. *)
Fixpoint words_from (word : list ascii) (l : list ascii) : list string :=
  match l with
  | [] => match word with [] => [] | _ => [of_chars (reverse word)] end
  | c :: l =>
      if chr_space c then match word with [] => words_from [] l | _ => of_chars (reverse word) :: words_from [] l end
      else words_from (c :: word) l
  end.
Definition words (s : string) : list string := words_from [] (chars s).

(** ** Headers *)

(** How many bytes one replacement character stands for: a truncated sequence
    is replaced as a whole, any other byte alone. *)
Definition replaced (bytes : list Z) : nat :=
  match bytes with
  | b0 :: b1 :: rest =>
      let third := match rest with b2 :: _ => in_range 128 191 b2 | [] => false end in
      if (b0 =? 224)%Z then if in_range 160 191 b1 then 2 else 1
      else if (b0 =? 237)%Z then if in_range 128 159 b1 then 2 else 1
      else if in_range 225 239 b0 then if in_range 128 191 b1 then 2 else 1
      else if (b0 =? 240)%Z then if in_range 144 191 b1 then if third then 3 else 2 else 1
      else if (b0 =? 244)%Z then if in_range 128 143 b1 then if third then 3 else 2 else 1
      else if in_range 241 243 b0 then if in_range 128 191 b1 then if third then 3 else 2 else 1
      else 1
  | _ => 1
  end%nat.

(** [raw.decode("utf-8", errors="replace")]; every step consumes a byte. *)
Fixpoint utf8_replace_go (fuel : nat) (bytes : list Z) : text :=
  match fuel, bytes with
  | S fuel, _ :: _ =>
      match decode_one bytes with
      | Some (c, n) => c :: utf8_replace_go fuel (drop n bytes)
      | None => 65533%Z :: utf8_replace_go fuel (drop (replaced bytes) bytes)
      end
  | _, _ => []
  end.
Definition utf8_replace (s : string) : text := utf8_replace_go (String.length s) (chr_code <$> chars s).

(** [text.split("\r\n")] *)
Fixpoint split_lines (line : text) (s : text) : list text :=
  match s with
  | 13%Z :: (10%Z :: s) => reverse line :: split_lines [] s
  | c :: s => split_lines (c :: line) s
  | [] => [reverse line]
  end.

(** [line.split(" ", 2)] *)
Definition split_status (line : text) : text * option (text * option text) :=
  let '(first, found, rest) := text_partition 32 line in
  if negb found then (first, None) else
  let '(second, found, rest) := text_partition 32 rest in
  (first, Some (second, if found then Some rest else None)).

(** [str.isspace] and [str.strip] *)
Definition text_space (c : Z) : bool :=
  ((9 <=? c) && (c <=? 13) || (28 <=? c) && (c <=? 32) || (c =? 133) || (c =? 160) || (c =? 5760)
   || (8192 <=? c) && (c <=? 8202) || (c =? 8232) || (c =? 8233) || (c =? 8239) || (c =? 8287) || (c =? 12288))%Z.
Definition text_strip (s : text) : text := rdrop_while text_space (drop_while text_space s).

(** [str.isdigit], for digits of Latin-1: the superscripts are digits too. *)
Definition text_isdigit (s : text) : bool :=
  negb (bool_decide (s = [])) &&
  forallb (λ c, (48 <=? c) && (c <=? 57) || (c =? 178) || (c =? 179) || (c =? 185))%Z s.
Definition text_int (s : text) : res Z := int_of_str (of_chars ((λ c, ascii_of_N (Z.to_N c)) <$> s)).

(** [headers[key.strip()] = value.strip()] for the lines with a colon. *)
Definition header_lines (lines : list text) : list (text * text) :=
  foldl (λ headers line,
    let '(key, found, value) := text_partition 58 line in
    if (found : bool) then alist_set (text_strip key) (text_strip value) headers else headers) [] lines.

(** [supercluster_benchmark.py:675-692 NatsConnection._parse_headers] *)
Definition parse_headers (raw : string) : res (list (text * text) * option Z * text) :=
  let lines := split_lines [] (utf8_replace raw) in
  let first := default [] (head lines) in
  status ← (if bool_decide (text_of "NATS/1.0" `prefix_of` first)
            then match split_status first with
                 | (_, Some (code, description)) =>
                     if text_isdigit code
                     then n ← text_int code; Ok (Some n, default [] description)
                     else Ok (None, [])
                 | _ => Ok (None, [])
                 end
            else Ok (None, []));
  let '(status, description) := (status : option Z * text) in
  Ok (header_lines (tail lines), status, description).

(** ** Frames *)

(** What the client makes of a message, before its subscription is looked up.
    [supercluster_benchmark.py:294-301 Message] *)
Record message := Message {
  m_subject : string;
  m_reply : string;
  m_data : string;
  m_headers : list (text * text);
  m_status : option Z;
  m_description : text;
}.

(** [supercluster_benchmark.py:612-628 NatsConnection._read_message] *)
Definition read_hmsg (command : string) (tokens : list string) (stream : string) : res (Z * message * string) :=
  parts ← match tokens with
          | [_; subject; sid; header; total] => Ok (subject, sid, "", header, total)
          | [_; subject; sid; reply; header; total] => Ok (subject, sid, reply, header, total)
          | _ => Raise (BenchmarkError ("invalid HMSG line " +:+ bytes_repr command))
          end;
  let '(subject, sid, reply, header, total) := (parts : string * string * string * string * string) in
  header_size ← int_of_str header;
  total_size ← int_of_str total;
  r ← readexactly (total_size + 2) stream;
  let '(wire, rest) := (r : string * string) in
  if negb (String.eqb (bytes_slice wire (-2) (bytes_length wire)) CRLF)
  then Raise (BenchmarkError "HMSG payload is missing CRLF") else
  parsed ← parse_headers (bytes_slice wire 0 header_size);
  let '(headers, status, description) := (parsed : list (text * text) * option Z * text) in
  sid ← int_of_str sid;
  Ok (sid, Message subject reply (bytes_slice wire header_size total_size) headers status description, rest).

(** [supercluster_benchmark.py:629-640 NatsConnection._read_message] *)
Definition read_msg (command : string) (tokens : list string) (stream : string) : res (Z * message * string) :=
  parts ← match tokens with
          | [_; subject; sid; size] => Ok (subject, sid, "", size)
          | [_; subject; sid; reply; size] => Ok (subject, sid, reply, size)
          | _ => Raise (BenchmarkError ("invalid MSG line " +:+ bytes_repr command))
          end;
  let '(subject, sid, reply, size) := (parts : string * string * string * string) in
  size ← int_of_str size;
  r ← readexactly (size + 2) stream;
  let '(wire, rest) := (r : string * string) in
  if negb (String.eqb (bytes_slice wire (-2) (bytes_length wire)) CRLF)
  then Raise (BenchmarkError "MSG payload is missing CRLF") else
  sid ← int_of_str sid;
  Ok (sid, Message subject reply (bytes_slice wire 0 size) [] None [], rest).

(** The part of [_read_message] that reads: the number of the subscription,
    the message, and the rest of the stream.
    [supercluster_benchmark.py:604-641 NatsConnection._read_message] *)
Definition read_message (command stream : string) (headers : bool) : res (Z * message * string) :=
  line ← decode_ascii command;
  if headers then read_hmsg command (words line) stream else read_msg command (words line) stream.

(** What a line of the server is. *)
Inductive frame :=
  | FPing
  | FPong
  | FMessage (sid : Z) (m : message)
  | FError (detail : text)
  | FIgnored.

(** One turn of the loop of [_read_loop]: the next frame and the rest.
    [supercluster_benchmark.py:569-595 NatsConnection._read_loop] *)
Definition next_frame (name stream : string) : res (frame * string) :=
  let '(line, rest) := readline stream in
  if String.eqb line "" then Raise (OSError "NATS connection closed") else
  let command := str_rstrip CRLF line in
  if String.eqb command "PING" then Ok (FPing, rest)
  else if String.eqb command "PONG" then Ok (FPong, rest)
  else if String.prefix "MSG " command
  then r ← read_message command rest false; Ok (FMessage r.1.1 r.1.2, r.2)
  else if String.prefix "HMSG " command
  then r ← read_message command rest true; Ok (FMessage r.1.1 r.1.2, r.2)
  else if String.prefix "-ERR" command then Ok (FError (utf8_replace command), rest)
  else if String.prefix "INFO " command || String.eqb command "+OK" then Ok (FIgnored, rest)
  else Raise (BenchmarkError (name +:+ " received unknown protocol line " +:+ bytes_repr command)).

(** ** What a server writes *)

(** A subject, a reply subject or another word of a command. *)
Definition wire_char (c : ascii) : Prop := chr_space c = false ∧ (chr_code c < 128)%Z.
Definition wire_word (s : string) : Prop := s ≠ "" ∧ only_chars wire_char s.
Definition wire_size (n : Z) : Prop := (0 ≤ n < 10 ^ 18)%Z.

(** A line without its line break. *)
Definition wire_line (s : string) : Prop := only_chars (λ c, c ≠ CR ∧ c ≠ LF) s.

Inductive server_frame :=
  | SvPing
  | SvPong
  | SvOk
  | SvInfo (json : string)
  | SvErr (detail : string)
  | SvMsg (subject : string) (sid : Z) (reply : string) (data : string)
  | SvHmsg (subject : string) (sid : Z) (reply : string) (raw data : string).

Definition words_of_reply (reply : string) : list string := if String.eqb reply "" then [] else [reply].

Definition render_frame (f : server_frame) : string :=
  match f with
  | SvPing => "PING" +:+ CRLF
  | SvPong => "PONG" +:+ CRLF
  | SvOk => "+OK" +:+ CRLF
  | SvInfo json => "INFO " +:+ json +:+ CRLF
  | SvErr detail => "-ERR " +:+ detail +:+ CRLF
  | SvMsg subject sid reply data =>
      str_join " " (["MSG"; subject; pretty sid] ++ words_of_reply reply ++ [pretty (bytes_length data)]) +:+ CRLF
      +:+ data +:+ CRLF
  | SvHmsg subject sid reply raw data =>
      str_join " " (["HMSG"; subject; pretty sid] ++ words_of_reply reply
                    ++ [pretty (bytes_length raw); pretty (bytes_length (raw +:+ data))]) +:+ CRLF
      +:+ raw +:+ data +:+ CRLF
  end.

(** Subjects are words, lines have no line break, sizes are below 10^18; the
    payloads and the bytes of the headers are anything. *)
Definition frame_ok (f : server_frame) : Prop :=
  match f with
  | SvPing | SvPong | SvOk => True
  | SvInfo json => wire_line json
  | SvErr detail => wire_line detail
  | SvMsg subject sid reply data =>
      wire_word subject ∧ wire_size sid ∧ (reply = "" ∨ wire_word reply) ∧ wire_size (bytes_length data)
  | SvHmsg subject sid reply raw data =>
      wire_word subject ∧ wire_size sid ∧ (reply = "" ∨ wire_word reply) ∧
      wire_size (bytes_length (raw +:+ data)) ∧ is_ok (parse_headers raw) = true
  end.

#[export] Instance frame_ok_dec f : Decision (frame_ok f).
Proof.
  destruct f; cbn [frame_ok]; unfold wire_word, wire_size, wire_line, only_chars, wire_char; apply _.
Defined.

(** What the client should see. *)
Definition frame_seen (f : server_frame) : frame :=
  match f with
  | SvPing => FPing
  | SvPong => FPong
  | SvOk | SvInfo _ => FIgnored
  | SvErr detail => FError (utf8_replace ("-ERR " +:+ detail))
  | SvMsg subject sid reply data => FMessage sid (Message subject reply data [] None [])
  | SvHmsg subject sid reply raw data =>
      match parse_headers raw with
      | Ok (headers, status, description) => FMessage sid (Message subject reply data headers status description)
      | Raise _ => FIgnored
      end
  end.

(** ** The parser gives the frames back *)

Lemma append_assoc (a b c : string) : (a +:+ b) +:+ c = a +:+ (b +:+ c).
Proof. induction a as [|x a IH]; [done|]. change (String x ((a +:+ b) +:+ c) = String x (a +:+ (b +:+ c))). by rewrite IH. Qed.

Lemma append_nil_r (a : string) : a +:+ "" = a.
Proof. induction a as [|x a IH]; [done|]. change (String x (a +:+ "") = String x a). by rewrite IH. Qed.

Lemma append_length (a b : string) : String.length (a +:+ b) = String.length a + String.length b.
Proof. induction a as [|x a IH]; [done|]. change (S (String.length (a +:+ b)) = S (String.length a + String.length b)). by rewrite IH. Qed.

Lemma bytes_length_app a b : bytes_length (a +:+ b) = (bytes_length a + bytes_length b)%Z.
Proof. unfold bytes_length. rewrite append_length. lia. Qed.

Lemma bytes_split_app a b : bytes_split (String.length a) (a +:+ b) = (a, b).
Proof.
  induction a as [|x a IH]; [by destruct b|].
  change (bytes_split (String.length (String x a)) (String x a +:+ b))
    with (let '(front, rest) := bytes_split (String.length a) (a +:+ b) in (String x front, rest)).
  by rewrite IH.
Qed.

Lemma readline_line s rest : wire_line s → readline (s +:+ CRLF +:+ rest) = (s +:+ CRLF, rest).
Proof.
  unfold wire_line, only_chars. induction s as [|c s IH]; intros Hs; [done|].
  cbn [chars String.list_ascii_of_string] in Hs. apply Forall_cons in Hs as [[Hcr Hlf] Hs].
  change (readline (String c s +:+ CRLF +:+ rest)) with
    (if Ascii.eqb c LF then (String c "", s +:+ CRLF +:+ rest)
     else let '(line, r) := readline (s +:+ CRLF +:+ rest) in (String c line, r)).
  destruct (Ascii.eqb_spec c LF); [done|]. by rewrite (IH Hs).
Qed.

Lemma rdrop_while_app {A} (f : A → bool) l l' :
  Forall (λ x, f x = false) l → Forall (λ x, f x = true) l' → rdrop_while f (l ++ l') = l.
Proof.
  intros Hl Hl'. unfold rdrop_while. rewrite reverse_app.
  assert (∀ k, Forall (λ x, f x = true) k → ∀ m, drop_while f (k ++ m) = drop_while f m) as Hdrop.
  { induction 1 as [|x k Hx Hk IH]; intros m; [done|]. cbn. by rewrite Hx. }
  rewrite Hdrop by (by apply Forall_reverse). rewrite drop_while_none by (by apply Forall_reverse).
  apply reverse_involutive.
Qed.

Lemma rstrip_line s : wire_line s → str_rstrip CRLF (s +:+ CRLF) = s.
Proof.
  intros Hs. unfold str_rstrip. rewrite chars_app, rdrop_while_app; [by rewrite of_chars_chars| |].
  - eapply Forall_impl; [exact Hs|]. cbv beta. intros c [Hcr Hlf]. apply bool_decide_eq_false.
    change (c ∉ [CR; LF]). set_solver.
  - apply (bool_decide_unpack _). vm_compute. exact I.
Qed.

Lemma wire_word_line s : only_chars wire_char s → wire_line s.
Proof.
  intros Hs. eapply Forall_impl; [exact Hs|]. intros c [Hspace _]. split; intros ->; by vm_compute in Hspace.
Qed.

Lemma wire_line_app a b : wire_line (a +:+ b) ↔ wire_line a ∧ wire_line b.
Proof. apply only_chars_app. Qed.

(** Words. *)
Lemma words_from_word word w : Forall (λ c, chr_space c = false) w →
  ∀ l, words_from word (w ++ l) = words_from (reverse w ++ word) l.
Proof.
  intros Hw. revert word. induction Hw as [|c w Hc Hw IH]; intros word l; [done|].
  cbn [app words_from]. rewrite Hc, IH. by rewrite reverse_cons, <- (assoc_L (++)).
Qed.

Lemma words_join ws : Forall wire_word ws → words (str_join " " ws) = ws.
Proof.
  unfold words, str_join. intros Hws. induction Hws as [|w ws [Hne Hw] Hws IH]; [done|].
  assert (Forall (λ c, chr_space c = false) (chars w)) as Hspace.
  { eapply Forall_impl; [exact Hw|]. by intros c [Hc _]. }
  assert (reverse (chars w) ≠ []) as Hrev.
  { intros Hnil. apply Hne. rewrite <- (of_chars_chars w), <- (reverse_involutive (chars w)), Hnil. done. }
  assert (of_chars (reverse (reverse (chars w))) = w) as Hback by (by rewrite reverse_involutive, of_chars_chars).
  destruct ws as [|w' ws].
  - change (String.concat " " [w]) with w. rewrite <- (app_nil_r (chars w)), words_from_word by done.
    rewrite app_nil_r. cbn [words_from]. destruct (reverse (chars w)) eqn:Hr; [done|]. by rewrite Hback.
  - change (String.concat " " (w :: w' :: ws)) with (w +:+ (" " +:+ String.concat " " (w' :: ws))).
    rewrite chars_app, chars_app, words_from_word by done. rewrite app_nil_r. cbn [chars String.list_ascii_of_string app].
    cbn [words_from]. change (chr_space " ") with true. cbv iota.
    destruct (reverse (chars w)) eqn:Hr; [done|]. rewrite Hback. f_equal. exact IH.
Qed.

Lemma join_chars (P : ascii → Prop) ws : P " "%char → Forall (only_chars P) ws → only_chars P (str_join " " ws).
Proof. intros Hsp. apply only_chars_join. by constructor. Qed.

Lemma pretty_word z : wire_size z → wire_word (pretty z).
Proof.
  intros [Hz _]. split; [by apply pretty_nonempty|]. eapply Forall_impl; [by apply pretty_digits|].
  intros c Hc. split; [by apply digit_not_space|]. unfold is_digit in Hc. lia.
Qed.

Lemma reply_words reply : reply = "" ∨ wire_word reply → Forall wire_word (words_of_reply reply).
Proof.
  unfold words_of_reply. intros [->|Hr]; [constructor|]. destruct (String.eqb reply ""); [constructor|by constructor].
Qed.

Lemma words_line ws : Forall wire_word ws → wire_line (str_join " " ws) ∧ decode_ascii (str_join " " ws) = Ok (str_join " " ws).
Proof.
  intros Hws. split.
  - apply join_chars; [by split|]. eapply Forall_impl; [exact Hws|]. intros w [_ Hw]. by apply wire_word_line.
  - unfold decode_ascii. rewrite (proj2 (forallb_forall _ _)); [done|]. intros c Hc%list_elem_of_In.
    assert (only_chars (λ c, chr_code c < 128)%Z (str_join " " ws)) as Hall.
    { apply join_chars; [done|]. eapply Forall_impl; [exact Hws|]. intros w [_ Hw].
      eapply Forall_impl; [exact Hw|]. by intros x [_ Hx]. }
    unfold only_chars in Hall. rewrite Forall_forall in Hall. apply Z.ltb_lt. by apply Hall.
Qed.

(** Slices at the seams of a concatenation. *)
Lemma bytes_slice_middle a b c :
  bytes_slice (a +:+ b +:+ c) (bytes_length a) (bytes_length a + bytes_length b) = b.
Proof.
  unfold bytes_slice, slice_index. rewrite !bytes_length_app. unfold bytes_length.
  rewrite (proj2 (Z.ltb_ge _ _)), (proj2 (Z.ltb_ge _ _)) by lia.
  rewrite !Z.min_l by lia.
  replace (Z.to_nat (Z.of_nat (String.length a))) with (String.length a) by lia.
  replace (Z.to_nat (Z.of_nat (String.length a) + Z.of_nat (String.length b) - Z.of_nat (String.length a)))
    with (String.length b) by lia.
  rewrite bytes_split_app. cbn [snd]. by rewrite bytes_split_app.
Qed.

Lemma bytes_slice_front a b : bytes_slice (a +:+ b) 0 (bytes_length a) = a.
Proof. exact (bytes_slice_middle "" a b). Qed.

Lemma bytes_slice_back a : bytes_slice (a +:+ CRLF) (-2) (bytes_length (a +:+ CRLF)) = CRLF.
Proof.
  pose proof (bytes_slice_middle a CRLF "") as H. rewrite append_nil_r in H. rewrite <- H at 3.
  unfold bytes_slice, slice_index. rewrite bytes_length_app. unfold bytes_length.
  change (Z.of_nat (String.length CRLF)) with 2%Z. cbn [Z.ltb Z.compare].
  rewrite (proj2 (Z.ltb_ge (Z.of_nat (String.length a) + 2) 0)) by lia.
  rewrite (proj2 (Z.ltb_ge (Z.of_nat (String.length a)) 0)) by lia.
  by replace (Z.max 0 (Z.of_nat (String.length a) + 2 + -2)) with (Z.min (Z.of_nat (String.length a)) (Z.of_nat (String.length a) + 2)) by lia.
Qed.

Lemma readexactly_app a b : readexactly (bytes_length a) (a +:+ b) = Ok (a, b).
Proof.
  unfold readexactly. rewrite bytes_length_app. unfold bytes_length.
  rewrite (proj2 (Z.ltb_ge _ _)), (proj2 (Z.ltb_ge _ _)) by lia. rewrite Nat2Z.id. by rewrite bytes_split_app.
Qed.

(** The payload of a frame and its line break. *)
Lemma readexactly_payload n data rest :
  n = (bytes_length data + 2)%Z → readexactly n (data +:+ CRLF +:+ rest) = Ok (data +:+ CRLF, rest).
Proof.
  intros ->. rewrite <- append_assoc. change 2%Z with (bytes_length CRLF). rewrite <- bytes_length_app.
  apply readexactly_app.
Qed.

Lemma read_msg_render subject sid reply data rest ws :
  wire_word subject → wire_size sid → (reply = "" ∨ wire_word reply) → wire_size (bytes_length data) →
  ws = ["MSG"; subject; pretty sid] ++ words_of_reply reply ++ [pretty (bytes_length data)] →
  read_message (str_join " " ws) (data +:+ CRLF +:+ rest) false
  = Ok (sid, Message subject reply data [] None [], rest).
Proof.
  intros Hsubject Hsid Hreply Hsize ->. set (ws := _ ++ _).
  assert (Forall wire_word ws) as Hws.
  { unfold ws. repeat apply Forall_app_2; [|by apply reply_words|]; repeat constructor; try apply pretty_word;
      try apply Hsubject; try done. }
  destruct (words_line ws Hws) as [_ Hascii]. unfold read_message. rewrite Hascii. cbn [mbind res_bind].
  rewrite words_join by done. unfold read_msg.
  assert (match ws with
          | [_; subject; sid; size] => Ok (subject, sid, "", size)
          | [_; subject; sid; reply; size] => Ok (subject, sid, reply, size)
          | _ => Raise (BenchmarkError ("invalid MSG line " +:+ bytes_repr (str_join " " ws)))
          end = Ok (subject, pretty sid, reply, pretty (bytes_length data))) as ->.
  { unfold ws, words_of_reply. destruct (String.eqb_spec reply "") as [->|]; reflexivity. }
  cbn [mbind res_bind]. rewrite !int_of_small by done. cbn [mbind res_bind].
  rewrite readexactly_payload by done. cbn [mbind res_bind]. rewrite bytes_slice_back.
  cbn [String.eqb CRLF]. rewrite !Ascii.eqb_refl. cbn [negb mbind res_bind].
  by rewrite bytes_slice_front.
Qed.

Lemma read_hmsg_render subject sid reply raw data rest ws headers status description :
  wire_word subject → wire_size sid → (reply = "" ∨ wire_word reply) → wire_size (bytes_length (raw +:+ data)) →
  parse_headers raw = Ok (headers, status, description) →
  ws = ["HMSG"; subject; pretty sid] ++ words_of_reply reply
       ++ [pretty (bytes_length raw); pretty (bytes_length (raw +:+ data))] →
  read_message (str_join " " ws) (raw +:+ data +:+ CRLF +:+ rest) true
  = Ok (sid, Message subject reply data headers status description, rest).
Proof.
  intros Hsubject Hsid Hreply Hsize Hraw ->. set (ws := _ ++ _).
  assert (wire_size (bytes_length raw)) as Hraws.
  { revert Hsize. unfold wire_size. rewrite bytes_length_app. unfold bytes_length. lia. }
  assert (Forall wire_word ws) as Hws.
  { unfold ws. repeat apply Forall_app_2; [|by apply reply_words|]; repeat constructor; try apply pretty_word;
      try apply Hsubject; try done. }
  destruct (words_line ws Hws) as [_ Hascii]. unfold read_message. rewrite Hascii. cbn [mbind res_bind].
  rewrite words_join by done. unfold read_hmsg.
  assert (match ws with
          | [_; subject; sid; header; total] => Ok (subject, sid, "", header, total)
          | [_; subject; sid; reply; header; total] => Ok (subject, sid, reply, header, total)
          | _ => Raise (BenchmarkError ("invalid HMSG line " +:+ bytes_repr (str_join " " ws)))
          end = Ok (subject, pretty sid, reply, pretty (bytes_length raw), pretty (bytes_length (raw +:+ data)))) as ->.
  { unfold ws, words_of_reply. destruct (String.eqb_spec reply "") as [->|]; reflexivity. }
  cbn [mbind res_bind]. rewrite !int_of_small by done. cbn [mbind res_bind].
  rewrite <- append_assoc. rewrite readexactly_payload by done. cbn [mbind res_bind]. rewrite bytes_slice_back.
  cbn [String.eqb CRLF]. rewrite !Ascii.eqb_refl. cbn [negb].
  rewrite append_assoc, bytes_slice_front, Hraw. cbn [mbind res_bind].
  rewrite bytes_length_app, bytes_slice_middle. done.
Qed.

(** A line of the stream, and what [next_frame] makes of it. *)
Lemma next_frame_line name s rest :
  wire_line s →
  next_frame name (s +:+ CRLF +:+ rest) =
    if String.eqb s "PING" then Ok (FPing, rest)
    else if String.eqb s "PONG" then Ok (FPong, rest)
    else if String.prefix "MSG " s then r ← read_message s rest false; Ok (FMessage r.1.1 r.1.2, r.2)
    else if String.prefix "HMSG " s then r ← read_message s rest true; Ok (FMessage r.1.1 r.1.2, r.2)
    else if String.prefix "-ERR" s then Ok (FError (utf8_replace s), rest)
    else if String.prefix "INFO " s || String.eqb s "+OK" then Ok (FIgnored, rest)
    else Raise (BenchmarkError (name +:+ " received unknown protocol line " +:+ bytes_repr s)).
Proof.
  intros Hs. unfold next_frame. rewrite readline_line by done. cbv beta iota. rewrite rstrip_line by done.
  destruct (String.eqb_spec (s +:+ CRLF) "") as [Hnil|_]; [|done].
  apply (f_equal String.length) in Hnil. rewrite append_length in Hnil. cbn in Hnil. lia.
Qed.

Lemma prefix_append (p s : string) : String.prefix p (p +:+ s) = true.
Proof.
  induction p as [|c p IH]; [by destruct s|].
  change (String c p +:+ s) with (String c (p +:+ s)). cbn [String.prefix]. by destruct (Ascii.ascii_dec c c).
Qed.

Lemma next_frame_render name f rest :
  frame_ok f → next_frame name (render_frame f +:+ rest) = Ok (frame_seen f, rest).
Proof.
  destruct f as [| | |json|detail|subject sid reply data|subject sid reply raw data]; cbn [frame_ok render_frame frame_seen].
  1-3: intros _; rewrite append_assoc, next_frame_line by (by apply (bool_decide_unpack _); vm_compute); reflexivity.
  - intros Hj. rewrite !append_assoc, <- (append_assoc "INFO "), next_frame_line; [by rewrite prefix_append|].
    apply wire_line_app. split; [|done]. by apply (bool_decide_unpack _); vm_compute.
  - intros Hd. rewrite !append_assoc, <- (append_assoc "-ERR "), next_frame_line.
    { rewrite (append_assoc "-ERR" " " detail : "-ERR " +:+ detail = "-ERR" +:+ (" " +:+ detail)), prefix_append. reflexivity. }
    apply wire_line_app. split; [|done]. by apply (bool_decide_unpack _); vm_compute.
  - intros (Hsubject & Hsid & Hreply & Hsize). set (ws := _ ++ _). rewrite !append_assoc.
    assert (Forall wire_word ws) as Hws.
    { unfold ws. repeat apply Forall_app_2; [|by apply reply_words|]; repeat constructor; try apply pretty_word;
        try apply Hsubject; done. }
    destruct (words_line ws Hws) as [Hline _]. rewrite next_frame_line by done.
    change (String.eqb (str_join " " ws) "PING") with false. change (String.eqb (str_join " " ws) "PONG") with false.
    assert (String.prefix "MSG " (str_join " " ws) = true) as -> by apply (prefix_append "MSG "). cbv iota.
    by rewrite (read_msg_render subject sid reply data rest ws).
  - intros (Hsubject & Hsid & Hreply & Hsize & Hraw).
    destruct (parse_headers raw) as [[[headers status] description]|] eqn:Hparse; [|done].
    set (ws := _ ++ _). rewrite !append_assoc.
    assert (Forall wire_word ws) as Hws.
    { unfold ws. repeat apply Forall_app_2; [|by apply reply_words|]; repeat constructor; try apply pretty_word;
        try apply Hsubject; try done.
      all: revert Hsize; unfold wire_size; rewrite ?bytes_length_app; unfold bytes_length; lia. }
    destruct (words_line ws Hws) as [Hline _]. rewrite next_frame_line by done.
    change (String.eqb (str_join " " ws) "PING") with false. change (String.eqb (str_join " " ws) "PONG") with false.
    change (String.prefix "MSG " (str_join " " ws)) with false. assert (String.prefix "HMSG " (str_join " " ws) = true) as -> by apply (prefix_append "HMSG ").
    cbv iota. by rewrite (read_hmsg_render subject sid reply raw data rest ws headers status description).
Qed.

(** The frames of a stream, and why the reading ends. *)
Fixpoint read_frames (name : string) (fuel : nat) (stream : string) : list frame * option exn :=
  match fuel with
  | O => ([], None)
  | S fuel =>
      match next_frame name stream with
      | Raise e => ([], Some e)
      | Ok (f, rest) => let '(fs, e) := read_frames name fuel rest in (f :: fs, e)
      end
  end.


Definition demo_frames : list server_frame :=
  [SvInfo "{}"; SvOk; SvMsg "orders.created" 7 "" ("PING" +:+ CRLF +:+ "MSG a 1 3" +:+ CRLF); SvPing;
   SvHmsg "_INBOX.1" 8 "$JS.ACK.1" ("NATS/1.0 503 No Responders" +:+ CRLF +:+ "k: v" +:+ CRLF +:+ CRLF) ""; SvPong].


Example demo_status :
  match (read_frames "west" 7 (str_join "" (render_frame <$> demo_frames))).1 !! 4 with
  | Some (FMessage _ m) => (m_status m, m_description m) | _ => (None, []) end
  = (Some 503%Z, text_of "No Responders").
Proof. vm_compute. reflexivity. Qed.

(** A superscript is a digit, and not an integer. *)
Example superscript_status :
  parse_headers ("NATS/1.0 " +:+ String (ascii_of_nat 194) (String (ascii_of_nat 178) CRLF))
  = Raise (ValueError "invalid literal for int() with base 10").
Proof. vm_compute. reflexivity. Qed.
