(* ===== verification/NatsClient.v ===== *)
(** * The NATS client of the supercluster benchmark

    [NatsConnection] of src/benchmark/supercluster/supercluster_benchmark.py:
    its subscriptions, its flushes and requests, its reader and its
    reconnections, as tasks of one event loop.  A [Section] is the code between
    two awaits.  The theorems: a callback is called at most as often as its
    subscription allows, in order, across reconnections; what the server is
    told to send is what the client waits for. *)

From S2P Require Import Prelude PyFloat PyValue PyText Program NatsWire.
From Stdlib Require Import Ascii.
From Corelib Require Import SpecFloat.

(** ** State *)

(** [supercluster_benchmark.py:312-317 Subscription] *)
Record subscription := Subscription {
  s_subject : string;
  s_max : option Z;
  s_received : Z;
}.

Record client := Client {
  c_subs : list (Z * subscription);
  c_next_sid : Z;
  c_next_inbox : Z;
  c_pongs : list nat;
  c_next_future : nat;
  c_futures : list (nat * res unit);
  c_generation : nat;
  c_writer : option nat;
  c_connected : bool;
  c_closing : bool;
  c_errors : list text;
  c_calls : list (Z * subscription * message);
  c_reconnecting : bool;
}.

(** A client that never connected.
    [supercluster_benchmark.py:323-364 NatsConnection.__init__] *)
Definition new_client : client := Client [] 1 1 [] 0 [] 0 None false false [] [] false.

Definition set_subs (c : client) (subs : list (Z * subscription)) : client :=
  Client subs (c_next_sid c) (c_next_inbox c) (c_pongs c) (c_next_future c) (c_futures c) (c_generation c)
    (c_writer c) (c_connected c) (c_closing c) (c_errors c) (c_calls c) (c_reconnecting c).
Definition set_pongs (c : client) (pongs : list nat) (next : nat) (futures : list (nat * res unit)) : client :=
  Client (c_subs c) (c_next_sid c) (c_next_inbox c) pongs next futures (c_generation c)
    (c_writer c) (c_connected c) (c_closing c) (c_errors c) (c_calls c) (c_reconnecting c).
Definition set_link (c : client) (generation : nat) (writer : option nat) (connected closing reconnecting : bool) : client :=
  Client (c_subs c) (c_next_sid c) (c_next_inbox c) (c_pongs c) (c_next_future c) (c_futures c) generation
    writer connected closing (c_errors c) (c_calls c) reconnecting.
Definition set_calls (c : client) (errors : list text) (calls : list (Z * subscription * message)) : client :=
  Client (c_subs c) (c_next_sid c) (c_next_inbox c) (c_pongs c) (c_next_future c) (c_futures c) (c_generation c)
    (c_writer c) (c_connected c) (c_closing c) errors calls (c_reconnecting c).

(** [d.pop(sid, None)] *)
Definition drop_sub (sid : Z) (subs : list (Z * subscription)) : list (Z * subscription) :=
  filter (λ ks, ks.1 ≠ sid) subs.

(** ** Sections: the code between two awaits *)

(** [pong = create_future(); self._pongs.append(pong)] *)
Definition new_pong (c : client) : nat * client :=
  (c_next_future c, set_pongs c (c_pongs c ++ [c_next_future c]) (S (c_next_future c)) (c_futures c)).

(** A future is resolved once.  One that its waiter has given up is done. *)
Definition resolve (future : nat) (r : res unit) (futures : list (nat * res unit)) : list (nat * res unit) :=
  match alist_get future futures with Some _ => futures | None => alist_set future r futures end.

(** The reader takes a [PONG].
    [supercluster_benchmark.py:577-581 NatsConnection._read_loop] *)
Definition answer_pong (c : client) : unit * client :=
  (tt, match c_pongs c with
       | [] => c
       | pong :: pongs => set_pongs c pongs (c_next_future c) (resolve pong (Ok tt) (c_futures c))
       end).

(** [self._pongs.remove(pong)], if it is still there; its waiter is gone. *)
Definition drop_pong (pong : nat) (c : client) : unit * client :=
  (tt, set_pongs c (filter (λ p, p ≠ pong) (c_pongs c)) (c_next_future c)
         (resolve pong (Raise (OtherError "CancelledError")) (c_futures c))).

(** [supercluster_benchmark.py:495-498 NatsConnection.subscribe] *)
Definition register (subject : string) (max_messages : option Z) (c : client) : Z * client :=
  let sid := c_next_sid c in
  (sid, Client (c_subs c ++ [(sid, Subscription subject max_messages 0)]) (sid + 1) (c_next_inbox c) (c_pongs c)
          (c_next_future c) (c_futures c) (c_generation c) (c_writer c) (c_connected c) (c_closing c) (c_errors c)
          (c_calls c) (c_reconnecting c)).

Definition forget (sid : Z) (c : client) : unit * client := (tt, set_subs c (drop_sub sid (c_subs c))).

(** [supercluster_benchmark.py:646-649 NatsConnection._read_message] *)
Definition is_last (s : subscription) : bool :=
  match s_max s with Some max => (max <=? s_received s)%Z | None => false end.

(** The end of [_read_message]: the subscription is looked up, the message
    counted, the subscription dropped with its last message, and a task
    created for its callback.
    [supercluster_benchmark.py:642-662 NatsConnection._read_message] *)
Definition dispatch_message (sid : Z) (m : message) (c : client) : unit * client :=
  (tt, match alist_get sid (c_subs c) with
       | None => c
       | Some s =>
           let s := Subscription (s_subject s) (s_max s) (s_received s + 1) in
           set_calls (set_subs c (if is_last s then drop_sub sid (c_subs c) else alist_set sid s (c_subs c)))
             (c_errors c) (c_calls c ++ [(sid, s, m)])
       end).

Definition log_error (detail : text) (c : client) : unit * client := (tt, set_calls c (c_errors c ++ [detail]) (c_calls c)).

(** Every waiting flush fails.
    [supercluster_benchmark.py:694-703 NatsConnection._on_disconnect] *)
Definition begin_disconnect (name : string) (error : string) (c : client) : option nat * client :=
  let failed := Raise (OSError (name +:+ " disconnected: " +:+ error)) in
  let futures := foldl (λ fs p, resolve p failed fs) (c_futures c) (c_pongs c) in
  let c := set_pongs c [] (c_next_future c) futures in
  (c_writer c, set_link c (c_generation c) (c_writer c) false (c_closing c) (c_reconnecting c)).
(** [supercluster_benchmark.py:708-711 NatsConnection._on_disconnect] *)
Definition end_disconnect (c : client) : unit * client :=
  (tt, set_link c (c_generation c) None (c_connected c) (c_closing c) true).

(** [supercluster_benchmark.py:437-440 NatsConnection._connect_once] *)
Definition start_generation (stream : nat) (c : client) : nat * client :=
  (S (c_generation c),
   set_link c (S (c_generation c)) (Some stream) (c_connected c) (c_closing c) (c_reconnecting c)).
Definition set_connected (c : client) : unit * client :=
  (tt, set_link c (c_generation c) (c_writer c) true (c_closing c) (c_reconnecting c)).
Definition end_reconnect (c : client) : unit * client :=
  (tt, set_link c (c_generation c) (c_writer c) (c_connected c) (c_closing c) false).

(** ** What the client writes *)

Inductive command :=
  | CmdConnect (payload : string)
  | CmdSub (subject : string) (sid : Z)
  | CmdUnsub (sid : Z) (max : option Z)
  | CmdPub (subject : string) (reply : string) (data : string)
  | CmdPing
  | CmdPong.

Definition render_command (command : command) : string :=
  match command with
  | CmdConnect payload => "CONNECT " +:+ payload +:+ CRLF
  | CmdSub subject sid => "SUB " +:+ subject +:+ " " +:+ pretty sid +:+ CRLF
  | CmdUnsub sid (Some max) => "UNSUB " +:+ pretty sid +:+ " " +:+ pretty max +:+ CRLF
  | CmdUnsub sid None => "UNSUB " +:+ pretty sid +:+ CRLF
  | CmdPub subject "" data => "PUB " +:+ subject +:+ " " +:+ pretty (bytes_length data) +:+ CRLF +:+ data +:+ CRLF
  | CmdPub subject reply data =>
      "PUB " +:+ subject +:+ " " +:+ reply +:+ " " +:+ pretty (bytes_length data) +:+ CRLF +:+ data +:+ CRLF
  | CmdPing => "PING" +:+ CRLF
  | CmdPong => "PONG" +:+ CRLF
  end.
Definition render_commands (commands : list command) : string := str_join "" (render_command <$> commands).

(** [supercluster_benchmark.py:414-425 NatsConnection._connect_once] *)
Definition resubscribe (ks : Z * subscription) : list command :=
  CmdSub (s_subject ks.2) ks.1 ::
  match s_max ks.2 with
  | Some max => let remaining := (max - s_received ks.2)%Z in
                if (0 <? remaining)%Z then [CmdUnsub ks.1 (Some remaining)] else []
  | None => []
  end.

(** [supercluster_benchmark.py:413-428 NatsConnection._connect_once] *)
Definition connect_commands (payload : string) (c : client) : list command :=
  CmdConnect payload :: (c_subs c ≫= resubscribe) ++ [CmdPing].

(** [supercluster_benchmark.py:499-501 NatsConnection.subscribe] *)
Definition subscribe_commands (subject : string) (sid : Z) (max_messages : option Z) : list command :=
  CmdSub subject sid :: match max_messages with Some max => [CmdUnsub sid (Some max)] | None => [] end.

(** ** Operations *)

Inductive clientE : Type → Type :=
  | Section {A} (f : client → A * client) : clientE A
  | Open : clientE (res nat)
  | ReadInfo (stream : nat) : clientE (res string)
  | StartTls (stream : nat) : clientE (res unit)
  | ReadFrame (stream : nat) : clientE (res frame)
  | Write (stream : nat) (data : string) : clientE (res unit)
  | Close (stream : nat) : clientE unit
  | WaitConnected : clientE (res unit)
  | Await (future : nat) : clientE (res unit)
  | Response (sid : Z) : clientE (res message)
  | TokenHex : clientE string
  | BeforeSend : clientE unit
  | Sleep : clientE unit.

Abbreviation task := (prog clientE).

Definition section {A} (f : client → A * client) : task A := perform (Section f).

(** [d[k] = v] on lines of JSON, compactly. *)
Definition json_char (c : ascii) : string :=
  let n := chr_code c in
  if (n =? 34)%Z then String "\" (String c "") else if (n =? 92)%Z then String "\" (String c "")
  else if (n =? 10)%Z then "\n" else if (n =? 13)%Z then "\r" else if (n =? 9)%Z then "\t"
  else if (n =? 8)%Z then "\b" else if (n =? 12)%Z then "\f"
  else if ((n <? 32) || (126 <? n))%Z then "\u00" +:+ hex_digit (n / 16) +:+ hex_digit (n mod 16)
  else String c "".
Definition json_string (s : string) : string :=
  String double_quote (str_join "" (json_char <$> chars s)) +:+ String double_quote "".

(** [json.dumps(value, separators=(",", ":"))] *)
Fixpoint json_dumps (v : pyval) : string :=
  match v with
  | PNone => "null"
  | PBool b => if b then "true" else "false"
  | PInt z => pretty z
  | PFloat f => match f with
                | S754_nan => "NaN"
                | S754_infinity s => if s then "-Infinity" else "Infinity"
                | f => float_repr f
                end
  | PStr s => json_string s
  | PList l => "[" +:+ str_join "," (map json_dumps l) +:+ "]"
  | PDict d => "{" +:+ str_join "," (map (λ '(k, w), json_string k +:+ ":" +:+ json_dumps w) d) +:+ "}"
  end.

Section tasks.
Context (json_loads : string → res pyval) (name user password : string).

(** [supercluster_benchmark.py:456-470 NatsConnection._send] *)
Definition send (data : string) : task unit :=
  _ ← call WaitConnected;
  writer ← section (λ c, (c_writer c, c));
  match writer with
  | None => Throw (BenchmarkError (name +:+ " is disconnected"))
  | Some stream => _ ← perform BeforeSend; call (Write stream data)
  end.

(** [supercluster_benchmark.py:472-486 NatsConnection.publish] *)
Definition publish (subject data reply : string) : task unit := send (render_command (CmdPub subject reply data)).

(** [except Exception: ...; raise]; a cancellation is not an [Exception] and
    is a task that is stopped between two operations. *)
Definition on_error {A} (cleanup : task unit) (p : task A) : task A :=
  r ← prog_try p;
  match r with Ok a => Ret a | Raise e => _ ← cleanup; Throw e end.

(** [supercluster_benchmark.py:488-507 NatsConnection.subscribe] *)
Definition subscribe (subject : string) (max_messages : option Z) : task Z :=
  sid ← section (register subject max_messages);
  _ ← on_error (section (forget sid)) (send (render_commands (subscribe_commands subject sid max_messages)));
  Ret sid.

(** [supercluster_benchmark.py:509-512 NatsConnection.unsubscribe] *)
Definition unsubscribe (sid : Z) : task unit :=
  connected ← section (λ c, (c_connected c, (forget sid c).2));
  if (connected : bool) then send (render_command (CmdUnsub sid None)) else Ret tt.

(** [supercluster_benchmark.py:514-523 NatsConnection.flush] *)
Definition flush : task unit :=
  pong ← section new_pong;
  on_error (section (drop_pong pong)) (_ ← send (render_command CmdPing); call (Await pong)).

(** The message of the last exception also quotes the description.
    [supercluster_benchmark.py:525-559 NatsConnection.request] *)
Definition request (subject data : string) : task message :=
  token ← perform TokenHex;
  inbox ← section (λ c, ("_INBOX.SCB." +:+ token +:+ "." +:+ pretty (c_next_inbox c),
    Client (c_subs c) (c_next_sid c) (c_next_inbox c + 1) (c_pongs c) (c_next_future c) (c_futures c)
      (c_generation c) (c_writer c) (c_connected c) (c_closing c) (c_errors c) (c_calls c) (c_reconnecting c)));
  sid ← subscribe inbox (Some 1%Z);
  r ← prog_try (_ ← publish subject data inbox; call (Response sid));
  _ ← section (forget sid);
  match r with
  | Raise (TimeoutError _) => Throw (BenchmarkError ("NATS request to " +:+ subject +:+ " timed out"))
  | Raise e => Throw e
  | Ok m =>
      match m_status m with
      | Some status =>
          if (300 <=? status)%Z
          then Throw (BenchmarkError ("NATS request to " +:+ subject +:+ " returned " +:+ pretty status))
          else Ret m
      | None => Ret m
      end
  end.

(** One frame of the reader.
    [supercluster_benchmark.py:570-595 NatsConnection._read_loop] *)
Definition read_turn (stream : nat) : task unit :=
  frame ← call (ReadFrame stream);
  match frame with
  | FPing => call (Write stream (render_command CmdPong))
  | FPong => section answer_pong
  | FMessage sid m => section (dispatch_message sid m)
  | FError detail => section (log_error detail)
  | FIgnored => Ret tt
  end.

Fixpoint read_turns (fuel : nat) (stream : nat) : task unit :=
  match fuel with O => Ret tt | S fuel => _ ← read_turn stream; read_turns fuel stream end.

(** [supercluster_benchmark.py:694-711 NatsConnection._on_disconnect] *)
Definition on_disconnect (error : string) : task unit :=
  writer ← section (begin_disconnect name error);
  _ ← match writer with Some stream => perform (Close stream) | None => Ret tt end;
  section end_disconnect.

(** The reader of a generation: only that of the current one reports the loss
    of the connection.
    [supercluster_benchmark.py:561-602 NatsConnection._read_loop] *)
Definition read_loop (fuel stream generation : nat) : task unit :=
  r ← prog_try (read_turns fuel stream);
  current ← section (λ c, (bool_decide (generation = c_generation c) && negb (c_closing c), c));
  if (current : bool)
  then on_disconnect (match r with Raise e => exn_str e | Ok _ => "None" end) else Ret tt.

(** [supercluster_benchmark.py:396-412 NatsConnection._connect_once] *)
Definition connect_payload : string :=
  json_dumps (PDict [("verbose", PBool false); ("pedantic", PBool false); ("tls_required", PBool true);
    ("name", PStr name); ("lang", PStr "python-stdlib"); ("version", PStr "1"); ("protocol", PInt 1);
    ("echo", PBool true); ("headers", PBool true); ("no_responders", PBool true); ("user", PStr user);
    ("pass", PStr password)]).

(** [supercluster_benchmark.py:380-430 NatsConnection._connect_once] *)
Definition handshake (stream : nat) : task nat :=
  info_line ← call (ReadInfo stream);
  if negb (String.prefix "INFO " info_line)
  then Throw (BenchmarkError (name +:+ " did not send a NATS INFO line")) else
  info ← lift (json_loads (bytes_slice info_line 5 (bytes_length info_line)));
  required ← lift (py_get info "tls_required" PNone);
  if negb (py_truth required)
  then Throw (BenchmarkError (name +:+ " did not require TLS as expected")) else
  _ ← call (StartTls stream);
  written ← section (λ c, let '(pong, c') := new_pong c in ((pong, connect_commands connect_payload c), c'));
  let '(pong, commands) := (written : nat * list command) in
  _ ← call (Write stream (render_commands commands));
  Ret pong.

(** [supercluster_benchmark.py:369-454 NatsConnection._connect_once] *)
Definition connect_once : task unit :=
  closing ← section (λ c, (c_closing c, c));
  if (closing : bool) then Ret tt else
  stream ← call Open;
  pong ← on_error (perform (Close stream)) (handshake stream);
  _ ← section (start_generation stream);
  _ ← on_error (perform (Close stream)) (call (Await pong));
  section set_connected.

(** [except (OSError, asyncio.TimeoutError, ssl.SSLError, BenchmarkError)] *)
Definition retried (e : exn) : bool :=
  match e with OSError _ | TimeoutError _ | BenchmarkError _ => true | _ => false end.

(** [supercluster_benchmark.py:713-719 NatsConnection._reconnect_loop] *)
Fixpoint reconnect_loop (fuel : nat) : task unit :=
  match fuel with
  | O => Ret tt
  | S fuel =>
      over ← section (λ c, (c_closing c || c_connected c, c));
      if (over : bool) then Ret tt else
      r ← prog_try connect_once;
      match r with
      | Ok _ => Ret tt
      | Raise e => if retried e then _ ← perform Sleep; reconnect_loop fuel else Throw e
      end
  end.

(** The task of a reconnection is done when its loop ends, however it ends. *)
Definition reconnect_task (fuel : nat) : task unit :=
  r ← prog_try (reconnect_loop fuel); _ ← section end_reconnect; lift r.

(** [supercluster_benchmark.py:721-741 NatsConnection.close] *)
Definition close : task unit :=
  writer ← section (λ c, (c_writer c, set_link c (c_generation c) (c_writer c) false true (c_reconnecting c)));
  _ ← match writer with Some stream => perform (Close stream) | None => Ret tt end;
  section (λ c, (tt, set_link c (c_generation c) None (c_connected c) (c_closing c) (c_reconnecting c))).
End tasks.

(** ** Tasks of one event loop *)

(** What the tasks of a benchmark do with a connection. *)
Inductive client_call :=
  | CallPublish (subject data reply : string)
  | CallSubscribe (subject : string) (max_messages : option Z)
  | CallUnsubscribe (sid : Z)
  | CallFlush
  | CallRequest (subject data : string)
  | CallConnect
  | CallReader (fuel stream generation : nat)
  | CallReconnect (fuel : nat)
  | CallClose.

Section loop.
Context (json_loads : string → res pyval) (name user password : string).

Definition run_call (c : client_call) : task unit :=
  match c with
  | CallPublish subject data reply => publish name subject data reply
  | CallSubscribe subject max => _ ← subscribe name subject max; Ret tt
  | CallUnsubscribe sid => unsubscribe name sid
  | CallFlush => flush name
  | CallRequest subject data => _ ← request name subject data; Ret tt
  | CallConnect => connect_once json_loads name user password
  | CallReader fuel stream generation => read_loop name fuel stream generation
  | CallReconnect fuel => reconnect_task json_loads name user password fuel
  | CallClose => close
  end.

(** A task goes on after a call that failed. *)
Fixpoint run_calls (calls : list client_call) : task unit :=
  match calls with [] => Ret tt | c :: calls => _ ← prog_try (run_call c); run_calls calls end.
End loop.

(** The client and everything else: the network, the clock, the other tasks'
    futures.  The environment answers the operations as it likes. *)
Section world.
Context {W : Type} (env : ∀ X, clientE X → client → W → X * W).

Definition client_handle X (op : clientE X) : client * W → X * (client * W) :=
  match op in clientE X return client * W → X * (client * W) with
  | Section f => λ s, ((f s.1).1, ((f s.1).2, s.2))
  | op => λ s, ((env _ op s.1 s.2).1, (s.1, (env _ op s.1 s.2).2))
  end.
End world.

(** ** Callbacks *)

Definition calls_of (sid : Z) (calls : list (Z * subscription * message)) : list (Z * subscription * message) :=
  filter (λ call, call.1.1 = sid) calls.
Definition call_number (call : Z * subscription * message) : Z := s_received call.1.2.
Definition same_subscription (s : subscription) (call : Z * subscription * message) : Prop :=
  s_subject call.1.2 = s_subject s ∧ s_max call.1.2 = s_max s.
(** Whether another message of the subscription is expected. *)
Definition has_room (s : subscription) : Prop :=
  match s_max s with Some max => s_received s = 0%Z ∨ (s_received s < max)%Z | None => True end.
Definition within_bound (call : Z * subscription * message) : Prop :=
  match s_max call.1.2 with Some max => (call_number call ≤ Z.max 1 max)%Z | None => True end.

(** The table of subscriptions and the callbacks so far. *)
Record table_ok (subs : list (Z * subscription)) (next : Z) (calls : list (Z * subscription * message)) : Prop := {
  tb_keys : NoDup subs.*1;
  tb_fresh : ∀ sid, (next ≤ sid)%Z → (sid ∉ subs.*1) ∧ calls_of sid calls = [];
  tb_live : ∀ sid s, (sid, s) ∈ subs →
    s_received s = Z.of_nat (length (calls_of sid calls)) ∧ Forall (same_subscription s) (calls_of sid calls) ∧ has_room s;
  tb_number : ∀ sid, call_number <$> calls_of sid calls = seqZ 1 (Z.of_nat (length (calls_of sid calls)));
  tb_same : ∀ sid, ∃ s, Forall (same_subscription s) (calls_of sid calls);
  tb_bound : Forall within_bound calls;
}.
Definition client_ok (c : client) : Prop := table_ok (c_subs c) (c_next_sid c) (c_calls c).

Lemma drop_sub_elem sid k s subs : (k, s) ∈ drop_sub sid subs ↔ k ≠ sid ∧ (k, s) ∈ subs.
Proof. unfold drop_sub. by rewrite list_elem_of_filter. Qed.
Lemma drop_sub_NoDup sid subs : NoDup subs.*1 → NoDup (drop_sub sid subs).*1.
Proof. intros H. eapply sublist_NoDup; [exact H|]. apply fmap_sublist, sublist_filter. Qed.
Lemma drop_sub_keys sid k subs : k ∈ (drop_sub sid subs).*1 → k ∈ subs.*1.
Proof. rewrite !list_elem_of_fmap. intros ([k' s] & -> & Hin). apply drop_sub_elem in Hin as [_ Hin]. by exists (k', s). Qed.

Lemma table_forget sid subs next calls : table_ok subs next calls → table_ok (drop_sub sid subs) next calls.
Proof.
  intros [Hkeys Hfresh Hlive Hnum Hsame Hbound]. split; [by apply drop_sub_NoDup| | |done|done|done].
  - intros k Hk. destruct (Hfresh k Hk) as [Hin Hc]. split; [|done]. intros Hk'. by apply Hin, (drop_sub_keys sid).
  - intros k s Hin. apply drop_sub_elem in Hin as [_ Hin]. by apply Hlive.
Qed.

Lemma table_register subject max subs next calls :
  table_ok subs next calls → table_ok (subs ++ [(next, Subscription subject max 0)]) (next + 1) calls.
Proof.
  intros [Hkeys Hfresh Hlive Hnum Hsame Hbound].
  destruct (Hfresh next ltac:(lia)) as [Hnew Hnone]. split; [| | |done|done|done].
  - rewrite fmap_app. apply NoDup_app. split_and!; [done| |by repeat constructor; set_solver].
    intros k Hk Hk'. cbn in Hk'. apply list_elem_of_singleton in Hk' as ->. done.
  - intros k Hk. destruct (Hfresh k ltac:(lia)) as [Hin Hc]. split; [|done].
    rewrite fmap_app, elem_of_app. cbn. rewrite list_elem_of_singleton. intros [?| ->]; [done|lia].
  - intros k s Hin. apply elem_of_app in Hin as [Hin|Hin]; [by apply Hlive|].
    apply list_elem_of_singleton in Hin as [= -> ->]. rewrite Hnone. split_and!; [done|constructor|].
    unfold has_room. cbn. destruct max; [by left|done].
Qed.

Lemma calls_of_app sid calls call :
  calls_of sid (calls ++ [call]) = if decide (call.1.1 = sid) then calls_of sid calls ++ [call] else calls_of sid calls.
Proof.
  unfold calls_of. rewrite list.filter_app. rewrite list.filter_cons, filter_nil. case_decide; [done|apply app_nil_r].
Qed.

(** The callbacks of a subscription grow by one. *)
Lemma table_call sid s m subs subs' next calls :
  table_ok subs next calls → alist_get sid subs = Some s →
  let s' := Subscription (s_subject s) (s_max s) (s_received s + 1) in
  NoDup subs'.*1 → (∀ k, k ∈ subs'.*1 → k ∈ subs.*1) →
  (∀ k x, (k, x) ∈ subs' → k ≠ sid ∧ (k, x) ∈ subs ∨ k = sid ∧ x = s' ∧ has_room s') →
  table_ok subs' next (calls ++ [(sid, s', m)]).
Proof.
  intros [Hkeys Hfresh Hlive Hnum Hsame Hbound] Hget s' Hnd Hsub Hcases.
  assert ((sid, s) ∈ subs) as Hin by (by apply alist_get_Some_elem).
  assert (sid ∈ subs.*1) as Hkey by (apply list_elem_of_fmap; by exists (sid, s)).
  destruct (Hlive sid s Hin) as (Hrec & Hall & Hroom).
  split; [done| | | | |].
  - intros k Hk. destruct (Hfresh k Hk) as [Hout Hc]. split; [intros Hk'; by apply Hout, Hsub|].
    rewrite calls_of_app, decide_False; [done|]. cbn. intros ->. done.
  - intros k x Hx. rewrite calls_of_app. cbn [fst].
    destruct (Hcases k x Hx) as [[Hne Hold]|(-> & -> & Hr)]; [by rewrite decide_False by done; apply Hlive|].
    rewrite decide_True by done. split_and!; [|apply Forall_app; split; [exact Hall|by repeat constructor]|done].
    cbn. rewrite Hrec, length_app. cbn. lia.
  - intros k. rewrite calls_of_app. cbn [fst]. case_decide as Hk; [subst k|done].
    rewrite fmap_app, length_app, Hnum. cbn. unfold call_number. cbn.
    replace (Z.of_nat (length (calls_of sid calls) + 1)) with (Z.of_nat (length (calls_of sid calls)) + 1)%Z by lia.
    rewrite seqZ_app by lia. cbn. by rewrite Hrec, (Z.add_comm 1).
  - intros k. rewrite calls_of_app. cbn [fst]. case_decide as Hk; [subst k|done].
    exists s. apply Forall_app. split; [exact Hall|by repeat constructor].
  - apply Forall_app. split; [done|]. constructor; [|constructor]. unfold within_bound, call_number. cbn.
    unfold has_room in Hroom. destruct (s_max s); [|done]. lia.
Qed.

Lemma table_dispatch sid m c : client_ok c → client_ok (dispatch_message sid m c).2.
Proof.
  unfold client_ok, dispatch_message. intros H. destruct (alist_get sid (c_subs c)) as [s|] eqn:Hget; [|done].
  set (s' := Subscription _ _ _).
  destruct (is_last s') eqn:Hlast;
    cbn [snd set_calls set_subs c_subs c_next_sid c_calls];
    apply (table_call sid s m (c_subs c)); try done.
  - apply drop_sub_NoDup, H.
  - intros k. apply drop_sub_keys.
  - intros k x. rewrite drop_sub_elem. by left.
  - apply alist_set_NoDup, H.
  - intros k. rewrite alist_set_keys_elem. intros [->|Hk]; [|done].
    apply alist_get_Some_elem in Hget. apply list_elem_of_fmap. by exists (sid, s).
  - intros k x Hx. apply (alist_get_elem k x) in Hx; [|apply alist_set_NoDup, H].
    rewrite alist_get_set in Hx. case_decide as Hk; [subst k; right|left].
    + injection Hx as <-. split_and!; [done..|]. unfold s', has_room, is_last in *. cbn in *.
      destruct (s_max s); [|done]. apply Z.leb_gt in Hlast. by right.
    + split; [done|]. by apply alist_get_Some_elem.
Qed.

(** A section of code keeps the table. *)
Definition op_ok X (op : clientE X) (_ : unit) : Prop :=
  match op with Section f => ∀ c, client_ok c → client_ok (f c).2 | _ => True end.
Definition keeps {A} (p : task A) : Prop :=
  wp op_ok (λ _ _ _ _, True) (λ _ _ _ t, t) p (λ _ _, True) tt.

Lemma kept_bind {A B} (p : task A) (f : A → task B) : keeps p → (∀ a, keeps (f a)) → keeps (p ≫= f).
Proof.
  intros Hp Hf. apply wp_bind. eapply wp_conseq; [exact Hp|]. intros [a|e] [] _; [apply Hf|done].
Qed.
Lemma kept_try {A} (p : task A) : keeps p → keeps (prog_try p).
Proof. intros Hp. apply wp_try. eapply wp_conseq; [exact Hp|done]. Qed.
Lemma kept_lift {A} (m : res A) : keeps (lift m).
Proof. by apply wp_lift. Qed.
Lemma kept_section {A} (f : client → A * client) : (∀ c, client_ok c → client_ok (f c).2) → keeps (section f).
Proof. by intros Hf. Qed.
Lemma kept_perform {X} (op : clientE X) : op_ok X op tt → keeps (perform op).
Proof. by intros Hop. Qed.
Lemma kept_call {X} (op : clientE (res X)) : op_ok _ op tt → keeps (call op).
Proof. intros Hop. apply wp_call; [done|]. by intros m _. Qed.
Lemma kept_ret {A} (a : A) : keeps (Ret a).
Proof. done. Qed.
Lemma kept_throw {A} e : keeps (Throw e : task A).
Proof. done. Qed.

(** Sections that leave the table alone, or change it as the lemmas above
    allow. *)
Ltac kept_table :=
  intros c Hc; first [exact Hc | by apply table_forget | by apply table_register | by apply table_dispatch
                     | by destruct c as [? ? ? []]].
Ltac keeps :=
  repeat first
    [ apply kept_ret | apply kept_throw | apply kept_lift | apply kept_try
    | apply kept_bind; [|intros ?] | apply kept_section; kept_table
    | apply kept_perform; exact I | apply kept_call; exact I
    | progress case_match | progress cbv zeta ].

Section kept.
Context (json_loads : string → res pyval) (name user password : string).

Lemma kept_connect_once : keeps (connect_once json_loads name user password).
Proof. unfold connect_once, handshake. keeps. Qed.
Lemma kept_reconnect_loop fuel : keeps (reconnect_loop json_loads name user password fuel).
Proof. induction fuel as [|fuel IH]; cbn [reconnect_loop]; keeps. all: first [apply kept_connect_once|apply IH]. Qed.
Lemma kept_read_turns fuel stream : keeps (read_turns fuel stream).
Proof. induction fuel as [|fuel IH]; cbn [read_turns]; unfold read_turn; keeps. all: apply IH. Qed.

Lemma kept_run_call c : keeps (run_call json_loads name user password c).
Proof.
  destruct c; cbn [run_call]; unfold subscribe, flush, request, publish, unsubscribe, read_loop, on_disconnect, reconnect_task, close;
    keeps.
  all: first [apply kept_read_turns|apply kept_connect_once|apply kept_reconnect_loop].
Qed.
Lemma kept_run_calls calls : keeps (run_calls json_loads name user password calls).
Proof. induction calls as [|c calls IH]; cbn [run_calls]; keeps. all: first [apply kept_run_call|apply IH]. Qed.
End kept.

Lemma new_client_ok : client_ok new_client.
Proof.
  unfold client_ok, new_client. cbn. split; [constructor| | |done| |constructor].
  - intros sid _. split; [apply not_elem_of_nil|done].
  - intros ? ? Hin. by apply elem_of_nil in Hin.
  - intros sid. by exists (Subscription "" None 0).
Qed.

(** C23: A callback is called no more often than its subscription allows,
    whatever the server sends, however the tasks interleave, and across any
    number of lost connections: the calls of a subscription are numbered one
    by one from the first, all carry the subject and the limit it was made
    with, and a limit of [n] messages is never exceeded (a subscription is
    dropped with its last message, so that a limit below one admits one). *)
Theorem deliveries_bounded {W} (env : ∀ X, clientE X → client → W → X * W) json_loads name user password
    (tasks : list (list client_call)) w0 c w ps :
  rtc (step (client_handle env)) ((new_client, w0), run_calls json_loads name user password <$> tasks) ((c, w), ps) →
  ∀ sid, let calls := calls_of sid (c_calls c) in
    call_number <$> calls = seqZ 1 (Z.of_nat (length calls)) ∧
    ∃ s, Forall (same_subscription s) calls ∧
      match s_max s with Some max => calls = [] ∨ (Z.of_nat (length calls) ≤ Z.max 1 max)%Z | None => True end.
Proof.
  intros Hsteps. assert (client_ok c) as [_ _ _ Hnum Hsame Hbound].
  { set (R (s : client * W) (ts : list unit) := client_ok s.1).
    assert (∀ X (op : clientE X) s ts i t, R s ts → ts !! i = Some t → op_ok X op t →
      True ∧ R (client_handle env X op s).2 (<[i := t]> ts)) as Hstep.
    { intros X op s ts i t HR _ Hok. split; [done|]. unfold R. destruct op; try exact HR. by apply Hok. }
    destruct (wp_steps (A := unit) (client_handle env) op_ok (λ _ _ _ _, True) (λ _ _ _ t, t) R Hstep (λ _ _, True)
      _ _ ((λ _, tt) <$> tasks) Hsteps) as (ts' & _ & HR); [| |exact HR].
    - apply Forall2_fmap, Forall_Forall2_diag, Forall_forall. intros calls _. right. apply kept_run_calls.
    - exact new_client_ok. }
  intros sid. cbv zeta. split; [done|]. destruct (Hsame sid) as [s Hs]. exists s. split; [done|].
  destruct (s_max s) as [max|] eqn:Hmax; [|done].
  destruct (last (calls_of sid (c_calls c))) as [final|] eqn:Hlast; [|left; by apply last_None].
  right. pose proof (last_Some_elem_of _ _ Hlast) as Hin.
  rewrite Forall_forall in Hs, Hbound. destruct (Hs _ Hin) as [_ Hm]. rewrite Hmax in Hm.
  assert (final ∈ c_calls c) as Hin' by (by apply list_elem_of_filter in Hin as [_ ?]).
  specialize (Hbound _ Hin'). unfold within_bound in Hbound. rewrite Hm in Hbound.
  assert (call_number final = Z.of_nat (length (calls_of sid (c_calls c)))) as Hn; [|lia].
  rewrite last_lookup in Hlast. set (n := length (calls_of sid (c_calls c))) in *.
  assert (n ≠ 0) as Hn by (intros Hz; unfold n in *; destruct (calls_of sid (c_calls c)); done).
  specialize (Hnum sid). apply (f_equal (.!! pred n)) in Hnum. rewrite list_lookup_fmap, Hlast in Hnum.
  symmetry in Hnum. apply lookup_seqZ in Hnum as [-> _]. lia.
Qed.

(** ** The interest of the server *)

(** What a server sends: the subject of each subscription, and after how many
    more messages it drops it. *)
Definition interest := list (Z * (string * option Z)).

(** The documented meaning of the commands: [UNSUB sid max] drops the
    subscription after [max] more messages, [UNSUB sid] now. *)
Definition server_apply (i : interest) (command : command) : interest :=
  match command with
  | CmdSub subject sid => i ++ [(sid, (subject, None))]
  | CmdUnsub sid (Some max) =>
      (λ e, if decide (e.1 = sid) then (e.1, (e.2.1, Some max)) else e) <$> i
  | CmdUnsub sid None => filter (λ e, e.1 ≠ sid) i
  | _ => i
  end.
(** The server sends one message to a subscription. *)
Definition server_sent (sid : Z) (i : interest) : interest :=
  omap (λ e, if decide (e.1 = sid) then
               match e.2.2 with
               | Some n => if (n <=? 1)%Z then None else Some (e.1, (e.2.1, Some (n - 1)%Z))
               | None => Some e
               end
             else Some e) i.

(** What the client waits for. *)
Definition remaining (s : subscription) : option Z := (λ max, (max - s_received s)%Z) <$> s_max s.
Definition view_of (ks : Z * subscription) : Z * (string * option Z) := (ks.1, (s_subject ks.2, remaining ks.2)).
Definition view (c : client) : interest := view_of <$> c_subs c.

Inductive session_event :=
  | SesSubscribe (subject : string) (max_messages : option Z)
  | SesUnsubscribe (sid : Z)
  | SesMessage (sid : Z) (m : message)
  | SesReconnect.

Definition valid_event (e : session_event) : Prop :=
  match e with SesSubscribe _ (Some max) => (0 < max)%Z | _ => True end.

(** What happens to a client and its server.  A server sends only what it was
    asked for, and a new connection knows nothing of the last. *)
Definition session_step (payload : string) (s : client * interest) (e : session_event) : client * interest :=
  let '(c, i) := s in
  match e with
  | SesSubscribe subject max =>
      let '(sid, c') := register subject max c in (c', foldl server_apply i (subscribe_commands subject sid max))
  | SesUnsubscribe sid => ((forget sid c).2, server_apply i (CmdUnsub sid None))
  | SesMessage sid m =>
      if bool_decide (sid ∈ i.*1) then ((dispatch_message sid m c).2, server_sent sid i) else (c, i)
  | SesReconnect => (c, foldl server_apply [] (connect_commands payload c))
  end.

Definition expecting (s : subscription) : Prop :=
  match s_max s with Some max => (s_received s < max)%Z | None => True end.

Lemma apply_resubscribe i ks :
  ks.1 ∉ i.*1 → expecting ks.2 → foldl server_apply i (resubscribe ks) = i ++ [view_of ks].
Proof.
  destruct ks as [sid [subject [max|] received]]; unfold expecting, resubscribe, view_of, remaining; cbn; [|done].
  intros Hnew Hroom. rewrite (proj2 (Z.ltb_lt _ _)) by lia. cbn. rewrite fmap_app. f_equal.
  - rewrite <- (list_fmap_id i) at 2. apply list_fmap_ext. intros k e He. rewrite decide_False; [done|].
    intros <-. apply Hnew. apply list_elem_of_lookup_2 in He. by apply list_elem_of_fmap_2.
  - cbn. by rewrite decide_True.
Qed.

Lemma view_keys subs : (view_of <$> subs).*1 = subs.*1.
Proof. rewrite <- list_fmap_compose. by apply list_fmap_ext. Qed.

Lemma apply_resubscribes i subs :
  NoDup (i.*1 ++ subs.*1) → Forall (λ ks, expecting ks.2) subs →
  foldl server_apply i (subs ≫= resubscribe) = i ++ (view_of <$> subs).
Proof.
  revert i. induction subs as [|ks subs IH]; intros i Hnd Hroom; [cbn; by rewrite app_nil_r|].
  apply Forall_cons in Hroom as [Hks Hroom]. rewrite fmap_cons in Hnd.
  cbn [mbind list_bind]. rewrite foldl_app, apply_resubscribe; [| |done].
  - rewrite IH; [by rewrite <- (assoc_L (++))| |done]. rewrite fmap_app, <- (assoc_L (++)). exact Hnd.
  - apply NoDup_app in Hnd as (_ & Hdis & _). intros Hin. apply (Hdis _ Hin). by left.
Qed.

(** The client and the server between two events. *)
Record session_ok (s : client * interest) : Prop := {
  ses_view : s.2 = view s.1;
  ses_keys : NoDup (c_subs s.1).*1;
  ses_fresh : Forall (λ sid, sid < c_next_sid s.1)%Z (c_subs s.1).*1;
  ses_expecting : Forall (λ ks, expecting ks.2) (c_subs s.1);
}.

Lemma view_drop sid subs : filter (λ e, e.1 ≠ sid) (view_of <$> subs) = view_of <$> drop_sub sid subs.
Proof.
  unfold drop_sub. induction subs as [|ks subs IH]; [done|]. rewrite fmap_cons, !list.filter_cons, IH.
  cbn [view_of fst]. by case_decide.
Qed.

Lemma drop_sub_absent sid subs : sid ∉ subs.*1 → drop_sub sid subs = subs.
Proof.
  unfold drop_sub. induction subs as [|ks subs IH]; intros Hout; [done|].
  rewrite fmap_cons, not_elem_of_cons in Hout. destruct Hout as [Hne Hout].
  rewrite list.filter_cons, decide_True by done. f_equal. by apply IH.
Qed.

Lemma server_sent_absent sid subs : sid ∉ subs.*1 → server_sent sid (view_of <$> subs) = view_of <$> subs.
Proof.
  unfold server_sent. induction subs as [|ks subs IH]; intros Hout; [done|].
  rewrite fmap_cons, not_elem_of_cons in Hout. destruct Hout as [Hne Hout].
  rewrite fmap_cons. cbn [omap list_omap]. rewrite decide_False by (intros <-; by apply Hne). cbn [fst].
  f_equal. by apply IH.
Qed.

(** The message counts on both sides, and ends the subscription on both. *)
Lemma server_sent_view sid s subs :
  NoDup subs.*1 → alist_get sid subs = Some s → expecting s →
  let s' := Subscription (s_subject s) (s_max s) (s_received s + 1) in
  server_sent sid (view_of <$> subs) =
    view_of <$> (if is_last s' then drop_sub sid subs else alist_set sid s' subs).
Proof.
  cbv zeta. induction subs as [|[k x] subs IH]; intros Hnd Hget Hroom; [done|].
  rewrite fmap_cons in Hnd. apply NoDup_cons in Hnd as [Hk Hnd]. cbn [fst] in Hk. cbn [alist_get] in Hget.
  case_decide as Hdec.
  - injection Hget as ->. subst k. rewrite fmap_cons. unfold server_sent. cbn [omap list_omap view_of fst snd].
    rewrite decide_True by done. fold (server_sent sid (view_of <$> subs)). rewrite server_sent_absent by done.
    unfold expecting in Hroom. unfold remaining, is_last. destruct s as [subject [max|] received]; cbn in *.
    + destruct (Z.leb_spec max (received + 1)).
      * rewrite (proj2 (Z.leb_le _ _)) by lia. rewrite decide_False by (intros Hn; by apply Hn).
        f_equal. symmetry. by apply drop_sub_absent.
      * rewrite (proj2 (Z.leb_gt _ _)) by lia. rewrite decide_True by done. cbn. unfold view_of. cbn.
        unfold remaining. cbn. do 4 f_equal. lia.
    + by rewrite decide_True.
  - rewrite fmap_cons. unfold server_sent. cbn [omap list_omap view_of fst snd]. rewrite decide_False by (by intros ->).
    fold (server_sent sid (view_of <$> subs)). rewrite (IH Hnd Hget Hroom).
    destruct (is_last _).
    + unfold drop_sub at 2. rewrite list.filter_cons, decide_True by (cbn; congruence). done.
    + cbn [alist_set]. by rewrite decide_False.
Qed.

Lemma session_step_ok payload s e : valid_event e → session_ok s → session_ok (session_step payload s e).
Proof.
  destruct s as [c i]. intros Hvalid [Hview Hkeys Hfresh Hroom]. cbn [fst snd] in *. subst i.
  destruct e as [subject max|sid|sid m|]; cbn [session_step].
  - unfold register. cbn [fst snd].
    assert (subscribe_commands subject (c_next_sid c) max = resubscribe (c_next_sid c, Subscription subject max 0)) as ->.
    { unfold subscribe_commands, resubscribe. cbn. destruct max as [max|]; [|done]. cbn in Hvalid.
      rewrite Z.sub_0_r. by rewrite (proj2 (Z.ltb_lt _ _)). }
    assert (c_next_sid c ∉ (c_subs c).*1) as Hnew.
    { intros Hin. rewrite Forall_forall in Hfresh. specialize (Hfresh _ Hin). lia. }
    split; cbn [fst snd c_subs c_next_sid].
    + rewrite apply_resubscribe; [|by unfold view; rewrite view_keys|by destruct max].
      unfold view. cbn [c_subs]. by rewrite fmap_app.
    + rewrite fmap_app. apply NoDup_app. split_and!; [done| |by repeat constructor; set_solver].
      intros k Hk Hk'. cbn in Hk'. by apply list_elem_of_singleton in Hk' as ->.
    + rewrite fmap_app. apply Forall_app. split; [|repeat constructor; cbn; lia].
      eapply Forall_impl; [exact Hfresh|]. cbv beta. lia.
    + apply Forall_app. split; [done|]. repeat constructor. by destruct max.
  - cbn [forget snd]. split; cbn [fst snd set_subs c_subs c_next_sid server_apply].
    + unfold view. cbn [set_subs c_subs]. apply view_drop.
    + by apply drop_sub_NoDup.
    + rewrite Forall_forall in *. intros k Hk. apply Hfresh. by eapply drop_sub_keys.
    + rewrite Forall_forall in *. intros [k x] Hk. apply drop_sub_elem in Hk as [_ Hk]. by apply Hroom.
  - destruct (bool_decide (sid ∈ (view c).*1)) eqn:Hin; [|by split].
    apply bool_decide_eq_true_1 in Hin. unfold view in Hin. rewrite view_keys in Hin.
    destruct (alist_get sid (c_subs c)) as [s|] eqn:Hget; [|by apply alist_get_None in Hget].
    assert (expecting s) as Hs.
    { apply alist_get_Some_elem in Hget. rewrite Forall_forall in Hroom. by apply (Hroom (sid, s)). }
    pose proof (server_sent_view sid s (c_subs c) Hkeys Hget Hs) as Hsent. cbv zeta in Hsent.
    unfold dispatch_message. rewrite Hget. cbn [snd s_max s_received].
    cbn [s_received] in Hsent. unfold view. rewrite Hsent.
    destruct (is_last _) eqn:Hlast; split; cbn [fst snd set_calls set_subs c_subs c_next_sid]; try done.
    + by apply drop_sub_NoDup.
    + rewrite Forall_forall in *. intros k Hk. apply Hfresh. by eapply drop_sub_keys.
    + rewrite Forall_forall in *. intros [k x] Hk. apply drop_sub_elem in Hk as [_ Hk]. by apply Hroom.
    + by apply alist_set_NoDup.
    + rewrite Forall_forall in *. intros k [->|Hk]%alist_set_keys_elem; by apply Hfresh.
    + rewrite Forall_forall in *. intros [k x] Hk. apply (alist_get_elem k x) in Hk; [|by apply alist_set_NoDup].
      rewrite alist_get_set in Hk. case_decide as Hdec.
      * injection Hk as <-. unfold expecting, is_last in *. cbn in *. destruct (s_max s); [|done]. by apply Z.leb_gt in Hlast.
      * apply alist_get_Some_elem in Hk. by apply (Hroom (k, x)).
  - split; cbn [fst snd]; [|done..]. unfold connect_commands. cbn [foldl server_apply]. rewrite foldl_app.
    rewrite apply_resubscribes by done. done.
Qed.


Definition demo_events (m : message) : list session_event :=
  [SesSubscribe "orders" (Some 2%Z); SesSubscribe "audit" None; SesMessage 1 m; SesReconnect; SesMessage 2 m;
   SesMessage 1 m; SesMessage 1 m; SesUnsubscribe 2].


(** ** A server and its faults *)

(** The next stream, the frames to come, what was written. *)
Record demo_net := DemoNet { dn_stream : nat; dn_frames : list frame; dn_written : list string }.

Definition demo_env X (op : clientE X) (c : client) (w : demo_net) : X * demo_net :=
  match op in clientE X return X * demo_net with
  | Section f => ((f c).1, w)
  | Open => (Ok (dn_stream w), DemoNet (S (dn_stream w)) (dn_frames w) (dn_written w))
  | ReadInfo _ => (Ok ("INFO {}" +:+ CRLF), w)
  | StartTls _ => (Ok tt, w)
  | ReadFrame _ =>
      match dn_frames w with
      | f :: fs => (Ok f, DemoNet (dn_stream w) fs (dn_written w))
      | [] => (Raise (OSError "NATS connection closed"), w)
      end
  | Write _ data => (Ok tt, DemoNet (dn_stream w) (dn_frames w) (dn_written w ++ [data]))
  | Close _ => (tt, DemoNet (dn_stream w) [] (dn_written w))
  | WaitConnected => (if c_connected c then Ok tt else Raise (TimeoutError ""), w)
  | Await future => (default (Raise (TimeoutError "")) (alist_get future (c_futures c)), w)
  | Response sid =>
      (match filter (λ call, call.1.1 = sid) (c_calls c) with
       | call :: _ => Ok call.2 | [] => Raise (TimeoutError "") end, w)
  | TokenHex => ("00", w)
  | BeforeSend => (tt, w)
  | Sleep => (tt, DemoNet (dn_stream w) [FPong; FPong] (dn_written w))
  end.

Definition tls_info (_ : string) : res pyval := Ok (PDict [("tls_required", PBool true)]).
Definition bad_info (_ : string) : res pyval := Raise (JSONDecodeError "Expecting value").

(** A client whose connection was lost, with its reconnection under way. *)
Definition lost_client : client := set_link new_client 1 None false false true.

Definition flush_tasks : list (task unit) :=
  run_calls tls_info "west" "u" "p" <$> [[CallReconnect 2]; [CallReader 2 1 2]; [CallReader 1 2 3]].
Definition flush_state (sched : list nat) :=
  run_schedule (client_handle demo_env) sched
    ((lost_client, DemoNet 1 [FPong] []), flush "west" :: flush_tasks).

(** The flush takes its place in the queue, the reconnection sends its own
    [PING] behind it. *)
Definition flush_schedule : list nat :=
  [0] ++ replicate 8 1 ++ replicate 2 2 ++ replicate 2 1 ++ replicate 5 2 ++ replicate 9 1 ++ replicate 2 3
  ++ replicate 3 1 ++ replicate 5 0.

Example flush_answered_early :
  (flush_state flush_schedule).2 !! 0 = Some (Ret tt) ∧
  dn_frames (flush_state flush_schedule).1.2 = [FPong] ∧
  c_connected (flush_state flush_schedule).1.1 = true.
Proof. vm_compute. done. Qed.

(** A line of information that is no JSON document ends the reconnection. *)
Definition reconnected_once :=
  run_schedule (client_handle demo_env) (replicate 12 0)
    ((lost_client, DemoNet 1 [] []), [reconnect_task bad_info "west" "u" "p" 3]).

Example bad_info_ends_reconnection :
  reconnected_once.2 = [Throw (JSONDecodeError "Expecting value")] ∧
  c_connected reconnected_once.1.1 = false ∧ c_reconnecting reconnected_once.1.1 = false.
Proof. vm_compute. done. Qed.

(** A connection, a subscription for one message, two messages. *)
Definition demo_calls (m : message) : list (list client_call) :=
  [[CallSubscribe "orders" (Some 1%Z)]; [CallReader 3 0 0]].
Definition demo_run (m : message) :=
  run_schedule (client_handle demo_env) (replicate 2 0 ++ replicate 9 1)
    ((new_client, DemoNet 1 [FMessage 1 m; FMessage 1 m] []), run_calls tls_info "west" "u" "p" <$> demo_calls m).

Example demo_run_calls m : length (calls_of 1 (c_calls (demo_run m).1.1)) = 1.
Proof. vm_compute. reflexivity. Qed.

Lemma deliveries_bounded_witness :
  let calls := calls_of 1 (c_calls (demo_run (Message "orders" "" "" [] None [])).1.1) in
  length calls = 1 ∧ call_number <$> calls = seqZ 1 (Z.of_nat (length calls)).
Proof.
  split; [vm_compute; reflexivity|].
  destruct (demo_run (Message "orders" "" "" [] None [])) as [[c w] ps] eqn:E.
  refine (proj1 (deliveries_bounded demo_env tls_info "west" "u" "p" (demo_calls (Message "orders" "" "" [] None []))
    (DemoNet 1 [FMessage 1 (Message "orders" "" "" [] None []); FMessage 1 (Message "orders" "" "" [] None [])] [])
    c w ps _ 1%Z)).
  rewrite <-E. unfold demo_run. apply run_schedule_steps.
Defined.
