(* ===== verification/Gather.v ===== *)
(** * Tasks that one task waits for

    [asyncio.gather] as a program: the tasks' operations interleave in the
    order the event loop picks, and the first failure stops the wait.  The
    rely/guarantee judgement of Program.v composes over it. *)

From S2P Require Import Prelude Program.

Section gather.
Context {E : Type → Type} (pick : E bool).

(** Two tasks: the event loop resumes the one it picks; a task that is done
    leaves the other alone. *)
Definition both {A B} : prog E A → prog E B → prog E (A * B) :=
  fix both p :=
    fix go q :=
      match p with
      | Throw e => Throw e
      | Ret a => b ← q; Ret (a, b)
      | Vis op k =>
          match q with
          | Throw e => Throw e
          | Ret b => Vis op (λ x, both (k x) (Ret b))
          | Vis op' k' =>
              Vis pick (λ first, if (first : bool) then Vis op (λ x, both (k x) q) else Vis op' (λ y, go (k' y)))
          end
      end.

(** [list(await asyncio.gather( *tasks ))] *)
Fixpoint gather {A} (tasks : list (prog E A)) : prog E (list A) :=
  match tasks with
  | [] => Ret []
  | p :: tasks => ab ← both p (gather tasks); Ret (ab.1 :: ab.2)
  end.
End gather.

Section safety.
Context {E : Type → Type} {S : Type} (pick : E bool) (h : ∀ X, E X → S → X * S) (Rely Guar : S → S → Prop).
Context `{!PreOrder Rely} (guar_rely : ∀ s s', Guar s s' → Rely s s').
Context (pick_safe : ∀ s, Guar s (h _ pick s).2).
Abbreviation safe := (safe h Rely Guar).

Lemma safe_rely {A} (Q : A → S → Prop) p s s' :
  (∀ a s s', Rely s s' → Q a s → Q a s') → Rely s s' → safe Q p s → safe Q p s'.
Proof using PreOrder0.
  intros HQ Hs Hp. destruct p as [a|e|X op k]; cbn in *; [by eapply HQ|done|].
  intros s1 Hs1. apply Hp. by etrans.
Qed.

Lemma safe_frame {A B} (QA : A → S → Prop) (QB : B → S → Prop) a (q : prog E B) s :
  (∀ a s s', Rely s s' → QA a s → QA a s') → QA a s → safe QB q s →
  safe (λ ab s, QA ab.1 s ∧ QB ab.2 s) (b ← q; Ret (a, b)) s.
Proof using guar_rely.
  intros HA. revert s. induction q as [b|e|X op k IH]; intros s Ha Hq; cbn in *; [by split|done|].
  intros s1 Hs1. destruct (Hq s1 Hs1) as [HG Hk]. split; [done|].
  apply IH; [|done]. eapply HA, HA; [by apply guar_rely|exact Hs1|done].
Qed.

(** Each task keeps what it established while the other runs. *)
Lemma safe_both {A B} (QA : A → S → Prop) (QB : B → S → Prop) p q s :
  (∀ a s s', Rely s s' → QA a s → QA a s') → (∀ b s s', Rely s s' → QB b s → QB b s') →
  safe QA p s → safe QB q s → safe (λ ab s, QA ab.1 s ∧ QB ab.2 s) (both pick p q) s.
Proof using guar_rely pick_safe PreOrder0.
  intros HA HB. revert q s. induction p as [a|e|X op k IHp]; intros q.
  - intros s Ha Hq. destruct q as [b|e|Y op' k'].
    + by apply (safe_frame QA QB a (Ret b)).
    + done.
    + by apply (safe_frame QA QB a (Vis op' k')).
  - intros s _ _. by destruct q.
  - induction q as [b|e|Y op' k' IHq]; intros s Hp Hq.
    + cbn. intros s1 Hs1. destruct (Hp s1 Hs1) as [HG Hk]. split; [done|]. apply IHp; [done|]. cbn in *.
      eapply HB, HB; [by apply guar_rely|exact Hs1|done].
    + done.
    + intros s1 Hs1. split; [apply pick_safe|].
      assert (Rely s (h _ pick s1).2) as Hs by (etrans; [exact Hs1|apply guar_rely, pick_safe]).
      destruct (h _ pick s1).1; intros s2 Hs2.
      * destruct (Hp s2) as [HG Hk]; [by etrans|]. split; [done|]. apply IHp; [done|].
        eapply (safe_rely QB); [done| |exact Hq]. etrans; [exact Hs|]. etrans; [exact Hs2|]. by apply guar_rely.
      * destruct (Hq s2) as [HG Hk]; [by etrans|]. split; [done|]. apply IHq; [|done].
        eapply (safe_rely QA); [done| |exact Hp]. etrans; [exact Hs|]. etrans; [exact Hs2|]. by apply guar_rely.
Qed.

Lemma safe_gather {A} (Qs : list (A → S → Prop)) ps s :
  Forall (λ Q, ∀ a s s', Rely s s' → Q a s → Q a s') Qs → Forall2 (λ Q p, safe Q p s) Qs ps →
  safe (λ l s, Forall2 (λ Q a, Q a s) Qs l) (gather pick ps) s.
Proof using guar_rely pick_safe PreOrder0.
  intros Hstable Hps. induction Hps as [|Q p Qs ps Hp Hps IH]; [by constructor|].
  apply Forall_cons in Hstable as [HQ Hstable].
  refine (safe_bind h Rely Guar _ _ _ _ _
    (safe_both Q (λ l s, Forall2 (λ Q a, Q a s) Qs l) p (gather pick ps) s HQ _ Hp (IH Hstable)) _).
  - intros l s1 s2 Hs Hl. clear IH Hps. induction Hl as [|Q' a Qs l Ha Hl IH]; [constructor|].
    apply Forall_cons in Hstable as [HQ' Hstable]. constructor; [by eapply HQ'|by apply IH].
  - intros [a l] s1 [Ha Hl]. by constructor.
Qed.
End safety.

(** ** Histories of gathered tasks *)

Section histories.
Context {E : Type → Type} {T : Type} (pick : E bool).
Context (ok : ∀ X, E X → T → Prop) (may : ∀ X, E X → T → X → Prop) (record : ∀ X, E X → X → T → T).
Context (le : T → T → Prop) `{!PreOrder le}.
Context (pick_ok : ∀ t, ok _ pick t) (pick_le : ∀ x t, le t (record _ pick x t)).

(** [wp] for a task among others: between its operations the history may grow,
    and its own operations make it grow. *)
Fixpoint robust {A} (Q : res A → T → Prop) (p : prog E A) (t : T) : Prop :=
  match p with
  | Ret a => Q (Ok a) t
  | Throw e => Q (Raise e) t
  | Vis op k => ∀ t', le t t' →
      ok _ op t' ∧ ∀ x, may _ op t' x → le t' (record _ op x t') ∧ robust Q (k x) (record _ op x t')
  end.

Definition steady {A} (Q : res A → T → Prop) : Prop := ∀ r t t', le t t' → Q r t → Q r t'.

Lemma robust_wp {A} (Q : res A → T → Prop) p t : robust Q p t → wp ok may record p Q t.
Proof using PreOrder0.
  revert t. induction p as [a|e|X op k IH]; intros t Hp; [done..|]. destruct (Hp t) as [Hok Hk]; [reflexivity|].
  split; [done|]. intros x Hx. by apply IH, Hk.
Qed.

Lemma robust_le {A} (Q : res A → T → Prop) p t t' : steady Q → le t t' → robust Q p t → robust Q p t'.
Proof using PreOrder0.
  intros HQ Ht Hp. destruct p as [a|e|X op k]; [by eapply HQ..|]. intros t1 Ht1. apply Hp. by etrans.
Qed.

Lemma robust_weaken {A} (Q Q' : res A → T → Prop) p t : (∀ r t, Q r t → Q' r t) → robust Q p t → robust Q' p t.
Proof.
  intros HQ. revert t. induction p as [a|e|X op k IH]; intros t Hp; [by apply HQ..|].
  intros t' Ht'. destruct (Hp t' Ht') as [Hok Hk]. split; [done|]. intros x Hx. destruct (Hk x Hx). split; [done|].
  by apply IH.
Qed.

(** The results of two tasks, or the first failure. *)
Definition both_post {A B} (QA : res A → T → Prop) (QB : res B → T → Prop) (r : res (A * B)) (t : T) : Prop :=
  match r with Ok ab => QA (Ok ab.1) t ∧ QB (Ok ab.2) t | Raise e => QA (Raise e) t ∨ QB (Raise e) t end.

Lemma robust_frame {A B} (QA : res A → T → Prop) (QB : res B → T → Prop) a (q : prog E B) t :
  steady QA → QA (Ok a) t → robust QB q t → robust (both_post QA QB) (b ← q; Ret (a, b)) t.
Proof using PreOrder0.
  intros HA. revert t. induction q as [b|e|X op k IH]; intros t Ha Hq; [by split|by right|].
  intros t' Ht'. destruct (Hq t' Ht') as [Hok Hk]. split; [done|]. intros x Hx. destruct (Hk x Hx) as [Hle Hkx].
  split; [done|]. apply IH; [|done]. eapply HA; [|exact Ha]. by etrans.
Qed.

Lemma robust_both {A B} (QA : res A → T → Prop) (QB : res B → T → Prop) p q t :
  steady QA → steady QB → robust QA p t → robust QB q t → robust (both_post QA QB) (both pick p q) t.
Proof using pick_ok pick_le PreOrder0.
  intros HA HB. revert q t. induction p as [a|e|X op k IHp]; intros q.
  - intros t Ha Hq. destruct q as [b|e|Y op' k'].
    + by apply (robust_frame QA QB a (Ret b)).
    + by right.
    + by apply (robust_frame QA QB a (Vis op' k')).
  - intros t He Hq. destruct q; by left.
  - induction q as [b|e|Y op' k' IHq]; intros t Hp Hq.
    + intros t' Ht'. destruct (Hp t' Ht') as [Hok Hk]. split; [done|]. intros x Hx. destruct (Hk x Hx) as [Hle Hkx].
      split; [done|]. apply IHp; [done|]. eapply HB; [|exact Hq]. by etrans.
    + by right.
    + intros t' Ht'. split; [apply pick_ok|]. intros first _. split; [apply pick_le|].
      assert (le t (record _ pick first t')) as Ht by (etrans; [exact Ht'|apply pick_le]).
      destruct first; intros t2 Ht2.
      * destruct (Hp t2) as [Hok Hk]; [by etrans|]. split; [done|]. intros x Hx. destruct (Hk x Hx) as [Hle Hkx].
        split; [done|]. apply IHp; [done|]. eapply (robust_le QB); [done| |exact Hq]. etrans; [exact Ht|]. by etrans.
      * destruct (Hq t2) as [Hok Hk]; [by etrans|]. split; [done|]. intros x Hx. destruct (Hk x Hx) as [Hle Hkx].
        split; [done|]. apply IHq; [|done]. eapply (robust_le QA); [done| |exact Hp]. etrans; [exact Ht|]. by etrans.
Qed.

(** Tasks that do not fail: all of them end, in whatever order. *)
Lemma robust_gather {A} (Qs : list (A → T → Prop)) ps t :
  Forall (λ Q, ∀ a t t', le t t' → Q a t → Q a t') Qs →
  Forall2 (λ Q p, robust (λ r t, match r with Ok a => Q a t | Raise _ => False end) p t) Qs ps →
  robust (λ r t, match r with Ok l => Forall2 (λ Q a, Q a t) Qs l | Raise _ => False end) (gather pick ps) t.
Proof using pick_ok pick_le PreOrder0.
  intros Hstable Hps. induction Hps as [|Q p Qs ps Hp Hps IH]; [by constructor|].
  apply Forall_cons in Hstable as [HQ Hstable]. cbn [gather]. specialize (IH Hstable).
  set (QA := λ (r : res A) t, match r with Ok a => Q a t | Raise _ => False end) in *.
  set (QB := λ (r : res (list A)) t, match r with Ok l => Forall2 (λ Q a, Q a t) Qs l | Raise _ => False end) in *.
  assert (steady QA) as HA by (intros [a|e] t1 t2 H12; [by apply HQ|done]).
  assert (steady QB) as HB.
  { intros [l|e] t1 t2 H12; [|done]. clear -Hstable H12. intros Hl. cbn in *.
    induction Hl as [|Q' a Qs l Ha Hl IH]; [constructor|]. apply Forall_cons in Hstable as [HQ' Hstable].
    constructor; [by eapply HQ'|by apply IH]. }
  pose proof (robust_both QA QB p (gather pick ps) t HA HB Hp IH) as Hboth. clear -Hboth.
  revert t Hboth. induction (both pick p (gather pick ps)) as [[a l]|e|X op k IHk]; intros t Hboth.
  - destruct Hboth as [Ha Hl]. by constructor.
  - by destruct Hboth.
  - intros t' Ht'. destruct (Hboth t' Ht') as [Hok Hk]. split; [done|]. intros x Hx. destruct (Hk x Hx). split; [done|].
    by apply IHk.
Qed.
End histories.
