(* ===== verification/LatencyStats.v ===== *)
(** * Latency summaries of the supercluster benchmark

    The clock readings, percentiles and metric summaries of
    src/benchmark/supercluster/supercluster_benchmark.py, with the standard
    library's exact median and population standard deviation.  The theorem:
    what a summary says of a complete set of finite latencies. *)

From S2P Require Import Prelude PyFloat PyValue Reporting.
From Corelib Require Import SpecFloat.
From Stdlib Require Import ZArith.

(** [supercluster_benchmark.py:54-55 milliseconds] *)
Definition milliseconds (nanoseconds : Z) : res pyfloat :=
  ns ← float_of_Z nanoseconds; Ok (f_round (fdiv ns (float_dec 1000000 0)) 6).

(** The nearest rank.
    [supercluster_benchmark.py:62-62 percentile] *)
Definition nearest_rank (n : nat) (fraction : pyfloat) : res Z :=
  count ← float_of_Z (Z.of_nat n); rank ← f_ceil (fmul count fraction); Ok (Z.max 0 (rank - 1)).
(** [supercluster_benchmark.py:58-63 percentile] *)
Definition percentile (values : list pyfloat) (fraction : pyfloat) : res (option pyfloat) :=
  match values with
  | [] => Ok None
  | _ =>
      let ordered := sorted_floats values in
      index ← nearest_rank (length ordered) fraction;
      x ← py_index ordered index; Ok (Some x)
  end.

(** ** The standard library's statistics *)

(** [statistics.median(values)] of a list that is not empty. *)
Definition median (values : list pyfloat) : res pyfloat :=
  let ordered := sorted_floats values in
  let i := length ordered / 2 in
  if Nat.odd (length ordered) then py_index ordered (Z.of_nat i)
  else low ← py_index ordered (Z.of_nat i - 1); high ← py_index ordered (Z.of_nat i);
       Ok (fdiv (fadd low high) (float_dec 2 0)).

(** A finite float is a multiple of [2 ^ -1074]. *)
Definition exact (x : pyfloat) : option Z :=
  match f_ratio x with Some (p, q) => Some (p * (2 ^ 1074 / q))%Z | None => None end.

(** [count * sxx - sx * sx], and the sum of the squares of the deviations from
    the mean, times [count]: sums of squares of differences. *)
Definition spread (xs : list Z) : Z :=
  (Z.of_nat (length xs) * sum_Z ((λ x, x * x) <$> xs) - sum_Z xs * sum_Z xs)%Z.

(** [int.bit_length()] *)
Definition bit_length (n : Z) : Z := if (n =? 0)%Z then 0%Z else (Z.log2 (Z.abs n) + 1)%Z.

(** [_integer_sqrt_of_frac_rto] and [_float_sqrt_of_frac] of [statistics]. *)
Definition sqrt_round_to_odd (n m : Z) : Z :=
  let a := Z.sqrt (n / m) in Z.lor a (if (a * a * m =? n)%Z then 0 else 1).
Definition float_sqrt (n m : Z) : pyfloat :=
  let q := ((bit_length n - bit_length m - 109) / 2)%Z in
  if (0 <=? q)%Z then float_ratio (Z.shiftl (sqrt_round_to_odd n (Z.shiftl m (2 * q))) q) 1
  else float_ratio (sqrt_round_to_odd (Z.shiftl n (- 2 * q)) m) (Z.shiftl 1 (- q)).

(** [statistics.pstdev(values)] of a list that is not empty; a value that is
    not finite has no numerator. *)
Definition pstdev (values : list pyfloat) : res pyfloat :=
  match mapM exact values with
  | Some xs =>
      let n := Z.of_nat (length xs) in
      let numerator := spread xs in
      let denominator := (n * n * 2 ^ 2148)%Z in
      let d := Z.gcd numerator denominator in
      Ok (float_sqrt (numerator / d) (denominator / d))
  | None => attribute_error
  end.

Definition floats_min (values : list pyfloat) : option pyfloat :=
  match values with [] => None | x :: l => Some (foldl f_min x l) end.

(** ** Metrics *)

Record metric := Metric {
  mt_count : Z;
  mt_expected : Z;
  mt_missing : Z;
  mt_median_ms : option pyfloat;
  mt_population_stddev_ms : option pyfloat;
  mt_min_ms : option pyfloat;
  mt_p95_ms : option pyfloat;
  mt_max_ms : option pyfloat;
}.

(** [x or 0.0] *)
Definition or_zero (x : option pyfloat) : pyfloat :=
  match x with Some x => if f_is_zero x then float_dec 0 0 else x | None => float_dec 0 0 end.

(** [supercluster_benchmark.py:66-91 metric_summary] *)
Definition metric_summary (values : list pyfloat) (expected : option Z) : res metric :=
  let count := Z.of_nat (length values) in
  let total := default count expected in
  let missing := match expected with Some e => (e - count)%Z | None => 0%Z end in
  match values with
  | [] => Ok (Metric count total missing None None None None None)
  | _ =>
      middle ← median values;
      deviation ← pstdev values;
      p95 ← percentile values (float_dec 95 (-2));
      Ok (Metric count total missing (Some (f_round middle 6)) (Some (f_round deviation 6))
            ((λ x, f_round x 6) <$> floats_min values) (Some (f_round (or_zero p95) 6))
            ((λ x, f_round x 6) <$> floats_max values))
  end.

Example demo_metric :
  metric_summary [float_dec 15 (-1); float_dec 25 (-1); float_dec 25 (-1); float_dec 275 (-2); float_dec 325 (-2);
    float_dec 475 (-2)] (Some 7%Z)
  = Ok (Metric 6 7 1 (Some (float_dec 2625 (-3))) (Some (float_dec 986893 (-6))) (Some (float_dec 15 (-1)))
      (Some (float_dec 475 (-2))) (Some (float_dec 475 (-2)))).
Proof. vm_compute. reflexivity. Qed.

(** ** Lemmas *)

Definition finite (x : pyfloat) : Prop := ∃ z, exact x = Some z.

Lemma finite_rank x : finite x → f_is_nan x = false.
Proof. intros [z Hz]. by destruct x. Qed.

Lemma sum_Z_cons x l : sum_Z (x :: l) = (x + sum_Z l)%Z.
Proof. done. Qed.

(** The spread grows by the squares of the differences to the new value. *)
Lemma spread_cons a xs : spread (a :: xs) = (spread xs + sum_Z ((λ x, (a - x) * (a - x)) <$> xs))%Z.
Proof.
  assert (sum_Z ((λ x, (a - x) * (a - x)) <$> xs)
    = Z.of_nat (length xs) * (a * a) - 2 * a * sum_Z xs + sum_Z ((λ x, x * x) <$> xs))%Z as ->.
  { induction xs as [|x xs IH]; [cbn; lia|]. cbn [length]. rewrite !fmap_cons, !sum_Z_cons, IH, Nat2Z.inj_succ. ring. }
  unfold spread. cbn [length]. rewrite fmap_cons, !sum_Z_cons, Nat2Z.inj_succ. ring.
Qed.

Lemma squares_nonneg a xs : (0 ≤ sum_Z ((λ x, (a - x) * (a - x)) <$> xs))%Z.
Proof.
  induction xs as [|x xs IH]; [done|]. rewrite fmap_cons, sum_Z_cons. pose proof (Z.square_nonneg (a - x)). lia.
Qed.

Lemma spread_nonneg xs : (0 ≤ spread xs)%Z.
Proof. induction xs as [|x xs IH]; [done|]. rewrite spread_cons. pose proof (squares_nonneg x xs). lia. Qed.

Lemma spread_constant a xs : Forall (λ x, x = a) xs → spread xs = 0%Z.
Proof.
  induction 1 as [|x xs -> Hxs IH]; [done|]. rewrite spread_cons, IH. clear IH.
  induction Hxs as [|x xs -> Hxs IH]; [done|]. rewrite fmap_cons, sum_Z_cons. lia.
Qed.

Lemma pstdev_constant x values : finite x → Forall (λ y, y = x) values → values ≠ [] → pstdev values = Ok (S754_zero false).
Proof.
  intros [z Hz] Hall Hne. unfold pstdev.
  assert (mapM exact values = Some (replicate (length values) z)) as ->.
  { apply mapM_Some_2. clear Hne. induction Hall as [|y values -> Hall IH]; constructor; done. }
  rewrite (spread_constant z) by (by apply Forall_replicate).
  set (d := (Z.of_nat _ * _ * _)%Z). rewrite Z.gcd_0_l.
  assert (0 < d)%Z as Hd by (unfold d; rewrite length_replicate; destruct values; [done|cbn [length]; lia]).
  rewrite Z.abs_eq, Z.div_0_l, Z.div_same by lia. reflexivity.
Qed.

(** ** The nearest rank of the summaries *)

Definition rank95 (n : nat) : Z := ((19 * Z.of_nat n + 19) / 20 - 1)%Z.

Definition rank_agrees (n : nat) : bool :=
  match nearest_rank n (float_dec 95 (-2)) with Ok i => (i =? rank95 n)%Z | Raise _ => false end.

Lemma ranks_agree : forallb rank_agrees (seq 1 4000) = true.
Proof. vm_compute. reflexivity. Qed.

(** The float product rounds up to the exact rank, for 4000 values at least. *)
Lemma nearest_rank_95 n : 0 < n → n ≤ 4000 → nearest_rank n (float_dec 95 (-2)) = Ok (rank95 n).
Proof.
  intros Hn Hmax. pose proof ranks_agree as H. rewrite forallb_forall in H.
  specialize (H n). rewrite in_seq in H. specialize (H ltac:(lia)). unfold rank_agrees in H.
  destruct (nearest_rank _ _) as [i|e]; [|done]. apply Z.eqb_eq in H. by subst.
Qed.

(** ** Ranks in a sorted list *)

Section ranks.
Context {A : Type} (R : A → A → Prop) `{!∀ x y, Decision (R x y)}.

Lemma filter_all (P : A → Prop) `{!∀ x, Decision (P x)} l : Forall P l → filter P l = l.
Proof. induction 1 as [|x l Hx Hl IH]; [done|]. rewrite filter_cons_True by done. by rewrite IH. Qed.

Lemma filter_none_of (P : A → Prop) `{!∀ x, Decision (P x)} l : Forall (λ x, ¬ P x) l → filter P l = [].
Proof. induction 1 as [|x l Hx Hl IH]; [done|]. by rewrite filter_cons_False. Qed.

(** The value at position [i]: more than [i] values are not above it, at most
    [i] are below it. *)
Lemma sorted_rank l i p : Reflexive R → StronglySorted R l → l !! i = Some p →
  i < length (filter (λ x, R x p) l) ∧ length (filter (λ x, ¬ R p x) l) ≤ i.
Proof.
  intros Hrefl Hs Hi. pose proof (lookup_lt_Some _ _ _ Hi) as Hlt.
  rewrite <-(take_drop_middle l i p Hi) in Hs |- *. rewrite !filter_app, !length_app.
  apply StronglySorted_app in Hs as (Hle & _ & Hs). apply StronglySorted_inv in Hs as [_ Hge].
  split.
  - rewrite (filter_all (λ x, R x p) (take i l)).
    + rewrite filter_cons_True by apply Hrefl. cbn [length]. rewrite length_take. lia.
    + rewrite Forall_forall. intros x Hx. apply Hle; [done|]. left.
  - rewrite (filter_none_of (λ x, ¬ R p x) (p :: drop (S i) l)).
    + etrans; [|apply (firstn_le_length i l)]. rewrite Nat.add_0_r. apply length_filter.
    + constructor; [intros Hn; apply Hn, Hrefl|]. eapply Forall_impl; [exact Hge|]. intros x Hx Hn. by apply Hn.
Qed.
End ranks.

(** ** What a summary says *)

(** The latencies a summary is made of: finite, and not a negative zero. *)
Definition measured (x : pyfloat) : Prop := ordered_float x ∧ finite x.

Lemma sorted_measured values : Forall measured values →
  StronglySorted float_le (sorted_floats values) ∧ sorted_floats values ≡ₚ values.
Proof.
  intros Hv. split; [|apply merge_sort_Permutation]. apply sorted_ordered; [|apply Sorted_merge_sort, _].
  unfold sorted_floats. rewrite merge_sort_Permutation. eapply Forall_impl; [exact Hv|]. by intros x [].
Qed.

(** [p] is a value, at least 95% of the values are not above it, and less than
    95% are below it. *)
Definition is_p95 (values : list pyfloat) (p : pyfloat) : Prop :=
  p ∈ values ∧ 19 * length values ≤ 20 * length (filter (λ x, float_le x p) values) ∧
  20 * length (filter (λ x, ¬ float_le p x) values) < 19 * length values.

Lemma percentile_95 values : Forall measured values → values ≠ [] → length values ≤ 4000 →
  ∃ p, percentile values (float_dec 95 (-2)) = Ok (Some p) ∧ is_p95 values p.
Proof.
  intros Hv Hne Hmax. destruct (sorted_measured values Hv) as [Hs Hp].
  set (l := sorted_floats values) in *. pose proof (Permutation_length Hp) as Hlen.
  assert (0 < length l) as Hpos by (rewrite Hlen; destruct values; [done|cbn; lia]).
  assert (0 ≤ rank95 (length l) < Z.of_nat (length l))%Z as Hrank.
  { unfold rank95. pose proof (Z.div_mod (19 * Z.of_nat (length l) + 19) 20 ltac:(lia)).
    pose proof (Z.mod_pos_bound (19 * Z.of_nat (length l) + 19) 20 ltac:(lia)). lia. }
  destruct (lookup_lt_is_Some_2 l (Z.to_nat (rank95 (length l))) ltac:(lia)) as [p Hl].
  exists p. split.
  - unfold percentile. destruct values as [|v values]; [done|]. fold l.
    rewrite nearest_rank_95 by lia. cbn [mbind res_bind]. unfold py_index.
    rewrite (proj2 (Z.ltb_ge (rank95 (length l)) 0)) by lia. rewrite (proj2 (Z.ltb_ge (rank95 (length l)) 0)) by lia.
    by rewrite Hl.
  - destruct (sorted_rank float_le l _ p float_le_refl Hs Hl) as [Hle Hlt].
    unfold is_p95. rewrite <-Hp. split; [by eapply list_elem_of_lookup_2|].
    unfold rank95 in *. pose proof (Z.div_mod (19 * Z.of_nat (length l) + 19) 20 ltac:(lia)).
    pose proof (Z.mod_pos_bound (19 * Z.of_nat (length l) + 19) 20 ltac:(lia)).
    lia.
Qed.

Lemma foldl_f_min l x :
  ordered_float x → Forall ordered_float l →
  foldl f_min x l ∈ x :: l ∧ Forall (float_le (foldl f_min x l)) (x :: l).
Proof.
  intros Hx Hl. revert x Hx. induction Hl as [|y l Hy Hl IH]; intros x Hx; cbn [foldl].
  { split; [left|]. constructor; [apply float_le_refl|constructor]. }
  assert (f_min x y ∈ [x; y] ∧ float_le (f_min x y) x ∧ float_le (f_min x y) y) as (Hin & Hxm & Hym).
  { unfold f_min. destruct (fltb y x) eqn:Hlt; (split_and!; [set_solver|..]); try apply float_le_refl; [|exact Hlt].
    destruct (total float_le y x) as [|Hyx]; [done|]. unfold float_le in Hyx. congruence. }
  assert (ordered_float (f_min x y)) as Hm by (unfold f_min; by case_match).
  destruct (IH _ Hm) as [Hres Hall]. set (m := foldl f_min (f_min x y) l) in *.
  apply Forall_cons in Hall as [Hmin Hall].
  assert (ordered_float m) as Hom.
  { apply elem_of_cons in Hres as [->|Hres]; [done|]. rewrite Forall_forall in Hl. auto. }
  split.
  - apply elem_of_cons in Hres as [->|Hres]; [set_solver|]. by do 2 right.
  - constructor; [|constructor; [|done]]; by apply (float_le_trans _ (f_min x y)).
Qed.

Lemma floats_extremes values : Forall measured values → values ≠ [] →
  ∃ lo hi, floats_min values = Some lo ∧ floats_max values = Some hi ∧ lo ∈ values ∧ hi ∈ values ∧
    Forall (λ x, float_le lo x ∧ float_le x hi) values.
Proof.
  intros Hv Hne. destruct values as [|x l]; [done|].
  assert (Forall ordered_float (x :: l)) as [Hx Hl]%Forall_cons by (eapply Forall_impl; [exact Hv|]; by intros ? []).
  destruct (foldl_f_min l x Hx Hl) as [Hlo Hlos]. destruct (foldl_f_max l x Hx Hl) as [Hhi Hhis].
  do 2 eexists. split_and!; [done..|]. by apply Forall_and.
Qed.

Lemma median_ok values : values ≠ [] → ∃ x, median values = Ok x.
Proof.
  intros Hne. unfold median. set (l := sorted_floats values).
  assert (0 < length l) as Hpos.
  { unfold l, sorted_floats. rewrite merge_sort_Permutation. destruct values; [done|cbn; lia]. }
  assert (∀ i, i < length l → ∃ x, py_index l (Z.of_nat i) = Ok x) as Hget.
  { intros i Hi. unfold py_index. rewrite (proj2 (Z.ltb_ge (Z.of_nat i) 0)) by lia.
    rewrite (proj2 (Z.ltb_ge (Z.of_nat i) 0)) by lia. rewrite Nat2Z.id.
    destruct (lookup_lt_is_Some_2 l i Hi) as [x ->]. by eexists. }
  pose proof (Nat.div_mod_eq (length l) 2). pose proof (Nat.mod_upper_bound (length l) 2 ltac:(lia)).
  destruct (Nat.odd (length l)) eqn:Hodd; [apply Hget; lia|].
  assert (0 < length l / 2).
  { destruct (length l / 2) eqn:Hd; [|lia]. assert (length l = 1) as Hone by lia. by rewrite Hone in Hodd. }
  replace (Z.of_nat (length l / 2) - 1)%Z with (Z.of_nat (length l / 2 - 1)) by lia.
  destruct (Hget (length l / 2 - 1) ltac:(lia)) as [a ->]. destruct (Hget (length l / 2) ltac:(lia)) as [b ->]. by eexists.
Qed.

Lemma pstdev_ok values : Forall measured values → ∃ x, pstdev values = Ok x.
Proof.
  intros Hv. unfold pstdev. assert (∃ xs, mapM exact values = Some xs) as [xs ->]; [|by eexists].
  induction Hv as [|x l [_ [z Hz]] Hl [xs IH]]; [by exists []|]. exists (z :: xs). cbn. by rewrite Hz, IH.
Qed.

(** A summary accounts for every event and summarises the values it has.
    The values counted and those missing are the events expected; of values
    that there are, the minimum and the maximum bound all of them, the 95th
    percentile is a value that at least 95% of them do not exceed and that
    less than 95% of them are below, and values that are all equal have no
    deviation.  (The float product behind the percentile is exact enough for
    4000 values.) *)
Theorem metric_summary_spec values expected :
  Forall measured values → length values ≤ 4000 →
  ∃ m, metric_summary values expected = Ok m ∧
    (mt_count m + mt_missing m = mt_expected m)%Z ∧ mt_count m = Z.of_nat (length values) ∧
    (values ≠ [] → ∃ lo hi p,
       mt_min_ms m = Some (f_round lo 6) ∧ mt_max_ms m = Some (f_round hi 6) ∧
       mt_p95_ms m = Some (f_round (or_zero (Some p)) 6) ∧
       lo ∈ values ∧ hi ∈ values ∧ Forall (λ x, float_le lo x ∧ float_le x hi) values ∧ is_p95 values p ∧
       (∀ x, Forall (λ y, y = x) values → mt_population_stddev_ms m = Some (S754_zero false))).
Proof.
  intros Hv Hmax. destruct values as [|v l] eqn:Hvalues.
  { eexists. split; [done|]. split_and!; [|done|done]. destruct expected; cbn; lia. }
  rewrite <-Hvalues in *. assert (values ≠ []) as Hne by (by subst).
  destruct (median_ok values Hne) as [middle Hmiddle]. destruct (pstdev_ok values Hv) as [deviation Hdev].
  destruct (percentile_95 values Hv Hne Hmax) as (p & Hp & Hp95).
  destruct (floats_extremes values Hv Hne) as (lo & hi & Hlo & Hhi & Hbounds).
  eexists. split.
  { unfold metric_summary. rewrite Hvalues. rewrite <-Hvalues. rewrite Hmiddle. cbn [mbind res_bind].
    rewrite Hdev. cbn [mbind res_bind]. rewrite Hp. cbn [mbind res_bind]. by rewrite Hlo, Hhi. }
  split_and!; [destruct expected; cbn; lia|done|]. intros _. exists lo, hi, p. split_and!; try done; try apply Hbounds.
  intros x Hx. cbn. rewrite (pstdev_constant x values) in Hdev; [by injection Hdev as <-| |done|done].
  rewrite Hvalues in Hx, Hv. apply Forall_cons in Hx as [-> _]. by apply Forall_cons in Hv as [[] _].
Qed.

Lemma metric_summary_spec_witness :
  let values := [float_dec 3 0; float_dec 1 0; float_dec 2 0] in
  ∃ m, metric_summary values (Some 5%Z) = Ok m ∧ (mt_count m + mt_missing m = mt_expected m)%Z.
Proof.
  destruct (metric_summary_spec [float_dec 3 0; float_dec 1 0; float_dec 2 0] (Some 5%Z)) as (m & Hm & Hsum & _).
  - repeat constructor; try done; eexists; vm_compute; reflexivity.
  - cbn. lia.
  - exists m. exact (conj Hm Hsum).
Defined.
