(* ===== verification/DirectionRun.v ===== *)
(** * One direction of the supercluster benchmark

    [DirectionRun] of src/benchmark/supercluster/supercluster_benchmark.py:
    its records, its callbacks, its publications, the dropped connection and
    the verdict.  Callbacks run while the direction waits; the concurrent
    publications of the outage are gathered tasks. *)

From S2P Require Import Prelude PyFloat PyValue PyText Program NatsWire Gather Reporting LatencyStats.
From Stdlib Require Import Ascii.

(** ** State *)

(** [supercluster_benchmark.py:864-880 EventRecord] *)
Record event_record := EventRecord {
  er_phase : string;
  er_transport : string;
  er_event_id : string;
  er_sent_at_utc : string;
  er_sent_ns : Z;
  er_delivered_at_utc : option string;
  er_delivered_ns : option Z;
  er_delivery_latency_ms : option pyfloat;
  er_publish_ack_latency_ms : option pyfloat;
  er_stream_sequence : option Z;
  er_publish_duplicate : bool;
  er_duplicate_deliveries : Z;
}.

(** [supercluster_benchmark.py:883-884 EventRecord.delivered] *)
Definition delivered (r : event_record) : bool :=
  match er_delivery_latency_ms r with Some _ => true | None => false end.

Definition set_sent (utc : string) (ns : Z) (r : event_record) : event_record :=
  EventRecord (er_phase r) (er_transport r) (er_event_id r) utc ns (er_delivered_at_utc r) (er_delivered_ns r)
    (er_delivery_latency_ms r) (er_publish_ack_latency_ms r) (er_stream_sequence r) (er_publish_duplicate r)
    (er_duplicate_deliveries r).
Definition set_delivered (utc : string) (ns : Z) (latency : option pyfloat) (r : event_record) : event_record :=
  EventRecord (er_phase r) (er_transport r) (er_event_id r) (er_sent_at_utc r) (er_sent_ns r) (Some utc) (Some ns)
    latency (er_publish_ack_latency_ms r) (er_stream_sequence r) (er_publish_duplicate r) (er_duplicate_deliveries r).
Definition count_duplicate (r : event_record) : event_record :=
  EventRecord (er_phase r) (er_transport r) (er_event_id r) (er_sent_at_utc r) (er_sent_ns r) (er_delivered_at_utc r)
    (er_delivered_ns r) (er_delivery_latency_ms r) (er_publish_ack_latency_ms r) (er_stream_sequence r)
    (er_publish_duplicate r) (er_duplicate_deliveries r + 1).
Definition set_ack (ack : option pyfloat) (sequence : option Z) (duplicate : bool) (r : event_record) : event_record :=
  EventRecord (er_phase r) (er_transport r) (er_event_id r) (er_sent_at_utc r) (er_sent_ns r) (er_delivered_at_utc r)
    (er_delivered_ns r) (er_delivery_latency_ms r) ack sequence duplicate (er_duplicate_deliveries r).

(** The dictionary of records maps an event to its place in the list; [acked]
    are the reply subjects that deliveries were acknowledged on. *)
Record direction := Direction {
  d_records : list event_record;
  d_by_id : list (string * nat);
  d_warm : list string;
  d_acked : list string;
  d_created : list string;
  d_sids : list (option Z);
  d_failures : list string;
}.

Definition new_direction : direction := Direction [] [] [] [] [] [None; None; None] [].

Definition set_records (d : direction) (records : list event_record) (by_id : list (string * nat)) : direction :=
  Direction records by_id (d_warm d) (d_acked d) (d_created d) (d_sids d) (d_failures d).
Definition update_record (i : nat) (f : event_record → event_record) (d : direction) : direction :=
  set_records d (alter f i (d_records d)) (d_by_id d).
Definition add_warm (transport : string) (d : direction) : direction :=
  Direction (d_records d) (d_by_id d) (transport :: d_warm d) (d_acked d) (d_created d) (d_sids d) (d_failures d).
Definition add_ack (reply : string) (d : direction) : direction :=
  if String.eqb reply "" then d else
  Direction (d_records d) (d_by_id d) (d_warm d) (d_acked d ++ [reply]) (d_created d) (d_sids d) (d_failures d).
Definition set_created (created : list string) (d : direction) : direction :=
  Direction (d_records d) (d_by_id d) (d_warm d) (d_acked d) created (d_sids d) (d_failures d).
Definition set_sid (i : nat) (sid : Z) (d : direction) : direction :=
  Direction (d_records d) (d_by_id d) (d_warm d) (d_acked d) (d_created d) (<[i := Some sid]> (d_sids d)) (d_failures d).
Definition add_failures (failures : list string) (d : direction) : direction :=
  Direction (d_records d) (d_by_id d) (d_warm d) (d_acked d) (d_created d) (d_sids d) (d_failures d ++ failures).

(** What stays the same during a run.
    [supercluster_benchmark.py:895-944 DirectionRun.__init__] *)
Record plan := Plan {
  p_run_id : string;
  p_source : string;
  p_destination : string;
  p_cluster : string;
  p_events : Z;
  p_interval : pyfloat;
  p_delivery_timeout : pyfloat;
  p_drop_seconds : pyfloat;
  p_keep_streams : bool;
  p_suffix : string;
}.

Section names.
Context (p : plan).

(** [re.sub(r"[^A-Za-z0-9]", "", run_id).upper()] *)
Definition alphanumeric (c : ascii) : bool :=
  let n := chr_code c in
  (((48 <=? n) && (n <=? 57)) || ((65 <=? n) && (n <=? 90)) || ((97 <=? n) && (n <=? 122)))%Z.
Definition token : string := str_upper (of_chars (filter (λ c, alphanumeric c = true) (chars (p_run_id p)))).

(** [supercluster_benchmark.py:920-933 DirectionRun.__init__] *)
Definition direction_name : string := p_source p +:+ "-to-" +:+ p_destination p.
Definition stream_r1 : string := "SCB_" +:+ token +:+ "_" +:+ p_suffix p +:+ "_R1".
Definition stream_r3 : string := "SCB_" +:+ token +:+ "_" +:+ p_suffix p +:+ "_R3".
Definition consumer_name : string := "SCB_" +:+ token +:+ "_" +:+ p_suffix p +:+ "_C".
Definition subject_token : string := str_lower token +:+ "." +:+ str_lower (p_suffix p).
Definition core_subject : string := "scb." +:+ subject_token +:+ "." +:+ direction_name +:+ ".core".
Definition js_subject (transport : string) : string :=
  "scb." +:+ subject_token +:+ "." +:+ direction_name +:+ ".js" +:+
  (if String.eqb transport "jetstream_r1" then ".r1" else ".r3").
Definition delivery_subject : string := "_SCB.DELIVER." +:+ subject_token +:+ "." +:+ direction_name.

(** [supercluster_benchmark.py:947-947 DirectionRun._new_record] *)
Definition event_id (phase transport : string) (index : Z) : string :=
  direction_name +:+ "/" +:+ phase +:+ "/" +:+ transport +:+ "/" +:+ pad0 6 index.

(** [supercluster_benchmark.py:946-971 DirectionRun._new_record] *)
Definition new_record (phase transport : string) (index : Z) (d : direction) : (nat * pyval) * direction :=
  let id := event_id phase transport index in
  let record := EventRecord phase transport id "" 0 None None None None None false 0 in
  let payload := PDict [("run_id", PStr (p_run_id p)); ("direction", PStr direction_name); ("phase", PStr phase);
                        ("transport", PStr transport); ("event_id", PStr id)] in
  let i := length (d_records d) in
  ((i, payload), set_records d (d_records d ++ [record]) (alist_set id i (d_by_id d))).
End names.

(** ** Callbacks *)

(** A message that a subscription of the direction received, and the clocks
    when its callback ran. *)
Record delivery := Delivery {
  dl_transport : string;
  dl_message : message;
  dl_utc : string;
  dl_ns : Z;
}.

Section callbacks.
Context (json_loads : string → res pyval).

(** [event.get("event_id") if isinstance(event, dict) else None] *)
Definition event_of (event : pyval) : pyval :=
  match event with PDict m => default PNone (alist_get "event_id" m) | _ => PNone end.

(** The first delivery of an event is its delivery; the others are counted.
    [supercluster_benchmark.py:990-998 DirectionRun._record_delivery] *)
Definition deliver_event (utc : string) (ns : Z) (r : event_record) : res event_record * event_record :=
  if delivered r then let r := count_duplicate r in (Ok r, r)
  else match milliseconds (ns - er_sent_ns r) with
       | Ok latency => let r := set_delivered utc ns (Some latency) r in (Ok r, r)
       | Raise e => (Raise e, set_delivered utc ns None r)
       end.

(** A callback that raises ends without an acknowledgement.
    [supercluster_benchmark.py:973-1001 DirectionRun._record_delivery] *)
Definition record_delivery (transport : string) (m : message) (utc : string) (ns : Z) (d : direction) : direction :=
  let ack d := if String.eqb transport "jetstream_r3" then add_ack (m_reply m) d else d in
  match json_loads (m_data m) with
  | Raise (JSONDecodeError _) => ack d
  | Raise _ => d
  | Ok event =>
      match event_of event with
      | PStr id =>
          if String.eqb id ("warm/" +:+ transport) then ack (add_warm transport d)
          else match alist_get id (d_by_id d) with
               | Some i =>
                   match d_records d !! i with
                   | Some r =>
                       let '(outcome, r') := deliver_event utc ns r in
                       let d := update_record i (λ _, r') d in
                       if is_ok outcome then ack d else d
                   | None => ack d
                   end
               | None => ack d
               end
      | _ => ack d
      end
  end.

(** [supercluster_benchmark.py:1009-1011 DirectionRun._r3_callback] *)
Definition run_callback (dl : delivery) (d : direction) : direction :=
  let m := dl_message dl in
  if String.eqb (dl_transport dl) "jetstream_r3" && bool_decide (m_status m ≠ None) then d
  else record_delivery (dl_transport dl) m (dl_utc dl) (dl_ns dl) d.
Definition run_callbacks (dls : list delivery) (d : direction) : direction := foldl (λ d dl, run_callback dl d) d dls.
End callbacks.

(** ** Operations *)

Inductive side := Source | Destination.

(** What a task waits for. *)
Inductive wait : Type → Type :=
  | WSubscribe (s : side) (subject transport : string) : wait Z
  | WUnsubscribe (s : side) (sid : Z) : wait unit
  | WFlush (s : side) : wait unit
  | WReady (s : side) : wait unit
  | WWrite (s : side) (subject : string) (payload : pyval) : wait unit
  | WRequest (s : side) (subject : string) : wait unit
  | WReply (s : side) (subject : string) (payload : option pyval) (timeout : pyfloat) : wait string
  | WSleep (seconds : pyfloat) : wait unit
  | WChanged (timeout : pyfloat) : wait unit
  | WWarm (transport : string) (timeout : pyfloat) : wait unit
  | WDisconnected : wait unit
  | WReconnected : wait unit
  | WForwardStop : wait unit
  | WForwardStart : wait unit.

(** An await answers with the callbacks that ran meanwhile. *)
Inductive directionE : Type → Type :=
  | Section {A} (f : direction → A * direction) : directionE A
  | Pick : directionE bool
  | Clock : directionE Z
  | Utc : directionE string
  | Monotonic : directionE pyfloat
  | ClearLinkEvents : directionE unit
  | LastDisconnected : directionE (option Z)
  | LastReconnected : directionE (option Z)
  | Await {A} (w : wait A) : directionE (list delivery * res A).

Abbreviation task := (prog directionE).
Definition section {A} (f : direction → A * direction) : task A := perform (Section f).

(** ** Replication health *)

Record follower := Follower {
  fo_name : pyval; fo_current : pyval; fo_offline : bool; fo_active_ns : pyval; fo_lag : pyval;
}.
Record health := Health {
  h_healthy : bool;
  h_configured_replicas : pyval;
  h_cluster : pyval;
  h_leader : pyval;
  h_followers : list follower;
  h_messages : pyval;
  h_bytes : pyval;
}.

(** [v or d] *)
Definition py_or (v d : pyval) : pyval := if py_truth v then v else d.

Definition follower_of (replica : pyval) : res follower :=
  name ← py_get replica "name" PNone;
  current ← py_get replica "current" PNone;
  offline ← py_get replica "offline" (PBool false);
  active ← py_get replica "active" PNone;
  lag ← py_get replica "lag" (PInt 0);
  Ok (Follower name current (py_truth offline) active lag).

(** [replica["current"] is True and not replica["offline"] and replica["lag"] == 0] *)
Definition caught_up (f : follower) : bool :=
  match fo_current f with PBool true => negb (fo_offline f) && py_eqb (fo_lag f) (PInt 0) | _ => false end.

(** [supercluster_benchmark.py:1210-1246 DirectionRun._replication_health] *)
Definition replication_health (info : pyval) (expected_cluster : string) (expected_replicas : Z) : res health :=
  config ← py_get info "config" PNone;
  let config := py_or config (PDict []) in
  cluster ← py_get info "cluster" PNone;
  let cluster := py_or cluster (PDict []) in
  replicas ← py_get cluster "replicas" PNone;
  replicas ← py_iter (py_or replicas (PList []));
  followers ← res_mapM follower_of replicas;
  configured ← py_get config "num_replicas" PNone;
  name ← py_get cluster "name" PNone;
  leader ← py_get cluster "leader" PNone;
  let healthy :=
    py_eqb configured (PInt expected_replicas) && py_eqb name (PStr expected_cluster) && py_truth leader
    && (Z.of_nat (length followers) =? expected_replicas - 1)%Z && forallb caught_up followers in
  state ← py_get info "state" PNone;
  let state := py_or state (PDict []) in
  messages ← py_get state "messages" PNone;
  bytes ← py_get state "bytes" PNone;
  Ok (Health healthy configured name leader followers messages bytes).

(** ** The tasks of a direction *)

Section tasks.
Context (json_loads : string → res pyval) (p : plan).

(** The callbacks that ran while the task waited, and its answer. *)
Definition await {A} (w : wait A) : task A :=
  answer ← perform (Await w);
  _ ← section (λ d, (tt, run_callbacks json_loads answer.1 d));
  lift answer.2.

(** [NatsConnection.publish]; the hook runs right before the bytes are
    written. *)
Definition publish (s : side) (subject : string) (payload : pyval) (before_send : task unit) : task unit :=
  _ ← await (WReady s); _ ← before_send; await (WWrite s subject payload).

(** [supercluster_benchmark.py:763-775 js_request] *)
Definition read_response (subject data : string) : res pyval :=
  response ← match json_loads data with
             | Raise (JSONDecodeError _) => Raise (BenchmarkError ("invalid JetStream response from " +:+ subject))
             | r => r
             end;
  match response with
  | PDict _ =>
      error ← py_get response "error" PNone;
      if py_truth error then
        code ← py_get error "code" (PStr "?");
        description ← py_get error "description" error;
        Raise (BenchmarkError ("JetStream " +:+ subject +:+ " failed: " +:+ py_str code +:+ " " +:+ py_str description))
      else Ok response
  | _ => Raise (BenchmarkError ("non-object JetStream response from " +:+ subject))
  end.

(** [supercluster_benchmark.py:744-775 js_request] *)
Definition js_request (s : side) (subject : string) (payload : option pyval) (timeout : pyfloat)
    (before_publish : task unit) : task pyval :=
  _ ← await (WRequest s subject);
  _ ← before_publish;
  data ← await (WReply s subject payload timeout);
  lift (read_response subject data).

Definition NANOSECONDS : Z := 1000000000.
Definition no_hook : task unit := Ret tt.
Definition thirty : pyfloat := float_dec 30 0.

(** [supercluster_benchmark.py:778-812 create_stream] *)
Definition create_stream (s : side) (name subject cluster : string) (event_count replicas : Z) : task pyval :=
  let config := PDict
    [("name", PStr name);
     ("description", PStr ("Temporary external supercluster benchmark R" +:+ pretty replicas +:+ " stream"));
     ("subjects", PList [PStr subject]); ("retention", PStr "limits"); ("max_consumers", PInt 4);
     ("max_msgs", PInt (Z.max 1000 (event_count * 10))); ("max_bytes", PInt 67108864);
     ("max_age", PInt (3600 * NANOSECONDS)); ("max_msgs_per_subject", PInt (-1)); ("max_msg_size", PInt 65536);
     ("storage", PStr "file"); ("discard", PStr "old"); ("num_replicas", PInt replicas);
     ("duplicate_window", PInt (120 * NANOSECONDS)); ("allow_direct", PBool true);
     ("placement", PDict [("cluster", PStr cluster)])] in
  js_request s ("$JS.API.STREAM.CREATE." +:+ name) (Some config) thirty no_hook.

(** [supercluster_benchmark.py:815-846 create_push_consumer] *)
Definition create_push_consumer (s : side) (stream consumer filter_subject delivery_subject : string)
    (event_count : Z) : task pyval :=
  let payload := PDict
    [("stream_name", PStr stream);
     ("config", PDict
       [("durable_name", PStr consumer); ("name", PStr consumer); ("deliver_subject", PStr delivery_subject);
        ("deliver_policy", PStr "all"); ("ack_policy", PStr "explicit"); ("ack_wait", PInt (30 * NANOSECONDS));
        ("max_deliver", PInt 10); ("filter_subject", PStr filter_subject); ("replay_policy", PStr "instant");
        ("max_ack_pending", PInt (Z.max 1024 (event_count * 4)))])] in
  js_request s ("$JS.API.CONSUMER.CREATE." +:+ stream +:+ "." +:+ consumer +:+ "." +:+ filter_subject)
    (Some payload) thirty no_hook.

(** [supercluster_benchmark.py:849-852 delete_stream] *)
Definition delete_stream (s : side) (name : string) : task unit :=
  _ ← js_request s ("$JS.API.STREAM.DELETE." +:+ name) None thirty no_hook; Ret tt.

(** [supercluster_benchmark.py:855-860 stream_info] *)
Definition stream_info (s : side) (name : string) : task pyval :=
  js_request s ("$JS.API.STREAM.INFO." +:+ name) None thirty no_hook.

(** *** Publications *)

(** [supercluster_benchmark.py:1019-1021 DirectionRun._publish_core] *)
Definition mark_sent (i : nat) : task unit :=
  utc ← perform Utc; ns ← perform Clock; section (λ d, (tt, update_record i (set_sent utc ns) d)).

Definition pause : task unit := if f_is_zero (p_interval p) then Ret tt else await (WSleep (p_interval p)).

(** The records of a batch are their places in the list. *)
Fixpoint publish_core_from (phase : string) (n : nat) (index : Z) : task (list nat) :=
  match n with
  | O => Ret []
  | S n =>
      record ← section (new_record p phase "core" index);
      _ ← publish Source (core_subject p) record.2 (mark_sent record.1);
      _ ← pause;
      batch ← publish_core_from phase n (index + 1);
      Ret (record.1 :: batch)
  end.

(** [supercluster_benchmark.py:1013-1029 DirectionRun._publish_core] *)
Definition publish_core (phase : string) : task (list nat) :=
  batch ← publish_core_from phase (Z.to_nat (p_events p)) 0; _ ← await (WFlush Source); Ret batch.

(** [supercluster_benchmark.py:1079-1084 DirectionRun._publish_one_js] *)
Definition record_ack (i : nat) (ns : Z) (response : pyval) : task unit :=
  acked ← section (λ d,
    let latency := milliseconds (ns - default 0%Z (er_sent_ns <$> d_records d !! i)) in
    (latency, match latency with
              | Ok l => update_record i (λ r, set_ack (Some l) (er_stream_sequence r) (er_publish_duplicate r) r) d
              | Raise _ => d
              end));
  _ ← lift acked;
  sequence ← lift (py_item response "seq" ≫= py_int);
  duplicate ← lift (py_get response "duplicate" (PBool false));
  section (λ d, (tt, update_record i (λ r, set_ack (er_publish_ack_latency_ms r) (Some sequence) (py_truth duplicate) r) d)).

(** [supercluster_benchmark.py:1058-1084 DirectionRun._publish_one_js] *)
Definition publish_one_js (phase transport subject : string) (index : Z) : task nat :=
  record ← section (new_record p phase transport index);
  response ← js_request Source subject (Some record.2) (p_delivery_timeout p) (mark_sent record.1);
  ns ← perform Clock;
  _ ← record_ack record.1 ns response;
  Ret record.1.

(** [supercluster_benchmark.py:1037-1044 DirectionRun._publish_js_pipelined] *)
Definition publish_at (phase transport subject : string) (started : pyfloat) (index : Z) : task nat :=
  position ← lift (float_of_Z index);
  now ← perform Monotonic;
  let delay := fsub (fadd started (fmul position (p_interval p))) now in
  _ ← (if fltb (float_dec 0 0) delay then await (WSleep delay) else Ret tt);
  publish_one_js phase transport subject index.

(** [range(self.events)] *)
Definition indexes : list Z := seqZ 0 (p_events p).

(** [supercluster_benchmark.py:1031-1056 DirectionRun._publish_js_pipelined] *)
Definition publish_js_pipelined (phase transport subject : string) : task (list nat) :=
  started ← perform Monotonic;
  gather Pick (publish_at phase transport subject started <$> indexes).

(** One event of each stream, in an order that alternates. *)
Definition publish_pair (phase : string) (index : Z) : task (nat * nat) :=
  let one transport := publish_one_js phase transport (js_subject p transport) index in
  if Z.even index then r1 ← one "jetstream_r1"; r3 ← one "jetstream_r3"; Ret (r1, r3)
  else r3 ← one "jetstream_r3"; r1 ← one "jetstream_r1"; Ret (r1, r3).
Fixpoint publish_pairs_from (phase : string) (n : nat) (index : Z) : task (list (nat * nat)) :=
  match n with
  | O => Ret []
  | S n => pair ← publish_pair phase index; _ ← pause; rest ← publish_pairs_from phase n (index + 1); Ret (pair :: rest)
  end.

(** [supercluster_benchmark.py:1086-1112 DirectionRun._publish_replication_pair] *)
Definition publish_replication_pair (phase : string) : task (list nat * list nat) :=
  pairs ← publish_pairs_from phase (Z.to_nat (p_events p)) 0; Ret (pairs.*1, pairs.*2).

(** *** Waiting *)

Definition records_at (batch : list nat) (d : direction) : list event_record := omap (d_records d !!.) batch.
Definition undelivered (rs : list event_record) : list event_record := filter (λ r, delivered r = false) rs.
Definition count (rs : list event_record) : Z := Z.of_nat (length rs).
Definition ratio (a b : Z) : string := pretty a +:+ "/" +:+ pretty b.

Definition report_missing (batch : list nat) (label : string) : task unit :=
  section (λ d, (tt, add_failures
    [label +:+ ": " +:+ ratio (count (undelivered (records_at batch d))) (Z.of_nat (length batch)) +:+ " missing"] d)).

(** The fuel is the number of changes that the deadline leaves time for.
    [supercluster_benchmark.py:1117-1130 DirectionRun._wait_delivered] *)
Fixpoint wait_changes (fuel : nat) (batch : list nat) (label : string) (deadline : pyfloat) : task unit :=
  complete ← section (λ d, (forallb delivered (records_at batch d), d));
  if (complete : bool) then Ret tt else
  match fuel with
  | O => report_missing batch label
  | S fuel =>
      now ← perform Monotonic;
      let remaining := fsub deadline now in
      if fleb remaining (float_dec 0 0) then report_missing batch label else
      r ← prog_try (await (WChanged remaining));
      match r with
      | Ok _ => wait_changes fuel batch label deadline
      | Raise (TimeoutError _) => report_missing batch label
      | Raise e => Throw e
      end
  end.

(** [supercluster_benchmark.py:1114-1130 DirectionRun._wait_delivered] *)
Definition wait_delivered (fuel : nat) (batch : list nat) (label : string) : task unit :=
  now ← perform Monotonic; wait_changes fuel batch label (fadd now (p_delivery_timeout p)).

Definition or_timeout {A} (message : string) (q : task A) : task A :=
  r ← prog_try q;
  match r with Raise (TimeoutError _) => Throw (BenchmarkError message) | r => lift r end.

Definition not_ready (stream : string) (replicas : Z) : task health :=
  Throw (BenchmarkError ("stream " +:+ stream +:+ " did not reach healthy R" +:+ pretty replicas +:+ " placement")).

(** The message also quotes the last health.
    [supercluster_benchmark.py:1266-1279 DirectionRun._wait_replication_ready] *)
Fixpoint poll_replication (fuel : nat) (stream : string) (replicas : Z) (deadline : pyfloat) : task health :=
  match fuel with
  | O => not_ready stream replicas
  | S fuel =>
      now ← perform Monotonic;
      if negb (fltb now deadline) then not_ready stream replicas else
      info ← stream_info Destination stream;
      h ← lift (replication_health info (p_cluster p) replicas);
      if h_healthy h then Ret h
      else _ ← await (WSleep (float_dec 25 (-2))); poll_replication fuel stream replicas deadline
  end.

(** [supercluster_benchmark.py:1263-1279 DirectionRun._wait_replication_ready] *)
Definition wait_replication_ready (fuel : nat) (stream : string) (replicas : Z) : task health :=
  now ← perform Monotonic; poll_replication fuel stream replicas (fadd now (p_delivery_timeout p)).

(** *** Warming up *)

Definition warm_payload (transport : string) : pyval :=
  PDict [("run_id", PStr (p_run_id p)); ("event_id", PStr ("warm/" +:+ transport))].

Fixpoint warm_core (tries : nat) : task unit :=
  match tries with
  | O => Ret tt
  | S tries =>
      _ ← publish Source (core_subject p) (warm_payload "core") no_hook;
      r ← prog_try (await (WWarm "core" (float_dec 25 (-2))));
      match r with Ok _ => Ret tt | Raise (TimeoutError _) => warm_core tries | Raise e => Throw e end
  end.

Definition warm_js (transport message : string) : task unit :=
  _ ← js_request Source (js_subject p transport) (Some (warm_payload transport)) (p_delivery_timeout p) no_hook;
  or_timeout (message +:+ " traffic did not cross " +:+ direction_name p) (await (WWarm transport (p_delivery_timeout p))).

(** [supercluster_benchmark.py:1155-1207 DirectionRun._warm_up] *)
Definition warm_up : task unit :=
  _ ← warm_core 20;
  warm ← section (λ d, (bool_decide ("core" ∈ d_warm d), d));
  if negb warm then Throw (BenchmarkError ("core traffic did not cross " +:+ direction_name p +:+ "; check gateway health"))
  else _ ← warm_js "jetstream_r1" "JetStream R1"; warm_js "jetstream_r3" "JetStream R3".
End tasks.

(** ** The run of a direction *)

Record recovery := Recovery {
  rc_first_ms : option pyfloat; rc_last_ms : option pyfloat; rc_drain_ms : option pyfloat;
}.

(** [supercluster_benchmark.py:1388-1408 DirectionRun.run] *)
Definition recovery_times (outage : list event_record) (restart_started : Z) : res recovery :=
  match omap er_delivered_ns outage with
  | [] => Ok (Recovery None None None)
  | n :: ns =>
      let first := foldl Z.min n ns in
      let final := foldl Z.max n ns in
      a ← milliseconds (first - restart_started);
      b ← milliseconds (final - restart_started);
      c ← milliseconds (final - first);
      Ok (Recovery (Some a) (Some b) (Some c))
  end.

(** What the direction found, without the records themselves. *)
Record findings := Findings {
  fi_drop_started : Z; fi_disconnected : Z; fi_restart_started : Z; fi_reconnected : Z;
  fi_outage_core : list nat; fi_outage_js : list nat; fi_core_after : Z; fi_js_after : Z;
  fi_recovery : recovery; fi_convergence_ms : pyfloat;
  fi_initial : health * health;
  fi_r1_source : health; fi_r1_destination : health; fi_r3_source : health; fi_r3_destination : health;
}.

Definition phases : list string := ["baseline"; "recovery"].
Definition transports : list string := ["core"; "jetstream_r1"; "jetstream_r3"].

Definition matching (phase transport : string) (d : direction) : list event_record :=
  filter (λ r, er_phase r = phase ∧ er_transport r = transport) (d_records d).

Definition when (b : bool) (message : string) : list string := if b then [message] else [].
Definition when_missing (n : Z) (message : string) : list string := if (n =? 0)%Z then [] else [message].

Definition health_failures (f : findings) : list string :=
  when (negb (h_healthy (fi_r1_source f))) "source view reports unhealthy R1 control"
  ++ when (negb (h_healthy (fi_r1_destination f))) "destination view reports unhealthy R1 control"
  ++ when (negb (h_healthy (fi_r3_source f))) "source view reports unhealthy R3 replication"
  ++ when (negb (h_healthy (fi_r3_destination f))) "destination view reports unhealthy R3 replication".

Definition phase_failures (events : Z) (d : direction) : list string :=
  phases ≫= λ phase, transports ≫= λ transport,
    let n := count (undelivered (matching phase transport d)) in
    when_missing n (phase +:+ " " +:+ transport +:+ ": " +:+ ratio n events +:+ " missing").

Definition outage_failures (events : Z) (f : findings) (d : direction) : list string :=
  let n := count (undelivered (records_at (fi_outage_js f) d)) in
  when_missing n ("connection-drop JetStream: " +:+ ratio n events +:+ " not recovered").

(** [supercluster_benchmark.py:1446-1476 DirectionRun.run] *)
Definition final_failures (events : Z) (f : findings) (d : direction) : list string :=
  health_failures f ++ phase_failures events d ++ outage_failures events f d.

(** [supercluster_benchmark.py:1248-1261 DirectionRun._phase_metric] *)
Definition phase_metric (phase transport : string) (attribute : event_record → option pyfloat) (d : direction) : res metric :=
  let rs := matching phase transport d in metric_summary (omap attribute rs) (Some (count rs)).

(** [supercluster_benchmark.py:1480-1506 DirectionRun.run] *)
Definition phase_latency (d : direction) (phase : string) : res (list (string * metric)) :=
  core ← phase_metric phase "core" er_delivery_latency_ms d;
  ack3 ← phase_metric phase "jetstream_r3" er_publish_ack_latency_ms d;
  if String.eqb phase "connection_drop" then
    age ← phase_metric phase "jetstream_r3" er_delivery_latency_ms d;
    Ok [("core_delivery", core); ("jetstream_r3_publish_ack", ack3); ("jetstream_r3_queued_age", age)]
  else
    r3 ← phase_metric phase "jetstream_r3" er_delivery_latency_ms d;
    r1 ← phase_metric phase "jetstream_r1" er_delivery_latency_ms d;
    ack1 ← phase_metric phase "jetstream_r1" er_publish_ack_latency_ms d;
    Ok [("core_delivery", core); ("jetstream_r3_publish_ack", ack3); ("jetstream_r3_delivery", r3);
        ("jetstream_r1_delivery", r1); ("jetstream_r1_publish_ack", ack1)].

(** [round(a - b, 6) if ... else None] *)
Definition difference (a b : option pyfloat) : option pyfloat :=
  match a, b with Some a, Some b => Some (f_round (fsub a b) 6) | _, _ => None end.
Definition median_of (k : string) (l : list (string * metric)) : option pyfloat := alist_get k l ≫= mt_median_ms.

(** [supercluster_benchmark.py:1508-1525 DirectionRun.run] *)
Definition factor_impact (latency : list (string * metric)) : option pyfloat * option pyfloat :=
  (difference (median_of "jetstream_r3_publish_ack" latency) (median_of "jetstream_r1_publish_ack" latency),
   difference (median_of "jetstream_r3_delivery" latency) (median_of "jetstream_r1_delivery" latency)).

Record drop_report := DropReport {
  dr_scheduled_drop_ms : pyfloat; dr_disconnect_detection_ms : pyfloat; dr_tunnel_restart_started_ms : pyfloat;
  dr_unavailable_ms : pyfloat; dr_reconnect_after_tunnel_restart_ms : pyfloat; dr_recovery : recovery;
  dr_queued_age : option metric;
  dr_core_published : Z; dr_core_published_before : Z; dr_core_delivered : Z; dr_core_lost : Z;
  dr_js_published : Z; dr_js_published_before : Z; dr_js_recovered : Z; dr_js_missing : Z; dr_js_duplicates : Z;
}.
Record run_result := RunResult {
  rr_direction : string; rr_source_region : string; rr_destination_region : string;
  rr_streams : string * string; rr_stream_placement : string;
  rr_latency : list (string * list (string * metric));
  rr_connection_drop : drop_report;
  rr_findings : findings;
  rr_factor_impact : list (string * (option pyfloat * option pyfloat));
  rr_failures : list string;
}.

(** [supercluster_benchmark.py:1534-1579 DirectionRun.run] *)
Definition drop_report_of (p : plan) (f : findings) (queued_age : option metric) (d : direction) : res drop_report :=
  let core := records_at (fi_outage_core f) d in
  let js := records_at (fi_outage_js f) d in
  let core_n := Z.of_nat (length (fi_outage_core f)) in
  let js_n := Z.of_nat (length (fi_outage_js f)) in
  detection ← milliseconds (fi_disconnected f - fi_drop_started f);
  restart ← milliseconds (fi_restart_started f - fi_disconnected f);
  unavailable ← milliseconds (fi_reconnected f - fi_disconnected f);
  reconnect ← milliseconds (fi_reconnected f - fi_restart_started f);
  Ok (DropReport (f_round (fmul (p_drop_seconds p) (float_dec 1000 0)) 6) detection restart unavailable reconnect
        (fi_recovery f) queued_age
        core_n (core_n - fi_core_after f) (count (filter (λ r, delivered r = true) core)) (count (undelivered core))
        js_n (js_n - fi_js_after f) (count (filter (λ r, delivered r = true) js)) (count (undelivered js))
        (sum_Z (er_duplicate_deliveries <$> js))).

(** [sorted(set(failures))] *)
Definition sorted_set (l : list string) : list string := sorted_strings (list_to_set l).

(** The document of the run, from the records as they are at its end.
    [supercluster_benchmark.py:1478-1600 DirectionRun.run] *)
Definition build_result (p : plan) (f : findings) (d : direction) : res run_result :=
  latency ← res_mapM (λ phase, l ← phase_latency d phase; Ok (phase, l)) ["baseline"; "connection_drop"; "recovery"];
  let at_phase phase := default [] (alist_get phase latency) in
  drop ← drop_report_of p f (alist_get "jetstream_r3_queued_age" (at_phase "connection_drop")) d;
  Ok (RunResult (direction_name p) (p_source p) (p_destination p) (stream_r1 p, stream_r3 p) (p_cluster p) latency drop f
        ((λ phase, (phase, factor_impact (at_phase phase))) <$> phases) (sorted_set (d_failures d))).

Section run.
Context (json_loads : string → res pyval) (p : plan) (fuel : nat).

Abbreviation await := (await json_loads).
Abbreviation info s name := (stream_info json_loads s name).
Abbreviation health_of v replicas := (lift (replication_health v (p_cluster p) replicas)).

Definition subscribe (i : nat) (subject transport : string) : task unit :=
  sid ← await (WSubscribe Destination subject transport); section (λ d, (tt, set_sid i sid d)).

(** A stream is remembered when its creation was answered. *)
Definition make_stream (name subject : string) (replicas : Z) : task health :=
  _ ← create_stream json_loads Source name subject (p_cluster p) (p_events p) replicas;
  _ ← section (λ d, (tt, set_created (d_created d ++ [name]) d));
  wait_replication_ready json_loads p fuel name replicas.

(** [supercluster_benchmark.py:1283-1326 DirectionRun.run] *)
Definition set_up : task (health * health) :=
  _ ← subscribe 0 (core_subject p) "core";
  _ ← subscribe 1 (js_subject p "jetstream_r1") "jetstream_r1";
  _ ← await (WFlush Destination);
  h1 ← make_stream (stream_r1 p) (js_subject p "jetstream_r1") 1;
  h3 ← make_stream (stream_r3 p) (js_subject p "jetstream_r3") 3;
  _ ← subscribe 2 (delivery_subject p) "jetstream_r3";
  _ ← await (WFlush Destination);
  _ ← create_push_consumer json_loads Destination (stream_r3 p) (consumer_name p) (js_subject p "jetstream_r3")
        (delivery_subject p) (p_events p);
  _ ← warm_up json_loads p;
  Ret (h1, h3).

(** [supercluster_benchmark.py:1328-1334 DirectionRun.run] *)
Definition steady_phase (phase : string) : task unit :=
  core ← publish_core json_loads p phase;
  _ ← wait_delivered json_loads p fuel core (phase +:+ " core");
  batches ← publish_replication_pair json_loads p phase;
  _ ← wait_delivered json_loads p fuel batches.1 (phase +:+ " JetStream R1");
  wait_delivered json_loads p fuel batches.2 (phase +:+ " JetStream R3").

Definition assertion {A} (x : option A) : task A :=
  match x with Some a => Ret a | None => Throw (OtherError "AssertionError") end.

(** [supercluster_benchmark.py:1336-1350 DirectionRun.run] *)
Definition drop_connection : task (Z * Z) :=
  _ ← perform ClearLinkEvents;
  drop_started ← perform Clock;
  _ ← await WForwardStop;
  _ ← or_timeout (p_destination p +:+ " client did not observe tunnel loss") (await WDisconnected);
  disconnected ← perform LastDisconnected;
  disconnected ← assertion disconnected;
  Ret (drop_started, disconnected).

(** [supercluster_benchmark.py:1132-1153 DirectionRun._restart_destination_after_drop] *)
Definition restart_destination_after_drop (disconnected_ns : Z) : task (Z * Z) :=
  nanos ← lift (float_of_Z NANOSECONDS);
  delay ← lift (f_trunc (fmul (p_drop_seconds p) nanos));
  now ← perform Clock;
  remaining ← lift (int_truediv (disconnected_ns + delay - now) NANOSECONDS);
  _ ← (if fltb (float_dec 0 0) remaining then await (WSleep remaining) else Ret tt);
  restart_started ← perform Clock;
  _ ← await WForwardStart;
  _ ← or_timeout (p_destination p +:+ " client did not reconnect") (await WReconnected);
  reconnected ← perform LastReconnected;
  reconnected ← assertion reconnected;
  Ret (restart_started, reconnected).

(** The tunnel restarts while both transports publish; when a publication
    fails, the restart is waited for and the failure reported.
    [supercluster_benchmark.py:1352-1372 DirectionRun.run] *)
Definition outage (disconnected_ns : Z) : task ((Z * Z) * (list nat * list nat)) :=
  outcomes ← both Pick
    (prog_try (restart_destination_after_drop disconnected_ns))
    (prog_try (both Pick (publish_core json_loads p "connection_drop")
                         (publish_js_pipelined json_loads p "connection_drop" "jetstream_r3" (js_subject p "jetstream_r3"))));
  batches ← lift outcomes.2;
  restarted ← lift outcomes.1;
  Ret (restarted, batches).

Definition sent_after (restart_started : Z) (rs : list event_record) : Z :=
  count (filter (λ r, (restart_started ≤ er_sent_ns r)%Z) rs).
(** [supercluster_benchmark.py:1374-1384 DirectionRun.run] *)
Definition overran (restart_started : Z) (core js : list nat) (d : direction) : (Z * Z) * direction :=
  let a := sent_after restart_started (records_at core d) in
  let b := sent_after restart_started (records_at js d) in
  ((a, b),
   if (a =? 0)%Z && (b =? 0)%Z then d
   else add_failures ["connection-drop publication window overran tunnel restart: core=" +:+ pretty a
                      +:+ ", jetstream=" +:+ pretty b] d).

(** [supercluster_benchmark.py:1281-1600 DirectionRun.run] *)
Definition direction_run : task run_result :=
  initial ← set_up;
  _ ← steady_phase "baseline";
  dropped ← drop_connection;
  outcome ← outage dropped.2;
  let core := outcome.2.1 in
  let js := outcome.2.2 in
  let restart_started := outcome.1.1 in
  after ← section (overran restart_started core js);
  _ ← wait_delivered json_loads p fuel js "connection-drop JetStream";
  _ ← await (WSleep (float_dec 25 (-2)));
  times ← section (λ d, (recovery_times (records_at js d) restart_started, d));
  times ← lift times;
  _ ← steady_phase "recovery";
  convergence_started ← perform Clock;
  _ ← wait_replication_ready json_loads p fuel (stream_r3 p) 3;
  now ← perform Clock;
  convergence ← lift (milliseconds (now - convergence_started));
  infos ← both Pick (both Pick (info Source (stream_r1 p)) (info Destination (stream_r1 p)))
                    (both Pick (info Source (stream_r3 p)) (info Destination (stream_r3 p)));
  r1_source ← health_of infos.1.1 1;
  r1_destination ← health_of infos.1.2 1;
  r3_source ← health_of infos.2.1 3;
  r3_destination ← health_of infos.2.2 3;
  let f := Findings dropped.1 dropped.2 restart_started outcome.1.2 core js after.1 after.2 times convergence initial
             r1_source r1_destination r3_source r3_destination in
  result ← section (λ d, let d := add_failures (final_failures (p_events p) f d) d in (build_result p f d, d));
  lift result.

(** [supercluster_benchmark.py:1605-1611 DirectionRun.cleanup] *)
Fixpoint delete_streams (streams : list string) : task (list string) :=
  match streams with
  | [] => Ret []
  | stream :: streams =>
      r ← prog_try (delete_stream json_loads Source stream);
      failures ← delete_streams streams;
      Ret (match r with
           | Ok _ => failures
           | Raise e => ("could not delete stream " +:+ stream +:+ ": " +:+ exn_str e) :: failures
           end)
  end.

Definition drop_subscription (sid : option Z) : task unit :=
  match sid with Some sid => _ ← prog_try (await (WUnsubscribe Destination sid)); Ret tt | None => Ret tt end.
Fixpoint drop_subscriptions (sids : list (option Z)) : task unit :=
  match sids with [] => Ret tt | sid :: sids => _ ← drop_subscription sid; drop_subscriptions sids end.

(** [supercluster_benchmark.py:1602-1622 DirectionRun.cleanup] *)
Definition cleanup : task (list string) :=
  created ← section (λ d, (d_created d, d));
  failures ← (if p_keep_streams p then Ret [] else
              failures ← delete_streams (rev created); _ ← section (λ d, (tt, set_created [] d)); Ret failures);
  sids ← section (λ d, (d_sids d, d));
  _ ← drop_subscriptions sids;
  Ret failures.
End run.

(** ** Any environment *)

Section world.
Context {W : Type} (env : ∀ X, directionE X → direction → W → X * W).

Definition direction_handle X (op : directionE X) : direction * W → X * (direction * W) :=
  match op in directionE X return direction * W → X * (direction * W) with
  | Section f => λ s, ((f s.1).1, ((f s.1).2, s.2))
  | op => λ s, ((env _ op s.1 s.2).1, (s.1, (env _ op s.1 s.2).2))
  end.
End world.

(** ** A healthy pair of clusters *)

Definition demo_plan : plan :=
  Plan "20260101T000000Z-abc" "west" "east" "nats-east" 2 (float_dec 0 0) (float_dec 30 0) (float_dec 5 0) false "0A0B0C".

Definition demo_info (replicas : Z) : pyval :=
  PDict [("config", PDict [("num_replicas", PInt replicas)]);
         ("cluster", PDict [("name", PStr "nats-east"); ("leader", PStr "nats-0");
            ("replicas", PList (replicate (Z.to_nat replicas - 1)
               (PDict [("name", PStr "nats"); ("current", PBool true); ("lag", PInt 0)])))])].

(** The text of an event is its identifier. *)
Definition demo_loads (data : string) : res pyval :=
  if String.eqb data "info1" then Ok (demo_info 1) else if String.eqb data "info3" then Ok (demo_info 3)
  else Ok (PDict [("event_id", PStr data); ("seq", PInt 7)]).

Definition demo_delivery (transport : string) (payload : pyval) : list delivery :=
  match event_of payload with
  | PStr id => [Delivery transport (Message "" "$JS.ACK" id [] None []) "now" 2500000]
  | _ => []
  end.

(** The transport of the messages a subject reaches the destination by. *)
Definition demo_transport (subject : string) : option string :=
  if String.eqb subject (core_subject demo_plan) then Some "core"
  else if String.eqb subject (js_subject demo_plan "jetstream_r1") then Some "jetstream_r1"
  else if String.eqb subject (js_subject demo_plan "jetstream_r3") then Some "jetstream_r3" else None.
Definition demo_arrivals (subject : string) (payload : pyval) : list delivery :=
  match demo_transport subject with Some transport => demo_delivery transport payload | None => [] end.
Definition demo_reply (subject : string) : string :=
  if String.eqb subject ("$JS.API.STREAM.INFO." +:+ stream_r1 demo_plan) then "info1"
  else if String.eqb subject ("$JS.API.STREAM.INFO." +:+ stream_r3 demo_plan) then "info3" else "done".

(** Every publication arrives; the clock says what the world counts. *)
Definition demo_wait {A} (w : wait A) : list delivery * res A :=
  match w in wait A return list delivery * res A with
  | WSubscribe _ _ _ => ([], Ok 1%Z)
  | WWrite _ subject payload => (demo_arrivals subject payload, Ok tt)
  | WReply _ subject payload _ => (demo_arrivals subject (default PNone payload), Ok (demo_reply subject))
  | WUnsubscribe _ _ | WFlush _ | WReady _ | WRequest _ _ | WSleep _ | WChanged _ | WWarm _ _ | WDisconnected
  | WReconnected | WForwardStop | WForwardStart => ([], Ok tt)
  end.

(** A world that counts the readings of its clock; the restart of the tunnel
    comes after the publications. *)
Definition demo_env X (op : directionE X) (d : direction) (w : Z) : X * Z :=
  match op in directionE X return X * Z with
  | Section f => ((f d).1, w)
  | Pick => (false, w)
  | Clock => (w, w + 1000)
  | Utc => ("utc", w)
  | Monotonic => (float_dec 0 0, w)
  | ClearLinkEvents => (tt, w)
  | LastDisconnected => (Some w, w)
  | LastReconnected => (Some w, w)
  | Await x => (demo_wait x, w)
  end%Z.

Abbreviation demo_run := (run (direction_handle demo_env) (direction_run demo_loads demo_plan 5) (new_direction, 0%Z)).

Example demo_run_result :
  match demo_run with
  | (Ok rr, (d, _)) => (rr_failures rr, length (d_records d), d_created d, length (d_acked d))
  | (Raise e, _) => ([exn_str e], 0, [], 0)
  end = ([], 16, [stream_r1 demo_plan; stream_r3 demo_plan], 7).
Proof. vm_compute. reflexivity. Qed.

(** The server creates the first stream and its answer is lost: the stream is
    not remembered, and no clean-up will ask for its deletion. *)
Definition lossy_env X (op : directionE X) (d : direction) (w : Z) : X * Z :=
  match op in directionE X return X * Z with
  | Await x =>
      match x in wait A return (list delivery * res A) * Z with
      | WReply s subject payload timeout =>
          if String.eqb subject ("$JS.API.STREAM.CREATE." +:+ stream_r1 demo_plan)
          then (([], Raise (BenchmarkError ("NATS request to " +:+ subject +:+ " timed out"))), w)
          else (demo_wait (WReply s subject payload timeout), w)
      | x => (demo_wait x, w)
      end
  | op => demo_env _ op d w
  end.

Example lost_creation :
  match run (direction_handle lossy_env) (direction_run demo_loads demo_plan 5) (new_direction, 0%Z) with
  | (Raise (BenchmarkError _), (d, _)) => d_created d = []
  | _ => False
  end.
Proof. vm_compute. reflexivity. Qed.
