(* ===== verification/DirectionVerdict.v ===== *)
(** * What a direction's verdict says

    Records only grow while a direction runs, whatever its callbacks and
    tasks do: a run without failures published every event and saw every one
    arrive.  Each delivery is counted once, and each acknowledged once. *)

From S2P Require Import Prelude PyFloat PyValue PyText Program NatsWire Gather Reporting LatencyStats DirectionRun.

(** ** Records only grow *)

Definition same_event (r r' : event_record) : Prop :=
  er_phase r' = er_phase r ∧ er_transport r' = er_transport r ∧ er_event_id r' = er_event_id r ∧
  (delivered r = true → delivered r' = true).

#[export] Instance same_event_preorder : PreOrder same_event.
Proof.
  split; [by intros r|]. intros r1 r2 r3 (Hp & Ht & Hi & Hd) (Hp' & Ht' & Hi' & Hd').
  split_and!; [congruence..|by auto].
Qed.

Record grows (d d' : direction) : Prop := {
  gr_records : ∀ i r, d_records d !! i = Some r → ∃ r', d_records d' !! i = Some r' ∧ same_event r r';
  gr_failures : d_failures d `prefix_of` d_failures d';
}.

#[export] Instance grows_preorder : PreOrder grows.
Proof.
  split.
  - intros d. split; [|done]. intros i r Hr. by exists r.
  - intros d1 d2 d3 [H1 F1] [H2 F2]. split; [|by etrans]. intros i r Hr.
    destruct (H1 i r Hr) as (r1 & Hr1 & Hs1). destruct (H2 i r1 Hr1) as (r2 & Hr2 & Hs2).
    exists r2. split; [done|]. by etrans.
Qed.

Lemma grows_same d d' : d_records d' = d_records d → d_failures d' = d_failures d → grows d d'.
Proof. intros Hr Hf. split; [|by rewrite Hf]. rewrite Hr. intros i r Hi. by exists r. Qed.

Lemma grows_update i f d : (∀ r, d_records d !! i = Some r → same_event r (f r)) → grows d (update_record i f d).
Proof.
  intros Hf. split; [|done]. cbn. intros j r Hj. destruct (decide (i = j)) as [<-|Hne].
  - exists (f r). split; [by rewrite list_lookup_alter_eq, Hj|by apply Hf].
  - exists r. by rewrite list_lookup_alter_ne.
Qed.

Lemma grows_add_failures failures d : grows d (add_failures failures d).
Proof. split; [intros i r Hr; by exists r|]. by eexists. Qed.

Lemma grows_new_record p phase transport index d : grows d (new_record p phase transport index d).2.
Proof.
  split; [|done]. cbn. intros i r Hi. exists r. split; [|done]. by apply lookup_app_l_Some.
Qed.

Lemma grows_add_ack reply d : grows d (add_ack reply d).
Proof. unfold add_ack. case_match; [done|]. by apply grows_same. Qed.

Lemma deliver_event_same utc ns r : same_event r (deliver_event utc ns r).2.
Proof.
  unfold deliver_event. destruct (delivered r) eqn:Hd; [by split_and!|].
  destruct (milliseconds _); cbn; split_and!; try done; by rewrite Hd.
Qed.

Lemma grows_callback json_loads dl d : grows d (run_callback json_loads dl d).
Proof.
  unfold run_callback. case_match; [done|]. unfold record_delivery.
  assert (∀ d', grows d d' →
    grows d (if String.eqb (dl_transport dl) "jetstream_r3" then add_ack (m_reply (dl_message dl)) d' else d')) as Hack.
  { intros d' Hd. case_match; [|done]. etrans; [exact Hd|apply grows_add_ack]. }
  destruct (json_loads _) as [event|[]]; try done; [|by apply Hack].
  destruct (event_of event) as [| | | |id| |]; try by apply Hack.
  destruct (String.eqb id _); [apply Hack; by apply grows_same|].
  destruct (alist_get id _) as [i|]; [|by apply Hack].
  destruct (d_records d !! i) as [r|] eqn:Hr; [|by apply Hack].
  pose proof (deliver_event_same (dl_utc dl) (dl_ns dl) r) as Hsame.
  destruct (deliver_event _ _ r) as [outcome r']. cbn in Hsame.
  assert (grows d (update_record i (λ _, r') d)) as Hup.
  { apply grows_update. intros r0 Hr0. rewrite Hr in Hr0. by injection Hr0 as <-. }
  destruct (is_ok outcome); [by apply Hack|done].
Qed.

Lemma grows_callbacks json_loads dls d : grows d (run_callbacks json_loads dls d).
Proof.
  revert d. induction dls as [|dl dls IH]; intros d; [done|]. cbn. etrans; [apply grows_callback|apply IH].
Qed.

(** ** Triples over what grows *)

Class Stable (P : direction → Prop) : Prop := stable : ∀ d d', grows d d' → P d → P d'.

#[export] Instance stable_pure (P : Prop) : Stable (λ _, P).
Proof. by intros d d' _ ?. Qed.
#[export] Instance stable_and P Q : Stable P → Stable Q → Stable (λ d, P d ∧ Q d).
Proof. intros HP HQ d d' Hd [? ?]. split; [by eapply HP|by eapply HQ]. Qed.
#[export] Instance stable_all {A} (P : A → direction → Prop) : (∀ a, Stable (P a)) → Stable (λ d, ∀ a, P a d).
Proof. intros HP d d' Hd H a. by eapply HP. Qed.
#[export] Instance stable_failed : Stable (λ d, d_failures d ≠ []).
Proof. intros d d' [_ [l Hl]] Hne Hnil. rewrite Hl in Hnil. by apply app_eq_nil in Hnil as [? _]. Qed.
#[export] Instance stable_or P Q : Stable P → Stable Q → Stable (λ d, P d ∨ Q d).
Proof. intros HP HQ d d' Hd [?|?]; [left; by eapply HP|right; by eapply HQ]. Qed.
#[export] Instance stable_ex {A} (P : A → direction → Prop) : (∀ a, Stable (P a)) → Stable (λ d, ∃ a, P a d).
Proof. intros HP d d' Hd [a Ha]. exists a. by eapply HP. Qed.
#[export] Instance stable_Forall2 {A B} (P : A → B → direction → Prop) la lb :
  (∀ a b, Stable (P a b)) → Stable (λ d, Forall2 (λ a b, P a b d) la lb).
Proof. intros HP d d' Hd H. eapply Forall2_impl; [exact H|]. intros a b. by apply HP. Qed.

Section triples.
Context {W : Type} (env : ∀ X, directionE X → direction → W → X * W).
Abbreviation h := (direction_handle env).
Definition rely (s s' : direction * W) : Prop := grows s.1 s'.1.
#[local] Instance rely_preorder : PreOrder rely.
Proof. split; [intros s; unfold rely; reflexivity|]. intros s1 s2 s3 H12 H23. unfold rely in *. by etrans. Qed.

(** From records at least those of [P]: whatever the environment answers and
    the other tasks do, [p] only lets the records grow, and a return
    establishes [Q]. *)
Definition triple {A} (P : direction → Prop) (p : task A) (Q : A → direction → Prop) : Prop :=
  ∀ s, P s.1 → safe h rely rely (λ a s, Q a s.1) p s.

Lemma triple_return {A} P (a : A) (Q : A → direction → Prop) : (∀ d, P d → Q a d) → triple P (Ret a) Q.
Proof. intros HQ s HP. by apply HQ. Qed.
Lemma triple_throw {A} P e Q : triple P (Throw e : task A) Q.
Proof. done. Qed.
Lemma triple_lift {A} P (m : res A) : triple P (lift m) (λ a d, P d ∧ m = Ok a).
Proof. intros s HP. by destruct m. Qed.

Lemma triple_conseq {A} (P P' : direction → Prop) (Q Q' : A → direction → Prop) p :
  triple P p Q → (∀ d, P' d → P d) → (∀ a d, Q a d → Q' a d) → triple P' p Q'.
Proof. intros Hp HP HQ s Hs. eapply safe_weaken; [|by apply Hp, HP]. intros a s'. apply HQ. Qed.

Lemma triple_bind {A B} P (Q : A → direction → Prop) (Q' : B → direction → Prop) p f :
  triple P p Q → (∀ a, triple (Q a) (f a) Q') → triple P (p ≫= f) Q'.
Proof. intros Hp Hf s Hs. eapply safe_bind; [by apply Hp|]. intros a s' Ha. by apply Hf. Qed.

Lemma triple_section {A} P (Q : A → direction → Prop) (f : direction → A * direction) :
  Stable P → (∀ d, grows d (f d).2) → (∀ d, P d → Q (f d).1 (f d).2) → triple P (section f) Q.
Proof.
  intros HP Hf HQ s Hs s1 Hs1. split; [apply Hf|]. cbn. apply HQ. by eapply HP.
Qed.

Lemma triple_perform {X} P (op : directionE X) :
  Stable P → match op with Section _ => False | _ => True end → triple P (perform op) (λ _, P).
Proof. intros HP Hop s Hs s1 Hs1. destruct op; try done; (split; [by unfold rely|]); cbn; by eapply HP. Qed.

Lemma triple_await {A} json_loads P (w : wait A) : Stable P → triple P (await json_loads w) (λ _, P).
Proof.
  intros HP. eapply triple_bind; [by apply triple_perform|]. intros [dls r]. eapply triple_bind.
  - apply (triple_section _ (λ _, P)); [done|intros d; apply grows_callbacks|].
    intros d Hd. eapply HP; [|exact Hd]. apply grows_callbacks.
  - intros u. eapply triple_conseq; [apply triple_lift|done|]. by intros a d [].
Qed.

Lemma triple_try {A} P (Q : A → direction → Prop) p : Stable P → triple P p Q →
  triple P (prog_try p) (λ r d, P d ∧ match r with Ok a => Q a d | Raise _ => True end).
Proof.
  intros HP Hp s Hs. specialize (Hp s Hs). revert s Hs Hp.
  induction p as [a|e|X op k IH]; intros s Hs Hp; [by split|by split|].
  intros s1 Hs1. destruct (Hp s1 Hs1) as [HG Hk]. split; [done|]. apply IH; [|done].
  eapply HP, HP; [exact HG|exact Hs1|done].
Qed.

Lemma triple_both {A B} P (QA : A → direction → Prop) (QB : B → direction → Prop) p q :
  (∀ a, Stable (QA a)) → (∀ b, Stable (QB b)) → triple P p QA → triple P q QB →
  triple P (both Pick p q) (λ ab d, QA ab.1 d ∧ QB ab.2 d).
Proof.
  intros HA HB Hp Hq s Hs.
  apply (safe_both Pick h rely rely (λ s s' H, H) (λ s, reflexivity s.1) (λ a s, QA a s.1) (λ b s, QB b s.1)).
  - intros a s1 s2 H12. by apply HA.
  - intros b s1 s2 H12. by apply HB.
  - by apply Hp.
  - by apply Hq.
Qed.

Lemma triple_gather {A} P (Qs : list (A → direction → Prop)) ps :
  Forall (λ Q, ∀ a, Stable (Q a)) Qs → Forall2 (λ Q p, triple P p Q) Qs ps →
  triple P (gather Pick ps) (λ l d, Forall2 (λ Q a, Q a d) Qs l).
Proof.
  intros Hstable Hps s Hs.
  pose proof (safe_gather Pick h rely rely (λ s s' H, H) (λ s, reflexivity s.1)
    ((λ Q a (s : direction * W), Q a s.1) <$> Qs) ps s) as Hg.
  eapply safe_weaken; [|apply Hg].
  - intros l s' Hl. by apply Forall2_fmap_l in Hl.
  - apply Forall_fmap. eapply Forall_impl; [exact Hstable|]. intros Q HQ a s1 s2 H12. by apply HQ.
  - apply Forall2_fmap_l. eapply Forall2_impl; [exact Hps|]. intros Q q Hq. by apply Hq.
Qed.

(** What held before a task holds after it. *)
Lemma triple_frame {A} P R (Q : A → direction → Prop) p :
  Stable P → triple R p Q → triple (λ d, P d ∧ R d) p (λ a d, P d ∧ Q a d).
Proof.
  intros HP Hp s [Hs HR]. specialize (Hp s HR). clear HR. revert s Hs Hp.
  induction p as [a|e|X op k IH]; intros s Hs Hp; [by split|done|].
  intros s1 Hs1. destruct (Hp s1 Hs1) as [HG Hk]. split; [done|]. apply IH; [|done].
  eapply HP, HP; [exact HG|exact Hs1|done].
Qed.

Lemma triple_keep {A} P (Q : A → direction → Prop) p :
  Stable P → triple (λ _, True) p Q → triple P p (λ a d, P d ∧ Q a d).
Proof. intros HP Hp. eapply triple_conseq; [by apply (triple_frame P)|done|done]. Qed.

(** ** Tasks that establish nothing *)

Definition quiet {A} (p : task A) : Prop := triple (λ _, True) p (λ _ _, True).

Lemma hush_bind {A B} (p : task A) (f : A → task B) : quiet p → (∀ a, quiet (f a)) → quiet (p ≫= f).
Proof. intros Hp Hf. by eapply triple_bind. Qed.
Lemma hush_try {A} (p : task A) : quiet p → quiet (prog_try p).
Proof.
  intros Hp. eapply triple_conseq; [apply (triple_try (λ _, True) (λ _ _, True) p); [apply _|exact Hp]|done|done].
Qed.
Lemma hush_ret {A} (a : A) : quiet (Ret a).
Proof. done. Qed.
Lemma hush_throw {A} e : quiet (Throw e : task A).
Proof. done. Qed.
Lemma hush_lift {A} (m : res A) : quiet (lift m).
Proof. by destruct m. Qed.
Lemma hush_perform {X} (op : directionE X) : match op with Section _ => False | _ => True end → quiet (perform op).
Proof. intros Hop. by eapply triple_conseq; [apply (triple_perform (λ _, True))|..]. Qed.
Lemma hush_section {A} (f : direction → A * direction) : (∀ d, grows d (f d).2) → quiet (section f).
Proof. intros Hf. apply triple_section; [apply _|done|done]. Qed.
Lemma hush_await {A} json_loads (w : wait A) : quiet (await json_loads w).
Proof. by apply (triple_await json_loads (λ _, True)). Qed.
Lemma hush_both {A B} (p : task A) (q : task B) : quiet p → quiet q → quiet (both Pick p q).
Proof.
  intros Hp Hq. eapply triple_conseq; [apply (triple_both (λ _, True) (λ _ _, True) (λ _ _, True) p q)|done|done].
  - intros a. apply _.
  - intros b. apply _.
  - exact Hp.
  - exact Hq.
Qed.
End triples.

(** Quiet tasks, one construct at a time. *)
Ltac quiet_step :=
  lazymatch goal with
  | |- quiet _ (_ ≫= _) => apply hush_bind; [|intros ?]
  | |- quiet _ (prog_try _) => apply hush_try
  | |- quiet _ (both Pick _ _) => apply hush_both
  | |- quiet _ (Ret _) => apply hush_ret
  | |- quiet _ (Throw _) => apply hush_throw
  | |- quiet _ (lift _) => apply hush_lift
  | |- quiet _ (await _ _) => apply hush_await
  | |- quiet _ (perform _) => by apply hush_perform
  | |- quiet _ (section (λ d, (tt, add_failures _ _))) => apply hush_section; intros ?; apply grows_add_failures
  | |- quiet _ (section _) => apply hush_section; intros ?d; try reflexivity; try by apply grows_same
  | |- quiet _ (match ?x with _ => _ end) => destruct x
  end.
Ltac quiet := repeat quiet_step.

Section tasks.
Context {W : Type} (env : ∀ X, directionE X → direction → W → X * W).
Context (json_loads : string → res pyval) (p : plan).
Abbreviation quiet := (quiet env).

Lemma quiet_publish s subject payload hook : quiet hook → quiet (publish json_loads s subject payload hook).
Proof. intros Hhook. unfold publish. quiet. done. Qed.

Lemma quiet_js_request s subject payload timeout hook : quiet hook → quiet (js_request json_loads s subject payload timeout hook).
Proof. intros Hhook. unfold js_request. quiet. done. Qed.

Lemma quiet_stream_info s name : quiet (stream_info json_loads s name).
Proof. unfold stream_info. apply quiet_js_request. exact (hush_ret env tt). Qed.

Lemma quiet_mark_sent i : quiet (mark_sent i).
Proof. unfold mark_sent. quiet. by apply grows_update. Qed.

Lemma quiet_record_ack i ns response : quiet (record_ack i ns response).
Proof.
  unfold record_ack. quiet.
  - cbn. destruct (milliseconds _); [by apply grows_update|done].
  - by apply grows_update.
Qed.

Lemma quiet_pause : quiet (pause json_loads p).
Proof. unfold pause. quiet. Qed.

Lemma quiet_wait_changes fuel batch label deadline : quiet (wait_changes json_loads fuel batch label deadline).
Proof. induction fuel as [|fuel IH]; cbn [wait_changes]; unfold report_missing; quiet; exact IH. Qed.

Lemma quiet_wait_delivered fuel batch label : quiet (wait_delivered json_loads p fuel batch label).
Proof. unfold wait_delivered. quiet. apply quiet_wait_changes. Qed.

Lemma quiet_or_timeout {A} message (q : task A) : quiet q → quiet (or_timeout message q).
Proof. intros Hq. unfold or_timeout. quiet. done. Qed.

Lemma quiet_poll fuel stream replicas deadline : quiet (poll_replication json_loads p fuel stream replicas deadline).
Proof.
  induction fuel as [|fuel IH]; cbn [poll_replication]; unfold not_ready; quiet; try exact IH.
  apply quiet_stream_info.
Qed.

Lemma quiet_ready fuel stream replicas : quiet (wait_replication_ready json_loads p fuel stream replicas).
Proof. unfold wait_replication_ready. quiet. apply quiet_poll. Qed.

Lemma quiet_warm_core tries : quiet (warm_core json_loads p tries).
Proof. induction tries as [|n IH]; cbn [warm_core]; quiet; try exact IH. by apply quiet_publish, hush_ret. Qed.

Lemma quiet_warm_js transport message : quiet (warm_js json_loads p transport message).
Proof. unfold warm_js. quiet; [by apply quiet_js_request, hush_ret|]. apply quiet_or_timeout, hush_await. Qed.

Lemma quiet_warm_up : quiet (warm_up json_loads p).
Proof. unfold warm_up. quiet; [apply quiet_warm_core|apply quiet_warm_js..]. Qed.

Lemma quiet_set_up fuel : quiet (set_up json_loads p fuel).
Proof.
  unfold set_up, subscribe, make_stream, create_stream, create_push_consumer. quiet;
    first [by apply quiet_js_request, hush_ret|apply quiet_ready|apply quiet_warm_up].
Qed.

Lemma quiet_restart ns : quiet (restart_destination_after_drop json_loads p ns).
Proof. unfold restart_destination_after_drop, assertion. quiet. apply quiet_or_timeout, hush_await. Qed.

Lemma quiet_drop : quiet (drop_connection json_loads p).
Proof. unfold drop_connection, assertion. quiet. apply quiet_or_timeout, hush_await. Qed.

(** ** Publications *)

(** The record at [i] is that of an event. *)
Definition at_place (phase transport : string) (index : Z) (i : nat) (d : direction) : Prop :=
  ∃ r, d_records d !! i = Some r ∧ er_phase r = phase ∧ er_transport r = transport ∧
    er_event_id r = event_id p phase transport index.

#[export] Instance stable_at_place phase transport index i : Stable (at_place phase transport index i).
Proof.
  intros d d' [Hd _] (r & Hr & Hp & Ht & Hid). destruct (Hd i r Hr) as (r' & Hr' & Hp' & Ht' & Hid' & _).
  exists r'. split_and!; congruence.
Qed.

Definition batch_of (phase transport : string) (indexes : list Z) (batch : list nat) (d : direction) : Prop :=
  Forall2 (λ index i, at_place phase transport index i d) indexes batch.
#[export] Instance stable_batch phase transport indexes batch : Stable (batch_of phase transport indexes batch).
Proof. unfold batch_of. apply _. Qed.

Lemma triple_new_record phase transport index :
  triple env (λ _, True) (section (new_record p phase transport index)) (λ record, at_place phase transport index record.1).
Proof.
  apply triple_section; [apply _|intros d; apply grows_new_record|]. intros d _. cbn.
  eexists. split; [by apply list_lookup_middle|done].
Qed.

Lemma triple_then {A B} P (Q : A → direction → Prop) (q : task B) (f : B → task A) :
  Stable P → quiet q → (∀ b, triple env P (f b) Q) → triple env P (q ≫= f) Q.
Proof.
  intros HP Hq Hf. eapply triple_bind; [by apply triple_keep|]. intros b. eapply triple_conseq; [apply Hf| |done].
  by intros d [].
Qed.

Lemma triple_last {B} P (Q : B → direction → Prop) (q : task B) :
  Stable P → quiet q → (∀ b d, P d → Q b d) → triple env P q Q.
Proof. intros HP Hq HQ. eapply triple_conseq; [by apply triple_keep|done|]. intros b d [Hd _]. by apply HQ. Qed.

Lemma publish_one_js_places phase transport subject index :
  triple env (λ _, True) (publish_one_js json_loads p phase transport subject index) (at_place phase transport index).
Proof.
  unfold publish_one_js. eapply triple_bind; [apply triple_new_record|]. intros record.
  apply triple_then; [apply _|apply quiet_js_request, quiet_mark_sent|intros response].
  apply triple_then; [apply _|by apply hush_perform|intros ns].
  apply triple_then; [apply _|apply quiet_record_ack|intros _].
  by apply triple_return.
Qed.

Lemma publish_core_from_places phase n index :
  triple env (λ _, True) (publish_core_from json_loads p phase n index) (batch_of phase "core" (seqZ index (Z.of_nat n))).
Proof.
  revert index. induction n as [|n IH]; intros index; cbn [publish_core_from].
  { intros s _. constructor. }
  rewrite seqZ_cons by lia. rewrite Nat2Z.inj_succ, Z.pred_succ.
  eapply triple_bind; [apply triple_new_record|]. intros record.
  apply triple_then; [apply _|apply quiet_publish, quiet_mark_sent|intros _].
  apply triple_then; [apply _|apply quiet_pause|intros _].
  eapply triple_bind; [apply triple_keep; [apply _|apply IH]|]. intros batch.
  apply triple_return. intros d [Hplace Hbatch]. by constructor.
Qed.

Lemma publish_core_places phase : (0 ≤ p_events p)%Z →
  triple env (λ _, True) (publish_core json_loads p phase) (batch_of phase "core" (indexes p)).
Proof.
  intros He. unfold publish_core, indexes. eapply triple_bind; [apply publish_core_from_places|]. intros batch.
  rewrite Z2Nat.id by done. apply triple_then; [apply _|apply hush_await|intros _].
  by apply triple_return.
Qed.

Lemma publish_pipelined_places phase transport subject :
  triple env (λ _, True) (publish_js_pipelined json_loads p phase transport subject) (batch_of phase transport (indexes p)).
Proof.
  unfold publish_js_pipelined. apply triple_then; [apply _|by apply hush_perform|intros started].
  eapply triple_conseq; [apply (triple_gather env (λ _, True) (at_place phase transport <$> indexes p))| |].
  - apply Forall_fmap, Forall_forall. intros index _ i. apply _.
  - apply Forall2_fmap, Forall_Forall2_diag, Forall_forall. intros index _. unfold publish_at.
    apply triple_then; [apply _|apply hush_lift|intros position].
    apply triple_then; [apply _|by apply hush_perform|intros now].
    apply triple_then; [apply _|quiet|intros _]. apply publish_one_js_places.
  - done.
  - intros batch d Hd. by apply Forall2_fmap_l in Hd.
Qed.

Definition pair_at (phase : string) (index : Z) (pair : nat * nat) (d : direction) : Prop :=
  at_place phase "jetstream_r1" index pair.1 d ∧ at_place phase "jetstream_r3" index pair.2 d.

Lemma publish_pair_places phase index :
  triple env (λ _, True) (publish_pair json_loads p phase index) (pair_at phase index).
Proof.
  unfold publish_pair. destruct (Z.even index).
  all: eapply triple_bind; [apply publish_one_js_places|]; intros a.
  all: eapply triple_bind; [apply triple_keep; [apply _|apply publish_one_js_places]|]; intros b.
  all: apply triple_return; intros d [Ha Hb]; by split.
Qed.

Lemma publish_pairs_places phase n index :
  triple env (λ _, True) (publish_pairs_from json_loads p phase n index)
    (λ pairs d, batch_of phase "jetstream_r1" (seqZ index (Z.of_nat n)) pairs.*1 d ∧
                batch_of phase "jetstream_r3" (seqZ index (Z.of_nat n)) pairs.*2 d).
Proof.
  revert index. induction n as [|n IH]; intros index; cbn [publish_pairs_from].
  { intros s _. by split; constructor. }
  rewrite seqZ_cons by lia. rewrite Nat2Z.inj_succ, Z.pred_succ.
  eapply triple_bind; [apply publish_pair_places|]. intros pair.
  apply triple_then; [apply stable_and; apply _|apply quiet_pause|intros _].
  eapply triple_bind; [apply triple_keep; [apply stable_and; apply _|apply IH]|]. intros pairs.
  apply triple_return. intros d [[H1 H3] [Hb1 Hb3]]. by split; constructor.
Qed.

Lemma publish_replication_pair_places phase : (0 ≤ p_events p)%Z →
  triple env (λ _, True) (publish_replication_pair json_loads p phase)
    (λ batches d, batch_of phase "jetstream_r1" (indexes p) batches.1 d ∧
                  batch_of phase "jetstream_r3" (indexes p) batches.2 d).
Proof.
  intros He. unfold publish_replication_pair, indexes. eapply triple_bind; [apply publish_pairs_places|].
  intros pairs. rewrite Z2Nat.id by done. by apply triple_return.
Qed.

(** Every event of the transport was published in the phase. *)
Definition published (phase transport : string) (d : direction) : Prop :=
  ∃ batch, batch_of phase transport (indexes p) batch d.
Definition phase_published (phase : string) (d : direction) : Prop :=
  published phase "core" d ∧ published phase "jetstream_r1" d ∧ published phase "jetstream_r3" d.
#[export] Instance stable_phase_published phase : Stable (phase_published phase).
Proof. unfold phase_published, published. apply _. Qed.

Lemma steady_phase_published fuel phase : (0 ≤ p_events p)%Z →
  triple env (λ _, True) (steady_phase json_loads p fuel phase) (λ _, phase_published phase).
Proof.
  intros He. unfold steady_phase. eapply triple_bind; [by apply publish_core_places|]. intros core.
  apply triple_then; [apply _|apply quiet_wait_delivered|intros _].
  eapply triple_bind; [apply triple_keep; [apply _|by apply publish_replication_pair_places]|]. intros batches.
  apply triple_then; [apply _|apply quiet_wait_delivered|intros _].
  apply triple_last; [apply _|apply quiet_wait_delivered|]. intros _ d [Hcore [H1 H3]]. split_and!; by eexists.
Qed.

(** The places of both batches of the outage. *)
Definition outage_at (batches : list nat * list nat) (d : direction) : Prop :=
  batch_of "connection_drop" "core" (indexes p) batches.1 d ∧
  batch_of "connection_drop" "jetstream_r3" (indexes p) batches.2 d.
#[export] Instance stable_outage batches : Stable (outage_at batches).
Proof. unfold outage_at. apply _. Qed.

Lemma outage_places ns : (0 ≤ p_events p)%Z →
  triple env (λ _, True) (outage json_loads p ns) (λ outcome, outage_at outcome.2).
Proof.
  intros He. unfold outage.
  set (got := λ (r : res (list nat * list nat)) d, match r with Ok batches => outage_at batches d | Raise _ => True end).
  assert (∀ r, Stable (got r)) as Hgot by (intros []; [apply stable_outage|apply (stable_pure True)]).
  eapply triple_bind.
  { apply (triple_both env (λ _, True) (λ _ _, True) got); [apply _|exact Hgot|apply hush_try, quiet_restart|].
    eapply triple_conseq; [apply triple_try; [apply (stable_pure True)|]|done|].
    - apply (triple_both env _ (batch_of "connection_drop" "core" (indexes p))
        (batch_of "connection_drop" "jetstream_r3" (indexes p))); try apply _.
      + by apply publish_core_places.
      + apply publish_pipelined_places.
    - by intros [batches|e] d [_ H]. }
  intros [restarted outcome]. cbn [fst snd].
  eapply triple_bind; [apply triple_lift|]. intros batches. eapply triple_bind; [apply triple_lift|]. intros times.
  apply triple_return. intros d [[[_ H] ->] _]. exact H.
Qed.

(** ** The verdict *)

(** An event was published and arrived. *)
Definition received (d : direction) (phase transport : string) (index : Z) : Prop :=
  ∃ r, r ∈ d_records d ∧ er_event_id r = event_id p phase transport index ∧ delivered r = true.

(** What a run without failures says: of the records of the direction, and in
    its document. *)
Record passed (d : direction) (rr : run_result) : Prop := {
  ps_steady : ∀ phase transport index, phase ∈ phases → transport ∈ transports → index ∈ indexes p →
    received d phase transport index;
  ps_outage : ∀ index, index ∈ indexes p → received d "connection_drop" "jetstream_r3" index;
  ps_core : dr_core_published (rr_connection_drop rr) = p_events p ∧
    dr_core_published_before (rr_connection_drop rr) = p_events p ∧
    (dr_core_delivered (rr_connection_drop rr) + dr_core_lost (rr_connection_drop rr) = p_events p)%Z;
  ps_js : dr_js_published (rr_connection_drop rr) = p_events p ∧
    dr_js_published_before (rr_connection_drop rr) = p_events p ∧
    dr_js_recovered (rr_connection_drop rr) = p_events p ∧ dr_js_missing (rr_connection_drop rr) = 0%Z;
  ps_health : Forall (λ h, h_healthy h = true)
    [fi_r1_source (rr_findings rr); fi_r1_destination (rr_findings rr);
     fi_r3_source (rr_findings rr); fi_r3_destination (rr_findings rr)];
}.

Lemma sorted_set_nil l : sorted_set l = [] → l = [].
Proof.
  unfold sorted_set. intros Hnil. destruct l as [|x l]; [done|].
  assert (x ∈ sorted_strings (list_to_set (x :: l))) as Hx by (apply sorted_strings_elem; set_solver).
  rewrite Hnil in Hx. by apply not_elem_of_nil in Hx.
Qed.

Lemma undelivered_nil rs : count (undelivered rs) = 0%Z → ∀ r, r ∈ rs → delivered r = true.
Proof.
  intros Hn r Hr. destruct (delivered r) eqn:Hd; [done|].
  assert (r ∈ undelivered rs) as Hin by (by apply list_elem_of_filter).
  unfold count in Hn. destruct (undelivered rs); [by apply not_elem_of_nil in Hin|done].
Qed.

Lemma when_missing_nil n message : when_missing n message = [] → n = 0%Z.
Proof. unfold when_missing. case_match; [by intros _; apply Z.eqb_eq|done]. Qed.

Lemma at_place_received phase transport index i d :
  at_place phase transport index i d → count (undelivered (matching phase transport d)) = 0%Z →
  received d phase transport index.
Proof.
  intros (r & Hr & Hp & Ht & Hid) Hn. exists r. split_and!; [by eapply list_elem_of_lookup_2|done|].
  apply (undelivered_nil _ Hn). apply list_elem_of_filter. split; [done|]. by eapply list_elem_of_lookup_2.
Qed.

Lemma published_received phase transport index d :
  published phase transport d → count (undelivered (matching phase transport d)) = 0%Z → index ∈ indexes p →
  received d phase transport index.
Proof.
  intros [batch Hbatch] Hn Hindex. apply list_elem_of_lookup in Hindex as [k Hk].
  destruct (Forall2_lookup_l _ _ _ _ _ Hbatch Hk) as (i & _ & Hi). by eapply at_place_received.
Qed.

Lemma batch_records phase transport indexes batch d : batch_of phase transport indexes batch d →
  length (records_at batch d) = length indexes ∧ length batch = length indexes.
Proof.
  induction 1 as [|index i indexes batch (r & Hr & _) Hbatch IH]; [done|].
  unfold records_at in *. cbn. rewrite Hr. cbn. lia.
Qed.

Lemma batch_received phase transport indexes batch d index :
  batch_of phase transport indexes batch d → count (undelivered (records_at batch d)) = 0%Z → index ∈ indexes →
  received d phase transport index.
Proof.
  intros Hbatch Hn Hindex. apply list_elem_of_lookup in Hindex as [k Hk].
  destruct (Forall2_lookup_l _ _ _ _ _ Hbatch Hk) as (i & Hi & r & Hr & Hp & Ht & Hid).
  exists r. split_and!; [by eapply list_elem_of_lookup_2|done|]. apply (undelivered_nil _ Hn).
  apply list_elem_of_omap. exists i. split; [by eapply list_elem_of_lookup_2|done].
Qed.

Lemma delivered_split rs : (count (filter (λ r, delivered r = true) rs) + count (undelivered rs) = count rs)%Z.
Proof.
  unfold count, undelivered. induction rs as [|r rs IH]; [done|]. rewrite !filter_cons.
  destruct (delivered r); cbn [length decide_rel]; repeat case_decide; try done; cbn [length]; lia.
Qed.

(** What the end of the run knows of the records. *)
Record knows (core js : list nat) (after : Z * Z) (d : direction) : Prop := {
  kn_baseline : phase_published "baseline" d;
  kn_recovery : phase_published "recovery" d;
  kn_outage : outage_at (core, js) d;
  kn_after : after = (0, 0)%Z ∨ d_failures d ≠ [];
}.

Lemma phase_failures_nil events d : phase_failures events d = [] →
  ∀ phase transport, phase ∈ phases → transport ∈ transports → count (undelivered (matching phase transport d)) = 0%Z.
Proof.
  intros Hnil phase transport Hphase Htransport. unfold phase_failures in Hnil.
  assert (∀ x, x ∉ phases ≫= λ phase, transports ≫= λ transport,
    when_missing (count (undelivered (matching phase transport d)))
      (phase +:+ " " +:+ transport +:+ ": " +:+ ratio (count (undelivered (matching phase transport d))) events +:+ " missing")) as Hnone.
  { intros x Hx. rewrite Hnil in Hx. by apply not_elem_of_nil in Hx. }
  eapply when_missing_nil. apply elem_of_nil_inv. intros x Hx. apply (Hnone x).
  apply list_elem_of_bind. exists phase. split; [|done]. apply list_elem_of_bind. exists transport. by split.
Qed.

Lemma health_failures_nil f : health_failures f = [] →
  Forall (λ h, h_healthy h = true) [fi_r1_source f; fi_r1_destination f; fi_r3_source f; fi_r3_destination f].
Proof.
  unfold health_failures. intros H. destruct (h_healthy (fi_r1_source f)) eqn:H1; [|done].
  destruct (h_healthy (fi_r1_destination f)) eqn:H2; [|done]. destruct (h_healthy (fi_r3_source f)) eqn:H3; [|done].
  destruct (h_healthy (fi_r3_destination f)) eqn:H4; [|done]. by repeat constructor.
Qed.

Lemma verdict_passed f d rr :
  (0 ≤ p_events p)%Z → knows (fi_outage_core f) (fi_outage_js f) (fi_core_after f, fi_js_after f) d →
  build_result p f (add_failures (final_failures (p_events p) f d) d) = Ok rr → rr_failures rr = [] →
  passed (add_failures (final_failures (p_events p) f d) d) rr.
Proof.
  intros He [Hbase Hrec [Hcore Hjs] Hafter] Hbuild Hfail. unfold build_result in Hbuild.
  apply res_bind_ok in Hbuild as (latency & _ & Hbuild). apply res_bind_ok in Hbuild as (drop & Hdrop & Hbuild).
  injection Hbuild as <-. cbn [rr_failures] in Hfail. apply sorted_set_nil, app_eq_nil in Hfail as [Hnone Hfinal].
  apply app_eq_nil in Hfinal as [Hhealth Hfinal]. apply app_eq_nil in Hfinal as [Hphases Houtage].
  destruct Hafter as [[= Ha Hb]|Hbad]; [|by destruct Hbad].
  apply when_missing_nil in Houtage. pose proof (phase_failures_nil _ _ Hphases) as Hp.
  destruct (batch_records _ _ _ _ _ Hcore) as [Hcr Hcl]. destruct (batch_records _ _ _ _ _ Hjs) as [Hjr Hjl].
  cbn [fst snd] in *. unfold indexes in Hcl, Hjl, Hcr, Hjr. rewrite length_seqZ in *.
  unfold drop_report_of in Hdrop.
  change (records_at ?b (add_failures ?l d)) with (records_at b d) in Hdrop. res_inv. cbn [rr_connection_drop rr_findings] in *.
  split; cbn [rr_connection_drop rr_findings dr_core_published dr_core_published_before dr_core_delivered
    dr_core_lost dr_js_published dr_js_published_before dr_js_recovered dr_js_missing].
  - intros phase transport index Hphase Htransport Hindex. apply (published_received phase transport index d); [|by apply Hp|done].
    assert (phase_published phase d) as (H0 & H1 & H3).
    { unfold phases in Hphase. rewrite !elem_of_cons in Hphase. destruct Hphase as [->|[->|[]%not_elem_of_nil]]; done. }
    unfold transports in Htransport. rewrite !elem_of_cons in Htransport.
    by destruct Htransport as [->|[->|[->|[]%not_elem_of_nil]]].
  - intros index Hindex. exact (batch_received _ _ _ _ d index Hjs Houtage Hindex).
  - rewrite Ha, Hcl. split_and!; [lia..|].
    pose proof (delivered_split (records_at (fi_outage_core f) d)) as Hsplit. unfold count in *. rewrite Hcr in Hsplit. lia.
  - rewrite Hb, Hjl. split_and!; [lia..| |exact Houtage].
    pose proof (delivered_split (records_at (fi_outage_js f) d)) as Hsplit. unfold count in *. rewrite Hjr in Hsplit. lia.
  - by apply health_failures_nil.
Qed.

Lemma overran_after restart core js d :
  (overran restart core js d).1 = (0, 0)%Z ∨ d_failures (overran restart core js d).2 ≠ [].
Proof.
  unfold overran. cbn [fst snd]. destruct (_ =? 0)%Z eqn:Ha, (sent_after _ (records_at js d) =? 0)%Z eqn:Hb; cbn [andb].
  - apply Z.eqb_eq in Ha, Hb. left. congruence.
  - right. cbn. by destruct (d_failures d).
  - right. cbn. by destruct (d_failures d).
  - right. cbn. by destruct (d_failures d).
Qed.

Lemma direction_run_passed fuel : (0 ≤ p_events p)%Z →
  triple env (λ _, True) (direction_run json_loads p fuel) (λ rr d, rr_failures rr = [] → passed d rr).
Proof.
  intros He. unfold direction_run.
  apply triple_then; [apply _|apply quiet_set_up|intros initial].
  eapply triple_bind; [by apply steady_phase_published|intros ?].
  apply triple_then; [apply _|apply quiet_drop|intros [drop_started disconnected]].
  eapply triple_bind; [apply triple_keep; [apply _|by apply outage_places]|].
  intros [[restart_started reconnected] [core js]]. cbn [fst snd].
  eapply triple_bind; [apply triple_keep; [apply _|apply (triple_section env (λ _, True)
    (λ after d, after = (0, 0)%Z ∨ d_failures d ≠ []))]|].
  { apply _. }
  { intros d. unfold overran. cbn [snd]. case_match; [done|apply grows_add_failures]. }
  { intros d _. apply overran_after. }
  intros after. do 3 (apply triple_then; [apply _|first [apply quiet_wait_delivered|quiet]|intros ?]).
  apply triple_then; [apply _|quiet|intros times].
  eapply triple_bind; [apply triple_keep; [apply _|by apply steady_phase_published]|intros ?].
  apply triple_then; [apply _|by apply hush_perform|intros started].
  apply triple_then; [apply _|apply quiet_ready|intros _].
  apply triple_then; [apply _|by apply hush_perform|intros now].
  apply triple_then; [apply _|apply hush_lift|intros convergence].
  apply triple_then; [apply _|quiet; apply quiet_stream_info|intros infos].
  do 4 (apply triple_then; [apply _|apply hush_lift|intros ?]).
  eapply triple_bind; [apply (triple_section _ _ (λ result d, ∀ rr, result = Ok rr → rr_failures rr = [] → passed d rr))|].
  - apply _.
  - intros d. apply grows_add_failures.
  - intros d [[[Hbase Hout] Hafter] Hrec] rr Hrr.
    destruct after as [core_after js_after]. apply verdict_passed; [exact He|by split|exact Hrr].
  - intros result. eapply triple_conseq; [apply triple_lift|exact (λ d H, H)|]. intros rr d [H ->]. by apply H.
Qed.
End tasks.

(** C16: A direction that passes measured what it says.  Against any network,
    clock and order of its tasks and callbacks, a run that ends without
    failures published all its events on every transport, and each event of
    the steady phases and each JetStream event of the outage arrived; both
    batches of the outage were sent before the tunnel restarted, the document
    counts them so, and all four views of the streams are healthy. *)
Theorem passing_direction {W} (env : ∀ X, directionE X → direction → W → X * W) json_loads p fuel w0 d w rr :
  (0 ≤ p_events p)%Z →
  run (direction_handle env) (direction_run json_loads p fuel) (new_direction, w0) = (Ok rr, (d, w)) →
  rr_failures rr = [] → passed p d rr.
Proof.
  intros He Hrun Hfail.
  apply (safe_run (direction_handle env) rely rely (λ rr s, rr_failures rr = [] → passed p s.1 rr) _ _ _ _
    (λ s, reflexivity s.1) (direction_run_passed env json_loads p fuel He (new_direction, w0) I) Hrun Hfail).
Qed.

Lemma demo_run_ok : ∃ rr d w, demo_run = (Ok rr, (d, w)) ∧ rr_failures rr = [].
Proof.
  pose proof demo_run_result as H. destruct demo_run as [[rr|e] [d w]].
  - exists rr, d, w. split; [done|]. by injection H.
  - discriminate H.
Qed.

Lemma passing_direction_witness :
  ∃ rr d w, demo_run = (Ok rr, (d, w)) ∧ passed demo_plan d rr.
Proof.
  destruct demo_run_ok as (rr & d & w & Hrun & Hfail). exists rr, d, w. split; [exact Hrun|].
  assert (0 ≤ p_events demo_plan)%Z as He by (vm_compute; discriminate).
  exact (passing_direction demo_env demo_loads demo_plan 5 0%Z d w rr He Hrun Hfail).
Defined.

(** ** Deliveries *)

Section deliveries.
Context (json_loads : string → res pyval).

(** The event a callback looks up. *)
Definition event_named (dl : delivery) : option string :=
  if String.eqb (dl_transport dl) "jetstream_r3" && bool_decide (m_status (dl_message dl) ≠ None) then None else
  match json_loads (m_data (dl_message dl)) with
  | Ok event =>
      match event_of event with
      | PStr id => if String.eqb id ("warm/" +:+ dl_transport dl) then None else Some id
      | _ => None
      end
  | Raise _ => None
  end.

(** The reply subject a callback acknowledges on: only messages of the durable
    stream are acknowledged, those that are not JSON included. *)
Definition acknowledged (dl : delivery) : list string :=
  if negb (String.eqb (dl_transport dl) "jetstream_r3") || bool_decide (m_status (dl_message dl) ≠ None) then [] else
  match json_loads (m_data (dl_message dl)) with
  | Ok _ | Raise (JSONDecodeError _) =>
      if String.eqb (m_reply (dl_message dl)) "" then [] else [m_reply (dl_message dl)]
  | Raise _ => []
  end.

(** The dictionary and the list hold the same records. *)
Record ids_ok (d : direction) : Prop := {
  id_lookup : ∀ id i, alist_get id (d_by_id d) = Some i → ∃ r, d_records d !! i = Some r ∧ er_event_id r = id;
  id_record : ∀ i r, d_records d !! i = Some r → alist_get (er_event_id r) (d_by_id d) = Some i;
}.

(** Latencies of the size of a float. *)
Definition clocks_ok (dls : list delivery) (d : direction) : Prop :=
  ∀ i r dl, d_records d !! i = Some r → dl ∈ dls → is_ok (milliseconds (dl_ns dl - er_sent_ns r)) = true.

(** A record after the deliveries of its event. *)
Definition after_delivery (r : event_record) (dl : delivery) : event_record :=
  (deliver_event (dl_utc dl) (dl_ns dl) r).2.

Definition arrivals (id : string) (dls : list delivery) : list delivery :=
  filter (λ dl, event_named dl = Some id) dls.

Lemma deliver_event_kept utc ns r :
  er_sent_ns (deliver_event utc ns r).2 = er_sent_ns r ∧ er_event_id (deliver_event utc ns r).2 = er_event_id r.
Proof. unfold deliver_event. destruct (delivered r); [done|]. by destruct (milliseconds _). Qed.

Lemma deliver_event_ok utc ns r : is_ok (milliseconds (ns - er_sent_ns r)) = true → is_ok (deliver_event utc ns r).1 = true.
Proof. unfold deliver_event. intros H. destruct (delivered r); [done|]. by destruct (milliseconds _). Qed.

Lemma ack_step (b : bool) reply d :
  d_records (if b then add_ack reply d else d) = d_records d ∧ d_by_id (if b then add_ack reply d else d) = d_by_id d ∧
  d_acked (if b then add_ack reply d else d) = d_acked d ++ (if b then if String.eqb reply "" then [] else [reply] else []).
Proof. destruct b; [|by rewrite app_nil_r]. unfold add_ack. case_match; [by rewrite app_nil_r|done]. Qed.

(** What one callback does: the record it names moves on, the others stay, and
    its message is acknowledged. *)
Definition steps_to (dl : delivery) (d d' : direction) : Prop :=
  d_by_id d' = d_by_id d ∧
  (∀ i, d_records d' !! i =
     (λ r, if decide (event_named dl = Some (er_event_id r)) then after_delivery r dl else r) <$> d_records d !! i) ∧
  d_acked d' = d_acked d ++ acknowledged dl.

Lemma steps_to_ack dl d d0 reply :
  event_named dl = None → d_records d0 = d_records d → d_by_id d0 = d_by_id d → d_acked d0 = d_acked d →
  acknowledged dl = (if String.eqb (dl_transport dl) "jetstream_r3" then if String.eqb reply "" then [] else [reply] else []) →
  steps_to dl d (if String.eqb (dl_transport dl) "jetstream_r3" then add_ack reply d0 else d0).
Proof.
  intros Hname Hr Hi Ha Hack. destruct (ack_step (String.eqb (dl_transport dl) "jetstream_r3") reply d0) as (H1 & H2 & H3).
  split_and!; [by rewrite H2|intros i; rewrite H1, Hr|by rewrite H3, Ha, Hack].
  destruct (d_records d !! i) as [r|]; [|done]. cbn. by rewrite Hname, decide_False.
Qed.

Lemma steps_to_unchanged dl d : event_named dl = None → acknowledged dl = [] → steps_to dl d d.
Proof.
  intros Hname Hack. split_and!; [done|intros i|by rewrite Hack, app_nil_r].
  destruct (d_records d !! i) as [r|]; [|done]. cbn. by rewrite Hname, decide_False.
Qed.

Lemma steps_to_record dl d i r :
  ids_ok d → d_records d !! i = Some r → event_named dl = Some (er_event_id r) →
  acknowledged dl = (if String.eqb (dl_transport dl) "jetstream_r3" then
    if String.eqb (m_reply (dl_message dl)) "" then [] else [m_reply (dl_message dl)] else []) →
  steps_to dl d (if String.eqb (dl_transport dl) "jetstream_r3"
    then add_ack (m_reply (dl_message dl)) (update_record i (λ _, after_delivery r dl) d)
    else update_record i (λ _, after_delivery r dl) d).
Proof.
  intros [Hlook Hrec] Hr Hname Hack.
  destruct (ack_step (String.eqb (dl_transport dl) "jetstream_r3") (m_reply (dl_message dl))
    (update_record i (λ _, after_delivery r dl) d)) as (H1 & H2 & H3).
  split_and!; [by rewrite H2| |by rewrite H3, Hack].
  intros j. rewrite H1. cbn. destruct (decide (i = j)) as [<-|Hne].
  - rewrite list_lookup_alter_eq, Hr. cbn. by rewrite decide_True.
  - rewrite list_lookup_alter_ne by done. destruct (d_records d !! j) as [r'|] eqn:Hj; [|done]. cbn.
    rewrite decide_False; [done|]. rewrite Hname. intros [= Heq].
    pose proof (Hrec _ _ Hr) as Hi. rewrite Heq, (Hrec _ _ Hj) in Hi. congruence.
Qed.

Lemma callback_steps dl d : ids_ok d → clocks_ok [dl] d → steps_to dl d (run_callback json_loads dl d).
Proof.
  intros Hids Hclock. unfold run_callback.
  destruct (String.eqb (dl_transport dl) "jetstream_r3" && bool_decide (m_status (dl_message dl) ≠ None)) eqn:Hskip.
  { apply steps_to_unchanged; unfold event_named, acknowledged; [by rewrite Hskip|].
    apply andb_true_iff in Hskip as [-> ->]. done. }
  assert (acknowledged dl = match json_loads (m_data (dl_message dl)) with
    | Ok _ | Raise (JSONDecodeError _) => if String.eqb (dl_transport dl) "jetstream_r3" then
        if String.eqb (m_reply (dl_message dl)) "" then [] else [m_reply (dl_message dl)] else []
    | Raise _ => [] end) as Hack.
  { unfold acknowledged. destruct (String.eqb (dl_transport dl) _); cbn [negb orb andb] in *; [by rewrite Hskip|].
    by destruct (json_loads _) as [|[]]. }
  unfold record_delivery.
  assert (event_named dl = match json_loads (m_data (dl_message dl)) with
    | Ok event => match event_of event with
        | PStr id => if String.eqb id ("warm/" +:+ dl_transport dl) then None else Some id | _ => None end
    | Raise _ => None end) as Hname by (unfold event_named; by rewrite Hskip).
  destruct (json_loads _) as [event|[]]; try (by apply steps_to_unchanged); [|by apply steps_to_ack].
  destruct (event_of event) as [| | | |id| |]; try (by apply steps_to_ack).
  destruct (String.eqb id _) eqn:Hw; [by apply steps_to_ack|].
  destruct (alist_get id (d_by_id d)) as [i|] eqn:Hi.
  - destruct (id_lookup d Hids id i Hi) as (r & Hr & <-). rewrite Hr.
    pose proof (deliver_event_ok (dl_utc dl) (dl_ns dl) r (Hclock i r dl Hr ltac:(left))) as Hok.
    pose proof (steps_to_record dl d i r Hids Hr Hname Hack) as Hstep. unfold after_delivery in Hstep.
    destruct (deliver_event _ _ r) as [outcome r']. cbn [fst snd] in *. by rewrite Hok.
  - destruct (ack_step (String.eqb (dl_transport dl) "jetstream_r3") (m_reply (dl_message dl)) d) as (H1 & H2 & H3).
    split_and!; [by rewrite H2|intros i; rewrite H1|by rewrite H3, Hack].
    destruct (d_records d !! i) as [r|] eqn:Hr; [|done]. cbn. rewrite decide_False; [done|].
    rewrite Hname. intros [= ->]. by rewrite (id_record d Hids i r Hr) in Hi.
Qed.

Lemma steps_ids dl d d' : ids_ok d → steps_to dl d d' → ids_ok d'.
Proof.
  intros [Hlook Hrec] (Hi & Hr & _). split.
  - intros id i Hget. rewrite Hi in Hget. destruct (Hlook id i Hget) as (r & Hri & <-). rewrite Hr, Hri.
    eexists. split; [done|]. cbn. case_decide; [|done]. apply deliver_event_kept.
  - intros i r' Hr'. rewrite Hr in Hr'. apply fmap_Some in Hr' as (r & Hri & ->). rewrite Hi, <-(Hrec i r Hri).
    f_equal. case_decide; [|done]. apply deliver_event_kept.
Qed.

Lemma steps_clocks dl dls d d' : clocks_ok dls d → steps_to dl d d' → clocks_ok dls d'.
Proof.
  intros Hclock (_ & Hr & _) i r' dl' Hr' Hin. rewrite Hr in Hr'. apply fmap_Some in Hr' as (r & Hri & ->).
  pose proof (Hclock i r dl' Hri Hin) as Hok. case_decide; [|done].
  unfold after_delivery. by rewrite (proj1 (deliver_event_kept _ _ r)).
Qed.

Lemma callbacks_steps dls d : ids_ok d → clocks_ok dls d →
  (∀ i, d_records (run_callbacks json_loads dls d) !! i =
     (λ r, foldl after_delivery r (arrivals (er_event_id r) dls)) <$> d_records d !! i) ∧
  d_acked (run_callbacks json_loads dls d) = d_acked d ++ (dls ≫= acknowledged).
Proof.
  revert d. induction dls as [|dl dls IH]; intros d Hids Hclock.
  { split; [|by rewrite app_nil_r]. intros i. cbn. by destruct (d_records d !! i). }
  assert (steps_to dl d (run_callback json_loads dl d)) as Hstep.
  { apply callback_steps; [done|]. intros i r dl' Hr ->%list_elem_of_singleton. apply (Hclock i); [done|left]. }
  destruct (IH (run_callback json_loads dl d)) as [Hrecs Hacks].
  { by eapply steps_ids. }
  { eapply steps_clocks; [|exact Hstep]. intros i r dl' Hr Hin. apply (Hclock i); [done|by right]. }
  destruct Hstep as (_ & Hr & Ha). unfold run_callbacks in *. cbn [foldl]. split.
  - intros i. rewrite Hrecs, Hr. destruct (d_records d !! i) as [r|]; [|done]. cbn. f_equal. unfold arrivals.
    cbn [filter list_filter]. destruct (decide (event_named dl = Some (er_event_id r))) as [Hn|Hn]; [|done]. cbn [foldl].
    assert (er_event_id (after_delivery r dl) = er_event_id r) as -> by apply deliver_event_kept. done.
  - rewrite Hacks, Ha. cbn. by rewrite app_assoc.
Qed.

Fixpoint count_duplicates (n : nat) (r : event_record) : event_record :=
  match n with O => r | S n => count_duplicates n (count_duplicate r) end.

Lemma later_deliveries dls r : delivered r = true → foldl after_delivery r dls = count_duplicates (length dls) r.
Proof.
  revert r. induction dls as [|dl dls IH]; intros r Hr; [done|]. cbn [foldl length count_duplicates].
  unfold after_delivery at 2, deliver_event. rewrite Hr. cbn [snd]. by apply IH.
Qed.
End deliveries.


Lemma new_record_ids p phase transport index d :
  ids_ok d → alist_get (event_id p phase transport index) (d_by_id d) = None →
  ids_ok (new_record p phase transport index d).2.
Proof.
  intros [Hlook Hrec] Hfresh. split; cbn [snd new_record set_records d_by_id d_records].
  - intros id i Hget. rewrite alist_get_set in Hget. case_decide as Hid.
    + injection Hget as <-. eexists. split; [by apply list_lookup_middle|done].
    + destruct (Hlook id i Hget) as (r & Hr & Heq). exists r. split; [by apply lookup_app_l_Some|done].
  - intros i r Hr. rewrite alist_get_set. apply lookup_app_Some in Hr as [Hr|[Hi Hr]].
    + case_decide as Hid; [|by apply Hrec]. by rewrite <-Hid, (Hrec i r Hr) in Hfresh.
    + destruct (i - length (d_records d)) as [|k] eqn:Hk; [|done]. injection Hr as <-. cbn.
      rewrite decide_True by done. f_equal. lia.
Qed.

Lemma new_direction_ids : ids_ok new_direction.
Proof. split; [by intros id i|by intros i r]. Qed.

Definition one_event : direction := (new_record demo_plan "baseline" "core" 0 new_direction).2.
Definition twice_delivered : list delivery :=
  [Delivery "core" (Message "" "" (event_id demo_plan "baseline" "core" 0) [] None []) "first" 2500000;
   Delivery "core" (Message "" "" (event_id demo_plan "baseline" "core" 0) [] None []) "second" 2600000].

Definition one_record : event_record :=
  EventRecord "baseline" "core" (event_id demo_plan "baseline" "core" 0) "" 0 None None None None None false 0.

Lemma one_event_clocks : clocks_ok twice_delivered one_event.
Proof.
  intros i r dl Hr Hdl.
  assert (r = one_record) as -> by (destruct i as [|i]; [by injection Hr|done]).
  unfold twice_delivered in Hdl. rewrite !elem_of_cons in Hdl.
  destruct Hdl as [->|[->|Hin%not_elem_of_nil]]; [vm_compute; reflexivity..|done].
Qed.

Lemma one_event_arrivals : arrivals demo_loads (er_event_id one_record) twice_delivered = twice_delivered.
Proof. vm_compute. reflexivity. Qed.


(** ** Cleaning up *)

Inductive cleaned := CDelete (s : side) (subject : string) | CUnsubscribe (s : side) (sid : Z).

Section cleanup.
Context (json_loads : string → res pyval) (p : plan).

(** The history of a clean-up: what it asked for, and the direction. *)
Definition asked {A} (w : wait A) : list cleaned :=
  match w with WRequest s subject => [CDelete s subject] | WUnsubscribe s sid => [CUnsubscribe s sid] | _ => [] end.
Definition any_call X (op : directionE X) (t : direction * list cleaned) : Prop := True.
Definition may_answer X (op : directionE X) (t : direction * list cleaned) : X → Prop :=
  match op in directionE X return X → Prop with Section f => λ x, x = (f t.1).1 | _ => λ _, True end.
Definition add_call X (op : directionE X) (x : X) (t : direction * list cleaned) : direction * list cleaned :=
  match op with Section f => ((f t.1).2, t.2) | Await w => (t.1, t.2 ++ asked w) | _ => t end.
Abbreviation wp := (wp any_call may_answer add_call).

(** What the callbacks leave alone. *)
Definition same_names (d d' : direction) : Prop := d_created d' = d_created d ∧ d_sids d' = d_sids d.
Lemma same_names_trans d1 d2 d3 : same_names d1 d2 → same_names d2 d3 → same_names d1 d3.
Proof. intros [H1 H2] [H3 H4]. split; congruence. Qed.

Lemma callbacks_names dls d : same_names d (run_callbacks json_loads dls d).
Proof.
  revert d. induction dls as [|dl dls IH]; intros d; [done|]. eapply same_names_trans; [|apply IH].
  unfold run_callback. case_match; [done|]. unfold record_delivery.
  assert (∀ (b : bool) reply d', same_names d d' → same_names d (if b then add_ack reply d' else d')) as Hack.
  { intros [] reply d' Hd; [|done]. unfold add_ack. by case_match. }
  destruct (json_loads _) as [event|[]]; try done; [|by apply Hack].
  destruct (event_of event) as [| | | |id| |]; try by apply Hack.
  destruct (String.eqb id _); [by apply Hack|]. destruct (alist_get id _) as [i|]; [|by apply Hack].
  destruct (d_records d !! i) as [r|]; [|by apply Hack]. destruct (deliver_event _ _ r) as [outcome r'].
  destruct (is_ok outcome); [by apply Hack|done].
Qed.

Lemma wp_section {A} (f : direction → A * direction) (Q : res A → direction * list cleaned → Prop) t :
  Q (Ok (f t.1).1) ((f t.1).2, t.2) → wp (section f) Q t.
Proof. intros HQ. split; [done|]. intros x ->. exact HQ. Qed.

Lemma wp_await {A} (w : wait A) (Q : res A → direction * list cleaned → Prop) t :
  (∀ r d, same_names t.1 d → Q r (d, t.2 ++ asked w)) → wp (await json_loads w) Q t.
Proof.
  intros HQ. unfold await. wp_step. wp_step; [done|]. wp_step. apply wp_section. wp_step.
  destruct x as [dls r]. apply HQ, callbacks_names.
Qed.

Lemma wp_request s subject payload timeout (Q : res pyval → direction * list cleaned → Prop) t :
  (∀ r d, same_names t.1 d → Q r (d, t.2 ++ [CDelete s subject])) →
  wp (js_request json_loads s subject payload timeout no_hook) Q t.
Proof.
  intros HQ. unfold js_request, no_hook. wp_step. apply wp_await. intros [u|e] d Hd; [|by apply HQ].
  wp_step. cbn [Program.wp]. wp_step. apply wp_await. intros [data|e] d' Hd'; cbn [asked] in *; rewrite app_nil_r.
  - wp_step. apply HQ. by eapply same_names_trans.
  - apply HQ. by eapply same_names_trans.
Qed.

Definition delete_request (stream : string) : cleaned := CDelete Source ("$JS.API.STREAM.DELETE." +:+ stream).

Lemma wp_delete_streams streams (Q : res (list string) → direction * list cleaned → Prop) t :
  (∀ failures d, same_names t.1 d → Q (Ok failures) (d, t.2 ++ (delete_request <$> streams))) →
  wp (delete_streams json_loads streams) Q t.
Proof.
  revert Q t. induction streams as [|stream streams IH]; intros Q t HQ; cbn [delete_streams].
  { cbn [Program.wp]. specialize (HQ [] t.1). rewrite app_nil_r in HQ. destruct t. by apply HQ. }
  unfold delete_stream. wp_step. wp_step. wp_step. apply wp_request. intros r d Hd.
  assert (wp (failures ← delete_streams json_loads streams;
    Ret (match r with Ok _ => failures | Raise e => ("could not delete stream " +:+ stream +:+ ": " +:+ exn_str e) :: failures end))
    Q (d, t.2 ++ [delete_request stream])) as Hrest.
  { wp_step. apply IH. intros failures d' Hd'. cbn [Program.wp fst snd] in *. rewrite <-app_assoc. apply HQ.
    by eapply same_names_trans. }
  destruct r as [v|e]; cbn [Program.wp]; exact Hrest.
Qed.

Definition unsubscribe_all (sids : list (option Z)) : list cleaned := CUnsubscribe Destination <$> omap id sids.

Lemma wp_drop_subscriptions sids (Q : res unit → direction * list cleaned → Prop) t :
  (∀ d, Q (Ok tt) (d, t.2 ++ unsubscribe_all sids)) → wp (drop_subscriptions json_loads sids) Q t.
Proof.
  revert Q t. induction sids as [|sid sids IH]; intros Q t HQ; cbn [drop_subscriptions].
  { cbn [Program.wp]. specialize (HQ t.1). rewrite app_nil_r in HQ. by destruct t. }
  unfold drop_subscription. destruct sid as [sid|]; wp_step.
  - wp_step. wp_step. apply wp_await. intros r d _. cbn [Program.wp]. apply IH. intros d'. cbn [fst snd].
    rewrite <-app_assoc. apply HQ.
  - cbn [Program.wp]. apply IH. intros d. apply HQ.
Qed.
End cleanup.

(** C20: A direction is always cleaned up.  Whatever the network answers, the
    clean-up returns; unless the streams are to be kept it asks for the
    deletion of every stream whose creation was answered, the last first, and
    it then cancels every subscription that was made, a failure of one
    stopping none of the others. *)
Theorem cleanup_complete json_loads p d :
  Program.wp any_call may_answer add_call (cleanup json_loads p) (λ r t,
    (∃ failures, r = Ok failures) ∧
    t.2 = (if p_keep_streams p then [] else delete_request <$> rev (d_created d)) ++ unsubscribe_all (d_sids d))
    (d, []).
Proof.
  unfold cleanup. wp_step. apply wp_section. wp_step. destruct (p_keep_streams p); cbn [fst snd].
  - cbn [Program.wp]. wp_step. apply wp_section. wp_step. apply wp_drop_subscriptions. intros d'. cbn. split; [by eexists|done].
  - wp_step. apply wp_delete_streams. intros failures d' [_ Hs]. wp_step. apply wp_section. cbn [Program.wp].
    wp_step. apply wp_section. wp_step. apply wp_drop_subscriptions. intros d''. cbn [Program.wp fst snd set_created d_sids] in *.
    rewrite Hs. split; [by eexists|done].
Qed.
