(* ===== verification/SuperclusterMain.v ===== *)
(** * The supercluster benchmark as a whole

    The inventory, the arguments, the documents and [async_main] of
    src/benchmark/supercluster/supercluster_benchmark.py: both directions one
    after the other, with everything that was opened closed again, whatever
    fails. *)

From S2P Require Import Prelude PyFloat PyValue PyText Program NatsWire Gather Reporting LatencyStats DirectionRun.

(** ** The inventory *)

(** [supercluster_benchmark.py:94-98 Region] *)
Record region := Region { rg_id : string; rg_context : string; rg_cluster : string }.
#[export] Instance region_eq_dec : EqDecision region.
Proof. solve_decision. Defined.

Definition region_keys : list string := ["region_id"; "k8s_context"; "nats_cluster_name"].

(** [supercluster_benchmark.py:113-130 load_regions] *)
Definition load_region (index : nat) (entry : pyval) : res region :=
  match entry with
  | PDict m =>
      let missing := filter (λ key, py_truth (default PNone (alist_get key m)) = false) region_keys in
      match missing with
      | [] =>
          id ← py_item entry "region_id"; context ← py_item entry "k8s_context"; cluster ← py_item entry "nats_cluster_name";
          Ok (Region (py_str id) (py_str context) (py_str cluster))
      | _ => Raise (BenchmarkError ("inventory region " +:+ pretty index +:+ " is missing " +:+ str_join ", " missing))
      end
  | _ => Raise (BenchmarkError ("inventory region " +:+ pretty index +:+ " is not an object"))
  end.

(** [supercluster_benchmark.py:101-133 load_regions] *)
Definition load_regions (json_loads : string → res pyval) (path : string) (read : res string) : res (list region) :=
  document ← match read ≫= json_loads with
             | Raise (OSError _ | JSONDecodeError _) as r =>
                 Raise (BenchmarkError ("cannot read inventory " +:+ path +:+ ": "
                   +:+ match r with Raise e => exn_str e | Ok _ => "" end))
             | r => r
             end;
  entries ← py_get document "regions" PNone;
  match entries with
  | PList [first; second] =>
      a ← load_region 0 first;
      b ← load_region 1 second;
      if String.eqb (rg_context a) (rg_context b)
      then Raise (BenchmarkError "the two inventory regions use the same context") else Ok [a; b]
  | _ => Raise (BenchmarkError ("inventory " +:+ path +:+ " must contain exactly two regions"))
  end.

(** ** Arguments *)

Inductive directions := Both | FirstToSecond | SecondToFirst.

Record arguments := Arguments {
  ar_events : Z;
  ar_interval : pyfloat;
  ar_delivery_timeout : pyfloat;
  ar_drop_seconds : pyfloat;
  ar_rtt_samples : Z;
  ar_directions : directions;
  ar_keep_streams : bool;
}.

(** The checks after the parser's own, which converts each value; an error
    ends the program with status 2.
    [supercluster_benchmark.py:1927-1945 parse_args] *)
Definition check_arguments (a : arguments) : res arguments :=
  let error message := Raise (OtherError message) in
  let zero := float_dec 0 0 in
  if (ar_events a <? 2)%Z then error "--events must be at least 2" else
  if fltb (ar_interval a) zero then error "--interval cannot be negative" else
  if fleb (ar_delivery_timeout a) zero then error "--delivery-timeout must be positive" else
  if fleb (ar_drop_seconds a) zero then error "--drop-seconds must be positive" else
  n ← float_of_Z (ar_events a - 1);
  if fleb (ar_drop_seconds a) (fmul n (ar_interval a))
  then error "outage publish span must be shorter than --drop-seconds" else
  if (ar_rtt_samples a <? 2)%Z then error "--rtt-samples must be at least 2" else Ok a.

Definition default_arguments : arguments :=
  Arguments 100 (float_dec 1 (-2)) (float_dec 30 0) (float_dec 5 0) 20 Both false.

(** No comparison with a NaN is true: an interval that is none passes. *)
Example nan_interval_accepted :
  is_ok (check_arguments (Arguments 100 SpecFloat.S754_nan (float_dec 30 0) (float_dec 5 0) 20 Both false)) = true.
Proof. vm_compute. reflexivity. Qed.

(** ** Documents *)

(** [bool(summaries) and not metadata.get("fatal_error") and all(...)]
    [supercluster_benchmark.py:1670-1674 write_outputs] *)
Definition outputs_passed (fatal_error : option string) (summaries : list run_result) : bool :=
  negb (match summaries with [] => true | _ => false end) && String.eqb (default "" fatal_error) ""
  && forallb (λ rr, bool_decide (rr_failures rr = [])) summaries.

(** [str(value)] of the values of a report. *)
Definition bool_str (b : bool) : string := if b then "True" else "False".
(** [supercluster_benchmark.py:1655-1656 format_number] *)
Definition format_number (x : option pyfloat) : string := match x with None => "-" | Some x => float_repr x end.

(** A row of a table. *)
Definition row (cells : list string) : string := "| " +:+ str_join " | " cells +:+ " |".

(** [supercluster_benchmark.py:1724-1740 write_outputs] *)
Definition latency_rows (rr : run_result) : list string :=
  rr_latency rr ≫= λ '(phase, metrics), (λ '(name, m),
    row [rr_direction rr; phase; name; pretty (mt_count m); pretty (mt_missing m); format_number (mt_median_ms m);
         format_number (mt_population_stddev_ms m); format_number (mt_p95_ms m); format_number (mt_max_ms m)]) <$> metrics.

(** [supercluster_benchmark.py:1754-1767 write_outputs] *)
Definition drop_row (rr : run_result) : string :=
  let drop := rr_connection_drop rr in
  row [rr_direction rr; float_repr (dr_scheduled_drop_ms drop); float_repr (dr_tunnel_restart_started_ms drop);
       float_repr (dr_unavailable_ms drop); float_repr (dr_reconnect_after_tunnel_restart_ms drop);
       ratio (dr_core_lost drop) (dr_core_published drop)].

(** [supercluster_benchmark.py:1783-1806 write_outputs] *)
Definition backlog_row (rr : run_result) : string :=
  let drop := rr_connection_drop rr in
  let age f := format_number (dr_queued_age drop ≫= f) in
  row [rr_direction rr; ratio (dr_js_published_before drop) (dr_js_published drop);
       ratio (dr_js_recovered drop) (dr_js_published drop); pretty (dr_js_missing drop); pretty (dr_js_duplicates drop);
       age mt_median_ms; age mt_p95_ms; age mt_max_ms;
       format_number (rc_first_ms (dr_recovery drop)); format_number (rc_drain_ms (dr_recovery drop))].

(** [supercluster_benchmark.py:1817-1838 write_outputs] *)
Definition replication_rows (rr : run_result) : list string :=
  let f := rr_findings rr in
  let one factor source destination convergence :=
    row [rr_direction rr; factor; rr_stream_placement rr; bool_str (h_healthy source); bool_str (h_healthy destination);
         py_str (h_leader destination); pretty (length (h_followers destination)); format_number convergence] in
  [one "R1 control" (fi_r1_source f) (fi_r1_destination f) None;
   one "R3" (fi_r3_source f) (fi_r3_destination f) (Some (fi_convergence_ms f))].

(** [supercluster_benchmark.py:1848-1861 write_outputs] *)
Definition impact_rows (rr : run_result) : list string :=
  (λ '(phase, (ack, delivery)), row [rr_direction rr; phase; format_number ack; format_number delivery])
    <$> rr_factor_impact rr.

(** [supercluster_benchmark.py:1862-1869 write_outputs] *)
Definition failure_lines (summaries : list run_result) : list string :=
  match summaries ≫= λ rr, (λ failure, "- " +:+ rr_direction rr +:+ ": " +:+ failure) <$> rr_failures rr with
  | [] => []
  | failures => [""; "## Failures"; ""] ++ failures
  end.

(** [supercluster_benchmark.py:1870-1873 write_outputs] *)
Definition fatal_lines (fatal_error : option string) : list string :=
  match fatal_error with Some (String _ _ as message) => [""; "## Fatal error"; ""; message] | _ => [] end.

(** The lines of report.md.
    [supercluster_benchmark.py:1706-1883 write_outputs] *)
Definition report_lines (run_id : string) (fatal_error : option string) (summaries : list run_result) : list string :=
  ["# NATS supercluster benchmark " +:+ run_id; "";
   "Result: **" +:+ (if outputs_passed fatal_error summaries then "PASS" else "FAIL") +:+ "**"; "";
   "All standard deviations below are population standard deviations. Delivery time is measured by one external process from immediately before publish to the destination callback.";
   ""; "## Latency"; "";
   "| Direction | Phase | Metric | Count | Missing | Median ms | Stddev ms | P95 ms | Max ms |";
   "| --- | --- | --- | ---: | ---: | ---: | ---: | ---: | ---: |"]
  ++ (summaries ≫= latency_rows)
  ++ [""; "## Connection drop"; "";
      "The destination tunnel restart is initiated on the configured wall-clock deadline, independently of publish acknowledgments.";
      "";
      "| Direction | Scheduled drop ms | Restart initiated ms | Client unavailable ms | Client reconnect ms | Core lost |";
      "| --- | ---: | ---: | ---: | ---: | ---: |"]
  ++ (drop_row <$> summaries)
  ++ [""; "### JetStream backlog recovery"; "";
      "Queued age is measured from publish start until durable delivery. Recovery and drain timings start when tunnel restart begins.";
      "";
      "| Direction | Sent before restart | Recovered | Missing | Duplicates | Queued age median ms | Queued age p95 ms | Queued age max ms | First recovered ms | Backlog drain ms |";
      "| --- | ---: | ---: | ---: | ---: | ---: | ---: | ---: | ---: | ---: |"]
  ++ (backlog_row <$> summaries)
  ++ [""; "## JetStream replication"; "";
      "| Direction | Factor | Placement | Healthy from source | Healthy from destination | Leader | Followers | Convergence wait ms |";
      "| --- | --- | --- | --- | --- | --- | ---: | ---: |"]
  ++ (summaries ≫= replication_rows)
  ++ [""; "### R3 minus R1 median"; "";
      "| Direction | Phase | Publish ack delta ms | Delivery delta ms |"; "| --- | --- | ---: | ---: |"]
  ++ (summaries ≫= impact_rows)
  ++ failure_lines summaries ++ fatal_lines fatal_error
  ++ [""; "Per-event measurements are in `events.csv`; machine-readable aggregates are in `summary.json`; raw broker gateway snapshots are in `gateway-snapshots.json`.";
      ""].

Definition opt_str (x : option string) : pyval := match x with Some s => PStr s | None => PNone end.
Definition opt_int (x : option Z) : pyval := match x with Some z => PInt z | None => PNone end.
(** A row of events.csv, with the fields the writer keeps in its order.
    [supercluster_benchmark.py:1684-1705 write_outputs] *)
Definition event_row (p : plan) (r : event_record) : list pyval :=
  [PStr (p_run_id p); PStr (direction_name p); PStr (p_source p); PStr (p_destination p); PStr (er_phase r);
   PStr (er_transport r); PStr (er_event_id r); PStr (er_sent_at_utc r); opt_str (er_delivered_at_utc r);
   opt_float (er_delivery_latency_ms r); opt_float (er_publish_ack_latency_ms r); opt_int (er_stream_sequence r);
   PBool (er_publish_duplicate r); PInt (er_duplicate_deliveries r); PBool (delivered r)].

Record outputs := Outputs {
  o_run_id : string;
  o_fatal_error : option string;
  o_summaries : list run_result;
  o_passed : bool;
  o_snapshots : list (string * pyval) * list (string * pyval);
  o_events : list (list pyval);
  o_report : list string;
}.

(** The files that are written, before their text.
    [supercluster_benchmark.py:1659-1883 write_outputs] *)
Definition outputs_of (run_id : string) (fatal_error : option string) (summaries : list run_result)
    (records : list (plan * list event_record)) (snapshots : list (string * pyval) * list (string * pyval)) : outputs :=
  Outputs run_id fatal_error summaries (outputs_passed fatal_error summaries) snapshots
    (records ≫= λ '(p, rs), event_row p <$> rs) (report_lines run_id fatal_error summaries).

(** ** The program *)

(** What [async_main] keeps outside its [try]. *)
Record locals := Locals {
  lo_connections : list (string * nat);
  lo_opened : nat;
  lo_directions : list plan;
  lo_summaries : list run_result;
  lo_snapshots : list (string * pyval) * list (string * pyval);
}.

Inductive mainE : Type → Type :=
  | MWhich : mainE bool
  | MReadInventory : mainE (res string)
  | MToken : mainE string
  | MPick : mainE bool
  | MClock : mainE Z
  | MCredentials (r : region) : mainE (res unit)
  | MStartForward (r : region) : mainE (res unit)
  | MStopForward (r : region) : mainE (res unit)
  | MConnect (connection : nat) (through : region) : mainE (res unit)
  | MFlush (connection : nat) : mainE (res unit)
  | MClose (connection : nat) : mainE (res unit)
  | MSnapshot (r : region) : mainE (res pyval)
  | MLocal {A} (f : locals → A * locals) : mainE A
  | MDirection {A} (direction source destination : nat) (op : directionE A) : mainE A
  | MRecords (direction : nat) : mainE (list event_record)
  | MWrite (o : outputs) : mainE (res unit).

Abbreviation main_task := (prog mainE).
Definition local {A} (f : locals → A * locals) : main_task A := perform (MLocal f).

(** A direction's tasks, on the connections it was made with. *)
Definition on_direction {A} (direction source destination : nat) : task A → main_task A :=
  fix go t := match t with
    | Ret a => Ret a
    | Throw e => Throw e
    | Vis op k => Vis (MDirection direction source destination op) (λ x, go (k x))
    end.

Definition add_connection (id : string) (n : nat) (l : locals) : unit * locals :=
  (tt, Locals (alist_set id n (lo_connections l)) (lo_opened l) (lo_directions l) (lo_summaries l) (lo_snapshots l)).
Definition next_connection (l : locals) : nat * locals :=
  (lo_opened l, Locals (lo_connections l) (S (lo_opened l)) (lo_directions l) (lo_summaries l) (lo_snapshots l)).
Definition add_direction (p : plan) (l : locals) : nat * locals :=
  (length (lo_directions l),
   Locals (lo_connections l) (lo_opened l) (lo_directions l ++ [p]) (lo_summaries l) (lo_snapshots l)).
Definition set_summaries (summaries : list run_result) (l : locals) : locals :=
  Locals (lo_connections l) (lo_opened l) (lo_directions l) summaries (lo_snapshots l).
Definition set_snapshots (before after : list (string * pyval)) (l : locals) : unit * locals :=
  (tt, Locals (lo_connections l) (lo_opened l) (lo_directions l) (lo_summaries l) (before, after)).

(** [d[key]] *)
Definition item {A} (key : string) (d : list (string * A)) : main_task A :=
  match alist_get key d with Some a => Ret a | None => Throw (KeyError key) end.

(** [summary["failures"].extend(...); sorted(set(...))] *)
Definition extend_failures (failures : list string) (rr : run_result) : run_result :=
  RunResult (rr_direction rr) (rr_source_region rr) (rr_destination_region rr) (rr_streams rr) (rr_stream_placement rr)
    (rr_latency rr) (rr_connection_drop rr) (rr_findings rr) (rr_factor_impact rr)
    (sorted_set (rr_failures rr ++ failures)).

Section main.
Context (json_loads : string → res pyval) (a : arguments) (fuel : nat).

(** [supercluster_benchmark.py:1625-1631 nats_rtt] *)
Fixpoint rtt_values (samples : nat) (connection : nat) : main_task (list pyfloat) :=
  match samples with
  | O => Ret []
  | S samples =>
      started ← perform MClock;
      _ ← call (MFlush connection);
      now ← perform MClock;
      value ← lift (milliseconds (now - started));
      values ← rtt_values samples connection;
      Ret (value :: values)
  end.
Definition nats_rtt (connection : nat) : main_task metric :=
  values ← rtt_values (Z.to_nat (ar_rtt_samples a)) connection; lift (metric_summary values None).

(** [supercluster_benchmark.py:1634-1652 gateway_snapshot] *)
Definition gateway_snapshot (r : region) : main_task pyval :=
  s ← prog_try (call (MSnapshot r));
  match s with
  | Raise (BenchmarkError message) => Ret (PDict [("snapshot_error", PStr message)])
  | s => lift s
  end.
Definition snapshots_of (regions : list region) : main_task (list (string * pyval)) :=
  documents ← gather MPick (gateway_snapshot <$> regions);
  Ret (foldl (λ d '(r, document), alist_set (rg_id r) document d) [] (zip regions documents)).

(** A client per region, through the forward of its identifier.
    [supercluster_benchmark.py:1987-1999 async_main] *)
Fixpoint connect_all (forwards : list (string * region)) (regions : list region) : main_task unit :=
  match regions with
  | [] => Ret tt
  | r :: regions =>
      forward ← item (rg_id r) forwards;
      n ← local next_connection;
      _ ← call (MConnect n forward);
      _ ← local (add_connection (rg_id r) n);
      connect_all forwards regions
  end.

(** [supercluster_benchmark.py:2020-2024 async_main] *)
Definition pairs_of (regions : list region) : list (region * region) :=
  match regions with
  | [first; second] =>
      let pairs := [(first, second); (second, first)] in
      match ar_directions a with Both => pairs | FirstToSecond => take 1 pairs | SecondToFirst => drop 1 pairs end
  | _ => []
  end.

(** One direction, cleaned up however it ends.
    [supercluster_benchmark.py:2026-2050 async_main] *)
Definition run_direction (run_id : string) (route : region * region) : main_task unit :=
  let '(source, destination) := route in
  connections ← local (λ l, (lo_connections l, l));
  source_connection ← item (rg_id source) connections;
  destination_connection ← item (rg_id destination) connections;
  suffix ← perform MToken;
  let p := Plan run_id (rg_id source) (rg_id destination) (rg_cluster destination) (ar_events a) (ar_interval a)
             (ar_delivery_timeout a) (ar_drop_seconds a) (ar_keep_streams a) (str_upper suffix) in
  i ← local (add_direction p);
  let here {A} (t : task A) := on_direction i source_connection destination_connection t in
  r ← prog_try (rr ← here (direction_run json_loads p fuel);
                _ ← local (λ l, (tt, set_summaries (lo_summaries l ++ [rr]) l)); Ret rr);
  failures ← here (cleanup json_loads p);
  match r with
  | Ok rr =>
      match failures with
      | [] => Ret tt
      | _ => local (λ l, (tt, set_summaries (removelast (lo_summaries l) ++ [extend_failures failures rr]) l))
      end
  | Raise e => Throw e
  end.
Fixpoint run_directions (run_id : string) (pairs : list (region * region)) : main_task unit :=
  match pairs with [] => Ret tt | route :: pairs => _ ← run_direction run_id route; run_directions run_id pairs end.

(** The forwards by the identifier of their region.
    [supercluster_benchmark.py:1960-1963 async_main] *)
Definition forwards_of (regions : list region) : list (string * region) :=
  foldl (λ d r, alist_set (rg_id r) r d) [] regions.

(** [supercluster_benchmark.py:1986-2058 async_main] *)
Definition benchmark (run_id : string) (regions : list region) : main_task unit :=
  let forwards := forwards_of regions in
  _ ← gather MPick ((λ f, call (MStartForward f.2)) <$> forwards);
  _ ← connect_all forwards regions;
  before ← snapshots_of regions;
  _ ← local (set_snapshots before []);
  connections ← local (λ l, (lo_connections l, l));
  _ ← gather MPick ((λ r, n ← item (rg_id r) connections; nats_rtt n) <$> regions);
  _ ← run_directions run_id (pairs_of regions);
  after ← snapshots_of regions;
  local (set_snapshots before after).

Fixpoint records_of (i : nat) (plans : list plan) : main_task (list (plan * list event_record)) :=
  match plans with
  | [] => Ret []
  | p :: plans => rs ← perform (MRecords i); rest ← records_of (S i) plans; Ret ((p, rs) :: rest)
  end.

(** [supercluster_benchmark.py:2064-2071 async_main] *)
Definition write_results (run_id : string) (fatal_error : option string) : main_task unit :=
  l ← local (λ l, (l, l));
  match lo_directions l, lo_summaries l with
  | [], [] => Ret tt
  | _, _ =>
      records ← records_of 0 (lo_directions l);
      call (MWrite (outputs_of run_id fatal_error (lo_summaries l) records (lo_snapshots l)))
  end.

(** Failures to close are ignored.
    [supercluster_benchmark.py:2073-2080 async_main] *)
Definition close_all (forwards : list (string * region)) : main_task unit :=
  l ← local (λ l, (l, l));
  _ ← gather MPick ((λ c, prog_try (call (MClose c.2))) <$> lo_connections l);
  _ ← gather MPick ((λ f, prog_try (call (MStopForward f.2))) <$> forwards);
  Ret tt.

(** What runs under the [try], and what follows it.
    [supercluster_benchmark.py:1985-2085 async_main] *)
Definition supervised (run_id : string) (regions : list region) : main_task Z :=
  r ← prog_try (benchmark run_id regions);
  _ ← write_results run_id (match r with Ok _ => None | Raise e => Some (exn_str e) end);
  _ ← close_all (forwards_of regions);
  _ ← lift r;
  summaries ← local (λ l, (lo_summaries l, l));
  Ret (if outputs_passed None summaries then 0 else 1)%Z.

(** The clocks, the names of the run and of its directory, and the metadata
    that only describe it are left out.
    [supercluster_benchmark.py:1948-2085 async_main] *)
Definition async_main (path : string) : main_task Z :=
  kubectl ← perform MWhich;
  if negb (kubectl : bool) then Throw (BenchmarkError "kubectl is required") else
  inventory ← perform MReadInventory;
  regions ← lift (load_regions json_loads path inventory);
  run_id ← perform MToken;
  _ ← gather MPick ((λ r, call (MCredentials r)) <$> regions);
  supervised run_id regions.
End main.

(** [main]: the status of the process.
    [supercluster_benchmark.py:2088-2097 main] *)
Definition exit_status (r : res Z) : res Z :=
  match r with Raise (BenchmarkError _) => Ok 1%Z | r => r end.

(** ** Histories *)

Definition new_locals : locals := Locals [] 0 [] [] ([], []).

Inductive main_event :=
  | MeOpen (connection : nat) | MeClose (connection : nat) | MeStop (r : region) | MeWrite (o : outputs) (written : bool).

(** The variables of the program, and what it did to the world. *)
Abbreviation history := (locals * list main_event)%type.
Definition any_main X (op : mainE X) (t : history) : Prop := True.
Definition may_main X (op : mainE X) (t : history) : X → Prop :=
  match op in mainE X return X → Prop with MLocal f => λ x, x = (f t.1).1 | _ => λ _, True end.
Definition event_main X (op : mainE X) : X → list main_event :=
  match op in mainE X return X → list main_event with
  | MConnect n _ => λ x, if is_ok x then [MeOpen n] else []
  | MClose n => λ _, [MeClose n]
  | MStopForward r => λ _, [MeStop r]
  | MWrite o => λ x, [MeWrite o (is_ok x)]
  | _ => λ _, []
  end.
Definition record_main X (op : mainE X) (x : X) (t : history) : history :=
  match op with MLocal f => ((f t.1).2, t.2) | op => (t.1, t.2 ++ event_main _ op x) end.
Abbreviation mwp := (wp any_main may_main record_main).

Lemma mwp_local {A} (f : locals → A * locals) (Q : res A → history → Prop) t :
  Q (Ok (f t.1).1) ((f t.1).2, t.2) → mwp (local f) Q t.
Proof. intros HQ. split; [done|]. intros x ->. exact HQ. Qed.

(** *** Tasks that leave no trace *)

Definition silent_op X (op : mainE X) : Prop :=
  match op with MLocal _ | MConnect _ _ | MClose _ | MStopForward _ | MWrite _ => False | _ => True end.
Fixpoint silent {A} (p : main_task A) : Prop :=
  match p with Vis op k => silent_op _ op ∧ ∀ x, silent (k x) | _ => True end.

Lemma mwp_silent {A} (p : main_task A) (Q : res A → history → Prop) t :
  silent p → (∀ r, Q r t) → mwp p Q t.
Proof.
  intros Hp HQ. induction p as [a|e|X op k IH]; [apply HQ..|]. destruct Hp as [Hop Hk]. split; [done|].
  intros x _. assert (record_main X op x t = t) as ->.
  { destruct t as [l es]. destruct op; try done; cbn; by rewrite app_nil_r. }
  by apply IH.
Qed.

Lemma silent_bind {A B} (p : main_task A) (f : A → main_task B) : silent p → (∀ a, silent (f a)) → silent (p ≫= f).
Proof.
  intros Hp Hf. induction p as [a|e|X op k IH]; [apply Hf|done|]. destruct Hp as [Hop Hk]. split; [done|].
  intros x. by apply IH.
Qed.
Lemma silent_try {A} (p : main_task A) : silent p → silent (prog_try p).
Proof. induction p as [a|e|X op k IH]; [done..|]. intros [Hop Hk]. split; [done|]. intros x. by apply IH. Qed.
Lemma silent_lift {A} (m : res A) : silent (lift m).
Proof. by destruct m. Qed.
Lemma silent_item {A} key (d : list (string * A)) : silent (item key d).
Proof. unfold item. by case_match. Qed.
Lemma silent_call {A} (op : mainE (res A)) : silent_op _ op → silent (call op).
Proof. intros Hop. split; [done|]. intros x. apply silent_lift. Qed.

Lemma silent_both {A B} (p : main_task A) (q : main_task B) : silent p → silent q → silent (both MPick p q).
Proof.
  revert q. induction p as [a|e|X op k IHp]; intros q Hp Hq.
  - destruct q; [done..|]. cbn. by apply (silent_bind (Vis op k)).
  - by destruct q.
  - destruct Hp as [Hop Hk]. induction q as [b|e|Y op' k' IHq]; [|done|].
    + split; [done|]. intros x. by apply IHp.
    + destruct Hq as [Hop' Hk']. split; [done|]. intros []; (split; [done|]); intros x; [by apply IHp|by apply IHq].
Qed.
Lemma silent_gather {A} (ps : list (main_task A)) : Forall silent ps → silent (gather MPick ps).
Proof.
  induction 1 as [|p ps Hp Hps IH]; [done|]. cbn. apply silent_bind; [by apply silent_both|done].
Qed.
Lemma silent_direction {A} i s d (t : task A) : silent (on_direction i s d t).
Proof. induction t as [a|e|X op k IH]; [done..|]. split; [done|]. intros x. apply IH. Qed.

Section silent.
Context (a : arguments).

Lemma silent_snapshots regions : silent (snapshots_of regions).
Proof.
  unfold snapshots_of. apply silent_bind; [|done]. apply silent_gather, Forall_fmap, Forall_forall. intros r _.
  unfold gateway_snapshot. apply silent_bind; [by apply silent_try, silent_call|].
  intros [v|[]]; done.
Qed.

Lemma silent_rtt n : silent (nats_rtt a n).
Proof.
  unfold nats_rtt. apply silent_bind; [|intros; apply silent_lift].
  induction (Z.to_nat (ar_rtt_samples a)) as [|k IH]; [done|]. cbn [rtt_values].
  split; [done|]. intros started. apply silent_bind; [by apply silent_call|intros _].
  split; [done|]. intros now. apply silent_bind; [apply silent_lift|intros value]. by apply silent_bind.
Qed.

Lemma mwp_records i plans (Q : res (list (plan * list event_record)) → history → Prop) t :
  (∀ records, Q (Ok records) t) → mwp (records_of i plans) Q t.
Proof.
  revert i Q. induction plans as [|p plans IH]; intros i Q HQ; [by apply HQ|]. cbn [records_of].
  wp_step. wp_step; [done|]. assert (record_main _ (MRecords i) x t = t) as -> by (destruct t; cbn; by rewrite app_nil_r).
  wp_step. apply IH. intros records. apply HQ.
Qed.
End silent.

(** ** What is released *)

Definition opened (n : nat) (es : list main_event) : Prop := MeOpen n ∈ es.
Definition write_failed (es : list main_event) : Prop := ∃ o, MeWrite o false ∈ es.

(** Every connection that was opened is in the table. *)
Definition tabled (t : history) : Prop := ∀ n, opened n t.2 → n ∈ (lo_connections t.1).*2.

Section supervised.
Context (json_loads : string → res pyval) (a : arguments) (fuel : nat).

Lemma alist_set_fresh {V} k (v : V) (l : list (string * V)) : k ∉ l.*1 → alist_set k v l = l ++ [(k, v)].
Proof.
  induction l as [|[k' v'] l IH]; [done|]. rewrite fmap_cons, not_elem_of_cons. intros [Hne Hl]. cbn.
  rewrite decide_False by done. by rewrite IH.
Qed.

(** The regions still to be connected have no entry in the table. *)
Lemma mwp_connect_all forwards regions (Q : res unit → history → Prop) t :
  NoDup (rg_id <$> regions) → (∀ r, r ∈ regions → rg_id r ∉ (lo_connections t.1).*1) → tabled t →
  (∀ r t', tabled t' → lo_summaries t'.1 = lo_summaries t.1 → lo_directions t'.1 = lo_directions t.1 → Q r t') →
  mwp (connect_all forwards regions) Q t.
Proof.
  revert t. induction regions as [|r regions IH]; intros t Hnd Hnew Htab HQ; cbn [connect_all].
  { by apply HQ. }
  rewrite fmap_cons in Hnd. apply NoDup_cons in Hnd as [Hr Hnd].
  wp_step. apply mwp_silent; [apply silent_item|]. intros [forward|e]; [|by apply HQ].
  wp_step. apply mwp_local. cbn [fst snd next_connection]. wp_step. wp_step; [done|].
  destruct m as [u|e]; cbn [record_main event_main is_ok].
  - wp_step. apply mwp_local. cbn [fst snd add_connection]. apply IH; [done| | |].
    + intros r' Hr'. cbn. rewrite alist_set_keys_elem. intros [Heq|Hin].
      * apply Hr. rewrite <-Heq. by apply list_elem_of_fmap_2.
      * by apply (Hnew r'); [right|].
    + intros n Hn. unfold opened in Hn. cbn in *. rewrite alist_set_fresh by (apply Hnew; left).
      rewrite fmap_app, elem_of_app. apply elem_of_app in Hn as [Hn|Hn]; [left; by apply Htab|].
      apply list_elem_of_singleton in Hn. injection Hn as ->. right. by left.
    + intros r' t' Ht' Hs Hd. by apply HQ.
  - cbn [fst snd]. rewrite app_nil_r. by apply HQ.
Qed.

(** A task that touches neither the table nor the log, and that adds as many
    results as it has directions when it returns. *)
Definition directs (k : nat) (p : main_task unit) : Prop :=
  ∀ t (Q : res unit → history → Prop), 
    (∀ r l, lo_connections l = lo_connections t.1 → (lo_directions t.1 ≠ [] → lo_directions l ≠ []) →
       (r = Ok tt → length (lo_summaries l) = length (lo_summaries t.1) + k ∧ (k ≠ 0 → lo_directions l ≠ [])) →
       Q r (l, t.2)) → mwp p Q t.

Lemma run_direction_directs run_id route : directs 1 (run_direction json_loads a fuel run_id route).
Proof.
  intros t Q HQ. destruct route as [source destination]. unfold run_direction.
  wp_step. apply mwp_local. cbn [fst snd].
  assert (∀ e, Q (Raise e) (t.1, t.2)) as Hraise by (intros e; by apply HQ).
  do 2 (wp_step; apply mwp_silent; [apply silent_item|]; intros [?|?]; [|by apply Hraise]).
  wp_step. wp_step; [done|]. cbn [record_main event_main fst snd]. rewrite app_nil_r.
  wp_step. apply mwp_local. cbn [fst snd add_direction]. wp_step. wp_step. wp_step.
  apply mwp_silent; [apply silent_direction|]. intros [rr|e].
  - wp_step. apply mwp_local. cbn [fst snd wp]. wp_step. apply mwp_silent; [apply silent_direction|].
    intros [failures|e].
    + destruct failures as [|f fs].
      * cbn [wp]. apply HQ; cbn; [done| |]; [intros _; by destruct (lo_directions t.1)|].
        intros _. rewrite length_app. split; [done|]. intros _. by destruct (lo_directions t.1).
      * apply mwp_local. cbn [fst snd]. apply HQ; cbn; [done| |]; [intros _; by destruct (lo_directions t.1)|].
        intros _. rewrite removelast_last, length_app. split; [done|]. intros _. by destruct (lo_directions t.1).
    + apply HQ; cbn; [done| |done]. intros _. by destruct (lo_directions t.1).
  - cbn [wp]. wp_step. apply mwp_silent; [apply silent_direction|]. intros [failures|e'].
    + cbn [wp]. apply HQ; cbn; [done| |done]. intros _. by destruct (lo_directions t.1).
    + apply HQ; cbn; [done| |done]. intros _. by destruct (lo_directions t.1).
Qed.

Lemma run_directions_directs run_id pairs : directs (length pairs) (run_directions json_loads a fuel run_id pairs).
Proof.
  induction pairs as [|route pairs IH]; intros t Q HQ; cbn [run_directions length].
  { cbn [wp]. destruct t as [l es]. apply HQ; [done..|]. intros _. by rewrite Nat.add_0_r. }
  wp_step. apply run_direction_directs. intros [[]|e] l Hc Hd Hk.
  - destruct (Hk eq_refl) as [Hlen Hne]. apply IH. intros r l' Hc' Hd' Hk'. cbn [fst snd] in *. apply HQ.
    + congruence.
    + auto.
    + intros Hr. destruct (Hk' Hr) as [Hlen' _]. cbn [length]. split; [lia|]. intros _. apply Hd', Hne. lia.
  - by apply HQ.
Qed.

Lemma mwp_benchmark run_id regions (Q : res unit → history → Prop) :
  NoDup (rg_id <$> regions) →
  (∀ r t, tabled t →
     (r = Ok tt → length (lo_summaries t.1) = length (pairs_of a regions) ∧
                  (pairs_of a regions ≠ [] → lo_directions t.1 ≠ [])) → Q r t) →
  mwp (benchmark json_loads a fuel run_id regions) Q (new_locals, []).
Proof.
  intros Hnd HQ. unfold benchmark.
  wp_step. apply mwp_silent.
  { apply silent_gather, Forall_fmap, Forall_forall. intros f _. by apply silent_call. }
  assert (tabled (new_locals, [])) as H0 by (intros n Hn; by apply elem_of_nil in Hn).
  intros [us|e]; [|by apply HQ]. wp_step. apply mwp_connect_all; [done|intros r _; apply not_elem_of_nil|done|].
  intros [[]|e] t Htab Hs Hd; [|by apply HQ].
  wp_step. apply mwp_silent; [apply silent_snapshots|]. intros [before|e]; [|by apply HQ].
  wp_step. apply mwp_local. wp_step. apply mwp_local. cbn [fst snd set_snapshots].
  wp_step. apply mwp_silent.
  { apply silent_gather, Forall_fmap, Forall_forall. intros f _. apply silent_bind; [apply silent_item|].
    intros n. apply silent_rtt. }
  intros [rtts|e]; [|by apply HQ]. wp_step. apply run_directions_directs. cbn [fst snd lo_connections lo_directions lo_summaries].
  intros [[]|e] l Hc Hd' Hk.
  - destruct (Hk eq_refl) as [Hlen Hne]. assert (tabled (l, t.2)) as Htab' by (intros n Hn; cbn; rewrite Hc; by apply Htab).
    rewrite Hs in Hlen. wp_step. apply mwp_silent; [apply silent_snapshots|]. intros [after|e]; [|by apply HQ].
    apply mwp_local. apply HQ; [exact Htab'|]. intros _. cbn. split; [exact Hlen|].
    intros Hpairs. apply Hne. by destruct (pairs_of a regions).
  - apply HQ; [|done]. intros n Hn. cbn. rewrite Hc. by apply Htab.
Qed.

(** *** Closing *)

Definition no_open (es : list main_event) : Prop := ∀ n, MeOpen n ∉ es.
(** The variables stay, and nothing more is opened. *)
Definition main_le (t t' : history) : Prop := t'.1 = t.1 ∧ ∃ es, t'.2 = t.2 ++ es ∧ no_open es.
#[local] Instance main_le_preorder : PreOrder main_le.
Proof.
  split; [intros t; split; [done|exists []; rewrite app_nil_r; split; [done|intros n; apply not_elem_of_nil]]|].
  intros t1 t2 t3 [H1 (l1 & Hl1 & Hn1)] [H2 (l2 & Hl2 & Hn2)]. split; [congruence|]. exists (l1 ++ l2).
  rewrite Hl2, Hl1, app_assoc. split; [done|]. intros n. rewrite elem_of_app. intros [?|?]; [by eapply Hn1|by eapply Hn2].
Qed.

(** Logged after the events [es]. *)
Definition logged_after (es : list main_event) (e : main_event) (t : history) : Prop :=
  ∃ later, t.2 = es ++ later ∧ e ∈ later ∧ no_open later.

Lemma logged_after_le es e t t' : main_le t t' → logged_after es e t → logged_after es e t'.
Proof.
  intros [_ (l & Hl & Hn)] (later & Ht & Hin & Hno). exists (later ++ l). rewrite Hl, Ht, <-app_assoc.
  split_and!; [done|apply elem_of_app; by left|]. intros n. rewrite elem_of_app. intros [?|?]; [by eapply Hno|by eapply Hn].
Qed.

(** A task of one operation that logs its event. *)
Lemma robust_logs (op : mainE (res unit)) e t :
  match op with MClose _ | MStopForward _ => True | _ => False end → (∀ x, event_main _ op x = [e]) → (∀ n, e ≠ MeOpen n) →
  robust any_main may_main record_main main_le
    (λ r t', match r with Ok _ => t'.1 = t.1 ∧ logged_after t.2 e t' | Raise _ => False end) (prog_try (call op)) t.
Proof.
  intros Hop He Hne t' [Hl (es & Hes & Hno)]. split; [done|]. intros x _.
  assert (record_main _ op x t' = (t'.1, t'.2 ++ [e])) as Hrec.
  { rewrite <-(He x). by destruct op. }
  rewrite Hrec. assert (no_open [e]) as He1 by (intros n Hin%list_elem_of_singleton; by apply (Hne n)).
  split; [split; [done|by exists [e]]|].
  assert (t'.1 = t.1 ∧ logged_after t.2 e (t'.1, t'.2 ++ [e])) as Hpost.
  { split; [done|]. exists (es ++ [e]). cbn. rewrite Hes, app_assoc. split_and!; [done|apply elem_of_app; right; by left|].
    intros n. rewrite elem_of_app. intros [?|?]; [by eapply Hno|by eapply He1]. }
  by destruct x.
Qed.

Lemma pick_grows x t : main_le t (record_main _ MPick x t).
Proof. split; [done|]. exists []. split; [done|]. intros n. apply not_elem_of_nil. Qed.

Lemma mwp_gather_logs {B} (bs : list B) (op : B → mainE (res unit)) (ev : B → main_event) (Q : res (list (res unit)) → history → Prop) t :
  (∀ b, match op b with MClose _ | MStopForward _ => True | _ => False end) → (∀ b x, event_main _ (op b) x = [ev b]) →
  (∀ b n, ev b ≠ MeOpen n) →
  (∀ r later, is_ok r = true → (∀ b, b ∈ bs → ev b ∈ later) → no_open later → Q r (t.1, t.2 ++ later)) →
  mwp (gather MPick ((λ b, prog_try (call (op b))) <$> bs)) Q t.
Proof.
  intros Hop Hev Hne HQ. destruct bs as [|b0 bs'] eqn:Hbs.
  { cbn. specialize (HQ (Ok []) []). rewrite app_nil_r in HQ. destruct t. apply HQ; [done| |intros n; apply not_elem_of_nil].
    intros b Hb. by apply elem_of_nil in Hb. }
  rewrite <-Hbs in *. pose proof (robust_gather MPick any_main may_main record_main main_le (λ _, I)
    pick_grows
    ((λ b (_ : res unit) t', t'.1 = t.1 ∧ logged_after t.2 (ev b) t') <$> bs)
    ((λ b, prog_try (call (op b))) <$> bs) t) as Hg.
  eapply wp_conseq; [apply (robust_wp any_main may_main record_main main_le), Hg|].
  - apply Forall_fmap, Forall_forall. intros b _ r t1 t2 H12 [Hl Hlog]. split; [|by eapply logged_after_le].
    destruct H12. congruence.
  - apply Forall2_fmap, Forall_Forall2_diag, Forall_forall. intros b _. apply robust_logs; [apply Hop|apply Hev|apply Hne].
  - intros [l|e] t' Ht'; [|done]. apply Forall2_fmap_l in Ht'.
    assert (t'.1 = t.1 ∧ ∃ later, t'.2 = t.2 ++ later ∧ no_open later) as (Hl & later & Hes & Hno).
    { rewrite Hbs in Ht'. inversion Ht' as [|b r bs1 l1 [Hl (later & Hes & _ & Hno)]]; subst. eauto. }
    destruct t' as [l' es]. cbn in *. subst l' es. apply HQ; [done| |done]. intros b Hb.
    apply list_elem_of_lookup in Hb as [i Hi]. destruct (Forall2_lookup_l _ _ _ _ _ Ht' Hi) as (r & _ & _ & later' & Heq & Hin & _).
    cbn in Heq. apply app_inv_head in Heq. by subst.
Qed.

Lemma mwp_close_all forwards (Q : res unit → history → Prop) t :
  (∀ later, (∀ n, n ∈ (lo_connections t.1).*2 → MeClose n ∈ later) → (∀ f, f ∈ forwards → MeStop f.2 ∈ later) → no_open later →
     Q (Ok tt) (t.1, t.2 ++ later)) →
  mwp (close_all forwards) Q t.
Proof.
  intros HQ. unfold close_all. wp_step. apply mwp_local. cbn [fst snd]. wp_step.
  apply (mwp_gather_logs (lo_connections t.1) (λ c, MClose c.2) (λ c, MeClose c.2)); [done..|].
  intros [r|e] later Hr Hclose Hno; [|done]. wp_step. cbn [fst snd].
  apply (mwp_gather_logs forwards (λ f, MStopForward f.2) (λ f, MeStop f.2)); [done..|].
  intros [r'|e] later' Hr' Hstop Hno'; [|done]. cbn [wp fst snd]. rewrite <-app_assoc. apply HQ.
  - intros n Hn. apply elem_of_app. left. apply list_elem_of_fmap in Hn as (c & -> & Hc). by apply Hclose.
  - intros f Hf. apply elem_of_app. right. by apply Hstop.
  - intros n. rewrite elem_of_app. intros [?|?]; [by eapply Hno|by eapply Hno'].
Qed.

(** The documents are written when a direction was begun. *)
Lemma mwp_write run_id fatal_error (Q : res unit → history → Prop) t :
  (lo_directions t.1 = [] → lo_summaries t.1 = [] → Q (Ok tt) t) →
  (∀ e o, Q (Raise e) (t.1, t.2 ++ [MeWrite o false])) →
  (∀ o, o_summaries o = lo_summaries t.1 → o_passed o = outputs_passed fatal_error (lo_summaries t.1) →
     Q (Ok tt) (t.1, t.2 ++ [MeWrite o true])) →
  mwp (write_results run_id fatal_error) Q t.
Proof.
  intros Hnone Hfail Hok. unfold write_results. wp_step. apply mwp_local. cbn [fst snd].
  assert (mwp (records ← records_of 0 (lo_directions t.1);
    call (MWrite (outputs_of run_id fatal_error (lo_summaries t.1) records (lo_snapshots t.1)))) Q t) as Hwrite.
  { wp_step. apply mwp_records. intros records.
    wp_step; [done|]. destruct m as [[]|e]; cbn [record_main event_main is_ok]; [by apply Hok|apply Hfail]. }
  destruct t as [l es]. cbn [fst snd] in *. destruct (lo_directions l) eqn:Hd; [|exact Hwrite].
  destruct (lo_summaries l) eqn:Hs; [|exact Hwrite]. by apply Hnone.
Qed.

Lemma forwards_values regions : NoDup (rg_id <$> regions) → (forwards_of regions).*2 = regions.
Proof.
  intros Hnd. unfold forwards_of.
  assert (∀ d : list (string * region), (∀ r, r ∈ regions → rg_id r ∉ d.*1) →
    (foldl (λ d r, alist_set (rg_id r) r d) d regions).*2 = d.*2 ++ regions) as H; [|by apply (H []); intros r _; apply not_elem_of_nil].
  induction regions as [|r regions IH]; intros d Hd; [by rewrite app_nil_r|].
  rewrite fmap_cons in Hnd. apply NoDup_cons in Hnd as [Hr Hnd]. cbn [foldl].
  rewrite alist_set_fresh by (apply Hd; left). rewrite IH; [by rewrite fmap_app, <-app_assoc|done|].
  intros r' Hr'. rewrite fmap_app, not_elem_of_app. split; [apply Hd; by right|].
  intros Heq%list_elem_of_singleton. apply Hr. cbn in Heq. rewrite <-Heq. by apply list_elem_of_fmap_2.
Qed.
End supervised.

(** The end of a supervised run. *)
Definition closing (regions : list region) (r : res unit) : main_task Z :=
  _ ← close_all (forwards_of regions);
  _ ← lift r;
  summaries ← local (λ l, (lo_summaries l, l));
  Ret (if outputs_passed None summaries then 0 else 1)%Z.

(** Every client was closed, and every forward stopped, after the last of them
    was connected. *)
Definition released (regions : list region) (es : list main_event) : Prop :=
  ∃ before after, es = before ++ after ∧ no_open after ∧
    (∀ n, MeOpen n ∈ before → MeClose n ∈ after) ∧ (∀ r, r ∈ regions → MeStop r ∈ after).

Lemma mwp_closing regions r (Q : res Z → history → Prop) t :
  NoDup (rg_id <$> regions) → tabled t →
  (∀ r' es, released regions es → (∃ later, es = t.2 ++ later) →
     r' = match r with Ok _ => Ok (if outputs_passed None (lo_summaries t.1) then 0 else 1)%Z | Raise e => Raise e end →
     Q r' (t.1, es)) →
  mwp (closing regions r) Q t.
Proof.
  intros Hnd Htab HQ. unfold closing. wp_step. apply mwp_close_all. intros later Hclosed Hstopped Hno.
  assert (released regions (t.2 ++ later)) as Hrel.
  { exists t.2, later. split_and!; [done|done|intros n Hn; by apply Hclosed, Htab|].
    intros r' Hr'. rewrite <-(forwards_values regions Hnd) in Hr'. apply list_elem_of_fmap in Hr' as (f & -> & Hf).
    by apply Hstopped. }
  wp_step. destruct r as [u|e]; cbn [lift wp].
  - wp_step. apply mwp_local. cbn [wp fst snd]. apply HQ; [done|by eexists|done].
  - apply HQ; [done|by eexists|done].
Qed.

(** C18: Whatever fails, what was opened is closed.  Against any behaviour of
    kubectl, the network and the two directions, a benchmark of regions with
    different identifiers ends with every client that it connected closed and
    every port forward stopped, after the last of them was connected; the only
    exception is a failure to write its documents, which the code does not
    guard against. *)
Theorem everything_released json_loads a fuel run_id regions :
  NoDup (rg_id <$> regions) →
  mwp (supervised json_loads a fuel run_id regions)
    (λ _ t, (∃ es o, t.2 = es ++ [MeWrite o false]) ∨ released regions t.2) (new_locals, []).
Proof.
  intros Hnd. unfold supervised. wp_step. wp_step. apply mwp_benchmark; [done|]. intros r t Htab _. cbn beta iota.
  assert (∀ es, (∀ n, MeOpen n ∈ es → MeOpen n ∈ t.2) → tabled (t.1, es)) as Htab'.
  { intros es Hes n Hn. by apply Htab, Hes. }
  wp_step. apply mwp_write.
  - intros _ _. apply mwp_closing; [done|done|]. intros r' es Hes _ _. by right.
  - intros e o. left. cbn. eauto.
  - intros o _ _. apply mwp_closing; [done| |intros r' es Hes _ _; by right].
    apply Htab'. intros n. rewrite elem_of_app. intros [?|Hn%list_elem_of_singleton]; done.
Qed.


Definition west : region := Region "west" "ctx-west" "nats-west".
Definition east : region := Region "east" "ctx-east" "nats-east".
Definition demo_arguments : arguments :=
  Arguments 2 (float_dec 0 0) (float_dec 30 0) (float_dec 5 0) 2 Both false.

Lemma everything_released_witness :
  mwp (supervised demo_loads demo_arguments 5 "run" [west; east])
    (λ _ t, (∃ es o, t.2 = es ++ [MeWrite o false]) ∨ released [west; east] t.2) (new_locals, []).
Proof. apply everything_released. apply (bool_decide_unpack _). vm_compute. exact I. Defined.


(** ** A second direction that is interrupted *)

Record demo_world := DemoWorld {
  dw_history : history; dw_tokens : list string; dw_direction : direction; dw_clock : Z; dw_records : list event_record;
}.

Definition log_main (w : demo_world) (es : list main_event) : demo_world :=
  DemoWorld ((dw_history w).1, (dw_history w).2 ++ es) (dw_tokens w) (dw_direction w) (dw_clock w) (dw_records w).

(** The first direction is that of [demo_env]; in the second, no subscription
    is answered: the wait for the connection ends without a message. *)
Definition demo_direction (i : nat) X (op : directionE X) (w : demo_world) : X * demo_world :=
  match op in directionE X return X * demo_world with
  | Await x =>
      let answer := match x in wait A return list delivery * res A with
                    | WSubscribe s subject transport =>
                        if i =? 0 then demo_wait (WSubscribe s subject transport) else ([], Raise (TimeoutError ""))
                    | x => demo_wait x
                    end in
      (answer, w)
  | op =>
      let '(x, (d, clock)) := direction_handle demo_env _ op (dw_direction w, dw_clock w) in
      (x, DemoWorld (dw_history w) (dw_tokens w) d clock (dw_records w))
  end.

Definition demo_main X (op : mainE X) (w : demo_world) : X * demo_world :=
  match op in mainE X return X * demo_world with
  | MWhich => (true, w)
  | MReadInventory => (Ok "inventory", w)
  | MToken => (default "" (head (dw_tokens w)),
               DemoWorld (dw_history w) (tail (dw_tokens w)) (dw_direction w) (dw_clock w) (dw_records w))
  | MPick => (true, w)
  | MClock => (dw_clock w, w)
  | MCredentials _ | MStartForward _ | MFlush _ => (Ok tt, w)
  | MConnect n _ => (Ok tt, log_main w [MeOpen n])
  | MClose n => (Ok tt, log_main w [MeClose n])
  | MStopForward r => (Ok tt, log_main w [MeStop r])
  | MSnapshot _ => (Ok PNone, w)
  | MLocal f => ((f (dw_history w).1).1,
                 DemoWorld ((f (dw_history w).1).2, (dw_history w).2) (dw_tokens w) (dw_direction w) (dw_clock w) (dw_records w))
  | MDirection i _ _ op => demo_direction i _ op w
  | MRecords _ => (dw_records w, w)
  | MWrite o => (Ok tt, log_main w [MeWrite o true])
  end.

Abbreviation interrupted :=
  (run demo_main (supervised demo_loads demo_arguments 5 "20260101T000000Z-abc" [west; east])
    (DemoWorld (new_locals, []) ["0a0b0c"; "0d0e0f"] new_direction 0 [])).

Definition written (es : list main_event) : list outputs :=
  omap (λ e, match e with MeWrite o _ => Some o | _ => None end) es.

(** The exception has no text: its document reads as if there had been none,
    and one direction of two has passed. *)
Example interrupted_run_passes :
  let '(r, w) := interrupted in
  r = Raise (TimeoutError "") ∧ o_passed <$> written (dw_history w).2 = [true] ∧
  (λ o, length (o_summaries o)) <$> written (dw_history w).2 = [1].
Proof. vm_compute. split_and!; reflexivity. Qed.

(** Two regions of one identifier pass the checks of the inventory; both
    clients are the second's, and the first is not closed. *)
Definition twin : region := Region "west" "ctx-east" "nats-east".

Definition twin_loads (data : string) : res pyval :=
  if String.eqb data "inventory" then
    Ok (PDict [("regions", PList
      [PDict [("region_id", PStr "west"); ("k8s_context", PStr "ctx-west"); ("nats_cluster_name", PStr "nats-west")];
       PDict [("region_id", PStr "west"); ("k8s_context", PStr "ctx-east"); ("nats_cluster_name", PStr "nats-east")]])])
  else demo_loads data.

Example twin_regions_accepted : load_regions twin_loads "regions.yaml" (Ok "inventory") = Ok [west; twin].
Proof. vm_compute. reflexivity. Qed.

Definition closed_clients (es : list main_event) : list nat :=
  omap (λ e, match e with MeClose n => Some n | _ => None end) es.
Definition opened_clients (es : list main_event) : list nat :=
  omap (λ e, match e with MeOpen n => Some n | _ => None end) es.

Example twin_client_not_closed :
  let '(r, w) := run demo_main (supervised twin_loads demo_arguments 5 "run" [west; twin])
    (DemoWorld (new_locals, []) ["0a0b0c"] new_direction 0 []) in
  forwards_of [west; twin] = [("west", twin)] ∧
  opened_clients (dw_history w).2 = [0; 1] ∧ closed_clients (dw_history w).2 = [1].
Proof. vm_compute. split_and!; reflexivity. Qed.
