(* ===== verification/ResultValues.v ===== *)
(** * The values of a result (benchmarkservice/parse_results.py)

    The summaries of a folder, and the numbers read out of them.  Every reader
    of the module goes through [number]: the lemmas say which exceptions it can
    raise, and the [raises] hints carry that to its users. *)

From S2P Require Import Prelude PyFloat PyValue BenchConfig Reporting ClusterMetrics.
From Corelib Require Import SpecFloat.

(** ** Which exceptions escape *)

(** [m] raises only what [E] allows. *)
Definition raises {A} (E : exn → Prop) (m : res A) : Prop :=
  match m with Ok _ => True | Raise e => E e end.

Section raises.
Context (E : exn → Prop).

Lemma raises_ok {A} (a : A) : raises E (Ok a).
Proof. done. Qed.

Lemma raises_raise {A} e : E e → raises E (@Raise A e).
Proof. done. Qed.

Lemma raises_bind {A B} (m : res A) (f : A → res B) :
  raises E m → (∀ a, m = Ok a → raises E (f a)) → raises E (m ≫= f).
Proof. intros Hm Hf. destruct m as [a|e]; [by apply Hf|exact Hm]. Qed.

Lemma raises_if b e : E e → raises E (raise_if b e).
Proof. by destruct b. Qed.

Lemma raises_mapM {A B} (f : A → res B) l : (∀ a, raises E (f a)) → raises E (res_mapM f l).
Proof.
  intros Hf. induction l as [|a l IH]; [done|]. apply raises_bind; [done|]. intros b _.
  by apply raises_bind.
Qed.
End raises.

(** The exception of a [mapM] is that of one of the elements. *)
Lemma res_mapM_raise {A B} (f : A → res B) l e : res_mapM f l = Raise e → ∃ a, a ∈ l ∧ f a = Raise e.
Proof.
  induction l as [|a l IH]; [done|]. cbn [res_mapM]. destruct (f a) as [b|e'] eqn:Hf; cbn [mbind res_bind].
  - intros H. destruct (res_mapM f l) as [bs|e'']; [done|]. destruct (IH H) as (a' & ? & ?). exists a'. split; [by right|done].
  - intros [= ->]. exists a. split; [left|done].
Qed.

Create HintDb raises.
#[export] Hint Resolve raises_ok raises_raise raises_bind raises_if raises_mapM : raises.

(** Walk through binds, conditions and matches down to the leaves. *)
Ltac raises_step :=
  lazymatch goal with
  | |- raises _ (Ok _) => exact I
  | |- raises _ (Raise _) => apply raises_raise; auto with raises
  | |- raises _ (mbind _ (Ok _)) => cbn [mbind res_bind]
  | |- raises _ (mbind _ _) => apply raises_bind; [|intros ? _]
  | |- raises _ (res_mapM _ _) => apply raises_mapM; intros ?
  | |- raises _ (raise_if _ _) => apply raises_if; auto with raises
  | |- raises _ (let '(_, _) := ?x in _) => destruct x
  | |- raises _ (match ?x with _ => _ end) => destruct x
  | |- raises _ (uncurry _ ?x) => destruct x; cbn [uncurry]
  | |- raises _ _ => solve [auto with raises]
  end.
Ltac raises_tac := repeat raises_step.

(** Follow the goal along the run that [H] says succeeds. *)
Ltac follow H :=
  let x := fresh "x" in let E := fresh "E" in
  apply res_bind_ok in H as (x & E & H); try rewrite E; cbn [mbind res_bind] in H |- *.

(** ** Paths and results *)

(** A path, split at its last separator. *)
Record path := Path { pt_parent : string; pt_name : string }.
#[export] Instance path_eq_dec : EqDecision path.
Proof. solve_decision. Defined.

(** [str(path)] *)
Definition path_str (p : path) : string :=
  if String.eqb (pt_parent p) "." then pt_name p else pt_parent p +:+ "/" +:+ pt_name p.

(** [folder / name] *)
Definition path_in (folder name : string) : path := Path folder name.

(** [path.stem]: without the last suffix, unless nothing but dots is left. *)
Definition path_stem (name : string) : string :=
  let rest := drop_while (λ c, negb (chr_code c =? 46)%Z) (reverse (chars name)) in
  match rest with
  | _ :: rest =>
      if forallb (λ c, chr_code c =? 46)%Z rest then name else of_chars (reverse rest)
  | [] => name
  end.

(** [base = path.with_suffix(""); base.with_name(f"{base.name}{ending}")] *)
Definition sibling (p : path) (ending : string) : path :=
  Path (pt_parent p) (path_stem (pt_name p) +:+ ending).

(** [parse_results.py:25-28 Result] *)
Record result := Result { rs_path : path; rs_summary : mapping }.

(** [d.get(k)] *)
Definition get (d : mapping) (k : string) : pyval := default PNone (alist_get k d).

(** ** Numbers *)

Section reading.
Variable source : string.

(** [parse_results.py:56-65 _number] *)
Definition number (value : pyval) (field_name : string) : res pyfloat :=
  let bad := Raise (ResultError (source +:+ ": " +:+ field_name +:+ " must be a number")) in
  match value with
  | PBool _ => bad
  | _ =>
      match py_float value with
      | Raise (TypeError _) | Raise (ValueError _) => bad
      | Raise e => Raise e
      | Ok x =>
          if f_finite x then Ok x
          else Raise (ResultError (source +:+ ": " +:+ field_name +:+ " must be finite"))
      end
  end.

(** [float.is_integer()] *)
Definition f_is_integer (x : pyfloat) : bool :=
  match f_ratio x with Some (p, q) => (p mod q =? 0)%Z | None => false end.

(** [parse_results.py:68-72 _integer] *)
Definition integer (value : pyval) (field_name : string) : res Z :=
  x ← number value field_name;
  if f_is_integer x then f_trunc x
  else Raise (ResultError (source +:+ ": " +:+ field_name +:+ " must be an integer")).

(** [base[index]suffix], the name of a field of an element. *)
Definition indexed (base : string) (i : nat) (suffix : string) : string :=
  base +:+ "[" +:+ pretty (Z.of_nat i) +:+ "]" +:+ suffix.

(** The elements of the lists of a summary are objects. *)
Definition element (base : string) (i : nat) (v : pyval) : res mapping :=
  match v with
  | PDict d => Ok d
  | _ => Raise (ResultError (source +:+ ": " +:+ indexed base i "" +:+ " must be an object"))
  end.
End reading.

(** The elements that are there. *)
Definition kept {A} (l : list (option A)) : list A := omap id l.

Definition enumerate {A} (l : list A) : list (nat * A) := imap (λ i x, (i, x)) l.

(** [parse_results.py:119-125 _nested] *)
Fixpoint nested (value : pyval) (keys : list string) : pyval :=
  match keys with
  | [] => value
  | key :: keys =>
      match value with
      | PDict d => match alist_get key d with Some v => nested v keys | None => PNone end
      | _ => PNone
      end
  end.

(** [str(summary.get("application_type", "")).upper() == "NATS"] *)
Definition is_nats (summary : mapping) : bool :=
  String.eqb (str_upper (py_str (default (PStr "") (alist_get "application_type" summary)))) "NATS".

(** ** The results of a folder *)

(** [isinstance(value, dict) and "workload" in value and
    isinstance(value.get("business"), dict)] *)
Definition is_summary (value : pyval) : option mapping :=
  match value with
  | PDict d =>
      match alist_get "workload" d, get d "business" with
      | Some _, PDict _ => Some d
      | _, _ => None
      end
  | _ => None
  end.

(** A file of the folder: its path, and what reading and parsing it gives.
    [parse_results.py:81-96 find_results] *)
Definition read_result (file : path * res pyval) : res (option result) :=
  let '(p, content) := file in
  match content with
  | Ok value => Ok (Result p <$> is_summary value)
  | Raise (OSError m) => Raise (ResultError ("cannot read " +:+ path_str p +:+ ": " +:+ m))
  | Raise (JSONDecodeError m) => Raise (ResultError ("invalid JSON in " +:+ path_str p +:+ ": " +:+ m))
  | Raise e => Raise e
  end.

(** The files are those [rglob] finds, in the order of their paths; there are
    none when the folder is not a directory.
    [parse_results.py:75-100 find_results] *)
Definition find_results (folder : string) (files : option (list (path * res pyval))) : res (list result) :=
  match files with
  | None => Raise (ResultError ("results folder does not exist: " +:+ folder))
  | Some files =>
      found ← res_mapM read_result files;
      match kept found with
      | [] => Raise (ResultError ("no benchmark result JSON files found in " +:+ folder))
      | results => Ok results
      end
  end.

(** ** Lemmas *)

Definition is_result_error (e : exn) : Prop := ∃ m, e = ResultError m.

(** What reading a field can raise: the error that [main] reports, or the
    overflow of an integer too large for a float. *)
Definition reading_error (e : exn) : Prop := is_result_error e ∨ ∃ m, e = OverflowError m.

Lemma result_error_reading m : reading_error (ResultError m).
Proof. left. by eexists. Qed.
Lemma result_error_is m : is_result_error (ResultError m).
Proof. by eexists. Qed.
#[export] Hint Resolve result_error_reading result_error_is : raises.

Lemma number_finite source value field x : number source value field = Ok x → f_finite x = true.
Proof.
  unfold number. intros H. assert (∀ y, (if f_finite y then Ok y else Raise
    (ResultError (source +:+ ": " +:+ field +:+ " must be finite"))) = Ok x → f_finite x = true) as Hif.
  { intros y Hy. destruct (f_finite y) eqn:Hf; [|done]. by injection Hy as <-. }
  destruct value; try discriminate H; destruct (py_float _) as [y|e]; try (by apply (Hif y)); by destruct e.
Qed.

Lemma float_of_Z_raises z : raises reading_error (float_of_Z z).
Proof. unfold float_of_Z. destruct (float_ratio z 1); try done. right. by eexists. Qed.

Lemma float_of_str_raises s : raises (λ e, ∃ m, e = ValueError m) (float_of_str s).
Proof.
  unfold float_of_str. set (bad := Raise (ValueError "could not convert string to float")).
  assert (raises (λ e, ∃ m, e = ValueError m) (@Raise pyfloat (ValueError "could not convert string to float"))) as Hbad
    by (by eexists).
  repeat case_match; done.
Qed.

Lemma number_raises source value field : raises reading_error (number source value field).
Proof.
  assert (∀ m, reading_error (ResultError m)) as Hr by (intros; auto with raises).
  unfold number. destruct value as [|b|z|x|s|l|d]; cbn [py_float]; try apply Hr.
  - pose proof (float_of_Z_raises z) as H. destruct (float_of_Z z) as [x|e]; [case_match; [done|apply Hr]|].
    destruct e; try exact H; apply Hr.
  - case_match; [done|apply Hr].
  - pose proof (float_of_str_raises s) as H. destruct (float_of_str s) as [x|e]; [case_match; [done|apply Hr]|].
    destruct H as [m ->]. apply Hr.
Qed.
#[export] Hint Resolve number_raises : raises.

Lemma f_trunc_finite x : f_finite x = true → ∃ z, f_trunc x = Ok z.
Proof. unfold f_trunc, f_to_int. destruct x as [| | |s m e]; try done; intros _; cbn; [by eexists|case_match; by eexists]. Qed.

Lemma integer_raises source value field : raises reading_error (integer source value field).
Proof.
  unfold integer. apply raises_bind; [apply number_raises|]. intros x Hx%number_finite.
  case_match; [|auto with raises]. by destruct (f_trunc_finite x Hx) as [z ->].
Qed.

Lemma element_raises source base i v : raises reading_error (element source base i v).
Proof. unfold element. destruct v; auto with raises. Qed.
#[export] Hint Resolve integer_raises element_raises : raises.

(** An integer of a summary is the exact value of its number. *)
Lemma integer_exact source value field z :
  integer source value field = Ok z → ∃ x q, number source value field = Ok x ∧ f_ratio x = Some ((z * q)%Z, q) ∧ (0 < q)%Z.
Proof.
  unfold integer. intros (x & Hx & Hz)%res_bind_ok. destruct (f_is_integer x) eqn:Hint; [|done].
  unfold f_is_integer in Hint. unfold f_trunc, f_to_int in Hz.
  destruct (f_ratio x) as [[p q]|] eqn:Hr; [|done]. apply Z.eqb_eq in Hint.
  assert (0 < q)%Z as Hq.
  { destruct x as [| | |s m e]; simplify_eq/=; [done|]. destruct (0 <=? e)%Z eqn:He; injection Hr as <- <-; [done|].
    apply Z.leb_gt in He. apply Z.pow_pos_nonneg; lia. }
  assert (p = z * q)%Z as ->.
  { assert (Z.quot p q = z) as <- by (destruct x; simplify_eq/=; congruence).
    pose proof (Z.quot_rem' p q). rewrite (proj2 (Z.rem_divide p q ltac:(lia))) in H by (by apply Z.mod_divide; lia). lia. }
  by exists x, q.
Qed.

Lemma nested_lookup d k ks v : alist_get k d = Some v → nested (PDict d) (k :: ks) = nested v ks.
Proof. intros H. cbn [nested]. by rewrite H. Qed.

Lemma enumerate_lookup {A} (l : list A) i : enumerate l !! i = (λ x, (i, x)) <$> l !! i.
Proof. apply list_lookup_imap. Qed.

Lemma enumerate_length {A} (l : list A) : length (enumerate l) = length l.
Proof. apply length_imap. Qed.

(** Everything found is a summary, and nothing that is one is left out. *)
Lemma find_results_ok folder files results : find_results folder (Some files) = Ok results →
  results ≠ [] ∧ results = omap (λ f, match f.2 with Ok v => Result f.1 <$> is_summary v | Raise _ => None end) files.
Proof.
  unfold find_results, kept. intros (found & Hf & Hr)%res_bind_ok. apply res_mapM_ok in Hf.
  assert (omap id found = omap (λ f, match f.2 with Ok v => Result f.1 <$> is_summary v | Raise _ => None end) files) as <-.
  { clear Hr. induction Hf as [|[p c] o files found Ho Hf IH]; [done|]. cbn. rewrite IH.
    destruct c as [v|e]; cbn in *; [injection Ho as <-; by destruct (is_summary v)|by destruct e]. }
  destruct (omap id found) eqn:Ho; [done|]. by injection Hr as <-.
Qed.

(** ** Examples *)

Example demo_stem : path_stem "run.summary.json" = "run.summary" ∧ path_stem ".json" = ".json".
Proof. split; reflexivity. Qed.

(** A summary with an integer beyond the floats is not reported: [float()]
    raises OverflowError, which [_number] does not turn into a ResultError. *)
Example huge_integer_escapes :
  number "summary.json" (PInt (10 ^ 400)) "users" = Raise (OverflowError "int too large to convert to float").
Proof. vm_compute. reflexivity. Qed.
