(* ===== verification/SaturationResults.v ===== *)
(** * The points of a saturation run (benchmarkservice/parse_results.py)

    What is read out of the rungs of one summary: goodput, latency, pending
    events, accepted orders, the line of timed-out latencies, and the pending
    events with the plateaus replaced by ramps.  Theorems: the rate limit only
    drops points, and the interpolation is a linear ramp over each plateau. *)

From S2P Require Import Prelude PyFloat PyValue BenchConfig Reporting ClusterMetrics NatsReport ResultValues.
From Corelib Require Import SpecFloat.

(** ** Points *)

Abbreviation point := (pyfloat * pyfloat)%type.

(** [a < b] on tuples: the first coordinates that differ decide. *)
Definition point_ltb (a b : point) : bool :=
  if feqb a.1 b.1 then fltb a.2 b.2 else fltb a.1 b.1.
Definition point_le (a b : point) : Prop := point_ltb b a = false.
#[export] Instance point_le_dec a b : Decision (point_le a b).
Proof. unfold point_le. apply _. Defined.
Definition sorted_points : list point → list point := merge_sort point_le.

(** The point of a value that may be missing. *)
Definition at_rate (rate : pyfloat) (value : option pyfloat) : option point := (λ x, (rate, x)) <$> value.

(** ** Reading the rungs *)

Section reading.
Context (r : result) (saturation_limit : option pyfloat).
Let source := path_str (rs_path r).
Let summary := rs_summary r.
Let number := number source.

(** [parse_results.py:137-139 saturation_points] *)
Definition saturation_rungs : res (list pyval) :=
  match nested (PDict summary) ["saturation"; "rungs"] with
  | PList (rung :: rungs) => Ok (rung :: rungs)
  | _ => Raise (ResultError (source +:+ ": saturation.rungs must be a non-empty list"))
  end.

Definition rung_field (index : nat) (name : string) : string := indexed "saturation.rungs" index ("." +:+ name).

(** [rate > saturation_limit] *)
Definition above_limit (rate : pyfloat) : bool :=
  match saturation_limit with Some limit => fltb limit rate | None => false end.

(** The object and the rate of a rung.
    [parse_results.py:183-191 saturation_points] *)
Definition rung_rate (index : nat) (v : pyval) : res (mapping * pyfloat) :=
  rung ← element source "saturation.rungs" index v;
  rate ← number (get rung "target_requests_per_second") (rung_field index "target_requests_per_second");
  Ok (rung, rate).

Definition pending_series : pyval := nested (PDict summary) ["nats"; "consumer_pending"; "series"].
Definition series_name : string := "nats.consumer_pending.series".

(** A sample of the series: its time and its waiting events.
    [parse_results.py:157-181 saturation_points] *)
Definition series_sample (index : nat) (v : pyval) : res point :=
  sample ← element source series_name index v;
  elapsed ← number (get sample "elapsed_seconds") (indexed series_name index ".elapsed_seconds");
  waiting ← number (get sample "waiting_events") (indexed series_name index ".waiting_events");
  Ok (elapsed, waiting).

(** Without a limit the whole series is read first.
    [parse_results.py:146-181 saturation_points] *)
Definition parsed_pending_series : res (option (list point)) :=
  match pending_series, saturation_limit with
  | PList series, None =>
      if is_nats summary then samples ← res_mapM (uncurry series_sample) (enumerate series); Ok (Some samples)
      else Ok None
  | _, _ => Ok None
  end.

Definition within (started ended elapsed : pyfloat) : bool := fleb started elapsed && fleb elapsed ended.

(** With a limit the samples are read rung by rung, and the waiting events
    only of those of the rung.
    [parse_results.py:279-306 saturation_points] *)
Definition window_sample (started ended : pyfloat) (index : nat) (v : pyval) : res (option pyfloat) :=
  sample ← element source series_name index v;
  elapsed ← number (get sample "elapsed_seconds") (indexed series_name index ".elapsed_seconds");
  if within started ended elapsed
  then waiting ← number (get sample "waiting_events") (indexed series_name index ".waiting_events"); Ok (Some waiting)
  else Ok None.

(** [v is not None] *)
Definition present (v : pyval) : bool := match v with PNone => false | _ => true end.

(** The samples taken while the rung ran.
    [parse_results.py:256-307 saturation_points] *)
Definition window_samples (parsed : option (list point)) (index : nat) (rung : mapping) : res (list pyfloat) :=
  let started := get rung "started_elapsed_seconds" in
  let ended := get rung "ended_elapsed_seconds" in
  if negb (present started && present ended) then Ok [] else
  started ← number started (rung_field index "started_elapsed_seconds");
  ended ← number ended (rung_field index "ended_elapsed_seconds");
  match parsed with
  | Some series => Ok (omap (λ s : point, if within started ended s.1 then Some s.2 else None) series)
  | None =>
      match pending_series with
      | PList series =>
          waiting ← res_mapM (uncurry (window_sample started ended)) (enumerate series);
          Ok (kept waiting)
      | _ => Ok []
      end
  end.

(** The largest number of pending events of a rung: the recorded one, or the
    largest of its two ends and of the samples in between.
    [parse_results.py:246-334 saturation_points] *)
Definition pending_max (parsed : option (list point)) (index : nat) (rung : mapping) : res (option pyfloat) :=
  match nested (PDict rung) ["nats"; "consumer_pending"; "max"] with
  | PNone =>
      samples ← window_samples parsed index rung;
      values ← res_mapM (λ v, number v (rung_field index "pending events"))
        (filter present [get rung "pending_start"; get rung "pending_end"] ++ (PFloat <$> samples));
      Ok (floats_max values)
  | v => x ← number v (rung_field index "nats.consumer_pending.max"); Ok (Some x)
  end.

(** A value that may be missing. *)
Definition optional (v : pyval) (field : string) : res (option pyfloat) :=
  match v with PNone => Ok None | _ => x ← number v field; Ok (Some x) end.

(** [parse_results.py:207-214 saturation_points] *)
Definition processing_value (rung : mapping) : pyval :=
  match alist_get "processing_goodput_orders_per_second" rung with
  | Some v => v
  | None => get rung "observed_goodput_orders_per_second"
  end.

(** What a rung contributes. *)
Record rung_points := RungPoints {
  rp_rate : pyfloat;
  rp_submitted : pyfloat;
  rp_processed : option pyfloat;
  rp_latency : option pyfloat;
  rp_pending : option pyfloat;
}.

(** One turn of the loop over the rungs; [None] above the limit.
    [parse_results.py:182-334 saturation_points] *)
Definition read_rung (parsed : option (list point)) (index : nat) (v : pyval) : res (option rung_points) :=
  '(rung, rate) ← rung_rate index v;
  if above_limit rate then Ok None else
  submitted ← number (nested (PDict rung) ["business"; "goodput_orders_per_second"])
    (rung_field index "business.goodput_orders_per_second");
  processed ← optional (processing_value rung) (rung_field index "processing_goodput_orders_per_second");
  latency ← optional (nested (PDict rung) ["business"; "checkout_to_outcome"; "p95_ms"])
    (rung_field index "business.checkout_to_outcome.p95_ms");
  pending ← (if is_nats summary then pending_max parsed index rung else Ok None);
  Ok (Some (RungPoints rate submitted processed latency pending)).

Definition series_of (f : rung_points → option pyfloat) (rungs : list rung_points) : list point :=
  omap (λ p, at_rate (rp_rate p) (f p)) rungs.

Record saturation_series := SaturationSeries {
  ss_submitted : list point;
  ss_processed : list point;
  ss_pending : list point;
  ss_latency : list point;
}.

Definition series_of_rungs (rungs : list rung_points) : saturation_series :=
  SaturationSeries
    (sorted_points (series_of (λ p, Some (rp_submitted p)) rungs))
    (sorted_points (series_of rp_processed rungs))
    (sorted_points (series_of rp_pending rungs))
    (sorted_points (series_of rp_latency rungs)).

Definition read_rungs : res (list rung_points) :=
  rungs ← saturation_rungs;
  parsed ← parsed_pending_series;
  read ← res_mapM (uncurry (read_rung parsed)) (enumerate rungs);
  Ok (kept read).

(** [parse_results.py:128-340 saturation_points] *)
Definition saturation_points : res saturation_series :=
  rungs ← read_rungs; Ok (series_of_rungs rungs).

(** ** Other series of a run *)

(** [parse_results.py:385-416 saturation_accepted_points] *)
Definition accepted_point (index : nat) (v : pyval) : res (option point) :=
  '(rung, rate) ← rung_rate index v;
  if above_limit rate then Ok None else
  accepted ← number (nested (PDict rung) ["business"; "accepted"]) (rung_field index "business.accepted");
  duration ← number (get rung "duration_seconds") (rung_field index "duration_seconds");
  raise_if (fltb accepted (float_dec 0 0))
    (ResultError (source +:+ ": " +:+ rung_field index "business.accepted" +:+ " must not be negative"));;
  raise_if (fleb duration (float_dec 0 0))
    (ResultError (source +:+ ": " +:+ rung_field index "duration_seconds" +:+ " must be positive"));;
  value ← f_truediv accepted duration;
  Ok (Some (rate, value)).

(** [parse_results.py:372-417 saturation_accepted_points] *)
Definition saturation_accepted_points : res (list point) :=
  rungs ← saturation_rungs;
  points ← res_mapM (uncurry accepted_point) (enumerate rungs);
  Ok (sorted_points (kept points)).

(** [parse_results.py:435-462 saturation_acceptance_latency_points] *)
Definition acceptance_point (index : nat) (v : pyval) : res (option point) :=
  '(rung, rate) ← rung_rate index v;
  if above_limit rate then Ok None else
  latency ← optional (nested (PDict rung) ["business"; "checkout_acceptance"; "p95_ms"])
    (rung_field index "business.checkout_acceptance.p95_ms");
  Ok (at_rate rate latency).

(** [parse_results.py:420-463 saturation_acceptance_latency_points] *)
Definition saturation_acceptance_latency_points : res (list point) :=
  if negb (is_nats summary) then Ok [] else
  rungs ← saturation_rungs;
  points ← res_mapM (uncurry acceptance_point) (enumerate rungs);
  Ok (sorted_points (kept points)).

(** The 30 seconds after which a checkout is given up. *)
Definition timeout_ms : pyfloat := float_dec 30000 0.

(** [timed_out], [points] and [previous_measured] of the loop. *)
Record timeout_state := TimeoutState {
  tm_timed_out : bool;
  tm_points : list point;
  tm_previous : option point;
}.

(** [parse_results.py:478-507 saturation_latency_timeout_points] *)
Definition timeout_turn (s : timeout_state) (index : nat) (v : pyval) : res timeout_state :=
  '(rung, rate) ← rung_rate index v;
  if above_limit rate then Ok s else
  s ← match nested (PDict rung) ["business"; "checkout_to_outcome"; "p95_ms"] with
      | PNone =>
          Ok (TimeoutState true
            (tm_points s ++ (if tm_timed_out s then [] else option_list (tm_previous s))) (tm_previous s))
      | latency =>
          if tm_timed_out s then Ok s else
          x ← number latency (rung_field index "business.checkout_to_outcome.p95_ms");
          Ok (TimeoutState false (tm_points s) (Some (rate, x)))
      end;
  Ok (if tm_timed_out s then TimeoutState true (tm_points s ++ [(rate, timeout_ms)]) (tm_previous s) else s).

Fixpoint timeout_loop (s : timeout_state) (rungs : list (nat * pyval)) : res timeout_state :=
  match rungs with
  | [] => Ok s
  | (index, rung) :: rungs => s ← timeout_turn s index rung; timeout_loop s rungs
  end.

(** [parse_results.py:466-508 saturation_latency_timeout_points] *)
Definition saturation_latency_timeout_points : res (list point) :=
  match nested (PDict summary) ["saturation"; "rungs"] with
  | PList rungs => s ← timeout_loop (TimeoutState false [] None) (enumerate rungs); Ok (tm_points s)
  | _ => Ok []
  end.
End reading.

(** ** Plateaus of pending events *)

(** The index after the run of equal values that [index] starts.
    [parse_results.py:352-357 saturation_interpolated_pending_points] *)
Fixpoint plateau_scan (points : list point) (value : pyfloat) (index : nat) : nat :=
  match points with
  | p :: points => if feqb p.2 value then plateau_scan points value (S index) else index
  | [] => index
  end.
Definition plateau_end (faithful : list point) (index : nat) (value : pyfloat) : nat :=
  plateau_scan (drop (S index) faithful) value (S index).

(** A value on the line from [start] to [stop].
    [parse_results.py:363-366 saturation_interpolated_pending_points] *)
Definition ramp (start stop : point) (rate : pyfloat) : res pyfloat :=
  fraction ← f_truediv (fsub rate start.1) (fsub stop.1 start.1);
  Ok (fadd start.2 (fmul fraction (fsub stop.2 start.2))).

(** [for repeated_index in range(index, index + count)].
    [parse_results.py:361-367 saturation_interpolated_pending_points] *)
Fixpoint ramp_loop (faithful : list point) (start stop : point) (index count : nat) (interpolated : list point)
    : res (list point) :=
  match count with
  | O => Ok interpolated
  | S count =>
      match faithful !! index with
      | None => Raise (IndexError "list index out of range")
      | Some p =>
          value ← ramp start stop p.1;
          ramp_loop faithful start stop (S index) count (<[index := (p.1, value)]> interpolated)
      end
  end.

(** The loop over the plateaus; each turn ends beyond its index, so the length
    of the list is enough fuel.
    [parse_results.py:349-369 saturation_interpolated_pending_points] *)
Fixpoint interpolate_loop (fuel : nat) (faithful : list point) (index : nat) (interpolated : list point)
    : res (list point) :=
  match fuel with
  | O => Ok interpolated
  | S fuel =>
      match faithful !! index with
      | None => Ok interpolated
      | Some start =>
          let stop := plateau_end faithful index start.2 in
          interpolated ←
            match faithful !! stop with
            | Some end_point =>
                if S index <? stop
                then ramp_loop faithful start end_point (S index) (stop - S index) interpolated
                else Ok interpolated
            | None => Ok interpolated
            end;
          interpolate_loop fuel faithful stop interpolated
      end
  end.
Definition interpolate (faithful : list point) : res (list point) :=
  interpolate_loop (length faithful) faithful 0 faithful.

(** [parse_results.py:343-369 saturation_interpolated_pending_points] *)
Definition saturation_interpolated_pending_points (r : result) (saturation_limit : option pyfloat)
    : res (list point) :=
  series ← saturation_points r saturation_limit; interpolate (ss_pending series).

(** ** The limit only drops points *)

Section limit.
Context (r : result) (limit : pyfloat).

Lemma window_sample_agrees started ended index v (s : point) :
  series_sample r index v = Ok s →
  window_sample r started ended index v = Ok (if within started ended s.1 then Some s.2 else None).
Proof.
  unfold series_sample, window_sample. intros H. follow H. follow H. destruct (within _ _ _) eqn:Hin.
  - follow H. injection H as <-. cbn [fst snd]. by rewrite Hin.
  - apply res_bind_ok in H as (waiting & _ & [= <-]). cbn [fst snd]. by rewrite Hin.
Qed.

(** Reading the samples of a rung one by one finds what the whole series has. *)
Lemma window_samples_agree index rung series samples :
  pending_series r = PList series → res_mapM (uncurry (series_sample r)) (enumerate series) = Ok samples →
  window_samples r None index rung = window_samples r (Some samples) index rung.
Proof.
  intros Hseries Hsamples. unfold window_samples. case_match; [done|].
  destruct (ResultValues.number _ (get rung "started_elapsed_seconds") _) as [started|e]; [|done].
  cbn [mbind res_bind].
  destruct (ResultValues.number _ (get rung "ended_elapsed_seconds") _) as [ended|e]; [|done].
  cbn [mbind res_bind]. rewrite Hseries.
  assert (res_mapM (uncurry (window_sample r started ended)) (enumerate series)
    = Ok ((λ s : point, if within started ended s.1 then Some s.2 else None) <$> samples)) as ->.
  { apply res_mapM_ok. apply res_mapM_ok in Hsamples. apply Forall2_fmap_r.
    eapply Forall2_impl; [exact Hsamples|]. intros [i v] s. apply window_sample_agrees. }
  cbn [mbind res_bind]. f_equal. unfold kept. clear. induction samples as [|s samples IH]; [done|].
  cbn. destruct (within _ _ _); cbn; by rewrite IH.
Qed.

(** What both readings take for the pending events of a rung. *)
Lemma pending_agrees parsed index rung : is_nats (rs_summary r) = true →
  parsed_pending_series r None = Ok parsed → pending_max r None index rung = pending_max r parsed index rung.
Proof.
  intros Hnats Hparsed. unfold pending_max. destruct (nested (PDict rung) _); try done.
  f_equal. unfold parsed_pending_series in Hparsed. rewrite Hnats in Hparsed.
  destruct (pending_series r) as [| | | | |series|] eqn:Hseries; simplify_eq/=; try done.
  apply res_bind_ok in Hparsed as (samples & Hs & [= <-]). by eapply window_samples_agree.
Qed.

(** A rung is read alike with and without the limit, or dropped by it. *)
Lemma read_rung_limited parsed index v o : parsed_pending_series r None = Ok parsed →
  read_rung r None parsed index v = Ok o →
  ∃ p, o = Some p ∧ read_rung r (Some limit) None index v = Ok (if fltb limit (rp_rate p) then None else Some p).
Proof.
  intros Hparsed. unfold read_rung. intros ([rung rate] & -> & H)%res_bind_ok. cbn [mbind res_bind above_limit] in H |- *.
  apply res_bind_ok in H as (submitted & Hs & H). apply res_bind_ok in H as (processed & Hp & H).
  apply res_bind_ok in H as (latency & Hl & H). apply res_bind_ok in H as (pending & Hw & [= <-]).
  eexists. split; [done|]. cbn [rp_rate]. destruct (fltb limit rate); [done|].
  rewrite Hs. cbn [mbind res_bind]. rewrite Hp. cbn [mbind res_bind]. rewrite Hl. cbn [mbind res_bind].
  destruct (is_nats (rs_summary r)) eqn:Hnats; [|by injection Hw as <-].
  by rewrite (pending_agrees parsed) by done; rewrite Hw.
Qed.

(** A rung, or a point, that the limit keeps. *)
Definition below (p : rung_points) : Prop := fltb limit (rp_rate p) = false.
#[export] Instance below_dec p : Decision (below p).
Proof. unfold below. apply _. Defined.

Lemma read_rungs_limited rungs : read_rungs r None = Ok rungs → read_rungs r (Some limit) = Ok (filter below rungs).
Proof.
  unfold read_rungs. intros (found & -> & H)%res_bind_ok. apply res_bind_ok in H as (parsed & Hparsed & H).
  apply res_bind_ok in H as (read & Hread & [= <-]). cbn [mbind res_bind].
  replace (parsed_pending_series r (Some limit)) with (@Ok (option (list point)) None)
    by (unfold parsed_pending_series; by destruct (pending_series r)).
  cbn [mbind res_bind]. apply res_mapM_ok in Hread.
  assert (∃ limited, Forall2 (λ a b, uncurry (read_rung r (Some limit) None) a = Ok b) (enumerate found) limited ∧
    kept limited = filter below (kept read)) as (limited & Hlim & Hkept).
  { clear -Hread Hparsed. induction Hread as [|[i v] o l read Ho _ (limited & Hlim & Hkept)].
    { by exists []. }
    destruct (read_rung_limited parsed i v o Hparsed Ho) as (p & -> & Hp).
    eexists (_ :: limited). split; [by constructor|]. change (kept (Some p :: read)) with (p :: kept read).
    rewrite filter_cons, <-Hkept. unfold kept. cbn [omap list_omap].
    by destruct (decide (below p)) as [Hb|Hb]; unfold below in Hb; [rewrite Hb|apply not_false_iff_true in Hb; rewrite Hb]. }
  apply res_mapM_ok in Hlim. rewrite Hlim. cbn [mbind res_bind]. by rewrite Hkept.
Qed.

Definition within_limit (p : point) : Prop := fltb limit p.1 = false.
#[export] Instance within_limit_dec p : Decision (within_limit p).
Proof. unfold within_limit. apply _. Defined.

Lemma series_of_filter f rungs : series_of f (filter below rungs) = filter within_limit (series_of f rungs).
Proof.
  induction rungs as [|p rungs IH]; [done|]. unfold series_of, at_rate in *. cbn [omap list_omap].
  destruct (decide (below p)) as [Hb|Hb].
  - rewrite filter_cons_True by done. cbn [omap list_omap]. destruct (f p) as [x|]; cbn [fmap option_fmap option_map]; [|exact IH].
    rewrite filter_cons_True by exact Hb. by f_equal.
  - rewrite filter_cons_False by done. rewrite IH. destruct (f p) as [x|]; cbn [fmap option_fmap option_map]; [|done]. by rewrite filter_cons_False.
Qed.
End limit.

(** ** Order *)

Lemma feqb_rank x y : feqb x y = true ↔ f_is_nan x = false ∧ f_is_nan y = false ∧ f_rank x = f_rank y.
Proof.
  unfold feqb, SFeqb, SFcompare.
  destruct x as [[]|[]| |[] m e], y as [[]|[]| |[] m' e']; simpl;
    try (split; [intros ?|intros (?&?&?)]; first [done|simplify_eq; done]).
  all: destruct (Z.compare_spec e e') as [->|?|?].
  all: fold (Pos.compare m m'); try destruct (Pos.compare_spec m m'); simpl; subst.
  all: split; [intros ?; split_and!; first [done|lia]|intros (?&?&[=]); first [done|lia]].
Qed.

Lemma feqb_sym x y : feqb x y = feqb y x.
Proof. apply eq_bool_prop_intro. rewrite !Is_true_true, !feqb_rank. naive_solver. Qed.

Lemma feqb_trans x y z : feqb x y = true → feqb y z = true → feqb x z = true.
Proof. rewrite !feqb_rank. naive_solver congruence. Qed.

Lemma feqb_refl x : f_is_nan x = false → feqb x x = true.
Proof. intros H. by rewrite feqb_rank. Qed.

#[export] Instance point_le_total : Total point_le.
Proof.
  intros a b. unfold point_le. destruct (point_ltb b a) eqn:Hba; [right|by left].
  unfold point_ltb in *. apply not_true_iff_false. intros Hab.
  assert (feqb a.1 b.1 = feqb b.1 a.1) as Hsym by apply feqb_sym.
  rewrite Hsym in Hab. destruct (feqb b.1 a.1).
  - pose proof (fltb_trans _ _ _ Hab Hba) as H. by rewrite fltb_irrefl in H.
  - pose proof (fltb_trans _ _ _ Hab Hba) as H. by rewrite fltb_irrefl in H.
Qed.

Lemma sorted_points_spec l : Sorted point_le (sorted_points l) ∧ sorted_points l ≡ₚ l.
Proof. split; [apply Sorted_merge_sort, _|apply merge_sort_Permutation]. Qed.

(** [l] has the points of [l'] that the limit keeps, and is sorted. *)
Definition kept_points (limit : pyfloat) (l l' : list point) : Prop :=
  Sorted point_le l ∧ l ≡ₚ filter (within_limit limit) l'.

Lemma kept_sorted limit f rungs :
  kept_points limit (sorted_points (series_of f (filter (below limit) rungs))) (sorted_points (series_of f rungs)).
Proof.
  destruct (sorted_points_spec (series_of f (filter (below limit) rungs))) as [Hs Hp]. split; [done|].
  rewrite Hp, series_of_filter. by rewrite (proj2 (sorted_points_spec (series_of f rungs))).
Qed.

(** C1: The option [--saturation-limit] only drops points.  When a summary can
    be read without a limit, it can be read with any limit, and each of its
    four series then has exactly the points of the unlimited one whose rate
    does not exceed the limit, in order: although the samples of the pending
    events are read once for all rungs without a limit and again for every
    rung with one, both readings give each rung the same maximum. *)
Theorem limit_only_drops r limit all : saturation_points r None = Ok all →
  ∃ limited, saturation_points r (Some limit) = Ok limited ∧
    kept_points limit (ss_submitted limited) (ss_submitted all) ∧
    kept_points limit (ss_processed limited) (ss_processed all) ∧
    kept_points limit (ss_pending limited) (ss_pending all) ∧
    kept_points limit (ss_latency limited) (ss_latency all).
Proof.
  unfold saturation_points. intros (rungs & Hr & [= <-])%res_bind_ok.
  rewrite (read_rungs_limited r limit rungs Hr). eexists. split; [done|]. split_and!; apply kept_sorted.
Qed.

(** ** The ramps *)

Section ramps.
Variable faithful : list point.
Hypothesis numbers : Forall (λ p : point, f_is_nan p.2 = false) faithful.

Definition same_value (i j : nat) : Prop :=
  ∃ p q : point, faithful !! i = Some p ∧ faithful !! j = Some q ∧ feqb p.2 q.2 = true.

Lemma same_value_sym i j : same_value i j → same_value j i.
Proof. intros (p & q & Hp & Hq & H). exists q, p. by rewrite feqb_sym. Qed.
Lemma same_value_trans i j k : same_value i j → same_value j k → same_value i k.
Proof. intros (p & q & Hp & Hq & H) (q' & s & Hq' & Hs & H'). simplify_eq. exists p, s. split_and!; [done..|]. by eapply feqb_trans. Qed.
Lemma same_value_refl i : i < length faithful → same_value i i.
Proof.
  intros [p Hp]%lookup_lt_is_Some_2. exists p, p. split_and!; [done..|]. apply feqb_refl.
  rewrite Forall_lookup in numbers. by eapply numbers.
Qed.

(** The indexes [i .. j - 1] are a maximal run of equal values. *)
Definition plateau (i j : nat) : Prop :=
  i < j ≤ length faithful ∧ (∀ k, i ≤ k < j → same_value i k) ∧
  (i = 0 ∨ ¬ same_value (i - 1) i) ∧ (j = length faithful ∨ ¬ same_value i j).

Lemma plateau_unique i j i' j' k : plateau i j → plateau i' j' → i ≤ k < j → i' ≤ k < j' → i = i' ∧ j = j'.
Proof.
  intros (Hb & Hin & Hl & Hr) (Hb' & Hin' & Hl' & Hr') Hk Hk'.
  assert (same_value i i') as Hii.
  { eapply same_value_trans; [apply Hin, Hk|]. apply same_value_sym, Hin', Hk'. }
  assert (∀ i j i', (∀ k, i ≤ k < j → same_value i k) → (i' = 0 ∨ ¬ same_value (i' - 1) i') →
    same_value i i' → i < i' → i' ≤ j → False) as Hstart.
  { clear. intros i j i' Hin [->|Hl] Hii Hlt Hj; [lia|]. apply Hl.
    eapply same_value_trans; [|exact Hii]. apply same_value_sym, Hin. lia. }
  assert (i = i') as <-.
  { destruct (decide (i < i')) as [Hlt|]; [exfalso; apply (Hstart i j i'); auto; lia|].
    destruct (decide (i' < i)) as [Hlt|]; [exfalso; apply (Hstart i' j' i); auto using same_value_sym; lia|lia]. }
  split; [done|]. destruct (decide (j < j')) as [Hlt|].
  { destruct Hr as [->|Hr]; [lia|]. exfalso. apply Hr, Hin'. lia. }
  destruct (decide (j' < j)) as [Hlt|]; [|lia]. destruct Hr' as [->|Hr']; [lia|]. exfalso. apply Hr', Hin. lia.
Qed.

(** A list that follows the ramps: of the run [i .. j - 1] the first point
    stays, and the later ones move to the line towards the point [j] when
    there is one. *)
Definition follows_ramp (out : list point) (i j k : nat) : Prop :=
  if decide (k = i ∨ j = length faithful) then out !! k = faithful !! k
  else ∃ start stop p value, faithful !! i = Some start ∧ faithful !! j = Some stop ∧ faithful !! k = Some p ∧
    ramp start stop p.1 = Ok value ∧ out !! k = Some (p.1, value).

Lemma plateau_scan_spec points value index : f_is_nan value = false →
  let stop := plateau_scan points value index in
  index ≤ stop ≤ index + length points ∧
  (∀ k p, points !! k = Some p → index + k < stop → feqb p.2 value = true) ∧
  (∀ p, points !! (stop - index) = Some p → feqb p.2 value = false).
Proof.
  intros Hv. revert index. induction points as [|p points IH]; intros index; cbn [plateau_scan length].
  { split_and!; [lia|lia|done|done]. }
  destruct (feqb p.2 value) eqn:Heq.
  - destruct (IH (S index)) as (Hb & Hin & Hout). split_and!; [lia|lia| |].
    + intros [|k] q Hq Hk; [by injection Hq as <-|]. apply (Hin k); [done|lia].
    + intros q Hq. apply Hout. replace (plateau_scan points value (S index) - index)
        with (S (plateau_scan points value (S index) - S index)) in Hq by lia. done.
  - split_and!; [lia|lia|intros; lia|]. rewrite Nat.sub_diag. by intros q [= <-].
Qed.

Lemma plateau_end_spec i p : faithful !! i = Some p → (i = 0 ∨ ¬ same_value (i - 1) i) → plateau i (plateau_end faithful i p.2).
Proof.
  intros Hi Hleft. pose proof (lookup_lt_Some _ _ _ Hi) as Hlt. unfold plateau_end.
  assert (f_is_nan p.2 = false) as Hn by (rewrite Forall_lookup in numbers; by eapply numbers).
  destruct (plateau_scan_spec (drop (S i) faithful) p.2 (S i) Hn) as (Hb & Hin & Hout).
  set (stop := plateau_scan _ _ _) in *. rewrite length_drop in Hb. split_and!; [lia|lia| |done|].
  - intros k Hk. destruct (decide (k = i)) as [->|Hne]; [by apply same_value_refl|].
    destruct (lookup_lt_is_Some_2 faithful k ltac:(lia)) as [q Hq]. exists p, q. split_and!; [done..|].
    rewrite feqb_sym. apply (Hin (k - S i)); [|lia]. rewrite lookup_drop. by replace (S i + (k - S i)) with k by lia.
  - destruct (decide (stop = length faithful)) as [|Hne]; [by left|right]. intros (p' & q & Hp' & Hq & H). simplify_eq.
    rewrite feqb_sym in H. rewrite (Hout q) in H; [done|]. rewrite lookup_drop. by replace (S i + (stop - S i)) with stop by lia.
Qed.

Lemma ramp_raises start stop rate e : ramp start stop rate = Raise e →
  e = ZeroDivisionError "division by zero" ∧ f_is_zero (fsub stop.1 start.1) = true.
Proof. unfold ramp, f_truediv. case_match; [by intros [= <-]|done]. Qed.

Lemma ramp_loop_spec start stop index count interpolated :
  index + count ≤ length faithful → length interpolated = length faithful →
  match ramp_loop faithful start stop index count interpolated with
  | Ok out =>
      length out = length faithful ∧
      (∀ k, k < index ∨ index + count ≤ k → out !! k = interpolated !! k) ∧
      (∀ k, index ≤ k < index + count → ∃ p value, faithful !! k = Some p ∧
         ramp start stop p.1 = Ok value ∧ out !! k = Some (p.1, value))
  | Raise e => 0 < count ∧ e = ZeroDivisionError "division by zero" ∧ f_is_zero (fsub stop.1 start.1) = true
  end.
Proof.
  revert index interpolated. induction count as [|count IH]; intros index interpolated Hb Hlen; cbn [ramp_loop].
  { split_and!; [done|done|intros; lia]. }
  destruct (lookup_lt_is_Some_2 faithful index ltac:(lia)) as [p Hp]. rewrite Hp.
  destruct (ramp start stop p.1) as [value|e] eqn:Hramp; cbn [mbind res_bind];
    [|apply ramp_raises in Hramp as [-> ?]; split_and!; [lia|done..]].
  specialize (IH (S index) (<[index := (p.1, value)]> interpolated) ltac:(lia)).
  rewrite length_insert in IH. specialize (IH Hlen).
  destruct (ramp_loop _ _ _ _ _ _) as [out|e]; [|split; [lia|apply IH]].
  destruct IH as (Hl & Hout & Hin). split_and!; [done| |].
  - intros k Hk. rewrite Hout by lia. by rewrite list_lookup_insert_ne by lia.
  - intros k Hk. destruct (decide (k = index)) as [->|Hne]; [|apply Hin; lia].
    exists p, value. split_and!; [done..|]. rewrite Hout by lia. by rewrite list_lookup_insert_eq by lia.
Qed.

(** A plateau whose ramp has no width. *)
Definition vertical (i j : nat) : Prop :=
  plateau i j ∧ S i < j ∧ ∃ start stop, faithful !! i = Some start ∧ faithful !! j = Some stop ∧
    f_is_zero (fsub stop.1 start.1) = true.

Lemma interpolate_loop_spec fuel index interpolated :
  length faithful ≤ index + fuel → index ≤ length faithful →
  (index = 0 ∨ index = length faithful ∨ ¬ same_value (index - 1) index) → length interpolated = length faithful →
  (∀ k, index ≤ k → interpolated !! k = faithful !! k) →
  match interpolate_loop fuel faithful index interpolated with
  | Ok out =>
      length out = length faithful ∧ (∀ k, k < index → out !! k = interpolated !! k) ∧
      (∀ i j k, plateau i j → index ≤ i → i ≤ k < j → follows_ramp out i j k)
  | Raise e => e = ZeroDivisionError "division by zero" ∧ ∃ i j, vertical i j
  end.
Proof.
  revert index interpolated. induction fuel as [|fuel IH]; intros index interpolated Hfuel Hle Hstart Hlen Hrest.
  { cbn. split_and!; [done..|]. intros i j k [Hb _]. lia. }
  cbn [interpolate_loop]. destruct (faithful !! index) as [start|] eqn:Hi.
  2:{ apply lookup_ge_None in Hi. split_and!; [done..|]. intros i j k [Hb _]. lia. }
  pose proof (lookup_lt_Some _ _ _ Hi) as Hlt.
  assert (plateau index (plateau_end faithful index start.2)) as Hplateau.
  { apply plateau_end_spec; [done|]. destruct Hstart as [?|[?|?]]; [by left|lia|by right]. }
  set (stop := plateau_end faithful index start.2) in *. pose proof Hplateau as (Hb & _ & _ & Hright).
  assert (∀ turn, length turn = length faithful → (∀ k, k < S index ∨ stop ≤ k → turn !! k = interpolated !! k) →
    (∀ k, index ≤ k < stop → follows_ramp turn index stop k) →
    match interpolate_loop fuel faithful stop turn with
    | Ok out =>
        length out = length faithful ∧ (∀ k, k < index → out !! k = interpolated !! k) ∧
        (∀ i j k, plateau i j → index ≤ i → i ≤ k < j → follows_ramp out i j k)
    | Raise e => e = ZeroDivisionError "division by zero" ∧ ∃ i j, vertical i j
    end) as Hnext.
  { intros turn Htlen Hsame Hturn. specialize (IH stop turn ltac:(lia) ltac:(lia)).
    destruct (interpolate_loop fuel faithful stop turn) as [out|e].
    - destruct IH as (Hl & Hbefore & Hafter); [|done| |split_and!; [done| |]].
      + destruct Hright as [->|Hr]; [by right; left|]. right; right. intros Hs. apply Hr.
        eapply same_value_trans; [|exact Hs]. apply Hplateau. lia.
      + intros k Hk. rewrite Hsame by lia. apply Hrest. lia.
      + intros k Hk. rewrite Hbefore by lia. apply Hsame. lia.
      + intros i j k Hp Hge Hk. destruct (decide (i < stop)) as [Hin|]; [|apply Hafter; [done|lia|done]].
        destruct (plateau_unique i j index stop i Hp Hplateau) as [-> ->]; [destruct Hp; lia|lia|].
        specialize (Hturn k Hk). unfold follows_ramp in *. by rewrite Hbefore by lia.
    - apply IH; [|done|].
      + destruct Hright as [->|Hr]; [by right; left|]. right; right. intros Hs. apply Hr.
        eapply same_value_trans; [|exact Hs]. apply Hplateau. lia.
      + intros k Hk. rewrite Hsame by lia. apply Hrest. lia. }
  destruct (faithful !! stop) as [end_point|] eqn:Hstop.
  - destruct (Nat.ltb_spec (S index) stop) as [Hlong|Hshort].
    + pose proof (ramp_loop_spec start end_point (S index) (stop - S index) interpolated ltac:(lia) Hlen) as Hramp.
      pose proof (lookup_lt_Some _ _ _ Hstop) as Hslt.
      destruct (ramp_loop _ _ _ _ _ _) as [turn|e]; cbn [mbind res_bind].
      2:{ destruct Hramp as (_ & -> & Hz). split; [done|]. exists index, stop. split_and!; [done|done|]. eauto. }
      destruct Hramp as (Htl & Hout & Hin). apply Hnext; [done|intros k Hk; apply Hout; lia|].
      intros k Hk. unfold follows_ramp. case_decide as Hd.
      * destruct Hd as [->|Hd]; [|lia]. rewrite Hout by lia. apply Hrest. lia.
      * destruct (Hin k ltac:(lia)) as (p & value & Hp & Hr & Ho). by exists start, end_point, p, value.
    + apply Hnext; [done..|]. intros k Hk. unfold follows_ramp. rewrite decide_True by lia. apply Hrest. lia.
  - apply lookup_ge_None in Hstop. apply Hnext; [done..|]. intros k Hk. unfold follows_ramp.
    rewrite decide_True by (right; lia). apply Hrest. lia.
Qed.
End ramps.

(** ** What reading a summary can do *)

Section outcomes.
Context (r : result) (limit : option pyfloat).

Lemma optional_raises v field : raises reading_error (optional r v field).
Proof. unfold optional. destruct v; raises_tac. Qed.

Lemma rung_rate_raises index v : raises reading_error (rung_rate r index v).
Proof. unfold rung_rate. raises_tac. Qed.

Lemma window_samples_raises parsed index rung : raises reading_error (window_samples r parsed index rung).
Proof.
  unfold window_samples, window_sample. raises_tac.
Qed.

Lemma pending_max_raises parsed index rung : raises reading_error (pending_max r parsed index rung).
Proof.
  unfold pending_max. pose proof (window_samples_raises parsed index rung). destruct (nested _ _); raises_tac.
Qed.

Lemma saturation_rungs_raises : raises reading_error (saturation_rungs r).
Proof. unfold saturation_rungs. raises_tac. Qed.

Lemma parsed_raises : raises reading_error (parsed_pending_series r limit).
Proof.
  unfold parsed_pending_series. unfold series_sample. raises_tac.
Qed.
#[local] Hint Resolve optional_raises rung_rate_raises pending_max_raises saturation_rungs_raises parsed_raises : raises.

Lemma saturation_points_raises : raises reading_error (saturation_points r limit).
Proof.
  unfold saturation_points, read_rungs. unfold read_rung. raises_tac.
Qed.
End outcomes.

Lemma floats_max_elem l x : floats_max l = Some x → x ∈ l.
Proof.
  destruct l as [|a l]; [done|]. intros [= <-]. revert a. induction l as [|b l IH]; intros a; cbn [foldl]; [left|].
  destruct (elem_of_cons l (foldl f_max (f_max a b) l) (f_max a b)) as [Hc _]. destruct (Hc (IH _)) as [->|H].
  - unfold f_max. case_match; [right; left|left].
  - by do 2 right.
Qed.

Lemma pending_max_finite r parsed index rung x : pending_max r parsed index rung = Ok (Some x) → f_finite x = true.
Proof.
  unfold pending_max. intros H.
  assert (∀ v, (y ← ResultValues.number (path_str (rs_path r)) v (rung_field index "nats.consumer_pending.max");
    Ok (Some y)) = Ok (Some x) → f_finite x = true) as Hn.
  { intros v (y & Hy & [= ->])%res_bind_ok. by eapply number_finite. }
  destruct (nested _ _); try by eapply Hn. clear Hn.
  apply res_bind_ok in H as (samples & _ & H). apply res_bind_ok in H as (values & Hv & [= Hx]).
  apply floats_max_elem, list_elem_of_lookup_1 in Hx as [i Hi]. apply res_mapM_ok in Hv.
  destruct (Forall2_lookup_r _ _ _ _ _ Hv Hi) as (v & _ & Hn). by eapply number_finite.
Qed.

Lemma pending_finite r limit series : saturation_points r limit = Ok series →
  Forall (λ p : point, f_is_nan p.2 = false) (ss_pending series).
Proof.
  unfold saturation_points, read_rungs. intros H. apply res_bind_ok in H as (rungs & H & [= <-]).
  apply res_bind_ok in H as (found & _ & H). apply res_bind_ok in H as (parsed & _ & H).
  apply res_bind_ok in H as (read & Hread & [= <-]). apply res_mapM_ok in Hread. cbn [ss_pending series_of_rungs].
  unfold sorted_points. rewrite merge_sort_Permutation. apply Forall_forall. intros p Hp.
  unfold series_of in Hp. apply list_elem_of_omap in Hp as (q & Hq & Hp).
  apply list_elem_of_omap in Hq as (o & Ho & Hq). cbn in Hq. subst o.
  apply list_elem_of_lookup_1 in Ho as [i Hi]. destruct (Forall2_lookup_r _ _ _ _ _ Hread Hi) as ([j v] & _ & Hr).
  cbn [uncurry] in Hr. unfold read_rung in Hr. apply res_bind_ok in Hr as ([rung rate] & _ & Hr).
  destruct (above_limit _ _); [done|]. do 3 apply res_bind_ok in Hr as (? & _ & Hr).
  apply res_bind_ok in Hr as (pending & Hw & [= <-]). unfold at_rate in Hp. cbn [rp_pending rp_rate] in Hp.
  destruct pending as [y|]; [|done]. injection Hp as <-. cbn [snd].
  destruct (is_nats _); [|done]. apply pending_max_finite in Hw. by destruct y.
Qed.

(** C2: The interpolation of the pending events replaces exactly the plateaus.
    When it succeeds, the points are those of the run, at the same rates; of
    every maximal run of equal values the first point stays where it is, the
    others lie on the line from it to the point after the run, and the last
    run, which has no such point, stays as it is.  It fails only when the
    summary cannot be read, or with a division by zero, and then some plateau
    ends at the rate it began with. *)
Theorem interpolation_spec r limit :
  match saturation_interpolated_pending_points r limit with
  | Ok out => ∃ series, saturation_points r limit = Ok series ∧
      length out = length (ss_pending series) ∧
      (∀ i j k, plateau (ss_pending series) i j → i ≤ k < j → follows_ramp (ss_pending series) out i j k)
  | Raise e => reading_error e ∨
      e = ZeroDivisionError "division by zero" ∧
      ∃ series, saturation_points r limit = Ok series ∧ ∃ i j, vertical (ss_pending series) i j
  end.
Proof.
  unfold saturation_interpolated_pending_points. pose proof (saturation_points_raises r limit) as Hraise.
  destruct (saturation_points r limit) as [series|e] eqn:Hseries; cbn [mbind res_bind]; [|by left].
  pose proof (interpolate_loop_spec (ss_pending series) (pending_finite _ _ _ Hseries) (length (ss_pending series)) 0
    (ss_pending series) ltac:(lia) ltac:(lia) ltac:(by left) eq_refl ltac:(done)) as H.
  unfold interpolate. destruct (interpolate_loop _ _ _ _) as [out|e].
  - destruct H as (Hl & _ & Hout). exists series. split_and!; [done..|]. intros i j k Hp Hk. apply Hout; [done|lia|done].
  - right. destruct H as (-> & i & j & Hv). split; [done|]. exists series. split; [done|]. by exists i, j.
Qed.

(** ** Examples *)

Definition demo_rung (rate goodput : Z) (pending : pyval) : pyval :=
  PDict [("target_requests_per_second", PInt rate); ("business", PDict [("goodput_orders_per_second", PInt goodput);
      ("accepted", PInt (goodput * 10)); ("checkout_to_outcome", PDict [("p95_ms", PFloat (float_dec (rate * 3) 0))])]);
    ("duration_seconds", PInt 10); ("nats", PDict [("consumer_pending", PDict [("max", pending)])]);
    ("started_elapsed_seconds", PInt (rate - 10)); ("ended_elapsed_seconds", PInt rate)].

Definition demo_saturation (rungs : list pyval) : result :=
  Result (Path "results" "summary.json")
    [("workload", PStr "saturation"); ("application_type", PStr "NATS"); ("business", PDict []);
     ("nats", PDict [("consumer_pending", PDict [("series", PList [
        PDict [("elapsed_seconds", PInt 5); ("waiting_events", PInt 4)];
        PDict [("elapsed_seconds", PInt 25); ("waiting_events", PInt 9)]])])]);
     ("saturation", PDict [("rungs", PList rungs)])].

Definition pt (x y : Z) : point := (float_dec x 0, float_dec y 0).

Example demo_points :
  saturation_points (demo_saturation [demo_rung 30 28 PNone; demo_rung 10 10 PNone; demo_rung 20 20 (PInt 6)]) None
  = Ok (SaturationSeries [pt 10 10; pt 20 20; pt 30 28] [] [pt 10 4; pt 20 6; pt 30 9] [pt 10 30; pt 20 60; pt 30 90]).
Proof. vm_compute. reflexivity. Qed.

Lemma limit_only_drops_witness : ∃ limited,
  saturation_points (demo_saturation [demo_rung 30 28 PNone; demo_rung 10 10 PNone; demo_rung 20 20 (PInt 6)])
    (Some (float_dec 20 0)) = Ok limited ∧
  kept_points (float_dec 20 0) (ss_pending limited) [pt 10 4; pt 20 6; pt 30 9].
Proof.
  destruct (limit_only_drops (demo_saturation [demo_rung 30 28 PNone; demo_rung 10 10 PNone; demo_rung 20 20 (PInt 6)])
    (float_dec 20 0) (SaturationSeries [pt 10 10; pt 20 20; pt 30 28] [] [pt 10 4; pt 20 6; pt 30 9]
      [pt 10 30; pt 20 60; pt 30 90])) as (limited & Hl & _ & _ & Hp & _).
  - vm_compute. reflexivity.
  - exists limited. exact (conj Hl Hp).
Defined.

Example demo_interpolation :
  interpolate [pt 10 2; pt 20 2; pt 30 2; pt 40 8; pt 50 8] = Ok [pt 10 2; pt 20 4; pt 30 6; pt 40 8; pt 50 8].
Proof. vm_compute. reflexivity. Qed.

(** A run can stay at its configured maximum for several rungs, which the
    averages expect: with the same maximum twice and a larger one once at that
    rate, the plateau ends at its own rate and [main] stops with a traceback. *)
Example repeated_rate_divides_by_zero :
  saturation_interpolated_pending_points
    (demo_saturation [demo_rung 100 90 (PInt 3); demo_rung 100 90 (PInt 3); demo_rung 100 90 (PInt 7)]) None
  = Raise (ZeroDivisionError "division by zero").
Proof. vm_compute. reflexivity. Qed.
