(* ===== verification/ResultAverages.v ===== *)
(** * Averages over repeated runs (benchmarkservice/parse_results.py)

    The mean and the deviation of every rate over the saturation runs of the
    same duration, and the line at which their latencies are given up.
    Theorem: each average is the mean over the runs of what a run measured at
    that rate, however often the run visited it. *)

From S2P Require Import Prelude PyFloat PyValue BenchConfig Reporting ClusterMetrics LatencyStats ResultValues SaturationResults.
From Corelib Require Import SpecFloat.

(** [statistics.mean(values)] of a list that is not empty: the exact mean,
    rounded once; with a value that is not finite, the sum of those. *)
Definition mean (values : list pyfloat) : pyfloat :=
  match mapM exact values with
  | Some xs => float_ratio (sum_Z xs) (Z.of_nat (length xs) * 2 ^ 1074)
  | None =>
      fdiv (foldl fadd (S754_zero false) (filter (λ x, f_finite x = false) values)) (float_dec (Z.of_nat (length values)) 0)
  end.

(** ** Values by rate *)

(** [d.setdefault(rate, []).append(value)]: equal floats are one key, the
    first that was used. *)
Fixpoint rate_push (rate value : pyfloat) (d : list (pyfloat * list pyfloat)) : list (pyfloat * list pyfloat) :=
  match d with
  | [] => [(rate, [value])]
  | (key, values) :: d =>
      if feqb key rate then (key, values ++ [value]) :: d else (key, values) :: rate_push rate value d
  end.

(** The values of one run at each rate.
    [parse_results.py:1159-1161 _average_saturation_series] *)
Definition run_values (points : list point) : list (pyfloat * list pyfloat) :=
  foldl (λ d p, rate_push p.1 p.2 d) [] points.

(** Repeated rungs of a run count as one.
    [parse_results.py:1162-1166 _average_saturation_series] *)
Definition collapse_run (d : list (pyfloat * list pyfloat)) (points : list point) : list (pyfloat * list pyfloat) :=
  foldl (λ d kv, rate_push kv.1 (mean kv.2) d) d (run_values points).

Definition rate_le {V} (a b : pyfloat * V) : Prop := float_le a.1 b.1.
#[export] Instance rate_le_dec {V} (a b : pyfloat * V) : Decision (rate_le a b).
Proof. unfold rate_le. apply _. Defined.

(** The rates with their values, in order; all runs must have those kept when
    [require_all_runs] is set.
    [parse_results.py:1157-1172 _average_saturation_series] *)
Definition selected_values (require_all_runs : bool) (series_by_run : list (list point)) : list (pyfloat * list pyfloat) :=
  filter (λ kv, negb require_all_runs || (length kv.2 =? length series_by_run)%nat = true)
    (merge_sort rate_le (foldl collapse_run [] series_by_run)).

(** [parse_results.py:1151-1181 _average_saturation_series] *)
Definition average_saturation_series (require_all_runs : bool) (series_by_run : list (list point))
    : res (list point * list point) :=
  let selected := selected_values require_all_runs series_by_run in
  deviations ← res_mapM (λ kv : pyfloat * list pyfloat, d ← pstdev kv.2; Ok (kv.1, d)) selected;
  Ok ((λ kv : pyfloat * list pyfloat, (kv.1, mean kv.2)) <$> selected, deviations).

(** ** The averages of the runs *)

Record average_points := AveragePoints {
  av_submitted : list point * list point;
  av_processed : list point * list point;
  av_latency : list point * list point;
}.

Section averages.
Context (results : list result) (saturation_limit : option pyfloat).

(** [parse_results.py:1184-1223 average_saturation_points] *)
Definition average_saturation_points : res average_points :=
  series ← res_mapM (λ r, saturation_points r saturation_limit) results;
  submitted ← average_saturation_series false (ss_submitted <$> series);
  processed ← average_saturation_series false (ss_processed <$> series);
  latency ← average_saturation_series true (ss_latency <$> series);
  Ok (AveragePoints submitted processed latency).

(** [parse_results.py:1226-1237 average_saturation_accepted_points] *)
Definition average_saturation_accepted_points : res (list point * list point) :=
  series ← res_mapM (λ r, saturation_accepted_points r saturation_limit) results;
  average_saturation_series true series.

(** [parse_results.py:1240-1251 average_saturation_acceptance_latency_points] *)
Definition average_saturation_acceptance_latency_points : res (list point * list point) :=
  series ← res_mapM (λ r, saturation_acceptance_latency_points r saturation_limit) results;
  average_saturation_series true series.

(** [parse_results.py:1282-1293 average_interpolated_saturation_pending_points] *)
Definition average_interpolated_saturation_pending_points : res (list point * list point) :=
  series ← res_mapM (λ r, saturation_interpolated_pending_points r saturation_limit) results;
  average_saturation_series true series.
End averages.

(** ** Latencies up to the timeout *)

(** [dict(points).get(rate)]: the last point of a rate wins. *)
Definition value_at (points : list point) (rate : pyfloat) : option pyfloat :=
  snd <$> List.find (λ p : point, feqb p.1 rate) (reverse points).

Record latency_lines := LatencyLines {
  ll_measured : list point;
  ll_deviations : list point;
  ll_timeout : list point;
  ll_timed_out : bool;
}.

(** [parse_results.py:1271-1278 _average_saturation_latency_plot_points] *)
Definition latency_turn (latency deviations : list point) (s : latency_lines) (p : point) : res latency_lines :=
  match ll_timed_out s, value_at latency p.1 with
  | false, Some value =>
      match value_at deviations p.1 with
      | Some deviation =>
          Ok (LatencyLines (ll_measured s ++ [(p.1, value)]) (ll_deviations s ++ [(p.1, deviation)]) (ll_timeout s) false)
      | None => Raise (KeyError (float_repr p.1))
      end
  | timed_out, _ =>
      let joint := if timed_out then [] else option_list (last (ll_measured s)) in
      Ok (LatencyLines (ll_measured s) (ll_deviations s) (ll_timeout s ++ joint ++ [(p.1, timeout_ms)]) true)
  end.

Fixpoint latency_loop (latency deviations : list point) (s : latency_lines) (submitted : list point) : res latency_lines :=
  match submitted with
  | [] => Ok s
  | p :: submitted => s ← latency_turn latency deviations s p; latency_loop latency deviations s submitted
  end.

(** [parse_results.py:1254-1279 _average_saturation_latency_plot_points] *)
Definition average_saturation_latency_plot_points (submitted latency deviations : list point) : res latency_lines :=
  latency_loop latency deviations (LatencyLines [] [] [] false) submitted.

(** ** Durations *)

(** [parse_results.py:1296-1309 _saturation_duration] *)
Fixpoint saturation_duration_of (r : result) (names : list string) : res (option pyfloat) :=
  match names with
  | [] => Ok None
  | name :: names =>
      match get (rs_summary r) name with
      | PNone => saturation_duration_of r names
      | value =>
          duration ← number (path_str (rs_path r)) value name;
          raise_if (fleb duration (float_dec 0 0))
            (ResultError (path_str (rs_path r) +:+ ": " +:+ name +:+ " must be positive"));;
          Ok (Some duration)
      end
  end.
(** [parse_results.py:1296-1309 _saturation_duration] *)
Definition saturation_duration (r : result) : res (option pyfloat) :=
  saturation_duration_of r ["configured_steady_seconds"; "steady_seconds"; "duration_seconds"].

(** [by_duration.setdefault(duration, []).append(result)] *)
Fixpoint duration_push (duration : pyfloat) (r : result) (d : list (pyfloat * list result)) : list (pyfloat * list result) :=
  match d with
  | [] => [(duration, [r])]
  | (key, rs) :: d =>
      if feqb key duration then (key, rs ++ [r]) :: d else (key, rs) :: duration_push duration r d
  end.

Fixpoint by_duration (results : list result) (d : list (pyfloat * list result)) : res (list (pyfloat * list result)) :=
  match results with
  | [] => Ok d
  | r :: results =>
      duration ← saturation_duration r;
      by_duration results match duration with Some x => duration_push x r d | None => d end
  end.

(** The runs that are averaged: two or more of the same duration, in order.
    [parse_results.py:1324-1333 write_average_saturation_graphs] *)
Definition repeated_runs (results : list result) : res (list (list result)) :=
  groups ← by_duration results [];
  Ok (filter (λ rs, (2 <=? length rs)%nat = true) (snd <$> merge_sort rate_le groups)).

(** ** What the dictionaries hold *)

Fixpoint rate_get (rate : pyfloat) (d : list (pyfloat * list pyfloat)) : list pyfloat :=
  match d with
  | [] => []
  | (key, values) :: d => if feqb key rate then values else rate_get rate d
  end.

Definition number_key (x : pyfloat) : Prop := f_is_nan x = false.

Lemma feqb_numbers x y : number_key x → number_key y → feqb x y = bool_decide (f_rank x = f_rank y).
Proof. intros Hx Hy. apply eq_bool_prop_intro. rewrite Is_true_true, bool_decide_spec, feqb_rank. naive_solver. Qed.

(** A dictionary of rates: numbers, each once, with at least one value. *)
Record rates_wf (d : list (pyfloat * list pyfloat)) : Prop := {
  rw_numbers : Forall number_key d.*1;
  rw_distinct : NoDup (f_rank <$> d.*1);
  rw_values : Forall (λ kv, kv.2 ≠ []) d;
}.

Lemma rates_wf_cons key values d :
  rates_wf ((key, values) :: d) ↔
    number_key key ∧ values ≠ [] ∧ (f_rank key ∉ (f_rank <$> d.*1)) ∧ rates_wf d.
Proof.
  split.
  - intros [Hn Hd Hv]. cbn in *. apply Forall_cons in Hn as [??]. apply NoDup_cons in Hd as [??].
    apply Forall_cons in Hv as [??]. done.
  - intros (Hk & Hv & Hn & [???]). split; cbn; constructor; done.
Qed.

Lemma rate_push_keys rate value d k : k ∈ f_rank <$> (rate_push rate value d).*1 → k = f_rank rate ∨ k ∈ f_rank <$> d.*1.
Proof.
  induction d as [|[key values] d IH]; cbn; [set_solver|]. case_match; cbn; set_solver.
Qed.

Lemma rate_push_wf rate value d : number_key rate → rates_wf d → rates_wf (rate_push rate value d).
Proof.
  intros Hr. induction d as [|[key values] d IH]; intros Hd; cbn [rate_push].
  { apply rates_wf_cons. split_and!; [done|done|set_solver|done]. }
  apply rates_wf_cons in Hd as (Hk & Hv & Hn & Hd). rewrite feqb_numbers by done.
  case_bool_decide as Heq; apply rates_wf_cons; split_and!; try done; [by destruct values| |by apply IH].
  intros [H|H]%rate_push_keys; done.
Qed.

Lemma rate_get_push rate rate' value d : number_key rate → number_key rate' → rates_wf d →
  rate_get rate (rate_push rate' value d) = rate_get rate d ++ (if feqb rate' rate then [value] else []).
Proof.
  intros Hr Hr'. induction d as [|[key values] d IH]; intros Hd; cbn [rate_push rate_get]; [by case_match|].
  apply rates_wf_cons in Hd as (Hk & _ & _ & Hd). destruct (feqb key rate') eqn:Heq; cbn [rate_get].
  - destruct (feqb key rate) eqn:Heq'.
    + assert (feqb rate' rate = true) as -> by (eapply feqb_trans; [rewrite feqb_sym; exact Heq|exact Heq']). done.
    + destruct (feqb rate' rate) eqn:H; [|by rewrite app_nil_r]. by rewrite (feqb_trans key rate' rate) in Heq'.
  - destruct (feqb key rate) eqn:Heq'; [|by apply IH]. destruct (feqb rate' rate) eqn:H; [|by rewrite app_nil_r].
    rewrite feqb_sym in H. by rewrite (feqb_trans key rate rate') in Heq.
Qed.

Lemma rate_get_absent rate d : number_key rate → rates_wf d → f_rank rate ∉ f_rank <$> d.*1 → rate_get rate d = [].
Proof.
  intros Hr. induction d as [|[key values] d IH]; intros Hd Hn; [done|]. cbn [rate_get].
  apply rates_wf_cons in Hd as (Hk & _ & _ & Hd). cbn in Hn. apply not_elem_of_cons in Hn as [Hne Hn].
  rewrite feqb_numbers by done. rewrite bool_decide_eq_false_2 by done. by apply IH.
Qed.

Lemma rate_get_elem key values d : rates_wf d → (key, values) ∈ d → rate_get key d = values.
Proof.
  induction d as [|[k vs] d IH]; intros Hd Hin; [by apply elem_of_nil in Hin|]. cbn [rate_get].
  apply rates_wf_cons in Hd as (Hk & _ & Hn & Hd). apply elem_of_cons in Hin as [[= -> ->]|Hin].
  - by rewrite feqb_refl.
  - assert (key ∈ d.*1) as Hin1 by (apply (list_elem_of_fmap_2 fst) in Hin; done).
    assert (f_rank key ∈ f_rank <$> d.*1) as Hkey by (apply list_elem_of_fmap_2; done).
    assert (number_key key) as Hnum.
    { destruct Hd as [Hnum _ _]. rewrite Forall_forall in Hnum. by apply Hnum. }
    rewrite feqb_numbers by done. rewrite bool_decide_eq_false_2 by (intros ?; apply Hn; congruence). by apply IH.
Qed.

(** Every rate that has values is one of the keys. *)
Lemma rate_get_key rate d : number_key rate → rates_wf d → rate_get rate d ≠ [] →
  ∃ key, feqb key rate = true ∧ (key, rate_get rate d) ∈ d.
Proof.
  intros Hr. induction d as [|[k vs] d IH]; intros Hd Hne; [done|]. cbn [rate_get] in *.
  apply rates_wf_cons in Hd as (_ & _ & _ & Hd). destruct (feqb k rate) eqn:Heq.
  - exists k. split; [done|left].
  - destruct (IH Hd Hne) as (key & ? & ?). exists key. split; [done|by right].
Qed.

(** ** What a run measured at a rate *)

(** The values of a run at a rate, and their mean. *)
Definition values_at (rate : pyfloat) (points : list point) : list pyfloat :=
  snd <$> filter (λ p : point, feqb p.1 rate = true) points.
Definition run_mean (rate : pyfloat) (points : list point) : option pyfloat :=
  match values_at rate points with [] => None | values => Some (mean values) end.
Definition run_means (rate : pyfloat) (series_by_run : list (list point)) : list pyfloat :=
  omap (run_mean rate) series_by_run.

Definition number_points (points : list point) : Prop := Forall (λ p : point, number_key p.1) points.

Lemma run_values_wf points d : number_points points → rates_wf d → rates_wf (foldl (λ d p, rate_push p.1 p.2 d) d points).
Proof. intros Hp. revert d. induction Hp as [|p points Hp _ IH]; intros d Hd; [done|]. by apply IH, rate_push_wf. Qed.

Lemma rates_wf_nil : rates_wf [].
Proof. split; constructor. Qed.
#[local] Hint Resolve rates_wf_nil run_values_wf rate_push_wf : core.

Lemma run_values_get rate points d : number_key rate → number_points points → rates_wf d →
  rate_get rate (foldl (λ d p, rate_push p.1 p.2 d) d points) = rate_get rate d ++ values_at rate points.
Proof.
  intros Hr Hp. revert d. induction Hp as [|p points Hp _ IH]; intros d Hd; [by rewrite app_nil_r|].
  cbn [foldl]. rewrite IH by auto. rewrite rate_get_push by done. unfold values_at. rewrite filter_cons.
  destruct (feqb p.1 rate) eqn:Heq.
  - rewrite decide_True by done. by rewrite <-app_assoc.
  - rewrite decide_False by done. by rewrite app_nil_r.
Qed.

Lemma collapse_wf rv d : rates_wf rv → rates_wf d → rates_wf (foldl (λ d kv, rate_push kv.1 (mean kv.2) d) d rv).
Proof.
  revert d. induction rv as [|[k vs] rv IH]; intros d Hrv Hd; [done|]. apply rates_wf_cons in Hrv as (Hk & _ & _ & Hrv).
  cbn [foldl]. auto.
Qed.

Lemma collapse_get rate rv d : number_key rate → rates_wf rv → rates_wf d →
  rate_get rate (foldl (λ d kv, rate_push kv.1 (mean kv.2) d) d rv)
  = rate_get rate d ++ match rate_get rate rv with [] => [] | values => [mean values] end.
Proof.
  intros Hr. revert d. induction rv as [|[k vs] rv IH]; intros d Hrv Hd; cbn [foldl rate_get fst snd]; [by rewrite app_nil_r|].
  apply rates_wf_cons in Hrv as (Hk & Hvs & Hn & Hrv). rewrite IH by auto. rewrite rate_get_push by done.
  rewrite <-app_assoc. f_equal. destruct (feqb k rate) eqn:Heq; [|done].
  rewrite feqb_numbers in Heq by done. apply bool_decide_eq_true in Heq.
  rewrite rate_get_absent by (done || by rewrite <-Heq). by destruct vs.
Qed.

Lemma all_runs_wf series d : Forall number_points series → rates_wf d → rates_wf (foldl collapse_run d series).
Proof.
  intros Hs. revert d. induction Hs as [|points series Hp _ IH]; intros d Hd; [done|]. cbn [foldl].
  apply IH, collapse_wf; unfold run_values; auto.
Qed.

Lemma all_runs_get rate series d : number_key rate → Forall number_points series → rates_wf d →
  rate_get rate (foldl collapse_run d series) = rate_get rate d ++ run_means rate series.
Proof.
  intros Hr Hs. revert d. induction Hs as [|points series Hp _ IH]; intros d Hd; [by rewrite app_nil_r|]. cbn [foldl].
  rewrite IH by (apply collapse_wf; unfold run_values; auto).
  unfold collapse_run. rewrite collapse_get by (unfold run_values; auto). unfold run_values.
  rewrite run_values_get by auto. cbn [rate_get app]. unfold run_means, run_mean. cbn [omap list_omap].
  rewrite <-app_assoc. by destruct (values_at rate points).
Qed.

(** ** The averages *)

Lemma float_le_numbers x y z : number_key x → number_key y → number_key z → float_le x y → float_le y z → float_le x z.
Proof.
  unfold float_le. intros Hx Hy Hz H1 H2. apply not_true_iff_false in H1, H2. apply not_true_iff_false.
  rewrite fltb_rank in *. intros (_ & _ & H). destruct (f_rank x) as [[??]?] eqn:?, (f_rank y) as [[??]?] eqn:?,
    (f_rank z) as [[??]?] eqn:?. unfold lex_lt in *. apply H1. split_and!; [done..|].
  destruct (decide (lex_lt (f_rank z) (f_rank y))) as [|Hn]; [exfalso; apply H2; split_and!; try done|].
  all: rewrite ?Heqp, ?Heqp0, ?Heqp1 in *; unfold lex_lt in *; lia.
Qed.

#[export] Instance rate_le_total {V} : Total (@rate_le V).
Proof. intros a b. apply (total float_le). Qed.

Definition rate_lt {V} (a b : pyfloat * V) : Prop := fltb a.1 b.1 = true.

(** Distinct rates in order are strictly increasing. *)
Lemma sorted_rates d : rates_wf d → StronglySorted rate_lt (merge_sort rate_le d).
Proof.
  intros Hd. pose proof (Sorted_merge_sort rate_le d) as Hs. pose proof (merge_sort_Permutation rate_le d) as Hp.
  set (l := merge_sort rate_le d) in *. assert (rates_wf l) as Hl.
  { destruct Hd as [Hn Hd Hv]. split; by rewrite Hp. }
  clearbody l. clear Hp Hd d. induction l as [|[k vs] l IH]; [constructor|].
  apply rates_wf_cons in Hl as (Hk & _ & Hne & Hl). apply Sorted_inv in Hs as [Hs Hhd]. specialize (IH Hs Hl).
  constructor; [done|]. destruct Hhd as [|[k' vs'] l Hle]; [constructor|].
  assert (rate_lt (k, vs) (k', vs')) as Hlt.
  { unfold rate_lt, rate_le, float_le in *. cbn [fst] in *. apply not_false_iff_true. intros Hge.
    apply Hne. cbn. apply elem_of_cons. left. apply rates_wf_cons in Hl as (Hk' & _).
    apply not_true_iff_false in Hle, Hge. rewrite fltb_rank in Hle, Hge.
    destruct (f_rank k) as [[a1 a2] a3], (f_rank k') as [[b1 b2] b3]. unfold lex_lt in *.
    assert (a1 = b1 ∧ a2 = b2 ∧ a3 = b3)%Z as (-> & -> & ->); [|done].
    assert (¬ (a1 < b1 ∨ a1 = b1 ∧ (a2 < b2 ∨ a2 = b2 ∧ a3 < b3)))%Z by tauto.
    assert (¬ (b1 < a1 ∨ b1 = a1 ∧ (b2 < a2 ∨ b2 = a2 ∧ b3 < a3)))%Z by tauto. lia. }
  constructor; [done|]. apply StronglySorted_inv in IH as [_ Hall]. eapply Forall_impl; [exact Hall|].
  intros [k'' vs''] H. unfold rate_lt in *. cbn [fst] in *. by eapply fltb_trans.
Qed.

Lemma StronglySorted_filter_sub {A} (R : A → A → Prop) (P : A → Prop) `{!∀ x, Decision (P x)} l :
  StronglySorted R l → StronglySorted R (filter P l).
Proof.
  induction 1 as [|x l Hl IH Hx]; [constructor|]. rewrite filter_cons. case_decide; [|done].
  constructor; [done|]. rewrite Forall_forall in *. intros y Hy. apply list_elem_of_filter in Hy as [_ Hy]. by apply Hx.
Qed.

(** What is selected: the rates in order, each with what every run measured. *)
Lemma selected_spec req series : Forall number_points series →
  let selected := selected_values req series in
  StronglySorted rate_lt selected ∧
  (∀ rate values, (rate, values) ∈ selected → number_key rate ∧ values = run_means rate series ∧ values ≠ [] ∧
     (req = true → length values = length series)) ∧
  (∀ rate, number_key rate → run_means rate series ≠ [] →
     (req = true → length (run_means rate series) = length series) →
     ∃ key, feqb key rate = true ∧ (key, run_means rate series) ∈ selected).
Proof.
  intros Hs selected. set (d := foldl collapse_run [] series). assert (rates_wf d) as Hd by by apply all_runs_wf.
  assert (∀ kv, kv ∈ selected ↔ (negb req || (length kv.2 =? length series)) = true ∧ kv ∈ d) as Hin.
  { intros kv. unfold selected, selected_values. rewrite list_elem_of_filter. by rewrite merge_sort_Permutation. }
  assert (∀ rate, number_key rate → rate_get rate d = run_means rate series) as Hget.
  { intros rate Hr. unfold d. by rewrite all_runs_get. }
  split_and!.
  - by apply StronglySorted_filter_sub, sorted_rates.
  - intros rate values [Hreq Hkv]%Hin. destruct Hd as [Hn Hdist Hv].
    pose proof (proj1 (Forall_forall _ _) Hn) as Hn'. pose proof (proj1 (Forall_forall _ _) Hv) as Hv'.
    assert (number_key rate) as Hr by (apply Hn'; by apply (list_elem_of_fmap_2 fst) in Hkv).
    split_and!; [done|rewrite <-Hget by done; symmetry; by apply rate_get_elem|by apply (Hv' (rate, values))|].
    intros ->. by apply Nat.eqb_eq in Hreq.
  - intros rate Hr Hne Hreq. rewrite <-Hget in * by done. destruct (rate_get_key rate d Hr Hd Hne) as (key & Hk & Hkv).
    exists key. split; [done|]. apply Hin. split; [|done]. destruct req; [|done]. cbn. apply Nat.eqb_eq. auto.
Qed.

(** C3: An average weighs every run once.  The averages and the deviations of
    repeated runs have the same rates, strictly increasing; at each of them
    the average is the mean over the runs of the mean of what the run measured
    there, and the deviation that of these means, so that a run that stayed at
    a rate for several rungs counts like the others; a rate is there when some
    run has it, or when every run has it where that is asked for.  Only a mean
    that is not finite makes it fail. *)
Theorem average_spec req series : Forall number_points series →
  match average_saturation_series req series with
  | Ok (averaged, deviations) =>
      StronglySorted rate_lt averaged ∧ averaged.*1 = deviations.*1 ∧
      (∀ rate value, (rate, value) ∈ averaged → run_means rate series ≠ [] ∧ value = mean (run_means rate series) ∧
         (req = true → length (run_means rate series) = length series)) ∧
      (∀ rate value, (rate, value) ∈ deviations → pstdev (run_means rate series) = Ok value) ∧
      (∀ rate, number_key rate → run_means rate series ≠ [] →
         (req = true → length (run_means rate series) = length series) → ∃ p, p ∈ averaged ∧ feqb p.1 rate = true)
  | Raise _ => ∃ rate, Exists (λ x, f_finite x = false) (run_means rate series)
  end.
Proof.
  intros Hs. destruct (selected_spec req series Hs) as (Hsorted & Hsound & Hcomplete).
  unfold average_saturation_series. set (selected := selected_values req series) in *.
  destruct (res_mapM _ selected) as [deviations|e] eqn:Hdev; cbn [mbind res_bind].
  - apply res_mapM_ok in Hdev. split_and!.
    + eapply StronglySorted_fmap; [|exact Hsorted]. by intros [??] [??].
    + clear -Hdev. induction Hdev as [|[k vs] [k' x] l l' H _ IH]; [done|]. cbn in *.
      apply res_bind_ok in H as (? & _ & [= <- _]). by f_equal.
    + intros rate value Hin. apply list_elem_of_fmap in Hin as ([k vs] & [= -> ->] & Hin). cbn [fst snd].
      by destruct (Hsound _ _ Hin) as (_ & <- & ? & ?).
    + intros rate value Hin. apply list_elem_of_lookup_1 in Hin as [i Hi].
      destruct (Forall2_lookup_r _ _ _ _ _ Hdev Hi) as ([k vs] & Hk & H). cbn [fst snd] in H.
      apply res_bind_ok in H as (x & Hx & [= -> ->]). apply list_elem_of_lookup_2 in Hk.
      by destruct (Hsound _ _ Hk) as (_ & <- & _).
    + intros rate Hr Hne Hreq. destruct (Hcomplete rate Hr Hne Hreq) as (key & Hk & Hin).
      eexists (key, _). split; [by apply (list_elem_of_fmap_2 (λ kv, (kv.1, mean kv.2))) in Hin|done].
  - apply res_mapM_raise in Hdev as ([k vs] & Hin & H). exists k. destruct (Hsound _ _ Hin) as (_ & <- & _).
    cbn [fst snd] in H. unfold pstdev in H. destruct (mapM exact vs) as [xs|] eqn:Hx; [done|].
    apply mapM_None in Hx. eapply Exists_impl; [exact Hx|]. intros x.
    destruct x as [| | |? ? ex]; try done. unfold exact. cbn. by destruct (0 <=? ex)%Z.
Qed.

Lemma average_spec_witness :
  let runs := [[pt 10 8; pt 20 12]; [pt 10 10; pt 20 16; pt 20 18]; [pt 10 12]] in
  Forall number_points runs ∧
  ∃ averaged deviations, average_saturation_series false runs = Ok (averaged, deviations) ∧ averaged.*1 = deviations.*1.
Proof.
  assert (Forall number_points [[pt 10 8; pt 20 12]; [pt 10 10; pt 20 16; pt 20 18]; [pt 10 12]]) as Hn.
  { repeat constructor; vm_compute; reflexivity. }
  split; [exact Hn|]. pose proof (average_spec false _ Hn) as H.
  assert (average_saturation_series false [[pt 10 8; pt 20 12]; [pt 10 10; pt 20 16; pt 20 18]; [pt 10 12]]
    = Ok ([pt 10 10; (float_dec 20 0, float_dec 145 (-1))],
          [(float_dec 10 0, float_dec 16329931618554521 (-16)); (float_dec 20 0, float_dec 25 (-1))])) as Hrun
    by (vm_compute; reflexivity).
  rewrite Hrun in H. do 2 eexists. split; [exact Hrun|]. exact (proj1 (proj2 H)).
Defined.

(** ** The lines of the latencies *)

(** The measured line covers the rates before the first one without a latency,
    the timeout line the others; they meet in the last measured point. *)
Definition split_lines (latency : list point) (submitted : list point) (s : latency_lines) : Prop :=
  ∃ before after, submitted = before ++ after ∧
    (ll_measured s).*1 = before.*1 ∧ (ll_deviations s).*1 = before.*1 ∧
    Forall (λ p : point, value_at latency p.1 = Some p.2) (ll_measured s) ∧
    match after with
    | [] => ll_timeout s = [] ∧ ll_timed_out s = false
    | p :: _ => value_at latency p.1 = None ∧ ll_timed_out s = true ∧
        ll_timeout s = option_list (last (ll_measured s)) ++ ((λ p : point, (p.1, timeout_ms)) <$> after)
    end.

Lemma latency_turn_split latency deviations done_ s p s' : split_lines latency done_ s →
  latency_turn latency deviations s p = Ok s' → split_lines latency (done_ ++ [p]) s'.
Proof.
  intros (before & after & -> & Hm & Hd & Hv & Hafter) Hturn. unfold latency_turn in Hturn.
  destruct after as [|a after].
  - destruct Hafter as [Ht Hto]. rewrite Hto in Hturn. rewrite app_nil_r. destruct (value_at latency p.1) as [value|] eqn:Hl.
    + destruct (value_at deviations p.1) as [deviation|]; [|done]. injection Hturn as <-.
      exists (before ++ [p]), []. cbn [ll_measured ll_deviations ll_timeout ll_timed_out].
      rewrite !app_nil_r, !fmap_app, Hm, Hd. split_and!; try done. apply Forall_app. split; [done|]. by constructor.
    + injection Hturn as <-. exists before, [p]. cbn. rewrite Ht. by split_and!.
  - destruct Hafter as (Ha & Hto & Ht). rewrite Hto in Hturn. injection Hturn as <-.
    exists before, ((a :: after) ++ [p]). cbn. rewrite <-!app_assoc. split_and!; try done.
    rewrite Ht, fmap_app, <-app_assoc. done.
Qed.

Lemma latency_loop_split latency deviations submitted s done_ s' : split_lines latency done_ s →
  latency_loop latency deviations s submitted = Ok s' → split_lines latency (done_ ++ submitted) s'.
Proof.
  revert s done_. induction submitted as [|p submitted IH]; intros s done_ Hs Hloop; cbn [latency_loop] in Hloop.
  { injection Hloop as <-. by rewrite app_nil_r. }
  apply res_bind_ok in Hloop as (turn & Hturn & Hloop). rewrite cons_middle, app_assoc.
  eapply IH; [|exact Hloop]. by eapply latency_turn_split.
Qed.

Lemma latency_lines_split submitted latency deviations s :
  average_saturation_latency_plot_points submitted latency deviations = Ok s → split_lines latency submitted s.
Proof.
  unfold average_saturation_latency_plot_points. intros H. apply (latency_loop_split _ _ _ _ []) in H; [exact H|].
  exists [], []. by split_and!.
Qed.
