(* ===== verification/ClosedResults.v ===== *)
(** * Closed-loop results (benchmarkservice/parse_results.py)

    The runs of a folder grouped by their number of users: orders, latencies,
    waiting events second by second, and the resources of the services.
    Theorems: a group is the exact sum of its runs, and the waiting events of
    a run are filled in for every second. *)

From S2P Require Import Prelude PyFloat PyValue BenchConfig Reporting ClusterMetrics NatsReport LatencyStats ResultValues SaturationResults ResultAverages.
From Corelib Require Import SpecFloat.

(** ** Orders and latencies *)

(** [parse_results.py:32-37 ClosedMeasurements] *)
Record closed_measurements := ClosedMeasurements {
  cm_submitted : Z;
  cm_completed : Z;
  cm_runs : Z;
  cm_completed_values : list Z;
  cm_p95_values : list pyfloat;
}.
Definition no_measurements : closed_measurements := ClosedMeasurements 0 0 0 [] [].

(** What one run contributes. *)
Record closed_run := ClosedRun {
  cr_users : Z;
  cr_submitted : Z;
  cr_completed : Z;
  cr_p95 : option pyfloat;
}.

Definition users_positive (r : result) (users : Z) : res unit :=
  raise_if (users <? 1)%Z (ResultError (path_str (rs_path r) +:+ ": users must be positive")).

(** [parse_results.py:1517-1541 collect_closed_measurements] *)
Definition read_closed (r : result) : res closed_run :=
  let source := path_str (rs_path r) in
  users ← integer source (get (rs_summary r) "users") "users";
  users_positive r users;;
  business ← match alist_get "business" (rs_summary r) with Some b => Ok b | None => Raise (KeyError "business") end;
  submitted_value ← py_get business "submitted" PNone;
  submitted ← integer source submitted_value "business.submitted";
  completed_value ← py_get business "completed" PNone;
  completed ← integer source completed_value "business.completed";
  raise_if ((submitted <? 0) || (completed <? 0) || (submitted <? completed))%Z
    (ResultError (source +:+ ": invalid submitted/completed order counts"));;
  p95 ← match nested business ["checkout_to_outcome"; "p95_ms"] with
        | PNone => Ok None
        | value => x ← number source value "business.checkout_to_outcome.p95_ms"; Ok (Some x)
        end;
  Ok (ClosedRun users submitted completed p95).

(** [parse_results.py:1532-1541 collect_closed_measurements] *)
Definition add_run (run : closed_run) (g : closed_measurements) : closed_measurements :=
  ClosedMeasurements (cm_submitted g + cr_submitted run) (cm_completed g + cr_completed run) (cm_runs g + 1)
    (cm_completed_values g ++ [cr_completed run]) (cm_p95_values g ++ option_list (cr_p95 run)).

Fixpoint collect_closed (groups : list (Z * closed_measurements)) (results : list result)
    : res (list (Z * closed_measurements)) :=
  match results with
  | [] => Ok groups
  | r :: results =>
      run ← read_closed r;
      let group := default no_measurements (alist_get (cr_users run) groups) in
      collect_closed (alist_set (cr_users run) (add_run run group) groups) results
  end.

(** [parse_results.py:1514-1542 collect_closed_measurements] *)
Definition collect_closed_measurements (results : list result) : res (list (Z * closed_measurements)) :=
  collect_closed [] results.

(** ** Waiting events of a run *)

Definition series_fields (summary : mapping) : pyval * string * list string :=
  let series := nested (PDict summary) ["nats"; "consumer_pending"; "series"] in
  match series with
  | PNone | PList [] =>
      (nested (PDict summary) ["outstanding_orders"; "series"], "outstanding_orders.series", ["max_outstanding"])
  | _ => (series, "nats.consumer_pending.series", ["waiting_events"; "nats_waiting_events"; "value"])
  end.

(** [sample.get("phase") in {None, "steady"}] *)
Definition steady_phase (phase : pyval) : res bool :=
  match phase with PNone => Ok true | _ => py_in_set phase ["steady"] end.

(** The first of the fields that the sample has. *)
Definition waiting_field (sample : mapping) (fields : list string) : string :=
  default (default "" (head fields)) (List.find (λ f, present (get sample f)) fields).

(** [parse_results.py:1563-1588 _summary_nats_waiting_samples] *)
Definition summary_sample (source series_field : string) (fields : list string) (index : nat) (v : pyval) : res (option point) :=
  sample ← element source series_field index v;
  steady ← steady_phase (get sample "phase");
  if negb steady then Ok None else
  elapsed ← number source (get sample "elapsed_seconds") (indexed series_field index ".elapsed_seconds");
  let field := waiting_field sample fields in
  waiting ← number source (get sample field) (indexed series_field index ("." +:+ field));
  raise_if (fltb elapsed (float_dec 0 0) || fltb waiting (float_dec 0 0))
    (ResultError (source +:+ ": NATS waiting-event samples must not be negative"));;
  Ok (Some (elapsed, waiting)).

(** [points or None] *)
Definition non_empty {A} (l : list A) : option (list A) := match l with [] => None | _ => Some l end.

(** [parse_results.py:1545-1589 _summary_nats_waiting_samples] *)
Definition summary_nats_waiting_samples (r : result) : res (option (list point)) :=
  let source := path_str (rs_path r) in
  let '(samples, series_field, fields) := series_fields (rs_summary r) in
  match samples with
  | PNone | PList [] => Ok None
  | PList samples =>
      points ← res_mapM (uncurry (summary_sample source series_field fields)) (enumerate samples);
      Ok (non_empty (kept points))
  | _ => Raise (ResultError (source +:+ ": " +:+ series_field +:+ " must be a list"))
  end.

(** [x or y] *)
Definition py_or (x y : pyval) : pyval := if py_truth x then x else y.

(** A metric of a record: the consumer it counts and its waiting events.
    [parse_results.py:1612-1639 _resource_nats_waiting_samples] *)
Definition metric_turn (source : string) (line : Z) (consumers : list (string * pyfloat)) (metric : pyval)
    : res (list (string * pyfloat)) :=
  match metric with
  | PDict m =>
      if negb (py_eqb (get m "name") (PStr "jetstream_consumer_num_pending")) then Ok consumers else
      match default (PDict []) (alist_get "labels" m) with
      | PDict labels =>
          let stream := py_or (get labels "stream_name") (get labels "stream") in
          let consumer := py_or (get labels "consumer_name") (get labels "consumer") in
          known ← py_in_set stream ["BOUTIQUE_COMMANDS"; "BOUTIQUE_EVENTS"];
          if negb known || negb (py_truth consumer) then Ok consumers else
          let key := py_str stream +:+ "/" +:+ py_str consumer in
          value ← number source (get m "value") ("nats_metrics waiting-event value at line " +:+ pretty line);
          raise_if (fltb value (float_dec 0 0))
            (ResultError (source +:+ ":" +:+ pretty line +:+ ": NATS waiting-event samples must not be negative"));;
          Ok (alist_set key (f_max value (default (float_dec 0 0) (alist_get key consumers))) consumers)
      | _ => Ok consumers
      end
  | _ => Ok consumers
  end.

Fixpoint metrics_loop (source : string) (line : Z) (consumers : list (string * pyfloat)) (metrics : list pyval)
    : res (list (string * pyfloat)) :=
  match metrics with
  | [] => Ok consumers
  | metric :: metrics => consumers ← metric_turn source line consumers metric; metrics_loop source line consumers metrics
  end.

(** [sum(values)] on floats: the compensated sum of the standard library. *)
Definition f_abs (x : pyfloat) : pyfloat := SFabs x.
Definition sum_turn (s : pyfloat * pyfloat) (x : pyfloat) : pyfloat * pyfloat :=
  let '(total, c) := s in
  let t := fadd total x in
  (t, fadd c (if fleb (f_abs x) (f_abs total) then fadd (fsub total t) x else fadd (fsub x t) total)).
Definition float_sum (values : list pyfloat) : pyfloat :=
  let '(total, c) := foldl sum_turn (S754_zero false, S754_zero false) values in
  if negb (f_is_zero c) && f_finite c then fadd total c else total.

(** A record of resources.jsonl.
    [parse_results.py:1602-1656 _resource_nats_waiting_samples] *)
Definition record_sample (source : string) (line : Z) (v : pyval) : res (option point) :=
  match v with
  | PDict record =>
      if negb (py_eqb (get record "phase") (PStr "steady")) then Ok None else
      match default (PList []) (alist_get "nats_metrics" record) with
      | PList metrics =>
          consumers ← metrics_loop source line [] metrics;
          match consumers with
          | [] => Ok None
          | _ =>
              elapsed ← number source (get record "elapsed_seconds") ("elapsed_seconds at line " +:+ pretty line);
              raise_if (fltb elapsed (float_dec 0 0))
                (ResultError (source +:+ ":" +:+ pretty line +:+ ": elapsed_seconds must not be negative"));;
              Ok (Some (elapsed, float_sum consumers.*2))
          end
      | _ => Raise (ResultError (source +:+ ":" +:+ pretty line +:+ ": nats_metrics must be a list"))
      end
  | _ => Ok None
  end.

(** A line of a file of JSON lines: its number, and what parsing it, or
    reading it, gives.  Blank lines are left out.
    [parse_results.py:103-116 _json_line_values] *)
Definition json_line (source : string) (item : Z * res pyval) : res (Z * pyval) :=
  match item.2 with
  | Ok v => Ok (item.1, v)
  | Raise (JSONDecodeError m) =>
      Raise (ResultError ("invalid JSON in " +:+ source +:+ ":" +:+ pretty item.1 +:+ ": " +:+ m))
  | Raise (OSError m) => Raise (ResultError ("cannot read " +:+ source +:+ ": " +:+ m))
  | Raise e => Raise e
  end.

(** The file resources.jsonl next to a summary, when there is one. *)
Definition resource_files : Type := string → option (list (Z * res pyval)).

(** [parse_results.py:1592-1657 _resource_nats_waiting_samples] *)
Definition resource_nats_waiting_samples (files : resource_files) (r : result) : res (option (list point)) :=
  if negb (String.eqb (pt_name (rs_path r)) "summary.json") then Ok None else
  match files (pt_parent (rs_path r)) with
  | None => Ok None
  | Some lines =>
      let source := path_str (path_in (pt_parent (rs_path r)) "resources.jsonl") in
      points ← res_mapM (λ item, '(line, v) ← json_line source item; record_sample source line v) lines;
      Ok (non_empty (kept points))
  end.

(** ** One value for every second *)

(** [summary.get("warmup_seconds", 0)], not negative.
    [parse_results.py:1689-1697 _collect_closed_nats_waiting_statistics] *)
Definition warmup_seconds (r : result) : res pyfloat :=
  let source := path_str (rs_path r) in
  warmup ← number source (default (PInt 0) (alist_get "warmup_seconds" (rs_summary r))) "warmup_seconds";
  raise_if (fltb warmup (float_dec 0 0)) (ResultError (source +:+ ": warmup_seconds must not be negative"));;
  Ok warmup.

(** [parse_results.py:1698-1718 _collect_closed_nats_waiting_statistics] *)
Definition steady_seconds (r : result) (infer_end : bool) : res (option pyfloat) :=
  let source := path_str (rs_path r) in
  let field := if present (get (rs_summary r) "steady_seconds") then "steady_seconds" else "duration_seconds" in
  match get (rs_summary r) field with
  | PNone =>
      raise_if infer_end
        (ResultError (source +:+ ": --closed-infer-end requires steady_seconds or duration_seconds"));;
      Ok None
  | value =>
      steady ← number source value field;
      raise_if (fleb steady (float_dec 0 0)) (ResultError (source +:+ ": " +:+ field +:+ " must be positive"));;
      Ok (Some steady)
  end.

(** The last observation of every second of the steady interval.
    [parse_results.py:1724-1731 _collect_closed_nats_waiting_statistics] *)
Fixpoint observe (warmup : pyfloat) (steady : option pyfloat) (observed : list (Z * pyfloat)) (samples : list point)
    : res (list (Z * pyfloat)) :=
  match samples with
  | [] => Ok observed
  | (elapsed, waiting) :: samples =>
      let steady_elapsed := fsub elapsed warmup in
      if fltb steady_elapsed (float_dec 0 0)
         || match steady with Some s => fleb s steady_elapsed | None => false end
      then observe warmup steady observed samples
      else second ← f_floor steady_elapsed; observe warmup steady (alist_set second waiting observed) samples
  end.

(** The [count] seconds from [second] on, each with the latest value observed.
    [parse_results.py:1743-1748 _collect_closed_nats_waiting_statistics] *)
Fixpoint fill (observed : list (Z * pyfloat)) (latest : option pyfloat) (second : Z) (count : nat) : list (Z * pyfloat) :=
  match count with
  | O => []
  | S count =>
      let latest := match alist_get second observed with Some v => Some v | None => latest end in
      option_list ((λ v, (second, v)) <$> latest) ++ fill observed latest (second + 1) count
  end.

Definition fill_range (observed : list (Z * pyfloat)) (first last_second : Z) : list (Z * pyfloat) :=
  fill observed None first (Z.to_nat (last_second + 1 - first)).

Definition seconds_min (l : list Z) : Z := match l with [] => 0 | x :: l => foldl Z.min x l end.
Definition seconds_max (l : list Z) : Z := match l with [] => 0 | x :: l => foldl Z.max x l end.

(** The waiting events of a run: its users, a value for every second, and the
    end of its steady interval. *)
Record waiting_run := WaitingRun {
  wr_users : Z;
  wr_seconds : list (Z * pyfloat);
  wr_end : pyfloat;
}.

(** [parse_results.py:1674-1757 _collect_closed_nats_waiting_statistics] *)
Definition read_waiting (files : resource_files) (infer_end : bool) (r : result) : res waiting_run :=
  let source := path_str (rs_path r) in
  users ← integer source (get (rs_summary r) "users") "users";
  users_positive r users;;
  samples ← summary_nats_waiting_samples r;
  samples ← match samples with Some s => Ok (Some s) | None => resource_nats_waiting_samples files r end;
  match samples with
  | None | Some [] =>
      Raise (ResultError (source +:+ ": NATS closed-loop result must contain per-second waiting-event samples"))
  | Some samples =>
      warmup ← warmup_seconds r;
      steady ← steady_seconds r infer_end;
      observed ← observe warmup steady [] samples;
      match observed with
      | [] => Raise (ResultError (source +:+
          ": NATS closed-loop result must contain steady-state waiting-event samples"))
      | _ =>
          last_second ← match infer_end, steady with
                        | true, Some s => z ← f_ceil s; Ok (z - 1)%Z
                        | _, _ => Ok (seconds_max observed.*1)
                        end;
          let filled := fill_range observed (seconds_min observed.*1) last_second in
          finish ← match steady with Some s => Ok s | None => float_of_Z (seconds_max filled.*1 + 1) end;
          Ok (WaitingRun users filled finish)
      end
  end.

(** [grouped_seconds.setdefault(second, []).append(waiting)]
    [parse_results.py:1749-1751 _collect_closed_nats_waiting_statistics] *)
Definition group_seconds (seconds : list (Z * list pyfloat)) (run : list (Z * pyfloat)) : list (Z * list pyfloat) :=
  foldl (λ d sv, push d sv.1 sv.2) seconds run.

Record waiting_groups := WaitingGroups {
  wg_by_users : list (Z * list (Z * list pyfloat));
  wg_end : option pyfloat;
}.

(** [parse_results.py:1670-1757 _collect_closed_nats_waiting_statistics] *)
Fixpoint collect_waiting (files : resource_files) (infer_end : bool) (g : waiting_groups) (results : list result)
    : res waiting_groups :=
  match results with
  | [] => Ok g
  | r :: results =>
      if negb (is_nats (rs_summary r)) then collect_waiting files infer_end g results else
      run ← read_waiting files infer_end r;
      let grouped := group_seconds (default [] (alist_get (wr_users run) (wg_by_users g))) (wr_seconds run) in
      collect_waiting files infer_end
        (WaitingGroups (alist_set (wr_users run) grouped (wg_by_users g))
          (Some (f_max (or_zero (wg_end g)) (wr_end run)))) results
  end.

Definition int_key_le {V} (a b : Z * V) : Prop := (a.1 ≤ b.1)%Z.
#[export] Instance int_key_le_dec {V} (a b : Z * V) : Decision (int_key_le a b).
Proof. unfold int_key_le. apply _. Defined.
(** [sorted(d.items())] of a dictionary of integers. *)
Definition sorted_keys {V} : list (Z * V) → list (Z * V) := merge_sort int_key_le.

Record waiting_statistics := WaitingStatistics {
  ws_means : list (Z * list point);
  ws_deviations : list (Z * list point);
  ws_end : option pyfloat;
}.

(** The means of the seconds of a group of runs. *)
Definition second_means (seconds : list (Z * list pyfloat)) : res (list point) :=
  res_mapM (λ sv : Z * list pyfloat, x ← float_of_Z sv.1; Ok (x, mean sv.2)) (sorted_keys seconds).
Definition second_deviations (seconds : list (Z * list pyfloat)) : res (list point) :=
  res_mapM (λ sv : Z * list pyfloat, x ← float_of_Z sv.1; d ← pstdev sv.2; Ok (x, d)) (sorted_keys seconds).

(** [parse_results.py:1660-1773 _collect_closed_nats_waiting_statistics] *)
Definition collect_closed_nats_waiting_statistics (files : resource_files) (infer_end : bool) (results : list result)
    : res waiting_statistics :=
  g ← collect_waiting files infer_end (WaitingGroups [] None) results;
  means ← res_mapM (λ us : Z * list (Z * list pyfloat), ps ← second_means us.2; Ok (us.1, ps)) (sorted_keys (wg_by_users g));
  deviations ←
    res_mapM (λ us : Z * list (Z * list pyfloat), ps ← second_deviations us.2; Ok (us.1, ps)) (sorted_keys (wg_by_users g));
  Ok (WaitingStatistics means deviations (wg_end g)).

(** [parse_results.py:1776-1784 collect_closed_nats_waiting_series] *)
Definition collect_closed_nats_waiting_series (files : resource_files) (infer_end : bool) (results : list result)
    : res (list (Z * list point)) :=
  ws_means <$> collect_closed_nats_waiting_statistics files infer_end results.

(** ** Resources of the services *)

(** [parse_results.py:41-43 ServiceResourceMeasurements] *)
Record service_measurements := ServiceMeasurements {
  sm_cpu_seconds_per_order : list pyfloat;
  sm_average_memory_mb : list pyfloat;
}.
(** [parse_results.py:47-53 ClosedResourceMeasurements] *)
Record resource_measurements := ResourceMeasurements {
  rm_services : list (string * service_measurements);
  rm_total : service_measurements;
}.
Definition no_service : service_measurements := ServiceMeasurements [] [].
Definition no_resources : resource_measurements := ResourceMeasurements [] no_service.

(** The measurements with one more value, where there is one. *)
Definition measured_more (cpu memory : option pyfloat) (m : service_measurements) : service_measurements :=
  ServiceMeasurements (sm_cpu_seconds_per_order m ++ option_list cpu) (sm_average_memory_mb m ++ option_list memory).

Section resources.
Context (r : result).
Let source := path_str (rs_path r).

(** The components of each service, in order: without NATS for the other
    application, and the query service counted with the projection.
    [parse_results.py:1819-1833 collect_closed_resource_measurements] *)
Fixpoint logical_services (nats : bool) (services : list (string * list (string * mapping))) (items : list (string * pyval))
    : res (list (string * list (string * mapping))) :=
  match items with
  | [] => Ok services
  | (service, PDict values) :: items =>
      if String.eqb service "nats" && negb nats then logical_services nats services items else
      let logical := if nats && String.eqb service "storefrontqueryservice" then "storefrontprojectionservice" else service in
      logical_services nats (push services logical (service, values)) items
  | _ => Raise (ResultError (source +:+ ": resources.by_service entries must be objects"))
  end.

(** The sum of a field over the components of a service; [None] when a
    component has no value.  The values that follow it are checked too.
    [parse_results.py:1840-1857 collect_closed_resource_measurements] *)
Fixpoint component_sum (field : string) (complete : bool) (total : pyfloat) (components : list (string * mapping))
    : res (option pyfloat) :=
  match components with
  | [] => Ok (if complete then Some total else None)
  | (component, values) :: components =>
      match get values field with
      | PNone => component_sum field false total components
      | value =>
          let name := "resources.by_service." +:+ component +:+ "." +:+ field in
          x ← number source value name;
          raise_if (fltb x (float_dec 0 0)) (ResultError (source +:+ ": " +:+ name +:+ " must not be negative"));;
          component_sum field complete (fadd total x) components
      end
  end.

(** [total += value] while every service was complete. *)
Definition add_total (total value : option pyfloat) : option pyfloat :=
  match total, value with Some t, Some v => Some (fadd t v) | _, _ => None end.

Record resource_turn := ResourceTurn {
  rt_services : list (string * service_measurements);
  rt_cpu : option pyfloat;
  rt_memory : option pyfloat;
}.

(** [parse_results.py:1835-1893 collect_closed_resource_measurements] *)
Definition service_turn (completed : Z) (s : resource_turn) (service : string) (components : list (string * mapping))
    : res resource_turn :=
  cpu_seconds ← component_sum "cpu_seconds" (0 <? completed)%Z (float_dec 0 0) components;
  cpu ← match cpu_seconds with
        | Some x => orders ← float_of_Z completed; per_order ← f_truediv x orders; Ok (Some per_order)
        | None => Ok None
        end;
  memory_bytes ← component_sum "average_memory_bytes" true (float_dec 0 0) components;
  let memory := (λ x, fdiv x (float_dec 1000000 0)) <$> memory_bytes in
  let measurements := default no_service (alist_get service (rt_services s)) in
  Ok (ResourceTurn (alist_set service (measured_more cpu memory measurements) (rt_services s))
        (add_total (rt_cpu s) cpu) (add_total (rt_memory s) memory)).

Fixpoint services_loop (completed : Z) (s : resource_turn) (services : list (string * list (string * mapping)))
    : res resource_turn :=
  match services with
  | [] => Ok s
  | (service, components) :: services =>
      s ← service_turn completed s service components; services_loop completed s services
  end.

(** The resources of a run, added to its group.
    [parse_results.py:1794-1900 collect_closed_resource_measurements] *)
Definition add_resources (g : resource_measurements) : res resource_measurements :=
  match get (rs_summary r) "resources" with
  | PDict resources =>
      if negb (py_truth (get resources "available")) then Ok g else
      match get resources "by_service" with
      | PDict by_service =>
          completed ← integer source (nested (PDict (rs_summary r)) ["business"; "completed"]) "business.completed";
          services ← logical_services (is_nats (rs_summary r)) [] (sorted_items by_service);
          s ← services_loop completed
                (ResourceTurn (rm_services g) (if (0 <? completed)%Z then Some (float_dec 0 0) else None) (Some (float_dec 0 0)))
                (sorted_items services);
          let total := match services with [] => rm_total g | _ => measured_more (rt_cpu s) (rt_memory s) (rm_total g) end in
          Ok (ResourceMeasurements (rt_services s) total)
      | _ => Raise (ResultError (source +:+ ": resources.by_service must be an object"))
      end
  | _ => Ok g
  end.
End resources.

Fixpoint collect_resources (groups : list (Z * resource_measurements)) (results : list result)
    : res (list (Z * resource_measurements)) :=
  match results with
  | [] => Ok groups
  | r :: results =>
      users ← integer (path_str (rs_path r)) (get (rs_summary r) "users") "users";
      g ← add_resources r (default no_resources (alist_get users groups));
      collect_resources (alist_set users g groups) results
  end.

(** [parse_results.py:1787-1901 collect_closed_resource_measurements] *)
Definition collect_closed_resource_measurements (results : list result) : res (list (Z * resource_measurements)) :=
  collect_resources [] results.

(** ** Points of the groups *)

(** [statistics.pstdev] on integers. *)
Definition pstdev_ints (xs : list Z) : pyfloat :=
  let n := Z.of_nat (length xs) in
  let numerator := spread xs in
  let denominator := (n * n)%Z in
  let d := Z.gcd numerator denominator in
  float_sqrt (numerator / d) (denominator / d).

(** [statistics.mean] on integers, as the float that is plotted. *)
Definition mean_ints (xs : list Z) : pyfloat := float_ratio (sum_Z xs) (Z.of_nat (length xs)).

(** [parse_results.py:1983-1997 _closed_latency_points] *)
Definition closed_latency_points (groups : list (Z * closed_measurements)) : res (list point * list point) :=
  let measured := filter (λ ug : Z * closed_measurements, cm_p95_values ug.2 ≠ []) (sorted_keys groups) in
  both ← res_mapM (λ ug : Z * closed_measurements,
    users ← float_of_Z ug.1; middle ← median (cm_p95_values ug.2); deviation ← pstdev (cm_p95_values ug.2);
    Ok ((users, middle), (users, deviation))) measured;
  Ok (both.*1, both.*2).

(** [parse_results.py:2000-2014 _closed_completed_points] *)
Definition closed_completed_points (groups : list (Z * closed_measurements)) : res (list point * list point) :=
  let measured := filter (λ ug : Z * closed_measurements, cm_completed_values ug.2 ≠ []) (sorted_keys groups) in
  both ← res_mapM (λ ug : Z * closed_measurements,
    users ← float_of_Z ug.1;
    Ok ((users, mean_ints (cm_completed_values ug.2)), (users, pstdev_ints (cm_completed_values ug.2)))) measured;
  Ok (both.*1, both.*2).

(** ** A group is the sum of its runs *)

Definition summary_of (runs : list closed_run) : closed_measurements :=
  ClosedMeasurements (sum_Z (cr_submitted <$> runs)) (sum_Z (cr_completed <$> runs)) (Z.of_nat (length runs))
    (cr_completed <$> runs) (omap cr_p95 runs).

Definition of_users (users : Z) (runs : list closed_run) : list closed_run := filter (λ run, cr_users run = users) runs.

(** The groups of the runs so far. *)
Definition groups_of (runs : list closed_run) (groups : list (Z * closed_measurements)) : Prop :=
  NoDup groups.*1 ∧
  ∀ users, alist_get users groups =
    match of_users users runs with [] => None | runs => Some (summary_of runs) end.

Lemma summary_of_snoc runs run : summary_of (runs ++ [run]) = add_run run (summary_of runs).
Proof.
  unfold summary_of, add_run. rewrite !fmap_app, !sum_Z_app, length_app, omap_app. cbn.
  destruct run as [u s c [p|]]; cbn; f_equal; lia.
Qed.

Lemma groups_of_add runs run groups : groups_of runs groups →
  groups_of (runs ++ [run])
    (alist_set (cr_users run) (add_run run (default no_measurements (alist_get (cr_users run) groups))) groups).
Proof.
  intros [Hd Hg]. split; [by apply alist_set_NoDup|]. intros users. rewrite alist_get_set.
  unfold of_users. rewrite filter_app, filter_cons, filter_nil. destruct (decide (users = cr_users run)) as [->|Hne].
  - rewrite decide_True by done. rewrite Hg. unfold of_users.
    destruct (filter _ runs) as [|x l] eqn:Hf; f_equal; symmetry.
    + apply (summary_of_snoc [] run).
    + apply (summary_of_snoc (x :: l) run).
  - rewrite decide_False by congruence. rewrite app_nil_r. apply Hg.
Qed.

Lemma collect_closed_groups before results groups : groups_of before groups →
  match collect_closed groups results with
  | Ok groups' => ∃ runs, res_mapM read_closed results = Ok runs ∧ groups_of (before ++ runs) groups'
  | Raise e => res_mapM read_closed results = Raise e
  end.
Proof.
  revert before groups. induction results as [|r results IH]; intros before groups Hg; cbn [collect_closed res_mapM].
  { exists []. by rewrite app_nil_r. }
  destruct (read_closed r) as [run|e]; cbn [mbind res_bind]; [|done].
  specialize (IH _ _ (groups_of_add before run groups Hg)). destruct (collect_closed _ results) as [groups'|e].
  - destruct IH as (runs & -> & H). exists (run :: runs). split; [done|]. by rewrite <-app_assoc in H.
  - by rewrite IH.
Qed.

(** A run that was read: users, and no more orders completed than submitted. *)
Definition closed_run_wf (run : closed_run) : Prop :=
  (1 ≤ cr_users run ∧ 0 ≤ cr_completed run ≤ cr_submitted run)%Z.

Lemma read_closed_wf r run : read_closed r = Ok run → closed_run_wf run.
Proof.
  unfold read_closed, users_positive. intros H. apply res_bind_ok in H as (users & _ & H).
  apply res_bind_ok in H as ([] & Hu & H). apply raise_if_ok in Hu. apply res_bind_ok in H as (business & _ & H).
  do 2 apply res_bind_ok in H as (? & _ & H). do 2 apply res_bind_ok in H as (? & _ & H).
  apply res_bind_ok in H as ([] & Hc & H). apply raise_if_ok in Hc.
  apply res_bind_ok in H as (p95 & _ & [= <-]). unfold closed_run_wf. cbn. bool_to_prop. lia.
Qed.

Lemma read_closed_raises r d : alist_get "business" (rs_summary r) = Some (PDict d) → raises reading_error (read_closed r).
Proof.
  intros Hb. unfold read_closed, users_positive. rewrite Hb. unfold py_get. raises_tac.
Qed.

(** C4: A group of closed-loop runs is the sum of its runs.  The runs are
    grouped by their number of users, each group once: the orders submitted
    and completed, the number of runs, the completed orders in sequence and
    the latencies there are, of exactly the runs with that number of users;
    every run read has at least one user and completed no more orders than it
    submitted.  The grouping fails where the first of the runs cannot be read,
    and on the results that a folder gives only by the error that is reported,
    or by an integer too large for a float. *)
Theorem closed_groups_exact results :
  match collect_closed_measurements results with
  | Ok groups => ∃ runs, res_mapM read_closed results = Ok runs ∧ NoDup groups.*1 ∧ Forall closed_run_wf runs ∧
      ∀ users, alist_get users groups =
        match of_users users runs with [] => None | runs => Some (summary_of runs) end
  | Raise e => res_mapM read_closed results = Raise e ∧
      (Forall (λ r, ∃ d, alist_get "business" (rs_summary r) = Some (PDict d)) results → reading_error e)
  end.
Proof.
  unfold collect_closed_measurements. pose proof (collect_closed_groups [] results []) as H.
  destruct (collect_closed [] results) as [groups|e].
  - destruct H as (runs & Hr & Hd & Hg); [split; [constructor|done]|]. exists runs. split_and!; [done..| |done].
    apply res_mapM_ok in Hr. apply Forall_forall. intros run Hin. apply list_elem_of_lookup_1 in Hin as [i Hi].
    destruct (Forall2_lookup_r _ _ _ _ _ Hr Hi) as (r & _ & Hread). by eapply read_closed_wf.
  - rewrite H; [|split; [constructor|done]]. split; [done|]. intros Hall.
    destruct (res_mapM_raise read_closed results e) as (r & Hin & Hr); [apply H; split; [constructor|done]|].
    rewrite Forall_forall in Hall. destruct (Hall r Hin) as [d Hd]. pose proof (read_closed_raises r d Hd) as Hraise.
    by rewrite Hr in Hraise.
Qed.

(** ** Every second has a value *)

(** [v] is what was observed in the last second with an observation up to [s]. *)
Definition latest_at (observed : list (Z * pyfloat)) (s : Z) (v : pyfloat) : Prop :=
  ∃ k, (k ≤ s)%Z ∧ alist_get k observed = Some v ∧ ∀ k', (k < k' ≤ s)%Z → alist_get k' observed = None.

Lemma fill_spec observed latest second count :
  (∀ v, latest = Some v → latest_at observed (second - 1) v) →
  (is_Some latest ∨ is_Some (alist_get second observed)) →
  (fill observed latest second count).*1 = seqZ second (Z.of_nat count) ∧
  ∀ s v, (s, v) ∈ fill observed latest second count → latest_at observed s v.
Proof.
  revert latest second. induction count as [|count IH]; intros latest second Hlatest Hsome; cbn [fill].
  { split; [done|]. intros s v Hin. by apply elem_of_nil in Hin. }
  set (now := match alist_get second observed with Some v => Some v | None => latest end).
  assert (∃ v, now = Some v ∧ latest_at observed second v) as (v & Hnow & Hv).
  { unfold now. destruct (alist_get second observed) as [v|] eqn:Hs.
    - exists v. split; [done|]. exists second. split_and!; [lia|done|lia].
    - destruct Hsome as [[v Hv]|[v Hv]]; [|done]. exists v. split; [done|].
      destruct (Hlatest v Hv) as (k & Hk & Hget & Hno). exists k. split_and!; [lia|done|].
      intros k' Hk'. destruct (decide (k' = second)) as [->|]; [done|]. apply Hno. lia. }
  rewrite Hnow. cbn [option_list fmap option_fmap option_map app option_rect].
  destruct (IH (Some v) (second + 1)%Z) as [Hkeys Hvals].
  { intros ? [= <-]. by replace (second + 1 - 1)%Z with second by lia. }
  { left. by eexists. }
  split.
  - rewrite fmap_cons, Hkeys. rewrite (seqZ_cons second) by lia. cbn [fst]. f_equal. f_equal; lia.
  - intros s w Hin. apply elem_of_cons in Hin as [[= -> ->]|Hin]; [done|]. by apply Hvals.
Qed.

Lemma seconds_min_elem x l : seconds_min (x :: l) ∈ x :: l.
Proof.
  cbn. revert x. induction l as [|y l IH]; intros x; cbn [foldl]; [left|].
  destruct (proj1 (elem_of_cons _ _ _) (IH (Z.min x y))) as [->|Hin]; [|by do 2 right].
  destruct (Z.min_spec x y) as [[_ ->]|[_ ->]]; [left|right; left].
Qed.

Lemma fill_range_spec observed finish : observed ≠ [] →
  let first := seconds_min observed.*1 in
  (fill_range observed first finish).*1 = seqZ first (finish + 1 - first) ∧
  ∀ s v, (s, v) ∈ fill_range observed first finish → latest_at observed s v.
Proof.
  intros Hne first. unfold fill_range. destruct observed as [|[k0 v0] others]; [done|].
  destruct (fill_spec ((k0, v0) :: others) None first (Z.to_nat (finish + 1 - first))) as [Hkeys Hvals].
  - done.
  - right. apply not_eq_None_Some. rewrite alist_get_None. intros H. apply H. subst first. apply seconds_min_elem.
  - split; [|exact Hvals]. rewrite Hkeys. destruct (decide (0 ≤ finish + 1 - first)%Z) as [Hpos|Hneg].
    + by rewrite Z2Nat.id by lia.
    + rewrite !seqZ_nil by lia. done.
Qed.

(** An observation: of the samples whose second is [k], the last one. *)
Definition observation (warmup : pyfloat) (steady : option pyfloat) (samples : list point) (k : Z) (v : pyfloat) : Prop :=
  ∃ before p after, samples = before ++ p :: after ∧ p.2 = v ∧ f_floor (fsub p.1 warmup) = Ok k ∧
    fltb (fsub p.1 warmup) (float_dec 0 0) = false ∧
    (∀ s, steady = Some s → fleb s (fsub p.1 warmup) = false) ∧
    Forall (λ q : point, f_floor (fsub q.1 warmup) = Ok k →
      fltb (fsub q.1 warmup) (float_dec 0 0) = true ∨ ∃ s, steady = Some s ∧ fleb s (fsub q.1 warmup) = true) after.

Lemma observation_snoc warmup steady samples q k v :
  (f_floor (fsub q.1 warmup) = Ok k →
    fltb (fsub q.1 warmup) (float_dec 0 0) = true ∨ ∃ s, steady = Some s ∧ fleb s (fsub q.1 warmup) = true) →
  observation warmup steady samples k v → observation warmup steady (samples ++ [q]) k v.
Proof.
  intros Hq (before & p & after & -> & Hv & Hk & H0 & Hs & Hafter). exists before, p, (after ++ [q]).
  split_and!; try done; [by rewrite <-app_assoc|]. apply Forall_app. split; [done|]. by constructor.
Qed.

Lemma observe_spec warmup steady before samples observed observed' :
  (∀ k v, alist_get k observed = Some v → observation warmup steady before k v) →
  observe warmup steady observed samples = Ok observed' →
  ∀ k v, alist_get k observed' = Some v → observation warmup steady (before ++ samples) k v.
Proof.
  revert before observed. induction samples as [|[elapsed waiting] samples IH]; intros before observed Hbefore H; cbn [observe] in H.
  { injection H as <-. by rewrite app_nil_r. }
  rewrite cons_middle, app_assoc. destruct (_ || _) eqn:Hskip.
  - eapply IH; [|exact H]. intros k v Hk. apply observation_snoc; [|by apply Hbefore]. intros _.
    apply orb_true_iff in Hskip as [Hskip|Hskip]; [by left|right]. destruct steady as [s|]; [by exists s|done].
  - apply orb_false_iff in Hskip as [H0 Hs]. apply res_bind_ok in H as (second & Hsecond & H).
    eapply IH; [|exact H]. intros k v Hk. rewrite alist_get_set in Hk. destruct (decide (k = second)) as [->|Hne].
    + injection Hk as <-. exists before, (elapsed, waiting), []. split_and!; try done. by intros s ->.
    + apply observation_snoc; [|by apply Hbefore]. cbn [fst]. intros Hk'. congruence.
Qed.

(** C5: A closed-loop run has one number of waiting events for every second.
    The seconds of a run that was read go without a gap from the first with
    an observation to the last one, or to the end of the steady interval when
    that is asked for; the value of a second is that of the latest second with
    an observation, and an observation is the last sample of its second that
    lies in the steady interval, which starts when the warm-up ends. *)
Theorem waiting_every_second files infer_end r run : read_waiting files infer_end r = Ok run →
  (1 ≤ wr_users run)%Z ∧
  ∃ samples warmup steady observed,
    (summary_nats_waiting_samples r = Ok (Some samples) ∨
     summary_nats_waiting_samples r = Ok None ∧ resource_nats_waiting_samples files r = Ok (Some samples)) ∧
    (∀ k v, alist_get k observed = Some v → observation warmup steady samples k v) ∧
    (∃ finish, (wr_seconds run).*1 = seqZ (seconds_min observed.*1) (finish + 1 - seconds_min observed.*1) ∧
       if infer_end then ∃ s, steady = Some s ∧ f_ceil s = Ok (finish + 1)%Z else finish = seconds_max observed.*1) ∧
    (∀ s v, (s, v) ∈ wr_seconds run → latest_at observed s v) ∧
    (∀ s, steady = Some s → wr_end run = s).
Proof.
  unfold read_waiting. intros H. apply res_bind_ok in H as (users & _ & H).
  apply res_bind_ok in H as ([] & Hu & H). apply raise_if_ok in Hu. apply res_bind_ok in H as (summary & Hsum & H).
  apply res_bind_ok in H as (found & Hfound & H). destruct found as [[|p samples]|]; [done| |done].
  apply res_bind_ok in H as (warmup & _ & H). apply res_bind_ok in H as (steady & Hsteady & H).
  apply res_bind_ok in H as (observed & Hobs & H). destruct observed as [|o others]; [done|].
  set (observed := o :: others) in *.
  apply res_bind_ok in H as (finish & Hfinish & H). apply res_bind_ok in H as (stop & Hstop & [= <-]).
  split; [cbn; bool_to_prop; lia|]. exists (p :: samples), warmup, steady, observed.
  destruct (fill_range_spec observed finish ltac:(done)) as [Hkeys Hvals]. split_and!.
  - destruct summary as [s|]; [injection Hfound as ->; by left|by right].
  - apply (observe_spec warmup steady [] (p :: samples) []); [done|exact Hobs].
  - exists finish. split; [exact Hkeys|]. destruct infer_end; [|by injection Hfinish as <-].
    destruct steady as [s|].
    + apply res_bind_ok in Hfinish as (z & Hz & [= <-]). exists s. split; [done|]. by replace (z - 1 + 1)%Z with z by lia.
    + exfalso. unfold steady_seconds in Hsteady. destruct (get (rs_summary r) _); try done;
        apply res_bind_ok in Hsteady as (x & _ & H); apply res_bind_ok in H as ([] & _ & H); discriminate H.
  - exact Hvals.
  - intros s ->. by injection Hstop as <-.
Qed.

(** ** Examples *)

Definition demo_closed (name : string) (users submitted completed : Z) (samples : list pyval) : result :=
  Result (Path name "summary.json")
    [("workload", PStr "closed"); ("application_type", PStr "nats"); ("users", PInt users);
     ("business", PDict [("submitted", PInt submitted); ("completed", PFloat (float_dec completed 0));
        ("checkout_to_outcome", PDict [("p95_ms", PInt (completed * 10))])]);
     ("warmup_seconds", PInt 2); ("steady_seconds", PInt 6);
     ("nats", PDict [("consumer_pending", PDict [("series", PList samples)])])].

Definition demo_sample (elapsed waiting : Z) : pyval :=
  PDict [("elapsed_seconds", PFloat (float_dec elapsed (-1))); ("waiting_events", PInt waiting)].
Definition demo_samples : list pyval :=
  [demo_sample 10 7; demo_sample 31 4; demo_sample 34 5; demo_sample 60 9; demo_sample 95 1].

Example demo_groups :
  collect_closed_measurements [demo_closed "a" 5 20 18 []; demo_closed "b" 9 40 40 []; demo_closed "c" 5 22 20 []]
  = Ok [(5%Z, ClosedMeasurements 42 38 2 [18%Z; 20%Z] [float_dec 180 0; float_dec 200 0]);
        (9%Z, ClosedMeasurements 40 40 1 [40%Z] [float_dec 400 0])].
Proof. vm_compute. reflexivity. Qed.

Lemma waiting_every_second_witness : ∃ run,
  read_waiting (λ _, None) true (demo_closed "a" 5 20 18 demo_samples) = Ok run ∧ (1 ≤ wr_users run)%Z.
Proof.
  exists (WaitingRun 5 [(1, float_dec 5 0); (2, float_dec 5 0); (3, float_dec 5 0); (4, float_dec 9 0); (5, float_dec 9 0)]%Z
    (float_dec 6 0)).
  assert (read_waiting (λ _, None) true (demo_closed "a" 5 20 18 demo_samples) = Ok
    (WaitingRun 5 [(1, float_dec 5 0); (2, float_dec 5 0); (3, float_dec 5 0); (4, float_dec 9 0); (5, float_dec 9 0)]%Z
      (float_dec 6 0))) as Hrun by (vm_compute; reflexivity).
  exact (conj Hrun (proj1 (waiting_every_second _ _ _ _ Hrun))).
Defined.

(** A phase that is not hashable is not reported: the test of membership
    raises TypeError, and the program stops with a traceback. *)
Example listed_phase_escapes :
  summary_nats_waiting_samples (demo_closed "a" 5 20 18 [PDict [("phase", PList [])]])
  = Raise (TypeError "unhashable type").
Proof. vm_compute. reflexivity. Qed.
