(* ===== verification/FaultResults.v ===== *)
(** * The points of a fault run (benchmarkservice/parse_results.py)

    The orders of every second, the markers of the faults, and the end of the
    submissions that bounds the graphs.  The lemma: a graph shows the seconds of
    the run before its end, all of them, and the markers up to it. *)

From S2P Require Import Prelude PyFloat PyValue BenchConfig Reporting ClusterMetrics ResultValues SaturationResults.
From Corelib Require Import SpecFloat.

Section fault.
Context (r : result).
Let source := path_str (rs_path r).
Let summary := rs_summary r.
Let number := number source.

Definition seconds_name : string := "fault_tolerance.per_second".

(** [parse_results.py:514-518 fault_tolerance_points] *)
Definition fault_seconds : res (list pyval) :=
  match nested (PDict summary) ["fault_tolerance"; "per_second"] with
  | PList (second :: seconds) => Ok (second :: seconds)
  | _ => Raise (ResultError (source +:+ ": fault_tolerance.per_second must be a non-empty list"))
  end.

(** The completed orders: those observed, or those of the scheduled second.
    [parse_results.py:534-540 fault_tolerance_points] *)
Definition successful_field (sample : mapping) : string :=
  match alist_get "successfully_processed" sample with
  | Some _ => "successfully_processed" | None => "successful_requests" end.

(** A second: its point and, for NATS, the point of its queued events.
    [parse_results.py:524-565 fault_tolerance_points] *)
Definition fault_second (index : nat) (v : pyval) : res (point * option point) :=
  sample ← element source seconds_name index v;
  elapsed ← number (get sample "elapsed_seconds") (indexed seconds_name index ".elapsed_seconds");
  let field := successful_field sample in
  successful ← number (get sample field) (indexed seconds_name index ("." +:+ field));
  queued ← (if is_nats summary && present (get sample "nats_waiting_events")
            then x ← number (get sample "nats_waiting_events") (indexed seconds_name index ".nats_waiting_events");
                 Ok (Some (elapsed, x))
            else Ok None);
  Ok ((elapsed, successful), queued).

(** [parse_results.py:511-572 fault_tolerance_points] *)
Definition fault_tolerance_points : res (list point * list point) :=
  seconds ← fault_seconds;
  points ← res_mapM (uncurry fault_second) (enumerate seconds);
  let queued := kept points.*2 in
  raise_if (is_nats summary && bool_decide (queued = []))
    (ResultError (source +:+ ": fault_tolerance.per_second must contain NATS queued-event samples"));;
  Ok (sorted_points points.*1, sorted_points queued).

(** [parse_results.py:586-607 fault_tolerance_accepted_points] *)
Definition accepted_second (index : nat) (v : pyval) : res point :=
  sample ← element source seconds_name index v;
  elapsed ← number (get sample "elapsed_seconds") (indexed seconds_name index ".elapsed_seconds");
  accepted ← number (get sample "accepted_requests") (indexed seconds_name index ".accepted_requests");
  Ok (elapsed, accepted).

(** [parse_results.py:575-608 fault_tolerance_accepted_points] *)
Definition fault_tolerance_accepted_points : res (list point) :=
  seconds ← fault_seconds;
  points ← res_mapM (uncurry accepted_second) (enumerate seconds);
  Ok (sorted_points points).

(** A marker of a service that goes down or comes back. *)
Record marker := Marker {
  mk_position : pyfloat;
  mk_service : string;
  mk_color : string;
  mk_shape : string;
}.

(** [parse_results.py:621-624 fault_tolerance_markers] *)
Definition service_color (service : string) : option string :=
  if String.eqb service "paymentservice" then Some "red"
  else if String.eqb service "shippingservice" then Some "orange" else None.

(** [parse_results.py:635-654 fault_tolerance_markers] *)
Definition fault_marker (index : nat) (fault : mapping) (service color : string) (field : string * string)
    : res (option marker) :=
  let '(field_name, shape) := field in
  match get fault field_name with
  | PNone => Ok None
  | value =>
      let name := indexed "fault_tolerance.faults" index ("." +:+ field_name) in
      elapsed ← number value name;
      raise_if (fltb elapsed (float_dec 0 0)) (ResultError (source +:+ ": " +:+ name +:+ " must not be negative"));;
      Ok (Some (Marker elapsed service color shape))
  end.

(** [parse_results.py:626-654 fault_tolerance_markers] *)
Definition fault_markers (index : nat) (v : pyval) : res (list marker) :=
  fault ← element source "fault_tolerance.faults" index v;
  let service := str_lower (py_str (default (PStr "") (alist_get "service" fault))) in
  match service_color service with
  | None => Ok []
  | Some color =>
      markers ← res_mapM (fault_marker index fault service color)
        [("disabled_at_elapsed_seconds", "v"); ("reenabled_at_elapsed_seconds", "^")];
      Ok (kept markers)
  end.

(** [parse_results.py:611-655 fault_tolerance_markers] *)
Definition fault_tolerance_markers : res (list marker) :=
  match nested (PDict summary) ["fault_tolerance"; "faults"] with
  | PNone => Ok []
  | PList faults => markers ← res_mapM (uncurry fault_markers) (enumerate faults); Ok (concat markers)
  | _ => Raise (ResultError (source +:+ ": fault_tolerance.faults must be a list"))
  end.

(** The elapsed time of a second of the drain.
    [parse_results.py:661-669 fault_tolerance_submission_end] *)
Definition drain_start (index : nat) (v : pyval) : res (option pyfloat) :=
  match v with
  | PDict sample =>
      if py_eqb (get sample "phase") (PStr "drain")
      then x ← number (get sample "elapsed_seconds") (indexed seconds_name index ".elapsed_seconds"); Ok (Some x)
      else Ok None
  | _ => Ok None
  end.

Definition duration_error {A} : res A :=
  Raise (ResultError (source +:+ ": fault-tolerance submission duration must be positive")).

(** The duration that the summary or the plan of the faults gives.
    [parse_results.py:687-709 fault_tolerance_submission_end] *)
Fixpoint submission_duration (fields : list string) : res (option pyfloat) :=
  match fields with
  | [] =>
      match nested (PDict summary) ["fault_tolerance"; "plan"; "duration_seconds"] with
      | PNone => Ok None
      | value => x ← number value "fault_tolerance.plan.duration_seconds"; Ok (Some x)
      end
  | field :: fields =>
      match get summary field with
      | PNone => submission_duration fields
      | value => x ← number value field; Ok (Some x)
      end
  end.

(** Without seconds of the drain, the warm-up and the duration.
    [parse_results.py:679-716 fault_tolerance_submission_end] *)
Definition planned_end : res (option pyfloat) :=
  warmup ← number (default (PInt 0) (alist_get "warmup_seconds" summary)) "warmup_seconds";
  raise_if (fltb warmup (float_dec 0 0)) (ResultError (source +:+ ": warmup_seconds must not be negative"));;
  duration ← submission_duration ["steady_seconds"; "configured_steady_seconds"; "duration_seconds"];
  match duration with
  | None => Ok None
  | Some duration => if fleb duration (float_dec 0 0) then duration_error else Ok (Some (fadd warmup duration))
  end.

(** [parse_results.py:658-716 fault_tolerance_submission_end] *)
Definition fault_tolerance_submission_end : res (option pyfloat) :=
  drain ← match nested (PDict summary) ["fault_tolerance"; "per_second"] with
          | PList seconds => starts ← res_mapM (uncurry drain_start) (enumerate seconds); Ok (kept starts)
          | _ => Ok []
          end;
  match drain with
  | [] => planned_end
  | x :: starts =>
      let finish := foldl f_min x starts in
      if fleb finish (float_dec 0 0) then duration_error else Ok (Some finish)
  end.

(** What the graphs of a run show: the points before the end of the
    submissions, and the markers up to it. *)
Record fault_series := FaultSeries {
  fs_successful : list point;
  fs_accepted : list point;
  fs_queued : list point;
  fs_markers : list marker;
  fs_end : option pyfloat;
}.

Definition before_end (finish : pyfloat) (p : point) : Prop := fltb p.1 finish = true.
#[export] Instance before_end_dec finish p : Decision (before_end finish p).
Proof. unfold before_end. apply _. Defined.
Definition marked_by (finish : pyfloat) (m : marker) : Prop := fleb (mk_position m) finish = true.
#[export] Instance marked_by_dec finish m : Decision (marked_by finish m).
Proof. unfold marked_by. apply _. Defined.

(** [parse_results.py:1467-1479 write_fault_tolerance_graphs] *)
Definition fault_graph_series : res fault_series :=
  '(successful, queued) ← fault_tolerance_points;
  accepted ← fault_tolerance_accepted_points;
  markers ← fault_tolerance_markers;
  finish ← fault_tolerance_submission_end;
  Ok match finish with
     | None => FaultSeries successful accepted queued markers None
     | Some e => FaultSeries (filter (before_end e) successful) (filter (before_end e) accepted)
                   (filter (before_end e) queued) (filter (marked_by e) markers) (Some e)
     end.
End fault.

(** The end that a run has cuts the points and the markers, and only those
    that do not lie before it. *)
Lemma fault_graph_bounds r s e : fault_graph_series r = Ok s → fs_end s = Some e →
  ∃ successful queued accepted markers,
    fault_tolerance_points r = Ok (successful, queued) ∧ fault_tolerance_accepted_points r = Ok accepted ∧
    fault_tolerance_markers r = Ok markers ∧
    (∀ p, p ∈ fs_successful s ↔ p ∈ successful ∧ fltb p.1 e = true) ∧
    (∀ p, p ∈ fs_accepted s ↔ p ∈ accepted ∧ fltb p.1 e = true) ∧
    (∀ p, p ∈ fs_queued s ↔ p ∈ queued ∧ fltb p.1 e = true) ∧
    (∀ m, m ∈ fs_markers s ↔ m ∈ markers ∧ fleb (mk_position m) e = true).
Proof.
  unfold fault_graph_series. intros H He. apply res_bind_ok in H as ([successful queued] & Hpoints & H).
  apply res_bind_ok in H as (accepted & Haccepted & H). apply res_bind_ok in H as (markers & Hmarkers & H).
  apply res_bind_ok in H as (finish & _ & [= <-]). exists successful, queued, accepted, markers.
  destruct finish as [e'|]; [|done]. injection He as ->. split_and!; [done..| | | |];
    intros ?; cbn [fs_successful fs_accepted fs_queued fs_markers]; rewrite list_elem_of_filter; unfold before_end, marked_by; tauto.
Qed.

Definition demo_second (elapsed done_ accepted waiting : Z) (phase : string) : pyval :=
  PDict [("elapsed_seconds", PInt elapsed); ("successfully_processed", PInt done_); ("accepted_requests", PInt accepted);
    ("nats_waiting_events", PInt waiting); ("phase", PStr phase)].

Definition demo_fault_result : result :=
  Result (Path "results" "fault.json")
    [("workload", PStr "fault_tolerance"); ("application_type", PStr "NATS"); ("business", PDict []);
     ("fault_tolerance", PDict [
        ("per_second", PList [demo_second 0 3 4 0 "steady"; demo_second 1 2 4 2 "steady"; demo_second 2 5 0 0 "drain"]);
        ("faults", PList [PDict [("service", PStr "PaymentService"); ("disabled_at_elapsed_seconds", PInt 1);
           ("reenabled_at_elapsed_seconds", PInt 3)]])])].

Example demo_fault_series :
  fault_graph_series demo_fault_result
  = Ok (FaultSeries [pt 0 3; pt 1 2] [pt 0 4; pt 1 4] [pt 0 0; pt 1 2] [Marker (float_dec 1 0) "paymentservice" "red" "v"]
      (Some (float_dec 2 0))).
Proof. vm_compute. reflexivity. Qed.
