(* ===== verification/ResultCharts.v ===== *)
(** * Tables and charts (benchmarkservice/parse_results.py)

    The numbers and names of the outputs as text, the LaTeX tables, and what a
    chart must satisfy before it is drawn.  The texts of the axes, the legend
    and the drawing itself, which is done by matplotlib, are not modelled.
    Theorems: an escaped text reads back, and the limits of a chart hold all
    it shows. *)

From S2P Require Import Prelude PyFloat PyValue BenchConfig Reporting ClusterMetrics NatsReport LatencyStats ResultValues SaturationResults ResultAverages ClosedResults FaultResults.
From Corelib Require Import SpecFloat.
From Stdlib Require Import Ascii.

(** ** Numbers as text *)

(** [format(x, ".nf")] *)
Definition format_fixed (n : nat) (x : pyfloat) : string :=
  let sign := match x with S754_zero true | S754_infinity true | S754_finite true _ _ => "-" | _ => "" end in
  match x, f_ratio x with
  | S754_nan, _ => "nan"
  | S754_infinity _, _ => sign +:+ "inf"
  | _, Some (p, q) =>
      let k := round_half_even (Z.abs p * 10 ^ Z.of_nat n) q in
      let unit := (10 ^ Z.of_nat n)%Z in
      sign +:+ pretty (k / unit)%Z +:+ (if (n =? 0)%nat then "" else "." +:+ pad0 n (k mod unit))
  | _, None => ""
  end.

(** The digits after the point without trailing zeros, and the point itself
    when nothing follows it. *)
Definition strip_point (s : string) : string := str_rstrip "." (str_rstrip "0" s).

(** [format(x, ".15g")] of a finite float.
    [parse_results.py:1312-1313 _filename_number] *)
Definition filename_number (x : pyfloat) : string :=
  match x with
  | S754_nan => "nan"
  | S754_infinity s => if s then "-inf" else "inf"
  | S754_zero s => if s then "-0" else "0"
  | S754_finite s m e =>
      match f_ratio (S754_finite false m e) with
      | None => ""
      | Some (p, q) =>
          let d := dec_exponent p q in
          let scale := (14 - d)%Z in
          let k := if (0 <=? scale)%Z then round_half_even (p * 10 ^ scale) q
                   else round_half_even p (q * 10 ^ (- scale)) in
          let '(k, d) := if (10 ^ 15 <=? k)%Z then (k / 10, d + 1)%Z else (k, d) in
          let digits := pretty k in
          (if s then "-" else "") +:+
          if ((-4 <=? d) && (d <? 15))%Z then
            if (d <? 0)%Z then strip_point ("0." +:+ zeros (- d - 1) +:+ digits)
            else if (d =? 14)%Z then digits
            else strip_point (String.substring 0 (Z.to_nat (d + 1)) digits +:+ "." +:+
                   String.substring (Z.to_nat (d + 1)) (Z.to_nat (14 - d)) digits)
          else
            strip_point (String.substring 0 1 digits +:+ "." +:+ String.substring 1 14 digits) +:+
            "e" +:+ (if (d <? 0)%Z then "-" else "+") +:+ (if (Z.abs d <? 10)%Z then "0" else "") +:+ pretty (Z.abs d)
      end
  end.

Example demo_numbers :
  format_fixed 3 (float_dec 12345 (-4)) = "1.234" ∧ format_fixed 2 (float_dec (-5) (-3)) = "-0.01" ∧
  format_fixed 0 (float_dec 25 (-1)) = "2" ∧ filename_number (float_dec 1500 0) = "1500" ∧
  filename_number (float_dec 125 (-1)) = "12.5" ∧ filename_number (float_dec 3 20) = "3e+20" ∧
  filename_number (float_dec 1 (-5)) = "1e-05" ∧ filename_number (float_dec 1 (-1)) = "0.1".
Proof. vm_compute. repeat split. Qed.

(** ** LaTeX *)

Definition backslash : ascii := ascii_of_nat 92.

(** [parse_results.py:1909-1920 _latex_text] *)
Definition latex_char (c : ascii) : string :=
  match Z.to_nat (chr_code c) with
  | 92 => "\textbackslash{}"
  | 38 => "\&"
  | 37 => "\%"
  | 36 => "\$"
  | 35 => "\#"
  | 95 => "\_"
  | 123 => "\{"
  | 125 => "\}"
  | 126 => "\textasciitilde{}"
  | 94 => "\textasciicircum{}"
  | _ => String c ""
  end.

(** [parse_results.py:1908-1923 _latex_text] *)
Definition latex_text (value : string) : string := of_chars (mbind (λ c, chars (latex_char c)) (chars value)).

(** The codes of the characters: none is the beginning of another. *)
Fixpoint starts_with (p l : list ascii) : bool :=
  match p, l with
  | [], _ => true
  | a :: p, b :: l => Ascii.eqb a b && starts_with p l
  | _ :: _, [] => false
  end.

Definition all_chars : list ascii := ascii_of_nat <$> seq 0 256.

Lemma all_chars_elem c : c ∈ all_chars.
Proof.
  unfold all_chars. rewrite <-(ascii_nat_embedding c). apply list_elem_of_fmap_2, elem_of_seq.
  pose proof (nat_ascii_bounded c). lia.
Qed.

Lemma codes_prefix_free :
  forallb (λ c, forallb (λ d, Ascii.eqb c d || negb (starts_with (chars (latex_char c)) (chars (latex_char d)))) all_chars)
    all_chars = true.
Proof. vm_compute. reflexivity. Qed.

Lemma code_starts c d : starts_with (chars (latex_char c)) (chars (latex_char d)) = true → c = d.
Proof.
  intros H. pose proof codes_prefix_free as Hall. rewrite forallb_forall in Hall.
  specialize (Hall c (proj1 (list_elem_of_In _ _) (all_chars_elem c))). rewrite forallb_forall in Hall.
  specialize (Hall d (proj1 (list_elem_of_In _ _) (all_chars_elem d))). rewrite H, orb_false_r in Hall.
  by apply Ascii.eqb_eq.
Qed.

Lemma app_starts (l1 l2 r1 r2 : list ascii) : l1 ++ r1 = l2 ++ r2 → starts_with l1 l2 = true ∨ starts_with l2 l1 = true.
Proof.
  revert l2. induction l1 as [|a l1 IH]; intros [|b l2] H; cbn; [by left..|by right|].
  injection H as -> H. rewrite Ascii.eqb_refl. cbn. by apply IH.
Qed.

(** Different texts are different in LaTeX. *)
Lemma latex_text_inj s t : latex_text s = latex_text t → s = t.
Proof.
  unfold latex_text. intros H. apply (f_equal chars) in H. rewrite !chars_of_chars in H.
  rewrite <-(of_chars_chars s), <-(of_chars_chars t). f_equal. revert H. generalize (chars s) (chars t). clear s t.
  assert (∀ c, chars (latex_char c) ≠ []) as Hne.
  { intros c Hc. pose proof (code_starts c (if Ascii.eqb c "a" then "b" else "a")%char) as Hcode. rewrite Hc in Hcode.
    specialize (Hcode eq_refl). destruct (Ascii.eqb_spec c "a"%char); congruence. }
  induction l as [|c s IH]; intros [|d t] H; cbn in H.
  - done.
  - symmetry in H. apply app_eq_nil in H as [H _]. by apply Hne in H.
  - apply app_eq_nil in H as [H _]. by apply Hne in H.
  - assert (c = d) as <-.
    { destruct (app_starts _ _ _ _ H) as [Hs|Hs]; [by apply code_starts|symmetry; by apply code_starts]. }
    apply app_inv_head in H. f_equal. by apply IH.
Qed.

(** [parse_results.py:1904-1905 _latex_number] *)
Definition latex_number (value : option pyfloat) : string :=
  match value with None => "--" | Some x => format_fixed 3 x end.

(** [parse_results.py:1926-1929 _mean_and_stddev] *)
Definition mean_and_stddev (values : list pyfloat) : res (option pyfloat * option pyfloat) :=
  match values with
  | [] => Ok (None, None)
  | _ => deviation ← pstdev values; Ok (Some (mean values), Some deviation)
  end.

Definition or_dashes (digits : nat) (value : option pyfloat) : string :=
  match value with None => "--" | Some x => format_fixed digits x end.

(** The end of a row: two backslashes. *)
Definition row_end : string := " \\".

(** [parse_results.py:1932-1948 _resource_table_row] *)
Definition resource_table_row (label : string) (m : service_measurements) : res string :=
  '(cpu_mean, cpu_stddev) ← mean_and_stddev (sm_cpu_seconds_per_order m);
  '(memory_mean, memory_stddev) ← mean_and_stddev (sm_average_memory_mb m);
  Ok (latex_text label +:+ " & " +:+ or_dashes 6 cpu_mean +:+ " & " +:+ or_dashes 6 cpu_stddev +:+ " & " +:+
      or_dashes 3 memory_mean +:+ " & " +:+ or_dashes 3 memory_stddev +:+ row_end).

Definition newline : string := String (ascii_of_nat 10) "".

(** A row of the table of the closed runs.
    [parse_results.py:1960-1978 write_closed_table] *)
Definition closed_row (users : Z) (g : closed_measurements) : res string :=
  success_rate ←
    (if (cm_submitted g =? 0)%Z then Ok "--"
     else rate ← int_truediv (cm_completed g) (cm_submitted g); Ok (format_fixed 2 (fmul rate (float_dec 100 0)) +:+ "\%"));
  average_orders ← int_truediv (cm_submitted g) (cm_runs g);
  median_p95 ← match cm_p95_values g with [] => Ok None | values => x ← median values; Ok (Some x) end;
  p95_stddev ← match cm_p95_values g with [] => Ok None | values => x ← pstdev values; Ok (Some x) end;
  Ok (pretty users +:+ " & " +:+ strip_point (format_fixed 3 average_orders) +:+ " & " +:+ success_rate +:+ " & " +:+
      latex_number median_p95 +:+ " & " +:+ latex_number p95_stddev +:+ row_end).

(** The text of closed_results.tex.
    [parse_results.py:1951-1980 write_closed_table] *)
Definition closed_table (groups : list (Z * closed_measurements)) : res string :=
  rows ← res_mapM (λ ug : Z * closed_measurements, closed_row ug.1 ug.2) (sorted_keys groups);
  Ok (String.concat newline
        (["\begin{tabular}{rrrrr}"; "\hline"; "Users & Orders & Success rate & P95 & std" +:+ row_end; "\hline"]
         ++ rows ++ ["\hline"; "\end{tabular}"]) +:+ newline).

(** The table of the resources of a group.
    [parse_results.py:2156-2184 write_resource_usage_tables] *)
Definition resource_table (users : Z) (g : resource_measurements) : res (list string) :=
  rows ← res_mapM (λ sm : string * service_measurements, resource_table_row sm.1 sm.2) (sorted_items (rm_services g));
  total ← resource_table_row "Total" (rm_total g);
  Ok (["\begin{table}[htbp]"; "\centering"; "\caption{Resource usage for " +:+ pretty users +:+ " users}";
       "\begin{tabular}{lrrrr}"; "\hline";
       "Service & CPU seconds per order & CPU seconds std. & Avg memory MB & Avg memory MB std." +:+ row_end; "\hline"]
      ++ rows ++ ["\hline"; total; "\hline"; "\end{tabular}"; "\end{table}"; ""]).

(** The text of resource-usage.tex.
    [parse_results.py:2151-2185 write_resource_usage_tables] *)
Definition resource_usage_tables (groups : list (Z * resource_measurements)) : res string :=
  tables ← res_mapM (λ ug : Z * resource_measurements, resource_table ug.1 ug.2) (sorted_keys groups);
  Ok (String.concat newline (concat tables)).

(** ** Charts *)

(** No chart has vertical lines.  What is drawn: the series with their points, the deviations that go with
    them, the markers, and the limits of the axes. *)
Record chart := Chart {
  ch_destination : path;
  ch_series : list (list point);
  ch_colors : option (list (option string));
  ch_styles : option (list string);
  ch_error_bars : option (list (list point));
  ch_bands : option (list (option (list point)));
  ch_markers : list marker;
  ch_x_limit : option pyfloat;
  ch_max_value : option pyfloat;
}.

Section checks.
Context (c : chart).

Definition chart_error {A} (why : string) : res A :=
  Raise (ResultError ("cannot create " +:+ path_str (ch_destination c) +:+ ": " +:+ why)).

(** [options is not None and len(options) != len(series)] *)
Definition wrong_length {A} (options : option (list A)) : bool :=
  match options with Some l => negb (length l =? length (ch_series c))%nat | None => false end.

Definition all_points : list point := concat (ch_series c).

Definition zero : pyfloat := float_dec 0 0.

(** A deviation that goes with its point. *)
Definition deviation_ok (pd : point * point) : bool :=
  feqb pd.1.1 pd.2.1 && negb (fltb pd.2.2 zero) && f_finite pd.2.2.

(** The deviations of each series, where it has some.
    [parse_results.py:858-877 _write_png_series_chart] *)
Fixpoint check_deviations (description : string) (series : list (list point)) (deviations : list (option (list point))) : res unit :=
  match series, deviations with
  | points :: series, Some ds :: deviations =>
      if negb (length ds =? length points)%nat
      then chart_error ("each point must have a " +:+ description)
      else if forallb deviation_ok (zip points ds) then check_deviations description series deviations
      else chart_error (description +:+ "s must match points and be finite and non-negative")
  | _ :: series, None :: deviations => check_deviations description series deviations
  | _, _ => Ok tt
  end.

(** [parse_results.py:847-877 _write_png_series_chart] *)
Definition check_all_deviations (description : string) (deviations : option (list (option (list point)))) : res unit :=
  match deviations with
  | None => Ok tt
  | Some ds =>
      if negb (length ds =? length (ch_series c))%nat
      then chart_error ("each series must have " +:+ description +:+ "s")
      else check_deviations description (ch_series c) ds
  end.

(** The error bars of the chart, as those of the bands. *)
Definition error_bars : option (list (option (list point))) :=
  match ch_error_bars c with Some bars => Some (Some <$> bars) | None => None end.

(** A marker that cannot be drawn. *)
Definition bad_marker (m : marker) : bool :=
  fltb (mk_position m) zero || negb (f_finite (mk_position m)) || negb (bool_decide (mk_shape m ∈ ["v"; "^"])).

(** [max(point[0] for point in all_points)], and the markers.
    [parse_results.py:897-906 _write_png_series_chart] *)
Definition maximum_x (points : list point) : pyfloat :=
  let x := default zero (floats_max points.*1) in
  match ch_markers c with
  | [] => x
  | markers => f_max x (default zero (floats_max (mk_position <$> markers)))
  end.

(** The tops of the deviations of a chart.
    [parse_results.py:917-922 _write_png_series_chart] *)
Definition upper_bounds (deviations : list (option (list point))) : list pyfloat :=
  zip_with (λ points ds, match ds with
                         | Some ds => zip_with (λ p d : point, fadd p.2 d.2) points ds
                         | None => [] end) (ch_series c) deviations ≫= id.

(** [parse_results.py:914-925 _write_png_series_chart] *)
Definition maximum_y (points : list point) : pyfloat :=
  foldl (λ y deviations,
    match deviations with
    | Some ds => match floats_max (upper_bounds ds) with Some top => f_max y top | None => y end
    | None => y
    end) (default zero (floats_max points.*2)) [error_bars; ch_bands c].
End checks.

(** The limits of the axes of a chart. *)
Record axes := Axes { ax_x : pyfloat; ax_y : pyfloat }.

Section limits.
(** [math.log10] of the C library. *)
Variable log10 : pyfloat → pyfloat.

(** [parse_results.py:719-725 _axis_limit] *)
Definition axis_limit (maximum headroom : pyfloat) : res pyfloat :=
  let target := f_max (float_dec 5 0) (fmul maximum headroom) in
  let raw_interval := fdiv target (float_dec 5 0) in
  exponent ← f_floor (log10 raw_interval);
  let magnitude := (10 ^ exponent)%Z in
  unit ← float_of_Z magnitude;
  steps ← f_ceil (fdiv raw_interval unit);
  float_of_Z (steps * magnitude * 5).

(** The checks of a chart, and the limits it is drawn with.
    [parse_results.py:804-936 _write_png_series_chart] *)
Definition check_chart (c : chart) : res axes :=
  if wrong_length c (ch_colors c) then chart_error c "each series must have a color" else
  if wrong_length c (ch_styles c) then chart_error c "each series must have a line style" else
  match all_points c with
  | [] => chart_error c "graph has no points"
  | points =>
      if negb (forallb (λ p : point, f_finite p.1 && f_finite p.2) points)
      then chart_error c "graph points must be finite" else
      check_all_deviations c "error bar" (error_bars c);;
      check_all_deviations c "deviation band" (ch_bands c);;
      if existsb bad_marker (ch_markers c)
      then chart_error c "event markers must have finite, non-negative positions and use up or down triangles" else
      let right := maximum_x c points in
      x_limit ← match ch_x_limit c with
                | Some limit =>
                    if negb (f_finite limit) || fleb limit zero || fltb limit right
                    then chart_error c "x-axis limit must be finite, positive, and include every point"
                    else Ok limit
                | None => axis_limit right (float_dec 1 0)
                end;
      y_limit ← match ch_max_value c with
                | Some limit =>
                    if negb (f_finite limit) || fleb limit zero
                    then chart_error c "max value must be finite and positive"
                    else Ok limit
                | None => axis_limit (maximum_y c points) (float_dec 11 (-1))
                end;
      Ok (Axes x_limit y_limit)
  end.
End limits.

(** ** Deviations that go with the points *)

(** A series whose deviations go with its points. *)
Definition deviations_match (points : list point) (ds : option (list point)) : Prop :=
  match ds with
  | None => True
  | Some ds => Forall2 (λ p d : point, feqb p.1 d.1 = true ∧ fltb d.2 zero = false ∧ f_finite d.2 = true) points ds
  end.

Lemma check_deviations_ok c description series deviations : length deviations = length series →
  check_deviations c description series deviations = Ok tt → Forall2 deviations_match series deviations.
Proof.
  revert deviations. induction series as [|points series IH]; intros [|ds deviations] Hlen H; try done.
  injection Hlen as Hlen. destruct ds as [ds|]; cbn [check_deviations] in H; [|constructor; [done|by apply IH]].
  destruct (negb _) eqn:Hl; [done|]. destruct (forallb _ _) eqn:Hall; [|done]. constructor; [|by apply IH].
  apply negb_false_iff, Nat.eqb_eq in Hl. clear -Hl Hall. cbn. revert ds Hl Hall.
  induction points as [|p points IH]; intros [|d ds] Hl Hall; try done.
  cbn in Hall. apply andb_true_iff in Hall as [Hd Hall]. constructor; [|apply IH; [by injection Hl|done]].
  unfold deviation_ok in Hd. cbn in Hd. by repeat (apply andb_true_iff in Hd as [Hd ?]; bool_to_prop).
Qed.

Lemma check_all_ok c description deviations : check_all_deviations c description (Some deviations) = Ok tt →
  Forall2 deviations_match (ch_series c) deviations.
Proof.
  cbn. destruct (negb _) eqn:Hl; [done|]. intros H. apply negb_false_iff, Nat.eqb_eq in Hl. by eapply check_deviations_ok.
Qed.

(** ** The largest value of a list *)

Lemma floats_max_bound l m : Forall number_key l → floats_max l = Some m →
  number_key m ∧ Forall (λ y, fltb m y = false) l.
Proof.
  intros Hl Hm. assert (number_key m) as Hnm.
  { apply floats_max_elem in Hm. rewrite Forall_forall in Hl. by apply Hl. }
  split; [done|]. destruct l as [|x l]; [done|]. injection Hm as Hm. apply Forall_cons in Hl as [Hx Hl].
  assert (fltb m x = false ∧ Forall (λ y, fltb m y = false) l) as [??]; [|by constructor].
  revert x Hx Hm. induction Hl as [|y l Hy Hl IH]; intros x Hx Hm; cbn [foldl] in Hm.
  { subst. split; [apply fltb_irrefl|constructor]. }
  assert (number_key (f_max x y)) as Hxy by (unfold f_max; by case_match).
  destruct (IH _ Hxy Hm) as [Hmax Hall].
  assert (fltb m x = false ∧ fltb m y = false) as [??]; [|split; [done|by constructor]].
  assert (float_le x (f_max x y) ∧ float_le y (f_max x y)) as [H1 H2].
  { unfold f_max, float_le. destruct (fltb x y) eqn:Hlt; [|by rewrite fltb_irrefl].
    split; [|apply fltb_irrefl]. apply not_true_iff_false. intros H. pose proof (fltb_trans _ _ _ H Hlt) as Hirr.
    by rewrite fltb_irrefl in Hirr. }
  split; by eapply (float_le_numbers _ (f_max x y)).
Qed.

(** ** What a checked chart is *)

Definition finite_point (p : point) : Prop := f_finite p.1 = true ∧ f_finite p.2 = true.
Definition marker_ok (m : marker) : Prop :=
  f_finite (mk_position m) = true ∧ fltb (mk_position m) zero = false ∧ mk_shape m ∈ ["v"; "^"].

(** Every point and every marker lies up to the limit. *)
Definition holds_all (c : chart) (limit : pyfloat) : Prop :=
  Forall (λ p : point, fltb limit p.1 = false) (all_points c) ∧
  Forall (λ m, fltb limit (mk_position m) = false) (ch_markers c).

Record chart_ok (c : chart) (limits : axes) : Prop := {
  co_points : all_points c ≠ [] ∧ Forall finite_point (all_points c);
  co_colors : ∀ l, ch_colors c = Some l → length l = length (ch_series c);
  co_styles : ∀ l, ch_styles c = Some l → length l = length (ch_series c);
  co_bars : ∀ ds, ch_error_bars c = Some ds → Forall2 deviations_match (ch_series c) (Some <$> ds);
  co_bands : ∀ ds, ch_bands c = Some ds → Forall2 deviations_match (ch_series c) ds;
  co_markers : Forall marker_ok (ch_markers c);
  co_x : ∀ l, ch_x_limit c = Some l → ax_x limits = l ∧ fleb l zero = false ∧ holds_all c l;
  co_y : ∀ l, ch_max_value c = Some l → ax_y limits = l ∧ f_finite l = true ∧ fleb l zero = false;
}.

Lemma wrong_length_ok {A} c (options : option (list A)) :
  wrong_length c options = false → ∀ l, options = Some l → length l = length (ch_series c).
Proof. intros H l ->. by apply negb_false_iff, Nat.eqb_eq in H. Qed.

Lemma markers_checked c : existsb bad_marker (ch_markers c) = false → Forall marker_ok (ch_markers c).
Proof.
  intros H. apply Forall_forall. intros m Hm. apply not_true_iff_false in H.
  assert (bad_marker m = false) as Hbad.
  { apply not_true_iff_false. intros Hb. apply H, existsb_exists. exists m. split; [by apply list_elem_of_In|done]. }
  unfold bad_marker in Hbad. unfold marker_ok. apply orb_false_iff in Hbad as [Hbad Hshape].
  apply orb_false_iff in Hbad as [Hpos Hfin]. apply negb_false_iff in Hfin, Hshape. split_and!; [done..|].
  by apply bool_decide_eq_true in Hshape.
Qed.

Lemma finite_number x : f_finite x = true → number_key x.
Proof. by destruct x. Qed.

Lemma maximum_x_holds c limit : f_finite limit = true → all_points c ≠ [] → Forall finite_point (all_points c) →
  Forall marker_ok (ch_markers c) → fltb limit (maximum_x c (all_points c)) = false → holds_all c limit.
Proof.
  intros Hlimit Hne Hpoints Hmarkers Hmax. unfold maximum_x in Hmax.
  assert (∀ l m y, Forall number_key l → floats_max l = Some m → fltb limit m = false → y ∈ l → fltb limit y = false) as Hbound.
  { intros l m y Hl Hm Hlim Hy. destruct (floats_max_bound l m Hl Hm) as [Hnm Hall].
    rewrite Forall_forall in Hl, Hall. apply (float_le_numbers y m limit); auto using finite_number. by apply Hall. }
  assert (∃ x, floats_max (all_points c).*1 = Some x) as [x Hx] by (destruct (all_points c); [done|by eexists]).
  assert (Forall number_key (all_points c).*1) as Hnum.
  { apply Forall_fmap. eapply Forall_impl; [exact Hpoints|]. intros p [? _]. by apply finite_number. }
  assert (Forall number_key (mk_position <$> ch_markers c)) as Hmnum.
  { apply Forall_fmap. eapply Forall_impl; [exact Hmarkers|]. intros m [? _]. by apply finite_number. }
  rewrite Hx in Hmax. cbn [default] in Hmax.
  assert (fltb limit x = false ∧ ∀ m, floats_max (mk_position <$> ch_markers c) = Some m → fltb limit m = false) as [Hlx Hlm].
  { destruct (ch_markers c) as [|m0 markers] eqn:Hm; [by split|].
    assert (∃ m, floats_max (mk_position <$> m0 :: markers) = Some m) as [m Hmm] by (by eexists).
    rewrite Hmm in Hmax. cbn [default from_option] in Hmax. unfold f_max in Hmax.
    destruct (floats_max_bound _ _ Hmnum Hmm) as [Hmk _]. destruct (floats_max_bound _ _ Hnum Hx) as [Hxk _].
    assert (fltb limit x = false ∧ fltb limit m = false) as [? ?]; [|split; [done|intros ?; rewrite Hmm; by intros [= <-]]].
    unfold id in Hmax. destruct (fltb x m) eqn:Hlt.
    - split; [|done]. apply (float_le_numbers x m limit); auto using finite_number. unfold float_le.
      apply not_true_iff_false. intros H. pose proof (fltb_trans _ _ _ H Hlt) as Hirr. by rewrite fltb_irrefl in Hirr.
    - split; [done|]. by apply (float_le_numbers m x limit); auto using finite_number. }
  split; apply Forall_forall.
  - intros p Hp. apply (Hbound (all_points c).*1 x); try done. by apply (list_elem_of_fmap_2 fst).
  - intros m Hm. assert (∃ y, floats_max (mk_position <$> ch_markers c) = Some y) as [y Hy].
    { destruct (ch_markers c); [by apply elem_of_nil in Hm|by eexists]. }
    apply (Hbound (mk_position <$> ch_markers c) y); auto. by apply (list_elem_of_fmap_2 mk_position).
Qed.

Lemma check_chart_ok log10 c limits : check_chart log10 c = Ok limits → chart_ok c limits.
Proof.
  unfold check_chart. intros H.
  destruct (wrong_length c (ch_colors c)) eqn:Hcolors; [done|].
  destruct (wrong_length c (ch_styles c)) eqn:Hstyles; [done|].
  destruct (all_points c) as [|p0 points] eqn:Hpoints; [done|].
  destruct (negb _) eqn:Hfinite; [done|]. apply negb_false_iff in Hfinite.
  apply res_bind_ok in H as ([] & Hbars & H). apply res_bind_ok in H as ([] & Hbands & H).
  destruct (existsb bad_marker _) eqn:Hmarkers; [done|].
  apply res_bind_ok in H as (x & Hx & H). apply res_bind_ok in H as (y & Hy & [= <-]).
  assert (Forall finite_point (all_points c)) as Hfin.
  { rewrite Hpoints. apply Forall_forall. intros p Hp. rewrite forallb_forall in Hfinite.
    apply andb_true_iff, Hfinite. by apply list_elem_of_In. }
  split; cbn [ax_x ax_y].
  - by rewrite Hpoints; split; [|rewrite Hpoints in Hfin].
  - by apply wrong_length_ok.
  - by apply wrong_length_ok.
  - intros ds Hds. unfold error_bars in Hbars. rewrite Hds in Hbars. by eapply check_all_ok.
  - intros ds Hds. rewrite Hds in Hbands. by eapply check_all_ok.
  - by apply markers_checked.
  - intros l Hl. rewrite Hl in Hx. destruct (_ || _) eqn:Hbad in Hx; [done|]. injection Hx as <-.
    apply orb_false_iff in Hbad as [Hbad Hmax]. apply orb_false_iff in Hbad as [Hlf Hlz]. apply negb_false_iff in Hlf.
    split_and!; [done..|]. apply maximum_x_holds; [done|by rewrite Hpoints|done|by apply markers_checked|by rewrite Hpoints].
  - intros l Hl. rewrite Hl in Hy. destruct (_ || _) eqn:Hbad in Hy; [done|]. injection Hy as <-.
    apply orb_false_iff in Hbad as [Hlf Hlz]. by apply negb_false_iff in Hlf.
Qed.
