(* ===== verification/ResultReports.v ===== *)
(** * The outputs of a results folder (benchmarkservice/parse_results.py)

    Which charts and tables are made of the results of a folder, in which
    order, and what happens to an error.  Charts are drawn and files written
    by an environment that may fail.  Theorem: the paths printed are those
    written, and every chart that was drawn passed its checks. *)

From S2P Require Import Prelude PyFloat PyValue BenchConfig Reporting ClusterMetrics NatsReport LatencyStats ResultValues SaturationResults ResultAverages ClosedResults FaultResults ResultCharts.
From Corelib Require Import SpecFloat.

(** ** Writing files *)

(** What a run leaves in the folder. *)
Inductive artifact :=
  | Drawn (c : chart) (limits : axes)
  | Text (destination : path) (text : string).

Definition artifact_path (a : artifact) : path :=
  match a with Drawn c _ => ch_destination c | Text p _ => p end.

(** A computation that writes files, or fails after some of them. *)
Definition writer (A : Type) : Type := list artifact → res A * list artifact.
#[export] Instance writer_ret : MRet writer := λ A a log, (Ok a, log).
#[export] Instance writer_bind : MBind writer := λ A B f m log,
  match m log with
  | (Ok a, log) => f a log
  | (Raise e, log) => (Raise e, log)
  end.
Definition computed {A} (m : res A) : writer A := λ log, (m, log).

Section reports.
(** [math.log10], and the outcome of drawing or writing a file. *)
Context (log10 : pyfloat → pyfloat) (save : artifact → res unit).

Definition write (a : artifact) : writer unit := λ log,
  match save a with Ok _ => (Ok tt, log ++ [a]) | Raise e => (Raise e, log) end.

(** A chart is checked, then drawn; its path is the output.
    [parse_results.py:762-793 write_png_multi_series_chart] *)
Definition write_chart (c : chart) : writer (list path) :=
  limits ← computed (check_chart log10 c); write (Drawn c limits);; mret [ch_destination c].

Definition write_table (destination : path) (text : res string) : writer (list path) :=
  text ← computed text; write (Text destination text);; mret [destination].

(** [outputs.append(...)] of a chart that is drawn under a condition. *)
Definition write_when (b : bool) (m : writer (list path)) : writer (list path) :=
  if b then m else mret [].

Definition nonempty {A} (l : list A) : bool := match l with [] => false | _ => true end.

Context (max_value : option pyfloat).

(** A chart of one series.
    [parse_results.py:728-759 write_png_chart] *)
Definition single_chart (destination : path) (points : list point) (color : option string)
    (error_bars deviation_band : option (list point)) (markers : list marker) (x_limit : option pyfloat) : chart :=
  Chart destination [points] ((λ c, [Some c]) <$> color) None ((λ b, [b]) <$> error_bars)
    ((λ b, [Some b]) <$> deviation_band) markers x_limit max_value.

Definition blue : string := "#1f77b4".
Definition green : string := "#2ca02c".
Definition orange : string := "#ff7f0e".

(** ** One saturation run *)

(** The goodput of a run, and its accepted orders when asked for.
    [parse_results.py:1062-1088 write_saturation_graphs] *)
Definition goodput_chart (destination : path) (submitted processed : list point) (accepted : option (list point))
    (bands : option (list (option (list point)))) : chart :=
  Chart destination ([submitted; processed] ++ option_list accepted)
    (Some ([Some blue; Some green] ++ match accepted with Some _ => [Some orange] | None => [] end))
    None None bands [] None max_value.

(** The latencies with the line of the timeouts.
    [parse_results.py:1096-1119 write_saturation_graphs] *)
Definition latency_chart (destination : path) (latency acceptance timeout : list point)
    (bands : option (list (option (list point)))) : chart :=
  Chart destination ([latency] ++ (if nonempty acceptance then [acceptance] else []) ++ [timeout])
    (Some ([Some blue] ++ (if nonempty acceptance then [Some orange] else []) ++ [Some blue]))
    (Some (["-"] ++ (if nonempty acceptance then ["-"] else []) ++ ["--"]))
    None bands [] None max_value.

(** [parse_results.py:1051-1148 write_saturation_graphs] *)
Definition write_saturation_graphs (limit : option pyfloat) (add_accepted : bool) (r : result) : writer (list path) :=
  series ← computed (saturation_points r limit);
  accepted ← (if add_accepted then computed (Some <$> saturation_accepted_points r limit) else mret None);
  goodput ← write_chart
    (goodput_chart (sibling (rs_path r) "_goodput.png") (ss_submitted series) (ss_processed series) accepted None);
  timeout ← computed (saturation_latency_timeout_points r limit);
  acceptance ← computed (saturation_acceptance_latency_points r limit);
  latency ← write_when (nonempty (ss_latency series) || nonempty acceptance || nonempty timeout)
    (write_chart (latency_chart (sibling (rs_path r) "_p95_latency.png") (ss_latency series) acceptance timeout None));
  pending ← write_when (nonempty (ss_pending series))
    (pending ← write_chart (single_chart (sibling (rs_path r) "_max_pending_events.png") (ss_pending series)
       (Some blue) None None [] None);
     interpolated ← computed (saturation_interpolated_pending_points r limit);
     drawn ← write_when (nonempty interpolated)
       (write_chart (single_chart (sibling (rs_path r) "_max_pending_events_interpolated.png") interpolated
          (Some blue) None None [] None));
     mret (pending ++ drawn));
  mret (goodput ++ latency ++ pending).

(** ** Repeated saturation runs *)

(** [max(rates)] *)
Definition max_rate (points : list point) : res pyfloat :=
  match floats_max points.*1 with
  | Some x => Ok x
  | None => Raise (ValueError "max() iterable argument is empty")
  end.

(** The charts of the runs of one duration.
    [parse_results.py:1334-1460 write_average_saturation_graphs] *)
Definition write_average_group (folder : string) (limit : option pyfloat) (add_accepted : bool) (runs : list result)
    : writer (list path) :=
  average ← computed (average_saturation_points runs limit);
  let '(submitted, submitted_deviations) := av_submitted average in
  let '(processed, processed_deviations) := av_processed average in
  let '(latency, latency_deviations) := av_latency average in
  lines ← computed (average_saturation_latency_plot_points submitted latency latency_deviations);
  maximum_orders ← computed (max_rate submitted);
  let suffix := filename_number maximum_orders in
  accepted ← (if add_accepted then computed (Some <$> average_saturation_accepted_points runs limit) else mret None);
  goodput ← write_chart
    (goodput_chart (path_in folder ("average_goodput_" +:+ suffix +:+ ".png")) submitted processed (fst <$> accepted)
       (Some (Some <$> ([submitted_deviations; processed_deviations] ++ option_list (snd <$> accepted)))));
  let nats_results := filter (λ r, is_nats (rs_summary r) = true) runs in
  acceptance ← (if (length nats_results =? length runs)%nat
                then computed (average_saturation_acceptance_latency_points nats_results limit) else mret ([], []));
  latency ← write_when (nonempty (ll_measured lines) || nonempty acceptance.1 || nonempty (ll_timeout lines))
    (write_chart (latency_chart (path_in folder ("average_latency_" +:+ suffix +:+ ".png")) (ll_measured lines)
       acceptance.1 (ll_timeout lines)
       (Some ([Some (ll_deviations lines)] ++ (if nonempty acceptance.1 then [Some acceptance.2] else []) ++ [None]))));
  pending ← write_when (2 <=? length nats_results)%nat
    ('(pending, pending_deviations) ← computed (average_interpolated_saturation_pending_points nats_results limit);
     write_when (nonempty pending)
       (series ← computed (res_mapM (λ r, saturation_points r limit) nats_results);
        nats_maximum_orders ← computed (max_rate (concat (ss_submitted <$> series)));
        write_chart (single_chart (path_in folder ("average_waiting_events_" +:+ filename_number nats_maximum_orders +:+ ".png"))
          pending (Some blue) None (Some pending_deviations) [] None)));
  mret (goodput ++ latency ++ pending).

(** The outputs of a list of inputs, one after the other. *)
Fixpoint write_each {A} (f : A → writer (list path)) (l : list A) : writer (list path) :=
  match l with
  | [] => mret []
  | a :: l => outputs ← f a; others ← write_each f l; mret (outputs ++ others)
  end.

(** [parse_results.py:1316-1461 write_average_saturation_graphs] *)
Definition write_average_saturation_graphs (folder : string) (limit : option pyfloat) (add_accepted : bool)
    (results : list result) : writer (list path) :=
  groups ← computed (repeated_runs results);
  write_each (write_average_group folder limit add_accepted) groups.

(** ** Fault runs *)

(** [parse_results.py:1464-1511 write_fault_tolerance_graphs] *)
Definition fault_chart (r : result) (s : fault_series) : chart :=
  Chart (sibling (rs_path r) "_successful_requests.png") [fs_successful s; fs_accepted s]
    (Some [Some blue; Some green]) None None None (fs_markers s) (fs_end s) max_value.

(** [parse_results.py:1464-1511 write_fault_tolerance_graphs] *)
Definition write_fault_tolerance_graphs (r : result) : writer (list path) :=
  s ← computed (fault_graph_series r);
  successful ← write_chart (fault_chart r s);
  queued ← write_when (nonempty (fs_queued s))
    (write_chart (single_chart (sibling (rs_path r) "_queued_events.png") (fs_queued s) (Some blue) None None
       (fs_markers s) (fs_end s)));
  mret (successful ++ queued).

(** ** Closed-loop runs *)

Context (resources : resource_files).

(** [parse_results.py:2017-2077 write_closed_graphs] *)
Definition write_closed_graphs (folder : string) (infer_end : bool) (results : list result)
    (groups : list (Z * closed_measurements)) : writer (list path) :=
  '(latency_points, latency_errors) ← computed (closed_latency_points groups);
  latency ← write_when (nonempty latency_points)
    (write_chart (single_chart (path_in folder "closed_p95_latency.png") latency_points None (Some latency_errors) None [] None));
  '(completed_points, completed_errors) ← computed (closed_completed_points groups);
  completed ← write_when (nonempty completed_points)
    (write_chart (single_chart (path_in folder "closed_completed_orders.png") completed_points None (Some completed_errors)
       None [] None));
  waiting ← computed (collect_closed_nats_waiting_statistics resources infer_end results);
  waiting_path ← write_when (nonempty (ws_means waiting))
    (write_chart (Chart (path_in folder "closed_nats_waiting_events.png") (ws_means waiting).*2 None None None
       (Some (Some <$> (ws_deviations waiting).*2)) [] (ws_end waiting) max_value));
  mret (latency ++ completed ++ waiting_path).

Definition workload (r : result) : pyval := get (rs_summary r) "workload".
Definition of_workload (name : string) (results : list result) : list result :=
  filter (λ r, py_eqb (workload r) (PStr name) = true) results.

(** The files of a folder. *)
Context (folders : string → option (list (path * res pyval))).

Definition comparison_chart (destination : path) (current comparison : list point * list point) : chart :=
  Chart destination [current.1; comparison.1] (Some [Some blue; Some green]) None (Some [current.2; comparison.2]) None []
    None max_value.

(** [parse_results.py:2080-2148 write_closed_comparison_graphs] *)
Definition write_closed_comparison_graphs (folder : string) (groups : list (Z * closed_measurements))
    (comparison_folder : string) : writer (list path) :=
  found ← computed (find_results comparison_folder (folders comparison_folder));
  match of_workload "closed" found with
  | [] => computed (Raise (ResultError (comparison_folder +:+ ": --closed-compare folder must contain closed-loop results")))
  | comparison_results =>
      current ← computed (closed_latency_points groups);
      comparison_groups ← computed (collect_closed_measurements comparison_results);
      comparison ← computed (closed_latency_points comparison_groups);
      if negb (nonempty current.1 && nonempty comparison.1)
      then computed (Raise (ResultError "--closed-compare requires P95 latency measurements in both folders")) else
      latency ← write_chart (comparison_chart (path_in folder "closed_p95_latency_comparison.png") current comparison);
      current_completed ← computed (closed_completed_points groups);
      comparison_completed ← computed (closed_completed_points comparison_groups);
      completed ← write_chart
        (comparison_chart (path_in folder "closed_completed_orders_comparison.png") current_completed comparison_completed);
      mret (latency ++ completed)
  end.

(** ** A folder *)

(** The options of the command line. *)
Record options := Options {
  op_saturation_limit : option pyfloat;
  op_closed_infer_end : bool;
  op_saturation_add_accepted : bool;
  op_closed_compare : option string;
}.
Context (o : options).

(** [parse_results.py:2201-2204 process_folder] *)
Definition check_workload (r : result) : res unit :=
  known ← py_in_set (workload r) ["closed"; "saturation"; "fault_tolerance"];
  raise_if (negb known) (ResultError ("unsupported workload " +:+ py_str (workload r))).

(** The tables and graphs of the closed-loop runs.
    [parse_results.py:2207-2240 process_folder] *)
Definition closed_outputs (folder : string) (closed_results : list result) : writer (list path) :=
  match closed_results with
  | [] =>
      match op_closed_compare o with
      | None => mret []
      | Some _ => computed (Raise (ResultError
          "--closed-compare requires the current folder to contain closed-loop results"))
      end
  | _ =>
      groups ← computed (collect_closed_measurements closed_results);
      table ← write_table (path_in folder "closed_results.tex") (closed_table groups);
      usage ← write_table (path_in folder "resource-usage.tex")
        (measurements ← collect_closed_resource_measurements closed_results; resource_usage_tables measurements);
      graphs ← write_closed_graphs folder (op_closed_infer_end o) closed_results groups;
      comparison ← match op_closed_compare o with
                   | Some other => write_closed_comparison_graphs folder groups other
                   | None => mret []
                   end;
      mret (table ++ usage ++ graphs ++ comparison)
  end.

(** The graphs of one result; those of the closed runs are made before.
    [parse_results.py:2247-2258 process_folder] *)
Definition result_outputs (r : result) : writer (list path) :=
  if py_eqb (workload r) (PStr "saturation")
  then write_saturation_graphs (op_saturation_limit o) (op_saturation_add_accepted o) r
  else if py_eqb (workload r) (PStr "fault_tolerance") then write_fault_tolerance_graphs r
  else mret [].

(** [parse_results.py:2188-2268 process_folder] *)
Definition process_folder (folder : string) : writer (list path) :=
  computed (raise_if (match max_value with Some x => negb (f_finite x) || fleb x zero | None => false end)
    (ResultError "--max-value must be finite and positive"));;
  results ← computed (find_results folder (folders folder));
  computed (res_mapM check_workload results);;
  closed ← closed_outputs folder (of_workload "closed" results);
  each ← write_each result_outputs results;
  average ← write_average_saturation_graphs folder (op_saturation_limit o) (op_saturation_add_accepted o)
    (of_workload "saturation" results);
  mret (closed ++ each ++ average).

(** What [main] does with the outcome: the paths it prints or the error it
    reports, and its exit status; any other exception leaves it.
    [parse_results.py:2322-2338 main] *)
Definition main (folder : string) : res (list path * option string * Z) * list artifact :=
  let '(outcome, log) := process_folder folder [] in
  (match outcome with
   | Ok outputs => Ok (outputs, None, 0%Z)
   | Raise (ResultError m) => Ok ([], Some m, 1%Z)
   | Raise e => Raise e
   end, log).
End reports.

(** ** What is printed was written *)

Section outcome.
Context (log10 : pyfloat → pyfloat) (save : artifact → res unit).

(** A file that was really written; a chart is as it must be. *)
Definition sound (a : artifact) : Prop :=
  save a = Ok tt ∧ match a with Drawn c limits => chart_ok c limits | Text _ _ => True end.

(** The files written are added to the log; those of a success satisfy [Q]
    together with the value. *)
Definition writes {A} (Q : A → list artifact → Prop) (m : writer A) : Prop :=
  ∀ log, ∃ new, (m log).2 = log ++ new ∧ Forall sound new ∧ match (m log).1 with Ok a => Q a new | Raise _ => True end.

(** The value is the list of what was written. *)
Definition listed (paths : list path) (new : list artifact) : Prop := paths = artifact_path <$> new.
Definition nothing {A} (_ : A) (new : list artifact) : Prop := new = [].

Lemma writes_computed {A} (m : res A) : writes nothing (computed m).
Proof. intros log. exists []. rewrite app_nil_r. by destruct m. Qed.

Lemma writes_failed {A} (Q : A → list artifact → Prop) e : writes Q (computed (Raise e)).
Proof. intros log. exists []. by rewrite app_nil_r. Qed.

Lemma writes_ret {A} (Q : A → list artifact → Prop) a : Q a [] → writes Q (mret a).
Proof. intros HQ log. exists []. by rewrite app_nil_r. Qed.

Lemma writes_bind {A B} (Q : A → list artifact → Prop) (R : B → list artifact → Prop) m f :
  writes Q m → (∀ a new, Q a new → writes (λ b new', R b (new ++ new')) (f a)) → writes R (m ≫= f).
Proof.
  intros Hm Hf log. destruct (Hm log) as (new & Hlog & Hs & HQ). unfold mbind, writer_bind.
  destruct (m log) as [[a|e] log']; cbn [fst snd] in *; subst log'.
  - destruct (Hf a new HQ (log ++ new)) as (new' & Hlog' & Hs' & HR). exists (new ++ new'). rewrite app_assoc.
    split_and!; [done|by apply Forall_app|done].
  - by exists new.
Qed.

(** After a computation that writes nothing. *)
Lemma writes_then {A B} (R : B → list artifact → Prop) (m : res A) f :
  (∀ a, writes R (f a)) → writes R (computed m ≫= f).
Proof.
  intros Hf. eapply writes_bind; [apply writes_computed|]. intros a new ->. apply Hf.
Qed.

Lemma writes_ret_then {A B} (R : B → list artifact → Prop) (a : A) (f : A → writer B) :
  writes R (f a) → writes R (mret a ≫= f).
Proof. intros Hf log. exact (Hf log). Qed.

(** After outputs that are listed, the others are listed with them. *)
Lemma writes_listed {B} (R : B → list artifact → Prop) m f :
  writes listed m → (∀ paths new, listed paths new → writes (λ b new', R b (new ++ new')) (f paths)) → writes R (m ≫= f).
Proof. intros Hm Hf. by eapply writes_bind. Qed.

Lemma writes_chart c : writes listed (write_chart log10 save c).
Proof.
  intros log. unfold write_chart, computed, write, mbind, writer_bind, mret, writer_ret.
  destruct (check_chart log10 c) as [limits|e] eqn:Hc; [|exists []; by rewrite app_nil_r].
  destruct (save (Drawn c limits)) as [[]|e] eqn:Hs; [|exists []; by rewrite app_nil_r].
  exists [Drawn c limits]. split_and!; [done| |done]. constructor; [|constructor].
  split; [done|]. by eapply check_chart_ok.
Qed.

Lemma writes_table p text : writes listed (write_table save p text).
Proof.
  intros log. unfold write_table, computed, write, mbind, writer_bind, mret, writer_ret.
  destruct text as [t|e]; [|exists []; by rewrite app_nil_r].
  destruct (save (Text p t)) as [[]|e] eqn:Hs; [|exists []; by rewrite app_nil_r].
  exists [Text p t]. split_and!; [done| |done]. by repeat constructor.
Qed.

Lemma writes_when b m : writes listed m → writes listed (write_when b m).
Proof. intros Hm. destruct b; [done|]. by apply writes_ret. Qed.

Lemma writes_each {A} (f : A → writer (list path)) l : (∀ a, writes listed (f a)) → writes listed (write_each f l).
Proof.
  intros Hf. induction l as [|a l IH]; [by apply writes_ret|]. cbn [write_each].
  eapply writes_listed; [apply Hf|]. intros outputs new ->. eapply writes_listed; [exact IH|]. intros others new' ->.
  apply writes_ret. unfold listed. by rewrite !fmap_app, app_nil_r.
Qed.
End outcome.

(** Outputs that are collected one after the other. *)
Ltac listed_step :=
  lazymatch goal with
  | |- writes _ _ (let '(_, _) := ?x in _) => destruct x
  | |- writes _ _ (computed _ ≫= _) => apply writes_then; intros ?
  | |- writes _ _ (mret _ ≫= _) => apply writes_ret_then
  | |- writes _ _ ((if ?b then computed _ else _) ≫= _) => destruct b
  | |- writes _ _ (_ ≫= _) => eapply writes_listed; [|intros ? ? ->]
  | |- writes _ _ (computed _) => apply writes_failed
  | |- writes _ listed (write_chart _ _ _) => apply writes_chart
  | |- writes _ listed (write_table _ _ _) => apply writes_table
  | |- writes _ listed (write_when _ _) => apply writes_when
  | |- writes _ listed (write_each _ _) => apply writes_each; intros ?
  | |- writes _ _ (mret _) => apply writes_ret; unfold listed; cbn [app fmap list_fmap];
      rewrite ?fmap_app, ?app_nil_r, <-?app_assoc; done
  | |- writes _ _ (if ?b then _ else _) => destruct b
  | |- writes _ _ (match ?x with _ => _ end) => destruct x
  | |- writes _ listed _ => solve [auto with written]
  end.
Ltac listed_tac := repeat listed_step.
Create HintDb written.

Section written.
Context (log10 : pyfloat → pyfloat) (save : artifact → res unit) (max_value : option pyfloat)
  (resources : resource_files) (folders : string → option (list (path * res pyval))) (o : options).

Lemma saturation_graphs_listed limit add_accepted r :
  writes save listed (write_saturation_graphs log10 save max_value limit add_accepted r).
Proof. unfold write_saturation_graphs. listed_tac. Qed.

Lemma average_group_listed folder limit add_accepted runs :
  writes save listed (write_average_group log10 save max_value folder limit add_accepted runs).
Proof. unfold write_average_group. listed_tac. Qed.
#[local] Hint Resolve saturation_graphs_listed average_group_listed : written.

Lemma fault_graphs_listed r : writes save listed (write_fault_tolerance_graphs log10 save max_value r).
Proof. unfold write_fault_tolerance_graphs. listed_tac. Qed.

Lemma closed_graphs_listed folder infer_end results groups :
  writes save listed (write_closed_graphs log10 save max_value resources folder infer_end results groups).
Proof. unfold write_closed_graphs. listed_tac. Qed.

Lemma comparison_listed folder groups other :
  writes save listed (write_closed_comparison_graphs log10 save max_value folders folder groups other).
Proof. unfold write_closed_comparison_graphs. listed_tac. Qed.
#[local] Hint Resolve fault_graphs_listed closed_graphs_listed comparison_listed : written.

Lemma closed_outputs_listed folder results :
  writes save listed (closed_outputs log10 save max_value resources folders o folder results).
Proof. unfold closed_outputs. listed_tac. Qed.
#[local] Hint Resolve closed_outputs_listed : written.

Lemma folder_listed folder :
  writes save listed (process_folder log10 save max_value resources folders o folder).
Proof.
  unfold process_folder, result_outputs, write_average_saturation_graphs. listed_tac.
Qed.

(** C6: What the program prints was written.  With status 0 it prints exactly
    the paths of the files it wrote, in the order of writing; with status 1 it
    reports an error and prints no path; what it lets through is not a
    [ResultError].  In every case the charts that were drawn passed the checks
    of the points, deviations, markers and limits, with the limits they were
    drawn with. *)
Theorem main_reports folder :
  match main log10 save max_value resources folders o folder with
  | (Ok (outputs, error, status), log) =>
      Forall (sound save) log ∧
      (status = 0%Z ∧ error = None ∧ outputs = artifact_path <$> log ∨
       status = 1%Z ∧ is_Some error ∧ outputs = [])
  | (Raise e, log) => Forall (sound save) log ∧ ¬ is_result_error e
  end.
Proof.
  unfold main. destruct (folder_listed folder []) as (log & Hlog & Hsound & Hlisted).
  destruct (process_folder _ _ _ _ _ _ folder []) as [outcome log'] eqn:Hp. cbn [fst snd app] in *. subst log'.
  destruct outcome as [outputs|e].
  - split; [done|]. left. by rewrite Hlisted.
  - destruct e; (split; [done|]); try (by intros [? [=]]). right. by eauto.
Qed.
End written.

(** ** Examples *)

(** Sizes of decimal numbers, for the examples. *)
Definition demo_log10 (x : pyfloat) : pyfloat :=
  match f_ratio x with Some (p, q) => float_dec (dec_exponent p q) 0 | None => x end.
Definition demo_options : options := Options None false false None.

Definition demo_folder (results : list result) : string → option (list (path * res pyval)) := λ _,
  Some ((λ r, (rs_path r, Ok (PDict (rs_summary r)))) <$> results).

Definition demo_main (results : list result) : res (list path * option string * Z) * list artifact :=
  main demo_log10 (λ _, Ok tt) None (λ _, None) (demo_folder results) demo_options "results".

Example demo_axis_limit : axis_limit demo_log10 (float_dec 123 0) (float_dec 11 (-1)) = Ok (float_dec 150 0).
Proof. vm_compute. reflexivity. Qed.

Example demo_closed_outputs :
  (demo_main [demo_closed "results" 5 20 18 demo_samples]).1
  = Ok ([path_in "results" "closed_results.tex"; path_in "results" "resource-usage.tex";
         path_in "results" "closed_p95_latency.png"; path_in "results" "closed_completed_orders.png";
         path_in "results" "closed_nats_waiting_events.png"], None, 0%Z).
Proof. vm_compute. reflexivity. Qed.

Example demo_unsupported :
  (demo_main [Result (Path "results" "summary.json") [("workload", PStr "open"); ("business", PDict [])]]).1
  = Ok ([], Some "unsupported workload open", 1%Z).
Proof. vm_compute. reflexivity. Qed.

(** The division by zero of a repeated rate leaves the program, after the
    first three charts are drawn. *)
Example repeated_rate_escapes :
  let '(outcome, log) :=
    demo_main [demo_saturation [demo_rung 100 90 (PInt 3); demo_rung 100 90 (PInt 3); demo_rung 100 90 (PInt 7)]] in
  outcome = Raise (ZeroDivisionError "division by zero") ∧
  pt_name ∘ artifact_path <$> log = ["summary_goodput.png"; "summary_p95_latency.png"; "summary_max_pending_events.png"].
Proof. vm_compute. split; reflexivity. Qed.
